(* ===== verification/_CoqProject ===== *)
-Q . S2P
Prelude.v
Memory.v
UsbHcMem.v
UsbHcPool.v
UsbHcSpec.v
UsbHcProps.v
Fvb.v
FvbSpec.v
FvbInit.v
FvbProps.v
PciSegment.v
PciSegmentProps.v
OpteeMem.v
OpteeMemProps.v
OpteeRpc.v
OpteeClientApi.v
OpteeRpcSpec.v
OpteeRpcServe.v
OpteeRpcProps.v
Password.v
PasswordProps.v
AuthVar.v
AuthVarSpec.v
AuthVarSafe.v
AuthVarInit.v
AuthVarProps.v
OhciReg.v
Ohci.v
OhciSched.v
OhciXfer.v
OhciHub.v
OhciLists.v
OhciTree.v
OhciIntrSpec.v
OhciXferSpec.v
OhciIntrXfer.v
OhciRegSpec.v
OhciProps.v
SdMmc.v
SdMmcProtocol.v
SdMmcIo.v
SdMmcDriver.v
SdMmcKeeps.v
SdMmcCard.v
SdMmcIoSpec.v
SdMmcRpmbSpec.v
SdMmcProps.v
Mmio.v
Cru.v
Rk3399Cru.v
Rk3399CruProps.v
I2c.v
I2cSpec.v
Rtc.v
Otp.v
Mmc.v
MmcIdent.v
MmcIdentSpec.v
MmcProps.v
MmcIdentProps.v
MmcDriver.v
Gpio.v
DwMmc.v
Mshc.v
DwEmmc.v
DwSpec.v
MshcProps.v
Rk356xMemory.v
Rk3399Memory.v
Trng.v
CpuVoltage.v
