(* ===== verification/Prelude.v ===== *)
(** * Verification of the Rockchip UEFI platform firmware

    This library models parts of the EDK2 firmware for RK3399 and RK356x
    boards (sources under [src/]) as executable functions, and proves what
    makes them correct.

    ** How the code is represented

    Firmware code runs in the monad [M S A] of this file: a function from a
    state to a result and a new state, or to a [stop]: [Halt] for the dead
    loop of a failed ASSERT (only in a build where [debug_build] holds),
    [Fault] for an access through a pointer that denotes nothing, [NoFuel] for
    a loop bound chosen too small.  Words are integers with the wrapping of
    each C type written out ([u8] .. [u64]), statuses are 64-bit words with the
    top bit for errors ([EFI_ERROR]).  [wp] is total correctness, [wpe] allows
    the stops it names.  Memory.v has the byte memory with the BaseMemoryLib
    operations.  Calls that leave the repository (boot services, protocols,
    devices, the TA) are the fields of a class per component; what the proofs
    rely on is a class of laws next to it, and each component ends with a
    small instance on which its theorems are applied.

    ** The components

    - UsbHcMem.v: [Drivers/OhciDxe/UsbHcMem.c], the pool of DMA memory of the
      OHCI driver: bitmaps in linked blocks.  UsbHcPool.v has its invariant
      and the abstract allocator (live addresses with sizes), UsbHcSpec.v each
      operation against it, UsbHcProps.v the contract with a client: live
      allocations are disjoint, nothing asserts, closing returns everything.
    - Fvb.v: [Drivers/VarBlockServiceDxe] ([VarBlockService.c],
      [VarBlockServiceDxe.c], [FvbInfo.c]) and [SocGetBootDevice] of
      [SocLib.c]: the firmware volume that holds the variables, in memory and
      dumped to the boot disk.  FvbSpec.v says what a block map means and what
      each operation does in those terms, FvbInit.v treats the
      initialisation, FvbProps.v states the protocol's contract, the round
      trip through a volume and that the disk copy never lags unnoticed.
    - PciSegment.v, PciSegmentProps.v: [Rk356xPciSegmentLib], configuration
      space over three MMIO windows: hidden devices, isolation of writes, and
      the buffer transfers by widest accesses.
    - OpteeMem.v, OpteeMemProps.v: [OpteeClientApiLib/OpteeClientMem.c], the
      fenced allocator of memory shared with secure world, over the GCD
      services.
    - OpteeRpc.v: [OpteeClientSMC.c] and [OpteeClientRPC.c], the calls to the
      secure world and the requests it makes before it answers;
      OpteeClientApi.v: [OpteeClientApiLib.c] and the TPM driver library
      [Tpm2DeviceLibOptee.c] on top.  Messages are bytes in the memory of
      OpteeMem.v.  OpteeRpcSpec.v has the contract with the secure world: what
      it may ask for and write, who holds which block; OpteeRpcServe.v that
      every request is served within it and the encoding of messages,
      OpteeRpcProps.v the claims, against a secure world that allocates,
      writes and frees before it answers.
    - Password.v, PasswordProps.v: [PasswordPolicyLib] and [PasswordStoreLib]:
      acceptable passwords, hashes, authentication against the variable.
    - AuthVar.v: [AuthVarOpteeRuntimeDxe] ([AuthVarsDxe.c], [Measurement.c]),
      the variable services that send each request to a trusted application.
      AuthVarSpec.v has the wire format, the contract of the TA and each
      service under it, AuthVarSafe.v the same services against an arbitrary
      TA, AuthVarInit.v the start, AuthVarProps.v the claims.

    - OhciReg.v: [OhciReg.c], the registers; a bit field is an offset and a
      width.  Ohci.v: [OhciUrb.c] and [Descriptor.h], the endpoint and transfer
      descriptors in stores keyed by address and their linked lists.
      OhciSched.v: [OhciSched.c], the contexts of the interrupt transfers and
      the timer.  OhciXfer.v and OhciHub.v: [Ohci.c], the transfers, the root
      hub, reset and life of a controller.
      OhciLists.v has chains of EDs and queues of TDs with the ownership of
      their memory, OhciTree.v the interrupt tree the initialisation builds,
      OhciIntrSpec.v the 32 interrupt lists that share their tails and what
      attaching and freeing EDs does to them, OhciXferSpec.v the queue of a
      transfer and control and bulk transfers, OhciIntrXfer.v interrupt transfers, OhciRegSpec.v bit fields
      and the polling of a port, OhciProps.v the claims and a small controller
      they are run on.

    - SdMmc.v: the data and the command table of [MsPkg/Drivers/SdMmcDxe], with
      the host controllers and boot services as the class [Sdhc];
      SdMmcProtocol.v: [Protocol.c] and the reset of a slot, which call each
      other through the recovery from errors; SdMmcIo.v: [BlockIo.c] and
      [RpmbIo.c]; SdMmcDriver.v: [SdMmc.c], the pool of slots.  SdMmcKeeps.v
      shows what every operation preserves whatever the host does, SdMmcCard.v
      has an abstract card with its RPMB engine and the commands against it,
      SdMmcIoSpec.v and SdMmcRpmbSpec.v block transfers and RPMB requests against
      it, SdMmcProps.v the claims.

    - Mmio.v: accesses to registers as the class [Mmio]; register files
      ([RegFile]), the hardware whose registers keep what is written, some with
      a write enable for each bit.  Cru.v: [Rk356xPkg/CruLib], the
      clocks of the RK356x; Rk3399Cru.v, Rk3399CruProps.v: [Rk3399Pkg/CRULib],
      those of the RK3399, with the search for PLL divisors.
    - I2c.v: [Rk356xPkg/I2cLib]; I2cSpec.v: the controller and the devices
      on its bus, as the driver relies on them, and the transfers.  Rtc.v:
      [Hym8563RtcLib], the clock chip on that bus.
    - Mmc.v, MmcIdent.v, MmcDriver.v: [Rk3399Pkg/Drivers/MmcDxe], the MMC driver:
      block transfers, the identification of cards, the pool of hosts.  The
      hosts are the class [MmcHost].  MmcIdentSpec.v has an SD card, what it
      means that a host relays one, and the identification against it,
      MmcProps.v two small hosts and, with MmcIdentProps.v, the claims.
    - Otp.v: [OtpLib], reads of the one-time programmable memory
      and the serial number made of them.

    - Gpio.v: [Rk356xPkg/GpioLib], the pins and their functions.
    - DwMmc.v: the registers of the DesignWare SD host and what its two drivers
      share.  Mshc.v: [Rk356xPkg/MshcDxe]; DwEmmc.v: [Rk3399Pkg/DwEmmcDxe].
      DwSpec.v has a controller with its FIFO and a card behind it and the
      register level against it, MshcProps.v the operations of the host, which
      make it a host that relays a card in the sense of MmcIdentSpec.v, and
      the claims, from power-up to a first read.

    - Rk356xMemory.v: [SdramLib.c], [Rk356xMem.c] and [MemoryInitPeiLib.c], from
      the registers that describe the DRAM to the table of regions and the
      hand-off blocks; Rk3399Memory.v: [Rk3399Mem.c].  The size is that of the
      chips, and what is declared is that memory.
    - Trng.v: [TrngDxe], random numbers.  CpuVoltage.v:
      [Tsc4525CpuVoltageLib], the supply of the processor over I2c.v.

    The components meet at named places: the MMC driver is proved over any
    host that relays a card, which the SD host of the RK356x is; the OHCI driver is a client of a
    pool of descriptors ([PoolContract]), which the USB pool is written for, the variable driver is the service the password store writes
    through, the client API and the secure world's requests share the blocks
    OpteeMem manages ([tee_inv]); each is
    proved against the services it calls as a class, so that the laws of the
    class are what the other side has to provide.

    ** Bounds and fuel

    Loops that follow pointers or poll carry fuel.  The walks over the USB
    block list take as many steps as there are blocks ([walk_fuel]); the bit
    loops the bits of the map; the block-map walks at most the 8192 entries a
    16-bit header length allows; the fence loop of OpteeMem the bytes of the
    block; the search for the store device the pending handles; the OHCI lists
    as many steps as there are descriptors ([ed_fuel], [td_fuel],
    [entry_fuel]), the data stage a step per packet ([packets]), a transfer
    [TimeOut] + 1 polls; a call to the secure world one step for each request
    it can still make ([rpcs_left]); recovery from errors on a card one level more than
    the driver's threshold ([RECOVERY_LEVELS]), a block transfer a step per
    block; an I2C event or a word of the OTP memory the
    100,000 polls of the code.  Three loops the code leaves to the hardware (a
    memory pointer that must read back, the first start of frame, the lock of
    a PLL of the RK3399) take [verify_bound] or [lock_patience] steps, a
    parameter of the hardware; the SD hosts wait [patience] polls for a
    controller that takes at most [slow] of them, and read as many rounds as
    there are words.  The
    theorems about these operations conclude with a result, or with a stop
    other than [NoFuel], so the fuel is enough.

    ** What is not modelled

    Within the components: the debugging helpers of AuthVarsDxe.c that no
    service calls, the registration of the OHCI controllers at the end of DXE,
    and DEBUG output everywhere.  The OHCI controller works on the descriptors
    while the driver stalls, not between any two of its instructions, and the
    timer does not interrupt a transfer.  Of the rest of the firmware,
    the register sequences that only write constants, the user interfaces over
    third-party libraries, test applications and constant tables have no
    behaviour to state; the boot policy and the board and display drivers are
    not modelled.  Of the firmware TPM driver, the control area
    at a fixed address and the registration of the exit handler are left
    out. *)

From Stdlib Require Import ZArith Lia.
From stdpp Require Import base list numbers option.

#[global] Open Scope Z_scope.

(** Lemmas that close the routine goals of the components. *)
Create HintDb firmware.

(** ** Machine words

    A [w]-bit unsigned integer is a [Z]; each cast or arithmetic result is
    wrapped explicitly, as C does for [UINT8] .. [UINT64] and [UINTN]
    (64 bits on AArch64). *)

Definition wrap (w z : Z) : Z := z mod 2 ^ w.

Abbreviation u8 := (wrap 8).
Abbreviation u16 := (wrap 16).
Abbreviation u32 := (wrap 32).
Abbreviation u64 := (wrap 64).

(** [in_word w z]: [z] is representable in [w] bits. *)
Definition in_word (w z : Z) : Prop := 0 <= z < 2 ^ w.

Lemma wrap_range w z : 0 <= w -> in_word w (wrap w z).
Proof. intros Hw. apply Z.mod_pos_bound. by apply Z.pow_pos_nonneg. Qed.

Lemma wrap_small w z : in_word w z -> wrap w z = z.
Proof. apply Z.mod_small. Qed.

Lemma wrap_wrap w z : 0 <= w -> wrap w (wrap w z) = wrap w z.
Proof. intros Hw. by apply wrap_small, wrap_range. Qed.

Lemma wrap_land_ones w z : 0 <= w -> wrap w z = Z.land z (Z.ones w).
Proof. intros Hw. by rewrite Z.land_ones. Qed.

Lemma wrap_testbit w z i :
  0 <= w -> 0 <= i -> Z.testbit (wrap w z) i = (i <? w) && Z.testbit z i.
Proof.
  intros Hw Hi. unfold wrap. destruct (Z.ltb_spec i w).
  - by rewrite Z.mod_pow2_bits_low by lia.
  - by rewrite Z.mod_pow2_bits_high by lia.
Qed.

(** Masking with a mask that clears the [k] low bits of a [w]-bit word. *)
Lemma land_high_mask w k a :
  0 <= k <= w -> in_word w a -> Z.land a (2 ^ w - 2 ^ k) = 2 ^ k * (a / 2 ^ k).
Proof.
  intros Hk Ha. replace (2 ^ w - 2 ^ k) with (Z.shiftl (Z.ones (w - k)) k).
  2: { rewrite Z.shiftl_mul_pow2, Z.ones_equiv, Z.mul_pred_l, <- Z.pow_add_r by lia.
       f_equal. f_equal. lia. }
  rewrite (Z.mul_comm (2 ^ k)), <- Z.shiftl_mul_pow2, <- Z.shiftr_div_pow2 by lia.
  apply Z.bits_inj'. intros i Hi. rewrite Z.land_spec.
  destruct (Z.ltb_spec i k); [by rewrite !Z.shiftl_spec_low, andb_false_r|].
  rewrite !Z.shiftl_spec_high, Z.shiftr_spec by lia. replace (i - k + k) with i by lia.
  destruct (Z.ltb_spec (i - k) (w - k)).
  - by rewrite Z.ones_spec_low, andb_true_r by lia.
  - rewrite Z.ones_spec_high, andb_false_r by lia. symmetry.
    rewrite <- (Z.mod_small a (2 ^ w)) by done. apply Z.mod_pow2_bits_high. lia.
Qed.

(** ** Lists *)

(** Overwriting the middle of a list. *)
Lemma inserts_mid {A} (b b' : list A) : forall a c, length b' = length b ->
  list_inserts (length a) b' (a ++ b ++ c) = a ++ b' ++ c.
Proof.
  revert b. induction b' as [|x b' IH]; intros [|y b] a c Hl; try done. cbn [list_inserts].
  replace (a ++ (y :: b) ++ c) with ((a ++ [y]) ++ b ++ c) by (by rewrite <- app_assoc).
  replace (S (length a)) with (length (a ++ [y])) by (rewrite length_app; simpl; lia).
  rewrite IH by (simpl in Hl; lia). rewrite <- app_assoc. simpl. rewrite insert_app_r_alt by lia.
  by rewrite Nat.sub_diag.
Qed.

(** ** [EFI_STATUS]

    Status codes are 64-bit words; errors have the top bit set
    (UEFI specification, appendix D). *)

Definition ENCODE_ERROR (n : Z) : Z := 2 ^ 63 + n.

Definition EFI_SUCCESS : Z := 0.
Definition EFI_INVALID_PARAMETER : Z := ENCODE_ERROR 2.
Definition EFI_UNSUPPORTED : Z := ENCODE_ERROR 3.
Definition EFI_BAD_BUFFER_SIZE : Z := ENCODE_ERROR 4.
Definition EFI_BUFFER_TOO_SMALL : Z := ENCODE_ERROR 5.
Definition EFI_NOT_READY : Z := ENCODE_ERROR 6.
Definition EFI_DEVICE_ERROR : Z := ENCODE_ERROR 7.
Definition EFI_OUT_OF_RESOURCES : Z := ENCODE_ERROR 9.
Definition EFI_VOLUME_CORRUPTED : Z := ENCODE_ERROR 10.
Definition EFI_NOT_FOUND : Z := ENCODE_ERROR 14.
Definition EFI_ACCESS_DENIED : Z := ENCODE_ERROR 15.
Definition EFI_ABORTED : Z := ENCODE_ERROR 21.
Definition EFI_PROTOCOL_ERROR : Z := ENCODE_ERROR 24.
Definition EFI_SECURITY_VIOLATION : Z := ENCODE_ERROR 26.

(** The [EFI_ERROR] macro: the status, read as a signed word, is negative. *)
Definition EFI_ERROR (s : Z) : bool := 2 ^ 63 <=? s.

(** ** Outcomes

    A run of firmware code returns a value and a state, or stops: [Halt] is
    the dead loop of a failed [ASSERT], [Fault] an access through a pointer
    that denotes no object, [NoFuel] marks a loop bound chosen too small
    (theorems show it is not reached). *)

Inductive stop := Halt | Fault | NoFuel.

Inductive outcome (S A : Type) : Type :=
| Ret (a : A) (s : S)
| Stop (why : stop).
Arguments Ret {S A} _ _.
Arguments Stop {S A} _.

#[export] Instance stop_eq_dec : EqDecision stop.
Proof. solve_decision. Defined.

(** The effect monad: explicit state passing that may stop. *)
Definition M (S A : Type) : Type := S -> outcome S A.

#[export] Instance M_ret (S : Type) : MRet (M S) := fun _ a s => Ret a s.
#[export] Instance M_bind (S : Type) : MBind (M S) :=
  fun _ _ k c s => match c s with Ret a s' => k a s' | Stop w => Stop w end.

Definition gets {S A} (f : S -> A) : M S A := fun s => Ret (f s) s.
Definition modify {S} (f : S -> S) : M S unit := fun s => Ret tt (f s).
Definition stopM {S A} (w : stop) : M S A := fun _ => Stop w.

(** [zoom get set c] runs [c] on a component of the state. *)
Definition zoom {S T A} (get : S -> T) (set : T -> S -> S) (c : M T A) : M S A :=
  fun s => match c (get s) with Ret a t => Ret a (set t s) | Stop w => Stop w end.

(** [ASSERT] is compiled in for debug builds only. *)
Class Build := { debug_build : bool }.

Definition ASSERT {B : Build} {S} (b : bool) : M S unit :=
  if b then mret tt else if debug_build then stopM Halt else mret tt.

(** Inspecting a run. *)
Definition returned {S A} (o : outcome S A) : bool :=
  match o with Ret _ _ => true | Stop _ => false end.
Definition final {S A} (d : S) (o : outcome S A) : S :=
  match o with Ret _ s => s | Stop _ => d end.

Lemma returned_final {S} (d : S) (o : outcome S unit) :
  returned o = true -> o = Ret tt (final d o).
Proof. by destruct o as [[] s|]. Qed.

(** ** Weakest preconditions (total correctness) *)

Definition wp {S A} (c : M S A) (s : S) (Q : A -> S -> Prop) : Prop :=
  match c s with Ret a s' => Q a s' | Stop _ => False end.

Section wp_rules.
Context {S : Type}.
Implicit Types s : S.

Lemma wp_ret {A} (a : A) s (Q : A -> S -> Prop) : Q a s -> wp (mret a) s Q.
Proof. done. Qed.

Lemma wp_bind {A B} (c : M S A) (k : A -> M S B) s Q :
  wp c s (fun a s' => wp (k a) s' Q) -> wp (mbind k c) s Q.
Proof. unfold wp, mbind, M_bind. by destruct (c s). Qed.

Lemma wp_bind_inv {A B} (c : M S A) (k : A -> M S B) s Q :
  wp (mbind k c) s Q -> wp c s (fun a s' => wp (k a) s' Q).
Proof. unfold wp, mbind, M_bind. by destruct (c s). Qed.

Lemma wp_gets {A} (f : S -> A) s (Q : A -> S -> Prop) :
  Q (f s) s -> wp (gets f) s Q.
Proof. done. Qed.

Lemma wp_modify (f : S -> S) s (Q : unit -> S -> Prop) :
  Q tt (f s) -> wp (modify f) s Q.
Proof. done. Qed.

Lemma wp_ASSERT {B : Build} b s (Q : unit -> S -> Prop) :
  b = true -> Q tt s -> wp (ASSERT b) s Q.
Proof. by intros ->. Qed.

Lemma wp_mono {A} (c : M S A) s (Q R : A -> S -> Prop) :
  wp c s Q -> (forall a s', Q a s' -> R a s') -> wp c s R.
Proof. unfold wp. destruct (c s); naive_solver. Qed.

Lemma wp_Ret {A} (c : M S A) s (Q : A -> S -> Prop) a s' :
  c s = Ret a s' -> wp c s Q -> Q a s'.
Proof. unfold wp. by intros ->. Qed.

Lemma wp_returns {A} (c : M S A) s (Q : A -> S -> Prop) :
  wp c s Q -> exists a s', c s = Ret a s' /\ Q a s'.
Proof. unfold wp. destruct (c s); naive_solver. Qed.

Lemma returns_wp {A} (c : M S A) s (Q : A -> S -> Prop) a s' :
  c s = Ret a s' -> Q a s' -> wp c s Q.
Proof. unfold wp. by intros ->. Qed.

Lemma bind_Ret {A B} (c : M S A) (k : A -> M S B) s a s' :
  c s = Ret a s' -> mbind k c s = k a s'.
Proof. unfold mbind, M_bind. by intros ->. Qed.

Lemma bind_modify {B} (f : S -> S) (k : unit -> M S B) s : mbind k (modify f) s = k tt (f s).
Proof. done. Qed.

Lemma bind_gets {A B} (f : S -> A) (k : A -> M S B) s : mbind k (gets f) s = k (f s) s.
Proof. done. Qed.
End wp_rules.

Lemma wp_zoom {S T A} (get : S -> T) (set : T -> S -> S) (c : M T A) s Q :
  wp c (get s) (fun a t => Q a (set t s)) -> wp (zoom get set c) s Q.
Proof. unfold wp, zoom. by destruct (c (get s)). Qed.

(** ** Preconditions with permitted stops

    [wpe E c s Q]: [c] returns with [Q], or stops for a reason in [E]. *)

Definition wpe {S A} (E : stop -> Prop) (c : M S A) (s : S) (Q : A -> S -> Prop) : Prop :=
  match c s with Ret a s' => Q a s' | Stop w => E w end.

(** The loop bounds suffice: anything but running out of fuel. *)
Definition fuel_ok (w : stop) : Prop := w <> NoFuel.

Section wpe_rules.
Context {S : Type} (E : stop -> Prop).
Implicit Types s : S.

Lemma wpe_ret {A} (a : A) s (Q : A -> S -> Prop) : Q a s -> wpe E (mret a) s Q.
Proof. done. Qed.

Lemma wpe_bind {A B} (c : M S A) (k : A -> M S B) s Q :
  wpe E c s (fun a s' => wpe E (k a) s' Q) -> wpe E (mbind k c) s Q.
Proof. unfold wpe, mbind, M_bind. by destruct (c s). Qed.

Lemma wpe_gets {A} (f : S -> A) s (Q : A -> S -> Prop) : Q (f s) s -> wpe E (gets f) s Q.
Proof. done. Qed.

Lemma wpe_modify (f : S -> S) s (Q : unit -> S -> Prop) : Q tt (f s) -> wpe E (modify f) s Q.
Proof. done. Qed.

Lemma wpe_stop {A} w s (Q : A -> S -> Prop) : E w -> wpe E (stopM w) s Q.
Proof. done. Qed.

Lemma wpe_ASSERT {B : Build} b s (Q : unit -> S -> Prop) : E Halt -> Q tt s -> wpe E (ASSERT b) s Q.
Proof. intros HE HQ. unfold wpe, ASSERT. by destruct b; [|destruct debug_build]. Qed.

Lemma wpe_mono {A} (c : M S A) s (Q R : A -> S -> Prop) :
  wpe E c s Q -> (forall a s', Q a s' -> R a s') -> wpe E c s R.
Proof. unfold wpe. destruct (c s); auto. Qed.

Lemma wpe_Ret {A} (c : M S A) s (Q : A -> S -> Prop) a s' :
  c s = Ret a s' -> wpe E c s Q -> Q a s'.
Proof. unfold wpe. by intros ->. Qed.

Lemma wpe_cases {A} (c : M S A) s (Q : A -> S -> Prop) : wpe E c s Q ->
  (exists a s', c s = Ret a s' /\ Q a s') \/ (exists w, c s = Stop w /\ E w).
Proof. unfold wpe. destruct (c s); eauto. Qed.
End wpe_rules.

Lemma wp_wpe {S A} (E : stop -> Prop) (c : M S A) s (Q : A -> S -> Prop) : wp c s Q -> wpe E c s Q.
Proof. unfold wp, wpe. by destruct (c s). Qed.

Lemma wpe_zoom {S T A} (E : stop -> Prop) (get : S -> T) (set : T -> S -> S) (c : M T A) s Q :
  wpe E c (get s) (fun a t => Q a (set t s)) -> wpe E (zoom get set c) s Q.
Proof. unfold wpe, zoom. by destruct (c (get s)). Qed.

Ltac wpe_go :=
  repeat (lazymatch goal with
  | |- wpe _ (mbind _ _) _ _ => apply wpe_bind
  | |- wpe _ (mret _) _ _ => apply wpe_ret
  | |- wpe _ (gets _) _ _ => apply wpe_gets
  | |- wpe _ (modify _) _ _ => apply wpe_modify
  | |- wpe _ (ASSERT _) _ _ => apply wpe_ASSERT; [discriminate|]
  end; cbn beta iota).

(** [wp_go] walks through straight-line code and settled NULL tests; it stops at
    other tests and at calls. *)
Ltac wp_go :=
  repeat (lazymatch goal with
  | |- wp (mbind _ _) _ _ => apply wp_bind
  | |- wp (mret _) _ _ => apply wp_ret
  | |- wp (gets _) _ _ => apply wp_gets
  | |- wp (modify _) _ _ => apply wp_modify
  | |- wp (if ?x =? ?x then _ else _) _ _ => rewrite (Z.eqb_refl x)
  | H : ?x <> ?y |- wp (if ?x =? ?y then _ else _) _ _ => rewrite (proj2 (Z.eqb_neq x y) H)
  end; cbn beta iota).

(** Case analysis on the boolean test of an [if] in the goal. *)
Ltac case_if name :=
  lazymatch goal with
  | |- context [if ?b then _ else _] => destruct b eqn:name
  end.
