(* ===== verification/Memory.v ===== *)
(** * Byte-addressed memory

    Memory shared by the firmware components: a map from addresses to bytes,
    with the [BaseMemoryLib] block operations ([CopyMem], [SetMem],
    [ZeroMem]) and little-endian loads.  Two memories that hold the same
    bytes are equal in the sense of [mem_eq], the equality every operation
    respects. *)

From Stdlib Require Import ZArith Lia.
From stdpp Require Import base list numbers.
From S2P Require Import Prelude.

(** ** Little-endian encodings *)

Fixpoint le_val (bs : list Z) : Z :=
  match bs with
  | [] => 0
  | b :: bs => b + 256 * le_val bs
  end.

Fixpoint le_bytes (n : nat) (z : Z) : list Z :=
  match n with
  | O => []
  | S n => z mod 256 :: le_bytes n (z / 256)
  end.

Definition is_byte (b : Z) : Prop := in_word 8 b.

(** ** Memory *)

Definition mem : Type := Z -> Z.

Definition in_range (a n x : Z) : bool := (a <=? x) && (x <? a + n).

(** [CopyMem] into memory from a buffer. *)
Definition write_bytes (m : mem) (a : Z) (bs : list Z) : mem :=
  fun x => if in_range a (Z.of_nat (length bs)) x
           then nth (Z.to_nat (x - a)) bs 0 else m x.

(** [SetMem]; [ZeroMem] is [fill_bytes m a n 0]. *)
Definition fill_bytes (m : mem) (a n v : Z) : mem :=
  fun x => if in_range a n x then v else m x.

(** The [n] bytes at [a]. *)
Definition read_bytes (m : mem) (a n : Z) : list Z :=
  (fun i => m (a + i)) <$> seqZ 0 n.

Definition load (n : Z) (m : mem) (a : Z) : Z := le_val (read_bytes m a n).

Definition mem_eq (m1 m2 : mem) : Prop := forall x, m1 x = m2 x.

(** [only_changes a n m m']: [m'] agrees with [m] outside the [n] bytes at [a]. *)
Definition only_changes (a n : Z) (m m' : mem) : Prop :=
  forall x, in_range a n x = false -> m' x = m x.

(** ** Lemmas *)

#[export] Instance mem_eq_equiv : Equivalence mem_eq.
Proof.
  split; [done | intros m1 m2 H x; by rewrite H |].
  intros m1 m2 m3 H1 H2 x. by rewrite H1, H2.
Qed.

#[export] Instance write_bytes_proper :
  Proper (mem_eq ==> eq ==> eq ==> mem_eq) write_bytes.
Proof. intros m1 m2 H a ? <- bs ? <- x. unfold write_bytes. by rewrite H. Qed.

#[export] Instance fill_bytes_proper :
  Proper (mem_eq ==> eq ==> eq ==> eq ==> mem_eq) fill_bytes.
Proof. intros m1 m2 H a ? <- n ? <- v ? <- x. unfold fill_bytes. by rewrite H. Qed.

#[export] Instance read_bytes_proper :
  Proper (mem_eq ==> eq ==> eq ==> eq) read_bytes.
Proof.
  intros m1 m2 H a ? <- n ? <-. unfold read_bytes.
  apply list_fmap_ext. intros i x _. apply H.
Qed.

#[export] Instance load_proper n : Proper (mem_eq ==> eq ==> eq) (load n).
Proof. intros m1 m2 H a ? <-. unfold load. by rewrite H. Qed.

Lemma in_range_spec a n x : in_range a n x = true <-> a <= x < a + n.
Proof. unfold in_range. rewrite andb_true_iff, Z.leb_le, Z.ltb_lt. lia. Qed.

Lemma in_range_false a n x : in_range a n x = false <-> ~ a <= x < a + n.
Proof. rewrite <- in_range_spec. by destruct (in_range a n x). Qed.

Lemma in_range_succ a n x :
  0 <= n -> in_range a (n + 1) x = (x =? a) || in_range (a + 1) n x.
Proof.
  intros Hn. apply eq_true_iff_eq. rewrite orb_true_iff, !in_range_spec, Z.eqb_eq. lia.
Qed.

Lemma length_read_bytes m a n : length (read_bytes m a n) = Z.to_nat n.
Proof. unfold read_bytes. by rewrite length_fmap, length_seqZ. Qed.

Lemma lookup_read_bytes m a n i :
  (i < Z.to_nat n)%nat -> read_bytes m a n !! i = Some (m (a + Z.of_nat i)).
Proof.
  intros Hi. unfold read_bytes. rewrite list_lookup_fmap, lookup_seqZ_lt by lia.
  simpl. by rewrite Z.add_0_l.
Qed.

Lemma lookup_read_bytes_Some m a n i b :
  read_bytes m a n !! i = Some b <-> (i < Z.to_nat n)%nat /\ b = m (a + Z.of_nat i).
Proof.
  split.
  - intros H. assert (Hi : (i < Z.to_nat n)%nat).
    { apply lookup_lt_Some in H. by rewrite length_read_bytes in H. }
    rewrite lookup_read_bytes in H by done. split; [done | congruence].
  - intros [Hi ->]. by apply lookup_read_bytes.
Qed.

(** Reading depends only on the bytes in range. *)
Lemma read_bytes_ext m1 m2 a1 a2 n :
  (forall i, 0 <= i < n -> m1 (a1 + i) = m2 (a2 + i)) ->
  read_bytes m1 a1 n = read_bytes m2 a2 n.
Proof.
  intros H. unfold read_bytes. apply list_fmap_ext.
  intros i x Hx. apply lookup_seqZ in Hx. apply H. lia.
Qed.

Lemma write_bytes_in m a bs i b :
  bs !! i = Some b -> write_bytes m a bs (a + Z.of_nat i) = b.
Proof.
  intros Hi. pose proof (lookup_lt_Some _ _ _ Hi) as Hlt. unfold write_bytes.
  rewrite (proj2 (in_range_spec _ _ _)) by lia.
  replace (Z.to_nat (a + Z.of_nat i - a)) with i by lia.
  by apply nth_lookup_Some.
Qed.

Lemma write_bytes_out m a bs x :
  ~ a <= x < a + Z.of_nat (length bs) -> write_bytes m a bs x = m x.
Proof. intros H. unfold write_bytes. by rewrite (proj2 (in_range_false _ _ _)). Qed.

Lemma fill_bytes_in m a n v x : a <= x < a + n -> fill_bytes m a n v x = v.
Proof. intros H. unfold fill_bytes. by rewrite (proj2 (in_range_spec _ _ _)). Qed.

Lemma fill_bytes_out m a n v x : ~ a <= x < a + n -> fill_bytes m a n v x = m x.
Proof. intros H. unfold fill_bytes. by rewrite (proj2 (in_range_false _ _ _)). Qed.

(** A write read back. *)
Lemma read_write_same m a bs :
  read_bytes (write_bytes m a bs) a (Z.of_nat (length bs)) = bs.
Proof.
  apply list_eq. intros i. destruct (bs !! i) as [b|] eqn:E.
  - rewrite lookup_read_bytes by (apply lookup_lt_Some in E; lia).
    by rewrite (write_bytes_in _ _ _ _ _ E).
  - apply lookup_ge_None in E. apply lookup_ge_None. rewrite length_read_bytes. lia.
Qed.

Lemma read_write_disjoint m a bs b n :
  b + n <= a \/ a + Z.of_nat (length bs) <= b ->
  read_bytes (write_bytes m a bs) b n = read_bytes m b n.
Proof. intros H. apply read_bytes_ext. intros i Hi. apply write_bytes_out. lia. Qed.

Lemma read_fill_disjoint m a k v b n :
  b + n <= a \/ a + k <= b ->
  read_bytes (fill_bytes m a k v) b n = read_bytes m b n.
Proof. intros H. apply read_bytes_ext. intros i Hi. apply fill_bytes_out. lia. Qed.

Lemma read_fill_inside m a k v b n :
  a <= b -> b + n <= a + k -> read_bytes (fill_bytes m a k v) b n = replicate (Z.to_nat n) v.
Proof.
  intros H1 H2. apply list_eq. intros i.
  destruct (decide (i < Z.to_nat n)%nat) as [Hi|Hi].
  - rewrite lookup_read_bytes, lookup_replicate_2 by done.
    f_equal. apply fill_bytes_in. lia.
  - rewrite !(proj2 (lookup_ge_None _ _)); [done | rewrite length_replicate; lia |].
    rewrite length_read_bytes. lia.
Qed.

(** Adjacent writes. *)
Lemma write_bytes_app m x bs1 bs2 :
  mem_eq (write_bytes (write_bytes m x bs1) (x + Z.of_nat (length bs1)) bs2) (write_bytes m x (bs1 ++ bs2)).
Proof.
  intros y. unfold write_bytes. rewrite length_app, Nat2Z.inj_add.
  destruct (in_range (x + Z.of_nat (length bs1)) _ y) eqn:E1.
  - apply in_range_spec in E1. rewrite (proj2 (in_range_spec x _ y)) by lia.
    rewrite app_nth2 by lia. f_equal. lia.
  - apply in_range_false in E1. destruct (in_range x (Z.of_nat (length bs1)) y) eqn:E2.
    + apply in_range_spec in E2. rewrite (proj2 (in_range_spec x _ y)) by lia.
      by rewrite app_nth1 by lia.
    + apply in_range_false in E2. by rewrite (proj2 (in_range_false x _ y)) by lia.
Qed.

Lemma only_changes_refl a n m : only_changes a n m m.
Proof. done. Qed.

Lemma only_changes_write m a bs b n :
  b <= a -> a + Z.of_nat (length bs) <= b + n -> only_changes b n m (write_bytes m a bs).
Proof.
  intros H1 H2 x Hx. apply in_range_false in Hx. apply write_bytes_out. lia.
Qed.

Lemma only_changes_fill m a k v b n :
  b <= a -> a + k <= b + n -> only_changes b n m (fill_bytes m a k v).
Proof. intros H1 H2 x Hx. apply in_range_false in Hx. apply fill_bytes_out. lia. Qed.

Lemma only_changes_trans a n m1 m2 m3 :
  only_changes a n m1 m2 -> only_changes a n m2 m3 -> only_changes a n m1 m3.
Proof. intros H1 H2 x Hx. by rewrite H2, H1. Qed.

Lemma only_changes_read a n m m' b k :
  only_changes a n m m' -> b + k <= a \/ a + n <= b -> read_bytes m' b k = read_bytes m b k.
Proof.
  intros H Hd. apply read_bytes_ext. intros i Hi. apply H, in_range_false. lia.
Qed.

(** Splitting a read. *)
Lemma read_bytes_app m a n k :
  0 <= n -> 0 <= k -> read_bytes m a (n + k) = read_bytes m a n ++ read_bytes m (a + n) k.
Proof.
  intros Hn Hk. unfold read_bytes. rewrite seqZ_app, fmap_app by lia. f_equal.
  rewrite Z.add_0_l, <- (Z.add_0_r n) at 1. rewrite <- fmap_add_seqZ, <- list_fmap_compose.
  apply list_fmap_ext. intros i x _. simpl. f_equal. lia.
Qed.

Lemma length_le_bytes n z : length (le_bytes n z) = n.
Proof. revert z. induction n; intros; simpl; auto. Qed.

Lemma le_val_le_bytes n z : le_val (le_bytes n z) = z mod 256 ^ Z.of_nat n.
Proof.
  revert z. induction n as [|n IH]; intros z.
  - simpl. by rewrite Z.mod_1_r.
  - cbn [le_bytes le_val]. rewrite IH, Nat2Z.inj_succ, Z.pow_succ_r by lia.
    rewrite Z.rem_mul_r by (try lia; apply Z.pow_nonzero; lia). lia.
Qed.

Lemma le_bytes_bytes n z : Forall is_byte (le_bytes n z).
Proof.
  revert z. induction n as [|n IH]; intros z; simpl; constructor; auto.
  apply Z.mod_pos_bound. lia.
Qed.

Lemma le_val_range bs :
  Forall is_byte bs -> 0 <= le_val bs < 256 ^ Z.of_nat (length bs).
Proof.
  induction 1 as [|b bs Hb Hbs IH]; [simpl; lia|].
  cbn [le_val length]. rewrite Nat2Z.inj_succ, Z.pow_succ_r by lia.
  unfold is_byte, in_word in Hb. lia.
Qed.

Lemma le_bytes_le_val bs : Forall is_byte bs -> le_bytes (length bs) (le_val bs) = bs.
Proof.
  induction 1 as [|b bs Hb Hbs IH]; [done|]. cbn [le_val length le_bytes].
  unfold is_byte, in_word in Hb. change (2 ^ 8) with 256 in Hb.
  rewrite Z.mul_comm, Z_mod_plus_full, Z.mod_small, Z.div_add, Z.div_small, Z.add_0_l by lia.
  by rewrite IH.
Qed.

Lemma le_val_app bs1 bs2 :
  le_val (bs1 ++ bs2) = le_val bs1 + 256 ^ Z.of_nat (length bs1) * le_val bs2.
Proof.
  induction bs1 as [|b bs1 IH]; [simpl; lia|].
  cbn [app le_val length]. rewrite IH, Nat2Z.inj_succ, Z.pow_succ_r by lia. lia.
Qed.

Definition mem_bytes (m : mem) : Prop := forall x, is_byte (m x).

Lemma read_bytes_is_byte m a n : mem_bytes m -> Forall is_byte (read_bytes m a n).
Proof.
  intros Hm. apply Forall_lookup. intros i b Hi.
  apply lookup_read_bytes_Some in Hi as [_ ->]. apply Hm.
Qed.

Lemma write_bytes_mem_bytes m a bs :
  mem_bytes m -> Forall is_byte bs -> mem_bytes (write_bytes m a bs).
Proof.
  intros Hm Hbs x. unfold write_bytes.
  destruct (in_range _ _ _) eqn:E; [|done]. apply in_range_spec in E.
  destruct (bs !! Z.to_nat (x - a)) as [b|] eqn:Hb.
  - rewrite (nth_lookup_Some _ _ _ _ Hb). by apply (Forall_lookup_1 _ _ _ _ Hbs Hb).
  - apply lookup_ge_None in Hb. lia.
Qed.

Lemma fill_bytes_mem_bytes m a n v : mem_bytes m -> is_byte v -> mem_bytes (fill_bytes m a n v).
Proof. intros Hm Hv x. unfold fill_bytes. by destruct (in_range _ _ _). Qed.

Lemma load_range n m a :
  0 <= n -> mem_bytes m -> 0 <= load n m a < 256 ^ n.
Proof.
  intros Hn Hm. unfold load.
  pose proof (le_val_range _ (read_bytes_is_byte m a n Hm)) as H.
  by rewrite length_read_bytes, Z2Nat.id in H.
Qed.

(** Loads after stores. *)
Lemma load_write_same n m a z : in_word (8 * Z.of_nat n) z ->
  load (Z.of_nat n) (write_bytes m a (le_bytes n z)) a = z.
Proof.
  intros Hz. unfold load. pose proof (read_write_same m a (le_bytes n z)) as H.
  rewrite length_le_bytes in H. rewrite H, le_val_le_bytes. apply Z.mod_small.
  change 256 with (2 ^ 8). by rewrite <- Z.pow_mul_r by lia.
Qed.

Lemma load_write_disjoint n m a bs b :
  b + n <= a \/ a + Z.of_nat (length bs) <= b -> load n (write_bytes m a bs) b = load n m b.
Proof. intros H. unfold load. by rewrite read_write_disjoint. Qed.

Lemma load_ext n m1 m2 a :
  (forall x, a <= x < a + n -> m1 x = m2 x) -> load n m1 a = load n m2 a.
Proof. intros H. unfold load. f_equal. apply read_bytes_ext. intros i Hi. apply H. lia. Qed.

(** The bytes of a CHAR16 string. *)
Definition char16_bytes (s : list Z) : list Z := mjoin (le_bytes 2 <$> s).

Lemma length_char16_bytes s : length (char16_bytes s) = (2 * length s)%nat.
Proof.
  unfold char16_bytes. induction s as [|c s IH]; [done|].
  change (length (le_bytes 2 c ++ mjoin (le_bytes 2 <$> s)) = (2 * length (c :: s))%nat).
  rewrite length_app, length_le_bytes, IH. simpl. lia.
Qed.

#[export] Hint Resolve only_changes_refl length_read_bytes le_bytes_bytes
  read_bytes_is_byte write_bytes_mem_bytes fill_bytes_mem_bytes : firmware.
