(* ===== verification/UsbHcMem.v ===== *)
(** * USB host controller memory pool

    Model of [Silicon/Rockchip/Rk356xPkg/Drivers/OhciDxe/UsbHcMem.c]: a pool of
    DMA memory for the OHCI driver.  The pool is a singly linked list of
    blocks; each block owns a DMA buffer and a bit array with one bit per
    64-byte unit.  Blocks live in a store keyed by address, so the list is
    the [Next] pointers the code follows and rewrites. *)

From Stdlib Require Import ZArith Lia.
From stdpp Require Import base list numbers gmap.
From S2P Require Import Prelude Memory.

(** ** Data *)

Record USBHC_MEM_BLOCK := {
  Bits : list Z;        (* contents of the bit array *)
  BitsPtr : Z;          (* its address *)
  BitsLen : Z;
  Buf : Z;              (* bus address of the buffer *)
  BufHost : Z;          (* host address of the buffer *)
  BufLen : Z;
  Mapping : Z;
  Next : Z
}.

Definition zero_block : USBHC_MEM_BLOCK :=
  {| Bits := []; BitsPtr := 0; BitsLen := 0; Buf := 0; BufHost := 0;
     BufLen := 0; Mapping := 0; Next := 0 |}.

Definition set_Bits (bs : list Z) (b : USBHC_MEM_BLOCK) : USBHC_MEM_BLOCK :=
  {| Bits := bs; BitsPtr := BitsPtr b; BitsLen := BitsLen b; Buf := Buf b;
     BufHost := BufHost b; BufLen := BufLen b; Mapping := Mapping b; Next := Next b |}.

Definition set_BitArray (bs : list Z) (ptr len : Z) (b : USBHC_MEM_BLOCK) : USBHC_MEM_BLOCK :=
  {| Bits := bs; BitsPtr := ptr; BitsLen := len; Buf := Buf b;
     BufHost := BufHost b; BufLen := BufLen b; Mapping := Mapping b; Next := Next b |}.

Definition set_BufLen (n : Z) (b : USBHC_MEM_BLOCK) : USBHC_MEM_BLOCK :=
  {| Bits := Bits b; BitsPtr := BitsPtr b; BitsLen := BitsLen b; Buf := Buf b;
     BufHost := BufHost b; BufLen := n; Mapping := Mapping b; Next := Next b |}.

Definition set_Buffer (host bus mapping : Z) (b : USBHC_MEM_BLOCK) : USBHC_MEM_BLOCK :=
  {| Bits := Bits b; BitsPtr := BitsPtr b; BitsLen := BitsLen b; Buf := bus;
     BufHost := host; BufLen := BufLen b; Mapping := mapping; Next := Next b |}.

Definition set_Next (n : Z) (b : USBHC_MEM_BLOCK) : USBHC_MEM_BLOCK :=
  {| Bits := Bits b; BitsPtr := BitsPtr b; BitsLen := BitsLen b; Buf := Buf b;
     BufHost := BufHost b; BufLen := BufLen b; Mapping := Mapping b; Next := n |}.

Record USBHC_MEM_POOL := {
  pool_addr : Z;        (* where the pool object was allocated *)
  Check4G : bool;
  Which4G : Z;
  Head : Z
}.

Definition USBHC_MEM_UNIT : Z := 64.
Definition USBHC_MEM_UNIT_MASK : Z := USBHC_MEM_UNIT - 1.
Definition USBHC_MEM_DEFAULT_PAGES : Z := 16.
Definition EFI_PAGE_SIZE : Z := 4096.
Definition EFI_PAGE_SHIFT : Z := 12.

Definition USBHC_MEM_ROUND (Len : Z) : Z :=
  Z.land (u64 (Len + USBHC_MEM_UNIT_MASK)) (u64 (Z.lnot USBHC_MEM_UNIT_MASK)).

Definition USB_HC_BIT (a : Z) : Z := Z.shiftl 1 a.
Definition USB_HC_BIT_IS_SET (Data Bit : Z) : bool :=
  Z.land Data (USB_HC_BIT Bit) =? USB_HC_BIT Bit.

Definition USB_HC_HIGH_32BIT (Addr64 : Z) : Z := u32 (Z.land (Z.shiftr Addr64 32) 0xFFFFFFFF).

(** [NEXT_BIT]: the counters are bounded by the loop guards that use them. *)
Definition NEXT_BIT (p : Z * Z) : Z * Z :=
  let '(Byte, Bit) := p in if 7 <? Bit + 1 then (Byte + 1, 0) else (Byte, Bit + 1).

Definition EFI_PAGES_TO_SIZE (Pages : Z) : Z := u64 (Z.shiftl Pages EFI_PAGE_SHIFT).
Definition EFI_SIZE_TO_PAGES (Size : Z) : Z :=
  u64 (Z.shiftr Size EFI_PAGE_SHIFT +
       if Z.land Size (EFI_PAGE_SIZE - 1) =? 0 then 0 else 1).

(** ** The services the pool is built on

    Pool allocation and DMA mapping belong to the platform.  The operations
    are an interface; its laws, stated below the code, say what the services
    document. *)

Record dma_mapping := { map_status : Z; map_bytes : Z; map_bus : Z; map_handle : Z }.

Class UsbPlatform (P : Type) := {
  AllocateZeroPool : Z -> P -> Z * P;                  (* 0 is NULL *)
  AllocatePool : Z -> P -> Z * P;
  FreePool : Z -> P -> P;
  DmaAllocateBuffer : Z -> P -> (Z * Z) * P;           (* status, host address *)
  DmaMap : Z -> Z -> P -> dma_mapping * P;
  DmaUnmap : Z -> P -> P;
  DmaFreeBuffer : Z -> Z -> P -> P
}.

Record hc_state (P : Type) := {
  blocks : gmap Z USBHC_MEM_BLOCK;     (* the block store *)
  host_mem : mem;                      (* contents of the DMA buffers *)
  plat : P
}.
Arguments blocks {P}. Arguments host_mem {P}. Arguments plat {P}.
Arguments Build_hc_state {P}.

Section Code.
Context {B : Build} {P : Type} {HP : UsbPlatform P}.

Definition set_blocks (bl : gmap Z USBHC_MEM_BLOCK) (s : hc_state P) : hc_state P :=
  {| blocks := bl; host_mem := host_mem s; plat := plat s |}.
Definition set_host_mem (m : mem) (s : hc_state P) : hc_state P :=
  {| blocks := blocks s; host_mem := m; plat := plat s |}.
Definition set_plat (p : P) (s : hc_state P) : hc_state P :=
  {| blocks := blocks s; host_mem := host_mem s; plat := p |}.

(** A call of a platform service that returns a value, and one that does not. *)
Definition call {A} (f : P -> A * P) : M (hc_state P) A :=
  fun s => let '(a, p) := f (plat s) in Ret a (set_plat p s).
Definition do_plat (f : P -> P) : M (hc_state P) unit :=
  modify (fun s => set_plat (f (plat s)) s).

Definition read_block (p : Z) : M (hc_state P) USBHC_MEM_BLOCK :=
  fun s => match blocks s !! p with Some b => Ret b s | None => Stop Fault end.
Definition new_block (p : Z) : M (hc_state P) unit :=
  modify (fun s => set_blocks (<[p := zero_block]> (blocks s)) s).
Definition update_block (p : Z) (f : USBHC_MEM_BLOCK -> USBHC_MEM_BLOCK) : M (hc_state P) unit :=
  fun s => match blocks s !! p with
           | Some b => Ret tt (set_blocks (<[p := f b]> (blocks s)) s)
           | None => Stop Fault end.
(** [gBS->FreePool] of a block. *)
Definition free_block (p : Z) : M (hc_state P) unit :=
  modify (fun s => set_blocks (delete p (blocks s)) (set_plat (FreePool p (plat s)) s)).

(** A computation on the bit array of a block. *)
Definition on_bits {A} (p : Z) (c : M (list Z) A) : M (hc_state P) A :=
  fun s => match blocks s !! p with
           | Some b =>
               match c (Bits b) with
               | Ret a bs => Ret a (set_blocks (<[p := set_Bits bs b]> (blocks s)) s)
               | Stop w => Stop w
               end
           | None => Stop Fault end.

Definition get_byte (i : Z) : M (list Z) Z :=
  fun bs => match bs !! Z.to_nat i with Some b => Ret b bs | None => Stop Fault end.
Definition set_byte (i v : Z) : M (list Z) unit :=
  fun bs => match bs !! Z.to_nat i with
            | Some _ => Ret tt (<[Z.to_nat i := v]> bs) | None => Stop Fault end.

Definition sizeof_BLOCK : Z := 56.
Definition sizeof_POOL : Z := 16.

Definition FREE_BITARRAY (Block BitsP : Z) : M (hc_state P) Z :=
  _ ← do_plat (FreePool BitsP);
  _ ← free_block Block;
  mret 0.

Definition FREE_BUFFER (Pages BufHost Block BitsP : Z) : M (hc_state P) Z :=
  _ ← do_plat (DmaFreeBuffer Pages BufHost);
  FREE_BITARRAY Block BitsP.

Definition UsbHcAllocMemBlock (Pool : USBHC_MEM_POOL) (Pages : Z) : M (hc_state P) Z :=
  Block ← call (AllocateZeroPool sizeof_BLOCK);
  if Block =? 0 then mret 0 else
  _ ← new_block Block;
  _ ← ASSERT (USBHC_MEM_UNIT * 8 <=? EFI_PAGE_SIZE);
  let Len := EFI_PAGES_TO_SIZE Pages in
  let BLen := Len / (USBHC_MEM_UNIT * 8) in
  _ ← update_block Block (set_BufLen Len);
  BitsP ← call (AllocateZeroPool BLen);
  if BitsP =? 0 then _ ← free_block Block; mret 0 else
  _ ← update_block Block (set_BitArray (replicate (Z.to_nat BLen) 0) BitsP BLen);
  r ← call (DmaAllocateBuffer Pages);
  let '(Status, BufHost) := r in
  if EFI_ERROR Status then FREE_BITARRAY Block BitsP else
  m ← call (DmaMap BufHost (EFI_PAGES_TO_SIZE Pages));
  if EFI_ERROR (map_status m) || negb (map_bytes m =? EFI_PAGES_TO_SIZE Pages)
  then FREE_BUFFER Pages BufHost Block BitsP else
  if Check4G Pool && negb (Which4G Pool =? USB_HC_HIGH_32BIT (map_bus m))
  then _ ← do_plat (DmaUnmap (map_handle m)); FREE_BUFFER Pages BufHost Block BitsP else
  _ ← update_block Block (set_Buffer BufHost (map_bus m) (map_handle m));
  mret Block.

Definition UsbHcFreeMemBlock (Pool : USBHC_MEM_POOL) (Block : Z) : M (hc_state P) unit :=
  _ ← ASSERT (negb (Block =? 0));
  b ← read_block Block;
  _ ← do_plat (DmaUnmap (Mapping b));
  _ ← do_plat (DmaFreeBuffer (EFI_SIZE_TO_PAGES (BufLen b)) (BufHost b));
  _ ← do_plat (FreePool (BitsPtr b));
  free_block Block.

(** The search loop: [(Byte, Bit)] is the position, [(StartByte, StartBit)]
    the start of the current run of [Available] clear bits. *)
Fixpoint alloc_search (fuel : nat) (bs : list Z) (BLen Units : Z)
    (pos start : Z * Z) (Available : Z) : outcome unit (Z * Z * Z) :=
  match fuel with
  | O => Stop NoFuel
  | S fuel =>
      if fst pos <? BLen then
        match bs !! Z.to_nat (fst pos) with
        | None => Stop Fault
        | Some d =>
            if negb (USB_HC_BIT_IS_SET d (snd pos)) then
              let Available := Available + 1 in
              if Units <=? Available then Ret (start, Available) tt
              else alloc_search fuel bs BLen Units (NEXT_BIT pos) start Available
            else
              let pos := NEXT_BIT pos in
              alloc_search fuel bs BLen Units pos pos 0
        end
      else Ret (start, Available) tt
  end.

(** The marking loop, [Units] iterations. *)
Fixpoint alloc_mark (Count : nat) (pos : Z * Z) : M (list Z) unit :=
  match Count with
  | O => mret tt
  | S Count =>
      d ← get_byte (fst pos);
      _ ← ASSERT (negb (USB_HC_BIT_IS_SET d (snd pos)));
      _ ← set_byte (fst pos) (u8 (Z.lor d (USB_HC_BIT (snd pos))));
      alloc_mark Count (NEXT_BIT pos)
  end.

Definition UsbHcAllocMemFromBlock (Block Units : Z) : M (hc_state P) Z :=
  _ ← ASSERT (negb (Block =? 0) && negb (Units =? 0));
  b ← read_block Block;
  match alloc_search (S (Z.to_nat (8 * BitsLen b))) (Bits b) (BitsLen b) Units (0, 0) (0, 0) 0 with
  | Stop w => stopM w
  | Ret (StartByte, StartBit, Available) _ =>
      if Available <? Units then mret 0 else
      _ ← on_bits Block (alloc_mark (Z.to_nat Units) (StartByte, StartBit));
      mret (u64 (BufHost b + (StartByte * 8 + StartBit) * USBHC_MEM_UNIT))
  end.

(** Walk of the block list from [p] to the first block that satisfies
    [found]; NULL when there is none. *)
Fixpoint find_block (fuel : nat) (found : USBHC_MEM_BLOCK -> bool) (p : Z) : M (hc_state P) Z :=
  match fuel with
  | O => stopM NoFuel
  | S fuel =>
      if p =? 0 then mret 0 else
      b ← read_block p;
      if found b then mret p else find_block fuel found (Next b)
  end.

(** A walk visits each block of the store at most once. *)
Definition walk_fuel : M (hc_state P) nat := gets (fun s => S (size (blocks s))).

(** Does the block contain [AllocSize] bytes at [p]? *)
Definition block_contains (p AllocSize : Z) (b : USBHC_MEM_BLOCK) : bool :=
  (BufHost b <=? p) && (u64 (p + AllocSize) <=? u64 (BufHost b + BufLen b)).

Definition UsbHcGetAddressForHostMem (Pool : USBHC_MEM_POOL) (Mem Size : Z) : M (hc_state P) Z :=
  let AllocSize := USBHC_MEM_ROUND Size in
  if Mem =? 0 then mret 0 else
  fuel ← walk_fuel;
  Block ← find_block fuel (block_contains Mem AllocSize) (Head Pool);
  _ ← ASSERT (negb (Block =? 0));
  b ← read_block Block;
  let Offset := u64 (Mem - BufHost b) in
  mret (u64 (Buf b + Offset)).

Definition UsbHcInsertMemBlockToPool (HeadP Block : Z) : M (hc_state P) unit :=
  _ ← ASSERT (negb (HeadP =? 0) && negb (Block =? 0));
  h ← read_block HeadP;
  _ ← update_block Block (set_Next (Next h));
  update_block HeadP (set_Next Block).

(** The scan of [UsbHcIsMemBlockEmpty]: the first [n] bytes are zero. *)
Fixpoint all_zero (n : nat) (bs : list Z) : outcome unit bool :=
  match n, bs with
  | O, _ => Ret true tt
  | S n, d :: bs => if d =? 0 then all_zero n bs else Ret false tt
  | S _, [] => Stop Fault
  end.

Definition UsbHcIsMemBlockEmpty (Block : Z) : M (hc_state P) bool :=
  b ← read_block Block;
  match all_zero (Z.to_nat (BitsLen b)) (Bits b) with
  | Ret e _ => mret e
  | Stop w => stopM w
  end.

Definition UsbHcUnlinkMemBlock (HeadP BlockToUnlink : Z) : M (hc_state P) unit :=
  _ ← ASSERT (negb (HeadP =? 0) && negb (BlockToUnlink =? 0));
  fuel ← walk_fuel;
  Block ← find_block fuel (fun b => Next b =? BlockToUnlink) HeadP;
  if Block =? 0 then mret tt else
  u ← read_block BlockToUnlink;
  _ ← update_block Block (set_Next (Next u));
  update_block BlockToUnlink (set_Next 0).

Definition UsbHcInitMemPool (check4G : bool) (which4G : Z) : M (hc_state P) (option USBHC_MEM_POOL) :=
  p ← call (AllocatePool sizeof_POOL);
  if p =? 0 then mret None else
  let Pool h := {| pool_addr := p; Check4G := check4G; Which4G := which4G; Head := h |} in
  h ← UsbHcAllocMemBlock (Pool 0) USBHC_MEM_DEFAULT_PAGES;
  if h =? 0 then _ ← do_plat (FreePool p); mret None
  else mret (Some (Pool h)).

Fixpoint free_blocks_after_head (fuel : nat) (Pool : USBHC_MEM_POOL) : M (hc_state P) unit :=
  match fuel with
  | O => stopM NoFuel
  | S fuel =>
      h ← read_block (Head Pool);
      if Next h =? 0 then mret tt else
      _ ← UsbHcUnlinkMemBlock (Head Pool) (Next h);
      _ ← UsbHcFreeMemBlock Pool (Next h);
      free_blocks_after_head fuel Pool
  end.

Definition UsbHcFreeMemPool (Pool : USBHC_MEM_POOL) : M (hc_state P) Z :=
  _ ← ASSERT (negb (Head Pool =? 0));
  fuel ← walk_fuel;
  _ ← free_blocks_after_head fuel Pool;
  _ ← UsbHcFreeMemBlock Pool (Head Pool);
  _ ← do_plat (FreePool (pool_addr Pool));
  mret EFI_SUCCESS.

Definition zero_mem (p n : Z) : M (hc_state P) unit :=
  modify (fun s => set_host_mem (fill_bytes (host_mem s) p n 0) s).

(** First pass of [UsbHcAllocateMem]: try each block of the list. *)
Fixpoint alloc_from_list (fuel : nat) (p Units : Z) : M (hc_state P) Z :=
  match fuel with
  | O => stopM NoFuel
  | S fuel =>
      if p =? 0 then mret 0 else
      Mem ← UsbHcAllocMemFromBlock p Units;
      if negb (Mem =? 0) then mret Mem else
      b ← read_block p;
      alloc_from_list fuel (Next b) Units
  end.

Definition UsbHcAllocateMem (Pool : USBHC_MEM_POOL) (Size : Z) : M (hc_state P) Z :=
  let AllocSize := USBHC_MEM_ROUND Size in
  _ ← ASSERT (negb (Head Pool =? 0));
  fuel ← walk_fuel;
  Mem ← alloc_from_list fuel (Head Pool) (AllocSize / USBHC_MEM_UNIT);
  if negb (Mem =? 0) then _ ← zero_mem Mem Size; mret Mem else
  let Pages := if EFI_PAGES_TO_SIZE USBHC_MEM_DEFAULT_PAGES <? AllocSize
               then u64 (EFI_SIZE_TO_PAGES AllocSize + 1)
               else USBHC_MEM_DEFAULT_PAGES in
  NewBlock ← UsbHcAllocMemBlock Pool Pages;
  if NewBlock =? 0 then mret 0 else
  _ ← UsbHcInsertMemBlockToPool (Head Pool) NewBlock;
  Mem ← UsbHcAllocMemFromBlock NewBlock (AllocSize / USBHC_MEM_UNIT);
  if negb (Mem =? 0) then _ ← zero_mem Mem Size; mret Mem else mret Mem.

(** The clearing loop of [UsbHcFreeMem]. *)
Fixpoint free_clear (Count : nat) (pos : Z * Z) : M (list Z) unit :=
  match Count with
  | O => mret tt
  | S Count =>
      d ← get_byte (fst pos);
      _ ← ASSERT (USB_HC_BIT_IS_SET d (snd pos));
      _ ← set_byte (fst pos) (u8 (Z.lxor d (USB_HC_BIT (snd pos))));
      free_clear Count (NEXT_BIT pos)
  end.

Definition UsbHcFreeMem (Pool : USBHC_MEM_POOL) (Mem Size : Z) : M (hc_state P) unit :=
  let AllocSize := USBHC_MEM_ROUND Size in
  fuel ← walk_fuel;
  Block ← find_block fuel (block_contains Mem AllocSize) (Head Pool);
  _ ← (if Block =? 0 then mret tt else
       b ← read_block Block;
       let Unit := (Mem - BufHost b) / USBHC_MEM_UNIT in
       on_bits Block (free_clear (Z.to_nat (AllocSize / USBHC_MEM_UNIT)) (Unit / 8, Unit mod 8)));
  _ ← ASSERT (negb (Block =? 0));
  if Block =? Head Pool then mret tt else
  e ← UsbHcIsMemBlockEmpty Block;
  if e : bool then
    _ ← UsbHcUnlinkMemBlock (Head Pool) Block;
    UsbHcFreeMemBlock Pool Block
  else mret tt.
End Code.

(** ** The bit array as a function of unit numbers *)

Definition lin (pos : Z * Z) : Z := 8 * fst pos + snd pos.
Definition valid_pos (pos : Z * Z) : Prop := 0 <= fst pos /\ 0 <= snd pos < 8.

(** Bit of unit [i]. *)
Definition bitz (bs : list Z) (i : Z) : bool :=
  match bs !! Z.to_nat (i / 8) with Some d => Z.testbit d (i mod 8) | None => false end.

Definition run_free (bs : list Z) (i n : Z) : Prop :=
  forall j, i <= j < i + n -> bitz bs j = false.

Definition fits (bs : list Z) (BLen Units i : Z) : Prop :=
  0 <= i /\ i + Units <= 8 * BLen /\ run_free bs i Units.

(** Reference description of the allocation policy: the lowest run of
    [Units] clear bits. *)
Definition first_fit (bs : list Z) (BLen Units i : Z) : Prop :=
  fits bs BLen Units i /\ forall j, j < i -> ~ fits bs BLen Units j.

(** Well-formed bit array of a block. *)
Definition bits_ok (bs : list Z) (BLen : Z) : Prop :=
  Z.of_nat (length bs) = BLen /\ Forall is_byte bs.

Lemma lin_NEXT_BIT pos : valid_pos pos -> lin (NEXT_BIT pos) = lin pos + 1.
Proof.
  destruct pos as [x y]; unfold valid_pos, lin; simpl; intros H.
  destruct (Z.ltb_spec 7 (y + 1)); simpl; lia.
Qed.

Lemma valid_NEXT_BIT pos : valid_pos pos -> valid_pos (NEXT_BIT pos).
Proof.
  destruct pos as [x y]; unfold valid_pos; simpl; intros H.
  destruct (Z.ltb_spec 7 (y + 1)); simpl; lia.
Qed.

#[export] Hint Resolve valid_NEXT_BIT : firmware.

Lemma lin_div pos : valid_pos pos -> lin pos / 8 = fst pos /\ lin pos mod 8 = snd pos.
Proof. intros [H1 H2]. unfold lin. Z.div_mod_to_equations. lia. Qed.

Lemma USB_HC_BIT_IS_SET_testbit d b : 0 <= b -> USB_HC_BIT_IS_SET d b = Z.testbit d b.
Proof.
  intros Hb. unfold USB_HC_BIT_IS_SET, USB_HC_BIT. rewrite Z.shiftl_1_l.
  assert (Hbit : forall i, 0 <= i ->
    Z.testbit (Z.land d (2 ^ b)) i = (b =? i) && Z.testbit d b).
  { intros i Hi. rewrite Z.land_spec, Z.pow2_bits_eqb by done.
    destruct (Z.eqb_spec b i) as [->|]; [by rewrite andb_true_r | by rewrite andb_false_r]. }
  destruct (Z.testbit d b) eqn:E.
  - apply Z.eqb_eq, Z.bits_inj'. intros i Hi.
    by rewrite Hbit, Z.pow2_bits_eqb, andb_true_r by done.
  - apply Z.eqb_neq. intros Heq. apply (f_equal (fun z => Z.testbit z b)) in Heq.
    rewrite Hbit, Z.pow2_bits_true, andb_false_r in Heq by done. done.
Qed.

(** Reading the bit at a position. *)
Lemma bitz_lookup bs pos d :
  valid_pos pos -> bs !! Z.to_nat (fst pos) = Some d ->
  bitz bs (lin pos) = Z.testbit d (snd pos).
Proof. intros Hp Hd. destruct (lin_div pos Hp) as [H1 H2]. unfold bitz. by rewrite H1, H2, Hd. Qed.

(** Rewriting the byte at a position. *)
Lemma bitz_insert bs pos d d' i :
  valid_pos pos -> bs !! Z.to_nat (fst pos) = Some d -> 0 <= i ->
  (forall k, 0 <= k < 8 -> k <> snd pos -> Z.testbit d' k = Z.testbit d k) ->
  bitz (<[Z.to_nat (fst pos) := d']> bs) i =
  if i =? lin pos then Z.testbit d' (snd pos) else bitz bs i.
Proof.
  intros Hp Hd Hi Hk. pose proof (lookup_lt_Some _ _ _ Hd) as Hlen.
  destruct (lin_div pos Hp) as [H1 H2].
  destruct (Z.eqb_spec i (lin pos)) as [->|Hne]; unfold bitz.
  - by rewrite H1, H2, list_lookup_insert_eq.
  - destruct (decide (i / 8 = fst pos)) as [He|He].
    + rewrite He, list_lookup_insert_eq, Hd by done. apply Hk.
      * apply Z.mod_pos_bound. lia.
      * intros Hm. apply Hne. unfold lin. rewrite <- He, <- Hm. apply Z.div_mod. lia.
    + rewrite list_lookup_insert_ne; [done|]. destruct Hp.
      assert (0 <= i / 8) by (apply Z.div_pos; lia). lia.
Qed.

Lemma is_byte_lor d b : is_byte (u8 (Z.lor d (USB_HC_BIT b))).
Proof. by apply wrap_range. Qed.

Lemma is_byte_lxor d b : is_byte (u8 (Z.lxor d (USB_HC_BIT b))).
Proof. by apply wrap_range. Qed.

Lemma testbit_mark d b k :
  0 <= b < 8 -> 0 <= k < 8 ->
  Z.testbit (u8 (Z.lor d (USB_HC_BIT b))) k = (k =? b) || Z.testbit d k.
Proof.
  intros Hb Hk. unfold USB_HC_BIT.
  rewrite wrap_testbit, Z.lor_spec, Z.shiftl_1_l, Z.pow2_bits_eqb by lia.
  rewrite (proj2 (Z.ltb_lt k 8)), Z.eqb_sym by lia. simpl. by rewrite orb_comm.
Qed.

Lemma testbit_clear d b k :
  0 <= b < 8 -> 0 <= k < 8 ->
  Z.testbit (u8 (Z.lxor d (USB_HC_BIT b))) k = xorb (Z.testbit d k) (k =? b).
Proof.
  intros Hb Hk. unfold USB_HC_BIT.
  rewrite wrap_testbit, Z.lxor_spec, Z.shiftl_1_l, Z.pow2_bits_eqb by lia.
  by rewrite (proj2 (Z.ltb_lt k 8)), Z.eqb_sym by lia.
Qed.

Lemma bits_ok_lookup bs BLen i :
  bits_ok bs BLen -> 0 <= i < BLen -> exists d, bs !! Z.to_nat i = Some d /\ is_byte d.
Proof.
  intros [Hl Hb] Hi. destruct (lookup_lt_is_Some_2 bs (Z.to_nat i)) as [d Hd]; [lia|].
  exists d. split; [done|]. by apply (Forall_lookup_1 _ _ _ _ Hb Hd).
Qed.

Lemma bits_ok_insert bs BLen i d : bits_ok bs BLen -> is_byte d -> bits_ok (<[i := d]> bs) BLen.
Proof.
  intros [Hl Hb] Hd. split; [by rewrite length_insert|]. by apply Forall_insert.
Qed.

#[export] Hint Resolve is_byte_lor is_byte_lxor bits_ok_insert : firmware.

(** ** The search loop computes the first fit *)

Definition search_result (bs : list Z) (BLen Units : Z) (r : outcome unit (Z * Z * Z)) : Prop :=
  exists st av, r = Ret (st, av) tt /\ valid_pos st /\
    ((Units <= av /\ first_fit bs BLen Units (lin st)) \/
     (av < Units /\ forall j, ~ fits bs BLen Units j)).

Lemma alloc_search_spec bs BLen Units fuel : forall pos start Available,
  bits_ok bs BLen -> 0 < Units -> valid_pos pos -> valid_pos start ->
  lin start + Available = lin pos -> 0 <= Available < Units ->
  run_free bs (lin start) Available ->
  (forall j, j < lin start -> ~ fits bs BLen Units j) ->
  lin pos <= 8 * BLen -> 8 * BLen - lin pos < Z.of_nat fuel ->
  search_result bs BLen Units (alloc_search fuel bs BLen Units pos start Available).
Proof.
  induction fuel as [|fuel IH]; intros pos start Av Hok HU Hp Hs Hlin Hav Hrun Hnone Hle Hf; [lia|].
  cbn [alloc_search]. destruct (Z.ltb_spec (fst pos) BLen) as [Hlt|Hge].
  - destruct (bits_ok_lookup bs BLen (fst pos) Hok) as (d & Hd & _); [destruct Hp; lia|].
    rewrite Hd, USB_HC_BIT_IS_SET_testbit by (destruct Hp; lia).
    rewrite <- (bitz_lookup bs pos d Hp Hd).
    pose proof (lin_NEXT_BIT pos Hp) as Hnext.
    assert (Hstep : lin pos + 1 <= 8 * BLen) by (unfold lin; destruct Hp; lia).
    destruct (bitz bs (lin pos)) eqn:Hbit; simpl.
    + apply IH; auto using valid_NEXT_BIT; try lia; [intros j; lia|].
      intros j Hj (Hj0 & Hj1 & Hj2).
      destruct (decide (j < lin start)) as [|Hge]; [by apply (Hnone j)|].
      destruct (decide (lin pos < j + Units)) as [Hin|Hout]; [|lia].
      rewrite Hj2 in Hbit; [done | lia].
    + assert (Hrun' : run_free bs (lin start) (Av + 1)).
      { intros j Hj. destruct (decide (j = lin pos)) as [->|]; [done | apply Hrun; lia]. }
      destruct (Z.leb_spec Units (Av + 1)) as [Hdone|Hmore].
      * exists start, (Av + 1). split; [done|]. split; [done|]. left. split; [lia|].
        split; [|done]. split; [unfold lin; destruct Hs; lia|]. split; [lia|].
        intros j Hj. apply Hrun'. lia.
      * apply IH; auto using valid_NEXT_BIT; lia.
  - exists start, Av. split; [done|]. split; [done|]. right. split; [lia|].
    intros j Hfit. assert (lin pos = 8 * BLen) by (unfold lin in *; destruct Hp; lia).
    destruct (decide (j < lin start)); [by apply (Hnone j)|].
    destruct Hfit as (? & ? & _). lia.
Qed.

(** ** The marking and clearing loops *)

Lemma get_byte_ok bs i d s Q :
  bs !! Z.to_nat i = Some d -> Q d bs -> s = bs -> wp (get_byte i) s Q.
Proof. intros Hd HQ ->. unfold wp, get_byte. by rewrite Hd. Qed.

Lemma set_byte_ok bs i v d s Q :
  bs !! Z.to_nat i = Some d -> Q tt (<[Z.to_nat i := v]> bs) -> s = bs -> wp (set_byte i v) s Q.
Proof. intros Hd HQ ->. unfold wp, set_byte. by rewrite Hd. Qed.

Section BitLoops.
Context {B : Build}.

(** Marking a free run sets exactly its bits, and no assertion fires. *)
Lemma alloc_mark_spec n : forall bs BLen pos,
  bits_ok bs BLen -> valid_pos pos -> lin pos + Z.of_nat n <= 8 * BLen ->
  run_free bs (lin pos) (Z.of_nat n) ->
  wp (alloc_mark n pos) bs (fun _ bs' =>
    bits_ok bs' BLen /\
    forall i, 0 <= i -> bitz bs' i = in_range (lin pos) (Z.of_nat n) i || bitz bs i).
Proof.
  induction n as [|n IH]; intros bs BLen pos Hok Hp Hend Hrun; cbn [alloc_mark]; wp_go.
  - split; [done|]. intros i Hi. rewrite (proj2 (in_range_false _ _ _)) by lia. done.
  - destruct (bits_ok_lookup bs BLen (fst pos) Hok) as (d & Hd & Hdb).
    { unfold lin in Hend. destruct Hp. lia. }
    eapply get_byte_ok; [done| |done]. wp_go. apply wp_ASSERT.
    { rewrite USB_HC_BIT_IS_SET_testbit by (destruct Hp; lia).
      rewrite <- (bitz_lookup bs pos d Hp Hd), Hrun by lia. done. }
    wp_go. eapply set_byte_ok; [done| |done].
    assert (Hbits : forall i, 0 <= i ->
      bitz (<[Z.to_nat (fst pos) := u8 (Z.lor d (USB_HC_BIT (snd pos)))]> bs) i =
      (i =? lin pos) || bitz bs i).
    { intros i Hi. destruct Hp as [Hp0 Hp1].
      rewrite (bitz_insert _ _ d) by
        (try done; intros k Hk Hne; rewrite testbit_mark by lia;
         by rewrite (proj2 (Z.eqb_neq k (snd pos)))).
      destruct (Z.eqb_spec i (lin pos)); [|done].
      by rewrite testbit_mark, Z.eqb_refl by lia. }
    eapply wp_mono.
    + apply (IH _ BLen); [by auto with firmware | by auto with firmware | |].
      * rewrite lin_NEXT_BIT by done. lia.
      * intros j Hj. rewrite lin_NEXT_BIT in Hj by done.
        rewrite Hbits by (unfold lin in *; destruct Hp; lia).
        rewrite (proj2 (Z.eqb_neq j (lin pos))) by lia. apply Hrun. lia.
    + intros _ bs' [Hok' Hb']. split; [done|]. intros i Hi. rewrite Hb', Hbits by done.
      rewrite lin_NEXT_BIT, Nat2Z.inj_succ, <- Z.add_1_r, in_range_succ by (done || lia).
      by destruct (i =? lin pos), (in_range (lin pos + 1) (Z.of_nat n) i), (bitz bs i).
Qed.

(** Clearing a run of set bits clears exactly its bits. *)
Lemma free_clear_spec n : forall bs BLen pos,
  bits_ok bs BLen -> valid_pos pos -> lin pos + Z.of_nat n <= 8 * BLen ->
  (forall j, lin pos <= j < lin pos + Z.of_nat n -> bitz bs j = true) ->
  wp (free_clear n pos) bs (fun _ bs' =>
    bits_ok bs' BLen /\
    forall i, 0 <= i -> bitz bs' i = negb (in_range (lin pos) (Z.of_nat n) i) && bitz bs i).
Proof.
  induction n as [|n IH]; intros bs BLen pos Hok Hp Hend Hrun; cbn [free_clear]; wp_go.
  - split; [done|]. intros i Hi. rewrite (proj2 (in_range_false _ _ _)) by lia. done.
  - destruct (bits_ok_lookup bs BLen (fst pos) Hok) as (d & Hd & Hdb).
    { unfold lin in Hend. destruct Hp. lia. }
    assert (Hset : Z.testbit d (snd pos) = true).
    { rewrite <- (bitz_lookup bs pos d Hp Hd). apply Hrun. lia. }
    eapply get_byte_ok; [done| |done]. wp_go. apply wp_ASSERT.
    { by rewrite USB_HC_BIT_IS_SET_testbit by (destruct Hp; lia). }
    wp_go. eapply set_byte_ok; [done| |done].
    assert (Hbits : forall i, 0 <= i ->
      bitz (<[Z.to_nat (fst pos) := u8 (Z.lxor d (USB_HC_BIT (snd pos)))]> bs) i =
      negb (i =? lin pos) && bitz bs i).
    { intros i Hi. destruct Hp as [Hp0 Hp1].
      rewrite (bitz_insert _ _ d) by
        (try done; intros k Hk Hne; rewrite testbit_clear by lia;
         by rewrite (proj2 (Z.eqb_neq k (snd pos))), xorb_false_r).
      destruct (Z.eqb_spec i (lin pos)); [|done].
      by rewrite testbit_clear, Z.eqb_refl, Hset by lia. }
    eapply wp_mono.
    + apply (IH _ BLen); [by auto with firmware | by auto with firmware | |].
      * rewrite lin_NEXT_BIT by done. lia.
      * intros j Hj. rewrite lin_NEXT_BIT in Hj by done.
        rewrite Hbits by (unfold lin in *; destruct Hp; lia).
        rewrite (proj2 (Z.eqb_neq j (lin pos))) by lia. apply Hrun. lia.
    + intros _ bs' [Hok' Hb']. split; [done|]. intros i Hi. rewrite Hb', Hbits by done.
      rewrite lin_NEXT_BIT, Nat2Z.inj_succ, <- Z.add_1_r, in_range_succ by (done || lia).
      by destruct (i =? lin pos), (in_range (lin pos + 1) (Z.of_nat n) i), (bitz bs i).
Qed.
End BitLoops.

(** ** Rounding and pages *)

Lemma USBHC_MEM_ROUND_eq n :
  0 <= n <= 2 ^ 64 - 64 -> USBHC_MEM_ROUND n = 64 * ((n + 63) / 64).
Proof.
  intros Hn. unfold USBHC_MEM_ROUND, USBHC_MEM_UNIT_MASK, USBHC_MEM_UNIT.
  rewrite (wrap_small 64 (n + (64 - 1))) by (unfold in_word; lia).
  replace (u64 (Z.lnot (64 - 1))) with (2 ^ 64 - 2 ^ 6) by done.
  rewrite land_high_mask by (unfold in_word; lia). by change (2 ^ 6) with 64.
Qed.

(** Units taken by an allocation of [n] bytes. *)
Definition units (n : Z) : Z := USBHC_MEM_ROUND n / USBHC_MEM_UNIT.

Lemma units_eq n : 0 <= n <= 2 ^ 64 - 64 -> units n = (n + 63) / 64.
Proof.
  intros Hn. unfold units. rewrite USBHC_MEM_ROUND_eq by done.
  rewrite Z.mul_comm. by apply Z.div_mul.
Qed.

Lemma ROUND_units n : 0 <= n <= 2 ^ 64 - 64 -> USBHC_MEM_ROUND n = 64 * units n.
Proof. intros Hn. by rewrite units_eq, USBHC_MEM_ROUND_eq. Qed.

Lemma units_bounds n : 0 < n <= 2 ^ 64 - 64 -> 0 < units n /\ n <= 64 * units n < n + 64.
Proof. intros Hn. rewrite units_eq by lia. Z.div_mod_to_equations. lia. Qed.

Lemma EFI_SIZE_TO_PAGES_eq n :
  0 <= n < 2 ^ 64 -> EFI_SIZE_TO_PAGES n = (n + 4095) / 4096.
Proof.
  intros Hn. unfold EFI_SIZE_TO_PAGES, EFI_PAGE_SHIFT, EFI_PAGE_SIZE.
  replace (4096 - 1) with (Z.ones 12) by done. rewrite Z.land_ones, Z.shiftr_div_pow2 by lia.
  change (2 ^ 12) with 4096. unfold wrap.
  destruct (Z.eqb_spec (n mod 4096) 0); rewrite Z.mod_small; Z.div_mod_to_equations; lia.
Qed.

Lemma EFI_PAGES_TO_SIZE_eq n :
  0 <= n < 2 ^ 52 -> EFI_PAGES_TO_SIZE n = 4096 * n.
Proof.
  intros Hn. unfold EFI_PAGES_TO_SIZE, EFI_PAGE_SHIFT.
  rewrite Z.shiftl_mul_pow2, wrap_small by (try (unfold in_word); lia). lia.
Qed.

(** ** Allocation from one block *)

Section BlockAlloc.
Context {B : Build} {P : Type} {HP : UsbPlatform P}.

(** What allocation from block [p] does to the state. *)
Definition block_alloc_post (p Units : Z) (b : USBHC_MEM_BLOCK) (s : hc_state P)
    (r : Z) (s' : hc_state P) : Prop :=
  (r = 0 /\ s' = s /\ forall j, ~ fits (Bits b) (BitsLen b) Units j) \/
  (exists i bs', first_fit (Bits b) (BitsLen b) Units i /\
     r = u64 (BufHost b + 64 * i) /\
     s' = set_blocks (<[p := set_Bits bs' b]> (blocks s)) s /\
     bits_ok bs' (BitsLen b) /\
     forall k, 0 <= k -> bitz bs' k = in_range i Units k || bitz (Bits b) k).

Lemma alloc_from_block_spec p Units b (s : hc_state P) :
  p <> 0 -> 0 < Units -> blocks s !! p = Some b -> bits_ok (Bits b) (BitsLen b) ->
  wp (UsbHcAllocMemFromBlock p Units) s (block_alloc_post p Units b s).
Proof.
  intros Hp HU Hb Hok. unfold UsbHcAllocMemFromBlock. wp_go. apply wp_ASSERT.
  { rewrite (proj2 (Z.eqb_neq p 0)), (proj2 (Z.eqb_neq Units 0)) by lia. done. }
  wp_go. eapply returns_wp; [unfold read_block; by rewrite Hb|]. cbn beta.
  assert (HL : 0 <= BitsLen b) by (destruct Hok; lia).
  destruct (alloc_search_spec (Bits b) (BitsLen b) Units (S (Z.to_nat (8 * BitsLen b)))
    (0, 0) (0, 0) 0) as ([x y] & av & -> & Hv & Hres);
    try done; unfold lin, valid_pos; simpl; try lia.
  { intros j. lia. }
  { intros j Hj (? & _). lia. }
  destruct Hres as [[Hav Hff] | [Hav Hno]].
  - rewrite (proj2 (Z.ltb_ge av Units)) by lia. wp_go.
    pose proof Hff as [(H0 & H1 & H2) _].
    destruct (wp_returns _ _ _ (alloc_mark_spec (Z.to_nat Units) (Bits b) (BitsLen b) (x, y)
      Hok Hv ltac:(lia) ltac:(rewrite Z2Nat.id by lia; done)))
      as ([] & bs' & Hrun & Hok' & Hbits).
    eapply returns_wp; [unfold on_bits; rewrite Hb, Hrun; reflexivity|]. cbn beta. wp_go.
    right. exists (lin (x, y)), bs'. rewrite Z2Nat.id in Hbits by lia.
    split; [done|]. split; [|done]. unfold USBHC_MEM_UNIT, lin. simpl. f_equal. lia.
  - rewrite (proj2 (Z.ltb_lt av Units)) by lia. wp_go. left. done.
Qed.

Lemma is_mem_block_empty_spec p b (s : hc_state P) :
  blocks s !! p = Some b -> bits_ok (Bits b) (BitsLen b) ->
  wp (UsbHcIsMemBlockEmpty p) s (fun e s' => s' = s /\
    (e = true <-> forall i, 0 <= i < 8 * BitsLen b -> bitz (Bits b) i = false)).
Proof.
  intros Hb [Hl Hby]. unfold UsbHcIsMemBlockEmpty. wp_go.
  eapply returns_wp; [unfold read_block; by rewrite Hb|]. cbn beta.
  assert (Hall : forall n bs, length bs = n -> Forall is_byte bs ->
    exists e, all_zero n bs = Ret e tt /\ (e = true <-> Forall (fun d => d = 0) bs)).
  { induction n as [|n IH]; intros bs Hn HF.
    - apply nil_length_inv in Hn as ->. exists true. split; [done|]. by split.
    - destruct bs as [|d bs]; [done|]. simpl in *. apply Forall_cons in HF as [Hd HF].
      destruct (Z.eqb_spec d 0) as [->|Hne].
      + destruct (IH bs ltac:(lia) HF) as (e & -> & He). exists e. split; [done|].
        rewrite He, Forall_cons. naive_solver.
      + exists false. split; [done|]. split; [done|]. rewrite Forall_cons. by intros []. }
  destruct (Hall (Z.to_nat (BitsLen b)) (Bits b) ltac:(lia) Hby) as (e & -> & He).
  wp_go. split; [done|]. rewrite He. split.
  - intros HF i Hi. unfold bitz.
    destruct (Bits b !! Z.to_nat (i / 8)) as [d|] eqn:Hd; [|done].
    rewrite (Forall_lookup_1 _ _ _ _ HF Hd). apply Z.bits_0.
  - intros Hz. apply Forall_lookup. intros k d Hd.
    pose proof (lookup_lt_Some _ _ _ Hd). apply Z.bits_inj'. intros j Hj. rewrite Z.bits_0.
    destruct (Z.ltb_spec j 8).
    + specialize (Hz (8 * Z.of_nat k + j) ltac:(lia)). unfold bitz in Hz.
      replace ((8 * Z.of_nat k + j) / 8) with (Z.of_nat k) in Hz by (Z.div_mod_to_equations; lia).
      replace ((8 * Z.of_nat k + j) mod 8) with j in Hz by (Z.div_mod_to_equations; lia).
      by rewrite Nat2Z.id, Hd in Hz.
    + pose proof (Forall_lookup_1 _ _ _ _ Hby Hd) as Hbd. unfold is_byte in Hbd.
      rewrite <- (wrap_small 8 d Hbd), wrap_testbit by lia.
      by rewrite (proj2 (Z.ltb_ge j 8)).
Qed.
End BlockAlloc.
