(* ===== verification/UsbHcPool.v ===== *)
(** * Correctness of the USB memory pool

    The laws of the platform services the pool uses, the pool invariant, and
    the proof that the pool operations implement an abstract allocator: a
    finite map from the address of each live allocation to its size. *)

From Stdlib Require Import ZArith Lia.
From stdpp Require Import base list numbers gmap.
From S2P Require Import Prelude Memory UsbHcMem.

(** ** Resources of the platform *)

Inductive resource :=
| RPool (a : Z)             (* a pool allocation *)
| RDma (host pages : Z)     (* a DMA buffer *)
| RMap (handle : Z).        (* a DMA mapping *)

#[export] Instance resource_eq_dec : EqDecision resource.
Proof. solve_decision. Defined.

#[export] Instance resource_countable : Countable resource.
Proof.
  refine (inj_countable'
    (fun r => match r with
              | RPool a => inl (inl a) | RDma h n => inl (inr (h, n)) | RMap m => inr m end)
    (fun x => match x with
              | inl (inl a) => RPool a | inl (inr (h, n)) => RDma h n | inr m => RMap m end) _).
  by intros [].
Defined.

(** [apart a n b k]: the byte ranges do not meet. *)
Definition apart (a n b k : Z) : Prop := a + n <= b \/ b + k <= a.

(** What the services document.  [res] is the set of resources handed out
    and not yet returned. *)
Class UsbPlatformLaws (P : Type) {HP : UsbPlatform P} := {
  res : P -> gset resource;
  AllocateZeroPool_law : forall n p a p', (AllocateZeroPool n p = (a, p')) ->
    (a = 0 /\ res p' = res p) \/
    (a <> 0 /\ ~ (RPool a ∈ res p) /\ res p' = ({[RPool a]} ∪ res p));
  AllocatePool_law : forall n p a p', AllocatePool n p = (a, p') ->
    (a = 0 /\ res p' = res p) \/
    (a <> 0 /\ ~ (RPool a ∈ res p) /\ res p' = ({[RPool a]} ∪ res p));
  FreePool_law : forall a p, RPool a ∈ res p -> res (FreePool a p) = (res p ∖ {[RPool a]});
  DmaAllocateBuffer_law : forall n p st h p', 0 < n ->
    DmaAllocateBuffer n p = ((st, h), p') ->
    if EFI_ERROR st then res p' = res p else
    0 < h /\ h + 4096 * n < 2 ^ 64 /\
    (forall h' n', RDma h' n' ∈ res p -> apart h (4096 * n) h' (4096 * n')) /\
    res p' = ({[RDma h n]} ∪ res p);
  DmaMap_law : forall h n p m p', DmaMap h n p = (m, p') ->
    if EFI_ERROR (map_status m) then res p' = res p else
    ~ (RMap (map_handle m) ∈ res p) /\ res p' = ({[RMap (map_handle m)]} ∪ res p);
  DmaUnmap_law : forall h p, RMap h ∈ res p -> res (DmaUnmap h p) = (res p ∖ {[RMap h]});
  DmaFreeBuffer_law : forall n h p,
    RDma h n ∈ res p -> res (DmaFreeBuffer n h p) = (res p ∖ {[RDma h n]})
}.

(** A platform whose successful mappings always cover the whole buffer. *)
Class UsbFullMap (P : Type) {HP : UsbPlatform P} := {
  DmaMap_full : forall h n p m p', DmaMap h n p = (m, p') ->
    EFI_ERROR (map_status m) = false -> map_bytes m = n
}.

(** ** The pool invariant *)

(** Resources held by the block at address [a]. *)
Definition owned (a : Z) (b : USBHC_MEM_BLOCK) : gset resource :=
  {[RPool a; RPool (BitsPtr b); RDma (BufHost b) (BufLen b / 4096); RMap (Mapping b)]}.

#[global] Typeclasses Opaque owned.

Record block_ok (b : USBHC_MEM_BLOCK) : Prop := {
  bo_bits : bits_ok (Bits b) (BitsLen b);
  bo_len : BufLen b = 512 * BitsLen b;
  bo_pages : exists n, 0 < n < 2 ^ 52 /\ BufLen b = 4096 * n;
  bo_host : 0 < BufHost b /\ BufHost b + BufLen b < 2 ^ 64
}.

(** The list of block addresses reached from [p] through [Next]. *)
Fixpoint is_list (bl : gmap Z USBHC_MEM_BLOCK) (p : Z) (l : list Z) : Prop :=
  match l with
  | [] => p = 0
  | a :: l => p = a /\ a <> 0 /\ exists b, bl !! a = Some b /\ is_list bl (Next b) l
  end.

(** Unit [i] of block [b] belongs to a live allocation. *)
Definition unit_live (A : gmap Z Z) (b : USBHC_MEM_BLOCK) (i : Z) : Prop :=
  exists m n, A !! m = Some n /\ m <= BufHost b + 64 * i < m + 64 * units n.

(** An allocation of [n] bytes at [m] lies in block [b], on a unit boundary. *)
Definition in_block (b : USBHC_MEM_BLOCK) (m n : Z) : Prop :=
  exists u, m = BufHost b + 64 * u /\ 0 <= u /\ u + units n <= 8 * BitsLen b.

Definition max_size : Z := 2 ^ 60.

(** The blocks [bl] are sound, their buffers do not meet, and the platform
    resources [r] are those of the pool, its blocks, and [R0], the ones held
    by others. *)
Record store_res (R0 : gset resource) (Pool : USBHC_MEM_POOL)
    (bl : gmap Z USBHC_MEM_BLOCK) (r : gset resource) : Prop := {
  sr_block : forall a b, bl !! a = Some b -> block_ok b;
  sr_apart : forall a b a' b', bl !! a = Some b -> bl !! a' = Some b' ->
    a <> a' -> apart (BufHost b) (BufLen b) (BufHost b') (BufLen b');
  sr_res : forall x, x ∈ r <->
    x ∈ R0 \/ x = RPool (pool_addr Pool) \/ exists a b, bl !! a = Some b /\ x ∈ owned a b;
  sr_pool : ~ (RPool (pool_addr Pool) ∈ R0);
  sr_own : forall a b, bl !! a = Some b ->
    owned a b ## R0 /\ ~ (RPool (pool_addr Pool) ∈ owned a b) /\ a <> BitsPtr b;
  sr_own_disj : forall a b a' b', bl !! a = Some b -> bl !! a' = Some b' ->
    a <> a' -> owned a b ## owned a' b'
}.

(** [l] lists the blocks of the store, from the pool's head. *)
Record store_list (Pool : USBHC_MEM_POOL) (bl : gmap Z USBHC_MEM_BLOCK) (l : list Z) : Prop := {
  sl_list : is_list bl (Head Pool) l;
  sl_head : exists t, l = Head Pool :: t;
  sl_nodup : NoDup l;
  sl_dom : forall a, is_Some (bl !! a) <-> a ∈ l
}.

(** The live allocations [A] account for exactly the marked units. *)
Record alloc_inv (A : gmap Z Z) (bl : gmap Z USBHC_MEM_BLOCK) : Prop := {
  ai_place : forall m n, A !! m = Some n ->
    0 < n <= max_size /\ exists a b, bl !! a = Some b /\ in_block b m n;
  ai_bits : forall a b i, bl !! a = Some b -> 0 <= i < 8 * BitsLen b ->
    bitz (Bits b) i = true <-> unit_live A b i;
  ai_apart : forall m n m' n', A !! m = Some n -> A !! m' = Some n' -> m <> m' ->
    apart m (64 * units n) m' (64 * units n')
}.

Definition pool_inv {P} {HP : UsbPlatform P} {HL : UsbPlatformLaws P} (R0 : gset resource)
    (Pool : USBHC_MEM_POOL) (A : gmap Z Z) (s : hc_state P) : Prop :=
  store_res R0 Pool (blocks s) (res (plat s)) /\
  (exists l, store_list Pool (blocks s) l) /\
  alloc_inv A (blocks s).

(** ** Lists of blocks *)

Lemma is_list_lookup bl l : forall p a, is_list bl p l -> a ∈ l -> is_Some (bl !! a).
Proof.
  induction l as [|x l IH]; intros p a; [by intros _ ?%not_elem_of_nil|].
  intros (-> & _ & b & Hb & Hl) [->|Ha]%elem_of_cons; [by exists b | by eapply IH].
Qed.

Lemma is_list_nonzero bl l : forall p a, is_list bl p l -> a ∈ l -> a <> 0.
Proof.
  induction l as [|x l IH]; intros p a; [by intros _ ?%not_elem_of_nil|].
  intros (-> & Hx & b & Hb & Hl) [->|Ha]%elem_of_cons; [done | by eapply IH].
Qed.

(** Updating blocks outside the list, or without touching [Next], keeps it. *)
Lemma is_list_ext bl bl' l : forall p,
  (forall a b, a ∈ l -> bl !! a = Some b -> exists b', bl' !! a = Some b' /\ Next b' = Next b) ->
  is_list bl p l -> is_list bl' p l.
Proof.
  induction l as [|x l IH]; intros p Hext; [done|]. intros (-> & Hx & b & Hb & Hl).
  split; [done|]. split; [done|].
  destruct (Hext x b (list_elem_of_here _ _) Hb) as (b' & Hb' & Hn).
  exists b'. split; [done|]. rewrite Hn. apply IH; [|done].
  intros a c Ha. apply Hext. by apply list_elem_of_further.
Qed.

Lemma is_list_fun bl l1 : forall l2 p, is_list bl p l1 -> is_list bl p l2 -> l1 = l2.
Proof.
  induction l1 as [|x l1 IH]; intros [|y l2] p; simpl.
  - done.
  - intros -> (<- & ? & _). done.
  - intros (<- & ? & _) ->. done.
  - intros (-> & _ & b & Hb & H1) (<- & _ & b' & Hb' & H2). simplify_eq.
    f_equal. by eapply IH.
Qed.

Lemma is_list_app bl l1 : forall p l2, is_list bl p (l1 ++ l2) ->
  exists q, is_list bl q l2 /\ (forall x, last l1 = Some x -> exists b, bl !! x = Some b /\ Next b = q).
Proof.
  induction l1 as [|x l1 IH]; intros p l2 H; simpl in H.
  - exists p. split; [done|]. done.
  - destruct H as (-> & Hx & b & Hb & H). destruct (IH _ _ H) as (q & Hq & Hlast).
    exists q. split; [done|]. intros y Hy. destruct l1 as [|z l1].
    + simpl in *. simplify_eq. exists b. split; [done|].
      destruct l2; simpl in *; [congruence|]. destruct H as (-> & _). by destruct Hq as (-> & _).
    + by apply Hlast.
Qed.

Lemma store_list_length Pool bl l : store_list Pool bl l -> (length l <= size bl)%nat.
Proof.
  intros [_ _ Hnd Hdom]. rewrite <- size_dom, <- (size_list_to_set (C := gset Z)) by done.
  apply subseteq_size. intros a. rewrite elem_of_list_to_set, elem_of_dom, Hdom. done.
Qed.

(** ** The allocation invariant depends on bits and placement only *)

Definition core (b : USBHC_MEM_BLOCK) : list Z * Z * Z := (Bits b, BitsLen b, BufHost b).

Lemma alloc_inv_core A bl bl' : core <$> bl = core <$> bl' -> alloc_inv A bl -> alloc_inv A bl'.
Proof.
  intros Hc [Hp Hb Ha].
  assert (Hto : forall x bx, bl !! x = Some bx -> exists b', bl' !! x = Some b' /\ core b' = core bx).
  { intros x bx Hx. assert (H := f_equal (fun m => m !! x) Hc).
    rewrite !lookup_fmap, Hx in H. destruct (bl' !! x) as [b'|]; [|done].
    exists b'. split; [done|]. by apply (inj Some) in H. }
  assert (Hfrom : forall x bx, bl' !! x = Some bx -> exists b', bl !! x = Some b' /\ core b' = core bx).
  { intros x bx Hx. assert (H := f_equal (fun m => m !! x) Hc).
    rewrite !lookup_fmap, Hx in H. destruct (bl !! x) as [b'|]; [|done].
    exists b'. split; [done|]. by apply (inj Some) in H. }
  split; [| |done].
  - intros m n Hm. destruct (Hp m n Hm) as (Hn & a & b & Hab & u & Hu).
    split; [done|]. destruct (Hto a b Hab) as (b' & Hb' & [= E1 E2 E3]).
    exists a, b'. split; [done|]. exists u. by rewrite E2, E3.
  - intros a b i Hab Hi. destruct (Hfrom a b Hab) as (b' & Hb' & [= E1 E2 E3]).
    unfold unit_live. rewrite <- E1, <- E3. rewrite <- E2 in Hi. exact (Hb a b' i Hb' Hi).
Qed.

Lemma in_block_range b m n :
  block_ok b -> in_block b m n -> BufHost b <= m /\ m + 64 * units n <= BufHost b + BufLen b.
Proof. intros Hb (u & -> & Hu & Hu'). rewrite (bo_len b Hb). lia. Qed.

Lemma max_size_units n : 0 < n <= max_size -> 0 < units n /\ n <= 64 * units n.
Proof. unfold max_size. intros H. destruct (units_bounds n); lia. Qed.

Lemma unit_live_insert A b m n i :
  A !! m = None -> unit_live (<[m := n]> A) b i <->
  (m <= BufHost b + 64 * i < m + 64 * units n) \/ unit_live A b i.
Proof.
  intros Hm. unfold unit_live. split.
  - intros (m' & n' & Hl & Hr). apply lookup_insert_Some in Hl as [[<- <-]|[_ Hl]]; eauto.
  - intros [Hr|(m' & n' & Hl & Hr)].
    + exists m, n. by rewrite lookup_insert_eq.
    + exists m', n'. rewrite lookup_insert_ne by congruence. done.
Qed.

Section AllocStep.
Context (A : gmap Z Z) (bl : gmap Z USBHC_MEM_BLOCK).
Context (HA : alloc_inv A bl).
Context (Hok : forall a b, bl !! a = Some b -> block_ok b).
Context (Hapart : forall a b a' b', bl !! a = Some b -> bl !! a' = Some b' ->
  a <> a' -> apart (BufHost b) (BufLen b) (BufHost b') (BufLen b')).

Section Insert.
Context (a : Z) (b : USBHC_MEM_BLOCK) (i n : Z).
Context (Hb : bl !! a = Some b) (Hn : 0 < n <= max_size).
Context (Hfit : fits (Bits b) (BitsLen b) (units n) i).

Lemma new_in_block : in_block b (BufHost b + 64 * i) n.
Proof. destruct Hfit as (H1 & H2 & _). by exists i. Qed.

(** A free run meets no live allocation. *)
Lemma new_apart m' n' : A !! m' = Some n' ->
  apart (BufHost b + 64 * i) (64 * units n) m' (64 * units n').
Proof.
  intros Hm'. destruct Hfit as (Hi & Hend & Hfree).
  destruct (ai_place _ _ HA m' n' Hm') as (Hn' & a' & b' & Hb' & Hin').
  destruct (max_size_units n Hn), (max_size_units n' Hn').
  destruct (decide (a' = a)) as [->|Hne].
  - simplify_eq. destruct Hin' as (u & -> & Hu & Hu').
    destruct (decide (i + units n <= u)); [left; lia|].
    destruct (decide (u + units n' <= i)); [right; lia|]. exfalso.
    assert (Hj : bitz (Bits b) (Z.max i u) = true).
    { apply (ai_bits _ _ HA a b); [done | lia |].
      exists (BufHost b + 64 * u), n'. split; [done | lia]. }
    rewrite Hfree in Hj by lia. done.
  - pose proof (in_block_range b' m' n' (Hok _ _ Hb') Hin').
    pose proof (in_block_range b _ n (Hok _ _ Hb) new_in_block).
    destruct (Hapart a b a' b' Hb Hb' ltac:(congruence)); unfold apart; lia.
Qed.

Lemma new_fresh : A !! (BufHost b + 64 * i) = None.
Proof.
  destruct (A !! _) as [n'|] eqn:E; [|done]. exfalso.
  pose proof (new_apart _ _ E). destruct (ai_place _ _ HA _ _ E) as (Hn' & _).
  destruct (max_size_units n Hn), (max_size_units n' Hn'). unfold apart in *. lia.
Qed.

Lemma alloc_inv_insert bs' :
  (forall k, 0 <= k -> bitz bs' k = in_range i (units n) k || bitz (Bits b) k) ->
  alloc_inv (<[BufHost b + 64 * i := n]> A) (<[a := set_Bits bs' b]> bl).
Proof.
  intros Hbits. pose proof new_fresh as Hfresh. split.
  - intros m' n' Hm'. apply lookup_insert_Some in Hm' as [[<- <-]|[Hne Hm']].
    + split; [done|]. exists a, (set_Bits bs' b). rewrite lookup_insert_eq.
      split; [done|]. apply new_in_block.
    + destruct (ai_place _ _ HA _ _ Hm') as (Hn' & a' & b' & Hb' & Hin).
      split; [done|]. destruct (decide (a' = a)) as [->|].
      * simplify_eq. exists a, (set_Bits bs' b). by rewrite lookup_insert_eq.
      * exists a', b'. by rewrite lookup_insert_ne.
  - intros a' b' k Hb' Hk. rewrite unit_live_insert by done.
    apply lookup_insert_Some in Hb' as [[<- <-]|[Hne Hb']]; simpl in *.
    + rewrite Hbits, orb_true_iff, in_range_spec by lia.
      rewrite (ai_bits _ _ HA a b) by done. unfold unit_live. simpl.
      split; (intros [?|?]; [left; lia | by right]).
    + rewrite (ai_bits _ _ HA a' b') by done. split; [by right|]. intros [Hr|?]; [|done].
      exfalso. pose proof (in_block_range b _ n (Hok _ _ Hb) new_in_block).
      pose proof (bo_len b' (Hok _ _ Hb')).
      destruct (Hapart a b a' b' Hb Hb' Hne); lia.
  - intros m1 n1 m2 n2 H1 H2 Hne.
    apply lookup_insert_Some in H1 as [[<- <-]|[_ H1]], H2 as [[<- <-]|[_ H2]].
    + done.
    + by apply new_apart.
    + destruct (new_apart _ _ H1); unfold apart; lia.
    + by eapply (ai_apart _ _ HA).
Qed.
End Insert.
End AllocStep.

(** Freeing a live allocation: clearing its units removes it. *)
Lemma unit_live_delete A b m n i bl :
  alloc_inv A bl -> A !! m = Some n ->
  unit_live (delete m A) b i <->
  ~ (m <= BufHost b + 64 * i < m + 64 * units n) /\ unit_live A b i.
Proof.
  intros HA Hm. unfold unit_live. split.
  - intros (m' & n' & Hl & Hr). apply lookup_delete_Some in Hl as [Hne Hl]. split; [|eauto].
    intros Hr'. destruct (ai_apart _ _ HA m n m' n' Hm Hl Hne); lia.
  - intros (Hout & m' & n' & Hl & Hr). exists m', n'. split; [|done].
    apply lookup_delete_Some. split; [|done]. intros <-. simplify_eq. done.
Qed.

Lemma alloc_inv_delete A bl a b bs' m n u :
  alloc_inv A bl -> bl !! a = Some b -> A !! m = Some n ->
  (forall a' b', bl !! a' = Some b' -> block_ok b') ->
  (forall a' b', bl !! a' = Some b' -> a <> a' -> apart (BufHost b) (BufLen b) (BufHost b') (BufLen b')) ->
  m = BufHost b + 64 * u -> 0 <= u -> u + units n <= 8 * BitsLen b ->
  (forall k, 0 <= k -> bitz bs' k = negb (in_range u (units n) k) && bitz (Bits b) k) ->
  alloc_inv (delete m A) (<[a := set_Bits bs' b]> bl).
Proof.
  intros HA Hb Hm Hok Hap Hmu Hu Hend Hbits. split.
  - intros m' n' [Hne Hm']%lookup_delete_Some.
    destruct (ai_place _ _ HA _ _ Hm') as (Hn' & a' & b' & Hb' & Hin). split; [done|].
    destruct (decide (a' = a)) as [->|].
    + simplify_eq. exists a, (set_Bits bs' b). by rewrite lookup_insert_eq.
    + exists a', b'. by rewrite lookup_insert_ne.
  - intros a' b' k Hb' Hk. rewrite (unit_live_delete A b' m n k bl HA Hm).
    apply lookup_insert_Some in Hb' as [[<- <-]|[Hne Hb']]; simpl in *.
    + rewrite Hbits, andb_true_iff, negb_true_iff, in_range_false by lia.
      rewrite (ai_bits _ _ HA a b) by done. unfold unit_live. simpl.
      split; (intros [? ?]; split; [lia | done]).
    + rewrite (ai_bits _ _ HA a' b') by done. split; [|by intros [_ ?]]. intros Hl.
      split; [|done]. intros Hr. pose proof (bo_len b' (Hok _ _ Hb')).
      pose proof (bo_len b (Hok _ _ Hb)). destruct (Hap a' b' Hb' Hne); lia.
  - intros m1 n1 m2 n2 [_ H1]%lookup_delete_Some [_ H2]%lookup_delete_Some.
    by apply (ai_apart _ _ HA).
Qed.

(** A block without marked units holds no allocation and can be dropped. *)
Lemma alloc_inv_drop A bl a b :
  alloc_inv A bl -> bl !! a = Some b ->
  (forall i, 0 <= i < 8 * BitsLen b -> bitz (Bits b) i = false) ->
  alloc_inv A (delete a bl).
Proof.
  intros HA Hb Hz. split.
  - intros m n Hm. destruct (ai_place _ _ HA _ _ Hm) as (Hn & a' & b' & Hb' & Hin).
    split; [done|]. exists a', b'. split; [|done]. apply lookup_delete_Some. split; [|done].
    intros <-. simplify_eq. destruct Hin as (u & -> & Hu & Hu').
    destruct (max_size_units n Hn) as [Hpos _].
    assert (bitz (Bits b) u = true); [|by rewrite Hz in * by lia].
    apply (ai_bits _ _ HA a b); [done | lia |].
    exists (BufHost b + 64 * u), n. split; [done | lia].
  - intros a' b' k [_ Hb']%lookup_delete_Some. by apply (ai_bits _ _ HA a' b').
  - apply HA.
Qed.

(** A new block with clear bits, in fresh memory, holds no allocation. *)
Lemma alloc_inv_new A bl a b :
  alloc_inv A bl -> bl !! a = None ->
  (forall a' b', bl !! a' = Some b' -> block_ok b') -> block_ok b ->
  (forall a' b', bl !! a' = Some b' -> apart (BufHost b) (BufLen b) (BufHost b') (BufLen b')) ->
  (forall i, bitz (Bits b) i = false) ->
  alloc_inv A (<[a := b]> bl).
Proof.
  intros HA Ha Hok Hb Hap Hz. split.
  - intros m n Hm. destruct (ai_place _ _ HA _ _ Hm) as (Hn & a' & b' & Hb' & Hin).
    split; [done|]. exists a', b'. rewrite lookup_insert_ne; [done | congruence].
  - intros a' b' k [[<- <-]|[Hne Hb']]%lookup_insert_Some Hk.
    + rewrite Hz. split; [done|]. intros (m & n & Hm & Hr).
      destruct (ai_place _ _ HA _ _ Hm) as (Hn & a' & b' & Hb' & Hin).
      pose proof (in_block_range b' m n (Hok _ _ Hb') Hin). pose proof (bo_len b Hb).
      destruct (max_size_units n Hn). destruct (Hap a' b' Hb'); lia.
    + by apply (ai_bits _ _ HA a' b').
  - apply HA.
Qed.

(** ** Changing the store *)

(** Rewriting the bits or the link of a block keeps its resources. *)
Lemma store_res_update R0 Pool bl r a b b' :
  store_res R0 Pool bl r -> bl !! a = Some b -> block_ok b' ->
  BufHost b' = BufHost b -> BufLen b' = BufLen b -> owned a b' = owned a b ->
  BitsPtr b' = BitsPtr b ->
  store_res R0 Pool (<[a := b']> bl) r.
Proof.
  intros [S1 S2 S3 S4 S5 S6] Ha Hok Eh El Eo Ep.
  assert (Hback : forall x y, <[a := b']> bl !! x = Some y ->
    exists z, bl !! x = Some z /\ BufHost y = BufHost z /\ BufLen y = BufLen z /\
      owned x y = owned x z /\ BitsPtr y = BitsPtr z /\ block_ok y).
  { intros x y [[<- <-]|[Hne Hx]]%lookup_insert_Some.
    - exists b. by split_and!.
    - exists y. split_and!; try done. by apply (S1 x y). }
  split.
  - intros x y Hx. destruct (Hback x y Hx) as (z & _ & _ & _ & _ & _ & ?). done.
  - intros x y x' y' Hx Hx' Hne.
    destruct (Hback x y Hx) as (z & Hz & -> & -> & _), (Hback x' y' Hx') as (z' & Hz' & -> & -> & _).
    by apply (S2 x z x' z').
  - intros x. rewrite S3. split.
    + intros [?|[?|(y & z & Hy & Hz)]]; [by left | by right; left |]. right. right.
      destruct (decide (y = a)) as [->|].
      * assert (z = b) as -> by congruence. exists a, b'. by rewrite lookup_insert_eq, Eo.
      * exists y, z. by rewrite lookup_insert_ne.
    + intros [?|[?|(y & z & Hy & Hz)]]; [by left | by right; left |]. right. right.
      destruct (Hback y z Hy) as (w & Hw & _ & _ & E & _). exists y, w. by rewrite <- E.
  - done.
  - intros x y Hx. destruct (Hback x y Hx) as (z & Hz & _ & _ & -> & -> & _). by apply S5.
  - intros x y x' y' Hx Hx' Hne.
    destruct (Hback x y Hx) as (z & Hz & _ & _ & -> & _),
             (Hback x' y' Hx') as (z' & Hz' & _ & _ & -> & _).
    by apply (S6 x z x' z').
Qed.

(** Adding a block with fresh resources. *)
Lemma store_res_insert R0 Pool bl r a b :
  store_res R0 Pool bl r -> bl !! a = None -> block_ok b -> a <> BitsPtr b ->
  owned a b ## r ->
  (forall a' b', bl !! a' = Some b' -> apart (BufHost b) (BufLen b) (BufHost b') (BufLen b')) ->
  store_res R0 Pool (<[a := b]> bl) (owned a b ∪ r).
Proof.
  intros [S1 S2 S3 S4 S5 S6] Ha Hok Hne Hfresh Hap.
  assert (Hown : forall x y, bl !! x = Some y -> owned x y ⊆ r).
  { intros x y Hx z Hz. apply S3. right. right. by exists x, y. }
  assert (HR : R0 ⊆ r) by (intros z Hz; apply S3; by left).
  assert (Hp : RPool (pool_addr Pool) ∈ r) by (apply S3; by right; left).
  split.
  - intros x y [[<- <-]|[? Hx]]%lookup_insert_Some; [done | by eapply S1].
  - intros x y x' y' [[<- <-]|[? Hx]]%lookup_insert_Some [[<- <-]|[? Hx']]%lookup_insert_Some Hd.
    + done.
    + by eapply Hap.
    + destruct (Hap _ _ Hx); unfold apart; lia.
    + by eapply S2.
  - intros x. rewrite elem_of_union, S3. split.
    + intros [Hx|[?|[?|(y & z & Hy & Hz)]]]; [| by left | by right; left |]; right; right.
      * exists a, b. by rewrite lookup_insert_eq.
      * exists y, z. rewrite lookup_insert_ne by congruence. done.
    + intros [?|[?|(y & z & [[<- <-]|[? Hy]]%lookup_insert_Some & Hz)]];
        [by right; left | by right; right; left | by left |].
      right. right. right. by exists y, z.
  - done.
  - intros x y [[<- <-]|[? Hx]]%lookup_insert_Some; [|by apply S5].
    split; [set_solver|]. split; [set_solver | done].
  - intros x y x' y' [[<- <-]|[? Hx]]%lookup_insert_Some [[<- <-]|[? Hx']]%lookup_insert_Some Hd.
    + done.
    + pose proof (Hown _ _ Hx'). set_solver.
    + pose proof (Hown _ _ Hx). set_solver.
    + by eapply S6.
Qed.

(** Dropping a block and returning its resources. *)
Lemma store_res_delete R0 Pool bl r a b :
  store_res R0 Pool bl r -> bl !! a = Some b ->
  store_res R0 Pool (delete a bl) (r ∖ owned a b).
Proof.
  intros [S1 S2 S3 S4 S5 S6] Ha. split.
  - intros x y [_ Hx]%lookup_delete_Some. by eapply S1.
  - intros x y x' y' [_ Hx]%lookup_delete_Some [_ Hx']%lookup_delete_Some. by eapply S2.
  - intros x. rewrite elem_of_difference, S3. destruct (S5 a b Ha) as (D1 & D2 & _). split.
    + intros [[?|[?|(y & z & Hy & Hz)]] Hnot]; [by left | by right; left |]. right. right.
      exists y, z. split; [|done]. apply lookup_delete_Some. split; [|done].
      intros <-. by simplify_map_eq.
    + intros [?|[->|(y & z & [Hne Hy]%lookup_delete_Some & Hz)]].
      * split; [by left | set_solver].
      * split; [by right; left | done].
      * split; [right; right; by exists y, z|]. pose proof (S6 y z a b Hy Ha ltac:(congruence)). set_solver.
  - done.
  - intros x y [_ Hx]%lookup_delete_Some. by apply S5.
  - intros x y x' y' [_ Hx]%lookup_delete_Some [_ Hx']%lookup_delete_Some. by eapply S6.
Qed.

(** ** List surgery *)

Section ListSurgery.
Context (bl : gmap Z USBHC_MEM_BLOCK).
Implicit Types (l : list Z) (p x a : Z).

Lemma is_list_succ l : forall p x b, is_list bl p l -> x ∈ l -> bl !! x = Some b -> Next b <> 0 ->
  exists l1 l2, l = l1 ++ x :: Next b :: l2.
Proof.
  induction l as [|y l IH]; intros p x b; [by intros _ ?%not_elem_of_nil|].
  intros (-> & Hy & c & Hc & Hl) Hx Hb Hn. destruct (decide (x = y)) as [->|Hne].
  - simplify_eq. exists []. destruct l as [|z l]; simpl in *; [done|].
    destruct Hl as (-> & _). by exists l.
  - apply elem_of_cons in Hx as [?|Hx]; [done|].
    destruct (IH (Next c) x b Hl Hx Hb Hn) as (l1 & l2 & ->). by exists (y :: l1), l2.
Qed.

Lemma is_list_pred l : forall p a, is_list bl p l -> a ∈ tail l ->
  exists x b, x ∈ l /\ bl !! x = Some b /\ Next b = a.
Proof.
  induction l as [|y l IH]; intros p a; [by intros _ ?%not_elem_of_nil|].
  intros (-> & Hy & c & Hc & Hl) Ha. simpl in Ha. destruct l as [|z l]; [set_solver|].
  pose proof Hl as (Hz & _). destruct (decide (a = z)) as [->|Hne].
  - exists y, c. split; [set_solver | done].
  - destruct (IH (Next c) a Hl) as (x & b & Hx & Hb); [set_solver|].
    exists x, b. split; [set_solver | done].
Qed.

Lemma is_list_remove l1 : forall p x a l2 xb ab,
  is_list bl p (l1 ++ x :: a :: l2) -> NoDup (l1 ++ x :: a :: l2) ->
  bl !! x = Some xb -> bl !! a = Some ab ->
  is_list (<[x := set_Next (Next ab) xb]> bl) p (l1 ++ x :: l2).
Proof.
  induction l1 as [|y l1 IH]; intros p x a l2 xb ab Hl Hnd Hx Ha; simpl in *.
  - destruct Hl as (-> & Hx0 & b & Hb & Hba & _ & c & Hc & Hl). simplify_eq.
    split; [done|]. split; [done|]. eexists. rewrite lookup_insert_eq. split; [done|]. simpl.
    eapply is_list_ext; [|exact Hl]. intros z d Hz Hzd. exists d.
    rewrite lookup_insert_ne; [done|]. intros <-. apply NoDup_cons in Hnd as [Hnd _].
    apply Hnd. set_solver.
  - destruct Hl as (-> & Hy & b & Hb & Hl). apply NoDup_cons in Hnd as [Hny Hnd].
    split; [done|]. split; [done|]. exists b. rewrite lookup_insert_ne by (intros <-; set_solver).
    split; [done|]. by apply (IH (Next b) x a).
Qed.
End ListSurgery.

(** Linking a new block after the head. *)
Lemma store_list_insert Pool bl h t hb a b :
  store_list Pool bl (h :: t) -> bl !! h = Some hb -> bl !! a = None -> a <> 0 ->
  store_list Pool (<[h := set_Next a hb]> (<[a := set_Next (Next hb) b]> bl)) (h :: a :: t).
Proof.
  intros [Hl [t' [= -> <-]] Hnd Hdom] Hh Ha Ha0.
  assert (Hne : Head Pool <> a) by congruence. apply NoDup_cons in Hnd as [Hht Hnd].
  assert (Hat : ~ (a ∈ t)).
  { intros Hin. assert (is_Some (bl !! a)) as [? ?] by (apply Hdom; set_solver). congruence. }
  destruct Hl as (_ & Hh0 & b' & Hb' & Hl). simplify_eq. split.
  - split; [done|]. split; [done|]. eexists. rewrite lookup_insert_eq. split; [done|]. simpl.
    split; [done|]. split; [done|]. eexists.
    rewrite lookup_insert_ne, lookup_insert_eq by done. split; [done|]. simpl.
    eapply is_list_ext; [|exact Hl]. intros z c Hz Hc. exists c.
    rewrite !lookup_insert_ne by (intros <-; set_solver). done.
  - by exists (a :: t).
  - rewrite !NoDup_cons. set_solver.
  - intros x. rewrite !lookup_insert_is_Some, Hdom. set_solver by congruence.
Qed.

(** Rewriting a block without its link. *)
Lemma store_list_update Pool bl l a b b' :
  store_list Pool bl l -> bl !! a = Some b -> Next b' = Next b ->
  store_list Pool (<[a := b']> bl) l.
Proof.
  intros [Hl Hh Hnd Hdom] Ha Hn. split; [|done|done|].
  - eapply is_list_ext; [|exact Hl]. intros x c Hx Hc. destruct (decide (x = a)) as [->|].
    + exists b'. rewrite lookup_insert_eq. split; [done | congruence].
    + exists c. by rewrite lookup_insert_ne.
  - intros x. rewrite lookup_insert_is_Some, <- Hdom. destruct (decide (a = x)) as [->|]; [|tauto].
    split; [by eexists | by left].
Qed.

(** Unlinking and deleting a block other than the head. *)
Lemma store_list_remove Pool bl l1 x a l2 xb ab ab' :
  store_list Pool bl (l1 ++ x :: a :: l2) -> bl !! x = Some xb -> bl !! a = Some ab ->
  store_list Pool (delete a (<[a := ab']> (<[x := set_Next (Next ab) xb]> bl))) (l1 ++ x :: l2).
Proof.
  intros [Hl [t Ht] Hnd Hdom] Hx Ha.
  pose proof (is_list_remove _ _ _ _ _ _ _ _ Hl Hnd Hx Ha) as Hrem.
  assert (Hnd' : NoDup (l1 ++ x :: l2) /\ ~ (a ∈ l1 ++ x :: l2)).
  { rewrite NoDup_app, !NoDup_cons in *. set_solver. }
  destruct Hnd' as [Hnd' Hna]. rewrite delete_insert_eq. split.
  - eapply is_list_ext; [|exact Hrem]. intros z c Hz Hc. exists c.
    rewrite lookup_delete_ne by (intros <-; done). done.
  - destruct l1; simpl in *; simplify_eq; by eexists.
  - done.
  - intros z. rewrite lookup_delete_is_Some, lookup_insert_is_Some, Hdom.
    clear Hl Hrem Hnd Hnd' Ht Hx Ha. destruct (decide (z = a)) as [->|]; [by split; [intros [? _]|]|].
    rewrite !elem_of_app, !elem_of_cons. destruct (decide (x = z)) as [->|]; split; try tauto.
    + intros _. split; [congruence | tauto].
    + intros [?|[?|?]]; [|congruence|]; (split; [congruence | right; split; [done | tauto]]).
Qed.
