(* ===== verification/UsbHcSpec.v ===== *)
(** * The USB memory pool implements an abstract allocator

    Specifications of the operations of [UsbHcMem.c] against the pool
    invariant of [UsbHcPool]. *)

From Stdlib Require Import ZArith Lia.
From stdpp Require Import base list numbers gmap.
From S2P Require Import Prelude Memory UsbHcMem UsbHcPool.

(** Projections of an updated state. *)
Ltac hc_simpl := cbn [blocks plat host_mem set_blocks set_plat set_host_mem].

Section Ops.
Context {B : Build} {P : Type} {HP : UsbPlatform P} {HL : UsbPlatformLaws P}.
Implicit Types (s : hc_state P) (p : P).

(** ** Primitive steps *)

Lemma wp_call {A} (f : P -> A * P) s (Q : A -> hc_state P -> Prop) :
  (forall a p, f (plat s) = (a, p) -> Q a (set_plat p s)) -> wp (call f) s Q.
Proof. unfold wp, call. intros H. destruct (f (plat s)) as [a p] eqn:E. by apply H. Qed.

Lemma wp_read_block a b s Q : blocks s !! a = Some b -> Q b s -> wp (read_block a) s Q.
Proof. unfold wp, read_block. by intros ->. Qed.

Lemma wp_update_block a b f s (Q : unit -> hc_state P -> Prop) :
  blocks s !! a = Some b -> Q tt (set_blocks (<[a := f b]> (blocks s)) s) ->
  wp (update_block a f) s Q.
Proof. unfold wp, update_block. by intros ->. Qed.

Lemma wp_walk_fuel s (Q : nat -> hc_state P -> Prop) :
  Q (S (size (blocks s))) s -> wp walk_fuel s Q.
Proof. done. Qed.

(** The walk finds the first block with the property, if there is one. *)
Lemma find_block_spec f l : forall fuel q s,
  is_list (blocks s) q l -> (length l < fuel)%nat ->
  wp (find_block fuel f q) s (fun r s' => s' = s /\
    ((r = 0 /\ forall a b, a ∈ l -> blocks s !! a = Some b -> f b = false) \/
     (r <> 0 /\ r ∈ l /\ exists b, blocks s !! r = Some b /\ f b = true))).
Proof.
  induction l as [|x l IH]; intros [|fuel] q s Hl Hfuel; simpl in *; try lia.
  - rewrite Hl. simpl. wp_go. split; [done|]. left. split; [done|].
    by intros a b ?%not_elem_of_nil.
  - destruct Hl as (-> & Hx & b & Hb & Hl). rewrite (proj2 (Z.eqb_neq x 0)) by done.
    wp_go. eapply wp_read_block; [done|]. destruct (f b) eqn:Hf; wp_go.
    + split; [done|]. right. split; [done|]. split; [set_solver|]. by exists b.
    + eapply wp_mono; [apply (IH fuel (Next b) s Hl); lia|].
      intros r s' [-> [[-> Hno]|(Hr & Hin & c & Hc)]]; (split; [done|]).
      * left. split; [done|]. intros a c [->|Ha]%elem_of_cons Hc; [congruence | by eapply Hno].
      * right. split; [done|]. split; [set_solver|]. by exists c.
Qed.

(** ** Returning the last resource taken *)

Lemma undo_set (x : resource) (r : gset resource) : ~ (x ∈ r) -> ({[x]} ∪ r) ∖ {[x]} = r.
Proof. set_solver. Qed.

Lemma FreePool_undo a p r :
  res p = {[RPool a]} ∪ r -> ~ (RPool a ∈ r) -> res (FreePool a p) = r.
Proof. intros H Hn. rewrite FreePool_law, H; [by apply undo_set | set_solver]. Qed.

Lemma DmaFreeBuffer_undo n h p r :
  res p = {[RDma h n]} ∪ r -> ~ (RDma h n ∈ r) -> res (DmaFreeBuffer n h p) = r.
Proof. intros H Hn. rewrite DmaFreeBuffer_law, H; [by apply undo_set | set_solver]. Qed.

Lemma DmaUnmap_undo h p r :
  res p = {[RMap h]} ∪ r -> ~ (RMap h ∈ r) -> res (DmaUnmap h p) = r.
Proof. intros H Hn. rewrite DmaUnmap_law, H; [by apply undo_set | set_solver]. Qed.

(** ** A new block *)

Lemma bitz_replicate_zero n i : bitz (replicate n 0) i = false.
Proof.
  unfold bitz. destruct (replicate n 0 !! _) as [d|] eqn:E; [|done].
  apply lookup_replicate in E as [-> _]. apply Z.bits_0.
Qed.

Lemma bits_ok_replicate n : 0 <= n -> bits_ok (replicate (Z.to_nat n) 0) n.
Proof.
  intros Hn. split; [rewrite length_replicate; lia|]. apply Forall_replicate.
  unfold is_byte, in_word. lia.
Qed.

(** What a successful [UsbHcAllocMemBlock] of [Pages] pages returns. *)
Record fresh_block (Pages a : Z) (b : USBHC_MEM_BLOCK) s s' : Prop := {
  fb_addr : a <> 0 /\ a <> BitsPtr b;
  fb_blocks : blocks s' = <[a := b]> (blocks s);
  fb_ok : block_ok b;
  fb_len : BufLen b = 4096 * Pages;
  fb_next : Next b = 0;
  fb_bits : forall i, bitz (Bits b) i = false;
  fb_fresh : owned a b ## res (plat s);
  fb_res : res (plat s') = owned a b ∪ res (plat s);
  fb_apart : forall h n, RDma h n ∈ res (plat s) -> apart (BufHost b) (BufLen b) h (4096 * n)
}.

Lemma alloc_mem_block_spec {HF : UsbFullMap P} Pool Pages s :
  0 < Pages < 2 ^ 52 ->
  (forall a, is_Some (blocks s !! a) -> RPool a ∈ res (plat s)) ->
  wp (UsbHcAllocMemBlock Pool Pages) s (fun r s' => host_mem s' = host_mem s /\
    ((r = 0 /\ blocks s' = blocks s /\ res (plat s') = res (plat s)) \/
     exists b, fresh_block Pages r b s s' /\ blocks s !! r = None)).
Proof.
  intros HPages Hpool. unfold UsbHcAllocMemBlock, FREE_BUFFER, FREE_BITARRAY, new_block, free_block, do_plat. wp_go. apply wp_call. intros a p1 H1.
  apply AllocateZeroPool_law in H1 as [[-> R1]|(Ha & Hfr & R1)].
  { wp_go. split; [done|]. left. by rewrite <- R1. }
  assert (Hno : blocks s !! a = None) by (apply eq_None_not_Some; by intros ?%Hpool).
  wp_go. apply wp_ASSERT; [done|]. wp_go.
  eapply wp_update_block; [apply lookup_insert_eq|]. simpl. rewrite insert_insert_eq.
  wp_go. apply wp_call. simpl. intros q p2 H2.
  rewrite EFI_PAGES_TO_SIZE_eq in * by lia.
  replace (4096 * Pages / (USBHC_MEM_UNIT * 8)) with (8 * Pages)
    by (unfold USBHC_MEM_UNIT; Z.div_mod_to_equations; lia).
  apply AllocateZeroPool_law in H2 as [[-> R2]|(Hq & Hfq & R2)].
  { wp_go. hc_simpl. split; [done|]. left. rewrite delete_insert_id by done.
    split; [done|]. split; [done|]. apply FreePool_undo; [by rewrite R2, R1 | done]. }
  rewrite R1 in R2, Hfq.
  wp_go. eapply wp_update_block; [apply lookup_insert_eq|]. simpl. rewrite insert_insert_eq.
  wp_go. apply wp_call. simpl. intros [st h] p3 H3. apply DmaAllocateBuffer_law in H3; [|lia].
  assert (Hundo : forall p, res p = {[RPool q]} ∪ ({[RPool a]} ∪ res (plat s)) ->
    res (FreePool a (FreePool q p)) = res (plat s)).
  { intros p Hp. apply FreePool_undo; [|done]. by apply FreePool_undo. }
  destruct (EFI_ERROR st).
  { wp_go. hc_simpl. split; [done|]. left. rewrite delete_insert_id by done.
    split; [done|]. split; [done|]. apply Hundo. by rewrite H3, R2. }
  destruct H3 as (Hh & Hend & Hap & R3). rewrite R2 in Hap, R3.
  assert (HnD : ~ (RDma h Pages ∈ {[RPool q]} ∪ ({[RPool a]} ∪ res (plat s)))).
  { intros Hin. destruct (Hap _ _ Hin); lia. }
  wp_go. apply wp_call. hc_simpl. intros m p4 H4.
  pose proof (DmaMap_full _ _ _ _ _ H4) as Hfull. apply DmaMap_law in H4.
  destruct (EFI_ERROR (map_status m)); cbn [orb].
  { wp_go. hc_simpl. split; [done|]. left. rewrite delete_insert_id by done.
    split; [done|]. split; [done|]. apply Hundo, DmaFreeBuffer_undo; [|done]. by rewrite H4, R3. }
  rewrite Hfull, Z.eqb_refl by done. cbn [negb orb]. destruct H4 as [HnM R4]. rewrite R3 in HnM, R4.
  destruct (_ && _); wp_go.
  { hc_simpl. split; [done|]. left. rewrite delete_insert_id by done.
    split; [done|]. split; [done|]. apply Hundo, DmaFreeBuffer_undo; [|done].
    by apply DmaUnmap_undo. }
  eapply wp_update_block; [apply lookup_insert_eq|]. hc_simpl. rewrite insert_insert_eq.
  wp_go. split; [done|]. right. eexists. split; [|done]. split; simpl; try done.
  - split; [done|]. intros ->. apply Hfq. set_solver.
  - split; simpl; [apply bits_ok_replicate; lia | lia | |].
    + exists Pages. lia.
    + lia.
  - apply bitz_replicate_zero.
  - unfold owned. simpl. rewrite (Z.mul_comm 4096), Z.div_mul by lia. set_solver.
  - unfold owned. simpl. rewrite (Z.mul_comm 4096), Z.div_mul by lia. rewrite R4. set_solver.
  - intros h' n' Hin. apply Hap. set_solver.
Qed.

(** ** Allocation from the blocks of the pool *)

(** [Units] units at unit [i] of block [a] have been marked; [r] is their address. *)
Record alloc_at (Units a : Z) (b : USBHC_MEM_BLOCK) (i : Z) (bs' : list Z) (r : Z) s s' : Prop := {
  at_block : blocks s !! a = Some b;
  at_fit : first_fit (Bits b) (BitsLen b) Units i;
  at_addr : r = BufHost b + 64 * i /\ r <> 0;
  at_state : s' = set_blocks (<[a := set_Bits bs' b]> (blocks s)) s;
  at_ok : bits_ok bs' (BitsLen b);
  at_bits : forall k, 0 <= k -> bitz bs' k = in_range i Units k || bitz (Bits b) k
}.

Lemma alloc_from_block_ok a Units b s :
  a <> 0 -> 0 < Units -> blocks s !! a = Some b -> block_ok b ->
  wp (UsbHcAllocMemFromBlock a Units) s (fun r s' =>
    (r = 0 /\ s' = s /\ forall j, ~ fits (Bits b) (BitsLen b) Units j) \/
    exists i bs', alloc_at Units a b i bs' r s s').
Proof.
  intros Ha HU Hb Hok.
  eapply wp_mono; [apply (alloc_from_block_spec a Units b s Ha HU Hb (bo_bits b Hok))|].
  intros r s' [?|(i & bs' & Hff & -> & -> & ? & ?)]; [by left|]. right. exists i, bs'.
  destruct (bo_host b Hok), Hff as [(? & ? & ?) ?]. pose proof (bo_len b Hok).
  rewrite wrap_small by (unfold in_word; lia). split; try done. split; [done | lia].
Qed.

Lemma alloc_from_list_spec Units l : forall fuel q s,
  0 < Units -> is_list (blocks s) q l -> (length l < fuel)%nat ->
  (forall a b, a ∈ l -> blocks s !! a = Some b -> block_ok b) ->
  wp (alloc_from_list fuel q Units) s (fun r s' =>
    (r = 0 /\ s' = s /\ forall a b, a ∈ l -> blocks s !! a = Some b ->
       forall j, ~ fits (Bits b) (BitsLen b) Units j) \/
    exists a b i bs', a ∈ l /\ alloc_at Units a b i bs' r s s').
Proof.
  induction l as [|x l IH]; intros [|fuel] q s HU Hl Hfuel Hok; simpl in *; try lia.
  - rewrite Hl. simpl. wp_go. left. split; [done|]. split; [done|].
    by intros a b ?%not_elem_of_nil.
  - destruct Hl as (-> & Hx & b & Hb & Hl). wp_go.
    eapply wp_mono; [apply (alloc_from_block_ok x Units b s Hx HU Hb), (Hok x); [set_solver | done]|].
    intros r s' [(-> & -> & Hno)|(i & bs' & Hat)].
    + cbn [negb Z.eqb]. wp_go. eapply wp_read_block; [done|].
      eapply wp_mono; [apply (IH fuel (Next b) s HU Hl); [lia | intros a c Ha; apply Hok; set_solver]|].
      intros r' s' [(-> & -> & Hno')|(a & c & i & bs' & Ha & Hat)].
      * left. split; [done|]. split; [done|].
        intros a c [->|Ha]%elem_of_cons Hc; [by simplify_eq | by eapply Hno'].
      * right. exists a, c, i, bs'. split; [set_solver | done].
    + rewrite (proj2 (Z.eqb_neq r 0)) by apply Hat. cbn [negb]. wp_go.
      right. exists x, b, i, bs'. split; [set_solver | done].
Qed.

(** ** Facts of the pool invariant *)

Lemma pool_block_res R0 Pool A s a :
  pool_inv R0 Pool A s -> is_Some (blocks s !! a) -> RPool a ∈ res (plat s).
Proof.
  intros (HR & _) [b Hb]. apply (sr_res _ _ _ _ HR). right. right. exists a, b.
  split; [done|]. unfold owned. set_solver.
Qed.

Lemma pool_dma_res R0 Pool A s a b :
  pool_inv R0 Pool A s -> blocks s !! a = Some b ->
  RDma (BufHost b) (BufLen b / 4096) ∈ res (plat s) /\ 4096 * (BufLen b / 4096) = BufLen b.
Proof.
  intros (HR & _) Hb. split.
  - apply (sr_res _ _ _ _ HR). right. right. exists a, b. split; [done|]. unfold owned. set_solver.
  - destruct (bo_pages b (sr_block _ _ _ _ HR a b Hb)) as (n & Hn & ->).
    rewrite (Z.mul_comm 4096 n), Z.div_mul by lia. lia.
Qed.

(** Marking a free run yields the invariant with one more allocation. *)
Lemma pool_inv_alloc_at R0 Pool A s s' Size a b i bs' r :
  pool_inv R0 Pool A s -> 0 < Size <= max_size ->
  alloc_at (units Size) a b i bs' r s s' ->
  pool_inv R0 Pool (<[r := Size]> A) s' /\ A !! r = None /\
  (forall m n, A !! m = Some n -> apart r (64 * units Size) m (64 * units n)) /\
  host_mem s' = host_mem s.
Proof.
  intros (HR & [l Hl] & HA) HS [Hb [Hfit _] [-> _] -> Hok Hbits]. simpl.
  pose proof (sr_block _ _ _ _ HR) as Hbok. pose proof (sr_apart _ _ _ _ HR) as Hap.
  split; [split; [|split]; simpl|split; [|split; [|done]]].
  - apply (store_res_update _ _ _ _ a b); try done. destruct (Hbok a b Hb). by split.
  - exists l. by apply (store_list_update _ _ _ a b).
  - by apply alloc_inv_insert.
  - by apply (new_fresh A (blocks s) HA Hbok Hap a b i Size).
  - intros m n. by apply (new_apart A (blocks s) HA Hbok Hap a b i Size).
Qed.

(** Linking a fresh block into the pool keeps the invariant. *)
Lemma insert_block_spec R0 Pool A s s1 Pages a b :
  pool_inv R0 Pool A s -> fresh_block Pages a b s s1 -> blocks s !! a = None ->
  wp (UsbHcInsertMemBlockToPool (Head Pool) a) s1 (fun _ s2 =>
    pool_inv R0 Pool A s2 /\ host_mem s2 = host_mem s1 /\
    exists b', blocks s2 !! a = Some b' /\ core b' = core b).
Proof.
  intros Hinv [[Ha Hab] Hbl Hok Hlen Hnext Hbits Hfresh Hres Hap] Hnone.
  pose proof Hinv as (HR & [l Hl] & HA).
  destruct (sl_head _ _ _ Hl) as [t ->].
  assert (is_Some (blocks s !! Head Pool)) as [hb Hh] by (apply (sl_dom _ _ _ Hl); set_solver).
  assert (Hh0 : Head Pool <> 0) by (eapply is_list_nonzero; [apply Hl | set_solver]).
  assert (Hne : Head Pool <> a) by congruence.
  assert (Hap' : forall a' b', blocks s !! a' = Some b' ->
    apart (BufHost b) (BufLen b) (BufHost b') (BufLen b')).
  { intros a' b' Hb'. destruct (pool_dma_res _ _ _ _ _ _ Hinv Hb') as [Hin <-]. by apply Hap. }
  unfold UsbHcInsertMemBlockToPool. wp_go. apply wp_ASSERT.
  { by rewrite !(proj2 (Z.eqb_neq _ _)). }
  wp_go. eapply wp_read_block; [by rewrite Hbl, lookup_insert_ne|].
  wp_go. eapply wp_update_block; [by rewrite Hbl, lookup_insert_eq|].
  eapply wp_update_block; [simpl; by rewrite Hbl, !lookup_insert_ne|]. hc_simpl.
  rewrite Hbl, insert_insert_eq.
  assert (HR' : store_res R0 Pool (<[a := set_Next (Next hb) b]> (blocks s)) (res (plat s1))).
  { rewrite Hres. change (owned a b) with (owned a (set_Next (Next hb) b)).
    apply store_res_insert; try done. destruct Hok. by split. }
  split; [split; [|split]; hc_simpl|split; [done|]].
  - apply (store_res_update _ _ _ _ _ hb); try done; [by rewrite lookup_insert_ne|].
    pose proof (sr_block _ _ _ _ HR _ _ Hh) as []. by split.
  - exists (Head Pool :: a :: t). by apply store_list_insert.
  - apply (alloc_inv_core _ (<[a := b]> (blocks s))).
    + apply map_eq. intros x. rewrite !lookup_fmap.
      destruct (decide (x = Head Pool)) as [->|].
      * by rewrite lookup_insert_eq, lookup_insert_ne, Hh.
      * rewrite (lookup_insert_ne _ (Head Pool)) by done.
        destruct (decide (x = a)) as [->|]; [by rewrite !lookup_insert_eq|].
        by rewrite !lookup_insert_ne.
    + apply alloc_inv_new; try done. apply HR.
  - exists (set_Next (Next hb) b). by rewrite lookup_insert_ne, lookup_insert_eq.
Qed.

(** A block with clear bits accommodates any request it is large enough for. *)
Lemma clear_fits bs BLen Units :
  (forall i, bitz bs i = false) -> Units <= 8 * BLen -> fits bs BLen Units 0.
Proof. intros Hz HU. split; [lia|]. split; [lia|]. intros j _. apply Hz. Qed.

(** Pages requested for a new block hold the allocation. *)
Definition new_block_pages (AllocSize : Z) : Z :=
  if EFI_PAGES_TO_SIZE USBHC_MEM_DEFAULT_PAGES <? AllocSize
  then u64 (EFI_SIZE_TO_PAGES AllocSize + 1) else USBHC_MEM_DEFAULT_PAGES.

Lemma new_block_pages_enough Size :
  0 < Size <= max_size ->
  0 < new_block_pages (USBHC_MEM_ROUND Size) < 2 ^ 52 /\
  units Size <= 64 * new_block_pages (USBHC_MEM_ROUND Size).
Proof.
  unfold max_size, new_block_pages, USBHC_MEM_DEFAULT_PAGES. intros HS.
  destruct (units_bounds Size ltac:(lia)) as [Hu1 Hu2].
  rewrite ROUND_units, EFI_PAGES_TO_SIZE_eq by lia. destruct (Z.ltb_spec (4096 * 16) (64 * units Size)).
  - rewrite EFI_SIZE_TO_PAGES_eq, wrap_small by (unfold in_word; Z.div_mod_to_equations; lia).
    Z.div_mod_to_equations. lia.
  - lia.
Qed.

(** ** [UsbHcAllocateMem] *)

(** No block of the pool has room for the request. *)
Definition no_room (Size : Z) s : Prop :=
  forall a b j, blocks s !! a = Some b -> ~ fits (Bits b) (BitsLen b) (units Size) j.

(** The abstract allocation step: [r] is fresh, apart from every live
    allocation, and its bytes are zero. *)
Record allocated R0 Pool (A : gmap Z Z) (Size r : Z) s s' : Prop := {
  al_nonnull : r <> 0;
  al_inv : pool_inv R0 Pool (<[r := Size]> A) s';
  al_fresh : A !! r = None;
  al_apart : forall m n, A !! m = Some n -> apart r (64 * units Size) m (64 * units n);
  al_zero : forall x, r <= x < r + Size -> host_mem s' x = 0;
  al_frame : only_changes r Size (host_mem s) (host_mem s')
}.

Lemma finish_alloc R0 Pool A s0 s s' Size a b i bs' r :
  pool_inv R0 Pool A s -> 0 < Size <= max_size -> host_mem s = host_mem s0 ->
  alloc_at (units Size) a b i bs' r s s' ->
  wp (if negb (r =? 0) then _ ← zero_mem r Size; mret r else mret r) s'
    (fun r s' => allocated R0 Pool A Size r s0 s').
Proof.
  intros Hinv HS Hm Hat. rewrite (proj2 (Z.eqb_neq r 0)) by apply Hat. cbn [negb].
  destruct (pool_inv_alloc_at _ _ _ _ _ _ _ _ _ _ _ Hinv HS Hat) as (Hinv' & Hfr & Hap & Hm').
  unfold zero_mem. wp_go. split; try done; [by apply Hat | |].
  - intros x Hx. simpl. by apply fill_bytes_in.
  - intros x Hx. simpl. rewrite fill_bytes_out by (by apply in_range_false). by rewrite Hm', Hm.
Qed.

Lemma list_fuel Pool s l : store_list Pool (blocks s) l -> (length l < S (size (blocks s)))%nat.
Proof. intros Hl. apply store_list_length in Hl. lia. Qed.

Lemma allocate_mem_spec {HF : UsbFullMap P} R0 Pool A Size s :
  pool_inv R0 Pool A s -> 0 < Size <= max_size ->
  wp (UsbHcAllocateMem Pool Size) s (fun r s' =>
    (r = 0 /\ pool_inv R0 Pool A s' /\ host_mem s' = host_mem s /\ no_room Size s) \/
    allocated R0 Pool A Size r s s').
Proof.
  intros Hinv HS. pose proof Hinv as (HR & [l Hl] & HA).
  assert (HU : 0 < units Size) by (apply max_size_units; lia).
  assert (Hh0 : Head Pool <> 0).
  { destruct (sl_head _ _ _ Hl) as [t ->]. eapply is_list_nonzero; [apply Hl | set_solver]. }
  unfold UsbHcAllocateMem. change (USBHC_MEM_ROUND Size / USBHC_MEM_UNIT) with (units Size).
  fold (new_block_pages (USBHC_MEM_ROUND Size)).
  wp_go. apply wp_ASSERT; [by rewrite (proj2 (Z.eqb_neq _ _))|]. wp_go. apply wp_walk_fuel. wp_go.
  eapply wp_mono; [apply (alloc_from_list_spec (units Size) l); try done; [apply Hl | by eapply list_fuel |]|].
  { intros a b _. apply (sr_block _ _ _ _ HR). }
  intros r s' [(-> & -> & Hno)|(a & b & i & bs' & Ha & Hat)].
  2:{ assert (Hr : r <> 0) by apply Hat.
      eapply wp_mono; [|intros r' s'' Hf; right; exact Hf].
      pose proof (finish_alloc R0 Pool A s s s' Size a b i bs' r Hinv HS eq_refl Hat) as Hfin.
      by rewrite (proj2 (Z.eqb_neq r 0)) in * by done. }
  cbn [negb Z.eqb]. destruct (new_block_pages_enough Size HS) as [HPg Hen]. wp_go.
  eapply wp_mono; [apply alloc_mem_block_spec; [done | by intros a; eapply pool_block_res]|].
  assert (Hroom : no_room Size s).
  { intros a b j Hb. apply (Hno a b); [|done]. apply (sl_dom _ _ _ Hl). by eexists. }
  intros a s1 [Hm1 [(-> & Hb1 & R1)|(b & Hfb & Hnone)]].
  { wp_go. left. split; [done|]. split; [|done]. unfold pool_inv. by rewrite Hb1, R1. }
  assert (Ha0 : a <> 0) by apply Hfb. wp_go.
  eapply wp_mono; [by eapply insert_block_spec|].
  intros _ s2 (Hinv2 & Hm2 & b' & Hb' & [= E1 E2 E3]). wp_go.
  pose proof (sr_block _ _ _ _ (proj1 Hinv2) _ _ Hb') as Hok'.
  eapply wp_mono; [by apply (alloc_from_block_ok a (units Size) b' s2)|].
  intros r s3 [(_ & _ & Hbad)|(i & bs' & Hat)].
  - destruct (Hbad 0). apply clear_fits; [rewrite E1; apply Hfb|].
    rewrite E2. pose proof (bo_len b (fb_ok _ _ _ _ _ Hfb)). pose proof (fb_len _ _ _ _ _ Hfb). lia.
  - eapply wp_mono; [by eapply (finish_alloc R0 Pool A s s2); [| |congruence|]|].
    intros r' s4 Hf. by right.
Qed.

(** ** Releasing a block *)

Lemma free_mem_block_spec Pool a b s :
  a <> 0 -> a <> BitsPtr b -> blocks s !! a = Some b -> block_ok b ->
  owned a b ⊆ res (plat s) ->
  wp (UsbHcFreeMemBlock Pool a) s (fun _ s' =>
    blocks s' = delete a (blocks s) /\ host_mem s' = host_mem s /\
    res (plat s') = (res (plat s) ∖ owned a b)).
Proof.
  intros Ha Hab Hb Hok Hown. unfold UsbHcFreeMemBlock, do_plat, free_block.
  wp_go. apply wp_ASSERT; [by rewrite (proj2 (Z.eqb_neq _ _))|].
  wp_go. eapply wp_read_block; [done|]. wp_go. hc_simpl. split; [done|]. split; [done|].
  destruct (bo_pages b Hok) as (n & Hn & Hlen).
  assert (Hpg : EFI_SIZE_TO_PAGES (BufLen b) = BufLen b / 4096).
  { rewrite Hlen, EFI_SIZE_TO_PAGES_eq by lia. Z.div_mod_to_equations. lia. }
  rewrite Hpg. unfold owned in *.
  assert (Hm : RMap (Mapping b) ∈ res (plat s)) by (apply Hown; clear; set_solver).
  assert (Hh : RDma (BufHost b) (BufLen b / 4096) ∈ res (plat s))
    by (apply Hown; clear; set_solver).
  assert (Hq : RPool (BitsPtr b) ∈ res (plat s)) by (apply Hown; clear; set_solver).
  assert (Hx : RPool a ∈ res (plat s)) by (apply Hown; clear; set_solver).
  assert (Hne : RPool a <> RPool (BitsPtr b)) by congruence. clear Hown.
  pose proof (DmaUnmap_law _ _ Hm) as R1.
  set (p1 := DmaUnmap _ _) in *.
  assert (R2 := DmaFreeBuffer_law (BufLen b / 4096) (BufHost b) p1).
  rewrite R1, elem_of_difference, not_elem_of_singleton in R2. specialize (R2 ltac:(done)).
  set (p2 := DmaFreeBuffer _ _ _) in *.
  assert (R3 := FreePool_law (BitsPtr b) p2).
  rewrite R2, !elem_of_difference, !not_elem_of_singleton in R3. specialize (R3 ltac:(done)).
  rewrite FreePool_law, R3; [clear; set_solver|].
  by rewrite R3, !elem_of_difference, !not_elem_of_singleton.
Qed.

Lemma owned_subset R0 Pool bl r a b :
  store_res R0 Pool bl r -> bl !! a = Some b -> owned a b ⊆ r.
Proof. intros HR Hb x Hx. apply (sr_res _ _ _ _ HR). right. right. by exists a, b. Qed.

(** The state of a pool, live allocations aside. *)
Definition pool_store R0 Pool (l : list Z) s : Prop :=
  store_res R0 Pool (blocks s) (res (plat s)) /\ store_list Pool (blocks s) l.

(** [a] is gone from the pool; the other blocks keep bits and buffers. *)
Definition block_released R0 Pool (l : list Z) (a : Z) s s' : Prop :=
  (exists l', pool_store R0 Pool l' s' /\ S (length l') = length l) /\
  host_mem s' = host_mem s /\ core <$> blocks s' = core <$> delete a (blocks s).

Lemma unlink_free_spec R0 Pool l a s :
  pool_store R0 Pool l s -> a ∈ tail l ->
  wp (_ ← UsbHcUnlinkMemBlock (Head Pool) a; UsbHcFreeMemBlock Pool a) s
    (fun _ s' => block_released R0 Pool l a s s').
Proof.
  intros [HR Hl] Ha. assert (Hal : a ∈ l) by (destruct l; set_solver).
  assert (Ha0 : a <> 0) by (by eapply is_list_nonzero; [apply Hl|]).
  assert (Hh0 : Head Pool <> 0).
  { destruct (sl_head _ _ _ Hl) as [t ->]. eapply is_list_nonzero; [apply Hl | set_solver]. }
  destruct (proj2 (sl_dom _ _ _ Hl a) Hal) as [ab Hab].
  unfold UsbHcUnlinkMemBlock. wp_go. apply wp_ASSERT; [by rewrite !(proj2 (Z.eqb_neq _ _))|].
  wp_go. apply wp_walk_fuel. wp_go.
  eapply wp_mono; [apply (find_block_spec _ l); [apply Hl | by eapply list_fuel]|].
  intros x s' [-> [[-> Hno]|(Hx0 & Hx & xb & Hxb & Hn)]].
  { exfalso. destruct (is_list_pred _ _ _ _ (sl_list _ _ _ Hl) Ha) as (x & xb & Hx & Hxb & Hn).
    specialize (Hno x xb Hx Hxb). by rewrite Hn, Z.eqb_refl in Hno. }
  apply Z.eqb_eq in Hn.
  destruct (is_list_succ _ _ _ _ _ (sl_list _ _ _ Hl) Hx Hxb) as (l1 & l2 & El); [congruence|].
  rewrite Hn in El. assert (Hxa : x <> a).
  { intros ->. pose proof (sl_nodup _ _ _ Hl) as Hnd. rewrite El in Hnd.
    apply NoDup_app in Hnd as (_ & _ & [Hnd _]%NoDup_cons). apply Hnd, list_elem_of_here. }
  wp_go. eapply wp_read_block; [done|]. wp_go. eapply wp_update_block; [done|]. hc_simpl.
  eapply wp_update_block; [hc_simpl; by rewrite lookup_insert_ne|]. hc_simpl.
  pose proof (sr_block _ _ _ _ HR _ _ Hxb) as Hxok.
  pose proof (sr_block _ _ _ _ HR _ _ Hab) as Haok.
  set (bl1 := <[a := _]> _).
  assert (HR1 : store_res R0 Pool bl1 (res (plat s))).
  { apply (store_res_update _ _ _ _ a ab); [|by rewrite lookup_insert_ne|by destruct Haok; split|done..].
    apply (store_res_update _ _ _ _ x xb); try done. by destruct Hxok; split. }
  assert (Ha1 : bl1 !! a = Some (set_Next 0 ab)) by apply lookup_insert_eq.
  eapply wp_mono; [apply (free_mem_block_spec Pool a (set_Next 0 ab)); hc_simpl; try done|].
  { apply (sr_own _ _ _ _ HR a ab Hab). }
  { by destruct Haok; split. }
  { by eapply owned_subset. }
  intros _ s' (Hb' & Hm' & Hr'). hc_simpl. split; [|split; [done|]].
  - exists (l1 ++ x :: l2). split; [split|].
    + rewrite Hb', Hr'. by apply store_res_delete.
    + rewrite Hb'. apply store_list_remove; [|done..]. by rewrite <- El.
    + rewrite El, !length_app. simpl. lia.
  - rewrite Hb'. hc_simpl. unfold bl1. rewrite delete_insert_eq. apply map_eq. intros y.
    rewrite !lookup_fmap. destruct (decide (y = a)) as [->|]; [by rewrite !lookup_delete_eq|].
    rewrite !lookup_delete_ne by done. destruct (decide (y = x)) as [->|].
    + by rewrite lookup_insert_eq, Hxb.
    + by rewrite lookup_insert_ne.
Qed.

(** ** Finding the block of a live allocation *)

(** [sz] bytes at [q], rounded to units, lie in the allocation of [n] bytes at [m]. *)
Definition inside (q sz m n : Z) : Prop :=
  0 < sz <= n /\ m <= q /\ q + 64 * units sz <= m + 64 * units n.

Lemma inside_self m n : 0 < n -> inside m n m n.
Proof. unfold inside. lia. Qed.

Lemma contains_in_block R0 Pool A s m n q sz a b :
  pool_inv R0 Pool A s -> A !! m = Some n -> blocks s !! a = Some b -> inside q sz m n ->
  block_contains q (USBHC_MEM_ROUND sz) b = true <-> in_block b m n.
Proof.
  intros (HR & _ & HA) Hm Hb (Hsz & Hq & Hqe).
  destruct (ai_place _ _ HA m n Hm) as (Hn & a' & b' & Hb' & Hin).
  pose proof (sr_block _ _ _ _ HR _ _ Hb) as Hok. pose proof (sr_block _ _ _ _ HR _ _ Hb') as Hok'.
  destruct (in_block_range b' m n Hok' Hin), (max_size_units n Hn).
  destruct (bo_host b Hok), (bo_host b' Hok'), (bo_pages b Hok) as (pg & ? & ?).
  destruct (max_size_units sz ltac:(lia)). unfold max_size in *.
  unfold block_contains. rewrite ROUND_units, andb_true_iff, !Z.leb_le by lia.
  rewrite !wrap_small by (unfold in_word; lia). split.
  - intros [Hlo Hhi]. destruct (decide (a = a')) as [->|Hne]; [by simplify_eq|].
    destruct (sr_apart _ _ _ _ HR a b a' b' Hb Hb' Hne); lia.
  - intros Hin'. destruct (in_block_range b m n Hok Hin'). lia.
Qed.

Lemma find_live_block R0 Pool A s m n q sz l :
  pool_inv R0 Pool A s -> store_list Pool (blocks s) l -> A !! m = Some n -> inside q sz m n ->
  wp (find_block (S (size (blocks s))) (block_contains q (USBHC_MEM_ROUND sz)) (Head Pool)) s
    (fun a s' => s' = s /\ a <> 0 /\ a ∈ l /\ exists b, blocks s !! a = Some b /\ in_block b m n).
Proof.
  intros Hinv Hl Hm Hq.
  eapply wp_mono; [apply (find_block_spec _ l); [apply Hl | by eapply list_fuel]|].
  intros a s' [-> [[-> Hno]|(Ha & Hal & b & Hb & Hf)]]; (split; [done|]).
  - exfalso. pose proof Hinv as (_ & _ & HA).
    destruct (ai_place _ _ HA m n Hm) as (_ & a & b & Hb & Hin).
    rewrite <- (contains_in_block _ _ _ _ _ _ _ _ _ _ Hinv Hm Hb Hq) in Hin.
    rewrite (Hno a b) in Hin; [done | | done]. apply (sl_dom _ _ _ Hl). by exists b.
  - split; [done|]. split; [done|]. exists b. split; [done|].
    by rewrite <- (contains_in_block _ _ _ _ _ _ _ _ _ _ Hinv Hm Hb Hq).
Qed.

(** ** [UsbHcFreeMem] *)

Lemma clear_live_spec R0 Pool A s m n a b :
  pool_inv R0 Pool A s -> A !! m = Some n -> blocks s !! a = Some b -> in_block b m n ->
  wp (on_bits a (free_clear (Z.to_nat (units n))
       ((m - BufHost b) / USBHC_MEM_UNIT / 8, (m - BufHost b) / USBHC_MEM_UNIT mod 8))) s
    (fun _ s' => pool_inv R0 Pool (delete m A) s' /\ host_mem s' = host_mem s /\
      exists bs', bits_ok bs' (BitsLen b) /\ s' = set_blocks (<[a := set_Bits bs' b]> (blocks s)) s).
Proof.
  intros (HR & [l Hl] & HA) Hm Hb (u & Hmu & Hu & Hend).
  destruct (ai_place _ _ HA m n Hm) as (Hn & _). destruct (max_size_units n Hn) as [Hpos _].
  pose proof (sr_block _ _ _ _ HR _ _ Hb) as Hok.
  replace ((m - BufHost b) / USBHC_MEM_UNIT) with u
    by (unfold USBHC_MEM_UNIT; Z.div_mod_to_equations; lia).
  assert (Hlin : lin (u / 8, u mod 8) = u) by (unfold lin; simpl; Z.div_mod_to_equations; lia).
  destruct (wp_returns _ _ _ (free_clear_spec (Z.to_nat (units n)) (Bits b) (BitsLen b)
    (u / 8, u mod 8) (bo_bits b Hok) ltac:(split; simpl; Z.div_mod_to_equations; lia)
    ltac:(rewrite Hlin; lia)
    ltac:(intros j Hj; rewrite Hlin in Hj; apply (ai_bits _ _ HA a b j Hb); [lia|];
          exists m, n; split; [done | lia])))
    as ([] & bs' & Hrun & Hok' & Hbits).
  rewrite Hlin, Z2Nat.id in Hbits by lia.
  eapply returns_wp; [unfold on_bits; rewrite Hb, Hrun; reflexivity|].
  split; [split; [|split]; hc_simpl|split; [done|by exists bs']].
  - apply (store_res_update _ _ _ _ a b); try done. by destruct Hok; split.
  - exists l. by apply (store_list_update _ _ _ a b).
  - apply (alloc_inv_delete A (blocks s) a b bs' m n u); try done; [apply HR|].
    intros a' b' Hb' Hne. by apply (sr_apart _ _ _ _ HR a b a' b').
Qed.

Lemma pool_inv_released R0 Pool A s l a b s' :
  pool_inv R0 Pool A s -> block_released R0 Pool l a s s' -> blocks s !! a = Some b ->
  (forall i, 0 <= i < 8 * BitsLen b -> bitz (Bits b) i = false) ->
  pool_inv R0 Pool A s'.
Proof.
  intros (HR & _ & HA) ((l' & [HR' Hl'] & _) & _ & Hcore) Hb Hz. split; [done|].
  split; [by exists l'|]. apply (alloc_inv_core _ (delete a (blocks s))); [by rewrite Hcore|]. by eapply alloc_inv_drop.
Qed.

Lemma free_mem_spec R0 Pool A s m n :
  pool_inv R0 Pool A s -> A !! m = Some n ->
  wp (UsbHcFreeMem Pool m n) s (fun _ s' =>
    pool_inv R0 Pool (delete m A) s' /\ host_mem s' = host_mem s).
Proof.
  intros Hinv Hm. pose proof Hinv as (HR & [l Hl] & HA). unfold UsbHcFreeMem.
  change (USBHC_MEM_ROUND n / USBHC_MEM_UNIT) with (units n). wp_go. apply wp_walk_fuel. wp_go.
  destruct (ai_place _ _ HA m n Hm) as (Hn & _).
  eapply wp_mono; [eapply find_live_block; [exact Hinv | done | exact Hm | apply inside_self; lia]|].
  intros a s' (-> & Ha & Hal & b & Hb & Hin). wp_go. eapply wp_read_block; [done|].
  eapply wp_mono; [by eapply clear_live_spec|].
  intros _ s1 (Hinv1 & Hm1 & bs' & Hok' & ->). wp_go. apply wp_ASSERT; [done|].
  destruct (Z.eqb_spec a (Head Pool)) as [->|Hne]; wp_go; [done|].
  eapply wp_mono; [apply (is_mem_block_empty_spec a (set_Bits bs' b)); [apply lookup_insert_eq | done]|].
  intros e s2 [-> He]. destruct e; [|by wp_go].
  assert (Hl1 := store_list_update _ _ _ a b (set_Bits bs' b) Hl Hb eq_refl).
  eapply wp_mono; [apply (unlink_free_spec R0 Pool l)|].
  - split; [apply Hinv1 | done].
  - destruct (sl_head _ _ _ Hl) as [t ->]. set_solver.
  - intros ? s3 Hrel. split; [|exact (proj1 (proj2 Hrel))].
    eapply pool_inv_released; [exact Hinv1|exact Hrel|apply lookup_insert_eq|]. by apply He.
Qed.

(** ** [UsbHcGetAddressForHostMem] *)

Lemma get_address_spec R0 Pool A s m n q sz :
  pool_inv R0 Pool A s -> A !! m = Some n -> inside q sz m n ->
  wp (UsbHcGetAddressForHostMem Pool q sz) s (fun r s' => s' = s /\
    exists a b, blocks s !! a = Some b /\ in_block b m n /\ r = u64 (Buf b + (q - BufHost b))).
Proof.
  intros Hinv Hm Hq. pose proof Hinv as (HR & [l Hl] & HA). unfold UsbHcGetAddressForHostMem.
  destruct (ai_place _ _ HA m n Hm) as (Hn & a' & b' & Hb' & Hin').
  pose proof (sr_block _ _ _ _ HR _ _ Hb') as Hok'. destruct (bo_host b' Hok').
  destruct (in_block_range b' m n Hok' Hin'), (max_size_units n Hn).
  pose proof Hq as (Hsz & Hmq & Hqe). assert (Hq0 : q <> 0) by lia. wp_go.
  apply wp_walk_fuel. wp_go. eapply wp_mono; [by eapply find_live_block|].
  intros a s' (-> & Ha & Hal & b & Hb & Hin). wp_go. apply wp_ASSERT.
  { by rewrite (proj2 (Z.eqb_neq _ _)). }
  wp_go. eapply wp_read_block; [done|]. wp_go. split; [done|]. exists a, b.
  split; [done|]. split; [done|]. pose proof (sr_block _ _ _ _ HR _ _ Hb) as Hok.
  destruct (in_block_range b m n Hok Hin), (bo_host b Hok), (max_size_units sz ltac:(lia)).
  by rewrite (wrap_small 64 (q - BufHost b)) by (unfold in_word; lia).
Qed.

(** ** [UsbHcInitMemPool] and [UsbHcFreeMemPool] *)

Lemma init_pool_spec {HF : UsbFullMap P} check4G which4G s :
  blocks s = ∅ ->
  wp (UsbHcInitMemPool check4G which4G) s (fun r s' => host_mem s' = host_mem s /\
    match r with
    | None => blocks s' = ∅ /\ res (plat s') = res (plat s)
    | Some Pool => Check4G Pool = check4G /\ Which4G Pool = which4G /\
        pool_inv (res (plat s)) Pool ∅ s'
    end).
Proof.
  intros He. unfold UsbHcInitMemPool, do_plat. wp_go. apply wp_call. intros p p1 H1.
  apply AllocatePool_law in H1 as [[-> R1]|(Hp & Hfr & R1)]; wp_go; [done|].
  eapply wp_mono; [apply alloc_mem_block_spec; [done|]|].
  { hc_simpl. rewrite He. intros a [b Hb]. done. }
  hc_simpl. intros h s1 [Hm [(-> & Hb & R2)|(b & [[Hh Hhb] Hb Hok Hlen Hn Hz Hd R2 Hap] & Hno)]].
  { wp_go. hc_simpl. split; [done|]. split; [by rewrite Hb|].
    apply FreePool_undo; [by rewrite R2, R1 | done]. }
  wp_go. split; [done|]. split; [done|]. split; [done|]. simpl in *. rewrite He in Hb.
  unfold pool_inv. rewrite Hb, R2, R1. split; [|split].
  - rewrite R1 in Hd. apply store_res_insert; [|done..]. split; try done.
    intros x. rewrite elem_of_union, elem_of_singleton. simpl. split; [|].
    + intros [->|?]; [by right; left | by left].
    + intros [?|[?|(? & ? & ? & _)]]; [by right | by left | done].
  - exists [h]. split; simpl.
    + split; [done|]. split; [done|]. exists b. by rewrite lookup_insert_eq.
    + by exists [].
    + apply NoDup_singleton.
    + intros a. rewrite lookup_insert_is_Some, list_elem_of_singleton. split.
      * by intros [->|[_ [? ?]]].
      * intros ->. by left.
  - apply (alloc_inv_new ∅ ∅); done.
Qed.

Lemma free_blocks_spec R0 Pool fuel : forall l s,
  pool_store R0 Pool l s -> (length l <= fuel)%nat ->
  wp (free_blocks_after_head fuel Pool) s (fun _ s' =>
    pool_store R0 Pool [Head Pool] s' /\ host_mem s' = host_mem s).
Proof.
  induction fuel as [|fuel IH]; intros l s [HR Hl] Hlen;
    destruct (sl_head _ _ _ Hl) as [t ->]; simpl in Hlen; [lia|].
  destruct (sl_list _ _ _ Hl) as (_ & Hh0 & b & Hb & Ht).
  cbn [free_blocks_after_head]. wp_go. eapply wp_read_block; [done|].
  destruct t as [|a t]; simpl in Ht.
  - rewrite Ht. cbn [Z.eqb]. by wp_go.
  - destruct Ht as (Hn & Ha & _). rewrite Hn in *. wp_go.
    pose proof (unlink_free_spec R0 Pool (Head Pool :: a :: t) a s
      (conj HR Hl) (list_elem_of_here _ _)) as Hrel.
    apply wp_bind_inv in Hrel. eapply wp_mono; [exact Hrel|]. intros ? s1 Hfree. wp_go.
    eapply wp_mono; [exact Hfree|]. intros _ s2 ((l' & Hl' & Hlen') & Hm & _).
    eapply wp_mono; [apply (IH l'); [done | simpl in *; lia]|].
    intros _ s3 [Hs3 Hm3]. split; [done | congruence].
Qed.

Lemma free_pool_spec R0 Pool A s :
  pool_inv R0 Pool A s ->
  wp (UsbHcFreeMemPool Pool) s (fun r s' =>
    r = EFI_SUCCESS /\ blocks s' = ∅ /\ res (plat s') = R0 /\ host_mem s' = host_mem s).
Proof.
  intros (HR & [l Hl] & _). unfold UsbHcFreeMemPool, do_plat.
  assert (Hh0 : Head Pool <> 0).
  { destruct (sl_head _ _ _ Hl) as [t ->]. eapply is_list_nonzero; [apply Hl | set_solver]. }
  wp_go. apply wp_ASSERT; [by rewrite (proj2 (Z.eqb_neq _ _))|].
  wp_go. apply wp_walk_fuel. wp_go.
  eapply wp_mono; [apply (free_blocks_spec R0 Pool _ l); [by split|]|].
  { pose proof (list_fuel _ _ _ Hl). lia. }
  intros _ s1 [[HR1 Hl1] Hm1]. destruct (sl_list _ _ _ Hl1) as (_ & _ & b & Hb & _). wp_go.
  eapply wp_mono; [apply (free_mem_block_spec Pool (Head Pool) b); try done|].
  { apply (sr_own _ _ _ _ HR1 _ _ Hb). }
  { apply (sr_block _ _ _ _ HR1 _ _ Hb). }
  { by eapply owned_subset. }
  intros _ s2 (Hb2 & Hm2 & R2). wp_go. hc_simpl. split; [done|].
  assert (He : delete (Head Pool) (blocks s1) = ∅).
  { apply map_eq. intros x. rewrite lookup_empty, eq_None_not_Some, lookup_delete_is_Some.
    intros [Hx [c Hc]]. assert (x ∈ [Head Pool]) by (apply (sl_dom _ _ _ Hl1); by exists c).
    set_solver. }
  split; [by rewrite Hb2|]. split; [|congruence].
  pose proof (store_res_delete _ _ _ _ _ _ HR1 Hb) as HR2. rewrite He, <- R2 in HR2.
  apply FreePool_undo; [|apply (sr_pool _ _ _ _ HR2)]. apply set_eq. intros x.
  rewrite (sr_res _ _ _ _ HR2), elem_of_union, elem_of_singleton. split.
  - intros [?|[?|(? & ? & ? & _)]]; [by right | by left | done].
  - intros [?|?]; [by right; left | by left].
Qed.
End Ops.
