(* ===== verification/UsbHcProps.v ===== *)
(** * Properties of the USB memory pool

    The contract of the pool towards the OHCI driver, for any platform that
    satisfies its documented laws, and a small platform the contract is run on. *)

From Stdlib Require Import ZArith Lia.
From stdpp Require Import base list numbers gmap relations.
From S2P Require Import Prelude Memory UsbHcMem UsbHcPool UsbHcSpec.

(** ** A concrete platform

    Addresses are handed out upwards from [brk]; a request that would collide
    with something held is refused.  [full] tells whether DMA mappings cover
    the whole buffer. *)

Module Demo.
Record platform (full : bool) := { held : gset resource; brk : Z }.
Arguments held {full}. Arguments brk {full}. Arguments Build_platform {full}.

Section Ops.
Context {full : bool}.
Abbreviation plat := (platform full).

Definition take (r : resource) (n : Z) (p : plat) : plat :=
  {| held := {[r]} ∪ held p; brk := brk p + n |}.
Definition drop (r : resource) (p : plat) : plat :=
  {| held := held p ∖ {[r]}; brk := brk p |}.

Definition pool_alloc (n : Z) (p : plat) : Z * plat :=
  if decide (brk p = 0 \/ RPool (brk p) ∈ held p) then (0, p)
  else (brk p, take (RPool (brk p)) (n + 16) p).

Definition clear_of (h n : Z) (r : resource) : bool :=
  match r with
  | RDma h' n' => (h + 4096 * n <=? h') || (h' + 4096 * n' <=? h)
  | _ => true
  end.

Definition dma_alloc (n : Z) (p : plat) : (Z * Z) * plat :=
  let h := 4096 * (brk p / 4096 + 1) in
  if (0 <? h) && (h + 4096 * n <? 2 ^ 64) && forallb (clear_of h n) (elements (held p))
  then ((EFI_SUCCESS, h), take (RDma h n) (4096 * (n + 2)) p)
  else ((EFI_OUT_OF_RESOURCES, 0), p).

Definition dma_map (h n : Z) (p : plat) : dma_mapping * plat :=
  if decide (RMap (brk p) ∈ held p)
  then ({| map_status := EFI_OUT_OF_RESOURCES; map_bytes := 0; map_bus := 0; map_handle := 0 |}, p)
  else ({| map_status := EFI_SUCCESS; map_bytes := if full then n else n - 1;
           map_bus := h + 2 ^ 32; map_handle := brk p |}, take (RMap (brk p)) 1 p).

#[export] Instance ops : UsbPlatform plat := {
  AllocateZeroPool := pool_alloc;
  AllocatePool := pool_alloc;
  FreePool := fun a => drop (RPool a);
  DmaAllocateBuffer := dma_alloc;
  DmaMap := dma_map;
  DmaUnmap := fun h => drop (RMap h);
  DmaFreeBuffer := fun n h => drop (RDma h n)
}.

Lemma pool_alloc_law n p a p' : pool_alloc n p = (a, p') ->
  (a = 0 /\ held p' = held p) \/
  (a <> 0 /\ ~ (RPool a ∈ held p) /\ held p' = ({[RPool a]} ∪ held p)).
Proof.
  unfold pool_alloc. destruct (decide _) as [|Hn]; intros [= <- <-]; [by left | right].
  split; [|split]; [by intros ?; apply Hn; left | by intros ?; apply Hn; right | done].
Qed.

Lemma dma_alloc_law n p st h p' : 0 < n -> dma_alloc n p = ((st, h), p') ->
  if EFI_ERROR st then held p' = held p else
  0 < h /\ h + 4096 * n < 2 ^ 64 /\
  (forall h' n', RDma h' n' ∈ held p -> apart h (4096 * n) h' (4096 * n')) /\
  held p' = ({[RDma h n]} ∪ held p).
Proof.
  intros Hn. unfold dma_alloc. destruct (_ && _) eqn:E; intros [= <- <- <-]; simpl; [|done].
  rewrite !andb_true_iff, !Z.ltb_lt, forallb_forall in E. destruct E as [[H1 H2] H3].
  split; [done|]. split; [done|]. split; [|done]. intros h' n' Hin.
  specialize (H3 (RDma h' n')). rewrite <- list_elem_of_In, elem_of_elements in H3.
  specialize (H3 Hin). simpl in H3. rewrite orb_true_iff, !Z.leb_le in H3. exact H3.
Qed.

Lemma dma_map_law h n p m p' : dma_map h n p = (m, p') ->
  if EFI_ERROR (map_status m) then held p' = held p else
  ~ (RMap (map_handle m) ∈ held p) /\ held p' = ({[RMap (map_handle m)]} ∪ held p).
Proof. unfold dma_map. by destruct (decide _); intros [= <- <-]. Qed.

#[export] Instance laws : UsbPlatformLaws plat.
Proof.
  refine {| res := held |}; try done.
  - apply pool_alloc_law.
  - apply pool_alloc_law.
  - apply dma_alloc_law.
  - apply dma_map_law.
Defined.
End Ops.

#[export] Instance full_map : UsbFullMap (platform true).
Proof. split. intros h n p m p'. cbn. unfold dma_map. by destruct (decide _); intros [= <- <-]. Qed.

#[export] Instance debug : Build := {| debug_build := true |}.

Definition boot (full : bool) : hc_state (platform full) :=
  {| blocks := ∅; host_mem := fun _ => 255; UsbHcMem.plat := {| held := ∅; brk := 2 ^ 20 |} |}.

Definition no_pool : USBHC_MEM_POOL :=
  {| pool_addr := 0; Check4G := false; Which4G := 0; Head := 0 |}.

(** A pool on the demo platform, and the state it is created in. *)
Definition started : USBHC_MEM_POOL * hc_state (platform true) :=
  match UsbHcInitMemPool true 1 (boot true) with
  | Ret (Some Pool) s => (Pool, s)
  | _ => (no_pool, boot true)
  end.

Lemma started_inv : pool_inv ∅ (fst started) ∅ (snd started) /\
  UsbHcInitMemPool true 1 (boot true) = Ret (Some (fst started)) (snd started).
Proof.
  destruct (wp_returns _ _ _ (init_pool_spec true 1 (boot true) eq_refl))
    as (r & s' & E & _ & Hr).
  assert (Hs : match UsbHcInitMemPool true 1 (boot true) with
               | Ret (Some _) _ => True | _ => False end) by (vm_compute; exact I).
  rewrite E in Hs. unfold started. rewrite E. destruct r as [Pool|]; [|destruct Hs].
  destruct Hr as (_ & _ & Hr). split; [exact Hr | exact eq_refl].
Qed.

(** One allocation of 100 bytes, made on the demo pool. *)
Definition with_100 : Z * hc_state (platform true) :=
  match UsbHcAllocateMem (fst started) 100 (snd started) with
  | Ret r s => (r, s) | Stop _ => (0, snd started) end.

Lemma with_100_inv : pool_inv ∅ (fst started) {[fst with_100 := 100]} (snd with_100) /\
  UsbHcAllocateMem (fst started) 100 (snd started) = Ret (fst with_100) (snd with_100) /\
  fst with_100 <> 0.
Proof.
  destruct (wp_returns _ _ _ (allocate_mem_spec ∅ (fst started) ∅ 100 (snd started)
    (proj1 started_inv) ltac:(unfold max_size; lia))) as (r & s' & E & Hr).
  assert (Hs : match UsbHcAllocateMem (fst started) 100 (snd started) with
               | Ret 0 _ => False | _ => True end) by (vm_compute; exact I).
  rewrite E in Hs. unfold with_100. rewrite E. destruct Hr as [(-> & _)|Hr]; [destruct Hs|].
  split; [apply (al_inv _ _ _ _ _ _ _ Hr)|]. split; [exact eq_refl | apply (al_nonnull _ _ _ _ _ _ _ Hr)].
Qed.
End Demo.

(** ** The driver as a client of the pool *)

Section Client.
Context {B : Build} {P : Type} {HP : UsbPlatform P} {HL : UsbPlatformLaws P}.
Implicit Types (s : hc_state P) (A : gmap Z Z).

(** One request of the driver; [who] is the allocation it concerns. *)
Inductive client_step (Pool : USBHC_MEM_POOL) (who : Z) :
    gmap Z Z * hc_state P -> gmap Z Z * hc_state P -> Prop :=
| client_alloc A s n s' :
    0 < n <= max_size -> UsbHcAllocateMem Pool n s = Ret who s' ->
    client_step Pool who (A, s) (if who =? 0 then A else <[who := n]> A, s')
| client_free A s n s' :
    A !! who = Some n -> UsbHcFreeMem Pool who n s = Ret tt s' ->
    client_step Pool who (A, s) (delete who A, s')
| client_write A s n x bs :
    A !! who = Some n -> who <= x -> x + Z.of_nat (length bs) <= who + n ->
    client_step Pool who (A, s) (A, set_host_mem (write_bytes (host_mem s) x bs) s).

Definition client_run Pool := rtc (fun c c' => exists who, client_step Pool who c c').

Lemma client_step_inv {HF : UsbFullMap P} R0 Pool who A s A' s' :
  client_step Pool who (A, s) (A', s') -> pool_inv R0 Pool A s -> pool_inv R0 Pool A' s'.
Proof.
  intros Hstep Hinv. inversion Hstep as [? ? n ? Hn E|? ? n ? Hm E|]; subst.
  - destruct (wp_Ret _ _ _ _ _ E (allocate_mem_spec R0 Pool A n s Hinv Hn))
      as [(-> & Hinv' & _)|Hal]; [done|].
    rewrite (proj2 (Z.eqb_neq who 0)) by apply Hal. apply (al_inv _ _ _ _ _ _ _ Hal).
  - apply (wp_Ret _ _ _ _ _ E (free_mem_spec R0 Pool A s who n Hinv Hm)).
  - done.
Qed.

Lemma client_run_inv {HF : UsbFullMap P} R0 Pool c c' :
  client_run Pool c c' -> pool_inv R0 Pool c.1 c.2 -> pool_inv R0 Pool c'.1 c'.2.
Proof.
  induction 1 as [|[A s] [A' s'] c' [who Hstep] _ IH]; [done|].
  intros Hinv. apply IH. by eapply client_step_inv.
Qed.

(** What every client may rely on in a state of the pool. *)
Record pool_safe (Pool : USBHC_MEM_POOL) (R0 : gset resource) A s : Prop := {
  safe_apart : forall m n m' n', A !! m = Some n -> A !! m' = Some n' -> m <> m' -> apart m n m' n';
  safe_alloc : forall n, 0 < n <= max_size -> exists r s', UsbHcAllocateMem Pool n s = Ret r s';
  safe_free : forall m n, A !! m = Some n -> exists s', UsbHcFreeMem Pool m n s = Ret tt s';
  safe_close : exists s', UsbHcFreeMemPool Pool s = Ret EFI_SUCCESS s' /\ res (plat s') = R0
}.

Lemma pool_inv_safe {HF : UsbFullMap P} R0 Pool A s :
  pool_inv R0 Pool A s -> pool_safe Pool R0 A s.
Proof.
  intros Hinv. split.
  - intros m n m' n' Hm Hm' Hne. destruct Hinv as (_ & _ & HA).
    destruct (ai_place _ _ HA _ _ Hm) as [Hn _], (ai_place _ _ HA _ _ Hm') as [Hn' _].
    destruct (max_size_units n Hn), (max_size_units n' Hn').
    destruct (ai_apart _ _ HA _ _ _ _ Hm Hm' Hne); unfold apart; lia.
  - intros n Hn. destruct (wp_returns _ _ _ (allocate_mem_spec R0 Pool A n s Hinv Hn))
      as (r & s' & E & _). by exists r, s'.
  - intros m n Hm. destruct (wp_returns _ _ _ (free_mem_spec R0 Pool A s m n Hinv Hm))
      as ([] & s' & E & _). by exists s'.
  - destruct (wp_returns _ _ _ (free_pool_spec R0 Pool A s Hinv)) as (r & s' & E & -> & _ & Hr & _).
    by exists s'.
Qed.


(** a request about one allocation leaves every other live
    allocation live and its bytes unchanged. *)
Theorem usb_client_isolation {HF : UsbFullMap P} R0 Pool who A s A' s' m n :
  pool_inv R0 Pool A s -> client_step Pool who (A, s) (A', s') ->
  A !! m = Some n -> m <> who ->
  A' !! m = Some n /\ forall x, m <= x < m + n -> host_mem s' x = host_mem s x.
Proof.
  intros Hinv Hstep Hm Hne. pose proof Hinv as (_ & _ & HA).
  destruct (ai_place _ _ HA _ _ Hm) as [Hn _]. destruct (max_size_units n Hn).
  inversion Hstep as [? ? k ? Hk E|? ? k ? Hk E|? ? k x bs Hk Hx Hend]; subst.
  - destruct (wp_Ret _ _ _ _ _ E (allocate_mem_spec R0 Pool A k s Hinv Hk))
      as [(-> & _ & -> & _)|Hal]; [done|]. destruct (max_size_units k Hk).
    rewrite (proj2 (Z.eqb_neq who 0)) by apply Hal.
    rewrite lookup_insert_ne by done. split; [done|]. intros x Hx.
    apply (al_frame _ _ _ _ _ _ _ Hal), in_range_false.
    destruct (al_apart _ _ _ _ _ _ _ Hal m n Hm); lia.
  - destruct (wp_Ret _ _ _ _ _ E (free_mem_spec R0 Pool A s who k Hinv Hk)) as [_ ->].
    by rewrite lookup_delete_ne.
  - split; [done|]. intros y Hy. simpl. apply write_bytes_out.
    destruct (ai_place _ _ HA _ _ Hk) as [Hk' _]. destruct (max_size_units k Hk').
    destruct (ai_apart _ _ HA _ _ _ _ Hm Hk Hne); lia.
Qed.

(** [UsbHcAllocateMem] returns either NULL, and then no block had a
    free run of the size and the pool is as before up to new empty blocks, or
    a zeroed block of memory disjoint from all live allocations, changing no
    other byte. *)
Theorem UsbHcAllocateMem_correct {HF : UsbFullMap P} R0 Pool A Size s :
  pool_inv R0 Pool A s -> 0 < Size <= max_size ->
  exists r s', UsbHcAllocateMem Pool Size s = Ret r s' /\
    ((r = 0 /\ pool_inv R0 Pool A s' /\ host_mem s' = host_mem s /\ no_room Size s) \/
     allocated R0 Pool A Size r s s').
Proof. intros Hinv HS. apply wp_returns. by apply allocate_mem_spec. Qed.

(** freeing a live allocation returns without tripping an assertion,
    ends exactly that allocation, and touches no buffer byte; the invariant
    it keeps accounts for the resources of a block that is unlinked. *)
Theorem UsbHcFreeMem_correct R0 Pool A s m n :
  pool_inv R0 Pool A s -> A !! m = Some n ->
  exists s', UsbHcFreeMem Pool m n s = Ret tt s' /\
    pool_inv R0 Pool (delete m A) s' /\ host_mem s' = host_mem s.
Proof.
  intros Hinv Hm. destruct (wp_returns _ _ _ (free_mem_spec _ _ _ _ _ _ Hinv Hm))
    as ([] & s' & Hs'). by exists s'.
Qed.

(** closing a pool frees every block it reaches, whatever is still
    allocated, and leaves the platform with the resources of others only. *)
Theorem UsbHcFreeMemPool_returns_resources R0 Pool A s :
  pool_inv R0 Pool A s ->
  exists s', UsbHcFreeMemPool Pool s = Ret EFI_SUCCESS s' /\
    blocks s' = ∅ /\ res (plat s') = R0.
Proof.
  intros Hinv. destruct (wp_returns _ _ _ (free_pool_spec _ _ _ _ Hinv))
    as (r & s' & E & -> & ? & ? & _). by exists s'.
Qed.

(** the bus address of memory inside a live allocation is found
    through the block that holds the allocation, at the same offset from the
    block's bus address as from its host address, and the lookup changes
    nothing. *)
Theorem UsbHcGetAddressForHostMem_correct R0 Pool A s m n q sz :
  pool_inv R0 Pool A s -> A !! m = Some n -> inside q sz m n ->
  exists r a b, UsbHcGetAddressForHostMem Pool q sz s = Ret r s /\
    blocks s !! a = Some b /\ in_block b m n /\ r = u64 (Buf b + (q - BufHost b)).
Proof.
  intros Hinv Hm Hq. destruct (wp_returns _ _ _ (get_address_spec _ _ _ _ _ _ _ _ Hinv Hm Hq))
    as (r & s' & E & -> & a & b & Hb). by exists r, a, b.
Qed.

(** allocation from one block returns NULL and changes nothing exactly
    when no run of [Units] clear bits exists; otherwise it takes the lowest
    such run, and sets precisely its bits. *)
Theorem UsbHcAllocMemFromBlock_first_fit a Units b s :
  a <> 0 -> 0 < Units -> blocks s !! a = Some b -> bits_ok (Bits b) (BitsLen b) ->
  exists r s', UsbHcAllocMemFromBlock a Units s = Ret r s' /\ block_alloc_post a Units b s r s'.
Proof. intros Ha HU Hb Hok. apply wp_returns. by apply alloc_from_block_spec. Qed.
End Client.

(** A successful mapping that covers less than the buffer. *)
Section ShortMap.
Context {B : Build} {P : Type} {HP : UsbPlatform P} {HL : UsbPlatformLaws P}.

(** when a mapping succeeds but covers fewer bytes than the buffer, the
    block allocation fails without unmapping: the new mapping stays held. *)
Theorem UsbHcAllocMemBlock_short_map_leaks Pool Pages (s : hc_state P) a p1 q p2 st h p3 m p4 :
  0 < Pages < 2 ^ 52 ->
  AllocateZeroPool sizeof_BLOCK (plat s) = (a, p1) -> a <> 0 ->
  AllocateZeroPool (8 * Pages) p1 = (q, p2) -> q <> 0 ->
  DmaAllocateBuffer Pages p2 = ((st, h), p3) -> EFI_ERROR st = false ->
  DmaMap h (4096 * Pages) p3 = (m, p4) -> EFI_ERROR (map_status m) = false ->
  map_bytes m <> 4096 * Pages ->
  exists s', UsbHcAllocMemBlock Pool Pages s = Ret 0 s' /\
    res (plat s') = ({[RMap (map_handle m)]} ∪ res (plat s)).
Proof.
  intros HPg E1 Ha E2 Hq E3 Hst E4 Hm Hshort.
  apply AllocateZeroPool_law in E1 as L1. destruct L1 as [[? _]|(_ & F1 & R1)]; [done|].
  apply AllocateZeroPool_law in E2 as L2. destruct L2 as [[? _]|(_ & F2 & R2)]; [done|].
  apply DmaAllocateBuffer_law in E3 as L3; [|lia]. rewrite Hst in L3.
  destruct L3 as (_ & _ & Hap & R3). apply DmaMap_law in E4 as L4. rewrite Hm in L4.
  destruct L4 as [F4 R4].
  assert (F3 : ~ (RDma h Pages ∈ res p2)) by (intros Hin; destruct (Hap _ _ Hin); lia).
  unfold UsbHcAllocMemBlock, FREE_BUFFER, FREE_BITARRAY, new_block, free_block, do_plat.
  assert (Hwp : wp (UsbHcAllocMemBlock Pool Pages) s (fun r s' =>
    r = 0 /\ res (plat s') = ({[RMap (map_handle m)]} ∪ res (plat s)))).
  2: { destruct (wp_returns _ _ _ Hwp) as (r & s' & E & -> & Hr). by exists s'. }
  unfold UsbHcAllocMemBlock, FREE_BUFFER, FREE_BITARRAY, new_block, free_block, do_plat.
  rewrite EFI_PAGES_TO_SIZE_eq by lia.
  replace (4096 * Pages / (USBHC_MEM_UNIT * 8)) with (8 * Pages)
    by (unfold USBHC_MEM_UNIT; Z.div_mod_to_equations; lia).
  wp_go. apply wp_call. intros ? ? [= <- <-]%(eq_trans (eq_sym E1)). wp_go.
  apply wp_ASSERT; [done|]. wp_go. eapply wp_update_block; [apply lookup_insert_eq|]. hc_simpl.
  wp_go. apply wp_call. intros ? ? [= <- <-]%(eq_trans (eq_sym E2)). wp_go.
  eapply wp_update_block; [apply lookup_insert_eq|]. hc_simpl.
  wp_go. apply wp_call. intros ? ? [= <- <-]%(eq_trans (eq_sym E3)). rewrite Hst. wp_go.
  apply wp_call. intros ? ? [= <- <-]%(eq_trans (eq_sym E4)).
  rewrite Hm, (proj2 (Z.eqb_neq _ _) Hshort). cbn [orb negb]. wp_go. hc_simpl. split; [done|].
  rewrite R3, R2, R1 in F4, R4. rewrite R2, R1 in F3. rewrite R1 in F2. set (h' := RMap _) in *.
  set (r0 := res (plat s)) in *.
  assert (R5 : res (DmaFreeBuffer Pages h p4) = {[RPool q]} ∪ ({[RPool a]} ∪ ({[h']} ∪ r0))).
  { rewrite DmaFreeBuffer_law; [|rewrite R4; clear; set_solver]. rewrite R4.
    unfold h' in *. clear -F3. set_solver. }
  apply FreePool_undo; [apply FreePool_undo; [done|]|]; unfold h' in *; clear -F1 F2; set_solver.
Qed.
End ShortMap.

(** ** The contract on the demo platform *)

Module Runs.
Import Demo.


(** A write to the second of two allocations leaves the first one alone. *)
Definition with_200 : Z * hc_state (platform true) :=
  match UsbHcAllocateMem (fst started) 200 (snd with_100) with
  | Ret r s => (r, s) | Stop _ => (0, snd with_100) end.

Lemma usb_client_isolation_witness :
  (<[fst with_200 := 200]> {[fst with_100 := 100]} : gmap Z Z) !! (fst with_100) = Some 100 /\
  forall x, fst with_100 <= x < fst with_100 + 100 ->
    host_mem (snd with_200) x = host_mem (snd with_100) x.
Proof.
  assert (Hrun : UsbHcAllocateMem (fst started) 200 (snd with_100) =
                 Ret (fst with_200) (snd with_200)).
  { unfold with_200. destruct (UsbHcAllocateMem _ _ _) eqn:E; [exact eq_refl|].
    destruct (wp_returns _ _ _ (allocate_mem_spec ∅ (fst started) _ 200 _ (proj1 with_100_inv)
      ltac:(unfold max_size; lia))) as (r & s' & E' & _).
    rewrite E in E'. discriminate E'. }
  assert (Hne : (fst with_200 =? 0) = false) by (vm_compute; exact eq_refl).
  assert (Hdiff : (fst with_100 =? fst with_200) = false) by (vm_compute; exact eq_refl).
  pose proof (client_alloc (fst started) (fst with_200) {[fst with_100 := 100]} (snd with_100) 200
    (snd with_200) ltac:(unfold max_size; lia) Hrun) as Hstep. rewrite Hne in Hstep.
  apply (usb_client_isolation ∅ (fst started) (fst with_200) {[fst with_100 := 100]}
    (snd with_100) _ (snd with_200) (fst with_100) 100 (proj1 with_100_inv) Hstep).
  - apply lookup_singleton_eq.
  - exact (proj1 (Z.eqb_neq _ _) Hdiff).
Defined.

Lemma UsbHcAllocateMem_correct_witness :
  exists r s', UsbHcAllocateMem (fst started) 5000 (snd started) = Ret r s' /\
    ((r = 0 /\ pool_inv ∅ (fst started) ∅ s' /\ host_mem s' = host_mem (snd started) /\
      no_room 5000 (snd started)) \/
     allocated ∅ (fst started) ∅ 5000 r (snd started) s').
Proof.
  apply UsbHcAllocateMem_correct; [exact (proj1 started_inv) | unfold max_size; lia].
Defined.

Lemma UsbHcFreeMem_correct_witness :
  exists s', UsbHcFreeMem (fst started) (fst with_100) 100 (snd with_100) = Ret tt s' /\
    pool_inv ∅ (fst started) (delete (fst with_100) {[fst with_100 := 100]}) s' /\
    host_mem s' = host_mem (snd with_100).
Proof.
  apply UsbHcFreeMem_correct; [exact (proj1 with_100_inv) | apply lookup_singleton_eq].
Defined.

Lemma UsbHcFreeMemPool_returns_resources_witness :
  exists s', UsbHcFreeMemPool (fst started) (snd with_100) = Ret EFI_SUCCESS s' /\
    blocks s' = ∅ /\ res (plat s') = ∅.
Proof. exact (UsbHcFreeMemPool_returns_resources _ _ _ _ (proj1 with_100_inv)). Defined.

Lemma UsbHcGetAddressForHostMem_correct_witness :
  exists r a b,
    UsbHcGetAddressForHostMem (fst started) (fst with_100 + 64) 30 (snd with_100) =
      Ret r (snd with_100) /\
    blocks (snd with_100) !! a = Some b /\ in_block b (fst with_100) 100 /\
    r = u64 (Buf b + (fst with_100 + 64 - BufHost b)).
Proof.
  apply (UsbHcGetAddressForHostMem_correct ∅ (fst started) {[fst with_100 := 100]}
    (snd with_100) (fst with_100) 100 (fst with_100 + 64) 30 (proj1 with_100_inv)).
  - apply lookup_singleton_eq.
  - unfold inside. rewrite !units_eq by lia.
    change ((30 + 63) / 64) with 1. change ((100 + 63) / 64) with 2. lia.
Defined.

Definition two_units : USBHC_MEM_BLOCK :=
  {| Bits := [0x1b]; BitsPtr := 64; BitsLen := 1; Buf := 0; BufHost := 4096; BufLen := 512;
     Mapping := 1; Next := 0 |}.

Definition one_block : hc_state (platform true) := set_blocks {[128 := two_units]} (boot true).

(** The free runs start at units 2 and 5; two units go to 5. *)
Example first_fit_run :
  match UsbHcAllocMemFromBlock 128 2 one_block with
  | Ret r s => (r, Bits <$> blocks s !! 128) | Stop _ => (0, None) end
  = (4096 + 5 * 64, Some [0x7b]).
Proof. vm_compute. reflexivity. Qed.

Lemma UsbHcAllocMemFromBlock_first_fit_witness :
  exists r s', UsbHcAllocMemFromBlock 128 2 one_block = Ret r s' /\
    block_alloc_post 128 2 two_units one_block r s'.
Proof.
  apply UsbHcAllocMemFromBlock_first_fit; [lia | lia | apply lookup_singleton_eq |].
  split; [exact eq_refl|]. apply Forall_singleton. unfold is_byte, in_word. simpl. lia.
Defined.

Lemma UsbHcAllocMemBlock_short_map_leaks_witness :
  exists h s', UsbHcAllocMemBlock no_pool 16 (boot false) = Ret 0 s' /\
    res (plat s') = ({[RMap h]} ∪ res (plat (boot false))).
Proof.
  eexists. eapply (UsbHcAllocMemBlock_short_map_leaks no_pool 16 (boot false)).
  - lia.
  - vm_compute; exact eq_refl.
  - lia.
  - vm_compute; exact eq_refl.
  - lia.
  - vm_compute; exact eq_refl.
  - exact eq_refl.
  - vm_compute; exact eq_refl.
  - exact eq_refl.
  - vm_compute; intros Hbad; discriminate Hbad.
Defined.
End Runs.
