(* ===== verification/Fvb.v ===== *)
(** * Firmware volume block service

    Model of [Platforms/Rk356xPkg/Drivers/VarBlockServiceDxe]
    ([VarBlockService.c], [VarBlockServiceDxe.c], [FvbInfo.c]): the variable
    store, a firmware volume held in memory and dumped to the boot disk.  The
    volume header, its block map and the caller's buffers are bytes of one
    memory, so overlapping copies and an erased header behave as in the code. *)

From Stdlib Require Import ZArith Lia.
From stdpp Require Import base list numbers.
From S2P Require Import Prelude Memory.

(** ** Volume header layout (PI specification, [EFI_FIRMWARE_VOLUME_HEADER]) *)

Definition FV_FvLength : Z := 32.        (* UINT64 *)
Definition FV_Signature : Z := 40.       (* UINT32 *)
Definition FV_Attributes : Z := 44.      (* UINT32 *)
Definition FV_HeaderLength : Z := 48.    (* UINT16 *)
Definition FV_Checksum : Z := 50.        (* UINT16 *)
Definition FV_ExtHeaderOffset : Z := 52. (* UINT16 *)
Definition FV_Revision : Z := 55.        (* UINT8 *)
Definition FV_BlockMap : Z := 56.        (* { UINT32 NumBlocks; UINT32 Length; }[] *)

Definition EFI_FVH_SIGNATURE : Z := 0x4856465F.
Definition EFI_FVH_REVISION : Z := 2.

Definition EFI_FVB2_READ_DISABLED_CAP : Z := 0x1.
Definition EFI_FVB2_READ_ENABLED_CAP : Z := 0x2.
Definition EFI_FVB2_READ_STATUS : Z := 0x4.
Definition EFI_FVB2_WRITE_DISABLED_CAP : Z := 0x8.
Definition EFI_FVB2_WRITE_ENABLED_CAP : Z := 0x10.
Definition EFI_FVB2_WRITE_STATUS : Z := 0x20.
Definition EFI_FVB2_LOCK_CAP : Z := 0x40.
Definition EFI_FVB2_LOCK_STATUS : Z := 0x80.
Definition EFI_FVB2_STICKY_WRITE : Z := 0x200.
Definition EFI_FVB2_MEMORY_MAPPED : Z := 0x400.
Definition EFI_FVB2_ERASE_POLARITY : Z := 0x800.
Definition EFI_FVB2_READ_LOCK_CAP : Z := 0x1000.
Definition EFI_FVB2_WRITE_LOCK_CAP : Z := 0x4000.
Definition EFI_FVB2_ALIGNMENT : Z := 0x1F0000.
Definition EFI_FVB2_ALIGNMENT_16 : Z := 0x40000.

Definition EFI_FVB2_STATUS : Z :=
  Z.lor (Z.lor EFI_FVB2_READ_STATUS EFI_FVB2_WRITE_STATUS) EFI_FVB2_LOCK_STATUS.

Definition EFI_LBA_LIST_TERMINATOR : Z := 2 ^ 64 - 1.

(** ** State *)

Record EFI_FW_VOL_INSTANCE := {
  FvBase : Z;           (* also [VolumeHeader]: the two share a union *)
  FvLength : Z;
  Offset : Z;
  NumOfBlocks : Z;
  Device : Z;
  MediaId : Z;
  Dirty : bool
}.

Definition zero_instance : EFI_FW_VOL_INSTANCE :=
  {| FvBase := 0; FvLength := 0; Offset := 0; NumOfBlocks := 0; Device := 0;
     MediaId := 0; Dirty := false |}.

(** The driver's static data, the memory, and the services [sys]. *)
Record fvb (D : Type) := {
  fmem : mem;
  mFvInstance : Z;                   (* NULL before initialisation *)
  instance : EFI_FW_VOL_INSTANCE;    (* the object it points to *)
  mDiskIoRegistration : Z;
  Checksummed : bool;
  sys : D
}.
Arguments fmem {D}. Arguments mFvInstance {D}. Arguments instance {D}.
Arguments mDiskIoRegistration {D}. Arguments Checksummed {D}. Arguments sys {D}.
Arguments Build_fvb {D}.

(** ** Code outside the package

    BaseLib's 16-bit sums, and the platform's fixed PCDs. *)

Class Sum16 := {
  CalculateSum16 : list Z -> Z;
  CalculateCheckSum16 : list Z -> Z
}.

(** BaseLib's documentation: the sum of the 16-bit words, and its two's complement. *)
Fixpoint sum_words (bs : list Z) : Z :=
  match bs with
  | lo :: hi :: bs => lo + 256 * hi + sum_words bs
  | _ => 0
  end.

Class Sum16Laws {HS : Sum16} := {
  CalculateSum16_law : forall bs, Nat.Even (length bs) -> CalculateSum16 bs = u16 (sum_words bs);
  CalculateCheckSum16_law : forall bs, Nat.Even (length bs) ->
    CalculateCheckSum16 bs = u16 (- sum_words bs)
}.

Class FvbPcds := {
  PcdFlashNvStorageVariableSize : Z;
  PcdFlashNvStorageFtwWorkingSize : Z;
  PcdFlashNvStorageFtwSpareSize : Z;
  PcdNvStorageEventLogSize : Z;
  PcdFirmwareBlockSize : Z;
  PcdNvStorageVariableBase : Z;
  PcdNvStorageFtwWorkingBase : Z;
  PcdNvStorageFtwSpareBase : Z;
  PcdFdStorageOffset : Z;
  PcdMshcDxeBaseAddress : Z;
  PcdEmmcDxeBaseAddress : Z;
  EFI_SYSTEM_NV_DATA_FV_GUID : list Z;     (* 16 bytes *)
  mPlatformFvbMediaInfo : Z                (* address of the static table *)
}.

Inductive protocol := FirmwareVolumeBlock | DiskIo | BlockIo | LoadedImage.
Inductive notify := DumpVarsNotify | ReadyToBootNotify | VirtualAddressChangeNotify | OnDiskIoInstallNotify.
Inductive event_group := gRk356xEventReset | gEfiEventReadyToBoot | gEfiEventVirtualAddressChange.
Inductive pcd :=
| PcdFlashNvStorageVariableBase64 | PcdFlashNvStorageFtwWorkingBase
| PcdFlashNvStorageFtwSpareBase | PcdPlatformResetDelay.

(** Fields of the device path node types the driver looks at. *)
Record dev_node := {
  Type_ : Z; SubType : Z;
  MemMap_StartingAddress : Z;
  Vendor_is_NonDiscoverable : bool;
  BaseAddress : Z
}.

Record media := { media_id : Z; MediaPresent : bool; ReadOnly : bool }.

(** The device path the volume is published under. *)
Inductive fv_device_path :=
| MemMapPath (StartingAddress EndingAddress : Z)
| PiwgPath (FvName : list Z).

(** Boot services and libraries of the EDK II core. *)
Class FvbServices (D : Type) := {
  AllocateRuntimeZeroPool : Z -> D -> Z * D;
  AllocateRuntimePool : Z -> D -> Z * D;
  AllocateCopyPool : Z -> D -> Z * D;
  FreePool : Z -> D -> D;
  (* LocateDevicePath: status, handle, and whether the remaining path is the end node *)
  LocateFvb : fv_device_path -> D -> (Z * Z * bool) * D;
  InstallFvb : Z -> fv_device_path -> D -> Z * D;
  ReinstallFvb : Z -> Z -> D -> Z * D;
  LocateDiskIo : Z -> D -> (Z * Z) * D;
  HandleProtocol : Z -> protocol -> D -> (Z * Z) * D;
  WriteDisk : Z -> Z -> Z -> list Z -> D -> Z * D;
  CreateEvent : notify -> option event_group -> D -> (Z * Z) * D;
  RegisterProtocolNotify : protocol -> Z -> D -> (Z * Z) * D;
  CloseEvent : Z -> D -> Z * D;
  LocateHandle : Z -> D -> (Z * Z) * D;
  pending : D -> nat;                      (* handles not yet returned by it *)
  DevicePathFromHandle : Z -> D -> Z;
  ReadNode : Z -> D -> dev_node;
  DuplicateDevicePath : Z -> D -> Z * D;
  ConvertDevicePathToText : Z -> D -> Z * D;
  ReadMedia : Z -> D -> media;
  BootDeviceReg : D -> Z;
  ConvertPointer : Z -> D -> Z;
  PcdGet : pcd -> D -> Z;
  PcdSet : pcd -> Z -> D -> Z * D
}.

Definition HARDWARE_DEVICE_PATH : Z := 1.
Definition HW_MEMMAP_DP : Z := 3.
Definition HW_VENDOR_DP : Z := 4.
Definition PLATFORM_RESET_DELAY : Z := 3500000.

Definition SOC_BOOT_DEVICE_UNKNOWN : Z := 0.
Definition SOC_BOOT_DEVICE_NAND : Z := 1.
Definition SOC_BOOT_DEVICE_EMMC : Z := 2.
Definition SOC_BOOT_DEVICE_SPINOR : Z := 3.
Definition SOC_BOOT_DEVICE_SPINAND : Z := 4.
Definition SOC_BOOT_DEVICE_SD : Z := 5.
Definition SOC_BOOT_DEVICE_USB : Z := 10.

(** ** Block map *)

(** The loop of [FvbGetLbaAddress], from the map entry at [BlockMap]: status,
    then offset of the block, its length, and the blocks from it to the end
    of its entry. *)
Fixpoint lba_walk (fuel : nat) (m : mem) (Lba StartLba Off BlockMap : Z) :
    outcome unit (Z * (Z * Z * Z)) :=
  match fuel with
  | O => Stop NoFuel
  | S fuel =>
      let NumBlocks := load 4 m BlockMap in
      let BlockLength := load 4 m (BlockMap + 4) in
      if (NumBlocks =? 0) || (BlockLength =? 0) then Ret (EFI_INVALID_PARAMETER, (0, 0, 0)) tt else
      let NextLba := u64 (StartLba + NumBlocks) in
      if (StartLba <=? Lba) && (Lba <? NextLba) then
        Ret (EFI_SUCCESS, (u64 (Off + u64 ((Lba - StartLba) * BlockLength)), BlockLength, NextLba - Lba)) tt
      else lba_walk fuel m Lba NextLba (u64 (Off + u32 (NumBlocks * BlockLength))) (BlockMap + 8)
  end.

(** The counting loop of [FvbInitialize] over the same map. *)
Fixpoint count_blocks (fuel : nat) (m : mem) (MaxLbaSize Num BlockMap : Z) : outcome unit (Z * Z) :=
  match fuel with
  | O => Stop NoFuel
  | S fuel =>
      if load 4 m BlockMap =? 0 then Ret (MaxLbaSize, Num) tt else
      let Length := load 4 m (BlockMap + 4) in
      count_blocks fuel m (if MaxLbaSize <? Length then Length else MaxLbaSize)
        (u64 (Num + load 4 m BlockMap)) (BlockMap + 8)
  end.

(** Entries a header can hold: its length is a 16-bit number of bytes. *)
Definition map_fuel : nat := Z.to_nat 8192.

Section Code.
Context {B : Build} {HS : Sum16} {HC : FvbPcds} {D : Type} {HD : FvbServices D}.
Abbreviation MV := (M (fvb D)).

Definition set_fmem (m : mem) (s : fvb D) : fvb D :=
  {| fmem := m; mFvInstance := mFvInstance s; instance := instance s;
     mDiskIoRegistration := mDiskIoRegistration s; Checksummed := Checksummed s; sys := sys s |}.
Definition set_instance (i : EFI_FW_VOL_INSTANCE) (s : fvb D) : fvb D :=
  {| fmem := fmem s; mFvInstance := mFvInstance s; instance := i;
     mDiskIoRegistration := mDiskIoRegistration s; Checksummed := Checksummed s; sys := sys s |}.
Definition set_mFvInstance (p : Z) (s : fvb D) : fvb D :=
  {| fmem := fmem s; mFvInstance := p; instance := instance s;
     mDiskIoRegistration := mDiskIoRegistration s; Checksummed := Checksummed s; sys := sys s |}.
Definition set_registration (r : Z) (s : fvb D) : fvb D :=
  {| fmem := fmem s; mFvInstance := mFvInstance s; instance := instance s;
     mDiskIoRegistration := r; Checksummed := Checksummed s; sys := sys s |}.
Definition set_Checksummed (b : bool) (s : fvb D) : fvb D :=
  {| fmem := fmem s; mFvInstance := mFvInstance s; instance := instance s;
     mDiskIoRegistration := mDiskIoRegistration s; Checksummed := b; sys := sys s |}.
Definition set_sys (d : D) (s : fvb D) : fvb D :=
  {| fmem := fmem s; mFvInstance := mFvInstance s; instance := instance s;
     mDiskIoRegistration := mDiskIoRegistration s; Checksummed := Checksummed s; sys := d |}.

Definition with_Dirty (b : bool) (i : EFI_FW_VOL_INSTANCE) : EFI_FW_VOL_INSTANCE :=
  {| FvBase := FvBase i; FvLength := FvLength i; Offset := Offset i; NumOfBlocks := NumOfBlocks i;
     Device := Device i; MediaId := MediaId i; Dirty := b |}.
Definition with_NumOfBlocks (n : Z) (i : EFI_FW_VOL_INSTANCE) : EFI_FW_VOL_INSTANCE :=
  {| FvBase := FvBase i; FvLength := FvLength i; Offset := Offset i; NumOfBlocks := n;
     Device := Device i; MediaId := MediaId i; Dirty := Dirty i |}.
Definition with_Device (dev id : Z) (i : EFI_FW_VOL_INSTANCE) : EFI_FW_VOL_INSTANCE :=
  {| FvBase := FvBase i; FvLength := FvLength i; Offset := Offset i; NumOfBlocks := NumOfBlocks i;
     Device := dev; MediaId := id; Dirty := Dirty i |}.
Definition with_pointers (base dev : Z) (i : EFI_FW_VOL_INSTANCE) : EFI_FW_VOL_INSTANCE :=
  {| FvBase := base; FvLength := FvLength i; Offset := Offset i; NumOfBlocks := NumOfBlocks i;
     Device := dev; MediaId := MediaId i; Dirty := Dirty i |}.

(** Reading through [mFvInstance]. *)
Definition get_inst : MV EFI_FW_VOL_INSTANCE :=
  fun s => if mFvInstance s =? 0 then Stop Fault else Ret (instance s) s.
Definition set_inst (f : EFI_FW_VOL_INSTANCE -> EFI_FW_VOL_INSTANCE) : MV unit :=
  fun s => if mFvInstance s =? 0 then Stop Fault else Ret tt (set_instance (f (instance s)) s).
Definition set_mem (f : mem -> mem) : MV unit := modify (fun s => set_fmem (f (fmem s)) s).
Definition sys_call {A} (f : D -> A * D) : MV A :=
  fun s => let '(a, d) := f (sys s) in Ret a (set_sys d s).

(** A field of the volume header. *)
Definition header_field (n off : Z) : MV Z :=
  i ← get_inst; gets (fun s => load n (fmem s) (FvBase i + off)).

(** ** [VarBlockService.c] *)

(** The buffer is the [NumBytes] bytes at address [Buffer]. *)
Definition VarStoreWrite (Address NumBytes Buffer : Z) : MV Z :=
  _ ← set_mem (fun m => write_bytes m Address (read_bytes m Buffer NumBytes));
  _ ← set_inst (with_Dirty true);
  mret EFI_SUCCESS.

Definition VarStoreErase (Address LbaLength : Z) : MV Z :=
  _ ← set_mem (fun m => fill_bytes m Address LbaLength 0xff);
  _ ← set_inst (with_Dirty true);
  mret EFI_SUCCESS.

Definition FvbGetVolumeAttributes : MV (Z * Z) :=
  a ← header_field 4 FV_Attributes; mret (EFI_SUCCESS, a).

(** Status, then address, length and count of consecutive blocks. *)
Definition FvbGetLbaAddress (Lba : Z) : MV (Z * (Z * Z * Z)) :=
  i ← get_inst;
  m ← gets fmem;
  match lba_walk map_fuel m Lba 0 0 (FvBase i + FV_BlockMap) with
  | Stop w => stopM w
  | Ret (Status, (Off, LbaLength, Num)) _ =>
      mret (Status, (u64 (FvBase i + Off), LbaLength, Num))
  end.

Definition FvbEraseBlock (Lba : Z) : MV Z :=
  a ← FvbGetVolumeAttributes;
  if Z.land (snd a) EFI_FVB2_WRITE_STATUS =? 0 then mret EFI_ACCESS_DENIED else
  r ← FvbGetLbaAddress Lba;
  let '(Status, (LbaAddress, LbaLength, _)) := r in
  if EFI_ERROR Status then mret Status else VarStoreErase LbaAddress LbaLength.

Definition FVB2_CAPABILITIES : Z :=
  Z.lor (Z.lor (Z.lor (Z.lor EFI_FVB2_READ_DISABLED_CAP EFI_FVB2_READ_ENABLED_CAP)
    EFI_FVB2_WRITE_DISABLED_CAP) EFI_FVB2_WRITE_ENABLED_CAP) EFI_FVB2_LOCK_CAP.

Definition UnchangedAttributes : Z :=
  Z.lor (Z.lor (Z.lor (Z.lor (Z.lor (Z.lor FVB2_CAPABILITIES EFI_FVB2_STICKY_WRITE)
    EFI_FVB2_MEMORY_MAPPED) EFI_FVB2_ERASE_POLARITY) EFI_FVB2_READ_LOCK_CAP)
    EFI_FVB2_WRITE_LOCK_CAP) EFI_FVB2_ALIGNMENT.

(** The tests of [FvbSetVolumeAttributes], in order. *)
Definition check_attributes (OldAttributes Attributes : Z) : Z :=
  let Capabilities := Z.land OldAttributes FVB2_CAPABILITIES in
  let OldStatus := Z.land OldAttributes EFI_FVB2_STATUS in
  let NewStatus := Z.land Attributes EFI_FVB2_STATUS in
  if negb (Z.lxor (Z.land OldAttributes UnchangedAttributes)
                  (Z.land Attributes UnchangedAttributes) =? 0) then EFI_INVALID_PARAMETER
  else if negb (Z.land OldAttributes EFI_FVB2_LOCK_STATUS =? 0) &&
          negb (Z.lxor OldStatus NewStatus =? 0) then EFI_ACCESS_DENIED
  else if (Z.land Capabilities EFI_FVB2_READ_DISABLED_CAP =? 0) &&
          (Z.land NewStatus EFI_FVB2_READ_STATUS =? 0) then EFI_INVALID_PARAMETER
  else if (Z.land Capabilities EFI_FVB2_READ_ENABLED_CAP =? 0) &&
          negb (Z.land NewStatus EFI_FVB2_READ_STATUS =? 0) then EFI_INVALID_PARAMETER
  else if (Z.land Capabilities EFI_FVB2_WRITE_DISABLED_CAP =? 0) &&
          (Z.land NewStatus EFI_FVB2_WRITE_STATUS =? 0) then EFI_INVALID_PARAMETER
  else if (Z.land Capabilities EFI_FVB2_WRITE_ENABLED_CAP =? 0) &&
          negb (Z.land NewStatus EFI_FVB2_WRITE_STATUS =? 0) then EFI_INVALID_PARAMETER
  else if (Z.land Capabilities EFI_FVB2_LOCK_CAP =? 0) &&
          negb (Z.land NewStatus EFI_FVB2_LOCK_STATUS =? 0) then EFI_INVALID_PARAMETER
  else EFI_SUCCESS.

(** Status and the new value of [*Attributes]. *)
Definition FvbSetVolumeAttributes (Attributes : Z) : MV (Z * Z) :=
  i ← get_inst;
  OldAttributes ← header_field 4 FV_Attributes;
  let Status := check_attributes OldAttributes Attributes in
  if EFI_ERROR Status then mret (Status, Attributes) else
  let AttribPtr := FvBase i + FV_Attributes in
  let cleared := Z.land OldAttributes (Z.land 0xFFFFFFFF (u32 (Z.lnot EFI_FVB2_STATUS))) in
  let new := Z.lor cleared (Z.land Attributes EFI_FVB2_STATUS) in
  _ ← set_mem (fun m => write_bytes m AttribPtr (le_bytes 4 cleared));
  _ ← set_mem (fun m => write_bytes m AttribPtr (le_bytes 4 new));
  mret (EFI_SUCCESS, new).

Definition FvbProtocolGetPhysicalAddress : MV (Z * Z) :=
  i ← get_inst; mret (EFI_SUCCESS, FvBase i).

Definition FvbProtocolGetBlockSize (Lba : Z) : MV (Z * (Z * Z)) :=
  r ← FvbGetLbaAddress Lba;
  let '(Status, (_, BlockSize, Num)) := r in mret (Status, (BlockSize, Num)).

Definition FvbProtocolGetAttributes : MV (Z * Z) := FvbGetVolumeAttributes.
Definition FvbProtocolSetAttributes (Attributes : Z) : MV (Z * Z) :=
  FvbSetVolumeAttributes Attributes.

(** First pass of [FvbProtocolEraseBlocks] over its arguments. *)
Fixpoint erase_check (NumOfBlocks : Z) (args : list Z) : outcome unit Z :=
  match args with
  | [] => Stop Fault
  | StartingLba :: args =>
      if StartingLba =? EFI_LBA_LIST_TERMINATOR then Ret EFI_SUCCESS tt else
      match args with
      | [] => Stop Fault
      | NumOfLba :: args =>
          if (NumOfLba =? 0) || (NumOfBlocks <? u64 (StartingLba + NumOfLba))
          then Ret EFI_INVALID_PARAMETER tt
          else erase_check NumOfBlocks args
      end
  end.

(** [NumOfLba] blocks from [StartingLba]. *)
Fixpoint erase_run (NumOfLba : nat) (StartingLba : Z) : MV Z :=
  match NumOfLba with
  | O => mret EFI_SUCCESS
  | S NumOfLba =>
      Status ← FvbEraseBlock StartingLba;
      if EFI_ERROR Status then mret Status else erase_run NumOfLba (u64 (StartingLba + 1))
  end.

(** The second pass. *)
Fixpoint erase_all (args : list Z) : MV Z :=
  match args with
  | [] => stopM Fault
  | StartingLba :: args =>
      if StartingLba =? EFI_LBA_LIST_TERMINATOR then mret EFI_SUCCESS else
      match args with
      | [] => stopM Fault
      | NumOfLba :: args =>
          Status ← erase_run (Z.to_nat NumOfLba) StartingLba;
          if EFI_ERROR Status then mret Status else erase_all args
      end
  end.

Definition FvbProtocolEraseBlocks (args : list Z) : MV Z :=
  i ← get_inst;
  match erase_check (NumOfBlocks i) args with
  | Stop w => stopM w
  | Ret Status _ => if EFI_ERROR Status then mret Status else erase_all args
  end.

(** Boundary check shared by reads and writes: status and adjusted count. *)
Definition clip (Offset LbaLength NumBytes : Z) : Z * Z :=
  if LbaLength <? u64 (NumBytes + Offset)
  then (EFI_BAD_BUFFER_SIZE, u32 (LbaLength - Offset)) else (EFI_SUCCESS, NumBytes).

(** [NumBytes] is [None] for a NULL pointer; the result holds the status
    and the final [*NumBytes]. *)
Definition FvbProtocolWrite (Lba Offset : Z) (NumBytes : option Z) (Buffer : Z) : MV (Z * option Z) :=
  match NumBytes with
  | None => mret (EFI_INVALID_PARAMETER, None)
  | Some n =>
      if Buffer =? 0 then mret (EFI_INVALID_PARAMETER, Some n) else
      if n =? 0 then mret (EFI_INVALID_PARAMETER, Some n) else
      r ← FvbGetLbaAddress Lba;
      let '(Status, (LbaAddress, LbaLength, _)) := r in
      if EFI_ERROR Status then mret (Status, Some n) else
      a ← FvbGetVolumeAttributes;
      if Z.land (snd a) EFI_FVB2_WRITE_STATUS =? 0 then mret (EFI_ACCESS_DENIED, Some n) else
      if LbaLength <? Offset then mret (EFI_INVALID_PARAMETER, Some n) else
      let '(Status, n) := clip Offset LbaLength n in
      ReturnStatus ← VarStoreWrite (u64 (LbaAddress + Offset)) n Buffer;
      if EFI_ERROR ReturnStatus then mret (ReturnStatus, Some n) else
      mret (Status, Some n)
  end.

Definition FvbProtocolRead (Lba Offset : Z) (NumBytes : option Z) (Buffer : Z) : MV (Z * option Z) :=
  match NumBytes with
  | None => mret (EFI_INVALID_PARAMETER, None)
  | Some n =>
      if Buffer =? 0 then mret (EFI_INVALID_PARAMETER, Some n) else
      if n =? 0 then mret (EFI_INVALID_PARAMETER, Some n) else
      r ← FvbGetLbaAddress Lba;
      let '(Status, (LbaAddress, LbaLength, _)) := r in
      if EFI_ERROR Status then mret (Status, Some n) else
      a ← FvbGetVolumeAttributes;
      if Z.land (snd a) EFI_FVB2_READ_STATUS =? 0 then mret (EFI_ACCESS_DENIED, Some n) else
      if LbaLength <? Offset then mret (EFI_INVALID_PARAMETER, Some n) else
      let '(Status, n) := clip Offset LbaLength n in
      _ ← set_mem (fun m => write_bytes m Buffer (read_bytes m (u64 (LbaAddress + Offset)) n));
      mret (Status, Some n)
  end.

(** Integrity of the header at address [h]. *)
Definition ValidateFvHeader (h : Z) (m : mem) : Z :=
  if negb (load 1 m (h + FV_Revision) =? EFI_FVH_REVISION) ||
     negb (load 4 m (h + FV_Signature) =? EFI_FVH_SIGNATURE) ||
     (load 8 m (h + FV_FvLength) =? u64 (-1)) ||
     negb (Z.land (load 2 m (h + FV_HeaderLength)) 1 =? 0)
  then EFI_NOT_FOUND else
  let Checksum := CalculateSum16 (read_bytes m h (load 2 m (h + FV_HeaderLength))) in
  if negb (Checksum =? 0) then EFI_NOT_FOUND else EFI_SUCCESS.

(** ** [FvbInfo.c] *)

Definition FvbTotalSize : Z :=
  u32 (PcdFlashNvStorageVariableSize + PcdFlashNvStorageFtwWorkingSize +
       PcdFlashNvStorageFtwSpareSize + PcdNvStorageEventLogSize).

Definition sizeof_EFI_FIRMWARE_VOLUME_HEADER : Z := 64.
Definition sizeof_EFI_FV_BLOCK_MAP_ENTRY : Z := 8.

Definition FvbInfo_Attributes : Z :=
  Z.lor (Z.lor (Z.lor (Z.lor (Z.lor (Z.lor EFI_FVB2_MEMORY_MAPPED EFI_FVB2_READ_ENABLED_CAP)
    EFI_FVB2_READ_STATUS) EFI_FVB2_WRITE_ENABLED_CAP) EFI_FVB2_WRITE_STATUS)
    EFI_FVB2_ERASE_POLARITY) EFI_FVB2_ALIGNMENT_16.

(** Initial contents of the single entry of [mPlatformFvbMediaInfo]:
    [FvLength], the volume header, and the terminator of its block map. *)
Definition FvbInfo_header (Checksum : Z) : list Z :=
  replicate 16 0 ++ EFI_SYSTEM_NV_DATA_FV_GUID ++
  le_bytes 8 FvbTotalSize ++ le_bytes 4 EFI_FVH_SIGNATURE ++ le_bytes 4 FvbInfo_Attributes ++
  le_bytes 2 (sizeof_EFI_FIRMWARE_VOLUME_HEADER + sizeof_EFI_FV_BLOCK_MAP_ENTRY) ++
  le_bytes 2 Checksum ++ le_bytes 2 0 ++ [0] ++ [2] ++
  le_bytes 4 (FvbTotalSize / PcdFirmwareBlockSize) ++ le_bytes 4 PcdFirmwareBlockSize ++
  le_bytes 4 0 ++ le_bytes 4 0.

Definition mPlatformFvbMediaInfo_image : list Z := le_bytes 8 FvbTotalSize ++ FvbInfo_header 0.

(** Status and the address of the header; NULL stands for an unset result. *)
Definition GetFvbInfo (Length : Z) : MV (Z * Z) :=
  let h := mPlatformFvbMediaInfo + 8 in
  c ← gets Checksummed;
  _ ← (if c : bool then mret tt else
       _ ← set_mem (fun m => write_bytes m (h + FV_Checksum) (le_bytes 2 0));
       _ ← set_mem (fun m =>
             write_bytes m (h + FV_Checksum) (le_bytes 2
               (CalculateCheckSum16 (read_bytes m h (load 2 m (h + FV_HeaderLength))))));
       modify (set_Checksummed true));
  m ← gets fmem;
  if load 8 m mPlatformFvbMediaInfo =? Length then mret (EFI_SUCCESS, h)
  else mret (EFI_NOT_FOUND, 0).

(** ** [VarBlockServiceDxe.c] *)

Definition ASSERT_EFI_ERROR (Status : Z) : MV unit := ASSERT (negb (EFI_ERROR Status)).

Definition InstallProtocolInterfaces (DevicePath : fv_device_path) : MV unit :=
  r ← sys_call (LocateFvb DevicePath);
  let '(Status, FwbHandle, IsDevicePathEnd) := r in
  if EFI_ERROR Status then
    Status ← sys_call (InstallFvb 0 DevicePath);
    ASSERT_EFI_ERROR Status
  else if IsDevicePathEnd : bool then
    r ← sys_call (HandleProtocol FwbHandle FirmwareVolumeBlock);
    let '(Status, OldFwbInterface) := r in
    _ ← ASSERT_EFI_ERROR Status;
    Status ← sys_call (ReinstallFvb FwbHandle OldFwbInterface);
    ASSERT_EFI_ERROR Status
  else ASSERT false.

Definition FvbVirtualAddressChangeEvent : MV unit :=
  i ← get_inst;
  d ← gets sys;
  let base := ConvertPointer (FvBase i) d in      (* &FvBase *)
  let base := ConvertPointer base d in            (* &VolumeHeader, the same word *)
  let dev := ConvertPointer (Device i) d in
  _ ← set_inst (with_pointers base dev);
  modify (fun s => set_mFvInstance (ConvertPointer (mFvInstance s) d) s).

Definition InstallVirtualAddressChangeHandler : MV unit :=
  r ← sys_call (CreateEvent VirtualAddressChangeNotify (Some gEfiEventVirtualAddressChange));
  ASSERT_EFI_ERROR (fst r).

Definition DoDump (dev id : Z) : MV Z :=
  r ← sys_call (LocateDiskIo dev);
  let '(Status, Handle) := r in
  if EFI_ERROR Status then mret Status else
  r ← sys_call (HandleProtocol Handle DiskIo);
  let '(Status, DiskIoP) := r in
  if EFI_ERROR Status then mret Status else
  i ← get_inst;
  m ← gets fmem;
  sys_call (WriteDisk DiskIoP id (Offset i) (read_bytes m (FvBase i) (FvLength i))).

Definition DumpVars : MV unit :=
  i ← get_inst;
  if Device i =? 0 then mret tt else
  if negb (Dirty i) then mret tt else
  Status ← DoDump (Device i) (MediaId i);
  if EFI_ERROR Status then
    i ← get_inst;
    DevicePathText ← sys_call (ConvertDevicePathToText (Device i));
    _ ← (if DevicePathText =? 0 then mret tt
         else modify (fun s => set_sys (FreePool DevicePathText (sys s)) s));
    ASSERT_EFI_ERROR Status
  else
    d ← gets sys;
    _ ← (if PcdGet PcdPlatformResetDelay d <? PLATFORM_RESET_DELAY then
           PcdStatus ← sys_call (PcdSet PcdPlatformResetDelay PLATFORM_RESET_DELAY);
           ASSERT_EFI_ERROR PcdStatus
         else mret tt);
    set_inst (with_Dirty false).

Definition ReadyToBootHandler (Event : Z) : MV unit :=
  r ← sys_call (CreateEvent DumpVarsNotify None);
  _ ← ASSERT_EFI_ERROR (fst r);
  q ← sys_call (RegisterProtocolNotify LoadedImage (snd r));
  _ ← ASSERT_EFI_ERROR (fst q);
  _ ← DumpVars;
  Status ← sys_call (CloseEvent Event);
  ASSERT_EFI_ERROR Status.

Definition InstallDumpVarEventHandlers : MV unit :=
  r ← sys_call (CreateEvent DumpVarsNotify (Some gRk356xEventReset));
  _ ← ASSERT_EFI_ERROR (fst r);
  r ← sys_call (CreateEvent ReadyToBootNotify (Some gEfiEventReadyToBoot));
  ASSERT_EFI_ERROR (fst r).

(** [SocLib.c] *)
Definition SocGetBootDevice : MV Z :=
  Value ← gets (fun s => BootDeviceReg (sys s));
  if existsb (Z.eqb Value) [SOC_BOOT_DEVICE_NAND; SOC_BOOT_DEVICE_EMMC; SOC_BOOT_DEVICE_SPINOR;
       SOC_BOOT_DEVICE_SPINAND; SOC_BOOT_DEVICE_SD; SOC_BOOT_DEVICE_USB]
  then mret Value
  else _ ← ASSERT false; mret SOC_BOOT_DEVICE_UNKNOWN.

Definition IsBootDevice (Handle : Z) : MV bool :=
  BootDevice ← SocGetBootDevice;
  d ← gets sys;
  let path := DevicePathFromHandle Handle d in
  text ← sys_call (ConvertDevicePathToText path);
  _ ← modify (fun s => set_sys (FreePool text (sys s)) s);
  d ← gets sys;
  let node := ReadNode path d in
  if (Type_ node =? HARDWARE_DEVICE_PATH) && (SubType node =? HW_MEMMAP_DP) &&
     (BootDevice =? SOC_BOOT_DEVICE_SD) then
    mret (MemMap_StartingAddress node =? PcdMshcDxeBaseAddress)
  else if (Type_ node =? HARDWARE_DEVICE_PATH) && (SubType node =? HW_VENDOR_DP) &&
          Vendor_is_NonDiscoverable node && (BootDevice =? SOC_BOOT_DEVICE_EMMC) then
    mret (BaseAddress node =? PcdEmmcDxeBaseAddress)
  else mret false.

Definition free_text (DevicePathText : Z) : MV unit :=
  if DevicePathText =? 0 then mret tt
  else modify (fun s => set_sys (FreePool DevicePathText (sys s)) s).

(** The search loop of [OnDiskIoInstall]; the result is the last text made. *)
Fixpoint disk_search (fuel : nat) (DevicePathText : Z) : MV Z :=
  match fuel with
  | O => stopM NoFuel
  | S fuel =>
      reg ← gets mDiskIoRegistration;
      r ← sys_call (LocateHandle reg);
      let '(Status, Handle) := r in
      if Status =? EFI_NOT_FOUND then mret DevicePathText else
      _ ← ASSERT_EFI_ERROR Status;
      boot ← IsBootDevice Handle;
      if negb boot then disk_search fuel DevicePathText else
      r ← sys_call (HandleProtocol Handle BlockIo);
      let '(Status, BlkIo) := r in
      if EFI_ERROR Status then disk_search fuel DevicePathText else
      d ← gets sys;
      dev ← sys_call (DuplicateDevicePath (DevicePathFromHandle Handle d));
      _ ← ASSERT (negb (dev =? 0));
      _ ← free_text DevicePathText;
      DevicePathText ← sys_call (ConvertDevicePathToText dev);
      d ← gets sys;
      if negb (MediaPresent (ReadMedia BlkIo d)) then disk_search fuel DevicePathText else
      if ReadOnly (ReadMedia BlkIo d) then disk_search fuel DevicePathText else
      Status ← DoDump dev (media_id (ReadMedia BlkIo d));
      if EFI_ERROR Status then
        _ ← ASSERT_EFI_ERROR Status; disk_search fuel DevicePathText
      else
      i ← get_inst;
      _ ← free_text (Device i);
      d ← gets sys;
      _ ← set_inst (with_Device dev (media_id (ReadMedia BlkIo d)));
      mret DevicePathText
  end.

Definition OnDiskIoInstall : MV unit :=
  i ← get_inst;
  if negb (Device i =? 0) then mret tt else
  d ← gets sys;
  DevicePathText ← disk_search (S (pending d)) 0;
  free_text DevicePathText.

Definition InstallDiskNotifyHandler : MV unit :=
  r ← sys_call (CreateEvent OnDiskIoInstallNotify None);
  _ ← ASSERT_EFI_ERROR (fst r);
  q ← sys_call (RegisterProtocolNotify DiskIo (snd r));
  _ ← modify (set_registration (snd q));
  ASSERT_EFI_ERROR (fst q).

(** ** [FvbInitialize] *)

Definition sizeof_EFI_FW_VOL_INSTANCE : Z := 56.
Definition sizeof_EFI_FW_VOL_BLOCK_DEVICE : Z := 72.
Definition sizeof_FV_MEMMAP_DEVICE_PATH : Z := 28.
Definition sizeof_FV_PIWG_DEVICE_PATH : Z := 24.

(** Validation of the volume found at the base, and its repair. *)
Definition init_header (Length : Z) : MV unit :=
  i ← get_inst;
  m ← gets fmem;
  let Status := ValidateFvHeader (FvBase i) m in
  let Status :=
    if EFI_ERROR Status then Status
    else if negb (load 8 m (FvBase i + FV_FvLength) =? Length) ||
            negb (load 4 m (FvBase i + FV_BlockMap + 4) =? PcdFirmwareBlockSize)
         then EFI_VOLUME_CORRUPTED else Status in
  if negb (EFI_ERROR Status) then mret tt else
  r ← GetFvbInfo Length;
  let '(Status, GoodFwVolHeader) := r in
  _ ← ASSERT_EFI_ERROR Status;
  Status ← VarStoreErase (FvBase i) (FvLength i);
  _ ← ASSERT_EFI_ERROR Status;
  WriteLength ← gets (fun s => load 2 (fmem s) (GoodFwVolHeader + FV_HeaderLength));
  Status ← VarStoreWrite (FvBase i) WriteLength GoodFwVolHeader;
  _ ← ASSERT_EFI_ERROR Status;
  m ← gets fmem;
  _ ← ASSERT (WriteLength =? load 2 m (GoodFwVolHeader + FV_HeaderLength));
  ASSERT_EFI_ERROR (ValidateFvHeader (FvBase i) m).

(** The device path under which the volume is published. *)
Definition make_device_path : MV fv_device_path :=
  i ← get_inst;
  m ← gets fmem;
  let ext := load 2 m (FvBase i + FV_ExtHeaderOffset) in
  if ext =? 0 then
    p ← sys_call (AllocateCopyPool sizeof_FV_MEMMAP_DEVICE_PATH);
    if p =? 0 then stopM Fault else
    mret (MemMapPath (FvBase i) (u64 (FvBase i + FvLength i - 1)))
  else
    p ← sys_call (AllocateCopyPool sizeof_FV_PIWG_DEVICE_PATH);
    if p =? 0 then stopM Fault else
    mret (PiwgPath (read_bytes m (u64 (FvBase i + ext)) 16)).

Definition FvbInitialize : MV Z :=
  let Base := PcdNvStorageVariableBase in
  let Length := FvbTotalSize in
  let StartOffset := u64 (Base + PcdFdStorageOffset) in
  p ← sys_call (AllocateRuntimeZeroPool sizeof_EFI_FW_VOL_INSTANCE);
  _ ← modify (set_mFvInstance p);
  if p =? 0 then mret EFI_OUT_OF_RESOURCES else
  _ ← modify (set_instance {| FvBase := Base; FvLength := Length; Offset := StartOffset;
        NumOfBlocks := 0; Device := 0; MediaId := 0; Dirty := false |});
  _ ← init_header Length;
  i ← get_inst;
  m ← gets fmem;
  match count_blocks map_fuel m 0 0 (FvBase i + FV_BlockMap) with
  | Stop w => stopM w
  | Ret (_, Num) _ =>
      _ ← set_inst (with_NumOfBlocks Num);
      FvbDevice ← sys_call (AllocateRuntimePool sizeof_EFI_FW_VOL_BLOCK_DEVICE);
      _ ← ASSERT (negb (FvbDevice =? 0));
      if FvbDevice =? 0 then stopM Fault else
      path ← make_device_path;
      _ ← InstallProtocolInterfaces path;
      PcdStatus ← sys_call (PcdSet PcdFlashNvStorageVariableBase64 PcdNvStorageVariableBase);
      _ ← ASSERT_EFI_ERROR PcdStatus;
      PcdStatus ← sys_call (PcdSet PcdFlashNvStorageFtwWorkingBase PcdNvStorageFtwWorkingBase);
      _ ← ASSERT_EFI_ERROR PcdStatus;
      PcdStatus ← sys_call (PcdSet PcdFlashNvStorageFtwSpareBase PcdNvStorageFtwSpareBase);
      _ ← ASSERT_EFI_ERROR PcdStatus;
      _ ← InstallDiskNotifyHandler;
      _ ← InstallDumpVarEventHandlers;
      _ ← InstallVirtualAddressChangeHandler;
      mret EFI_SUCCESS
  end.
End Code.
