(* ===== verification/FvbSpec.v ===== *)
(** * Reference description of the variable volume

    What the block map of a volume means: a list of block sizes, laid out
    from the base of the volume; and the behaviour of the protocol operations
    in those terms. *)

From Stdlib Require Import ZArith Lia.
From stdpp Require Import base list numbers.
From S2P Require Import Prelude Memory Fvb.

(** ** Block maps *)

Definition Zsum (l : list Z) : Z := foldr Z.add 0 l.

Lemma Zsum_app l1 l2 : Zsum (l1 ++ l2) = Zsum l1 + Zsum l2.
Proof. induction l1 as [|x l1 IH]; simpl; [done|]. unfold Zsum in *. simpl. lia. Qed.

Lemma Zsum_replicate n l : Zsum (replicate n l) = Z.of_nat n * l.
Proof. induction n as [|n IH]; [done|]. unfold Zsum in *. simpl. lia. Qed.

Lemma Zsum_nonneg l : Forall (fun x => 0 < x) l -> 0 <= Zsum l.
Proof. induction 1; unfold Zsum in *; simpl; lia. Qed.

(** Sizes of the blocks a block map denotes. *)
Definition block_sizes (es : list (Z * Z)) : list Z :=
  concat ((fun e => replicate (Z.to_nat e.1) e.2) <$> es).

(** The block map at address [a] holds the entries [es] and ends. *)
Fixpoint map_at (m : mem) (a : Z) (es : list (Z * Z)) : Prop :=
  match es with
  | [] => load 4 m a = 0
  | e :: es => load 4 m a = e.1 /\ load 4 m (a + 4) = e.2 /\ 0 < e.1 /\ 0 < e.2 /\
      e.1 * e.2 < 2 ^ 32 /\ map_at m (a + 8) es
  end.

(** Offset of block [k] from the start of the volume. *)
Definition block_offset (sizes : list Z) (k : nat) : Z := Zsum (take k sizes).

(** [n] blocks of length [l] start at block [k]. *)
Definition run_of (sizes : list Z) (k : nat) (l n : Z) : Prop :=
  0 < n /\ forall j, 0 <= j < n -> sizes !! (k + Z.to_nat j)%nat = Some l.

Lemma map_at_sizes m es : forall a, map_at m a es -> Forall (fun x => 0 < x) (block_sizes es).
Proof.
  induction es as [|[n l] es IH]; intros a; [constructor|]. intros (_ & _ & Hn & Hl & _ & H).
  unfold block_sizes. simpl. apply Forall_app. split; [by apply Forall_replicate | by eapply IH].
Qed.

Lemma block_sizes_cons n l es :
  block_sizes ((n, l) :: es) = replicate (Z.to_nat n) l ++ block_sizes es.
Proof. done. Qed.

(** Result of the walk, relative to the entry it starts from. *)
Definition walk_result (sizes : list Z) (k : Z) (Off : Z) (r : outcome unit (Z * (Z * Z * Z))) : Prop :=
  (sizes !! Z.to_nat k = None /\ r = Ret (EFI_INVALID_PARAMETER, (0, 0, 0)) tt) \/
  (exists l n, sizes !! Z.to_nat k = Some l /\ run_of sizes (Z.to_nat k) l n /\
     r = Ret (EFI_SUCCESS, (Off + block_offset sizes (Z.to_nat k), l, n)) tt).

Lemma lba_walk_spec m es : forall fuel Lba Start Off a,
  map_at m a es -> (length es < fuel)%nat -> 0 <= Start <= Lba -> 0 <= Off ->
  Start + Z.of_nat (length (block_sizes es)) < 2 ^ 64 -> Off + Zsum (block_sizes es) < 2 ^ 64 ->
  walk_result (block_sizes es) (Lba - Start) Off (lba_walk fuel m Lba Start Off a).
Proof.
  induction es as [|[n l] es IH]; intros [|fuel] Lba Start Off a Hm Hf HL HO HS HT; simpl in *; try lia.
  { rewrite Hm. simpl. left. done. }
  pose proof (map_at_sizes m es _ (proj2 (proj2 (proj2 (proj2 (proj2 Hm)))))) as Hpos.
  destruct Hm as (-> & -> & Hn & Hl & Hnl & Hm). apply Zsum_nonneg in Hpos.
  rewrite block_sizes_cons, length_app, length_replicate, ?Zsum_app, ?Zsum_replicate in *.
  rewrite Z2Nat.id in HT by lia.
  rewrite (proj2 (Z.eqb_neq n 0)), (proj2 (Z.eqb_neq l 0)) by lia. cbn [orb].
  rewrite (wrap_small 64 (Start + n)), (wrap_small 32 (n * l)) by (unfold in_word; lia).
  rewrite (proj2 (Z.leb_le Start Lba)) by lia. cbn [andb].
  destruct (Z.ltb_spec Lba (Start + n)) as [Hin|Hout].
  - right. exists l, (Start + n - Lba).
    assert (Hk : (Z.to_nat (Lba - Start) < Z.to_nat n)%nat) by lia.
    assert (Hmul : (Lba - Start) * l <= n * l) by nia.
    split; [|split].
    + rewrite lookup_app_l by (by rewrite length_replicate). by apply lookup_replicate_2.
    + split; [lia|]. intros j Hj. rewrite lookup_app_l by (rewrite length_replicate; lia).
      apply lookup_replicate_2. lia.
    + assert (0 <= (Lba - Start) * l) by nia.
      rewrite (wrap_small 64 ((Lba - Start) * l)), wrap_small by (unfold in_word; lia).
      do 5 f_equal.
      unfold block_offset. rewrite take_app_le by (rewrite length_replicate; lia).
      rewrite take_replicate, Zsum_replicate. f_equal. lia.
  - rewrite (wrap_small 64 (Off + n * l)) by (unfold in_word; nia).
    destruct (IH fuel Lba (Start + n) (Off + n * l) (a + 8)) as [[Hno ->]|(l' & n' & Hl' & [Hn' Hrun] & ->)];
      try lia; try nia; [done| |].
    + left. split; [|done]. rewrite lookup_app_r, length_replicate by (rewrite length_replicate; lia).
      rewrite <- Hno. f_equal. lia.
    + right. exists l', n'.
      replace (Z.to_nat (Lba - Start)) with (Z.to_nat n + Z.to_nat (Lba - (Start + n)))%nat by lia.
      split; [|split].
      * rewrite lookup_app_r, length_replicate by (rewrite length_replicate; lia).
        rewrite <- Hl'. f_equal. lia.
      * split; [done|]. intros j Hj. rewrite lookup_app_r, length_replicate by (rewrite length_replicate; lia).
        rewrite <- (Hrun j Hj). f_equal. lia.
      * unfold block_offset.
        rewrite take_app_ge, Zsum_app by (rewrite length_replicate; lia).
        rewrite Zsum_replicate, length_replicate, Z2Nat.id, Z.add_assoc by lia.
        by replace (Z.to_nat n + Z.to_nat (Lba - (Start + n)) - Z.to_nat n)%nat
          with (Z.to_nat (Lba - (Start + n))) by lia.
Qed.

(** ** The volume *)

(** Instance [i] describes a volume in memory whose map denotes [es]. *)
Record volume (m : mem) (i : EFI_FW_VOL_INSTANCE) (es : list (Z * Z)) : Prop := {
  vo_map : map_at m (FvBase i + FV_BlockMap) es;
  vo_fuel : (length es < map_fuel)%nat;
  vo_base : 0 < FvBase i;
  vo_total : Zsum (block_sizes es) = FvLength i;
  vo_end : FvBase i + FvLength i < 2 ^ 64;
  vo_num : NumOfBlocks i = Z.of_nat (length (block_sizes es))
}.

(** Bytes of the header: up to the terminator of the block map. *)
Definition header_bytes (es : list (Z * Z)) : Z := FV_BlockMap + 8 * (Z.of_nat (length es) + 1).

Lemma length_le_Zsum l : Forall (fun x => 0 < x) l -> Z.of_nat (length l) <= Zsum l.
Proof. induction 1; unfold Zsum in *; simpl in *; lia. Qed.

Lemma block_offset_bound sizes k l :
  Forall (fun x => 0 < x) sizes -> sizes !! k = Some l ->
  0 <= block_offset sizes k /\ 0 < l /\ block_offset sizes k + l <= Zsum sizes.
Proof.
  intros Hpos Hk. unfold block_offset.
  pose proof (Forall_lookup_1 _ _ _ _ Hpos Hk) as Hl. simpl in Hl.
  assert (Hsum : Zsum sizes = Zsum (take k sizes) + (l + Zsum (drop (S k) sizes))).
  { rewrite <- (take_drop_middle _ _ _ Hk) at 1. by rewrite Zsum_app. }
  pose proof (Zsum_nonneg _ (Forall_take _ k _ Hpos)).
  pose proof (Zsum_nonneg _ (Forall_drop _ (S k) _ Hpos)). lia.
Qed.

Lemma map_at_ext m m' es : forall a,
  (forall x, a <= x < a + 8 * (Z.of_nat (length es) + 1) -> m' x = m x) ->
  map_at m a es -> map_at m' a es.
Proof.
  induction es as [|[n l] es IH]; intros a Hext; simpl.
  - intros <-. unfold load. f_equal. apply read_bytes_ext. intros i Hi. apply Hext. simpl. lia.
  - assert (Hl : forall k b, 0 <= b -> b + k <= 8 -> load k m' (a + b) = load k m (a + b)).
    { intros k b Hb Hk. unfold load. f_equal. apply read_bytes_ext. intros i Hi. apply Hext. simpl. lia. }
    rewrite (Hl 4 4) by lia. pose proof (Hl 4 0) as H0. rewrite Z.add_0_r in H0. rewrite H0 by lia.
    intros (H1 & H2 & H3 & H4 & H5 & Hm). repeat (split; [done|]). apply IH; [|done].
    intros x Hx. apply Hext. simpl. lia.
Qed.

(** A volume survives changes outside its header. *)
Lemma volume_ext m m' i es :
  (forall x, FvBase i + FV_BlockMap <= x < FvBase i + header_bytes es -> m' x = m x) ->
  volume m i es -> volume m' i es.
Proof.
  intros Hext [H1 H2 H3 H4 H5 H6]. split; try done. eapply map_at_ext; [|exact H1].
  intros x Hx. apply Hext. unfold header_bytes. lia.
Qed.

Lemma volume_sizes m i es : volume m i es -> Forall (fun x => 0 < x) (block_sizes es).
Proof. intros Hv. eapply map_at_sizes, vo_map, Hv. Qed.

(** Address of block [k]. *)
Definition block_address (i : EFI_FW_VOL_INSTANCE) (es : list (Z * Z)) (k : nat) : Z :=
  FvBase i + block_offset (block_sizes es) k.

Lemma block_in_volume m i es k l :
  volume m i es -> block_sizes es !! k = Some l ->
  FvBase i <= block_address i es k /\ 0 < l /\ block_address i es k + l <= FvBase i + FvLength i.
Proof.
  intros Hv Hk. destruct (block_offset_bound _ _ _ (volume_sizes _ _ _ Hv) Hk) as (H1 & H2 & H3).
  rewrite (vo_total _ _ _ Hv) in H3. unfold block_address. lia.
Qed.

Section Ops.
Context {B : Build} {HS : Sum16} {HC : FvbPcds} {D : Type} {HD : FvbServices D}.
Implicit Types (s : fvb D).

(** The driver is initialised and its instance describes a volume. *)
Definition serving s es : Prop :=
  mFvInstance s <> 0 /\ volume (fmem s) (instance s) es.

Lemma get_inst_Ret s : mFvInstance s <> 0 -> get_inst s = Ret (instance s) s.
Proof. intros H. unfold get_inst. by rewrite (proj2 (Z.eqb_neq _ _) H). Qed.

Definition attributes s : Z := load 4 (fmem s) (FvBase (instance s) + FV_Attributes).

Lemma GetVolumeAttributes_Ret s :
  mFvInstance s <> 0 -> FvbGetVolumeAttributes s = Ret (EFI_SUCCESS, attributes s) s.
Proof.
  intros H. unfold FvbGetVolumeAttributes, header_field.
  rewrite (bind_Ret _ _ s (attributes s) s); [done|]. by rewrite (bind_Ret _ _ _ _ _ (get_inst_Ret s H)).
Qed.

(** The two outcomes of [FvbGetLbaAddress]. *)
Lemma GetLbaAddress_cases s es Lba :
  serving s es -> 0 <= Lba ->
  (block_sizes es !! Z.to_nat Lba = None /\
   exists a, FvbGetLbaAddress Lba s = Ret (EFI_INVALID_PARAMETER, (a, 0, 0)) s) \/
  (exists l n, block_sizes es !! Z.to_nat Lba = Some l /\ run_of (block_sizes es) (Z.to_nat Lba) l n /\
   FvbGetLbaAddress Lba s =
     Ret (EFI_SUCCESS, (block_address (instance s) es (Z.to_nat Lba), l, n)) s).
Proof.
  intros [Hp Hv] HL. unfold FvbGetLbaAddress.
  rewrite (bind_Ret _ _ _ _ _ (get_inst_Ret s Hp)). rewrite (bind_Ret _ _ s (fmem s) s) by done.
  pose proof (volume_sizes _ _ _ Hv) as Hpos. pose proof (length_le_Zsum _ Hpos).
  destruct Hv as [Hm Hf Hb Ht He Hn].
  destruct (lba_walk_spec (fmem s) es map_fuel Lba 0 0 _ Hm Hf) as [[Hno ->]|(l & n & Hl & Hr & ->)];
    try lia; rewrite Z.sub_0_r in *.
  - left. split; [done|]. by eexists.
  - right. exists l, n. split; [done|]. split; [done|]. unfold block_address.
    destruct (block_offset_bound _ _ _ Hpos Hl) as (? & ? & ?).
    rewrite Z.add_0_l, wrap_small by (unfold in_word; lia). done.
Qed.

(** ** Reads and writes *)

Definition dirty_with (m : mem) s : fvb D :=
  set_instance (with_Dirty true (instance s)) (set_fmem m s).

Lemma VarStoreWrite_Ret a n b s : mFvInstance s <> 0 ->
  VarStoreWrite a n b s =
    Ret EFI_SUCCESS (dirty_with (write_bytes (fmem s) a (read_bytes (fmem s) b n)) s).
Proof.
  intros H. unfold VarStoreWrite, mbind, M_bind, set_mem, modify, set_inst. simpl.
  by rewrite (proj2 (Z.eqb_neq _ _) H).
Qed.

Lemma VarStoreErase_Ret a n s : mFvInstance s <> 0 ->
  VarStoreErase a n s = Ret EFI_SUCCESS (dirty_with (fill_bytes (fmem s) a n 0xff) s).
Proof.
  intros H. unfold VarStoreErase, mbind, M_bind, set_mem, modify, set_inst. simpl.
  by rewrite (proj2 (Z.eqb_neq _ _) H).
Qed.

(** How many of [n] bytes at [Off] lie in a block of length [l], and the
    status that tells. *)
Definition clipped (Off l n : Z) : Z := Z.min n (l - Off).
Definition clip_status (Off l n : Z) : Z :=
  if clipped Off l n <? n then EFI_BAD_BUFFER_SIZE else EFI_SUCCESS.

Lemma clip_eq Off l n :
  0 <= Off <= l -> 0 < n -> n + Off < 2 ^ 64 -> l < 2 ^ 32 ->
  clip Off l n = (clip_status Off l n, clipped Off l n).
Proof.
  intros HO Hn Hw Hl. unfold clip, clip_status, clipped.
  rewrite (wrap_small 64) by (unfold in_word; lia).
  destruct (Z.ltb_spec l (n + Off)), (Z.ltb_spec (Z.min n (l - Off)) n); try lia; f_equal; try lia.
  rewrite wrap_small by (unfold in_word; lia). lia.
Qed.

(** What a write must do, by cases on the request and the volume. *)
Definition write_spec es (Lba Off : Z) (NumBytes : option Z) (Buf : Z) s : outcome (fvb D) (Z * option Z) :=
  match NumBytes with
  | None => Ret (EFI_INVALID_PARAMETER, None) s
  | Some n =>
      if (Buf =? 0) || (n =? 0) then Ret (EFI_INVALID_PARAMETER, Some n) s else
      match block_sizes es !! Z.to_nat Lba with
      | None => Ret (EFI_INVALID_PARAMETER, Some n) s
      | Some l =>
          if negb (Z.testbit (attributes s) 5) then Ret (EFI_ACCESS_DENIED, Some n) s else
          if l <? Off then Ret (EFI_INVALID_PARAMETER, Some n) s else
          let data := read_bytes (fmem s) Buf (clipped Off l n) in
          let a := block_address (instance s) es (Z.to_nat Lba) + Off in
          Ret (clip_status Off l n, Some (clipped Off l n)) (dirty_with (write_bytes (fmem s) a data) s)
      end
  end.

Definition read_spec es (Lba Off : Z) (NumBytes : option Z) (Buf : Z) s : outcome (fvb D) (Z * option Z) :=
  match NumBytes with
  | None => Ret (EFI_INVALID_PARAMETER, None) s
  | Some n =>
      if (Buf =? 0) || (n =? 0) then Ret (EFI_INVALID_PARAMETER, Some n) s else
      match block_sizes es !! Z.to_nat Lba with
      | None => Ret (EFI_INVALID_PARAMETER, Some n) s
      | Some l =>
          if negb (Z.testbit (attributes s) 2) then Ret (EFI_ACCESS_DENIED, Some n) s else
          if l <? Off then Ret (EFI_INVALID_PARAMETER, Some n) s else
          let data := read_bytes (fmem s) (block_address (instance s) es (Z.to_nat Lba) + Off)
                        (clipped Off l n) in
          Ret (clip_status Off l n, Some (clipped Off l n)) (set_fmem (write_bytes (fmem s) Buf data) s)
      end
  end.

(** A request whose numbers are in range. *)
Definition sane_request (Lba Off : Z) (NumBytes : option Z) : Prop :=
  0 <= Lba /\ 0 <= Off /\ match NumBytes with None => True | Some n => 0 <= n /\ n + Off < 2 ^ 64 end.

Lemma land_bit a k : 0 <= k -> (Z.land a (2 ^ k) =? 0) = negb (Z.testbit a k).
Proof.
  intros Hk. destruct (Z.testbit a k) eqn:E; simpl.
  - apply Z.eqb_neq. intros H. apply (f_equal (fun z => Z.testbit z k)) in H.
    by rewrite Z.land_spec, Z.pow2_bits_true, E, Z.bits_0 in H.
  - apply Z.eqb_eq, Z.bits_inj'. intros j Hj. rewrite Z.land_spec, Z.pow2_bits_eqb, Z.bits_0 by done.
    destruct (Z.eqb_spec k j) as [->|]; [by rewrite E | apply andb_false_r].
Qed.

Lemma map_at_small m es : forall a, map_at m a es -> Forall (fun x => x < 2 ^ 32) (block_sizes es).
Proof.
  induction es as [|[n l] es IH]; intros a; [constructor|]. intros (_ & _ & Hn & Hl & Hnl & H).
  rewrite block_sizes_cons. apply Forall_app. simpl in *. split; [|by eapply IH].
  apply Forall_replicate. nia.
Qed.

Lemma write_lba_ok s es Lba Off n l :
  serving s es -> block_sizes es !! Z.to_nat Lba = Some l -> 0 <= Off <= l ->
  u64 (block_address (instance s) es (Z.to_nat Lba) + Off) =
    block_address (instance s) es (Z.to_nat Lba) + Off /\
  (0 < n -> n + Off < 2 ^ 64 -> clip Off l n = (clip_status Off l n, clipped Off l n)).
Proof.
  intros [Hp Hv] Hl HO. destruct (block_in_volume _ _ _ _ _ Hv Hl) as (H1 & H2 & H3).
  pose proof (vo_base _ _ _ Hv). pose proof (vo_end _ _ _ Hv).
  split; [apply wrap_small; unfold in_word; lia|]. intros Hn Hw.
  apply clip_eq; try done.
  apply (Forall_lookup_1 _ _ _ _ (map_at_small _ _ _ (vo_map _ _ _ Hv)) Hl).
Qed.

Lemma write_eq s es Lba Off NumBytes Buf :
  serving s es -> sane_request Lba Off NumBytes ->
  FvbProtocolWrite Lba Off NumBytes Buf s = write_spec es Lba Off NumBytes Buf s.
Proof.
  intros Hs (HL & HO & Hn). destruct NumBytes as [n|]; [|done]. destruct Hn as [Hn0 Hw].
  unfold FvbProtocolWrite, write_spec.
  destruct (Z.eqb_spec Buf 0), (Z.eqb_spec n 0); cbn [orb]; try done.
  destruct (GetLbaAddress_cases s es Lba Hs HL) as [(-> & a & E)|(l & k & Hl & _ & E)];
    rewrite (bind_Ret _ _ _ _ _ E); [done|]. rewrite Hl. cbn [EFI_ERROR].
  change (EFI_ERROR EFI_SUCCESS) with false. cbn match.
  rewrite (bind_Ret _ _ _ _ _ (GetVolumeAttributes_Ret s (proj1 Hs))). cbn [snd].
  change EFI_FVB2_WRITE_STATUS with (2 ^ 5). rewrite land_bit by lia.
  destruct (Z.testbit (attributes s) 5); cbn [negb]; [|done].
  destruct (Z.ltb_spec l Off); [done|].
  destruct (write_lba_ok s es Lba Off n l Hs Hl) as (-> & Hclip); [lia|].
  rewrite Hclip by lia. rewrite (bind_Ret _ _ _ _ _ (VarStoreWrite_Ret _ _ _ s (proj1 Hs))). done.
Qed.

Lemma read_eq s es Lba Off NumBytes Buf :
  serving s es -> sane_request Lba Off NumBytes ->
  FvbProtocolRead Lba Off NumBytes Buf s = read_spec es Lba Off NumBytes Buf s.
Proof.
  intros Hs (HL & HO & Hn). destruct NumBytes as [n|]; [|done]. destruct Hn as [Hn0 Hw].
  unfold FvbProtocolRead, read_spec.
  destruct (Z.eqb_spec Buf 0), (Z.eqb_spec n 0); cbn [orb]; try done.
  destruct (GetLbaAddress_cases s es Lba Hs HL) as [(-> & a & E)|(l & k & Hl & _ & E)];
    rewrite (bind_Ret _ _ _ _ _ E); [done|]. rewrite Hl.
  change (EFI_ERROR EFI_SUCCESS) with false. cbn match.
  rewrite (bind_Ret _ _ _ _ _ (GetVolumeAttributes_Ret s (proj1 Hs))). cbn [snd].
  change EFI_FVB2_READ_STATUS with (2 ^ 2). rewrite land_bit by lia.
  destruct (Z.testbit (attributes s) 2); cbn [negb]; [|done].
  destruct (Z.ltb_spec l Off); [done|].
  destruct (write_lba_ok s es Lba Off n l Hs Hl) as (-> & Hclip); [lia|].
  rewrite Hclip by lia. done.
Qed.

(** ** Erasure *)

Lemma EraseBlock_Ret s es k l :
  serving s es -> block_sizes es !! Z.to_nat k = Some l -> 0 <= k ->
  Z.testbit (attributes s) 5 = true ->
  FvbEraseBlock k s = Ret EFI_SUCCESS
    (dirty_with (fill_bytes (fmem s) (block_address (instance s) es (Z.to_nat k)) l 0xff) s).
Proof.
  intros Hs Hl Hk Hat. unfold FvbEraseBlock.
  rewrite (bind_Ret _ _ _ _ _ (GetVolumeAttributes_Ret s (proj1 Hs))). cbn [snd].
  change EFI_FVB2_WRITE_STATUS with (2 ^ 5). rewrite land_bit, Hat by lia. cbn [negb].
  destruct (GetLbaAddress_cases s es k Hs Hk) as [(Hno & _)|(l' & n & Hl' & _ & E)]; [congruence|].
  rewrite (bind_Ret _ _ _ _ _ E). replace l' with l by congruence.
  change (EFI_ERROR EFI_SUCCESS) with false. cbn match.
  by apply VarStoreErase_Ret, Hs.
Qed.

(** Byte [x] belongs to one of the [n] blocks from [k]. *)
Definition in_blocks (i : EFI_FW_VOL_INSTANCE) es (k n : Z) (x : Z) : Prop :=
  exists j l, k <= j < k + n /\ block_sizes es !! Z.to_nat j = Some l /\
    block_address i es (Z.to_nat j) <= x < block_address i es (Z.to_nat j) + l.

(** [s'] is [s] with the bytes satisfying [E] erased. *)
Definition erased (E : Z -> Prop) s s' : Prop :=
  mFvInstance s' = mFvInstance s /\
  (instance s' = instance s \/ instance s' = with_Dirty true (instance s)) /\
  (forall x, E x -> fmem s' x = 0xff) /\ (forall x, fmem s' x = fmem s x \/ E x).

(** The header lies in the first block. *)
Definition header_in_first es : Prop :=
  exists l, block_sizes es !! 0%nat = Some l /\ header_bytes es <= l.

Lemma block_offset_mono sizes j k l :
  Forall (fun x => 0 < x) sizes -> (j < k)%nat -> (k <= length sizes)%nat -> sizes !! j = Some l ->
  block_offset sizes j + l <= block_offset sizes k.
Proof.
  intros Hpos Hjk Hk Hl. unfold block_offset.
  replace k with (j + (k - j))%nat by lia. rewrite <- (take_drop_middle _ _ _ Hl) at 2.
  pose proof (lookup_lt_Some _ _ _ Hl).
  rewrite take_app_ge by (rewrite length_take; lia). rewrite length_take, Zsum_app.
  replace (j + (k - j) - j `min` length sizes)%nat with (S (k - j - 1)) by lia. simpl.
  change (Zsum (l :: ?x)) with (l + Zsum x). cbn [Zsum foldr].
  pose proof (Zsum_nonneg _ (Forall_take _ (k - j - 1) _ (Forall_drop _ (S j) _ Hpos))).
  unfold Zsum in *. lia.
Qed.

(** Blocks other than the first do not meet the header. *)
Lemma later_block_off_header i es j l x :
  Forall (fun x => 0 < x) (block_sizes es) -> header_in_first es ->
  block_sizes es !! j = Some l -> (0 < j)%nat ->
  block_address i es j <= x -> FvBase i + header_bytes es <= x.
Proof.
  intros Hpos (l0 & H0 & Hh) Hl Hj Hx.
  pose proof (lookup_lt_Some _ _ _ Hl).
  pose proof (block_offset_mono _ 0 j l0 Hpos Hj ltac:(lia) H0).
  unfold block_address, block_offset in *. simpl in *. lia.
Qed.

Lemma FV_header_room es : FV_Attributes + 4 <= header_bytes es.
Proof. unfold header_bytes, FV_Attributes, FV_BlockMap. lia. Qed.

(** What an erasure that spares the header keeps. *)
Lemma erased_serving E s s' es :
  serving s es -> erased E s s' ->
  (forall x, E x -> FvBase (instance s) + header_bytes es <= x) ->
  serving s' es /\ attributes s' = attributes s /\
  FvBase (instance s') = FvBase (instance s) /\ NumOfBlocks (instance s') = NumOfBlocks (instance s).
Proof.
  intros [Hp Hv] (Hp' & Hi & _ & Hout) Hhdr.
  assert (Hi' : FvBase (instance s') = FvBase (instance s) /\
    NumOfBlocks (instance s') = NumOfBlocks (instance s) /\
    FvLength (instance s') = FvLength (instance s)) by (by destruct Hi as [-> | ->]).
  destruct Hi' as (Eb & En & El).
  assert (Hsame : forall x, x < FvBase (instance s) + header_bytes es -> fmem s' x = fmem s x).
  { intros x Hx. destruct (Hout x) as [|HE]; [done|]. specialize (Hhdr x HE). lia. }
  split; [split; [congruence|]|split; [|done]].
  - apply (volume_ext (fmem s)); [intros x Hx; apply Hsame; rewrite Eb in Hx; lia|].
    destruct Hv as [H1 H2 H3 H4 H5 H6]. split; rewrite ?Eb, ?En, ?El; done.
  - unfold attributes, load. rewrite Eb. f_equal. apply read_bytes_ext. intros i Hi2. apply Hsame.
    pose proof (FV_header_room es). unfold FV_Attributes in *. lia.
Qed.

Lemma erased_trans E1 E2 s s1 s2 :
  erased E1 s s1 -> erased E2 s1 s2 -> erased (fun x => E1 x \/ E2 x) s s2.
Proof.
  intros (P1 & I1 & In1 & Out1) (P2 & I2 & In2 & Out2). split; [congruence|]. split; [|split].
  - destruct I1 as [E|E], I2 as [E'|E']; rewrite E', E; auto.
  - intros x [HE|HE]; [|by apply In2]. destruct (Out2 x) as [->|HE']; [by apply In1 | by apply In2].
  - intros x. destruct (Out2 x) as [->|]; [|by right; right]. destruct (Out1 x); auto.
Qed.

Lemma erased_ext (E E' : Z -> Prop) s s' :
  (forall x, E x <-> E' x) -> erased E s s' -> erased E' s s'.
Proof.
  intros HE (H1 & H2 & H3 & H4). split; [done|]. split; [done|]. split.
  - intros x Hx. by apply H3, HE.
  - intros x. destruct (H4 x); [by left | right; by apply HE].
Qed.

Lemma erase_run_spec es n : forall k s,
  serving s es -> header_in_first es -> Z.testbit (attributes s) 5 = true ->
  1 <= k -> k + Z.of_nat n <= Z.of_nat (length (block_sizes es)) ->
  exists s', erase_run n k s = Ret EFI_SUCCESS s' /\
    erased (in_blocks (instance s) es k (Z.of_nat n)) s s'.
Proof.
  induction n as [|n IH]; intros k s Hs Hh Hat Hk Hend; cbn [erase_run].
  - exists s. split; [done|]. split; [done|]. split; [by left|]. split; [|by left].
    intros x (j & l & Hj & _). lia.
  - destruct (lookup_lt_is_Some_2 (block_sizes es) (Z.to_nat k)) as [l Hl]; [lia|].
    rewrite (bind_Ret _ _ _ _ _ (EraseBlock_Ret s es k l Hs Hl ltac:(lia) Hat)).
    change (EFI_ERROR EFI_SUCCESS) with false. cbn match.
    set (s1 := dirty_with _ s).
    assert (H1 : erased (fun x => block_address (instance s) es (Z.to_nat k) <= x <
                                  block_address (instance s) es (Z.to_nat k) + l) s s1).
    { split; [done|]. split; [by right|]. simpl. split; intros x.
      - apply fill_bytes_in.
      - unfold fill_bytes. destruct (in_range _ _ _) eqn:E; [right | by left].
        by apply in_range_spec. }
    pose proof (volume_sizes _ _ _ (proj2 Hs)) as Hpos.
    destruct (erased_serving _ _ _ _ Hs H1) as (Hs1 & Hat1 & Eb & _).
    { intros x Hx. eapply later_block_off_header; [done..| |apply Hx]. lia. }
    pose proof (length_le_Zsum _ Hpos). pose proof (vo_total _ _ _ (proj2 Hs)).
    pose proof (vo_end _ _ _ (proj2 Hs)). pose proof (vo_base _ _ _ (proj2 Hs)).
    rewrite wrap_small by (unfold in_word; lia).
    destruct (IH (k + 1) s1 Hs1 Hh) as (s2 & E2 & Her2); [by rewrite Hat1 | lia | lia |].
    exists s2. split; [done|].
    eapply erased_ext; [|exact (erased_trans _ _ _ _ _ H1 Her2)]. intros x. split.
    + intros [Hx|(j & l' & Hj & Hl' & Hx)]; [exists k, l; split; [lia|done]|].
      exists j, l'. split; [lia|]. split; [done|]. unfold block_address in *. by rewrite <- Eb.
    + intros (j & l' & Hj & Hl' & Hx). destruct (decide (j = k)) as [->|].
      * left. by replace l with l' by congruence.
      * right. exists j, l'. split; [lia|]. split; [done|]. unfold block_address in *. by rewrite Eb.
Qed.

(** The argument list of [EraseBlocks] for the given block ranges. *)
Definition erase_args (ps : list (Z * Z)) : list Z :=
  concat ((fun p => [p.1; p.2]) <$> ps) ++ [EFI_LBA_LIST_TERMINATOR].

(** A range of existing blocks. *)
Definition range_ok es (p : Z * Z) : Prop :=
  0 <= p.1 /\ 0 < p.2 /\ p.1 + p.2 <= Z.of_nat (length (block_sizes es)).

Definition in_ranges (i : EFI_FW_VOL_INSTANCE) es (ps : list (Z * Z)) (x : Z) : Prop :=
  exists p, p ∈ ps /\ in_blocks i es p.1 p.2 x.

Lemma blocks_lt_word m i es : volume m i es -> Z.of_nat (length (block_sizes es)) < 2 ^ 64 - 1.
Proof.
  intros Hv. pose proof (length_le_Zsum _ (volume_sizes _ _ _ Hv)).
  destruct Hv as [_ _ Hb Ht He _]. lia.
Qed.

Lemma erase_check_ok m i es ps :
  volume m i es -> Forall (range_ok es) ps ->
  erase_check (NumOfBlocks i) (erase_args ps) = Ret EFI_SUCCESS tt.
Proof.
  intros Hv. pose proof (blocks_lt_word _ _ _ Hv). unfold erase_args.
  induction 1 as [|[k n] ps (H1 & H2 & H3) _ IH]; simpl in *; [done|].
  unfold EFI_LBA_LIST_TERMINATOR in *.
  rewrite (proj2 (Z.eqb_neq k _)), (proj2 (Z.eqb_neq n 0)) by lia. cbn [orb].
  rewrite wrap_small, (vo_num _ _ _ Hv), (proj2 (Z.ltb_ge _ _)) by (unfold in_word; lia).
  rewrite <- (vo_num _ _ _ Hv). exact IH.
Qed.

Lemma erase_all_spec es ps : forall s,
  serving s es -> header_in_first es -> Z.testbit (attributes s) 5 = true ->
  Forall (range_ok es) ps -> Forall (fun p => 1 <= p.1) ps ->
  exists s', erase_all (erase_args ps) s = Ret EFI_SUCCESS s' /\
    erased (in_ranges (instance s) es ps) s s'.
Proof.
  induction ps as [|[k n] ps IH]; intros s Hs Hh Hat Hok Hpos.
  - exists s. split; [done|]. split; [done|]. split; [by left|]. split; [|by left].
    by intros x (p & ?%not_elem_of_nil & _).
  - apply (Forall_cons_1 _ (k, n)) in Hok as [(H1 & H2 & H3) Hok].
    apply (Forall_cons_1 _ (k, n)) in Hpos as [H4 Hpos]. simpl in *.
    pose proof (blocks_lt_word _ _ _ (proj2 Hs)).
    unfold erase_args. simpl. unfold EFI_LBA_LIST_TERMINATOR at 1.
    rewrite (proj2 (Z.eqb_neq k _)) by lia.
    destruct (erase_run_spec es (Z.to_nat n) k s Hs Hh Hat H4 ltac:(lia)) as (s1 & E1 & He1).
    rewrite Z2Nat.id in He1 by lia. rewrite (bind_Ret _ _ _ _ _ E1).
    change (EFI_ERROR EFI_SUCCESS) with false. cbn match.
    pose proof (volume_sizes _ _ _ (proj2 Hs)) as Hvs.
    destruct (erased_serving _ _ _ _ Hs He1) as (Hs1 & Hat1 & Eb & _).
    { intros x (j & l & Hj & Hl & Hx). eapply later_block_off_header; [done..| |apply Hx]. lia. }
    destruct (IH s1 Hs1 Hh) as (s2 & E2 & He2); [by rewrite Hat1 | done | done |].
    exists s2. split; [exact E2|].
    eapply erased_ext; [|exact (erased_trans _ _ _ _ _ He1 He2)]. intros x. split.
    + intros [Hx|(p & Hp & j & l & Hj & Hl & Hx)]; [by exists (k, n); split; [left|]|].
      exists p. split; [by right|]. exists j, l. unfold block_address in *. by rewrite <- Eb.
    + intros (p & [->|Hp]%elem_of_cons & Hx); [by left|]. right. exists p. split; [done|].
      destruct Hx as (j & l & Hj & Hl & Hx). exists j, l. unfold block_address in *. by rewrite Eb.
Qed.

(** The first pass rejects a list with a range that is empty or runs past
    the last block, when the sums do not wrap. *)
Lemma erase_check_bad m i es ps q :
  volume m i es -> q ∈ ps ->
  Forall (fun p => 0 <= p.1 /\ 0 <= p.2 /\ p.1 + p.2 < 2 ^ 64 /\ p.1 <> EFI_LBA_LIST_TERMINATOR) ps ->
  ~ range_ok es q ->
  erase_check (NumOfBlocks i) (erase_args ps) = Ret EFI_INVALID_PARAMETER tt.
Proof.
  intros Hv Hq Hall Hbad. unfold erase_args. induction ps as [|[k n] ps IH]; [by apply not_elem_of_nil in Hq|].
  apply (Forall_cons_1 _ (k, n)) in Hall as [(H1 & H2 & H3 & H4) Hall]. simpl in *.
  rewrite (proj2 (Z.eqb_neq k _)), wrap_small by (unfold in_word; done || lia).
  destruct (Z.eqb_spec n 0), (Z.ltb_spec (NumOfBlocks i) (k + n)); cbn [orb]; try done.
  apply IH; [|done]. apply elem_of_cons in Hq as [->|]; [|done].
  destruct Hbad. rewrite (vo_num _ _ _ Hv) in *. split; simpl; lia.
Qed.

(** ** Attributes *)

(** Which settings the volume accepts: read-only bits as they are, a locked
    volume keeps its status, and each status needs its capability. *)
Definition attributes_allowed (old req : Z) : Prop :=
  (forall k, 0 <= k -> Z.testbit UnchangedAttributes k = true -> Z.testbit old k = Z.testbit req k) /\
  (Z.testbit old 7 = true ->
     forall k, 0 <= k -> Z.testbit EFI_FVB2_STATUS k = true -> Z.testbit old k = Z.testbit req k) /\
  (if Z.testbit req 2 then Z.testbit old 1 = true else Z.testbit old 0 = true) /\
  (if Z.testbit req 5 then Z.testbit old 4 = true else Z.testbit old 3 = true) /\
  (Z.testbit req 7 = true -> Z.testbit old 6 = true).

Lemma masked_eq a b mask :
  (Z.lxor (Z.land a mask) (Z.land b mask) =? 0) = true <->
  forall k, 0 <= k -> Z.testbit mask k = true -> Z.testbit a k = Z.testbit b k.
Proof.
  rewrite Z.eqb_eq, Z.lxor_eq_0_iff. split.
  - intros H k Hk Hm. apply (f_equal (fun z => Z.testbit z k)) in H.
    by rewrite !Z.land_spec, Hm, !andb_true_r in H.
  - intros H. apply Z.bits_inj'. intros k Hk. rewrite !Z.land_spec.
    destruct (Z.testbit mask k) eqn:E; [by rewrite (H k Hk E) | by rewrite !andb_false_r].
Qed.

Lemma land_masked_bit a mask k : 0 <= k -> Z.testbit mask k = true ->
  (Z.land (Z.land a mask) (2 ^ k) =? 0) = negb (Z.testbit a k).
Proof. intros Hk Hm. by rewrite land_bit, Z.land_spec, Hm, andb_true_r. Qed.

Lemma check_attributes_spec old req :
  check_attributes old req = EFI_SUCCESS <-> attributes_allowed old req.
Proof.
  unfold check_attributes, attributes_allowed.
  change EFI_FVB2_READ_DISABLED_CAP with (2 ^ 0). change EFI_FVB2_READ_ENABLED_CAP with (2 ^ 1).
  change EFI_FVB2_READ_STATUS with (2 ^ 2). change EFI_FVB2_WRITE_DISABLED_CAP with (2 ^ 3).
  change EFI_FVB2_WRITE_ENABLED_CAP with (2 ^ 4). change EFI_FVB2_WRITE_STATUS with (2 ^ 5).
  change EFI_FVB2_LOCK_CAP with (2 ^ 6). change EFI_FVB2_LOCK_STATUS with (2 ^ 7).
  rewrite !land_masked_bit by done. rewrite land_bit by lia.
  rewrite <- (masked_eq old req UnchangedAttributes), <- (masked_eq old req EFI_FVB2_STATUS).
  destruct (Z.lxor _ _ =? 0); cbn [negb andb]; [|by split; [|intros (? & _)]].
  destruct (Z.testbit old 7), (Z.lxor _ _ =? 0); cbn [negb andb];
    destruct (Z.testbit old 0), (Z.testbit old 1), (Z.testbit req 2); cbn [negb andb];
    try (split; [by intros ? | naive_solver]; fail);
    destruct (Z.testbit old 3), (Z.testbit old 4), (Z.testbit req 5); cbn [negb andb];
    try (split; [by intros ? | naive_solver]; fail);
    destruct (Z.testbit old 6), (Z.testbit req 7); cbn [negb andb];
    try (split; [by intros ? | naive_solver]; fail); split; naive_solver.
Qed.

(** The attributes with the status bits of the request. *)
Definition with_status (old req : Z) : Z :=
  Z.lor (Z.land old (Z.land 0xFFFFFFFF (u32 (Z.lnot EFI_FVB2_STATUS)))) (Z.land req EFI_FVB2_STATUS).

Lemma testbit_high z w k : in_word w z -> 0 <= w <= k -> Z.testbit z k = false.
Proof.
  intros Hz Hk. rewrite <- (wrap_small w z Hz), wrap_testbit by lia.
  by rewrite (proj2 (Z.ltb_ge k w)) by lia.
Qed.

Lemma with_status_testbit old req k : in_word 32 old -> 0 <= k ->
  Z.testbit (with_status old req) k =
    if Z.testbit EFI_FVB2_STATUS k then Z.testbit req k else Z.testbit old k.
Proof.
  intros Ho Hk. unfold with_status. rewrite Z.lor_spec, !Z.land_spec.
  destruct (Z.ltb_spec k 32) as [Hlt|Hge].
  - change 0xFFFFFFFF with (Z.ones 32). rewrite Z.ones_spec_low, wrap_testbit, Z.lnot_spec by lia.
    rewrite (proj2 (Z.ltb_lt k 32)) by lia.
    by destruct (Z.testbit EFI_FVB2_STATUS k), (Z.testbit old k), (Z.testbit req k).
  - rewrite (testbit_high old 32 k) by (done || lia).
    rewrite (testbit_high EFI_FVB2_STATUS 32 k) by (unfold in_word; done || lia).
    by rewrite andb_false_r.
Qed.

Lemma with_status_word old req : in_word 32 old -> in_word 32 (with_status old req).
Proof.
  intros Ho. replace (with_status old req) with (u32 (with_status old req)); [by apply wrap_range|].
  apply Z.bits_inj'. intros k Hk. rewrite wrap_testbit, !with_status_testbit by (done || lia).
  destruct (Z.ltb_spec k 32); [done|]. simpl.
  rewrite (testbit_high old 32 k) by (done || lia).
  by rewrite (testbit_high EFI_FVB2_STATUS 32 k) by (unfold in_word; done || lia).
Qed.

Lemma check_attributes_status old req :
  check_attributes old req = EFI_SUCCESS \/ EFI_ERROR (check_attributes old req) = true.
Proof. unfold check_attributes. repeat case_match; auto. Qed.

Lemma load_write n m a z :
  0 <= z < 256 ^ Z.of_nat n -> load (Z.of_nat n) (write_bytes m a (le_bytes n z)) a = z.
Proof.
  intros Hz. unfold load. pose proof (read_write_same m a (le_bytes n z)) as H.
  rewrite length_le_bytes in H. rewrite H, le_val_le_bytes. by apply Z.mod_small.
Qed.

Lemma set_attributes_spec req s :
  mFvInstance s <> 0 -> in_word 32 (attributes s) ->
  exists st new s', FvbSetVolumeAttributes req s = Ret (st, new) s' /\
    ((EFI_ERROR st = true /\ ~ attributes_allowed (attributes s) req /\ new = req /\ s' = s) \/
     (st = EFI_SUCCESS /\ attributes_allowed (attributes s) req /\
      new = with_status (attributes s) req /\ attributes s' = new /\
      (exists m', s' = set_fmem m' s /\
         only_changes (FvBase (instance s) + FV_Attributes) 4 (fmem s) m'))).
Proof.
  intros Hp Hw. unfold FvbSetVolumeAttributes, header_field.
  rewrite (bind_Ret _ _ _ _ _ (get_inst_Ret s Hp)).
  rewrite (bind_Ret _ _ s (attributes s) s) by (by rewrite (bind_Ret _ _ _ _ _ (get_inst_Ret s Hp))).
  fold (with_status (attributes s) req).
  destruct (check_attributes_status (attributes s) req) as [E|E].
  - rewrite E. change (EFI_ERROR EFI_SUCCESS) with false. cbn match.
    do 3 eexists. split; [reflexivity|]. right. split; [done|].
    split; [by apply check_attributes_spec|]. split; [done|]. split.
    + unfold attributes. simpl. apply (load_write 4). by apply with_status_word.
    + eexists. split; [reflexivity|]. simpl.
      eapply only_changes_trans; apply only_changes_write; simpl; lia.
  - rewrite E. do 3 eexists. split; [reflexivity|]. left. split; [done|]. split; [|done].
    rewrite <- check_attributes_spec. intros Hc. by rewrite Hc in E.
Qed.
End Ops.

(** ** Keeping the disk image *)

(** What the services document about the disk and the handle queue: [image]
    is the offset and content of the last write that succeeded. *)
Class FvbServicesLaws (D : Type) {HD : FvbServices D} := {
  image : D -> option (Z * list Z);
  WriteDisk_law : forall p id off bs d st d', WriteDisk p id off bs d = (st, d') ->
    (EFI_ERROR st = false -> image d' = Some (off, bs)) /\ (pending d' <= pending d)%nat;
  LocateHandle_law : forall r d st h d', LocateHandle r d = ((st, h), d') ->
    image d' = image d /\ (st <> EFI_NOT_FOUND -> (pending d' < pending d)%nat);
  LocateDiskIo_law : forall dev d x d', LocateDiskIo dev d = (x, d') ->
    image d' = image d /\ (pending d' <= pending d)%nat;
  HandleProtocol_law : forall h p d x d', HandleProtocol h p d = (x, d') ->
    image d' = image d /\ (pending d' <= pending d)%nat;
  DuplicateDevicePath_law : forall p d x d', DuplicateDevicePath p d = (x, d') ->
    image d' = image d /\ (pending d' <= pending d)%nat;
  ConvertDevicePathToText_law : forall p d x d', ConvertDevicePathToText p d = (x, d') ->
    image d' = image d /\ (pending d' <= pending d)%nat;
  FreePool_law : forall p d, image (FreePool p d) = image d /\ (pending (FreePool p d) <= pending d)%nat;
  PcdSet_law : forall p v d st d', PcdSet p v d = (st, d') -> image d' = image d;
  CreateEvent_law : forall n g d x d', CreateEvent n g d = (x, d') -> image d' = image d;
  RegisterProtocolNotify_law : forall p e d x d',
    RegisterProtocolNotify p e d = (x, d') -> image d' = image d;
  CloseEvent_law : forall e d st d', CloseEvent e d = (st, d') -> image d' = image d
}.

Section Dump.
Context {B : Build} {HS : Sum16} {HC : FvbPcds} {D : Type} {HD : FvbServices D} {HL : FvbServicesLaws D}.
Implicit Types (s : fvb D).

Lemma wpe_sys_call {A} E (f : D -> A * D) s (Q : A -> fvb D -> Prop) :
  (forall a d, f (sys s) = (a, d) -> Q a (set_sys d s)) -> wpe E (sys_call f) s Q.
Proof. unfold wpe, sys_call. intros H. destruct (f (sys s)) as [a d] eqn:E'. by apply H. Qed.

Lemma wpe_get_inst s (Q : EFI_FW_VOL_INSTANCE -> fvb D -> Prop) :
  (mFvInstance s <> 0 -> Q (instance s) s) -> wpe fuel_ok get_inst s Q.
Proof. unfold wpe, get_inst. intros H. destruct (Z.eqb_spec (mFvInstance s) 0); [done | by apply H]. Qed.

Lemma wpe_set_inst f s (Q : unit -> fvb D -> Prop) :
  Q tt (set_instance (f (instance s)) s) -> wpe fuel_ok (set_inst f) s Q.
Proof. unfold wpe, set_inst. intros H. by destruct (mFvInstance s =? 0). Qed.

(** The bytes of the volume, as a dump writes them. *)
Definition volume_image s : Z * list Z :=
  (Offset (instance s), read_bytes (fmem s) (FvBase (instance s)) (FvLength (instance s))).

(** Once a store device is known and nothing is dirty, the disk holds the volume. *)
Definition synced s : Prop :=
  Device (instance s) <> 0 -> Dirty (instance s) = false -> image (sys s) = Some (volume_image s).

(** [s'] differs from [s] in the services only, with no new handles. *)
Definition only_sys s s' : Prop :=
  exists d, s' = set_sys d s /\ (pending d <= pending (sys s))%nat.

Lemma DoDump_spec dev id s :
  wpe fuel_ok (DoDump dev id) s (fun st s' => only_sys s s' /\
    (EFI_ERROR st = false -> image (sys s') = Some (volume_image s))).
Proof.
  unfold DoDump. wpe_go. apply wpe_sys_call. intros [st h] d1 H1. apply LocateDiskIo_law in H1 as [_ P1].
  destruct (EFI_ERROR st) eqn:E1; wpe_go.
  { split; [by exists d1 | congruence]. }
  apply wpe_sys_call. intros [st' io] d2 H2. apply HandleProtocol_law in H2 as [_ P2]. simpl in P2.
  destruct (EFI_ERROR st') eqn:E2; wpe_go.
  { split; [exists d2; split; [done | lia] | congruence]. }
  apply wpe_get_inst. intros Hp. wpe_go. apply wpe_sys_call. intros st'' d3 H3.
  apply WriteDisk_law in H3 as [H3 P3]. simpl in *. split; [|exact H3]. exists d3. split; [done | lia].
Qed.

Lemma free_text_spec t s :
  wpe fuel_ok (free_text t) s (fun _ s' => only_sys s s' /\ image (sys s') = image (sys s)).
Proof.
  unfold free_text. destruct (t =? 0); wpe_go.
  - split; [|done]. exists (sys s). by destruct s.
  - destruct (FreePool_law t (sys s)). split; [by eexists | done].
Qed.

(** Dumping ends clean and on disk, or leaves the volume as dirty as it was. *)
Lemma DumpVars_spec s :
  wpe fuel_ok DumpVars s (fun _ s' => fmem s' = fmem s /\ mFvInstance s' = mFvInstance s /\
    (s' = s \/ instance s' = instance s /\ Dirty (instance s) = true \/
     instance s' = with_Dirty false (instance s) /\ image (sys s') = Some (volume_image s))).
Proof.
  unfold DumpVars. wpe_go. apply wpe_get_inst. intros Hp.
  destruct (Device (instance s) =? 0); wpe_go; [by auto|].
  destruct (Dirty (instance s)) eqn:Hd; cbn [negb]; wpe_go; [|by auto].
  eapply wpe_mono; [apply DoDump_spec|]. intros st s1 [(d1 & -> & _) Himg]. simpl in Himg.
  destruct (EFI_ERROR st) eqn:E; wpe_go.
  - apply wpe_get_inst. intros _. wpe_go. apply wpe_sys_call. intros t d2 _. wpe_go.
    eapply wpe_mono; [apply (free_text_spec t)|]. intros ? s2 [(d3 & -> & _) _].
    unfold ASSERT_EFI_ERROR. apply wpe_ASSERT; [discriminate|]. auto 6.
  - assert (Hend : forall s1, fmem s1 = fmem s -> mFvInstance s1 = mFvInstance s ->
      instance s1 = instance s -> image (sys s1) = Some (volume_image s) ->
      wpe fuel_ok (set_inst (with_Dirty false)) s1 (fun _ s' =>
        fmem s' = fmem s /\ mFvInstance s' = mFvInstance s /\
        (s' = s \/ instance s' = instance s /\ true = true \/
         instance s' = with_Dirty false (instance s) /\ image (sys s') = Some (volume_image s)))).
    { intros s1 E1 E2 E3 E4. apply wpe_set_inst. simpl. rewrite E3.
      split; [done|]. split; [done|]. right. right. done. }
    destruct (_ <? _); wpe_go.
    + apply wpe_sys_call. intros ps d2 H2. apply PcdSet_law in H2. simpl in H2. unfold ASSERT_EFI_ERROR. wpe_go.
      apply Hend; try done. simpl. rewrite H2. by apply Himg.
    + apply Hend; try done. by apply Himg.
Qed.

Lemma only_sys_trans s1 s2 s3 : only_sys s1 s2 -> only_sys s2 s3 -> only_sys s1 s3.
Proof. intros (d & -> & Hd) (d' & -> & Hd'). exists d'. simpl in *. split; [done | lia]. Qed.

Lemma IsBootDevice_spec h s : wpe fuel_ok (IsBootDevice h) s (fun _ s' => only_sys s s').
Proof.
  unfold IsBootDevice, SocGetBootDevice. wpe_go.
  assert (Hsoc : forall (b : bool) (v w : Z) (Q : Z -> fvb D -> Prop), (forall x, Q x s) ->
    wpe fuel_ok (if b then mret v else _ ← ASSERT false; mret w) s Q).
  { intros b v w Q HQ. destruct b; wpe_go; apply HQ. }
  apply Hsoc. intros v. wpe_go. apply wpe_sys_call. intros t d1 H1.
  apply ConvertDevicePathToText_law in H1 as [_ P1]. wpe_go. simpl.
  destruct (FreePool_law t d1) as [_ P2].
  assert (Hs : only_sys s (set_sys (FreePool t d1) s)) by (eexists; split; [done | lia]).
  by repeat case_match; wpe_go.
Qed.

(** The search adopts at most one device, after writing the volume to it. *)
Lemma disk_search_spec fuel : forall t s,
  (pending (sys s) < fuel)%nat -> Device (instance s) = 0 ->
  wpe fuel_ok (disk_search fuel t) s (fun _ s' => fmem s' = fmem s /\
    mFvInstance s' = mFvInstance s /\
    (instance s' = instance s \/
     exists dev id, instance s' = with_Device dev id (instance s) /\
       image (sys s') = Some (volume_image s))).
Proof.
  induction fuel as [|fuel IH]; intros t s Hf Hdev; [lia|]. cbn [disk_search]. wpe_go.
  apply wpe_sys_call. intros [st h] d1 H1. apply LocateHandle_law in H1 as [_ P1].
  destruct (Z.eqb_spec st EFI_NOT_FOUND) as [|Hst]; wpe_go; [by auto|]. specialize (P1 Hst).
  unfold ASSERT_EFI_ERROR. wpe_go.
  assert (Hrec : forall t' s', fmem s' = fmem s -> mFvInstance s' = mFvInstance s ->
    instance s' = instance s -> (pending (sys s') <= pending d1)%nat ->
    wpe fuel_ok (disk_search fuel t') s' (fun _ s' => fmem s' = fmem s /\
      mFvInstance s' = mFvInstance s /\
      (instance s' = instance s \/
       exists dev id, instance s' = with_Device dev id (instance s) /\
         image (sys s') = Some (volume_image s)))).
  { intros t' s' E1 E2 E3 P. unfold volume_image. rewrite <- E1, <- E2, <- E3.
    apply IH; [lia | congruence]. }
  eapply wpe_mono; [apply IsBootDevice_spec|]. intros b s2 (d2 & -> & P2). simpl in P2.
  destruct b; cbn [negb]; wpe_go; [|apply Hrec; try done].
  apply wpe_sys_call. intros [st2 io] d3 H3. apply HandleProtocol_law in H3 as [_ P3]. simpl in P3.
  destruct (EFI_ERROR st2); wpe_go; [apply Hrec; try done; simpl; lia|].
  apply wpe_sys_call. simpl. intros dev d4 H4. apply DuplicateDevicePath_law in H4 as [_ P4]. wpe_go.
  eapply wpe_mono; [apply free_text_spec|]. intros ? s5 [(d5 & -> & P5) _]. simpl in P5. wpe_go.
  apply wpe_sys_call. simpl. intros t' d6 H6. apply ConvertDevicePathToText_law in H6 as [_ P6]. wpe_go.
  destruct (negb _); wpe_go; [apply Hrec; try done; simpl; lia|].
  destruct (ReadOnly _); wpe_go; [apply Hrec; try done; simpl; lia|].
  eapply wpe_mono; [apply DoDump_spec|]. intros st7 s7 [(d7 & -> & P7) Himg]. simpl in P7, Himg.
  destruct (EFI_ERROR st7); wpe_go; [apply Hrec; try done; simpl; lia|].
  apply wpe_get_inst. intros _. wpe_go. eapply wpe_mono; [apply free_text_spec|].
  intros ? s8 [(d8 & -> & _) I8]. simpl in I8. wpe_go. apply wpe_set_inst. wpe_go. simpl.
  split; [done|]. split; [done|]. right. do 2 eexists. split; [done|]. rewrite I8. by apply Himg.
Qed.

Lemma OnDiskIoInstall_spec s :
  wpe fuel_ok OnDiskIoInstall s (fun _ s' => fmem s' = fmem s /\ mFvInstance s' = mFvInstance s /\
    (instance s' = instance s /\ (Device (instance s) <> 0 -> s' = s) \/
     exists dev id, instance s' = with_Device dev id (instance s) /\
       image (sys s') = Some (volume_image s))).
Proof.
  unfold OnDiskIoInstall. wpe_go. apply wpe_get_inst. intros Hp.
  destruct (Z.eqb_spec (Device (instance s)) 0) as [Hd|]; cbn [negb]; wpe_go; [|by auto].
  eapply wpe_mono; [apply disk_search_spec; [lia | done]|].
  intros t s1 (E1 & E2 & E3). eapply wpe_mono; [apply free_text_spec|].
  intros ? s2 [(d2 & -> & _) I2]. simpl in *. split; [done|]. split; [done|].
  destruct E3 as [->|(dev & id & -> & E3)]; [by left|]. right. exists dev, id. by rewrite I2.
Qed.
End Dump.
