(* ===== verification/FvbInit.v ===== *)
(** * Initialisation of the variable volume

    [FvbInitialize] leaves a valid header in place, or formats the volume with
    the header of [FvbInfo.c]. *)

From Stdlib Require Import ZArith Lia.
From stdpp Require Import base list numbers.
From S2P Require Import Prelude Memory Fvb FvbSpec.

(** ** Sums of 16-bit words *)

Lemma sum_words_app bs1 bs2 :
  Nat.Even (length bs1) -> sum_words (bs1 ++ bs2) = sum_words bs1 + sum_words bs2.
Proof.
  intros [k Hk]. revert bs1 Hk. induction k as [|k IH]; intros bs1 Hk.
  - by apply nil_length_inv in Hk as ->.
  - destruct bs1 as [|x [|y bs1]]; simpl in Hk; try lia. cbn [app sum_words].
    rewrite IH by lia. lia.
Qed.

Lemma sum_words_le2 c : 0 <= c < 2 ^ 16 -> sum_words (le_bytes 2 c) = c.
Proof. intros Hc. simpl. Z.div_mod_to_equations. lia. Qed.

(** ** The formatted header *)

Section Header.
Context {HC : FvbPcds}.

(** The header up to its checksum, and after it. *)
Definition header_pre : list Z :=
  replicate 16 0 ++ EFI_SYSTEM_NV_DATA_FV_GUID ++
  le_bytes 8 FvbTotalSize ++ le_bytes 4 EFI_FVH_SIGNATURE ++ le_bytes 4 FvbInfo_Attributes ++
  le_bytes 2 (sizeof_EFI_FIRMWARE_VOLUME_HEADER + sizeof_EFI_FV_BLOCK_MAP_ENTRY).

Definition header_post : list Z :=
  le_bytes 2 0 ++ [0] ++ [2] ++
  le_bytes 4 (FvbTotalSize / PcdFirmwareBlockSize) ++ le_bytes 4 PcdFirmwareBlockSize ++
  le_bytes 4 0 ++ le_bytes 4 0.

Lemma header_split c : FvbInfo_header c = header_pre ++ le_bytes 2 c ++ header_post.
Proof. unfold FvbInfo_header, header_pre, header_post. by rewrite <- !(assoc_L app). Qed.

Context (Hguid : length EFI_SYSTEM_NV_DATA_FV_GUID = 16%nat).

Lemma length_header_pre : length header_pre = 50%nat.
Proof. unfold header_pre. rewrite !length_app, Hguid. done. Qed.

Lemma length_header c : length (FvbInfo_header c) = 72%nat.
Proof. rewrite header_split, !length_app, length_header_pre. done. Qed.

(** Fields of a header found in memory. *)
Lemma header_fields m a c :
  read_bytes m a 72 = FvbInfo_header c -> 0 <= c < 2 ^ 16 -> 0 < PcdFirmwareBlockSize < 2 ^ 32 ->
  load 8 m (a + FV_FvLength) = FvbTotalSize /\
  load 4 m (a + FV_Signature) = EFI_FVH_SIGNATURE /\
  load 4 m (a + FV_Attributes) = FvbInfo_Attributes /\
  load 2 m (a + FV_HeaderLength) = 72 /\
  load 2 m (a + FV_ExtHeaderOffset) = 0 /\
  load 1 m (a + FV_Revision) = 2 /\
  load 4 m (a + FV_BlockMap) = FvbTotalSize / PcdFirmwareBlockSize /\
  load 4 m (a + FV_BlockMap + 4) = PcdFirmwareBlockSize /\
  load 4 m (a + FV_BlockMap + 8) = 0.
Proof.
  intros Hr Hc Hbs.
  assert (Hfield : forall n off x, 0 <= off -> 0 <= n -> off + n <= 72 ->
    take (Z.to_nat n) (drop (Z.to_nat off) (FvbInfo_header c)) = le_bytes (Z.to_nat n) x ->
    0 <= x < 256 ^ n -> load n m (a + off) = x).
  { intros n off x Ho Hn Hon Hb Hx. unfold load. rewrite <- (Z.mod_small x (256 ^ n)) at 1 by done.
    rewrite <- (Z2Nat.id n) at 2 by done. rewrite <- le_val_le_bytes, <- Hb, <- Hr. f_equal.
    apply list_eq. intros i.
    destruct (decide (i < Z.to_nat n)%nat) as [Hi|Hi].
    - rewrite lookup_read_bytes, lookup_take_lt, lookup_drop, lookup_read_bytes by lia.
      do 2 f_equal. lia.
    - rewrite lookup_take_ge by lia. apply lookup_ge_None. rewrite length_read_bytes. lia. }
  assert (Ht : 0 <= FvbTotalSize < 2 ^ 32) by (by apply wrap_range).
  assert (Hq : 0 <= FvbTotalSize / PcdFirmwareBlockSize < 2 ^ 32)
    by (split; [apply Z.div_pos | apply Z.div_lt_upper_bound]; nia).
  unfold FvbInfo_header in Hfield. destruct EFI_SYSTEM_NV_DATA_FV_GUID as [|? g]; [done|].
  do 15 (destruct g as [|? g]; [done|]). destruct g; [|done].
  unfold FV_FvLength, FV_Signature, FV_Attributes, FV_HeaderLength, FV_ExtHeaderOffset, FV_Revision, FV_BlockMap.
  rewrite <- !(Z.add_assoc a).
  repeat split; apply Hfield; try lia; try reflexivity; try done.
Qed.

Context {HS : Sum16} {HSL : Sum16Laws}.

(** The checksum that completes the header. *)
Definition good_checksum : Z := CalculateCheckSum16 (FvbInfo_header 0).

Lemma header_even c : Nat.Even (length (FvbInfo_header c)).
Proof. rewrite length_header. by exists 36%nat. Qed.

Lemma good_checksum_range : 0 <= good_checksum < 2 ^ 16.
Proof. unfold good_checksum. rewrite CalculateCheckSum16_law by apply header_even. by apply wrap_range. Qed.

Lemma header_sum c : 0 <= c < 2 ^ 16 ->
  sum_words (FvbInfo_header c) = sum_words header_pre + sum_words header_post + c.
Proof.
  intros Hc. rewrite header_split, sum_words_app by (rewrite length_header_pre; by exists 25%nat).
  rewrite sum_words_app by (by exists 1%nat). rewrite sum_words_le2 by done. lia.
Qed.

Lemma good_sum : CalculateSum16 (FvbInfo_header good_checksum) = 0.
Proof.
  rewrite CalculateSum16_law by apply header_even. rewrite header_sum by apply good_checksum_range.
  unfold good_checksum. rewrite CalculateCheckSum16_law, header_sum by (done || apply header_even).
  unfold wrap. rewrite Zplus_mod_idemp_r. apply Z.mod_divide; [done|]. exists 0. lia.
Qed.

Lemma good_header_valid m a :
  read_bytes m a 72 = FvbInfo_header good_checksum -> 0 < PcdFirmwareBlockSize < 2 ^ 32 ->
  ValidateFvHeader a m = EFI_SUCCESS.
Proof.
  intros Hr Hbs. destruct (header_fields m a _ Hr good_checksum_range Hbs)
    as (E1 & E2 & _ & E4 & _ & E6 & _).
  unfold ValidateFvHeader. rewrite E1, E2, E4, E6, Hr, good_sum.
  assert (Ht : 0 <= FvbTotalSize < 2 ^ 32) by (by apply wrap_range).
  by rewrite (proj2 (Z.eqb_neq FvbTotalSize _)) by (change (u64 (-1)) with (2 ^ 64 - 1); lia).
Qed.

(** Storing a checksum into a header in memory. *)
Lemma header_patch m a x y :
  read_bytes m a 72 = FvbInfo_header x ->
  read_bytes (write_bytes m (a + FV_Checksum) (le_bytes 2 y)) a 72 = FvbInfo_header y.
Proof.
  rewrite !header_split. change 72 with (50 + (2 + 20)). unfold FV_Checksum.
  rewrite !read_bytes_app by lia. intros H.
  apply app_inj_1 in H as [H1 H2]; [|by rewrite length_read_bytes, length_header_pre].
  apply app_inj_1 in H2 as [_ H3]; [|by rewrite length_read_bytes, length_le_bytes].
  rewrite (read_write_disjoint _ _ _ a 50), H1 by (left; lia).
  pose proof (read_write_same m (a + 50) (le_bytes 2 y)) as Hs. rewrite length_le_bytes in Hs.
  change (Z.of_nat 2) with 2 in Hs. rewrite Hs.
  rewrite (read_write_disjoint _ _ _ (a + 50 + 2) 20), H3; [done|].
  rewrite length_le_bytes. lia.
Qed.
End Header.

(** ** [FvbInitialize] *)

Section Init.
Context {B : Build} {HS : Sum16} {HSL : Sum16Laws} {HC : FvbPcds} {D : Type} {HD : FvbServices D}.
Implicit Types (s : fvb D).

Definition volume_base : Z := PcdNvStorageVariableBase.

(** The platform's configuration makes sense. *)
Record pcds_ok : Prop := {
  po_guid : length EFI_SYSTEM_NV_DATA_FV_GUID = 16%nat;
  po_block : 0 < PcdFirmwareBlockSize < 2 ^ 32;
  po_whole : FvbTotalSize mod PcdFirmwareBlockSize = 0;
  po_header : 72 <= PcdFirmwareBlockSize <= FvbTotalSize;
  po_base : 0 < volume_base /\ volume_base + FvbTotalSize < 2 ^ 64;
  po_table : mPlatformFvbMediaInfo + 80 <= volume_base \/
             volume_base + FvbTotalSize <= mPlatformFvbMediaInfo
}.

(** The static table has its initial contents. *)
Definition table_fresh s : Prop :=
  Checksummed s = false /\
  read_bytes (fmem s) mPlatformFvbMediaInfo 80 = mPlatformFvbMediaInfo_image.

(** The volume found at start-up is kept. *)
Definition header_accepted (m : mem) : Prop :=
  ValidateFvHeader volume_base m = EFI_SUCCESS /\
  load 8 m (volume_base + FV_FvLength) = FvbTotalSize /\
  load 4 m (volume_base + FV_BlockMap + 4) = PcdFirmwareBlockSize.

(** The volume holds the good header and is otherwise erased. *)
Definition formatted (m : mem) : Prop :=
  read_bytes m volume_base 72 = FvbInfo_header good_checksum /\
  forall x, volume_base + 72 <= x < volume_base + FvbTotalSize -> m x = 0xff.

Definition started_instance : EFI_FW_VOL_INSTANCE :=
  {| FvBase := volume_base; FvLength := FvbTotalSize;
     Offset := u64 (volume_base + PcdFdStorageOffset);
     NumOfBlocks := 0; Device := 0; MediaId := 0; Dirty := false |}.

Context (Hpcd : pcds_ok).

Lemma total_range : 0 <= FvbTotalSize < 2 ^ 32.
Proof. by apply wrap_range. Qed.

(** The table header after [GetFvbInfo]. *)
Lemma GetFvbInfo_spec s :
  table_fresh s ->
  wp (GetFvbInfo FvbTotalSize) s (fun r s' =>
    r = (EFI_SUCCESS, mPlatformFvbMediaInfo + 8) /\
    read_bytes (fmem s') (mPlatformFvbMediaInfo + 8) 72 = FvbInfo_header good_checksum /\
    mFvInstance s' = mFvInstance s /\ instance s' = instance s).
Proof.
  intros [Hc Hi]. unfold GetFvbInfo, set_mem. wp_go. rewrite Hc. wp_go.
  cbn [fmem set_fmem set_Checksummed mFvInstance instance].
  pose proof (po_guid Hpcd) as Hguid. pose proof (po_block Hpcd) as Hbs.
  set (h := mPlatformFvbMediaInfo + 8).
  assert (Hsplit : read_bytes (fmem s) mPlatformFvbMediaInfo 8 = le_bytes 8 FvbTotalSize /\
                   read_bytes (fmem s) h 72 = FvbInfo_header 0).
  { change 80 with (8 + 72) in Hi. rewrite read_bytes_app in Hi by lia.
    apply app_inj_1 in Hi; [done|]. by rewrite length_read_bytes, length_le_bytes. }
  destruct Hsplit as [Hlen Hhdr].
  assert (H0 := header_patch Hguid (fmem s) h 0 0 Hhdr).
  set (m0 := write_bytes (fmem s) (h + FV_Checksum) (le_bytes 2 0)) in *.
  destruct (header_fields Hguid m0 h 0 H0 ltac:(lia) Hbs) as (_ & _ & _ & E & _).
  rewrite E, H0. fold good_checksum.
  assert (H1 := header_patch Hguid m0 h 0 good_checksum H0).
  set (m1 := write_bytes m0 (h + FV_Checksum) (le_bytes 2 good_checksum)) in *.
  assert (Hl : load 8 m1 mPlatformFvbMediaInfo = FvbTotalSize).
  { unfold load, m1, m0. rewrite !read_write_disjoint by (rewrite length_le_bytes; unfold h, FV_Checksum; lia).
    rewrite Hlen, le_val_le_bytes. apply Z.mod_small. pose proof total_range. simpl. lia. }
  rewrite Hl, Z.eqb_refl. by wp_go.
Qed.

Lemma Validate_cases h m : ValidateFvHeader h m = EFI_SUCCESS \/ ValidateFvHeader h m = EFI_NOT_FOUND.
Proof. unfold ValidateFvHeader. repeat case_match; auto. Qed.

(** The status on which [FvbInitialize] decides to keep the volume. *)
Definition init_status (m : mem) : Z :=
  let Status := ValidateFvHeader volume_base m in
  if EFI_ERROR Status then Status
  else if negb (load 8 m (volume_base + FV_FvLength) =? FvbTotalSize) ||
          negb (load 4 m (volume_base + FV_BlockMap + 4) =? PcdFirmwareBlockSize)
       then EFI_VOLUME_CORRUPTED else Status.

Lemma init_status_spec m : EFI_ERROR (init_status m) = false <-> header_accepted m.
Proof.
  unfold init_status, header_accepted.
  destruct (Validate_cases volume_base m) as [-> | ->].
  - change (EFI_ERROR EFI_SUCCESS) with false. cbn match.
    destruct (Z.eqb_spec (load 8 m (volume_base + FV_FvLength)) FvbTotalSize),
      (Z.eqb_spec (load 4 m (volume_base + FV_BlockMap + 4)) PcdFirmwareBlockSize);
      cbn [negb orb]; (split; [by intros ? | by intros (? & ? & ?)]).
  - change (EFI_ERROR EFI_NOT_FOUND) with true. cbn match. split; [by intros ? | by intros [? _]].
Qed.

Lemma init_header_spec s :
  mFvInstance s <> 0 -> instance s = started_instance -> table_fresh s ->
  wp (init_header FvbTotalSize) s (fun _ s' => mFvInstance s' = mFvInstance s /\
    (header_accepted (fmem s) /\ s' = s \/
     ~ header_accepted (fmem s) /\ formatted (fmem s') /\
     instance s' = with_Dirty true started_instance)).
Proof.
  intros Hp Hi Ht. unfold init_header. wp_go. eapply returns_wp; [by apply get_inst_Ret|]. wp_go.
  rewrite Hi. cbn [started_instance FvBase FvLength].
  pose proof (po_guid Hpcd) as Hguid. pose proof (po_block Hpcd) as Hbs.
  pose proof (po_header Hpcd). pose proof (po_table Hpcd). pose proof total_range.
  fold (init_status (fmem s)). pose proof (init_status_spec (fmem s)) as HSt.
  destruct (EFI_ERROR (init_status (fmem s))); cbn [negb]; wp_go.
  2: { split; [done|]. left. split; [by apply HSt | done]. }
  eapply wp_mono; [by apply GetFvbInfo_spec|]. intros r s1 (-> & Hhdr & Hp1 & Hi1).
  set (h := mPlatformFvbMediaInfo + 8) in *. unfold ASSERT_EFI_ERROR. wp_go. apply wp_ASSERT; [done|].
  wp_go. rewrite Hi in Hi1.
  eapply returns_wp; [apply VarStoreErase_Ret; congruence|]. wp_go. apply wp_ASSERT; [done|]. wp_go.
  set (m2 := fill_bytes (fmem s1) volume_base FvbTotalSize 255).
  assert (H2 : read_bytes m2 h 72 = FvbInfo_header good_checksum).
  { unfold m2. rewrite read_fill_disjoint; [done|]. unfold h. lia. }
  destruct (header_fields Hguid m2 h _ H2 (good_checksum_range Hguid) Hbs) as (_ & _ & _ & E & _).
  eapply returns_wp; [apply VarStoreWrite_Ret; simpl; congruence|].
  cbn [fmem dirty_with set_instance set_fmem mFvInstance instance]. fold m2. rewrite E, H2.
  wp_go. apply wp_ASSERT; [done|]. wp_go. cbn [fmem dirty_with set_instance set_fmem].
  pose proof (length_header Hguid good_checksum) as Hlen.
  set (m3 := write_bytes m2 volume_base (FvbInfo_header good_checksum)).
  assert (H3 : read_bytes m3 volume_base 72 = FvbInfo_header good_checksum).
  { unfold m3. pose proof (read_write_same m2 volume_base (FvbInfo_header good_checksum)) as Hr.
    by rewrite Hlen in Hr. }
  assert (H3' : read_bytes m3 h 72 = FvbInfo_header good_checksum).
  { unfold m3. rewrite read_write_disjoint; [done|]. rewrite Hlen. unfold h. lia. }
  destruct (header_fields Hguid m3 h _ H3' (good_checksum_range Hguid) Hbs) as (_ & _ & _ & E' & _).
  apply wp_ASSERT; [by rewrite E'|].
  apply wp_ASSERT; [by rewrite (good_header_valid Hguid m3 volume_base H3 Hbs)|].
  cbn [fmem dirty_with set_instance set_fmem mFvInstance instance]. split; [done|]. right.
  split; [|split; [split; [done|]|by rewrite Hi1]].
  - intros Hacc. by apply HSt in Hacc.
  - intros x Hx. unfold m3. rewrite write_bytes_out by (rewrite Hlen; lia).
    unfold m2. apply fill_bytes_in. lia.
Qed.

Lemma count_blocks_spec m es : forall fuel mx num a,
  map_at m a es -> (length es < fuel)%nat ->
  0 <= num -> num + Z.of_nat (length (block_sizes es)) < 2 ^ 64 ->
  exists mx', count_blocks fuel m mx num a = Ret (mx', num + Z.of_nat (length (block_sizes es))) tt.
Proof.
  induction es as [|[n l] es IH]; intros [|fuel] mx num a Hm Hf Hn Hlt; simpl in *; try lia.
  - exists mx. rewrite Hm. simpl. do 2 f_equal. lia.
  - destruct Hm as (-> & -> & Hn0 & Hl0 & _ & Hm).
    rewrite block_sizes_cons, length_app, length_replicate in *.
    rewrite (proj2 (Z.eqb_neq n 0)), wrap_small by (unfold in_word; lia).
    destruct (IH fuel (if mx <? l then l else mx) (num + n) (a + 8) Hm) as [mx' ->]; try lia.
    exists mx'. do 2 f_equal. lia.
Qed.

(** The block map of a formatted volume. *)
Definition formatted_map : list (Z * Z) :=
  [(FvbTotalSize / PcdFirmwareBlockSize, PcdFirmwareBlockSize)].

Lemma formatted_map_at m : formatted m -> map_at m (volume_base + FV_BlockMap) formatted_map.
Proof.
  intros [Hr _]. destruct (header_fields (po_guid Hpcd) m volume_base _ Hr
    (good_checksum_range (po_guid Hpcd)) (po_block Hpcd)) as (_ & _ & _ & _ & _ & _ & E1 & E2 & E3).
  pose proof (po_block Hpcd). pose proof (po_header Hpcd). pose proof (po_whole Hpcd).
  pose proof total_range. simpl. rewrite E1, E2, E3. repeat split; try done;
    Z.div_mod_to_equations; nia.
Qed.

Lemma formatted_total : Zsum (block_sizes formatted_map) = FvbTotalSize /\
  block_sizes formatted_map = replicate (Z.to_nat (FvbTotalSize / PcdFirmwareBlockSize)) PcdFirmwareBlockSize.
Proof.
  pose proof (po_block Hpcd). pose proof (po_whole Hpcd). pose proof total_range.
  unfold formatted_map. rewrite block_sizes_cons, Zsum_app, Zsum_replicate.
  unfold block_sizes. simpl. rewrite app_nil_r. split; [|done].
  assert (0 <= FvbTotalSize / PcdFirmwareBlockSize) by (apply Z.div_pos; lia).
  rewrite Z2Nat.id by done. Z.div_mod_to_equations. lia.
Qed.

(** ** The rest of the initialisation touches services only *)

Definition same_volume s s' : Prop :=
  fmem s' = fmem s /\ mFvInstance s' = mFvInstance s /\ instance s' = instance s.

Lemma sys_call_same {A} E (f : D -> A * D) s (Q : A -> fvb D -> Prop) :
  (forall a s', same_volume s s' -> Q a s') -> wpe E (sys_call f) s Q.
Proof. intros H. unfold wpe, sys_call. destruct (f (sys s)) as [a d]. by apply H. Qed.

Lemma same_volume_trans s1 s2 s3 : same_volume s1 s2 -> same_volume s2 s3 -> same_volume s1 s3.
Proof. unfold same_volume. intuition congruence. Qed.

Ltac services :=
  repeat (wpe_go; first
    [ apply sys_call_same; intros ? ? ?
    | lazymatch goal with
      | |- wpe _ (match ?r with _ => _ end) _ _ => destruct r
      end ]);
  wpe_go; eauto using same_volume_trans.

Lemma InstallProtocolInterfaces_same path s :
  wpe fuel_ok (InstallProtocolInterfaces path) s (fun _ s' => same_volume s s').
Proof. unfold InstallProtocolInterfaces, ASSERT_EFI_ERROR. services. Qed.

Lemma InstallDiskNotifyHandler_same s :
  wpe fuel_ok InstallDiskNotifyHandler s (fun _ s' => same_volume s s').
Proof. unfold InstallDiskNotifyHandler, ASSERT_EFI_ERROR. services. Qed.

Lemma InstallDumpVarEventHandlers_same s :
  wpe fuel_ok InstallDumpVarEventHandlers s (fun _ s' => same_volume s s').
Proof. unfold InstallDumpVarEventHandlers, ASSERT_EFI_ERROR. services. Qed.

Lemma InstallVirtualAddressChangeHandler_same s :
  wpe fuel_ok InstallVirtualAddressChangeHandler s (fun _ s' => same_volume s s').
Proof. unfold InstallVirtualAddressChangeHandler, ASSERT_EFI_ERROR. services. Qed.

Lemma make_device_path_same s :
  wpe fuel_ok make_device_path s (fun _ s' => same_volume s s').
Proof.
  unfold make_device_path. wpe_go. unfold wpe at 1, get_inst. destruct (_ =? 0); [done|].
  wpe_go. case_if E; wpe_go; apply sys_call_same; intros p s' Hs;
    destruct (p =? 0); by wpe_go.
Qed.

(** A volume whose block map is [es] once the header has been settled. *)
Definition settled (m : mem) (es : list (Z * Z)) : Prop :=
  map_at m (volume_base + FV_BlockMap) es /\ (length es < map_fuel)%nat /\
  Zsum (block_sizes es) = FvbTotalSize.

(** From a settled header to the end of [FvbInitialize]. *)
Lemma finish_init_spec es (m : mem) (dirty : bool) s :
  settled m es -> mFvInstance s <> 0 -> fmem s = m ->
  instance s = with_Dirty dirty started_instance ->
  wpe fuel_ok (i ← get_inst; m ← gets fmem;
    match count_blocks map_fuel m 0 0 (FvBase i + FV_BlockMap) with
    | Stop w => stopM w
    | Ret (_, Num) _ =>
      _ ← set_inst (with_NumOfBlocks Num);
      FvbDevice ← sys_call (AllocateRuntimePool sizeof_EFI_FW_VOL_BLOCK_DEVICE);
      _ ← ASSERT (negb (FvbDevice =? 0));
      if FvbDevice =? 0 then stopM Fault else
      path ← make_device_path;
      _ ← InstallProtocolInterfaces path;
      PcdStatus ← sys_call (PcdSet PcdFlashNvStorageVariableBase64 PcdNvStorageVariableBase);
      _ ← ASSERT_EFI_ERROR PcdStatus;
      PcdStatus ← sys_call (PcdSet PcdFlashNvStorageFtwWorkingBase PcdNvStorageFtwWorkingBase);
      _ ← ASSERT_EFI_ERROR PcdStatus;
      PcdStatus ← sys_call (PcdSet PcdFlashNvStorageFtwSpareBase PcdNvStorageFtwSpareBase);
      _ ← ASSERT_EFI_ERROR PcdStatus;
      _ ← InstallDiskNotifyHandler;
      _ ← InstallDumpVarEventHandlers;
      _ ← InstallVirtualAddressChangeHandler;
      mret EFI_SUCCESS
    end) s (fun st s' => st = EFI_SUCCESS /\ fmem s' = m /\ serving s' es /\
      instance s' = with_NumOfBlocks (Z.of_nat (length (block_sizes es)))
                      (with_Dirty dirty started_instance)).
Proof.
  intros (Hm & Hf & Ht) Hp Em Hi. wpe_go. unfold wpe at 1. rewrite get_inst_Ret by done. wpe_go.
  rewrite Em, Hi. cbn [with_Dirty started_instance FvBase].
  pose proof (map_at_sizes _ _ _ Hm) as Hpos. pose proof (length_le_Zsum _ Hpos).
  pose proof total_range. pose proof (po_base Hpcd).
  destruct (count_blocks_spec m es map_fuel 0 0 _ Hm Hf) as [mx' ->]; try lia. rewrite Z.add_0_l.
  wpe_go. unfold wpe at 1, set_inst. rewrite (proj2 (Z.eqb_neq _ _) Hp).
  set (s1 := set_instance _ s).
  assert (Hend : forall s2, same_volume s1 s2 -> fmem s2 = m /\ serving s2 es /\
    instance s2 = with_NumOfBlocks (Z.of_nat (length (block_sizes es)))
                    (with_Dirty dirty started_instance)).
  { intros s2 (E1 & E2 & E3). unfold s1 in *. simpl in *. rewrite E1, E3, Hi. split; [done|].
    split; [|done]. split; [by rewrite E2|]. rewrite E1, E3, Hi.
    subst m. split; simpl; try done; lia. }
  clearbody s1. clear Hi Em.
  wpe_go. apply sys_call_same. intros dev s2 V2. unfold ASSERT_EFI_ERROR. wpe_go.
  destruct (dev =? 0); [done|]. wpe_go.
  eapply wpe_mono; [apply make_device_path_same|]. intros path s3 V3. wpe_go.
  eapply wpe_mono; [apply InstallProtocolInterfaces_same|]. intros ? s4 V4. wpe_go.
  apply sys_call_same. intros ? s5 V5. wpe_go. apply sys_call_same. intros ? s6 V6. wpe_go.
  apply sys_call_same. intros ? s7 V7. wpe_go.
  eapply wpe_mono; [apply InstallDiskNotifyHandler_same|]. intros ? s8 V8. wpe_go.
  eapply wpe_mono; [apply InstallDumpVarEventHandlers_same|]. intros ? s9 V9. wpe_go.
  eapply wpe_mono; [apply InstallVirtualAddressChangeHandler_same|]. intros ? s10 V10. wpe_go.
  split; [done|]. apply Hend. clear -V2 V3 V4 V5 V6 V7 V8 V9 V10. simpl in *.
  do 8 (eapply same_volume_trans; [eassumption|]). assumption.
Qed.

(** What start-up leaves behind. *)
Definition started_volume (m0 : mem) (es : list (Z * Z)) s' : Prop :=
  serving s' es /\ FvBase (instance s') = volume_base /\ FvLength (instance s') = FvbTotalSize /\
  Device (instance s') = 0 /\
  (header_accepted m0 /\ fmem s' = m0 /\ Dirty (instance s') = false \/
   ~ header_accepted m0 /\ formatted (fmem s') /\ es = formatted_map /\
   attributes s' = FvbInfo_Attributes /\ Dirty (instance s') = true).

Lemma FvbInitialize_spec s :
  table_fresh s ->
  (header_accepted (fmem s) -> exists es, settled (fmem s) es) ->
  wpe fuel_ok FvbInitialize s (fun st s' =>
    (st = EFI_OUT_OF_RESOURCES /\ mFvInstance s' = 0) \/
    (st = EFI_SUCCESS /\ exists es, started_volume (fmem s) es s')).
Proof.
  intros Ht Hset. unfold FvbInitialize. fold volume_base. fold started_instance.
  wpe_go. unfold wpe at 1, sys_call. destruct (AllocateRuntimeZeroPool _ _) as [p d].
  wpe_go. destruct (Z.eqb_spec p 0) as [->|Hp]; wpe_go; [by left|].
  set (s1 := set_instance _ _).
  assert (H1 : mFvInstance s1 <> 0 /\ instance s1 = started_instance /\ table_fresh s1 /\
               fmem s1 = fmem s) by done.
  destruct H1 as (P1 & I1 & T1 & M1). rewrite <- M1 in Hset |- *. clearbody s1.
  destruct (wp_returns _ _ _ (init_header_spec s1 P1 I1 T1)) as ([] & s2 & E & P2 & Hh).
  unfold wpe at 1. rewrite E.
  destruct Hh as [(Hacc & ->)|(Hacc & Hfmt & I2)].
  - destruct (Hset Hacc) as [es Hes].
    eapply wpe_mono; [apply (finish_init_spec es (fmem s1) false); try done|].
    intros st s3 (-> & M3 & Hs3 & I3). right. split; [done|]. exists es. unfold started_volume.
    rewrite I3, M3. split; [done|]. split; [done|]. split; [done|]. split; [done|]. by left.
  - eapply wpe_mono; [apply (finish_init_spec formatted_map (fmem s2) true); [|congruence|done|done]|].
    { split; [by apply formatted_map_at|]. split; [unfold map_fuel; simpl; lia|]. apply formatted_total. }
    intros st s3 (-> & M3 & Hs3 & I3). right. split; [done|]. exists formatted_map.
    unfold started_volume, attributes. rewrite I3, M3.
    split; [done|]. split; [done|]. split; [done|]. split; [done|]. right.
    split; [done|]. split; [done|]. split; [done|]. split; [|done].
    destruct Hfmt as [Hr _]. cbn [with_NumOfBlocks with_Dirty started_instance FvBase].
    by destruct (header_fields (po_guid Hpcd) (fmem s2) volume_base _ Hr
      (good_checksum_range (po_guid Hpcd)) (po_block Hpcd)) as (_ & _ & Ha & _).
Qed.
End Init.
