(* ===== verification/FvbProps.v ===== *)
(** * Properties of the variable block service

    What the firmware volume block protocol promises to the variable driver,
    and what keeps the copy on the boot disk up to date. *)

From Stdlib Require Import ZArith Lia.
From stdpp Require Import base list numbers relations.
From S2P Require Import Prelude Memory Fvb FvbSpec FvbInit.

(** ** Operations change the volume only when they mark it dirty *)

Section Wrote.
Context {B : Build} {HS : Sum16} {HC : FvbPcds} {D : Type} {HD : FvbServices D} {HL : FvbServicesLaws D}.
Implicit Types (s : fvb D).

Definition anything (w : stop) : Prop := True.

Definition wrote s s' : Prop := s' = s \/ exists m, s' = dirty_with m s.

Lemma wrote_trans s1 s2 s3 : wrote s1 s2 -> wrote s2 s3 -> wrote s1 s3.
Proof.
  intros [->|[m1 ->]] [->|[m2 ->]]; [by left | right; by exists m2 | right; by exists m1 |].
  right. by exists m2.
Qed.

Lemma VarStoreWrite_wrote a n b s :
  wpe anything (VarStoreWrite a n b) s (fun _ s' => wrote s s').
Proof.
  unfold VarStoreWrite, set_mem. wpe_go. unfold wpe, set_inst. simpl.
  destruct (_ =? 0); [done|]. simpl. right. by eexists.
Qed.

Lemma VarStoreErase_wrote a n s :
  wpe anything (VarStoreErase a n) s (fun _ s' => wrote s s').
Proof.
  unfold VarStoreErase, set_mem. wpe_go. unfold wpe, set_inst. simpl.
  destruct (_ =? 0); [done|]. simpl. right. by eexists.
Qed.

Lemma GetVolumeAttributes_pure s :
  wpe anything FvbGetVolumeAttributes s (fun _ s' => s' = s).
Proof.
  unfold FvbGetVolumeAttributes, header_field. wpe_go. unfold wpe at 1, get_inst.
  destruct (_ =? 0); [done|]. by wpe_go.
Qed.

Lemma GetLbaAddress_pure k s : wpe anything (FvbGetLbaAddress k) s (fun _ s' => s' = s).
Proof.
  unfold FvbGetLbaAddress. wpe_go. unfold wpe at 1, get_inst. destruct (_ =? 0); [done|].
  wpe_go. destruct (lba_walk _ _ _ _ _ _) as [[? [[? ?] ?]] ?|]; [by wpe_go | done].
Qed.

Lemma EraseBlock_wrote k s : wpe anything (FvbEraseBlock k) s (fun _ s' => wrote s s').
Proof.
  unfold FvbEraseBlock. wpe_go. eapply wpe_mono; [apply GetVolumeAttributes_pure|]. intros a ? ->.
  destruct (_ =? 0); wpe_go; [by left|].
  eapply wpe_mono; [apply GetLbaAddress_pure|]. intros [st [[ad len] num]] ? ->.
  destruct (EFI_ERROR st); wpe_go; [by left | apply VarStoreErase_wrote].
Qed.

Lemma erase_run_wrote n : forall k s, wpe anything (erase_run n k) s (fun _ s' => wrote s s').
Proof.
  induction n as [|n IH]; intros k s; cbn [erase_run]; wpe_go; [by left|].
  eapply wpe_mono; [apply EraseBlock_wrote|]. intros st s1 H1.
  destruct (EFI_ERROR st); wpe_go; [done|].
  eapply wpe_mono; [apply IH|]. intros ? s2. by apply wrote_trans.
Qed.

(** Induction over an argument list two words at a time. *)
Lemma args_ind (Q : list Z -> Prop) :
  Q [] -> (forall x, Q [x]) -> (forall x n args, Q args -> Q (x :: n :: args)) -> forall args, Q args.
Proof.
  intros H0 H1 H2. fix IH 1. intros [|x [|n args]]; [exact H0 | apply H1 | apply H2, IH].
Qed.

Lemma erase_all_wrote args : forall s, wpe anything (erase_all args) s (fun _ s' => wrote s s').
Proof.
  induction args as [|x|x n args IH] using args_ind; intros s; cbn [erase_all]; [done| |];
    destruct (x =? _); wpe_go; try (by left); try done.
  eapply wpe_mono; [apply erase_run_wrote|]. intros st s1 H1.
  destruct (EFI_ERROR st); wpe_go; [done|].
  eapply wpe_mono; [apply IH|]. intros ? s2. by apply wrote_trans.
Qed.

Lemma EraseBlocks_wrote args s :
  wpe anything (FvbProtocolEraseBlocks args) s (fun _ s' => wrote s s').
Proof.
  unfold FvbProtocolEraseBlocks. wpe_go. unfold wpe at 1, get_inst. destruct (_ =? 0); [done|].
  destruct (erase_check _ _) as [st ?|]; [|done].
  destruct (EFI_ERROR st); wpe_go; [by left | apply erase_all_wrote].
Qed.

Lemma Write_wrote k off n b s :
  wpe anything (FvbProtocolWrite k off n b) s (fun _ s' => wrote s s').
Proof.
  unfold FvbProtocolWrite. destruct n as [n|]; wpe_go; [|by left].
  destruct (b =? 0), (n =? 0); wpe_go; try (by left).
  eapply wpe_mono; [apply GetLbaAddress_pure|]. intros [st [[ad len] num]] ? ->.
  destruct (EFI_ERROR st); wpe_go; [by left|].
  eapply wpe_mono; [apply GetVolumeAttributes_pure|]. intros a ? ->.
  destruct (_ =? 0); wpe_go; [by left|]. destruct (len <? off); wpe_go; [by left|].
  destruct (clip _ _ _) as [st' n']. wpe_go.
  eapply wpe_mono; [apply VarStoreWrite_wrote|]. intros st2 s2 H2. by destruct (EFI_ERROR st2); wpe_go.
Qed.

(** A read changes its buffer only. *)
Lemma Read_buffer k off n b s :
  wpe anything (FvbProtocolRead k off n b) s (fun r s' => s' = s \/
    exists n' data, snd r = Some n' /\ length data = Z.to_nat n' /\
      s' = set_fmem (write_bytes (fmem s) b data) s).
Proof.
  unfold FvbProtocolRead, set_mem. destruct n as [n|]; wpe_go; [|by left].
  destruct (b =? 0), (n =? 0); wpe_go; try (by left).
  eapply wpe_mono; [apply GetLbaAddress_pure|]. intros [st [[ad len] num]] ? ->.
  destruct (EFI_ERROR st); wpe_go; [by left|].
  eapply wpe_mono; [apply GetVolumeAttributes_pure|]. intros a ? ->.
  destruct (_ =? 0); wpe_go; [by left|]. destruct (len <? off); wpe_go; [by left|].
  destruct (clip _ _ _) as [st' n']. wpe_go. right. eexists n', _. split; [done|]. split; [|done].
  apply length_read_bytes.
Qed.

(** ** The disk copy *)

(** A protocol call or an event notification. *)
Inductive fvb_step : fvb D -> fvb D -> Prop :=
| step_write k off n b r s s' :
    FvbProtocolWrite k off n b s = Ret r s' -> fvb_step s s'
| step_read k off n b r s s' :
    FvbProtocolRead k off n b s = Ret r s' ->
    (forall n', snd r = Some n' -> 0 <= n' /\
       (b + n' <= FvBase (instance s) \/ FvBase (instance s) + FvLength (instance s) <= b)) ->
    fvb_step s s'
| step_erase args st s s' : FvbProtocolEraseBlocks args s = Ret st s' -> fvb_step s s'
| step_dump s s' : DumpVars s = Ret tt s' -> fvb_step s s'
| step_disk_io s s' : OnDiskIoInstall s = Ret tt s' -> fvb_step s s'.

Lemma wrote_synced s s' : wrote s s' -> synced s -> synced s'.
Proof. intros [->|[m ->]]; [done|]. by intros _ _ Hd. Qed.

Lemma step_synced s s' : fvb_step s s' -> synced s -> synced s'.
Proof.
  intros [k off n b r s0 s1 E|k off n b r s0 s1 E Hb|args st s0 s1 E|s0 s1 E|s0 s1 E] Hs.
  - eapply wrote_synced; [|done]. apply (wpe_Ret _ _ _ _ _ _ E (Write_wrote k off n b s0)).
  - destruct (wpe_Ret _ _ _ _ _ _ E (Read_buffer k off n b s0)) as [->|(n' & data & Hr & Hl & ->)]; [done|].
    intros Hd Hc. simpl in *. rewrite (Hs Hd Hc). unfold volume_image. simpl. do 2 f_equal.
    destruct (Hb n' Hr). symmetry. apply read_write_disjoint. rewrite Hl. lia.
  - eapply wrote_synced; [|done]. apply (wpe_Ret _ _ _ _ _ _ E (EraseBlocks_wrote args s0)).
  - destruct (wpe_Ret _ _ _ _ _ _ E (DumpVars_spec s0)) as (E1 & _ & [->|[[E2 Hd]|[E2 Hi]]]); [done| |].
    + intros _ Hc. congruence.
    + intros _ _. unfold volume_image. rewrite E1, E2. exact Hi.
  - destruct (wpe_Ret _ _ _ _ _ _ E (OnDiskIoInstall_spec s0)) as (E1 & _ & [[E2 Hsame]|(dev & id & E2 & Hi)]).
    + intros Hd Hc. rewrite E2 in Hd, Hc. rewrite (Hsame Hd). by apply Hs.
    + intros _ _. unfold volume_image. rewrite E1, E2. exact Hi.
Qed.
End Wrote.

(** ** The protocol's contract *)

Section Contract.
Context {B : Build} {HS : Sum16} {HC : FvbPcds} {D : Type} {HD : FvbServices D}.
Implicit Types (s : fvb D).

(** [FvbGetLbaAddress] finds exactly the blocks of the block map: block
    [Lba] of the expanded map lies after the blocks before it, inside the
    volume, with the reported length, which the next [n - 1] blocks share;
    every larger [Lba] is refused; nothing is changed. *)
Theorem FvbGetLbaAddress_correct s es Lba :
  serving s es -> 0 <= Lba ->
  match block_sizes es !! Z.to_nat Lba with
  | None => exists a, FvbGetLbaAddress Lba s = Ret (EFI_INVALID_PARAMETER, (a, 0, 0)) s
  | Some l => exists n,
      FvbGetLbaAddress Lba s =
        Ret (EFI_SUCCESS, (FvBase (instance s) + Zsum (take (Z.to_nat Lba) (block_sizes es)), l, n)) s /\
      run_of (block_sizes es) (Z.to_nat Lba) l n /\
      FvBase (instance s) + Zsum (take (Z.to_nat Lba) (block_sizes es)) + l <=
        FvBase (instance s) + FvLength (instance s)
  end.
Proof.
  intros Hs HL. destruct (GetLbaAddress_cases s es Lba Hs HL) as [(-> & a & E)|(l & n & -> & Hr & E)].
  - by exists a.
  - exists n. split; [exact E|]. split; [done|].
    destruct Hr as [Hn Hr]. specialize (Hr 0 ltac:(lia)).
    rewrite Z2Nat.inj_0, Nat.add_0_r in Hr. apply (block_in_volume _ _ _ _ _ (proj2 Hs) Hr).
Qed.

(** [FvbSetVolumeAttributes] succeeds exactly on the settings the
    volume's capabilities and lock allow; it then stores the old attributes
    with the requested status bits and nothing else, and returns them;
    otherwise it changes nothing. *)
Theorem FvbSetVolumeAttributes_correct s req :
  mFvInstance s <> 0 -> in_word 32 (attributes s) ->
  exists st new s', FvbSetVolumeAttributes req s = Ret (st, new) s' /\
    (st = EFI_SUCCESS <-> attributes_allowed (attributes s) req) /\
    (st = EFI_SUCCESS \/ EFI_ERROR st = true /\ new = req /\ s' = s) /\
    (st = EFI_SUCCESS ->
       attributes s' = new /\
       (forall k, 0 <= k -> Z.testbit new k =
          if Z.testbit EFI_FVB2_STATUS k then Z.testbit req k else Z.testbit (attributes s) k) /\
       exists m', s' = set_fmem m' s /\
         only_changes (FvBase (instance s) + FV_Attributes) 4 (fmem s) m').
Proof.
  intros Hp Hw. destruct (set_attributes_spec req s Hp Hw)
    as (st & new & s' & E & [(Herr & Hno & -> & ->)|(-> & Hok & -> & Ha & Hm)]);
    do 3 eexists; (split; [exact E|]).
  - assert (st <> EFI_SUCCESS) by (by intros ->). split; [by split|]. split; [by right | done].
  - split; [by split|]. split; [by left|]. intros _. split; [done|]. split; [|done].
    intros k Hk. by apply with_status_testbit.
Qed.

(** a volume formatted by the driver, whose header offers no
    disable or lock capability, can never be write-protected, read-protected
    or locked: a successful setting leaves the attributes as they are. *)
Theorem formatted_attributes_fixed s req new s' :
  mFvInstance s <> 0 -> attributes s = FvbInfo_Attributes ->
  FvbProtocolSetAttributes req s = Ret (EFI_SUCCESS, new) s' ->
  new = FvbInfo_Attributes /\ attributes s' = FvbInfo_Attributes.
Proof.
  intros Hp Ha E.
  assert (Hw : in_word 32 (attributes s)) by (rewrite Ha; unfold in_word; vm_compute; split; discriminate || done).
  destruct (set_attributes_spec req s Hp Hw)
    as (st & new' & s1 & E' & [(Herr & _)|(-> & Hok & Hnew & Ha' & _)]);
    unfold FvbProtocolSetAttributes in E; rewrite E' in E; simplify_eq.
  rewrite Ha in *. enough (Hsame : with_status FvbInfo_Attributes req = FvbInfo_Attributes)
    by (split; congruence).
  apply Z.bits_inj'. intros k Hk. rewrite with_status_testbit by done.
  destruct (Z.testbit EFI_FVB2_STATUS k) eqn:Ek; [|done].
  assert (Hk3 : k = 2 \/ k = 5 \/ k = 7).
  { change EFI_FVB2_STATUS with (Z.lor (Z.lor (2 ^ 2) (2 ^ 5)) (2 ^ 7)) in Ek.
    rewrite !Z.lor_spec, !Z.pow2_bits_eqb, !orb_true_iff, !Z.eqb_eq in Ek by lia. lia. }
  destruct Hok as (_ & _ & H2 & H5 & H7).
  destruct Hk3 as [->|[->| ->]].
  - change (Z.testbit FvbInfo_Attributes 0) with false in H2. by destruct (Z.testbit req 2).
  - change (Z.testbit FvbInfo_Attributes 3) with false in H5. by destruct (Z.testbit req 5).
  - destruct (Z.testbit req 7); [by specialize (H7 eq_refl) | done].
Qed.

(** C34: [FvbProtocolWrite] behaves as [write_spec] on every request whose
    count does not wrap: each refusal with its status and no effect;
    otherwise the bytes that fit into the block are copied, the count and
    [EFI_BAD_BUFFER_SIZE] report a cut, the volume is marked dirty, and no
    byte outside the volume changes. *)
Theorem FvbProtocolWrite_correct s es Lba Off NumBytes Buf :
  serving s es -> sane_request Lba Off NumBytes ->
  FvbProtocolWrite Lba Off NumBytes Buf s = write_spec es Lba Off NumBytes Buf s /\
  exists r s', FvbProtocolWrite Lba Off NumBytes Buf s = Ret r s' /\
    only_changes (FvBase (instance s)) (FvLength (instance s)) (fmem s) (fmem s').
Proof.
  intros Hs Hr. rewrite (write_eq s es Lba Off NumBytes Buf Hs Hr). split; [done|].
  destruct Hr as (HL & HO & Hn). unfold write_spec. destruct NumBytes as [n|]; [|by do 2 eexists].
  destruct (_ || _); [by do 2 eexists|].
  destruct (block_sizes es !! Z.to_nat Lba) as [l|] eqn:El; [|by do 2 eexists].
  destruct (negb _); [by do 2 eexists|]. destruct (Z.ltb_spec l Off); [by do 2 eexists|].
  do 2 eexists. split; [done|]. simpl.
  destruct (block_in_volume _ _ _ _ _ (proj2 Hs) El) as (H1 & H2 & H3).
  apply only_changes_write; rewrite ?length_read_bytes; unfold clipped; lia.
Qed.

(** [FvbProtocolRead] behaves as [read_spec]: it copies what the block
    holds, reports a cut, and never modifies the volume's bookkeeping. *)
Theorem FvbProtocolRead_correct s es Lba Off NumBytes Buf :
  serving s es -> sane_request Lba Off NumBytes ->
  FvbProtocolRead Lba Off NumBytes Buf s = read_spec es Lba Off NumBytes Buf s.
Proof. exact (read_eq s es Lba Off NumBytes Buf). Qed.

(** bytes written to the volume past its header are read back. *)
Theorem fvb_write_read_roundtrip s es Lba Off n Buf Buf' l :
  serving s es -> block_sizes es !! Z.to_nat Lba = Some l ->
  0 <= Lba -> 0 <= Off -> 0 < n -> n + Off <= l -> Buf <> 0 -> Buf' <> 0 ->
  header_bytes es <= block_offset (block_sizes es) (Z.to_nat Lba) + Off ->
  Z.testbit (attributes s) 5 = true -> Z.testbit (attributes s) 2 = true ->
  exists s1 s2, FvbProtocolWrite Lba Off (Some n) Buf s = Ret (EFI_SUCCESS, Some n) s1 /\
    FvbProtocolRead Lba Off (Some n) Buf' s1 = Ret (EFI_SUCCESS, Some n) s2 /\
    read_bytes (fmem s2) Buf' n = read_bytes (fmem s) Buf n.
Proof.
  intros Hs Hl HL HO Hn Hfit HB HB' Hh Hw Hr.
  pose proof (map_at_small _ _ _ (vo_map _ _ _ (proj2 Hs))) as Hsmall.
  pose proof (Forall_lookup_1 _ _ _ _ Hsmall Hl) as Hl32. simpl in Hl32.
  assert (Hclip : clipped Off l n = n) by (unfold clipped; lia).
  assert (Hst : clip_status Off l n = EFI_SUCCESS)
    by (unfold clip_status; rewrite Hclip, Z.ltb_irrefl; done).
  assert (Hsane : sane_request Lba Off (Some n)) by (unfold sane_request; lia).
  set (a := block_address (instance s) es (Z.to_nat Lba) + Off).
  set (m1 := write_bytes (fmem s) a (read_bytes (fmem s) Buf n)).
  assert (Hout : forall x, x < FvBase (instance s) + header_bytes es -> m1 x = fmem s x).
  { intros x Hx. unfold m1. apply write_bytes_out. rewrite length_read_bytes.
    unfold a, block_address. lia. }
  exists (dirty_with m1 s). eexists. split; [|split].
  - rewrite (write_eq s es) by done. unfold write_spec.
    rewrite (proj2 (Z.eqb_neq Buf 0)), (proj2 (Z.eqb_neq n 0)) by lia. cbn [orb].
    rewrite Hl, Hw, (proj2 (Z.ltb_ge l Off)), Hclip, Hst by lia. done.
  - assert (Hs1 : serving (dirty_with m1 s) es).
    { destruct Hs as [Hp Hv]. split; [done|].
      assert (Hv1 : volume m1 (instance s) es) by (apply (volume_ext (fmem s)); [intros x Hx; apply Hout; lia | done]).
      by destruct Hv1; split. }
    assert (Ha1 : attributes (dirty_with m1 s) = attributes s).
    { unfold attributes, load. f_equal. apply read_bytes_ext. intros i Hi. simpl. apply Hout.
      pose proof (FV_header_room es). unfold FV_Attributes in *. lia. }
    rewrite (read_eq _ es) by done. unfold read_spec.
    rewrite (proj2 (Z.eqb_neq Buf' 0)), (proj2 (Z.eqb_neq n 0)) by lia. cbn [orb].
    rewrite Hl, Ha1, Hr, (proj2 (Z.ltb_ge l Off)), Hclip, Hst by lia. reflexivity.
  - simpl. change (block_address (with_Dirty true (instance s)) es (Z.to_nat Lba) + Off) with a.
    assert (Hback : read_bytes m1 a n = read_bytes (fmem s) Buf n).
    { unfold m1. pose proof (read_write_same (fmem s) a (read_bytes (fmem s) Buf n)) as H.
      by rewrite length_read_bytes, Z2Nat.id in H by lia. }
    pose proof (read_write_same m1 Buf' (read_bytes m1 a n)) as H.
    rewrite length_read_bytes, Z2Nat.id in H by lia. by rewrite H.
Qed.

(** for existing blocks other than the first, erasing sets every byte
    of exactly the named blocks to 0xff, touches no other byte, and the
    volume keeps serving. *)
Theorem FvbProtocolEraseBlocks_correct s es ps :
  serving s es -> header_in_first es -> Z.testbit (attributes s) 5 = true ->
  Forall (range_ok es) ps -> Forall (fun p => 1 <= p.1) ps ->
  exists s', FvbProtocolEraseBlocks (erase_args ps) s = Ret EFI_SUCCESS s' /\
    erased (in_ranges (instance s) es ps) s s' /\ serving s' es.
Proof.
  intros Hs Hh Hw Hok Hpos. unfold FvbProtocolEraseBlocks.
  rewrite (bind_Ret _ _ _ _ _ (get_inst_Ret s (proj1 Hs))).
  rewrite (erase_check_ok (fmem s) _ es) by (apply Hs || done).
  change (EFI_ERROR EFI_SUCCESS) with false. cbn match.
  destruct (erase_all_spec es ps s Hs Hh Hw Hok Hpos) as (s' & E & He).
  exists s'. split; [done|]. split; [done|]. eapply erased_serving; [done..|].
  intros x (p & Hp & j & l & Hj & Hl & Hx).
  rewrite Forall_forall in Hpos. specialize (Hpos p Hp). simpl in Hpos.
  eapply later_block_off_header; [by eapply volume_sizes, Hs | done | done | lia | apply Hx].
Qed.

(** a list naming an empty range or a block past the last one is
    refused before anything is erased, as long as the sums of block numbers
    and counts fit in 64 bits. *)
Theorem FvbProtocolEraseBlocks_rejects s es ps q :
  serving s es -> q ∈ ps -> ~ range_ok es q ->
  Forall (fun p => 0 <= p.1 /\ 0 <= p.2 /\ p.1 + p.2 < 2 ^ 64 /\ p.1 <> EFI_LBA_LIST_TERMINATOR) ps ->
  FvbProtocolEraseBlocks (erase_args ps) s = Ret EFI_INVALID_PARAMETER s.
Proof.
  intros Hs Hq Hbad Hall. unfold FvbProtocolEraseBlocks.
  rewrite (bind_Ret _ _ _ _ _ (get_inst_Ret s (proj1 Hs))).
  by rewrite (erase_check_bad (fmem s) _ es ps q) by (apply Hs || done).
Qed.

(** a range whose end wraps to zero passes the check, so a call that
    names it is refused only after the blocks before it have been erased. *)
Theorem FvbProtocolEraseBlocks_wrapped_range s es :
  serving s es -> header_in_first es -> Z.testbit (attributes s) 5 = true ->
  (2 <= length (block_sizes es))%nat ->
  exists s', FvbProtocolEraseBlocks [1; 1; 2 ^ 64 - 2; 2; EFI_LBA_LIST_TERMINATOR] s =
      Ret EFI_INVALID_PARAMETER s' /\
    erased (in_blocks (instance s) es 1 1) s s'.
Proof.
  intros Hs Hh Hw Hlen. unfold FvbProtocolEraseBlocks.
  rewrite (bind_Ret _ _ _ _ _ (get_inst_Ret s (proj1 Hs))).
  pose proof (vo_num _ _ _ (proj2 Hs)) as Hnum.
  pose proof (blocks_lt_word _ _ _ (proj2 Hs)) as Hlt.
  assert (Hc : erase_check (NumOfBlocks (instance s))
                 [1; 1; 2 ^ 64 - 2; 2; EFI_LBA_LIST_TERMINATOR] = Ret EFI_SUCCESS tt).
  { cbn [erase_check]. change (1 =? EFI_LBA_LIST_TERMINATOR) with false. change (1 =? 0) with false.
    change (u64 (1 + 1)) with 2. change (2 ^ 64 - 2 =? EFI_LBA_LIST_TERMINATOR) with false.
    change (2 =? 0) with false. change (u64 (2 ^ 64 - 2 + 2)) with 0. cbn [orb].
    by rewrite !(proj2 (Z.ltb_ge _ _)) by lia. }
  rewrite Hc. change (EFI_ERROR EFI_SUCCESS) with false. cbn match.
  destruct (erase_run_spec es 1 1 s Hs Hh Hw ltac:(lia) ltac:(lia)) as (s1 & E1 & He1).
  change (erase_all [1; 1; 2 ^ 64 - 2; 2; EFI_LBA_LIST_TERMINATOR] s) with
    ((Status ← erase_run 1 1; if EFI_ERROR Status then mret Status
      else erase_all [2 ^ 64 - 2; 2; EFI_LBA_LIST_TERMINATOR]) s).
  rewrite (bind_Ret _ _ _ _ _ E1). change (EFI_ERROR EFI_SUCCESS) with false. cbn match.
  pose proof (volume_sizes _ _ _ (proj2 Hs)) as Hpos.
  destruct (erased_serving _ _ _ _ Hs He1) as (Hs1 & Ha1 & _).
  { intros x (j & l & Hj & Hl & Hx). eapply later_block_off_header; [done..| |apply Hx]. lia. }
  exists s1. split; [|done].
  assert (Hbad : FvbEraseBlock (2 ^ 64 - 2) s1 = Ret EFI_INVALID_PARAMETER s1).
  { unfold FvbEraseBlock. rewrite (bind_Ret _ _ _ _ _ (GetVolumeAttributes_Ret s1 (proj1 Hs1))). cbn [snd].
    change EFI_FVB2_WRITE_STATUS with (2 ^ 5). rewrite land_bit, Ha1, Hw by lia. cbn [negb].
    destruct (GetLbaAddress_cases s1 es (2 ^ 64 - 2) Hs1 ltac:(lia)) as [(_ & a & E)|(l & n & Hl & _)].
    - by rewrite (bind_Ret _ _ _ _ _ E).
    - apply lookup_lt_Some in Hl. lia. }
  change (erase_all [2 ^ 64 - 2; 2; EFI_LBA_LIST_TERMINATOR] s1) with
    ((Status ← erase_run 2 (2 ^ 64 - 2); if EFI_ERROR Status then mret Status
      else erase_all [EFI_LBA_LIST_TERMINATOR]) s1).
  rewrite (bind_Ret _ _ s1 EFI_INVALID_PARAMETER s1); [done|].
  cbn [erase_run]. by rewrite (bind_Ret _ _ _ _ _ Hbad).
Qed.

(** The volume after its first block has been erased. *)
Definition blank_header (m : mem) (base : Z) : Prop :=
  forall x, base + FV_Attributes <= x < base + FV_BlockMap + 8 -> m x = 0xff.

Lemma load_ff m a : (forall x, a <= x < a + 4 -> m x = 0xff) -> load 4 m a = 2 ^ 32 - 1.
Proof.
  intros H. unfold load. assert (E : read_bytes m a 4 = [0xff; 0xff; 0xff; 0xff]).
  { change [255; 255; 255; 255] with (read_bytes (fun _ => 255) a 4).
    apply read_bytes_ext. intros i Hi. apply H. lia. }
  by rewrite E.
Qed.

(** With the header gone, block 1 is sought four gigabytes further on. *)
Lemma EraseBlock_blank s : mFvInstance s <> 0 -> blank_header (fmem s) (FvBase (instance s)) ->
  0 <= FvBase (instance s) < 2 ^ 63 ->
  FvbEraseBlock 1 s = Ret EFI_SUCCESS
    (dirty_with (fill_bytes (fmem s) (FvBase (instance s) + (2 ^ 32 - 1)) (2 ^ 32 - 1) 0xff) s).
Proof.
  intros Hp Hb Hbase. unfold blank_header, FV_Attributes, FV_BlockMap in Hb. unfold FvbEraseBlock.
  rewrite (bind_Ret _ _ _ _ _ (GetVolumeAttributes_Ret s Hp)). cbn [snd].
  assert (Ha : attributes s = 2 ^ 32 - 1)
    by (apply load_ff; intros x Hx; apply Hb; unfold FV_Attributes in Hx; lia).
  rewrite Ha. change (Z.land (2 ^ 32 - 1) EFI_FVB2_WRITE_STATUS =? 0) with false. cbn match.
  unfold FvbGetLbaAddress. rewrite (bind_Ret _ _ s (EFI_SUCCESS, (FvBase (instance s) + (2 ^ 32 - 1), 2 ^ 32 - 1, 2 ^ 32 - 2)) s).
  { change (EFI_ERROR EFI_SUCCESS) with false. cbn match. by apply VarStoreErase_Ret. }
  rewrite (bind_Ret _ _ _ _ _ (get_inst_Ret s Hp)). rewrite (bind_Ret _ _ s (fmem s) s) by done.
  unfold map_fuel, FV_BlockMap. change (Z.to_nat 8192) with (S (Z.to_nat 8191)). cbn [lba_walk].
  rewrite !load_ff by (intros x Hx; apply Hb; lia).
  change ((2 ^ 32 - 1 =? 0) || (2 ^ 32 - 1 =? 0)) with false. cbn match.
  change ((0 <=? 1) && (1 <? u64 (0 + (2 ^ 32 - 1)))) with true. cbn match.
  change (u64 (0 + u64 ((1 - 0) * (2 ^ 32 - 1)))) with (2 ^ 32 - 1).
  change (u64 (0 + (2 ^ 32 - 1)) - 1) with (2 ^ 32 - 2).
  by rewrite wrap_small by (unfold in_word; lia).
Qed.

(** a call that erases block 0 and goes on erases the header first, reads
    its block map back as all ones, and fills nearly four gigabytes of
    memory past the volume instead of block 1. *)
Theorem FvbProtocolEraseBlocks_first_block s es :
  serving s es -> header_in_first es -> Z.testbit (attributes s) 5 = true ->
  (2 <= length (block_sizes es))%nat -> FvBase (instance s) < 2 ^ 63 ->
  exists s', FvbProtocolEraseBlocks [0; 2; EFI_LBA_LIST_TERMINATOR] s = Ret EFI_SUCCESS s' /\
    forall x, FvBase (instance s) + (2 ^ 32 - 1) <= x < FvBase (instance s) + 2 * (2 ^ 32 - 1) ->
      fmem s' x = 0xff.
Proof.
  intros Hs (l0 & Hl0 & Hh) Hw Hlen Hbase. unfold FvbProtocolEraseBlocks.
  rewrite (bind_Ret _ _ _ _ _ (get_inst_Ret s (proj1 Hs))).
  pose proof (vo_num _ _ _ (proj2 Hs)) as Hnum.
  pose proof (vo_base _ _ _ (proj2 Hs)) as Hb0.
  assert (Hc : erase_check (NumOfBlocks (instance s)) [0; 2; EFI_LBA_LIST_TERMINATOR] = Ret EFI_SUCCESS tt).
  { cbn [erase_check]. change (0 =? EFI_LBA_LIST_TERMINATOR) with false. change (2 =? 0) with false.
    change (u64 (0 + 2)) with 2. cbn [orb]. by rewrite !(proj2 (Z.ltb_ge _ _)) by lia. }
  rewrite Hc. change (EFI_ERROR EFI_SUCCESS) with false. cbn match.
  change (erase_all [0; 2; EFI_LBA_LIST_TERMINATOR] s) with
    ((Status ← erase_run 2 0; if EFI_ERROR Status then mret Status
      else erase_all [EFI_LBA_LIST_TERMINATOR]) s).
  assert (E0 := EraseBlock_Ret s es 0 l0 Hs Hl0 ltac:(lia) Hw).
  set (s1 := dirty_with _ _) in E0.
  assert (Hblank : blank_header (fmem s1) (FvBase (instance s1))).
  { intros x Hx. simpl in *. apply fill_bytes_in. unfold block_address, block_offset, header_bytes in *.
    simpl. unfold FV_Attributes, FV_BlockMap in *. lia. }
  assert (E1 := EraseBlock_blank s1 (proj1 Hs) Hblank ltac:(simpl; lia)).
  set (s2 := dirty_with _ _) in E1. exists s2. split.
  - assert (E2 : erase_run 2 0 s = Ret EFI_SUCCESS s2).
    { cbn [erase_run]. rewrite (bind_Ret _ _ _ _ _ E0). change (EFI_ERROR EFI_SUCCESS) with false.
      cbn match. change (u64 (0 + 1)) with 1. by rewrite (bind_Ret _ _ _ _ _ E1). }
    by rewrite (bind_Ret _ _ _ _ _ E2).
  - intros x Hx. simpl. apply fill_bytes_in. lia.
Qed.

(** when the requested count plus the offset wraps past 2^64, the block
    boundary is not noticed: the whole count is copied and reported. *)
Theorem FvbProtocolWrite_count_wraps s es Lba Off n Buf l :
  serving s es -> block_sizes es !! Z.to_nat Lba = Some l -> 0 <= Lba ->
  0 <= Off <= l -> Z.testbit (attributes s) 5 = true -> Buf <> 0 ->
  l < n < 2 ^ 64 -> 2 ^ 64 <= n + Off <= 2 ^ 64 + l ->
  exists s', FvbProtocolWrite Lba Off (Some n) Buf s = Ret (EFI_SUCCESS, Some n) s' /\
    fmem s' = write_bytes (fmem s) (block_address (instance s) es (Z.to_nat Lba) + Off)
                (read_bytes (fmem s) Buf n).
Proof.
  intros Hs Hl HL HO Hw HB Hn Hwrap. unfold FvbProtocolWrite.
  rewrite (proj2 (Z.eqb_neq Buf 0)), (proj2 (Z.eqb_neq n 0)) by lia.
  destruct (GetLbaAddress_cases s es Lba Hs HL) as [(Hno & _)|(l' & k & Hl' & _ & E)]; [congruence|].
  assert (l' = l) as -> by congruence.
  rewrite (bind_Ret _ _ _ _ _ E). change (EFI_ERROR EFI_SUCCESS) with false. cbn match.
  rewrite (bind_Ret _ _ _ _ _ (GetVolumeAttributes_Ret s (proj1 Hs))). cbn [snd].
  change EFI_FVB2_WRITE_STATUS with (2 ^ 5). rewrite land_bit, Hw by lia. cbn [negb].
  rewrite (proj2 (Z.ltb_ge l Off)) by lia.
  assert (Hclip : clip Off l n = (EFI_SUCCESS, n)).
  { pose proof (Forall_lookup_1 _ _ _ _ (map_at_small _ _ _ (vo_map _ _ _ (proj2 Hs))) Hl) as Hl32.
    simpl in Hl32. unfold clip, wrap. rewrite <- (Z_mod_plus_full (n + Off) (-1) (2 ^ 64)).
    rewrite Z.mod_small, (proj2 (Z.ltb_ge _ _)) by lia. done. }
  rewrite Hclip. destruct (write_lba_ok s es Lba Off n l Hs Hl HO) as (-> & _).
  rewrite (bind_Ret _ _ _ _ _ (VarStoreWrite_Ret _ _ _ s (proj1 Hs))). by eexists.
Qed.
End Contract.

Section StartAndDump.
Context {B : Build} {HS : Sum16} {HSL : Sum16Laws} {HC : FvbPcds} {D : Type} {HD : FvbServices D}.
Implicit Types (s : fvb D).


(** C32: along any sequence of reads, writes, erasures, dump events and disk
    arrivals, whenever the store device is known and nothing is marked
    dirty, the last image written to disk is the volume's present content. *)
Theorem fvb_disk_copy_synced {HL : FvbServicesLaws D} s s' :
  Device (instance s) = 0 -> rtc fvb_step s s' -> synced s'.
Proof.
  intros Hd Hrun. assert (Hs : synced s) by (by intros ?).
  clear Hd. induction Hrun as [|s1 s2 s3 Hstep _ IH]; [done|]. apply IH. by eapply step_synced.
Qed.

(** the search for the store device ends: it makes at most one pass over
    the pending handles, and adopts a device only after the volume has been
    written to it. *)
Theorem OnDiskIoInstall_terminates {HL : FvbServicesLaws D} s :
  match OnDiskIoInstall s with
  | Ret tt s' => fmem s' = fmem s /\
      (instance s' = instance s \/
       exists dev id, instance s' = with_Device dev id (instance s) /\
         image (sys s') = Some (volume_image s))
  | Stop w => w <> NoFuel
  end.
Proof.
  pose proof (OnDiskIoInstall_spec s) as H. unfold wpe in H.
  destruct (OnDiskIoInstall s) as [[] s'|w]; [|exact H].
  destruct H as (E & _ & [[Ei _]|Hd]); (split; [done|]); [by left | by right].
Qed.
End StartAndDump.

(** ** A small platform *)

Module FvbDemo.
#[export] Instance sums : Sum16 := {
  CalculateSum16 := fun bs => u16 (sum_words bs);
  CalculateCheckSum16 := fun bs => u16 (- sum_words bs)
}.

#[export] Instance sums_laws : Sum16Laws.
Proof. by split. Qed.

(** Four blocks of 256 bytes at 0x10000. *)
#[export] Instance pcds : FvbPcds := {
  PcdFlashNvStorageVariableSize := 512;
  PcdFlashNvStorageFtwWorkingSize := 256;
  PcdFlashNvStorageFtwSpareSize := 256;
  PcdNvStorageEventLogSize := 0;
  PcdFirmwareBlockSize := 256;
  PcdNvStorageVariableBase := 0x10000;
  PcdNvStorageFtwWorkingBase := 0x10200;
  PcdNvStorageFtwSpareBase := 0x10300;
  PcdFdStorageOffset := 0x100000;
  PcdMshcDxeBaseAddress := 0xfe2b0000;
  PcdEmmcDxeBaseAddress := 0xfe310000;
  EFI_SYSTEM_NV_DATA_FV_GUID := replicate 16 0x8d;
  mPlatformFvbMediaInfo := 0x1000
}.

(** Boot services: the content of the disk and the handles to announce. *)
Record services := { disk : option (Z * list Z); queue : list Z }.

#[export] Instance ops : FvbServices services := {
  AllocateRuntimeZeroPool := fun _ d => (0x2000, d);
  AllocateRuntimePool := fun _ d => (0x2100, d);
  AllocateCopyPool := fun _ d => (0x2200, d);
  FreePool := fun _ d => d;
  LocateFvb := fun _ d => ((EFI_NOT_FOUND, 0, false), d);
  InstallFvb := fun _ _ d => (EFI_SUCCESS, d);
  ReinstallFvb := fun _ _ d => (EFI_SUCCESS, d);
  LocateDiskIo := fun dev d => ((EFI_SUCCESS, dev), d);
  HandleProtocol := fun h _ d => ((EFI_SUCCESS, h), d);
  WriteDisk := fun _ _ off bs d => (EFI_SUCCESS, {| disk := Some (off, bs); queue := queue d |});
  CreateEvent := fun _ _ d => ((EFI_SUCCESS, 7), d);
  RegisterProtocolNotify := fun _ _ d => ((EFI_SUCCESS, 8), d);
  CloseEvent := fun _ d => (EFI_SUCCESS, d);
  LocateHandle := fun _ d =>
    match queue d with
    | [] => ((EFI_NOT_FOUND, 0), d)
    | h :: q => ((EFI_SUCCESS, h), {| disk := disk d; queue := q |})
    end;
  pending := fun d => length (queue d);
  DevicePathFromHandle := fun h d => h;
  ReadNode := fun p d =>
    {| Type_ := 1; SubType := 3; MemMap_StartingAddress := p;
       Vendor_is_NonDiscoverable := false; BaseAddress := 0 |};
  DuplicateDevicePath := fun p d => (p, d);
  ConvertDevicePathToText := fun _ d => (0x3000, d);
  ReadMedia := fun _ _ => {| media_id := 1; MediaPresent := true; ReadOnly := false |};
  BootDeviceReg := fun _ => SOC_BOOT_DEVICE_SD;
  ConvertPointer := fun p _ => p;
  PcdGet := fun _ _ => 0;
  PcdSet := fun _ _ d => (EFI_SUCCESS, d)
}.

#[export] Instance laws : FvbServicesLaws services.
Proof.
  refine {| image := disk |}; simpl; intros; simplify_eq; simpl; try done; try (split; [done | lia]).
  match goal with H : match queue ?d with _ => _ end = _ |- _ => destruct (queue d) eqn:E end;
    simplify_eq; simpl; [done|]. split; [done | lia].
Defined.

#[export] Instance debug : Build := {| debug_build := true |}.

(** Power-on: the static table in place, the volume area zero. *)
Definition power_on : fvb services :=
  {| fmem := write_bytes (fun _ => 0) 0x1000 mPlatformFvbMediaInfo_image; mFvInstance := 0;
     instance := zero_instance; mDiskIoRegistration := 0; Checksummed := false;
     sys := {| disk := None; queue := [0x40; 0xfe2b0000; 0x50] |} |}.

Lemma demo_pcds : pcds_ok.
Proof. split; vm_compute; repeat split; try (intros ?; discriminate); by left. Qed.

Lemma power_on_fresh : table_fresh power_on.
Proof. split; [done|]. vm_compute. exact eq_refl. Qed.

Lemma power_on_blank : ~ header_accepted (fmem power_on).
Proof.
  intros [H _]. assert (E : ValidateFvHeader volume_base (fmem power_on) = EFI_NOT_FOUND)
    by (vm_compute; exact eq_refl). rewrite E in H. discriminate H.
Qed.

Definition booted : fvb services :=
  match FvbInitialize power_on with Ret _ s => s | Stop _ => power_on end.

(** The driver comes up and formats the volume. *)
Lemma booted_started :
  FvbInitialize power_on = Ret EFI_SUCCESS booted /\
  serving booted formatted_map /\ attributes booted = FvbInfo_Attributes /\
  FvBase (instance booted) = 0x10000 /\ Device (instance booted) = 0.
Proof.
  pose proof (FvbInitialize_spec demo_pcds power_on power_on_fresh
    (fun H => False_ind _ (power_on_blank H))) as Hspec.
  assert (Hrun : match FvbInitialize power_on with
                 | Ret st _ => st =? EFI_SUCCESS | Stop _ => false end = true) by (vm_compute; exact eq_refl).
  destruct (wpe_cases _ _ _ _ Hspec) as [(st & s' & E & Hst)|(w & E & _)];
    rewrite E in Hrun; [|discriminate Hrun].
  apply Z.eqb_eq in Hrun as ->. unfold booted. rewrite E.
  destruct Hst as [[Hbad _]|(_ & es & Hserv & Hb & _ & Hd & Hcase)]; [discriminate Hbad|].
  destruct Hcase as [[Hacc _]|(_ & _ & -> & Ha & _)]; [destruct (power_on_blank Hacc)|].
  split; [exact eq_refl|]. split; [exact Hserv|]. split; [exact Ha|]. split; [exact Hb | exact Hd].
Qed.

Lemma booted_writable : Z.testbit (attributes booted) 5 = true /\ Z.testbit (attributes booted) 2 = true.
Proof.
  destruct booted_started as (_ & _ & Ha & _). rewrite Ha. split; vm_compute; exact eq_refl.
Qed.

Lemma formatted_first : header_in_first formatted_map.
Proof. exists 256. split; [vm_compute; exact eq_refl | vm_compute; intros H; discriminate H]. Qed.
End FvbDemo.

(** ** The contract on the demo volume *)

Module FvbRuns.
Import FvbDemo.

Lemma booted_serving : serving booted formatted_map.
Proof. exact (proj1 (proj2 booted_started)). Qed.

Lemma booted_pointer : mFvInstance booted <> 0.
Proof. exact (proj1 booted_serving). Qed.

Lemma FvbGetLbaAddress_correct_witness :
  exists n, FvbGetLbaAddress 2 booted =
      Ret (EFI_SUCCESS, (FvBase (instance booted) + Zsum (take 2 (block_sizes formatted_map)), 256, n)) booted /\
    run_of (block_sizes formatted_map) 2 256 n /\
    FvBase (instance booted) + Zsum (take 2 (block_sizes formatted_map)) + 256 <=
      FvBase (instance booted) + FvLength (instance booted).
Proof. exact (FvbGetLbaAddress_correct booted formatted_map 2 booted_serving ltac:(lia)). Defined.

Lemma FvbSetVolumeAttributes_correct_witness :
  exists st new s', FvbSetVolumeAttributes 0 booted = Ret (st, new) s' /\
    (st = EFI_SUCCESS <-> attributes_allowed (attributes booted) 0) /\
    (st = EFI_SUCCESS \/ EFI_ERROR st = true /\ new = 0 /\ s' = booted) /\
    (st = EFI_SUCCESS ->
       attributes s' = new /\
       (forall k, 0 <= k -> Z.testbit new k =
          if Z.testbit EFI_FVB2_STATUS k then Z.testbit 0 k else Z.testbit (attributes booted) k) /\
       exists m', s' = set_fmem m' booted /\
         only_changes (FvBase (instance booted) + FV_Attributes) 4 (fmem booted) m').
Proof.
  apply FvbSetVolumeAttributes_correct; [exact booted_pointer|].
  rewrite (proj1 (proj2 (proj2 booted_started))).
  split; vm_compute; [intros H; discriminate H | exact eq_refl].
Defined.

Lemma formatted_attributes_fixed_witness :
  exists new s', FvbProtocolSetAttributes FvbInfo_Attributes booted = Ret (EFI_SUCCESS, new) s' /\
    new = FvbInfo_Attributes /\ attributes s' = FvbInfo_Attributes.
Proof.
  destruct booted_started as (_ & _ & Ha & _).
  destruct (set_attributes_spec FvbInfo_Attributes booted booted_pointer) as (st & new & s' & E & Hr).
  { rewrite Ha. split; vm_compute; [intros H; discriminate H | exact eq_refl]. }
  rewrite Ha in Hr. destruct Hr as [(_ & Hno & _)|(-> & _)].
  - destruct Hno. apply check_attributes_spec. vm_compute. exact eq_refl.
  - exists new, s'. split; [exact E|].
    exact (formatted_attributes_fixed booted FvbInfo_Attributes new s' booted_pointer Ha E).
Defined.

Lemma FvbProtocolWrite_correct_witness :
  FvbProtocolWrite 1 250 (Some 20) 0x1000 booted = write_spec formatted_map 1 250 (Some 20) 0x1000 booted /\
  exists r s', FvbProtocolWrite 1 250 (Some 20) 0x1000 booted = Ret r s' /\
    only_changes (FvBase (instance booted)) (FvLength (instance booted)) (fmem booted) (fmem s').
Proof.
  apply FvbProtocolWrite_correct; [exact booted_serving | unfold sane_request; lia].
Defined.

(** Six of the twenty bytes fit. *)
Example write_is_cut :
  match FvbProtocolWrite 1 250 (Some 20) 0x1000 booted with
  | Ret r s => (r, fmem s 0x101fa, fmem s 0x10200, Dirty (instance s))
  | Stop _ => ((0, None), 0, 0, false) end
  = ((EFI_BAD_BUFFER_SIZE, Some 6), 0, 255, true).
Proof. vm_compute. reflexivity. Qed.

Lemma FvbProtocolRead_correct_witness :
  FvbProtocolRead 0 0 (Some 16) 0x8000 booted = read_spec formatted_map 0 0 (Some 16) 0x8000 booted.
Proof.
  apply FvbProtocolRead_correct; [exact booted_serving | unfold sane_request; lia].
Defined.

Lemma fvb_write_read_roundtrip_witness :
  exists s1 s2, FvbProtocolWrite 2 10 (Some 30) 0x1000 booted = Ret (EFI_SUCCESS, Some 30) s1 /\
    FvbProtocolRead 2 10 (Some 30) 0x8000 s1 = Ret (EFI_SUCCESS, Some 30) s2 /\
    read_bytes (fmem s2) 0x8000 30 = read_bytes (fmem booted) 0x1000 30.
Proof.
  apply (fvb_write_read_roundtrip booted formatted_map 2 10 30 0x1000 0x8000 256); try lia.
  - exact booted_serving.
  - vm_compute; exact eq_refl.
  - vm_compute. intros H; discriminate H.
  - exact (proj1 booted_writable).
  - exact (proj2 booted_writable).
Defined.

Lemma FvbProtocolEraseBlocks_correct_witness :
  exists s', FvbProtocolEraseBlocks (erase_args [(3, 1); (1, 2)]) booted = Ret EFI_SUCCESS s' /\
    erased (in_ranges (instance booted) formatted_map [(3, 1); (1, 2)]) booted s' /\
    serving s' formatted_map.
Proof.
  apply FvbProtocolEraseBlocks_correct.
  - exact booted_serving.
  - exact formatted_first.
  - exact (proj1 booted_writable).
  - repeat constructor; vm_compute; intros H; discriminate H.
  - repeat constructor; vm_compute; intros H; discriminate H.
Defined.

Lemma FvbProtocolEraseBlocks_rejects_witness :
  FvbProtocolEraseBlocks (erase_args [(1, 1); (3, 2)]) booted = Ret EFI_INVALID_PARAMETER booted.
Proof.
  apply (FvbProtocolEraseBlocks_rejects booted formatted_map [(1, 1); (3, 2)] (3, 2)).
  - exact booted_serving.
  - right. left.
  - intros (_ & _ & H). vm_compute in H. destruct (H eq_refl).
  - repeat constructor; vm_compute; intros H; discriminate H.
Defined.

Lemma FvbProtocolEraseBlocks_wrapped_range_witness :
  exists s', FvbProtocolEraseBlocks [1; 1; 2 ^ 64 - 2; 2; EFI_LBA_LIST_TERMINATOR] booted =
      Ret EFI_INVALID_PARAMETER s' /\
    erased (in_blocks (instance booted) formatted_map 1 1) booted s'.
Proof.
  apply FvbProtocolEraseBlocks_wrapped_range.
  - exact booted_serving.
  - exact formatted_first.
  - exact (proj1 booted_writable).
  - vm_compute. repeat constructor.
Defined.

Lemma FvbProtocolEraseBlocks_first_block_witness :
  exists s', FvbProtocolEraseBlocks [0; 2; EFI_LBA_LIST_TERMINATOR] booted = Ret EFI_SUCCESS s' /\
    forall x, FvBase (instance booted) + (2 ^ 32 - 1) <= x < FvBase (instance booted) + 2 * (2 ^ 32 - 1) ->
      fmem s' x = 0xff.
Proof.
  apply (FvbProtocolEraseBlocks_first_block booted formatted_map).
  - exact booted_serving.
  - exact formatted_first.
  - exact (proj1 booted_writable).
  - vm_compute. repeat constructor.
  - rewrite (proj1 (proj2 (proj2 (proj2 booted_started)))). vm_compute. exact eq_refl.
Defined.

Lemma FvbProtocolWrite_count_wraps_witness :
  exists s', FvbProtocolWrite 1 4 (Some (2 ^ 64 - 2)) 0x1000 booted = Ret (EFI_SUCCESS, Some (2 ^ 64 - 2)) s' /\
    fmem s' = write_bytes (fmem booted) (block_address (instance booted) formatted_map (Z.to_nat 1) + 4)
                (read_bytes (fmem booted) 0x1000 (2 ^ 64 - 2)).
Proof.
  apply (FvbProtocolWrite_count_wraps booted formatted_map 1 4 (2 ^ 64 - 2) 0x1000 256); try lia.
  - exact booted_serving.
  - vm_compute; exact eq_refl.
  - exact (proj1 booted_writable).
Defined.


(** The boot disk arrives, then variables are written and dumped. *)
Definition found : fvb services := final booted (OnDiskIoInstall booted).
Definition dumped : fvb services := final found (DumpVars found).

Lemma found_runs : returned (OnDiskIoInstall booted) = true.
Proof. vm_compute. exact eq_refl. Qed.

Lemma dumped_runs : returned (DumpVars found) = true.
Proof. vm_compute. exact eq_refl. Qed.

Lemma found_step : fvb_step booted found.
Proof. apply step_disk_io. exact (returned_final booted (OnDiskIoInstall booted) found_runs). Qed.

Lemma dumped_step : fvb_step found dumped.
Proof. apply step_dump. exact (returned_final found (DumpVars found) dumped_runs). Qed.

Lemma fvb_disk_copy_synced_witness :
  synced dumped /\ (Device (instance dumped), Dirty (instance dumped)) = (0xfe2b0000, false).
Proof.
  split; [|vm_compute; exact eq_refl]. apply (fvb_disk_copy_synced booted dumped).
  - exact (proj2 (proj2 (proj2 (proj2 booted_started)))).
  - apply (rtc_l _ booted found).
    + exact found_step.
    + apply rtc_once. exact dumped_step.
Defined.
End FvbRuns.
