(* ===== verification/PciSegment.v ===== *)
(** * PCI segment library

    Model of [Silicon/Rockchip/Rk356xPkg/Library/Rk356xPciSegmentLib/PciSegmentLib.c]:
    configuration-space access for the three PCIe controllers of the RK356x.
    The state is the hardware behind the MMIO windows and the memory that
    holds the caller's transfer buffers. *)

From Stdlib Require Import ZArith Lia.
From stdpp Require Import base list numbers.
From S2P Require Import Prelude Memory.

(** ** Hardware and BaseLib *)

Class Mmio (D : Type) := {
  MmioRead8 : Z -> D -> Z * D;
  MmioRead16 : Z -> D -> Z * D;
  MmioRead32 : Z -> D -> Z * D;
  MmioWrite8 : Z -> Z -> D -> D;
  MmioWrite16 : Z -> Z -> D -> D;
  MmioWrite32 : Z -> Z -> D -> D
}.

(** BaseLib's [BitField*8], [*16] and [*32], by width; the middle arguments
    are [StartBit] and [EndBit]. *)
Class BitFields := {
  BitFieldRead : Z -> Z -> Z -> Z -> Z;
  BitFieldWrite : Z -> Z -> Z -> Z -> Z -> Z;
  BitFieldOr : Z -> Z -> Z -> Z -> Z -> Z;
  BitFieldAnd : Z -> Z -> Z -> Z -> Z -> Z;
  BitFieldAndThenOr : Z -> Z -> Z -> Z -> Z -> Z -> Z
}.

(** Bit [k] of a register of width [w] after an operation on its field. *)
Definition field_bit (s e k : Z) (old new : bool) : bool :=
  if (s <=? k) && (k <=? e) then new else old.

Class BitFieldLaws {HB : BitFields} := {
  BitFieldRead_law : forall w v s e k, 0 <= s <= e -> e < w -> in_word w v -> 0 <= k ->
    Z.testbit (BitFieldRead w v s e) k = (k <=? e - s) && Z.testbit v (s + k);
  BitFieldWrite_law : forall w v s e x k, 0 <= s <= e -> e < w -> in_word w v -> 0 <= k ->
    Z.testbit (BitFieldWrite w v s e x) k = field_bit s e k (Z.testbit v k) (Z.testbit x (k - s));
  BitFieldOr_law : forall w v s e x k, 0 <= s <= e -> e < w -> in_word w v -> 0 <= k ->
    Z.testbit (BitFieldOr w v s e x) k =
      field_bit s e k (Z.testbit v k) (Z.testbit v k || Z.testbit x (k - s));
  BitFieldAnd_law : forall w v s e x k, 0 <= s <= e -> e < w -> in_word w v -> 0 <= k ->
    Z.testbit (BitFieldAnd w v s e x) k =
      field_bit s e k (Z.testbit v k) (Z.testbit v k && Z.testbit x (k - s));
  BitFieldAndThenOr_law : forall w v s e x y k, 0 <= s <= e -> e < w -> in_word w v -> 0 <= k ->
    Z.testbit (BitFieldAndThenOr w v s e x y) k =
      field_bit s e k (Z.testbit v k) (Z.testbit v k && Z.testbit x (k - s) || Z.testbit y (k - s))
}.

(** ** Address map *)

Definition PCIE2X1_S : Z := 0x300000000.
Definition PCIE3X1_S : Z := 0x340000000.
Definition PCIE3X2_S : Z := 0x380000000.
Definition PCIE2X1_DBI : Z := 0x3C0000000.
Definition PCIE3X1_DBI : Z := 0x3C0400000.
Definition PCIE3X2_DBI : Z := 0x3C0800000.
Definition PCIE2X1_SEGMENT : Z := (PCIE2X1_S - 0x300000000) / 0x40000000.
Definition PCIE3X1_SEGMENT : Z := (PCIE3X1_S - 0x300000000) / 0x40000000.
Definition PCIE3X2_SEGMENT : Z := (PCIE3X2_S - 0x300000000) / 0x40000000.

Inductive PCI_CFG_WIDTH := PciCfgWidthUint8 | PciCfgWidthUint16 | PciCfgWidthUint32 | PciCfgWidthMax.

Definition RETURN_UNSUPPORTED : Z := ENCODE_ERROR 3.

Record pci (D : Type) := { dev : D; bufs : mem }.
Arguments dev {D}. Arguments bufs {D}. Arguments Build_pci {D}.

Section Code.
Context {B : Build} {D : Type} {HM : Mmio D} {HB : BitFields}.
Abbreviation MP := (M (pci D)).

Definition set_dev (d : D) (s : pci D) : pci D := {| dev := d; bufs := bufs s |}.
Definition mmio_read (f : D -> Z * D) : MP Z :=
  fun s => let '(v, d) := f (dev s) in Ret v (set_dev d s).
Definition mmio_write (f : D -> D) : MP unit := modify (fun s => set_dev (f (dev s)) s).

Definition ASSERT_INVALID_PCI_SEGMENT_ADDRESS (A Mask : Z) : MP unit :=
  ASSERT (Z.land A (Z.lor 0xffff0000f0000000 Mask) =? 0).

Definition PciSegmentLibGetConfigBase (Address : Z) : MP Z :=
  let Bus := Z.shiftr (Z.land Address 0xff00000) 20 in
  let Segment := u16 (Z.shiftr Address 32) in
  if Segment =? PCIE2X1_SEGMENT then
    mret (if Bus =? 0 then PCIE2X1_DBI else PCIE2X1_S + 0x8000)
  else if Segment =? PCIE3X1_SEGMENT then
    mret (if Bus =? 0 then PCIE3X1_DBI else PCIE3X1_S + 0x8000)
  else if Segment =? PCIE3X2_SEGMENT then
    mret (if Bus =? 0 then PCIE3X2_DBI else PCIE3X2_S + 0x8000)
  else _ ← ASSERT false; mret 0.

(** A device other than the root port on bus 0. *)
Definition ignored (Address : Z) : bool :=
  (Z.land Address 0xff00000 =? 0) && negb (Z.land Address 0xf8000 =? 0).

Definition PciSegmentLibReadWorker (Address : Z) (Width : PCI_CFG_WIDTH) : MP Z :=
  Base ← PciSegmentLibGetConfigBase Address;
  if ignored Address then mret 0xffffffff else
  let a := u64 (Base + u32 Address) in
  match Width with
  | PciCfgWidthUint8 => mmio_read (MmioRead8 a)
  | PciCfgWidthUint16 => mmio_read (MmioRead16 a)
  | PciCfgWidthUint32 =>
      if (Z.land Address 0xFF00000 =? 0) &&
         ((Z.land Address 0xFFF =? 0x10) || (Z.land Address 0xFFF =? 0x14)) then mret 0
      else mmio_read (MmioRead32 a)
  | PciCfgWidthMax => _ ← ASSERT false; mret 0
  end.

Definition PciSegmentLibWriteWorker (Address : Z) (Width : PCI_CFG_WIDTH) (Data : Z) : MP Z :=
  Base ← PciSegmentLibGetConfigBase Address;
  if ignored Address then mret Data else
  let a := u64 (Base + u32 Address) in
  _ ← match Width with
      | PciCfgWidthUint8 => mmio_write (MmioWrite8 a (u8 Data))
      | PciCfgWidthUint16 => mmio_write (MmioWrite16 a (u16 Data))
      | PciCfgWidthUint32 => mmio_write (MmioWrite32 a Data)
      | PciCfgWidthMax => ASSERT false
      end;
  mret Data.

Definition PciSegmentRegisterForRuntimeAccess (Address : Z) : MP Z :=
  _ ← ASSERT_INVALID_PCI_SEGMENT_ADDRESS Address 0;
  mret RETURN_UNSUPPORTED.

(** ** 8-bit registers *)

Definition PciSegmentRead8 (Address : Z) : MP Z :=
  _ ← ASSERT_INVALID_PCI_SEGMENT_ADDRESS Address 0;
  v ← PciSegmentLibReadWorker Address PciCfgWidthUint8;
  mret (u8 v).

Definition PciSegmentWrite8 (Address Value : Z) : MP Z :=
  _ ← ASSERT_INVALID_PCI_SEGMENT_ADDRESS Address 0;
  v ← PciSegmentLibWriteWorker Address PciCfgWidthUint8 Value;
  mret (u8 v).

Definition PciSegmentOr8 (Address OrData : Z) : MP Z :=
  v ← PciSegmentRead8 Address; PciSegmentWrite8 Address (u8 (Z.lor v OrData)).

Definition PciSegmentAnd8 (Address AndData : Z) : MP Z :=
  v ← PciSegmentRead8 Address; PciSegmentWrite8 Address (u8 (Z.land v AndData)).

Definition PciSegmentAndThenOr8 (Address AndData OrData : Z) : MP Z :=
  v ← PciSegmentRead8 Address;
  PciSegmentWrite8 Address (u8 (Z.lor (Z.land v AndData) OrData)).

Definition PciSegmentBitFieldRead8 (Address StartBit EndBit : Z) : MP Z :=
  v ← PciSegmentRead8 Address; mret (BitFieldRead 8 v StartBit EndBit).

Definition PciSegmentBitFieldWrite8 (Address StartBit EndBit Value : Z) : MP Z :=
  v ← PciSegmentRead8 Address;
  PciSegmentWrite8 Address (BitFieldWrite 8 v StartBit EndBit Value).

Definition PciSegmentBitFieldOr8 (Address StartBit EndBit OrData : Z) : MP Z :=
  v ← PciSegmentRead8 Address;
  PciSegmentWrite8 Address (BitFieldOr 8 v StartBit EndBit OrData).

Definition PciSegmentBitFieldAnd8 (Address StartBit EndBit AndData : Z) : MP Z :=
  v ← PciSegmentRead8 Address;
  PciSegmentWrite8 Address (BitFieldAnd 8 v StartBit EndBit AndData).

Definition PciSegmentBitFieldAndThenOr8 (Address StartBit EndBit AndData OrData : Z) : MP Z :=
  v ← PciSegmentRead8 Address;
  PciSegmentWrite8 Address (BitFieldAndThenOr 8 v StartBit EndBit AndData OrData).

(** ** 16-bit registers *)

Definition PciSegmentRead16 (Address : Z) : MP Z :=
  _ ← ASSERT_INVALID_PCI_SEGMENT_ADDRESS Address 1;
  v ← PciSegmentLibReadWorker Address PciCfgWidthUint16;
  mret (u16 v).

Definition PciSegmentWrite16 (Address Value : Z) : MP Z :=
  _ ← ASSERT_INVALID_PCI_SEGMENT_ADDRESS Address 1;
  v ← PciSegmentLibWriteWorker Address PciCfgWidthUint16 Value;
  mret (u16 v).

Definition PciSegmentOr16 (Address OrData : Z) : MP Z :=
  v ← PciSegmentRead16 Address; PciSegmentWrite16 Address (u16 (Z.lor v OrData)).

Definition PciSegmentAnd16 (Address AndData : Z) : MP Z :=
  v ← PciSegmentRead16 Address; PciSegmentWrite16 Address (u16 (Z.land v AndData)).

Definition PciSegmentAndThenOr16 (Address AndData OrData : Z) : MP Z :=
  v ← PciSegmentRead16 Address;
  PciSegmentWrite16 Address (u16 (Z.lor (Z.land v AndData) OrData)).

Definition PciSegmentBitFieldRead16 (Address StartBit EndBit : Z) : MP Z :=
  v ← PciSegmentRead16 Address; mret (BitFieldRead 16 v StartBit EndBit).

Definition PciSegmentBitFieldWrite16 (Address StartBit EndBit Value : Z) : MP Z :=
  v ← PciSegmentRead16 Address;
  PciSegmentWrite16 Address (BitFieldWrite 16 v StartBit EndBit Value).

Definition PciSegmentBitFieldOr16 (Address StartBit EndBit OrData : Z) : MP Z :=
  v ← PciSegmentRead16 Address;
  PciSegmentWrite16 Address (BitFieldOr 16 v StartBit EndBit OrData).

Definition PciSegmentBitFieldAnd16 (Address StartBit EndBit AndData : Z) : MP Z :=
  v ← PciSegmentRead16 Address;
  PciSegmentWrite16 Address (BitFieldAnd 16 v StartBit EndBit AndData).

Definition PciSegmentBitFieldAndThenOr16 (Address StartBit EndBit AndData OrData : Z) : MP Z :=
  v ← PciSegmentRead16 Address;
  PciSegmentWrite16 Address (BitFieldAndThenOr 16 v StartBit EndBit AndData OrData).

(** ** 32-bit registers *)

Definition PciSegmentRead32 (Address : Z) : MP Z :=
  _ ← ASSERT_INVALID_PCI_SEGMENT_ADDRESS Address 3;
  v ← PciSegmentLibReadWorker Address PciCfgWidthUint32;
  mret v.

Definition PciSegmentWrite32 (Address Value : Z) : MP Z :=
  _ ← ASSERT_INVALID_PCI_SEGMENT_ADDRESS Address 3;
  v ← PciSegmentLibWriteWorker Address PciCfgWidthUint32 Value;
  mret v.

Definition PciSegmentOr32 (Address OrData : Z) : MP Z :=
  v ← PciSegmentRead32 Address; PciSegmentWrite32 Address (u32 (Z.lor v OrData)).

Definition PciSegmentAnd32 (Address AndData : Z) : MP Z :=
  v ← PciSegmentRead32 Address; PciSegmentWrite32 Address (u32 (Z.land v AndData)).

Definition PciSegmentAndThenOr32 (Address AndData OrData : Z) : MP Z :=
  v ← PciSegmentRead32 Address;
  PciSegmentWrite32 Address (u32 (Z.lor (Z.land v AndData) OrData)).

Definition PciSegmentBitFieldRead32 (Address StartBit EndBit : Z) : MP Z :=
  v ← PciSegmentRead32 Address; mret (BitFieldRead 32 v StartBit EndBit).

Definition PciSegmentBitFieldWrite32 (Address StartBit EndBit Value : Z) : MP Z :=
  v ← PciSegmentRead32 Address;
  PciSegmentWrite32 Address (BitFieldWrite 32 v StartBit EndBit Value).

Definition PciSegmentBitFieldOr32 (Address StartBit EndBit OrData : Z) : MP Z :=
  v ← PciSegmentRead32 Address;
  PciSegmentWrite32 Address (BitFieldOr 32 v StartBit EndBit OrData).

Definition PciSegmentBitFieldAnd32 (Address StartBit EndBit AndData : Z) : MP Z :=
  v ← PciSegmentRead32 Address;
  PciSegmentWrite32 Address (BitFieldAnd 32 v StartBit EndBit AndData).

Definition PciSegmentBitFieldAndThenOr32 (Address StartBit EndBit AndData OrData : Z) : MP Z :=
  v ← PciSegmentRead32 Address;
  PciSegmentWrite32 Address (BitFieldAndThenOr 32 v StartBit EndBit AndData OrData).

(** ** Buffers

    [(StartAddress, Size, Buffer)] is the state the transfer loops update.
    [WriteUnaligned*] and [ReadUnaligned*] are little-endian accesses to the
    caller's buffer. *)

Definition cursor : Type := Z * Z * Z.
Definition advance (n : Z) (c : cursor) : cursor :=
  let '(StartAddress, Size, Buffer) := c in (u64 (StartAddress + n), Size - n, u64 (Buffer + n)).

Definition store_buffer (n : nat) (Buffer v : Z) : MP unit :=
  modify (fun s => {| dev := dev s; bufs := write_bytes (bufs s) Buffer (le_bytes n v) |}).
Definition load_buffer (n : Z) (Buffer : Z) : MP Z := gets (fun s => load n (bufs s) Buffer).

Definition read_unit8 (c : cursor) : MP cursor :=
  let '(StartAddress, _, Buffer) := c in
  v ← PciSegmentRead8 StartAddress; _ ← store_buffer 1 Buffer v; mret (advance 1 c).
Definition read_unit16 (c : cursor) : MP cursor :=
  let '(StartAddress, _, Buffer) := c in
  v ← PciSegmentRead16 StartAddress; _ ← store_buffer 2 Buffer v; mret (advance 2 c).
Definition read_unit32 (c : cursor) : MP cursor :=
  let '(StartAddress, _, Buffer) := c in
  v ← PciSegmentRead32 StartAddress; _ ← store_buffer 4 Buffer v; mret (advance 4 c).

Definition write_unit8 (c : cursor) : MP cursor :=
  let '(StartAddress, _, Buffer) := c in
  v ← load_buffer 1 Buffer; _ ← PciSegmentWrite8 StartAddress v; mret (advance 1 c).
Definition write_unit16 (c : cursor) : MP cursor :=
  let '(StartAddress, _, Buffer) := c in
  v ← load_buffer 2 Buffer; _ ← PciSegmentWrite16 StartAddress v; mret (advance 2 c).
Definition write_unit32 (c : cursor) : MP cursor :=
  let '(StartAddress, _, Buffer) := c in
  v ← load_buffer 4 Buffer; _ ← PciSegmentWrite32 StartAddress v; mret (advance 4 c).

(** The transfer both functions make, over the three access widths. *)
Section Transfer.
Context (unit8 unit16 unit32 : cursor -> MP cursor).

(** [while (Size >= sizeof (UINT32))] *)
Fixpoint dwords (fuel : nat) (c : cursor) : MP cursor :=
  match fuel with
  | O => stopM NoFuel
  | S fuel =>
      let '(_, Size, _) := c in
      if 4 <=? Size then c ← unit32 c; dwords fuel c else mret c
  end.

Definition transfer (fuel : nat) (c : cursor) : MP unit :=
  c ← (let '(StartAddress, _, _) := c in
       if negb (Z.land StartAddress 1 =? 0) then unit8 c else mret c);
  c ← (let '(StartAddress, Size, _) := c in
       if (2 <=? Size) && negb (Z.land StartAddress 2 =? 0) then unit16 c else mret c);
  c ← dwords fuel c;
  c ← (let '(_, Size, _) := c in if 2 <=? Size then unit16 c else mret c);
  let '(_, Size, _) := c in
  if 1 <=? Size then _ ← unit8 c; mret tt else mret tt.
End Transfer.

Definition PciSegmentReadBuffer (StartAddress Size Buffer : Z) : MP Z :=
  _ ← ASSERT_INVALID_PCI_SEGMENT_ADDRESS StartAddress 0;
  _ ← ASSERT (u64 (Z.land StartAddress 0xFFF + Size) <=? 0x1000);
  if Size =? 0 then mret Size else
  _ ← ASSERT (negb (Buffer =? 0));
  _ ← transfer read_unit8 read_unit16 read_unit32 (S (Z.to_nat (Size / 4))) (StartAddress, Size, Buffer);
  mret Size.

Definition PciSegmentWriteBuffer (StartAddress Size Buffer : Z) : MP Z :=
  _ ← ASSERT_INVALID_PCI_SEGMENT_ADDRESS StartAddress 0;
  _ ← ASSERT (u64 (Z.land StartAddress 0xFFF + Size) <=? 0x1000);
  if Size =? 0 then mret 0 else
  _ ← ASSERT (negb (Buffer =? 0));
  _ ← transfer write_unit8 write_unit16 write_unit32 (S (Z.to_nat (Size / 4))) (StartAddress, Size, Buffer);
  mret Size.
End Code.
