(* ===== verification/PciSegmentProps.v ===== *)
(** * Correctness of the PCI segment library

    Configuration addresses are decomposed into segment, bus, device, function
    and register; accesses are shown to reach the right controller window, and
    buffer transfers to move exactly the requested bytes. *)

From Stdlib Require Import ZArith Lia.
From stdpp Require Import base list numbers.
From S2P Require Import Prelude Memory PciSegment.

(** ** Addresses *)

Record bdf := { seg : Z; bus : Z; device : Z; func : Z; reg : Z }.

Definition cfg_address (a : bdf) : Z :=
  2 ^ 32 * seg a + 2 ^ 20 * bus a + 2 ^ 15 * device a + 2 ^ 12 * func a + reg a.

Record cfg_ok (a : bdf) : Prop := {
  ok_seg : 0 <= seg a < 3;
  ok_bus : 0 <= bus a < 256;
  ok_dev : 0 <= device a < 32;
  ok_fun : 0 <= func a < 8;
  ok_reg : 0 <= reg a < 4096
}.

(** Bus 0 has the root port only. *)
Definition visible (a : bdf) : Prop := bus a = 0 -> device a = 0.

(** The MMIO address of a register. *)
Definition dbi (s : Z) : Z := PCIE2X1_DBI + s * 0x400000.
Definition window (s : Z) : Z := PCIE2X1_S + s * 0x40000000.
Definition cfg_base (a : bdf) : Z := if bus a =? 0 then dbi (seg a) else window (seg a) + 0x8000.
Definition cfg_mmio (a : bdf) : Z :=
  cfg_base a + (2 ^ 20 * bus a + 2 ^ 15 * device a + 2 ^ 12 * func a + reg a).

Lemma land_field a k n : 0 <= k -> 0 <= n ->
  Z.land a (Z.shiftl (Z.ones n) k) = 2 ^ k * ((a / 2 ^ k) mod 2 ^ n).
Proof.
  intros Hk Hn. apply Z.bits_inj'. intros i Hi. rewrite Z.land_spec.
  rewrite (Z.mul_comm (2 ^ k)), <- Z.shiftl_mul_pow2, <- Z.shiftr_div_pow2 by lia.
  destruct (Z.ltb_spec i k).
  - by rewrite !Z.shiftl_spec_low, andb_false_r.
  - rewrite !Z.shiftl_spec_high by lia. destruct (Z.ltb_spec (i - k) n).
    + rewrite Z.ones_spec_low, Z.mod_pow2_bits_low, Z.shiftr_spec, andb_true_r by lia. f_equal. lia.
    + by rewrite Z.ones_spec_high, Z.mod_pow2_bits_high, andb_false_r by lia.
Qed.

Section Fields.
Context (a : bdf) (Ha : cfg_ok a).

Ltac fields := destruct Ha; unfold cfg_address; Z.div_mod_to_equations; lia.

Lemma address_bus : Z.land (cfg_address a) 0xff00000 = 2 ^ 20 * bus a.
Proof.
  change 0xff00000 with (Z.shiftl (Z.ones 8) 20). rewrite land_field by lia. f_equal.
  replace (cfg_address a / 2 ^ 20) with (2 ^ 12 * seg a + bus a) by fields. fields.
Qed.

Lemma address_device : Z.land (cfg_address a) 0xf8000 = 2 ^ 15 * device a.
Proof.
  change 0xf8000 with (Z.shiftl (Z.ones 5) 15). rewrite land_field by lia. f_equal.
  replace (cfg_address a / 2 ^ 15) with (2 ^ 17 * seg a + 2 ^ 5 * bus a + device a) by fields. fields.
Qed.

Lemma address_reg : Z.land (cfg_address a) 0xfff = reg a.
Proof.
  change 0xfff with (Z.ones 12). rewrite Z.land_ones by lia. fields.
Qed.

Lemma address_segment : u16 (Z.shiftr (cfg_address a) 32) = seg a.
Proof.
  rewrite Z.shiftr_div_pow2 by lia. replace (cfg_address a / 2 ^ 32) with (seg a) by fields.
  apply wrap_small. destruct Ha. unfold in_word. lia.
Qed.

Lemma address_low : u32 (cfg_address a) = 2 ^ 20 * bus a + 2 ^ 15 * device a + 2 ^ 12 * func a + reg a.
Proof. unfold wrap. fields. Qed.

(** The reserved-bits assertion holds when the register is aligned. *)
Lemma address_assert n : 0 <= n -> reg a mod 2 ^ n = 0 ->
  n <= 12 -> Z.land (cfg_address a) (Z.lor 0xffff0000f0000000 (Z.ones n)) = 0.
Proof.
  intros Hn Hal Hn12.
  replace 0xffff0000f0000000 with (Z.lor (Z.shiftl (Z.ones 16) 48) (Z.shiftl (Z.ones 4) 28)) by done.
  rewrite !Z.land_lor_distr_r, !land_field, Z.land_ones by lia.
  replace (cfg_address a / 2 ^ 48) with 0 by fields.
  replace ((cfg_address a / 2 ^ 28) mod 2 ^ 4) with 0.
  2: { replace (cfg_address a / 2 ^ 28) with (2 ^ 4 * seg a) by fields. by rewrite Z.mul_comm, Z_mod_mult. }
  replace (cfg_address a mod 2 ^ n) with 0; [done|]. symmetry.
  unfold cfg_address. apply Z.mod_divide in Hal; [|apply Z.pow_nonzero; lia]. destruct Hal as [q Hq].
  assert (Hp : forall k, 12 <= k -> 2 ^ k = 2 ^ (k - n) * 2 ^ n).
  { intros k Hk. rewrite <- Z.pow_add_r by lia. f_equal. lia. }
  rewrite Hq, (Hp 32), (Hp 20), (Hp 15), (Hp 12) by lia. apply Z.mod_divide; [apply Z.pow_nonzero; lia|].
  exists (2 ^ (32 - n) * seg a + 2 ^ (20 - n) * bus a + 2 ^ (15 - n) * device a + 2 ^ (12 - n) * func a + q).
  ring.
Qed.

(** A register lies in its controller's window. *)
Lemma cfg_mmio_window : visible a ->
  if bus a =? 0 then dbi (seg a) <= cfg_mmio a < dbi (seg a) + 0x8000
  else window (seg a) + 0x108000 <= cfg_mmio a < window (seg a) + 0x10008000.
Proof.
  intros Hv. unfold cfg_mmio, cfg_base. destruct Ha. destruct (Z.eqb_spec (bus a) 0) as [E|].
  - rewrite E, (Hv E). lia.
  - lia.
Qed.

Lemma cfg_mmio_word : visible a -> 0 <= cfg_mmio a < 2 ^ 64 - 2 ^ 32.
Proof.
  intros Hv. pose proof (cfg_mmio_window Hv) as H. unfold dbi, window, PCIE2X1_DBI, PCIE2X1_S in *.
  destruct Ha. destruct (bus a =? 0); lia.
Qed.
End Fields.

Section Access.
Context {B : Build} {D : Type} {HM : Mmio D}.
Implicit Types (s : pci D).

Lemma config_base_Ret a s : cfg_ok a ->
  PciSegmentLibGetConfigBase (cfg_address a) s = Ret (cfg_base a) s.
Proof.
  intros Ha. unfold PciSegmentLibGetConfigBase. rewrite address_segment, address_bus by done.
  replace (Z.shiftr (2 ^ 20 * bus a) 20) with (bus a)
    by (rewrite Z.shiftr_div_pow2 by lia; Z.div_mod_to_equations; lia).
  destruct (ok_seg a Ha). unfold cfg_base, dbi, window.
  change PCIE2X1_SEGMENT with 0. change PCIE3X1_SEGMENT with 1. change PCIE3X2_SEGMENT with 2.
  assert (Hs : seg a = 0 \/ seg a = 1 \/ seg a = 2) by lia.
  destruct Hs as [->|[->| ->]]; simpl; by destruct (bus a =? 0).
Qed.

Lemma ignored_eq a : cfg_ok a -> ignored (cfg_address a) = (bus a =? 0) && negb (device a =? 0).
Proof.
  intros Ha. unfold ignored. rewrite address_bus, address_device by done.
  destruct (Z.eqb_spec (bus a) 0), (Z.eqb_spec (device a) 0),
    (Z.eqb_spec (2 ^ 20 * bus a) 0), (Z.eqb_spec (2 ^ 15 * device a) 0); try done; lia.
Qed.

Lemma visible_not_ignored a : cfg_ok a -> visible a -> ignored (cfg_address a) = false.
Proof.
  intros Ha Hv. rewrite ignored_eq by done. destruct (Z.eqb_spec (bus a) 0) as [E|]; [|done].
  by rewrite (Hv E).
Qed.

(** The root port's BAR0 and BAR1. *)
Definition root_bar (a : bdf) : bool := (bus a =? 0) && ((reg a =? 0x10) || (reg a =? 0x14)).

Lemma mmio_at a : cfg_ok a -> visible a -> u64 (cfg_base a + u32 (cfg_address a)) = cfg_mmio a.
Proof.
  intros Ha Hv. rewrite address_low by done. fold (cfg_mmio a).
  apply wrap_small. pose proof (cfg_mmio_word a Ha Hv). unfold in_word. lia.
Qed.

(** Reads and writes of a visible register, by width. *)
Lemma read_worker_Ret a w s : cfg_ok a -> visible a -> w <> PciCfgWidthMax ->
  PciSegmentLibReadWorker (cfg_address a) w s =
    match w with
    | PciCfgWidthUint8 => mmio_read (MmioRead8 (cfg_mmio a)) s
    | PciCfgWidthUint16 => mmio_read (MmioRead16 (cfg_mmio a)) s
    | _ => if root_bar a then Ret 0 s else mmio_read (MmioRead32 (cfg_mmio a)) s
    end.
Proof.
  intros Ha Hv Hw. unfold PciSegmentLibReadWorker.
  rewrite (bind_Ret _ _ _ _ _ (config_base_Ret a s Ha)), visible_not_ignored, mmio_at by done.
  destruct w; try done. rewrite address_bus, address_reg by done. unfold root_bar.
  replace (2 ^ 20 * bus a =? 0) with (bus a =? 0); [by destruct (_ && _)|].
  destruct (Z.eqb_spec (bus a) 0), (Z.eqb_spec (2 ^ 20 * bus a) 0); try done; lia.
Qed.

Definition width_write (w : PCI_CFG_WIDTH) (m v : Z) (d : D) : D :=
  match w with
  | PciCfgWidthUint8 => MmioWrite8 m (u8 v) d
  | PciCfgWidthUint16 => MmioWrite16 m (u16 v) d
  | PciCfgWidthUint32 => MmioWrite32 m v d
  | PciCfgWidthMax => d
  end.

Lemma write_worker_Ret a w v s : cfg_ok a -> visible a -> w <> PciCfgWidthMax ->
  PciSegmentLibWriteWorker (cfg_address a) w v s = Ret v (set_dev (width_write w (cfg_mmio a) v (dev s)) s).
Proof.
  intros Ha Hv Hw. unfold PciSegmentLibWriteWorker.
  rewrite (bind_Ret _ _ _ _ _ (config_base_Ret a s Ha)), visible_not_ignored, mmio_at by done.
  by destruct w.
Qed.

Lemma assert_Ret a n s : cfg_ok a -> 0 <= n <= 12 -> reg a mod 2 ^ n = 0 ->
  ASSERT_INVALID_PCI_SEGMENT_ADDRESS (cfg_address a) (Z.ones n) s = Ret tt s.
Proof.
  intros Ha Hn Hal. unfold ASSERT_INVALID_PCI_SEGMENT_ADDRESS.
  by rewrite address_assert by (done || lia).
Qed.
End Access.

(** ** Transfers, over any access units *)

Section TransferSpec.
Context {D : Type} (unit8 unit16 unit32 : cursor -> M (pci D) cursor).
Context (A Size Buf : Z) (Inv : Z -> pci D -> Prop).
Context (HA : 0 <= A) (HAend : A + Size < 2 ^ 64) (HB : 0 <= Buf) (HBend : Buf + Size < 2 ^ 64).

(** The cursor after [n] bytes. *)
Definition at_ (n : Z) : cursor := (A + n, Size - n, Buf + n).

Definition unit_ok (k : Z) (unit : cursor -> M (pci D) cursor) : Prop :=
  forall n s, 0 <= n -> n + k <= Size -> (A + n) mod k = 0 -> Inv n s ->
    wp (unit (at_ n)) s (fun c s' => c = at_ (n + k) /\ Inv (n + k) s').

Context (H8 : unit_ok 1 unit8) (H16 : unit_ok 2 unit16) (H32 : unit_ok 4 unit32).

Lemma dwords_spec fuel : forall n s,
  0 <= n <= Size -> (Size - n) / 4 < Z.of_nat fuel ->
  ((A + n) mod 4 = 0 \/ Size - n < 4) -> Inv n s ->
  wp (dwords unit32 fuel (at_ n)) s (fun c s' => exists n',
    c = at_ n' /\ Inv n' s' /\ n <= n' <= Size /\ Size - n' < 4 /\
    ((A + n') mod 4 = 0 \/ n' = n)).
Proof.
  induction fuel as [|fuel IH]; intros n s Hn Hf Hal HI; [Z.div_mod_to_equations; lia|].
  cbn [dwords at_]. destruct (Z.leb_spec 4 (Size - n)); wp_go.
  - destruct Hal as [Hal|]; [|lia].
    eapply wp_mono; [apply (H32 n s); (lia || done)|]. intros c s' [-> HI'].
    eapply wp_mono; [apply (IH (n + 4) s')|]; try done; try lia.
    + Z.div_mod_to_equations; lia.
    + left. Z.div_mod_to_equations; lia.
    + intros c s'' (n' & -> & HI'' & Hle & Hrest & Hor). exists n'. split; [done|]. split; [done|].
      split; [lia|]. split; [lia|]. left. destruct Hor as [?| ->]; [done|].
      Z.div_mod_to_equations; lia.
  - exists n. split; [done|]. split; [done|]. split; [lia|]. split; [lia|]. by right.
Qed.

Lemma land_1 a : Z.land a 1 = a mod 2.
Proof. change 1 with (Z.ones 1) at 1. by rewrite Z.land_ones by lia. Qed.

Lemma land_2 a : Z.land a 2 = 2 * ((a / 2) mod 2).
Proof. exact (land_field a 1 1 ltac:(lia) ltac:(lia)). Qed.

(** Every byte is transferred once, in order, with aligned accesses. *)
Lemma transfer_spec fuel s :
  0 < Size -> Size / 4 < Z.of_nat fuel -> Inv 0 s ->
  wp (transfer unit8 unit16 unit32 fuel (A, Size, Buf)) s (fun _ s' => Inv Size s').
Proof.
  intros HS Hf HI. unfold transfer.
  replace (A, Size, Buf) with (at_ 0) by (unfold at_; by rewrite !Z.add_0_r, Z.sub_0_r).
  wp_go. unfold at_ at 1. rewrite land_1.
  apply (wp_mono _ _ (fun c s' => exists n, c = at_ n /\ Inv n s' /\ 0 <= n <= 1 /\ n <= Size /\ (A + n) mod 2 = 0)).
  { destruct (Z.eqb_spec (A mod 2) 0) as [E|E]; cbn [negb]; wp_go.
    - exists 0. rewrite Z.add_0_r. by split_and!; (done || lia).
    - eapply wp_mono; [apply (H8 0 s); try done; try lia; by rewrite Z.mod_1_r|].
      intros c s' [-> HI']. exists 1. split_and!; try done; try lia. Z.div_mod_to_equations; lia. }
  intros c s1 (n & -> & HI1 & Hn & HnS & Hal). wp_go. unfold at_ at 1. rewrite land_2.
  apply (wp_mono _ _ (fun c s' => exists n, c = at_ n /\ Inv n s' /\ 0 <= n <= Size /\
               ((A + n) mod 4 = 0 \/ Size - n < 2) /\ (A + n) mod 2 = 0)).
  { destruct (Z.leb_spec 2 (Size - n)); cbn [andb].
    - destruct (Z.eqb_spec (2 * (((A + n) / 2) mod 2)) 0); cbn [negb]; wp_go.
      + exists n. split_and!; try done; try lia. left. Z.div_mod_to_equations; lia.
      + eapply wp_mono; [apply (H16 n s1); (lia || done)|]. intros c s' [-> HI'].
        exists (n + 2). split_and!; try done; try lia; [left|]; Z.div_mod_to_equations; lia.
    - wp_go. exists n. split_and!; try done; try lia. }
  intros c s2 (n2 & -> & HI2 & Hn2 & Hal4 & Hal2). wp_go.
  eapply wp_mono; [apply dwords_spec; try done; try lia; Z.div_mod_to_equations; lia|].
  intros c s3 (n3 & -> & HI3 & Hn3 & Hrest & Hor). wp_go. unfold at_ at 1.
  assert (Hal3 : (A + n3) mod 2 = 0).
  { destruct Hor as [? | ->]; [Z.div_mod_to_equations; lia | done]. }
  apply (wp_mono _ _ (fun c s' => exists n, c = at_ n /\ Inv n s' /\ 0 <= n <= Size /\ Size - n < 2)).
  { destruct (Z.leb_spec 2 (Size - n3)); wp_go.
    - eapply wp_mono; [apply (H16 n3 s3); (lia || done)|]. intros c s' [-> HI'].
      exists (n3 + 2). split_and!; try done; lia.
    - exists n3. split_and!; try done; lia. }
  intros c s4 (n4 & -> & HI4 & Hn4 & Hlast). unfold at_. destruct (Z.leb_spec 1 (Size - n4)); wp_go.
  - eapply wp_mono; [apply (H8 n4 s4); try done; try lia; by rewrite Z.mod_1_r|]. intros c s' [_ HI'].
    wp_go. by replace Size with (n4 + 1) by lia.
  - by replace Size with n4 by lia.
Qed.
End TransferSpec.

(** ** Configuration space that behaves as memory *)

Class MmioMemory (D : Type) {HM : Mmio D} := {
  cells : D -> mem;
  MmioRead8_law : forall a d, MmioRead8 a d = (load 1 (cells d) a, d);
  MmioRead16_law : forall a d, a mod 2 = 0 -> MmioRead16 a d = (load 2 (cells d) a, d);
  MmioRead32_law : forall a d, a mod 4 = 0 -> MmioRead32 a d = (load 4 (cells d) a, d);
  MmioWrite8_law : forall a v d, in_word 8 v ->
    cells (MmioWrite8 a v d) = write_bytes (cells d) a (le_bytes 1 v);
  MmioWrite16_law : forall a v d, a mod 2 = 0 -> in_word 16 v ->
    cells (MmioWrite16 a v d) = write_bytes (cells d) a (le_bytes 2 v);
  MmioWrite32_law : forall a v d, a mod 4 = 0 -> in_word 32 v ->
    cells (MmioWrite32 a v d) = write_bytes (cells d) a (le_bytes 4 v)
}.

Section Buffers.
Context {B : Build} {D : Type} {HM : Mmio D} {HC : MmioMemory D}.
Implicit Types (s : pci D).

Definition shift_reg (n : Z) (a : bdf) : bdf :=
  {| seg := seg a; bus := bus a; device := device a; func := func a; reg := reg a + n |}.

Lemma shift_address n a : cfg_address (shift_reg n a) = cfg_address a + n.
Proof. unfold cfg_address. simpl. lia. Qed.

Lemma shift_mmio n a : cfg_mmio (shift_reg n a) = cfg_mmio a + n.
Proof. unfold cfg_mmio, cfg_base. simpl. lia. Qed.

Lemma shift_ok n a : cfg_ok a -> 0 <= n -> reg a + n < 4096 -> cfg_ok (shift_reg n a).
Proof. intros [] Hn Hr. split; simpl; lia. Qed.

(** The base of every window is aligned. *)
Lemma cfg_mmio_mod a k : (4 | k) \/ k = 2 \/ k = 1 -> k <= 4 -> 0 < k -> cfg_mmio a mod k = reg a mod k.
Proof.
  intros Hk Hle Hpos. assert (Hk' : k = 4 \/ k = 2 \/ k = 1).
  { destruct Hk as [[q Hq]|]; [left; nia | lia]. }
  unfold cfg_mmio, cfg_base, dbi, window, PCIE2X1_DBI, PCIE2X1_S.
  destruct (bus a =? 0), Hk' as [->|[->| ->]]; Z.div_mod_to_equations; lia.
Qed.

Lemma cfg_address_mod a k : k = 4 \/ k = 2 \/ k = 1 -> cfg_address a mod k = reg a mod k.
Proof. intros [->|[->| ->]]; unfold cfg_address; Z.div_mod_to_equations; lia. Qed.

(** Reads of a visible register. *)
Lemma Read8_Ret a s : cfg_ok a -> visible a -> mem_bytes (cells (dev s)) ->
  PciSegmentRead8 (cfg_address a) s = Ret (load 1 (cells (dev s)) (cfg_mmio a)) s.
Proof.
  intros Ha Hv Hm. unfold PciSegmentRead8.
  rewrite (bind_Ret _ _ _ _ _ (assert_Ret a 0 s Ha ltac:(lia) (Z.mod_1_r _))).
  rewrite (bind_Ret _ _ s (load 1 (cells (dev s)) (cfg_mmio a)) s).
  - unfold mret, M_ret. by rewrite wrap_small by (apply (load_range 1); [lia | done]).
  - rewrite read_worker_Ret by done. unfold mmio_read. rewrite MmioRead8_law. by destruct s.
Qed.

Lemma Read16_Ret a s : cfg_ok a -> visible a -> mem_bytes (cells (dev s)) -> reg a mod 2 = 0 ->
  PciSegmentRead16 (cfg_address a) s = Ret (load 2 (cells (dev s)) (cfg_mmio a)) s.
Proof.
  intros Ha Hv Hm Hal. unfold PciSegmentRead16.
  rewrite (bind_Ret _ _ _ _ _ (assert_Ret a 1 s Ha ltac:(lia) Hal)).
  rewrite (bind_Ret _ _ s (load 2 (cells (dev s)) (cfg_mmio a)) s).
  - unfold mret, M_ret. by rewrite wrap_small by (apply (load_range 2); [lia | done]).
  - rewrite read_worker_Ret by done. unfold mmio_read.
    rewrite MmioRead16_law by (rewrite cfg_mmio_mod; auto; lia). by destruct s.
Qed.

Lemma Read32_Ret a s : cfg_ok a -> visible a -> reg a mod 4 = 0 ->
  PciSegmentRead32 (cfg_address a) s =
    Ret (if root_bar a then 0 else load 4 (cells (dev s)) (cfg_mmio a)) s.
Proof.
  intros Ha Hv Hal. unfold PciSegmentRead32.
  rewrite (bind_Ret _ _ _ _ _ (assert_Ret a 2 s Ha ltac:(lia) Hal)).
  rewrite (bind_Ret _ _ s (if root_bar a then 0 else load 4 (cells (dev s)) (cfg_mmio a)) s); [done|].
  rewrite read_worker_Ret by done. destruct (root_bar a); [done|]. unfold mmio_read.
  rewrite MmioRead32_law by (rewrite cfg_mmio_mod; auto; try lia; left; by exists 1). by destruct s.
Qed.

(** [n] bytes have been copied to the buffer, nothing else has changed. *)
Definition read_inv (a : bdf) (Buf : Z) (s0 : pci D) (n : Z) s : Prop :=
  dev s = dev s0 /\ read_bytes (bufs s) Buf n = read_bytes (cells (dev s0)) (cfg_mmio a) n /\
  only_changes Buf n (bufs s0) (bufs s).

Lemma store_step m0 m Buf n k (src : mem) x :
  0 <= n -> 0 <= k -> mem_bytes src ->
  read_bytes m Buf n = read_bytes src x n -> only_changes Buf n m0 m ->
  let m' := write_bytes m (Buf + n) (le_bytes (Z.to_nat k) (load k src (x + n))) in
  read_bytes m' Buf (n + k) = read_bytes src x (n + k) /\ only_changes Buf (n + k) m0 m'.
Proof.
  intros Hn Hk Hsrc Hr Ho m'. unfold m'.
  assert (Hl : le_bytes (Z.to_nat k) (load k src (x + n)) = read_bytes src (x + n) k).
  { unfold load. rewrite <- (length_read_bytes src (x + n) k). apply le_bytes_le_val.
    by apply read_bytes_is_byte. }
  rewrite Hl. split.
  - rewrite !read_bytes_app by done. rewrite read_write_disjoint by lia. rewrite Hr. f_equal.
    pose proof (read_write_same m (Buf + n) (read_bytes src (x + n) k)) as H.
    by rewrite length_read_bytes, Z2Nat.id in H.
  - intros y Hy. apply in_range_false in Hy. rewrite write_bytes_out by (rewrite length_read_bytes; lia).
    apply Ho, in_range_false. lia.
Qed.

(** Does the range meet the root port's first two BARs? *)
Definition avoids_root_bars (a : bdf) (Size : Z) : Prop :=
  bus a <> 0 \/ reg a + Size <= 0x10 \/ 0x18 <= reg a.

Lemma root_bar_shift a Size n : avoids_root_bars a Size -> 0 <= n -> n + 4 <= Size ->
  root_bar (shift_reg n a) = false.
Proof.
  intros Hav Hn Hs. unfold root_bar. simpl. destruct Hav as [Hb|Hr].
  - by rewrite (proj2 (Z.eqb_neq _ _) Hb).
  - destruct (Z.eqb_spec (bus a) 0), (Z.eqb_spec (reg a + n) 16), (Z.eqb_spec (reg a + n) 20); try done; lia.
Qed.

Context (a : bdf) (Ha : cfg_ok a) (Hv : visible a).
Context (Size Buf : Z) (HS : 0 < Size) (Hend : reg a + Size <= 4096).
Context (HB : 0 < Buf) (HBend : Buf + Size < 2 ^ 64).

Lemma cfg_address_end : 0 <= cfg_address a /\ cfg_address a + Size < 2 ^ 64.
Proof. destruct Ha. unfold cfg_address. lia. Qed.

Lemma advance_at n k : 0 <= n -> 0 <= k -> n + k <= Size ->
  advance k (at_ (cfg_address a) Size Buf n) = at_ (cfg_address a) Size Buf (n + k).
Proof.
  intros Hn Hk Hs. destruct cfg_address_end. unfold advance, at_.
  rewrite !wrap_small by (unfold in_word; lia). f_equal; [f_equal|]; lia.
Qed.

(** One unit of a read. *)
Lemma read_unit_step s0 n k (f : Z -> M (pci D) Z) s :
  mem_bytes (cells (dev s0)) -> 0 <= n -> 0 <= k -> n + k <= Size -> read_inv a Buf s0 n s ->
  f (cfg_address a + n) s = Ret (load k (cells (dev s0)) (cfg_mmio a + n)) s ->
  wp (v ← f (cfg_address a + n); _ ← store_buffer (Z.to_nat k) (Buf + n) v;
      mret (advance k (at_ (cfg_address a) Size Buf n))) s
    (fun c s' => c = at_ (cfg_address a) Size Buf (n + k) /\ read_inv a Buf s0 (n + k) s').
Proof.
  intros Hm Hn Hk Hs (Hd & Hr & Ho) Hf. wp_go. eapply returns_wp; [exact Hf|].
  unfold store_buffer. wp_go. split; [by apply advance_at|].
  destruct (store_step (bufs s0) (bufs s) Buf n k (cells (dev s0)) (cfg_mmio a) Hn Hk Hm Hr Ho). done.
Qed.

Lemma read_buffer_spec s0 :
  mem_bytes (cells (dev s0)) -> avoids_root_bars a Size ->
  wp (PciSegmentReadBuffer (cfg_address a) Size Buf) s0 (fun r s' =>
    r = Size /\ read_inv a Buf s0 Size s').
Proof.
  intros Hm Hav. unfold PciSegmentReadBuffer. destruct cfg_address_end as [HA HAe].
  wp_go. eapply returns_wp; [exact (assert_Ret a 0 s0 Ha ltac:(lia) (Z.mod_1_r _))|].
  wp_go. apply wp_ASSERT.
  { rewrite address_reg, wrap_small by (done || (unfold in_word; destruct (ok_reg a Ha); lia)).
    apply Z.leb_le. lia. }
  wp_go. rewrite (proj2 (Z.eqb_neq Size 0)) by lia. wp_go.
  apply wp_ASSERT; [by rewrite (proj2 (Z.eqb_neq Buf 0)) by lia|]. wp_go.
  eapply wp_mono; [apply (transfer_spec _ _ _ _ _ _ (read_inv a Buf s0))|]; try lia.
  - intros n s Hn Hns _ HI. pose proof HI as (Hd & _).
    apply (read_unit_step s0 n 1 PciSegmentRead8); try done; try lia.
    rewrite <- shift_address, Read8_Ret; [by rewrite shift_mmio, Hd | apply shift_ok; (done || lia) | done | by rewrite Hd].
  - intros n s Hn Hns Hal HI. pose proof HI as (Hd & _).
    rewrite <- shift_address, cfg_address_mod in Hal by auto.
    apply (read_unit_step s0 n 2 PciSegmentRead16); try done; try lia.
    rewrite <- shift_address, Read16_Ret; [by rewrite shift_mmio, Hd | apply shift_ok; (done || lia) | done | by rewrite Hd | done].
  - intros n s Hn Hns Hal HI. pose proof HI as (Hd & _).
    rewrite <- shift_address, cfg_address_mod in Hal by auto.
    apply (read_unit_step s0 n 4 PciSegmentRead32); try done; try lia.
    rewrite <- shift_address, Read32_Ret, (root_bar_shift a Size);
      [by rewrite shift_mmio, Hd | done | done | lia | apply shift_ok; (done || lia) | done | done].
  - split; [done|]. by split.
  - intros ? s' HI. by wp_go.
Qed.
End Buffers.

Section WriteBuffers.
Context {B : Build} {D : Type} {HM : Mmio D} {HC : MmioMemory D}.
Implicit Types (s : pci D).

(** A write of [k] bytes to a visible register. *)
Lemma Write8_Ret a v s : cfg_ok a -> visible a -> in_word 8 v ->
  exists d, PciSegmentWrite8 (cfg_address a) v s = Ret v (set_dev d s) /\
    cells d = write_bytes (cells (dev s)) (cfg_mmio a) (le_bytes 1 v).
Proof.
  intros Ha Hv Hw. unfold PciSegmentWrite8.
  rewrite (bind_Ret _ _ _ _ _ (assert_Ret a 0 s Ha ltac:(lia) (Z.mod_1_r _))).
  rewrite (bind_Ret _ _ _ _ _ (write_worker_Ret a PciCfgWidthUint8 v s Ha Hv ltac:(done))).
  eexists. split; [unfold mret, M_ret; by rewrite (wrap_small 8 v)|].
  cbn [width_write]. rewrite wrap_small by done. by apply MmioWrite8_law.
Qed.

Lemma Write16_Ret a v s : cfg_ok a -> visible a -> in_word 16 v -> reg a mod 2 = 0 ->
  exists d, PciSegmentWrite16 (cfg_address a) v s = Ret v (set_dev d s) /\
    cells d = write_bytes (cells (dev s)) (cfg_mmio a) (le_bytes 2 v).
Proof.
  intros Ha Hv Hw Hal. unfold PciSegmentWrite16.
  rewrite (bind_Ret _ _ _ _ _ (assert_Ret a 1 s Ha ltac:(lia) Hal)).
  rewrite (bind_Ret _ _ _ _ _ (write_worker_Ret a PciCfgWidthUint16 v s Ha Hv ltac:(done))).
  eexists. split; [unfold mret, M_ret; by rewrite (wrap_small 16 v)|].
  cbn [width_write]. rewrite wrap_small by done. apply MmioWrite16_law; [|done].
  rewrite cfg_mmio_mod; auto; lia.
Qed.

Lemma Write32_Ret a v s : cfg_ok a -> visible a -> in_word 32 v -> reg a mod 4 = 0 ->
  exists d, PciSegmentWrite32 (cfg_address a) v s = Ret v (set_dev d s) /\
    cells d = write_bytes (cells (dev s)) (cfg_mmio a) (le_bytes 4 v).
Proof.
  intros Ha Hv Hw Hal. unfold PciSegmentWrite32.
  rewrite (bind_Ret _ _ _ _ _ (assert_Ret a 2 s Ha ltac:(lia) Hal)).
  rewrite (bind_Ret _ _ _ _ _ (write_worker_Ret a PciCfgWidthUint32 v s Ha Hv ltac:(done))).
  eexists. split; [done|]. cbn [width_write]. apply MmioWrite32_law; [|done].
  rewrite cfg_mmio_mod; [done | left; by exists 1 | lia | lia].
Qed.

Context (a : bdf) (Ha : cfg_ok a) (Hv : visible a).
Context (Size Buf : Z) (HS : 0 < Size) (Hend : reg a + Size <= 4096).
Context (HB : 0 < Buf) (HBend : Buf + Size < 2 ^ 64).

(** [n] bytes of the buffer have reached the registers. *)
Definition write_inv (s0 : pci D) (n : Z) s : Prop :=
  bufs s = bufs s0 /\
  mem_eq (cells (dev s)) (write_bytes (cells (dev s0)) (cfg_mmio a) (read_bytes (bufs s0) Buf n)).

Lemma write_unit_step s0 n k (f : Z -> Z -> M (pci D) Z) s :
  mem_bytes (bufs s0) -> 0 <= n -> 0 <= k -> n + k <= Size -> write_inv s0 n s ->
  (forall v, in_word (8 * k) v -> exists d,
     f (cfg_address a + n) v s = Ret v (set_dev d s) /\
     cells d = write_bytes (cells (dev s)) (cfg_mmio a + n) (le_bytes (Z.to_nat k) v)) ->
  wp (v ← load_buffer k (Buf + n); _ ← f (cfg_address a + n) v;
      mret (advance k (at_ (cfg_address a) Size Buf n))) s
    (fun c s' => c = at_ (cfg_address a) Size Buf (n + k) /\ write_inv s0 (n + k) s').
Proof.
  intros Hm Hn Hk Hs (Hb & Hc) Hf. unfold load_buffer. wp_go. rewrite Hb.
  assert (Hl : le_bytes (Z.to_nat k) (load k (bufs s0) (Buf + n)) = read_bytes (bufs s0) (Buf + n) k).
  { unfold load. rewrite <- (length_read_bytes (bufs s0) (Buf + n) k). apply le_bytes_le_val.
    by apply read_bytes_is_byte. }
  destruct (Hf (load k (bufs s0) (Buf + n))) as (d & E & Hd).
  { pose proof (load_range k (bufs s0) (Buf + n) Hk Hm) as Hr.
    change 256 with (2 ^ 8) in Hr. rewrite <- Z.pow_mul_r in Hr by lia. exact Hr. }
  eapply returns_wp; [exact E|]. wp_go. split; [by apply (advance_at a Ha Size Buf)|].
  split; [done|]. simpl. rewrite Hd, Hl, read_bytes_app, Hc by done.
  rewrite <- write_bytes_app, length_read_bytes, Z2Nat.id by done. done.
Qed.

Lemma write_buffer_spec s0 :
  mem_bytes (bufs s0) ->
  wp (PciSegmentWriteBuffer (cfg_address a) Size Buf) s0 (fun r s' =>
    r = Size /\ write_inv s0 Size s').
Proof.
  intros Hm. unfold PciSegmentWriteBuffer.
  destruct (cfg_address_end a Ha Size Hend) as [HA HAe].
  wp_go. eapply returns_wp; [exact (assert_Ret a 0 s0 Ha ltac:(lia) (Z.mod_1_r _))|].
  wp_go. apply wp_ASSERT.
  { rewrite address_reg, wrap_small by (done || (unfold in_word; destruct (ok_reg a Ha); lia)).
    apply Z.leb_le. lia. }
  wp_go. rewrite (proj2 (Z.eqb_neq Size 0)) by lia. wp_go.
  apply wp_ASSERT; [by rewrite (proj2 (Z.eqb_neq Buf 0)) by lia|]. wp_go.
  eapply wp_mono; [apply (transfer_spec _ _ _ _ _ _ (write_inv s0))|]; try lia.
  - intros n s Hn Hns _ HI. apply (write_unit_step s0 n 1 PciSegmentWrite8); try done; try lia.
    intros v Hw. rewrite <- shift_address, <- shift_mmio.
    apply Write8_Ret; [apply shift_ok; (done || lia) | done | done].
  - intros n s Hn Hns Hal HI. rewrite <- shift_address, cfg_address_mod in Hal by auto.
    apply (write_unit_step s0 n 2 PciSegmentWrite16); try done; try lia.
    intros v Hw. rewrite <- shift_address, <- shift_mmio.
    apply Write16_Ret; [apply shift_ok; (done || lia) | done | done | done].
  - intros n s Hn Hns Hal HI. rewrite <- shift_address, cfg_address_mod in Hal by auto.
    apply (write_unit_step s0 n 4 PciSegmentWrite32); try done; try lia.
    intros v Hw. rewrite <- shift_address, <- shift_mmio.
    apply Write32_Ret; [apply shift_ok; (done || lia) | done | done | done].
  - split; [done|]. intros x. unfold write_bytes. simpl. by rewrite (proj2 (in_range_false _ _ _)) by lia.
  - intros ? s' HI. by wp_go.
Qed.
End WriteBuffers.

(** ** The contract *)

Lemma cfg_mmio_injective a a' :
  cfg_ok a -> cfg_ok a' -> visible a -> visible a' -> cfg_mmio a = cfg_mmio a' -> a = a'.
Proof.
  intros Ha Ha' Hv Hv' E. unfold cfg_mmio, cfg_base, dbi, window, PCIE2X1_DBI, PCIE2X1_S in E.
  destruct Ha, Ha', a as [s b d f r], a' as [s' b' d' f' r']. unfold visible in *. simpl in *.
  destruct (Z.eqb_spec b 0) as [->|], (Z.eqb_spec b' 0) as [->|];
    [rewrite (Hv eq_refl), (Hv' eq_refl) in * | rewrite (Hv eq_refl) in * | rewrite (Hv' eq_refl) in * |];
    try lia.
  - assert (s = s') as -> by lia. assert (f = f') as -> by lia. f_equal. lia.
  - assert (s = s') as -> by lia. assert (b = b') as -> by lia. assert (d = d') as -> by lia.
    assert (f = f') as -> by lia. f_equal. lia.
Qed.

Section Contract.
Context {B : Build} {D : Type} {HM : Mmio D} {HB : BitFields}.
Implicit Types (s : pci D).


Context {HC : MmioMemory D}.

(** a 32-bit write stores its value in the addressed register and in no
    other register of any visible function of any controller. *)
Theorem pci_write_isolated a a' v s :
  cfg_ok a -> visible a -> reg a mod 4 = 0 -> in_word 32 v -> cfg_ok a' -> visible a' ->
  (forall i, 0 <= i < 4 -> a' <> shift_reg i a) ->
  exists d, PciSegmentWrite32 (cfg_address a) v s = Ret v (set_dev d s) /\
    load 4 (cells d) (cfg_mmio a) = v /\
    cells d (cfg_mmio a') = cells (dev s) (cfg_mmio a').
Proof.
  intros Ha Hv Hal Hw Ha' Hv' Hne. destruct (Write32_Ret a v s Ha Hv Hw Hal) as (d & E & Hd).
  exists d. split; [exact E|]. rewrite Hd. split.
  - unfold load. pose proof (read_write_same (cells (dev s)) (cfg_mmio a) (le_bytes 4 v)) as Hr.
    change (Z.of_nat (length (le_bytes 4 v))) with 4 in Hr. rewrite Hr, le_val_le_bytes.
    by apply Z.mod_small.
  - apply write_bytes_out. rewrite length_le_bytes. intros Hin.
    destruct (Hne (cfg_mmio a' - cfg_mmio a)); [lia|].
    assert (Hreg : reg a + 3 < 4096) by (destruct (ok_reg a Ha); Z.div_mod_to_equations; lia).
    apply cfg_mmio_injective; [done | apply shift_ok; (done || lia) | done | done |].
    rewrite shift_mmio. lia.
Qed.

(** a buffer read within one function delivers exactly the bytes of its
    registers, writes nothing but the buffer, uses naturally aligned accesses
    (no assertion fires), and returns the size. *)
Theorem PciSegmentReadBuffer_correct a Size Buf s :
  cfg_ok a -> visible a -> 0 < Size -> reg a + Size <= 4096 -> 0 < Buf -> Buf + Size < 2 ^ 64 ->
  mem_bytes (cells (dev s)) -> avoids_root_bars a Size ->
  exists s', PciSegmentReadBuffer (cfg_address a) Size Buf s = Ret Size s' /\ dev s' = dev s /\
    read_bytes (bufs s') Buf Size = read_bytes (cells (dev s)) (cfg_mmio a) Size /\
    only_changes Buf Size (bufs s) (bufs s').
Proof.
  intros Ha Hv HS Hend HB0 HBe Hm Hav.
  destruct (wp_returns _ _ _ (read_buffer_spec a Ha Hv Size Buf HS Hend HB0 HBe s Hm Hav))
    as (r & s' & E & -> & Hinv). by exists s'.
Qed.

(** a buffer write within one function changes exactly the addressed
    registers, to the bytes of the buffer, and returns the size. *)
Theorem PciSegmentWriteBuffer_correct a Size Buf s :
  cfg_ok a -> visible a -> 0 < Size -> reg a + Size <= 4096 -> 0 < Buf -> Buf + Size < 2 ^ 64 ->
  mem_bytes (bufs s) ->
  exists s', PciSegmentWriteBuffer (cfg_address a) Size Buf s = Ret Size s' /\ bufs s' = bufs s /\
    mem_eq (cells (dev s')) (write_bytes (cells (dev s)) (cfg_mmio a) (read_bytes (bufs s) Buf Size)).
Proof.
  intros Ha Hv HS Hend HB0 HBe Hm.
  destruct (wp_returns _ _ _ (write_buffer_spec a Ha Hv Size Buf HS Hend HB0 HBe s Hm))
    as (r & s' & E & -> & Hinv). by exists s'.
Qed.

(** writing a bit field of a register replaces exactly the bits of
    the field, preserves all other bits, and returns the new value, which is
    what the register then holds. *)
Theorem PciSegmentBitFieldWrite32_correct {HBL : BitFieldLaws} a StartBit EndBit Value s :
  cfg_ok a -> visible a -> reg a mod 4 = 0 -> root_bar a = false -> mem_bytes (cells (dev s)) ->
  0 <= StartBit <= EndBit -> EndBit < 32 ->
  exists v d, PciSegmentBitFieldWrite32 (cfg_address a) StartBit EndBit Value s = Ret v (set_dev d s) /\
    load 4 (cells d) (cfg_mmio a) = v /\
    forall k, 0 <= k -> Z.testbit v k =
      if (StartBit <=? k) && (k <=? EndBit) then Z.testbit Value (k - StartBit)
      else Z.testbit (load 4 (cells (dev s)) (cfg_mmio a)) k.
Proof.
  intros Ha Hv Hal Hbar Hm Hse He. unfold PciSegmentBitFieldWrite32.
  pose proof (Read32_Ret a s Ha Hv Hal) as Hread. rewrite Hbar in Hread.
  rewrite (bind_Ret _ _ _ _ _ Hread). set (old := load 4 (cells (dev s)) (cfg_mmio a)) in *.
  assert (Hold : in_word 32 old) by (apply (load_range 4); [lia | done]).
  set (v := BitFieldWrite 32 old StartBit EndBit Value).
  assert (Hbits : forall k, 0 <= k -> Z.testbit v k =
    if (StartBit <=? k) && (k <=? EndBit) then Z.testbit Value (k - StartBit) else Z.testbit old k).
  { intros k Hk. unfold v. by rewrite BitFieldWrite_law. }
  assert (Hw : in_word 32 v).
  { replace v with (u32 v); [by apply wrap_range|]. apply Z.bits_inj'. intros k Hk.
    rewrite wrap_testbit by lia. destruct (Z.ltb_spec k 32); [done|].
    rewrite Hbits, (proj2 (Z.leb_gt k EndBit)), andb_false_r by lia. cbn [andb].
    symmetry. rewrite <- (wrap_small 32 old Hold), wrap_testbit by lia.
    by rewrite (proj2 (Z.ltb_ge k 32)) by lia. }
  destruct (Write32_Ret a v s Ha Hv Hw Hal) as (d & E & Hd). exists v, d. split; [exact E|].
  split; [|exact Hbits]. rewrite Hd. unfold load.
  pose proof (read_write_same (cells (dev s)) (cfg_mmio a) (le_bytes 4 v)) as Hr.
  change (Z.of_nat (length (le_bytes 4 v))) with 4 in Hr. rewrite Hr, le_val_le_bytes.
  by apply Z.mod_small.
Qed.

(** the root port's BAR0 and BAR1 are hidden from 32-bit reads only:
    16-bit reads of the same register show its content. *)
Theorem pci_root_bar_widths a s :
  cfg_ok a -> bus a = 0 -> device a = 0 -> reg a = 0x10 \/ reg a = 0x14 ->
  mem_bytes (cells (dev s)) ->
  PciSegmentRead32 (cfg_address a) s = Ret 0 s /\
  PciSegmentRead16 (cfg_address a) s = Ret (load 2 (cells (dev s)) (cfg_mmio a)) s.
Proof.
  intros Ha Hb Hd Hreg Hm. assert (Hv : visible a) by (by intros _).
  split.
  - rewrite Read32_Ret by (try done; destruct Hreg as [-> | ->]; done).
    assert (Hbar : root_bar a = true) by (unfold root_bar; rewrite Hb; destruct Hreg as [-> | ->]; done).
    by rewrite Hbar.
  - apply Read16_Ret; try done. by destruct Hreg as [-> | ->].
Qed.
End Contract.

(** ** Registers backed by memory *)

Module PciDemo.
#[export] Instance ram : Mmio mem := {
  MmioRead8 := fun a d => (load 1 d a, d);
  MmioRead16 := fun a d => (load 2 d a, d);
  MmioRead32 := fun a d => (load 4 d a, d);
  MmioWrite8 := fun a v d => write_bytes d a (le_bytes 1 v);
  MmioWrite16 := fun a v d => write_bytes d a (le_bytes 2 v);
  MmioWrite32 := fun a v d => write_bytes d a (le_bytes 4 v)
}.

#[export] Instance ram_memory : MmioMemory mem.
Proof. by refine {| cells := fun d => d |}. Defined.

Definition field_mask (s e : Z) : Z := Z.shiftl (Z.ones (e - s + 1)) s.

Lemma field_mask_testbit s e k : 0 <= s <= e -> 0 <= k ->
  Z.testbit (field_mask s e) k = (s <=? k) && (k <=? e).
Proof.
  intros Hs Hk. unfold field_mask. destruct (Z.leb_spec s k), (Z.leb_spec k e); simpl.
  - rewrite Z.shiftl_spec_high, Z.ones_spec_low by lia. done.
  - rewrite Z.shiftl_spec_high, Z.ones_spec_high by lia. done.
  - by rewrite Z.shiftl_spec_low.
  - lia.
Qed.

(** The field of [v] replaced by that of [x]. *)
Definition field_put (s e v x : Z) : Z :=
  Z.lor (Z.ldiff v (field_mask s e)) (Z.land x (field_mask s e)).

Lemma field_put_testbit s e v x k : 0 <= s <= e -> 0 <= k ->
  Z.testbit (field_put s e v x) k = field_bit s e k (Z.testbit v k) (Z.testbit x k).
Proof.
  intros Hs Hk. unfold field_put, field_bit.
  rewrite Z.lor_spec, Z.ldiff_spec, Z.land_spec, field_mask_testbit by done.
  by destruct ((s <=? k) && (k <=? e)), (Z.testbit v k), (Z.testbit x k).
Qed.

#[export] Instance fields : BitFields := {
  BitFieldRead := fun _ v s e => Z.shiftr (Z.land v (field_mask s e)) s;
  BitFieldWrite := fun _ v s e x => field_put s e v (Z.shiftl x s);
  BitFieldOr := fun _ v s e x => field_put s e v (Z.lor v (Z.shiftl x s));
  BitFieldAnd := fun _ v s e x => field_put s e v (Z.land v (Z.shiftl x s));
  BitFieldAndThenOr := fun _ v s e x y =>
    field_put s e v (Z.lor (Z.land v (Z.shiftl x s)) (Z.shiftl y s))
}.

#[export] Instance fields_laws : BitFieldLaws.
Proof.
  split; simpl; intros.
  - rewrite Z.shiftr_spec, Z.land_spec, field_mask_testbit by lia.
    rewrite (Z.add_comm k s). destruct (Z.leb_spec s (s + k)), (Z.leb_spec (s + k) e), (Z.leb_spec k (e - s));
      simpl; try lia; first [apply andb_true_r | by rewrite ?andb_false_r].
  - by rewrite field_put_testbit, Z.shiftl_spec by lia.
  - by rewrite field_put_testbit, Z.lor_spec, Z.shiftl_spec by lia.
  - by rewrite field_put_testbit, Z.land_spec, Z.shiftl_spec by lia.
  - by rewrite field_put_testbit, Z.lor_spec, Z.land_spec, !Z.shiftl_spec by lia.
Qed.

#[export] Instance debug : Build := {| debug_build := true |}.

(** Registers count up from their address; the buffers hold 7s. *)
Definition machine : pci mem := {| dev := fun x => x mod 256; bufs := fun _ => 7 |}.

Lemma machine_bytes : mem_bytes (dev machine) /\ mem_bytes (bufs machine).
Proof. split; intros x; [apply Z.mod_pos_bound; lia | unfold is_byte, in_word; simpl; lia]. Qed.

(** Register 0x11 of device 3 behind the second controller. *)
Definition nic : bdf := {| seg := 1; bus := 1; device := 3; func := 0; reg := 0x11 |}.
Definition nic_command : bdf := {| seg := 1; bus := 1; device := 3; func := 0; reg := 4 |}.
Definition nvme_command : bdf := {| seg := 2; bus := 1; device := 3; func := 0; reg := 4 |}.
Definition root_bar0 : bdf := {| seg := 0; bus := 0; device := 0; func := 0; reg := 0x10 |}.
Definition ghost : bdf := {| seg := 0; bus := 0; device := 2; func := 0; reg := 8 |}.

Ltac cfg := split; simpl; lia.


Lemma pci_write_isolated_witness :
  exists d, PciSegmentWrite32 (cfg_address nic_command) 0x10203 machine = Ret 0x10203 (set_dev d machine) /\
    load 4 (cells d) (cfg_mmio nic_command) = 0x10203 /\
    cells d (cfg_mmio nvme_command) = cells (dev machine) (cfg_mmio nvme_command).
Proof.
  apply pci_write_isolated; try cfg; try exact eq_refl.
  - intros H; discriminate H.
  - intros H; discriminate H.
  - intros i Hi H. apply (f_equal seg) in H. discriminate H.
Defined.

Lemma PciSegmentReadBuffer_correct_witness :
  exists s', PciSegmentReadBuffer (cfg_address nic) 18 0x9001 machine = Ret 18 s' /\
    dev s' = dev machine /\
    read_bytes (bufs s') 0x9001 18 = read_bytes (cells (dev machine)) (cfg_mmio nic) 18 /\
    only_changes 0x9001 18 (bufs machine) (bufs s').
Proof.
  apply PciSegmentReadBuffer_correct; try lia; try cfg.
  - intros H; discriminate H.
  - simpl. lia.
  - exact (proj1 machine_bytes).
  - left. simpl. lia.
Defined.

Lemma PciSegmentWriteBuffer_correct_witness :
  exists s', PciSegmentWriteBuffer (cfg_address nic) 18 0x9001 machine = Ret 18 s' /\
    bufs s' = bufs machine /\
    mem_eq (cells (dev s'))
      (write_bytes (cells (dev machine)) (cfg_mmio nic) (read_bytes (bufs machine) 0x9001 18)).
Proof.
  apply PciSegmentWriteBuffer_correct; try lia; [cfg | | |].
  - intros H; discriminate H.
  - simpl. lia.
  - exact (proj2 machine_bytes).
Defined.

Lemma PciSegmentBitFieldWrite32_correct_witness :
  exists v d, PciSegmentBitFieldWrite32 (cfg_address nic_command) 4 11 0xa5 machine =
      Ret v (set_dev d machine) /\
    load 4 (cells d) (cfg_mmio nic_command) = v /\
    forall k, 0 <= k -> Z.testbit v k =
      if (4 <=? k) && (k <=? 11) then Z.testbit 0xa5 (k - 4)
      else Z.testbit (load 4 (cells (dev machine)) (cfg_mmio nic_command)) k.
Proof.
  apply PciSegmentBitFieldWrite32_correct; try lia; try cfg; try exact eq_refl.
  - intros H; discriminate H.
  - exact (proj1 machine_bytes).
Defined.

Lemma pci_root_bar_widths_witness :
  PciSegmentRead32 (cfg_address root_bar0) machine = Ret 0 machine /\
  PciSegmentRead16 (cfg_address root_bar0) machine =
    Ret (load 2 (cells (dev machine)) (cfg_mmio root_bar0)) machine.
Proof.
  apply pci_root_bar_widths; [cfg | exact eq_refl | exact eq_refl | left; exact eq_refl |].
  exact (proj1 machine_bytes).
Defined.
End PciDemo.
