(* ===== verification/OpteeMem.v ===== *)
(** * The OP-TEE shared-memory allocator

    Model of
    [src/Microsoft/OpteeClientPkg/Library/OpteeClientApiLib/OpteeClientMem.c]:
    the blocks that the normal world shares with the secure world.  The memory
    comes from the DXE global coherency domain (GCD) services, which are not
    in this repository: class [Gcd] has the calls the code makes, [GcdView]
    what they manage and [GcdLaws] their documented behaviour. *)

From Stdlib Require Import ZArith Lia.
From stdpp Require Import base list numbers option gmap.
From S2P Require Import Prelude Memory.

(** ** Constants *)

Definition EFI_PAGE_SIZE : Z := 4096.
Definition EFI_PAGE_SHIFT : Z := 12.
Definition EFI_MEMORY_PRESENT : Z := 0x0100000000000000.
Definition EFI_MEMORY_INITIALIZED : Z := 0x0200000000000000.
Definition EFI_MEMORY_TESTED : Z := 0x0400000000000000.
Definition EFI_MEMORY_WB : Z := 8.
Definition EfiGcdMemoryTypeNonExistent : Z := 0.
Definition EfiGcdMemoryTypeReserved : Z := 1.
Definition EfiGcdAllocateAddress : Z := 2.
Definition EfiGcdAllocateMaxAddressSearchTopDown : Z := 4.

Definition OPTEE_CLIENT_MEM_BYTE_ALIGNMENT : Z := 16.
Definition OPTEE_SHM_RESERVED_SIZE : Z := EFI_PAGE_SIZE.
Definition OPTEE_SHM_TYPE : Z := EfiGcdMemoryTypeReserved.
Definition OPTEE_SHM_CAPS : Z :=
  Z.lor (Z.lor (Z.lor EFI_MEMORY_PRESENT EFI_MEMORY_INITIALIZED) EFI_MEMORY_TESTED) EFI_MEMORY_WB.
(** [SIGNATURE_32 ('T', 'E', 'E', 'C')]. *)
Definition OPTEE_SHM_SIGNATURE : Z := 0x43454554.
Definition OPTEE_SHM_FREE_FENCE : Z := 0xCC.
Definition OPTEE_SHM_ALLOC_ALIGN : Z := EFI_PAGE_SIZE.
Definition OPTEE_SHM_ALLOC_ALIGN_SHIFT : Z := EFI_PAGE_SHIFT.

(** [OPTEE_CLIENT_MEM_HEADER]: [Signature] at 0, [Owner] at 8, [Size] at 16,
    [Address] at 24. *)
Definition HEADER_SIZE : Z := 32.

(** The platform's fixed PCDs and the handle of the driver the library is
    linked into. *)
Class ShmPlatform := {
  PcdTrustZoneSharedMemoryBase : Z;
  PcdTrustZoneSharedMemorySize : Z;
  gDriverImageHandle : Z
}.

Section Area.
Context {P : ShmPlatform}.
Definition OPTEE_SHM_START : Z := u64 (PcdTrustZoneSharedMemoryBase + OPTEE_SHM_RESERVED_SIZE).
Definition OPTEE_SHM_SIZE : Z := u64 (PcdTrustZoneSharedMemorySize - OPTEE_SHM_RESERVED_SIZE).
Definition OPTEE_SHM_END : Z := u64 (OPTEE_SHM_START + OPTEE_SHM_SIZE).
End Area.

(** ** The GCD services *)

Record EFI_GCD_MEMORY_SPACE_DESCRIPTOR := { BaseAddress : Z; GcdMemoryType : Z }.

Class Gcd (D : Type) := {
  (** type, base, length, capabilities *)
  AddMemorySpace : Z -> Z -> Z -> Z -> D -> Z * D;
  (** allocation type, memory type, alignment shift, length, base, handle *)
  AllocateMemorySpace : Z -> Z -> Z -> Z -> Z -> Z -> D -> Z * Z * D;
  (** base, length *)
  FreeMemorySpace : Z -> Z -> D -> Z * D;
  GetMemorySpaceDescriptor : Z -> D -> Z * EFI_GCD_MEMORY_SPACE_DESCRIPTOR
}.

(** What the services manage: the type of each address, and the allocated
    blocks of reserved memory, from base to length. *)
Class GcdView (D : Type) := {
  space : D -> Z -> Z;
  held : D -> gmap Z Z
}.

(** A block that avoids all allocated ones. *)
Definition unclaimed (h : gmap Z Z) (b n : Z) : Prop :=
  forall b' n', h !! b' = Some n' -> b + n <= b' \/ b' + n' <= b.

Class GcdLaws (D : Type) `{Gcd D, GcdView D} : Prop := {
  (** A failing call changes nothing. *)
  add_failed t b n c d : EFI_ERROR (AddMemorySpace t b n c d).1 = true ->
    (AddMemorySpace t b n c d).2 = d;
  alloc_failed a t k n b h d : EFI_ERROR (AllocateMemorySpace a t k n b h d).1.1 = true ->
    (AllocateMemorySpace a t k n b h d).2 = d;
  free_failed b n d : EFI_ERROR (FreeMemorySpace b n d).1 = true ->
    (FreeMemorySpace b n d).2 = d;
  (** Adding gives the range its type. *)
  add_space t b n c d : EFI_ERROR (AddMemorySpace t b n c d).1 = false ->
    held (AddMemorySpace t b n c d).2 = held d /\
    forall x, space (AddMemorySpace t b n c d).2 x = if in_range b n x then t else space d x;
  (** Allocation hands out unclaimed memory of the requested type. *)
  alloc_block k n b h d a st b' d' :
    AllocateMemorySpace a EfiGcdMemoryTypeReserved k n b h d = (st, b', d') -> EFI_ERROR st = false ->
    0 < n /\ b' mod 2 ^ k = 0 /\ unclaimed (held d) b' n /\
    (forall x, b' <= x < b' + n -> space d x = EfiGcdMemoryTypeReserved) /\
    held d' = <[b' := n]> (held d) /\ (forall x, space d' x = space d x);
  (** At the address asked for. *)
  alloc_address k n b h d st b' d' :
    AllocateMemorySpace EfiGcdAllocateAddress EfiGcdMemoryTypeReserved k n b h d = (st, b', d') ->
    EFI_ERROR st = false -> b' = b;
  (** Freeing an allocated block releases it. *)
  free_block b n d : held d !! b = Some n -> EFI_ERROR (FreeMemorySpace b n d).1 = false ->
    held (FreeMemorySpace b n d).2 = delete b (held d) /\
    forall x, space (FreeMemorySpace b n d).2 x = space d x;
  (** A descriptor tells the type of its address. *)
  descriptor_type a d : EFI_ERROR (GetMemorySpaceDescriptor a d).1 = false ->
    GcdMemoryType (GetMemorySpaceDescriptor a d).2 = space d a
}.

(** ** The library's state *)

Record client (D : Type) := {
  shm : mem;
  gcd : D;
  mSharedMemAllocationCount : Z;
  mSharedMemAllocSize : Z
}.
Arguments shm {D} _.
Arguments gcd {D} _.
Arguments mSharedMemAllocationCount {D} _.
Arguments mSharedMemAllocSize {D} _.
Arguments Build_client {D} _ _ _ _.

Definition set_shm {D} (m : mem) (s : client D) : client D :=
  Build_client m (gcd s) (mSharedMemAllocationCount s) (mSharedMemAllocSize s).
Definition set_gcd {D} (d : D) (s : client D) : client D :=
  Build_client (shm s) d (mSharedMemAllocationCount s) (mSharedMemAllocSize s).
Definition set_counters {D} (c z : Z) (s : client D) : client D :=
  Build_client (shm s) (gcd s) c z.

(** A call of a DXE service. *)
Definition dxe {D A} (f : D -> A * D) : M (client D) A :=
  fun s => let '(a, d) := f (gcd s) in Ret a (set_gcd d s).

(** ** Powers of two *)

Definition IsPowerOf2 (Num : Z) : bool :=
  negb (Num =? 0) && (Z.land Num (u64 (u64 (Z.lnot Num) + 1)) =? Num).

Fixpoint exponent_loop (fuel : nat) (Exponent Num : Z) : option Z :=
  match fuel with
  | O => None
  | S fuel => if (Z.land Num 1 =? 0) && (1 <? Num) then exponent_loop fuel (Exponent + 1) (Z.shiftr Num 1)
              else Some Exponent
  end.

(** 64 shifts exhaust a 64-bit word. *)
Definition GetPowerOf2Exponent {B : Build} {S} (Num : Z) : M S Z :=
  ASSERT (IsPowerOf2 Num);;
  match exponent_loop 65 0 Num with Some e => mret e | None => stopM NoFuel end.

(** ** The fence

    The loops advance a pointer until it meets the end; [Size + 1] rounds are
    enough, also when the end wraps. *)

Section Fence.
Context {D : Type}.

Fixpoint mark_loop (fuel : nat) (Mem End : Z) : M (client D) unit :=
  match fuel with
  | O => stopM NoFuel
  | S fuel =>
      if Mem =? End then mret tt
      else modify (fun s => set_shm (write_bytes (shm s) Mem [OPTEE_SHM_FREE_FENCE]) s);;
           mark_loop fuel (u64 (Mem + 1)) End
  end.

Definition MarkSharedMemoryRegionAsFree (Address Size : Z) : M (client D) unit :=
  mark_loop (S (Z.to_nat Size)) Address (u64 (Address + Size)).

Fixpoint fence_loop (fuel : nat) (Mem End : Z) : M (client D) bool :=
  match fuel with
  | O => stopM NoFuel
  | S fuel =>
      if Mem =? End then mret true
      else b ← gets (fun s => shm s Mem);
           if negb (b =? OPTEE_SHM_FREE_FENCE) then mret false
           else fence_loop fuel (u64 (Mem + 1)) End
  end.

Definition IsSharedMemoryRegionFree (Address Size : Z) : M (client D) bool :=
  fence_loop (S (Z.to_nat Size)) Address (u64 (Address + Size)).
End Fence.

(** ** Operations *)

Section Operations.
Context {B : Build} {P : ShmPlatform} {D : Type} {G : Gcd D}.

Definition GcdSharedMemoryInit : M (client D) Z :=
  ASSERT (OPTEE_SHM_START mod EFI_PAGE_SIZE =? 0);;
  ASSERT (OPTEE_SHM_SIZE mod EFI_PAGE_SIZE =? 0);;
  Status ← dxe (AddMemorySpace OPTEE_SHM_TYPE OPTEE_SHM_START OPTEE_SHM_SIZE OPTEE_SHM_CAPS);
  if EFI_ERROR Status then mret Status
  else
    '(Status, BaseAddress) ← dxe (AllocateMemorySpace EfiGcdAllocateAddress EfiGcdMemoryTypeReserved 0
                                    OPTEE_SHM_SIZE OPTEE_SHM_START gDriverImageHandle);
    if EFI_ERROR Status then mret Status
    else
      ASSERT (BaseAddress =? OPTEE_SHM_START);;
      MarkSharedMemoryRegionAsFree BaseAddress OPTEE_SHM_SIZE;;
      dxe (FreeMemorySpace OPTEE_SHM_START OPTEE_SHM_SIZE);;
      (* the status of the call is dropped: the test sees the earlier one *)
      if EFI_ERROR Status then mret Status
      else mret Status.

Definition OpteeClientMemInit : M (client D) Z :=
  '(Status, GcdMemDescriptor) ← gets (fun s => GetMemorySpaceDescriptor OPTEE_SHM_START (gcd s));
  (* [inl]: goto Exit with the status; [inr]: go on with the descriptor *)
  r ← (if (Status =? EFI_NOT_FOUND) ||
          (negb (EFI_ERROR Status) &&
           (GcdMemoryType GcdMemDescriptor =? EfiGcdMemoryTypeNonExistent)) then
         Status ← GcdSharedMemoryInit;
         if EFI_ERROR Status then mret (inl Status)
         else
           '(Status, GcdMemDescriptor) ← gets (fun s => GetMemorySpaceDescriptor OPTEE_SHM_START (gcd s));
           if EFI_ERROR Status then mret (inl Status) else mret (inr (Status, GcdMemDescriptor))
       else if EFI_ERROR Status then mret (inl EFI_OUT_OF_RESOURCES)
       else mret (inr (Status, GcdMemDescriptor)));
  match r with
  | inl Status => mret Status
  | inr (Status, GcdMemDescriptor) =>
      if negb (GcdMemoryType GcdMemDescriptor =? OPTEE_SHM_TYPE) then
        ASSERT (OPTEE_SHM_START =? BaseAddress GcdMemDescriptor);;
        mret EFI_OUT_OF_RESOURCES
      else mret Status
  end.

(** [ZeroMem] on the header, then its three assignments. *)
Definition write_header (Header BlockSize BaseAddress : Z) (m : mem) : mem :=
  let m := fill_bytes m Header HEADER_SIZE 0 in
  let m := write_bytes m Header (le_bytes 4 OPTEE_SHM_SIGNATURE) in
  let m := write_bytes m (Header + 16) (le_bytes 8 BlockSize) in
  write_bytes m (Header + 24) (le_bytes 8 BaseAddress).

Definition InternalMemAlloc (Size ByteAlignment : Z) : M (client D) Z :=
  ASSERT (negb (gDriverImageHandle =? 0));;
  if (negb (ByteAlignment =? 0) && negb (IsPowerOf2 ByteAlignment)) ||
     (OPTEE_SHM_ALLOC_ALIGN <? ByteAlignment)
  then ASSERT false;; mret 0
  else
    let ByteAlignment := OPTEE_SHM_ALLOC_ALIGN in
    let AlignmentShift := OPTEE_SHM_ALLOC_ALIGN_SHIFT in
    let BlockSize := u64 (HEADER_SIZE + Size + (ByteAlignment - 1)) in
    '(Status, BaseAddress) ← dxe (AllocateMemorySpace EfiGcdAllocateMaxAddressSearchTopDown
                                    EfiGcdMemoryTypeReserved AlignmentShift BlockSize
                                    OPTEE_SHM_END gDriverImageHandle);
    if EFI_ERROR Status then mret 0
    else
      ASSERT (OPTEE_SHM_START <=? BaseAddress);;
      ASSERT (u64 (BaseAddress + BlockSize) <=? OPTEE_SHM_END);;
      free ← IsSharedMemoryRegionFree BaseAddress BlockSize;
      if negb free then ASSERT false;; mret 0
      else
        let UserBaseAddress := u64 (BaseAddress + HEADER_SIZE + (ByteAlignment - 1)) in
        let UserBaseAddress := Z.land UserBaseAddress (u64 (Z.lnot (ByteAlignment - 1))) in
        ASSERT (OPTEE_SHM_START <? UserBaseAddress);;
        ASSERT (u64 (UserBaseAddress + Size) <=? OPTEE_SHM_END);;
        ASSERT (UserBaseAddress mod ByteAlignment =? 0);;
        let Header := u64 (UserBaseAddress - HEADER_SIZE) in
        modify (fun s => set_shm (write_header Header BlockSize BaseAddress (shm s)) s);;
        modify (fun s => set_counters (u64 (mSharedMemAllocationCount s + 1))
                           (u64 (mSharedMemAllocSize s + BlockSize)) s);;
        mret UserBaseAddress.

Definition OpteeClientMemAlloc (Size : Z) : M (client D) Z :=
  InternalMemAlloc Size OPTEE_CLIENT_MEM_BYTE_ALIGNMENT.

Definition OpteeClientAlignedMemAlloc (Size ByteAlignment : Z) : M (client D) Z :=
  InternalMemAlloc Size ByteAlignment.

Definition OpteeClientMemFree (Mem : Z) : M (client D) Z :=
  let Header := u64 (Mem - HEADER_SIZE) in
  Signature ← gets (fun s => load 4 (shm s) Header);
  if negb (Signature =? OPTEE_SHM_SIGNATURE) then mret EFI_INVALID_PARAMETER
  else
    Address ← gets (fun s => load 8 (shm s) (Header + 24));
    Size ← gets (fun s => load 8 (shm s) (Header + 16));
    MarkSharedMemoryRegionAsFree Address Size;;
    Status ← dxe (FreeMemorySpace Address Size);
    if EFI_ERROR Status then mret Status
    else
      modify (fun s => set_counters (u64 (mSharedMemAllocationCount s - 1))
                         (u64 (mSharedMemAllocSize s - Size)) s);;
      mret Status.

Definition OpteeClientApiFinalize : M (client D) unit :=
  count ← gets mSharedMemAllocationCount;
  size ← gets mSharedMemAllocSize;
  if negb (count =? 0) || negb (size =? 0) then ASSERT false else mret tt.
End Operations.
