(* ===== verification/OpteeMemProps.v ===== *)
(** * Correctness of the OP-TEE shared-memory allocator

    The invariant [shm_inv] of a driver that uses the library (headers,
    counters, fence), that initialisation establishes it, that allocation,
    payload writes and free preserve it, and what the code does outside of
    it: overflow detection, double free, sizes that wrap. *)

From Stdlib Require Import ZArith Lia.
From stdpp Require Import base list numbers option gmap relations.
From S2P Require Import Prelude Memory OpteeMem.

(** ** Powers of two *)

Lemma low_bit_land n : in_word 64 n ->
  Z.land n (u64 (u64 (Z.lnot n) + 1)) = Z.ldiff n (n - 1).
Proof.
  intros Hn. assert (u64 (u64 (Z.lnot n) + 1) = u64 (Z.lnot (n - 1))) as ->.
  { unfold wrap. rewrite Zplus_mod_idemp_l. f_equal. unfold Z.lnot. lia. }
  rewrite <- (wrap_small 64 n Hn) at 1 3. apply Z.bits_inj'. intros i Hi.
  rewrite Z.land_spec, Z.ldiff_spec, !wrap_testbit, Z.lnot_spec by lia.
  by destruct (i <? 64).
Qed.

Lemma IsPowerOf2_spec n : in_word 64 n ->
  IsPowerOf2 n = true <-> exists k, 0 <= k < 64 /\ n = 2 ^ k.
Proof.
  intros Hn. unfold IsPowerOf2. rewrite low_bit_land by done.
  rewrite andb_true_iff, negb_true_iff, Z.eqb_neq, Z.eqb_eq. split.
  - intros [H0 H]. exists (Z.log2 n). destruct (Z.log2_spec n) as [Hlo Hhi]; [destruct Hn; lia|].
    pose proof (Z.log2_nonneg n).
    assert (Z.log2 n < 64) by (apply Z.log2_lt_pow2; destruct Hn; lia).
    split; [lia|]. destruct (Z.eq_dec n (2 ^ Z.log2 n)) as [|Hne]; [done|exfalso].
    assert (Hbit : Z.testbit (Z.ldiff n (n - 1)) (Z.log2 n) = true).
    { rewrite H. apply Z.bit_log2. lia. }
    rewrite Z.ldiff_spec in Hbit. assert (Z.log2 (n - 1) = Z.log2 n) as Hl.
    { apply Z.log2_unique; [done|]. lia. }
    rewrite <- Hl, (Z.bit_log2 (n - 1)), andb_false_r in Hbit by lia. done.
  - intros (k & Hk & ->). split; [apply Z.pow_nonzero; lia|].
    replace (2 ^ k - 1) with (Z.ones k) by (rewrite Z.ones_equiv; lia).
    apply Z.bits_inj'. intros i Hi. rewrite Z.ldiff_spec, Z.pow2_bits_eqb by lia.
    destruct (Z.eqb_spec k i) as [->|]; [|done].
    by rewrite Z.ones_spec_high by lia.
Qed.

Lemma exponent_loop_spec k : forall fuel e, (k < fuel)%nat ->
  exponent_loop fuel e (2 ^ Z.of_nat k) = Some (e + Z.of_nat k).
Proof.
  induction k as [|k IH]; intros [|fuel] e Hf; try lia; cbn [exponent_loop].
  - simpl. f_equal. lia.
  - rewrite Nat2Z.inj_succ, Z.pow_succ_r by lia.
    assert (0 < 2 ^ Z.of_nat k) by (apply Z.pow_pos_nonneg; lia).
    rewrite (Z.land_ones _ 1), Z.shiftr_div_pow2 by lia. change (2 ^ 1) with 2.
    rewrite (Z.mul_comm 2), Z.mod_mul, Z.div_mul by lia. rewrite (proj2 (Z.ltb_lt 1 _)) by lia.
    simpl. rewrite IH by lia. f_equal. lia.
Qed.

(** ** The fence loops *)

Section Fence.
Context {D : Type}.
Implicit Types s : client D.

Lemma mark_loop_spec n : forall a s, 0 <= a -> a + Z.of_nat n < 2 ^ 64 ->
  exists m, mark_loop (S n) a (a + Z.of_nat n) s = Ret tt (set_shm m s) /\
    mem_eq m (fill_bytes (shm s) a (Z.of_nat n) OPTEE_SHM_FREE_FENCE).
Proof.
  induction n as [|n IH]; intros a s Ha Hn.
  - exists (shm s). split; [by cbn; rewrite Z.add_0_r, Z.eqb_refl; destruct s|].
    intros x. rewrite fill_bytes_out; [done|]. lia.
  - cbn [mark_loop]. rewrite (proj2 (Z.eqb_neq a _)) by lia.
    rewrite bind_modify. rewrite (wrap_small 64 (a + 1)) by (unfold in_word; lia).
    replace (a + Z.of_nat (S n)) with (a + 1 + Z.of_nat n) by lia.
    destruct (IH (a + 1) (set_shm (write_bytes (shm s) a [OPTEE_SHM_FREE_FENCE]) s)) as (m & E & Hm);
      [lia | lia |].
    exists m. split; [exact E|]. rewrite Hm. intros x. cbn [shm set_shm].
    unfold fill_bytes, write_bytes. change (Z.of_nat (length [_])) with 1.
    destruct (in_range a (Z.of_nat (S n)) x) eqn:E1, (in_range (a + 1) (Z.of_nat n) x) eqn:E2,
      (in_range a 1 x) eqn:E3; try done;
      rewrite ?in_range_spec, ?in_range_false in *; try lia.
    by replace (x - a) with 0 by lia.
Qed.

Lemma mark_spec a n s : 0 <= a -> 0 <= n -> a + n < 2 ^ 64 ->
  exists m, MarkSharedMemoryRegionAsFree a n s = Ret tt (set_shm m s) /\
    mem_eq m (fill_bytes (shm s) a n OPTEE_SHM_FREE_FENCE).
Proof.
  intros Ha Hn He. unfold MarkSharedMemoryRegionAsFree. rewrite wrap_small by (unfold in_word; lia).
  pose proof (mark_loop_spec (Z.to_nat n) a s Ha) as H. rewrite Z2Nat.id in H by lia. by apply H.
Qed.

(** [true] exactly when the whole region holds the fence. *)
Lemma fence_loop_spec n : forall a s, 0 <= a -> a + Z.of_nat n < 2 ^ 64 ->
  exists b, fence_loop (S n) a (a + Z.of_nat n) s = Ret b s /\
    (b = true <-> forall x, a <= x < a + Z.of_nat n -> shm s x = OPTEE_SHM_FREE_FENCE).
Proof.
  induction n as [|n IH]; intros a s Ha Hn; cbn [fence_loop].
  - exists true. rewrite (proj2 (Z.eqb_eq a _)) by lia. split; [done|]. split; [|done]. intros _ x. lia.
  - rewrite (proj2 (Z.eqb_neq a _)) by lia. rewrite bind_gets.
    destruct (Z.eqb_spec (shm s a) OPTEE_SHM_FREE_FENCE) as [Heq|Hne]; cbn [negb].
    + rewrite (wrap_small 64 (a + 1)) by (unfold in_word; lia).
      replace (a + Z.of_nat (S n)) with (a + 1 + Z.of_nat n) by lia.
      destruct (IH (a + 1) s) as (b & E & Hb); [lia | lia |]. exists b. split; [exact E|].
      rewrite Hb. split; [|intros H x Hx; apply H; lia].
      intros H x Hx. destruct (Z.eq_dec x a) as [->|]; [done|]. apply H. lia.
    + exists false. split; [done|]. split; [done|]. intros H. destruct Hne. apply H. lia.
Qed.

Lemma fence_spec a n s : 0 <= a -> 0 <= n -> a + n < 2 ^ 64 ->
  exists b, IsSharedMemoryRegionFree a n s = Ret b s /\
    (b = true <-> forall x, a <= x < a + n -> shm s x = OPTEE_SHM_FREE_FENCE).
Proof.
  intros Ha Hn He. unfold IsSharedMemoryRegionFree. rewrite wrap_small by (unfold in_word; lia).
  pose proof (fence_loop_spec (Z.to_nat n) a s Ha) as H. rewrite Z2Nat.id in H by lia. by apply H.
Qed.
End Fence.

(** ** The invariant *)

(** The header of the block of [n] bytes at [b]. *)
Definition header_at (m : mem) (b n : Z) : Prop :=
  load 4 m (b + 4064) = OPTEE_SHM_SIGNATURE /\ load 8 m (b + 4080) = n /\ load 8 m (b + 4088) = b.

(** The bytes of the blocks in [own]. *)
Definition total (own : gmap Z Z) : Z := map_fold (fun _ n z => n + z) 0 own.

Lemma total_insert own b n : own !! b = None -> total (<[b := n]> own) = n + total own.
Proof. intros H. unfold total. rewrite map_fold_insert_L; [done | intros; lia | done]. Qed.

Lemma total_delete own b n : own !! b = Some n -> total own = n + total (delete b own).
Proof. intros H. unfold total. rewrite (map_fold_delete_L _ _ b n own); [done | intros; lia | done]. Qed.

Class PlatformOk `{ShmPlatform} : Prop := {
  start_aligned : OPTEE_SHM_START mod 4096 = 0;
  size_aligned : OPTEE_SHM_SIZE mod 4096 = 0;
  area : 0 < OPTEE_SHM_SIZE /\ OPTEE_SHM_START + OPTEE_SHM_SIZE < 2 ^ 64;
  handle : gDriverImageHandle <> 0
}.

(** [own]: the blocks this driver has allocated, from base to length; other
    drivers linked with the library hold further blocks. *)
Record shm_inv `{ShmPlatform} {D} `{GcdView D} (own : gmap Z Z) (s : client D) : Prop := {
  inv_space x : space (gcd s) x = EfiGcdMemoryTypeReserved <-> OPTEE_SHM_START <= x < OPTEE_SHM_END;
  inv_block b n : held (gcd s) !! b = Some n -> OPTEE_SHM_START <= b /\ 0 < n /\ b + n <= OPTEE_SHM_END;
  inv_disjoint b n b' n' : held (gcd s) !! b = Some n -> held (gcd s) !! b' = Some n' -> b <> b' ->
    b + n <= b' \/ b' + n' <= b;
  inv_own : own ⊆ held (gcd s);
  inv_header b n : own !! b = Some n -> 4127 <= n /\ b mod 4096 = 0 /\ header_at (shm s) b n;
  inv_fence x : OPTEE_SHM_START <= x < OPTEE_SHM_END ->
    (forall b n, held (gcd s) !! b = Some n -> ~ b <= x < b + n) -> shm s x = OPTEE_SHM_FREE_FENCE;
  inv_count : mSharedMemAllocationCount s = u64 (Z.of_nat (size own));
  inv_size : mSharedMemAllocSize s = u64 (total own)
}.

(** ** Allocation *)

Lemma header_write m b n : in_word 64 b -> in_word 64 n ->
  header_at (write_header (b + 4064) n b m) b n.
Proof.
  intros Hb Hn. unfold header_at, write_header.
  replace (b + 4064 + 16) with (b + 4080) by lia. replace (b + 4064 + 24) with (b + 4088) by lia.
  split; [|split].
  - rewrite !load_write_disjoint by (rewrite length_le_bytes; lia). by apply (load_write_same 4).
  - rewrite load_write_disjoint by (rewrite length_le_bytes; lia). by apply (load_write_same 8).
  - by apply (load_write_same 8).
Qed.

Lemma header_write_out m b n x : ~ b + 4064 <= x < b + 4096 ->
  write_header (b + 4064) n b m x = m x.
Proof.
  intros Hx. unfold write_header, HEADER_SIZE.
  rewrite !write_bytes_out by (rewrite length_le_bytes; lia). apply fill_bytes_out. lia.
Qed.

Lemma header_ext m m' b n : (forall x, b + 4064 <= x < b + 4096 -> m' x = m x) ->
  header_at m b n -> header_at m' b n.
Proof.
  intros H (H1 & H2 & H3). unfold header_at.
  rewrite !(load_ext _ m' m) by (intros; apply H; lia). done.
Qed.

(** The user's address: the page after the block's first. *)
Lemma user_address b : b mod 4096 = 0 -> 0 <= b -> b + 4127 < 2 ^ 64 ->
  Z.land (u64 (b + HEADER_SIZE + (OPTEE_SHM_ALLOC_ALIGN - 1))) (u64 (Z.lnot (OPTEE_SHM_ALLOC_ALIGN - 1))) =
  b + 4096.
Proof.
  intros Hb H0 H. unfold HEADER_SIZE, OPTEE_SHM_ALLOC_ALIGN, EFI_PAGE_SIZE.
  rewrite wrap_small by (unfold in_word; lia).
  change (u64 (Z.lnot (4096 - 1))) with (2 ^ 64 - 2 ^ 12).
  rewrite land_high_mask by (unfold in_word; lia). Z.div_mod_to_equations. lia.
Qed.

Section Correct.
Context {B : Build} {P : ShmPlatform} {D : Type} {G : Gcd D} {V : GcdView D}.
Context {L : GcdLaws D} {O : PlatformOk}.
Implicit Types (own : gmap Z Z) (s : client D).

Lemma shm_end : OPTEE_SHM_END = OPTEE_SHM_START + OPTEE_SHM_SIZE /\ 0 <= OPTEE_SHM_START.
Proof.
  destruct area. unfold OPTEE_SHM_END. assert (0 <= OPTEE_SHM_START) by (by apply wrap_range).
  rewrite wrap_small; [done|]. unfold in_word. lia.
Qed.

Lemma inv_range own s b n : shm_inv own s -> held (gcd s) !! b = Some n ->
  0 <= b /\ 0 < n /\ b + n < 2 ^ 64.
Proof.
  intros I H. destruct (inv_block _ _ I b n H) as (H1 & H2 & H3), shm_end as [E1 E2], area. lia.
Qed.

Lemma alignment_ok a : a = 0 \/ (exists k, 0 <= k <= 12 /\ a = 2 ^ k) ->
  (negb (a =? 0) && negb (IsPowerOf2 a)) || (OPTEE_SHM_ALLOC_ALIGN <? a) = false.
Proof.
  intros [-> | (k & Hk & ->)]; [done|].
  assert (H : 1 <= 2 ^ k <= 2 ^ 12) by (split; [apply (Z.pow_le_mono_r 2 0) | apply Z.pow_le_mono_r]; lia).
  assert (Hw : in_word 64 (2 ^ k)) by (unfold in_word; lia).
  rewrite (proj2 (IsPowerOf2_spec (2 ^ k) Hw)); [|exists k; split; [lia | done]].
  rewrite andb_false_r. apply Z.ltb_ge. unfold OPTEE_SHM_ALLOC_ALIGN, EFI_PAGE_SIZE. lia.
Qed.

(** The state after an allocation of [n] bytes at [b]. *)
Definition allocated (b n : Z) (d : D) (s : client D) : client D :=
  Build_client (write_header (b + 4064) n b (shm s)) d
    (u64 (mSharedMemAllocationCount s + 1)) (u64 (mSharedMemAllocSize s + n)).

(** A block of free memory of the area, as the GCD hands it out. *)
Definition fresh_block (s : client D) (b n : Z) (d : D) : Prop :=
  b mod 4096 = 0 /\ unclaimed (held (gcd s)) b n /\ OPTEE_SHM_START <= b /\ b + n <= OPTEE_SHM_END /\
  held d = <[b := n]> (held (gcd s)) /\ forall x, space d x = space (gcd s) x.

Lemma gcd_block own s n st b d : shm_inv own s ->
  AllocateMemorySpace EfiGcdAllocateMaxAddressSearchTopDown EfiGcdMemoryTypeReserved
    OPTEE_SHM_ALLOC_ALIGN_SHIFT n OPTEE_SHM_END gDriverImageHandle (gcd s) = (st, b, d) ->
  EFI_ERROR st = false -> fresh_block s b n d /\ 0 < n.
Proof.
  intros I E Hst. destruct (alloc_block _ _ _ _ _ _ _ _ _ E Hst) as (Hn & Hal & Hun & Hsp & Hh & Hs).
  assert (Hin : forall x, b <= x < b + n -> OPTEE_SHM_START <= x < OPTEE_SHM_END).
  { intros x Hx. by apply (inv_space _ _ I), Hsp. }
  pose proof (Hin b) as H1. pose proof (Hin (b + n - 1)) as H2.
  split; [|done]. repeat split; try done; lia.
Qed.

(** The GCD has no block of [n] bytes for the driver. *)
Definition gcd_refuses (s : client D) (n : Z) : bool :=
  EFI_ERROR (AllocateMemorySpace EfiGcdAllocateMaxAddressSearchTopDown EfiGcdMemoryTypeReserved
    OPTEE_SHM_ALLOC_ALIGN_SHIFT n OPTEE_SHM_END gDriverImageHandle (gcd s)).1.1.

(** The block has [Size + 4127] bytes, in 64 bits. *)
Lemma alloc_spec own s Size Align : shm_inv own s ->
  Align = 0 \/ (exists k, 0 <= k <= 12 /\ Align = 2 ^ k) -> in_word 64 Size -> 31 <= u64 (Size + 4127) ->
  (InternalMemAlloc Size Align s = Ret 0 s /\ gcd_refuses s (u64 (Size + 4127)) = true) \/
  exists b d, InternalMemAlloc Size Align s = Ret (b + 4096) (allocated b (u64 (Size + 4127)) d s) /\
    fresh_block s b (u64 (Size + 4127)) d.
Proof.
  intros I Hal HS Hs. unfold InternalMemAlloc.
  pose proof handle as Hh. apply Z.eqb_neq in Hh. rewrite Hh. cbn [negb].
  rewrite (bind_Ret _ _ s tt s) by done. rewrite alignment_ok by done.
  replace (HEADER_SIZE + Size + (OPTEE_SHM_ALLOC_ALIGN - 1)) with (Size + 4127)
    by (unfold HEADER_SIZE, OPTEE_SHM_ALLOC_ALIGN, EFI_PAGE_SIZE; lia).
  assert (Hn : exists k, Size + 4127 = u64 (Size + 4127) + k * 2 ^ 64).
  { exists ((Size + 4127) / 2 ^ 64). unfold wrap. rewrite (Z.div_mod (Size + 4127) (2 ^ 64)) at 1 by lia. lia. }
  destruct Hn as [k Hk]. set (n := u64 (Size + 4127)) in *.
  destruct (AllocateMemorySpace EfiGcdAllocateMaxAddressSearchTopDown EfiGcdMemoryTypeReserved
    OPTEE_SHM_ALLOC_ALIGN_SHIFT n OPTEE_SHM_END gDriverImageHandle (gcd s)) as [[st b] d] eqn:E.
  rewrite (bind_Ret _ _ s (st, b) (set_gcd d s)) by (unfold dxe; by rewrite E).
  destruct (EFI_ERROR st) eqn:Est.
  - left. split; [|unfold gcd_refuses; by rewrite E]. assert (d = gcd s) as ->; [|by destruct s].
    pose proof (alloc_failed EfiGcdAllocateMaxAddressSearchTopDown EfiGcdMemoryTypeReserved
      OPTEE_SHM_ALLOC_ALIGN_SHIFT n OPTEE_SHM_END gDriverImageHandle (gcd s)) as Hf.
    rewrite E in Hf. by apply Hf.
  - right. destruct (gcd_block own s n st b d I E Est) as [Hb Hn]. exists b, d. split; [|done].
    destruct Hb as (Hb & Hun & Hlo & Hhi & Hheld & Hsp), shm_end as [Eend Estart], area as [Hsz Hov].
    assert (Hroom : b + 4096 <= OPTEE_SHM_END).
    { pose proof start_aligned. pose proof size_aligned. Z.div_mod_to_equations. lia. }
    rewrite (proj2 (Z.leb_le _ _) Hlo), (wrap_small 64 (b + n)) by (unfold in_word; lia).
    rewrite (proj2 (Z.leb_le _ _) Hhi), !(bind_Ret (ASSERT true) _ (set_gcd d s) tt (set_gcd d s)) by done.
    destruct (fence_spec b n (set_gcd d s)) as (f & Ef & Hf); [lia | lia | lia |].
    rewrite (bind_Ret _ _ _ _ _ Ef). assert (f = true) as ->.
    { apply Hf. intros x Hx. apply (inv_fence _ _ I); [lia|]. intros b' n' H'. specialize (Hun b' n' H').
      lia. }
    assert (Hpage : OPTEE_SHM_END <= 2 ^ 64 - 4096).
    { pose proof start_aligned. pose proof size_aligned. Z.div_mod_to_equations. lia. }
    cbn [negb]. rewrite user_address by (done || lia).
    rewrite (proj2 (Z.ltb_lt OPTEE_SHM_START (b + 4096))) by lia.
    assert (u64 (b + 4096 + Size) = b + n - 31) as ->.
    { unfold wrap. replace (b + 4096 + Size) with (b + n - 31 + k * 2 ^ 64) by lia.
      rewrite Z_mod_plus_full. apply Z.mod_small. lia. }
    rewrite (proj2 (Z.leb_le (b + n - 31) OPTEE_SHM_END)) by lia.
    assert ((b + 4096) mod OPTEE_SHM_ALLOC_ALIGN = 0) as ->
      by (unfold OPTEE_SHM_ALLOC_ALIGN, EFI_PAGE_SIZE; Z.div_mod_to_equations; lia).
    rewrite !(bind_Ret (ASSERT _) _ (set_gcd d s) tt (set_gcd d s)) by done.
    rewrite !bind_modify. unfold HEADER_SIZE. rewrite (wrap_small 64 (b + 4096 - 32)) by (unfold in_word; lia).
    replace (b + 4096 - 32) with (b + 4064) by lia. done.
Qed.

Lemma fresh_own own s b n d : shm_inv own s -> fresh_block s b n d -> 0 < n -> own !! b = None.
Proof.
  intros I (_ & Hun & _) Hn. destruct (own !! b) as [n'|] eqn:E; [|done].
  pose proof (lookup_weaken _ _ _ _ E (inv_own _ _ I)) as Hh.
  destruct (inv_block _ _ I _ _ Hh) as (_ & Hn' & _). destruct (Hun _ _ Hh); lia.
Qed.

Lemma alloc_inv own s b n d : shm_inv own s -> fresh_block s b n d -> 4127 <= n ->
  shm_inv (<[b := n]> own) (allocated b n d s).
Proof.
  intros I F Hn. pose proof (fresh_own own s b n d I F) as Hnone.
  destruct F as (Hal & Hun & Hlo & Hhi & Hheld & Hsp), shm_end as [Eend Estart], area as [Hsz Hov].
  split; cbn [allocated shm gcd mSharedMemAllocationCount mSharedMemAllocSize].
  - intros x. rewrite Hsp. apply (inv_space _ _ I).
  - intros b' n'. rewrite Hheld, lookup_insert_Some. intros [[<- <-]|[_ H]]; [lia|].
    by apply (inv_block _ _ I).
  - intros b1 n1 b2 n2. rewrite Hheld, !lookup_insert_Some.
    intros [[<- <-]|[Hne1 H1]] [[<- <-]|[Hne2 H2]] Hne; [done | by apply Hun | |by apply (inv_disjoint _ _ I)].
    destruct (Hun _ _ H1); lia.
  - rewrite Hheld. by apply insert_mono, (inv_own _ _ I).
  - intros b' n'. rewrite lookup_insert_Some. intros [[<- <-]|[Hne H]].
    { split; [done|]. split; [done|]. apply header_write; unfold in_word; lia. }
    destruct (inv_header _ _ I _ _ H) as (H1 & H2 & H3). split; [done|]. split; [done|].
    apply (header_ext (shm s)); [|done]. intros x Hx. apply header_write_out.
    pose proof (lookup_weaken _ _ _ _ H (inv_own _ _ I)) as Hh. destruct (Hun _ _ Hh); lia.
  - intros x Hx Hfree. rewrite header_write_out.
    + apply (inv_fence _ _ I); [done|]. intros b' n' H. apply (Hfree b' n'). rewrite Hheld.
      apply lookup_insert_Some. right. split; [|done]. intros ->.
      destruct (inv_block _ _ I _ _ H) as (_ & Hn' & _). destruct (Hun _ _ H); lia.
    + specialize (Hfree b n). rewrite Hheld, lookup_insert in Hfree. rewrite decide_True in Hfree by done. specialize (Hfree eq_refl). lia.
  - rewrite (inv_count _ _ I), map_size_insert_None by (apply Hnone; lia).
    rewrite Nat2Z.inj_succ. unfold wrap. by rewrite Zplus_mod_idemp_l.
  - rewrite (inv_size _ _ I), total_insert by (apply Hnone; lia).
    unfold wrap. rewrite Zplus_mod_idemp_l. f_equal. lia.
Qed.

(** Writes of the client into the payload of its block. *)
Lemma payload_inv own s b n p bs : shm_inv own s -> own !! b = Some n ->
  b + 4096 <= p -> p + Z.of_nat (length bs) <= b + n - 31 ->
  shm_inv own (set_shm (write_bytes (shm s) p bs) s).
Proof.
  intros I Hb Hlo Hhi. pose proof (lookup_weaken _ _ _ _ Hb (inv_own _ _ I)) as Hh. destruct I.
  split; cbn [set_shm shm gcd mSharedMemAllocationCount mSharedMemAllocSize]; try done.
  - intros b' n' H'. destruct (inv_header0 b' n' H') as (H1 & H2 & H3). split; [done|]. split; [done|].
    apply (header_ext (shm s)); [|done]. intros x Hx. apply write_bytes_out.
    destruct (decide (b' = b)) as [->|Hne]; [lia|].
    pose proof (lookup_weaken _ _ _ _ H' inv_own0) as Hh'. destruct (inv_disjoint0 _ _ _ _ Hh Hh'); [done | lia | lia].
  - intros x Hx Hfree. rewrite write_bytes_out by (specialize (Hfree b n Hh); lia). by apply inv_fence0.
Qed.

(** ** Free *)

Definition freed (n : Z) (m : mem) (d : D) (s : client D) : client D :=
  Build_client m d (u64 (mSharedMemAllocationCount s - 1)) (u64 (mSharedMemAllocSize s - n)).

(** The block is fenced; the counters follow when the GCD takes it back. *)
Lemma free_run own s b n : shm_inv own s -> own !! b = Some n ->
  exists st m s', OpteeClientMemFree (b + 4096) s = Ret st s' /\ st = (FreeMemorySpace b n (gcd s)).1 /\
    mem_eq m (fill_bytes (shm s) b n OPTEE_SHM_FREE_FENCE) /\
    if EFI_ERROR st then s' = set_shm m s
    else exists d, s' = freed n m d s /\ held d = delete b (held (gcd s)) /\
      forall x, space d x = space (gcd s) x.
Proof.
  intros I Hb. pose proof (lookup_weaken _ _ _ _ Hb (inv_own _ _ I)) as Hh.
  destruct (inv_header _ _ I _ _ Hb) as (Hn & Hal & Hsig & Hsz & Hadr), (inv_range _ _ _ _ I Hh) as (H0 & _ & He).
  unfold OpteeClientMemFree, HEADER_SIZE. rewrite (wrap_small 64) by (unfold in_word; lia).
  replace (b + 4096 - 32) with (b + 4064) by lia.
  replace (b + 4064 + 24) with (b + 4088) by lia. replace (b + 4064 + 16) with (b + 4080) by lia.
  rewrite bind_gets, Hsig, Z.eqb_refl. cbn [negb]. rewrite !bind_gets, Hsz, Hadr.
  destruct (mark_spec b n s) as (m & Em & Hm); [lia | lia | lia |].
  rewrite (bind_Ret _ _ _ _ _ Em).
  destruct (FreeMemorySpace b n (gcd s)) as [st d] eqn:E.
  rewrite (bind_Ret _ _ (set_shm m s) st (set_gcd d (set_shm m s))) by (unfold dxe; simpl; by rewrite E).
  pose proof (free_failed b n (gcd s)) as Hf. pose proof (free_block b n (gcd s) Hh) as Hok.
  rewrite E in Hf, Hok. simpl in Hf, Hok.
  destruct (EFI_ERROR st) eqn:Est.
  - exists st, m, (set_shm m s). rewrite Est. split; [by rewrite Hf|]. done.
  - exists st, m. eexists. rewrite Est. split; [by rewrite bind_modify|]. split; [done|]. split; [done|].
    exists d. by destruct (Hok eq_refl).
Qed.

Lemma free_spec own s b n : shm_inv own s -> own !! b = Some n ->
  exists st m s', OpteeClientMemFree (b + 4096) s = Ret st s' /\
    mem_eq m (fill_bytes (shm s) b n OPTEE_SHM_FREE_FENCE) /\
    if EFI_ERROR st then s' = set_shm m s
    else exists d, s' = freed n m d s /\ held d = delete b (held (gcd s)) /\
      forall x, space d x = space (gcd s) x.
Proof. intros I Hb. destruct (free_run own s b n I Hb) as (st & m & s' & E & _ & H). by exists st, m, s'. Qed.

Lemma free_inv own s b n m d : shm_inv own s -> own !! b = Some n ->
  mem_eq m (fill_bytes (shm s) b n OPTEE_SHM_FREE_FENCE) -> held d = delete b (held (gcd s)) ->
  (forall x, space d x = space (gcd s) x) -> shm_inv (delete b own) (freed n m d s).
Proof.
  intros I Hb Hm Hheld Hsp. pose proof (lookup_weaken _ _ _ _ Hb (inv_own _ _ I)) as Hh.
  split; cbn [freed shm gcd mSharedMemAllocationCount mSharedMemAllocSize].
  - intros x. rewrite Hsp. apply (inv_space _ _ I).
  - intros b' n'. rewrite Hheld, lookup_delete_Some. intros [_ H]. by apply (inv_block _ _ I).
  - intros b1 n1 b2 n2. rewrite Hheld, !lookup_delete_Some. intros [_ H1] [_ H2]. by apply (inv_disjoint _ _ I).
  - rewrite Hheld. by apply delete_mono, (inv_own _ _ I).
  - intros b' n'. rewrite lookup_delete_Some. intros [Hne H].
    destruct (inv_header _ _ I _ _ H) as (H1 & H2 & H3). split; [done|]. split; [done|].
    apply (header_ext (shm s)); [|done]. intros x Hx. rewrite Hm. apply fill_bytes_out.
    pose proof (lookup_weaken _ _ _ _ H (inv_own _ _ I)) as Hh'.
    destruct (inv_disjoint _ _ I _ _ _ _ Hh Hh'); [done | lia | lia].
  - intros x Hx Hfree. rewrite Hm. destruct (in_range b n x) eqn:E.
    + apply fill_bytes_in. by apply in_range_spec.
    + apply in_range_false in E. rewrite fill_bytes_out by done. apply (inv_fence _ _ I); [done|].
      intros b' n' H. destruct (decide (b' = b)) as [->|Hne]; [by simplify_eq|].
      apply Hfree. rewrite Hheld. by apply lookup_delete_Some.
  - rewrite (inv_count _ _ I), map_size_delete_Some by done.
    assert (0 < Z.of_nat (size own)).
    { destruct (decide (size own = 0)%nat) as [Hz|]; [|lia]. apply map_size_empty_inv in Hz as ->. done. }
    rewrite Nat2Z.inj_pred by lia. unfold wrap. rewrite Zminus_mod_idemp_l. f_equal.
  - rewrite (inv_size _ _ I), (total_delete _ _ _ Hb). unfold wrap. rewrite Zminus_mod_idemp_l. f_equal. lia.
Qed.

(** ** Initialisation *)

(** Before the first driver initialises the library: no reserved memory,
    nothing allocated. *)
Record fresh (s : client D) : Prop := {
  fresh_space x : space (gcd s) x <> EfiGcdMemoryTypeReserved;
  fresh_start : space (gcd s) OPTEE_SHM_START = EfiGcdMemoryTypeNonExistent;
  fresh_held : held (gcd s) = ∅;
  fresh_counters : mSharedMemAllocationCount s = 0 /\ mSharedMemAllocSize s = 0
}.

(** The area is ready: free, or -- when the last GCD call failed -- held
    as a whole. *)
Definition ready (s : client D) : Prop :=
  shm_inv ∅ s /\ (held (gcd s) = ∅ \/ held (gcd s) = {[OPTEE_SHM_START := OPTEE_SHM_SIZE]}).

Lemma ready_intro m d s : fresh s ->
  mem_eq m (fill_bytes (shm s) OPTEE_SHM_START OPTEE_SHM_SIZE OPTEE_SHM_FREE_FENCE) ->
  (forall x, space d x = if in_range OPTEE_SHM_START OPTEE_SHM_SIZE x then EfiGcdMemoryTypeReserved
                        else space (gcd s) x) ->
  held d = ∅ \/ held d = {[OPTEE_SHM_START := OPTEE_SHM_SIZE]} ->
  ready (set_gcd d (set_shm m s)).
Proof.
  intros F Hm Hsp Hh. split; [|done]. destruct shm_end as [Eend Estart], area as [Hsz Hov].
  assert (Hblk : forall b n, held d !! b = Some n -> b = OPTEE_SHM_START /\ n = OPTEE_SHM_SIZE).
  { intros b n. destruct Hh as [-> | ->]; [by rewrite lookup_empty|].
    rewrite lookup_singleton_Some. by intros [<- <-]. }
  split; cbn [set_gcd set_shm shm gcd mSharedMemAllocationCount mSharedMemAllocSize].
  - intros x. rewrite Hsp, Eend, <- in_range_spec.
    destruct (in_range _ _ x); [done|]. split; [|done]. intros H. by destruct (fresh_space s F x).
  - intros b n H. apply Hblk in H as [-> ->]. lia.
  - intros b n b' n' H1 H2 Hne. apply Hblk in H1 as [-> _], H2 as [-> _]. done.
  - apply map_empty_subseteq.
  - intros b n H. by rewrite lookup_empty in H.
  - intros x Hx _. rewrite Hm. apply fill_bytes_in. lia.
  - by rewrite (proj1 (fresh_counters s F)).
  - by rewrite (proj2 (fresh_counters s F)).
Qed.

Lemma gcd_init_spec s : fresh s ->
  exists st s', GcdSharedMemoryInit s = Ret st s' /\ (EFI_ERROR st = false -> ready s').
Proof.
  intros F. unfold GcdSharedMemoryInit. pose proof start_aligned as H1. pose proof size_aligned as H2.
  unfold EFI_PAGE_SIZE. rewrite H1, H2, !(bind_Ret (ASSERT _) _ s tt s) by done.
  destruct shm_end as [Eend Estart], area as [Hsz Hov].
  destruct (AddMemorySpace OPTEE_SHM_TYPE OPTEE_SHM_START OPTEE_SHM_SIZE OPTEE_SHM_CAPS (gcd s))
    as [st1 d1] eqn:E1.
  rewrite (bind_Ret (dxe _) _ s st1 (set_gcd d1 s)) by (unfold dxe; by rewrite E1).
  destruct (EFI_ERROR st1) eqn:Hst1; [by do 2 eexists; split; [done | congruence]|].
  pose proof (add_space OPTEE_SHM_TYPE OPTEE_SHM_START OPTEE_SHM_SIZE OPTEE_SHM_CAPS (gcd s)) as Hadd.
  rewrite E1 in Hadd. destruct (Hadd Hst1) as [Hh1 Hs1]. simpl in Hh1, Hs1.
  destruct (AllocateMemorySpace EfiGcdAllocateAddress EfiGcdMemoryTypeReserved 0
    OPTEE_SHM_SIZE OPTEE_SHM_START gDriverImageHandle d1) as [[st2 b2] d2] eqn:E2.
  rewrite (bind_Ret (dxe _) _ (set_gcd d1 s) (st2, b2) (set_gcd d2 s)) by (unfold dxe; simpl; by rewrite E2).
  destruct (EFI_ERROR st2) eqn:Hst2; [by do 2 eexists; split; [done | congruence]|].
  pose proof (alloc_address _ _ _ _ _ _ _ _ E2 Hst2) as Hb2. subst b2.
  destruct (alloc_block _ _ _ _ _ _ _ _ _ E2 Hst2) as (_ & _ & _ & _ & Hh2 & Hs2).
  rewrite Z.eqb_refl, !(bind_Ret (ASSERT true) _ (set_gcd d2 s) tt (set_gcd d2 s)) by done.
  destruct (mark_spec OPTEE_SHM_START OPTEE_SHM_SIZE (set_gcd d2 s)) as (m & Em & Hm); [lia | lia | lia |].
  rewrite (bind_Ret _ _ _ _ _ Em).
  destruct (FreeMemorySpace OPTEE_SHM_START OPTEE_SHM_SIZE d2) as [st3 d3] eqn:E3.
  rewrite (bind_Ret (dxe _) _ _ st3 (set_gcd d3 (set_shm m s))) by (unfold dxe; simpl; by rewrite E3).
  exists st2, (set_gcd d3 (set_shm m s)). split; [done|]. intros _.
  assert (Hh2' : held d2 = {[OPTEE_SHM_START := OPTEE_SHM_SIZE]}).
  { rewrite Hh2. simpl in Hh1. rewrite Hh1, (fresh_held s F). apply insert_empty. }
  apply ready_intro; [done | done | |].
  - intros x. transitivity (space d2 x); [|by rewrite Hs2, Hs1].
    destruct (EFI_ERROR st3) eqn:Hst3.
    + pose proof (free_failed OPTEE_SHM_START OPTEE_SHM_SIZE d2) as H3. rewrite E3 in H3.
      simpl in H3. by rewrite H3.
    + pose proof (free_block OPTEE_SHM_START OPTEE_SHM_SIZE d2) as H3.
      rewrite E3, Hh2', lookup_singleton_eq in H3. by apply H3.
  - destruct (EFI_ERROR st3) eqn:Hst3; [right | left].
    + pose proof (free_failed OPTEE_SHM_START OPTEE_SHM_SIZE d2) as H3. rewrite E3 in H3.
      simpl in H3. by rewrite H3.
    + pose proof (free_block OPTEE_SHM_START OPTEE_SHM_SIZE d2) as H3.
      rewrite E3, Hh2', lookup_singleton_eq in H3. simpl in H3. destruct (H3 eq_refl Hst3) as [-> _].
      apply delete_singleton_eq.
Qed.

(** ** A driver at work *)

Definition alignment (a : Z) : Prop := a = 0 \/ exists k, 0 <= k <= 12 /\ a = 2 ^ k.

(** The calls of a driver, with the blocks it holds: it frees what it holds
    and writes inside its buffers. *)
Inductive session : gmap Z Z * client D -> gmap Z Z * client D -> Prop :=
| session_null own s Size Align s' :
    alignment Align -> 0 <= Size -> Size + 4127 < 2 ^ 64 ->
    OpteeClientAlignedMemAlloc Size Align s = Ret 0 s' ->
    session (own, s) (own, s')
| session_alloc own s Size Align p s' :
    alignment Align -> 0 <= Size -> Size + 4127 < 2 ^ 64 ->
    OpteeClientAlignedMemAlloc Size Align s = Ret p s' -> p <> 0 ->
    session (own, s) (<[p - 4096 := Size + 4127]> own, s')
| session_free own s b n st s' :
    own !! b = Some n -> OpteeClientMemFree (b + 4096) s = Ret st s' -> EFI_ERROR st = false ->
    session (own, s) (delete b own, s')
| session_write own s b n p bs :
    own !! b = Some n -> b + 4096 <= p -> p + Z.of_nat (length bs) <= b + n - 31 ->
    session (own, s) (own, set_shm (write_bytes (shm s) p bs) s).

Lemma aligned_alloc own s Size Align : shm_inv own s -> alignment Align ->
  0 <= Size -> Size + 4127 < 2 ^ 64 ->
  (OpteeClientAlignedMemAlloc Size Align s = Ret 0 s /\ gcd_refuses s (Size + 4127) = true) \/
  exists b d, OpteeClientAlignedMemAlloc Size Align s = Ret (b + 4096) (allocated b (Size + 4127) d s) /\
    fresh_block s b (Size + 4127) d.
Proof.
  intros I Ha H0 H. pose proof (alloc_spec own s Size Align I Ha) as A.
  rewrite (wrap_small 64 (Size + 4127)) in A by (unfold in_word; lia).
  apply A; [unfold in_word|]; lia.
Qed.

Lemma session_inv own s own' s' : session (own, s) (own', s') -> shm_inv own s -> shm_inv own' s'.
Proof.
  intros S I. inversion S as [? ? Sz Al ? Ha H0 H1 E | ? ? Sz Al p ? Ha H0 H1 E Hp
    | ? ? b n st ? Hb E Hst | ? ? b n p bs Hb Hlo Hhi]; subst.
  - destruct (aligned_alloc _ _ Sz Al I Ha H0 H1) as [[E' _] | (b & d & E' & F)]; [congruence|].
    destruct F as (? & ? & ? & _). pose proof shm_end. rewrite E in E'. injection E'. lia.
  - destruct (aligned_alloc _ _ Sz Al I Ha H0 H1) as [[E' _] | (b & d & E' & F)]; [congruence|].
    rewrite E in E'. injection E' as -> ->. replace (b + 4096 - 4096) with b by lia.
    apply alloc_inv; [done | done | lia].
  - destruct (free_spec _ _ b n I Hb) as (st' & m & s1 & E' & Hm & Hs1).
    rewrite E in E'. injection E' as <- <-. rewrite Hst in Hs1. destruct Hs1 as (d & -> & Hd & Hsp).
    by apply free_inv with (b := b).
  - by eapply payload_inv.
Qed.


(** an allocation either returns NULL and changes nothing,
    when the GCD has no block for it, or
    a page-aligned buffer inside the shared area that lies in no block
    of any driver, leaving the bytes of all blocks as they were. *)
Theorem OpteeClientAlignedMemAlloc_correct own s Size Align :
  shm_inv own s -> alignment Align -> 0 <= Size -> Size + 4127 < 2 ^ 64 ->
  (OpteeClientAlignedMemAlloc Size Align s = Ret 0 s /\ gcd_refuses s (Size + 4127) = true) \/
  exists p s', OpteeClientAlignedMemAlloc Size Align s = Ret p s' /\
    p mod 4096 = 0 /\ OPTEE_SHM_START < p /\ p + Size <= OPTEE_SHM_END /\
    (forall b n, held (gcd s) !! b = Some n -> p + Size <= b \/ b + n <= p) /\
    (forall b n x, held (gcd s) !! b = Some n -> b <= x < b + n -> shm s' x = shm s x) /\
    shm_inv (<[p - 4096 := Size + 4127]> own) s'.
Proof.
  intros I Ha H0 H1. destruct (aligned_alloc own s Size Align) as [E | (b & d & E & F)]; try done; [by left|].
  right. exists (b + 4096), (allocated b (Size + 4127) d s). split; [done|].
  pose proof F as (Hal & Hun & Hlo & Hhi & _).
  split; [Z.div_mod_to_equations; lia|]. split; [lia|]. split; [lia|]. split; [|split].
  - intros b' n' H'. destruct (Hun _ _ H'); lia.
  - intros b' n' x H' Hx. apply header_write_out. destruct (Hun _ _ H'); lia.
  - replace (b + 4096 - 4096) with b by lia. apply alloc_inv; [done | done | lia].
Qed.

(** Freed memory has no signature any more. *)
Lemma free_fenced m b n s' : 4096 <= n -> 0 <= b -> b + 4096 < 2 ^ 64 ->
  mem_eq (shm s') (fill_bytes m b n OPTEE_SHM_FREE_FENCE) ->
  OpteeClientMemFree (b + 4096) s' = Ret EFI_INVALID_PARAMETER s'.
Proof.
  intros Hn H0 H Hm. unfold OpteeClientMemFree, HEADER_SIZE.
  rewrite (wrap_small 64) by (unfold in_word; lia). rewrite bind_gets.
  rewrite (load_ext 4 (shm s') (fun _ => OPTEE_SHM_FREE_FENCE)); [done|].
  intros x Hx. rewrite Hm. apply fill_bytes_in. lia.
Qed.

(** freeing a buffer fences its whole block and touches nothing
    else; when the GCD takes the block back, the counters follow and the invariant
    holds without the block; in either case a second free of the buffer is refused
    and changes nothing. *)
Theorem OpteeClientMemFree_correct own s b n :
  shm_inv own s -> own !! b = Some n ->
  exists st s', OpteeClientMemFree (b + 4096) s = Ret st s' /\
    only_changes b n (shm s) (shm s') /\
    OpteeClientMemFree (b + 4096) s' = Ret EFI_INVALID_PARAMETER s' /\
    if EFI_ERROR st then gcd s' = gcd s /\
      mSharedMemAllocationCount s' = mSharedMemAllocationCount s /\
      mSharedMemAllocSize s' = mSharedMemAllocSize s
    else shm_inv (delete b own) s' /\ held (gcd s') = delete b (held (gcd s)).
Proof.
  intros I Hb. destruct (free_spec own s b n I Hb) as (st & m & s' & E & Hm & Hs').
  exists st, s'. split; [done|]. assert (Hshm : shm s' = m).
  { destruct (EFI_ERROR st); [by rewrite Hs' | by destruct Hs' as (d & -> & _)]. }
  destruct (inv_range _ _ _ _ I (lookup_weaken _ _ _ _ Hb (inv_own _ _ I))) as (H0 & _ & H1).
  destruct (inv_header _ _ I _ _ Hb) as (Hn & _).
  split; [|split].
  - intros x Hx. rewrite Hshm, Hm. by apply fill_bytes_out, in_range_false.
  - apply free_fenced with (m := shm s) (n := n); [lia | lia | lia |]. by rewrite Hshm.
  - destruct (EFI_ERROR st); [by rewrite Hs'|]. destruct Hs' as (d & -> & Hd & Hsp).
    split; [by apply free_inv with (b := b) | done].
Qed.

(** when the block the GCD hands out has a byte without the fence --
    somebody wrote outside its buffers -- the allocation halts in a debug build and
    returns NULL in a release build, with the block still held and not counted. *)
Theorem OpteeClientMemAlloc_overflow_detected s Size st b d x :
  0 <= Size -> Size + 4127 < 2 ^ 64 ->
  AllocateMemorySpace EfiGcdAllocateMaxAddressSearchTopDown EfiGcdMemoryTypeReserved
    OPTEE_SHM_ALLOC_ALIGN_SHIFT (Size + 4127) OPTEE_SHM_END gDriverImageHandle (gcd s) = (st, b, d) ->
  EFI_ERROR st = false -> OPTEE_SHM_START <= b -> b + (Size + 4127) <= OPTEE_SHM_END ->
  b <= x < b + (Size + 4127) -> shm s x <> OPTEE_SHM_FREE_FENCE ->
  OpteeClientMemAlloc Size s = if debug_build then Stop Halt else Ret 0 (set_gcd d s).
Proof.
  intros H0 H1 E Hst Hlo Hhi Hx Hbad. unfold OpteeClientMemAlloc, InternalMemAlloc.
  pose proof handle as Hh. apply Z.eqb_neq in Hh. rewrite Hh. cbn [negb].
  rewrite (bind_Ret _ _ s tt s) by done.
  rewrite alignment_ok by (right; exists 4; done || lia).
  replace (HEADER_SIZE + Size + (OPTEE_SHM_ALLOC_ALIGN - 1)) with (Size + 4127)
    by (unfold HEADER_SIZE, OPTEE_SHM_ALLOC_ALIGN, EFI_PAGE_SIZE; lia).
  rewrite (wrap_small 64 (Size + 4127)) by (unfold in_word; lia).
  rewrite (bind_Ret _ _ s (st, b) (set_gcd d s)) by (unfold dxe; by rewrite E).
  destruct shm_end as [Eend Estart], area as [Hsz Hov]. rewrite Hst.
  rewrite (proj2 (Z.leb_le _ _) Hlo), (wrap_small 64 (b + (Size + 4127))) by (unfold in_word; lia).
  rewrite (proj2 (Z.leb_le _ _) Hhi), !(bind_Ret (ASSERT true) _ (set_gcd d s) tt (set_gcd d s)) by done.
  destruct (fence_spec b (Size + 4127) (set_gcd d s)) as (f & Ef & Hf); [lia | lia | lia |].
  rewrite (bind_Ret _ _ _ _ _ Ef). destruct f; [by destruct Hbad; apply Hf|].
  cbn [negb]. unfold ASSERT. by destruct debug_build.
Qed.

(** for a size within 4096 of the top of the address space the block
    size wraps: the GCD is asked for fewer than 4127 bytes, no assertion fires, and the
    caller gets a pointer less than 31 bytes before the end of that block, where it was
    promised [Size] bytes. *)
Theorem OpteeClientMemAlloc_size_wraps own s Size :
  shm_inv own s -> 2 ^ 64 - 4096 <= Size < 2 ^ 64 ->
  (OpteeClientMemAlloc Size s = Ret 0 s /\ gcd_refuses s (Size + 4127 - 2 ^ 64) = true) \/
  exists b n d, OpteeClientMemAlloc Size s = Ret (b + 4096) (allocated b n d s) /\
    held d = <[b := n]> (held (gcd s)) /\ b + n < b + 4096 + 31.
Proof.
  intros I HS. assert (Hn : u64 (Size + 4127) = Size + 4127 - 2 ^ 64).
  { unfold wrap. symmetry. apply (Z.mod_unique_pos _ _ 1); lia. }
  rewrite <- Hn. destruct (alloc_spec own s Size 16 I) as [E | (b & d & E & F)];
    [right; exists 4; split; [lia | done] | unfold in_word; lia | lia | by left |].
  right. exists b, (u64 (Size + 4127)), d. split; [exact E|]. split; [apply F | lia].
Qed.

(** the first initialisation fails with a status, or leaves
    the area fenced and ready -- although possibly held as a whole, since the status of
    the last GCD call is dropped; a later initialisation, by any driver, changes nothing. *)
Theorem OpteeClientMemInit_correct s :
  fresh s ->
  exists st s', OpteeClientMemInit s = Ret st s' /\
    (EFI_ERROR st = false -> ready s' /\
      exists st', OpteeClientMemInit s' = Ret st' s' /\ EFI_ERROR st' = false).
Proof.
  intros F. destruct (gcd_init_spec s F) as (sti & si & Ei & Hi).
  assert (Hready : forall st s', ready s' -> (GetMemorySpaceDescriptor OPTEE_SHM_START (gcd s')).1 = st ->
    EFI_ERROR st = false -> ready s' /\
      exists st', OpteeClientMemInit s' = Ret st' s' /\ EFI_ERROR st' = false).
  { intros st s' Hr Hst Hok. split; [done|]. exists st. split; [|done].
    pose proof (descriptor_type OPTEE_SHM_START (gcd s')) as Ht. unfold OpteeClientMemInit.
    rewrite bind_gets. destruct (GetMemorySpaceDescriptor OPTEE_SHM_START (gcd s')) as [st1 ds].
    simpl in Hst, Ht. subst st1. specialize (Ht Hok).
    assert (Hres : GcdMemoryType ds = EfiGcdMemoryTypeReserved).
    { rewrite Ht. destruct Hr as [I _]. apply (inv_space _ _ I). destruct shm_end, area. lia. }
    rewrite Hok, Hres. destruct (Z.eqb_spec st EFI_NOT_FOUND) as [->|]; [done|].
    rewrite (bind_Ret _ _ s' (inr (st, ds)) s') by done. by rewrite Hres. }
  unfold OpteeClientMemInit at 1. rewrite bind_gets.
  destruct (GetMemorySpaceDescriptor OPTEE_SHM_START (gcd s)) as [st0 ds0] eqn:E0.
  destruct ((st0 =? EFI_NOT_FOUND) || (negb (EFI_ERROR st0) && (GcdMemoryType ds0 =? EfiGcdMemoryTypeNonExistent)))
    eqn:Hc.
  - destruct (EFI_ERROR sti) eqn:Hsti.
    + exists sti, si. split; [|congruence]. rewrite (bind_Ret _ _ s (inl sti) si); [done|].
      rewrite (bind_Ret _ _ _ _ _ Ei). by rewrite Hsti.
    + specialize (Hi eq_refl). destruct (GetMemorySpaceDescriptor OPTEE_SHM_START (gcd si)) as [st1 ds1] eqn:E1.
      destruct (EFI_ERROR st1) eqn:Hst1.
      * exists st1, si. split; [|congruence]. rewrite (bind_Ret _ _ s (inl st1) si); [done|].
        rewrite (bind_Ret _ _ _ _ _ Ei), Hsti, bind_gets, E1. by rewrite Hst1.
      * exists st1, si. split; [|by intros _; apply (Hready st1); rewrite ?E1].
        pose proof (descriptor_type OPTEE_SHM_START (gcd si)) as Ht. rewrite E1 in Ht.
        rewrite (bind_Ret _ _ s (inr (st1, ds1)) si).
        { simpl in Ht. rewrite (Ht Hst1), (proj2 (inv_space _ _ (proj1 Hi) _)); [done|].
          destruct shm_end, area. lia. }
        rewrite (bind_Ret _ _ _ _ _ Ei), Hsti, bind_gets, E1. by rewrite Hst1.
  - pose proof (descriptor_type OPTEE_SHM_START (gcd s)) as Ht. rewrite E0 in Ht. simpl in Ht.
    destruct (EFI_ERROR st0) eqn:Hst0.
    + exists EFI_OUT_OF_RESOURCES, s. split; [|done]. by rewrite (bind_Ret _ _ s (inl EFI_OUT_OF_RESOURCES) s).
    + rewrite (Ht eq_refl), (fresh_start s F), orb_true_r in Hc. done.
Qed.

(** finalisation passes exactly when the driver has freed all its
    buffers; otherwise a debug build halts. *)
Theorem OpteeClientApiFinalize_correct own s :
  shm_inv own s -> Z.of_nat (size own) < 2 ^ 64 ->
  OpteeClientApiFinalize s = if debug_build && negb (bool_decide (own = ∅)) then Stop Halt else Ret tt s.
Proof.
  intros I Hsz. unfold OpteeClientApiFinalize. rewrite !bind_gets, (inv_count _ _ I), (inv_size _ _ I).
  rewrite (wrap_small 64 (Z.of_nat _)) by (unfold in_word; lia).
  destruct (bool_decide_reflect (own = ∅)) as [->|Hne]; [by rewrite andb_false_r|].
  rewrite (proj2 (Z.eqb_neq _ 0)); [by rewrite andb_true_r; unfold ASSERT; destruct debug_build|].
  intros H. apply Hne, map_size_empty_inv. lia.
Qed.
End Correct.

(** ** A simple GCD *)

Module OpteeDemo.
(** One reserved range, and its allocated blocks. *)
Record space_map := { range : option (Z * Z); blocks : gmap Z Z }.

(** No block begins below this address. *)
Definition ceiling (d : space_map) (e : Z) : Z := map_fold (fun b _ z => Z.min b z) e (blocks d).

Definition grant (d : space_map) (b n : Z) : Z * Z * space_map :=
  (EFI_SUCCESS, b, {| range := range d; blocks := <[b := n]> (blocks d) |}).

Definition deny (d : space_map) (b : Z) : Z * Z * space_map := (EFI_OUT_OF_RESOURCES, b, d).

Definition round_down (k z : Z) : Z := 2 ^ k * (z / 2 ^ k).

#[export] Instance simple_gcd : Gcd space_map := {
  AddMemorySpace := fun t b n _ d =>
    match range d with
    | None => if t =? EfiGcdMemoryTypeReserved then (EFI_SUCCESS, {| range := Some (b, n); blocks := blocks d |})
              else (EFI_UNSUPPORTED, d)
    | Some _ => (EFI_ACCESS_DENIED, d)
    end;
  AllocateMemorySpace := fun a t k n b _ d =>
    match range d with
    | None => deny d b
    | Some (lo, len) =>
        let b' := if a =? EfiGcdAllocateAddress then b else round_down k (ceiling d (lo + len) - n) in
        if (0 <? n) && (0 <=? k) && (b' mod 2 ^ k =? 0) && (t =? EfiGcdMemoryTypeReserved) &&
           (lo <=? b') && (b' + n <=? ceiling d (lo + len))
        then grant d b' n else deny d b
    end;
  FreeMemorySpace := fun b n d =>
    if bool_decide (blocks d !! b = Some n)
    then (EFI_SUCCESS, {| range := range d; blocks := delete b (blocks d) |}) else (EFI_NOT_FOUND, d);
  GetMemorySpaceDescriptor := fun a d =>
    (EFI_SUCCESS, {| BaseAddress := a; GcdMemoryType :=
      match range d with
      | Some (lo, len) => if in_range lo len a then EfiGcdMemoryTypeReserved else EfiGcdMemoryTypeNonExistent
      | None => EfiGcdMemoryTypeNonExistent
      end |})
}.

#[export] Instance simple_view : GcdView space_map := {
  space := fun d a =>
    match range d with
    | Some (lo, len) => if in_range lo len a then EfiGcdMemoryTypeReserved else EfiGcdMemoryTypeNonExistent
    | None => EfiGcdMemoryTypeNonExistent
    end;
  held := blocks
}.

Lemma ceiling_spec d e : ceiling d e <= e /\ forall b n, blocks d !! b = Some n -> ceiling d e <= b.
Proof.
  unfold ceiling. induction (blocks d) as [|b n m Hb IH] using map_ind.
  - rewrite map_fold_empty. split; [lia|]. intros b n H. by rewrite lookup_empty in H.
  - rewrite map_fold_insert_L; [|intros; lia | done]. destruct IH as [H1 H2]. split; [lia|].
    intros b' n'. rewrite lookup_insert_Some. intros [[<- _]|[_ H]]; [lia|]. specialize (H2 _ _ H). lia.
Qed.

Lemma grant_inv a t k n b h d st b' d' : AllocateMemorySpace a t k n b h d = (st, b', d') ->
  EFI_ERROR st = false ->
  exists lo len, range d = Some (lo, len) /\ 0 < n /\ b' mod 2 ^ k = 0 /\ lo <= b' /\
    b' + n <= ceiling d (lo + len) /\ d' = {| range := range d; blocks := <[b' := n]> (blocks d) |} /\
    (a = EfiGcdAllocateAddress -> b' = b).
Proof.
  simpl. destruct (range d) as [[lo len]|] eqn:Er; [|intros E H; injection E as <- _ _; done].
  set (p := if a =? EfiGcdAllocateAddress then b else round_down k (ceiling d (lo + len) - n)).
  destruct ((0 <? n) && _ && _ && _ && _ && _) eqn:Ec; intros E H; [|injection E as <- _ _; done].
  injection E as _ <- <-. rewrite !andb_true_iff, Z.ltb_lt, !Z.leb_le, !Z.eqb_eq in Ec.
  destruct Ec as [[[[[H1 H2] H3] H4] H5] H6]. exists lo, len. rewrite Er.
  repeat split; try done. intros ->. done.
Qed.

#[export] Instance simple_laws : GcdLaws space_map.
Proof.
  split.
  - intros t b n c d. simpl. destruct (range d); [done|]. by destruct (t =? _).
  - intros a t k n b h d. simpl. destruct (range d) as [[lo len]|]; [|done].
    by destruct (_ && (_ <=? ceiling d (lo + len))).
  - intros b n d. simpl. by destruct (bool_decide _).
  - intros t b n c d. simpl. destruct (range d) as [[lo len]|]; [done|].
    destruct (Z.eqb_spec t EfiGcdMemoryTypeReserved) as [->|]; done.
  - intros k n b h d a st b' d' E Hst.
    destruct (grant_inv _ _ _ _ _ _ _ _ _ _ E Hst) as (lo & len & Er & Hn & Hal & Hlo & Hhi & -> & _).
    destruct (ceiling_spec d (lo + len)) as [Hc1 Hc2]. simpl. rewrite Er. repeat split; try done.
    + intros b1 n1 H1. specialize (Hc2 _ _ H1). lia.
    + intros x Hx. by rewrite (proj2 (in_range_spec _ _ _)) by lia.
  - intros k n b h d st b' d' E Hst.
    destruct (grant_inv _ _ _ _ _ _ _ _ _ _ E Hst) as (lo & len & _ & _ & _ & _ & _ & _ & H). by apply H.
  - intros b n d H. simpl in *. by rewrite bool_decide_true.
  - done.
Qed.

(** A megabyte of shared memory; its first page is reserved. *)
#[export] Instance platform : ShmPlatform := {
  PcdTrustZoneSharedMemoryBase := 0x8400000;
  PcdTrustZoneSharedMemorySize := 0x100000;
  gDriverImageHandle := 0x7f00
}.

#[export] Instance platform_ok : PlatformOk.
Proof. split; try exact eq_refl; [split; exact eq_refl | discriminate]. Qed.

#[export] Instance debug : Build := {| debug_build := true |}.

Definition boot : client space_map :=
  {| shm := fun _ => 0; gcd := {| range := None; blocks := ∅ |};
     mSharedMemAllocationCount := 0; mSharedMemAllocSize := 0 |}.

Lemma boot_fresh : fresh boot.
Proof. split; [intros x H; discriminate H | exact eq_refl | exact eq_refl | split; exact eq_refl]. Qed.

(** The area after initialisation, all fenced. *)
Definition fenced : client space_map :=
  {| shm := fill_bytes (fun _ => 0) OPTEE_SHM_START OPTEE_SHM_SIZE OPTEE_SHM_FREE_FENCE;
     gcd := {| range := Some (OPTEE_SHM_START, OPTEE_SHM_SIZE); blocks := ∅ |};
     mSharedMemAllocationCount := 0; mSharedMemAllocSize := 0 |}.

Lemma fenced_inv : shm_inv ∅ fenced.
Proof.
  destruct (ready_intro (shm fenced) (gcd fenced) boot boot_fresh) as [I _];
    [done | | by left | exact I].
  intros x. simpl. by destruct (in_range _ _ x).
Qed.

(** With one buffer of 100 bytes. *)
Definition block : Z := 0x84fe000.
Definition one_buffer : client space_map :=
  allocated block 4227 {| range := Some (OPTEE_SHM_START, OPTEE_SHM_SIZE); blocks := {[block := 4227]} |} fenced.

Lemma one_buffer_inv : shm_inv {[block := 4227]} one_buffer.
Proof.
  rewrite <- insert_empty. apply alloc_inv; [exact fenced_inv | | lia].
  repeat split; try exact eq_refl; done.
Qed.


(** Three bytes written to the buffer. *)
Definition busy : client space_map := set_shm (write_bytes (shm one_buffer) (block + 4100) [1; 2; 3]) one_buffer.


Lemma OpteeClientAlignedMemAlloc_correct_witness :
  (OpteeClientAlignedMemAlloc 100 64 fenced = Ret 0 fenced /\ gcd_refuses fenced (100 + 4127) = true) \/
  exists p s', OpteeClientAlignedMemAlloc 100 64 fenced = Ret p s' /\
    p mod 4096 = 0 /\ OPTEE_SHM_START < p /\ p + 100 <= OPTEE_SHM_END /\
    (forall b n, held (gcd fenced) !! b = Some n -> p + 100 <= b \/ b + n <= p) /\
    (forall b n x, held (gcd fenced) !! b = Some n -> b <= x < b + n -> shm s' x = shm fenced x) /\
    shm_inv (<[p - 4096 := 100 + 4127]> ∅) s'.
Proof.
  apply (OpteeClientAlignedMemAlloc_correct ∅); [exact fenced_inv | | lia | lia].
  right. exists 6. split; [lia | exact eq_refl].
Defined.

Lemma OpteeClientMemFree_correct_witness :
  exists st s', OpteeClientMemFree (block + 4096) one_buffer = Ret st s' /\
    only_changes block 4227 (shm one_buffer) (shm s') /\
    OpteeClientMemFree (block + 4096) s' = Ret EFI_INVALID_PARAMETER s' /\
    if EFI_ERROR st then gcd s' = gcd one_buffer /\
      mSharedMemAllocationCount s' = mSharedMemAllocationCount one_buffer /\
      mSharedMemAllocSize s' = mSharedMemAllocSize one_buffer
    else shm_inv (delete block {[block := 4227]}) s' /\
      held (gcd s') = delete block (held (gcd one_buffer)).
Proof. apply OpteeClientMemFree_correct; [exact one_buffer_inv | exact eq_refl]. Defined.

(** A stray byte in free memory. *)
Definition corrupted : client space_map :=
  set_shm (write_bytes (shm fenced) (block + 10) [0x41]) fenced.

Lemma OpteeClientMemAlloc_overflow_detected_witness :
  OpteeClientMemAlloc 100 corrupted = if debug_build then Stop Halt else
    Ret 0 (set_gcd {| range := Some (OPTEE_SHM_START, OPTEE_SHM_SIZE); blocks := {[block := 4227]} |} corrupted).
Proof.
  apply (OpteeClientMemAlloc_overflow_detected corrupted 100 EFI_SUCCESS block _ (block + 10));
    try exact eq_refl; try lia; try (split; exact eq_refl).
  - unfold block; simpl. discriminate.
  - discriminate.
  - discriminate.
Defined.

Lemma OpteeClientMemAlloc_size_wraps_witness :
  (OpteeClientMemAlloc (2 ^ 64 - 64) fenced = Ret 0 fenced /\
    gcd_refuses fenced (2 ^ 64 - 64 + 4127 - 2 ^ 64) = true) \/
  exists b n d, OpteeClientMemAlloc (2 ^ 64 - 64) fenced = Ret (b + 4096) (allocated b n d fenced) /\
    held d = <[b := n]> (held (gcd fenced)) /\ b + n < b + 4096 + 31.
Proof. apply (OpteeClientMemAlloc_size_wraps ∅); [exact fenced_inv | lia]. Defined.

Lemma OpteeClientMemInit_correct_witness :
  exists st s', OpteeClientMemInit boot = Ret st s' /\
    (EFI_ERROR st = false -> ready s' /\
      exists st', OpteeClientMemInit s' = Ret st' s' /\ EFI_ERROR st' = false).
Proof. apply OpteeClientMemInit_correct. exact boot_fresh. Defined.

Lemma OpteeClientApiFinalize_correct_witness :
  OpteeClientApiFinalize one_buffer =
    if debug_build && negb (bool_decide (({[block := 4227]} : gmap Z Z) = ∅)) then Stop Halt else Ret tt one_buffer.
Proof. apply OpteeClientApiFinalize_correct; [exact one_buffer_inv | exact eq_refl]. Defined.
End OpteeDemo.
