(* ===== verification/OpteeRpc.v ===== *)
(** * Calls to the secure world and its requests back

    Model of [src/Microsoft/OpteeClientPkg/Library/OpteeClientApiLib]:
    [Arm/OpteeClientSMC.c], which marshals an operation into a message in
    shared memory and makes the secure monitor call (SMC), and
    [Arm/OpteeClientRPC.c], which serves the requests the secure world makes
    before the call is complete.  Messages live in the byte memory the
    allocator of OpteeMem.v manages; the secure world, which reads and writes
    that memory during an SMC, and the firmware services are the class
    [SecureWorld]. *)

From Stdlib Require Import ZArith Lia.
From stdpp Require Import base list numbers option gmap.
From S2P Require Import Prelude Memory OpteeMem.

(** ** Constants *)

Definition TEEC_CONFIG_PAYLOAD_REF_COUNT : Z := 4.

Definition TEEC_NONE : Z := 0x0.
Definition TEEC_VALUE_INPUT : Z := 0x1.
Definition TEEC_VALUE_OUTPUT : Z := 0x2.
Definition TEEC_VALUE_INOUT : Z := 0x3.
Definition TEEC_MEMREF_TEMP_INPUT : Z := 0x5.
Definition TEEC_MEMREF_TEMP_OUTPUT : Z := 0x6.
Definition TEEC_MEMREF_TEMP_INOUT : Z := 0x7.

Definition TEEC_SUCCESS : Z := 0.
Definition TEEC_ERROR_GENERIC : Z := 0xFFFF0000.
Definition TEEC_ERROR_BAD_PARAMETERS : Z := 0xFFFF0006.
Definition TEEC_ERROR_BAD_STATE : Z := 0xFFFF0007.
Definition TEEC_ERROR_ITEM_NOT_FOUND : Z := 0xFFFF0008.
Definition TEEC_ERROR_NOT_IMPLEMENTED : Z := 0xFFFF0009.
Definition TEEC_ERROR_NOT_SUPPORTED : Z := 0xFFFF000A.
Definition TEEC_ERROR_OUT_OF_MEMORY : Z := 0xFFFF000C.
Definition TEEC_ERROR_COMMUNICATION : Z := 0xFFFF000E.

Definition TEEC_ORIGIN_API : Z := 1.
Definition TEEC_ORIGIN_COMMS : Z := 2.
Definition TEEC_LOGIN_PUBLIC : Z := 0.

Definition OPTEE_MSG_ATTR_TYPE_NONE : Z := 0x0.
Definition OPTEE_MSG_ATTR_TYPE_VALUE_INPUT : Z := 0x1.
Definition OPTEE_MSG_ATTR_TYPE_VALUE_OUTPUT : Z := 0x2.
Definition OPTEE_MSG_ATTR_TYPE_TMEM_INPUT : Z := 0x9.
Definition OPTEE_MSG_ATTR_TYPE_TMEM_OUTPUT : Z := 0xa.
Definition OPTEE_MSG_ATTR_META : Z := 0x100.
Definition OPTEE_MSG_ATTR_GET_TYPE (ATTR : Z) : Z := Z.land ATTR 0xFF.

Definition OPTEE_MSG_CMD_OPEN_SESSION : Z := 0.
Definition OPTEE_MSG_CMD_INVOKE_COMMAND : Z := 1.
Definition OPTEE_MSG_CMD_CLOSE_SESSION : Z := 2.

Definition OPTEE_MSG_RPC_CMD_LOAD_TA : Z := 0.
Definition OPTEE_MSG_RPC_CMD_RPMB : Z := 1.
Definition OPTEE_MSG_RPC_CMD_GET_TIME : Z := 3.
Definition OPTEE_MSG_RPC_CMD_WAIT_QUEUE : Z := 4.
Definition OPTEE_MSG_RPC_CMD_SHM_ALLOC : Z := 6.
Definition OPTEE_MSG_RPC_CMD_SHM_FREE : Z := 7.
Definition OPTEE_MSG_RPC_SHM_TYPE_APPL : Z := 0.
Definition OPTEE_MSG_RPC_SHM_TYPE_KERNEL : Z := 1.
Definition OPTEE_MSG_RPC_WAIT_QUEUE_SLEEP : Z := 0.
Definition OPTEE_MSG_RPC_WAIT_QUEUE_WAKEUP : Z := 1.

(** Standard calls owned by the trusted OS. *)
Definition OPTEE_SMC_STD_CALL_VAL (func_num : Z) : Z :=
  Z.lor (Z.shiftl (Z.land 50 0x3F) 24) (Z.land func_num 0xFFFF).
Definition OPTEE_SMC_CALL_WITH_ARG : Z := OPTEE_SMC_STD_CALL_VAL 4.
Definition OPTEE_SMC_CALL_RETURN_FROM_RPC : Z := OPTEE_SMC_STD_CALL_VAL 3.
Definition OPTEE_SMC_RETURN_UNKNOWN_FUNCTION : Z := 0xFFFFFFFF.
Definition OPTEE_SMC_RETURN_OK : Z := 0.
Definition OPTEE_SMC_RETURN_RPC_PREFIX : Z := 0xFFFF0000.
Definition OPTEE_SMC_RETURN_IS_RPC (ret : Z) : bool :=
  negb (ret =? OPTEE_SMC_RETURN_UNKNOWN_FUNCTION) && (Z.land ret 0xFFFF0000 =? OPTEE_SMC_RETURN_RPC_PREFIX).
Definition OPTEE_SMC_RETURN_GET_RPC_FUNC (ret : Z) : Z := Z.land ret 0xFFFF.
Definition OPTEE_SMC_RPC_FUNC_ALLOC : Z := 0.
Definition OPTEE_SMC_RPC_FUNC_FREE : Z := 2.
Definition OPTEE_SMC_RPC_FUNC_FOREIGN_INTR : Z := 4.
Definition OPTEE_SMC_RPC_FUNC_CMD : Z := 5.

Definition RPMB_CMD_DATA_REQ : Z := 0.
Definition RPMB_CMD_GET_DEV_INFO : Z := 1.
Definition RPMB_CMD_GET_DEV_INFO_RET_OK : Z := 0.
Definition RPMB_EMMC_CID_SIZE : Z := 16.
Definition EFI_RPMB_REQUEST_PROGRAM_KEY : Z := 1.
Definition EFI_RPMB_REQUEST_COUNTER_VALUE : Z := 2.
Definition EFI_RPMB_REQUEST_AUTH_WRITE : Z := 3.
Definition EFI_RPMB_REQUEST_AUTH_READ : Z := 4.

Definition NANOS_PER_SEC : Z := 1000000000.

(** *** Layouts *)

(** [struct optee_msg_arg]: field offsets; parameters of 32 bytes follow. *)
Definition MSG_cmd : Z := 0.
Definition MSG_func : Z := 4.
Definition MSG_session : Z := 8.
Definition MSG_ret : Z := 20.
Definition MSG_ret_origin : Z := 24.
Definition MSG_num_params : Z := 28.
Definition MSG_params : Z := 32.
Definition OPTEE_MSG_GET_ARG_SIZE (num_params : Z) : Z := 32 + 32 * num_params.

(** [struct optee_msg_param]: [attr], then the three words of the union. *)
Definition sizeof_param : Z := 32.
Definition PARAM_attr : Z := 0.
Definition PARAM_a : Z := 8.
Definition PARAM_b : Z := 16.
Definition PARAM_c : Z := 24.

(** [struct rpmb_req]; [EFI_RPMB_DATA_PACKET]; [struct rpmb_dev_info]. *)
Definition sizeof_rpmb_req : Z := 6.
Definition RPMB_REQ_block_count : Z := 4.
Definition PACKET_BlockCount : Z := 506.
Definition PACKET_RequestOrResponseType : Z := 510.
Definition DEV_INFO_rpmb_size_mult : Z := 16.
Definition DEV_INFO_rel_wr_sec_c : Z := 17.
Definition DEV_INFO_ret_code : Z := 18.

(** [TEEC_Parameter], a union over two words: [tmpref] is both words, [value]
    the two halves of the first. *)
Record TEEC_Parameter := { word0 : Z; word1 : Z }.
Definition value_a (p : TEEC_Parameter) : Z := u32 (word0 p).
Definition value_b (p : TEEC_Parameter) : Z := Z.shiftr (word0 p) 32.
Definition set_value (a b : Z) (p : TEEC_Parameter) : TEEC_Parameter :=
  {| word0 := u32 a + Z.shiftl (u32 b) 32; word1 := word1 p |}.

Record TEEC_Operation := { paramTypes : Z; params : list TEEC_Parameter }.
Definition TEEC_PARAM_TYPE_GET (p : Z) (i : nat) : Z := Z.land (Z.shiftr p (Z.of_nat i * 4)) 0xF.
Definition no_param : TEEC_Parameter := {| word0 := 0; word1 := 0 |}.

Record ARM_SMC_ARGS := { Arg0 : Z; Arg1 : Z; Arg2 : Z; Arg3 : Z; Arg4 : Z; Arg5 : Z; Arg6 : Z; Arg7 : Z }.

(** [ADDRESS64]: the upper and the lower half of an address. *)
Definition ADDRESS64 (H32 L32 : Z) : Z := Z.shiftl (u32 H32) 32 + u32 L32.

(** ** The secure world and the services *)

Class SecureWorld (W : Type) := {
  (** the call reads and writes shared memory *)
  ArmCallSmc : ARM_SMC_ARGS -> mem -> W -> ARM_SMC_ARGS * mem * W;
  (** how many requests the secure world can still make in this call *)
  rpcs_left : W -> nat;
  (** file GUID; status and the section, if a buffer was returned *)
  GetSectionFromAnyFv : list Z -> W -> Z * option (list Z) * W;
  FreePool : W -> W;
  (** the RPMB protocol of the eMMC: packets are addresses in memory *)
  LocateRpmbIo : W -> Z * W;
  ProgramKey : Z -> Z -> mem -> W -> Z * mem * W;
  ReadCounter : Z -> Z -> mem -> W -> Z * mem * W;
  AuthenticatedWrite : Z -> Z -> Z -> mem -> W -> Z * mem * W;
  AuthenticatedRead : Z -> Z -> Z -> mem -> W -> Z * mem * W;
  Cid : W -> list Z;
  ReliableSectorCount : W -> Z;
  RpmbSizeMult : W -> Z;
  GetPerformanceCounter : W -> Z * W;
  PerformanceFrequency : W -> Z
}.

Record tee (D W : Type) := { lib : client D; world : W }.
Arguments lib {D W} _.
Arguments world {D W} _.
Arguments Build_tee {D W} _ _.

Section Rpc.
Context {B : Build} {P : ShmPlatform} {D : Type} {G : Gcd D} {W : Type} {SW : SecureWorld W}.
Implicit Types s : tee D W.
Abbreviation MT := (M (tee D W)).

Definition set_lib (c : client D) s : tee D W := Build_tee c (world s).
Definition set_world (w : W) s : tee D W := Build_tee (lib s) w.
Definition in_lib {A} (c : M (client D) A) : MT A := zoom lib set_lib c.
Definition memory s : mem := shm (lib s).
Definition set_memory (m : mem) s : tee D W := set_lib (set_shm m (lib s)) s.

(** Little-endian accesses of [n] bytes; a store truncates. *)
Definition peek (n a : Z) : MT Z := gets (fun s => load n (memory s) a).
Definition poke (n a v : Z) : MT unit := modify (fun s => set_memory (write_bytes (memory s) a (le_bytes (Z.to_nat n) v)) s).
Definition poke_bytes (a : Z) (bs : list Z) : MT unit := modify (fun s => set_memory (write_bytes (memory s) a bs) s).

Definition service {A} (f : W -> A * W) : MT A := fun s => let '(a, w) := f (world s) in Ret a (set_world w s).
Definition on_memory {A} (f : mem -> W -> A * mem * W) : MT A :=
  fun s => let '(a, m, w) := f (memory s) (world s) in Ret a (set_world w (set_memory m s)).

(** ** Requests of the secure world: OpteeClientRPC.c *)

(** Result and the registers. *)
Definition OpteeRpcAlloc (r : ARM_SMC_ARGS) : MT (Z * ARM_SMC_ARGS) :=
  let Size := Arg1 r in
  Address ← (if negb (Size =? 0) then in_lib (OpteeClientMemAlloc Size) else mret 0);
  if negb (Size =? 0) && (Address =? 0) then mret (TEEC_ERROR_OUT_OF_MEMORY, r)
  else
    let H32 := Z.shiftr Address 32 in
    let L32 := u32 Address in
    mret (TEEC_SUCCESS, {| Arg0 := Arg0 r; Arg1 := H32; Arg2 := L32; Arg3 := Arg3 r; Arg4 := H32; Arg5 := L32;
                           Arg6 := Arg6 r; Arg7 := Arg7 r |}).

Definition OpteeRpcFree (r : ARM_SMC_ARGS) : MT Z :=
  Status ← in_lib (OpteeClientMemFree (ADDRESS64 (Arg1 r) (Arg2 r)));
  mret (if EFI_ERROR Status then TEEC_ERROR_BAD_PARAMETERS else TEEC_SUCCESS).

Definition num_params_is (MsgArg n : Z) : MT bool := k ← peek 4 (MsgArg + MSG_num_params); mret (k =? n).

(** The address of a parameter, and its type. *)
Definition param_at (MsgArg : Z) (i : Z) : Z := MsgArg + MSG_params + sizeof_param * i.
Definition param_type (Param : Z) : MT Z := attr ← peek 8 (Param + PARAM_attr); mret (OPTEE_MSG_ATTR_GET_TYPE attr).

(** [goto Exit] of the two requests that report their result themselves. *)
Definition report (MsgArg TeecResult : Z) : MT unit :=
  poke 4 (MsgArg + MSG_ret) TeecResult;; poke 4 (MsgArg + MSG_ret_origin) TEEC_ORIGIN_API.

(** The three leading fields of a UUID are big-endian. *)
Definition swap_uuid (u : list Z) : list Z :=
  match u with
  | a :: b :: c :: d :: e :: f :: g :: h :: l => d :: c :: b :: a :: f :: e :: h :: g :: l
  | l => l
  end.

(** The result, and the image to free. *)
Definition load_ta (Param0 Param1 : Z) : MT (Z * option (list Z)) :=
  t0 ← param_type Param0;
  t1 ← param_type Param1;
  if negb (t0 =? OPTEE_MSG_ATTR_TYPE_VALUE_INPUT) || negb (t1 =? OPTEE_MSG_ATTR_TYPE_TMEM_OUTPUT) then mret (TEEC_ERROR_BAD_PARAMETERS, None)
  else
    uuid ← gets (fun s => read_bytes (memory s) (Param0 + PARAM_a) 16);
    TaBufferSize ← peek 8 (Param1 + PARAM_b);
    '(Status, Image) ← service (GetSectionFromAnyFv (swap_uuid uuid));
    let ImageData := default [] Image in
    if EFI_ERROR Status then mret (TEEC_ERROR_ITEM_NOT_FOUND, Image)
    else if TaBufferSize <? Z.of_nat (length ImageData) then
      poke 8 (Param1 + PARAM_b) (Z.of_nat (length ImageData));; mret (TEEC_SUCCESS, Image)
    else
      buf ← peek 8 (Param1 + PARAM_a);
      poke_bytes buf ImageData;; mret (TEEC_SUCCESS, Image).

Definition OpteeRpcCmdLoadTa (MsgArg : Z) : MT Z :=
  two ← num_params_is MsgArg 2;
  '(TeecResult, ImageData) ← (if negb (two : bool) then mret (TEEC_ERROR_BAD_PARAMETERS, None) else load_ta (param_at MsgArg 0) (param_at MsgArg 1));
  report MsgArg TeecResult;;
  (match ImageData with Some _ => modify (fun s => set_world (FreePool (world s)) s) | None => mret tt end);;
  mret TeecResult.

Definition RpmbBytesToUint16 (RpmbBytes : Z) : MT Z :=
  ASSERT (negb (RpmbBytes =? 0));;
  hi ← peek 1 RpmbBytes;
  lo ← peek 1 (RpmbBytes + 1);
  mret (Z.lor (u16 (Z.shiftl hi 8)) lo).

(** A request to the device. *)
Definition rpmb_data (RpmbRequest ResponsePackets : Z) : MT Z :=
  let RequestPackets := RpmbRequest + sizeof_rpmb_req in
  RequestMsgType ← RpmbBytesToUint16 (RequestPackets + PACKET_RequestOrResponseType);
  let done Status := mret (if EFI_ERROR Status then TEEC_ERROR_GENERIC else TEEC_SUCCESS) in
  if RequestMsgType =? EFI_RPMB_REQUEST_PROGRAM_KEY then
    Status ← on_memory (ProgramKey RequestPackets ResponsePackets); done Status
  else if RequestMsgType =? EFI_RPMB_REQUEST_COUNTER_VALUE then
    Status ← on_memory (ReadCounter RequestPackets ResponsePackets); done Status
  else if RequestMsgType =? EFI_RPMB_REQUEST_AUTH_WRITE then
    PacketCount ← RpmbBytesToUint16 (RequestPackets + PACKET_BlockCount);
    Status ← on_memory (AuthenticatedWrite RequestPackets PacketCount ResponsePackets); done Status
  else if RequestMsgType =? EFI_RPMB_REQUEST_AUTH_READ then
    PacketCount ← peek 2 (RpmbRequest + RPMB_REQ_block_count);
    Status ← on_memory (AuthenticatedRead RequestPackets ResponsePackets PacketCount); done Status
  else ASSERT false;; mret TEEC_ERROR_BAD_PARAMETERS.

Definition rpmb_dev_info (RpmbDevInfo : Z) : MT Z :=
  cid ← gets (fun s => Cid (world s));
  rel ← gets (fun s => ReliableSectorCount (world s));
  mult ← gets (fun s => RpmbSizeMult (world s));
  poke_bytes RpmbDevInfo (take 16 cid);;
  poke 1 (RpmbDevInfo + DEV_INFO_rel_wr_sec_c) rel;;
  poke 1 (RpmbDevInfo + DEV_INFO_rpmb_size_mult) mult;;
  poke 1 (RpmbDevInfo + DEV_INFO_ret_code) RPMB_CMD_GET_DEV_INFO_RET_OK;;
  mret TEEC_SUCCESS.

Definition rpmb (Param0 Param1 : Z) : MT Z :=
  t0 ← param_type Param0;
  t1 ← param_type Param1;
  if negb (t0 =? OPTEE_MSG_ATTR_TYPE_TMEM_INPUT) || negb (t1 =? OPTEE_MSG_ATTR_TYPE_TMEM_OUTPUT) then mret TEEC_ERROR_BAD_PARAMETERS
  else
    Status ← service LocateRpmbIo;
    if EFI_ERROR Status then mret TEEC_ERROR_NOT_SUPPORTED
    else
      RpmbRequest ← peek 8 (Param0 + PARAM_a);
      cmd ← peek 2 RpmbRequest;
      out ← peek 8 (Param1 + PARAM_a);
      if cmd =? RPMB_CMD_DATA_REQ then rpmb_data RpmbRequest out
      else if cmd =? RPMB_CMD_GET_DEV_INFO then rpmb_dev_info out
      else ASSERT false;; mret TEEC_ERROR_NOT_SUPPORTED.

Definition OpteeRpcCmdRpmb (MsgArg : Z) : MT Z :=
  two ← num_params_is MsgArg 2;
  TeecResult ← (if negb (two : bool) then mret TEEC_ERROR_BAD_PARAMETERS else rpmb (param_at MsgArg 0) (param_at MsgArg 1));
  report MsgArg TeecResult;;
  mret TeecResult.

(** The memory types of the allocation requests; another one is reported, but
    the request is served all the same. *)
Definition shm_type_result (a : Z) : MT Z :=
  if (a =? OPTEE_MSG_RPC_SHM_TYPE_APPL) || (a =? OPTEE_MSG_RPC_SHM_TYPE_KERNEL) then mret TEEC_SUCCESS
  else ASSERT false;; mret TEEC_ERROR_BAD_PARAMETERS.

Definition OpteeRpcCmdShmAlloc (MsgArg : Z) : MT Z :=
  one ← num_params_is MsgArg 1;
  if negb (one : bool) then mret TEEC_ERROR_BAD_PARAMETERS
  else
    let Param := param_at MsgArg 0 in
    t ← param_type Param;
    if negb (t =? OPTEE_MSG_ATTR_TYPE_VALUE_INPUT) then mret TEEC_ERROR_BAD_PARAMETERS
    else
      a ← peek 8 (Param + PARAM_a);
      TeecResult ← shm_type_result a;
      BufferSize ← peek 8 (Param + PARAM_b);
      BufferAlignment ← peek 8 (Param + PARAM_c);
      Buffer ← in_lib (OpteeClientAlignedMemAlloc BufferSize BufferAlignment);
      if Buffer =? 0 then mret TEEC_ERROR_OUT_OF_MEMORY
      else
        poke 8 (Param + PARAM_attr) OPTEE_MSG_ATTR_TYPE_TMEM_OUTPUT;;
        poke 8 (Param + PARAM_a) Buffer;;
        poke 8 (Param + PARAM_b) BufferSize;;
        poke 8 (Param + PARAM_c) Buffer;;
        mret TeecResult.

Definition OpteeRpcCmdShmFree (MsgArg : Z) : MT Z :=
  one ← num_params_is MsgArg 1;
  if negb (one : bool) then mret TEEC_ERROR_BAD_PARAMETERS
  else
    let Param := param_at MsgArg 0 in
    t ← param_type Param;
    if negb (t =? OPTEE_MSG_ATTR_TYPE_VALUE_INPUT) then mret TEEC_ERROR_BAD_PARAMETERS
    else
      a ← peek 8 (Param + PARAM_a);
      TeecResult ← shm_type_result a;
      b ← peek 8 (Param + PARAM_b);
      Status ← in_lib (OpteeClientMemFree b);
      mret (if EFI_ERROR Status then TEEC_ERROR_BAD_STATE else TeecResult).

Definition OpteeRpcCmdGetTime (MsgArg : Z) : MT Z :=
  one ← num_params_is MsgArg 1;
  if negb (one : bool) then mret TEEC_ERROR_BAD_PARAMETERS
  else
    let Param := param_at MsgArg 0 in
    t ← param_type Param;
    if negb (t =? OPTEE_MSG_ATTR_TYPE_VALUE_OUTPUT) then mret TEEC_ERROR_BAD_PARAMETERS
    else
      Ticks ← service GetPerformanceCounter;
      Freq ← gets (fun s => PerformanceFrequency (world s));
      let ElapsedSeconds := Ticks / Freq in
      let ElapsedNanos := u64 (Ticks * NANOS_PER_SEC) / Freq in
      poke 8 (Param + PARAM_a) (Ticks / Freq);;
      poke 8 (Param + PARAM_b) (u64 (ElapsedNanos - u64 (ElapsedSeconds * NANOS_PER_SEC)));;
      mret TEEC_SUCCESS.

Definition OpteeRpcCmdWaitQueue (MsgArg : Z) : MT Z :=
  one ← num_params_is MsgArg 1;
  if negb (one : bool) then mret TEEC_ERROR_BAD_PARAMETERS
  else
    let Param := param_at MsgArg 0 in
    t ← param_type Param;
    if negb (t =? OPTEE_MSG_ATTR_TYPE_VALUE_INPUT) then mret TEEC_ERROR_BAD_PARAMETERS
    else
      a ← peek 8 (Param + PARAM_a);
      if (a =? OPTEE_MSG_RPC_WAIT_QUEUE_SLEEP) || (a =? OPTEE_MSG_RPC_WAIT_QUEUE_WAKEUP) then mret TEEC_SUCCESS
      else ASSERT false;; mret TEEC_ERROR_NOT_IMPLEMENTED.

(** A request with a message. *)
Definition rpc_command (MsgArg : Z) : MT Z :=
  cmd ← peek 4 (MsgArg + MSG_cmd);
  TeecResult ← (
    if cmd =? OPTEE_MSG_RPC_CMD_LOAD_TA then OpteeRpcCmdLoadTa MsgArg
    else if cmd =? OPTEE_MSG_RPC_CMD_RPMB then OpteeRpcCmdRpmb MsgArg
    else if cmd =? OPTEE_MSG_RPC_CMD_GET_TIME then OpteeRpcCmdGetTime MsgArg
    else if cmd =? OPTEE_MSG_RPC_CMD_SHM_ALLOC then OpteeRpcCmdShmAlloc MsgArg
    else if cmd =? OPTEE_MSG_RPC_CMD_SHM_FREE then OpteeRpcCmdShmFree MsgArg
    else if cmd =? OPTEE_MSG_RPC_CMD_WAIT_QUEUE then OpteeRpcCmdWaitQueue MsgArg
    else ASSERT false;; mret TEEC_ERROR_NOT_IMPLEMENTED);
  poke 4 (MsgArg + MSG_ret) TeecResult;;
  mret TeecResult.

Definition with_Arg0 (v : Z) (r : ARM_SMC_ARGS) : ARM_SMC_ARGS :=
  {| Arg0 := v; Arg1 := Arg1 r; Arg2 := Arg2 r; Arg3 := Arg3 r; Arg4 := Arg4 r; Arg5 := Arg5 r; Arg6 := Arg6 r; Arg7 := Arg7 r |}.

Definition OpteeRpcCallback (r : ARM_SMC_ARGS) : MT (Z * ARM_SMC_ARGS) :=
  ASSERT (OPTEE_SMC_RETURN_IS_RPC (Arg0 r));;
  let func := OPTEE_SMC_RETURN_GET_RPC_FUNC (Arg0 r) in
  '(TeecResult, r) ← (
    if func =? OPTEE_SMC_RPC_FUNC_ALLOC then OpteeRpcAlloc r
    else if func =? OPTEE_SMC_RPC_FUNC_FREE then res ← OpteeRpcFree r; mret (res, r)
    else if func =? OPTEE_SMC_RPC_FUNC_FOREIGN_INTR then mret (TEEC_SUCCESS, r)
    else if func =? OPTEE_SMC_RPC_FUNC_CMD then
      let MsgArg := ADDRESS64 (Arg1 r) (Arg2 r) in
      ASSERT (negb (MsgArg =? 0));;
      if MsgArg =? 0 then stopM Fault else res ← rpc_command MsgArg; mret (res, r)
    else ASSERT false;; mret (TEEC_ERROR_NOT_IMPLEMENTED, r));
  mret (TeecResult, with_Arg0 OPTEE_SMC_CALL_RETURN_FROM_RPC r).

(** ** Calls: OpteeClientSMC.c *)

Definition smc (r : ARM_SMC_ARGS) : MT ARM_SMC_ARGS := on_memory (ArmCallSmc r).

Fixpoint smc_loop (fuel : nat) (r : ARM_SMC_ARGS) : MT Z :=
  match fuel with
  | O => stopM NoFuel
  | S fuel =>
      r ← smc r;
      if OPTEE_SMC_RETURN_IS_RPC (Arg0 r) then '(_, r) ← OpteeRpcCallback r; smc_loop fuel r
      else if Arg0 r =? OPTEE_SMC_RETURN_UNKNOWN_FUNCTION then mret TEEC_ERROR_NOT_IMPLEMENTED
      else if negb (Arg0 r =? OPTEE_SMC_RETURN_OK) then mret TEEC_ERROR_COMMUNICATION
      else mret TEEC_SUCCESS
  end.

Definition call_args (MsgAddr : Z) : ARM_SMC_ARGS :=
  {| Arg0 := OPTEE_SMC_CALL_WITH_ARG; Arg1 := Z.shiftr MsgAddr 32; Arg2 := Z.land MsgAddr 0xFFFFFFFF; Arg3 := 0; Arg4 := 0;
     Arg5 := 0; Arg6 := 0; Arg7 := 0 |}.

Definition OpteeSmcCall (MsgArg : Z) : MT Z :=
  n ← gets (fun s => rpcs_left (world s));
  smc_loop (S n) (call_args MsgArg).

(** One parameter of the operation, into the message. *)
Definition set_param (Operation : TEEC_Operation) (MsgParam : Z) (Index : nat) : MT unit :=
  let attr := TEEC_PARAM_TYPE_GET (paramTypes Operation) Index in
  let p := default no_param (params Operation !! Index) in
  let at_ := MsgParam + sizeof_param * Z.of_nat Index in
  if attr =? TEEC_NONE then poke 8 (at_ + PARAM_attr) OPTEE_MSG_ATTR_TYPE_NONE
  else if (attr =? TEEC_VALUE_INPUT) || (attr =? TEEC_VALUE_OUTPUT) || (attr =? TEEC_VALUE_INOUT) then
    poke 8 (at_ + PARAM_attr) (OPTEE_MSG_ATTR_TYPE_VALUE_INPUT + (attr - TEEC_VALUE_INPUT));;
    poke 8 (at_ + PARAM_a) (value_a p);;
    poke 8 (at_ + PARAM_b) (value_b p)
  else if (attr =? TEEC_MEMREF_TEMP_INPUT) || (attr =? TEEC_MEMREF_TEMP_OUTPUT) || (attr =? TEEC_MEMREF_TEMP_INOUT) then
    poke 8 (at_ + PARAM_attr) (OPTEE_MSG_ATTR_TYPE_TMEM_INPUT + (attr - TEEC_MEMREF_TEMP_INPUT));;
    poke 8 (at_ + PARAM_a) (word0 p);;
    poke 8 (at_ + PARAM_b) (word1 p)
  else ASSERT false.

Definition indices : list nat := [0; 1; 2; 3]%nat.

Fixpoint set_params (l : list nat) (Operation : TEEC_Operation) (MsgParam : Z) : MT unit :=
  match l with
  | [] => mret tt
  | i :: l => set_param Operation MsgParam i;; set_params l Operation MsgParam
  end.

Definition SetMsgParams (Operation : TEEC_Operation) (MsgParam : Z) : MT unit := set_params indices Operation MsgParam.

(** One parameter of the message, back into the operation. *)
Definition get_param (MsgParam : Z) (Operation : TEEC_Operation) (Index : nat) : MT TEEC_Operation :=
  let attr := TEEC_PARAM_TYPE_GET (paramTypes Operation) Index in
  let at_ := MsgParam + sizeof_param * Z.of_nat Index in
  let put f := {| paramTypes := paramTypes Operation; params := alter f Index (params Operation) |} in
  if attr =? TEEC_NONE then mret Operation
  else if (attr =? TEEC_VALUE_INPUT) || (attr =? TEEC_VALUE_OUTPUT) || (attr =? TEEC_VALUE_INOUT) then
    a ← peek 8 (at_ + PARAM_a);
    b ← peek 8 (at_ + PARAM_b);
    mret (put (set_value a b))
  else if (attr =? TEEC_MEMREF_TEMP_INPUT) || (attr =? TEEC_MEMREF_TEMP_OUTPUT) || (attr =? TEEC_MEMREF_TEMP_INOUT) then
    buf ← peek 8 (at_ + PARAM_a);
    size ← peek 8 (at_ + PARAM_b);
    mret (put (fun _ => {| word0 := buf; word1 := size |}))
  else ASSERT false;; mret Operation.

Fixpoint get_params (l : list nat) (MsgParam : Z) (Operation : TEEC_Operation) : MT TEEC_Operation :=
  match l with
  | [] => mret Operation
  | i :: l => op ← get_param MsgParam Operation i; get_params l MsgParam op
  end.

Definition GetMsgParams (MsgParam : Z) (Operation : TEEC_Operation) : MT TEEC_Operation := get_params indices MsgParam Operation.

(** What a call leaves: result, origin, session and operation. *)
Record call_result := { cr_Result : Z; cr_Origin : Z; cr_Session : Z; cr_Operation : TEEC_Operation }.

(** A cleared message, or NULL. *)
Definition new_message (NumParams : Z) : MT Z :=
  MsgArg ← in_lib (OpteeClientMemAlloc (OPTEE_MSG_GET_ARG_SIZE NumParams));
  if MsgArg =? 0 then mret 0
  else modify (fun s => set_memory (fill_bytes (memory s) MsgArg (OPTEE_MSG_GET_ARG_SIZE NumParams) 0) s);; mret MsgArg.

(** The opening message: the two meta parameters, the UUID and the login,
    come before the parameters of the caller. *)
Definition fill_OpenSession (Destination : list Z) (Operation : TEEC_Operation) (MsgArg : Z) : MT unit :=
  poke 4 (MsgArg + MSG_cmd) OPTEE_MSG_CMD_OPEN_SESSION;;
  poke 4 (MsgArg + MSG_num_params) (TEEC_CONFIG_PAYLOAD_REF_COUNT + 2);;
  poke 8 (param_at MsgArg 0 + PARAM_attr) (Z.lor OPTEE_MSG_ATTR_TYPE_VALUE_INPUT OPTEE_MSG_ATTR_META);;
  poke_bytes (param_at MsgArg 0 + PARAM_a) (take 16 Destination);;
  poke 8 (param_at MsgArg 1 + PARAM_attr) (Z.lor OPTEE_MSG_ATTR_TYPE_VALUE_INPUT OPTEE_MSG_ATTR_META);;
  poke 8 (param_at MsgArg 1 + PARAM_c) TEEC_LOGIN_PUBLIC;;
  SetMsgParams Operation (param_at MsgArg 2).

(** What follows the call, up to [Exit]. *)
Definition finish_OpenSession (SessionId : Z) (Operation : TEEC_Operation) (MsgArg TeecResult : Z) : MT call_result :=
  if negb (TeecResult =? TEEC_SUCCESS) then
    mret {| cr_Result := TeecResult; cr_Origin := TEEC_ORIGIN_COMMS; cr_Session := SessionId; cr_Operation := Operation |}
  else
    i ← peek 4 (MsgArg + MSG_session);
    TeecResult ← peek 4 (MsgArg + MSG_ret);
    o ← peek 4 (MsgArg + MSG_ret_origin);
    op ← GetMsgParams (param_at MsgArg 0) Operation;
    mret {| cr_Result := TeecResult; cr_Origin := o; cr_Session := i; cr_Operation := op |}.

Definition out_of_memory (SessionId : Z) (Operation : TEEC_Operation) : call_result :=
  {| cr_Result := TEEC_ERROR_OUT_OF_MEMORY; cr_Origin := TEEC_ORIGIN_API; cr_Session := SessionId; cr_Operation := Operation |}.

Definition TEEC_SMC_OpenSession (SessionId : Z) (Destination : list Z) (Operation : TEEC_Operation) : MT call_result :=
  MsgArg ← new_message (TEEC_CONFIG_PAYLOAD_REF_COUNT + 2);
  if MsgArg =? 0 then mret (out_of_memory SessionId Operation)
  else
    fill_OpenSession Destination Operation MsgArg;;
    TeecResult ← OpteeSmcCall MsgArg;
    r ← finish_OpenSession SessionId Operation MsgArg TeecResult;
    in_lib (OpteeClientMemFree MsgArg);;
    mret r.

Definition fill_CloseSession (SessionId : Z) (MsgArg : Z) : MT unit :=
  poke 4 (MsgArg + MSG_cmd) OPTEE_MSG_CMD_CLOSE_SESSION;;
  poke 4 (MsgArg + MSG_session) SessionId.

(** Result and origin. *)
Definition finish_CloseSession (MsgArg TeecResult : Z) : MT (Z * Z) :=
  if negb (TeecResult =? TEEC_SUCCESS) then mret (TeecResult, TEEC_ORIGIN_COMMS)
  else
    TeecResult ← peek 4 (MsgArg + MSG_ret);
    o ← peek 4 (MsgArg + MSG_ret_origin);
    mret (TeecResult, o).

Definition TEEC_SMC_CloseSession (SessionId : Z) : MT (Z * Z) :=
  MsgArg ← new_message 0;
  if MsgArg =? 0 then mret (TEEC_ERROR_OUT_OF_MEMORY, TEEC_ORIGIN_API)
  else
    fill_CloseSession SessionId MsgArg;;
    TeecResult ← OpteeSmcCall MsgArg;
    r ← finish_CloseSession MsgArg TeecResult;
    in_lib (OpteeClientMemFree MsgArg);;
    mret r.

Definition fill_InvokeCommand (SessionId CmdId : Z) (Operation : TEEC_Operation) (MsgArg : Z) : MT unit :=
  poke 4 (MsgArg + MSG_cmd) OPTEE_MSG_CMD_INVOKE_COMMAND;;
  poke 4 (MsgArg + MSG_func) CmdId;;
  poke 4 (MsgArg + MSG_session) SessionId;;
  poke 4 (MsgArg + MSG_num_params) TEEC_CONFIG_PAYLOAD_REF_COUNT;;
  SetMsgParams Operation (param_at MsgArg 0).

Definition finish_InvokeCommand (SessionId : Z) (Operation : TEEC_Operation) (MsgArg TeecResult : Z) : MT call_result :=
  if negb (TeecResult =? TEEC_SUCCESS) then
    mret {| cr_Result := TeecResult; cr_Origin := TEEC_ORIGIN_COMMS; cr_Session := SessionId; cr_Operation := Operation |}
  else
    TeecResult ← peek 4 (MsgArg + MSG_ret);
    o ← peek 4 (MsgArg + MSG_ret_origin);
    op ← GetMsgParams (param_at MsgArg 0) Operation;
    mret {| cr_Result := TeecResult; cr_Origin := o; cr_Session := SessionId; cr_Operation := op |}.

Definition TEEC_SMC_InvokeCommand (SessionId CmdId : Z) (Operation : TEEC_Operation) : MT call_result :=
  MsgArg ← new_message TEEC_CONFIG_PAYLOAD_REF_COUNT;
  if MsgArg =? 0 then mret (out_of_memory SessionId Operation)
  else
    fill_InvokeCommand SessionId CmdId Operation MsgArg;;
    TeecResult ← OpteeSmcCall MsgArg;
    r ← finish_InvokeCommand SessionId Operation MsgArg TeecResult;
    in_lib (OpteeClientMemFree MsgArg);;
    mret r.
End Rpc.
