(* ===== verification/OpteeClientApi.v ===== *)
(** * The TEE client API and the firmware TPM behind it

    Model of
    [src/Microsoft/OpteeClientPkg/Library/OpteeClientApiLib/OpteeClientApiLib.c],
    the GlobalPlatform client API over the calls of OpteeRpc.v, and of
    [Tpm2DeviceLibOptee.c], the TPM driver library that sends its commands
    through it.  A pointer argument that may be NULL is an option, or a
    boolean where only that matters. *)

From Stdlib Require Import ZArith Lia.
From stdpp Require Import base list numbers option gmap.
From S2P Require Import Prelude Memory OpteeMem OpteeRpc.

Record TEEC_SharedMemory := { buffer : Z; sm_size : Z; flags : Z; shadow_buffer : Z }.

Section Api.
Context {B : Build} {P : ShmPlatform} {D : Type} {G : Gcd D} {W : Type} {SW : SecureWorld W}.
Implicit Types s : tee D W.
Abbreviation MT := (M (tee D W)).

(** The handle of the driver is [gDriverImageHandle] from here on; the
    argument tells whether it was NULL before. *)
Definition OpteeClientApiInitialize (handle_was_null : bool) : MT Z :=
  ASSERT handle_was_null;;
  in_lib OpteeClientMemInit.

(** Result, and the context cleared. *)
Definition TEEC_InitializeContext (Name Context : bool) : Z * bool :=
  if negb Context then (TEEC_ERROR_BAD_PARAMETERS, false)
  else if Name then (TEEC_ERROR_ITEM_NOT_FOUND, false)
  else (TEEC_SUCCESS, true).

Definition TEEC_FinalizeContext : MT unit := mret tt.

Definition TEEC_AllocateSharedMemory (Context : bool) (SharedMem : option TEEC_SharedMemory) : MT (Z * option TEEC_SharedMemory) :=
  match SharedMem with
  | None => mret (TEEC_ERROR_BAD_PARAMETERS, None)
  | Some m =>
      if negb Context then mret (TEEC_ERROR_BAD_PARAMETERS, Some m)
      else if negb (flags m =? 0) then mret (TEEC_ERROR_BAD_PARAMETERS, Some m)
      else
        p ← in_lib (OpteeClientMemAlloc (sm_size m));
        let m' := {| buffer := p; sm_size := sm_size m; flags := flags m; shadow_buffer := p |} in
        mret (if p =? 0 then TEEC_ERROR_OUT_OF_MEMORY else TEEC_SUCCESS, Some m')
  end.

(** The structure, after the call. *)
Definition TEEC_ReleaseSharedMemory (SharedMem : option TEEC_SharedMemory) : MT (option TEEC_SharedMemory) :=
  match SharedMem with
  | None => mret None
  | Some m =>
      if buffer m =? 0 then mret (Some m)
      else
        Status ← (if negb (shadow_buffer m =? 0) then in_lib (OpteeClientMemFree (shadow_buffer m)) else mret EFI_SUCCESS);
        if EFI_ERROR Status then mret (Some m)
        else mret (Some {| buffer := 0; sm_size := 0; flags := flags m; shadow_buffer := 0 |})
  end.

Definition TEEC_RegisterSharedMemory : Z := TEEC_ERROR_NOT_IMPLEMENTED.

Definition TeecNullOperation : TEEC_Operation := {| paramTypes := 0; params := [no_param; no_param; no_param; no_param] |}.

(** Result, origin, session, and the operation. *)
Definition TEEC_OpenSession (Context : bool) (Session : option Z) (Destination : option (list Z)) (ConnectionMethod : Z)
    (Operation : option TEEC_Operation) : MT call_result :=
  let op := default TeecNullOperation Operation in
  let fail r i := mret {| cr_Result := r; cr_Origin := TEEC_ORIGIN_API; cr_Session := i; cr_Operation := op |} in
  match Session, Destination with
  | Some i, Some uuid =>
      if negb Context then fail TEEC_ERROR_BAD_PARAMETERS i
      else if negb (ConnectionMethod =? TEEC_LOGIN_PUBLIC) then fail TEEC_ERROR_NOT_SUPPORTED i
      else TEEC_SMC_OpenSession i uuid op
  | _, _ => fail TEEC_ERROR_BAD_PARAMETERS (default 0 Session)
  end.

Definition TEEC_CloseSession (Session : option Z) : MT unit :=
  match Session with
  | None => mret tt
  | Some i => TEEC_SMC_CloseSession i;; mret tt
  end.

Definition TEEC_InvokeCommand (Session : option Z) (CommandID : Z) (Operation : option TEEC_Operation) : MT call_result :=
  let op := default TeecNullOperation Operation in
  match Session with
  | None => mret {| cr_Result := TEEC_ERROR_BAD_PARAMETERS; cr_Origin := TEEC_ORIGIN_API; cr_Session := 0; cr_Operation := op |}
  | Some i => TEEC_SMC_InvokeCommand i CommandID op
  end.

Definition TEEC_RequestCancellation : MT unit := ASSERT false.
End Api.

(** ** Tpm2DeviceLibOptee.c *)

Definition TA_FTPM_SUBMIT_COMMAND : Z := 0.

Definition TEEC_PARAM_TYPES (p0 p1 p2 p3 : Z) : Z :=
  Z.lor (Z.lor (Z.lor p0 (Z.shiftl p1 4)) (Z.shiftl p2 8)) (Z.shiftl p3 12).

Record ftpm (D W : Type) := { ftee : tee D W; Initialized : bool; FtpmSession : Z }.
Arguments ftee {D W} _.
Arguments Initialized {D W} _.
Arguments FtpmSession {D W} _.
Arguments Build_ftpm {D W} _ _ _.

Section Tpm.
Context {B : Build} {P : ShmPlatform} {D : Type} {G : Gcd D} {W : Type} {SW : SecureWorld W}.
Implicit Types s : ftpm D W.
Abbreviation MF := (M (ftpm D W)).

Definition set_ftee (t : tee D W) s : ftpm D W := Build_ftpm t (Initialized s) (FtpmSession s).
Definition in_tee {A} (c : M (tee D W) A) : MF A := zoom ftee set_ftee c.

(** Status, the output size, and what is copied to the output block. *)
Record submit_result := { su_Status : Z; su_Size : Z; su_Output : list Z }.

(** The operation of a command: the input, then the room for the output. *)
Definition submit_operation (SharedInput InputSize OutputSize : Z) : TEEC_Operation :=
  {| paramTypes := TEEC_PARAM_TYPES TEEC_MEMREF_TEMP_INPUT TEEC_MEMREF_TEMP_INOUT TEEC_NONE TEEC_NONE;
     params := [{| word0 := SharedInput; word1 := InputSize |}; {| word0 := SharedInput + InputSize; word1 := OutputSize |};
                no_param; no_param] |}.

Definition Tpm2SubmitCommand (InputParameterBlockSize : Z) (InputParameterBlock : list Z) (OutputParameterBlockSize : Z) : MF submit_result :=
  let fail Status := {| su_Status := Status; su_Size := OutputParameterBlockSize; su_Output := [] |} in
  ready ← gets Initialized;
  if negb ready then mret (fail EFI_NOT_READY)
  else
    '(TeecResult, mem) ← in_tee (TEEC_AllocateSharedMemory true
       (Some {| buffer := 0; sm_size := u32 (InputParameterBlockSize + OutputParameterBlockSize); flags := 0; shadow_buffer := 0 |}));
    let SharedInput := match mem with Some m => buffer m | None => 0 end in
    if negb (TeecResult =? TEEC_SUCCESS) then
      ASSERT false;;
      mret (fail (if TeecResult =? TEEC_ERROR_OUT_OF_MEMORY then EFI_OUT_OF_RESOURCES else EFI_DEVICE_ERROR))
    else
      in_tee (poke_bytes SharedInput (take (Z.to_nat InputParameterBlockSize) InputParameterBlock));;
      session ← gets FtpmSession;
      r ← in_tee (TEEC_InvokeCommand (Some session) TA_FTPM_SUBMIT_COMMAND
                    (Some (submit_operation SharedInput InputParameterBlockSize OutputParameterBlockSize)));
      res ← (if negb (cr_Result r =? TEEC_SUCCESS) then ASSERT false;; mret (fail EFI_DEVICE_ERROR)
             else
               let size := word1 (default no_param (params (cr_Operation r) !! 1%nat)) in
               out ← in_tee (gets (fun t => read_bytes (memory t) (SharedInput + InputParameterBlockSize) size));
               mret {| su_Status := EFI_SUCCESS; su_Size := u32 size; su_Output := out |});
      in_tee (TEEC_ReleaseSharedMemory mem);;
      mret res.

(** [gOpteeFtpmTaGuid], with its leading fields swapped. *)
Definition Tpm2RequestUseTpm (FtpmTaGuid : list Z) : MF Z :=
  let '(TeecResult, _) := TEEC_InitializeContext false true in
  ASSERT (TeecResult =? TEEC_SUCCESS);;
  session ← gets FtpmSession;
  r ← in_tee (TEEC_OpenSession true (Some session) (Some (swap_uuid FtpmTaGuid)) TEEC_LOGIN_PUBLIC None);
  modify (fun s => Build_ftpm (ftee s) (Initialized s) (cr_Session r));;
  if negb (cr_Result r =? TEEC_SUCCESS) then ASSERT false;; mret EFI_DEVICE_ERROR
  else modify (fun s => Build_ftpm (ftee s) true (FtpmSession s));; mret EFI_SUCCESS.

Definition Tpm2RelinquishUseTpm : MF unit :=
  ready ← gets Initialized;
  (if (ready : bool) then
     session ← gets FtpmSession;
     in_tee (TEEC_CloseSession (Some session));;
     in_tee TEEC_FinalizeContext;;
     modify (fun s => Build_ftpm (ftee s) false (FtpmSession s))
   else mret tt);;
  in_tee (in_lib OpteeClientApiFinalize).

Definition Tpm2RegisterTpm2DeviceLib : MF Z := ASSERT false;; mret EFI_UNSUPPORTED.
End Tpm.
