(* ===== verification/OpteeRpcSpec.v ===== *)
(** * The contract with the secure world

    What the secure world may ask for and write while it serves a call
    ([SecureLaws]), the invariant of the shared memory it holds blocks of, and
    that serving its requests keeps both ([callback_spec], [smc_loop_spec]). *)

From Stdlib Require Import ZArith Lia.
From stdpp Require Import base list numbers option gmap.
From S2P Require Import Prelude Memory OpteeMem OpteeMemProps OpteeRpc.

(** ** Memory the parties may write *)

(** The buffer inside a block of the allocator. *)
Definition pay (own : gmap Z Z) (x : Z) : Prop := exists b n, own !! b = Some n /\ b + 4096 <= x < b + n - 31.

(** What the secure world may write: its blocks and the areas lent to it. *)
Definition open (sec : gmap Z Z) (L : list (Z * Z)) (x : Z) : Prop :=
  pay sec x \/ exists r, r ∈ L /\ r.1 <= x < r.1 + r.2.

Definition opened (sec : gmap Z Z) (L : list (Z * Z)) (a n : Z) : Prop := forall x, a <= x < a + n -> open sec L x.

(** The output buffers a message names, and the message. *)
Definition lent_param (m : mem) (Param : Z) : list (Z * Z) :=
  let t := OPTEE_MSG_ATTR_GET_TYPE (load 8 m (Param + PARAM_attr)) in
  if (t =? 0xa) || (t =? 0xb) then [(load 8 m (Param + PARAM_a), load 8 m (Param + PARAM_b))] else [].
Definition lent (m : mem) (MsgArg : Z) : list (Z * Z) :=
  let n := load 4 m (MsgArg + MSG_num_params) in
  (MsgArg, OPTEE_MSG_GET_ARG_SIZE n) :: mjoin ((fun i => lent_param m (param_at MsgArg i)) <$> seqZ 0 n).

(** ** Requests *)

Inductive command :=
| C_load_ta
| C_rpmb
| C_time
| C_wait
| C_alloc (n align : Z)
| C_free (b : Z).

Inductive request :=
| Rq_none
| Rq_alloc (n : Z)
| Rq_free (b : Z)
| Rq_interrupt
| Rq_command (p : Z) (c : command).

Definition code_of (c : command) : Z :=
  match c with
  | C_load_ta => OPTEE_MSG_RPC_CMD_LOAD_TA
  | C_rpmb => OPTEE_MSG_RPC_CMD_RPMB
  | C_time => OPTEE_MSG_RPC_CMD_GET_TIME
  | C_wait => OPTEE_MSG_RPC_CMD_WAIT_QUEUE
  | C_alloc _ _ => OPTEE_MSG_RPC_CMD_SHM_ALLOC
  | C_free _ => OPTEE_MSG_RPC_CMD_SHM_FREE
  end.

(** A parameter: its type and its words. *)
Definition param_is (m : mem) (Param t : Z) : Prop := OPTEE_MSG_ATTR_GET_TYPE (load 8 m (Param + PARAM_attr)) = t.

(** A message of the secure world, in one of its blocks [b0]. *)
Record message (sec : gmap Z Z) (m : mem) (p b0 n0 num : Z) : Prop := {
  ms_block : sec !! b0 = Some n0;
  ms_low : b0 + 4096 <= p;
  ms_high : p + OPTEE_MSG_GET_ARG_SIZE num <= b0 + n0 - 31;
  ms_params : load 4 m (p + MSG_num_params) = num;
  ms_count : 1 <= num <= 2
}.

(** The bytes the RPMB device answers with. *)
Definition rpmb_answer (m : mem) (req : Z) : Z :=
  if load 2 m req =? RPMB_CMD_GET_DEV_INFO then 19 else 512 * Z.max 1 (load 2 m (req + RPMB_REQ_block_count)).
Definition be16 (m : mem) (a : Z) : Z := Z.lor (u16 (Z.shiftl (load 1 m a) 8)) (load 1 m (a + 1)).
Definition rpmb_known (m : mem) (req : Z) : Prop :=
  load 2 m req = RPMB_CMD_GET_DEV_INFO \/
  (load 2 m req = RPMB_CMD_DATA_REQ /\ 1 <= be16 m (req + sizeof_rpmb_req + PACKET_RequestOrResponseType) <= 4).

(** What the secure world keeps to when it asks for a command. *)
Definition command_ok (sec : gmap Z Z) (L : list (Z * Z)) (m : mem) (p : Z) (c : command) : Prop :=
  exists b0 n0 num, message sec m p b0 n0 num /\
  match c with
  | C_load_ta => num = 2 /\ opened sec L (load 8 m (param_at p 1 + PARAM_a)) (load 8 m (param_at p 1 + PARAM_b))
  | C_rpmb =>
      let req := load 8 m (param_at p 0 + PARAM_a) in
      num = 2 /\ 0 <= req /\ rpmb_known m req /\ opened sec L (load 8 m (param_at p 1 + PARAM_a)) (rpmb_answer m req)
  | C_time => num = 1
  | C_wait => num = 1 /\ 0 <= load 8 m (param_at p 0 + PARAM_a) <= 1
  | C_alloc n align =>
      num = 1 /\ param_is m (param_at p 0) OPTEE_MSG_ATTR_TYPE_VALUE_INPUT /\ 0 <= load 8 m (param_at p 0 + PARAM_a) <= 1 /\
      load 8 m (param_at p 0 + PARAM_b) = n /\ load 8 m (param_at p 0 + PARAM_c) = align /\ alignment align /\ 0 <= n /\ n + 4127 < 2 ^ 64
  | C_free b =>
      num = 1 /\ param_is m (param_at p 0) OPTEE_MSG_ATTR_TYPE_VALUE_INPUT /\ 0 <= load 8 m (param_at p 0 + PARAM_a) <= 1 /\
      b <> b0 /\ (exists n, sec !! b = Some n) /\ load 8 m (param_at p 0 + PARAM_b) = b + 4096
  end.

(** A request, in the registers and in memory. *)
Definition asks (sec : gmap Z Z) (L : list (Z * Z)) (r : ARM_SMC_ARGS) (m : mem) (rq : request) : Prop :=
  match rq with
  | Rq_none => OPTEE_SMC_RETURN_IS_RPC (Arg0 r) = false
  | Rq_alloc n => Arg0 r = 0xFFFF0000 /\ Arg1 r = n /\ 0 <= n < 2 ^ 32
  | Rq_free b => Arg0 r = 0xFFFF0002 /\ ADDRESS64 (Arg1 r) (Arg2 r) = b + 4096 /\ exists n, sec !! b = Some n
  | Rq_interrupt => Arg0 r = 0xFFFF0004
  | Rq_command p c =>
      Arg0 r = 0xFFFF0005 /\ ADDRESS64 (Arg1 r) (Arg2 r) = p /\ load 4 m (p + MSG_cmd) = code_of c /\ command_ok sec L m p c
  end.

Section Area.
Context {P : ShmPlatform}.

(** An answer: with it the secure world holds [sec2].  An address outside of
    the shared area is no memory. *)
Definition answers (sec : gmap Z Z) (r : ARM_SMC_ARGS) (m : mem) (rq : request) (sec2 : gmap Z Z) : Prop :=
  match rq with
  | Rq_none => False
  | Rq_alloc n =>
      let p := ADDRESS64 (Arg1 r) (Arg2 r) in
      sec2 = if (OPTEE_SHM_START <=? p) && (p <? OPTEE_SHM_END) then <[p - 4096 := n + 4127]> sec else sec
  | Rq_free b => sec2 = delete b sec
  | Rq_interrupt => sec2 = sec
  | Rq_command p c =>
      let ok := load 4 m (p + MSG_ret) =? TEEC_SUCCESS in
      sec2 = match c with
             | C_alloc n _ => if ok then <[load 8 m (param_at p 0 + PARAM_a) - 4096 := n + 4127]> sec else sec
             | C_free b => delete b sec
             | _ => sec
             end
  end.
End Area.

(** ** The laws *)

(** [serving rq sec L w]: the secure world waits for the answer to [rq] while
    it holds the blocks [sec] and may write the areas [L]; between calls it
    waits for nothing. *)
Class SecureView (W : Type) := { serving : request -> gmap Z Z -> list (Z * Z) -> W -> Prop }.

Definition idle {W} `{SecureView W} (sec : gmap Z Z) (w : W) : Prop := serving Rq_none sec [] w.

(** What the secure world does not notice. *)
Definition same {W} `{SecureWorld W, SecureView W} (w w' : W) : Prop :=
  (forall rq sec L, serving rq sec L w -> serving rq sec L w') /\ rpcs_left w' = rpcs_left w.

Class SecureLaws (W : Type) `{ShmPlatform, SecureWorld W, SecureView W} : Prop := {
  (** A call, and what it leads to. *)
  smc_call sec w p m r m' w' :
    idle sec w -> ArmCallSmc (call_args p) m w = (r, m', w') ->
    let L := lent m p in
    (forall x, m' x <> m x -> open sec L x) /\
    exists rq, asks sec L r m' rq /\ serving rq sec (match rq with Rq_none => [] | _ => L end) w' /\
      (rq <> Rq_none -> (rpcs_left w' < rpcs_left w)%nat);
  smc_answer rq sec L w r m r' m' w' sec2 :
    serving rq sec L w -> rq <> Rq_none -> Arg0 r = OPTEE_SMC_CALL_RETURN_FROM_RPC -> answers sec r m rq sec2 ->
    ArmCallSmc r m w = (r', m', w') ->
    (forall x, m' x <> m x -> open sec2 L x) /\
    exists rq', asks sec2 L r' m' rq' /\ serving rq' sec2 (match rq' with Rq_none => [] | _ => L end) w' /\
      (rq' <> Rq_none -> (rpcs_left w' < rpcs_left w)%nat);
  (** The firmware services do not concern it. *)
  same_section g w : same w (GetSectionFromAnyFv g w).2;
  same_free w : same w (FreePool w);
  same_locate w : same w (LocateRpmbIo w).2;
  same_clock w : same w (GetPerformanceCounter w).2;
  (** The device answers in the response packets. *)
  rpmb_program a b m w : let '(_, m', w') := ProgramKey a b m w in same w w' /\ only_changes b 512 m m';
  rpmb_counter a b m w : let '(_, m', w') := ReadCounter a b m w in same w w' /\ only_changes b 512 m m';
  rpmb_write a n b m w : let '(_, m', w') := AuthenticatedWrite a n b m w in same w w' /\ only_changes b 512 m m';
  rpmb_read a b n m w : let '(_, m', w') := AuthenticatedRead a b n m w in same w w' /\ only_changes b (512 * n) m m'
}.

(** The shared area is below 4 GB, and not at 0. *)
Class ShmLow `{ShmPlatform} : Prop := { shm_low : 0 < OPTEE_SHM_START /\ OPTEE_SHM_END <= 2 ^ 32 }.

(** The GCD takes back what it has handed out. *)
Class GcdFrees (D : Type) `{Gcd D, GcdView D} : Prop := {
  free_held b n d : held d !! b = Some n -> EFI_ERROR (FreeMemorySpace b n d).1 = false
}.

(** ** Memory and ownership *)

Section Ownership.
Context {P : ShmPlatform} {D : Type} {V : GcdView D}.
Implicit Types (own cli sec : gmap Z Z) (c : client D).

(** [m'] differs from [m] only where [Q] holds. *)
Definition touches (Q : Z -> Prop) (m m' : mem) : Prop := forall x, m' x <> m x -> Q x.

Lemma touches_refl (Q : Z -> Prop) m : touches Q m m.
Proof. by intros x. Qed.

Lemma touches_trans (Q : Z -> Prop) m1 m2 m3 : touches Q m1 m2 -> touches Q m2 m3 -> touches Q m1 m3.
Proof. intros H1 H2 x Hx. destruct (Z.eq_dec (m2 x) (m1 x)) as [E|E]; [apply H2; by rewrite E | by apply H1]. Qed.

Lemma touches_mono (Q R : Z -> Prop) m m' : (forall x, Q x -> R x) -> touches Q m m' -> touches R m m'.
Proof. intros HQ H x Hx. by apply HQ, H. Qed.

Lemma touches_write (Q : Z -> Prop) m a bs : (forall x, a <= x < a + Z.of_nat (length bs) -> Q x) -> touches Q m (write_bytes m a bs).
Proof.
  intros H x Hx. apply H. destruct (in_range a (Z.of_nat (length bs)) x) eqn:E; [by apply in_range_spec in E|].
  apply in_range_false in E. by rewrite write_bytes_out in Hx.
Qed.

Lemma touches_fill (Q : Z -> Prop) m a n v : (forall x, a <= x < a + n -> Q x) -> touches Q m (fill_bytes m a n v).
Proof.
  intros H x Hx. apply H. destruct (in_range a n x) eqn:E; [by apply in_range_spec in E|].
  apply in_range_false in E. by rewrite fill_bytes_out in Hx.
Qed.

Lemma touches_changes (Q : Z -> Prop) m m' a n : only_changes a n m m' -> (forall x, a <= x < a + n -> Q x) -> touches Q m m'.
Proof.
  intros H HQ x Hx. apply HQ. destruct (in_range a n x) eqn:E; [by apply in_range_spec in E|]. by rewrite (H x E) in Hx.
Qed.

(** Bytes where nothing is touched are as before. *)
Lemma touches_load (Q : Z -> Prop) m m' n a : touches Q m m' -> (forall x, a <= x < a + n -> ~ Q x) -> load n m' a = load n m a.
Proof. intros H HQ. apply load_ext. intros x Hx. destruct (Z.eq_dec (m' x) (m x)) as [|E]; [done|]. exfalso. by apply (HQ x Hx), H. Qed.

Lemma pay_own own c b n : shm_inv own c -> own !! b = Some n -> held (gcd c) !! b = Some n.
Proof. intros I H. by apply (lookup_weaken _ _ _ _ H), (inv_own _ _ I). Qed.

(** Writes into the buffers of its blocks keep the allocator's invariant. *)
Lemma touch_inv own c m : shm_inv own c -> touches (pay own) (shm c) m -> shm_inv own (set_shm m c).
Proof.
  intros I T. assert (Hkeep : forall x, ~ pay own x -> m x = shm c x).
  { intros x Hx. destruct (Z.eq_dec (m x) (shm c x)) as [|E]; [done|]. by destruct Hx; apply T. }
  split; cbn [set_shm shm gcd mSharedMemAllocationCount mSharedMemAllocSize]; try apply I.
  - intros b n H. destruct (inv_header _ _ I b n H) as (H1 & H2 & H3). split; [done|]. split; [done|].
    apply (header_ext (shm c)); [|done]. intros x Hx. apply Hkeep. intros (b' & n' & H' & Hr).
    destruct (decide (b' = b)) as [->|Hne]; [lia|].
    pose proof (inv_disjoint _ _ I b n b' n' (pay_own _ _ b n I H) (pay_own _ _ b' n' I H') ltac:(congruence)). lia.
  - intros x Hx Hfree. rewrite Hkeep; [by apply (inv_fence _ _ I)|]. intros (b' & n' & H' & Hr).
    pose proof (Hfree b' n' (pay_own _ _ b' n' I H')). lia.
Qed.

Lemma pay_union_l cli sec x : pay cli x -> pay (cli ∪ sec) x.
Proof. intros (b & n & H & Hx). exists b, n. split; [by apply lookup_union_Some_l | done]. Qed.

Lemma pay_union_r cli sec x : cli ##ₘ sec -> pay sec x -> pay (cli ∪ sec) x.
Proof. intros Hd (b & n & H & Hx). exists b, n. split; [by apply lookup_union_Some_r | done]. Qed.

(** No byte is in two buffers. *)
Lemma pay_disjoint cli sec c x : shm_inv (cli ∪ sec) c -> cli ##ₘ sec -> pay cli x -> pay sec x -> False.
Proof.
  intros I Hd (b & n & H & Hx) (b' & n' & H' & Hx').
  assert (E : (cli ∪ sec) !! b = Some n) by (by apply lookup_union_Some_l).
  assert (E' : (cli ∪ sec) !! b' = Some n') by (by apply lookup_union_Some_r).
  assert (Hne : b <> b') by (intros ->; exact (proj1 (map_disjoint_spec cli sec) Hd b' n n' H H')).
  pose proof (inv_disjoint _ _ I b n b' n' (pay_own _ _ _ _ I E) (pay_own _ _ _ _ I E') Hne). lia.
Qed.
End Ownership.

Section Serving.
Context {B : Build} {P : ShmPlatform} {D : Type} {G : Gcd D} {V : GcdView D} {L0 : GcdLaws D} {O : PlatformOk} {GF : GcdFrees D}.
Context {W : Type} {SW : SecureWorld W} {SV : SecureView W} {SL : SecureLaws W}.
Implicit Types (s : tee D W) (cli sec : gmap Z Z) (L : list (Z * Z)).

(** The client holds [cli], the secure world [sec], and what is lent lies in
    the client's buffers. *)
Record tee_inv cli sec L s : Prop := {
  ti_shm : shm_inv (cli ∪ sec) (lib s);
  ti_disj : cli ##ₘ sec;
  ti_lent r x : r ∈ L -> r.1 <= x < r.1 + r.2 -> pay cli x
}.

(** The client's buffers that are not lent keep their contents. *)
Definition kept cli L s s' : Prop :=
  forall x, pay cli x -> (forall r, r ∈ L -> ~ r.1 <= x < r.1 + r.2) -> memory s' x = memory s x.

Lemma kept_refl cli L s : kept cli L s s.
Proof. by intros x. Qed.

Lemma kept_trans cli L s1 s2 s3 : kept cli L s1 s2 -> kept cli L s2 s3 -> kept cli L s1 s3.
Proof. intros H1 H2 x Hx HL. by rewrite H2, H1. Qed.

(** A step that only writes what is open to the secure world. *)
Record wrote sec L s s' : Prop := {
  wr_gcd : gcd (lib s') = gcd (lib s);
  wr_count : mSharedMemAllocationCount (lib s') = mSharedMemAllocationCount (lib s);
  wr_size : mSharedMemAllocSize (lib s') = mSharedMemAllocSize (lib s);
  wr_mem : touches (open sec L) (memory s) (memory s')
}.

Lemma wrote_none sec L s : wrote sec L s s.
Proof. split; [done|done|done|]. apply touches_refl. Qed.

Lemma wrote_chain sec L s1 s2 s3 : wrote sec L s1 s2 -> wrote sec L s2 s3 -> wrote sec L s1 s3.
Proof. intros [A1 A2 A3 A4] [B1 B2 B3 B4]. split; [congruence | congruence | congruence | by eapply touches_trans]. Qed.

Lemma open_pay cli sec L s x : tee_inv cli sec L s -> open sec L x -> pay (cli ∪ sec) x.
Proof.
  intros I [Hx|(r & Hr & Hx)]; [apply pay_union_r; [apply I | done] | apply pay_union_l; by eapply (ti_lent _ _ _ _ I)].
Qed.

Lemma same_refl (w : W) : same w w.
Proof. by split. Qed.

Lemma same_trans (w1 w2 w3 : W) : same w1 w2 -> same w2 w3 -> same w1 w3.
Proof. intros [A1 A2] [B1 B2]. split; [auto | congruence]. Qed.

Lemma wrote_inv cli sec L s s' : tee_inv cli sec L s -> wrote sec L s s' -> tee_inv cli sec L s'.
Proof.
  intros I Hw. split; [|apply I | apply I]. assert (E : lib s' = set_shm (memory s') (lib s)).
  { destruct Hw as [H1 H2 H3 _]. destruct (lib s') as [m g c z] eqn:E'. simpl in *. unfold memory. rewrite E'. unfold set_shm. simpl. by subst. }
  rewrite E. apply touch_inv; [apply I|]. eapply touches_mono; [|apply Hw]. intros x. by apply open_pay with (s := s).
Qed.

Lemma wrote_kept cli sec L s s' : tee_inv cli sec L s -> wrote sec L s s' -> kept cli L s s'.
Proof.
  intros I Hw x Hx HL. destruct (Z.eq_dec (memory s' x) (memory s x)) as [|E]; [done|]. exfalso.
  destruct (wr_mem _ _ _ _ Hw x E) as [Hs|(r & Hr & Hx')]; [|by eapply HL].
  by eapply pay_disjoint; [apply I | apply I | |].
Qed.

Lemma wp_poke sec L n a v s Q : 0 <= n -> opened sec L a n ->
  (forall s', wrote sec L s s' -> world s' = world s -> memory s' = write_bytes (memory s) a (le_bytes (Z.to_nat n) v) -> Q tt s') ->
  wp (poke n a v) s Q.
Proof.
  intros Hn Ho HQ. apply wp_modify, HQ; [|done|done]. split; [done|done|done|]. apply touches_write.
  intros x Hx. rewrite length_le_bytes in Hx. apply Ho. lia.
Qed.

Lemma wp_poke_bytes sec L a bs s Q : opened sec L a (Z.of_nat (length bs)) ->
  (forall s', wrote sec L s s' -> world s' = world s -> Q tt s') -> wp (poke_bytes a bs) s Q.
Proof. intros Ho HQ. apply wp_modify, HQ; [|done]. split; [done|done|done|]. by apply touches_write. Qed.

Lemma wp_tee_service {A} sec L (f : W -> A * W) s Q : same (world s) (f (world s)).2 ->
  (forall s', wrote sec L s s' -> same (world s) (world s') -> memory s' = memory s -> Q (f (world s)).1 s') -> wp (service f) s Q.
Proof.
  intros Hf HQ. unfold wp, service. destruct (f (world s)) as [a w] eqn:E. simpl in *. apply HQ; [|done|done]. split; [done|done|done|]. apply touches_refl.
Qed.

Lemma wp_on_memory {A} sec L (f : mem -> W -> A * mem * W) a n s Q :
  (let '(_, m, w) := f (memory s) (world s) in same (world s) w /\ only_changes a n (memory s) m) -> opened sec L a n ->
  (forall r s', wrote sec L s s' -> same (world s) (world s') -> Q r s') -> wp (on_memory f) s Q.
Proof.
  intros Hf Ho HQ. unfold wp, on_memory. destruct (f (memory s) (world s)) as [[r m] w]. destruct Hf as [Hw Hm].
  apply HQ; [|done]. split; [done|done|done|]. by eapply touches_changes.
Qed.
End Serving.
