(* ===== verification/OpteeRpcServe.v ===== *)
(** * Serving the secure world

    Each request keeps the invariant of the shared memory, returns what the
    secure world is waiting for, and leaves the client's buffers alone:
    [callback_spec] for one request, [OpteeSmcCall_spec] for a whole call. *)

From Stdlib Require Import ZArith Lia.
From stdpp Require Import base list numbers option gmap.
From S2P Require Import Prelude Memory OpteeMem OpteeMemProps OpteeRpc OpteeRpcSpec.

(** [wp_go], through the loads of a message as well. *)
Ltac tee_go :=
  repeat (progress wp_go || (lazymatch goal with
  | |- wp (peek _ _) _ _ => apply wp_gets
  | |- wp (param_type _) _ _ => unfold param_type
  | |- wp (num_params_is _ _) _ _ => unfold num_params_is
  end; cbn beta)).

Section Serve.
Context {B : Build} {P : ShmPlatform} {D : Type} {G : Gcd D} {V : GcdView D} {L0 : GcdLaws D} {O : PlatformOk} {GF : GcdFrees D} {LO : ShmLow}.
Context {W : Type} {SW : SecureWorld W} {SV : SecureView W} {SL : SecureLaws W}.
Implicit Types (s : tee D W) (cli sec : gmap Z Z) (L : list (Z * Z)).

(** ** Requests that move no block *)

(** A step of such a request. *)
Definition quiet sec L s s' : Prop := wrote sec L s s' /\ same (world s) (world s').

Lemma quiet_refl sec L s : quiet sec L s s.
Proof. split; [apply wrote_none | apply same_refl]. Qed.

Lemma quiet_trans sec L s1 s2 s3 : quiet sec L s1 s2 -> quiet sec L s2 s3 -> quiet sec L s1 s3.
Proof. intros [A1 A2] [B1 B2]. split; [by eapply wrote_chain | by eapply same_trans]. Qed.

Lemma wrote_quiet sec L s s' : wrote sec L s s' -> world s' = world s -> quiet sec L s s'.
Proof. intros Hw E. split; [done|]. rewrite E. apply same_refl. Qed.

Lemma message_opened sec L m p b0 n0 num k n : message sec m p b0 n0 num -> 0 <= k -> k + n <= OPTEE_MSG_GET_ARG_SIZE num ->
  opened sec L (p + k) n.
Proof.
  intros [H1 H2 H3 _ _] Hk Hn x Hx. left. exists b0, n0. split; [done|]. lia.
Qed.

Lemma opened_sub sec L a n a' n' : opened sec L a n -> a <= a' -> a' + n' <= a + n -> opened sec L a' n'.
Proof. intros H H1 H2 x Hx. apply H. lia. Qed.

Lemma wp_if {A} (b : bool) (c1 c2 : M (tee D W) A) s Q : (b = true -> wp c1 s Q) -> (b = false -> wp c2 s Q) -> wp (if b then c1 else c2) s Q.
Proof. by destruct b; auto. Qed.

Lemma load_ta_spec sec L p b0 n0 s : message sec (memory s) p b0 n0 2 ->
  opened sec L (load 8 (memory s) (param_at p 1 + PARAM_a)) (load 8 (memory s) (param_at p 1 + PARAM_b)) ->
  wp (load_ta (param_at p 0) (param_at p 1)) s (fun _ s' => quiet sec L s s').
Proof.
  intros Hm Ho. unfold load_ta. tee_go.
  apply wp_if; intros _; [wp_go; apply quiet_refl|]. tee_go. eapply (wp_tee_service sec L); [apply same_section|].
  intros s1 Hw1 Hs1 Em. destruct (GetSectionFromAnyFv _ (world s)) as [[st img] w]. simpl. wp_go.
  assert (Hq1 : quiet sec L s s1) by done.
  apply wp_if; intros _; [by wp_go|]. apply wp_if; intros Hlen; wp_go.
  - eapply (wp_poke sec L); [lia | |].
    + replace (param_at p 1 + PARAM_b) with (p + (32 + 32 * 1 + 16)) by (unfold param_at, MSG_params, sizeof_param, PARAM_b; lia).
      eapply message_opened; [exact Hm | lia | unfold OPTEE_MSG_GET_ARG_SIZE; lia].
    + intros s2 Hw2 E2 _. wp_go. eapply quiet_trans; [exact Hq1 | by apply wrote_quiet].
  - tee_go. rewrite Em. eapply (wp_poke_bytes sec L).
    + eapply opened_sub; [exact Ho | lia |]. apply Z.ltb_ge in Hlen. lia.
    + intros s2 Hw2 E2. wp_go. eapply quiet_trans; [exact Hq1 | by apply wrote_quiet].
Qed.

Lemma report_spec sec L m p b0 n0 num s r : message sec m p b0 n0 num -> wp (report p r) s (fun _ s' => quiet sec L s s').
Proof.
  intros Hm. pose proof (ms_count _ _ _ _ _ _ Hm) as Hc. unfold report. wp_go. eapply (wp_poke sec L); [lia | |].
  - eapply message_opened; [exact Hm | unfold MSG_ret; lia | unfold MSG_ret, OPTEE_MSG_GET_ARG_SIZE; lia].
  - intros s1 Hw1 E1 _. eapply (wp_poke sec L); [lia | |].
    + eapply message_opened; [exact Hm | unfold MSG_ret_origin; lia | unfold MSG_ret_origin, OPTEE_MSG_GET_ARG_SIZE; lia].
    + intros s2 Hw2 E2 _. eapply quiet_trans; by apply wrote_quiet.
Qed.

Lemma OpteeRpcCmdLoadTa_spec sec L p s : command_ok sec L (memory s) p C_load_ta ->
  wp (OpteeRpcCmdLoadTa p) s (fun _ s' => quiet sec L s s').
Proof.
  intros (b0 & n0 & num & Hm & -> & Ho). unfold OpteeRpcCmdLoadTa. tee_go. rewrite (ms_params _ _ _ _ _ _ Hm). cbn [Z.eqb Pos.eqb negb].
  eapply wp_mono; [by eapply load_ta_spec|]. intros [r img] s1 Hq1. tee_go. eapply wp_mono; [by eapply report_spec|].
  intros ? s2 Hq2. pose proof (quiet_trans _ _ _ _ _ Hq1 Hq2) as Hq. destruct img; tee_go; [|done].
  eapply quiet_trans; [exact Hq|]. split; [|apply same_free]. split; [done|done|done|]. apply touches_refl.
Qed.

(** *** The RPMB device *)

Lemma bytes16_spec a s (Q : Z -> tee D W -> Prop) : a <> 0 -> Q (be16 (memory s) a) s -> wp (RpmbBytesToUint16 a) s Q.
Proof. intros Ha HQ. unfold RpmbBytesToUint16. tee_go. apply wp_ASSERT; [by rewrite (proj2 (Z.eqb_neq _ _))|]. tee_go. exact HQ. Qed.

Lemma rpmb_data_spec sec L req out s : 0 <= req ->
  1 <= be16 (memory s) (req + sizeof_rpmb_req + PACKET_RequestOrResponseType) <= 4 ->
  opened sec L out (512 * Z.max 1 (load 2 (memory s) (req + RPMB_REQ_block_count))) ->
  wp (rpmb_data req out) s (fun _ s' => quiet sec L s s').
Proof.
  intros Hreq Ht Ho. unfold rpmb_data. wp_go. apply bytes16_spec; [unfold sizeof_rpmb_req, PACKET_RequestOrResponseType; lia|].
  set (t := be16 _ _) in *. assert (Ho1 : opened sec L out 512) by (eapply opened_sub; [exact Ho | lia | lia]).
  assert (Hdone : forall (r : Z) s', wrote sec L s s' -> same (world s) (world s') ->
    wp (mret (if EFI_ERROR r then TEEC_ERROR_GENERIC else TEEC_SUCCESS)) s' (fun _ s' => quiet sec L s s')) by (intros r s' H1 H2; by split).
  apply wp_if; intros E1; [|apply wp_if; intros E2; [|apply wp_if; intros E3; [|apply wp_if; intros E4]]]; tee_go.
  - eapply (wp_on_memory sec L); [apply rpmb_program | exact Ho1 | exact Hdone].
  - eapply (wp_on_memory sec L); [apply rpmb_counter | exact Ho1 | exact Hdone].
  - apply bytes16_spec; [unfold sizeof_rpmb_req, PACKET_BlockCount; lia|]. tee_go.
    eapply (wp_on_memory sec L); [apply rpmb_write | exact Ho1 | exact Hdone].
  - eapply (wp_on_memory sec L); [apply rpmb_read | eapply opened_sub; [exact Ho | lia | lia] | exact Hdone].
  - exfalso. unfold EFI_RPMB_REQUEST_PROGRAM_KEY, EFI_RPMB_REQUEST_COUNTER_VALUE, EFI_RPMB_REQUEST_AUTH_WRITE, EFI_RPMB_REQUEST_AUTH_READ in *.
    apply Z.eqb_neq in E1, E2, E3, E4. lia.
Qed.

Lemma rpmb_dev_info_spec sec L out s : opened sec L out 19 -> wp (rpmb_dev_info out) s (fun _ s' => quiet sec L s s').
Proof.
  intros Ho. unfold rpmb_dev_info. tee_go. eapply (wp_poke_bytes sec L).
  { eapply opened_sub; [exact Ho | lia |]. rewrite length_take. lia. }
  intros s1 W1 E1. tee_go. eapply (wp_poke sec L); [lia | eapply opened_sub; [exact Ho | unfold DEV_INFO_rel_wr_sec_c; lia..] |].
  intros s2 W2 E2 _. tee_go. eapply (wp_poke sec L); [lia | eapply opened_sub; [exact Ho | unfold DEV_INFO_rpmb_size_mult; lia..] |].
  intros s3 W3 E3 _. tee_go. eapply (wp_poke sec L); [lia | eapply opened_sub; [exact Ho | unfold DEV_INFO_ret_code; lia..] |].
  intros s4 W4 E4 _. tee_go. repeat (eapply quiet_trans; [by apply wrote_quiet|]). apply quiet_refl.
Qed.

Lemma OpteeRpcCmdRpmb_spec sec L p s : command_ok sec L (memory s) p C_rpmb -> wp (OpteeRpcCmdRpmb p) s (fun _ s' => quiet sec L s s').
Proof.
  intros (b0 & n0 & num & Hm & -> & Hreq & Hk & Ho). unfold OpteeRpcCmdRpmb. tee_go. rewrite (ms_params _ _ _ _ _ _ Hm). cbn [Z.eqb Pos.eqb negb].
  eapply (wp_mono _ _ (fun _ s1 => quiet sec L s s1)).
  - unfold rpmb. tee_go. apply wp_if; intros _; [tee_go; apply quiet_refl|]. tee_go. eapply (wp_tee_service sec L); [apply same_locate|].
    intros s1 W1 S1 Em. apply wp_if; intros _; [tee_go; by split|]. tee_go. rewrite Em.
    set (req := load 8 (memory s) (param_at p 0 + PARAM_a)) in *. set (out := load 8 (memory s) (param_at p 1 + PARAM_a)) in *.
    assert (Hin : quiet sec L s s1) by (by split). destruct Hk as [Ek|[Ek Ht]]; unfold rpmb_answer in Ho; rewrite Ek in *; cbn [Z.eqb Pos.eqb RPMB_CMD_GET_DEV_INFO RPMB_CMD_DATA_REQ] in *.
    + eapply wp_mono; [by eapply rpmb_dev_info_spec|]. intros r s2 Hq. exact (quiet_trans _ _ _ _ _ Hin Hq).
    + rewrite <- Em in Ht, Ho. eapply wp_mono; [by eapply rpmb_data_spec|]. intros r s2 Hq. exact (quiet_trans _ _ _ _ _ Hin Hq).
  - intros r s1 Hq1. tee_go. eapply wp_mono; [by eapply report_spec|]. intros ? s2 Hq2. tee_go. exact (quiet_trans _ _ _ _ _ Hq1 Hq2).
Qed.

(** *** Time and waiting *)

Lemma OpteeRpcCmdGetTime_spec sec L p s : command_ok sec L (memory s) p C_time -> wp (OpteeRpcCmdGetTime p) s (fun _ s' => quiet sec L s s').
Proof.
  intros (b0 & n0 & num & Hm & ->). unfold OpteeRpcCmdGetTime. tee_go. rewrite (ms_params _ _ _ _ _ _ Hm). cbn [Z.eqb Pos.eqb negb].
  apply wp_if; intros _; [tee_go; apply quiet_refl|]. tee_go. eapply (wp_tee_service sec L); [apply same_clock|]. intros s1 W1 S1 _. tee_go.
  assert (Hin : forall k, 0 <= k -> k + 8 <= 64 -> opened sec L (p + k) 8).
  { intros k H1 H2. eapply message_opened; [exact Hm | done | unfold OPTEE_MSG_GET_ARG_SIZE; lia]. }
  unfold param_at, MSG_params, sizeof_param, PARAM_a, PARAM_b.
  eapply (wp_poke sec L); [lia | replace (p + 32 + 32 * 0 + 8) with (p + 40) by lia; apply Hin; lia |]. intros s2 W2 E2 _. tee_go.
  eapply (wp_poke sec L); [lia | replace (p + 32 + 32 * 0 + 16) with (p + 48) by lia; apply Hin; lia |]. intros s3 W3 E3 _. tee_go.
  eapply quiet_trans; [by split|]. repeat (eapply quiet_trans; [by apply wrote_quiet|]). apply quiet_refl.
Qed.

Lemma OpteeRpcCmdWaitQueue_spec sec L p s : command_ok sec L (memory s) p C_wait -> wp (OpteeRpcCmdWaitQueue p) s (fun _ s' => quiet sec L s s').
Proof.
  intros (b0 & n0 & num & Hm & -> & Ha). unfold OpteeRpcCmdWaitQueue. tee_go. rewrite (ms_params _ _ _ _ _ _ Hm). cbn [Z.eqb Pos.eqb negb].
  apply wp_if; intros _; [tee_go; apply quiet_refl|]. tee_go. apply wp_if; intros E; [tee_go; apply quiet_refl|]. exfalso.
  apply orb_false_iff in E as [E1 E2]. apply Z.eqb_neq in E1, E2. unfold OPTEE_MSG_RPC_WAIT_QUEUE_SLEEP, OPTEE_MSG_RPC_WAIT_QUEUE_WAKEUP in *. lia.
Qed.

(** ** Requests that move blocks *)

(** The bytes of a block. *)
Definition block (b n x : Z) : Prop := b <= x < b + n.

Lemma block_pay own c b n x : shm_inv own c -> unclaimed (held (gcd c)) b n -> block b n x -> ~ pay own x.
Proof.
  intros I Hun Hx (b' & n' & H & Hx'). pose proof (pay_own _ _ _ _ I H) as Hh. specialize (Hun b' n' Hh). unfold block in Hx. lia.
Qed.

(** An allocation: NULL, or a fresh block with its buffer a page in. *)
Lemma lib_alloc own s Size Align : shm_inv own (lib s) -> alignment Align -> 0 <= Size -> Size + 4127 < 2 ^ 64 ->
  wp (in_lib (OpteeClientAlignedMemAlloc Size Align)) s (fun p s' => (p = 0 /\ s' = s) \/
    exists b, p = b + 4096 /\ 0 <= b /\ own !! b = None /\ shm_inv (<[b := Size + 4127]> own) (lib s') /\ world s' = world s /\
      OPTEE_SHM_START <= b /\ b + Size + 4127 <= OPTEE_SHM_END /\
      touches (block b (Size + 4127)) (memory s) (memory s') /\ forall x, pay own x -> ~ block b (Size + 4127) x).
Proof.
  intros I Ha H0 H1. apply wp_zoom. unfold wp. destruct (aligned_alloc own (lib s) Size Align I Ha H0 H1) as [[-> _]|(b & d & -> & F)].
  - left. split; [done|]. by destruct s.
  - right. exists b. assert (Hn : 0 < Size + 4127) by lia. pose proof (fresh_own _ _ _ _ _ I F Hn) as Hnone.
    pose proof F as (_ & Hun & Hlo & Hhi & _). pose proof shm_end as [_ ?]. split; [done|]. split; [lia|]. split; [done|].
    split; [apply (alloc_inv _ _ _ _ _ I F); lia|]. split; [done|]. split; [done|]. split; [lia|]. split.
    + intros x Hx. unfold block. destruct (in_range (b + 4064) 32 x) eqn:E; [apply in_range_spec in E; lia|].
      apply in_range_false in E. unfold memory in Hx. simpl in Hx. rewrite header_write_out in Hx by lia. done.
    + intros x Hx Hb. by eapply block_pay.
Qed.

Lemma lib_free own s b n : shm_inv own (lib s) -> own !! b = Some n ->
  wp (in_lib (OpteeClientMemFree (b + 4096))) s (fun st s' => EFI_ERROR st = false /\ shm_inv (delete b own) (lib s') /\ world s' = world s /\
    touches (block b n) (memory s) (memory s')).
Proof.
  intros I Hb. apply wp_zoom. unfold wp. destruct (free_run own (lib s) b n I Hb) as (st & m & c & -> & Est & Hm & Hc).
  assert (E : EFI_ERROR st = false) by (rewrite Est; apply free_held; by eapply pay_own). rewrite E in Hc.
  destruct Hc as (d & -> & Hd & Hsp). split; [done|]. split; [by apply (free_inv own (lib s) b n)|]. split; [done|].
  intros x Hx. unfold block. destruct (in_range b n x) eqn:Er; [by apply in_range_spec in Er|]. apply in_range_false in Er.
  unfold memory in Hx. simpl in Hx. rewrite Hm, fill_bytes_out in Hx by done. done.
Qed.

Lemma param_words p : param_at p 0 + PARAM_attr = p + 32 /\ param_at p 0 + PARAM_a = p + 40 /\ param_at p 0 + PARAM_b = p + 48 /\
  param_at p 0 + PARAM_c = p + 56.
Proof. unfold param_at, MSG_params, sizeof_param, PARAM_attr, PARAM_a, PARAM_b, PARAM_c. lia. Qed.

(** Where the message is, other blocks are not. *)
Lemma message_clear cli sec L s m p b0 n0 num b n : tee_inv cli sec L s -> message sec m p b0 n0 num ->
  (forall x, pay (cli ∪ sec) x -> ~ block b n x) -> forall k j, 0 <= k -> k + j <= OPTEE_MSG_GET_ARG_SIZE num ->
  forall x, p + k <= x < p + k + j -> ~ block b n x.
Proof.
  intros I Hm Hd k j Hk Hj x Hx. apply Hd. eapply open_pay; [exact I|]. eapply (message_opened sec L); [exact Hm| | |exact Hx]; lia.
Qed.

(** A request that was served: who holds what, and what stayed as it was. *)
Record served cli sec L s sec2 s' : Prop := {
  sv_inv : tee_inv cli sec2 L s';
  sv_kept : kept cli L s s';
  sv_same : same (world s) (world s')
}.

Lemma served_trans cli sec L s1 sec2 s2 sec3 s3 : served cli sec L s1 sec2 s2 -> served cli sec2 L s2 sec3 s3 -> served cli sec L s1 sec3 s3.
Proof. intros [_ A2 A3] [B1 B2 B3]. split; [done | by eapply kept_trans | by eapply same_trans]. Qed.

Lemma quiet_served cli sec L s s' : tee_inv cli sec L s -> quiet sec L s s' -> served cli sec L s sec s'.
Proof. intros I [Hw Hs]. split; [by eapply wrote_inv | by eapply wrote_kept | done]. Qed.

Lemma kept_outside cli L s s' b n : (forall x, pay cli x -> ~ block b n x) -> touches (block b n) (memory s) (memory s') -> kept cli L s s'.
Proof. intros Hd T x Hx _. destruct (Z.eq_dec (memory s' x) (memory s x)) as [|E]; [done|]. by destruct (Hd x Hx), (T x E). Qed.

Lemma take_block cli sec L s Size Align : tee_inv cli sec L s -> alignment Align -> 0 <= Size -> Size + 4127 < 2 ^ 64 ->
  wp (in_lib (OpteeClientAlignedMemAlloc Size Align)) s (fun p s' => (p = 0 /\ s' = s) \/
    exists b, p = b + 4096 /\ 0 <= b /\ sec !! b = None /\ served cli sec L s (<[b := Size + 4127]> sec) s' /\ world s' = world s /\
      OPTEE_SHM_START <= b /\ b + Size + 4127 <= OPTEE_SHM_END /\
      touches (block b (Size + 4127)) (memory s) (memory s') /\ forall x, pay (cli ∪ sec) x -> ~ block b (Size + 4127) x).
Proof.
  intros I Ha H0 H1. eapply wp_mono; [by apply (lib_alloc (cli ∪ sec)); [apply I|..]|].
  intros p s' [?|(b & -> & Hb & Hn & I' & Ew & Hlo & Hhi & T & Hd)]; [by left | right]. exists b.
  apply lookup_union_None in Hn as [Hn1 Hn2]. do 3 (split; [done|]). split; [|done]. split.
  - split; [by rewrite <- insert_union_r | by apply map_disjoint_insert_r_2; [|apply I] | apply I].
  - eapply kept_outside; [|exact T]. intros x Hx. by apply Hd, pay_union_l.
  - rewrite Ew. apply same_refl.
Qed.

Lemma give_block cli sec L s b n : tee_inv cli sec L s -> sec !! b = Some n ->
  wp (in_lib (OpteeClientMemFree (b + 4096))) s (fun st s' => EFI_ERROR st = false /\ served cli sec L s (delete b sec) s' /\
    touches (block b n) (memory s) (memory s')).
Proof.
  intros I Hb. assert (Hu : (cli ∪ sec) !! b = Some n) by (apply lookup_union_Some_r; [apply I | done]).
  assert (Hc : cli !! b = None) by (eapply map_disjoint_Some_r; [apply I | exact Hb]).
  eapply wp_mono; [apply (lib_free (cli ∪ sec)); [apply I | exact Hu]|].
  intros st s' (E & I' & Ew & T). split; [done|]. split; [|done]. split.
  - rewrite delete_union, (delete_id cli) in I' by done. split; [done | by apply map_disjoint_delete_r, I | apply I].
  - eapply kept_outside; [|exact T]. intros x (b' & n' & H' & Hx) Hblk. unfold block in Hblk.
    assert (Hne : b <> b') by congruence. assert (Hu' : (cli ∪ sec) !! b' = Some n') by (by apply lookup_union_Some_l).
    pose proof (inv_disjoint _ _ (ti_shm _ _ _ _ I) b n b' n' (pay_own _ _ _ _ (ti_shm _ _ _ _ I) Hu) (pay_own _ _ _ _ (ti_shm _ _ _ _ I) Hu') Hne). lia.
  - rewrite Ew. apply same_refl.
Qed.

Lemma shm_type_spec a s (Q : Z -> tee D W -> Prop) : 0 <= a <= 1 -> Q TEEC_SUCCESS s -> wp (shm_type_result a) s Q.
Proof.
  intros Ha HQ. unfold shm_type_result, OPTEE_MSG_RPC_SHM_TYPE_APPL, OPTEE_MSG_RPC_SHM_TYPE_KERNEL.
  assert (E : (a =? 0) || (a =? 1) = true) by (apply orb_true_iff; rewrite !Z.eqb_eq; lia). rewrite E. by apply wp_ret.
Qed.

Lemma OpteeRpcCmdShmAlloc_spec cli sec L p n align s : tee_inv cli sec L s -> command_ok sec L (memory s) p (C_alloc n align) ->
  wp (OpteeRpcCmdShmAlloc p) s (fun r s' => (r = TEEC_ERROR_OUT_OF_MEMORY /\ s' = s) \/
    (r = TEEC_SUCCESS /\ exists b b0 n0 m, served cli sec L s (<[b := n + 4127]> sec) s' /\ sec !! b = None /\ in_word 64 (b + 4096) /\
      message (<[b := n + 4127]> sec) m p b0 n0 1 /\ load 8 (memory s') (p + 40) = b + 4096)).
Proof.
  intros I (b0 & n0 & num & Hm & -> & Ht & Ha & Eb & Ec & Hal & Hn0 & Hn). unfold param_is in Ht. unfold OpteeRpcCmdShmAlloc. tee_go.
  rewrite (ms_params _ _ _ _ _ _ Hm), Z.eqb_refl. cbn [negb]. tee_go. rewrite Ht, Z.eqb_refl. cbn [negb]. tee_go.
  apply shm_type_spec; [done|]. tee_go. rewrite Eb, Ec. eapply wp_mono; [by eapply take_block|].
  intros q s1 [[-> ->]|(b & -> & Hb & Hnone & S1 & Ew & Hlo & Hhi & T & Hd)]; [rewrite Z.eqb_refl; tee_go; by left|].
  rewrite (proj2 (Z.eqb_neq _ _)) by lia. destruct (param_words p) as (-> & -> & -> & ->).
  assert (Hm1 : message (<[b := n + 4127]> sec) (memory s) p b0 n0 1).
  { destruct Hm. split; try done. rewrite lookup_insert_ne; [done|]. congruence. }
  pose proof (shm_end) as [Eend _]. pose proof area as [_ ?].
  assert (Hin : forall k, 0 <= k -> k + 8 <= 64 -> opened (<[b := n + 4127]> sec) L (p + k) 8).
  { intros k H1 H2. eapply message_opened; [exact Hm1 | done | unfold OPTEE_MSG_GET_ARG_SIZE; lia]. }
  tee_go. eapply wp_poke; [lia | apply Hin; lia |]. intros s2 W2 E2 M2. tee_go. eapply wp_poke; [lia | apply Hin; lia |]. intros s3 W3 E3 M3.
  tee_go. eapply wp_poke; [lia | apply Hin; lia |]. intros s4 W4 E4 M4. tee_go. eapply wp_poke; [lia | apply Hin; lia |]. intros s5 W5 E5 M5.
  tee_go. right. split; [done|]. exists b, b0, n0, (memory s). split; [|split; [done|split; [unfold in_word; lia|split; [done|]]]].
  - eapply served_trans; [exact S1|]. apply quiet_served; [apply S1|]. repeat (eapply quiet_trans; [by apply wrote_quiet|]). apply quiet_refl.
  - rewrite M5, load_write_disjoint by (rewrite length_le_bytes; lia). rewrite M4, load_write_disjoint by (rewrite length_le_bytes; lia).
    rewrite M3. apply (load_write_same 8). unfold in_word. lia.
Qed.

Lemma OpteeRpcCmdShmFree_spec cli sec L p b s : tee_inv cli sec L s -> command_ok sec L (memory s) p (C_free b) ->
  wp (OpteeRpcCmdShmFree p) s (fun r s' => r = TEEC_SUCCESS /\ served cli sec L s (delete b sec) s' /\
    exists b0 n0 num m, message (delete b sec) m p b0 n0 num).
Proof.
  intros I (b0 & n0 & num & Hm & -> & Ht & Ha & Hne & [n Hb] & Eb). unfold param_is in Ht. unfold OpteeRpcCmdShmFree. tee_go.
  rewrite (ms_params _ _ _ _ _ _ Hm), Z.eqb_refl. cbn [negb]. tee_go. rewrite Ht, Z.eqb_refl. cbn [negb]. tee_go.
  apply shm_type_spec; [done|]. tee_go. rewrite Eb. eapply wp_mono; [by eapply give_block|]. intros st s1 (E & S1 & _). tee_go.
  rewrite E. split; [done|]. split; [done|]. exists b0, n0, 1, (memory s). destruct Hm. split; try done. by rewrite lookup_delete_ne.
Qed.

(** The blocks after a command, as its message tells. *)
Lemma rpc_command_spec cli sec L p c s : tee_inv cli sec L s ->
  load 4 (memory s) (p + MSG_cmd) = code_of c -> command_ok sec L (memory s) p c ->
  wp (rpc_command p) s (fun _ s' => exists sec2, served cli sec L s sec2 s' /\
    let ok := load 4 (memory s') (p + MSG_ret) =? TEEC_SUCCESS in
    sec2 = match c with
           | C_alloc n _ => if ok then <[load 8 (memory s') (param_at p 0 + PARAM_a) - 4096 := n + 4127]> sec else sec
           | C_free b => delete b sec
           | _ => sec
           end).
Proof.
  intros I Hcmd Hok. unfold rpc_command. tee_go. rewrite Hcmd. clear Hcmd.
  assert (Hret : forall sec' s1 (r : Z) m b0 n0 num (Q : Z -> tee D W -> Prop), message sec' m p b0 n0 num -> tee_inv cli sec' L s1 ->
    (forall s2, served cli sec' L s1 sec' s2 -> memory s2 = write_bytes (memory s1) (p + MSG_ret) (le_bytes 4 r) -> Q r s2) ->
    wp (poke 4 (p + MSG_ret) r;; mret r) s1 Q).
  { intros sec' s1 r m b0 n0 num Q Hm I1 HQ. pose proof (ms_count _ _ _ _ _ _ Hm). tee_go. eapply wp_poke; [lia | |].
    - eapply message_opened; [exact Hm | unfold MSG_ret; lia | unfold MSG_ret, OPTEE_MSG_GET_ARG_SIZE; lia].
    - intros s2 W2 E2 M2. tee_go. apply HQ; [|done]. apply quiet_served; [done | by apply wrote_quiet]. }
  assert (Hquiet : forall (h : M (tee D W) Z), wp h s (fun _ s' => quiet sec L s s') ->
    wp h s (fun r s1 => wp (poke 4 (p + MSG_ret) r;; mret r) s1 (fun _ s' => exists sec2, served cli sec L s sec2 s' /\ sec2 = sec))).
  { intros h Hh. eapply wp_mono; [exact Hh|]. intros r s1 Hq. pose proof (quiet_served _ _ _ _ _ I Hq) as S1.
    destruct Hok as (b0 & n0 & num & Hm & _). eapply Hret; [exact Hm | apply S1|]. intros s2 S2 _. exists sec. split; [by eapply served_trans | done]. }
  destruct c as [| | | |n al|b]; cbn [code_of Z.eqb Pos.eqb OPTEE_MSG_RPC_CMD_LOAD_TA OPTEE_MSG_RPC_CMD_RPMB OPTEE_MSG_RPC_CMD_GET_TIME OPTEE_MSG_RPC_CMD_SHM_ALLOC OPTEE_MSG_RPC_CMD_SHM_FREE OPTEE_MSG_RPC_CMD_WAIT_QUEUE].
  - apply Hquiet, OpteeRpcCmdLoadTa_spec, Hok.
  - apply Hquiet, OpteeRpcCmdRpmb_spec, Hok.
  - apply Hquiet, OpteeRpcCmdGetTime_spec, Hok.
  - apply Hquiet, OpteeRpcCmdWaitQueue_spec, Hok.
  - tee_go. eapply wp_mono; [eapply OpteeRpcCmdShmAlloc_spec; [exact I | exact Hok]|]. destruct (param_words p) as (_ & Ea & _). rewrite Ea.
    intros r s1 [[-> ->]|(-> & b & b0 & n0 & m & S1 & _ & _ & Hm & Hb)].
    + destruct Hok as (b0 & n0 & num & Hm & _). eapply Hret; [exact Hm | exact I|]. intros s2 S2 M2. exists sec. split; [done|].
      rewrite M2, (load_write_same 4) by (unfold in_word, TEEC_ERROR_OUT_OF_MEMORY; lia). done.
    + eapply Hret; [exact Hm | apply S1|]. intros s2 S2 M2. exists (<[b := n + 4127]> sec). split; [by eapply served_trans|].
      rewrite M2, (load_write_same 4) by (unfold in_word, TEEC_SUCCESS; lia). rewrite load_write_disjoint by (rewrite length_le_bytes; unfold MSG_ret; lia).
      rewrite Hb. cbn [Z.eqb TEEC_SUCCESS]. f_equal. lia.
  - tee_go. eapply wp_mono; [eapply OpteeRpcCmdShmFree_spec; [exact I | exact Hok]|]. intros r s1 (-> & S1 & b0 & n0 & num & m & Hm).
    eapply Hret; [exact Hm | apply S1|]. intros s2 S2 _. exists (delete b sec). split; [by eapply served_trans | done].
Qed.

(** ** Requests in the registers *)

Lemma address_halves a : 0 <= a < 2 ^ 64 -> ADDRESS64 (Z.shiftr a 32) (u32 a) = a.
Proof.
  intros Ha. unfold ADDRESS64. rewrite Z.shiftl_mul_pow2, Z.shiftr_div_pow2 by lia. rewrite wrap_wrap by lia.
  assert (Hq : 0 <= a / 2 ^ 32 < 2 ^ 32) by (split; [apply Z.div_pos; lia | apply Z.div_lt_upper_bound; lia]).
  rewrite (wrap_small 32 (a / 2 ^ 32)) by exact Hq. unfold wrap. rewrite (Z.div_mod a (2 ^ 32)) at 3 by lia. lia.
Qed.

Lemma address_high h l : 0 < h < 2 ^ 32 -> 2 ^ 32 <= ADDRESS64 h l.
Proof.
  intros Hh. unfold ADDRESS64. rewrite wrap_small by (unfold in_word; lia). rewrite Z.shiftl_mul_pow2 by lia.
  pose proof (wrap_range 32 l ltac:(lia)) as [? _]. nia.
Qed.

(** The answer names no block, or the new one. *)
Lemma answers_no_block sec r m n : ADDRESS64 (Arg1 r) (Arg2 r) < OPTEE_SHM_START \/ OPTEE_SHM_END <= ADDRESS64 (Arg1 r) (Arg2 r) ->
  answers sec r m (Rq_alloc n) sec.
Proof.
  intros H. unfold answers. cbv zeta. set (a := ADDRESS64 _ _) in *. clearbody a. destruct H as [H|H].
  - apply Z.leb_gt in H. by rewrite H.
  - apply Z.ltb_ge in H. by rewrite H, andb_false_r.
Qed.

Lemma answers_block sec r m n a : ADDRESS64 (Arg1 r) (Arg2 r) = a -> OPTEE_SHM_START <= a < OPTEE_SHM_END ->
  answers sec r m (Rq_alloc n) (<[a - 4096 := n + 4127]> sec).
Proof.
  intros E [H1 H2]. unfold answers. cbv zeta. rewrite E. apply Z.leb_le in H1. apply Z.ltb_lt in H2. by rewrite H1, H2.
Qed.

Lemma OpteeRpcAlloc_spec cli sec L r s : tee_inv cli sec L s -> 0 <= Arg1 r < 2 ^ 32 ->
  wp (OpteeRpcAlloc r) s (fun res s' => exists sec2, served cli sec L s sec2 s' /\ answers sec res.2 (memory s') (Rq_alloc (Arg1 r)) sec2 /\
    Arg3 res.2 = Arg3 r /\ Arg6 res.2 = Arg6 r /\ Arg7 res.2 = Arg7 r).
Proof.
  intros I Hn. pose proof shm_low as [Hlo Hhi]. unfold OpteeRpcAlloc. destruct (Z.eqb_spec (Arg1 r) 0) as [E0|E0]; cbn [negb andb].
  - wp_go. exists sec. split; [apply quiet_served; [done | apply quiet_refl]|]. cbn [snd Arg3 Arg6 Arg7]. split; [|auto].
    apply answers_no_block. left. cbn [Arg1 Arg2]. change (ADDRESS64 _ _) with 0. exact Hlo.
  - wp_go. assert (Hal : alignment OPTEE_CLIENT_MEM_BYTE_ALIGNMENT) by (right; exists 4; split; [lia | done]).
    assert (Hsz : Arg1 r + 4127 < 2 ^ 64) by lia.
    eapply wp_mono; [exact (take_block cli sec L s (Arg1 r) OPTEE_CLIENT_MEM_BYTE_ALIGNMENT I Hal (proj1 Hn) Hsz)|].
    intros p s1 [[-> ->]|(b & -> & Hb & _ & S1 & _ & Hb1 & Hb2 & _)].
    + rewrite Z.eqb_refl. wp_go. exists sec. split; [apply quiet_served; [done | apply quiet_refl]|]. cbn [snd]. split; [|auto].
      apply answers_no_block. right. assert (Hr : 0 < Arg1 r < 2 ^ 32) by lia. pose proof (address_high (Arg1 r) (Arg2 r) Hr) as Ha. exact (Z.le_trans _ _ _ Hhi Ha).
    + assert (En : (b + 4096 =? 0) = false) by (apply Z.eqb_neq; lia). rewrite En. wp_go. exists (<[b := Arg1 r + 4127]> sec). split; [exact S1|].
      cbn [snd Arg3 Arg6 Arg7]. split; [|auto]. pose proof (answers_block sec {| Arg0 := Arg0 r; Arg1 := Z.shiftr (b + 4096) 32;
        Arg2 := u32 (b + 4096); Arg3 := Arg3 r; Arg4 := Z.shiftr (b + 4096) 32; Arg5 := u32 (b + 4096); Arg6 := Arg6 r; Arg7 := Arg7 r |}
        (memory s1) (Arg1 r) (b + 4096)) as Ha. assert (Eb : b + 4096 - 4096 = b) by lia. rewrite Eb in Ha. apply Ha; [|lia].
      cbn [Arg1 Arg2]. apply address_halves. lia.
Qed.

Lemma OpteeRpcFree_spec cli sec L r b s : tee_inv cli sec L s -> ADDRESS64 (Arg1 r) (Arg2 r) = b + 4096 -> (exists n, sec !! b = Some n) ->
  wp (OpteeRpcFree r) s (fun _ s' => served cli sec L s (delete b sec) s').
Proof.
  intros I Ea [n Hb]. unfold OpteeRpcFree. rewrite Ea. wp_go. eapply wp_mono; [by eapply give_block|]. intros st s1 (_ & S1 & _). by wp_go.
Qed.

(** Whatever the secure world asks for, it gets its answer. *)
Lemma callback_spec cli sec L r rq s : tee_inv cli sec L s -> asks sec L r (memory s) rq -> rq <> Rq_none ->
  wp (OpteeRpcCallback r) s (fun res s' => exists sec2, served cli sec L s sec2 s' /\ answers sec res.2 (memory s') rq sec2 /\
    Arg0 res.2 = OPTEE_SMC_CALL_RETURN_FROM_RPC /\ Arg3 res.2 = Arg3 r /\ Arg6 res.2 = Arg6 r /\ Arg7 res.2 = Arg7 r).
Proof.
  intros I Hask Hne. unfold OpteeRpcCallback. wp_go. pose proof shm_low as [Hlo Hhi].
  destruct rq as [|n|b| |p c]; [done|..]; simpl in Hask.
  - destruct Hask as (E0 & <- & Hb). rewrite E0. apply wp_ASSERT; [done|]. wp_go.
    change (OPTEE_SMC_RETURN_GET_RPC_FUNC 0xFFFF0000) with 0. cbn [Z.eqb OPTEE_SMC_RPC_FUNC_ALLOC].
    eapply wp_mono; [by eapply OpteeRpcAlloc_spec|]. intros [res r2] s1 (sec2 & S1 & Ha & H3 & H6 & H7). wp_go. by exists sec2.
  - destruct Hask as (E0 & Ea & Hb). rewrite E0. apply wp_ASSERT; [done|]. wp_go.
    change (OPTEE_SMC_RETURN_GET_RPC_FUNC 0xFFFF0002) with 2. cbn [Z.eqb Pos.eqb OPTEE_SMC_RPC_FUNC_ALLOC OPTEE_SMC_RPC_FUNC_FREE]. wp_go.
    eapply wp_mono; [by eapply OpteeRpcFree_spec|]. intros res s1 S1. wp_go. by exists (delete b sec).
  - rewrite Hask. apply wp_ASSERT; [done|]. wp_go. change (OPTEE_SMC_RETURN_GET_RPC_FUNC 0xFFFF0004) with 4.
    cbn [Z.eqb Pos.eqb OPTEE_SMC_RPC_FUNC_ALLOC OPTEE_SMC_RPC_FUNC_FREE OPTEE_SMC_RPC_FUNC_FOREIGN_INTR]. wp_go.
    exists sec. split; [apply quiet_served; [done | apply quiet_refl] | done].
  - destruct Hask as (E0 & Ea & Ec & Hok). rewrite E0. apply wp_ASSERT; [done|]. wp_go. change (OPTEE_SMC_RETURN_GET_RPC_FUNC 0xFFFF0005) with 5.
    cbn [Z.eqb Pos.eqb OPTEE_SMC_RPC_FUNC_ALLOC OPTEE_SMC_RPC_FUNC_FREE OPTEE_SMC_RPC_FUNC_FOREIGN_INTR OPTEE_SMC_RPC_FUNC_CMD]. rewrite Ea.
    assert (Hp : p <> 0).
    { destruct Hok as (b0 & n0 & num & [H1 H2 H3 _ _] & _). assert (Hu : (cli ∪ sec) !! b0 = Some n0) by (apply lookup_union_Some_r; [apply I | done]).
      destruct (inv_block _ _ (ti_shm _ _ _ _ I) _ _ (pay_own _ _ _ _ (ti_shm _ _ _ _ I) Hu)) as [? _]. lia. }
    wp_go. apply wp_ASSERT; [by rewrite (proj2 (Z.eqb_neq _ _))|]. rewrite (proj2 (Z.eqb_neq _ _)) by done. wp_go.
    eapply wp_mono; [eapply rpc_command_spec; [exact I | exact Ec | exact Hok]|].
    intros res s1 (sec2 & S1 & E2). wp_go. exists sec2. split; [done|]. split; [exact E2 | done].
Qed.

(** ** A call *)

(** The next SMC keeps to the contract. *)
Definition next_ok sec L r s : Prop := forall r' m' w', ArmCallSmc r (memory s) (world s) = (r', m', w') ->
  (forall x, m' x <> memory s x -> open sec L x) /\
  exists rq, asks sec L r' m' rq /\ serving rq sec (match rq with Rq_none => [] | _ => L end) w' /\
    (rq <> Rq_none -> (rpcs_left w' < rpcs_left (world s))%nat).

Lemma asks_is_rpc sec L r m rq : asks sec L r m rq -> OPTEE_SMC_RETURN_IS_RPC (Arg0 r) = true -> rq <> Rq_none.
Proof. intros Ha E ->. simpl in Ha. congruence. Qed.

Lemma asks_not_rpc sec L r m rq : asks sec L r m rq -> OPTEE_SMC_RETURN_IS_RPC (Arg0 r) = false -> rq = Rq_none.
Proof.
  intros Ha E. destruct rq; [done|exfalso..]; cbn [asks] in Ha; try apply proj1 in Ha; rewrite Ha in E; vm_compute in E; discriminate.
Qed.

Lemma smc_loop_spec n : forall cli sec L r s, (rpcs_left (world s) <= n)%nat -> tee_inv cli sec L s -> next_ok sec L r s ->
  wp (smc_loop (S n) r) s (fun _ s' => exists sec2, tee_inv cli sec2 L s' /\ kept cli L s s' /\ idle sec2 (world s')).
Proof.
  induction n as [n IH] using lt_wf_ind. intros cli sec L r s Hn I Hnext. cbn [smc_loop]. wp_go.
  unfold wp, smc, on_memory. destruct (ArmCallSmc r (memory s) (world s)) as [[r1 m1] w1] eqn:E.
  destruct (Hnext _ _ _ E) as (Hw & rq & Hask & Hserv & Hdec). set (s1 := set_world w1 (set_memory m1 s)).
  assert (Hwr : wrote sec L s s1) by (by split). pose proof (wrote_inv _ _ _ _ _ I Hwr) as I1. pose proof (wrote_kept _ _ _ _ _ I Hwr) as K1.
  destruct (OPTEE_SMC_RETURN_IS_RPC (Arg0 r1)) eqn:Erpc.
  - pose proof (asks_is_rpc _ _ _ _ _ Hask Erpc) as Hne. assert (Hserv' : serving rq sec L w1) by (by destruct rq).
    eapply (wp_bind (OpteeRpcCallback r1) (fun '(_, r) => smc_loop n r) s1). eapply wp_mono; [eapply callback_spec; [exact I1 | exact Hask | exact Hne]|].
    intros [res r2] s2 (sec2 & [I2 K2 [Sm Sl]] & Hans & E0 & _). simpl in *. pose proof (Hdec Hne) as Hlt. destruct n as [|n']; [lia|].
    eapply wp_mono; [eapply (IH n'); [lia | rewrite Sl; lia | exact I2|]|].
    + intros r3 m3 w3 E3. eapply smc_answer; [by apply Sm | exact Hne | exact E0 | exact Hans | by rewrite E3].
    + intros ? s3 (sec3 & I3 & K3 & H3). exists sec3. split; [done|]. split; [|done]. eapply kept_trans; [exact K1|]. by eapply kept_trans.
  - rewrite (asks_not_rpc _ _ _ _ _ Hask Erpc) in *.
    assert (Hdone : exists sec2, tee_inv cli sec2 L s1 /\ kept cli L s s1 /\ idle sec2 (world s1)) by (by exists sec).
    destruct (Arg0 r1 =? OPTEE_SMC_RETURN_UNKNOWN_FUNCTION); [done|]. by destruct (negb _).
Qed.

(** A whole call: it returns, the secure world is idle again with the blocks
    it has kept, and what was not lent to it is as before. *)
Lemma OpteeSmcCall_spec cli sec p s : tee_inv cli sec (lent (memory s) p) s -> idle sec (world s) ->
  wp (OpteeSmcCall p) s (fun _ s' => exists sec2, tee_inv cli sec2 (lent (memory s) p) s' /\ kept cli (lent (memory s) p) s s' /\ idle sec2 (world s')).
Proof.
  intros I Hidle. unfold OpteeSmcCall. wp_go. apply (smc_loop_spec _ _ sec); [lia | done|]. intros r m w E. by eapply smc_call.
Qed.
End Serve.

(** * Messages to the secure world

    What the code writes into a message ([set_params_spec],
    [message_at]), which areas the message lends ([lent_message]), and what
    is read back from it ([decoded]); then the two halves every call consists
    of: a cleared message in a block of the client ([new_message_spec]) and
    the exchange that ends with the block given back ([exchange_spec]). *)

(** ** Words in memory *)

Lemma load_put n a v m : 0 <= n -> in_word (8 * n) v -> load n (write_bytes m a (le_bytes (Z.to_nat n) v)) a = v.
Proof.
  intros Hn Hv. pose proof (load_write_same (Z.to_nat n) m a v) as H. rewrite Z2Nat.id in H by done. by apply H.
Qed.

Lemma load_put_off n k a v m b : 0 <= k -> b + n <= a \/ a + k <= b -> load n (write_bytes m a (le_bytes (Z.to_nat k) v)) b = load n m b.
Proof. intros Hk H. apply load_write_disjoint. rewrite length_le_bytes. lia. Qed.

(** A load from memory that was written word by word. *)
Ltac put_go := repeat first [rewrite load_put_off by lia | rewrite load_put; [|lia|assumption || done]].

Lemma put_changes n a v m b k : 0 <= n -> b <= a -> a + n <= b + k -> only_changes b k m (write_bytes m a (le_bytes (Z.to_nat n) v)).
Proof. intros Hn H1 H2. apply only_changes_write; rewrite ?length_le_bytes; lia. Qed.

Lemma changes_load n m m' a k b : only_changes a k m m' -> b + n <= a \/ a + k <= b -> load n m' b = load n m b.
Proof. intros H Hd. apply load_ext. intros x Hx. apply H, in_range_false. lia. Qed.

Lemma changes_mono a n b k m m' : only_changes a n m m' -> b <= a -> a + n <= b + k -> only_changes b k m m'.
Proof. intros H H1 H2 x Hx. apply H. apply in_range_false in Hx. apply in_range_false. lia. Qed.

(** Cleared bytes. *)
Definition zeros (m : mem) (a n : Z) : Prop := forall x, a <= x < a + n -> m x = 0.

Lemma zeros_load m a n b k : zeros m a n -> a <= b -> b + k <= a + n -> load k m b = 0.
Proof.
  intros Hz H1 H2. rewrite (load_ext k m (fun _ => 0)) by (intros x Hx; apply Hz; lia).
  unfold load, read_bytes. generalize (seqZ 0 k). intros l. induction l as [|i l IH]; [done|]. cbn [fmap list_fmap le_val]. by rewrite IH.
Qed.

(** ** The parameters of a message *)

Definition supported (t : Z) : Prop := t = TEEC_NONE \/ 1 <= t <= 3 \/ 5 <= t <= 7.

(** A parameter of type [t], as OP-TEE's message ABI has it: the attribute and
    the words of the union. *)
Definition msg_attr (t : Z) : Z := if t =? TEEC_NONE then 0 else if t <=? 3 then t else t + 4.
Definition msg_a (t : Z) (p : TEEC_Parameter) : Z := if t =? TEEC_NONE then 0 else if t <=? 3 then value_a p else word0 p.
Definition msg_b (t : Z) (p : TEEC_Parameter) : Z := if t =? TEEC_NONE then 0 else if t <=? 3 then value_b p else word1 p.

Record param_holds (m : mem) (at_ t : Z) (p : TEEC_Parameter) : Prop := {
  ph_attr : load 8 m (at_ + PARAM_attr) = msg_attr t;
  ph_a : load 8 m (at_ + PARAM_a) = msg_a t p;
  ph_b : load 8 m (at_ + PARAM_b) = msg_b t p;
  ph_c : load 8 m (at_ + PARAM_c) = 0
}.

Definition type_at (op : TEEC_Operation) (i : nat) : Z := TEEC_PARAM_TYPE_GET (paramTypes op) i.
Definition param_of (op : TEEC_Operation) (i : nat) : TEEC_Parameter := default no_param (params op !! i).

(** An operation the library supports. *)
Record operation_ok (op : TEEC_Operation) : Prop := {
  oo_length : length (params op) = 4%nat;
  oo_types i : (i < 4)%nat -> supported (type_at op i);
  oo_words : Forall (fun p => in_word 64 (word0 p) /\ in_word 64 (word1 p)) (params op)
}.

(** The parameters of the operation, from [base] on. *)
Definition params_at (m : mem) (base : Z) (op : TEEC_Operation) : Prop :=
  forall i, (i < 4)%nat -> param_holds m (base + sizeof_param * Z.of_nat i) (type_at op i) (param_of op i).

(** What the secure world may write to: the output and the in-out buffers. *)
Definition lent_op_param (t : Z) (p : TEEC_Parameter) : list (Z * Z) :=
  if (t =? TEEC_MEMREF_TEMP_OUTPUT) || (t =? TEEC_MEMREF_TEMP_INOUT) then [(word0 p, word1 p)] else [].
Definition lent_op (op : TEEC_Operation) : list (Z * Z) := mjoin ((fun i => lent_op_param (type_at op i) (param_of op i)) <$> indices).

(** ** Reading back *)

(** A parameter after the call, by its type. *)
Definition decoded_param (m : mem) (at_ t : Z) (p : TEEC_Parameter) : TEEC_Parameter :=
  if t =? TEEC_NONE then p
  else if t <=? 3 then {| word0 := u32 (load 8 m (at_ + PARAM_a)) + Z.shiftl (u32 (load 8 m (at_ + PARAM_b))) 32; word1 := word1 p |}
  else {| word0 := load 8 m (at_ + PARAM_a); word1 := load 8 m (at_ + PARAM_b) |}.

Definition decoded (m : mem) (base : Z) (op : TEEC_Operation) : TEEC_Operation :=
  {| paramTypes := paramTypes op;
     params := imap (fun i p => decoded_param m (base + sizeof_param * Z.of_nat i) (type_at op i) p) (params op) |}.

Section Msg.
Context {B : Build} {P : ShmPlatform} {D : Type} {G : Gcd D} {W : Type} {SW : SecureWorld W}.
Implicit Types s : tee D W.

Lemma memory_set m s : memory (set_memory m s) = m.
Proof. done. Qed.

Lemma set_memory_twice m m' s : set_memory m' (set_memory m s) = set_memory m' s.
Proof. done. Qed.

Lemma set_memory_id s : set_memory (memory s) s = s.
Proof. by destruct s as [[? ? ? ?] ?]. Qed.

Lemma supported_cases t : supported t -> t = 0 \/ t = 1 \/ t = 2 \/ t = 3 \/ t = 5 \/ t = 6 \/ t = 7.
Proof. unfold supported, TEEC_NONE. lia. Qed.

Lemma param_words_ok op i : operation_ok op -> in_word 64 (word0 (param_of op i)) /\ in_word 64 (word1 (param_of op i)).
Proof.
  intros Hok. unfold param_of. destruct (params op !! i) as [p|] eqn:E; [|cbn; unfold in_word; lia]. exact (proj1 (Forall_lookup _ _) (oo_words _ Hok) i p E).
Qed.

Lemma value_range p : in_word 64 (word0 p) -> in_word 64 (value_a p) /\ in_word 64 (value_b p).
Proof.
  intros [H1 H2]. unfold value_a, value_b. rewrite Z.shiftr_div_pow2 by lia. pose proof (wrap_range 32 (word0 p) ltac:(lia)) as [? ?].
  assert (0 <= word0 p / 2 ^ 32 < 2 ^ 32) by (split; [apply Z.div_pos; lia | apply Z.div_lt_upper_bound; lia]). unfold in_word. lia.
Qed.

(** One parameter is written as the ABI has it, and nothing else. *)
Lemma set_param_spec op base i s : operation_ok op -> (i < 4)%nat -> let at_ := base + sizeof_param * Z.of_nat i in zeros (memory s) at_ 32 ->
  wp (set_param op base i) s (fun _ s' => exists m, s' = set_memory m s /\ only_changes at_ 32 (memory s) m /\
    param_holds m at_ (type_at op i) (param_of op i)).
Proof.
  intros Hok Hi at_ Hz. unfold set_param. fold (type_at op i). fold (param_of op i). fold at_.
  pose proof (param_words_ok op i Hok) as [Hw0 Hw1]. pose proof (value_range _ Hw0) as [Ha Hb].
  set (p := param_of op i) in *. clearbody at_ p.
  assert (Hput : forall t a b, in_word 64 t -> in_word 64 a -> in_word 64 b ->
    wp (poke 8 (at_ + PARAM_attr) t;; poke 8 (at_ + PARAM_a) a;; poke 8 (at_ + PARAM_b) b) s (fun _ s' => exists m, s' = set_memory m s /\
      only_changes at_ 32 (memory s) m /\ load 8 m (at_ + PARAM_attr) = t /\ load 8 m (at_ + PARAM_a) = a /\ load 8 m (at_ + PARAM_b) = b /\
      load 8 m (at_ + PARAM_c) = 0)).
  { intros t a b Ht Haa Hbb. unfold PARAM_attr, PARAM_a, PARAM_b, PARAM_c, poke. wp_go. rewrite !memory_set, !set_memory_twice.
    eexists. split; [reflexivity|]. split.
    - eapply only_changes_trans; [|apply put_changes; lia]. eapply only_changes_trans; apply put_changes; lia.
    - repeat split; put_go; try done. by apply (zeros_load _ at_ 32); [|lia..]. }
  destruct (supported_cases _ (oo_types op Hok i Hi)) as [E|[E|[E|[E|[E|[E|E]]]]]]; rewrite E;
    cbn [Z.eqb Pos.eqb orb TEEC_NONE TEEC_VALUE_INPUT TEEC_VALUE_OUTPUT TEEC_VALUE_INOUT TEEC_MEMREF_TEMP_INPUT TEEC_MEMREF_TEMP_OUTPUT TEEC_MEMREF_TEMP_INOUT].
  2-7: eapply wp_mono; [by apply Hput|]; intros _ s' (m & -> & Hc & H1 & H2 & H3 & H4); exists m; split; [done|]; split; [done|]; by split.
  unfold poke. wp_go. eexists. split; [reflexivity|]. unfold PARAM_attr. split; [apply put_changes; lia|]. split; unfold PARAM_attr, PARAM_a, PARAM_b, PARAM_c.
  - by put_go.
  - put_go. by apply (zeros_load _ at_ 32); [|lia..].
  - put_go. by apply (zeros_load _ at_ 32); [|lia..].
  - put_go. by apply (zeros_load _ at_ 32); [|lia..].
Qed.

Lemma param_holds_changes m m' a n at_ t p : only_changes a n m m' -> at_ + 32 <= a \/ a + n <= at_ -> param_holds m at_ t p -> param_holds m' at_ t p.
Proof.
  intros Hc Hd [H1 H2 H3 H4]. unfold PARAM_attr, PARAM_a, PARAM_b, PARAM_c in *.
  split; unfold PARAM_attr, PARAM_a, PARAM_b, PARAM_c; by rewrite (changes_load 8 m m' a n) by (done || lia).
Qed.

Lemma zeros_changes m m' a n b k : only_changes a n m m' -> b + k <= a \/ a + n <= b -> zeros m b k -> zeros m' b k.
Proof. intros Hc Hd Hz x Hx. rewrite Hc; [by apply Hz | apply in_range_false; lia]. Qed.

Lemma zeros_sub m a n b k : zeros m a n -> a <= b -> b + k <= a + n -> zeros m b k.
Proof. intros Hz H1 H2 x Hx. apply Hz. lia. Qed.

(** The parameters from the [i]-th on. *)
Lemma set_params_spec op base : operation_ok op -> forall k i s, (i + k = 4)%nat ->
  zeros (memory s) (base + 32 * Z.of_nat i) (32 * Z.of_nat k) ->
  wp (set_params (seq i k) op base) s (fun _ s' => exists m, s' = set_memory m s /\
    only_changes (base + 32 * Z.of_nat i) (32 * Z.of_nat k) (memory s) m /\
    forall j, (i <= j < 4)%nat -> param_holds m (base + sizeof_param * Z.of_nat j) (type_at op j) (param_of op j)).
Proof.
  intros Hok. induction k as [|k IH]; intros i s Hik Hz; cbn [seq set_params].
  - wp_go. exists (memory s). split; [by rewrite set_memory_id|]. split; [apply only_changes_refl|]. lia.
  - wp_go. eapply wp_mono; [apply set_param_spec; [done | lia|]|].
    + unfold sizeof_param. eapply zeros_sub; [exact Hz | lia..].
    + intros _ s1 (m1 & -> & Hc1 & H1). unfold sizeof_param in *. eapply wp_mono; [apply (IH (S i)); [lia|]|].
      * rewrite memory_set. eapply zeros_changes; [exact Hc1 | lia |]. eapply zeros_sub; [exact Hz | lia..].
      * intros _ s2 (m2 & -> & Hc2 & H2). rewrite memory_set in Hc2. exists m2. split; [done|]. split.
        -- eapply only_changes_trans; eapply changes_mono; [exact Hc1 | | | exact Hc2 | |]; lia.
        -- intros j Hj. destruct (decide (j = i)) as [->|Hne]; [|apply H2; lia].
           eapply param_holds_changes; [exact Hc2 | lia | exact H1].
Qed.

Lemma SetMsgParams_spec op base s : operation_ok op -> zeros (memory s) base 128 ->
  wp (SetMsgParams op base) s (fun _ s' => exists m, s' = set_memory m s /\ only_changes base 128 (memory s) m /\ params_at m base op).
Proof.
  intros Hok Hz. eapply wp_mono; [apply (set_params_spec op base Hok 4 0); [done|]|].
  - eapply zeros_sub; [exact Hz | lia..].
  - intros _ s' (m & -> & Hc & H). exists m. split; [done|]. split; [|intros i Hi; apply H; lia]. eapply changes_mono; [exact Hc | lia..].
Qed.

(** *** Reading back *)

Lemma get_param_run base op i s : supported (type_at op i) ->
  get_param base op i s = Ret {| paramTypes := paramTypes op;
    params := alter (decoded_param (memory s) (base + sizeof_param * Z.of_nat i) (type_at op i)) i (params op) |} s.
Proof.
  intros Ht. unfold get_param. fold (type_at op i). set (at_ := base + _). clearbody at_.
  destruct (supported_cases _ Ht) as [E|[E|[E|[E|[E|[E|E]]]]]]; rewrite E; try reflexivity.
  cbn. destruct op as [t l]. cbn [paramTypes params]. f_equal. f_equal. symmetry. by apply list_alter_id.
Qed.

Lemma GetMsgParams_run base op s : operation_ok op -> GetMsgParams base op s = Ret (decoded (memory s) base op) s.
Proof.
  intros [Hl Ht _]. destruct op as [ty [|p0 [|p1 [|p2 [|p3 [|]]]]]]; try discriminate Hl. clear Hl.
  unfold GetMsgParams, indices. cbn [get_params].
  do 4 (erewrite bind_Ret; [|apply get_param_run; apply Ht; lia]). reflexivity.
Qed.

(** *** What a message lends *)

Lemma lent_param_holds m at_ t p : supported t -> param_holds m at_ t p -> lent_param m at_ = lent_op_param t p.
Proof.
  intros Ht [H1 H2 H3 _]. unfold lent_param. rewrite H1, H2, H3. destruct (supported_cases t Ht) as [->|[->|[->|[->|[->|[->| ->]]]]]]; reflexivity.
Qed.

Lemma lent_message m p op : operation_ok op -> load 4 m (p + MSG_num_params) = 4 -> params_at m (param_at p 0) op ->
  lent m p = (p, 160) :: lent_op op.
Proof.
  intros Hok Hn Hp. unfold lent. rewrite Hn. change (OPTEE_MSG_GET_ARG_SIZE 4) with 160. f_equal.
  assert (E : forall i, (i < 4)%nat -> lent_param m (param_at p (Z.of_nat i)) = lent_op_param (type_at op i) (param_of op i)).
  { intros i Hi. apply lent_param_holds; [by apply (oo_types op Hok)|]. replace (param_at p (Z.of_nat i)) with (param_at p 0 + sizeof_param * Z.of_nat i)
      by (unfold param_at; lia). by apply Hp. }
  change (seqZ 0 4) with (Z.of_nat <$> indices). rewrite <- list_fmap_compose. unfold lent_op. f_equal. apply list_fmap_ext.
  intros j i Hj. apply E. by repeat (destruct j as [|j]; [injection Hj as <-; lia|]).
Qed.

(** The two meta parameters of an opening message lend nothing. *)
Lemma lent_open_message m p op : operation_ok op -> load 4 m (p + MSG_num_params) = 6 -> params_at m (param_at p 2) op ->
  load 8 m (param_at p 0 + PARAM_attr) = 0x101 -> load 8 m (param_at p 1 + PARAM_attr) = 0x101 -> lent m p = (p, 224) :: lent_op op.
Proof.
  intros Hok Hn Hp H0 H1. unfold lent. rewrite Hn. change (OPTEE_MSG_GET_ARG_SIZE 6) with 224. f_equal.
  assert (E : forall i, (i < 4)%nat -> lent_param m (param_at p (Z.of_nat i + 2)) = lent_op_param (type_at op i) (param_of op i)).
  { intros i Hi. apply lent_param_holds; [by apply (oo_types op Hok)|]. replace (param_at p (Z.of_nat i + 2)) with (param_at p 2 + sizeof_param * Z.of_nat i)
      by (unfold param_at, sizeof_param; lia). by apply Hp. }
  change (seqZ 0 6) with ([0; 1] ++ ((fun i => Z.of_nat i + 2) <$> indices)). rewrite fmap_app, <- list_fmap_compose.
  cbn [fmap list_fmap app mjoin list_join]. unfold lent_param at 1 2. rewrite H0, H1.
  change (OPTEE_MSG_ATTR_GET_TYPE 257) with 1. cbn [Z.eqb Pos.eqb orb app]. unfold lent_op. f_equal. apply list_fmap_ext.
  intros j i Hj. apply E. by repeat (destruct j as [|j]; [injection Hj as <-; lia|]).
Qed.
End Msg.

(** ** The halves of a call *)

Section Exchange.
Context {B : Build} {P : ShmPlatform} {D : Type} {G : Gcd D} {V : GcdView D} {L0 : GcdLaws D} {O : PlatformOk} {GF : GcdFrees D} {LO : ShmLow}.
Context {W : Type} {SW : SecureWorld W} {SV : SecureView W} {SL : SecureLaws W}.
Implicit Types (s : tee D W) (cli sec : gmap Z Z) (L : list (Z * Z)).

(** A message of the client in block [b], of [n] parameters. *)
Record message_block cli b n : Prop := {
  mb_own : cli !! b = Some (OPTEE_MSG_GET_ARG_SIZE n + 4127);
  mb_count : 0 <= n <= 6
}.

Lemma message_block_pay cli b n x : message_block cli b n -> b + 4096 <= x < b + 4096 + OPTEE_MSG_GET_ARG_SIZE n -> pay cli x.
Proof. intros [H _] Hx. exists b, (OPTEE_MSG_GET_ARG_SIZE n + 4127). split; [done | lia]. Qed.

Lemma tee_inv_lend cli sec L L' s : tee_inv cli sec L s -> (forall r x, r ∈ L' -> r.1 <= x < r.1 + r.2 -> pay cli x) -> tee_inv cli sec L' s.
Proof. intros [H1 H2 _] HL. by split. Qed.

(** The client's own writes. *)
Lemma own_write cli sec L s m : tee_inv cli sec L s -> touches (pay cli) (memory s) m -> tee_inv cli sec L (set_memory m s).
Proof.
  intros I T. split; [|apply I | apply I]. cbn [set_memory set_lib lib]. apply touch_inv; [apply I|]. eapply touches_mono; [|exact T].
  intros x. apply pay_union_l.
Qed.

Lemma pay_insert cli b n x : cli !! b = None -> pay cli x -> pay (<[b := n]> cli) x.
Proof. intros Hb (b' & n' & H & Hx). exists b', n'. split; [|done]. rewrite lookup_insert_ne; [done|]. congruence. Qed.

(** A block for the client, or no memory. *)
Lemma client_alloc cli sec Size s : tee_inv cli sec [] s -> 0 <= Size -> Size + 4127 < 2 ^ 64 ->
  wp (in_lib (OpteeClientMemAlloc Size)) s (fun p s' => (p = 0 /\ s' = s) \/
    exists b, p = b + 4096 /\ 0 < p /\ p + Size < 2 ^ 64 /\ cli !! b = None /\ tee_inv (<[b := Size + 4127]> cli) sec [] s' /\ world s' = world s /\
      forall x, pay cli x -> memory s' x = memory s x).
Proof.
  intros I H0 H1. assert (Hal : alignment OPTEE_CLIENT_MEM_BYTE_ALIGNMENT) by (right; exists 4; split; [lia | done]).
  pose proof shm_end as [Eend _]. pose proof area as [_ Harea].
  eapply wp_mono; [exact (lib_alloc (cli ∪ sec) s Size _ (ti_shm _ _ _ _ I) Hal H0 H1)|].
  intros p s1 [[-> ->]|(b & -> & Hb & Hnone & I1 & Ew & Hlo & Hhi & T & Hd)]; [by left|]. right. exists b.
  apply lookup_union_None in Hnone as [Hn1 Hn2]. split; [done|]. split; [lia|]. split; [lia|]. split; [done|]. split; [|split; [done|]].
  - split; [by rewrite <- insert_union_l | by apply map_disjoint_insert_l_2; [|apply I] |]. intros r x Hr. by apply not_elem_of_nil in Hr.
  - intros x Hx. pose proof (Hd x (pay_union_l _ _ _ Hx)) as Hnb. destruct (Z.eq_dec (memory s1 x) (memory s x)) as [|E]; [done|]. by destruct Hnb; apply T.
Qed.

(** The buffers of one block are not in another. *)
Lemma insert_pay_apart cli sec L b k s x : cli !! b = None -> tee_inv (<[b := k]> cli) sec L s -> pay cli x -> ~ b <= x < b + k.
Proof.
  intros Hb I (b' & n' & H' & Hx) Hxb. assert (Hne : b <> b') by congruence. pose proof (ti_shm _ _ _ _ I) as Hs.
  assert (Hu : (<[b := k]> cli ∪ sec) !! b = Some k) by (apply lookup_union_Some_l; by rewrite lookup_insert_eq).
  assert (Hu' : (<[b := k]> cli ∪ sec) !! b' = Some n') by (apply lookup_union_Some_l; by rewrite lookup_insert_ne).
  pose proof (inv_disjoint _ _ Hs _ _ _ _ (pay_own _ _ _ _ Hs Hu) (pay_own _ _ _ _ Hs Hu') Hne). lia.
Qed.

(** The client gives a block back. *)
Lemma client_free cli sec L b k s : cli !! b = None -> tee_inv (<[b := k]> cli) sec L s ->
  wp (in_lib (OpteeClientMemFree (b + 4096))) s (fun st s' => EFI_ERROR st = false /\ tee_inv cli sec [] s' /\ world s' = world s /\
    forall x, pay cli x -> memory s' x = memory s x).
Proof.
  intros Hb I. pose proof (ti_shm _ _ _ _ I) as Hs. pose proof (ti_disj _ _ _ _ I) as Hd.
  assert (Hu : (<[b := k]> cli ∪ sec) !! b = Some k) by (apply lookup_union_Some_l; by rewrite lookup_insert_eq).
  eapply wp_mono; [exact (lib_free (<[b := k]> cli ∪ sec) s b k Hs Hu)|]. intros st s2 (E & I2 & Ew & T).
  assert (Hn2 : sec !! b = None) by (eapply map_disjoint_Some_l; [exact Hd | by rewrite lookup_insert_eq]).
  split; [done|]. split; [|split; [done|]].
  - split; [| by eapply map_disjoint_insert_l |].
    + by rewrite delete_union, (delete_id sec), delete_insert_id in I2.
    + intros r x Hr. by apply not_elem_of_nil in Hr.
  - intros x Hx. pose proof (insert_pay_apart _ _ _ _ _ _ x Hb I Hx) as Hnb.
    destruct (Z.eq_dec (memory s2 x) (memory s x)) as [|Ex]; [done|]. by destruct Hnb; apply T.
Qed.

(** A cleared message, or no memory. *)
Lemma new_message_spec cli sec n s : tee_inv cli sec [] s -> 0 <= n <= 6 ->
  wp (new_message n) s (fun p s' => (p = 0 /\ s' = s) \/
    exists b, p = b + 4096 /\ 0 < p /\ cli !! b = None /\ message_block (<[b := OPTEE_MSG_GET_ARG_SIZE n + 4127]> cli) b n /\
      tee_inv (<[b := OPTEE_MSG_GET_ARG_SIZE n + 4127]> cli) sec [] s' /\ world s' = world s /\
      zeros (memory s') p (OPTEE_MSG_GET_ARG_SIZE n) /\ forall x, pay cli x -> memory s' x = memory s x).
Proof.
  intros I Hn. unfold new_message. wp_go.
  set (k := OPTEE_MSG_GET_ARG_SIZE n). assert (Hk : 0 <= k <= 224) by (unfold k, OPTEE_MSG_GET_ARG_SIZE; lia).
  assert (Hk2 : k + 4127 < 2 ^ 64) by lia.
  eapply wp_mono; [exact (client_alloc cli sec k s I (proj1 Hk) Hk2)|].
  intros p s1 [[-> ->]|(b & -> & Hp & _ & Hb & It & Ew & Hk1)]; [rewrite Z.eqb_refl; wp_go; by left|].
  assert (En : (b + 4096 =? 0) = false) by (apply Z.eqb_neq; lia). rewrite En. wp_go.
  right. exists b. assert (Hmb : message_block (<[b := k + 4127]> cli) b n) by (split; [by rewrite lookup_insert_eq | done]).
  split; [done|]. split; [lia|]. split; [done|]. split; [done|]. split; [|split; [done|split]].
  - apply own_write; [done|]. apply touches_fill. intros x Hx. by eapply message_block_pay.
  - intros x Hx. rewrite memory_set. by apply fill_bytes_in.
  - intros x Hx. rewrite memory_set. pose proof (insert_pay_apart _ _ _ _ _ _ x Hb It Hx) as Hnb. rewrite fill_bytes_out by lia. by apply Hk1.
Qed.

(** From the prepared message on: the secure world is called, its requests are
    served, and the block is given back after the reply is read. *)
Lemma exchange_spec {A} cli sec b n Lo s (after : Z -> M (tee D W) A) (dec : mem -> Z -> A) :
  cli !! b = None -> message_block (<[b := OPTEE_MSG_GET_ARG_SIZE n + 4127]> cli) b n ->
  tee_inv (<[b := OPTEE_MSG_GET_ARG_SIZE n + 4127]> cli) sec [] s -> idle sec (world s) ->
  lent (memory s) (b + 4096) = (b + 4096, OPTEE_MSG_GET_ARG_SIZE n) :: Lo ->
  (forall r x, r ∈ Lo -> r.1 <= x < r.1 + r.2 -> pay cli x) ->
  (forall res s1, after res s1 = Ret (dec (memory s1) res) s1) ->
  wp (res ← OpteeSmcCall (b + 4096); r ← after res; in_lib (OpteeClientMemFree (b + 4096));; mret r) s (fun r s' =>
    exists sec2 res s1, OpteeSmcCall (b + 4096) s = Ret res s1 /\ r = dec (memory s1) res /\
      tee_inv cli sec2 [] s' /\ idle sec2 (world s') /\ (forall x, pay cli x -> memory s' x = memory s1 x) /\
      forall x, pay cli x -> (forall a, a ∈ Lo -> ~ a.1 <= x < a.1 + a.2) -> memory s' x = memory s x).
Proof.
  intros Hb Hmb I Hidle HL Hlo Hafter. set (k := OPTEE_MSG_GET_ARG_SIZE n) in *.
  assert (I0 : tee_inv (<[b := k + 4127]> cli) sec (lent (memory s) (b + 4096)) s).
  { eapply tee_inv_lend; [exact I|]. rewrite HL. intros r x Hr Hx. apply elem_of_cons in Hr as [-> |Hr].
    - by eapply message_block_pay.
    - apply pay_insert; [done|]. by eapply Hlo. }
  wp_go. pose proof (OpteeSmcCall_spec _ _ _ _ I0 Hidle) as Hcall. apply wp_returns in Hcall as (res & s1 & Ecall & sec2 & I1 & K1 & Hid1).
  apply (returns_wp _ _ _ _ _ Ecall). wp_go. apply (returns_wp _ _ _ _ _ (Hafter res s1)). wp_go.
  rewrite HL in *. eapply wp_mono; [exact (client_free cli sec2 _ b (k + 4127) s1 Hb I1)|].
  intros st s2 (_ & I2 & Ew & Hk2). wp_go. exists sec2, res, s1. split; [done|]. split; [done|]. split; [done|]. split; [by rewrite Ew|].
  split; [done|]. intros x Hx Hnl. rewrite Hk2 by done. apply K1; [by apply pay_insert|].
  intros r Hr. apply elem_of_cons in Hr as [-> |Hr]; [|by apply Hnl]. pose proof (insert_pay_apart _ _ _ _ _ _ x Hb I1 Hx). cbn [fst snd].
  destruct Hmb as [_ ?]. unfold k, OPTEE_MSG_GET_ARG_SIZE in *. lia.
Qed.
End Exchange.
