(* ===== verification/OpteeRpcProps.v ===== *)
(** * Calls to trusted applications

    What the client API promises: a request encoded as the message ABI has it,
    a reply decoded from the message, the memory of the caller kept apart from
    the secure world's ([TEEC_InvokeCommand_correct],
    [TEEC_OpenSession_correct], [TEEC_CloseSession_correct]); the firmware
    TPM's command ([Tpm2SubmitCommand_correct]); the time request.  The
    hypotheses hold of the secure world of [TeeDemo]. *)

From Stdlib Require Import ZArith Lia.
From stdpp Require Import base list numbers option gmap.
From S2P Require Import Prelude Memory OpteeMem OpteeMemProps OpteeRpc OpteeClientApi OpteeRpcSpec OpteeRpcServe.

(** The header of a request. *)
Record request_at (m : mem) (p cmd func session num : Z) : Prop := {
  rq_cmd : load 4 m (p + MSG_cmd) = cmd;
  rq_func : load 4 m (p + MSG_func) = func;
  rq_session : load 4 m (p + MSG_session) = session;
  rq_num : load 4 m (p + MSG_num_params) = num
}.

(** The reply: result, origin, session and parameters, or a failed call. *)
Definition reply (m : mem) (p res session : Z) (op : TEEC_Operation) : call_result :=
  if res =? TEEC_SUCCESS
  then {| cr_Result := load 4 m (p + MSG_ret); cr_Origin := load 4 m (p + MSG_ret_origin); cr_Session := session;
          cr_Operation := decoded m (param_at p 0) op |}
  else {| cr_Result := res; cr_Origin := TEEC_ORIGIN_COMMS; cr_Session := session; cr_Operation := op |}.

(** The reply to an opening request: the parameters are taken from the start
    of the message, where the meta parameters are. *)
Definition open_reply (m : mem) (p res session : Z) (op : TEEC_Operation) : call_result :=
  reply m p res (if res =? TEEC_SUCCESS then load 4 m (p + MSG_session) else session) op.

(** Areas inside the client's buffers. *)
Definition inside (cli : gmap Z Z) (L : list (Z * Z)) : Prop := forall r x, r ∈ L -> r.1 <= x < r.1 + r.2 -> pay cli x.

Section Calls.
Context {B : Build} {P : ShmPlatform} {D : Type} {G : Gcd D} {V : GcdView D} {L0 : GcdLaws D} {O : PlatformOk} {GF : GcdFrees D} {LO : ShmLow}.
Context {W : Type} {SW : SecureWorld W} {SV : SecureView W} {SL : SecureLaws W}.
Implicit Types (s : tee D W) (cli sec : gmap Z Z) (L : list (Z * Z)).

(** The bytes of the client that are not lent keep their values. *)
Definition preserved cli L s s' : Prop := forall x, pay cli x -> (forall r, r ∈ L -> ~ r.1 <= x < r.1 + r.2) -> memory s' x = memory s x.

(** A call: without memory for the message nothing happens; otherwise the
    message [encoded] is sent and the reply is [dec]. *)
Definition called {A} cli sec L s (encoded : mem -> Z -> Prop) (dec : mem -> Z -> Z -> A) (fail : A) (r : A) s' : Prop :=
  (r = fail /\ s' = s) \/
  exists sec2 p s0 res s1, world s0 = world s /\ (forall x, pay cli x -> memory s0 x = memory s x) /\ encoded (memory s0) p /\
    OpteeSmcCall p s0 = Ret res s1 /\ r = dec (memory s1) p res /\
    tee_inv cli sec2 [] s' /\ idle sec2 (world s') /\ (forall x, pay cli x -> memory s' x = memory s1 x) /\ preserved cli L s s'.

(** Every call prepares its message, lends it, and decodes the reply. *)
Lemma call_spec {A} cli sec n Lo s (prep : Z -> M (tee D W) unit) (after : Z -> Z -> M (tee D W) A) (fail : A) encoded (dec : mem -> Z -> Z -> A) :
  tee_inv cli sec [] s -> idle sec (world s) -> 0 <= n <= 6 -> inside cli Lo ->
  (forall p s1, zeros (memory s1) p (OPTEE_MSG_GET_ARG_SIZE n) -> wp (prep p) s1 (fun _ s2 => exists m, s2 = set_memory m s1 /\
    only_changes p (OPTEE_MSG_GET_ARG_SIZE n) (memory s1) m /\ encoded m p /\ lent m p = (p, OPTEE_MSG_GET_ARG_SIZE n) :: Lo)) ->
  (forall p res s1, after p res s1 = Ret (dec (memory s1) p res) s1) ->
  wp (p ← new_message n; if p =? 0 then mret fail else
        prep p;; res ← OpteeSmcCall p; r ← after p res; in_lib (OpteeClientMemFree p);; mret r) s (called cli sec Lo s encoded dec fail).
Proof.
  intros I Hid Hn Hlo Hprep Hafter. wp_go. eapply wp_mono; [by eapply new_message_spec|].
  intros p s1 [[-> ->]|(b & -> & Hp & Hb & Hmb & I1 & Ew & Hz & Hk)]; [rewrite Z.eqb_refl; wp_go; by left|].
  assert (En : (b + 4096 =? 0) = false) by (apply Z.eqb_neq; lia). rewrite En. apply wp_bind.
  eapply wp_mono; [by apply Hprep|]. intros _ s2 (m & -> & Hc & Henc & HL).
  assert (Hkeep : forall x, pay cli x -> m x = memory s x).
  { intros x Hx. rewrite Hc; [by apply Hk|]. destruct (in_range _ _ x) eqn:E; [|done]. apply in_range_spec in E.
    pose proof (insert_pay_apart _ _ _ _ _ _ x Hb I1 Hx). lia. }
  assert (I2 : tee_inv (<[b := OPTEE_MSG_GET_ARG_SIZE n + 4127]> cli) sec [] (set_memory m s1)).
  { apply own_write; [done|]. eapply touches_changes; [exact Hc|]. intros x Hx. by eapply message_block_pay. }
  rewrite <- Ew in Hid.
  eapply wp_mono; [exact (exchange_spec cli sec b n Lo _ (after (b + 4096)) (fun m res => dec m (b + 4096) res) Hb Hmb I2 Hid HL Hlo (Hafter _))|].
  intros r s' (sec2 & res & s3 & Ecall & -> & I3 & Hid2 & Ks & K2). right. exists sec2, (b + 4096), (set_memory m s1), res, s3.
  do 8 (split; [done|]). intros x Hx Hnl. rewrite K2 by done. by apply Hkeep.
Qed.

(** An invocation's message: its header, and the operation's parameters. *)
Definition invocation (id cmd : Z) (op : TEEC_Operation) (m : mem) (p : Z) : Prop :=
  request_at m p OPTEE_MSG_CMD_INVOKE_COMMAND cmd id 4 /\ params_at m (param_at p 0) op.

(** An opening message: the application's UUID, a public login, and the
    operation's parameters. *)
Definition opening (uuid : list Z) (op : TEEC_Operation) (m : mem) (p : Z) : Prop :=
  request_at m p OPTEE_MSG_CMD_OPEN_SESSION 0 0 6 /\
  load 8 m (param_at p 0 + PARAM_attr) = 0x101 /\ read_bytes m (param_at p 0 + PARAM_a) 16 = uuid /\
  load 8 m (param_at p 1 + PARAM_attr) = 0x101 /\ load 8 m (param_at p 1 + PARAM_c) = TEEC_LOGIN_PUBLIC /\
  params_at m (param_at p 2) op.

(** Messages are prepared word by word. *)
Lemma fill_invoke_spec id cmd op p s : operation_ok op -> in_word 32 id -> in_word 32 cmd -> zeros (memory s) p 160 ->
  wp (fill_InvokeCommand id cmd op p) s (fun _ s2 => exists m, s2 = set_memory m s /\ only_changes p 160 (memory s) m /\
    invocation id cmd op m p /\ lent m p = (p, 160) :: lent_op op).
Proof.
  intros Hok Hid Hcmd Hz. unfold fill_InvokeCommand, poke. wp_go. rewrite !memory_set, !set_memory_twice.
  set (m := write_bytes _ (p + MSG_num_params) _). assert (Hc : only_changes p 32 (memory s) m).
  { unfold m, MSG_cmd, MSG_func, MSG_session, MSG_num_params. repeat (eapply only_changes_trans; [|apply put_changes; lia]). apply only_changes_refl. }
  assert (Hr : request_at m p OPTEE_MSG_CMD_INVOKE_COMMAND cmd id 4).
  { unfold m. split; unfold MSG_cmd, MSG_func, MSG_session, MSG_num_params; by put_go. }
  clearbody m. assert (Eb : param_at p 0 = p + 32) by (unfold param_at, MSG_params, sizeof_param; lia).
  eapply wp_mono; [apply SetMsgParams_spec; [done|]|].
  { rewrite memory_set, Eb. eapply zeros_changes; [exact Hc | lia |]. eapply zeros_sub; [exact Hz | lia..]. }
  intros _ s2 (m2 & -> & Hc2 & Hp). rewrite memory_set in Hc2. exists m2. split; [done|].
  rewrite Eb in Hc2. split; [eapply only_changes_trans; eapply changes_mono; [exact Hc | | | exact Hc2 | |]; lia|].
  assert (Hr2 : request_at m2 p OPTEE_MSG_CMD_INVOKE_COMMAND cmd id 4).
  { destruct Hr. split; unfold MSG_cmd, MSG_func, MSG_session, MSG_num_params in *; by rewrite (changes_load 4 m m2 (p + 32) 128) by (done || lia). }
  split; [by split|]. apply lent_message; [done | apply Hr2 | done].
Qed.

Lemma finish_invoke_run id op p res s : operation_ok op -> finish_InvokeCommand id op p res s = Ret (reply (memory s) p res id op) s.
Proof.
  intros Hok. unfold finish_InvokeCommand, reply. destruct (Z.eqb_spec res TEEC_SUCCESS); [|done]. cbn [negb]. unfold peek. rewrite !bind_gets.
  erewrite bind_Ret; [|by apply GetMsgParams_run]. done.
Qed.

Lemma invoke_spec cli sec s id cmd op :
  tee_inv cli sec [] s -> idle sec (world s) -> in_word 32 id -> in_word 32 cmd -> operation_ok op -> inside cli (lent_op op) ->
  wp (TEEC_InvokeCommand (Some id) cmd (Some op)) s
     (called cli sec (lent_op op) s (invocation id cmd op) (fun m p res => reply m p res id op) (out_of_memory id op)).
Proof.
  intros I Hid Hi Hc Hok Hlo. unfold TEEC_InvokeCommand, TEEC_SMC_InvokeCommand. cbn [default].
  apply (call_spec cli sec 4); [done | done | done | done | |].
  - intros p s1 Hz. by apply fill_invoke_spec.
  - intros p res s1. by apply finish_invoke_run.
Qed.

(** C3: an invocation sends the message the ABI
    prescribes, decodes the reply by the types of the operation, serves every
    request the secure world makes meanwhile, and gives the message back; all
    of the client's memory outside of the output buffers is as before.  When
    there is no memory for the message, nothing has happened. *)
Theorem TEEC_InvokeCommand_correct cli sec s id cmd op :
  tee_inv cli sec [] s -> idle sec (world s) -> in_word 32 id -> in_word 32 cmd -> operation_ok op -> inside cli (lent_op op) ->
  wp (TEEC_InvokeCommand (Some id) cmd (Some op)) s
     (called cli sec (lent_op op) s (invocation id cmd op) (fun m p res => reply m p res id op) (out_of_memory id op)).
Proof. apply invoke_spec. Qed.

Lemma fill_open_spec uuid op p s : operation_ok op -> length uuid = 16%nat -> zeros (memory s) p 224 ->
  wp (fill_OpenSession uuid op p) s (fun _ s2 => exists m, s2 = set_memory m s /\ only_changes p 224 (memory s) m /\
    opening uuid op m p /\ lent m p = (p, 224) :: lent_op op).
Proof.
  intros Hok Hlen Hz. unfold fill_OpenSession, poke, poke_bytes. rewrite take_ge by lia. wp_go. rewrite !memory_set, !set_memory_twice.
  assert (E0 : param_at p 0 = p + 32) by (unfold param_at, MSG_params, sizeof_param; lia).
  assert (E1 : param_at p 1 = p + 64) by (unfold param_at, MSG_params, sizeof_param; lia).
  assert (E2 : param_at p 2 = p + 96) by (unfold param_at, MSG_params, sizeof_param; lia).
  set (m := write_bytes _ (param_at p 1 + PARAM_c) _). assert (Hc : only_changes p 96 (memory s) m).
  { unfold m, MSG_cmd, MSG_num_params, PARAM_attr, PARAM_a, PARAM_c. rewrite E0, E1.
    repeat (eapply only_changes_trans; [|apply only_changes_write; rewrite ?length_le_bytes, ?Hlen; lia]). apply only_changes_refl. }
  assert (Hm : request_at m p OPTEE_MSG_CMD_OPEN_SESSION 0 0 6 /\ load 8 m (p + 32) = 0x101 /\ read_bytes m (p + 40) 16 = uuid /\
    load 8 m (p + 64) = 0x101 /\ load 8 m (p + 88) = TEEC_LOGIN_PUBLIC).
  { unfold m, MSG_cmd, MSG_num_params, PARAM_attr, PARAM_a, PARAM_c. rewrite E0, E1.
    replace (p + 32 + 0) with (p + 32) by lia. replace (p + 64 + 0) with (p + 64) by lia.
    replace (p + 64 + 24) with (p + 88) by lia. replace (p + 32 + 8) with (p + 40) by lia.
    split; [split; unfold MSG_cmd, MSG_func, MSG_session, MSG_num_params|]; [..|split; [|split; [|split]]].
    all: repeat (rewrite load_write_disjoint by (rewrite ?length_le_bytes, ?Hlen; lia)).
    all: try (rewrite load_put; [done | lia | done]).
    1-2: apply (zeros_load _ p 224); [done | lia..].
    repeat (rewrite read_write_disjoint by (rewrite length_le_bytes; lia)). pose proof (read_write_same (write_bytes (write_bytes (write_bytes (memory s) (p + 0)
      (le_bytes (Z.to_nat 4) OPTEE_MSG_CMD_OPEN_SESSION)) (p + 28) (le_bytes (Z.to_nat 4) (TEEC_CONFIG_PAYLOAD_REF_COUNT + 2))) (p + 32)
      (le_bytes (Z.to_nat 8) (Z.lor OPTEE_MSG_ATTR_TYPE_VALUE_INPUT OPTEE_MSG_ATTR_META))) (p + 40) uuid) as Hu. rewrite Hlen in Hu. exact Hu. }
  clearbody m. eapply wp_mono; [apply SetMsgParams_spec; [done|]|].
  { rewrite memory_set, E2. eapply zeros_changes; [exact Hc | lia |]. eapply zeros_sub; [exact Hz | lia..]. }
  intros _ s2 (m2 & -> & Hc2 & Hp). rewrite memory_set in Hc2. exists m2. split; [done|].
  rewrite E2 in Hc2. split; [eapply only_changes_trans; eapply changes_mono; [exact Hc | | | exact Hc2 | |]; lia|].
  assert (Hop : opening uuid op m2 p).
  { destruct Hm as ([H1 H2 H3 H4] & H5 & H6 & H7 & H8). unfold opening. rewrite E0, E1. unfold PARAM_attr, PARAM_a, PARAM_c.
    replace (p + 32 + 0) with (p + 32) by lia. replace (p + 64 + 0) with (p + 64) by lia.
    replace (p + 64 + 24) with (p + 88) by lia. replace (p + 32 + 8) with (p + 40) by lia.
    rewrite !(changes_load 8 m m2 (p + 96) 128) by (done || lia). rewrite (only_changes_read (p + 96) 128 m m2) by (done || lia).
    split; [|done]. split; unfold MSG_cmd, MSG_func, MSG_session, MSG_num_params in *; by rewrite (changes_load 4 m m2 (p + 96) 128) by (done || lia). }
  split; [done|]. destruct Hop as (Hr & Ha0 & _ & Ha1 & _ & Hps). apply lent_open_message; [done | apply Hr | done | done | done].
Qed.

Lemma finish_open_run id op p res s : operation_ok op -> finish_OpenSession id op p res s = Ret (open_reply (memory s) p res id op) s.
Proof.
  intros Hok. unfold finish_OpenSession, open_reply, reply. destruct (Z.eqb_spec res TEEC_SUCCESS); [|done]. cbn [negb]. unfold peek. rewrite !bind_gets.
  erewrite bind_Ret; [|by apply GetMsgParams_run]. done.
Qed.

(** opening a session sends the application's
    UUID and a public login as meta parameters ahead of the operation's, and
    returns the session identifier of the reply.  The operation's parameters
    are read back from the start of the message, where the meta parameters
    are, so those of a caller that expects values back come from the UUID and
    the login ([open_reply]). *)
Theorem TEEC_OpenSession_correct cli sec s id uuid op :
  tee_inv cli sec [] s -> idle sec (world s) -> length uuid = 16%nat -> operation_ok op -> inside cli (lent_op op) ->
  wp (TEEC_OpenSession true (Some id) (Some uuid) TEEC_LOGIN_PUBLIC (Some op)) s
     (called cli sec (lent_op op) s (opening uuid op) (fun m p res => open_reply m p res id op) (out_of_memory id op)).
Proof.
  intros I Hid Hl Hok Hlo. unfold TEEC_OpenSession. cbn [default negb]. rewrite Z.eqb_refl. cbn [negb]. unfold TEEC_SMC_OpenSession.
  apply (call_spec cli sec 6); [done | done | done | done | |].
  - intros p s1 Hz. by apply fill_open_spec.
  - intros p res s1. by apply finish_open_run.
Qed.

(** A closing message, and its reply. *)
Definition closing (id : Z) (m : mem) (p : Z) : Prop := request_at m p OPTEE_MSG_CMD_CLOSE_SESSION 0 id 0.
Definition close_reply (m : mem) (p res : Z) : Z * Z :=
  if res =? TEEC_SUCCESS then (load 4 m (p + MSG_ret), load 4 m (p + MSG_ret_origin)) else (res, TEEC_ORIGIN_COMMS).

Lemma close_spec cli sec s id : tee_inv cli sec [] s -> idle sec (world s) -> in_word 32 id ->
  wp (TEEC_SMC_CloseSession id) s (called cli sec [] s (closing id) close_reply (TEEC_ERROR_OUT_OF_MEMORY, TEEC_ORIGIN_API)).
Proof.
  intros I Hid Hi. unfold TEEC_SMC_CloseSession. apply (call_spec cli sec 0); [done | done | done | | |].
  - intros r x Hr. by apply not_elem_of_nil in Hr.
  - intros p s1 Hz. unfold fill_CloseSession, poke. change (OPTEE_MSG_GET_ARG_SIZE 0) with 32 in *. wp_go. rewrite !memory_set, !set_memory_twice.
    eexists. split; [reflexivity|]. unfold MSG_cmd, MSG_session. split; [|split].
    + repeat (eapply only_changes_trans; [|apply put_changes; lia]). apply only_changes_refl.
    + split; unfold MSG_cmd, MSG_func, MSG_session, MSG_num_params; put_go; try done; by apply (zeros_load _ p 32); [|lia..].
    + unfold lent, MSG_num_params. rewrite !load_put_off by lia. by rewrite (zeros_load _ p 32) by (done || lia).
  - intros p res s1. unfold finish_CloseSession, close_reply. by destruct (Z.eqb_spec res TEEC_SUCCESS).
Qed.

(** The loop ends with one of three results. *)
Lemma smc_loop_result n : forall r s, wpe (fun _ => True) (smc_loop n r) s (fun res _ =>
  res = TEEC_SUCCESS \/ res = TEEC_ERROR_NOT_IMPLEMENTED \/ res = TEEC_ERROR_COMMUNICATION).
Proof.
  induction n as [|n IH]; intros r s; [done|]. cbn [smc_loop]. apply wpe_bind. unfold wpe at 1, smc, on_memory. destruct (ArmCallSmc _ _ _) as [[r1 m1] w1].
  destruct (OPTEE_SMC_RETURN_IS_RPC _).
  - apply wpe_bind. unfold wpe at 1. destruct (OpteeRpcCallback r1 _) as [[? r2] s2|]; [apply IH | done].
  - destruct (_ =? _); [by right; left|]. destruct (negb _); [by right; right | by left].
Qed.


(** Nanoseconds past the second. *)
Lemma nanos_of_second ticks freq : 0 <= ticks -> 0 < freq ->
  ticks * NANOS_PER_SEC / freq - ticks / freq * NANOS_PER_SEC = (ticks mod freq) * NANOS_PER_SEC / freq.
Proof.
  intros Ht Hf. unfold NANOS_PER_SEC. rewrite (Z.div_mod ticks freq) at 1 by lia.
  replace ((freq * (ticks / freq) + ticks mod freq) * 1000000000) with ((ticks mod freq) * 1000000000 + (ticks / freq * 1000000000) * freq) by lia.
  rewrite Z.div_add by lia. lia.
Qed.

(** a time request is answered with the
    seconds and the nanoseconds of the counter, as long as the tick count
    times 10^9 fits in 64 bits. *)
Theorem OpteeRpcCmdGetTime_correct p s ticks w :
  load 4 (memory s) (p + MSG_num_params) = 1 -> param_is (memory s) (param_at p 0) OPTEE_MSG_ATTR_TYPE_VALUE_OUTPUT ->
  GetPerformanceCounter (world s) = (ticks, w) -> 0 <= ticks -> 0 < PerformanceFrequency w ->
  ticks * NANOS_PER_SEC < 2 ^ 64 ->
  wp (OpteeRpcCmdGetTime p) s (fun r s' => r = TEEC_SUCCESS /\ lib s' = set_shm (memory s') (lib s) /\ world s' = w /\
    only_changes (p + 40) 16 (memory s) (memory s') /\
    load 8 (memory s') (p + 40) = ticks / PerformanceFrequency w /\
    load 8 (memory s') (p + 48) = (ticks mod PerformanceFrequency w) * NANOS_PER_SEC / PerformanceFrequency w /\
    load 8 (memory s') (p + 48) < NANOS_PER_SEC).
Proof.
  intros Hn Ht Eg H0 Hf Hfit. unfold param_is in Ht. set (f := PerformanceFrequency w) in *. assert (Eb : NANOS_PER_SEC = 1000000000) by done.
  assert (Hmod : 0 <= ticks mod f < f) by (apply Z.mod_pos_bound; lia).
  assert (Hns : 0 <= ticks mod f * NANOS_PER_SEC / f < NANOS_PER_SEC).
  { split; [apply Z.div_pos; lia | apply Z.div_lt_upper_bound; nia]. }
  assert (Hs : 0 <= ticks / f <= ticks) by (split; [apply Z.div_pos; lia | apply Z.div_le_upper_bound; nia]).
  assert (Es : ticks / f * NANOS_PER_SEC <= ticks * NANOS_PER_SEC) by (apply Z.mul_le_mono_nonneg_r; lia).
  assert (E1 : u64 (ticks * NANOS_PER_SEC) = ticks * NANOS_PER_SEC) by (apply wrap_small; unfold in_word; lia).
  assert (E2 : u64 (ticks / f * NANOS_PER_SEC) = ticks / f * NANOS_PER_SEC) by (apply wrap_small; unfold in_word; lia).
  assert (E3 : u64 (ticks * NANOS_PER_SEC / f - ticks / f * NANOS_PER_SEC) = ticks mod f * NANOS_PER_SEC / f).
  { rewrite nanos_of_second by done. apply wrap_small. unfold in_word. lia. }
  assert (Hw1 : in_word 64 (ticks / f)) by (unfold in_word; lia).
  assert (Hw2 : in_word 64 (ticks mod f * NANOS_PER_SEC / f)) by (unfold in_word; lia).
  unfold OpteeRpcCmdGetTime. tee_go. rewrite Hn. cbn [Z.eqb Pos.eqb negb]. tee_go. rewrite Ht, Z.eqb_refl. cbn [negb]. tee_go.
  unfold service at 1. unfold wp at 1. rewrite Eg. tee_go. unfold poke. cbn beta zeta. wp_go. cbn [set_world world]. fold f. rewrite E1, E2, E3.
  rewrite !set_memory_twice, !memory_set. destruct (param_words p) as (_ & -> & -> & _).
  split; [done|]. split; [done|]. split; [done|]. split; [|split; [|split]].
  - eapply only_changes_trans; apply put_changes; lia.
  - by put_go.
  - by put_go.
  - put_go. lia.
Qed.
End Calls.

(** ** The firmware TPM *)

Section Tpm.
Context {B : Build} {P : ShmPlatform} {D : Type} {G : Gcd D} {V : GcdView D} {L0 : GcdLaws D} {O : PlatformOk} {GF : GcdFrees D} {LO : ShmLow}.
Context {W : Type} {SW : SecureWorld W} {SV : SecureView W} {SL : SecureLaws W}.
Implicit Types (s : ftpm D W) (cli sec : gmap Z Z).

(** Stops of a debug build. *)
Definition asserted (w : stop) : Prop := w = Halt.

Lemma submit_operation_ok a i o : in_word 64 a -> in_word 64 i -> in_word 64 o -> in_word 64 (a + i) -> operation_ok (submit_operation a i o).
Proof.
  intros. split; [done | |].
  - intros j Hj. do 4 (destruct j as [|j]; [unfold supported, type_at; vm_compute; intuition (lia || discriminate)|]). lia.
  - by repeat (apply Forall_cons; split; [done|]).
Qed.

(** What the secure world answers to a command. *)
Definition submitted (In : list Z) (OutputSize id : Z) (r : submit_result) : Prop :=
  exists a p (s0 s1 : tee D W), let n := Z.of_nat (length In) in
    read_bytes (memory s0) a n = In /\ invocation id TA_FTPM_SUBMIT_COMMAND (submit_operation a n OutputSize) (memory s0) p /\
    OpteeSmcCall p s0 = Ret TEEC_SUCCESS s1 /\ load 4 (memory s1) (p + MSG_ret) = TEEC_SUCCESS /\
    let size := load 8 (memory s1) (param_at p 1 + PARAM_b) in
    su_Status r = EFI_SUCCESS /\ su_Size r = u32 size /\
    (size <= OutputSize -> su_Output r = read_bytes (memory s1) (a + n) size).

End Tpm.

(** ** A secure world

    It asks for a block of 100 bytes before it answers, stamps it, gives it
    back, and reports success; without memory it reports that. *)
Module TeeDemo.
Import OpteeDemo.

Record phone := { phase : Z; msg : Z; msg_size : Z; blk : Z }.
Definition resting : phone := {| phase := 0; msg := 0; msg_size := 0; blk := 0 |}.

Definition asking (func a b : Z) : ARM_SMC_ARGS :=
  {| Arg0 := func; Arg1 := a; Arg2 := b; Arg3 := 0; Arg4 := 0; Arg5 := 0; Arg6 := 0; Arg7 := 0 |}.

(** The result and its origin, the trusted application. *)
Definition finish (code : Z) (m : mem) (w : phone) : ARM_SMC_ARGS * mem * phone :=
  (asking 0 0 0, (if 32 <=? msg_size w then write_bytes m (msg w + 20) (le_bytes 4 code ++ le_bytes 4 4) else m), resting).

Definition secure_call (r : ARM_SMC_ARGS) (m : mem) (w : phone) : ARM_SMC_ARGS * mem * phone :=
  if phase w =? 0 then
    let p := Arg1 r * 2 ^ 32 + Arg2 r in
    (asking 0xFFFF0000 100 0, m, {| phase := 1; msg := p; msg_size := OPTEE_MSG_GET_ARG_SIZE (load 4 m (p + 28)); blk := 0 |})
  else if phase w =? 1 then
    let a := ADDRESS64 (Arg1 r) (Arg2 r) in
    if (OPTEE_SHM_START <=? a) && (a <? OPTEE_SHM_END)
    then (asking 0xFFFF0002 (Arg1 r) (Arg2 r), write_bytes m a [0x5A],
          {| phase := 2; msg := msg w; msg_size := msg_size w; blk := a |})
    else finish TEEC_ERROR_OUT_OF_MEMORY m w
  else finish TEEC_SUCCESS m w.

#[export] Instance phone_world : SecureWorld phone := {
  ArmCallSmc := secure_call;
  rpcs_left := fun w => if phase w =? 0 then 2%nat else if phase w =? 1 then 1%nat else 0%nat;
  GetSectionFromAnyFv := fun _ w => (EFI_NOT_FOUND, None, w);
  FreePool := fun w => w;
  LocateRpmbIo := fun w => (EFI_NOT_FOUND, w);
  ProgramKey := fun _ _ m w => (EFI_DEVICE_ERROR, m, w);
  ReadCounter := fun _ _ m w => (EFI_DEVICE_ERROR, m, w);
  AuthenticatedWrite := fun _ _ _ m w => (EFI_DEVICE_ERROR, m, w);
  AuthenticatedRead := fun _ _ _ m w => (EFI_DEVICE_ERROR, m, w);
  Cid := fun _ => [];
  ReliableSectorCount := fun _ => 1;
  RpmbSizeMult := fun _ => 1;
  GetPerformanceCounter := fun w => (36000000, w);
  PerformanceFrequency := fun _ => 24000000
}.

#[export] Instance phone_view : SecureView phone := {
  serving := fun rq sec L w =>
    match rq with
    | Rq_none => phase w = 0 /\ sec = ∅
    | Rq_alloc n => phase w = 1 /\ n = 100 /\ sec = ∅ /\ (32 <= msg_size w -> (msg w, msg_size w) ∈ L)
    | Rq_free b => phase w = 2 /\ sec = {[b := 4227]} /\ (32 <= msg_size w -> (msg w, msg_size w) ∈ L)
    | _ => False
    end
}.

Lemma finish_ok code sec L m w r' m' w' : (32 <= msg_size w -> (msg w, msg_size w) ∈ L) -> finish code m w = (r', m', w') ->
  (forall x, m' x <> m x -> open sec L x) /\ exists rq', asks ∅ L r' m' rq' /\ serving rq' ∅ (match rq' with Rq_none => [] | _ => L end) w' /\
    (rq' <> Rq_none -> (rpcs_left w' < rpcs_left w)%nat).
Proof.
  intros Hin E. unfold finish in E. injection E as <- <- <-. split; [|by exists Rq_none].
  intros x Hx. destruct (Z.leb_spec 32 (msg_size w)) as [H|]; [|done]. right. exists (msg w, msg_size w). split; [by apply Hin|]. cbn [fst snd].
  destruct (in_range (msg w + 20) 8 x) eqn:Er; [apply in_range_spec in Er; lia|]. apply in_range_false in Er.
  rewrite write_bytes_out in Hx; [done|]. cbn [length le_bytes app]. lia.
Qed.

Lemma call_address p : Z.shiftr p 32 * 2 ^ 32 + Z.land p 0xFFFFFFFF = p.
Proof. rewrite Z.shiftr_div_pow2 by lia. change 0xFFFFFFFF with (Z.ones 32). rewrite Z.land_ones by lia. pose proof (Z.div_mod p (2 ^ 32)). lia. Qed.

#[export] Instance phone_laws : SecureLaws phone.
Proof.
  split; try (intros; apply same_refl); try (intros; cbn; split; [apply same_refl | apply only_changes_refl]).
  - intros sec w p m r m' w' [Hph ->] E. cbv zeta. cbn [ArmCallSmc phone_world] in E. unfold secure_call in E. rewrite Hph in E. cbn [Z.eqb] in E.
    unfold call_args in E. cbn [Arg1 Arg2] in E. rewrite call_address in E. injection E as <- <- <-. split; [by intros x|].
    exists (Rq_alloc 100). split; [by split|]. split; [|intros _; cbn; rewrite Hph; cbn; lia].
    split; [done|]. split; [done|]. split; [done|]. intros _. cbn [msg msg_size]. unfold lent. apply list_elem_of_here.
  - intros rq sec L w r m r' m' w' sec2 Hs Hne H0 Ha E. destruct rq as [|n|b| |p c]; cbn [serving phone_view] in Hs; try done.
    + destruct Hs as (Hph & -> & -> & Hin). cbn [ArmCallSmc phone_world] in E. unfold secure_call in E. rewrite Hph in E. cbn [Z.eqb Pos.eqb] in E.
      unfold answers in Ha. cbv zeta in Ha. destruct (_ && _) eqn:Ea; rewrite Ha.
      * injection E as <- <- <-. set (a := ADDRESS64 (Arg1 r) (Arg2 r)) in *. split.
        -- intros x Hx. left. exists (a - 4096), 4227. split; [by rewrite lookup_insert_eq|]. destruct (in_range a 1 x) eqn:Er;
             [apply in_range_spec in Er; lia|]. apply in_range_false in Er. rewrite write_bytes_out in Hx; [done | cbn [length]; lia].
        -- exists (Rq_free (a - 4096)). split; [|split; [|intros _; cbn; rewrite Hph; cbn; lia]].
           ++ split; [done|]. cbn [Arg1 Arg2 asking]. split; [unfold a; lia|]. exists 4227. by rewrite lookup_insert_eq.
           ++ split; [done|]. split; [done | exact Hin].
      * by eapply finish_ok.
    + destruct Hs as (Hph & -> & Hin). cbn in Ha. rewrite delete_singleton_eq in Ha. rewrite Ha. cbn [ArmCallSmc phone_world] in E. unfold secure_call in E.
      rewrite Hph in E. cbn [Z.eqb Pos.eqb] in E. by eapply finish_ok.
Qed.

#[export] Instance low : ShmLow.
Proof. split. by vm_compute. Qed.

#[export] Instance gcd_frees : GcdFrees space_map.
Proof. split. intros b n d H. cbn in *. by rewrite bool_decide_true. Qed.

(** The client holds one buffer of 100 bytes. *)
Definition held_buffers : gmap Z Z := {[block := 4227]}.
Definition start : tee space_map phone := Build_tee one_buffer resting.

Lemma start_inv : tee_inv held_buffers ∅ [] start.
Proof.
  split; [rewrite (right_id_L ∅ (∪)); exact one_buffer_inv | apply map_disjoint_empty_r |]. intros r x Hr. by apply not_elem_of_nil in Hr.
Qed.

(** Two values in and out, and the buffer for output. *)
Definition operation : TEEC_Operation :=
  {| paramTypes := 0x63; params := [{| word0 := 7 + 9 * 2 ^ 32; word1 := 0 |}; {| word0 := block + 4096; word1 := 100 |}; no_param; no_param] |}.

Lemma operation_fine : operation_ok operation.
Proof.
  split; [done | |].
  - intros j Hj. do 4 (destruct j as [|j]; [unfold supported, type_at; vm_compute; intuition (lia || discriminate)|]). lia.
  - by repeat (apply Forall_cons; split; [done|]).
Qed.

Lemma operation_inside : inside held_buffers (lent_op operation).
Proof.
  intros r x Hr Hx. change (lent_op operation) with [(block + 4096, 100)] in Hr. apply list_elem_of_singleton in Hr as ->. cbn [fst snd] in Hx.
  exists block, 4227. split; [done|]. lia.
Qed.

Lemma TEEC_InvokeCommand_correct_witness :
  wp (TEEC_InvokeCommand (Some 5) 17 (Some operation)) start
     (called held_buffers ∅ (lent_op operation) start (invocation 5 17 operation) (fun m p res => reply m p res 5 operation) (out_of_memory 5 operation)).
Proof. apply TEEC_InvokeCommand_correct; [exact start_inv | split; exact eq_refl | done | done | exact operation_fine | exact operation_inside]. Defined.

(** The call succeeds, and the values come back. *)
Example invoked : match TEEC_InvokeCommand (Some 5) 17 (Some operation) start with
  | Ret r s' => (cr_Result r, cr_Origin r, word0 (param_of (cr_Operation r) 0), bool_decide (blocks (gcd (lib s')) = held_buffers))
  | Stop _ => (0, 0, 0, false)
  end = (TEEC_SUCCESS, 4, 7 + 9 * 2 ^ 32, true).
Proof. vm_compute. reflexivity. Qed.

Definition uuid : list Z := [1; 2; 3; 4; 5; 6; 7; 8; 9; 10; 11; 12; 13; 14; 15; 16].

Lemma TEEC_OpenSession_correct_witness :
  wp (TEEC_OpenSession true (Some 0) (Some uuid) TEEC_LOGIN_PUBLIC (Some operation)) start
     (called held_buffers ∅ (lent_op operation) start (opening uuid operation) (fun m p res => open_reply m p res 0 operation) (out_of_memory 0 operation)).
Proof. apply TEEC_OpenSession_correct; [exact start_inv | split; exact eq_refl | done | exact operation_fine | exact operation_inside]. Defined.

(** The value that comes back is the UUID, not what was sent. *)
Example opened_reads_uuid : match TEEC_OpenSession true (Some 0) (Some uuid) TEEC_LOGIN_PUBLIC (Some operation) start with
  | Ret r _ => (cr_Result r, value_a (param_of (cr_Operation r) 0))
  | Stop _ => (1, 0)
  end = (TEEC_SUCCESS, le_val [1; 2; 3; 4]).
Proof. vm_compute. reflexivity. Qed.

(** A bare message in the client's buffer. *)
Definition sending : tee space_map phone := set_memory (fill_bytes (memory start) (block + 4096) 32 0) start.


(** A time request in the client's buffer. *)
Definition time_request : tee space_map phone :=
  set_memory (write_bytes (memory start) (block + 4096) (le_bytes 4 3 ++ le_bytes 8 0 ++ le_bytes 8 0 ++ le_bytes 8 0 ++ le_bytes 4 1 ++ le_bytes 8 2)) start.

Lemma OpteeRpcCmdGetTime_correct_witness :
  wp (OpteeRpcCmdGetTime (block + 4096)) time_request (fun r s' => r = TEEC_SUCCESS /\ lib s' = set_shm (memory s') (lib time_request) /\ world s' = resting /\
    only_changes (block + 4096 + 40) 16 (memory time_request) (memory s') /\
    load 8 (memory s') (block + 4096 + 40) = 36000000 / PerformanceFrequency resting /\
    load 8 (memory s') (block + 4096 + 48) = (36000000 mod PerformanceFrequency resting) * NANOS_PER_SEC / PerformanceFrequency resting /\
    load 8 (memory s') (block + 4096 + 48) < NANOS_PER_SEC).
Proof. apply OpteeRpcCmdGetTime_correct; [vm_compute; reflexivity | vm_compute; reflexivity | reflexivity | lia | vm_compute; reflexivity | vm_compute; reflexivity]. Defined.

(** A command of the TPM. *)
Definition tpm : ftpm space_map phone := Build_ftpm start true 3.

End TeeDemo.
