(* ===== verification/Password.v ===== *)
(** * The administrator password: policy and store

    Model of
    [src/Platforms/FriendlyElec/OemPkg/Library/PasswordPolicyLib/PasswordPolicyLib.c]
    (what a password may look like and how its hash is built) and
    [.../PasswordStoreLib/PasswordStoreLib.c] (the variable that holds the
    hash).  Passwords are CHAR16 strings; hashes live in pool buffers, and an
    access outside of a buffer is a [Fault]. *)

From Stdlib Require Import ZArith Lia.
From Stdlib Require Import String Ascii.
From stdpp Require Import base list numbers option gmap.
From S2P Require Import Prelude Memory.

(** ** Constants *)

Definition PW_MIN_LENGTH : Z := 6.
Definition PW_MAX_LENGTH : Z := 128.
Definition PW_TEST_STRING_NULL : Z := 1.
Definition PW_TEST_STRING_TOO_SHORT : Z := 2.
Definition PW_TEST_STRING_TOO_LONG : Z := 4.
Definition PW_TEST_STRING_INVALID_CHAR : Z := 8.

Definition PRIVATE_HASH_VER_1_VERSION : Z := 1.
(** [SHA256_DIGEST_SIZE]. *)
Definition PRIVATE_HASH_VER_1_HASH_DIGEST_SIZE : Z := 32.
Definition PRIVATE_HASH_VER_1_SALT_SIZE : Z := 32.
Definition PRIVATE_HASH_VER_1_ITERATION_COUNT : Z := 60000.
Definition PRIVATE_HASH_VER_1_KEY_SIZE : Z := 40.
(** [PRIVATE_HASH_VER_1], packed: [Header.Version] at 0, [Salt] at 2, [Key]
    at 34. *)
Definition VER_1_SALT : Z := 2.
Definition VER_1_KEY : Z := 34.
Definition PRIVATE_HASH_VER_1_VERSION_SIZE : Z := 74.
Definition PASSWORD_HASH_HEADER_SIZE : Z := 2.
Definition PASSWORD_HASH_VER_DELETE : Z := 0xADDEADDE.
Definition PASSWORD_HASH_VER_DELETE_SIZE : Z := 4.

(** [EFI_VARIABLE_NON_VOLATILE | EFI_VARIABLE_BOOTSERVICE_ACCESS]. *)
Definition PASSWORD_STORE_ADMIN_VARIABLE_ATTRS : Z := 3.

(** The rows of [mPasswordHashVersions]: version and size. *)
Definition mPasswordHashVersions : list (Z * Z) :=
  [(PRIVATE_HASH_VER_1_VERSION, PRIVATE_HASH_VER_1_VERSION_SIZE)].

(** The last character is the double quote. *)
Definition ValidChars : list Z :=
  ((fun c => Z.of_N (N_of_ascii c)) <$> list_ascii_of_string
    "ABCDEFGHIJKLMNOPQRSTUVWXYZabcdefghijklmnopqrstuvwxyz0123456789!@#$%^&*()?<>{}[]-_=+|.,;:'`~"%string)
  ++ [34].

(** ** Strings

    A string is what an array holds before its terminator. *)

Fixpoint c_string (a : list Z) : list Z :=
  match a with
  | [] => []
  | c :: a => if c =? 0 then [] else c :: c_string a
  end.

Definition StrLen (a : list Z) : Z := Z.of_nat (length (c_string a)).

(** [StrCmp (a, b) == 0]. *)
Definition StrEq (a b : list Z) : bool := bool_decide (c_string a = c_string b).

(** ** Library and services outside the repository

    [StrnCpyS] of the base library, and what an automatic array of CHAR16
    holds before it is written. *)
Class BaseStrings := {
  StrnCpyS : list Z -> Z -> list Z -> Z -> list Z;
  uninitialised : nat -> list Z
}.

(** [StrnCpyS] copies at most [Length] characters and a terminator. *)
Class BaseStringsLaws `{BaseStrings} : Prop := {
  StrnCpyS_length Dest DestMax Src Length : length (StrnCpyS Dest DestMax Src Length) = length Dest;
  StrnCpyS_copies Dest DestMax Src Length :
    0 <= Length < DestMax -> DestMax <= Z.of_nat (length Dest) ->
    c_string (StrnCpyS Dest DestMax Src Length) = take (Z.to_nat Length) (c_string Src);
  uninitialised_length n : length (uninitialised n) = n
}.

Inductive rng_algorithm := Sp80090Ctr256 | Sp80090Hmac256 | Sp80090Hash256.

Abbreviation heap_t := (gmap Z (list Z)).

(** Boot and runtime services; a status, the outputs and the new
    environment. *)
Class Services (E : Type) := {
  AllocatePool : Z -> heap_t -> E -> option (Z * list Z) * E;
  LocateRng : E -> Z * E;
  GetRNG : rng_algorithm -> Z -> E -> Z * list Z * E;
  LocatePkcs5 : E -> Z * Z * E;
  (** password, salt, iteration count, digest size, output size *)
  HashPassword : list Z -> list Z -> Z -> Z -> Z -> E -> Z * list Z * E;
  (** status, buffer and its content, data size, attributes *)
  GetVariable3 : heap_t -> E -> Z * option (Z * list Z) * Z * Z * E;
  (** attributes, data *)
  SetVariable : Z -> list Z -> E -> Z * E;
  LocateStoreInstalled : E -> Z * E;
  InstallProtocolInterface : E -> Z * E
}.

(** ** State *)

Record machine (E : Type) := {
  env : E;
  heap : heap_t;
  mPkcs5Protocol : Z;
  mNullPasswordHash : Z;
  mNullPasswordHashSize : Z
}.
Arguments env {E} _.
Arguments heap {E} _.
Arguments mPkcs5Protocol {E} _.
Arguments mNullPasswordHash {E} _.
Arguments mNullPasswordHashSize {E} _.
Arguments Build_machine {E} _ _ _ _ _.

Section Machine.
Context {E : Type}.
Implicit Types s : machine E.

Definition set_env (e : E) s := Build_machine e (heap s) (mPkcs5Protocol s) (mNullPasswordHash s) (mNullPasswordHashSize s).
Definition set_heap h s := Build_machine (env s) h (mPkcs5Protocol s) (mNullPasswordHash s) (mNullPasswordHashSize s).
Definition set_pkcs5 p s := Build_machine (env s) (heap s) p (mNullPasswordHash s) (mNullPasswordHashSize s).
Definition set_null p n s := Build_machine (env s) (heap s) (mPkcs5Protocol s) p n.

(** A service call. *)
Definition service {A} (f : E -> A * E) : M (machine E) A :=
  fun s => let '(a, e) := f (env s) in Ret a (set_env e s).

(** Pool buffers. *)
Definition load_at (p off n : Z) : M (machine E) (list Z) :=
  fun s => match heap s !! p with
           | Some bs => if off + n <=? Z.of_nat (length bs)
                        then Ret (take (Z.to_nat n) (drop (Z.to_nat off) bs)) s else Stop Fault
           | None => Stop Fault
           end.

Definition store_at (p off : Z) (l : list Z) : M (machine E) unit :=
  fun s => match heap s !! p with
           | Some bs => if off + Z.of_nat (length l) <=? Z.of_nat (length bs)
                        then Ret tt (set_heap (<[p := list_inserts (Z.to_nat off) l bs]> (heap s)) s) else Stop Fault
           | None => Stop Fault
           end.

Definition FreePool (p : Z) : M (machine E) unit :=
  fun s => match heap s !! p with Some _ => Ret tt (set_heap (delete p (heap s)) s) | None => Stop Fault end.

(** [CompareMem (a, b, n) == 0]. *)
Definition CompareMem (a b n : Z) : M (machine E) bool :=
  x ← load_at a 0 n; y ← load_at b 0 n; mret (bool_decide (x = y)).

Context {V : Services E}.

(** The pool call on the heap; 0 is NULL. *)
Definition allocate (n : Z) : M (machine E) Z :=
  fun s => match AllocatePool n (heap s) (env s) with
           | (Some (p, bs), e) => Ret p (set_heap (<[p := bs]> (heap s)) (set_env e s))
           | (None, e) => Ret 0 (set_env e s)
           end.

Definition AllocateZeroPool (n : Z) : M (machine E) Z :=
  p ← allocate n;
  if p =? 0 then mret 0 else store_at p 0 (replicate (Z.to_nat n) 0);; mret p.

(** [GetVariable2]/[GetVariable3] allocate the buffer they return. *)
Definition get_variable : M (machine E) (Z * Z * Z * Z) :=
  fun s => match GetVariable3 (heap s) (env s) with
           | (Status, Some (p, bs), Size, Attributes, e) =>
               Ret (Status, p, Size, Attributes) (set_heap (<[p := bs]> (heap s)) (set_env e s))
           | (Status, None, Size, Attributes, e) => Ret (Status, 0, Size, Attributes) (set_env e s)
           end.
End Machine.

(** ** PasswordPolicyLib *)

Section Policy.
Context {B : Build} {T : BaseStrings}.

(** The scan of [ValidChars]. *)
Fixpoint valid_search (n : nat) (Char : Z) (Index : nat) : bool :=
  match n with
  | O => false
  | S n => if Char =? ValidChars !!! Index then true else valid_search n Char (S Index)
  end.

Definition IsValidChar (Char : Z) : bool := valid_search (length ValidChars) Char 0.

Definition PasswordPolicySafeCopyPassword {S} (Buffer : option (list Z)) (BufferLength : Z)
    (Password : list Z) : M S (Z * option (list Z)) :=
  match Buffer with
  | None => mret (EFI_INVALID_PARAMETER, None)
  | Some Buffer =>
      if BufferLength <? PW_MAX_LENGTH + 1 then
        ASSERT false;; mret (EFI_BUFFER_TOO_SMALL, Some Buffer)
      else
        let Buffer := StrnCpyS Buffer (PW_MAX_LENGTH + 1) Password PW_MAX_LENGTH in
        let Buffer := <[Z.to_nat PW_MAX_LENGTH := 0]> Buffer in
        mret (EFI_SUCCESS, Some Buffer)
  end.

(** The loop of step 3: an invalid character among the first [n]. *)
Fixpoint invalid_search (n : nat) (TempPassword : list Z) (Index : nat) : bool :=
  match n with
  | O => false
  | S n => if negb (IsValidChar (TempPassword !!! Index)) then true
           else invalid_search n TempPassword (S Index)
  end.

(** [*Failures |= bit] when the pointer is given. *)
Definition record_failure (bit : Z) (Failures : option Z) : option Z :=
  (fun f => Z.lor f bit) <$> Failures.

(** [Failures] is [Some _] when the caller passes a pointer; the result has
    its final content. *)
Definition PasswordPolicyIsPwStringValid {S} (PwString : option (list Z)) (Failures : option Z) :
    M S (bool * option Z) :=
  let Failures := (fun _ => 0) <$> Failures in
  match PwString with
  | None => mret (false, record_failure PW_TEST_STRING_NULL Failures)
  | Some PwString =>
      '(_, TempPassword) ← PasswordPolicySafeCopyPassword
          (Some (uninitialised (Z.to_nat (PW_MAX_LENGTH + 1)))) (PW_MAX_LENGTH + 1) PwString;
      let TempPassword := default [] TempPassword in
      let '(Result, Failures) :=
        if negb (StrEq PwString TempPassword) then (false, record_failure PW_TEST_STRING_TOO_LONG Failures)
        else (true, Failures) in
      let '(Result, Failures, StringLen) :=
        if Result || bool_decide (is_Some Failures) then
          let StringLen := StrLen TempPassword in
          if StringLen <? PW_MIN_LENGTH
          then (false, record_failure PW_TEST_STRING_TOO_SHORT Failures, StringLen)
          else (Result, Failures, StringLen)
        else (Result, Failures, 0) in
      let '(Result, Failures) :=
        if Result || bool_decide (is_Some Failures) then
          if invalid_search (Z.to_nat StringLen) TempPassword 0
          then (false, record_failure PW_TEST_STRING_INVALID_CHAR Failures)
          else (Result, Failures)
        else (Result, Failures) in
      mret (Result, Failures)
  end.

(** Digest size, salt size, key size, iteration count. *)
Definition GetPasswordStoreParameters (Version : Z) : Z * option (Z * Z * Z * Z) :=
  if negb (Version =? PRIVATE_HASH_VER_1_VERSION) then (EFI_INVALID_PARAMETER, None)
  else (EFI_SUCCESS, Some (PRIVATE_HASH_VER_1_HASH_DIGEST_SIZE, PRIVATE_HASH_VER_1_SALT_SIZE,
                           PRIVATE_HASH_VER_1_KEY_SIZE, PRIVATE_HASH_VER_1_ITERATION_COUNT)).

(** The loop over [mPasswordHashVersions]. *)
Fixpoint version_search (rows : list (Z * Z)) (Version PasswordHashSize : Z) : Z :=
  match rows with
  | [] => EFI_INVALID_PARAMETER
  | (HashVersion, HashSize) :: rows =>
      if Version =? HashVersion then
        if PasswordHashSize =? HashSize then EFI_SUCCESS else EFI_INVALID_PARAMETER
      else version_search rows Version PasswordHashSize
  end.

Context {E : Type} {V : Services E}.

Definition PasswordPolicyValidatePasswordHash (PasswordHash PasswordHashSize : Z) : M (machine E) Z :=
  if (PasswordHash =? 0) || (PasswordHashSize <? PASSWORD_HASH_HEADER_SIZE) then mret EFI_INVALID_PARAMETER
  else
    deleted ← (if PASSWORD_HASH_VER_DELETE_SIZE <=? PasswordHashSize then
                 DeletedHash ← load_at PasswordHash 0 4;
                 mret (le_val DeletedHash =? PASSWORD_HASH_VER_DELETE)
               else mret false);
    if (deleted : bool) then mret EFI_SUCCESS
    else
      Version ← load_at PasswordHash 0 2;
      mret (version_search mPasswordHashVersions (le_val Version) PasswordHashSize).

(** [GetRNG] into the salt of the store. *)
Definition get_salt (a : rng_algorithm) (Store SaltBufferSize : Z) : M (machine E) Z :=
  '(Status, bytes) ← service (GetRNG a SaltBufferSize);
  store_at Store VER_1_SALT bytes;;
  mret Status.

Definition GenerateSalt (Store SaltBufferSize : Z) : M (machine E) bool :=
  Status ← service LocateRng;
  if EFI_ERROR Status then mret false
  else
    Status ← get_salt Sp80090Ctr256 Store SaltBufferSize;
    if negb (EFI_ERROR Status) then mret true
    else
      Status ← get_salt Sp80090Hmac256 Store SaltBufferSize;
      if negb (EFI_ERROR Status) then mret true
      else
        Status ← get_salt Sp80090Hash256 Store SaltBufferSize;
        mret (negb (EFI_ERROR Status)).

(** The cached protocol, located on first use. *)
Definition locate_pkcs5 : M (machine E) Z :=
  p ← gets mPkcs5Protocol;
  if p =? 0 then
    '(Status, p) ← service LocatePkcs5;
    modify (set_pkcs5 p);;
    mret Status
  else mret EFI_SUCCESS.

Definition BuildV1PasswordStore (OldStore Store : Z) (Password : option (list Z)) : M (machine E) Z :=
  match Password with
  | None => mret EFI_INVALID_PARAMETER
  | Some Password =>
  if Store =? 0 then mret EFI_INVALID_PARAMETER
  else
    match GetPasswordStoreParameters PRIVATE_HASH_VER_1_VERSION with
    | (Status, None) => mret Status
    | (_, Some (DigestSize, SaltSize, KeySize, IterationCount)) =>
        store_at Store 0 (le_bytes 2 PRIVATE_HASH_VER_1_VERSION);;
        salted ← (if OldStore =? 0 then GenerateSalt Store SaltSize
                  else salt ← load_at OldStore VER_1_SALT SaltSize;
                       store_at Store VER_1_SALT salt;; mret true);
        if negb salted then mret EFI_OUT_OF_RESOURCES
        else
          Status ← locate_pkcs5;
          if EFI_ERROR Status then mret Status
          else
            let PasswordSize := StrLen Password in
            if u64 (PasswordSize * 2) <? PasswordSize then mret EFI_ABORTED
            else
              let PasswordSize := u64 (PasswordSize * 2) in
              store_at Store VER_1_KEY (replicate (Z.to_nat KeySize) 0);;
              p ← gets mPkcs5Protocol;
              if negb (EFI_ERROR Status) && negb (p =? 0) then
                salt ← load_at Store VER_1_SALT SaltSize;
                '(Status, key) ← service (HashPassword
                   (take (Z.to_nat PasswordSize) (char16_bytes (c_string Password)))
                   salt IterationCount DigestSize KeySize);
                store_at Store VER_1_KEY key;;
                mret Status
              else mret Status
    end
  end.

(** [PasswordHash] and [PasswordHashSize] tell whether the caller gives the
    output pointers; the second result is what is written to them. *)
Definition PasswordPolicyGeneratePasswordHash (OldSalt : Z) (Password : option (list Z))
    (PasswordHash PasswordHashSize : bool) : M (machine E) (Z * option (Z * Z)) :=
  invalid ← (match Password with
             | None => mret (negb (OldSalt =? 0))
             | Some _ => '(valid, _) ← PasswordPolicyIsPwStringValid Password None; mret (negb valid)
             end);
  if negb PasswordHash || negb PasswordHashSize || invalid then mret (EFI_INVALID_PARAMETER, None)
  else match Password with
  | None =>
      (* [sizeof (PASSWORD_HASH_VER_DELETE_SIZE)] is the size of a [UINTN] *)
      PwdHash ← allocate 8;
      (* out of memory is noted in the status, but not acted on *)
      store_at PwdHash 0 (le_bytes 4 PASSWORD_HASH_VER_DELETE);;
      mret (EFI_SUCCESS, Some (PwdHash, PASSWORD_HASH_VER_DELETE_SIZE))
  | Some _ =>
      unsupported ← (if OldSalt =? 0 then mret false
                     else Version ← load_at OldSalt 0 2;
                          mret (negb (le_val Version =? PRIVATE_HASH_VER_1_VERSION)));
      if (unsupported : bool) then mret (EFI_INVALID_PARAMETER, None)
      else
        PwdHash ← AllocateZeroPool PRIVATE_HASH_VER_1_VERSION_SIZE;
        if PwdHash =? 0 then mret (EFI_OUT_OF_RESOURCES, None)
        else
          Status ← BuildV1PasswordStore OldSalt PwdHash Password;
          if EFI_ERROR Status then mret (EFI_ABORTED, None)
          else mret (Status, Some (PwdHash, PRIVATE_HASH_VER_1_VERSION_SIZE))
  end.
End Policy.

(** ** PasswordStoreLib *)

Section Store.
Context {B : Build} {T : BaseStrings} {E : Type} {V : Services E}.

Definition PasswordStoreSetPassword (PasswordHashValue PasswordHashSize : Z) : M (machine E) Z :=
  if PasswordHashValue =? 0 then mret EFI_INVALID_PARAMETER
  else
    Status ← PasswordPolicyValidatePasswordHash PasswordHashValue PasswordHashSize;
    if EFI_ERROR Status then mret Status
    else
      data ← load_at PasswordHashValue 0 PasswordHashSize;
      Status ← service (SetVariable PASSWORD_STORE_ADMIN_VARIABLE_ATTRS data);
      mret (if EFI_ERROR Status then EFI_ABORTED else Status).

Definition PasswordStoreIsPasswordSet : M (machine E) bool :=
  '(Status, Store, BufferSize, _) ← get_variable;
  null ← gets mNullPasswordHash;
  null_size ← gets mNullPasswordHashSize;
  Result ← (if (Status =? EFI_NOT_FOUND) || (BufferSize =? 0) then
              PasswordStoreSetPassword null null_size;; mret false
            else if negb (EFI_ERROR Status) && (0 <? BufferSize) then
              if negb (BufferSize =? null_size) then
                same ← CompareMem Store null null_size; mret (negb same)
              else mret false
            else mret false);
  (if negb (Store =? 0) then FreePool Store else mret tt);;
  mret Result.

Definition PasswordStoreAuthenticatePassword (Password : option (list Z)) : M (machine E) bool :=
  set ← PasswordStoreIsPasswordSet;
  if negb set then mret true
  else match Password with
  | None => mret false
  | Some Password =>
      if Password !!! 0%nat =? 0 then mret false
      else
        '(_, TempPassword) ← PasswordPolicySafeCopyPassword
            (Some (uninitialised (Z.to_nat (PW_MAX_LENGTH + 1)))) (PW_MAX_LENGTH + 1) Password;
        '(Status, CurStore, DataSize, _) ← get_variable;
        '(Status, NewStore, DataSize) ←
          (if negb (EFI_ERROR Status) then
             '(Status, out) ← PasswordPolicyGeneratePasswordHash CurStore TempPassword true true;
             mret (match out with Some (p, n) => (Status, p, n) | None => (Status, 0, DataSize) end)
           else mret (Status, 0, DataSize));
        Result ← (if negb (EFI_ERROR Status) then CompareMem CurStore NewStore DataSize else mret false);
        (if negb (CurStore =? 0) then FreePool CurStore else mret tt);;
        (if negb (NewStore =? 0) then FreePool NewStore else mret tt);;
        mret Result
  end.

Definition PasswordStoreResetPasswordLib : M (machine E) Z :=
  Status ← service (SetVariable 0 []);
  let Status := if Status =? EFI_NOT_FOUND then EFI_SUCCESS else Status in
  (if EFI_ERROR Status then ASSERT false else mret tt);;
  mret Status.

Definition PasswordStoreInitializeLib : M (machine E) Z :=
  '(Status, Store, DataSize, Attributes) ← get_variable;
  (if negb (EFI_ERROR Status) then FreePool Store else mret tt);;
  Status ← (if (Status =? EFI_NOT_FOUND) || negb (Attributes =? PASSWORD_STORE_ADMIN_VARIABLE_ATTRS) then
              null ← gets mNullPasswordHash;
              null_size ← gets mNullPasswordHashSize;
              PasswordStoreSetPassword null null_size
            else mret Status);
  (if EFI_ERROR Status then ASSERT false else mret tt);;
  mret Status.

Definition PasswordStoreLibConstructor : M (machine E) Z :=
  '(_, out) ← PasswordPolicyGeneratePasswordHash 0 None true true;
  match out with Some (p, n) => modify (set_null p n) | None => mret tt end;;
  Status ← service LocateStoreInstalled;
  (if Status =? EFI_NOT_FOUND then
     service InstallProtocolInterface;;
     PasswordStoreInitializeLib;;
     mret tt
   else mret tt);;
  mret EFI_SUCCESS.
End Store.
