(* ===== verification/PasswordProps.v ===== *)
(** * Correctness of the password policy and store

    What strings are accepted, what hashes validate, that a hash regenerates
    from its own salt, and that authentication against the stored hash
    accepts exactly the passwords with the stored key -- with the places
    where the code accepts more. *)

From Stdlib Require Import ZArith Lia.
From stdpp Require Import base list numbers option gmap.
From S2P Require Import Prelude Memory Password.

(** ** Strings *)

Lemma c_string_take a : c_string a = take (length (c_string a)) a.
Proof.
  induction a as [|c a IH]; [done|]. simpl. destruct (c =? 0); [done|]. simpl. by f_equal.
Qed.

Lemma c_string_insert_0 n : forall a, (length (c_string a) <= n)%nat -> c_string (<[n := 0]> a) = c_string a.
Proof.
  induction n as [|n IH]; intros [|c a] H; try done; simpl in *.
  - destruct (c =? 0); [done|]. simpl in H. lia.
  - destruct (c =? 0); [done|]. simpl in H. f_equal. apply IH. lia.
Qed.

Lemma drop_step {A} `{Inhabited A} (l : list A) i :
  (i < length l)%nat -> drop i l = l !!! i :: drop (S i) l.
Proof. intros Hi. apply drop_S. by apply list_lookup_lookup_total_lt. Qed.

Lemma valid_search_spec c n : forall i, (i + n <= length ValidChars)%nat ->
  valid_search n c i = existsb (Z.eqb c) (take n (drop i ValidChars)).
Proof.
  induction n as [|n IH]; intros i Hi; [done|]. cbn [valid_search].
  rewrite drop_step by lia. cbn [take existsb]. rewrite IH by lia. by destruct (c =? _).
Qed.

(** A character that may occur in a password. *)
Definition good_char (c : Z) : bool := existsb (Z.eqb c) ValidChars.

Lemma IsValidChar_spec c : IsValidChar c = good_char c.
Proof.
  unfold IsValidChar, good_char. rewrite valid_search_spec by lia.
  rewrite drop_0. by rewrite firstn_all.
Qed.

Lemma invalid_search_spec t n : forall i, (i + n <= length t)%nat ->
  invalid_search n t i = existsb (fun c => negb (good_char c)) (take n (drop i t)).
Proof.
  induction n as [|n IH]; intros i Hi; [done|]. cbn [invalid_search].
  rewrite drop_step by lia. cbn [take existsb]. rewrite IH, IsValidChar_spec by lia.
  by destruct (good_char _).
Qed.

(** ** The policy *)

(** The first 128 characters. *)
Definition clip (pw : list Z) : list Z := take 128 (c_string pw).

Definition too_long (pw : list Z) : bool := 128 <? StrLen pw.
Definition too_short (pw : list Z) : bool := StrLen pw <? 6.
Definition bad_char (pw : list Z) : bool := existsb (fun c => negb (good_char c)) (clip pw).

(** What the policy asks of a password. *)
Definition acceptable (pw : list Z) : bool :=
  (6 <=? StrLen pw) && (StrLen pw <=? 128) && forallb good_char (c_string pw).

(** The bitmap of failed tests. *)
Definition failures (pw : list Z) : Z :=
  Z.lor (Z.lor (if too_long pw then PW_TEST_STRING_TOO_LONG else 0)
               (if too_short pw then PW_TEST_STRING_TOO_SHORT else 0))
        (if bad_char pw then PW_TEST_STRING_INVALID_CHAR else 0).

Lemma clip_whole pw : StrLen pw <= 128 -> clip pw = c_string pw.
Proof. unfold StrLen, clip. intros H. apply take_ge. lia. Qed.

Lemma acceptable_tests pw :
  acceptable pw = negb (too_long pw) && negb (too_short pw) && negb (bad_char pw).
Proof.
  unfold acceptable, too_long, too_short, bad_char.
  destruct (Z.ltb_spec 128 (StrLen pw)), (Z.ltb_spec (StrLen pw) 6), (Z.leb_spec 6 (StrLen pw)),
    (Z.leb_spec (StrLen pw) 128); try lia; simpl; try done.
  rewrite clip_whole by done. induction (c_string pw) as [|c l IH]; [done|]. simpl. rewrite IH.
  by destruct (good_char c).
Qed.

Lemma acceptable_failures pw : acceptable pw = (failures pw =? 0).
Proof.
  rewrite acceptable_tests. unfold failures.
  by destruct (too_long pw), (too_short pw), (bad_char pw).
Qed.

Section Policy.
Context {B : Build} {T : BaseStrings} {TL : BaseStringsLaws}.

(** The copy in [TempPassword]. *)
Definition temp_of (pw : list Z) : list Z :=
  <[128%nat := 0]> (StrnCpyS (uninitialised 129) 129 pw 128).

Lemma length_temp_of pw : length (temp_of pw) = 129%nat.
Proof. unfold temp_of. by rewrite length_insert, StrnCpyS_length, uninitialised_length. Qed.

Lemma c_string_temp_of pw : c_string (temp_of pw) = clip pw.
Proof.
  assert (H : c_string (StrnCpyS (uninitialised 129) 129 pw 128) = clip pw).
  { apply StrnCpyS_copies; [lia|]. rewrite uninitialised_length. lia. }
  unfold temp_of. rewrite c_string_insert_0; [done|]. rewrite H. unfold clip. rewrite length_take. lia.
Qed.

Lemma safe_copy {S} pw (s : S) :
  PasswordPolicySafeCopyPassword (Some (uninitialised (Z.to_nat (PW_MAX_LENGTH + 1)))) (PW_MAX_LENGTH + 1) pw s =
  Ret (EFI_SUCCESS, Some (temp_of pw)) s.
Proof. done. Qed.

Lemma clip_tests pw : StrEq pw (temp_of pw) = negb (too_long pw) /\
  (StrLen (temp_of pw) <? PW_MIN_LENGTH) = too_short pw /\
  invalid_search (Z.to_nat (StrLen (temp_of pw))) (temp_of pw) 0 = bad_char pw.
Proof.
  unfold StrEq, too_long, too_short, bad_char, StrLen, PW_MIN_LENGTH. rewrite c_string_temp_of. split; [|split].
  - apply eq_true_iff_eq. rewrite bool_decide_eq_true, negb_true_iff, Z.ltb_ge. unfold clip. split.
    + intros H. apply (f_equal length) in H. rewrite length_take in H. lia.
    + intros H. rewrite take_ge by lia. done.
  - apply eq_true_iff_eq. rewrite !Z.ltb_lt. unfold clip. rewrite length_take. lia.
  - rewrite Nat2Z.id, invalid_search_spec.
    + f_equal. rewrite drop_0, <- c_string_temp_of at 1. rewrite <- c_string_temp_of. symmetry. apply c_string_take.
    + rewrite length_temp_of. unfold clip. rewrite length_take. lia.
Qed.

Lemma valid_spec {S} pw f (s : S) :
  PasswordPolicyIsPwStringValid (Some pw) f s = Ret (acceptable pw, (fun _ => failures pw) <$> f) s.
Proof.
  unfold PasswordPolicyIsPwStringValid. rewrite (bind_Ret _ _ _ _ _ (safe_copy pw s)). cbn [default id].
  destruct (clip_tests pw) as (H1 & H2 & H3). rewrite acceptable_tests. unfold failures. cbn zeta.
  rewrite H1. destruct (too_long pw); cbn [negb]; destruct f; cbn -[invalid_search StrLen]; rewrite ?H2;
    destruct (too_short pw); cbn -[invalid_search StrLen]; rewrite ?H3; by destruct (bad_char pw).
Qed.

(** a string is a valid password exactly when it has 6 to 128
    characters, all of the allowed set; the answer does not depend on whether the caller asks
    for the bitmap of failed tests; the bitmap is empty exactly for valid passwords and
    tells which of the tests failed. *)
Theorem PasswordPolicyIsPwStringValid_correct {S} pw (f : Z) (s : S) :
  PasswordPolicyIsPwStringValid (Some pw) None s = Ret (acceptable pw, None) s /\
  PasswordPolicyIsPwStringValid (Some pw) (Some f) s = Ret (acceptable pw, Some (failures pw)) s /\
  (acceptable pw = true <-> failures pw = 0) /\
  PasswordPolicyIsPwStringValid None (Some f) s = Ret (false, Some PW_TEST_STRING_NULL) s.
Proof.
  rewrite !valid_spec, acceptable_failures, Z.eqb_eq. done.
Qed.
End Policy.

(** ** Validation of stored hashes *)

(** The header of a hash: its first two bytes. *)
Definition hash_version (bs : list Z) : Z := le_val (take 2 bs).

(** A hash of version 1, or a deletion marker (of any larger size). *)
Definition valid_hash (bs : list Z) : bool :=
  ((4 <=? Z.of_nat (length bs)) && (le_val (take 4 bs) =? PASSWORD_HASH_VER_DELETE)) ||
  ((Z.of_nat (length bs) =? 74) && (hash_version bs =? 1)).

Section Buffers.
Context {E : Type}.
Implicit Types s : machine E.

Lemma load_at_Ret p off n bs s : heap s !! p = Some bs -> off + n <= Z.of_nat (length bs) ->
  load_at p off n s = Ret (take (Z.to_nat n) (drop (Z.to_nat off) bs)) s.
Proof. intros H Hn. unfold load_at. by rewrite H, (proj2 (Z.leb_le _ _) Hn). Qed.

Lemma store_at_Ret p off l bs s : heap s !! p = Some bs ->
  off + Z.of_nat (length l) <= Z.of_nat (length bs) ->
  store_at p off l s = Ret tt (set_heap (<[p := list_inserts (Z.to_nat off) l bs]> (heap s)) s).
Proof. intros H Hn. unfold store_at. by rewrite H, (proj2 (Z.leb_le _ _) Hn). Qed.

Context {V : Services E}.

Lemma validate_spec p bs s : p <> 0 -> heap s !! p = Some bs ->
  PasswordPolicyValidatePasswordHash p (Z.of_nat (length bs)) s =
  Ret (if valid_hash bs then EFI_SUCCESS else EFI_INVALID_PARAMETER) s.
Proof.
  intros Hp Hb. unfold PasswordPolicyValidatePasswordHash, valid_hash, hash_version.
  rewrite (proj2 (Z.eqb_neq _ _) Hp). cbn [orb].
  unfold PASSWORD_HASH_HEADER_SIZE, PASSWORD_HASH_VER_DELETE_SIZE.
  destruct (Z.ltb_spec (Z.of_nat (length bs)) 2) as [Hs|Hs].
  - rewrite (proj2 (Z.leb_gt 4 _)), (proj2 (Z.eqb_neq _ 74)) by lia. done.
  - assert (Hv : load_at p 0 2 s = Ret (take 2 bs) s) by exact (load_at_Ret p 0 2 bs s Hb Hs).
    assert (Hrest : (Version ← load_at p 0 2;
        mret (version_search mPasswordHashVersions (le_val Version) (Z.of_nat (length bs)))) s =
      Ret (if (Z.of_nat (length bs) =? 74) && (le_val (take 2 bs) =? 1)
           then EFI_SUCCESS else EFI_INVALID_PARAMETER) s).
    { rewrite (bind_Ret _ _ _ _ _ Hv). cbn [mPasswordHashVersions version_search].
      unfold PRIVATE_HASH_VER_1_VERSION, PRIVATE_HASH_VER_1_VERSION_SIZE.
      by destruct (le_val (take 2 bs) =? 1), (Z.of_nat (length bs) =? 74). }
    destruct (Z.leb_spec 4 (Z.of_nat (length bs))) as [H4|H4].
    + rewrite (bind_Ret _ _ s (le_val (take 4 bs) =? PASSWORD_HASH_VER_DELETE) s).
      2: { rewrite (bind_Ret _ _ _ _ _ (load_at_Ret p 0 4 bs s Hb H4)). done. }
      destruct (le_val (take 4 bs) =? PASSWORD_HASH_VER_DELETE); [done|]. exact Hrest.
    + rewrite (bind_Ret _ _ s false s) by done. exact Hrest.
Qed.

(** validation accepts a hash exactly when it is a
    version 1 hash of 74 bytes or starts with the deletion marker; it reads
    nothing outside the buffer. *)
Theorem PasswordPolicyValidatePasswordHash_correct p bs s :
  p <> 0 -> heap s !! p = Some bs ->
  PasswordPolicyValidatePasswordHash p (Z.of_nat (length bs)) s =
  Ret (if valid_hash bs then EFI_SUCCESS else EFI_INVALID_PARAMETER) s.
Proof. apply validate_spec. Qed.
End Buffers.

(** ** The services' contract *)

(** What is stored in the password variable: data and attributes; and the key
    derivation the PKCS5 protocol computes. *)
Class ServicesView (E : Type) := {
  stored : E -> option (list Z * Z);
  pbkdf2 : list Z -> list Z -> Z -> Z -> Z -> list Z
}.

Class ServicesLaws (E : Type) `{Services E, ServicesView E} : Prop := {
  alloc_fresh n h e p bs e' : AllocatePool n h e = (Some (p, bs), e') ->
    p <> 0 /\ h !! p = None /\ length bs = Z.to_nat n;
  alloc_stored n h e : stored (AllocatePool n h e).2 = stored e;
  rng_located e : stored (LocateRng e).2 = stored e;
  rng_bytes a n e : length (GetRNG a n e).1.2 = Z.to_nat n /\ stored (GetRNG a n e).2 = stored e;
  pkcs5_located e : stored (LocatePkcs5 e).2 = stored e /\
    (EFI_ERROR (LocatePkcs5 e).1.1 = false -> (LocatePkcs5 e).1.2 <> 0);
  hash_key pw salt it dg n e : length (HashPassword pw salt it dg n e).1.2 = Z.to_nat n /\
    stored (HashPassword pw salt it dg n e).2 = stored e /\
    (EFI_ERROR (HashPassword pw salt it dg n e).1.1 = false ->
     (HashPassword pw salt it dg n e).1.2 = pbkdf2 pw salt it dg n);
  (** A variable is read into a fresh buffer; a failing read returns none and
      size 0. *)
  variable_read h e st buf size attrs e' : GetVariable3 h e = (st, buf, size, attrs, e') ->
    stored e' = stored e /\
    if EFI_ERROR st then buf = None /\ size = 0
    else exists p data, stored e = Some (data, attrs) /\ buf = Some (p, data) /\
      size = Z.of_nat (length data) /\ p <> 0 /\ h !! p = None;
  store_located e : stored (LocateStoreInstalled e).2 = stored e;
  store_installed e : stored (InstallProtocolInterface e).2 = stored e;
  variable_written attrs data e : data <> [] ->
    stored (SetVariable attrs data e).2 =
    if EFI_ERROR (SetVariable attrs data e).1 then stored e else Some (data, attrs)
}.

(** All services do their work. *)
Record working (E : Type) `{Services E, ServicesView E} : Prop := {
  w_alloc n h e : is_Some (AllocatePool n h e).1;
  w_rng e : EFI_ERROR (LocateRng e).1 = false;
  w_salt a n e : EFI_ERROR (GetRNG a n e).1.1 = false;
  w_pkcs5 e : EFI_ERROR (LocatePkcs5 e).1.1 = false;
  w_hash pw salt it dg n e : EFI_ERROR (HashPassword pw salt it dg n e).1.1 = false;
  w_read h e : is_Some (stored e) -> EFI_ERROR (GetVariable3 h e).1.1.1.1 = false;
  w_missing h e : stored e = None -> (GetVariable3 h e).1.1.1.1 = EFI_NOT_FOUND;
  w_write attrs data e : EFI_ERROR (SetVariable attrs data e).1 = false
}.

(** ** Building a hash *)

(** A version 1 hash. *)
Definition v1_hash (salt key : list Z) : list Z := le_bytes 2 1 ++ salt ++ key.

Section Build.
Context {B : Build} {T : BaseStrings} {TL : BaseStringsLaws}.
Context {E : Type} {V : Services E} {W : ServicesView E} {L : ServicesLaws E}.
Implicit Types (s : machine E) (e : E) (h : heap_t).

(** The states the operations lead to: the null hash never changes. *)
Definition upd s e h q : machine E := Build_machine e h q (mNullPasswordHash s) (mNullPasswordHashSize s).

Lemma upd_id s : s = upd s (env s) (heap s) (mPkcs5Protocol s).
Proof. by destruct s. Qed.

Lemma service_Ret {A} (f : E -> A * E) s a e : f (env s) = (a, e) ->
  service f s = Ret a (upd s e (heap s) (mPkcs5Protocol s)).
Proof. intros H. unfold service. by rewrite H. Qed.

(** A buffer of 74 bytes in its three fields. *)
Definition fields (v salt key : list Z) : Prop := length v = 2%nat /\ length salt = 32%nat /\ length key = 40%nat.

Lemma store_salt p v salt key l s : heap s !! p = Some (v ++ salt ++ key) -> fields v salt key ->
  length l = 32%nat ->
  store_at p VER_1_SALT l s = Ret tt (set_heap (<[p := v ++ l ++ key]> (heap s)) s).
Proof.
  intros Hp (Hv & Hs & Hk) Hl. rewrite (store_at_Ret _ _ _ _ _ Hp) by (rewrite !length_app; unfold VER_1_SALT; lia).
  replace (Z.to_nat VER_1_SALT) with (length v) by (by rewrite Hv).
  by rewrite inserts_mid by lia.
Qed.

Lemma store_key p v salt key l s : heap s !! p = Some (v ++ salt ++ key) -> fields v salt key ->
  length l = 40%nat ->
  store_at p VER_1_KEY l s = Ret tt (set_heap (<[p := v ++ salt ++ l]> (heap s)) s).
Proof.
  intros Hp (Hv & Hs & Hk) Hl. rewrite (store_at_Ret _ _ _ _ _ Hp) by (rewrite !length_app; unfold VER_1_KEY; lia).
  replace (Z.to_nat VER_1_KEY) with (length (v ++ salt)) by (rewrite length_app, Hv, Hs; done).
  rewrite app_assoc. rewrite <- (app_nil_r key), inserts_mid, app_nil_r, <- app_assoc by lia. done.
Qed.

Lemma store_version p v salt key l s : heap s !! p = Some (v ++ salt ++ key) -> fields v salt key ->
  length l = 2%nat ->
  store_at p 0 l s = Ret tt (set_heap (<[p := l ++ salt ++ key]> (heap s)) s).
Proof.
  intros Hp (Hv & Hs & Hk) Hl. rewrite (store_at_Ret _ _ _ _ _ Hp) by (rewrite !length_app; lia).
  do 3 f_equal. by apply (inserts_mid v l []); lia.
Qed.

Lemma load_salt p v salt key s : heap s !! p = Some (v ++ salt ++ key) -> fields v salt key ->
  load_at p VER_1_SALT 32 s = Ret salt s.
Proof.
  intros Hp (Hv & Hs & Hk). rewrite (load_at_Ret _ _ _ _ _ Hp) by (rewrite !length_app; unfold VER_1_SALT; lia).
  f_equal. rewrite drop_app_length' by (by rewrite Hv). rewrite take_app_length' by (by rewrite Hs). done.
Qed.

Lemma get_salt_spec a p v salt key s : heap s !! p = Some (v ++ salt ++ key) -> fields v salt key ->
  exists st e salt', get_salt a p 32 s =
      Ret st (upd s e (<[p := v ++ salt' ++ key]> (heap s)) (mPkcs5Protocol s)) /\
    length salt' = 32%nat /\ stored e = stored (env s) /\ (working E -> EFI_ERROR st = false).
Proof.
  intros Hp F. unfold get_salt. destruct (rng_bytes a 32 (env s)) as [Hl Hst].
  destruct (GetRNG a 32 (env s)) as [[st bytes] e] eqn:Eg. simpl in Hl, Hst.
  rewrite (bind_Ret _ _ _ _ _ (service_Ret (GetRNG a 32) s (st, bytes) e Eg)).
  rewrite (bind_Ret _ _ _ _ _ (store_salt p v salt key bytes (upd s e (heap s) (mPkcs5Protocol s)) Hp F Hl)).
  exists st, e, bytes. split; [done|]. split; [done|]. split; [done|].
  intros Hw. pose proof (w_salt _ Hw a 32 (env s)) as H. by rewrite Eg in H.
Qed.

Lemma upd_upd s e h q e' h' q' : upd (upd s e h q) e' h' q' = upd s e' h' q'.
Proof. done. Qed.

Lemma GenerateSalt_spec p v salt key s : heap s !! p = Some (v ++ salt ++ key) -> fields v salt key ->
  exists b e salt', GenerateSalt p 32 s =
      Ret b (upd s e (<[p := v ++ salt' ++ key]> (heap s)) (mPkcs5Protocol s)) /\
    length salt' = 32%nat /\ stored e = stored (env s) /\ (working E -> b = true).
Proof.
  intros Hp F. unfold GenerateSalt. pose proof (rng_located (env s)) as Hloc.
  destruct (LocateRng (env s)) as [st0 e0] eqn:E0. simpl in Hloc.
  rewrite (bind_Ret _ _ _ _ _ (service_Ret LocateRng s st0 e0 E0)).
  destruct (EFI_ERROR st0) eqn:Hst0.
  { exists false, e0, salt. rewrite insert_id by done. destruct F as (_ & Hl & _).
    split; [done|]. split; [done|]. split; [done|].
    intros Hw. pose proof (w_rng _ Hw (env s)) as H. rewrite E0 in H. simpl in H. congruence. }
  destruct (get_salt_spec Sp80090Ctr256 p v salt key (upd s e0 (heap s) (mPkcs5Protocol s)) Hp F)
    as (st1 & e1 & s1 & E1 & Hl1 & Hs1 & Hw1).
  rewrite (bind_Ret _ _ _ _ _ E1). cbn [env heap upd mPkcs5Protocol] in *. rewrite upd_upd in *.
  destruct (EFI_ERROR st1) eqn:Hst1; cbn [negb].
  2: { exists true, e1, s1. by rewrite Hs1, Hloc. }
  destruct (get_salt_spec Sp80090Hmac256 p v s1 key
    (upd s e1 (<[p := v ++ s1 ++ key]> (heap s)) (mPkcs5Protocol s))) as (st2 & e2 & s2 & E2 & Hl2 & Hs2 & Hw2);
    [apply lookup_insert_eq | by destruct F as (? & _ & ?) |].
  rewrite (bind_Ret _ _ _ _ _ E2). cbn [env heap upd mPkcs5Protocol] in *. rewrite upd_upd in *.
  rewrite insert_insert_eq in *.
  destruct (EFI_ERROR st2) eqn:Hst2; cbn [negb].
  2: { exists true, e2, s2. by rewrite Hs2, Hs1, Hloc. }
  destruct (get_salt_spec Sp80090Hash256 p v s2 key
    (upd s e2 (<[p := v ++ s2 ++ key]> (heap s)) (mPkcs5Protocol s))) as (st3 & e3 & s3 & E3 & Hl3 & Hs3 & Hw3);
    [apply lookup_insert_eq | by destruct F as (? & _ & ?) |].
  rewrite (bind_Ret _ _ _ _ _ E3). cbn [env heap upd mPkcs5Protocol] in *. rewrite upd_upd in *.
  rewrite insert_insert_eq in *.
  exists (negb (EFI_ERROR st3)), e3, s3. rewrite Hs3, Hs2, Hs1, Hloc.
  split; [done|]. split; [done|]. split; [done|]. intros Hw. by rewrite (Hw3 Hw).
Qed.

Lemma locate_pkcs5_spec s : exists st e q,
  locate_pkcs5 s = Ret st (upd s e (heap s) q) /\ stored e = stored (env s) /\
  (EFI_ERROR st = false -> q <> 0) /\ (working E -> EFI_ERROR st = false).
Proof.
  unfold locate_pkcs5. rewrite bind_gets. destruct (Z.eqb_spec (mPkcs5Protocol s) 0) as [Hq|Hq].
  - destruct (pkcs5_located (env s)) as [Hs Hok].
    destruct (LocatePkcs5 (env s)) as [[st q] e] eqn:El. simpl in Hs, Hok.
    rewrite (bind_Ret _ _ _ _ _ (service_Ret LocatePkcs5 s (st, q) e El)).
    exists st, e, q. rewrite bind_modify. split; [done|]. split; [done|]. split; [done|].
    intros Hw. pose proof (w_pkcs5 _ Hw (env s)) as H. by rewrite El in H.
  - exists EFI_SUCCESS, (env s), (mPkcs5Protocol s). by rewrite <- upd_id.
Qed.

(** The key of a password under a salt. *)
Definition derive (pw salt : list Z) : list Z :=
  pbkdf2 (char16_bytes (c_string pw)) salt PRIVATE_HASH_VER_1_ITERATION_COUNT
    PRIVATE_HASH_VER_1_HASH_DIGEST_SIZE PRIVATE_HASH_VER_1_KEY_SIZE.

(** Where the salt comes from: a new one, or that of an old hash. *)
Definition salt_source s (old : Z) (osalt : option (list Z)) : Prop :=
  (old = 0 /\ osalt = None) \/
  exists salt key, osalt = Some salt /\ old <> 0 /\ heap s !! old = Some (v1_hash salt key) /\
    length salt = 32%nat /\ length key = 40%nat.

(** Step 2 of the build. *)
Lemma salt_step old osalt p v sa ke s : heap s !! p = Some (v ++ sa ++ ke) -> fields v sa ke ->
  salt_source s old osalt -> old <> p ->
  exists b e salt, (if old =? 0 then GenerateSalt p 32
      else x ← load_at old VER_1_SALT 32; store_at p VER_1_SALT x;; mret true) s =
    Ret b (upd s e (<[p := v ++ salt ++ ke]> (heap s)) (mPkcs5Protocol s)) /\
    length salt = 32%nat /\ stored e = stored (env s) /\ (working E -> b = true) /\
    (forall o, osalt = Some o -> salt = o).
Proof.
  intros Hp F [[-> ->] | (o & k & -> & Hold & Ho & Hl & Hk)] Hne.
  - destruct (GenerateSalt_spec p v sa ke s Hp F) as (b & e & salt & E1 & H1 & H2 & H3).
    exists b, e, salt. by rewrite Z.eqb_refl.
  - rewrite (proj2 (Z.eqb_neq _ _) Hold).
    rewrite (bind_Ret _ _ _ _ _ (load_salt old (le_bytes 2 1) o k s Ho (conj (length_le_bytes 2 1) (conj Hl Hk)))).
    rewrite (bind_Ret _ _ _ _ _ (store_salt p v sa ke o s Hp F Hl)).
    exists true, (env s), o. split; [done|]. split; [done|]. split; [done|]. split; [done|].
    intros o' [= ->]. done.
Qed.

(** The result of a build into the buffer at [p]. *)
Definition built s s' (p st : Z) (pw : list Z) (osalt : option (list Z)) : Prop :=
  exists e q bs, s' = upd s e (<[p := bs]> (heap s)) q /\ stored e = stored (env s) /\
    (working E -> EFI_ERROR st = false) /\
    (EFI_ERROR st = false -> exists salt, bs = v1_hash salt (derive pw salt) /\
      length salt = 32%nat /\ length (derive pw salt) = 40%nat /\ forall o, osalt = Some o -> salt = o).

Lemma hash_step p salt ke pw s st0 : heap s !! p = Some (le_bytes 2 1 ++ salt ++ ke) ->
  fields (le_bytes 2 1) salt ke -> StrLen pw <= 128 ->
  exists st s', (store_at p VER_1_KEY (replicate (Z.to_nat 40) 0);;
      q ← gets mPkcs5Protocol;
      if negb false && negb (q =? 0) then
        salt ← load_at p VER_1_SALT 32;
        '(Status, key) ← service (HashPassword
           (take (Z.to_nat (u64 (StrLen pw * 2))) (char16_bytes (c_string pw))) salt 60000 32 40);
        store_at p VER_1_KEY key;;
        mret Status
      else mret st0) s = Ret st s' /\
    (mPkcs5Protocol s <> 0 -> built s s' p st pw (Some salt)).
Proof.
  intros Hp F Hlen. pose proof F as (_ & Hsl & _).
  assert (Hz : length (replicate (Z.to_nat 40) 0) = 40%nat) by done.
  rewrite (bind_Ret _ _ _ _ _ (store_key p _ _ _ _ s Hp F Hz)), bind_gets.
  set (s1 := set_heap (<[p := le_bytes 2 1 ++ salt ++ replicate (Z.to_nat 40) 0]> (heap s)) s).
  assert (Hp1 : heap s1 !! p = Some (le_bytes 2 1 ++ salt ++ replicate (Z.to_nat 40) 0)) by apply lookup_insert_eq.
  assert (F1 : fields (le_bytes 2 1) salt (replicate (Z.to_nat 40) 0)) by done.
  assert (Hpw : take (Z.to_nat (u64 (StrLen pw * 2))) (char16_bytes (c_string pw)) = char16_bytes (c_string pw)).
  { apply take_ge. rewrite length_char16_bytes. unfold StrLen in *.
    rewrite wrap_small by (unfold in_word; lia). lia. }
  rewrite Hpw. change (mPkcs5Protocol s1) with (mPkcs5Protocol s).
  destruct (Z.eqb_spec (mPkcs5Protocol s) 0) as [H0|H0]; [by exists st0, s1|].
  change (negb false && negb false) with true. cbv iota.
  rewrite (bind_Ret _ _ _ _ _ (load_salt p _ _ _ s1 Hp1 F1)).
  destruct (hash_key (char16_bytes (c_string pw)) salt 60000 32 40 (env s1)) as (Hl & Hst & Hok).
  destruct (HashPassword (char16_bytes (c_string pw)) salt 60000 32 40 (env s1)) as [[st key] e] eqn:Eh.
  simpl in Hl, Hst, Hok. rewrite (bind_Ret _ _ _ _ _ (service_Ret (HashPassword _ _ _ _ _) s1 (st, key) e Eh)).
  rewrite (bind_Ret _ _ _ _ _ (store_key p _ _ _ key (upd s1 e (heap s1) (mPkcs5Protocol s1)) Hp1 F1 Hl)).
  exists st. eexists. split; [done|]. intros _.
  exists e, (mPkcs5Protocol s), (le_bytes 2 1 ++ salt ++ key). cbn [heap upd]. split.
  { unfold set_heap, upd, s1. cbn. by rewrite insert_insert_eq. }
  split; [done|]. split.
  - intros Hw. pose proof (w_hash _ Hw (char16_bytes (c_string pw)) salt 60000 32 40 (env s1)) as H. by rewrite Eh in H.
  - intros Hst'. specialize (Hok Hst'). subst key. exists salt. split; [done|]. split; [done|]. split; [done|].
    by intros o [= ->].
Qed.

Lemma build_spec old osalt p v sa ke pw s : p <> 0 -> heap s !! p = Some (v ++ sa ++ ke) ->
  fields v sa ke -> salt_source s old osalt -> old <> p -> StrLen pw <= 128 ->
  exists st s', BuildV1PasswordStore old p (Some pw) s = Ret st s' /\ built s s' p st pw osalt.
Proof.
  intros Hp0 Hp F Hsrc Hne Hlen. unfold BuildV1PasswordStore. rewrite (proj2 (Z.eqb_neq _ _) Hp0).
  change (GetPasswordStoreParameters PRIVATE_HASH_VER_1_VERSION) with (EFI_SUCCESS, Some (32, 32, 40, 60000)).
  cbv iota. change (le_bytes 2 PRIVATE_HASH_VER_1_VERSION) with (le_bytes 2 1).
  rewrite (bind_Ret _ _ _ _ _ (store_version p v sa ke (le_bytes 2 1) s Hp F (length_le_bytes 2 1))).
  set (s1 := set_heap _ s).
  assert (Hp1 : heap s1 !! p = Some (le_bytes 2 1 ++ sa ++ ke)) by apply lookup_insert_eq.
  assert (F1 : fields (le_bytes 2 1) sa ke) by (destruct F as (_ & ? & ?); done).
  assert (Hsrc1 : salt_source s1 old osalt).
  { destruct Hsrc as [H | (o & k & H1 & H2 & H3 & H4)]; [by left|]. right. exists o, k. split; [done|].
    split; [done|]. split; [|done]. unfold s1. cbn. by rewrite lookup_insert_ne. }
  destruct (salt_step old osalt p _ sa ke s1 Hp1 F1 Hsrc1 Hne) as (b & e & salt & E1 & Hsl & Hst & Hw & Ho).
  rewrite (bind_Ret _ _ _ _ _ E1).
  assert (Hupd : upd s1 e (<[p := le_bytes 2 1 ++ salt ++ ke]> (heap s1)) (mPkcs5Protocol s1) =
    upd s e (<[p := le_bytes 2 1 ++ salt ++ ke]> (heap s)) (mPkcs5Protocol s)).
  { unfold s1, upd, set_heap. cbn. by rewrite insert_insert_eq. }
  rewrite Hupd. destruct b; cbn [negb].
  2: { exists EFI_OUT_OF_RESOURCES. eexists. split; [done|]. exists e, (mPkcs5Protocol s), (le_bytes 2 1 ++ salt ++ ke).
       split; [done|]. split; [done|]. split; [|done]. intros H. by specialize (Hw H). }
  set (s2 := upd s e (<[p := le_bytes 2 1 ++ salt ++ ke]> (heap s)) (mPkcs5Protocol s)).
  destruct (locate_pkcs5_spec s2) as (st3 & e3 & q & E3 & Hst3 & Hq & Hw3).
  rewrite (bind_Ret _ _ _ _ _ E3).
  destruct (EFI_ERROR st3) eqn:Hs3.
  { exists st3. eexists. split; [done|]. exists e3, q, (le_bytes 2 1 ++ salt ++ ke).
    split; [done|]. split; [by rewrite Hst3|]. split; [intros H; by specialize (Hw3 H)|congruence]. }
  rewrite (proj2 (Z.ltb_ge (u64 (StrLen pw * 2)) (StrLen pw))).
  2: { unfold StrLen in *. rewrite wrap_small by (unfold in_word; lia). lia. }
  destruct (hash_step p salt ke pw (upd s2 e3 (heap s2) q) st3) as (st & s' & E4 & Hb);
    [apply lookup_insert_eq | by destruct F1 as (? & _ & ?) | done |].
  destruct (Hb (Hq eq_refl)) as (e' & q' & bs & -> & Hst' & Hw' & Hok).
  exists st. eexists. split.
  { exact E4. }
  exists e', q', bs. split; [unfold s2, upd; cbn; by rewrite insert_insert_eq|].
  split; [rewrite Hst'; unfold s2; cbn; by rewrite Hst3|]. split; [done|].
  intros H. destruct (Hok H) as (sx & Hbs & H1 & H2 & H3). rewrite <- (H3 salt eq_refl) in *. by exists sx.
Qed.

Lemma zero_pool_spec s : exists p e,
  stored e = stored (env s) /\
  ((p = 0 /\ AllocateZeroPool 74 s = Ret 0 (upd s e (heap s) (mPkcs5Protocol s)) /\ ~ working E) \/
   (p <> 0 /\ heap s !! p = None /\
    AllocateZeroPool 74 s = Ret p (upd s e (<[p := replicate 74 0]> (heap s)) (mPkcs5Protocol s)))).
Proof.
  unfold AllocateZeroPool, allocate.
  pose proof (alloc_stored 74 (heap s) (env s)) as Hst.
  destruct (AllocatePool 74 (heap s) (env s)) as [[[p bs]|] e] eqn:Ea; simpl in Hst.
  - destruct (alloc_fresh _ _ _ _ _ _ Ea) as (Hp & Hf & Hl). exists p, e. split; [done|]. right.
    split; [done|]. split; [done|].
    rewrite (bind_Ret _ _ s p (upd s e (<[p := bs]> (heap s)) (mPkcs5Protocol s))) by (by rewrite Ea).
    rewrite (proj2 (Z.eqb_neq _ _) Hp).
    rewrite (bind_Ret _ _ _ _ _ (store_at_Ret p 0 (replicate (Z.to_nat 74) 0) bs (upd s e (<[p := bs]> (heap s)) (mPkcs5Protocol s))
      (lookup_insert_eq _ _ _) ltac:(rewrite Hl; exact (Z.le_refl 74)))).
    unfold set_heap. cbn [env heap mPkcs5Protocol mNullPasswordHash mNullPasswordHashSize upd].
    pose proof (inserts_mid bs (replicate (Z.to_nat 74) 0) [] [] ltac:(rewrite Hl; exact eq_refl)) as H.
    rewrite !app_nil_r in H. change (length []) with (Z.to_nat 0) in H. cbn [app] in H. rewrite H.
    by rewrite insert_insert_eq.
  - exists 0, e. split; [done|]. left. split; [done|]. split.
    + rewrite (bind_Ret _ _ s 0 (upd s e (heap s) (mPkcs5Protocol s))); [done|]. by rewrite Ea.
    + intros Hw. pose proof (w_alloc _ Hw 74 (heap s) (env s)) as H. rewrite Ea in H. by destruct H.
Qed.

(** The outcome of hash generation for an acceptable password. *)
Definition generated s s' (pw : list Z) (osalt : option (list Z)) (st : Z) (out : option (Z * Z)) : Prop :=
  exists e h q, s' = upd s e h q /\ stored e = stored (env s) /\
    (forall x bs, heap s !! x = Some bs -> h !! x = Some bs) /\
    (working E -> EFI_ERROR st = false) /\
    match out with
    | None => EFI_ERROR st = true
    | Some (p, n) => EFI_ERROR st = false /\ n = 74 /\ p <> 0 /\ heap s !! p = None /\
        exists salt, h = <[p := v1_hash salt (derive pw salt)]> (heap s) /\
          length salt = 32%nat /\ length (derive pw salt) = 40%nat /\ forall o, osalt = Some o -> salt = o
    end.

Lemma version_ok s old osalt : salt_source s old osalt ->
  (if old =? 0 then mret false
   else Version ← load_at old 0 2; mret (negb (le_val Version =? PRIVATE_HASH_VER_1_VERSION))) s = Ret false s.
Proof.
  intros [[-> _] | (o & k & _ & Hold & Ho & Hl & Hk)]; [done|].
  rewrite (proj2 (Z.eqb_neq _ _) Hold).
  rewrite (bind_Ret _ _ _ _ _ (load_at_Ret old 0 2 (v1_hash o k) s Ho
    ltac:(unfold v1_hash; rewrite !length_app, length_le_bytes; lia))). done.
Qed.

Lemma generate_spec old osalt pw s : acceptable pw = true -> salt_source s old osalt ->
  exists st out s', PasswordPolicyGeneratePasswordHash old (Some pw) true true s = Ret (st, out) s' /\
    generated s s' pw osalt st out.
Proof.
  intros Ha Hsrc. unfold PasswordPolicyGeneratePasswordHash.
  rewrite (bind_Ret _ _ s false s) by (rewrite (bind_Ret _ _ _ _ _ (valid_spec pw None s)), Ha; done).
  cbn [negb orb]. rewrite (bind_Ret _ _ _ _ _ (version_ok s old osalt Hsrc)). cbv iota.
  assert (Hlen : StrLen pw <= 128).
  { unfold acceptable in Ha. rewrite !andb_true_iff, !Z.leb_le in Ha. lia. }
  destruct (zero_pool_spec s) as (p & e & Hst & [(-> & E1 & Hnw) | (Hp & Hf & E1)]).
  - change PRIVATE_HASH_VER_1_VERSION_SIZE with 74. rewrite (bind_Ret _ _ _ _ _ E1).
    exists EFI_OUT_OF_RESOURCES, None. eexists. split; [done|]. exists e, (heap s), (mPkcs5Protocol s). done.
  - change PRIVATE_HASH_VER_1_VERSION_SIZE with 74. rewrite (bind_Ret _ _ _ _ _ E1).
    rewrite (proj2 (Z.eqb_neq _ _) Hp).
    set (s1 := upd s e (<[p := replicate 74 0]> (heap s)) (mPkcs5Protocol s)).
    assert (Hne : old <> p).
    { intros ->. destruct Hsrc as [[-> _] | (? & ? & _ & _ & H & _)]; [done | congruence]. }
    assert (Hsrc1 : salt_source s1 old osalt).
    { destruct Hsrc as [H | (o & k & H1 & H2 & H3 & H4)]; [by left|]. right. exists o, k. split; [done|].
      split; [done|]. split; [|done]. unfold s1. cbn [heap upd]. by rewrite lookup_insert_ne. }
    destruct (build_spec old osalt p (replicate 2 0) (replicate 32 0) (replicate 40 0) pw s1)
      as (st & s' & E2 & (e' & q & bs & -> & Hst' & Hw & Hok)); [done | apply lookup_insert_eq | done | done | done | done |].
    rewrite (bind_Ret _ _ _ _ _ E2). unfold s1 in *. cbn [env heap upd] in *. rewrite upd_upd, insert_insert_eq in *.
    assert (Hkeep : forall x b, heap s !! x = Some b -> <[p := bs]> (heap s) !! x = Some b).
    { intros x b Hx. rewrite lookup_insert_ne; [done|]. intros ->. congruence. }
    destruct (EFI_ERROR st) eqn:Hs.
    + exists EFI_ABORTED, None. eexists. split; [done|]. exists e', (<[p := bs]> (heap s)), q.
      split; [done|]. split; [congruence|]. split; [done|]. split; [|done]. intros H. by specialize (Hw H).
    + exists st, (Some (p, 74)). eexists. split; [done|]. exists e', (<[p := bs]> (heap s)), q.
      split; [done|]. split; [congruence|]. split; [done|]. split; [done|].
      destruct (Hok eq_refl) as (salt & -> & H1 & H2 & H3).
      split; [done|]. split; [done|]. split; [done|]. split; [done|]. by exists salt.
Qed.

Lemma generate_rejects old pw s : acceptable pw = false ->
  PasswordPolicyGeneratePasswordHash old (Some pw) true true s = Ret (EFI_INVALID_PARAMETER, None) s.
Proof.
  intros Ha. unfold PasswordPolicyGeneratePasswordHash.
  by rewrite (bind_Ret _ _ s true s) by (rewrite (bind_Ret _ _ _ _ _ (valid_spec pw None s)), Ha; done).
Qed.

(** ** The store *)

Lemma c_string_clip pw : c_string (clip pw) = clip pw.
Proof.
  unfold clip. generalize 128%nat. induction pw as [|c pw IH]; intros n; [by destruct n|]. simpl.
  destruct (Z.eqb_spec c 0) as [|Hc]; [by destruct n|]. destruct n as [|n]; [done|]. simpl.
  rewrite (proj2 (Z.eqb_neq _ _) Hc). f_equal. apply IH.
Qed.

Lemma temp_as_clip pw : acceptable (temp_of pw) = acceptable (clip pw) /\
  forall salt, derive (temp_of pw) salt = derive (clip pw) salt.
Proof.
  unfold acceptable, derive, StrLen. rewrite c_string_temp_of, c_string_clip. done.
Qed.

(** The variable read into a fresh buffer. *)
Lemma get_variable_spec data attrs s : working E -> stored (env s) = Some (data, attrs) ->
  exists st p e, get_variable s =
      Ret (st, p, Z.of_nat (length data), attrs) (upd s e (<[p := data]> (heap s)) (mPkcs5Protocol s)) /\
    EFI_ERROR st = false /\ p <> 0 /\ heap s !! p = None /\ stored e = stored (env s).
Proof.
  intros Hw Hst. unfold get_variable. pose proof (w_read _ Hw (heap s) (env s)) as Hr. rewrite Hst in Hr.
  destruct (GetVariable3 (heap s) (env s)) as [[[[st buf] size] at'] e] eqn:Eg. simpl in Hr.
  specialize (Hr ltac:(by eexists)). destruct (variable_read _ _ _ _ _ _ _ Eg) as [Hse Hv].
  rewrite Hr in Hv. destruct Hv as (p & d & Hd & -> & -> & Hp & Hf). rewrite Hst in Hd. injection Hd as <- <-.
  by exists st, p, e.
Qed.

Lemma free_Ret p bs h s e q : h !! p = None ->
  FreePool p (upd s e (<[p := bs]> h) q) = Ret tt (upd s e h q).
Proof.
  intros Hf. unfold FreePool. cbn [heap upd]. rewrite lookup_insert_eq. unfold set_heap.
  cbn [env heap mPkcs5Protocol mNullPasswordHash mNullPasswordHashSize upd].
  by rewrite delete_insert_id.
Qed.

(** The library's copy of the no-password hash. *)
Definition null_ready s : Prop :=
  mNullPasswordHashSize s = 4 /\ mNullPasswordHash s <> 0 /\
  exists nb, heap s !! mNullPasswordHash s = Some nb /\ (4 <= length nb)%nat /\
    take 4 nb = le_bytes 4 PASSWORD_HASH_VER_DELETE.

Lemma length_v1_hash salt key : length salt = 32%nat -> length key = 40%nat -> length (v1_hash salt key) = 74%nat.
Proof. intros H1 H2. unfold v1_hash. rewrite !length_app, length_le_bytes. lia. Qed.

Lemma is_set_spec salt key attrs s : working E -> null_ready s ->
  stored (env s) = Some (v1_hash salt key, attrs) -> length salt = 32%nat -> length key = 40%nat ->
  exists e, PasswordStoreIsPasswordSet s = Ret true (upd s e (heap s) (mPkcs5Protocol s)) /\
    stored e = stored (env s).
Proof.
  intros Hw (Hsz & Hn0 & nb & Hnb & Hnl & Hnt) Hst Hl Hk. pose proof (length_v1_hash salt key Hl Hk) as Hlen.
  destruct (get_variable_spec _ _ s Hw Hst) as (st & p & e & E1 & Hok & Hp & Hf & Hse).
  exists e. split; [|done]. unfold PasswordStoreIsPasswordSet. rewrite (bind_Ret _ _ _ _ _ E1). cbn iota zeta.
  rewrite !bind_gets. cbn [upd mNullPasswordHash mNullPasswordHashSize]. rewrite Hlen, Hsz, Hok.
  assert (Hnf : (st =? EFI_NOT_FOUND) = false).
  { apply Z.eqb_neq. intros ->. discriminate Hok. }
  rewrite Hnf. cbn [orb negb andb]. change (Z.of_nat 74 =? 0) with false. change (0 <? Z.of_nat 74) with true.
  change (Z.of_nat 74 =? 4) with false. cbn [negb]. cbv iota.
  set (s1 := upd s e (<[p := v1_hash salt key]> (heap s)) (mPkcs5Protocol s)).
  assert (Hcmp : CompareMem p (mNullPasswordHash s) 4 s1 = Ret false s1).
  { unfold CompareMem. assert (H1 : heap s1 !! p = Some (v1_hash salt key)) by apply lookup_insert_eq.
    assert (H2 : heap s1 !! mNullPasswordHash s = Some nb).
    { unfold s1. cbn [heap upd]. rewrite lookup_insert_ne; [done|]. intros ->. congruence. }
    rewrite (bind_Ret _ _ _ _ _ (load_at_Ret p 0 4 _ s1 H1 ltac:(rewrite Hlen; lia))).
    rewrite (bind_Ret _ _ _ _ _ (load_at_Ret (mNullPasswordHash s) 0 4 _ s1 H2 ltac:(lia))).
    change (drop (Z.to_nat 0) nb) with nb. change (Z.to_nat 4) with 4%nat. rewrite Hnt. by destruct salt as [|? [|? ?]]. }
  rewrite (bind_Ret _ _ s1 true s1) by (by rewrite (bind_Ret _ _ _ _ _ Hcmp)).
  rewrite (proj2 (Z.eqb_neq _ _) Hp). cbn [negb]. cbv iota. unfold s1.
  rewrite (bind_Ret _ _ _ _ _ (free_Ret p _ (heap s) s e (mPkcs5Protocol s) Hf)). done.
Qed.

Lemma compare_hashes p p' salt k k' s : heap s !! p = Some (v1_hash salt k) -> heap s !! p' = Some (v1_hash salt k') ->
  length salt = 32%nat -> length k = 40%nat -> length k' = 40%nat ->
  CompareMem p p' 74 s = Ret (bool_decide (k' = k)) s.
Proof.
  intros H1 H2 Hs Hk Hk'. unfold CompareMem.
  rewrite (bind_Ret _ _ _ _ _ (load_at_Ret p 0 74 _ s H1 ltac:(rewrite length_v1_hash by done; lia))).
  rewrite (bind_Ret _ _ _ _ _ (load_at_Ret p' 0 74 _ s H2 ltac:(rewrite length_v1_hash by done; lia))).
  change (Z.to_nat 0) with 0%nat. rewrite !drop_0. change (Z.to_nat 74) with 74%nat.
  rewrite !take_ge by (rewrite length_v1_hash by done; lia). unfold mret, M_ret. f_equal.
  apply bool_decide_ext. unfold v1_hash. split; [|by intros ->].
  intros H. by do 2 apply app_inv_head in H.
Qed.

(** Building the hash of the candidate and comparing it. *)
Lemma candidate_spec pw salt key q s : working E -> heap s !! q = Some (v1_hash salt key) -> q <> 0 ->
  length salt = 32%nat -> length key = 40%nat ->
  exists st p e pk h, (
    '(Status, out) ← PasswordPolicyGeneratePasswordHash q (Some (temp_of pw)) true true;
    mret (match out with Some (p, n) => (Status, p, n) | None => (Status, 0, 74) end)) s =
      Ret (st, p, 74) (upd s e h pk) /\ stored e = stored (env s) /\ h !! q = Some (v1_hash salt key) /\
    ((st = EFI_INVALID_PARAMETER /\ p = 0 /\ h = heap s /\ acceptable (clip pw) = false) \/
     (EFI_ERROR st = false /\ p <> 0 /\ heap s !! p = None /\ acceptable (clip pw) = true /\
      length (derive (clip pw) salt) = 40%nat /\ h = <[p := v1_hash salt (derive (clip pw) salt)]> (heap s))).
Proof.
  intros Hw Hq Hq0 Hl Hk. destruct (temp_as_clip pw) as [Ha Hd]. rewrite <- !Ha, <- !Hd.
  destruct (acceptable (temp_of pw)) eqn:Hacc.
  - destruct (generate_spec q (Some salt) (temp_of pw) s Hacc) as (st & out & s' & E1 & G).
    { right. by exists salt, key. }
    destruct G as (e & h & pk & -> & Hst & Hkeep & Hwk & Hout). specialize (Hwk Hw).
    destruct out as [[p n]|]; [|congruence]. destruct Hout as (_ & -> & Hp & Hf & sa & -> & H1 & H2 & H3).
    rewrite <- (H3 salt eq_refl) in *. do 5 eexists.
    rewrite (bind_Ret _ _ _ _ _ E1). split; [done|]. split; [done|].
    split; [by apply Hkeep|]. right. done.
  - do 5 eexists. rewrite (bind_Ret _ _ _ _ _ (generate_rejects q _ s Hacc)).
    split; [by rewrite (upd_id s) at 1|]. split; [done|]. split; [done|]. by left.
Qed.

Lemma authenticate_spec pw salt key attrs s : working E -> null_ready s ->
  stored (env s) = Some (v1_hash salt key, attrs) -> length salt = 32%nat -> length key = 40%nat ->
  pw !!! 0%nat <> 0 ->
  exists s', PasswordStoreAuthenticatePassword (Some pw) s =
      Ret (acceptable (clip pw) && bool_decide (derive (clip pw) salt = key)) s' /\
    heap s' = heap s /\ stored (env s') = stored (env s).
Proof.
  intros Hw Hn Hst Hl Hk Hpw. destruct (is_set_spec salt key attrs s Hw Hn Hst Hl Hk) as (e0 & E0 & Hst0).
  unfold PasswordStoreAuthenticatePassword. rewrite (bind_Ret _ _ _ _ _ E0). cbn [negb]. cbv iota.
  rewrite (proj2 (Z.eqb_neq _ _) Hpw), (bind_Ret _ _ _ _ _ (safe_copy pw _)). cbv iota zeta.
  destruct (get_variable_spec (v1_hash salt key) attrs (upd s e0 (heap s) (mPkcs5Protocol s)) Hw)
    as (st1 & q & e1 & E1 & Hok1 & Hq & Hfq & Hst1); [cbn [env upd]; congruence|].
  rewrite (bind_Ret _ _ _ _ _ E1). cbv iota zeta. rewrite Hok1. cbn [negb env heap upd mPkcs5Protocol] in *.
  rewrite upd_upd in *. set (s1 := upd s e1 (<[q := v1_hash salt key]> (heap s)) (mPkcs5Protocol s)).
  rewrite length_v1_hash by done. change (Z.of_nat 74) with 74.
  destruct (candidate_spec pw salt key q s1 Hw (lookup_insert_eq _ _ _) Hq Hl Hk)
    as (st2 & p & e2 & pk & h & E2 & Hst2 & Hhq & Hcase).
  rewrite (bind_Ret _ _ _ _ _ E2). unfold s1 in *. cbn [env heap upd] in *. rewrite upd_upd in *.
  set (s2 := upd s e2 h pk) in *. cbv iota zeta.
  destruct Hcase as [(-> & -> & -> & Hacc) | (Hok2 & Hp & Hfp & Hacc & Hdl & ->)].
  - rewrite Hacc. change (EFI_ERROR EFI_INVALID_PARAMETER) with true. cbn [negb]. cbv iota.
    rewrite (bind_Ret _ _ s2 false s2) by done. rewrite (proj2 (Z.eqb_neq _ _) Hq). cbn [negb]. cbv iota.
    unfold s2. rewrite (bind_Ret _ _ _ _ _ (free_Ret q _ (heap s) s e2 pk Hfq)).
    eexists. split; [done|]. split; [done|]. cbn [env upd]. congruence.
  - rewrite Hok2, Hacc. cbn [negb andb]. cbv iota.
    rewrite (bind_Ret _ _ _ _ _ (compare_hashes q p salt key _ s2 Hhq (lookup_insert_eq _ _ _) Hl Hk Hdl)).
    rewrite (proj2 (Z.eqb_neq _ _) Hq), (proj2 (Z.eqb_neq _ _) Hp). cbn [negb]. cbv iota.
    assert (Hpq : p <> q) by (intros ->; rewrite lookup_insert_eq in Hfp; done).
    assert (Hfp' : heap s !! p = None) by (by rewrite lookup_insert_ne in Hfp).
    unfold s2. rewrite insert_insert_ne by done.
    rewrite (bind_Ret _ _ _ _ _ (free_Ret q _ _ s e2 pk ltac:(rewrite lookup_insert_ne by done; done))).
    rewrite (bind_Ret _ _ _ _ _ (free_Ret p _ _ s e2 pk Hfp')).
    eexists. split; [done|]. split; [done|]. cbn [env upd]. congruence.
Qed.

(** Storing a valid hash. *)
Lemma set_password_spec p bs s : (forall a d e, EFI_ERROR (SetVariable a d e).1 = false) ->
  p <> 0 -> heap s !! p = Some bs -> valid_hash bs = true ->
  exists st e, PasswordStoreSetPassword p (Z.of_nat (length bs)) s = Ret st (upd s e (heap s) (mPkcs5Protocol s)) /\
    EFI_ERROR st = false /\ stored e = Some (bs, PASSWORD_STORE_ADMIN_VARIABLE_ATTRS).
Proof.
  intros Hw Hp Hb Hv. unfold PasswordStoreSetPassword. rewrite (proj2 (Z.eqb_neq _ _) Hp).
  rewrite (bind_Ret _ _ s EFI_SUCCESS s).
  2: { rewrite (validate_spec p bs s Hp Hb). by rewrite Hv. }
  change (EFI_ERROR EFI_SUCCESS) with false. cbv iota.
  rewrite (bind_Ret _ _ _ _ _ (load_at_Ret p 0 _ bs s Hb (Z.le_refl _))).
  change (Z.to_nat 0) with 0%nat. rewrite drop_0, Nat2Z.id, take_ge by lia.
  assert (Hne : bs <> []) by (intros ->; done).
  pose proof (variable_written PASSWORD_STORE_ADMIN_VARIABLE_ATTRS bs (env s) Hne) as Hst.
  pose proof (Hw PASSWORD_STORE_ADMIN_VARIABLE_ATTRS bs (env s)) as Hok.
  destruct (SetVariable PASSWORD_STORE_ADMIN_VARIABLE_ATTRS bs (env s)) as [st e] eqn:Es. simpl in Hst, Hok.
  rewrite (bind_Ret _ _ _ _ _ (service_Ret (SetVariable _ bs) s st e Es)), Hok.
  exists st, e. rewrite Hok in Hst. done.
Qed.

(** Storing the no-password hash. *)
Lemma set_null_spec s : (forall a d e, EFI_ERROR (SetVariable a d e).1 = false) -> null_ready s ->
  exists st e, PasswordStoreSetPassword (mNullPasswordHash s) (mNullPasswordHashSize s) s =
      Ret st (upd s e (heap s) (mPkcs5Protocol s)) /\
    EFI_ERROR st = false /\
    stored e = Some (le_bytes 4 PASSWORD_HASH_VER_DELETE, PASSWORD_STORE_ADMIN_VARIABLE_ATTRS).
Proof.
  intros Hw (Hsz & Hn0 & nb & Hnb & Hnl & Hnt). rewrite Hsz.
  unfold PasswordStoreSetPassword. rewrite (proj2 (Z.eqb_neq _ _) Hn0).
  assert (Hld : load_at (mNullPasswordHash s) 0 4 s = Ret (le_bytes 4 PASSWORD_HASH_VER_DELETE) s).
  { rewrite (load_at_Ret _ 0 4 nb s Hnb ltac:(lia)). by rewrite <- Hnt. }
  rewrite (bind_Ret _ _ s EFI_SUCCESS s).
  2: { unfold PasswordPolicyValidatePasswordHash. rewrite (proj2 (Z.eqb_neq _ _) Hn0). cbn [orb].
       change (4 <? PASSWORD_HASH_HEADER_SIZE) with false. change (PASSWORD_HASH_VER_DELETE_SIZE <=? 4) with true.
       cbv iota. rewrite (bind_Ret _ _ s true s); [done|]. by rewrite (bind_Ret _ _ _ _ _ Hld). }
  change (EFI_ERROR EFI_SUCCESS) with false. cbv iota. rewrite (bind_Ret _ _ _ _ _ Hld).
  pose proof (variable_written PASSWORD_STORE_ADMIN_VARIABLE_ATTRS (le_bytes 4 PASSWORD_HASH_VER_DELETE) (env s)) as Hst.
  pose proof (Hw PASSWORD_STORE_ADMIN_VARIABLE_ATTRS (le_bytes 4 PASSWORD_HASH_VER_DELETE) (env s)) as Hok.
  destruct (SetVariable PASSWORD_STORE_ADMIN_VARIABLE_ATTRS (le_bytes 4 PASSWORD_HASH_VER_DELETE) (env s)) as [st e] eqn:Es.
  simpl in Hok. rewrite (bind_Ret _ _ _ _ _ (service_Ret (SetVariable _ _) s st e Es)), Hok.
  exists st, e. split; [done|]. split; [done|]. cbn [fst snd] in Hst. rewrite Hok in Hst. by apply Hst.
Qed.

Lemma v1_hash_valid salt key : length salt = 32%nat -> length key = 40%nat -> valid_hash (v1_hash salt key) = true.
Proof.
  intros Hl Hk. unfold valid_hash, hash_version. rewrite length_v1_hash by done. by apply orb_true_r.
Qed.

(** What authenticating [opw] against a version 1 hash answers. *)
Definition authenticates (opw : option (list Z)) (salt key : list Z) : bool :=
  match opw with
  | None => false
  | Some pw => negb (pw !!! 0%nat =? 0) && acceptable (clip pw) && bool_decide (derive (clip pw) salt = key)
  end.

(** with a version 1 hash stored and the services working, NULL and the
    empty string are refused, and any other password authenticates exactly
    when its first 128 characters are an acceptable password whose key under
    the stored salt is the stored key; all buffers are freed and the stored
    hash stays. *)
Theorem PasswordStoreAuthenticatePassword_correct opw salt key attrs s :
  working E -> null_ready s -> stored (env s) = Some (v1_hash salt key, attrs) ->
  length salt = 32%nat -> length key = 40%nat ->
  exists s', PasswordStoreAuthenticatePassword opw s = Ret (authenticates opw salt key) s' /\
    heap s' = heap s /\ stored (env s') = stored (env s).
Proof.
  intros Hw Hn Hst Hl Hk. destruct (is_set_spec salt key attrs s Hw Hn Hst Hl Hk) as (e0 & E0 & Hst0).
  destruct opw as [pw|]; [destruct (Z.eqb_spec (pw !!! 0%nat) 0) as [Hz|Hz]|].
  - eexists. unfold PasswordStoreAuthenticatePassword, authenticates. rewrite (bind_Ret _ _ _ _ _ E0). cbn [negb]. cbv iota.
    rewrite (proj2 (Z.eqb_eq _ _) Hz). by split.
  - unfold authenticates. rewrite (proj2 (Z.eqb_neq _ _) Hz). by apply (authenticate_spec pw salt key attrs).
  - eexists. unfold PasswordStoreAuthenticatePassword. rewrite (bind_Ret _ _ _ _ _ E0). by split.
Qed.

Lemma generated_null_ready s s' pw osalt st out : null_ready s -> generated s s' pw osalt st out -> null_ready s'.
Proof.
  intros (H1 & H2 & nb & H3 & H4) (e & h & q & -> & _ & Hkeep & _). split; [done|]. split; [done|].
  exists nb. split; [by apply Hkeep | done].
Qed.

Lemma acceptable_bounds pw : acceptable pw = true -> 6 <= StrLen pw <= 128.
Proof. unfold acceptable. rewrite !andb_true_iff, !Z.leb_le. lia. Qed.

Lemma nonempty_head a : 0 < StrLen a -> a !!! 0%nat <> 0.
Proof. unfold StrLen. destruct a as [|c a]; simpl; [lia|]. destruct (Z.eqb_spec c 0); simpl; [lia | done]. Qed.


(** when the password variable exists but cannot be read, the
    code takes it for missing: it overwrites the stored hash with the no-password
    hash, and authentication accepts anything. *)
Theorem password_read_failure_opens pw s :
  null_ready s -> (forall a d e, EFI_ERROR (SetVariable a d e).1 = false) ->
  EFI_ERROR (GetVariable3 (heap s) (env s)).1.1.1.1 = true ->
  exists s', PasswordStoreAuthenticatePassword pw s = Ret true s' /\
    stored (env s') = Some (le_bytes 4 PASSWORD_HASH_VER_DELETE, PASSWORD_STORE_ADMIN_VARIABLE_ATTRS).
Proof.
  intros (Hsz & Hn0 & nb & Hnb & Hnl & Hnt) Hset Hfail.
  unfold PasswordStoreAuthenticatePassword, PasswordStoreIsPasswordSet, get_variable.
  destruct (GetVariable3 (heap s) (env s)) as [[[[st buf] size] attrs] e] eqn:Eg. simpl in Hfail.
  destruct (variable_read _ _ _ _ _ _ _ Eg) as [Hse Hv]. rewrite Hfail in Hv. destruct Hv as [-> ->].
  set (s1 := set_env e s).
  destruct (set_null_spec s1) as (st2 & e2 & E2 & _ & Hst2); [done | by split; [|split; [|exists nb]] |].
  eexists. split.
  - rewrite (bind_Ret _ _ s false (upd s1 e2 (heap s1) (mPkcs5Protocol s1))); [done|].
    rewrite (bind_Ret _ _ s (st, 0, 0, attrs) s1) by (by rewrite Eg). cbv iota zeta.
    rewrite !bind_gets, orb_true_r. rewrite (bind_Ret _ _ s1 false (upd s1 e2 (heap s1) (mPkcs5Protocol s1))); [done|].
    by rewrite (bind_Ret _ _ _ _ _ E2).
  - exact Hst2.
Qed.

(** asked for the no-password hash when the pool is
    exhausted, the code notes the error and writes through the NULL pointer. *)
Theorem null_hash_out_of_memory_faults s :
  (AllocatePool 8 (heap s) (env s)).1 = None -> heap s !! 0 = None ->
  PasswordPolicyGeneratePasswordHash 0 None true true s = Stop Fault.
Proof.
  intros Ha H0. unfold PasswordPolicyGeneratePasswordHash, allocate, mbind, M_bind, mret, M_ret. cbn [negb orb Z.eqb].
  destruct (AllocatePool 8 (heap s) (env s)) as [[[p bs]|] e]; [done|]. unfold store_at. cbn. by rewrite H0.
Qed.

(** The no-password hash, on success. *)
Lemma null_generated s : working E -> exists p e nb,
  PasswordPolicyGeneratePasswordHash 0 None true true s =
    Ret (EFI_SUCCESS, Some (p, 4)) (upd s e (<[p := nb]> (heap s)) (mPkcs5Protocol s)) /\
  stored e = stored (env s) /\ p <> 0 /\ (4 <= length nb)%nat /\ take 4 nb = le_bytes 4 PASSWORD_HASH_VER_DELETE.
Proof.
  intros Hw. unfold PasswordPolicyGeneratePasswordHash. rewrite (bind_Ret _ _ s false s) by done. cbn [negb orb].
  pose proof (w_alloc _ Hw 8 (heap s) (env s)) as Hsome. pose proof (alloc_stored 8 (heap s) (env s)) as Hst.
  destruct (AllocatePool 8 (heap s) (env s)) as [[[p bs]|] e] eqn:Ea; [|by destruct Hsome].
  destruct (alloc_fresh _ _ _ _ _ _ Ea) as (Hp & _ & Hl). simpl in Hst.
  rewrite (bind_Ret _ _ s p (upd s e (<[p := bs]> (heap s)) (mPkcs5Protocol s))) by (unfold allocate; by rewrite Ea).
  rewrite (bind_Ret _ _ _ _ _ (store_at_Ret p 0 (le_bytes 4 PASSWORD_HASH_VER_DELETE) bs
    (upd s e (<[p := bs]> (heap s)) (mPkcs5Protocol s)) (lookup_insert_eq _ _ _)
    ltac:(rewrite Hl, length_le_bytes; simpl; lia))).
  exists p, e, (list_inserts 0 (le_bytes 4 PASSWORD_HASH_VER_DELETE) bs). unfold set_heap.
  cbn [env heap mPkcs5Protocol mNullPasswordHash mNullPasswordHashSize upd]. rewrite insert_insert_eq.
  split; [done|]. split; [done|]. split; [done|].
  split; [rewrite length_inserts, Hl; simpl; lia|].
  do 8 (destruct bs as [|? bs]; [done|]). done.
Qed.

(** What initialisation leaves stored. *)
Definition kept_or_reset (v : option (list Z * Z)) : option (list Z * Z) :=
  match v with
  | Some (d, a) => if a =? PASSWORD_STORE_ADMIN_VARIABLE_ATTRS then Some (d, a)
                   else Some (le_bytes 4 PASSWORD_HASH_VER_DELETE, PASSWORD_STORE_ADMIN_VARIABLE_ATTRS)
  | None => Some (le_bytes 4 PASSWORD_HASH_VER_DELETE, PASSWORD_STORE_ADMIN_VARIABLE_ATTRS)
  end.

Lemma null_ready_env s e q : null_ready s -> null_ready (upd s e (heap s) q).
Proof. intros (H1 & H2 & nb & H3). split; [exact H1|]. split; [exact H2|]. by exists nb. Qed.

Lemma initialize_spec s : working E -> null_ready s ->
  exists st e, PasswordStoreInitializeLib s = Ret st (upd s e (heap s) (mPkcs5Protocol s)) /\
    stored e = kept_or_reset (stored (env s)).
Proof.
  intros Hw Hn. unfold PasswordStoreInitializeLib. destruct (stored (env s)) as [[d a]|] eqn:Hsv.
  - destruct (get_variable_spec d a s Hw Hsv) as (st & q & e & E1 & Hok & Hq & Hfq & Hs).
    rewrite (bind_Ret _ _ _ _ _ E1). cbv iota zeta. rewrite Hok. cbn [negb]. cbv iota.
    rewrite (bind_Ret _ _ _ _ _ (free_Ret q d (heap s) s e (mPkcs5Protocol s) Hfq)).
    set (s1 := upd s e (heap s) (mPkcs5Protocol s)).
    assert (Hnf : (st =? EFI_NOT_FOUND) = false) by (apply Z.eqb_neq; intros ->; discriminate Hok).
    rewrite Hnf. unfold kept_or_reset. cbn [orb].
    destruct (a =? PASSWORD_STORE_ADMIN_VARIABLE_ATTRS) eqn:Ha; cbn [negb]; cbv iota.
    + rewrite (bind_Ret _ _ s1 st s1) by done. rewrite Hok. exists st, e. split; [done|]. congruence.
    + destruct (set_null_spec s1 (w_write _ Hw) (null_ready_env _ _ _ Hn)) as (st2 & e2 & E2 & Hok2 & Hs2).
      rewrite (bind_Ret _ _ s1 st2 (upd s1 e2 (heap s1) (mPkcs5Protocol s1))) by (by rewrite !bind_gets).
      rewrite Hok2. by exists st2, e2.
  - unfold get_variable. pose proof (w_missing _ Hw (heap s) (env s) Hsv) as Hm.
    destruct (GetVariable3 (heap s) (env s)) as [[[[st buf] size] at'] e] eqn:Eg. simpl in Hm. subst st.
    destruct (variable_read _ _ _ _ _ _ _ Eg) as [Hs [-> ->]].
    set (s1 := upd s e (heap s) (mPkcs5Protocol s)).
    rewrite (bind_Ret _ _ s (EFI_NOT_FOUND, 0, 0, at') s1) by (by rewrite Eg). cbv iota zeta.
    change (EFI_ERROR EFI_NOT_FOUND) with true. cbn [negb]. cbv iota. rewrite (bind_Ret _ _ s1 tt s1) by done.
    rewrite Z.eqb_refl. cbn [orb]. cbv iota.
    destruct (set_null_spec s1 (w_write _ Hw) (null_ready_env _ _ _ Hn)) as (st2 & e2 & E2 & Hok2 & Hs2).
    rewrite (bind_Ret _ _ s1 st2 (upd s1 e2 (heap s1) (mPkcs5Protocol s1))) by (by rewrite !bind_gets).
    rewrite Hok2. by exists st2, e2.
Qed.

(** the constructor, on its first run, prepares the no-password
    hash, keeps a stored password with the right attributes, and otherwise
    stores the no-password hash. *)
Theorem PasswordStoreLibConstructor_correct s :
  working E -> (forall e, (LocateStoreInstalled e).1 = EFI_NOT_FOUND) ->
  exists s', PasswordStoreLibConstructor s = Ret EFI_SUCCESS s' /\ null_ready s' /\
    stored (env s') = kept_or_reset (stored (env s)).
Proof.
  intros Hw Hfirst. unfold PasswordStoreLibConstructor.
  destruct (null_generated s Hw) as (p & e & nb & E1 & Hst & Hp & Hnl & Hnt).
  rewrite (bind_Ret _ _ _ _ _ E1). cbv iota zeta. rewrite bind_modify.
  set (s1 := set_null p 4 _).
  assert (Hn1 : null_ready s1).
  { split; [done|]. split; [done|]. exists nb. split; [apply lookup_insert_eq | done]. }
  assert (Hstored1 : stored (env s1) = stored (env s)) by done. clearbody s1.
  pose proof (store_located (env s1)) as Hs2. pose proof (Hfirst (env s1)) as Hf2.
  destruct (LocateStoreInstalled (env s1)) as [st2 e2] eqn:E2. simpl in Hs2, Hf2. subst st2.
  rewrite (bind_Ret _ _ _ _ _ (service_Ret LocateStoreInstalled s1 _ e2 E2)), Z.eqb_refl.
  set (s2 := upd s1 e2 (heap s1) (mPkcs5Protocol s1)). pose proof (store_installed (env s2)) as Hs3.
  destruct (InstallProtocolInterface (env s2)) as [st3 e3] eqn:E3. simpl in Hs3.
  set (s3 := upd s1 e3 (heap s1) (mPkcs5Protocol s1)).
  destruct (initialize_spec s3 Hw (null_ready_env _ _ _ Hn1)) as (st & e4 & E4 & H4).
  exists (upd s1 e4 (heap s1) (mPkcs5Protocol s1)). split; [|split].
  - rewrite (bind_Ret _ _ s2 tt (upd s1 e4 (heap s1) (mPkcs5Protocol s1))); [done|].
    rewrite (bind_Ret _ _ _ _ _ (service_Ret InstallProtocolInterface s2 st3 e3 E3)).
    by rewrite (bind_Ret _ _ _ _ _ E4).
  - by apply null_ready_env.
  - cbn [env upd]. rewrite H4. f_equal. unfold s3, s2 in *. cbn [env upd] in *. congruence.
Qed.
End Build.

(** ** A simple platform *)

Module PasswordDemo.
#[export] Instance debug : Build := {| debug_build := true |}.

#[export] Instance strings : BaseStrings := {
  StrnCpyS := fun Dest _ Src Length =>
    take (length Dest) (take (Z.to_nat Length) (c_string Src) ++ replicate (length Dest) 0);
  uninitialised := fun n => replicate n 0x5a
}.

Lemma c_string_clipped n : forall l m, (length l < n)%nat -> (0 < m)%nat ->
  c_string (take n (c_string l ++ replicate m 0)) = c_string l.
Proof.
  induction n as [|n IH]; intros l m Hn Hm; [lia|].
  destruct l as [|c l]; [destruct m; [lia | done]|]. simpl in *.
  destruct (Z.eqb_spec c 0) as [|Hc]; [destruct m; [lia | done]|].
  simpl. rewrite (proj2 (Z.eqb_neq _ _) Hc). f_equal. apply IH; lia.
Qed.

Lemma c_string_idem k : forall a, c_string (take k (c_string a)) = take k (c_string a).
Proof.
  induction k as [|k IH]; intros [|c a]; try done. simpl. destruct (Z.eqb_spec c 0) as [|Hc]; [done|].
  simpl. rewrite (proj2 (Z.eqb_neq _ _) Hc). f_equal. apply IH.
Qed.

#[export] Instance strings_laws : BaseStringsLaws.
Proof.
  split.
  - intros Dest DestMax Src Length. simpl. rewrite length_take, length_app, length_replicate. lia.
  - intros Dest DestMax Src Length H1 H2. simpl.
    set (l := take (Z.to_nat Length) (c_string Src)).
    assert (Hl : c_string l = l) by apply c_string_idem. rewrite <- Hl at 1.
    rewrite c_string_clipped; [done | |lia]. unfold l. rewrite length_take. lia.
  - intros n. apply length_replicate.
Qed.

(** The environment: the stored variable, and the next pool address. *)
Definition world : Type := option (list Z * Z).

Definition fresh_pointer (h : heap_t) : Z := 1 + map_fold (fun p _ z => Z.max p z) 0 h.

Lemma fresh_pointer_spec h : 0 < fresh_pointer h /\ forall p bs, h !! p = Some bs -> p < fresh_pointer h.
Proof.
  unfold fresh_pointer. induction h as [|p bs h Hp IH] using map_ind.
  - rewrite map_fold_empty. split; [lia|]. intros p bs H. by rewrite lookup_empty in H.
  - rewrite map_fold_insert_L; [|intros; lia | done]. destruct IH as [H1 H2]. split; [lia|].
    intros p' bs'. rewrite lookup_insert_Some. intros [[<- _]|[_ H]]; [lia|]. specialize (H2 _ _ H). lia.
Qed.

Lemma fresh_pointer_None h : h !! fresh_pointer h = None.
Proof.
  destruct (h !! fresh_pointer h) as [bs|] eqn:E; [|done]. apply (proj2 (fresh_pointer_spec h)) in E. lia.
Qed.

(** A stand-in for the key derivation: 40 bytes from password and salt. *)
Definition mix (pw salt : list Z) (n : Z) : list Z :=
  (fun i => (le_val pw * (i + 3) + le_val salt) mod 251) <$> seqZ 0 n.

(** [reads]: the variable can be read; [pool]: there is memory left. *)
Definition services_of (reads pool : bool) : Services world := {|
  AllocatePool := fun n h e => (if pool then Some (fresh_pointer h, replicate (Z.to_nat n) 0xaf) else None, e);
  LocateRng := fun e => (EFI_SUCCESS, e);
  GetRNG := fun a n e => (EFI_SUCCESS, replicate (Z.to_nat n) 0x42, e);
  LocatePkcs5 := fun e => (EFI_SUCCESS, 0x1000, e);
  HashPassword := fun pw salt _ _ n e => (EFI_SUCCESS, mix pw salt n, e);
  GetVariable3 := fun h e =>
    match e with
    | Some (d, a) => if reads then (EFI_SUCCESS, Some (fresh_pointer h, d), Z.of_nat (length d), a, e)
                     else (EFI_DEVICE_ERROR, None, 0, 0, e)
    | None => (EFI_NOT_FOUND, None, 0, 0, e)
    end;
  SetVariable := fun a d e => (EFI_SUCCESS, if bool_decide (d = []) then None else Some (d, a));
  LocateStoreInstalled := fun e => (EFI_NOT_FOUND, e);
  InstallProtocolInterface := fun e => (EFI_SUCCESS, e)
|}.

#[export] Instance services : Services world := services_of true true.

#[export] Instance view : ServicesView world := {
  stored := fun e => e;
  pbkdf2 := fun pw salt _ _ n => mix pw salt n
}.

#[export] Instance services_laws reads pool : @ServicesLaws world (services_of reads pool) view.
Proof.
  split; try done.
  - intros n h e p bs e'. simpl. destruct pool; [|done]. intros [= <- <- <-].
    split; [pose proof (fresh_pointer_spec h); lia|].
    split; [apply fresh_pointer_None | apply length_replicate].
  - intros a n e. split; [apply length_replicate | done].
  - intros pw salt it dg n e. split; [|done]. simpl. unfold mix. by rewrite length_fmap, length_seqZ.
  - intros h [[d a]|] st buf size attrs e'; simpl; [destruct reads|]; intros [= <- <- <- <- <-]; try done.
    split; [done|]. simpl.
    exists (fresh_pointer h), d. pose proof (fresh_pointer_spec h). split; [done|]. split; [done|]. split; [done|].
    split; [lia | apply fresh_pointer_None].
  - intros attrs data e Hd. simpl. by rewrite bool_decide_false.
Qed.

Lemma all_working : working world.
Proof. split; try done. - by intros h [[d a]|] [x Hx]. - by intros h [[d a]|]. Qed.

(** The word "Secret1", in CHAR16, with its terminator. *)
Definition secret : list Z := [83; 101; 99; 114; 101; 116; 49; 0].

Definition no_password : list Z := le_bytes 4 PASSWORD_HASH_VER_DELETE.

Definition machine0 (e : world) : machine world :=
  {| env := e; heap := {[0x500 := no_password]}; mPkcs5Protocol := 0;
     mNullPasswordHash := 0x500; mNullPasswordHashSize := 4 |}.

Lemma machine0_ready e : null_ready (machine0 e).
Proof. split; [done|]. split; [done|]. by exists no_password. Qed.

Lemma PasswordPolicyIsPwStringValid_correct_witness :
  PasswordPolicyIsPwStringValid (Some secret) None tt = Ret (acceptable secret, None) tt /\
  PasswordPolicyIsPwStringValid (Some secret) (Some 7) tt = Ret (acceptable secret, Some (failures secret)) tt /\
  (acceptable secret = true <-> failures secret = 0) /\
  PasswordPolicyIsPwStringValid None (Some 7) tt = Ret (false, Some PW_TEST_STRING_NULL) tt.
Proof. apply PasswordPolicyIsPwStringValid_correct. Defined.

Lemma PasswordPolicyValidatePasswordHash_correct_witness :
  PasswordPolicyValidatePasswordHash 0x500 4 (machine0 None) =
  Ret (if valid_hash no_password then EFI_SUCCESS else EFI_INVALID_PARAMETER) (machine0 None).
Proof. apply (PasswordPolicyValidatePasswordHash_correct 0x500 no_password); [discriminate | exact eq_refl]. Defined.

Definition salt0 : list Z := replicate 32 0x42.
Definition key0 : list Z := derive secret salt0.

Definition locked : machine world := machine0 (Some (v1_hash salt0 key0, 3)).

Lemma PasswordStoreAuthenticatePassword_correct_witness :
  exists s', PasswordStoreAuthenticatePassword (Some secret) locked = Ret (authenticates (Some secret) salt0 key0) s' /\
    heap s' = heap locked /\ stored (env s') = stored (env locked).
Proof.
  apply (PasswordStoreAuthenticatePassword_correct (Some secret) salt0 key0 3 locked);
    [exact all_working | apply machine0_ready | exact eq_refl | exact eq_refl | exact eq_refl].
Defined.


Lemma PasswordStoreLibConstructor_correct_witness :
  exists s', PasswordStoreLibConstructor (machine0 None) = Ret EFI_SUCCESS s' /\ null_ready s' /\
    stored (env s') = kept_or_reset (stored (env (machine0 None))).
Proof.
  apply (PasswordStoreLibConstructor_correct (machine0 None)); [exact all_working | exact (fun _ => eq_refl)].
Defined.

(** The variable cannot be read; a wrong password. *)
Lemma password_read_failure_opens_witness :
  exists s', @PasswordStoreAuthenticatePassword debug strings world (services_of false true) (Some [120; 0]) locked =
      Ret true s' /\
    stored (env s') = Some (le_bytes 4 PASSWORD_HASH_VER_DELETE, PASSWORD_STORE_ADMIN_VARIABLE_ATTRS).
Proof.
  apply (@password_read_failure_opens debug strings world (services_of false true) view);
    [exact (services_laws false true) | apply machine0_ready | exact (fun _ _ _ => eq_refl) | exact eq_refl].
Defined.

Lemma null_hash_out_of_memory_faults_witness :
  @PasswordPolicyGeneratePasswordHash debug strings world (services_of true false) 0 None true true locked =
    Stop Fault.
Proof.
  apply (@null_hash_out_of_memory_faults debug strings world (services_of true false)); exact eq_refl.
Defined.
End PasswordDemo.
