(* ===== verification/AuthVar.v ===== *)
(** * Authenticated variables kept by a trusted application

    Model of [src/Microsoft/OpteeClientPkg/Drivers/AuthVarOpteeRuntimeDxe]:
    [AuthVarsDxe.c], the UEFI variable services that marshal each request into
    a transport buffer and send it to the trusted application (TA) in secure
    world, and [Measurement.c], which logs changes of the secure-boot policy
    to the TPM.  The TA, the TEE client library and the firmware services are
    the class [Teec].

    Names are CHAR16 strings without their terminator, GUIDs lists of 16
    bytes.  The transport buffers are byte lists; an access beyond their end
    is a [Fault]. *)

From Stdlib Require Import ZArith Lia.
From Stdlib Require Import String Ascii.
From stdpp Require Import base list numbers option gmap.
From S2P Require Import Prelude Memory.

(** ** Constants *)

Definition VSGetOp : Z := 0.
Definition VSGetNextVarOp : Z := 1.
Definition VSSetOp : Z := 2.
Definition VSQueryInfoOp : Z := 3.
Definition VSSignalExitBootServicesOp : Z := 4.

(** Sizes ([sizeof], with padding) and field offsets of the transport
    structures. *)
Definition sizeof_GET_PARAM : Z := 28.
Definition GET_PARAM_VariableNameSize : Z := 4.
Definition GET_PARAM_VendorGuid : Z := 8.
Definition GET_PARAM_VariableName : Z := 24.
Definition sizeof_GET_RESULT : Z := 16.
Definition GET_RESULT_Attributes : Z := 4.
Definition GET_RESULT_DataSize : Z := 8.
Definition GET_RESULT_Data : Z := 12.
Definition sizeof_SET_PARAM : Z := 44.
Definition SET_PARAM_VariableNameSize : Z := 4.
Definition SET_PARAM_VendorGuid : Z := 8.
Definition SET_PARAM_Attributes : Z := 24.
Definition SET_PARAM_DataSize : Z := 28.
Definition SET_PARAM_OffsetVariableName : Z := 32.
Definition SET_PARAM_OffsetData : Z := 36.
Definition SET_PARAM_Payload : Z := 40.
Definition sizeof_QUERY_PARAM : Z := 8.
Definition QUERY_PARAM_Attributes : Z := 4.
Definition sizeof_QUERY_RESULT : Z := 32.
(** The largest of the parameter structures. *)
Definition sizeof_VARIABLE_PARAM : Z := 44.

Definition EFI_VARIABLE_NON_VOLATILE : Z := 1.
Definition EFI_VARIABLE_BOOTSERVICE_ACCESS : Z := 2.
Definition EFI_VARIABLE_RUNTIME_ACCESS : Z := 4.

Definition TEEC_SUCCESS : Z := 0.
Definition TEEC_ERROR_ACCESS_DENIED : Z := 0xFFFF0001.
Definition TEEC_ERROR_ITEM_NOT_FOUND : Z := 0xFFFF0008.
Definition TEEC_ERROR_OUT_OF_MEMORY : Z := 0xFFFF000C.
Definition TEEC_ERROR_SHORT_BUFFER : Z := 0xFFFF0010.

Definition SETUP_MODE : Z := 1.
Definition USER_MODE : Z := 0.
Definition SECURE_BOOT_ENABLE : Z := 1.
Definition SECURE_BOOT_DISABLE : Z := 0.
Definition SECURE_BOOT_MODE_ENABLE : Z := 1.
Definition SECURE_BOOT_MODE_DISABLE : Z := 0.
Definition STANDARD_SECURE_BOOT_MODE : Z := 0.

(** Wide string literals. *)
Definition wide (s : string) : list Z := (fun c => Z.of_N (N_of_ascii c)) <$> list_ascii_of_string s.

Definition EFI_PLATFORM_KEY_NAME : list Z := wide "PK".
Definition EFI_KEY_EXCHANGE_KEY_NAME : list Z := wide "KEK".
Definition EFI_IMAGE_SECURITY_DATABASE : list Z := wide "db".
Definition EFI_IMAGE_SECURITY_DATABASE1 : list Z := wide "dbx".
Definition EFI_SETUP_MODE_NAME : list Z := wide "SetupMode".
Definition EFI_SECURE_BOOT_MODE_NAME : list Z := wide "SecureBoot".
Definition EFI_SECURE_BOOT_ENABLE_NAME : list Z := wide "SecureBootEnable".
Definition EFI_CUSTOM_MODE_NAME : list Z := wide "CustomMode".

(** The platform's settings and the vendor GUIDs of the variables. *)
Class AuthVarPlatform := {
  PcdMaxVariableSize : Z;
  PcdMaxHardwareErrorVariableSize : Z;
  PcdSecureBootEnable : bool;
  gEfiGlobalVariableGuid : list Z;
  gEfiImageSecurityDatabaseGuid : list Z;
  gEfiSecureBootEnableDisableGuid : list Z;
  gEfiCustomModeEnableGuid : list Z;
  gOpteeAuthVarTaGuid : list Z
}.

(** [EV_EFI_VARIABLE_DRIVER_CONFIG]. *)
Definition EV_EFI_VARIABLE_DRIVER_CONFIG : Z := 0x80000001.

(** ** Services outside of the driver *)

Class Teec (E : Type) := {
  EfiAtRuntime : E -> bool;
  OpteeClientApiInitialize : E -> Z * E;
  OpteeClientApiFinalize : E -> E;
  TEEC_InitializeContext : E -> Z * E;
  TEEC_FinalizeContext : E -> E;
  (** UUID; result and session *)
  TEEC_OpenSession : list Z -> E -> Z * Z * E;
  TEEC_CloseSession : Z -> E -> E;
  (** size; result and the buffer *)
  TEEC_AllocateSharedMemory : Z -> E -> Z * list Z * E;
  TEEC_ReleaseSharedMemory : E -> E;
  (** session, command, input, capacity of the output; the result, the
      output, and the two values of the third parameter *)
  TEEC_InvokeCommand : Z -> Z -> list Z -> Z -> E -> Z * list Z * Z * Z * E;
  ResetSystem : E -> E;
  LocateVariableArch : E -> Z * E;
  InstallVariableArch : E -> Z * E;
  InstallVariableWriteArch : E -> Z * E;
  CreateExitBootServicesEvent : E -> Z * E;
  (** size; [true] when there is memory *)
  AllocateMeasureBuffer : Z -> E -> bool * E;
  FreeMeasureBuffer : E -> E;
  (** [gRT->GetVariable] before this driver has replaced it: name, GUID, data
      size, whether there is a buffer; status, size and data *)
  OtherGetVariable : list Z -> list Z -> Z -> bool -> E -> Z * Z * list Z * E;
  (** PCR, event type, the logged and measured bytes *)
  TpmMeasureAndLogData : Z -> Z -> list Z -> E -> Z * E
}.

(** ** State *)

Record TEEC_SharedMemory := { buffer : option (list Z); mem_size : Z }.

Record av (E : Type) := {
  env : E;
  mTeecSessionOpened : bool;
  session_id : Z;
  mVariableParamMem : TEEC_SharedMemory;
  mVariableResultMem : TEEC_SharedMemory;
  (** the services in [gRT] are this driver's *)
  published : bool
}.
Arguments env {E} _.
Arguments mTeecSessionOpened {E} _.
Arguments session_id {E} _.
Arguments mVariableParamMem {E} _.
Arguments mVariableResultMem {E} _.
Arguments published {E} _.
Arguments Build_av {E} _ _ _ _ _ _.

(** What [GetVariable] hands back: the status, the attributes and data size
    when written, and the bytes copied to the caller's buffer. *)
Record get_out := { gStatus : Z; gAttributes : option Z; gDataSize : option Z; gData : list Z }.

Section Driver.
Context {E : Type}.
Implicit Types s : av E.

Definition set_env (e : E) s :=
  Build_av e (mTeecSessionOpened s) (session_id s) (mVariableParamMem s) (mVariableResultMem s) (published s).
Definition set_opened b s :=
  Build_av (env s) b (session_id s) (mVariableParamMem s) (mVariableResultMem s) (published s).
Definition set_session i s :=
  Build_av (env s) (mTeecSessionOpened s) i (mVariableParamMem s) (mVariableResultMem s) (published s).
Definition set_param m s :=
  Build_av (env s) (mTeecSessionOpened s) (session_id s) m (mVariableResultMem s) (published s).
Definition set_result m s :=
  Build_av (env s) (mTeecSessionOpened s) (session_id s) (mVariableParamMem s) m (published s).
Definition set_published s :=
  Build_av (env s) (mTeecSessionOpened s) (session_id s) (mVariableParamMem s) (mVariableResultMem s) true.

Definition service {A} (f : E -> A * E) : M (av E) A :=
  fun s => let '(a, e) := f (env s) in Ret a (set_env e s).

(** Fields of a transport buffer; NULL has none. *)
Definition peek (m : TEEC_SharedMemory) (off n : Z) : M (av E) (list Z) :=
  match buffer m with
  | Some bs => if off + n <=? Z.of_nat (length bs) then mret (take (Z.to_nat n) (drop (Z.to_nat off) bs))
               else stopM Fault
  | None => stopM Fault
  end.

(** A little-endian field. *)
Definition peek_val (m : TEEC_SharedMemory) (off n : Z) : M (av E) Z :=
  bs ← peek m off n; mret (le_val bs).

Definition poke (m : TEEC_SharedMemory) (off : Z) (l : list Z) : option TEEC_SharedMemory :=
  match buffer m with
  | Some bs => if off + Z.of_nat (length l) <=? Z.of_nat (length bs)
               then Some {| buffer := Some (list_inserts (Z.to_nat off) l bs); mem_size := mem_size m |}
               else None
  | None => None
  end.

Definition poke_param (off : Z) (l : list Z) : M (av E) unit :=
  fun s => match poke (mVariableParamMem s) off l with
           | Some m => Ret tt (set_param m s) | None => Stop Fault end.

Definition poke_result (off : Z) (l : list Z) : M (av E) unit :=
  fun s => match poke (mVariableResultMem s) off l with
           | Some m => Ret tt (set_result m s) | None => Stop Fault end.

(** [ZeroMem] over the whole buffers. *)
Definition clear_param : M (av E) unit :=
  m ← gets mVariableParamMem; poke_param 0 (replicate (Z.to_nat (mem_size m)) 0).
Definition clear_result : M (av E) unit :=
  m ← gets mVariableResultMem; poke_result 0 (replicate (Z.to_nat (mem_size m)) 0).

Context {B : Build} {P : AuthVarPlatform} {T : Teec E}.

(** [status_of_teec]: the [switch] over the client API's result. *)
Definition status_of_teec (TeecResult : Z) : Z :=
  if TeecResult =? TEEC_SUCCESS then EFI_SUCCESS
  else if TeecResult =? TEEC_ERROR_ITEM_NOT_FOUND then EFI_NOT_FOUND
  else if TeecResult =? TEEC_ERROR_SHORT_BUFFER then EFI_BUFFER_TOO_SMALL
  else if TeecResult =? TEEC_ERROR_OUT_OF_MEMORY then EFI_OUT_OF_RESOURCES
  else if TeecResult =? TEEC_ERROR_ACCESS_DENIED then EFI_SECURITY_VIOLATION
  else EFI_PROTOCOL_ERROR.

(** [VariableParam] and [VariableResult]: [Some size] for the driver's
    buffer with the size to use, [None] for NULL.  Returns the status, and
    the size and TA status of the third parameter. *)
Definition OpteeRuntimeVariableInvokeCommand (Command : Z) (VariableParam VariableResult : option Z) :
    M (av E) (Z * Z * Z) :=
  let VariableParamSize := default 4 VariableParam in
  let VariableResultSize := default 4 VariableResult in
  p ← gets mVariableParamMem;
  sid ← gets session_id;
  input ← peek p 0 VariableParamSize;
  '(TeecResult, output, a, b) ← service (TEEC_InvokeCommand sid Command input VariableResultSize);
  poke_result 0 output;;
  mret (status_of_teec TeecResult, a, b).

(** The size of a string with its terminator, and its bytes. *)
Definition StrSize (name : list Z) : Z := 2 * (Z.of_nat (length name) + 1).
Definition name_bytes (name : list Z) : list Z := char16_bytes name ++ [0; 0].

(** [VariableName[0]] and [VendorGuid->Data1]. *)
Definition first_char (name : list Z) : Z := match name with [] => 0 | c :: _ => c end.
Definition Data1 (guid : list Z) : Z := le_val (take 4 guid).

Definition no_data (Status : Z) (DataSize : option Z) : get_out :=
  {| gStatus := Status; gAttributes := None; gDataSize := DataSize; gData := [] |}.

(** The exchange with the TA, after the checks. *)
Definition get_exchange (VariableName VendorGuid : list Z) (Attributes : bool) (DataSize : Z)
    (LocalVariableNameSize LocalDataSize VariableParamSize VariableResultSize : Z) : M (av E) get_out :=
  clear_param;;
  clear_result;;
  poke_param 0 (le_bytes 4 sizeof_GET_PARAM);;
  poke_param GET_PARAM_VariableNameSize (le_bytes 2 LocalVariableNameSize);;
  poke_param GET_PARAM_VendorGuid VendorGuid;;
  poke_param GET_PARAM_VariableName (take (Z.to_nat LocalVariableNameSize) (name_bytes VariableName));;
  '(Status, ResultSize, _) ← OpteeRuntimeVariableInvokeCommand VSGetOp (Some VariableParamSize) (Some VariableResultSize);
  r ← gets mVariableResultMem;
  result_size ← peek_val r GET_RESULT_DataSize 4;
  DataSize ← (if Status =? EFI_BUFFER_TOO_SMALL then
                ASSERT (sizeof_GET_RESULT <=? ResultSize);;
                mret (u64 (ResultSize - sizeof_GET_RESULT))
              else mret (if Status =? EFI_SUCCESS then result_size else DataSize));
  attributes ← peek_val r GET_RESULT_Attributes 4;
  let out := fun Status Data => {| gStatus := Status; gAttributes := if Attributes then Some attributes else None;
                                   gDataSize := Some DataSize; gData := Data |} in
  if EFI_ERROR Status then mret (out Status [])
  else if LocalDataSize <? result_size then mret (out EFI_BAD_BUFFER_SIZE [])
  else data ← peek r GET_RESULT_Data result_size; mret (out Status data).

Definition OpteeRuntimeGetVariable (VariableName VendorGuid : option (list Z)) (Attributes : bool)
    (DataSize : option Z) (Data : bool) : M (av E) get_out :=
  runtime ← gets (fun s => EfiAtRuntime (env s));
  if (runtime : bool) then mret (no_data EFI_NOT_FOUND DataSize)
  else match VariableName, VendorGuid, DataSize with
  | Some VariableName, Some VendorGuid, Some DataSize =>
      if negb (DataSize =? 0) && negb Data then mret (no_data EFI_INVALID_PARAMETER (Some DataSize))
      else if (first_char VariableName =? 1) && (Data1 VendorGuid =? 1) && (DataSize =? 8) then
        sid ← gets session_id;
        mret {| gStatus := EFI_SUCCESS; gAttributes := None; gDataSize := Some DataSize; gData := le_bytes 8 sid |}
      else
        opened ← gets mTeecSessionOpened;
        if negb opened then mret (no_data EFI_NOT_READY (Some DataSize))
        else
          p ← gets mVariableParamMem;
          r ← gets mVariableResultMem;
          match buffer p, buffer r with
          | Some _, Some _ =>
              let LocalVariableNameSize := u32 (StrSize VariableName) in
              let LocalDataSize := u32 DataSize in
              if (mem_size p <=? LocalVariableNameSize) || (mem_size r <=? LocalDataSize)
              then mret (no_data EFI_BAD_BUFFER_SIZE (Some DataSize))
              else
                let VariableParamSize := u32 (sizeof_GET_PARAM + LocalVariableNameSize) in
                let VariableResultSize := u32 (sizeof_GET_RESULT + LocalDataSize) in
                if (mem_size p <? VariableParamSize) || (mem_size r <? VariableResultSize)
                then mret (no_data EFI_BAD_BUFFER_SIZE (Some DataSize))
                else get_exchange VariableName VendorGuid Attributes DataSize LocalVariableNameSize LocalDataSize
                       VariableParamSize VariableResultSize
          | _, _ => mret (no_data EFI_OUT_OF_RESOURCES (Some DataSize))
          end
  | _, _, _ => mret (no_data EFI_INVALID_PARAMETER DataSize)
  end.

(** *** [Measurement.c] *)

Definition mVariableType : list (list Z * list Z) :=
  [(EFI_SECURE_BOOT_MODE_NAME, gEfiGlobalVariableGuid);
   (EFI_PLATFORM_KEY_NAME, gEfiGlobalVariableGuid);
   (EFI_KEY_EXCHANGE_KEY_NAME, gEfiGlobalVariableGuid);
   (EFI_IMAGE_SECURITY_DATABASE, gEfiImageSecurityDatabaseGuid);
   (EFI_IMAGE_SECURITY_DATABASE1, gEfiImageSecurityDatabaseGuid)].

Fixpoint policy_search (types : list (list Z * list Z)) (VariableName VendorGuid : list Z) : bool :=
  match types with
  | [] => false
  | (name, guid) :: types =>
      if bool_decide (VariableName = name) && bool_decide (VendorGuid = guid) then true
      else policy_search types VariableName VendorGuid
  end.

Definition IsSecureBootPolicyVariable (VariableName VendorGuid : list Z) : bool :=
  policy_search mVariableType VariableName VendorGuid.

(** [EFI_VARIABLE_DATA_TREE]: GUID, the two lengths, name and data. *)
Definition var_log (VarName VendorGuid VarData : list Z) : list Z :=
  VendorGuid ++ le_bytes 8 (Z.of_nat (length VarName)) ++ le_bytes 8 (Z.of_nat (length VarData)) ++
  char16_bytes VarName ++ VarData.

(** [VarData]: [None] for NULL. *)
Definition MeasureVariable (VarName VendorGuid : list Z) (VarData : option (list Z)) (VarSize : Z) :
    M (av E) Z :=
  ASSERT (((VarSize =? 0) && bool_decide (VarData = None)) ||
          (negb (VarSize =? 0) && bool_decide (is_Some VarData)));;
  let data := default [] VarData in
  let log := var_log VarName VendorGuid data in
  let VarLogSize := u32 (Z.of_nat (length log)) in
  allocated ← service (AllocateMeasureBuffer VarLogSize);
  if negb allocated then mret EFI_OUT_OF_RESOURCES
  else if VarLogSize <? Z.of_nat (length log) then stopM Fault
  else
    Status ← service (TpmMeasureAndLogData 7 EV_EFI_VARIABLE_DRIVER_CONFIG log);
    service (fun e => (tt, FreeMeasureBuffer e));;
    mret Status.

(** [gRT->GetVariable]. *)
Definition rt_GetVariable (Name Guid : list Z) (DataSize : Z) (Data : bool) : M (av E) get_out :=
  pub ← gets published;
  if (pub : bool) then OpteeRuntimeGetVariable (Some Name) (Some Guid) false (Some DataSize) Data
  else
    '(Status, Size, bytes) ← service (OtherGetVariable Name Guid DataSize Data);
    mret {| gStatus := Status; gAttributes := None; gDataSize := Some Size; gData := bytes |}.

(** Status, value and size. *)
Definition InternalGetVariable (Name Guid : list Z) : M (av E) (Z * option (list Z) * Z) :=
  o ← rt_GetVariable Name Guid 0 false;
  if negb (gStatus o =? EFI_BUFFER_TOO_SMALL) then mret (gStatus o, None, 0)
  else
    let BufferSize := default 0 (gDataSize o) in
    allocated ← service (AllocateMeasureBuffer BufferSize);
    ASSERT allocated;;
    if negb allocated then mret (EFI_OUT_OF_RESOURCES, None, 0)
    else
      o ← rt_GetVariable Name Guid BufferSize true;
      let BufferSize := default 0 (gDataSize o) in
      if EFI_ERROR (gStatus o) then
        service (fun e => (tt, FreeMeasureBuffer e));; mret (gStatus o, None, BufferSize)
      else mret (gStatus o, Some (gData o), BufferSize).

Definition SecureBootHook (VariableName VendorGuid : list Z) : M (av E) unit :=
  Status ← service LocateVariableArch;
  if EFI_ERROR Status then mret tt
  else if negb (IsSecureBootPolicyVariable VariableName VendorGuid) then mret tt
  else
    '(Status, VariableData, VariableDataSize) ← InternalGetVariable VariableName VendorGuid;
    let '(VariableData, VariableDataSize) :=
      if EFI_ERROR Status then (None, 0) else (VariableData, VariableDataSize) in
    MeasureVariable VariableName VendorGuid VariableData VariableDataSize;;
    if bool_decide (is_Some VariableData) then service (fun e => (tt, FreeMeasureBuffer e)) else mret tt.

(** *** The other services *)

Definition set_exchange (VariableName VendorGuid : list Z) (Attributes : Z) (Data : list Z)
    (VariableNameSize DataSize VariableParamSize : Z) : M (av E) Z :=
  clear_param;;
  clear_result;;
  poke_param 0 (le_bytes 4 sizeof_SET_PARAM);;
  poke_param SET_PARAM_VariableNameSize (le_bytes 2 VariableNameSize);;
  poke_param SET_PARAM_Attributes (le_bytes 4 Attributes);;
  poke_param SET_PARAM_DataSize (le_bytes 4 DataSize);;
  poke_param SET_PARAM_OffsetVariableName (le_bytes 4 0);;
  poke_param SET_PARAM_OffsetData (le_bytes 4 VariableNameSize);;
  poke_param SET_PARAM_VendorGuid VendorGuid;;
  poke_param SET_PARAM_Payload (name_bytes VariableName);;
  poke_param (SET_PARAM_Payload + VariableNameSize) Data;;
  '(Status, _, _) ← OpteeRuntimeVariableInvokeCommand VSSetOp (Some (u32 VariableParamSize)) None;
  mret Status.

(** [Data]: [None] for NULL, else [DataSize] bytes. *)
Definition OpteeRuntimeSetVariable (VariableName VendorGuid : option (list Z)) (Attributes DataSize : Z)
    (Data : option (list Z)) : M (av E) Z :=
  (* [inl]: return; [inr]: goto Exit, where the hook runs on success *)
  r ← (runtime ← gets (fun s => EfiAtRuntime (env s));
       if (runtime : bool) then mret (inr EFI_UNSUPPORTED)
       else match VariableName, VendorGuid with
       | Some VariableName, Some VendorGuid =>
           if first_char VariableName =? 0 then mret (inr EFI_INVALID_PARAMETER)
           else if negb (DataSize =? 0) && bool_decide (Data = None) then mret (inr EFI_INVALID_PARAMETER)
           else
             opened ← gets mTeecSessionOpened;
             if negb opened then mret (inr EFI_NOT_READY)
             else if (first_char VariableName =? 1) && (Data1 VendorGuid =? 1) && (DataSize =? 8) then
               modify (set_session (le_val (take 8 (default [] Data))));;
               mret (inl EFI_SUCCESS)
             else
               p ← gets mVariableParamMem;
               let VariableNameSize := StrSize VariableName in
               if (mem_size p <=? VariableNameSize) || (mem_size p <=? DataSize)
               then mret (inr EFI_BAD_BUFFER_SIZE)
               else
                 let VariableParamSize := u64 (sizeof_SET_PARAM + VariableNameSize + DataSize) in
                 if mem_size p <? VariableParamSize then mret (inr EFI_BAD_BUFFER_SIZE)
                 else
                   Status ← set_exchange VariableName VendorGuid Attributes (default [] Data)
                              VariableNameSize DataSize VariableParamSize;
                   mret (inr Status)
       | _, _ => mret (inr EFI_INVALID_PARAMETER)
       end);
  match r with
  | inl Status => mret Status
  | inr Status =>
      (if negb (EFI_ERROR Status) then
         match VariableName, VendorGuid with
         | Some VariableName, Some VendorGuid => SecureBootHook VariableName VendorGuid
         | _, _ => stopM Fault
         end
       else mret tt);;
      mret Status
  end.

(** The name and GUID of the next variable: the status, and the updated
    size, name bytes and GUID. *)
Record next_out := { nStatus : Z; nSize : option Z; nName : option (list Z); nGuid : option (list Z) }.

Definition OpteeRuntimeGetNextVariableName (VariableNameSize : option Z) (VariableName VendorGuid : option (list Z)) :
    M (av E) next_out :=
  let fail Status := {| nStatus := Status; nSize := VariableNameSize; nName := None; nGuid := None |} in
  runtime ← gets (fun s => EfiAtRuntime (env s));
  if (runtime : bool) then mret (fail EFI_UNSUPPORTED)
  else match VariableNameSize, VariableName, VendorGuid with
  | Some VariableNameSize, Some VariableName, Some VendorGuid =>
      opened ← gets mTeecSessionOpened;
      if negb opened then mret (fail EFI_NOT_READY)
      else
        p ← gets mVariableParamMem;
        r ← gets mVariableResultMem;
        match buffer p, buffer r with
        | Some _, Some _ =>
            let LocalInVariableNameSize := if first_char VariableName =? 0 then 0 else u32 (StrSize VariableName) in
            let LocalOutVariableNameSize := u32 VariableNameSize in
            if (mem_size p <=? LocalInVariableNameSize) || (mem_size r <=? LocalOutVariableNameSize)
            then mret (fail EFI_BAD_BUFFER_SIZE)
            else
              let VariableParamSize := u32 (sizeof_GET_PARAM + LocalInVariableNameSize) in
              let VariableResultSize := u32 (sizeof_GET_PARAM + LocalOutVariableNameSize) in
              if (mem_size p <? VariableParamSize) || (mem_size r <? VariableResultSize)
              then mret (fail EFI_BAD_BUFFER_SIZE)
              else
                clear_param;;
                clear_result;;
                poke_param 0 (le_bytes 4 sizeof_GET_PARAM);;
                poke_param GET_PARAM_VariableNameSize (le_bytes 2 LocalInVariableNameSize);;
                poke_param GET_PARAM_VendorGuid VendorGuid;;
                poke_param GET_PARAM_VariableName (take (Z.to_nat LocalInVariableNameSize) (name_bytes VariableName));;
                '(Status, ResultSize, _) ← OpteeRuntimeVariableInvokeCommand VSGetNextVarOp
                    (Some VariableParamSize) (Some VariableResultSize);
                r ← gets mVariableResultMem;
                result_size ← peek_val r GET_PARAM_VariableNameSize 2;
                Size ← (if Status =? EFI_BUFFER_TOO_SMALL then
                          ASSERT (sizeof_GET_PARAM <=? ResultSize);;
                          mret (u64 (ResultSize - sizeof_GET_PARAM))
                        else mret (if Status =? EFI_SUCCESS then result_size else VariableNameSize));
                let out Status := {| nStatus := Status; nSize := Some Size; nName := None; nGuid := None |} in
                if EFI_ERROR Status then mret (out Status)
                else if LocalOutVariableNameSize <? result_size then mret (out EFI_BAD_BUFFER_SIZE)
                else
                  guid ← peek r GET_PARAM_VendorGuid 16;
                  name ← peek r GET_PARAM_VariableName result_size;
                  mret {| nStatus := Status; nSize := Some Size; nName := Some name; nGuid := Some guid |}
        | _, _ => mret (fail EFI_OUT_OF_RESOURCES)
        end
  | _, _, _ => mret (fail EFI_INVALID_PARAMETER)
  end.

(** [outs]: all three output pointers are given; the result has their
    values on success. *)
Definition OpteeRuntimeQueryVariableInfo (Attributes : Z) (outs : bool) : M (av E) (Z * option (Z * Z * Z)) :=
  runtime ← gets (fun s => EfiAtRuntime (env s));
  if (runtime : bool) then mret (EFI_UNSUPPORTED, None)
  else if negb outs || (Attributes =? 0) then mret (EFI_INVALID_PARAMETER, None)
  else
    opened ← gets mTeecSessionOpened;
    if negb opened then mret (EFI_NOT_READY, None)
    else
      p ← gets mVariableParamMem;
      r ← gets mVariableResultMem;
      match buffer p, buffer r with
      | Some _, Some _ =>
          if (mem_size p <? sizeof_QUERY_PARAM) || (mem_size r <? sizeof_QUERY_RESULT)
          then mret (EFI_BAD_BUFFER_SIZE, None)
          else
            clear_param;;
            clear_result;;
            poke_param 0 (le_bytes 4 sizeof_QUERY_PARAM);;
            poke_param QUERY_PARAM_Attributes (le_bytes 4 Attributes);;
            '(Status, _, _) ← OpteeRuntimeVariableInvokeCommand VSQueryInfoOp
                (Some sizeof_QUERY_PARAM) (Some sizeof_QUERY_RESULT);
            if EFI_ERROR Status then mret (Status, None)
            else
              r ← gets mVariableResultMem;
              maximum ← peek_val r 8 8;
              remaining ← peek_val r 16 8;
              largest ← peek_val r 24 8;
              mret (Status, Some (maximum, remaining, largest))
      | _, _ => mret (EFI_OUT_OF_RESOURCES, None)
      end.

(** *** Start and end *)

(** The GUID with its first three fields in big-endian order. *)
Definition swap_uuid (guid : list Z) : list Z :=
  rev (take 4 guid) ++ rev (take 2 (drop 4 guid)) ++ rev (take 2 (drop 6 guid)) ++ drop 8 guid.

Definition TaOpenSession : M (av E) Z :=
  '(TeecResult, sid) ← service (TEEC_OpenSession (swap_uuid gOpteeAuthVarTaGuid));
  modify (set_session sid);;
  if negb (TeecResult =? TEEC_SUCCESS) then mret EFI_PROTOCOL_ERROR
  else
    modify (set_opened true);;
    let size := Z.max PcdMaxVariableSize PcdMaxHardwareErrorVariableSize + sizeof_VARIABLE_PARAM in
    '(TeecResult, bytes) ← service (TEEC_AllocateSharedMemory size);
    modify (set_param {| buffer := if TeecResult =? TEEC_SUCCESS then Some bytes else None; mem_size := size |});;
    if negb (TeecResult =? TEEC_SUCCESS) then mret EFI_OUT_OF_RESOURCES
    else
      '(TeecResult, bytes) ← service (TEEC_AllocateSharedMemory size);
      modify (set_result {| buffer := if TeecResult =? TEEC_SUCCESS then Some bytes else None; mem_size := size |});;
      if negb (TeecResult =? TEEC_SUCCESS) then mret EFI_OUT_OF_RESOURCES
      else mret EFI_SUCCESS.

(** A one-byte variable. *)
Definition set_byte (Name Guid : list Z) (Attributes Value : Z) : M (av E) Z :=
  OpteeRuntimeSetVariable (Some Name) (Some Guid) Attributes 1 (Some [Value]).

Definition InitSecureBootVariables : M (av E) Z :=
  o ← OpteeRuntimeGetVariable (Some EFI_PLATFORM_KEY_NAME) (Some gEfiGlobalVariableGuid) false (Some 1) true;
  let PkPresent := gStatus o =? EFI_BUFFER_TOO_SMALL in
  let SetupMode := if PkPresent then USER_MODE else SETUP_MODE in
  Status ← set_byte EFI_SETUP_MODE_NAME gEfiGlobalVariableGuid
             (Z.lor EFI_VARIABLE_BOOTSERVICE_ACCESS EFI_VARIABLE_RUNTIME_ACCESS) SetupMode;
  if EFI_ERROR Status then mret Status
  else
    o ← OpteeRuntimeGetVariable (Some EFI_SECURE_BOOT_ENABLE_NAME) (Some gEfiSecureBootEnableDisableGuid)
          false (Some 1) true;
    (* [inl]: goto Exit; [inr]: the value of SecureBootEnable *)
    r ← (if negb (EFI_ERROR (gStatus o)) then
           mret (inr (if SetupMode =? USER_MODE then le_val (gData o) else SECURE_BOOT_DISABLE))
         else if SetupMode =? USER_MODE then
           let SecureBootEnable := if PcdSecureBootEnable then SECURE_BOOT_ENABLE else SECURE_BOOT_DISABLE in
           Status ← set_byte EFI_SECURE_BOOT_ENABLE_NAME gEfiSecureBootEnableDisableGuid
                      (Z.lor EFI_VARIABLE_NON_VOLATILE EFI_VARIABLE_BOOTSERVICE_ACCESS) SecureBootEnable;
           mret (if EFI_ERROR Status then inl Status else inr SecureBootEnable)
         else mret (inr SECURE_BOOT_DISABLE));
    match r with
    | inl Status => mret Status
    | inr SecureBootEnable =>
        let SecureBootMode :=
          if (SecureBootEnable =? SECURE_BOOT_ENABLE) && (SetupMode =? USER_MODE)
          then SECURE_BOOT_MODE_ENABLE else SECURE_BOOT_MODE_DISABLE in
        Status ← set_byte EFI_SECURE_BOOT_MODE_NAME gEfiGlobalVariableGuid
                   (Z.lor EFI_VARIABLE_RUNTIME_ACCESS EFI_VARIABLE_BOOTSERVICE_ACCESS) SecureBootMode;
        if EFI_ERROR Status then mret Status
        else set_byte EFI_CUSTOM_MODE_NAME gEfiCustomModeEnableGuid
               (Z.lor EFI_VARIABLE_NON_VOLATILE EFI_VARIABLE_BOOTSERVICE_ACCESS) STANDARD_SECURE_BOOT_MODE
    end.

Definition OpteeRuntimeOnExitBootServices : M (av E) unit :=
  '(Status, _, _) ← OpteeRuntimeVariableInvokeCommand VSSignalExitBootServicesOp None None;
  (if negb (Status =? EFI_SUCCESS) then service (fun e => (tt, ResetSystem e)) else mret tt);;
  opened ← gets mTeecSessionOpened;
  (if (opened : bool) then
     sid ← gets session_id;
     service (fun e => (tt, TEEC_CloseSession sid e));;
     modify (set_opened false)
   else mret tt);;
  service (fun e => (tt, TEEC_FinalizeContext e));;
  service (fun e => (tt, TEEC_ReleaseSharedMemory e));;
  modify (fun s => set_param {| buffer := None; mem_size := mem_size (mVariableParamMem s) |} s);;
  service (fun e => (tt, TEEC_ReleaseSharedMemory e));;
  modify (fun s => set_result {| buffer := None; mem_size := mem_size (mVariableResultMem s) |} s);;
  service (fun e => (tt, OpteeClientApiFinalize e)).

Definition VariableAuthOpteeRuntimeInitialize : M (av E) Z :=
  Status ← service OpteeClientApiInitialize;
  if EFI_ERROR Status then mret Status
  else
    TeecResult ← service TEEC_InitializeContext;
    (* goto Exit with the status of the library's initialisation *)
    if negb (TeecResult =? TEEC_SUCCESS) then mret Status
    else
      Status ← TaOpenSession;
      if EFI_ERROR Status then mret Status
      else
        Status ← InitSecureBootVariables;
        if EFI_ERROR Status then mret Status
        else
          modify set_published;;
          Status ← service InstallVariableArch;
          if EFI_ERROR Status then mret Status
          else
            Status ← service InstallVariableWriteArch;
            if EFI_ERROR Status then mret Status
            else service CreateExitBootServicesEvent.
End Driver.
