(* ===== verification/AuthVarSpec.v ===== *)
(** * The variable service and its trusted application

    The transport requests as byte strings, the contract of the trusted
    application (what it makes of a well-formed request), and the effect of
    each service under that contract. *)

From Stdlib Require Import ZArith Lia.
From stdpp Require Import base list numbers option gmap.
From S2P Require Import Prelude Memory AuthVar.

(** ** Requests and results on the wire *)

Definition get_request (op_size : Z) (name guid : list Z) : list Z :=
  le_bytes 4 op_size ++ le_bytes 2 (StrSize name) ++ [0; 0] ++ guid ++ name_bytes name ++ [0; 0; 0; 0].

Definition set_request (name guid : list Z) (attrs : Z) (data : list Z) : list Z :=
  le_bytes 4 sizeof_SET_PARAM ++ le_bytes 2 (StrSize name) ++ [0; 0] ++ guid ++ le_bytes 4 attrs ++
  le_bytes 4 (Z.of_nat (length data)) ++ le_bytes 4 0 ++ le_bytes 4 (StrSize name) ++
  name_bytes name ++ data ++ [0; 0; 0; 0].

(** A CHAR16 string whose size fits its field of the request. *)
Definition name_ok (name : list Z) : Prop := Forall (fun c => 0 < c < 2 ^ 16) name /\ StrSize name < 2 ^ 16.

(** [sz] is the size field, [pad] what may follow the data. *)
Definition get_result (sz : list Z) (attrs : Z) (data pad : list Z) : list Z :=
  sz ++ le_bytes 4 attrs ++ le_bytes 4 (Z.of_nat (length data)) ++ data ++ pad.

Lemma length_name_bytes name : Z.of_nat (length (name_bytes name)) = StrSize name.
Proof. unfold name_bytes, StrSize. rewrite length_app, length_char16_bytes. simpl. lia. Qed.

(** Writing into cleared memory, [k] bytes past the written part. *)
Lemma inserts_zeros a k b m : (k + length b <= m)%nat ->
  list_inserts (length a + k) b (a ++ replicate m (0 : Z)) =
  a ++ replicate k 0 ++ b ++ replicate (m - k - length b) 0.
Proof.
  intros H. replace m with (k + (length b + (m - k - length b)))%nat at 1 by lia.
  rewrite !replicate_add. rewrite (app_assoc a). rewrite (app_assoc a).
  replace (length a + k)%nat with (length (a ++ replicate k (0 : Z))) by (rewrite length_app, length_replicate; done).
  apply inserts_mid. by rewrite length_replicate.
Qed.

(** ** The transport buffers *)

Section Transport.
Context {E : Type}.
Implicit Types s : av E.

(** A state with the given environment and buffer contents. *)
Definition st s (e : E) (pb rb : list Z) : av E :=
  Build_av e (mTeecSessionOpened s) (session_id s)
    {| buffer := Some pb; mem_size := mem_size (mVariableParamMem s) |}
    {| buffer := Some rb; mem_size := mem_size (mVariableResultMem s) |} (published s).

(** Both buffers have their nominal size. *)
Definition transport s (n : nat) (pb rb : list Z) : Prop :=
  s = st s (env s) pb rb /\ length pb = n /\ length rb = n /\
  mem_size (mVariableParamMem s) = Z.of_nat n /\ mem_size (mVariableResultMem s) = Z.of_nat n.

Lemma service_st {A} (f : E -> A * E) s e pb rb a e' : f e = (a, e') ->
  service f (st s e pb rb) = Ret a (st s e' pb rb).
Proof. intros H. unfold service. cbn [env st]. by rewrite H. Qed.

Lemma poke_param_st s e pb rb off l : Z.of_nat off + Z.of_nat (length l) <= Z.of_nat (length pb) ->
  poke_param (Z.of_nat off) l (st s e pb rb) = Ret tt (st s e (list_inserts off l pb) rb).
Proof.
  intros H. unfold poke_param, poke. cbn [st mVariableParamMem buffer].
  rewrite (proj2 (Z.leb_le _ _) H), Nat2Z.id. done.
Qed.

Lemma poke_result_st s e pb rb off l : Z.of_nat off + Z.of_nat (length l) <= Z.of_nat (length rb) ->
  poke_result (Z.of_nat off) l (st s e pb rb) = Ret tt (st s e pb (list_inserts off l rb)).
Proof.
  intros H. unfold poke_result, poke. cbn [st mVariableResultMem buffer].
  rewrite (proj2 (Z.leb_le _ _) H), Nat2Z.id. done.
Qed.

Lemma peek_st (m : TEEC_SharedMemory) bs off n s : buffer m = Some bs ->
  Z.of_nat off + Z.of_nat n <= Z.of_nat (length bs) ->
  peek m (Z.of_nat off) (Z.of_nat n) s = Ret (take n (drop off bs)) s.
Proof. intros Hb H. unfold peek. by rewrite Hb, (proj2 (Z.leb_le _ _) H), !Nat2Z.id. Qed.

Lemma overwrite_all (l bs : list Z) : length bs = length l -> list_inserts 0 l bs = l.
Proof.
  intros H. pose proof (inserts_mid bs l [] [] ltac:(lia)) as I. rewrite !app_nil_r in I. exact I.
Qed.

Lemma clear_st s e pb rb n : transport s n pb rb -> forall pb' rb', length pb' = n -> length rb' = n ->
  clear_param (st s e pb' rb') = Ret tt (st s e (replicate n 0) rb') /\
  clear_result (st s e pb' rb') = Ret tt (st s e pb' (replicate n 0)).
Proof.
  intros (_ & _ & _ & Hp & Hr) pb' rb' Hl1 Hl2. unfold clear_param, clear_result. rewrite !bind_gets.
  cbn [st mVariableParamMem mVariableResultMem mem_size]. rewrite Hp, Hr, Nat2Z.id.
  split.
  - etransitivity; [apply (poke_param_st s e pb' rb' 0); rewrite length_replicate; lia|].
    by rewrite overwrite_all by (rewrite length_replicate; lia).
  - etransitivity; [apply (poke_result_st s e pb' rb' 0); rewrite length_replicate; lia|].
    by rewrite overwrite_all by (rewrite length_replicate; lia).
Qed.

(** A write at the end of the written part [a], [k] bytes on. *)
Lemma poke_next s e rb a m off k l : off = Z.of_nat (length a + k) -> (k + length l <= m)%nat ->
  poke_param off l (st s e (a ++ replicate m 0) rb) =
  Ret tt (st s e ((a ++ replicate k 0 ++ l) ++ replicate (m - k - length l) 0) rb).
Proof.
  intros -> H. rewrite poke_param_st by (rewrite length_app, length_replicate; lia).
  rewrite inserts_zeros by done. by rewrite <- !app_assoc.
Qed.

Ltac lengths :=
  rewrite ?length_app, ?length_replicate, ?length_le_bytes;
  repeat match goal with H : length ?l = ?k |- context [length ?l] => rewrite H end;
  cbn [length].
Ltac poke k :=
  erewrite bind_Ret; [|apply (poke_next _ _ _ _ _ _ k); [lengths; (reflexivity || lia) | lengths; lia]].

(** The parameter block of the two get operations. *)
Lemma fill_get {A} (k : M (av E) A) s e rb n size nsz guid nm :
  length guid = 16%nat -> (24 + length nm <= n)%nat ->
  (poke_param 0 (le_bytes 4 size);;
   poke_param GET_PARAM_VariableNameSize (le_bytes 2 nsz);;
   poke_param GET_PARAM_VendorGuid guid;;
   poke_param GET_PARAM_VariableName nm;; k) (st s e (replicate n 0) rb) =
  k (st s e ((le_bytes 4 size ++ le_bytes 2 nsz ++ [0; 0] ++ guid ++ nm) ++ replicate (n - 24 - length nm) 0) rb).
Proof.
  intros Hg Hn. change (replicate n 0) with ([] ++ replicate n (0 : Z)).
  poke 0%nat. poke 0%nat. poke 2%nat. poke 0%nat.
  lengths. rewrite <- !app_assoc.
  replace (n - 0 - 4 - 0 - 2 - 2 - 16 - 0 - length nm)%nat with (n - 24 - length nm)%nat by lia. done.
Qed.

(** The parameter block of the set operation. *)
Lemma fill_set {A} (k : M (av E) A) s e rb n attrs dsz nsz guid nm data :
  length guid = 16%nat -> nsz = Z.of_nat (length nm) -> (40 + length nm + length data <= n)%nat ->
  (poke_param 0 (le_bytes 4 sizeof_SET_PARAM);;
   poke_param SET_PARAM_VariableNameSize (le_bytes 2 nsz);;
   poke_param SET_PARAM_Attributes (le_bytes 4 attrs);;
   poke_param SET_PARAM_DataSize (le_bytes 4 dsz);;
   poke_param SET_PARAM_OffsetVariableName (le_bytes 4 0);;
   poke_param SET_PARAM_OffsetData (le_bytes 4 nsz);;
   poke_param SET_PARAM_VendorGuid guid;;
   poke_param SET_PARAM_Payload nm;;
   poke_param (SET_PARAM_Payload + nsz) data;; k) (st s e (replicate n 0) rb) =
  k (st s e ((le_bytes 4 sizeof_SET_PARAM ++ le_bytes 2 nsz ++ [0; 0] ++ guid ++ le_bytes 4 attrs ++
              le_bytes 4 dsz ++ le_bytes 4 0 ++ le_bytes 4 nsz ++ nm ++ data) ++
             replicate (n - 40 - length nm - length data) 0) rb).
Proof.
  intros Hg Hnsz Hn. change (replicate n 0) with ([] ++ replicate n (0 : Z)).
  poke 0%nat. poke 0%nat. poke 18%nat. poke 0%nat. poke 0%nat. poke 0%nat. lengths.
  erewrite bind_Ret.
  2: { replace SET_PARAM_VendorGuid with (Z.of_nat 8) by done.
       apply poke_param_st. lengths. lia. }
  match goal with |- context [list_inserts 8 guid ?l] => set (bs := l) end.
  assert (Hbs : list_inserts 8 guid bs =
    (le_bytes 4 sizeof_SET_PARAM ++ le_bytes 2 nsz ++ [0; 0] ++ guid ++ le_bytes 4 attrs ++ le_bytes 4 dsz ++
     le_bytes 4 0 ++ le_bytes 4 nsz) ++ replicate (n - 40) 0).
  { replace bs with ((le_bytes 4 sizeof_SET_PARAM ++ le_bytes 2 nsz ++ [0; 0]) ++ replicate 16 0 ++
      (le_bytes 4 attrs ++ le_bytes 4 dsz ++ le_bytes 4 0 ++ le_bytes 4 nsz ++ replicate (n - 40) 0)).
    - change 8%nat with (length (le_bytes 4 sizeof_SET_PARAM ++ le_bytes 2 nsz ++ [0; 0])).
      rewrite inserts_mid by (by rewrite length_replicate). by rewrite <- !app_assoc.
    - unfold bs. rewrite <- !app_assoc.
      replace (n - 0 - 4 - 0 - 2 - 18 - 4 - 0 - 4 - 0 - 4 - 0 - 4)%nat with (n - 40)%nat by lia. done. }
  rewrite Hbs. poke 0%nat.
  replace (SET_PARAM_Payload + nsz) with (Z.of_nat (40 + length nm)) by (unfold SET_PARAM_Payload; lia).
  poke 0%nat. lengths. rewrite <- !app_assoc.
  replace (n - 40 - 0 - length nm - 0 - length data)%nat with (n - 40 - length nm - length data)%nat by lia. done.
Qed.
End Transport.

(** ** The contract of the trusted application *)

(** The stored variables by name and GUID, the sessions that are open, the
    TPM's event log (PCR, event type and data), and whether the variable
    architectural protocol is installed. *)
Class TaView (E : Type) := {
  vars : E -> gmap (list Z * list Z) (Z * list Z);
  live : E -> Z -> Prop;
  tpm : E -> list (Z * Z * list Z);
  arch : E -> bool
}.

(** Attributes of a variable that is neither authenticated nor appended to,
    and is visible to boot services. *)
Definition plain (attrs : Z) : Prop :=
  in_word 32 attrs /\ Z.land attrs 0x70 = 0 /\ Z.land attrs EFI_VARIABLE_BOOTSERVICE_ACCESS <> 0.

(** Sessions stay open and no protocol appears or disappears. *)
Definition keeps {E} `{TaView E} (e e' : E) : Prop :=
  (forall sid, live e sid -> live e' sid) /\ arch e' = arch e.

Definition same {E} `{TaView E} (e e' : E) : Prop :=
  keeps e e' /\ vars e' = vars e /\ tpm e' = tpm e.

Class TaLaws (E : Type) `{Teec E, TaView E} : Prop := {
  live_boot e sid : live e sid -> EfiAtRuntime e = false;
  (** Stored variables have 32-bit attributes, and some data of a size the
      wire format can state. *)
  ta_stored e k attrs data : vars e !! k = Some (attrs, data) ->
    in_word 32 attrs /\ data <> [] /\ sizeof_GET_RESULT + Z.of_nat (length data) < 2 ^ 32;
  (** The GlobalPlatform API bounds the output by the buffer's size. *)
  ta_output sid op input cap e res out a b e' : 0 <= cap ->
    TEEC_InvokeCommand sid op input cap e = (res, out, a, b, e') -> Z.of_nat (length out) <= cap;
  ta_get sid name guid cap e res out a b e' :
    live e sid -> length guid = 16%nat -> name_ok name ->
    TEEC_InvokeCommand sid VSGetOp (get_request sizeof_GET_PARAM name guid) cap e = (res, out, a, b, e') ->
    same e e' /\
    match vars e !! (name, guid) with
    | None => res = TEEC_ERROR_ITEM_NOT_FOUND
    | Some (attrs, data) =>
        if sizeof_GET_RESULT + Z.of_nat (length data) <=? cap
        then res = TEEC_SUCCESS /\ exists sz pad, length sz = 4%nat /\ out = get_result sz attrs data pad
        else res = TEEC_ERROR_SHORT_BUFFER /\ a = sizeof_GET_RESULT + Z.of_nat (length data)
    end;
  (** A set of a plain variable stores it, one without data deletes it; what
      else the TA stores is its own affair. *)
  ta_set sid name guid attrs data cap e res out a b e' :
    live e sid -> length guid = 16%nat -> name_ok name -> in_word 32 attrs ->
    Z.of_nat (length data) < 2 ^ 32 ->
    TEEC_InvokeCommand sid VSSetOp (set_request name guid attrs data) cap e = (res, out, a, b, e') ->
    keeps e e' /\ tpm e' = tpm e /\
    (forall k, k <> (name, guid) -> vars e' !! k = vars e !! k) /\
    (res <> TEEC_SUCCESS -> vars e' = vars e) /\
    (res = TEEC_SUCCESS -> plain attrs ->
     vars e' !! (name, guid) = if bool_decide (data = []) then None else Some (attrs, data));
  arch_found e : EFI_ERROR (LocateVariableArch e).1 = negb (arch e);
  arch_same e : same e (LocateVariableArch e).2;
  alloc_same n e : same e (AllocateMeasureBuffer n e).2;
  free_same e : same e (FreeMeasureBuffer e);
  tpm_logged pcr ev log e :
    let r := TpmMeasureAndLogData pcr ev log e in
    keeps e r.2 /\ vars r.2 = vars e /\ tpm r.2 = tpm e ++ (if EFI_ERROR r.1 then [] else [(pcr, ev, log)])
}.

#[export] Instance keeps_preorder {E} `{TaView E} : PreOrder keeps.
Proof.
  split; [done|]. intros e1 e2 e3 [H1 H2] [H3 H4]. split; [by auto | congruence].
Qed.

#[export] Instance same_preorder {E} `{TaView E} : PreOrder same.
Proof.
  split; [done|]. intros e1 e2 e3 (H1 & H2 & H3) (H4 & H5 & H6). split; [by etransitivity|].
  split; congruence.
Qed.

(** ** The exchanges *)

Lemma slice {A} (a b c : list A) : take (length b) (drop (length a) (a ++ b ++ c)) = b.
Proof. by rewrite drop_app_length, take_app_length. Qed.

Section Exchange.
Context {E : Type} {B : Build} {P : AuthVarPlatform} {T : Teec E} {V : TaView E} {L : TaLaws E}.
Implicit Types s : av E.

Lemma peek_val_st (m : TEEC_SharedMemory) bs off n s : buffer m = Some bs ->
  Z.of_nat off + Z.of_nat n <= Z.of_nat (length bs) ->
  peek_val m (Z.of_nat off) (Z.of_nat n) s = Ret (le_val (take n (drop off bs))) s.
Proof. intros Hb H. unfold peek_val. by rewrite (bind_Ret _ _ _ _ _ (peek_st m bs off n s Hb H)). Qed.

Lemma invoke_st s e pb rb op (psz : nat) (r : option Z) res out a b e' :
  (psz <= length pb)%nat -> 0 <= default 4 r <= Z.of_nat (length rb) ->
  TEEC_InvokeCommand (session_id s) op (take psz pb) (default 4 r) e = (res, out, a, b, e') ->
  OpteeRuntimeVariableInvokeCommand op (Some (Z.of_nat psz)) r (st s e pb rb) =
  Ret (status_of_teec res, a, b) (st s e' pb (out ++ drop (length out) rb)).
Proof.
  intros Hp Hr Hi. unfold OpteeRuntimeVariableInvokeCommand. rewrite !bind_gets. cbn [default st mVariableParamMem session_id].
  pose proof (ta_output _ _ _ _ _ _ _ _ _ _ (proj1 Hr) Hi) as Ho.
  erewrite bind_Ret; [|apply (peek_st _ pb 0 psz); [done | lia]]. rewrite drop_0.
  rewrite (bind_Ret _ _ _ _ _ (service_st _ s e pb rb (res, out, a, b) e' Hi)).
  erewrite bind_Ret; [|apply (poke_result_st s e' pb rb 0 out); lia].
  rewrite <- (take_drop (length out) rb) at 1.
  pose proof (inserts_mid (take (length out) rb) out [] (drop (length out) rb)) as I. simpl in I.
  rewrite I by (rewrite length_take; lia). done.
Qed.

(** What [GetVariable] answers for the stored value [v]. *)
Definition get_answer (v : option (Z * list Z)) (Attributes : bool) (DataSize : Z) (out : get_out) : Prop :=
  match v with
  | None => gStatus out = EFI_NOT_FOUND /\ gDataSize out = Some DataSize /\ gData out = []
  | Some (attrs, data) =>
      if Z.of_nat (length data) <=? DataSize
      then out = {| gStatus := EFI_SUCCESS; gAttributes := if Attributes then Some attrs else None;
                    gDataSize := Some (Z.of_nat (length data)); gData := data |}
      else gStatus out = EFI_BUFFER_TOO_SMALL /\ gDataSize out = Some (Z.of_nat (length data)) /\ gData out = []
  end.

Lemma result_fields sz attrs data pad rest : length sz = 4%nat -> in_word 32 attrs -> Z.of_nat (length data) < 2 ^ 32 ->
  le_val (take 4 (drop 4 (get_result sz attrs data pad ++ rest))) = attrs /\
  le_val (take 4 (drop 8 (get_result sz attrs data pad ++ rest))) = Z.of_nat (length data) /\
  take (length data) (drop 12 (get_result sz attrs data pad ++ rest)) = data.
Proof.
  intros Hsz Ha Hd. unfold get_result.
  assert (H4 : forall z, in_word 32 z -> le_val (le_bytes 4 z) = z).
  { intros z Hz. rewrite le_val_le_bytes. by apply Z.mod_small. }
  split; [|split].
  - rewrite <- (H4 attrs Ha) at 2. f_equal.
    pose proof (slice sz (le_bytes 4 attrs) (le_bytes 4 (Z.of_nat (length data)) ++ data ++ pad ++ rest)) as S.
    rewrite Hsz, length_le_bytes in S. rewrite <- !app_assoc. exact S.
  - rewrite <- (H4 (Z.of_nat (length data))) at 2 by (unfold in_word; lia). f_equal.
    pose proof (slice (sz ++ le_bytes 4 attrs) (le_bytes 4 (Z.of_nat (length data))) (data ++ pad ++ rest)) as S.
    rewrite length_app, Hsz, !length_le_bytes, <- !app_assoc in S. rewrite <- !app_assoc. exact S.
  - pose proof (slice (sz ++ le_bytes 4 attrs ++ le_bytes 4 (Z.of_nat (length data))) data (pad ++ rest)) as S.
    rewrite !length_app, Hsz, !length_le_bytes, <- !app_assoc in S. rewrite <- !app_assoc. exact S.
Qed.

(** The parameter block sent to the TA. *)
Lemma sent_get n size name guid : length guid = 16%nat -> 28 + StrSize name <= Z.of_nat n ->
  take (Z.to_nat (28 + StrSize name))
    ((le_bytes 4 size ++ le_bytes 2 (StrSize name) ++ [0; 0] ++ guid ++ name_bytes name) ++
     replicate (n - 24 - length (name_bytes name)) 0) = get_request size name guid.
Proof.
  intros Hg Hn. pose proof (length_name_bytes name) as Hl.
  replace (n - 24 - length (name_bytes name))%nat with (4 + (n - 28 - length (name_bytes name)))%nat by lia.
  rewrite replicate_add, app_assoc. rewrite take_app_length'.
  - unfold get_request. by rewrite <- !app_assoc.
  - rewrite !length_app, !length_le_bytes, Hg, length_replicate. cbn [length]. lia.
Qed.

Lemma get_exchange_spec s n pb rb name guid Attributes DataSize : transport s n pb rb ->
  live (env s) (session_id s) -> length guid = 16%nat -> name_ok name ->
  28 + StrSize name <= Z.of_nat n -> 0 <= DataSize -> 16 + DataSize <= Z.of_nat n -> Z.of_nat n < 2 ^ 32 ->
  exists out e pb' rb',
    get_exchange name guid Attributes DataSize (StrSize name) DataSize (28 + StrSize name) (16 + DataSize) s =
      Ret out (st s e pb' rb') /\
    length pb' = n /\ length rb' = n /\ same (env s) e /\
    get_answer (vars (env s) !! (name, guid)) Attributes DataSize out.
Proof.
  intros Ht Hlive Hg Hns Hp HD Hr Hn32. pose proof (proj2 Hns) as Hns2. pose proof Ht as (Hs & Hlp & Hlr & Hmp & Hmr).
  pose proof (length_name_bytes name) as Hnm.
  assert (Hname : take (Z.to_nat (StrSize name)) (name_bytes name) = name_bytes name) by (apply take_ge; lia).
  unfold get_exchange.
  destruct (clear_st s (env s) pb rb n Ht pb rb Hlp Hlr) as [C1 _]. rewrite <- Hs in C1. rewrite (bind_Ret _ _ _ _ _ C1).
  destruct (clear_st s (env s) pb rb n Ht (replicate n 0) rb (length_replicate _ _) Hlr) as [_ C2].
  rewrite (bind_Ret _ _ _ _ _ C2). rewrite Hname, fill_get by (done || lia).
  set (pb1 := (_ ++ _) ++ _).
  assert (Hlp1 : length pb1 = n).
  { unfold pb1. rewrite !length_app, !length_le_bytes, length_replicate, Hg. cbn [length]. lia. }
  destruct (TEEC_InvokeCommand (session_id s) VSGetOp (get_request sizeof_GET_PARAM name guid) (16 + DataSize) (env s))
    as [[[[res out] a] b] e] eqn:Hi.
  destruct (ta_get _ _ _ _ _ _ _ _ _ _ Hlive Hg Hns Hi) as [Hsame Hres].
  pose proof (ta_output _ _ _ (16 + DataSize) _ _ _ _ _ _ ltac:(lia) Hi) as Hout.
  assert (Hlz : length (replicate n (0 : Z)) = n) by apply length_replicate.
  pose proof (invoke_st s (env s) pb1 (replicate n 0) VSGetOp (Z.to_nat (28 + StrSize name)) (Some (16 + DataSize))
    res out a b e ltac:(lia) ltac:(cbv [default from_option id]; lia)) as I.
  rewrite Z2Nat.id in I by (unfold StrSize; lia). unfold pb1 at 1 in I. rewrite sent_get in I by (done || lia).
  rewrite (bind_Ret _ _ _ _ _ (I Hi)). cbv iota zeta. rewrite bind_gets.
  rewrite drop_replicate. set (rb1 := out ++ replicate (n - length out) 0).
  assert (Hl1 : length rb1 = n) by (unfold rb1; rewrite length_app, length_replicate; lia).
  cbn [st mVariableResultMem].
  erewrite bind_Ret; [|apply (peek_val_st _ rb1 8 4); [done | lia]].
  unfold get_answer. destruct (vars (env s) !! (name, guid)) as [[attrs data]|] eqn:Hv.
  - destruct (ta_stored _ _ _ _ Hv) as (Ha & Hne & Hd). unfold sizeof_GET_RESULT in Hres.
    destruct (Z.leb_spec (Z.of_nat (length data)) DataSize) as [Hfit|Hfit].
    + rewrite (proj2 (Z.leb_le _ _)) in Hres by lia. destruct Hres as (-> & sz & pad & Hsz & ->).
      destruct (result_fields sz attrs data pad (replicate (n - length (get_result sz attrs data pad)) 0) Hsz Ha ltac:(lia))
        as (F1 & F2 & F3). fold rb1 in F1, F2, F3.
      rewrite F2. change (status_of_teec TEEC_SUCCESS) with EFI_SUCCESS.
      rewrite (bind_Ret _ _ _ (Z.of_nat (length data)) (st s e pb1 rb1)) by done.
      erewrite bind_Ret; [|apply (peek_val_st _ rb1 4 4); [done | lia]]. rewrite F1. cbv zeta.
      change (EFI_ERROR EFI_SUCCESS) with false. cbv iota. rewrite (proj2 (Z.ltb_ge _ _)) by lia.
      erewrite bind_Ret; [|apply (peek_st _ rb1 12 (length data)); [done | unfold rb1, get_result; rewrite !length_app, !length_le_bytes, Hsz; lia]].
      rewrite F3. do 4 eexists. split; [done|]. done.
    + rewrite (proj2 (Z.leb_gt _ _)) in Hres by lia. destruct Hres as [-> ->].
      change (status_of_teec TEEC_ERROR_SHORT_BUFFER) with EFI_BUFFER_TOO_SMALL. rewrite Z.eqb_refl.
      rewrite (bind_Ret _ _ _ (u64 (16 + Z.of_nat (length data) - sizeof_GET_RESULT)) (st s e pb1 rb1)).
      2: { rewrite (proj2 (Z.leb_le sizeof_GET_RESULT _)) by (unfold sizeof_GET_RESULT; lia). done. }
      erewrite bind_Ret; [|apply (peek_val_st _ rb1 4 4); [done | lia]].
      change (EFI_ERROR EFI_BUFFER_TOO_SMALL) with true. cbv iota zeta.
      do 4 eexists. split; [done|]. split; [done|]. split; [done|]. split; [done|].
      split; [done|]. split; [|done]. cbn [gDataSize]. f_equal.
      unfold sizeof_GET_RESULT in *. replace (16 + Z.of_nat (length data) - 16) with (Z.of_nat (length data)) by lia.
      apply Z.mod_small. lia.
  - subst res. change (status_of_teec TEEC_ERROR_ITEM_NOT_FOUND) with EFI_NOT_FOUND.
    rewrite (bind_Ret _ _ _ DataSize (st s e pb1 rb1)) by done.
    erewrite bind_Ret; [|apply (peek_val_st _ rb1 4 4); [done | lia]].
    change (EFI_ERROR EFI_NOT_FOUND) with true. cbv iota zeta.
    do 4 eexists. split; [done|]. done.
Qed.

(** The parameter block of a set. *)
Lemma sent_set n name guid attrs data : length guid = 16%nat ->
  44 + StrSize name + Z.of_nat (length data) <= Z.of_nat n ->
  take (Z.to_nat (44 + StrSize name + Z.of_nat (length data)))
    ((le_bytes 4 sizeof_SET_PARAM ++ le_bytes 2 (StrSize name) ++ [0; 0] ++ guid ++ le_bytes 4 attrs ++
      le_bytes 4 (Z.of_nat (length data)) ++ le_bytes 4 0 ++ le_bytes 4 (StrSize name) ++ name_bytes name ++ data) ++
     replicate (n - 40 - length (name_bytes name) - length data) 0) = set_request name guid attrs data.
Proof.
  intros Hg Hn. pose proof (length_name_bytes name) as Hl.
  replace (n - 40 - length (name_bytes name) - length data)%nat
    with (4 + (n - 44 - length (name_bytes name) - length data))%nat by lia.
  rewrite replicate_add, app_assoc. rewrite take_app_length'.
  - unfold set_request. by rewrite <- !app_assoc.
  - rewrite !length_app, !length_le_bytes, Hg, length_replicate. cbn [length]. lia.
Qed.

(** The effect of a set with the given status on the world. *)
Definition set_effect (name guid : list Z) (attrs : Z) (data : list Z) (status : Z) (e e' : E) : Prop :=
  (forall k, k <> (name, guid) -> vars e' !! k = vars e !! k) /\
  (EFI_ERROR status = true -> vars e' = vars e) /\
  (EFI_ERROR status = false -> plain attrs ->
   vars e' !! (name, guid) = if bool_decide (data = []) then None else Some (attrs, data)).

Lemma status_of_teec_error res : EFI_ERROR (status_of_teec res) = negb (res =? TEEC_SUCCESS).
Proof.
  unfold status_of_teec. destruct (res =? TEEC_SUCCESS); [done|].
  by repeat match goal with |- context [if ?b then _ else _] => destruct b end.
Qed.

Lemma set_exchange_spec s n pb rb name guid attrs data : transport s n pb rb ->
  live (env s) (session_id s) -> length guid = 16%nat -> name_ok name -> in_word 32 attrs ->
  44 + StrSize name + Z.of_nat (length data) <= Z.of_nat n -> Z.of_nat n < 2 ^ 32 ->
  exists status e pb' rb',
    set_exchange name guid attrs data (StrSize name) (Z.of_nat (length data))
      (u64 (44 + StrSize name + Z.of_nat (length data))) s = Ret status (st s e pb' rb') /\
    length pb' = n /\ length rb' = n /\ keeps (env s) e /\ tpm e = tpm (env s) /\
    set_effect name guid attrs data status (env s) e.
Proof.
  intros Ht Hlive Hg Hns Ha Hn Hn32. pose proof (proj2 Hns) as Hns2. pose proof Ht as (Hs & Hlp & Hlr & _).
  pose proof (length_name_bytes name) as Hnm. pose proof (length_replicate n (0 : Z)) as Hlz.
  assert (H0 : 0 <= StrSize name) by (unfold StrSize; lia).
  assert (Hu : forall w, (32 <= w) -> (44 + StrSize name + Z.of_nat (length data)) mod 2 ^ w =
                         44 + StrSize name + Z.of_nat (length data)).
  { intros w Hw. apply Z.mod_small. pose proof (Z.pow_le_mono_r 2 32 w). lia. }
  unfold set_exchange, u64, u32. rewrite (Hu 64), (Hu 32) by done.
  destruct (clear_st s (env s) pb rb n Ht pb rb Hlp Hlr) as [C1 _]. rewrite <- Hs in C1.
  rewrite (bind_Ret _ _ _ _ _ C1).
  destruct (clear_st s (env s) pb rb n Ht (replicate n 0) rb Hlz Hlr) as [_ C2].
  rewrite (bind_Ret _ _ _ _ _ C2). rewrite fill_set by (done || lia).
  set (pb1 := (_ ++ _) ++ _).
  assert (Hlp1 : length pb1 = n).
  { unfold pb1. rewrite !length_app, !length_le_bytes, length_replicate, Hg. cbn [length]. lia. }
  destruct (TEEC_InvokeCommand (session_id s) VSSetOp (set_request name guid attrs data) 4 (env s))
    as [[[[res out] a] b] e] eqn:Hi.
  destruct (ta_set _ name guid attrs data _ _ _ _ _ _ _ Hlive Hg Hns Ha ltac:(lia) Hi) as (K & HT & Hother & Hbad & Hgood).
  pose proof (ta_output _ _ _ 4 _ _ _ _ _ _ ltac:(lia) Hi) as Hout.
  pose proof (invoke_st s (env s) pb1 (replicate n 0) VSSetOp
    (Z.to_nat (44 + StrSize name + Z.of_nat (length data))) None res out a b e
    ltac:(lia) ltac:(cbv [default from_option]; lia)) as I.
  rewrite Z2Nat.id in I by lia. unfold pb1 at 1 in I. rewrite sent_set in I by done.
  rewrite (bind_Ret _ _ _ _ _ (I Hi)). cbv iota.
  do 4 eexists. split; [done|]. split; [done|]. split; [rewrite length_app, length_drop; lia|].
  split; [done|]. split; [done|]. split; [done|]. rewrite status_of_teec_error.
  split; intros Hr; [apply Hbad | apply Hgood]; destruct (Z.eqb_spec res TEEC_SUCCESS); done.
Qed.
End Exchange.

(** ** The services with an open session *)

Section Services.
Context {E : Type} {B : Build} {P : AuthVarPlatform} {T : Teec E} {V : TaView E} {L : TaLaws E}.
Implicit Types s : av E.

(** A session is open and both buffers have [n] bytes; once other drivers
    can see the services, they are this driver's. *)
Definition ready s (n : nat) : Prop :=
  (exists pb rb, transport s n pb rb) /\ mTeecSessionOpened s = true /\ live (env s) (session_id s) /\
  44 <= Z.of_nat n < 2 ^ 31 /\ (arch (env s) = true -> published s = true).

(** What every service leaves as it was. *)
Definition next s n s' : Prop :=
  ready s' n /\ session_id s' = session_id s /\ published s' = published s /\ keeps (env s) (env s').

Lemma next_refl s n : ready s n -> next s n s.
Proof. intros H. by split; [|split; [|split]]. Qed.

Lemma next_trans s1 s2 s3 n : next s1 n s2 -> next s2 n s3 -> next s1 n s3.
Proof.
  intros (_ & H1 & H2 & H3) (R & H4 & H5 & H6). split; [done|]. split; [congruence|]. split; [congruence|].
  by etransitivity.
Qed.

Lemma ready_st s n e pb rb : ready s n -> length pb = n -> length rb = n -> keeps (env s) e ->
  next s n (st s e pb rb).
Proof.
  intros ((pb0 & rb0 & Ht) & Ho & Hl & Hn & Hpub) Hlp Hlr [K1 K2]. destruct Ht as (_ & _ & _ & Hmp & Hmr).
  split; [|done]. split; [by exists pb, rb|]. split; [done|]. split; [by apply K1|]. split; [done|].
  cbn [env st published]. by rewrite K2.
Qed.

Lemma ready_env s n e : ready s n -> keeps (env s) e -> next s n (set_env e s).
Proof.
  intros H K. pose proof H as ((pb & rb & Hs & Hlp & Hlr & _) & _).
  replace (set_env e s) with (st s e pb rb); [by apply ready_st|]. by rewrite Hs.
Qed.

(** The name and GUID of the driver's own test interface. *)
Definition test_name (name guid : list Z) : bool := (first_char name =? 1) && (Data1 guid =? 1).

(** The bounds the request is checked against: [None] for a request
    that does not fit. *)
Definition get_fits (n : nat) (name : list Z) (DataSize : Z) : bool :=
  (28 + StrSize name <=? Z.of_nat n) && (16 + DataSize <=? Z.of_nat n).

Lemma u32_small z : 0 <= z < 2 ^ 32 -> u32 z = z.
Proof. intros H. by apply Z.mod_small. Qed.

Lemma get_spec s n name guid Attributes DataSize Data : ready s n -> length guid = 16%nat ->
  name_ok name -> 0 <= DataSize < 2 ^ 32 -> (DataSize <> 0 -> Data = true) ->
  test_name name guid && (DataSize =? 8) = false ->
  wp (OpteeRuntimeGetVariable (Some name) (Some guid) Attributes (Some DataSize) Data) s (fun out s' =>
    next s n s' /\ same (env s) (env s') /\
    if get_fits n name DataSize
    then get_answer (vars (env s) !! (name, guid)) Attributes DataSize out
    else gStatus out = EFI_BAD_BUFFER_SIZE /\ s' = s).
Proof.
  intros H Hg Hns HD Hdata Htest. pose proof (proj2 Hns) as Hns2. pose proof H as ((pb & rb & Ht) & Ho & Hl & Hn & _).
  pose proof Ht as (Hs & _ & _ & Hmp & Hmr).
  assert (H0 : 0 < StrSize name) by (unfold StrSize; lia).
  unfold OpteeRuntimeGetVariable. apply wp_bind, wp_gets. rewrite (live_boot _ _ Hl).
  assert (Hd : negb (DataSize =? 0) && negb Data = false).
  { destruct (Z.eqb_spec DataSize 0); [done|]. by rewrite Hdata. }
  unfold test_name in Htest. rewrite Hd, Htest. wp_go. rewrite Ho. cbn [negb]. wp_go.
  assert (Hbp : buffer (mVariableParamMem s) = Some pb) by (by rewrite Hs).
  assert (Hbr : buffer (mVariableResultMem s) = Some rb) by (by rewrite Hs).
  rewrite Hbp, Hbr. cbn zeta. rewrite !(u32_small (StrSize name)), !(u32_small DataSize) by lia.
  unfold sizeof_GET_PARAM, sizeof_GET_RESULT. rewrite (u32_small (28 + _)) by lia. unfold get_fits. rewrite Hmp, Hmr.
  destruct (Z.leb_spec (28 + StrSize name) (Z.of_nat n)); cbn [andb].
  2: { rewrite (proj2 (Z.ltb_lt _ (28 + _))) by lia. cbn [orb].
       case_if Hc; apply wp_ret; (split; [by apply next_refl|done]). }
  destruct (Z.leb_spec (16 + DataSize) (Z.of_nat n)).
  - rewrite (proj2 (Z.leb_gt _ (StrSize name))), (proj2 (Z.leb_gt _ DataSize)) by lia. cbn [orb].
    rewrite (u32_small (16 + _)) by lia. rewrite !(proj2 (Z.ltb_ge _ _)) by lia. cbn [orb].
    destruct (get_exchange_spec s n pb rb name guid Attributes DataSize Ht Hl Hg Hns ltac:(done) ltac:(lia) ltac:(done) ltac:(lia))
      as (out & e & pb' & rb' & Hrun & Hlp & Hlr & Hsame & Hans).
    apply (returns_wp _ _ _ _ _ Hrun). split; [|done]. by apply ready_st; [| | |apply Hsame].
  - assert (Hf : (Z.of_nat n <=? DataSize) || (Z.of_nat n <? u32 (16 + DataSize)) = true).
    { destruct (Z.leb_spec (Z.of_nat n) DataSize); [done|]. rewrite (u32_small (16 + _)) by lia. cbn [orb].
      apply Z.ltb_lt. lia. }
    apply orb_true_iff in Hf as [-> | ->]; rewrite ?orb_true_r.
    + apply wp_ret; (split; [by apply next_refl|done]).
    + case_if Hc; apply wp_ret; (split; [by apply next_refl|done]).
Qed.

(** *** Measuring *)

(** The data the driver can read back of the stored value [v]. *)
Definition readable (n : nat) (v : option (Z * list Z)) : option (list Z) :=
  match v with
  | Some (_, data) => if 16 + Z.of_nat (length data) <=? Z.of_nat n then Some data else None
  | None => None
  end.

(** The event of a change to the stored value [v]. *)
Definition measured (n : nat) (name guid : list Z) (v : option (Z * list Z)) : Z * Z * list Z :=
  (7, EV_EFI_VARIABLE_DRIVER_CONFIG, var_log name guid (default [] (readable n v))).

Lemma wp_service {A} (f : E -> A * E) s (Q : A -> av E -> Prop) :
  Q (f (env s)).1 (set_env (f (env s)).2 s) -> wp (service f) s Q.
Proof. unfold wp, service. by destruct (f (env s)). Qed.

Context (alloc_ok : forall n e, (AllocateMeasureBuffer n e).1 = true).

Lemma next_same s n s' e : next s n s' -> same (env s) (env s') -> same (env s') e ->
  next s n (set_env e s') /\ same (env s) e.
Proof.
  intros Hn Hs He. split; [|by etransitivity]. eapply next_trans; [done|]. apply ready_env; [apply Hn | apply He].
Qed.

Lemma InternalGetVariable_spec s n name guid : ready s n -> published s = true -> length guid = 16%nat ->
  name_ok name -> 28 + StrSize name <= Z.of_nat n -> first_char name <> 1 ->
  wp (InternalGetVariable name guid) s (fun r s' =>
    next s n s' /\ same (env s) (env s') /\
    let '(Status, Data, Size) := r in
    let v := readable n (vars (env s) !! (name, guid)) in
    (if EFI_ERROR Status then (None, 0) else (Data, Size)) =
    (v, Z.of_nat (length (default [] v))) /\ v <> Some []).
Proof.
  intros H Hpub Hg Hns Hn Hfc. pose proof (proj2 Hns) as Hns2. pose proof H as (_ & _ & _ & Hn' & _).
  assert (Htest : forall D, test_name name guid && (D =? 8) = false).
  { intros D. unfold test_name. by rewrite (proj2 (Z.eqb_neq _ _) Hfc). }
  unfold InternalGetVariable, rt_GetVariable. apply wp_bind, wp_bind, wp_gets. rewrite Hpub.
  eapply wp_mono; [apply (get_spec s n name guid false 0 false H Hg Hns); done|].
  intros o s1 (N1 & S1 & Hget). unfold get_fits in Hget.
  rewrite (proj2 (Z.leb_le (28 + _) _)), (proj2 (Z.leb_le (16 + 0) _)) in Hget by lia. cbn [andb] in Hget.
  unfold get_answer in Hget. destruct (vars (env s) !! (name, guid)) as [[attrs data]|] eqn:Hv.
  2: { destruct Hget as (-> & _). apply wp_ret. split; [done|]. split; [done|]. done. }
  destruct (ta_stored _ _ _ _ Hv) as (Ha & Hne & Hd). unfold sizeof_GET_RESULT in Hd.
  assert (Hpos : 0 < Z.of_nat (length data)) by (destruct data; [done | simpl; lia]).
  rewrite (proj2 (Z.leb_gt _ 0)) in Hget by lia. destruct Hget as (-> & -> & _).
  rewrite Z.eqb_refl. cbn [negb default from_option id]. cbn zeta.
  apply wp_bind, wp_service. rewrite alloc_ok. apply wp_bind, wp_ASSERT; [done|]. cbn [negb].
  destruct (next_same s n s1 _ N1 S1 (alloc_same (Z.of_nat (length data)) (env s1))) as [N2 S2].
  set (s2 := set_env _ s1) in *. change (same (env s) (env s2)) in S2.
  apply wp_bind, wp_bind, wp_gets. destruct N2 as (R2 & I2 & P2 & K2). rewrite P2, Hpub.
  eapply wp_mono; [apply (get_spec s2 n name guid false (Z.of_nat (length data)) true R2 Hg Hns); [lia|done|done]|].
  intros o2 s3 (N3 & S3 & Hget2). unfold get_fits in Hget2. rewrite (proj2 (Z.leb_le (28 + _) _)) in Hget2 by lia.
  cbn [andb] in Hget2. pose proof (next_trans s s2 s3 n ltac:(done) N3) as N. pose proof (transitivity S2 S3) as SS.
  assert (Hv2 : vars (env s2) !! (name, guid) = Some (attrs, data)) by (rewrite (proj1 (proj2 S2)); done).
  unfold readable. destruct (16 + Z.of_nat (length data) <=? Z.of_nat n).
  - unfold get_answer in Hget2. rewrite Hv2, Z.leb_refl in Hget2. subst o2. cbn zeta.
    apply wp_ret. split; [done|]. split; [done|]. split; [done | congruence].
  - destruct Hget2 as [-> ->]. change (EFI_ERROR EFI_BAD_BUFFER_SIZE) with true. cbv iota.
    apply wp_bind, wp_service. cbn [fst snd]. apply wp_ret.
    destruct (next_same s n s2 _ ltac:(done) S2 (free_same (env s2))) as [N4 S4]. by split; [|split].
Qed.

(** [e'] is [e] but for the event, which is missing when the TPM refuses. *)
Definition logged (ev : Z * Z * list Z) (e e' : E) : Prop :=
  keeps e e' /\ vars e' = vars e /\
  exists e0, tpm e' = tpm e ++ (if EFI_ERROR (TpmMeasureAndLogData ev.1.1 ev.1.2 ev.2 e0).1 then [] else [ev]).

Lemma length_var_log name guid data :
  length (var_log name guid data) = (length guid + 16 + 2 * length name + length data)%nat.
Proof. unfold var_log. rewrite !length_app, !length_le_bytes, length_char16_bytes. lia. Qed.

Lemma MeasureVariable_spec s n s' name guid v : next s n s' -> same (env s) (env s') ->
  length guid = 16%nat -> name_ok name -> readable n v <> Some [] ->
  wp (MeasureVariable name guid (readable n v) (Z.of_nat (length (default [] (readable n v))))) s' (fun _ s2 =>
    next s n s2 /\ logged (measured n name guid v) (env s) (env s2)).
Proof.
  intros N Hsame Hg Hns Hne. pose proof (proj2 Hns) as Hns2. pose proof N as ((_ & _ & _ & Hn & _) & _).
  unfold MeasureVariable. apply wp_bind, wp_ASSERT.
  { by destruct (readable n v) as [[|b d]|]. }
  set (log := var_log name guid _). cbn zeta.
  assert (Hlog : Z.of_nat (length log) < 2 ^ 32).
  { unfold log. rewrite length_var_log, Hg. unfold StrSize in Hns2.
    enough (Z.of_nat (length (default [] (readable n v))) < 2 ^ 31) by lia.
    unfold readable. destruct v as [[a d]|]; simpl; [|lia]. case_match eqn:Hc; simpl; lia. }
  rewrite u32_small by lia. apply wp_bind, wp_service. rewrite alloc_ok. cbn [negb].
  destruct (next_same s n s' _ N Hsame (alloc_same (Z.of_nat (length log)) (env s'))) as [N2 S2].
  set (s2 := set_env _ s') in *. change (same (env s) (env s2)) in S2.
  rewrite Z.ltb_irrefl. apply wp_bind, wp_service.
  destruct (tpm_logged 7 EV_EFI_VARIABLE_DRIVER_CONFIG log (env s2)) as (K3 & V3 & L3).
  set (r := TpmMeasureAndLogData _ _ _ _) in *.
  pose proof (free_same r.2) as S4. apply wp_bind, wp_service. cbn [fst snd env set_env]. apply wp_ret.
  assert (K : keeps (env s2) (FreeMeasureBuffer r.2)) by (etransitivity; [done | apply S4]).
  split; [eapply next_trans; [exact N2 | apply (ready_env s2 n _ (proj1 N2) K)]|].
  split; [by etransitivity; [apply S2|]|]. cbn [env set_env]. destruct S4 as (_ & -> & ->). split; [rewrite V3; apply S2|].
  exists (env s2). cbn [set_env env]. rewrite L3. by rewrite (proj2 (proj2 S2)).
Qed.

Lemma policy_first_char name guid : IsSecureBootPolicyVariable name guid = true -> first_char name <> 1.
Proof.
  unfold IsSecureBootPolicyVariable, mVariableType. cbn [policy_search].
  repeat (case_bool_decide; [subst; by vm_compute|]; cbn [andb]). done.
Qed.

Lemma SecureBootHook_spec s n name guid : ready s n -> length guid = 16%nat ->
  name_ok name -> 28 + StrSize name <= Z.of_nat n ->
  wp (SecureBootHook name guid) s (fun _ s' => next s n s' /\
    if arch (env s) && IsSecureBootPolicyVariable name guid
    then logged (measured n name guid (vars (env s) !! (name, guid))) (env s) (env s')
    else same (env s) (env s')).
Proof.
  intros H Hg Hns Hn. pose proof (proj2 Hns) as Hns2. unfold SecureBootHook. apply wp_bind, wp_service. rewrite arch_found.
  destruct (next_same s n s _ (next_refl s n H) ltac:(done) (arch_same (env s))) as [N1 S1].
  set (s1 := set_env _ s) in *. change (same (env s) (env s1)) in S1.
  destruct (arch (env s)) eqn:Harch; cbn [negb andb]; [|by apply wp_ret].
  destruct (IsSecureBootPolicyVariable name guid) eqn:Hpol; cbn [negb]; [|by apply wp_ret].
  assert (Hpub : published s1 = true) by (rewrite (proj1 (proj2 (proj2 N1))); by apply H).
  apply wp_bind. eapply wp_mono.
  { apply (InternalGetVariable_spec s1 n name guid (proj1 N1) Hpub Hg Hns Hn).
    by eapply policy_first_char. }
  intros [[Status Data] Size] s2 (N2 & S2 & Hr & Hne). cbn zeta. rewrite Hr.
  rewrite (proj1 (proj2 S1)) in Hne |- *.
  apply wp_bind. eapply wp_mono.
  { apply (MeasureVariable_spec s n s2); [by eapply next_trans | by etransitivity | done..]. }
  intros _ s3 (N3 & K3 & V3 & e0 & T3).
  destruct (bool_decide _); [apply wp_service | by apply wp_ret; repeat (split; [done|]); exists e0].
  destruct (free_same (env s3)) as (K4 & V4 & T4). cbn [fst snd].
  split; [eapply next_trans; [done|]; apply ready_env; [apply N3 | done]|].
  split; [by etransitivity|]. cbn [env set_env]. split; [by rewrite V4|]. exists e0. by rewrite T4.
Qed.

(** *** Setting *)

(** [SetVariable] within the bounds: the effect of the exchange, then the
    event of a change of the policy. *)
Definition set_answer (n : nat) (name guid : list Z) (attrs : Z) (data : list Z) (status : Z) (e e' : E) : Prop :=
  set_effect name guid attrs data status e e' /\
  exists e1, tpm e1 = tpm e /\ vars e1 = vars e' /\
    if negb (EFI_ERROR status) && arch e && IsSecureBootPolicyVariable name guid
    then logged (measured n name guid (vars e' !! (name, guid))) e1 e'
    else tpm e' = tpm e.

Definition set_fits (n : nat) (name data : list Z) : bool :=
  44 + StrSize name + Z.of_nat (length data) <=? Z.of_nat n.

Lemma set_spec s n name guid attrs data : ready s n -> length guid = 16%nat ->
  name_ok name -> in_word 32 attrs -> Z.of_nat (length data) < 2 ^ 32 -> first_char name <> 0 ->
  test_name name guid && (Z.of_nat (length data) =? 8) = false ->
  wp (OpteeRuntimeSetVariable (Some name) (Some guid) attrs (Z.of_nat (length data)) (Some data)) s
    (fun status s' => next s n s' /\
      if set_fits n name data then set_answer n name guid attrs data status (env s) (env s')
      else status = EFI_BAD_BUFFER_SIZE /\ s' = s).
Proof.
  intros H Hg Hns Ha Hd Hfc Htest. pose proof (proj2 Hns) as Hns2. pose proof H as ((pb & rb & Ht) & Ho & Hl & Hn & _).
  pose proof Ht as (Hs & _ & _ & Hmp & _).
  assert (H0 : 0 < StrSize name) by (unfold StrSize; lia).
  unfold OpteeRuntimeSetVariable. apply wp_bind, wp_bind, wp_gets. rewrite (live_boot _ _ Hl).
  rewrite (proj2 (Z.eqb_neq _ 0) Hfc), bool_decide_eq_false_2, andb_false_r by done. wp_go. rewrite Ho. cbn [negb].
  unfold test_name in Htest. rewrite Htest. wp_go. cbn zeta. rewrite Hmp. unfold set_fits, sizeof_SET_PARAM.
  destruct (Z.leb_spec (44 + StrSize name + Z.of_nat (length data)) (Z.of_nat n)) as [Hfit|Hfit].
  - rewrite !(proj2 (Z.leb_gt (Z.of_nat n) _)) by lia. cbn [orb].
    unfold u64 at 1. rewrite Z.mod_small by lia. rewrite (proj2 (Z.ltb_ge _ _)) by lia.
    destruct (set_exchange_spec s n pb rb name guid attrs data Ht Hl Hg Hns Ha ltac:(done) ltac:(lia))
      as (status & e & pb' & rb' & Hrun & Hlp & Hlr & K & HT & Heff).
    apply wp_bind, (returns_wp _ _ _ _ _ Hrun), wp_ret. cbn [default from_option].
    pose proof (ready_st s n e pb' rb' H Hlp Hlr K) as N. set (s1 := st s e pb' rb') in *.
    destruct (EFI_ERROR status) eqn:Herr; cbn [negb].
    + apply wp_bind, wp_ret, wp_ret. split; [done|]. split; [done|]. exists e. rewrite Herr. by split; [|split].
    + apply wp_bind. eapply wp_mono; [apply (SecureBootHook_spec s1 n name guid (proj1 N) Hg Hns); lia|].
      intros _ s2 (N2 & Hlog). apply wp_ret. split; [by eapply next_trans|].
      assert (Harch : arch (env s) = arch (env s1)) by (symmetry; apply K).
      assert (Hv : vars (env s2) = vars e) by (destruct (_ && _) in Hlog; apply Hlog).
      split; [unfold set_effect in *; by rewrite Hv|]. exists e. rewrite Herr, Hv, Harch. cbn [negb andb].
      split; [done|]. split; [done|]. destruct (arch (env s1) && _); [done|]. etransitivity; [apply Hlog | done].
  - assert (Hbad : (Z.of_nat n <=? StrSize name) || (Z.of_nat n <=? Z.of_nat (length data)) = true \/
      (Z.of_nat n <? u64 (44 + StrSize name + Z.of_nat (length data))) = true).
    { right. unfold u64. rewrite Z.mod_small by lia. apply Z.ltb_lt. lia. }
    destruct (_ || _); [|destruct Hbad as [|Hbad]; [done|]; rewrite Hbad];
      (apply wp_ret; apply wp_bind, wp_ret, wp_ret; split; [by apply next_refl | done]).
Qed.
End Services.
