(* ===== verification/AuthVarSafe.v ===== *)
(** * The variable services against an arbitrary trusted application

    No request makes the driver read or write outside of its transport
    buffers or hand back more than the caller asked for, whatever the TA
    answers and whatever fails; the TEE client library is only assumed to
    respect the size of the output buffer. *)

From Stdlib Require Import ZArith Lia.
From stdpp Require Import base list numbers option gmap.
From S2P Require Import Prelude Memory AuthVar AuthVarSpec.

(** The only stop permitted. *)
Abbreviation halts := (fun w => w = Halt).

(** A call of one of the services, with the caller's pointers. *)
Inductive request :=
| GetRequest (VariableName VendorGuid : option (list Z)) (Attributes : bool) (DataSize : option Z) (Data : bool)
| SetRequest (VariableName VendorGuid : option (list Z)) (Attributes DataSize : Z) (Data : option (list Z))
| NextRequest (VariableNameSize : option Z) (VariableName VendorGuid : option (list Z))
| QueryRequest (Attributes : Z) (outs : bool).

Definition guid_ok (guid : option (list Z)) : Prop := forall g, guid = Some g -> length g = 16%nat.

(** GUIDs have 16 bytes, sizes are not negative, and data to set has the
    size it is said to have. *)
Definition request_ok (r : request) : Prop :=
  match r with
  | GetRequest _ guid _ size _ => guid_ok guid /\ (forall z, size = Some z -> 0 <= z)
  | SetRequest _ guid _ size data => guid_ok guid /\ 0 <= size /\ (forall d, data = Some d -> Z.of_nat (length d) = size)
  | NextRequest size _ guid => guid_ok guid /\ (forall z, size = Some z -> 0 <= z)
  | QueryRequest _ _ => True
  end.

Section Safety.
Context {E : Type} {B : Build} {P : AuthVarPlatform} {T : Teec E}.
Implicit Types s : av E.

Definition run_request (r : request) : M (av E) unit :=
  match r with
  | GetRequest name guid attrs size data => OpteeRuntimeGetVariable name guid attrs size data;; mret tt
  | SetRequest name guid attrs size data => OpteeRuntimeSetVariable name guid attrs size data;; mret tt
  | NextRequest size name guid => OpteeRuntimeGetNextVariableName size name guid;; mret tt
  | QueryRequest attrs outs => OpteeRuntimeQueryVariableInfo attrs outs;; mret tt
  end.

Fixpoint run_requests (l : list request) : M (av E) unit :=
  match l with
  | [] => mret tt
  | r :: l => run_request r;; run_requests l
  end.

(** The driver is installed; with an open session it has both buffers. *)
Definition shaped s (n : nat) : Prop :=
  published s = true /\ 44 <= Z.of_nat n < 2 ^ 31 /\
  exists pb rb, mVariableParamMem s = {| buffer := Some pb; mem_size := Z.of_nat n |} /\ length pb = n /\
                mVariableResultMem s = {| buffer := Some rb; mem_size := Z.of_nat n |} /\ length rb = n.

Context (output_bounded : forall sid op input cap e, 0 <= cap ->
  Z.of_nat (length (TEEC_InvokeCommand sid op input cap e).1.1.1.2) <= cap).

Lemma shaped_env s n e : shaped s n -> shaped (set_env e s) n.
Proof. done. Qed.

Lemma wpe_service {A} (f : E -> A * E) s n (Q : A -> av E -> Prop) : shaped s n ->
  (forall a s', shaped s' n -> Q a s') -> wpe halts (service f) s Q.
Proof. intros H HQ. unfold wpe, service. destruct (f (env s)). by apply HQ. Qed.

Lemma wpe_poke_param s n off l (Q : unit -> av E -> Prop) : shaped s n -> 0 <= off ->
  off + Z.of_nat (length l) <= Z.of_nat n -> (forall s', shaped s' n -> Q tt s') ->
  wpe halts (poke_param off l) s Q.
Proof.
  intros (Hpub & Hn & pb & rb & Hp & Hlp & Hr & Hlr) H0 Hoff HQ. unfold wpe, poke_param, poke. rewrite Hp. cbn [buffer mem_size].
  rewrite (proj2 (Z.leb_le _ _)) by lia. apply HQ. split; [done|]. split; [done|].
  exists (list_inserts (Z.to_nat off) l pb), rb. by rewrite length_inserts.
Qed.

Lemma wpe_poke_result s n off l (Q : unit -> av E -> Prop) : shaped s n -> 0 <= off ->
  off + Z.of_nat (length l) <= Z.of_nat n -> (forall s', shaped s' n -> Q tt s') ->
  wpe halts (poke_result off l) s Q.
Proof.
  intros (Hpub & Hn & pb & rb & Hp & Hlp & Hr & Hlr) H0 Hoff HQ. unfold wpe, poke_result, poke. rewrite Hr. cbn [buffer mem_size].
  rewrite (proj2 (Z.leb_le _ _)) by lia. apply HQ. split; [done|]. split; [done|].
  exists pb, (list_inserts (Z.to_nat off) l rb). by rewrite length_inserts.
Qed.

Lemma wpe_clear_param s n (Q : unit -> av E -> Prop) : shaped s n -> (forall s', shaped s' n -> Q tt s') ->
  wpe halts clear_param s Q.
Proof.
  intros H HQ. pose proof H as (_ & _ & pb & rb & Hp & _). apply wpe_bind, wpe_gets. rewrite Hp. cbn [mem_size].
  apply (wpe_poke_param s n); [done | done | rewrite length_replicate; lia | done].
Qed.

Lemma wpe_clear_result s n (Q : unit -> av E -> Prop) : shaped s n -> (forall s', shaped s' n -> Q tt s') ->
  wpe halts clear_result s Q.
Proof.
  intros H HQ. pose proof H as (_ & _ & pb & rb & _ & _ & Hr & _). apply wpe_bind, wpe_gets. rewrite Hr. cbn [mem_size].
  apply (wpe_poke_result s n); [done | done | rewrite length_replicate; lia | done].
Qed.

(** Reading a buffer of [n] bytes; the number of bytes may be nonsense,
    then nothing is read. *)
Lemma wpe_peek s (m : TEEC_SharedMemory) bs off k (Q : list Z -> av E -> Prop) : buffer m = Some bs ->
  off + k <= Z.of_nat (length bs) -> (forall l, Z.of_nat (length l) <= Z.max 0 k -> Q l s) ->
  wpe halts (peek m off k) s Q.
Proof.
  intros Hb H HQ. unfold peek. rewrite Hb, (proj2 (Z.leb_le _ _) H). apply wpe_ret, HQ. rewrite length_take. lia.
Qed.

Lemma wpe_peek_val s (m : TEEC_SharedMemory) bs off k (Q : Z -> av E -> Prop) : buffer m = Some bs ->
  off + k <= Z.of_nat (length bs) -> (forall v, Q v s) -> wpe halts (peek_val m off k) s Q.
Proof. intros Hb H HQ. apply wpe_bind. eapply wpe_peek; [done..|]. intros l _. apply wpe_ret, HQ. Qed.

Lemma wpe_invoke s n op p r (Q : Z * Z * Z -> av E -> Prop) : shaped s n ->
  default 4 p <= Z.of_nat n -> 0 <= default 4 r <= Z.of_nat n ->
  (forall x s', shaped s' n -> Q x s') -> wpe halts (OpteeRuntimeVariableInvokeCommand op p r) s Q.
Proof.
  intros H Hp Hr HQ. unfold OpteeRuntimeVariableInvokeCommand. do 2 apply wpe_bind, wpe_gets.
  pose proof H as (_ & _ & pb & rb & Hpb & Hlp & _). apply wpe_bind. eapply wpe_peek; [by rewrite Hpb | lia|].
  intros input _. apply wpe_bind. unfold wpe at 1, service.
  pose proof (output_bounded (session_id s) op input (default 4 r) (env s) (proj1 Hr)) as Ho.
  destruct (TEEC_InvokeCommand _ _ _ _ _) as [[[[res out] a] b] e]. cbn [fst snd] in Ho.
  apply wpe_bind. apply (wpe_poke_result _ n); [by apply shaped_env | lia | lia|].
  intros s' Hs'. apply wpe_ret, HQ, Hs'.
Qed.

Lemma shaped_result s n : shaped s n ->
  exists rb, buffer (mVariableResultMem s) = Some rb /\ length rb = n /\ mem_size (mVariableResultMem s) = Z.of_nat n /\
    exists pb, buffer (mVariableParamMem s) = Some pb /\ mem_size (mVariableParamMem s) = Z.of_nat n.
Proof. intros (_ & _ & pb & rb & -> & _ & -> & Hl). by exists rb; split; [|split; [|split; [|exists pb]]]. Qed.

Lemma u32_range z : 0 <= u32 z < 2 ^ 32.
Proof. by apply Z.mod_pos_bound. Qed.

Lemma u64_range z : 0 <= u64 z < 2 ^ 64.
Proof. by apply Z.mod_pos_bound. Qed.

Lemma u32_le z : 0 <= z -> u32 z <= z.
Proof. intros H. by apply Z.mod_le. Qed.

Lemma length_le_bytes_Z k v : Z.of_nat (length (le_bytes k v)) = Z.of_nat k.
Proof. by rewrite length_le_bytes. Qed.

Lemma length_take_le k (l : list Z) : 0 <= k -> Z.of_nat (length (take (Z.to_nat k) l)) <= k.
Proof. rewrite length_take. lia. Qed.

(** The size checks the two get services make, over a nonnegative total. *)
Lemma fits_checks n base x : 44 <= n < 2 ^ 31 -> 0 <= base <= 44 -> (n <=? u32 x) = false ->
  (n <? u32 (base + u32 x)) = false -> 0 <= u32 x /\ u32 (base + u32 x) = base + u32 x /\ base + u32 x <= n.
Proof.
  intros Hn Hb H1%Z.leb_gt H2%Z.ltb_ge. pose proof (u32_range x). rewrite (u32_small (base + u32 x)) in * by lia. lia.
Qed.

(** Steps through straight-line code with the rules above, for the buffer
    size [n]. *)
Ltac sizes :=
  cbn [default from_option id]; cbv [id GET_PARAM_VariableNameSize GET_PARAM_VendorGuid GET_PARAM_VariableName
    GET_RESULT_Attributes GET_RESULT_DataSize GET_RESULT_Data SET_PARAM_VariableNameSize SET_PARAM_VendorGuid
    SET_PARAM_Attributes SET_PARAM_DataSize SET_PARAM_OffsetVariableName SET_PARAM_OffsetData SET_PARAM_Payload
    QUERY_PARAM_Attributes sizeof_QUERY_PARAM sizeof_QUERY_RESULT];
  rewrite ?length_le_bytes_Z, ?length_take, ?length_name_bytes; lia.

Ltac safe n :=
  repeat (lazymatch goal with
  | |- wpe _ (mbind _ clear_param) _ _ =>
      apply wpe_bind; eapply (wpe_clear_param _ n); [eassumption|]; intros ??
  | |- wpe _ (mbind _ clear_result) _ _ =>
      apply wpe_bind; eapply (wpe_clear_result _ n); [eassumption|]; intros ??
  | |- wpe _ (mbind _ (poke_param _ _)) _ _ =>
      apply wpe_bind; eapply (wpe_poke_param _ n); [eassumption | sizes | sizes | intros ??]
  | |- wpe _ (mbind _ (OpteeRuntimeVariableInvokeCommand _ _ _)) _ _ =>
      apply wpe_bind; eapply (wpe_invoke _ n); [eassumption | sizes | sizes | intros [[??]?] ??]
  | |- wpe _ (mbind _ (peek_val _ _ _)) _ _ =>
      apply wpe_bind; eapply wpe_peek_val; [eassumption | sizes | intros ?]
  | |- wpe _ (mbind _ (peek _ _ _)) _ _ =>
      apply wpe_bind; eapply wpe_peek; [eassumption | sizes | intros ? ?]
  | |- wpe _ (mbind _ (mbind _ _)) _ _ => apply wpe_bind
  | |- wpe _ (mbind _ (mret _)) _ _ => apply wpe_bind, wpe_ret
  | |- wpe _ (mbind _ (gets _)) _ _ => apply wpe_bind, wpe_gets
  | |- wpe _ (mbind _ (ASSERT _)) _ _ => apply wpe_bind, wpe_ASSERT; [done|]
  | |- wpe _ (mret _) _ _ => apply wpe_ret
  end; cbn beta iota).

(** The result buffer after an invocation. *)
Ltac result_buffer H :=
  let rb := fresh "rb" in let Hrb := fresh "Hrb" in let Hrl := fresh "Hrl" in
  destruct (shaped_result _ _ H) as (rb & Hrb & Hrl & _).

Lemma safe_size (b c : bool) (z y : Z) s n (Q : Z -> av E -> Prop) : shaped s n -> 0 <= z ->
  (forall v, (b = true -> 0 <= v) -> Q v s) -> wpe halts (if b then ASSERT c;; mret z else mret y) s Q.
Proof. intros H Hz HQ. destruct b; [apply wpe_bind, wpe_ASSERT; [done|]|]; by apply wpe_ret, HQ. Qed.

(** What a read may hand back: nothing beyond the [cap] bytes of the caller's
    buffer; a size it asks for instead is not negative. *)
Definition get_bounded (cap : Z) (out : get_out) : Prop :=
  Z.of_nat (length (gData out)) <= cap /\ (gStatus out = EFI_BUFFER_TOO_SMALL -> 0 <= default 0 (gDataSize out)).

Lemma get_exchange_safe s n name guid A D LN LD : shaped s n -> length guid = 16%nat ->
  0 <= LN -> 28 + LN <= Z.of_nat n -> 0 <= LD -> 16 + LD <= Z.of_nat n ->
  wpe halts (get_exchange name guid A D LN LD (28 + LN) (16 + LD)) s
    (fun out s' => shaped s' n /\ get_bounded LD out).
Proof.
  intros H Hg H1 H2 H3 H4. pose proof H as (_ & Hn & _). unfold get_exchange.
  safe n. match goal with H : shaped ?s _ |- wpe _ _ ?s _ => result_buffer H; rename H into Hs' end.
  safe n. apply wpe_bind. eapply safe_size; [eassumption | by apply u64_range |].
  intros D' HD'. safe n. cbn zeta. unfold get_bounded.
  destruct (EFI_ERROR _); [apply wpe_ret; cbn [gData gStatus gDataSize length default from_option id]|].
  { split; [done|]. split; [lia|]. intros Hs%Z.eqb_eq. by apply HD'. }
  destruct (LD <? _) eqn:Hlt; [apply wpe_ret; cbn [gData length]; by split; [|split; [lia|]]|]. apply Z.ltb_ge in Hlt.
  safe n. cbn [gData gStatus gDataSize default from_option id]. split; [done|]. split; [lia|].
  intros Hs%Z.eqb_eq. by apply HD'.
Qed.

Lemma GetVariable_safe s n name guid A size D : shaped s n -> guid_ok guid -> (forall z, size = Some z -> 0 <= z) ->
  wpe halts (OpteeRuntimeGetVariable name guid A size D) s (fun out s' =>
    shaped s' n /\ get_bounded (Z.min (default 0 size) (Z.of_nat n)) out).
Proof.
  intros H Hg Hsz. pose proof H as (_ & Hn & _). unfold OpteeRuntimeGetVariable, get_bounded. safe n.
  assert (Hsize : 0 <= default 0 size) by (destruct size as [z|]; [by apply Hsz | done]).
  assert (Hnone : forall St, shaped s n /\ Z.of_nat (length (gData (no_data St size))) <= Z.min (default 0 size) (Z.of_nat n) /\
      (gStatus (no_data St size) = EFI_BUFFER_TOO_SMALL -> 0 <= default 0 (gDataSize (no_data St size)))).
  { intros St. cbn [no_data gData gDataSize length]. split; [done|]. split; [lia | done]. }
  destruct (EfiAtRuntime _); [apply wpe_ret, Hnone|].
  destruct name as [name|]; [|apply wpe_ret, Hnone]. destruct guid as [guid|]; [|apply wpe_ret, Hnone].
  destruct size as [z|]; [|apply wpe_ret, Hnone]. cbv [default from_option id] in *.
  destruct (_ && negb D); [apply wpe_ret, Hnone|].
  destruct (_ && (z =? 8)) eqn:Ht.
  { apply andb_true_iff in Ht as [_ Ht%Z.eqb_eq]. safe n. cbn [gData gStatus]. rewrite length_le_bytes_Z.
    split; [done|]. split; [lia | done]. }
  safe n. destruct (negb _); [apply wpe_ret, Hnone|]. safe n.
  destruct (shaped_result s n H) as (rb & Hrb & Hrl & Hrm & pb & Hpb & Hpm). rewrite Hpb, Hrb. cbn zeta. rewrite Hpm, Hrm.
  destruct (_ || _) eqn:H1; [apply wpe_ret, Hnone|]. apply orb_false_iff in H1 as [H1 H2].
  destruct (_ || _) eqn:H3; [apply wpe_ret, Hnone|]. apply orb_false_iff in H3 as [H3 H4].
  destruct (fits_checks _ sizeof_GET_PARAM _ Hn ltac:(done) H1 H3) as (L1 & -> & L2).
  destruct (fits_checks _ sizeof_GET_RESULT _ Hn ltac:(done) H2 H4) as (L3 & -> & L4).
  eapply wpe_mono; [apply (get_exchange_safe s n name guid A z _ _ H (Hg _ eq_refl)); done|].
  intros out s' (Hs' & Ho & Hz). split; [done|]. split; [|done].
  pose proof (u32_le z Hsize). unfold sizeof_GET_RESULT in L4. lia.
Qed.

Lemma InternalGetVariable_safe s n name guid : shaped s n -> length guid = 16%nat ->
  wpe halts (InternalGetVariable name guid) s (fun r s' => shaped s' n /\
    Z.of_nat (length (default [] r.1.2)) <= Z.of_nat n).
Proof.
  intros H Hg. pose proof H as (Hpub & Hn & _). unfold InternalGetVariable, rt_GetVariable. safe n. rewrite Hpub.
  assert (Hgk : guid_ok (Some guid)) by (by intros g [= <-]).
  eapply wpe_mono; [apply (GetVariable_safe s n); [done | done | by intros z [= <-]]|].
  intros o s1 (H1 & _ & Hz). cbn beta. destruct (_ =? _) eqn:Hst; cbn [negb]; [apply Z.eqb_eq in Hst | apply wpe_ret; cbn; by split; [|lia]].
  cbn zeta. apply wpe_bind. eapply wpe_service; [done|]. intros allocated s2 H2. safe n.
  destruct allocated; cbn [negb]; [|apply wpe_ret; cbn; by split; [|lia]].
  pose proof H2 as (Hpub2 & _). safe n. rewrite Hpub2.
  eapply wpe_mono; [apply (GetVariable_safe s2 n); [done | done | intros z [= <-]; by apply Hz]|].
  intros o2 s3 (H3 & Ho & _). cbn beta zeta. destruct (EFI_ERROR _).
  - apply wpe_bind. eapply wpe_service; [done|]. intros [] s4 H4. apply wpe_ret. cbn. by split; [|lia].
  - apply wpe_ret. cbn [fst snd default from_option]. unfold id. split; [done | lia].
Qed.

Lemma policy_name_short name guid : IsSecureBootPolicyVariable name guid = true -> (length name <= 10)%nat.
Proof.
  unfold IsSecureBootPolicyVariable, mVariableType. cbn [policy_search].
  repeat (case_bool_decide; [subst; vm_compute; lia|]; cbn [andb]). done.
Qed.

Lemma MeasureVariable_safe s n name guid data z : shaped s n -> length guid = 16%nat -> (length name <= 10)%nat ->
  Z.of_nat (length (default [] data)) <= Z.of_nat n ->
  wpe halts (MeasureVariable name guid data z) s (fun _ s' => shaped s' n).
Proof.
  intros H Hg Hname Hd. pose proof H as (_ & Hn & _). unfold MeasureVariable. safe n. cbn zeta.
  set (log := var_log _ _ _).
  assert (Hlog : 0 <= Z.of_nat (length log) < 2 ^ 32).
  { unfold log. rewrite length_var_log, Hg. lia. }
  rewrite u32_small by done. apply wpe_bind. eapply wpe_service; [done|]. intros allocated s1 H1.
  destruct (negb allocated); [by apply wpe_ret|]. rewrite Z.ltb_irrefl.
  apply wpe_bind. eapply wpe_service; [done|]. intros st s2 H2. apply wpe_bind. eapply wpe_service; [done|].
  intros [] s3 H3. by apply wpe_ret.
Qed.

Lemma SecureBootHook_safe s n name guid : shaped s n -> length guid = 16%nat ->
  wpe halts (SecureBootHook name guid) s (fun _ s' => shaped s' n).
Proof.
  intros H Hg. unfold SecureBootHook. apply wpe_bind. eapply wpe_service; [done|]. intros st s1 H1.
  destruct (EFI_ERROR st); [by apply wpe_ret|].
  destruct (IsSecureBootPolicyVariable name guid) eqn:Hpol; cbn [negb]; [|by apply wpe_ret].
  apply wpe_bind. eapply wpe_mono; [by apply (InternalGetVariable_safe s1 n)|].
  intros [[st2 data] z] s2 [H2 Hd]. cbn [fst snd] in Hd. cbn beta iota zeta.
  destruct (EFI_ERROR st2); apply wpe_bind;
    (eapply wpe_mono; [apply (MeasureVariable_safe s2 n); [done | done | by eapply policy_name_short | cbn; lia]|]);
    (intros ? s3 H3; cbn beta in H3; destruct (bool_decide _); [eapply wpe_service; [done | by intros []] | by apply wpe_ret]).
Qed.

Lemma set_exchange_safe s n name guid attrs data : shaped s n -> length guid = 16%nat ->
  44 + StrSize name + Z.of_nat (length data) <= Z.of_nat n ->
  wpe halts (set_exchange name guid attrs data (StrSize name) (Z.of_nat (length data))
    (u64 (44 + StrSize name + Z.of_nat (length data)))) s (fun _ s' => shaped s' n).
Proof.
  intros H Hg Hn. pose proof H as (_ & Hn' & _). assert (H0 : 0 <= StrSize name) by (unfold StrSize; lia).
  unfold set_exchange. rewrite (wrap_small 64), (wrap_small 32) by (unfold in_word; lia). safe n. done.
Qed.

Lemma SetVariable_safe s n name guid attrs size data : shaped s n -> guid_ok guid -> 0 <= size ->
  (forall d, data = Some d -> Z.of_nat (length d) = size) ->
  wpe halts (OpteeRuntimeSetVariable name guid attrs size data) s (fun _ s' => shaped s' n).
Proof.
  intros H Hg Hsz Hd. pose proof H as (_ & Hn & _). unfold OpteeRuntimeSetVariable. apply wpe_bind.
  apply wpe_mono with (Q := fun (r : Z + Z) s' => shaped s' n /\
    forall st, r = inr st -> EFI_ERROR st = false -> exists nm g, name = Some nm /\ guid = Some g).
  2: { intros [st|st] s' [Hs' Hr]; [by apply wpe_ret|]. apply wpe_bind.
       destruct (EFI_ERROR st) eqn:Herr; cbn [negb]; [by apply wpe_ret, wpe_ret|].
       destruct (Hr st eq_refl Herr) as (nm & g & -> & ->).
       eapply wpe_mono; [apply (SecureBootHook_safe s' n); [done | by apply Hg]|]. intros ? s2 H2. by apply wpe_ret. }
  safe n. destruct (EfiAtRuntime _); [by apply wpe_ret; split; [|intros st [= <-]]|].
  destruct name as [nm|]; [|by apply wpe_ret; split; [|intros st [= <-]]].
  destruct guid as [g|]; [|by apply wpe_ret; split; [|intros st [= <-]]].
  assert (Hret : forall (r : Z + Z) s', shaped s' n -> shaped s' n /\
    forall st, r = inr st -> EFI_ERROR st = false -> exists nm' g', Some nm = Some nm' /\ Some g = Some g').
  { intros r s' Hs'. split; [done|]. intros st _ _. by exists nm, g. }
  destruct (first_char nm =? 0); [by apply wpe_ret, Hret|].
  destruct (negb (size =? 0) && _) eqn:Hnull; [by apply wpe_ret, Hret|]. safe n.
  destruct (negb (mTeecSessionOpened s)); [by apply wpe_ret, Hret|].
  destruct (_ && (size =? 8)); [apply wpe_bind, wpe_modify, wpe_ret, Hret, H|]. safe n. cbn zeta.
  destruct (shaped_result s n H) as (rb & Hrb & Hrl & Hrm & pb & Hpb & Hpm). rewrite Hpm.
  destruct (_ || _) eqn:H1; [by apply wpe_ret, Hret|]. apply orb_false_iff in H1 as [H1%Z.leb_gt H2%Z.leb_gt].
  destruct (_ <? _) eqn:H3; [by apply wpe_ret, Hret|]. apply Z.ltb_ge in H3. unfold sizeof_SET_PARAM in *.
  assert (H0 : 0 <= StrSize nm) by (unfold StrSize; lia). unfold u64 in H3. rewrite Z.mod_small in H3 by lia.
  assert (Hlen : Z.of_nat (length (default [] data)) = size).
  { destruct data as [d|]; [by apply Hd|]. destruct (Z.eqb_spec size 0); [by subst | done]. }
  apply wpe_bind. rewrite <- Hlen in H3 |- *.
  eapply wpe_mono; [apply (set_exchange_safe s n nm g); [done | by apply Hg | done]|].
  intros st s' Hs'. by apply wpe_ret, Hret.
Qed.

Lemma GetNextVariableName_safe s n size name guid : shaped s n -> guid_ok guid -> (forall z, size = Some z -> 0 <= z) ->
  wpe halts (OpteeRuntimeGetNextVariableName size name guid) s (fun out s' => shaped s' n /\
    Z.of_nat (length (default [] (nName out))) <= default 0 size).
Proof.
  intros H Hg Hsz. pose proof H as (_ & Hn & _). unfold OpteeRuntimeGetNextVariableName. cbn zeta. safe n.
  assert (Hsize : 0 <= default 0 size) by (destruct size as [z|]; [by apply Hsz | done]).
  destruct (EfiAtRuntime _); [by apply wpe_ret|]. destruct size as [z|]; [|by apply wpe_ret].
  destruct name as [name|]; [|by apply wpe_ret]. destruct guid as [guid|]; [|by apply wpe_ret].
  cbv [default from_option id] in *. safe n. destruct (negb _); [by apply wpe_ret|]. safe n.
  destruct (shaped_result s n H) as (rb & Hrb & Hrl & Hrm & pb & Hpb & Hpm). rewrite Hpb, Hrb. rewrite Hpm, Hrm.
  set (LN := if first_char name =? 0 then 0 else u32 (StrSize name)).
  assert (HLN : LN = u32 LN).
  { symmetry. apply u32_small. unfold LN. destruct (_ =? 0); [done | apply u32_range]. }
  rewrite HLN. set (LN' := u32 LN) in *.
  destruct (_ || _) eqn:H1; [by apply wpe_ret|]. apply orb_false_iff in H1 as [H1 H2].
  destruct (_ || _) eqn:H3; [by apply wpe_ret|]. apply orb_false_iff in H3 as [H3 H4].
  destruct (fits_checks _ sizeof_GET_PARAM _ Hn ltac:(done) H1 H3) as (L1 & EN & L2). fold LN' in L1, L2, EN.
  destruct (fits_checks _ sizeof_GET_PARAM _ Hn ltac:(done) H2 H4) as (L3 & ER & L4).
  rewrite EN, ER. pose proof (Hg _ eq_refl) as Hgl. unfold sizeof_GET_PARAM in *.
  safe n. match goal with H : shaped ?s _ |- wpe _ _ ?s _ => result_buffer H; rename H into Hs' end.
  safe n. apply wpe_bind. eapply safe_size; [eassumption | by apply u64_range |]. intros D' _. safe n.
  destruct (EFI_ERROR _); [by apply wpe_ret|].
  case_if Hlt; [by apply wpe_ret|]. apply Z.ltb_ge in Hlt. safe n.
  cbn [nName]. split; [done|]. pose proof (u32_le z Hsize). lia.
Qed.

Lemma QueryVariableInfo_safe s n attrs outs : shaped s n ->
  wpe halts (OpteeRuntimeQueryVariableInfo attrs outs) s (fun _ s' => shaped s' n).
Proof.
  intros H. pose proof H as (_ & Hn & _). unfold OpteeRuntimeQueryVariableInfo. safe n.
  destruct (EfiAtRuntime _); [by apply wpe_ret|]. destruct (_ || _); [by apply wpe_ret|]. safe n.
  destruct (negb _); [by apply wpe_ret|]. safe n.
  destruct (shaped_result s n H) as (rb & Hrb & Hrl & Hrm & pb & Hpb & Hpm). rewrite Hpb, Hrb.
  destruct (_ || _); [by apply wpe_ret|]. safe n.
  destruct (EFI_ERROR _); [by apply wpe_ret|].
  safe n. match goal with H : shaped ?s _ |- wpe _ _ ?s _ => result_buffer H; rename H into Hs' end.
  by safe n.
Qed.

Lemma run_request_safe s n r : shaped s n -> request_ok r -> wpe halts (run_request r) s (fun _ s' => shaped s' n).
Proof.
  intros H Hr. destruct r as [name guid A size D|name guid A size data|size name guid|A outs]; cbn in Hr |- *; apply wpe_bind.
  - destruct Hr as [Hg Hz]. eapply wpe_mono; [by apply (GetVariable_safe s n)|]. intros out s' [H' _]. by apply wpe_ret.
  - destruct Hr as (Hg & H0 & Hd). eapply wpe_mono; [by apply (SetVariable_safe s n)|]. intros st s' H'. by apply wpe_ret.
  - destruct Hr as [Hg Hz]. eapply wpe_mono; [by apply (GetNextVariableName_safe s n)|]. intros out s' [H' _]. by apply wpe_ret.
  - eapply wpe_mono; [by apply (QueryVariableInfo_safe s n)|]. intros st s' H'. by apply wpe_ret.
Qed.
End Safety.
