(* ===== verification/AuthVarInit.v ===== *)
(** * Starting the variable driver

    The secure-boot variables the driver derives from the platform key at
    every boot, and the start of the driver as a whole. *)

From Stdlib Require Import ZArith Lia.
From stdpp Require Import base list numbers option gmap.
From S2P Require Import Prelude Memory AuthVar AuthVarSpec.

(** The variables involved. *)
Abbreviation pk_key := (EFI_PLATFORM_KEY_NAME, gEfiGlobalVariableGuid).
Abbreviation setup_key := (EFI_SETUP_MODE_NAME, gEfiGlobalVariableGuid).
Abbreviation enable_key := (EFI_SECURE_BOOT_ENABLE_NAME, gEfiSecureBootEnableDisableGuid).
Abbreviation mode_key := (EFI_SECURE_BOOT_MODE_NAME, gEfiGlobalVariableGuid).
Abbreviation custom_key := (EFI_CUSTOM_MODE_NAME, gEfiCustomModeEnableGuid).

Section Boot.
Context {E : Type} {B : Build} {P : AuthVarPlatform} {T : Teec E} {V : TaView E} {L : TaLaws E}.
Context (alloc_ok : forall n e, (AllocateMeasureBuffer n e).1 = true).
Implicit Types s : av E.

(** What the boot code of a phase without the variable protocol does: the
    driver stays ready and nothing is logged. *)
Definition boots s n s' : Prop := next s n s' /\ tpm (env s') = tpm (env s) /\ arch (env s') = false.

Lemma boots_trans s1 s2 s3 n : boots s1 n s2 -> boots s2 n s3 -> boots s1 n s3.
Proof. intros (N1 & T1 & _) (N2 & T2 & A). split; [by eapply next_trans|]. split; [congruence | done]. Qed.

Lemma boots_next s n s' : arch (env s) = false -> next s n s' -> tpm (env s') = tpm (env s) -> boots s n s'.
Proof. intros A N HT. split; [done|]. split; [done|]. rewrite <- A. apply N. Qed.

(** A one-byte write, on success: *)
Lemma set_byte_spec s n name guid attrs v : ready s n -> arch (env s) = false -> length guid = 16%nat ->
  name_ok name -> first_char name <> 0 -> plain attrs -> 45 + StrSize name <= Z.of_nat n ->
  wp (set_byte name guid attrs v) s (fun st s' => boots s n s' /\
    (EFI_ERROR st = false -> vars (env s') = <[(name, guid) := (attrs, [v])]> (vars (env s)))).
Proof.
  intros H Harch Hg Hns Hfc Hp Hn. unfold set_byte. change 1 with (Z.of_nat (length [v])).
  eapply wp_mono.
  { apply (set_spec alloc_ok s n name guid attrs [v] H Hg Hns); [apply Hp | done | done | by rewrite andb_false_r]. }
  intros st s' [N Hset]. unfold set_fits in Hset. cbn [length] in Hset. rewrite (proj2 (Z.leb_le _ _)) in Hset by lia.
  destruct Hset as ((Hother & _ & Hok) & e1 & _ & _ & HT). rewrite Harch, andb_false_r in HT.
  split; [by apply boots_next|]. intros Hst. apply map_eq. intros k.
  destruct (decide (k = (name, guid))) as [->|Hk].
  - rewrite lookup_insert_eq. by rewrite (Hok Hst Hp).
  - rewrite lookup_insert_ne by done. by apply Hother.
Qed.

(** A one-byte read. *)
Lemma get_byte_spec s n name guid : ready s n -> arch (env s) = false -> length guid = 16%nat -> name_ok name ->
  28 + StrSize name <= Z.of_nat n ->
  wp (OpteeRuntimeGetVariable (Some name) (Some guid) false (Some 1) true) s (fun out s' =>
    boots s n s' /\ vars (env s') = vars (env s) /\ get_answer (vars (env s) !! (name, guid)) false 1 out).
Proof.
  intros H Harch Hg Hns Hn. pose proof H as (_ & _ & _ & Hn44 & _).
  eapply wp_mono; [apply (get_spec s n name guid false 1 true H Hg Hns); [lia | done | by rewrite andb_false_r]|].
  intros out s' (N & (K & HV & HT) & Hans). unfold get_fits in Hans.
  rewrite (proj2 (Z.leb_le (28 + _) _)), (proj2 (Z.leb_le (16 + 1) _)) in Hans by lia.
  split; [by apply boots_next|]. by split.
Qed.

(** *** The derived variables *)

(** A platform key of more than one byte is enrolled. *)
Definition user_mode (m : gmap (list Z * list Z) (Z * list Z)) : bool :=
  match m !! pk_key with Some (_, _ :: _ :: _) => true | _ => false end.

(** The switch the user has stored, if any. *)
Definition stored_enable (m : gmap (list Z * list Z) (Z * list Z)) : option Z :=
  match m !! enable_key with Some (_, [b]) => Some b | _ => None end.

Definition default_enable : Z := if PcdSecureBootEnable then 1 else 0.

Definition secure_boot_on (m : gmap (list Z * list Z) (Z * list Z)) : bool :=
  user_mode m && (default default_enable (stored_enable m) =? 1).

(** The four variables as the driver leaves them. *)
Record secure_boot_state (m m' : gmap (list Z * list Z) (Z * list Z)) : Prop := {
  sb_setup : m' !! setup_key = Some (6, [if user_mode m then 0 else 1]);
  sb_mode : m' !! mode_key = Some (6, [if secure_boot_on m then 1 else 0]);
  sb_custom : m' !! custom_key = Some (3, [0]);
  sb_enable : m' !! enable_key =
    if user_mode m && bool_decide (stored_enable m = None) then Some (3, [default_enable]) else m !! enable_key;
  sb_other : forall k, k ∉ ([setup_key; mode_key; custom_key; enable_key] : list (list Z * list Z)) -> m' !! k = m !! k
}.

Lemma keys_distinct : setup_key <> enable_key /\ setup_key <> mode_key /\ setup_key <> custom_key /\
  enable_key <> mode_key /\ enable_key <> custom_key /\ mode_key <> custom_key /\ pk_key <> setup_key.
Proof. repeat split; intros [= H _]; by vm_compute in H. Qed.

(** What reading the two inputs tells. *)
Lemma pk_answer v out : (forall a d, v = Some (a, d) -> d <> []) -> get_answer v false 1 out ->
  (gStatus out =? EFI_BUFFER_TOO_SMALL) = match v with Some (_, _ :: _ :: _) => true | _ => false end.
Proof.
  intros Hne H. unfold get_answer in H. destruct v as [[a [|b [|c d]]]|].
  - by destruct (Hne a []).
  - rewrite (proj2 (Z.leb_le _ _)) in H by done. by subst out.
  - rewrite (proj2 (Z.leb_gt _ _)) in H by (cbn [length]; lia). by destruct H as [-> _].
  - by destruct H as [-> _].
Qed.

Lemma enable_answer v out : (forall a d, v = Some (a, d) -> d <> []) -> get_answer v false 1 out ->
  match (match v with Some (_, [b]) => Some b | _ => None end) with
  | Some b => EFI_ERROR (gStatus out) = false /\ gData out = [b]
  | None => EFI_ERROR (gStatus out) = true
  end.
Proof.
  intros Hne H. unfold get_answer in H. destruct v as [[a [|b [|c d]]]|].
  - by destruct (Hne a []).
  - rewrite (proj2 (Z.leb_le _ _)) in H by done. by subst out.
  - rewrite (proj2 (Z.leb_gt _ _)) in H by (cbn [length]; lia). by destruct H as [-> _].
  - by destruct H as [-> _].
Qed.

Lemma ta_nonempty e k a d : vars e !! k = Some (a, d) -> d <> [].
Proof. intros H. by apply (ta_stored _ _ _ _ H). Qed.

Definition guids_ok : Prop := length gEfiGlobalVariableGuid = 16%nat /\
  length gEfiSecureBootEnableDisableGuid = 16%nat /\ length gEfiCustomModeEnableGuid = 16%nat.

Ltac name_ok := split; [by apply (bool_decide_unpack _) | done].
Ltac size_ok :=
  match goal with
  | |- ?a + StrSize ?nm <= _ => let v := eval vm_compute in (a + StrSize nm) in change (a + StrSize nm) with v; lia
  end.
Ltac plain := split; [by unfold in_word | by split].

(** The step that reads or creates the switch. *)
Lemma enable_step s3 n m o3 : ready s3 n -> arch (env s3) = false -> guids_ok -> 79 <= Z.of_nat n ->
  match stored_enable m with
  | Some b => EFI_ERROR (gStatus o3) = false /\ gData o3 = [b]
  | None => EFI_ERROR (gStatus o3) = true
  end ->
  let SetupMode := if user_mode m then USER_MODE else SETUP_MODE in
  wp (if negb (EFI_ERROR (gStatus o3)) then
        mret (inr (if SetupMode =? USER_MODE then le_val (gData o3) else SECURE_BOOT_DISABLE))
      else if SetupMode =? USER_MODE then
        Status ← set_byte EFI_SECURE_BOOT_ENABLE_NAME gEfiSecureBootEnableDisableGuid
                   (Z.lor EFI_VARIABLE_NON_VOLATILE EFI_VARIABLE_BOOTSERVICE_ACCESS) default_enable;
        mret (if EFI_ERROR Status then inl Status else inr default_enable)
      else mret (inr SECURE_BOOT_DISABLE)) s3 (fun (r : Z + Z) s4 => boots s3 n s4 /\
    match r with
    | inl st => EFI_ERROR st = true
    | inr enable =>
        vars (env s4) = (if user_mode m && bool_decide (stored_enable m = None)
                         then <[enable_key := (3, [default_enable])]> (vars (env s3)) else vars (env s3)) /\
        (enable =? 1) && user_mode m = secure_boot_on m
    end).
Proof.
  intros R3 Ar3 (_ & G2 & _) Hn Hen. cbv zeta. unfold secure_boot_on.
  assert (Hb : boots s3 n s3) by (apply boots_next; [done | by apply next_refl | done]).
  destruct (stored_enable m) as [b|] eqn:Hs.
  - destruct Hen as [-> ->]. cbn [negb]. apply wp_ret. split; [done|]. rewrite bool_decide_eq_false_2 by done. rewrite andb_false_r.
    split; [done|]. cbn [default from_option]. destruct (user_mode m); [|by rewrite andb_false_r].
    rewrite andb_true_r. cbn. f_equal. lia.
  - rewrite Hen. cbn [negb]. rewrite bool_decide_eq_true_2 by done. rewrite andb_true_r. cbn [default from_option].
    destruct (user_mode m); cbn [andb]; [|apply wp_ret; split; [done|]; by split].
    change (USER_MODE =? USER_MODE) with true. cbv iota. apply wp_bind. eapply wp_mono.
    { apply (set_byte_spec s3 n _ _ _ _ R3 Ar3 G2); [name_ok | done | plain | size_ok]. }
    intros st s4 (B4 & V4). apply wp_ret. split; [done|]. destruct (EFI_ERROR st) eqn:Est; [done|].
    rewrite V4 by done. split; [done|]. by rewrite andb_true_r.
Qed.

Lemma InitSecureBootVariables_spec s n : ready s n -> arch (env s) = false -> guids_ok -> 79 <= Z.of_nat n ->
  wp InitSecureBootVariables s (fun st s' => boots s n s' /\
    (EFI_ERROR st = false -> secure_boot_state (vars (env s)) (vars (env s')))).
Proof.
  intros H Harch (G1 & G2 & G3) Hn. destruct keys_distinct as (K1 & K2 & K3 & K4 & K5 & K6 & K7).
  unfold InitSecureBootVariables. apply wp_bind.
  eapply wp_mono; [apply (get_byte_spec s n _ _ H Harch G1); [name_ok | size_ok]|].
  intros o1 s1 (B1 & V1 & A1). apply pk_answer in A1; [|apply ta_nonempty]. rewrite A1. cbn zeta.
  change (match _ with Some _ => _ | None => false end) with (user_mode (vars (env s))).
  set (m := vars (env s)) in *. pose proof B1 as ((R1 & _) & _ & Ar1).
  apply wp_bind. eapply wp_mono.
  { apply (set_byte_spec s1 n _ _ _ _ R1 Ar1 G1); [name_ok | done | plain | size_ok]. }
  intros st2 s2 (B2 & V2). destruct (EFI_ERROR st2) eqn:E2.
  { apply wp_ret. split; [by eapply boots_trans | congruence]. }
  specialize (V2 eq_refl). rewrite V1 in V2. pose proof B2 as ((R2 & _) & _ & Ar2).
  apply wp_bind. eapply wp_mono; [apply (get_byte_spec s2 n _ _ R2 Ar2 G2); [name_ok | size_ok]|].
  intros o3 s3 (B3 & V3 & A3). rewrite V2, lookup_insert_ne in A3 by done.
  apply enable_answer in A3; [|apply ta_nonempty]. fold m in A3. fold (stored_enable m) in A3.
  pose proof B3 as ((R3 & _) & _ & Ar3).
  pose proof (boots_trans _ _ _ _ (boots_trans _ _ _ _ B1 B2) B3) as B13. rewrite V2 in V3.
  apply wp_bind. eapply wp_mono; [apply (enable_step s3 n m o3 R3 Ar3); [done | done | exact A3]|].
  intros r s4 (B4 & Hr). pose proof (boots_trans _ _ _ _ B13 B4) as B14. pose proof B4 as ((R4 & _) & _ & Ar4).
  destruct r as [st|enable]; [by apply wp_ret; split; [|congruence]|]. destruct Hr as (V4 & Hon). rewrite V3 in V4.
  assert (Hmode : (if (enable =? SECURE_BOOT_ENABLE) && ((if user_mode m then USER_MODE else SETUP_MODE) =? USER_MODE)
                   then SECURE_BOOT_MODE_ENABLE else SECURE_BOOT_MODE_DISABLE) = if secure_boot_on m then 1 else 0).
  { rewrite <- Hon. unfold SECURE_BOOT_ENABLE. by destruct (user_mode m), (enable =? 1). }
  rewrite Hmode. apply wp_bind. eapply wp_mono.
  { apply (set_byte_spec s4 n _ _ _ _ R4 Ar4 G1); [name_ok | done | plain | size_ok]. }
  intros st5 s5 (B5 & V5). pose proof (boots_trans _ _ _ _ B14 B5) as B15. pose proof B5 as ((R5 & _) & _ & Ar5).
  destruct (EFI_ERROR st5) eqn:E5; [by apply wp_ret; split; [|congruence]|]. specialize (V5 eq_refl).
  eapply wp_mono.
  { apply (set_byte_spec s5 n _ _ _ _ R5 Ar5 G3); [name_ok | done | plain | size_ok]. }
  intros st6 s6 (B6 & V6). split; [by eapply boots_trans|]. intros E6. rewrite (V6 E6), V5, V4.
  change (Z.lor EFI_VARIABLE_BOOTSERVICE_ACCESS EFI_VARIABLE_RUNTIME_ACCESS) with 6.
  change (Z.lor EFI_VARIABLE_RUNTIME_ACCESS EFI_VARIABLE_BOOTSERVICE_ACCESS) with 6.
  change (Z.lor EFI_VARIABLE_NON_VOLATILE EFI_VARIABLE_BOOTSERVICE_ACCESS) with 3.
  split.
  - rewrite !lookup_insert_ne by done. destruct (_ && _); [rewrite lookup_insert_ne by done|]; apply lookup_insert_eq.
  - rewrite lookup_insert_ne by done. apply lookup_insert_eq.
  - apply lookup_insert_eq.
  - rewrite !lookup_insert_ne by done. destruct (_ && _); [apply lookup_insert_eq | by rewrite lookup_insert_ne].
  - intros k Hk. rewrite !not_elem_of_cons in Hk. destruct Hk as (? & ? & ? & ? & _).
    rewrite !lookup_insert_ne by done. destruct (_ && _); by rewrite ?lookup_insert_ne.
Qed.

(** *** The start *)

(** The size of the transport buffers. *)
Definition transport_size : Z := Z.max PcdMaxVariableSize PcdMaxHardwareErrorVariableSize + sizeof_VARIABLE_PARAM.

(** The services used at the start: a session the TA opens is live, memory
    has the size asked for, and nothing changes the variables. *)
Class StartLaws : Prop := {
  api_same e : same e (OpteeClientApiInitialize e).2;
  context_same e : same e (TEEC_InitializeContext e).2;
  open_live uuid e : let r := TEEC_OpenSession uuid e in
    same e r.2 /\ (r.1.1 = TEEC_SUCCESS -> live r.2 r.1.2);
  shm_size size e : 0 <= size -> let r := TEEC_AllocateSharedMemory size e in
    same e r.2 /\ (r.1.1 = TEEC_SUCCESS -> Z.of_nat (length r.1.2) = size);
  arch_installs e : (forall sid, live e sid -> live (InstallVariableArch e).2 sid) /\
    vars (InstallVariableArch e).2 = vars e;
  write_arch_same e : same e (InstallVariableWriteArch e).2;
  event_same e : same e (CreateExitBootServicesEvent e).2
}.

Context {SL : StartLaws}.

(** The driver's state changes in a step that leaves the world as it is to
    the TA's variables. *)
Lemma TaOpenSession_spec s : 0 <= PcdMaxVariableSize -> transport_size < 2 ^ 31 ->
  arch (env s) = false ->
  wp TaOpenSession s (fun st s' => same (env s) (env s') /\ published s' = published s /\
    (EFI_ERROR st = false -> ready s' (Z.to_nat transport_size))).
Proof.
  intros Hpcd Hts Harch. assert (H44 : 44 <= transport_size) by (unfold transport_size, sizeof_VARIABLE_PARAM; lia).
  unfold TaOpenSession. fold transport_size. apply wp_bind, wp_service.
  destruct (open_live (swap_uuid gOpteeAuthVarTaGuid) (env s)) as [S1 L1].
  destruct (TEEC_OpenSession _ _) as [[res sid] e1]. cbn [fst snd] in *. apply wp_bind, wp_modify.
  destruct (Z.eqb_spec res TEEC_SUCCESS) as [->|Hr]; cbn [negb]; [|by apply wp_ret].
  apply wp_bind, wp_modify. cbn zeta. apply wp_bind, wp_service. cbn [set_opened set_session set_env env].
  destruct (shm_size transport_size e1 ltac:(lia)) as [S2 L2].
  destruct (TEEC_AllocateSharedMemory _ e1) as [[res2 pb] e2]. cbn [fst snd] in *. apply wp_bind, wp_modify.
  assert (S12 : same (env s) e2) by (by etransitivity).
  destruct (Z.eqb_spec res2 TEEC_SUCCESS) as [->|Hr]; cbn [negb]; [|by apply wp_ret].
  apply wp_bind, wp_service. cbn [set_param set_opened set_session set_env env].
  destruct (shm_size transport_size e2 ltac:(lia)) as [S3 L3].
  destruct (TEEC_AllocateSharedMemory _ e2) as [[res3 rb] e3]. cbn [fst snd] in *. apply wp_bind, wp_modify.
  assert (S13 : same (env s) e3) by (by etransitivity).
  destruct (Z.eqb_spec res3 TEEC_SUCCESS) as [->|Hr]; cbn [negb]; apply wp_ret; [|done].
  split; [done|]. split; [done|]. intros _. specialize (L1 eq_refl). specialize (L2 eq_refl). specialize (L3 eq_refl).
  split; [exists pb, rb; split; [done|]; cbn; lia|]. split; [done|]. split; [by apply S3, S2|].
  split; [lia|]. cbn [env set_result set_param set_opened set_session set_env].
  rewrite (proj2 (proj1 S13)), Harch. done.
Qed.

(** What a start leaves behind once the services are published. *)
Definition started s s' : Prop :=
  ready s' (Z.to_nat transport_size) /\ secure_boot_state (vars (env s)) (vars (env s')).

Lemma started_env s s' e : published s' = true -> started s s' -> (forall sid, live (env s') sid -> live e sid) ->
  vars e = vars (env s') -> started s (set_env e s').
Proof.
  intros Hpub ((Htr & Ho & Hl & Hn & _) & Hsb) Hlive Hv. split; [|cbn [env set_env]; by rewrite Hv].
  destruct Htr as (pb & rb & Ht & Hrest).
  split; [exists pb, rb; split; [by rewrite Ht | done]|]. split; [done|]. split; [by apply Hlive|]. by split.
Qed.

Lemma Initialize_spec s : 0 <= PcdMaxVariableSize -> 79 <= transport_size < 2 ^ 31 -> guids_ok ->
  arch (env s) = false -> published s = false ->
  wp VariableAuthOpteeRuntimeInitialize s (fun st s' =>
    if published s' then started s s'
    else EFI_ERROR st = true \/
      (EFI_ERROR st = false /\ (TEEC_InitializeContext (OpteeClientApiInitialize (env s)).2).1 <> TEEC_SUCCESS)).
Proof.
  intros Hpcd Hts Hg Harch Hpub. unfold VariableAuthOpteeRuntimeInitialize. apply wp_bind, wp_service.
  pose proof (api_same (env s)) as S1. destruct (OpteeClientApiInitialize (env s)) as [st1 e1]. cbn [fst snd] in *.
  destruct (EFI_ERROR st1) eqn:E1; [apply wp_ret; cbn [published set_env]; rewrite Hpub; by left|].
  apply wp_bind, wp_service. cbn [env set_env]. pose proof (context_same e1) as S2.
  destruct (TEEC_InitializeContext e1) as [res2 e2]. cbn [fst snd] in *.
  destruct (Z.eqb_spec res2 TEEC_SUCCESS) as [->|Hr]; cbn [negb].
  2: { apply wp_ret. cbn [published set_env]. rewrite Hpub. by right. }
  assert (S12 : same (env s) e2) by (by etransitivity). change (set_env e2 (set_env e1 s)) with (set_env e2 s).
  assert (A2 : arch e2 = false) by (rewrite (proj2 (proj1 S12)); done).
  apply wp_bind. eapply wp_mono; [apply (TaOpenSession_spec (set_env e2 s)); [done | lia | done]|].
  intros st3 s3 (S3 & P3 & R3). cbn [env published set_env] in S3, P3.
  destruct (EFI_ERROR st3) eqn:E3; [apply wp_ret; rewrite P3, Hpub; by left|]. specialize (R3 eq_refl).
  assert (S13 : same (env s) (env s3)) by (by etransitivity).
  assert (A3 : arch (env s3) = false) by (rewrite (proj2 (proj1 S13)); done).
  apply wp_bind. eapply wp_mono; [apply (InitSecureBootVariables_spec s3 _ R3 A3 Hg); lia|].
  intros st4 s4 (((R4 & _ & P4 & _) & _) & Hsb).
  destruct (EFI_ERROR st4) eqn:E4; [apply wp_ret; rewrite P4, P3, Hpub; by left|]. specialize (Hsb eq_refl).
  rewrite (proj1 (proj2 S13)) in Hsb. apply wp_bind, wp_modify.
  assert (St : started s (set_published s4)).
  { split; [|done]. destruct R4 as (Htr & Ho & Hl & Hn & _). destruct Htr as (pb & rb & Ht & Hrest).
    split; [exists pb, rb; split; [by rewrite Ht at 1 | done]|]. by split; [|split; [|split]]. }
  apply wp_bind, wp_service. destruct (arch_installs (env (set_published s4))) as [L5 V5].
  pose proof (started_env s (set_published s4) _ eq_refl St L5 V5) as St5. clear St.
  set (s5 := set_env _ (set_published s4)) in *. case_if Herr5; [by apply wp_ret|].
  apply wp_bind, wp_service. destruct (write_arch_same (env s5)) as ((L6 & _) & V6 & _).
  pose proof (started_env s s5 _ eq_refl St5 L6 V6) as St6. clear St5. set (s6 := set_env _ s5) in *.
  case_if Herr6; [by apply wp_ret|].
  apply wp_service. destruct (event_same (env s6)) as ((L7 & _) & V7 & _).
  exact (started_env s s6 _ eq_refl St6 L7 V7).
Qed.
End Boot.
