(* ===== verification/AuthVarProps.v ===== *)
(** * Properties of the variable driver

    The claims about the variable services, their start and the measurement
    of the secure-boot policy, each applied to a small trusted application. *)

From Stdlib Require Import ZArith Lia.
From stdpp Require Import base list numbers option gmap.
From S2P Require Import Prelude Memory AuthVar AuthVarSpec AuthVarSafe AuthVarInit.

Section Claims.
Context {E : Type} {B : Build} {P : AuthVarPlatform} {T : Teec E}.
Implicit Types s : av E.

(** C7: whatever the trusted application answers and
    whichever services fail, no sequence of variable service calls makes the
    installed driver read or write outside of its transport buffers or
    dereference a buffer it does not have; at worst a failing assertion of a
    debug build stops it. *)
Theorem auth_var_no_overrun l s n :
  (forall sid op input cap e, 0 <= cap -> Z.of_nat (length (TEEC_InvokeCommand sid op input cap e).1.1.1.2) <= cap) ->
  shaped s n -> Forall request_ok l ->
  match run_requests l s with Ret tt s' => shaped s' n | Stop w => w = Halt end.
Proof.
  intros Ho Hs Hl. enough (W : wpe halts (run_requests l) s (fun _ s' => shaped s' n)).
  { unfold wpe in W. destruct (run_requests l s) as [[] s'|w]; done. }
  revert s Hs. induction Hl as [|r l Hr _ IH]; intros s Hs; [by apply wpe_ret|].
  cbn [run_requests]. apply wpe_bind. eapply wpe_mono; [by apply (run_request_safe Ho s n)|].
  intros ? s' Hs'. by apply IH.
Qed.

(** a read hands back at most as many bytes as the caller
    has room for, whatever size the trusted application reports. *)
Theorem get_within_bounds s n name guid attributes size data :
  (forall sid op input cap e, 0 <= cap -> Z.of_nat (length (TEEC_InvokeCommand sid op input cap e).1.1.1.2) <= cap) ->
  shaped s n -> guid_ok guid -> 0 <= size ->
  match OpteeRuntimeGetVariable name guid attributes (Some size) data s with
  | Ret out _ => Z.of_nat (length (gData out)) <= size
  | Stop w => w = Halt
  end.
Proof.
  intros Ho Hs Hg Hsize.
  pose proof (GetVariable_safe Ho s n name guid attributes (Some size) data Hs Hg ltac:(by intros z [= <-])) as W.
  unfold wpe in W. destruct (OpteeRuntimeGetVariable _ _ _ _ _ s) as [out s'|w]; [|done].
  destruct W as (_ & W & _). cbv [default from_option id] in W. lia.
Qed.

Context {V : TaView E} {L : TaLaws E}.

(** C37: with an open session, a read that fits
    the transport buffers answers with the stored attributes and bytes when
    the caller has room for them, with the size needed when not, and with
    EFI_NOT_FOUND for a missing variable; a request too large for the buffers
    is refused with nothing changed. *)
Theorem OpteeRuntimeGetVariable_correct s n name guid attributes size data :
  ready s n -> length guid = 16%nat -> name_ok name -> 0 <= size < 2 ^ 32 -> (size <> 0 -> data = true) ->
  test_name name guid && (size =? 8) = false ->
  exists out s', OpteeRuntimeGetVariable (Some name) (Some guid) attributes (Some size) data s = Ret out s' /\
    ready s' n /\ same (env s) (env s') /\
    if get_fits n name size then get_answer (vars (env s) !! (name, guid)) attributes size out
    else gStatus out = EFI_BAD_BUFFER_SIZE /\ s' = s.
Proof.
  intros H Hg Hn Hs Hd Ht.
  destruct (wp_returns _ _ _ (get_spec s n name guid attributes size data H Hg Hn Hs Hd Ht)) as (out & s' & E1 & (R & _) & S1 & A).
  by exists out, s'.
Qed.

Context (alloc_ok : forall n e, (AllocateMeasureBuffer n e).1 = true).

(** C38: with an open session, a write of a plain
    variable that fits the transport buffer stores exactly the given
    attributes and bytes when it succeeds (no bytes: deletes the variable)
    and changes no other variable; a failing write changes no variable; one
    that does not fit is refused with nothing changed. *)
Theorem OpteeRuntimeSetVariable_correct s n name guid attrs data :
  ready s n -> length guid = 16%nat -> name_ok name -> first_char name <> 0 -> plain attrs ->
  Z.of_nat (length data) < 2 ^ 32 -> test_name name guid && (Z.of_nat (length data) =? 8) = false ->
  exists st s', OpteeRuntimeSetVariable (Some name) (Some guid) attrs (Z.of_nat (length data)) (Some data) s = Ret st s' /\
    ready s' n /\
    if set_fits n name data then
      vars (env s') =
        if EFI_ERROR st then vars (env s)
        else if bool_decide (data = []) then delete (name, guid) (vars (env s))
        else <[(name, guid) := (attrs, data)]> (vars (env s))
    else st = EFI_BAD_BUFFER_SIZE /\ s' = s.
Proof.
  intros H Hg Hn Hf Hp Hd Ht.
  destruct (wp_returns _ _ _ (set_spec alloc_ok s n name guid attrs data H Hg Hn (proj1 Hp) Hd Hf Ht))
    as (st & s' & E1 & (R & _) & A). exists st, s'. split; [done|]. split; [done|].
  destruct (set_fits n name data); [|done]. destruct A as ((Hother & Hbad & Hok) & _).
  destruct (EFI_ERROR st); [by apply Hbad|]. apply map_eq. intros k. specialize (Hok eq_refl Hp).
  destruct (decide (k = (name, guid))) as [->|Hk].
  - rewrite Hok. destruct (bool_decide _); [by rewrite lookup_delete_eq | by rewrite lookup_insert_eq].
  - rewrite Hother by done. destruct (bool_decide _); [by rewrite lookup_delete_ne | by rewrite lookup_insert_ne].
Qed.

(** C24: what a successful write of a plain variable
    stores, a following read delivers, through both transports: the same
    attributes and the same bytes. *)
Theorem auth_var_set_get_roundtrip s n name guid attrs data size st s1 :
  ready s n -> length guid = 16%nat -> name_ok name -> first_char name <> 0 -> plain attrs -> data <> [] ->
  test_name name guid = false -> set_fits n name data = true ->
  Z.of_nat (length data) <= size -> 16 + size <= Z.of_nat n ->
  OpteeRuntimeSetVariable (Some name) (Some guid) attrs (Z.of_nat (length data)) (Some data) s = Ret st s1 ->
  EFI_ERROR st = false ->
  exists s2, OpteeRuntimeGetVariable (Some name) (Some guid) true (Some size) true s1 =
    Ret {| gStatus := EFI_SUCCESS; gAttributes := Some attrs; gDataSize := Some (Z.of_nat (length data)); gData := data |} s2 /\
    ready s2 n /\ vars (env s2) = <[(name, guid) := (attrs, data)]> (vars (env s)).
Proof.
  intros H Hg Hn Hf Hp Hne Ht Hfit Hsize Hcap Hrun Hst. pose proof H as (_ & _ & _ & Hn44 & _).
  pose proof Hfit as Hfit'. unfold set_fits in Hfit'. apply Z.leb_le in Hfit'.
  destruct (wp_Ret _ _ _ _ _ Hrun (set_spec alloc_ok s n name guid attrs data H Hg Hn (proj1 Hp) ltac:(lia) Hf ltac:(by rewrite Ht)))
    as ((R1 & _) & A). rewrite Hfit in A. destruct A as ((Hother & _ & Hok) & _).
  specialize (Hok Hst Hp). rewrite bool_decide_eq_false_2 in Hok by done.
  destruct (wp_returns _ _ _ (get_spec s1 n name guid true size true R1 Hg Hn ltac:(lia) ltac:(done) ltac:(by rewrite Ht)))
    as (out & s2 & E2 & (R2 & _) & (_ & V2 & _) & A2).
  unfold get_fits in A2. rewrite (proj2 (Z.leb_le (28 + _) _)), (proj2 (Z.leb_le (16 + _) _)) in A2 by lia.
  cbn [andb] in A2. unfold get_answer in A2. rewrite Hok, (proj2 (Z.leb_le _ _) Hsize) in A2. subst out.
  exists s2. split; [done|]. split; [done|]. rewrite V2. apply map_eq. intros k.
  destruct (decide (k = (name, guid))) as [->|Hk]; [by rewrite lookup_insert_eq|].
  rewrite lookup_insert_ne by done. by apply Hother.
Qed.


(** at boot the driver derives the
    secure-boot variables from the stored ones: SetupMode is 0 exactly when a
    platform key is enrolled; SecureBoot is 1 exactly when it is and the
    stored switch, or without one the platform's default, says so; the switch
    is created only when missing with a key enrolled; CustomMode is reset;
    no other variable changes. *)
Theorem InitSecureBootVariables_correct s n :
  ready s n -> arch (env s) = false -> guids_ok -> 79 <= Z.of_nat n ->
  exists st s', InitSecureBootVariables s = Ret st s' /\ ready s' n /\
    (EFI_ERROR st = false -> secure_boot_state (vars (env s)) (vars (env s'))).
Proof.
  intros H Harch Hg Hn.
  destruct (wp_returns _ _ _ (InitSecureBootVariables_spec alloc_ok s n H Harch Hg Hn)) as (st & s' & E1 & ((R & _) & _) & A).
  by exists st, s'.
Qed.

Context {SL : StartLaws}.

(** the start of the driver
    returns; if it has published its services, a session is open, both
    buffers are allocated at the configured size and the secure-boot
    variables are set; if it has not, it reports an error -- except when the
    TEE context could not be initialised, which it reports as success. *)
Theorem VariableAuthOpteeRuntimeInitialize_correct s :
  0 <= PcdMaxVariableSize -> 79 <= transport_size < 2 ^ 31 -> guids_ok ->
  arch (env s) = false -> published s = false ->
  exists st s', VariableAuthOpteeRuntimeInitialize s = Ret st s' /\
    if published s'
    then ready s' (Z.to_nat transport_size) /\ secure_boot_state (vars (env s)) (vars (env s'))
    else EFI_ERROR st = true \/
      (EFI_ERROR st = false /\ (TEEC_InitializeContext (OpteeClientApiInitialize (env s)).2).1 <> TEEC_SUCCESS).
Proof. intros Hp Ht Hg Ha Hpub. apply wp_returns. by apply (Initialize_spec alloc_ok s Hp Ht Hg Ha Hpub). Qed.
End Claims.

(** ** A small trusted application *)

Module AuthVarDemo.
#[export] Instance debug : Build := {| debug_build := true |}.

Definition guid_of (b : Z) : list Z := replicate 16 b.

#[export] Instance platform : AuthVarPlatform := {|
  PcdMaxVariableSize := 100; PcdMaxHardwareErrorVariableSize := 80; PcdSecureBootEnable := true;
  gEfiGlobalVariableGuid := guid_of 10; gEfiImageSecurityDatabaseGuid := guid_of 11;
  gEfiSecureBootEnableDisableGuid := guid_of 12; gEfiCustomModeEnableGuid := guid_of 13;
  gOpteeAuthVarTaGuid := guid_of 14 |}.

Abbreviation key := (list Z * list Z)%type.
Abbreviation value := (Z * list Z)%type.

Record world := { store : gmap key value; events : list (Z * Z * list Z); protocol : bool }.

(** Values the TA stores. *)
Definition good (kv : key * value) : Prop :=
  (0 <= kv.2.1 < 2 ^ 32 /\ kv.2.2 <> []) /\ sizeof_GET_RESULT + Z.of_nat (length kv.2.2) < 2 ^ 32.

#[export] Instance good_dec kv : Decision (good kv).
Proof. unfold good. apply _. Defined.

Definition kept (w : world) : gmap key value := filter good (store w).

(** CHAR16 strings from bytes. *)
Fixpoint chars (bs : list Z) : list Z :=
  match bs with
  | a :: b :: bs => le_val [a; b] :: chars bs
  | _ => []
  end.

Definition field (input : list Z) (off n : nat) : list Z := take n (drop off input).
Definition num (input : list Z) (off n : nat) : Z := le_val (field input off n).

Definition ta_read (input : list Z) (cap : Z) (w : world) : Z * list Z * Z * Z * world :=
  let nsz := Z.to_nat (num input 4 2) in
  let k := (chars (field input 24 (nsz - 2)), field input 8 16) in
  match kept w !! k with
  | None => (TEEC_ERROR_ITEM_NOT_FOUND, [], 0, 0, w)
  | Some (attrs, data) =>
      if sizeof_GET_RESULT + Z.of_nat (length data) <=? cap
      then (TEEC_SUCCESS, get_result [0; 0; 0; 0] attrs data [], 0, 0, w)
      else (TEEC_ERROR_SHORT_BUFFER, [], sizeof_GET_RESULT + Z.of_nat (length data), 0, w)
  end.

Definition with_store (w : world) (m : gmap key value) : world :=
  {| store := m; events := events w; protocol := protocol w |}.

Definition ta_write (input : list Z) (w : world) : Z * list Z * Z * Z * world :=
  let nsz := Z.to_nat (num input 4 2) in
  let k := (chars (field input 40 (nsz - 2)), field input 8 16) in
  let attrs := num input 24 4 in
  let data := field input (40 + nsz) (Z.to_nat (num input 28 4)) in
  if bool_decide (data = []) then (TEEC_SUCCESS, [], 0, 0, with_store w (delete k (store w)))
  else if bool_decide (good (k, (attrs, data)))
  then (TEEC_SUCCESS, [], 0, 0, with_store w (<[k := (attrs, data)]> (store w)))
  else (TEEC_ERROR_OUT_OF_MEMORY, [], 0, 0, w).

(** A platform on which everything but the TEE context may work. *)
Definition teec (context_ok : bool) : Teec world := {|
  EfiAtRuntime := fun _ => false;
  OpteeClientApiInitialize := fun w => (EFI_SUCCESS, w);
  OpteeClientApiFinalize := fun w => w;
  TEEC_InitializeContext := fun w => (if context_ok then TEEC_SUCCESS else 0xFFFF0000, w);
  TEEC_FinalizeContext := fun w => w;
  TEEC_OpenSession := fun _ w => (TEEC_SUCCESS, 7, w);
  TEEC_CloseSession := fun _ w => w;
  TEEC_AllocateSharedMemory := fun n w => (TEEC_SUCCESS, replicate (Z.to_nat n) 0xAA, w);
  TEEC_ReleaseSharedMemory := fun w => w;
  TEEC_InvokeCommand := fun _ op input cap w =>
    if op =? VSGetOp then ta_read input cap w
    else if op =? VSSetOp then ta_write input w
    else (TEEC_ERROR_ACCESS_DENIED, [], 0, 0, w);
  ResetSystem := fun w => w;
  LocateVariableArch := fun w => (if protocol w then EFI_SUCCESS else EFI_NOT_FOUND, w);
  InstallVariableArch := fun w => (EFI_SUCCESS, {| store := store w; events := events w; protocol := true |});
  InstallVariableWriteArch := fun w => (EFI_SUCCESS, w);
  CreateExitBootServicesEvent := fun w => (EFI_SUCCESS, w);
  AllocateMeasureBuffer := fun _ w => (true, w);
  FreeMeasureBuffer := fun w => w;
  OtherGetVariable := fun _ _ n _ w => (EFI_NOT_FOUND, n, [], w);
  TpmMeasureAndLogData := fun pcr ev l w =>
    (EFI_SUCCESS, {| store := store w; events := events w ++ [(pcr, ev, l)]; protocol := protocol w |})
|}.

#[export] Instance services : Teec world := teec true.

#[export] Instance view : TaView world := {|
  vars := kept; live := fun _ sid => sid = 7; tpm := events; arch := protocol |}.

Lemma chars_bytes name : Forall (fun c => 0 < c < 2 ^ 16) name -> chars (char16_bytes name) = name.
Proof.
  induction 1 as [|c name Hc _ IH]; [done|].
  change (char16_bytes (c :: name)) with (c mod 256 :: (c / 256) mod 256 :: char16_bytes name). cbn [chars]. rewrite IH.
  f_equal. cbn [le_val]. pose proof (Z.div_mod c 256 ltac:(lia)).
  rewrite (Z.mod_small (c / 256)) by (split; [apply Z.div_pos | apply Z.div_lt_upper_bound]; lia). lia.
Qed.

Lemma name_field name : Forall (fun c => 0 < c < 2 ^ 16) name -> forall a rest,
  chars (field (a ++ name_bytes name ++ rest) (length a) (Z.to_nat (StrSize name) - 2)) = name.
Proof.
  intros Hn a rest. unfold field, name_bytes. rewrite drop_app_length, <- app_assoc, take_app_length'.
  - by apply chars_bytes.
  - rewrite length_char16_bytes. unfold StrSize. lia.
Qed.

Lemma num_field a k z rest : in_word (8 * Z.of_nat k) z -> num (a ++ le_bytes k z ++ rest) (length a) k = z.
Proof.
  intros Hz. unfold num, field. rewrite drop_app_length, take_app_length' by (by rewrite length_le_bytes).
  rewrite le_val_le_bytes. replace (256 ^ Z.of_nat k) with (2 ^ (8 * Z.of_nat k)).
  - by apply Z.mod_small.
  - rewrite Z.pow_mul_r by lia. done.
Qed.

(** The requests as the TA takes them apart. *)
Lemma read_fields size name guid : length guid = 16%nat -> name_ok name ->
  Z.to_nat (num (get_request size name guid) 4 2) = Z.to_nat (StrSize name) /\
  field (get_request size name guid) 8 16 = guid /\
  chars (field (get_request size name guid) 24 (Z.to_nat (StrSize name) - 2)) = name.
Proof.
  intros Hg [Hwf Hn]. unfold get_request. split; [|split].
  - f_equal. apply (num_field (le_bytes 4 size) 2). unfold in_word, StrSize in *. lia.
  - pose proof (slice (le_bytes 4 size ++ le_bytes 2 (StrSize name) ++ [0; 0]) guid (name_bytes name ++ [0; 0; 0; 0])) as S.
    rewrite !length_app, !length_le_bytes, Hg, <- !app_assoc in S. exact S.
  - pose proof (name_field name Hwf (le_bytes 4 size ++ le_bytes 2 (StrSize name) ++ [0; 0] ++ guid) [0; 0; 0; 0]) as S.
    rewrite !length_app, !length_le_bytes, Hg, <- !app_assoc in S. exact S.
Qed.

Lemma write_fields name guid attrs data : length guid = 16%nat -> name_ok name -> in_word 32 attrs ->
  Z.of_nat (length data) < 2 ^ 32 -> let input := set_request name guid attrs data in
  Z.to_nat (num input 4 2) = Z.to_nat (StrSize name) /\ field input 8 16 = guid /\ num input 24 4 = attrs /\
  chars (field input 40 (Z.to_nat (StrSize name) - 2)) = name /\
  field input (40 + Z.to_nat (StrSize name)) (Z.to_nat (num input 28 4)) = data.
Proof.
  intros Hg [Hwf Hn] Ha Hd. cbv zeta. unfold set_request.
  set (hd := le_bytes 4 sizeof_SET_PARAM ++ le_bytes 2 (StrSize name) ++ [0; 0] ++ guid).
  assert (Hhd : length hd = 24%nat) by (unfold hd; rewrite !length_app, !length_le_bytes, Hg; done).
  assert (Hnum : num (hd ++ le_bytes 4 attrs ++ le_bytes 4 (Z.of_nat (length data)) ++ le_bytes 4 0 ++ le_bytes 4 (StrSize name) ++
      name_bytes name ++ data ++ [0; 0; 0; 0]) 28 4 = Z.of_nat (length data)).
  { pose proof (num_field (hd ++ le_bytes 4 attrs) 4 (Z.of_nat (length data))) as S.
    rewrite length_app, Hhd, length_le_bytes in S. setoid_rewrite <- app_assoc in S. apply S. unfold in_word. lia. }
  split; [|split; [|split; [|split]]].
  - f_equal. apply (num_field (le_bytes 4 sizeof_SET_PARAM) 2). unfold in_word, StrSize in *. lia.
  - pose proof (slice (le_bytes 4 sizeof_SET_PARAM ++ le_bytes 2 (StrSize name) ++ [0; 0]) guid) as S.
    rewrite !length_app, !length_le_bytes, Hg in S. setoid_rewrite <- app_assoc in S. apply S.
  - pose proof (num_field hd 4 attrs) as S. rewrite Hhd in S. unfold hd in S. setoid_rewrite <- app_assoc in S. by apply S.
  - pose proof (name_field name Hwf (hd ++ le_bytes 4 attrs ++ le_bytes 4 (Z.of_nat (length data)) ++ le_bytes 4 0 ++
      le_bytes 4 (StrSize name)) (data ++ [0; 0; 0; 0])) as S.
    rewrite !length_app, !length_le_bytes, Hhd in S. unfold hd in S. rewrite <- !app_assoc in S. exact S.
  - unfold hd in Hnum. rewrite <- !app_assoc in Hnum. rewrite Hnum, Nat2Z.id. unfold field.
    pose proof (slice (hd ++ le_bytes 4 attrs ++ le_bytes 4 (Z.of_nat (length data)) ++ le_bytes 4 0 ++
      le_bytes 4 (StrSize name) ++ name_bytes name) data [0; 0; 0; 0]) as S.
    rewrite !length_app, !length_le_bytes, Hhd in S. unfold hd in S. rewrite <- !app_assoc in S.
    pose proof (length_name_bytes name). replace (40 + Z.to_nat (StrSize name))%nat with (24 + (4 + (4 + (4 + (4 + length (name_bytes name))))))%nat by lia.
    exact S.
Qed.

Lemma kept_delete w k : kept (with_store w (delete k (store w))) = delete k (kept w).
Proof. unfold kept. cbn [store with_store]. by rewrite map_filter_delete. Qed.

Lemma kept_insert w k v : good (k, v) -> kept (with_store w (<[k := v]> (store w))) = <[k := v]> (kept w).
Proof. intros H. unfold kept. cbn [store with_store]. by rewrite map_filter_insert_True. Qed.

Lemma demo_output sid op input cap (w : world) res out a b w' : 0 <= cap ->
  TEEC_InvokeCommand sid op input cap w = (res, out, a, b, w') -> Z.of_nat (length out) <= cap.
Proof.
  intros Hc H. cbn in H. destruct (op =? VSGetOp).
  - unfold ta_read in H. cbv zeta in H. destruct (kept w !! _) as [[attrs data]|] in H; [|by simplify_eq].
    destruct (_ <=? cap) eqn:Hfit in H; injection H as <- <- <- <- <-; [|done]. apply Z.leb_le in Hfit. unfold get_result.
    rewrite !length_app, !length_le_bytes. cbn [length]. unfold sizeof_GET_RESULT in Hfit. lia.
  - destruct (op =? VSSetOp); [|by simplify_eq].
    unfold ta_write in H. cbv zeta in H. repeat case_bool_decide; by simplify_eq.
Qed.

#[export] Instance laws : TaLaws world.
Proof.
  split; try done.
  - intros w [name guid] attrs data H. apply map_lookup_filter_Some in H as [_ [[H1 H2] H3]]. by split; [|split].
  - exact demo_output.
  - intros sid name guid cap w res out a b w' _ Hg Hn H.
    destruct (read_fields sizeof_GET_PARAM name guid Hg Hn) as (F1 & F2 & F3).
    change (ta_read (get_request sizeof_GET_PARAM name guid) cap w = (res, out, a, b, w')) in H.
    unfold ta_read in H. cbv zeta in H. rewrite F1, F2, F3 in H. change (vars w) with (kept w).
    destruct (kept w !! (name, guid)) as [[attrs data]|] eqn:Hv.
    + case_match eqn:Hfit; injection H as <- <- <- <- <-; (split; [done|]); [|done].
      split; [done|]. by exists [0; 0; 0; 0], [].
    + by injection H as <- <- <- <- <-.
  - intros sid name guid attrs data cap w res out a b w' _ Hg Hn Ha Hd H.
    destruct (write_fields name guid attrs data Hg Hn Ha Hd) as (F1 & F2 & F3 & F4 & F5).
    change (ta_write (set_request name guid attrs data) w = (res, out, a, b, w')) in H.
    unfold ta_write in H. cbv zeta in H. rewrite F1 in H. rewrite F2, F3, F4, F5 in H. change (@vars world view) with kept.
    case_bool_decide as Hempty; [|case_bool_decide as Hgood]; injection H as <- <- <- <- <-.
    + split; [done|]. split; [done|]. rewrite kept_delete. split; [intros k Hk; by apply lookup_delete_ne|].
      split; [done|]. intros _ _. by apply lookup_delete_eq.
    + split; [done|]. split; [done|]. rewrite kept_insert by done. split; [intros k Hk; by apply lookup_insert_ne|].
      split; [done|]. intros _ _. by apply lookup_insert_eq.
    + by split; [|split].
  - intros w. by destruct (protocol w) eqn:Hp; cbn; rewrite Hp.
Qed.

Lemma laws_alloc (n : Z) (w : world) : (AllocateMeasureBuffer n w).1 = true.
Proof. done. Qed.


Lemma start_laws (ok : bool) : StartLaws (T := teec ok).
Proof.
  split; try done. intros size w Hs. cbn. split; [done|]. intros _. rewrite length_replicate. lia.
Qed.

(** The driver before its start, and with an open session. *)
Definition fresh (w : world) : av world :=
  Build_av w false 0 {| buffer := None; mem_size := 0 |} {| buffer := None; mem_size := 0 |} false.

Definition opened (w : world) : av world :=
  let m := {| buffer := Some (replicate 144 0); mem_size := 144 |} in Build_av w true 7 m m true.

Lemma opened_ready w : ready (opened w) 144.
Proof.
  split; [exists (replicate 144 0), (replicate 144 0); by repeat split|]. split; [done|]. split; [done|]. by split.
Qed.

Lemma opened_shaped w : shaped (opened w) 144.
Proof. split; [done|]. split; [done|]. exists (replicate 144 0), (replicate 144 0). by repeat split. Qed.

Lemma output_ok sid op input cap (w : world) : 0 <= cap ->
  Z.of_nat (length (TEEC_InvokeCommand sid op input cap w).1.1.1.2) <= cap.
Proof.
  intros Hc. destruct (TEEC_InvokeCommand sid op input cap w) as [[[[res out] a] b] w'] eqn:H.
  by eapply demo_output.
Qed.

Definition name_db : list Z := EFI_IMAGE_SECURITY_DATABASE.
Definition boot_name : list Z := [0x42; 0x6F].
Definition empty_world : world := {| store := ∅; events := []; protocol := true |}.

(** A platform key of three bytes and no switch. *)
Definition enrolled : world :=
  {| store := {[pk_key := (0x27, [1; 2; 3])]}; events := []; protocol := false |}.

Ltac name_ok := split; [by apply (bool_decide_unpack _) | exact eq_refl].
Ltac plain := split; [by unfold in_word | split; [exact eq_refl | discriminate]].

Lemma auth_var_no_overrun_witness :
  let l := [SetRequest (Some boot_name) (Some (guid_of 5)) 7 3 (Some [1; 2; 3]);
            GetRequest (Some boot_name) (Some (guid_of 5)) true (Some 100) true; QueryRequest 7 true] in
  match run_requests l (opened empty_world) with Ret tt s' => shaped s' 144 | Stop w => w = Halt end.
Proof.
  apply (auth_var_no_overrun _ (opened empty_world) 144 output_ok (opened_shaped _)).
  assert (Hg : guid_ok (Some (guid_of 5))) by (by intros g [= <-]).
  repeat constructor; try exact Hg; try lia; by intros ? [= <-].
Defined.

Lemma get_within_bounds_witness :
  match OpteeRuntimeGetVariable (Some boot_name) (Some (guid_of 5)) true (Some 2) true (opened empty_world) with
  | Ret out _ => Z.of_nat (length (gData out)) <= 2
  | Stop w => w = Halt
  end.
Proof.
  apply (get_within_bounds (opened empty_world) 144 _ _ _ 2 _ output_ok (opened_shaped _)); [by intros g [= <-] | lia].
Defined.

Lemma OpteeRuntimeGetVariable_correct_witness :
  exists out s', OpteeRuntimeGetVariable (Some EFI_PLATFORM_KEY_NAME) (Some (guid_of 10)) true (Some 5) true (opened enrolled) =
      Ret out s' /\ ready s' 144 /\ same (env (opened enrolled)) (env s') /\
    get_answer (Some (0x27, [1; 2; 3])) true 5 out.
Proof.
  apply (OpteeRuntimeGetVariable_correct (opened enrolled) 144 EFI_PLATFORM_KEY_NAME (guid_of 10) true 5 true (opened_ready _));
    [exact eq_refl | name_ok | lia | intros _; exact eq_refl | exact eq_refl].
Defined.

Lemma OpteeRuntimeSetVariable_correct_witness :
  exists st s', OpteeRuntimeSetVariable (Some boot_name) (Some (guid_of 5)) 7 2 (Some [8; 9]) (opened empty_world) = Ret st s' /\
    ready s' 144 /\
    vars (env s') = if EFI_ERROR st then vars empty_world else <[(boot_name, guid_of 5) := (7, [8; 9])]> (vars empty_world).
Proof.
  apply (OpteeRuntimeSetVariable_correct laws_alloc (opened empty_world) 144 boot_name (guid_of 5) 7 [8; 9] (opened_ready _));
    [exact eq_refl | name_ok | discriminate | plain | cbn [length]; lia | exact eq_refl].
Defined.

(** The write succeeds. *)
Definition written : av world :=
  match OpteeRuntimeSetVariable (Some boot_name) (Some (guid_of 5)) 7 2 (Some [8; 9]) (opened empty_world) with
  | Ret _ s => s | Stop _ => opened empty_world end.

Lemma auth_var_set_get_roundtrip_witness :
  exists s2, OpteeRuntimeGetVariable (Some boot_name) (Some (guid_of 5)) true (Some 20) true written =
    Ret {| gStatus := EFI_SUCCESS; gAttributes := Some 7; gDataSize := Some 2; gData := [8; 9] |} s2 /\
    ready s2 144 /\ vars (env s2) = <[(boot_name, guid_of 5) := (7, [8; 9])]> (vars empty_world).
Proof.
  apply (auth_var_set_get_roundtrip laws_alloc (opened empty_world) 144 boot_name (guid_of 5) 7 [8; 9] 20 EFI_SUCCESS written
    (opened_ready _)); [exact eq_refl | name_ok | discriminate | plain | discriminate | exact eq_refl | exact eq_refl |
    cbn [length]; lia | lia | vm_compute; exact eq_refl | exact eq_refl].
Defined.


Lemma guids_demo : guids_ok.
Proof. by repeat split. Qed.

Lemma InitSecureBootVariables_correct_witness :
  exists st s', InitSecureBootVariables (opened enrolled) = Ret st s' /\ ready s' 144 /\
    (EFI_ERROR st = false -> secure_boot_state (vars enrolled) (vars (env s'))).
Proof.
  apply (InitSecureBootVariables_correct laws_alloc (opened enrolled) 144 (opened_ready _)); [exact eq_refl | apply guids_demo | lia].
Defined.

(** Secure boot is on at that boot. *)
Example enrolled_secure :
  match InitSecureBootVariables (opened enrolled) with
  | Ret st s' => (st, kept (env s') !! mode_key) | Stop _ => (1, None) end = (EFI_SUCCESS, Some (6, [1])).
Proof. vm_compute. reflexivity. Qed.

Lemma VariableAuthOpteeRuntimeInitialize_correct_witness :
  exists st s', VariableAuthOpteeRuntimeInitialize (fresh enrolled) = Ret st s' /\
    if published s'
    then ready s' (Z.to_nat transport_size) /\ secure_boot_state (vars enrolled) (vars (env s'))
    else EFI_ERROR st = true \/
      (EFI_ERROR st = false /\ (TEEC_InitializeContext (OpteeClientApiInitialize enrolled).2).1 <> TEEC_SUCCESS).
Proof.
  apply (VariableAuthOpteeRuntimeInitialize_correct laws_alloc (SL := start_laws true) (fresh enrolled));
    [discriminate | by split | apply guids_demo | exact eq_refl | exact eq_refl].
Defined.
End AuthVarDemo.
