(* ===== verification/OhciReg.v ===== *)
(** * OHCI registers

    Model of [src/Silicon/Rockchip/Rk356xPkg/Drivers/OhciDxe/OhciReg.c]: the
    accessors of the host controller's operational registers.  A C bit field
    is a bit offset and a width; a setter assigns the fields its argument
    names, in the order of the code. *)

From Stdlib Require Import ZArith Lia.
From stdpp Require Import base list numbers option.
From S2P Require Import Prelude.

(** ** Bit fields *)

Definition field_get (f : Z * Z) (r : Z) : Z := Z.land (Z.shiftr r f.1) (Z.ones f.2).

Definition field_put (f : Z * Z) (v r : Z) : Z :=
  Z.lor (Z.ldiff r (Z.shiftl (Z.ones f.2) f.1)) (Z.shiftl (Z.land v (Z.ones f.2)) f.1).

(** [if (Field & flag) r.f = Value;] *)
Definition assign (Field flag : Z) (f : Z * Z) (Value r : Z) : Z :=
  if Z.land Field flag =? 0 then r else field_put f Value r.

(** ** Register offsets and field selectors *)

Definition HC_REVISION : Z := 0x00.
Definition HC_CONTROL : Z := 0x04.
Definition HC_COMMAND_STATUS : Z := 0x08.
Definition HC_INTERRUPT_STATUS : Z := 0x0C.
Definition HC_INTERRUPT_ENABLE : Z := 0x10.
Definition HC_INTERRUPT_DISABLE : Z := 0x14.
Definition HC_HCCA : Z := 0x18.
Definition HC_CONTROL_HEAD : Z := 0x20.
Definition HC_BULK_HEAD : Z := 0x28.
Definition HC_FRM_INTERVAL : Z := 0x34.
Definition HC_FRM_REMAINING : Z := 0x38.
Definition HC_FRM_NUMBER : Z := 0x3C.
Definition HC_PERIODIC_START : Z := 0x40.
Definition HC_LS_THREASHOLD : Z := 0x44.
Definition HC_RH_DESC_A : Z := 0x48.
Definition HC_RH_DESC_B : Z := 0x4C.
Definition HC_RH_STATUS : Z := 0x50.
Definition HC_RH_PORT_STATUS : Z := 0x54.
Definition USBHOST_OFFSET_UHCHR : Z := 0x64.

Definition CONTROL_BULK_RATIO : Z := 0x10.
Definition HC_FUNCTIONAL_STATE : Z := 0x20.
Definition PERIODIC_ENABLE : Z := 0x01.
Definition ISOCHRONOUS_ENABLE : Z := 0x02.
Definition CONTROL_ENABLE : Z := 0x04.
Definition BULK_ENABLE : Z := 0x08.
Definition INTERRUPT_ROUTING : Z := 0x40.

Definition HC_RESET : Z := 0x01.
Definition CONTROL_LIST_FILLED : Z := 0x02.
Definition BULK_LIST_FILLED : Z := 0x04.
Definition CHANGE_OWNER_REQUEST : Z := 0x08.
Definition SCHEDULE_OVERRUN_COUNT : Z := 0x10.

Definition FRAME_INTERVAL : Z := 0x008.
Definition FS_LARGEST_DATA_PACKET : Z := 0x010.
Definition FRMINT_TOGGLE : Z := 0x020.
Definition FRAME_REMAINING : Z := 0x040.
Definition FRAME_REMAIN_TOGGLE : Z := 0x080.
Definition RH_DEV_REMOVABLE : Z := 0x00400.
Definition RH_PORT_PWR_CTRL_MASK : Z := 0x00800.

(** The selectors and bit fields of each register, in the order of the code. *)
Definition HcRESET : list (Z * (Z * Z)) :=
  [(0x1, (0, 1)); (0x2, (1, 1)); (0x4, (2, 1)); (0x20, (5, 1)); (0x40, (6, 1)); (0x80, (7, 1));
   (0x200, (9, 1)); (0x400, (10, 1)); (0x800, (11, 1))].
Definition HcCONTROL : list (Z * (Z * Z)) :=
  [(CONTROL_BULK_RATIO, (0, 2)); (HC_FUNCTIONAL_STATE, (6, 2)); (PERIODIC_ENABLE, (2, 1));
   (CONTROL_ENABLE, (4, 1)); (ISOCHRONOUS_ENABLE, (3, 1)); (BULK_ENABLE, (5, 1)); (INTERRUPT_ROUTING, (8, 1))].
Definition HcCOMMAND_STATUS : list (Z * (Z * Z)) :=
  [(HC_RESET, (0, 1)); (CONTROL_LIST_FILLED, (1, 1)); (BULK_LIST_FILLED, (2, 1)); (CHANGE_OWNER_REQUEST, (3, 1));
   (SCHEDULE_OVERRUN_COUNT, (16, 2))].
Definition HcINTERRUPT_STATUS : list (Z * (Z * Z)) :=
  [(0x1, (0, 1)); (0x2, (1, 1)); (0x4, (2, 1)); (0x8, (3, 1)); (0x10, (4, 1)); (0x20, (5, 1)); (0x40, (6, 1));
   (0x80, (30, 1))].
Definition HcINTERRUPT_CONTROL : list (Z * (Z * Z)) := HcINTERRUPT_STATUS ++ [(0x400, (31, 1))].
Definition HcFRM_INTERVAL : list (Z * (Z * Z)) :=
  [(FRAME_INTERVAL, (0, 14)); (FS_LARGEST_DATA_PACKET, (16, 15)); (FRMINT_TOGGLE, (31, 1))].
Definition HcFRAME_REMAINING : list (Z * (Z * Z)) := [(FRAME_REMAINING, (0, 14)); (FRAME_REMAIN_TOGGLE, (31, 1))].
Definition HcRH_DESC_B : list (Z * (Z * Z)) := [(RH_DEV_REMOVABLE, (0, 16)); (RH_PORT_PWR_CTRL_MASK, (16, 16))].
Definition HcRH_DESC_A : list (Z * (Z * Z)) :=
  [(0x4, (0, 8)); (0x8, (9, 1)); (0x10, (8, 1)); (0x20, (10, 1)); (0x40, (11, 1)); (0x80, (12, 1)); (0x200, (24, 8))].
Definition HcRH_STATUS : list (Z * (Z * Z)) :=
  [(0x1, (0, 1)); (0x2, (1, 1)); (0x4, (15, 1)); (0x8, (16, 1)); (0x10, (17, 1)); (0x20, (31, 1))].
(** Writing a bit of a port's status clears or sets something else than
    reading it tells; the bits are the same. *)
Definition HcRHPORT_STATUS : list (Z * (Z * Z)) :=
  [(0x1, (0, 1)); (0x2, (1, 1)); (0x4, (2, 1)); (0x8, (3, 1)); (0x10, (4, 1)); (0x20, (8, 1)); (0x40, (9, 1));
   (0x10000, (16, 1)); (0x20000, (17, 1)); (0x40000, (18, 1)); (0x80000, (19, 1)); (0x100000, (20, 1))].

(** The assignments of a setter, and the [switch] of a getter. *)
Definition set_fields (fields : list (Z * (Z * Z))) (Field Value r : Z) : Z :=
  fold_left (fun r '(flag, f) => assign Field flag f Value r) fields r.

Definition find_field (fields : list (Z * (Z * Z))) (Field : Z) : option (Z * Z) :=
  snd <$> List.find (fun '(flag, _) => Field =? flag) fields.

(** ** The controller *)

(** MMIO, and [gBS->Stall]; [MmioWrite32] returns a value. *)
Class OhciHw (H : Type) := {
  UsbHcBaseAddress : Z;
  MmioRead32 : Z -> H -> Z * H;
  MmioWrite32 : Z -> Z -> H -> Z * H;
  Stall : Z -> H -> H;
  (** how often a register is polled at most, where the code sets no limit *)
  verify_bound : nat
}.

Section Registers.
Context {B : Build} {H : Type} {HW : OhciHw H}.
Implicit Types s : H.

Definition OhciGetOperationalReg (Offset : Z) : M H Z :=
  fun s => let '(v, s) := MmioRead32 (u32 (UsbHcBaseAddress + Offset)) s in Ret v s.

Definition OhciSetOperationalReg (Offset Value : Z) : M H Z :=
  fun s => let '(v, s) := MmioWrite32 (u32 (UsbHcBaseAddress + Offset)) Value s in Ret v s.

Definition stall (us : Z) : M H unit := modify (Stall us).

Definition OhciGetHcRevision : M H Z := OhciGetOperationalReg HC_REVISION.

(** A register with some of its fields assigned. *)
Definition update_reg (Offset : Z) (f : Z -> Z) : M H Z :=
  r ← OhciGetOperationalReg Offset; OhciSetOperationalReg Offset (f r).

(** The field a selector names; another one is a failed assertion. *)
Definition read_field (Offset : Z) (fields : list (Z * (Z * Z))) (Field : Z) : M H Z :=
  r ← OhciGetOperationalReg Offset;
  match find_field fields Field with
  | Some f => mret (field_get f r)
  | None => ASSERT false;; mret 0
  end.

Definition OhciSetHcReset (Field Value : Z) : M H Z :=
  update_reg USBHOST_OFFSET_UHCHR (set_fields HcRESET Field Value);; mret EFI_SUCCESS.

Definition OhciGetHcReset (Field : Z) : M H Z := read_field USBHOST_OFFSET_UHCHR HcRESET Field.

Definition OhciSetHcControl (Field Value : Z) : M H Z := update_reg HC_CONTROL (set_fields HcCONTROL Field Value).

Definition OhciGetHcControl (Field : Z) : M H Z := read_field HC_CONTROL HcCONTROL Field.

Definition OhciSetHcCommandStatus (Field Value : Z) : M H Z :=
  OhciSetOperationalReg HC_COMMAND_STATUS (set_fields HcCOMMAND_STATUS Field Value 0).

Definition OhciGetHcCommandStatus (Field : Z) : M H Z := read_field HC_COMMAND_STATUS HcCOMMAND_STATUS Field.

Definition OhciClearInterruptStatus (Field : Z) : M H Z :=
  OhciSetOperationalReg HC_INTERRUPT_STATUS (set_fields HcINTERRUPT_STATUS Field 1 0).

Definition OhciGetHcInterruptStatus (Field : Z) : M H Z := read_field HC_INTERRUPT_STATUS HcINTERRUPT_STATUS Field.

Definition OhciSetInterruptControl (StatEnable : bool) (Field Value : Z) : M H Z :=
  OhciSetOperationalReg (if StatEnable then HC_INTERRUPT_ENABLE else HC_INTERRUPT_DISABLE)
    (set_fields HcINTERRUPT_CONTROL Field Value 0).

Definition OhciGetHcInterruptControl (Field : Z) : M H Z := read_field HC_INTERRUPT_ENABLE HcINTERRUPT_CONTROL Field.

(** Reads the register until it holds the pointer. *)
Fixpoint verify_pointer (fuel : nat) (PointerType Value : Z) : M H unit :=
  match fuel with
  | O => stopM NoFuel
  | S fuel =>
      Verify ← OhciGetOperationalReg PointerType;
      if Verify =? u32 Value then mret tt
      else stall 1000;; verify_pointer fuel PointerType Value
  end.

Definition OhciSetMemoryPointer (PointerType Value : Z) : M H Z :=
  Status ← OhciSetOperationalReg PointerType (u32 Value);
  if EFI_ERROR Status then mret Status
  else verify_pointer verify_bound PointerType Value;; mret Status.

Definition OhciGetMemoryPointer (PointerType : Z) : M H Z := OhciGetOperationalReg PointerType.

Definition OhciSetFrameInterval (Field Value : Z) : M H Z :=
  update_reg HC_FRM_INTERVAL (fun r =>
    let r := if Z.land Field FRAME_INTERVAL =? 0 then r
             else field_put (0, 14) Value (field_put (31, 1) (1 - field_get (31, 1) r) r) in
    assign Field FRMINT_TOGGLE (31, 1) Value (assign Field FS_LARGEST_DATA_PACKET (16, 15) Value r)).

Definition OhciGetFrameInterval (Field : Z) : M H Z := read_field HC_FRM_INTERVAL HcFRM_INTERVAL Field.

Definition OhciSetFrameRemaining (Value : Z) : M H Z :=
  update_reg HC_FRM_REMAINING (fun r =>
    let r := field_put (0, 14) Value r in field_put (31, 1) (1 - field_get (31, 1) r) r).

Definition OhciGetFrameRemaining (Field : Z) : M H Z := read_field HC_FRM_REMAINING HcFRAME_REMAINING Field.

Definition OhciSetFrameNumber (Value : Z) : M H Z := OhciSetOperationalReg HC_FRM_NUMBER Value.
Definition OhciGetFrameNumber : M H Z := OhciGetOperationalReg HC_FRM_NUMBER.
Definition OhciSetPeriodicStart (Value : Z) : M H Z := OhciSetOperationalReg HC_PERIODIC_START Value.
Definition OhciGetPeriodicStart : M H Z := OhciGetOperationalReg HC_PERIODIC_START.
Definition OhciSetLsThreshold (Value : Z) : M H Z := OhciSetOperationalReg HC_LS_THREASHOLD Value.
Definition OhciGetLsThreshold : M H Z := OhciGetOperationalReg HC_LS_THREASHOLD.

Definition OhciSetRootHubDescriptor (Field Value : Z) : M H Z :=
  if negb (Z.land Field (Z.lor RH_DEV_REMOVABLE RH_PORT_PWR_CTRL_MASK) =? 0)
  then update_reg HC_RH_DESC_B (set_fields HcRH_DESC_B Field Value)
  else update_reg HC_RH_DESC_A (set_fields HcRH_DESC_A Field Value).

(** Both registers are read, whichever the field is in. *)
Definition OhciGetRootHubDescriptor (Field : Z) : M H Z :=
  a ← OhciGetOperationalReg HC_RH_DESC_A;
  b ← OhciGetOperationalReg HC_RH_DESC_B;
  match find_field HcRH_DESC_B Field with
  | Some f => mret (field_get f b)
  | None =>
      match find_field HcRH_DESC_A Field with
      | Some f => mret (field_get f a)
      | None => ASSERT false;; mret 0
      end
  end.

Definition OhciSetRootHubStatus (Field : Z) : M H Z :=
  OhciSetOperationalReg HC_RH_STATUS (set_fields HcRH_STATUS Field 1 0).

Definition OhciGetRootHubStatus (Field : Z) : M H Z := read_field HC_RH_STATUS HcRH_STATUS Field.

Definition OhciSetRootHubPortStatus (Index Field : Z) : M H Z :=
  OhciSetOperationalReg (u32 (HC_RH_PORT_STATUS + u32 (Index * 4))) (set_fields HcRHPORT_STATUS Field 1 0).

Definition OhciReadRootHubPortStatus (Index Field : Z) : M H Z :=
  read_field (u32 (HC_RH_PORT_STATUS + u32 (Index * 4))) HcRHPORT_STATUS Field.
End Registers.
