(* ===== verification/Ohci.v ===== *)
(** * OHCI descriptors and lists

    Model of [src/Silicon/Rockchip/Rk356xPkg/Drivers/OhciDxe/OhciUrb.c] (with
    [Descriptor.h] and the device record of [Ohci.h]): endpoint descriptors
    (ED) and transfer descriptors (TD), linked by the 32-bit addresses the
    controller follows.  Descriptors live in stores keyed by address, filled
    from the memory pool; an access at an address that holds none (NULL, or
    a descriptor that has been freed) is a [Fault]. *)

From Stdlib Require Import ZArith Lia.
From stdpp Require Import base list numbers option gmap.
From S2P Require Import Prelude OhciReg.

(** ** Descriptors *)

Definition ED_FUNC_ADD : Z := 0x0001.
Definition ED_ENDPT_NUM : Z := 0x0002.
Definition ED_DIR : Z := 0x0004.
Definition ED_SPEED : Z := 0x0008.
Definition ED_SKIP : Z := 0x0010.
Definition ED_FORMAT : Z := 0x0020.
Definition ED_MAX_PACKET : Z := 0x0040.
Definition ED_TDTAIL_PTR : Z := 0x0080.
Definition ED_HALTED : Z := 0x0100.
Definition ED_DTTOGGLE : Z := 0x0200.
Definition ED_TDHEAD_PTR : Z := 0x0400.
Definition ED_NEXT_EDPTR : Z := 0x0800.
Definition ED_PDATA : Z := 0x1000.
Definition ED_ZERO : Z := 0x2000.

Definition TD_BUFFER_ROUND : Z := 0x0001.
Definition TD_DIR_PID : Z := 0x0002.
Definition TD_DELAY_INT : Z := 0x0004.
Definition TD_DT_TOGGLE : Z := 0x0008.
Definition TD_ERROR_CNT : Z := 0x0010.
Definition TD_COND_CODE : Z := 0x0020.
Definition TD_CURR_BUFFER_PTR : Z := 0x0040.
Definition TD_NEXT_PTR : Z := 0x0080.
Definition TD_BUFFER_END_PTR : Z := 0x0100.
Definition TD_PDATA : Z := 0x0200.

Definition TD_NO_ERROR : Z := 0x00.
Definition TD_CRC_ERROR : Z := 0x01.
Definition TD_BITSTUFFING_ERROR : Z := 0x02.
Definition TD_DEVICE_STALL : Z := 0x04.
Definition TD_NO_RESPONSE : Z := 0x05.
Definition TD_BUFFER_OVERRUN : Z := 0x0C.
Definition TD_BUFFER_UNDERRUN : Z := 0x0D.
Definition TD_TOBE_PROCESSED : Z := 0x0E.
Definition TD_TOBE_PROCESSED_2 : Z := 0x0F.

Definition sizeof_TD : Z := 32.
Definition sizeof_ED : Z := 16.

Record TD_DESCRIPTOR := {
  Reserved : Z; BufferRounding : Z; DirPID : Z; DelayInterrupt : Z; DataToggle : Z; ErrorCount : Z; ConditionCode : Z;
  CurrBufferPointer : Z; NextTD : Z; BufferEndPointer : Z; NextTDPointer : Z; DataBuffer : Z; ActualSendLength : Z
}.

Record ED_DESCRIPTOR := {
  FunctionAddress : Z; EndPointNum : Z; Direction : Z; Speed : Z; Skip : Z; Format : Z; MaxPacketSize : Z; FreeSpace : Z;
  TdTailPointer : Z;
  Halted : Z; ToggleCarry : Z; Zero : Z; TdHeadPointer : Z;
  NextED : Z
}.

(** Cleared memory. *)
Definition zero_td : TD_DESCRIPTOR := Build_TD_DESCRIPTOR 0 0 0 0 0 0 0 0 0 0 0 0 0.
Definition zero_ed : ED_DESCRIPTOR := Build_ED_DESCRIPTOR 0 0 0 0 0 0 0 0 0 0 0 0 0 0.

Definition td_with_NextTD (v : Z) (t : TD_DESCRIPTOR) : TD_DESCRIPTOR :=
  Build_TD_DESCRIPTOR (Reserved t) (BufferRounding t) (DirPID t) (DelayInterrupt t) (DataToggle t) (ErrorCount t)
    (ConditionCode t) (CurrBufferPointer t) (u32 v) (BufferEndPointer t) (NextTDPointer t) (DataBuffer t) (ActualSendLength t).
Definition td_with_NextTDPointer (v : Z) (t : TD_DESCRIPTOR) : TD_DESCRIPTOR :=
  Build_TD_DESCRIPTOR (Reserved t) (BufferRounding t) (DirPID t) (DelayInterrupt t) (DataToggle t) (ErrorCount t)
    (ConditionCode t) (CurrBufferPointer t) (NextTD t) (BufferEndPointer t) (u32 v) (DataBuffer t) (ActualSendLength t).
Definition td_with_CurrBufferPointer (v : Z) (t : TD_DESCRIPTOR) : TD_DESCRIPTOR :=
  Build_TD_DESCRIPTOR (Reserved t) (BufferRounding t) (DirPID t) (DelayInterrupt t) (DataToggle t) (ErrorCount t)
    (ConditionCode t) (u32 v) (NextTD t) (BufferEndPointer t) (NextTDPointer t) (DataBuffer t) (ActualSendLength t).
Definition td_with_BufferEndPointer (v : Z) (t : TD_DESCRIPTOR) : TD_DESCRIPTOR :=
  Build_TD_DESCRIPTOR (Reserved t) (BufferRounding t) (DirPID t) (DelayInterrupt t) (DataToggle t) (ErrorCount t)
    (ConditionCode t) (CurrBufferPointer t) (NextTD t) (u32 v) (NextTDPointer t) (DataBuffer t) (ActualSendLength t).
Definition td_with_DataToggle (v : Z) (t : TD_DESCRIPTOR) : TD_DESCRIPTOR :=
  Build_TD_DESCRIPTOR (Reserved t) (BufferRounding t) (DirPID t) (DelayInterrupt t) (wrap 2 v) (ErrorCount t)
    (ConditionCode t) (CurrBufferPointer t) (NextTD t) (BufferEndPointer t) (NextTDPointer t) (DataBuffer t) (ActualSendLength t).
Definition td_with_word0 (r b p d e c : Z) (t : TD_DESCRIPTOR) : TD_DESCRIPTOR :=
  Build_TD_DESCRIPTOR (wrap 18 r) (wrap 1 b) (wrap 2 p) (wrap 3 d) (DataToggle t) (wrap 2 e) (wrap 4 c)
    (CurrBufferPointer t) (NextTD t) (BufferEndPointer t) (NextTDPointer t) (DataBuffer t) (ActualSendLength t).
Definition td_with_data (buffer len : Z) (t : TD_DESCRIPTOR) : TD_DESCRIPTOR :=
  Build_TD_DESCRIPTOR (Reserved t) (BufferRounding t) (DirPID t) (DelayInterrupt t) (DataToggle t) (ErrorCount t)
    (ConditionCode t) (CurrBufferPointer t) (NextTD t) (BufferEndPointer t) (NextTDPointer t) (u32 buffer) (u32 len).

Definition ed_with_NextED (v : Z) (d : ED_DESCRIPTOR) : ED_DESCRIPTOR :=
  Build_ED_DESCRIPTOR (FunctionAddress d) (EndPointNum d) (Direction d) (Speed d) (Skip d) (Format d) (MaxPacketSize d)
    (FreeSpace d) (TdTailPointer d) (Halted d) (ToggleCarry d) (Zero d) (TdHeadPointer d) (u32 v).
Definition ed_with_Skip (v : Z) (d : ED_DESCRIPTOR) : ED_DESCRIPTOR :=
  Build_ED_DESCRIPTOR (FunctionAddress d) (EndPointNum d) (Direction d) (Speed d) (wrap 1 v) (Format d) (MaxPacketSize d)
    (FreeSpace d) (TdTailPointer d) (Halted d) (ToggleCarry d) (Zero d) (TdHeadPointer d) (NextED d).
Definition ed_with_word0 (fa ep di sp sk fo mp fs : Z) (d : ED_DESCRIPTOR) : ED_DESCRIPTOR :=
  Build_ED_DESCRIPTOR (wrap 7 fa) (wrap 4 ep) (wrap 2 di) (wrap 1 sp) (wrap 1 sk) (wrap 1 fo) (wrap 11 mp) (wrap 5 fs)
    (TdTailPointer d) (Halted d) (ToggleCarry d) (Zero d) (TdHeadPointer d) (NextED d).
Definition ed_with_word2 (h tc z hp : Z) (d : ED_DESCRIPTOR) : ED_DESCRIPTOR :=
  Build_ED_DESCRIPTOR (FunctionAddress d) (EndPointNum d) (Direction d) (Speed d) (Skip d) (Format d) (MaxPacketSize d)
    (FreeSpace d) (TdTailPointer d) (wrap 1 h) (wrap 1 tc) (wrap 2 z) (wrap 28 hp) (NextED d).
Definition ed_with_TdTailPointer (v : Z) (d : ED_DESCRIPTOR) : ED_DESCRIPTOR :=
  Build_ED_DESCRIPTOR (FunctionAddress d) (EndPointNum d) (Direction d) (Speed d) (Skip d) (Format d) (MaxPacketSize d)
    (FreeSpace d) (u32 v) (Halted d) (ToggleCarry d) (Zero d) (TdHeadPointer d) (NextED d).

(** [TD_PTR]: the 28-bit field is promoted to a signed int, so that the shift
    overflows from 2 GB on and the cast to a pointer extends the sign. *)
Definition TD_PTR (p : Z) : Z :=
  let v := u32 (Z.shiftl p 4) in if v <? 2 ^ 31 then v else v + (2 ^ 64 - 2 ^ 32).
Definition RIGHT_SHIFT_4 (p : Z) : Z := Z.shiftr (u32 p) 4.

(** *** Field setters and getters *)

Definition has (Field flag : Z) : bool := negb (Z.land Field flag =? 0).

Definition OhciSetEDField (Field Value : Z) (d : ED_DESCRIPTOR) : ED_DESCRIPTOR :=
  let pick flag old := if has Field flag then Value else old in
  let d := ed_with_word0 (pick ED_FUNC_ADD (FunctionAddress d)) (pick ED_ENDPT_NUM (EndPointNum d)) (pick ED_DIR (Direction d))
             (pick ED_SPEED (Speed d)) (pick ED_SKIP (Skip d)) (pick ED_FORMAT (Format d))
             (pick ED_MAX_PACKET (MaxPacketSize d)) (pick ED_PDATA (FreeSpace d)) d in
  let d := ed_with_TdTailPointer (pick ED_TDTAIL_PTR (TdTailPointer d)) d in
  let d := ed_with_word2 (pick ED_HALTED (Halted d)) (pick ED_DTTOGGLE (ToggleCarry d)) (pick ED_ZERO (Zero d))
             (if has Field ED_TDHEAD_PTR then RIGHT_SHIFT_4 Value else TdHeadPointer d) d in
  ed_with_NextED (pick ED_NEXT_EDPTR (NextED d)) d.

Definition OhciGetEDField {B : Build} {S} (d : ED_DESCRIPTOR) (Field : Z) : M S Z :=
  if Field =? ED_FUNC_ADD then mret (FunctionAddress d)
  else if Field =? ED_ENDPT_NUM then mret (EndPointNum d)
  else if Field =? ED_DIR then mret (Direction d)
  else if Field =? ED_SPEED then mret (Speed d)
  else if Field =? ED_SKIP then mret (Skip d)
  else if Field =? ED_FORMAT then mret (Format d)
  else if Field =? ED_MAX_PACKET then mret (MaxPacketSize d)
  else if Field =? ED_TDTAIL_PTR then mret (TdTailPointer d)
  else if Field =? ED_HALTED then mret (Halted d)
  else if Field =? ED_DTTOGGLE then mret (ToggleCarry d)
  else if Field =? ED_TDHEAD_PTR then mret (u32 (Z.shiftl (TdHeadPointer d) 4))
  else if Field =? ED_NEXT_EDPTR then mret (NextED d)
  else ASSERT false;; mret 0.

Definition OhciSetTDField (Field Value : Z) (t : TD_DESCRIPTOR) : TD_DESCRIPTOR :=
  let pick flag old := if has Field flag then Value else old in
  let t := td_with_word0 (pick TD_PDATA (Reserved t)) (pick TD_BUFFER_ROUND (BufferRounding t)) (pick TD_DIR_PID (DirPID t))
             (pick TD_DELAY_INT (DelayInterrupt t)) (pick TD_ERROR_CNT (ErrorCount t)) (pick TD_COND_CODE (ConditionCode t)) t in
  let t := if has Field TD_DT_TOGGLE then td_with_DataToggle (Z.lor Value 2) t else t in
  let t := td_with_CurrBufferPointer (pick TD_CURR_BUFFER_PTR (CurrBufferPointer t)) t in
  let t := td_with_NextTD (pick TD_NEXT_PTR (NextTD t)) t in
  td_with_BufferEndPointer (pick TD_BUFFER_END_PTR (BufferEndPointer t)) t.

Definition OhciGetTDField {B : Build} {S} (t : TD_DESCRIPTOR) (Field : Z) : M S Z :=
  if Field =? TD_BUFFER_ROUND then mret (BufferRounding t)
  else if Field =? TD_DIR_PID then mret (DirPID t)
  else if Field =? TD_DELAY_INT then mret (DelayInterrupt t)
  else if Field =? TD_DT_TOGGLE then mret (DataToggle t)
  else if Field =? TD_ERROR_CNT then mret (ErrorCount t)
  else if Field =? TD_COND_CODE then mret (ConditionCode t)
  else if Field =? TD_CURR_BUFFER_PTR then mret (CurrBufferPointer t)
  else if Field =? TD_NEXT_PTR then mret (NextTD t)
  else if Field =? TD_BUFFER_END_PTR then mret (BufferEndPointer t)
  else ASSERT false;; mret 0.

(** ** The driver's state *)

Record INTERRUPT_CONTEXT_ENTRY := {
  DeviceAddress : Z; EndPointAddress : Z; Entry_Ed : Z; DataTd : Z;
  CallBackFunction : Z; Context : Z; IsPeriodic : bool;
  DataLength : Z; UCBuffer : Z; UCBufferMapping : Z; NextEntry : Z
}.

Record ohc (H : Type) := {
  hw : H;
  eds : gmap Z ED_DESCRIPTOR;
  tds : gmap Z TD_DESCRIPTOR;
  entries : gmap Z INTERRUPT_CONTEXT_ENTRY;
  InterruptContextList : Z;
  HccaInterruptTable : list Z;
  IntervalList : list (list Z);
  tpl : Z
}.
Arguments hw {H}. Arguments eds {H}. Arguments tds {H}. Arguments entries {H}. Arguments InterruptContextList {H}.
Arguments HccaInterruptTable {H}. Arguments IntervalList {H}. Arguments tpl {H}. Arguments Build_ohc {H}.

Section State.
Context {H : Type}.
Implicit Types s : ohc H.

Definition set_hw (h : H) s : ohc H :=
  Build_ohc h (eds s) (tds s) (entries s) (InterruptContextList s) (HccaInterruptTable s) (IntervalList s) (tpl s).
Definition set_eds m s : ohc H :=
  Build_ohc (hw s) m (tds s) (entries s) (InterruptContextList s) (HccaInterruptTable s) (IntervalList s) (tpl s).
Definition set_tds m s : ohc H :=
  Build_ohc (hw s) (eds s) m (entries s) (InterruptContextList s) (HccaInterruptTable s) (IntervalList s) (tpl s).
Definition set_entries m s : ohc H :=
  Build_ohc (hw s) (eds s) (tds s) m (InterruptContextList s) (HccaInterruptTable s) (IntervalList s) (tpl s).
Definition set_contexts p s : ohc H :=
  Build_ohc (hw s) (eds s) (tds s) (entries s) p (HccaInterruptTable s) (IntervalList s) (tpl s).
Definition set_hcca l s : ohc H :=
  Build_ohc (hw s) (eds s) (tds s) (entries s) (InterruptContextList s) l (IntervalList s) (tpl s).
Definition set_intervals l s : ohc H :=
  Build_ohc (hw s) (eds s) (tds s) (entries s) (InterruptContextList s) (HccaInterruptTable s) l (tpl s).
Definition set_tpl t s : ohc H :=
  Build_ohc (hw s) (eds s) (tds s) (entries s) (InterruptContextList s) (HccaInterruptTable s) (IntervalList s) t.

(** Descriptor accesses. *)
Definition ed_at (p : Z) : M (ohc H) ED_DESCRIPTOR :=
  fun s => match eds s !! p with Some d => Ret d s | None => Stop Fault end.
Definition td_at (p : Z) : M (ohc H) TD_DESCRIPTOR :=
  fun s => match tds s !! p with Some t => Ret t s | None => Stop Fault end.
Definition entry_at (p : Z) : M (ohc H) INTERRUPT_CONTEXT_ENTRY :=
  fun s => match entries s !! p with Some e => Ret e s | None => Stop Fault end.
Definition upd_ed (p : Z) (f : ED_DESCRIPTOR -> ED_DESCRIPTOR) : M (ohc H) unit :=
  d ← ed_at p; modify (fun s => set_eds (<[p := f d]> (eds s)) s).
Definition upd_td (p : Z) (f : TD_DESCRIPTOR -> TD_DESCRIPTOR) : M (ohc H) unit :=
  t ← td_at p; modify (fun s => set_tds (<[p := f t]> (tds s)) s).

(** An element of a table; out of its range is a [Fault]. *)
Definition table_at (l : list Z) (i : nat) : M (ohc H) Z :=
  match l !! i with Some p => mret p | None => stopM Fault end.
Definition interval_at (Level Index : nat) : M (ohc H) Z :=
  l ← gets IntervalList;
  match l !! Level with Some row => table_at row Index | None => stopM Fault end.
Definition set_interval (Level Index : nat) (p : Z) : M (ohc H) unit :=
  modify (fun s => set_intervals (alter (fun row => <[Index := p]> row) Level (IntervalList s)) s).

(** Fuel for a walk over linked descriptors. *)
Definition ed_fuel : M (ohc H) nat := gets (fun s => S (size (eds s))).
Definition td_fuel : M (ohc H) nat := gets (fun s => S (size (tds s))).
Definition entry_fuel : M (ohc H) nat := gets (fun s => S (size (entries s))).
End State.

(** ** Services *)

(** The memory pool: cleared memory, or NULL. *)
Class DescriptorPool (H : Type) := {
  pool_alloc : Z -> M H Z;
  pool_free : Z -> Z -> M H unit
}.

(** ** OhciUrb.c *)

Section Urb.
Context {B : Build} {H : Type} {HW : OhciHw H} {HP : DescriptorPool H}.
Implicit Types s : ohc H.
Abbreviation MO := (M (ohc H)).

Definition on_hw {A} (c : M H A) : MO A := zoom hw set_hw c.

Definition OhciCreateTD : MO Z :=
  Td ← on_hw (pool_alloc sizeof_TD);
  if Td =? 0 then mret 0
  else modify (fun s => set_tds (<[Td := zero_td]> (tds s)) s);; mret Td.

Definition OhciFreeTD (Td : Z) : MO Z :=
  if Td =? 0 then mret EFI_SUCCESS
  else on_hw (pool_free Td sizeof_TD);; modify (fun s => set_tds (delete Td (tds s)) s);; mret EFI_SUCCESS.

Definition OhciCreateED : MO Z :=
  Ed ← on_hw (pool_alloc sizeof_ED);
  if Ed =? 0 then mret 0
  else modify (fun s => set_eds (<[Ed := ed_with_Skip 1 zero_ed]> (eds s)) s);; mret Ed.

Definition OhciFreeED (Ed : Z) : MO Z :=
  if Ed =? 0 then mret EFI_SUCCESS
  else on_hw (pool_free Ed sizeof_ED);; modify (fun s => set_eds (delete Ed (eds s)) s);; mret EFI_SUCCESS.

Fixpoint free_tds (fuel : nat) (Td TailTd : Z) : MO unit :=
  match fuel with
  | O => stopM NoFuel
  | S fuel =>
      if Td =? TailTd then mret tt
      else t ← td_at Td; OhciFreeTD Td;; free_tds fuel (NextTDPointer t) TailTd
  end.

Definition OhciFreeAllTDFromED (Ed : Z) : MO Z :=
  if Ed =? 0 then mret EFI_SUCCESS
  else
    d ← ed_at Ed;
    fuel ← td_fuel;
    free_tds fuel (TD_PTR (TdHeadPointer d)) (TdTailPointer d);;
    mret EFI_SUCCESS.

Fixpoint find_working (fuel : nat) (Ed Address EndPoint EdDir : Z) : MO Z :=
  match fuel with
  | O => stopM NoFuel
  | S fuel =>
      if Ed =? 0 then mret 0
      else
        d ← ed_at Ed;
        if (Halted d =? 0) && (Skip d =? 0) && (FunctionAddress d =? Address) && (EndPointNum d =? EndPoint) &&
           (Direction d =? EdDir) then mret Ed
        else find_working fuel (NextED d) Address EndPoint EdDir
  end.

Definition OhciFindWorkingEd (EdHead Address EndPoint EdDir : Z) : MO Z :=
  fuel ← ed_fuel; find_working fuel EdHead Address EndPoint EdDir.

Definition Leaf : list nat :=
  [0; 16; 8; 24; 4; 20; 12; 28; 2; 18; 10; 26; 6; 22; 14; 30; 1; 17; 9; 25; 5; 21; 13; 29; 3; 19; 11; 27; 7; 23; 15; 31]%nat.

(** A loop over [Index]; [Some] status: return it. *)
Fixpoint for_each (l : list nat) (body : nat -> MO (option Z)) : MO (option Z) :=
  match l with
  | [] => mret None
  | i :: l => r ← body i; match r with Some st => mret (Some st) | None => for_each l body end
  end.

Definition leaf_body (Index : nat) : MO (option Z) :=
  NewEd ← OhciCreateED;
  if NewEd =? 0 then mret (Some EFI_OUT_OF_RESOURCES)
  else modify (fun s => set_hcca (<[Index := u32 NewEd]> (HccaInterruptTable s)) s);; mret None.

Definition first_level_body (Index : nat) : MO (option Z) :=
  h ← gets HccaInterruptTable;
  p ← table_at h (Leaf !!! Index);
  set_interval 0 Index p;; mret None.

Definition level_body (Level Index : nat) : MO (option Z) :=
  NewEd ← OhciCreateED;
  set_interval Level Index NewEd;;
  h ← gets HccaInterruptTable;
  p ← table_at h Index;
  if p =? 0 then mret (Some EFI_OUT_OF_RESOURCES)
  else
    a ← interval_at (Level - 1) (Index * 2);
    upd_ed a (ed_with_NextED NewEd);;
    b ← interval_at (Level - 1) (Index * 2 + 1);
    upd_ed b (ed_with_NextED NewEd);;
    mret None.

Definition OhciInitializeInterruptList : MO Z :=
  r ← for_each (seq 0 32) leaf_body;
  match r with
  | Some st => mret st
  | None =>
      for_each (seq 0 32) first_level_body;;
      r ← for_each (seq 1 5) (fun Level => for_each (seq 0 (Nat.shiftr 32 Level)) (level_body Level));
      mret (default EFI_SUCCESS r)
  end.

Definition OhciAttachED (Ed NewEd : Z) : MO Z :=
  if Ed =? 0 then mret EFI_INVALID_PARAMETER
  else
    d ← ed_at Ed;
    if NextED d =? 0 then upd_ed Ed (ed_with_NextED NewEd);; mret EFI_SUCCESS
    else
      upd_ed Ed (ed_with_NextED NewEd);;
      upd_ed NewEd (ed_with_NextED (NextED d));;
      mret EFI_SUCCESS.

Fixpoint count_eds (fuel : nat) (Ed Count : Z) : MO Z :=
  match fuel with
  | O => stopM NoFuel
  | S fuel => if Ed =? 0 then mret Count else d ← ed_at Ed; count_eds fuel (NextED d) (u64 (Count + 1))
  end.

Definition CountEdNum (Ed : Z) : MO Z := fuel ← ed_fuel; count_eds fuel Ed 0.

Fixpoint min_list (Depth : nat) (l : list nat) (MinEdNum TempEd : Z) : MO Z :=
  match l with
  | [] => mret TempEd
  | Index :: l =>
      HeadEd ← interval_at Depth Index;
      EdNum ← CountEdNum HeadEd;
      if EdNum <? MinEdNum then min_list Depth l EdNum HeadEd else min_list Depth l MinEdNum TempEd
  end.

Definition OhciFindMinInterruptEDList (Depth : Z) : MO Z :=
  if 5 <? Depth then mret 0
  else
    TempEd ← min_list (Z.to_nat Depth) (seq 0 (Nat.shiftr 32 (Z.to_nat Depth))) 0xFFFFFFFF 0;
    ASSERT (negb (TempEd =? 0));;
    mret TempEd.

Inductive DESCRIPTOR_LIST_TYPE := CONTROL_LIST | BULK_LIST | INTERRUPT_LIST | ISOCHRONOUS_LIST.

(** A list whose head is in a register. *)
Definition attach_to_head (Register Ed : Z) : MO Z :=
  HeadEd ← on_hw (OhciGetMemoryPointer Register);
  if HeadEd =? 0 then on_hw (OhciSetMemoryPointer Register Ed);; mret Ed
  else OhciAttachED HeadEd Ed;; mret HeadEd.

Definition OhciAttachEDToList (ListType : DESCRIPTOR_LIST_TYPE) (Ed EdList : Z) : MO Z :=
  match ListType with
  | CONTROL_LIST => attach_to_head HC_CONTROL_HEAD Ed
  | BULK_LIST => attach_to_head HC_BULK_HEAD Ed
  | INTERRUPT_LIST => OhciAttachED EdList Ed;; mret 0
  | ISOCHRONOUS_LIST => ASSERT false;; mret 0
  end.

(** The [while] over one list: [doomed] tells the EDs to remove. *)
Fixpoint remove_eds (fuel : nat) (doomed : Z -> ED_DESCRIPTOR -> bool) (Ed : Z) : MO unit :=
  match fuel with
  | O => stopM NoFuel
  | S fuel =>
      d ← ed_at Ed;
      if NextED d =? 0 then mret tt
      else
        t ← ed_at (NextED d);
        if doomed (NextED d) t then
          upd_ed Ed (ed_with_NextED (NextED t));; OhciFreeED (NextED d);; remove_eds fuel doomed Ed
        else remove_eds fuel doomed (NextED d)
  end.

(** The interrupt lists in turn. *)
Definition remove_from_lists (doomed : Z -> ED_DESCRIPTOR -> bool) : MO (option Z) :=
  for_each (seq 0 32) (fun Index =>
    h ← gets HccaInterruptTable;
    Ed ← table_at h Index;
    if Ed =? 0 then mret None
    else fuel ← ed_fuel; remove_eds fuel doomed Ed;; mret None).

Definition OhciFreeInterruptEdByEd (IntEd : Z) : MO Z :=
  if IntEd =? 0 then mret EFI_SUCCESS
  else remove_from_lists (fun p _ => p =? u32 IntEd);; mret EFI_SUCCESS.

Definition OhciFreeInterruptEdByAddr (Address EndPoint : Z) : MO Z :=
  remove_from_lists (fun _ t => (FunctionAddress t =? Address) && (EndPointNum t =? EndPoint));; mret EFI_SUCCESS.

(** The last TD of a queue. *)
Fixpoint last_td (fuel : nat) (Td : Z) : MO Z :=
  match fuel with
  | O => stopM NoFuel
  | S fuel => t ← td_at Td; if NextTD t =? 0 then mret Td else last_td fuel (NextTD t)
  end.

Definition append_td (Td1 Td2 : Z) : MO unit :=
  fuel ← td_fuel;
  TempTd ← last_td fuel Td1;
  upd_td TempTd (fun t => td_with_NextTDPointer Td2 (td_with_NextTD Td2 t)).

Definition OhciLinkTD (Td1 Td2 : Z) : MO Z :=
  if Td1 =? 0 then mret EFI_INVALID_PARAMETER
  else if Td1 =? Td2 then mret EFI_SUCCESS
  else append_td Td1 Td2;; mret EFI_SUCCESS.

Definition OhciAttachTDListToED (Ed HeadTd : Z) : MO Z :=
  d ← ed_at Ed;
  let TempTd := TD_PTR (TdHeadPointer d) in
  (if negb (TempTd =? 0) then append_td TempTd HeadTd
   else upd_ed Ed (fun d => ed_with_word2 (Halted d) (ToggleCarry d) (Zero d) (RIGHT_SHIFT_4 HeadTd) d));;
  mret EFI_SUCCESS.
End Urb.
