(* ===== verification/OhciSched.v ===== *)
(** * OHCI transfer scheduling

    Model of [src/Silicon/Rockchip/Rk356xPkg/Drivers/OhciDxe/OhciSched.c], the
    contexts of the interrupt transfers and the timer that serves them, and
    of the release of the interrupt memory in [OhciUrb.c]. *)

From Stdlib Require Import ZArith Lia.
From stdpp Require Import base list numbers option gmap.
From S2P Require Import Prelude OhciReg Ohci.

Definition EFI_USB_NOERROR : Z := 0x00.
Definition EFI_USB_ERR_NOTEXECUTE : Z := 0x01.
Definition EFI_USB_ERR_STALL : Z := 0x02.
Definition EFI_USB_ERR_BUFFER : Z := 0x04.
Definition EFI_USB_ERR_CRC : Z := 0x20.
Definition EFI_USB_ERR_TIMEOUT : Z := 0x40.
Definition EFI_USB_ERR_BITSTUFF : Z := 0x80.
Definition EFI_USB_ERR_SYSTEM : Z := 0x100.
Definition TPL_NOTIFY : Z := 16.

Definition pages_of (n : Z) : Z := Z.shiftr n 12 + (if Z.land n 0xFFF =? 0 then 0 else 1).

(** DMA and pool services, and the callbacks of the clients: function, data,
    length, context and result. *)
Class OhciServices (H : Type) := {
  DmaUnmap : Z -> H -> H;
  DmaFreeBuffer : Z -> Z -> H -> H;
  FreePool : Z -> H -> H;
  callback : Z -> Z -> Z -> Z -> Z -> M (ohc H) unit
}.

Section Sched.
Context {B : Build} {H : Type} {HW : OhciHw H} {HP : DescriptorPool H} {HS : OhciServices H}.
Implicit Types s : ohc H.
Abbreviation MO := (M (ohc H)).

Definition on_services (f : H -> H) : MO unit := modify (fun s => set_hw (f (hw s)) s).

Definition RaiseTPL (NewTpl : Z) : MO Z := old ← gets tpl; modify (set_tpl NewTpl);; mret old.
Definition RestoreTPL (OldTpl : Z) : MO unit := modify (set_tpl OldTpl).

Definition with_NextEntry (p : Z) (e : INTERRUPT_CONTEXT_ENTRY) : INTERRUPT_CONTEXT_ENTRY :=
  Build_INTERRUPT_CONTEXT_ENTRY (DeviceAddress e) (EndPointAddress e) (Entry_Ed e) (DataTd e) (CallBackFunction e)
    (Context e) (IsPeriodic e) (DataLength e) (UCBuffer e) (UCBufferMapping e) p.

Definition upd_entry (p : Z) (f : INTERRUPT_CONTEXT_ENTRY -> INTERRUPT_CONTEXT_ENTRY) : MO unit :=
  e ← entry_at p; modify (fun s => set_entries (<[p := f e]> (entries s)) s).

Fixpoint last_entry (fuel : nat) (Entry : Z) : MO Z :=
  match fuel with
  | O => stopM NoFuel
  | S fuel => e ← entry_at Entry; if NextEntry e =? 0 then mret Entry else last_entry fuel (NextEntry e)
  end.

Definition OhciAddInterruptContextEntry (NewEntry : Z) : MO Z :=
  OriginalTPL ← RaiseTPL TPL_NOTIFY;
  head ← gets InterruptContextList;
  (if head =? 0 then modify (set_contexts NewEntry)
   else fuel ← entry_fuel; Entry ← last_entry fuel head; upd_entry Entry (with_NextEntry NewEntry));;
  RestoreTPL OriginalTPL;;
  mret EFI_SUCCESS.

(** Frees a TD chain. *)
Fixpoint free_data_tds (fuel : nat) (Td : Z) : MO unit :=
  match fuel with
  | O => stopM NoFuel
  | S fuel => if Td =? 0 then mret tt else t ← td_at Td; OhciFreeTD Td;; free_data_tds fuel (NextTDPointer t)
  end.

Definition OhciFreeInterruptContextEntry (Entry : Z) : MO Z :=
  if Entry =? 0 then mret EFI_INVALID_PARAMETER
  else
    e ← entry_at Entry;
    (if negb (UCBufferMapping e =? 0) then on_services (DmaUnmap (UCBufferMapping e)) else mret tt);;
    (if negb (UCBuffer e =? 0) then on_services (DmaFreeBuffer (pages_of (DataLength e)) (UCBuffer e)) else mret tt);;
    fuel ← td_fuel;
    free_data_tds fuel (DataTd e);;
    on_services (FreePool Entry);;
    modify (fun s => set_entries (delete Entry (entries s)) s);;
    mret EFI_SUCCESS.

Definition matches (e : INTERRUPT_CONTEXT_ENTRY) (Address EndPoint : Z) : bool :=
  (DeviceAddress e =? Address) && (EndPointAddress e =? EndPoint).

(** [*DataToggle], when the pointer is given. *)
Definition note_toggle (want : bool) (e : INTERRUPT_CONTEXT_ENTRY) (toggle : option Z) : MO (option Z) :=
  if want then t ← td_at (DataTd e); mret (Some (Z.land (DataToggle t) 1)) else mret toggle.

Fixpoint free_matching_heads (fuel : nat) (Address EndPoint : Z) (want : bool) (toggle : option Z) : MO (option Z) :=
  match fuel with
  | O => stopM NoFuel
  | S fuel =>
      head ← gets InterruptContextList;
      if head =? 0 then mret toggle
      else
        e ← entry_at head;
        if matches e Address EndPoint then
          modify (set_contexts (NextEntry e));;
          toggle ← note_toggle want e toggle;
          OhciFreeInterruptContextEntry head;;
          free_matching_heads fuel Address EndPoint want toggle
        else mret toggle
  end.

Fixpoint free_matching_rest (fuel : nat) (Entry Address EndPoint : Z) (want : bool) (toggle : option Z) : MO (option Z) :=
  match fuel with
  | O => stopM NoFuel
  | S fuel =>
      e ← entry_at Entry;
      if NextEntry e =? 0 then mret toggle
      else
        n ← entry_at (NextEntry e);
        if matches n Address EndPoint then
          upd_entry Entry (with_NextEntry (NextEntry n));;
          toggle ← note_toggle want n toggle;
          OhciFreeInterruptContextEntry (NextEntry e);;
          free_matching_rest fuel Entry Address EndPoint want toggle
        else free_matching_rest fuel (NextEntry e) Address EndPoint want toggle
  end.

Definition OhciFreeInterruptContext (Address EndPoint : Z) (want : bool) : MO (Z * option Z) :=
  OriginalTPL ← RaiseTPL TPL_NOTIFY;
  fuel ← entry_fuel;
  toggle ← free_matching_heads fuel Address EndPoint want None;
  Entry ← gets InterruptContextList;
  if Entry =? 0 then RestoreTPL OriginalTPL;; mret (EFI_SUCCESS, toggle)
  else
    fuel ← entry_fuel;
    toggle ← free_matching_rest fuel Entry Address EndPoint want toggle;
    RestoreTPL OriginalTPL;;
    mret (EFI_SUCCESS, toggle).

Definition ConvertErrorCode (ErrorCode : Z) : Z :=
  if ErrorCode =? TD_NO_ERROR then EFI_USB_NOERROR
  else if (ErrorCode =? TD_TOBE_PROCESSED) || (ErrorCode =? TD_TOBE_PROCESSED_2) then EFI_USB_ERR_NOTEXECUTE
  else if ErrorCode =? TD_DEVICE_STALL then EFI_USB_ERR_STALL
  else if (ErrorCode =? TD_BUFFER_OVERRUN) || (ErrorCode =? TD_BUFFER_UNDERRUN) then EFI_USB_ERR_BUFFER
  else if ErrorCode =? TD_CRC_ERROR then EFI_USB_ERR_CRC
  else if ErrorCode =? TD_NO_RESPONSE then EFI_USB_ERR_TIMEOUT
  else if ErrorCode =? TD_BITSTUFFING_ERROR then EFI_USB_ERR_BITSTUFF
  else EFI_USB_ERR_SYSTEM.

Fixpoint check_tds (fuel : nat) (Td Result : Z) : MO (bool * Z) :=
  match fuel with
  | O => stopM NoFuel
  | S fuel =>
      if Td =? 0 then mret (true, Result)
      else
        t ← td_at Td;
        let Result := Z.lor Result (ConvertErrorCode (ConditionCode t)) in
        if negb (Result =? 0) then mret (false, Result) else check_tds fuel (NextTDPointer t) Result
  end.

Definition OhciCheckTDsResults (Td : Z) : MO (bool * Z) :=
  fuel ← td_fuel; check_tds fuel Td EFI_USB_NOERROR.

(** [OHCI_ED_RESULT] *)
Record ed_result := { ErrorCode : Z; NextToggle : Z }.

Fixpoint check_ed (fuel : nat) (Ed HeadTd Toggle : Z) : MO (Z * Z) :=
  match fuel with
  | O => stopM NoFuel
  | S fuel =>
      if HeadTd =? 0 then
        d ← ed_at Ed;
        head ← OhciGetEDField d ED_TDHEAD_PTR;
        tail ← OhciGetEDField d ED_TDTAIL_PTR;
        mret (if negb (head =? tail) then TD_TOBE_PROCESSED else TD_NO_ERROR, Toggle)
      else
        t ← td_at HeadTd;
        if NextTDPointer t =? 0 then mret (TD_NO_ERROR, Toggle)
        else if negb (ConditionCode t =? 0) then mret (ConditionCode t, Toggle)
        else check_ed fuel Ed (NextTDPointer t) (Z.lxor (Z.land (DataToggle t) 1) 1)
  end.

(** The code and the updated [NextToggle]. *)
Definition CheckEDStatus (Ed HeadTd Toggle : Z) : MO (Z * Z) :=
  fuel ← td_fuel; check_ed fuel Ed HeadTd Toggle.

Definition list_busy (ListType : DESCRIPTOR_LIST_TYPE) : MO bool :=
  match ListType with
  | CONTROL_LIST => v ← on_hw (OhciGetHcCommandStatus CONTROL_LIST_FILLED); mret (negb (v =? 0))
  | BULK_LIST => v ← on_hw (OhciGetHcCommandStatus BULK_LIST_FILLED); mret (negb (v =? 0))
  | _ => mret false
  end.

Definition CheckIfDone (ListType : DESCRIPTOR_LIST_TYPE) (Ed HeadTd : Z) (r : ed_result) : MO (Z * ed_result) :=
  busy ← list_busy ListType;
  if (busy : bool) then mret (EFI_NOT_READY, {| ErrorCode := TD_TOBE_PROCESSED; NextToggle := NextToggle r |})
  else
    '(code, toggle) ← CheckEDStatus Ed HeadTd (NextToggle r);
    mret (if code =? TD_NO_ERROR then EFI_SUCCESS
          else if code =? TD_TOBE_PROCESSED then EFI_NOT_READY else EFI_DEVICE_ERROR,
          {| ErrorCode := code; NextToggle := toggle |}).

Definition OhciTDConditionCodeToStatus (Code : Z) : Z :=
  if Code =? TD_NO_ERROR then EFI_SUCCESS
  else if Code =? TD_TOBE_PROCESSED then EFI_NOT_READY else EFI_DEVICE_ERROR.

Definition OhciInvokeInterruptCallBack (Entry Result : Z) : MO unit :=
  e ← entry_at Entry;
  if negb (Result =? 0) then callback (CallBackFunction e) 0 0 (Context e) Result
  else t ← td_at (DataTd e); callback (CallBackFunction e) (DataBuffer t) (ActualSendLength t) (Context e) Result.

(** *** The timer *)

Fixpoint retoggle (fuel : nat) (Td Toggle : Z) : MO unit :=
  match fuel with
  | O => stopM NoFuel
  | S fuel =>
      if Td =? 0 then mret tt
      else
        t ← td_at Td;
        if NextTDPointer t =? 0 then upd_td Td (td_with_DataToggle 0)
        else upd_td Td (OhciSetTDField TD_DT_TOGGLE Toggle);; retoggle fuel (NextTDPointer t) (Z.lxor Toggle 1)
  end.

(** Makes the TDs of a chain pending again; returns the last one, or NULL. *)
Fixpoint rearm (fuel : nat) (Td : Z) : MO Z :=
  match fuel with
  | O => stopM NoFuel
  | S fuel =>
      if Td =? 0 then mret 0
      else
        t ← td_at Td;
        if NextTDPointer t =? 0 then
          upd_td Td (OhciSetTDField (Z.lor TD_ERROR_CNT (Z.lor TD_COND_CODE (Z.lor TD_CURR_BUFFER_PTR TD_NEXT_PTR))) 0);;
          mret Td
        else
          upd_td Td (OhciSetTDField TD_ERROR_CNT 0);;
          upd_td Td (OhciSetTDField TD_COND_CODE TD_TOBE_PROCESSED);;
          upd_td Td (fun t => td_with_CurrBufferPointer (DataBuffer t) (td_with_NextTD (NextTDPointer t) t));;
          rearm fuel (NextTDPointer t)
  end.

(** A finished periodic transfer goes back to the controller. *)
Definition resubmit (Ed HeadTd : Z) : MO unit :=
  (if negb (HeadTd =? 0) then upd_ed Ed (ed_with_Skip 1) else mret tt);;
  d ← ed_at Ed;
  Toggle ← OhciGetEDField d ED_DTTOGGLE;
  fuel ← td_fuel;
  retoggle fuel HeadTd Toggle;;
  last ← rearm fuel HeadTd;
  if negb (last =? 0) then
    upd_ed Ed (fun d => ed_with_word2 (Halted d) (ToggleCarry d) (Zero d) (u32 (Z.shiftr HeadTd 4)) d);;
    upd_ed Ed (OhciSetEDField (Z.lor ED_HALTED ED_DTTOGGLE) 0);;
    upd_ed Ed (ed_with_Skip 0)
  else mret tt.

Definition has_bits (Result bits : Z) : bool := Z.land Result bits =? bits.

Fixpoint house (fuel : nat) (OriginalTPL PreEntry Entry : Z) : MO unit :=
  match fuel with
  | O => stopM NoFuel
  | S fuel =>
      if Entry =? 0 then RestoreTPL OriginalTPL
      else
        e ← entry_at Entry;
        '(_, Result) ← OhciCheckTDsResults (DataTd e);
        if has_bits Result EFI_USB_ERR_STALL || has_bits Result EFI_USB_ERR_NOTEXECUTE
        then house fuel OriginalTPL Entry (NextEntry e)
        else
          gone ← (if negb (CallBackFunction e =? 0) then
                    OhciInvokeInterruptCallBack Entry Result;;
                    head ← gets InterruptContextList;
                    mret (head =? 0)
                  else mret false);
          if (gone : bool) then RestoreTPL OriginalTPL
          else
            e ← entry_at Entry;
            if IsPeriodic e then
              if Result =? EFI_USB_NOERROR then
                if Entry_Ed e =? 0 then mret tt
                else
                  resubmit (Entry_Ed e) (DataTd e);;
                  e ← entry_at Entry;
                  house fuel OriginalTPL Entry (NextEntry e)
              else mret tt
            else
              PreEntry ← (if PreEntry =? 0 then modify (set_contexts (NextEntry e));; mret 0
                          else upd_entry Entry (with_NextEntry (NextEntry e));; mret Entry);
              OhciFreeInterruptContextEntry PreEntry;;
              RestoreTPL OriginalTPL
  end.

Definition OhciHouseKeeper : MO unit :=
  OriginalTPL ← RaiseTPL TPL_NOTIFY;
  Entry ← gets InterruptContextList;
  fuel ← entry_fuel;
  house fuel OriginalTPL 0 Entry.

(** *** Releasing the interrupt memory (OhciUrb.c) *)

Fixpoint free_dynamic (fuel : nat) : MO unit :=
  match fuel with
  | O => stopM NoFuel
  | S fuel =>
      Entry ← gets InterruptContextList;
      if Entry =? 0 then mret tt
      else
        e ← entry_at Entry;
        modify (set_contexts (NextEntry e));;
        OhciFreeInterruptEdByEd (Entry_Ed e);;
        OhciFreeInterruptContextEntry Entry;;
        free_dynamic fuel
  end.

Definition OhciFreeDynamicIntMemory : MO unit := fuel ← entry_fuel; free_dynamic fuel.

Definition free_interval (Level Index : nat) : MO (option Z) :=
  p ← interval_at Level Index;
  if negb (p =? 0) then OhciFreeED p;; mret None else mret None.

Definition OhciFreeFixedIntMemory : MO unit :=
  for_each (seq 0 6) (fun Level => for_each (seq 0 ([32; 16; 8; 4; 2; 1]%nat !!! Level)) (free_interval Level));;
  mret tt.

Definition OhciFreeIntTransferMemory : MO Z :=
  OhciFreeDynamicIntMemory;; OhciFreeFixedIntMemory;; mret EFI_SUCCESS.
End Sched.
