(* ===== verification/OhciXfer.v ===== *)
(** * OHCI transfers

    Model of the transfers of
    [src/Silicon/Rockchip/Rk356xPkg/Drivers/OhciDxe/Ohci.c]: control, bulk and
    interrupt.  The controller works on the descriptors while the driver
    stalls ([hc_progress]).  A label of the C code is a function of the
    variables live there. *)

From Stdlib Require Import ZArith Lia.
From stdpp Require Import base list numbers option gmap.
From S2P Require Import Prelude OhciReg Ohci OhciSched.

Definition ED_FROM_TD_DIR : Z := 0.
Definition ED_OUT_DIR : Z := 1.
Definition ED_IN_DIR : Z := 2.
Definition TD_SETUP_PID : Z := 0.
Definition TD_OUT_PID : Z := 1.
Definition TD_IN_PID : Z := 2.
Definition HI_SPEED : Z := 0.
Definition TD_NO_DELAY : Z := 7.
Definition MAX_BYTES_PER_TD : Z := 0x1000.
Definition sizeof_REQUEST : Z := 8.
Definition sizeof_ENTRY : Z := 96.

Definition EfiUsbDataIn : Z := 0.
Definition EfiUsbDataOut : Z := 1.
Definition EfiUsbNoData : Z := 2.

Definition MapOperationBusMasterRead : Z := 0.
Definition MapOperationBusMasterWrite : Z := 1.

(** What [DmaMap] returns: status, bytes mapped, device address, mapping. *)
Record dma_map := { dm_Status : Z; dm_Bytes : Z; dm_Addr : Z; dm_Mapping : Z }.

(** DMA and pool services, and the controller's work on the descriptors. *)
Class OhciDma (H : Type) := {
  DmaMap : Z -> Z -> Z -> H -> dma_map * H;
  DmaAllocateBuffer : Z -> H -> (Z * Z) * H;
  AllocatePool : Z -> H -> Z * H;
  CopyMem : Z -> Z -> Z -> H -> H;
  hc_progress : ohc H -> ohc H
}.

Section Xfer.
Context {B : Build} {H : Type} {HW : OhciHw H} {HP : DescriptorPool H} {HS : OhciServices H} {HD : OhciDma H}.
Implicit Types s : ohc H.
Abbreviation MO := (M (ohc H)).

Definition service {A} (f : H -> A * H) : MO A := fun s => let '(a, h) := f (hw s) in Ret a (set_hw h s).

(** [gBS->Stall] *)
Definition pause (us : Z) : MO unit := on_hw (stall us);; modify hc_progress.

Definition when (b : bool) (c : MO unit) : MO unit := if b then c else mret tt.

Definition set_ed_fields (l : list (Z * Z)) (d : ED_DESCRIPTOR) : ED_DESCRIPTOR :=
  fold_left (fun d '(Field, Value) => OhciSetEDField Field Value d) l d.
Definition set_td_fields (l : list (Z * Z)) (t : TD_DESCRIPTOR) : TD_DESCRIPTOR :=
  fold_left (fun t '(Field, Value) => OhciSetTDField Field Value t) l t.

(** *** The descriptors of a transfer *)

Definition setup_td (Addr : Z) (t : TD_DESCRIPTOR) : TD_DESCRIPTOR :=
  td_with_NextTDPointer 0 (td_with_data Addr sizeof_REQUEST (set_td_fields
    [(TD_PDATA, 0); (TD_BUFFER_ROUND, 1); (TD_DIR_PID, TD_SETUP_PID); (TD_DELAY_INT, TD_NO_DELAY); (TD_DT_TOGGLE, 2);
     (TD_ERROR_CNT, 0); (TD_COND_CODE, TD_TOBE_PROCESSED); (TD_CURR_BUFFER_PTR, u32 Addr); (TD_NEXT_PTR, 0);
     (TD_BUFFER_END_PTR, u32 (Addr + sizeof_REQUEST - 1))] t)).

Definition data_td (Pid Toggle Addr Len : Z) (t : TD_DESCRIPTOR) : TD_DESCRIPTOR :=
  td_with_NextTDPointer 0 (td_with_data Addr Len (set_td_fields
    [(TD_PDATA, 0); (TD_BUFFER_ROUND, 1); (TD_DIR_PID, Pid); (TD_DELAY_INT, TD_NO_DELAY); (TD_DT_TOGGLE, Toggle);
     (TD_ERROR_CNT, 0); (TD_COND_CODE, TD_TOBE_PROCESSED); (TD_CURR_BUFFER_PTR, u32 Addr);
     (TD_BUFFER_END_PTR, u32 (Addr + Len - 1)); (TD_NEXT_PTR, 0)] t)).

Definition status_td (Pid : Z) (t : TD_DESCRIPTOR) : TD_DESCRIPTOR :=
  td_with_NextTDPointer 0 (td_with_data 0 0 (set_td_fields
    [(TD_PDATA, 0); (TD_BUFFER_ROUND, 1); (TD_DIR_PID, Pid); (TD_DELAY_INT, 7); (TD_DT_TOGGLE, 3); (TD_ERROR_CNT, 0);
     (TD_COND_CODE, TD_TOBE_PROCESSED); (TD_CURR_BUFFER_PTR, 0); (TD_NEXT_PTR, 0); (TD_BUFFER_END_PTR, 0)] t)).

Definition empty_td (t : TD_DESCRIPTOR) : TD_DESCRIPTOR :=
  td_with_NextTDPointer 0 (td_with_data 0 0 (set_td_fields
    [(TD_ERROR_CNT, 0); (TD_COND_CODE, 0); (TD_CURR_BUFFER_PTR, 0); (TD_BUFFER_END_PTR, 0); (TD_NEXT_PTR, 0)]
    (td_with_DataToggle 0 (set_td_fields [(TD_PDATA, 0); (TD_BUFFER_ROUND, 0); (TD_DIR_PID, 0); (TD_DELAY_INT, 0)] t)))).

(** The ED of a control or bulk transfer. *)
Definition transfer_ed (Address EndPoint Speed MaxPacketLength : Z) (d : ED_DESCRIPTOR) : ED_DESCRIPTOR :=
  set_ed_fields [(ED_SKIP, 1); (ED_FUNC_ADD, Address); (ED_ENDPT_NUM, EndPoint); (ED_DIR, ED_FROM_TD_DIR); (ED_SPEED, Speed);
    (Z.lor ED_FORMAT (Z.lor ED_HALTED ED_DTTOGGLE), 0); (ED_MAX_PACKET, MaxPacketLength); (ED_PDATA, 0); (ED_ZERO, 0);
    (ED_TDHEAD_PTR, 0); (ED_TDTAIL_PTR, 0); (ED_NEXT_EDPTR, 0)] d.

Definition interrupt_ed (Address EndPoint Speed MaxPacketLength : Z) (d : ED_DESCRIPTOR) : ED_DESCRIPTOR :=
  set_ed_fields [(ED_SKIP, 1); (ED_FUNC_ADD, Address); (ED_ENDPT_NUM, EndPoint); (ED_DIR, ED_FROM_TD_DIR); (ED_SPEED, Speed);
    (ED_FORMAT, 0); (ED_MAX_PACKET, MaxPacketLength); (Z.lor ED_PDATA (Z.lor ED_ZERO (Z.lor ED_HALTED ED_DTTOGGLE)), 0);
    (ED_TDHEAD_PTR, 0); (ED_TDTAIL_PTR, 0); (ED_NEXT_EDPTR, 0)] d.

(** A TD, filled and linked behind [HeadTd]; [None]: out of memory. *)
Definition add_td (HeadTd : Z) (fill : TD_DESCRIPTOR -> TD_DESCRIPTOR) : MO (option Z) :=
  Td ← OhciCreateTD;
  if Td =? 0 then mret None else upd_td Td fill;; OhciLinkTD HeadTd Td;; mret (Some Td).

(** The data stage, a TD per packet: returns whether all TDs could be had, the
    first TD and the next toggle.  A transfer that has a TD already links to
    it; otherwise the first TD becomes the head. *)
Fixpoint data_stage (fuel : nat) (HeadTd Pid Toggle Addr Left MaxPacketLength : Z) : MO (bool * Z * Z) :=
  match fuel with
  | O => stopM NoFuel
  | S fuel =>
      if Left <=? 0 then mret (true, HeadTd, Toggle)
      else
        let Len := if MaxPacketLength <? Left then MaxPacketLength else Left in
        DataTd ← OhciCreateTD;
        if DataTd =? 0 then mret (false, HeadTd, Toggle)
        else
          upd_td DataTd (data_td Pid Toggle Addr Len);;
          HeadTd ← (if HeadTd =? 0 then mret DataTd else OhciLinkTD HeadTd DataTd;; mret HeadTd);
          data_stage fuel HeadTd Pid (Z.lxor Toggle 1) (u64 (Addr + Len)) (Left - Len) MaxPacketLength
  end.

Definition packets (Left MaxPacketLength : Z) : nat := S (S (Z.to_nat (Left / MaxPacketLength))).

(** Polls once per millisecond while the transfer is not ready. *)
Fixpoint await (fuel : nat) (ListType : DESCRIPTOR_LIST_TYPE) (Ed HeadTd Status : Z) (r : ed_result) : MO (Z * ed_result) :=
  match fuel with
  | O => mret (Status, r)
  | S fuel =>
      if Status =? EFI_NOT_READY then
        pause 1000;;
        '(Status, r) ← CheckIfDone ListType Ed HeadTd r;
        await fuel ListType Ed HeadTd Status r
      else mret (Status, r)
  end.

(** Takes the ED off its list, whose head is in [Register]. *)
Definition unlink_ed (Register HeadEd Ed : Z) : MO unit :=
  upd_ed Ed (OhciSetEDField ED_SKIP 1);;
  if HeadEd =? Ed then on_hw (OhciSetMemoryPointer Register 0);; mret tt
  else d ← ed_at Ed; upd_ed HeadEd (ed_with_NextED (NextED d)).

Definition free_chain (Td : Z) : MO unit := fuel ← td_fuel; free_data_tds fuel Td.

Definition unmap (Mapping : Z) : MO unit := when (negb (Mapping =? 0)) (on_services (DmaUnmap Mapping)).

(** *** Control transfers *)

(** What a transfer leaves in its output parameters. *)
Record outcome_of := { xf_Status : Z; xf_Result : option Z; xf_DataLength : Z; xf_DataToggle : Z }.

Definition ctrl_free_ed (Ed : Z) (r : outcome_of) : MO outcome_of := OhciFreeED Ed;; mret r.
Definition ctrl_unmap_setup (ReqMapping Ed : Z) (r : outcome_of) : MO outcome_of := unmap ReqMapping;; ctrl_free_ed Ed r.
Definition ctrl_free_td (HeadTd ReqMapping Ed : Z) (r : outcome_of) : MO outcome_of :=
  free_chain HeadTd;; ctrl_unmap_setup ReqMapping Ed r.
Definition ctrl_unmap_data (HeadEd DataMapping HeadTd ReqMapping Ed : Z) (r : outcome_of) : MO outcome_of :=
  unlink_ed HC_CONTROL_HEAD HeadEd Ed;; unmap DataMapping;; ctrl_free_td HeadTd ReqMapping Ed r.

(** Starting a list and waiting for the transfer: the list is enabled by
    [Control] and told to be filled, in the order of the code. *)
Definition run_control (Ed HeadTd TimeOut DataLength : Z) : MO outcome_of :=
  upd_ed Ed (OhciSetEDField ED_SKIP 0);;
  Status ← on_hw (OhciSetHcControl CONTROL_ENABLE 1);
  if EFI_ERROR Status then mret {| xf_Status := EFI_DEVICE_ERROR; xf_Result := Some EFI_USB_ERR_SYSTEM; xf_DataLength := DataLength; xf_DataToggle := 0 |}
  else
    Status ← on_hw (OhciSetHcCommandStatus CONTROL_LIST_FILLED 1);
    if EFI_ERROR Status then mret {| xf_Status := EFI_DEVICE_ERROR; xf_Result := Some EFI_USB_ERR_SYSTEM; xf_DataLength := DataLength; xf_DataToggle := 0 |}
    else
      pause (20 * 1000);;
      '(Status, r) ← CheckIfDone CONTROL_LIST Ed HeadTd {| ErrorCode := 0; NextToggle := 0 |};
      '(Status, r) ← await (S (Z.to_nat TimeOut)) CONTROL_LIST Ed HeadTd Status r;
      mret {| xf_Status := Status; xf_Result := Some (ConvertErrorCode (ErrorCode r));
              xf_DataLength := if ErrorCode r =? TD_NO_ERROR then DataLength else 0; xf_DataToggle := 0 |}.

Definition packet_length_ok (n : Z) : bool := (n =? 8) || (n =? 16) || (n =? 32) || (n =? 64).

Definition control_args_ok (IsSlowDevice : bool) (MaxPacketLength Request TransferDirection Data : Z) (DataLength : option Z) (HasResult : bool) : bool :=
  match DataLength with
  | None => false
  | Some n =>
      ((TransferDirection =? EfiUsbDataOut) || (TransferDirection =? EfiUsbDataIn) || (TransferDirection =? EfiUsbNoData)) &&
      negb (Request =? 0) && HasResult &&
      negb ((TransferDirection =? EfiUsbNoData) && (negb (n =? 0) || negb (Data =? 0))) &&
      negb (negb (TransferDirection =? EfiUsbNoData) && ((n =? 0) || (Data =? 0))) &&
      negb (IsSlowDevice && negb (MaxPacketLength =? 8)) &&
      packet_length_ok MaxPacketLength &&
      (n <=? MAX_BYTES_PER_TD)
  end.

Definition failed (Status : Z) (DataLength : Z) : outcome_of :=
  {| xf_Status := Status; xf_Result := None; xf_DataLength := DataLength; xf_DataToggle := 0 |}.

(** The data, status and empty TDs behind the setup TD; [None]: out of memory. *)
Definition control_tds (SetupTd : Z) (m : dma_map) (DataPid StatusPid MaxPacketLength : Z) : MO (option Z) :=
  '(ok, _, _) ← data_stage (packets (dm_Bytes m) MaxPacketLength) SetupTd DataPid 1 (dm_Addr m) (dm_Bytes m) MaxPacketLength;
  if negb ok then mret None
  else
    StatusTd ← add_td SetupTd (status_td StatusPid);
    match StatusTd with
    | None => mret None
    | Some _ => add_td SetupTd empty_td
    end.

Definition control_stages (HeadEd Ed SetupTd ReqMapping MaxPacketLength TransferDirection Data Length TimeOut : Z) : MO outcome_of :=
  let DataPid := if TransferDirection =? EfiUsbDataIn then TD_IN_PID else TD_OUT_PID in
  let StatusPid := if TransferDirection =? EfiUsbDataIn then TD_OUT_PID else TD_IN_PID in
  let MapOp := if TransferDirection =? EfiUsbDataIn then MapOperationBusMasterWrite else MapOperationBusMasterRead in
  m ← (if negb (Data =? 0) && negb (Length =? 0) then service (DmaMap MapOp Data Length)
       else mret {| dm_Status := EFI_SUCCESS; dm_Bytes := Length; dm_Addr := 0; dm_Mapping := 0 |});
  if EFI_ERROR (dm_Status m) then ctrl_free_td SetupTd ReqMapping Ed (failed (dm_Status m) Length)
  else
    let leave := ctrl_unmap_data HeadEd (dm_Mapping m) SetupTd ReqMapping Ed in
    EmptyTd ← control_tds SetupTd m DataPid StatusPid MaxPacketLength;
    match EmptyTd with
    | None => leave (failed EFI_OUT_OF_RESOURCES Length)
    | Some EmptyTd =>
        upd_ed Ed (ed_with_TdTailPointer EmptyTd);;
        OhciAttachTDListToED Ed SetupTd;;
        r ← run_control Ed SetupTd TimeOut Length;
        leave r
    end.

Definition OhciControlTransfer (DeviceAddress : Z) (IsSlowDevice : bool) (MaxPacketLength Request TransferDirection Data : Z)
    (DataLength : option Z) (TimeOut : Z) (HasResult : bool) : MO outcome_of :=
  let Length := default 0 DataLength in
  if negb (control_args_ok IsSlowDevice MaxPacketLength Request TransferDirection Data DataLength HasResult)
  then mret (failed EFI_INVALID_PARAMETER Length)
  else
    Status ← on_hw (OhciSetHcControl CONTROL_ENABLE 0);
    if EFI_ERROR Status then mret {| xf_Status := EFI_DEVICE_ERROR; xf_Result := Some EFI_USB_ERR_SYSTEM; xf_DataLength := Length; xf_DataToggle := 0 |}
    else
      Status ← on_hw (OhciSetHcCommandStatus CONTROL_LIST_FILLED 0);
      if EFI_ERROR Status then mret {| xf_Status := EFI_DEVICE_ERROR; xf_Result := Some EFI_USB_ERR_SYSTEM; xf_DataLength := Length; xf_DataToggle := 0 |}
      else
        pause (20 * 1000);;
        on_hw (OhciSetMemoryPointer HC_CONTROL_HEAD 0);;
        Ed ← OhciCreateED;
        if Ed =? 0 then mret (failed EFI_OUT_OF_RESOURCES Length)
        else
          upd_ed Ed (transfer_ed DeviceAddress 0 (Z.b2z IsSlowDevice) MaxPacketLength);;
          HeadEd ← OhciAttachEDToList CONTROL_LIST Ed 0;
          m ← service (DmaMap MapOperationBusMasterRead Request sizeof_REQUEST);
          if EFI_ERROR (dm_Status m) then ctrl_free_ed Ed (failed (dm_Status m) Length)
          else
            SetupTd ← OhciCreateTD;
            if SetupTd =? 0 then ctrl_unmap_setup (dm_Mapping m) Ed (failed EFI_OUT_OF_RESOURCES Length)
            else
              upd_td SetupTd (setup_td (dm_Addr m));;
              control_stages HeadEd Ed SetupTd (dm_Mapping m) MaxPacketLength TransferDirection Data Length TimeOut.

(** *** Bulk transfers *)

(** The data TDs and the empty TD of a transfer without setup: the empty TD,
    if there was memory for all, the first TD and the next toggle. *)
Definition data_tds (m : dma_map) (Pid Toggle0 MaxPacketLength : Z) : MO (option Z * Z * Z) :=
  '(ok, HeadTd, Toggle) ← data_stage (packets (dm_Bytes m) MaxPacketLength) 0 Pid Toggle0 (dm_Addr m) (dm_Bytes m) MaxPacketLength;
  if negb ok then mret (None, HeadTd, Toggle)
  else EmptyTd ← add_td HeadTd empty_td; mret (EmptyTd, HeadTd, Toggle).

Definition bulk_free_ed (Ed : Z) (r : outcome_of) : MO outcome_of := OhciFreeED Ed;; mret r.
Definition bulk_free_td (HeadEd Mapping HeadTd Ed : Z) (r : outcome_of) : MO outcome_of :=
  unlink_ed HC_BULK_HEAD HeadEd Ed;; free_chain HeadTd;; unmap Mapping;; bulk_free_ed Ed r.

Definition run_bulk (Ed HeadTd TimeOut DataLength Toggle0 Toggle : Z) : MO outcome_of :=
  let broken := {| xf_Status := EFI_DEVICE_ERROR; xf_Result := Some EFI_USB_ERR_SYSTEM; xf_DataLength := DataLength; xf_DataToggle := Toggle |} in
  upd_ed Ed (OhciSetEDField ED_SKIP 0);;
  Status ← on_hw (OhciSetHcCommandStatus BULK_LIST_FILLED 1);
  if EFI_ERROR Status then mret broken
  else
    Status ← on_hw (OhciSetHcControl BULK_ENABLE 1);
    if EFI_ERROR Status then mret broken
    else
      pause (20 * 1000);;
      '(Status, r) ← CheckIfDone BULK_LIST Ed HeadTd {| ErrorCode := 0; NextToggle := Toggle0 |};
      '(Status, r) ← await (S (Z.to_nat TimeOut)) BULK_LIST Ed HeadTd Status r;
      mret {| xf_Status := Status; xf_Result := Some (ConvertErrorCode (ErrorCode r));
              xf_DataLength := if ErrorCode r =? TD_NO_ERROR then DataLength else 0;
              xf_DataToggle := if (ErrorCode r =? TD_NO_ERROR) || (ErrorCode r =? TD_TOBE_PROCESSED) then Toggle else NextToggle r |}.

Definition bulk_args_ok (MaxPacketLength Data : Z) (DataLength DataToggle : option Z) (HasResult : bool) : bool :=
  match DataLength, DataToggle with
  | Some n, Some t => negb (Data =? 0) && HasResult && negb (n =? 0) && ((t =? 0) || (t =? 1)) && packet_length_ok MaxPacketLength
  | _, _ => false
  end.

Definition bulk_stages (HeadEd Ed : Z) (m : dma_map) (Pid MaxPacketLength Length Toggle0 TimeOut : Z) : MO outcome_of :=
  '(EmptyTd, HeadTd, Toggle) ← data_tds m Pid Toggle0 MaxPacketLength;
  let leave r := bulk_free_td HeadEd (dm_Mapping m) HeadTd Ed r in
  match EmptyTd with
  | None => leave {| xf_Status := EFI_OUT_OF_RESOURCES; xf_Result := None; xf_DataLength := Length; xf_DataToggle := Toggle |}
  | Some EmptyTd =>
      upd_ed Ed (ed_with_TdTailPointer EmptyTd);;
      OhciAttachTDListToED Ed HeadTd;;
      r ← run_bulk Ed HeadTd TimeOut Length Toggle0 Toggle;
      leave r
  end.

Definition OhciBulkTransfer (DeviceAddress EndPointAddress MaxPacketLength Data : Z) (DataLength DataToggle : option Z) (TimeOut : Z)
    (HasResult : bool) : MO outcome_of :=
  let Length := default 0 DataLength in
  let Toggle0 := default 0 DataToggle in
  let stop Status Result := {| xf_Status := Status; xf_Result := Result; xf_DataLength := Length; xf_DataToggle := Toggle0 |} in
  if negb (bulk_args_ok MaxPacketLength Data DataLength DataToggle HasResult) then mret (stop EFI_INVALID_PARAMETER None)
  else
    let In := negb (Z.land EndPointAddress 0x80 =? 0) in
    let Pid := if In then TD_IN_PID else TD_OUT_PID in
    let MapOp := if In then MapOperationBusMasterWrite else MapOperationBusMasterRead in
    Status ← on_hw (OhciSetHcControl BULK_ENABLE 0);
    if EFI_ERROR Status then mret (stop EFI_DEVICE_ERROR (Some EFI_USB_ERR_SYSTEM))
    else
      Status ← on_hw (OhciSetHcCommandStatus BULK_LIST_FILLED 0);
      if EFI_ERROR Status then mret (stop EFI_DEVICE_ERROR (Some EFI_USB_ERR_SYSTEM))
      else
        pause (20 * 1000);;
        on_hw (OhciSetMemoryPointer HC_BULK_HEAD 0);;
        Ed ← OhciCreateED;
        if Ed =? 0 then mret (stop EFI_OUT_OF_RESOURCES None)
        else
          upd_ed Ed (transfer_ed DeviceAddress (Z.land EndPointAddress 0xF) HI_SPEED MaxPacketLength);;
          HeadEd ← OhciAttachEDToList BULK_LIST Ed 0;
          m ← service (DmaMap MapOp Data Length);
          if EFI_ERROR (dm_Status m) then bulk_free_ed Ed (stop (dm_Status m) None)
          else bulk_stages HeadEd Ed m Pid MaxPacketLength Length Toggle0 TimeOut.

(** *** Interrupt transfers *)

(** The depth of the lists that are visited at least once per interval. *)
Fixpoint poll_depth (Depth : nat) (Index PollingInterval : Z) : nat :=
  match Depth with
  | O => O
  | S Depth' => if Index * 2 <=? PollingInterval then poll_depth Depth' (Index * 2) PollingInterval else Depth
  end.

(** Frees the TDs of an interrupt transfer, and its ED unless it heads the list. *)
Fixpoint list_pred (fuel : nat) (HeadEd Ed : Z) : MO Z :=
  match fuel with
  | O => stopM NoFuel
  | S fuel => d ← ed_at HeadEd; if NextED d =? u32 Ed then mret HeadEd else list_pred fuel (NextED d) Ed
  end.

(** Status, data toggle, and the ED and first TD where the caller asks. *)
Record interrupt_result := { it_Status : Z; it_DataToggle : Z; it_Ed : Z; it_Td : Z }.

Definition intr_unmap (Mapping : Z) (r : interrupt_result) : MO interrupt_result := on_services (DmaUnmap Mapping);; mret r.

Definition intr_free_td (HeadEd Ed HeadTd Mapping : Z) (r : interrupt_result) : MO interrupt_result :=
  free_chain HeadTd;;
  (if negb (HeadEd =? Ed) && negb (HeadEd =? 0) && negb (Ed =? 0) then
     fuel ← ed_fuel;
     p ← list_pred fuel HeadEd Ed;
     d ← ed_at Ed;
     upd_ed p (ed_with_NextED (NextED d));;
     OhciFreeED Ed;; mret tt
   else mret tt);;
  intr_unmap Mapping r.

Definition new_entry (Address EndPoint Ed HeadTd CallBack Ctx : Z) (Periodic : bool) (Length UCBuf Mapping : Z) : INTERRUPT_CONTEXT_ENTRY :=
  {| DeviceAddress := Address; EndPointAddress := EndPoint; Entry_Ed := Ed; DataTd := HeadTd; CallBackFunction := CallBack;
     Context := Ctx; IsPeriodic := Periodic; DataLength := Length; UCBuffer := UCBuf; UCBufferMapping := Mapping; NextEntry := 0 |}.

(** The context of a transfer with a callback; false: no memory. *)
Definition add_context (CallBack : Z) (e : INTERRUPT_CONTEXT_ENTRY) : MO bool :=
  if CallBack =? 0 then mret true
  else
    Entry ← service (AllocatePool sizeof_ENTRY);
    if Entry =? 0 then mret false
    else modify (fun s => set_entries (<[Entry := e]> (entries s)) s);; OhciAddInterruptContextEntry Entry;; mret true.

(** The ED of the transfer: one of the list, or a new one behind its head. *)
Definition get_interrupt_ed (HeadEd Address EndPoint EdDir : Z) (IsSlowDevice : bool) (MaxPacketLength : Z) : MO Z :=
  Ed ← OhciFindWorkingEd HeadEd Address EndPoint EdDir;
  if negb (Ed =? 0) then upd_ed Ed (OhciSetEDField ED_SKIP 1);; mret Ed
  else
    Ed ← OhciCreateED;
    if Ed =? 0 then mret 0
    else
      upd_ed Ed (interrupt_ed Address EndPoint (Z.b2z IsSlowDevice) MaxPacketLength);;
      OhciAttachEDToList INTERRUPT_LIST Ed HeadEd;;
      mret Ed.

Definition cancel_interrupt (Address EndPoint : Z) (want : bool) : MO (Z * option Z) :=
  OldTpl ← RaiseTPL TPL_NOTIFY;
  on_hw (OhciSetHcControl PERIODIC_ENABLE 0);;
  '(_, toggle) ← OhciFreeInterruptContext Address EndPoint want;
  Status ← OhciFreeInterruptEdByAddr Address (Z.land EndPoint 0xF);
  on_hw (OhciSetHcControl PERIODIC_ENABLE 1);;
  RestoreTPL OldTpl;;
  mret (Status, toggle).

Definition submit_interrupt (HeadEd Ed : Z) (m : dma_map) (Pid Address EndPoint MaxPacketLength Toggle0 UCBuf Length CallBack Ctx : Z)
    (Periodic : bool) : MO interrupt_result :=
  '(EmptTd, HeadTd, Toggle) ← data_tds m Pid Toggle0 MaxPacketLength;
  let leave := intr_free_td HeadEd Ed HeadTd (dm_Mapping m) in
  let result Status e t := {| it_Status := Status; it_DataToggle := Toggle; it_Ed := e; it_Td := t |} in
  match EmptTd with
  | None => leave (result EFI_OUT_OF_RESOURCES 0 0)
  | Some EmptTd =>
      upd_ed Ed (ed_with_TdTailPointer EmptTd);;
      OhciAttachTDListToED Ed HeadTd;;
      added ← add_context CallBack (new_entry Address EndPoint Ed HeadTd CallBack Ctx Periodic Length UCBuf (dm_Mapping m));
      if negb added then leave (result (dm_Status m) Ed HeadTd)
      else
        upd_ed Ed (OhciSetEDField ED_SKIP 0);;
        enabled ← on_hw (OhciGetHcControl PERIODIC_ENABLE);
        (if enabled =? 0 then on_hw (OhciSetHcControl PERIODIC_ENABLE 1);; pause 1000 else mret tt);;
        mret (result EFI_SUCCESS Ed HeadTd)
  end.

Definition OhciInterruptTransfer (DeviceAddress EndPointAddress : Z) (IsSlowDevice : bool) (MaxPacketLength : Z) (IsNewTransfer : bool)
    (DataToggle : option Z) (PollingInterval UCBuf Length CallBack Ctx : Z) (Periodic : bool) : MO interrupt_result :=
  let Toggle0 := default 0 DataToggle in
  let stop Status := {| it_Status := Status; it_DataToggle := Toggle0; it_Ed := 0; it_Td := 0 |} in
  if MAX_BYTES_PER_TD <? Length then mret (stop EFI_INVALID_PARAMETER)
  else
    let In := negb (Z.land EndPointAddress 0x80 =? 0) in
    let EdDir := if In then ED_IN_DIR else ED_OUT_DIR in
    let Pid := if In then TD_IN_PID else TD_OUT_PID in
    let EndPointNum := Z.land EndPointAddress 0xF in
    if negb IsNewTransfer then
      '(Status, toggle) ← cancel_interrupt DeviceAddress EndPointAddress (match DataToggle with Some _ => true | None => false end);
      mret {| it_Status := Status; it_DataToggle := default Toggle0 toggle; it_Ed := 0; it_Td := 0 |}
    else
      m ← service (DmaMap MapOperationBusMasterWrite UCBuf Length);
      if EFI_ERROR (dm_Status m) then mret (stop (dm_Status m))
      else
        HeadEd ← OhciFindMinInterruptEDList (Z.of_nat (poll_depth 5 1 PollingInterval));
        Ed ← get_interrupt_ed HeadEd DeviceAddress EndPointNum EdDir IsSlowDevice MaxPacketLength;
        if Ed =? 0 then intr_unmap (dm_Mapping m) (stop EFI_OUT_OF_RESOURCES)
        else submit_interrupt HeadEd Ed m Pid DeviceAddress EndPointAddress MaxPacketLength Toggle0 UCBuf Length CallBack Ctx Periodic.

Definition OhciAsyncInterruptTransfer (DeviceAddress EndPointAddress : Z) (IsSlowDevice : bool) (MaxPacketLength : Z) (IsNewTransfer : bool)
    (DataToggle : option Z) (PollingInterval Length CallBack Ctx : Z) : MO interrupt_result :=
  let Toggle0 := default 0 DataToggle in
  let stop Status := {| it_Status := Status; it_DataToggle := Toggle0; it_Ed := 0; it_Td := 0 |} in
  if (match DataToggle with None => true | Some _ => false end) || (Z.land EndPointAddress 0x80 =? 0) ||
     (IsNewTransfer && ((Length =? 0) || negb ((Toggle0 =? 0) || (Toggle0 =? 1)) || (PollingInterval <? 1) || (255 <? PollingInterval)))
  then mret (stop EFI_INVALID_PARAMETER)
  else
    '(Status, UCBuf) ← (if IsNewTransfer then service (DmaAllocateBuffer (pages_of Length)) else mret (EFI_SUCCESS, 0));
    if EFI_ERROR Status then mret (stop EFI_OUT_OF_RESOURCES)
    else
      r ← OhciInterruptTransfer DeviceAddress EndPointAddress IsSlowDevice MaxPacketLength IsNewTransfer DataToggle PollingInterval
            UCBuf Length CallBack Ctx true;
      when (negb (UCBuf =? 0) && EFI_ERROR (it_Status r)) (on_services (DmaFreeBuffer (pages_of Length) UCBuf));;
      mret r.

(** Polls [TimeOut] times at most. *)
Definition OhciSyncInterruptTransfer (DeviceAddress EndPointAddress : Z) (IsSlowDevice : bool) (MaxPacketLength Data : Z)
    (DataLength DataToggle : option Z) (TimeOut : Z) (HasResult : bool) : MO outcome_of :=
  let Length := default 0 DataLength in
  let Toggle0 := default 0 DataToggle in
  let stop Status := {| xf_Status := Status; xf_Result := None; xf_DataLength := Length; xf_DataToggle := Toggle0 |} in
  if (Z.land EndPointAddress 0x80 =? 0) || (Data =? 0) || (match DataLength with None => true | Some _ => false end) || (Length =? 0) ||
     (IsSlowDevice && (8 <? MaxPacketLength)) || (negb IsSlowDevice && (64 <? MaxPacketLength)) ||
     (match DataToggle with None => true | Some _ => false end) || negb ((Toggle0 =? 0) || (Toggle0 =? 1)) || negb HasResult
  then mret (stop EFI_INVALID_PARAMETER)
  else
    UCBuf ← service (AllocatePool Length);
    if UCBuf =? 0 then mret (stop EFI_OUT_OF_RESOURCES)
    else
      r ← OhciInterruptTransfer DeviceAddress EndPointAddress IsSlowDevice MaxPacketLength true DataToggle 1 UCBuf Length 0 0 false;
      Result ← (if EFI_ERROR (it_Status r) then mret None
                else
                  '(Status, e) ← CheckIfDone INTERRUPT_LIST (it_Ed r) (it_Td r) {| ErrorCode := 0; NextToggle := 0 |};
                  '(_, e) ← await (Z.to_nat TimeOut) INTERRUPT_LIST (it_Ed r) (it_Td r) Status e;
                  mret (Some (ConvertErrorCode (ErrorCode e))));
      on_services (CopyMem Data UCBuf Length);;
      r ← OhciInterruptTransfer DeviceAddress EndPointAddress IsSlowDevice MaxPacketLength false (Some (it_DataToggle r)) 0 0 0 0 0 false;
      mret {| xf_Status := it_Status r; xf_Result := Result; xf_DataLength := Length; xf_DataToggle := it_DataToggle r |}.

Definition OhciIsochronousTransfer (Data DataLength : Z) (HasResult : bool) : Z :=
  if (Data =? 0) || (DataLength =? 0) || negb HasResult then EFI_INVALID_PARAMETER else EFI_UNSUPPORTED.

Definition OhciAsyncIsochronousTransfer (Data DataLength : Z) : Z :=
  if (Data =? 0) || (DataLength =? 0) then EFI_INVALID_PARAMETER else EFI_UNSUPPORTED.
End Xfer.
