(* ===== verification/OhciHub.v ===== *)
(** * The OHCI controller as a USB host

    Model of the rest of
    [src/Silicon/Rockchip/Rk356xPkg/Drivers/OhciDxe/Ohci.c]: reset, the state
    of the controller, the ports of the root hub, and the life of the device:
    [OhciInitialiseController], [OhciFreeDev], [OhciCleanDevUp]. *)

From Stdlib Require Import ZArith Lia.
From stdpp Require Import base list numbers option gmap.
From S2P Require Import Prelude OhciReg Ohci OhciSched OhciXfer.

Definition HC_STATE_RESET : Z := 0.
Definition HC_STATE_RESUME : Z := 1.
Definition HC_STATE_OPERATIONAL : Z := 2.
Definition HC_STATE_SUSPEND : Z := 3.
Definition START_OF_FRAME : Z := 0x4.
Definition RH_NUM_DS_PORTS : Z := 0x4.
Definition RH_NO_PSWITCH : Z := 0x8.
Definition RH_PSWITCH_MODE : Z := 0x10.
Definition RH_NOC_PROT : Z := 0x80.
Definition RH_LOCAL_PSTAT_CHANGE : Z := 0x8.
Definition RH_CLEAR_PORT_ENABLE : Z := 0x1.
Definition RH_SET_PORT_ENABLE : Z := 0x2.
Definition RH_SET_PORT_SUSPEND : Z := 0x4.
Definition RH_CLEAR_SUSPEND_STATUS : Z := 0x8.
Definition RH_SET_PORT_RESET : Z := 0x10.
Definition RH_SET_PORT_POWER : Z := 0x20.
Definition RH_CLEAR_PORT_POWER : Z := 0x40.
Definition RH_CONNECT_STATUS_CHANGE : Z := 0x10000.
Definition RH_PORT_ENABLE_STAT_CHANGE : Z := 0x20000.
Definition RH_PORT_SUSPEND_STAT_CHANGE : Z := 0x40000.
Definition RH_OC_INDICATOR_CHANGE : Z := 0x80000.
Definition RH_PORT_RESET_STAT_CHANGE : Z := 0x100000.
Definition RH_CURR_CONNECT_STAT : Z := 0x1.
Definition RH_PORT_ENABLE_STAT : Z := 0x2.
Definition RH_PORT_SUSPEND_STAT : Z := 0x4.
Definition RH_PORT_OC_INDICATOR : Z := 0x8.
Definition RH_PORT_RESET_STAT : Z := 0x10.
Definition RH_PORT_POWER_STAT : Z := 0x20.
Definition RH_LSDEVICE_ATTACHED : Z := 0x40.
Definition MAX_RETRY_TIMES : Z := 100.

Definition EFI_USB_HC_RESET_GLOBAL : Z := 1.
Definition EFI_USB_HC_RESET_HOST_CONTROLLER : Z := 2.

(** [EFI_USB_HC_STATE] *)
Definition EfiUsbHcStateHalt : Z := 0.
Definition EfiUsbHcStateOperational : Z := 1.
Definition EfiUsbHcStateSuspend : Z := 2.

(** [EFI_USB_PORT_FEATURE] *)
Definition EfiUsbPortEnable : Z := 1.
Definition EfiUsbPortSuspend : Z := 2.
Definition EfiUsbPortReset : Z := 4.
Definition EfiUsbPortPower : Z := 8.
Definition EfiUsbPortConnectChange : Z := 16.
Definition EfiUsbPortEnableChange : Z := 17.
Definition EfiUsbPortSuspendChange : Z := 18.
Definition EfiUsbPortOverCurrentChange : Z := 19.
Definition EfiUsbPortResetChange : Z := 20.

(** Port status bits of the USB host protocol. *)
Definition USB_PORT_STAT_CONNECTION : Z := 0x1.
Definition USB_PORT_STAT_ENABLE : Z := 0x2.
Definition USB_PORT_STAT_SUSPEND : Z := 0x4.
Definition USB_PORT_STAT_OVERCURRENT : Z := 0x8.
Definition USB_PORT_STAT_RESET : Z := 0x10.
Definition USB_PORT_STAT_POWER : Z := 0x100.
Definition USB_PORT_STAT_LOW_SPEED : Z := 0x200.
Definition USB_PORT_STAT_C_CONNECTION : Z := 0x1.
Definition USB_PORT_STAT_C_ENABLE : Z := 0x2.
Definition USB_PORT_STAT_C_SUSPEND : Z := 0x4.
Definition USB_PORT_STAT_C_OVERCURRENT : Z := 0x8.
Definition USB_PORT_STAT_C_RESET : Z := 0x10.

Section Hub.
Context {B : Build} {H : Type} {HW : OhciHw H} {HP : DescriptorPool H} {HS : OhciServices H} {HD : OhciDma H}.
Implicit Types s : ohc H.
Abbreviation MO := (M (ohc H)).

(** *** State *)

Definition OhciGetState (HasState : bool) : MO (Z * option Z) :=
  if negb HasState then mret (EFI_INVALID_PARAMETER, None)
  else
    FuncState ← on_hw (OhciGetHcControl HC_FUNCTIONAL_STATE);
    if (FuncState =? HC_STATE_RESET) || (FuncState =? HC_STATE_RESUME) then mret (EFI_SUCCESS, Some EfiUsbHcStateHalt)
    else if FuncState =? HC_STATE_OPERATIONAL then mret (EFI_SUCCESS, Some EfiUsbHcStateOperational)
    else if FuncState =? HC_STATE_SUSPEND then mret (EFI_SUCCESS, Some EfiUsbHcStateSuspend)
    else ASSERT false;; mret (EFI_SUCCESS, None).

Definition OhciSetState (State : Z) : MO Z :=
  Status ← (if State =? EfiUsbHcStateHalt then on_hw (OhciSetHcControl HC_FUNCTIONAL_STATE HC_STATE_RESET)
            else if State =? EfiUsbHcStateOperational then on_hw (OhciSetHcControl HC_FUNCTIONAL_STATE HC_STATE_OPERATIONAL)
            else if State =? EfiUsbHcStateSuspend then on_hw (OhciSetHcControl HC_FUNCTIONAL_STATE HC_STATE_SUSPEND)
            else mret EFI_INVALID_PARAMETER);
  pause 1000;;
  mret Status.

(** *** The root hub *)

(** The byte the functions below ask for. *)
Definition number_of_ports : MO Z :=
  n ← on_hw (OhciGetRootHubDescriptor RH_NUM_DS_PORTS); mret (u8 n).

Definition OhciGetRootHubNumOfPorts (HasNumOfPorts : bool) : MO (Z * option Z) :=
  if negb HasNumOfPorts then mret (EFI_INVALID_PARAMETER, None)
  else n ← number_of_ports; mret (EFI_SUCCESS, Some n).

(** [if (OhciReadRootHubPortStatus (...)) Flags |= Flag;], for each bit. *)
Fixpoint port_flags (Port : Z) (bits : list (Z * Z)) (Flags : Z) : MO Z :=
  match bits with
  | [] => mret Flags
  | (Field, Flag) :: bits =>
      v ← on_hw (OhciReadRootHubPortStatus Port Field);
      port_flags Port bits (if negb (v =? 0) then Z.lor Flags Flag else Flags)
  end.

Definition port_status_bits : list (Z * Z) :=
  [(RH_CURR_CONNECT_STAT, USB_PORT_STAT_CONNECTION); (RH_PORT_ENABLE_STAT, USB_PORT_STAT_ENABLE);
   (RH_PORT_SUSPEND_STAT, USB_PORT_STAT_SUSPEND); (RH_PORT_OC_INDICATOR, USB_PORT_STAT_OVERCURRENT);
   (RH_PORT_RESET_STAT, USB_PORT_STAT_RESET); (RH_PORT_POWER_STAT, USB_PORT_STAT_POWER);
   (RH_LSDEVICE_ATTACHED, USB_PORT_STAT_LOW_SPEED)].
Definition port_change_bits : list (Z * Z) :=
  [(RH_PORT_ENABLE_STAT_CHANGE, USB_PORT_STAT_C_ENABLE); (RH_CONNECT_STATUS_CHANGE, USB_PORT_STAT_C_CONNECTION);
   (RH_PORT_SUSPEND_STAT_CHANGE, USB_PORT_STAT_C_SUSPEND); (RH_OC_INDICATOR_CHANGE, USB_PORT_STAT_C_OVERCURRENT);
   (RH_PORT_RESET_STAT_CHANGE, USB_PORT_STAT_C_RESET)].

(** Status, [PortStatus] and [PortChangeStatus]. *)
Definition OhciGetRootHubPortStatus (PortNumber : Z) : MO (Z * option (Z * Z)) :=
  NumOfPorts ← number_of_ports;
  if NumOfPorts <=? PortNumber then mret (EFI_INVALID_PARAMETER, None)
  else
    st ← port_flags PortNumber port_status_bits 0;
    ch ← port_flags PortNumber port_change_bits 0;
    mret (EFI_SUCCESS, Some (st, ch)).

Definition port_reads (Port Field Value : Z) : MO bool :=
  v ← on_hw (OhciReadRootHubPortStatus Port Field); mret (v =? Value).

(** Waits for a port: at most [MAX_RETRY_TIMES] rounds; the number of rounds. *)
Fixpoint retry (fuel : nat) (RetryTimes : Z) (pending : MO bool) : MO Z :=
  match fuel with
  | O => stopM NoFuel
  | S fuel =>
      pause 1000;;
      p ← pending;
      if (p : bool) && (RetryTimes + 1 <? MAX_RETRY_TIMES) then retry fuel (RetryTimes + 1) pending
      else mret (RetryTimes + 1)
  end.

(** Asks for a change of a port and waits until it is no longer pending. *)
Definition change_port (Port Field : Z) (pending : MO bool) (finish : MO unit) : MO Z :=
  Status ← on_hw (OhciSetRootHubPortStatus Port Field);
  RetryTimes ← retry 100 0 pending;
  if MAX_RETRY_TIMES <=? RetryTimes then mret EFI_DEVICE_ERROR else finish;; mret Status.

Definition reset_pending (Port : Z) : MO bool :=
  b ← port_reads Port RH_PORT_RESET_STAT_CHANGE 0;
  if (b : bool) then mret true else port_reads Port RH_PORT_RESET_STAT 1.

Definition OhciSetRootHubPortFeature (PortNumber PortFeature : Z) : MO Z :=
  NumOfPorts ← number_of_ports;
  if NumOfPorts <=? PortNumber then mret EFI_INVALID_PARAMETER
  else if PortFeature =? EfiUsbPortPower then
    change_port PortNumber RH_SET_PORT_POWER (port_reads PortNumber RH_PORT_POWER_STAT 0) (mret tt)
  else if PortFeature =? EfiUsbPortReset then
    change_port PortNumber RH_SET_PORT_RESET (reset_pending PortNumber)
      (on_hw (OhciSetRootHubPortStatus PortNumber RH_PORT_RESET_STAT_CHANGE);; mret tt)
  else if PortFeature =? EfiUsbPortEnable then
    change_port PortNumber RH_SET_PORT_ENABLE (port_reads PortNumber RH_PORT_ENABLE_STAT 0) (mret tt)
  else if PortFeature =? EfiUsbPortSuspend then
    change_port PortNumber RH_SET_PORT_SUSPEND (port_reads PortNumber RH_PORT_SUSPEND_STAT 0) (mret tt)
  else mret EFI_INVALID_PARAMETER.

Definition OhciClearRootHubPortFeature (PortNumber PortFeature : Z) : MO Z :=
  NumOfPorts ← number_of_ports;
  if NumOfPorts <=? PortNumber then mret EFI_INVALID_PARAMETER
  else if PortFeature =? EfiUsbPortEnable then
    change_port PortNumber RH_CLEAR_PORT_ENABLE (port_reads PortNumber RH_PORT_ENABLE_STAT 1) (mret tt)
  else if PortFeature =? EfiUsbPortSuspend then
    change_port PortNumber RH_CLEAR_SUSPEND_STATUS (port_reads PortNumber RH_PORT_SUSPEND_STAT 1) (mret tt)
  else if PortFeature =? EfiUsbPortReset then mret EFI_SUCCESS
  else if PortFeature =? EfiUsbPortPower then
    change_port PortNumber RH_CLEAR_PORT_POWER (port_reads PortNumber RH_PORT_POWER_STAT 1) (mret tt)
  else if PortFeature =? EfiUsbPortConnectChange then
    change_port PortNumber RH_CONNECT_STATUS_CHANGE (port_reads PortNumber RH_CONNECT_STATUS_CHANGE 1) (mret tt)
  else if PortFeature =? EfiUsbPortResetChange then
    change_port PortNumber RH_PORT_RESET_STAT_CHANGE (port_reads PortNumber RH_PORT_RESET_STAT_CHANGE 1) (mret tt)
  else if PortFeature =? EfiUsbPortEnableChange then
    change_port PortNumber RH_PORT_ENABLE_STAT_CHANGE (port_reads PortNumber RH_PORT_ENABLE_STAT_CHANGE 1) (mret tt)
  else if PortFeature =? EfiUsbPortSuspendChange then
    change_port PortNumber RH_PORT_SUSPEND_STAT_CHANGE (port_reads PortNumber RH_PORT_SUSPEND_STAT_CHANGE 1) (mret tt)
  else if PortFeature =? EfiUsbPortOverCurrentChange then
    change_port PortNumber RH_OC_INDICATOR_CHANGE (port_reads PortNumber RH_OC_INDICATOR_CHANGE 1) (mret tt)
  else mret EFI_INVALID_PARAMETER.

(** *** Reset *)

(** [do { ... } while (PowerOnGoodTime--)], from 50. *)
Fixpoint wait_reset (n : nat) : MO bool :=
  match n with
  | O => mret false
  | S n =>
      pause 1000;;
      Data32 ← on_hw (OhciGetOperationalReg HC_COMMAND_STATUS);
      if Z.land Data32 HC_RESET =? 0 then mret true else wait_reset n
  end.

(** Resets and enables the ports from [Index] on. *)
Fixpoint reset_ports (n : nat) (Index : Z) : MO unit :=
  match n with
  | O => mret tt
  | S n =>
      Status ← OhciSetRootHubPortFeature Index EfiUsbPortReset;
      when (negb (EFI_ERROR Status)) (
        pause (200 * 1000);;
        OhciClearRootHubPortFeature Index EfiUsbPortReset;;
        pause 1000;;
        OhciSetRootHubPortFeature Index EfiUsbPortEnable;;
        pause 1000);;
      reset_ports n (Index + 1)
  end.

Fixpoint wait_sof (fuel : nat) : MO unit :=
  match fuel with
  | O => stopM NoFuel
  | S fuel => v ← on_hw (OhciGetHcInterruptStatus START_OF_FRAME); if v =? 0 then wait_sof fuel else mret tt
  end.

(** "Initialize host controller operational registers" *)
Definition init_registers (HccaMemoryBlock : Z) : MO unit :=
  on_hw (OhciSetFrameInterval FS_LARGEST_DATA_PACKET 0x2778);;
  on_hw (OhciSetFrameInterval FRAME_INTERVAL 0x2edf);;
  on_hw (OhciSetPeriodicStart 0x2a2f);;
  on_hw (OhciSetHcControl CONTROL_BULK_RATIO 0x3);;
  on_hw (OhciSetHcCommandStatus (Z.lor CONTROL_LIST_FILLED BULK_LIST_FILLED) 0);;
  on_hw (OhciSetRootHubDescriptor RH_PSWITCH_MODE 0);;
  on_hw (OhciSetRootHubDescriptor (Z.lor RH_NO_PSWITCH RH_NOC_PROT) 1);;
  on_hw (OhciSetRootHubDescriptor RH_DEV_REMOVABLE 0);;
  on_hw (OhciSetRootHubDescriptor RH_PORT_PWR_CTRL_MASK 0xffff);;
  on_hw (OhciSetRootHubStatus RH_LOCAL_PSTAT_CHANGE);;
  on_hw (OhciSetRootHubPortStatus 0 RH_SET_PORT_POWER);;
  NumOfPorts ← number_of_ports;
  reset_ports (Z.to_nat NumOfPorts) 0;;
  on_hw (OhciSetMemoryPointer HC_HCCA HccaMemoryBlock);;
  on_hw (OhciSetMemoryPointer HC_CONTROL_HEAD 0);;
  on_hw (OhciSetMemoryPointer HC_BULK_HEAD 0);;
  on_hw (OhciSetHcControl (Z.lor PERIODIC_ENABLE (Z.lor CONTROL_ENABLE BULK_ENABLE)) 1);;
  on_hw (OhciSetHcControl HC_FUNCTIONAL_STATE HC_STATE_OPERATIONAL);;
  mret tt.

(** Waits for the first SOF and clears it. *)
Definition first_sof : MO unit :=
  wait_sof verify_bound;;
  on_hw (OhciClearInterruptStatus START_OF_FRAME);;
  pause 1000.

(** The host controller reset; false: it failed. *)
Definition reset_host : MO bool :=
  Status ← on_hw (OhciSetHcCommandStatus HC_RESET HC_RESET);
  if EFI_ERROR Status then mret false
  else pause (50 * 1000);; wait_reset 51.

Definition OhciReset (HccaMemoryBlock Attributes : Z) : MO Z :=
  if negb (Z.ldiff Attributes (Z.lor EFI_USB_HC_RESET_GLOBAL EFI_USB_HC_RESET_HOST_CONTROLLER) =? 0) then mret EFI_INVALID_PARAMETER
  else
    Flag ← (if negb (Z.land Attributes EFI_USB_HC_RESET_HOST_CONTROLLER =? 0) then pause (50 * 1000);; reset_host else mret true);
    if negb Flag then mret EFI_DEVICE_ERROR
    else
      OhciFreeIntTransferMemory;;
      Status ← OhciInitializeInterruptList;
      on_hw (OhciSetFrameInterval FRAME_INTERVAL 0x2edf);;
      '(ok, Status) ← (if negb (Z.land Attributes EFI_USB_HC_RESET_GLOBAL =? 0) then
                         Status ← on_hw (OhciSetHcControl HC_FUNCTIONAL_STATE HC_STATE_RESET);
                         if EFI_ERROR Status then mret (false, EFI_DEVICE_ERROR) else pause (50 * 1000);; mret (true, Status)
                       else mret (true, Status));
      if negb (ok : bool) then mret Status
      else
        init_registers HccaMemoryBlock;;
        pause (50 * 1000);;
        first_sof;;
        mret Status.

Definition OhcInitHC (HccaMemoryBlock : Z) : MO Z :=
  Flag ← reset_host;
  if negb Flag then mret EFI_DEVICE_ERROR
  else
    OhciInitializeInterruptList;;
    on_hw (OhciSetFrameInterval FRAME_INTERVAL 0x2edf);;
    Status ← on_hw (OhciSetHcControl HC_FUNCTIONAL_STATE HC_STATE_RESET);
    if EFI_ERROR Status then mret EFI_DEVICE_ERROR
    else
      pause (50 * 1000);;
      init_registers HccaMemoryBlock;;
      first_sof;;
      mret EFI_SUCCESS.

(** Stops the controller, on exit from boot services and on removal. *)
Definition stop_controller (HccaMemoryBlock : Z) : MO unit :=
  on_hw (OhciSetHcControl (Z.lor PERIODIC_ENABLE (Z.lor CONTROL_ENABLE (Z.lor ISOCHRONOUS_ENABLE BULK_ENABLE))) 0);;
  OhciReset HccaMemoryBlock EFI_USB_HC_RESET_GLOBAL;;
  OhciSetState EfiUsbHcStateHalt;;
  mret tt.

Definition OhcExitBootService (HccaMemoryBlock : Z) : MO unit := stop_controller HccaMemoryBlock.
End Hub.

(** ** The life of a controller *)

(** What a controller holds while it is installed. *)
Inductive resource := R_DevicePath | R_Device | R_MemPool | R_Hcca | R_HccaMap | R_Protocols | R_Timer | R_ExitEvent.

#[export] Instance resource_eq_dec : EqDecision resource.
Proof. solve_decision. Defined.

(** Boot services that hand out and take back resources; [set_timer] arms or
    cancels the timer. *)
Class OhciBoot (H : Type) := {
  acquire : resource -> H -> Z * H;
  release : resource -> M H unit;
  mapped : H -> Z;
  hcca_block : Z;
  set_timer : bool -> H -> Z * H;
  (** what an uninitialised [Status] holds *)
  stack_status : Z
}.

Section Life.
Context {B : Build} {H : Type} {HW : OhciHw H} {HP : DescriptorPool H} {HS : OhciServices H} {HD : OhciDma H} {HB : OhciBoot H}.
Implicit Types s : ohc H.
Abbreviation MO := (M (ohc H)).

Definition get_resource (r : resource) : MO Z := service (acquire r).
Definition put_resource (r : resource) : MO unit := on_hw (release r).

(** The pointers of the device record that are not NULL. *)
Record device := { has_Timer : bool; has_ExitEvent : bool; has_Mapping : bool }.

Definition OhciFreeDev (d : device) : MO unit :=
  OhciFreeFixedIntMemory;;
  when (has_Timer d) (put_resource R_Timer);;
  when (has_ExitEvent d) (put_resource R_ExitEvent);;
  put_resource R_MemPool;;
  when (has_Mapping d) (put_resource R_Hcca);;
  put_resource R_Device.

Definition OhciCleanDevUp : MO unit :=
  put_resource R_Protocols;;
  service (set_timer false);;
  stop_controller hcca_block;;
  OhciFreeDynamicIntMemory;;
  OhciFreeDev {| has_Timer := true; has_ExitEvent := true; has_Mapping := true |}.

(** The labels at the end of [OhciInitialiseController]. *)
Definition FREE_DEV_BUFFER (Status : Z) : MO Z := put_resource R_Device;; mret Status.
Definition FREE_MEM_POOL (Status : Z) : MO Z := put_resource R_MemPool;; FREE_DEV_BUFFER Status.
Definition FREE_MEM_PAGE (Status : Z) : MO Z := put_resource R_Hcca;; FREE_MEM_POOL Status.
Definition UNINSTALL_USBHC (Status : Z) : MO Z := put_resource R_Protocols;; FREE_MEM_PAGE Status.
Definition FREE_OHC (d : device) (Status : Z) : MO Z := OhciFreeDev d;; UNINSTALL_USBHC Status.

Definition OhciInitialiseController : MO Z :=
  Status ← get_resource R_DevicePath;
  if EFI_ERROR Status then mret EFI_OUT_OF_RESOURCES
  else
    Status ← get_resource R_Device;
    if EFI_ERROR Status then mret EFI_OUT_OF_RESOURCES
    else
      Status ← get_resource R_MemPool;
      if EFI_ERROR Status then FREE_DEV_BUFFER stack_status
      else
        Status ← get_resource R_Hcca;
        if EFI_ERROR Status then FREE_MEM_POOL Status
        else
          Status ← get_resource R_HccaMap;
          Bytes ← gets (fun s => mapped (hw s));
          if EFI_ERROR Status || negb (Bytes =? 4096) then FREE_MEM_PAGE Status
          else
            Status ← get_resource R_Protocols;
            if EFI_ERROR Status then UNINSTALL_USBHC Status
            else
              Status ← get_resource R_Timer;
              if EFI_ERROR Status then FREE_OHC {| has_Timer := false; has_ExitEvent := false; has_Mapping := true |} Status
              else
                Status ← OhcInitHC hcca_block;
                if EFI_ERROR Status then UNINSTALL_USBHC Status
                else
                  Status ← service (set_timer true);
                  if EFI_ERROR Status then FREE_OHC {| has_Timer := true; has_ExitEvent := false; has_Mapping := true |} Status
                  else
                    Status ← get_resource R_ExitEvent;
                    ASSERT (negb (EFI_ERROR Status));;
                    mret EFI_SUCCESS.
End Life.
