(* ===== verification/OhciLists.v ===== *)
(** * Linked descriptors as lists

    The chains the OHCI driver and the controller follow, for any link field;
    walks over a chain; and the contract of the memory pool towards the
    descriptor stores. *)

From Stdlib Require Import ZArith Lia.
From stdpp Require Import base list numbers option gmap.
From S2P Require Import Prelude OhciReg Ohci OhciSched.

(** ** Chains *)

Section Chain.
Context {A : Type} (next : A -> Z).
Implicit Types m : gmap Z A.

(** From [p], the links lead through exactly [l] to NULL. *)
Inductive chain m : Z -> list Z -> Prop :=
| chain_nil : chain m 0 []
| chain_cons p a l : p <> 0 -> m !! p = Some a -> chain m (next a) l -> chain m p (p :: l).

Lemma chain_fun m p l1 : chain m p l1 -> forall l2, chain m p l2 -> l1 = l2.
Proof.
  induction 1 as [|p a l Hp Ha _ IH]; intros l2 H2; inversion H2; subst; try done.
  f_equal. apply IH. congruence.
Qed.

Lemma chain_suffix m p l1 x l2 : chain m p (l1 ++ x :: l2) -> chain m x (x :: l2).
Proof.
  revert p. induction l1 as [|y l1 IH]; intros p H; inversion H; subst; [done|]. by eapply IH.
Qed.

(** No node comes twice: the chain from it would be its own suffix. *)
Lemma chain_nodup m p l : chain m p l -> NoDup l.
Proof.
  intros H. assert (G : forall l1 x l2, l = l1 ++ x :: l2 -> x ∉ l2).
  { intros l1 x l2 -> Hx. apply list_elem_of_split in Hx as (l3 & l4 & ->).
    pose proof (chain_suffix _ _ _ _ _ H) as H1.
    change (x :: l3 ++ x :: l4) with ((x :: l3) ++ x :: l4) in H1. pose proof (chain_suffix _ _ _ _ _ H1) as H2.
    pose proof (chain_fun _ _ _ H1 _ H2) as E. apply (f_equal length) in E. simpl in E. rewrite length_app in E. simpl in E. lia. }
  clear H. induction l as [|x l IH]; constructor; [by apply (G [])|].
  apply IH. intros l1 y l2 ->. apply (G (x :: l1)). done.
Qed.

Lemma chain_in m p l x : chain m p l -> x ∈ l -> x <> 0 /\ exists a, m !! x = Some a.
Proof. induction 1 as [|p a l Hp Ha _ IH]; intros Hx; [by apply not_elem_of_nil in Hx|]. apply elem_of_cons in Hx as [->|Hx]; eauto. Qed.

Lemma chain_length m p l : chain m p l -> (length l <= size m)%nat.
Proof.
  intros H. rewrite <- (size_list_to_set (C := gset Z) l) by (by eapply chain_nodup). rewrite <- size_dom.
  apply subseteq_size. intros x Hx. apply elem_of_list_to_set in Hx. apply elem_of_dom.
  by destruct (chain_in _ _ _ _ H Hx) as (_ & a & ->).
Qed.

(** A chain only depends on its own nodes. *)
Lemma chain_ext m m' p l : chain m p l -> (forall x, x ∈ l -> exists a a', m !! x = Some a /\ m' !! x = Some a' /\ next a' = next a) ->
  chain m' p l.
Proof.
  induction 1 as [|p a l Hp Ha _ IH]; intros Hx; [constructor|].
  destruct (Hx p) as (b & b' & Hb & Hb' & En); [left|]. rewrite Ha in Hb. injection Hb as <-.
  econstructor; [done | exact Hb' |]. rewrite En. apply IH. intros x Hin. apply Hx. by right.
Qed.

Lemma chain_head m p l : chain m p l -> p <> 0 -> exists a l', m !! p = Some a /\ l = p :: l' /\ chain m (next a) l'.
Proof. intros H Hp. inversion H; subst; [done|]. by eexists _, _. Qed.

Lemma chain_zero m l : chain m 0 l -> l = [].
Proof. by inversion 1. Qed.

(** Changing a node outside of the chain, or adding one. *)
Lemma chain_insert_other m p l x a : chain m p l -> x ∉ l -> chain (<[x := a]> m) p l.
Proof.
  intros H Hx. eapply chain_ext; [done|]. intros y Hy. destruct (chain_in _ _ _ _ H Hy) as (_ & b & Hb).
  exists b, b. split; [done|]. split; [|done]. rewrite lookup_insert_ne; [done|]. by intros ->.
Qed.

Lemma chain_delete_other m p l x : chain m p l -> x ∉ l -> chain (delete x m) p l.
Proof.
  intros H Hx. eapply chain_ext; [done|]. intros y Hy. destruct (chain_in _ _ _ _ H Hy) as (_ & b & Hb).
  exists b, b. split; [done|]. split; [|done]. rewrite lookup_delete_ne; [done|]. by intros ->.
Qed.

(** Linking the last node of a chain to another chain. *)
Lemma chain_app m p l1 x a q l2 : chain m p (l1 ++ [x]) -> chain m q l2 -> (x ∉ l2) ->
  next a = q -> chain (<[x := a]> m) p (l1 ++ [x] ++ l2).
Proof.
  revert p. induction l1 as [|y l1 IH]; intros p H1 H2 Hx Ha; inversion H1 as [|? b ? Hy Hb Hl]; subst; simpl.
  - econstructor; [done | apply lookup_insert_eq |]. by apply chain_insert_other.
  - assert (Hxy : x <> y).
    { intros ->. pose proof (chain_nodup _ _ _ H1) as Hn. apply NoDup_cons in Hn as [Hn _]. apply Hn. apply elem_of_app. right. left. }
    econstructor; [done | by rewrite lookup_insert_ne |]. by apply IH.
Qed.
End Chain.

Arguments chain {A} next m p l.

Lemma filter_without {A} `{EqDecision A} (x : A) (l : list A) : x ∉ l -> filter (fun y => y <> x) l = l.
Proof.
  induction l as [|y l IH]; [done|]. intros Hx. apply not_elem_of_cons in Hx as [Hxy Hx].
  rewrite filter_cons_True by done. by rewrite IH.
Qed.

Lemma filter_without_mid {A} `{EqDecision A} (x : A) (l1 l2 : list A) : NoDup (l1 ++ x :: l2) ->
  filter (fun y => y <> x) (l1 ++ x :: l2) = l1 ++ l2.
Proof.
  intros Hn. apply NoDup_app in Hn as (_ & H1 & H2). apply NoDup_cons in H2 as [H2 _].
  rewrite filter_app, filter_cons_False by (intros Hx; by apply Hx). rewrite !filter_without; [done | done |].
  intros Hx. apply (H1 x Hx). left.
Qed.

(** Unlinking a node that has one predecessor: a chain that visits the node
    loses it, another one is unaffected. *)
Lemma chain_remove {A} (next : A -> Z) m x t p d d' h q :
  chain next m h q -> h <> x -> x <> 0 -> m !! x = Some t -> m !! p = Some d -> next d = x -> next d' = next t ->
  (forall y b, y ∈ q -> m !! y = Some b -> next b = x -> y = p) ->
  chain next (delete x (<[p := d']> m)) h (filter (fun y => y <> x) q).
Proof.
  intros Hc. induction Hc as [|h a l Hh Ha Hl IH]; intros Hhx Hx00 Hx Hp Hd Hd' Hu; [constructor|].
  rewrite filter_cons_True by done.
  destruct (decide (next a = x)) as [Hax|Hax].
  - assert (h = p) as -> by (apply (Hu h a); [left | done | done]).
    assert (Hpl : p ∉ l).
    { assert (Hn : NoDup (p :: l)) by (apply (chain_nodup next m p); by apply (chain_cons next m p a l)). by apply NoDup_cons in Hn as [? _]. }
    assert (d = a) as -> by congruence. subst x.
    econstructor; [done | by rewrite lookup_delete_ne, lookup_insert_eq by done |].
    rewrite Hd'. inversion Hl as [|x' b l' Hx0 Hb Hl']; subst; [congruence|].
    assert (Hxl : next a ∉ l').
    { apply chain_nodup in Hl. by apply NoDup_cons in Hl as [? _]. }
    rewrite filter_cons_False by (by intros Hne; apply Hne).
    rewrite filter_without by done.
    assert (t = b) as -> by congruence.
    apply chain_delete_other; [|done]. apply chain_insert_other; [done|]. intros Hin. apply Hpl. by right.
  - assert (Hh' : h <> p) by (intros ->; congruence).
    econstructor; [done | by rewrite lookup_delete_ne, lookup_insert_ne by done |].
    apply IH; try done. intros y b Hy. apply Hu. by right.
Qed.

(** Inserting a node behind another one. *)
Lemma chain_insert_after {A} (next : A -> Z) m p d d' n e h q : chain next m h q -> n ∉ q -> n <> 0 -> m !! p = Some d ->
  next d' = n -> next e = next d ->
  chain next (<[n := e]> (<[p := d']> m)) h (q ≫= fun y => if decide (y = p) then [p; n] else [y]).
Proof.
  intros Hc. induction Hc as [|h a l Hh Ha Hl IH]; intros Hn Hn0 Hp Hd' He; [constructor|].
  apply not_elem_of_cons in Hn as [Hnh Hnl].
  assert (Hhl : h ∉ l).
  { assert (Hnd : NoDup (h :: l)) by (apply (chain_nodup next m h); by apply (chain_cons next m h a l)). by apply NoDup_cons in Hnd as [? _]. }
  specialize (IH Hnl Hn0 Hp Hd' He). rewrite bind_cons. destruct (decide (h = p)) as [->|Hhp].
  - assert (a = d) as -> by congruence. simpl.
    econstructor; [done | by rewrite lookup_insert_ne, lookup_insert_eq by done |]. rewrite Hd'.
    econstructor; [done | by rewrite lookup_insert_eq |]. rewrite He. done.
  - simpl. econstructor; [done | by rewrite !lookup_insert_ne by done | exact IH].
Qed.

(** ** The memory pool, seen by its client *)

(** An address a 32-bit link can hold. *)
Definition linkable (p : Z) : Prop := 0 < p < 2 ^ 32 /\ p mod 16 = 0.

(** Live allocations by address.  An allocation is NULL or fresh, and not NULL
    as long as fewer than [capacity] are live; a live one can be freed. *)
Class PoolContract (H : Type) {HP : DescriptorPool H} := {
  live : gmap Z Z -> H -> Prop;
  alloc_spec : forall A n h, live A h -> 0 < n <= 64 ->
    wp (pool_alloc n) h (fun r h' =>
      (r = 0 /\ live A h') \/ (linkable r /\ A !! r = None /\ live (<[r := n]> A) h'));
  capacity : nat;
  alloc_room : forall A n h, live A h -> 0 < n <= 64 -> (size A < capacity)%nat -> wp (pool_alloc n) h (fun r _ => r <> 0);
  free_spec : forall A n p h, live A h -> A !! p = Some n -> wp (pool_free p n) h (fun _ h' => live (delete p A) h')
}.

Section Heap.
Context {B : Build} {H : Type} {HW : OhciHw H} {HP : DescriptorPool H} {HC : PoolContract H}.
Implicit Types s : ohc H.

(** The pool's view of the descriptors of a state, over allocations [R] that
    are somebody else's. *)
Definition owner (R : gmap Z Z) s (p : Z) : option Z :=
  match eds s !! p with
  | Some _ => Some sizeof_ED
  | None => match tds s !! p with Some _ => Some sizeof_TD | None => R !! p end
  end.

Record heap (R : gmap Z Z) s : Prop := {
  hp_live : exists A, live A (hw s) /\ forall p, A !! p = owner R s p;
  hp_ed : forall p d, eds s !! p = Some d -> linkable p /\ tds s !! p = None /\ R !! p = None;
  hp_td : forall p t, tds s !! p = Some t -> linkable p /\ eds s !! p = None /\ R !! p = None
}.

(** Only which descriptors there are matters. *)
Lemma heap_same R s s' : hw s' = hw s -> (forall p, eds s !! p = None <-> eds s' !! p = None) ->
  (forall p, tds s !! p = None <-> tds s' !! p = None) -> heap R s -> heap R s'.
Proof.
  intros Hh He Ht [(A & HA & Ho) Hed Htd]. split.
  - exists A. rewrite Hh. split; [done|]. intros p. rewrite Ho. unfold owner. specialize (He p). specialize (Ht p).
    destruct (eds s !! p), (eds s' !! p), (tds s !! p), (tds s' !! p); try done; try (by destruct He as [He1 He2]; (discriminate He1 || discriminate He2 || naive_solver));
      naive_solver.
  - intros p d Hp. destruct (eds s !! p) as [d0|] eqn:E; [|by apply He in E; congruence].
    destruct (Hed p d0 E) as (? & ? & ?). split; [done|]. split; [by apply Ht | done].
  - intros p t Hp. destruct (tds s !! p) as [t0|] eqn:E; [|by apply Ht in E; congruence].
    destruct (Htd p t0 E) as (? & ? & ?). split; [done|]. split; [by apply He | done].
Qed.

Lemma insert_none {A} (m : gmap Z A) p a a' q : m !! p = Some a -> m !! q = None <-> <[p := a']> m !! q = None.
Proof. intros Hp. destruct (decide (p = q)) as [->|Hne]; [rewrite lookup_insert_eq; split; congruence | by rewrite lookup_insert_ne]. Qed.

Lemma heap_set_ed R s p d d' : eds s !! p = Some d -> heap R s -> heap R (set_eds (<[p := d']> (eds s)) s).
Proof. intros Hp. apply heap_same; simpl; try done. intros q. by eapply insert_none. Qed.

Lemma heap_set_td R s p t t' : tds s !! p = Some t -> heap R s -> heap R (set_tds (<[p := t']> (tds s)) s).
Proof. intros Hp. apply heap_same; simpl; try done. intros q. by eapply insert_none. Qed.

(** *** Accesses *)

Lemma wp_ed_at p d s (Q : ED_DESCRIPTOR -> ohc H -> Prop) : eds s !! p = Some d -> Q d s -> wp (ed_at p) s Q.
Proof. intros Hp HQ. unfold wp, ed_at. by rewrite Hp. Qed.

Lemma wp_td_at p t s (Q : TD_DESCRIPTOR -> ohc H -> Prop) : tds s !! p = Some t -> Q t s -> wp (td_at p) s Q.
Proof. intros Hp HQ. unfold wp, td_at. by rewrite Hp. Qed.

Lemma wp_entry_at p e s (Q : INTERRUPT_CONTEXT_ENTRY -> ohc H -> Prop) : entries s !! p = Some e -> Q e s -> wp (entry_at p) s Q.
Proof. intros Hp HQ. unfold wp, entry_at. by rewrite Hp. Qed.

Lemma wp_upd_ed p d f s (Q : unit -> ohc H -> Prop) : eds s !! p = Some d ->
  Q tt (set_eds (<[p := f d]> (eds s)) s) -> wp (upd_ed p f) s Q.
Proof. intros Hp HQ. unfold upd_ed. apply wp_bind. eapply wp_ed_at; [done|]. by apply wp_modify. Qed.

Lemma wp_upd_td p t f s (Q : unit -> ohc H -> Prop) : tds s !! p = Some t ->
  Q tt (set_tds (<[p := f t]> (tds s)) s) -> wp (upd_td p f) s Q.
Proof. intros Hp HQ. unfold upd_td. apply wp_bind. eapply wp_td_at; [done|]. by apply wp_modify. Qed.

(** *** Loops *)

Lemma for_each_seq E (I : nat -> ohc H -> Prop) (Q : Z -> ohc H -> Prop) body n : forall a s, I a s ->
  (forall i s, (a <= i < a + n)%nat -> I i s ->
    wpe E (body i) s (fun r s' => match r with Some st => Q st s' | None => I (S i) s' end)) ->
  wpe E (for_each (seq a n) body) s (fun r s' => match r with Some st => Q st s' | None => I (a + n)%nat s' end).
Proof.
  induction n as [|n IH]; intros a s HI Hb; cbn [seq for_each].
  - apply wpe_ret. by rewrite Nat.add_0_r.
  - apply wpe_bind. eapply wpe_mono; [apply Hb; [lia | done]|]. intros r s' Hr. destruct r as [st|]; [by apply wpe_ret|].
    replace (a + S n)%nat with (S a + n)%nat by lia. apply IH; [done|]. intros i s1 Hi. apply Hb. lia.
Qed.

(** *** Creating and freeing descriptors *)

Definition new_ed : ED_DESCRIPTOR := ed_with_Skip 1 zero_ed.

Lemma linkable_u32 p : linkable p -> u32 p = p.
Proof. intros [[? ?] _]. apply wrap_small. unfold in_word. lia. Qed.

(** The number of live allocations. *)
Definition used (R : gmap Z Z) s : nat := (size (eds s) + size (tds s) + size R)%nat.

(** The pool may refuse to allocate. *)
Definition exhausted (R : gmap Z Z) s : Prop := (capacity <= used R s)%nat.

Lemma size_dom_Z {A} (m : gmap Z A) : size (dom m) = size m.
Proof. apply size_dom. Qed.

Lemma owner_size R s (A : gmap Z Z) : (forall p, A !! p = owner R s p) -> (size A <= used R s)%nat.
Proof.
  intros Ho. unfold used. rewrite <- (size_dom_Z A), <- (size_dom_Z (eds s)), <- (size_dom_Z (tds s)), <- (size_dom_Z R).
  assert (Hs : dom A ⊆ dom (eds s) ∪ dom (tds s) ∪ dom R).
  { intros p. rewrite !elem_of_union, !elem_of_dom, Ho. unfold owner.
    destruct (eds s !! p); [intros _; left; left; by eexists|]. destruct (tds s !! p); [intros _; left; right; by eexists | by right]. }
  apply subseteq_size in Hs. rewrite !size_union_alt in Hs.
  pose proof (subseteq_size (dom R ∖ (dom (eds s) ∪ dom (tds s))) (dom R) ltac:(set_solver)).
  pose proof (subseteq_size (dom (tds s) ∖ dom (eds s)) (dom (tds s)) ltac:(set_solver)). lia.
Qed.

(** A refusal means exhaustion. *)
Lemma alloc_used R s (A : gmap Z Z) n : live A (hw s) -> (forall p, A !! p = owner R s p) -> 0 < n <= 64 -> wp (pool_alloc n) (hw s) (fun r h' =>
  (r = 0 /\ exhausted R s /\ live A h') \/ (linkable r /\ A !! r = None /\ live (<[r := n]> A) h')).
Proof.
  intros HA Ho Hn. pose proof (alloc_spec A n (hw s) HA Hn) as Hs. pose proof (alloc_room A n (hw s) HA Hn) as Hp.
  unfold wp in *. destruct (pool_alloc n (hw s)) as [r h'|]; [|done]. destruct Hs as [[-> Hs]|Hs]; [left | by right].
  split; [done|]. split; [|done]. pose proof (owner_size R s A Ho). unfold exhausted.
  destruct (Nat.lt_ge_cases (size A) capacity) as [Hlt|Hge]; [by apply Hp in Hlt | lia].
Qed.

Lemma OhciCreateED_spec R s : heap R s -> wp OhciCreateED s (fun r s' => exists h,
  (r = 0 /\ exhausted R s /\ s' = set_hw h s \/
   linkable r /\ eds s !! r = None /\ tds s !! r = None /\ s' = set_eds (<[r := new_ed]> (eds s)) (set_hw h s)) /\
  heap R s').
Proof.
  intros [(A & HA & Ho) Hed Htd]. unfold OhciCreateED. apply wp_bind. apply wp_zoom.
  eapply wp_mono; [apply (alloc_used R s A); [done | done | by vm_compute]|]. intros r h' [(-> & Hpl & HA')|(Hr & HN & HA')].
  - wp_go. simpl. wp_go. exists h'. split; [by left|]. split; [by exists A | done | done].
  - assert (r <> 0) by (destruct Hr; lia). wp_go. rewrite Ho in HN. unfold owner in HN.
    assert (Hne : eds s !! r = None /\ tds s !! r = None /\ R !! r = None) by (destruct (eds s !! r), (tds s !! r); done).
    destruct Hne as (H1 & H2 & H3). exists h'. split; [right; done|]. split; simpl.
    + eexists. split; [exact HA'|]. intros p. unfold owner; simpl. destruct (decide (r = p)) as [->|Hp].
      * by rewrite !lookup_insert_eq.
      * by rewrite !lookup_insert_ne, Ho.
    + intros p d. rewrite lookup_insert_Some. intros [[<- _]|[_ Hp]]; [done | by eapply Hed].
    + intros p t Hp. destruct (Htd p t Hp) as (? & ? & ?). split; [done|]. split; [|done].
      rewrite lookup_insert_ne; [done | congruence].
Qed.

Lemma OhciCreateTD_spec R s : heap R s -> wp OhciCreateTD s (fun r s' => exists h,
  (r = 0 /\ exhausted R s /\ s' = set_hw h s \/
   linkable r /\ eds s !! r = None /\ tds s !! r = None /\ s' = set_tds (<[r := zero_td]> (tds s)) (set_hw h s)) /\
  heap R s').
Proof.
  intros [(A & HA & Ho) Hed Htd]. unfold OhciCreateTD. apply wp_bind. apply wp_zoom.
  eapply wp_mono; [apply (alloc_used R s A); [done | done | by vm_compute]|]. intros r h' [(-> & Hpl & HA')|(Hr & HN & HA')].
  - wp_go. simpl. wp_go. exists h'. split; [by left|]. split; [by exists A | done | done].
  - assert (r <> 0) by (destruct Hr; lia). wp_go. rewrite Ho in HN. unfold owner in HN.
    assert (Hne : eds s !! r = None /\ tds s !! r = None /\ R !! r = None) by (destruct (eds s !! r), (tds s !! r); done).
    destruct Hne as (H1 & H2 & H3). exists h'. split; [right; done|]. split; simpl.
    + eexists. split; [exact HA'|]. intros p. unfold owner; simpl. destruct (decide (r = p)) as [->|Hp].
      * by rewrite H1, !lookup_insert_eq.
      * by rewrite !lookup_insert_ne, Ho.
    + intros p d Hp. destruct (Hed p d Hp) as (? & ? & ?). split; [done|]. split; [|done].
      rewrite lookup_insert_ne; [done | congruence].
    + intros p t. rewrite lookup_insert_Some. intros [[<- _]|[_ Hp]]; [done | by eapply Htd].
Qed.

Lemma OhciFreeED_spec R s p d : heap R s -> eds s !! p = Some d -> wp (OhciFreeED p) s (fun _ s' => exists h,
  s' = set_eds (delete p (eds s)) (set_hw h s) /\ heap R s').
Proof.
  intros [(A & HA & Ho) Hed Htd] Hp. unfold OhciFreeED. destruct (Hed p d Hp) as (Hl & Ht & HR).
  assert (p <> 0) by (destruct Hl; lia). wp_go. apply wp_zoom.
  eapply wp_mono; [apply (free_spec A sizeof_ED); [done | by rewrite Ho; unfold owner; rewrite Hp]|].
  intros ? h' HA'. wp_go. exists h'. split; [done|]. split; simpl.
  - eexists. split; [exact HA'|]. intros q. unfold owner; simpl. destruct (decide (p = q)) as [->|Hq].
    + by rewrite !lookup_delete_eq, Ht.
    + by rewrite !lookup_delete_ne, Ho.
  - intros q e. rewrite lookup_delete_Some. intros [_ Hq]. by eapply Hed.
  - intros q t Hq. destruct (Htd q t Hq) as (? & ? & ?). split; [done|]. split; [|done]. rewrite lookup_delete_ne; [done | congruence].
Qed.

Lemma OhciFreeTD_spec R s p t : heap R s -> tds s !! p = Some t -> wp (OhciFreeTD p) s (fun _ s' => exists h,
  s' = set_tds (delete p (tds s)) (set_hw h s) /\ heap R s').
Proof.
  intros [(A & HA & Ho) Hed Htd] Hp. unfold OhciFreeTD. destruct (Htd p t Hp) as (Hl & He & HR).
  assert (p <> 0) by (destruct Hl; lia). wp_go. apply wp_zoom.
  eapply wp_mono; [apply (free_spec A sizeof_TD); [done | by rewrite Ho; unfold owner; rewrite He, Hp]|].
  intros ? h' HA'. wp_go. exists h'. split; [done|]. split; simpl.
  - eexists. split; [exact HA'|]. intros q. unfold owner; simpl. destruct (decide (p = q)) as [->|Hq].
    + by rewrite He, !lookup_delete_eq.
    + by rewrite !lookup_delete_ne, Ho.
  - intros q d Hq. destruct (Hed q d Hq) as (? & ? & ?). split; [done|]. split; [|done]. rewrite lookup_delete_ne; [done | congruence].
  - intros q t'. rewrite lookup_delete_Some. intros [_ Hq]. by eapply Htd.
Qed.
End Heap.
