(* ===== verification/OhciTree.v ===== *)
(** * The tree of interrupt lists

    [OhciInitializeInterruptList] against its contract: 32 lists, one per
    frame, that join pairwise, so that a list of depth [d] is visited once in
    [2 ^ (5 - d)] frames. *)

From Stdlib Require Import ZArith Lia.
From stdpp Require Import base list numbers option gmap.
From S2P Require Import Prelude OhciReg Ohci OhciSched OhciLists.

(** ** Families of new EDs *)

Section Family.
Context {B : Build} {H : Type} {HW : OhciHw H} {HP : DescriptorPool H} {HC : PoolContract H}.
Implicit Types s : ohc H.

Definition frame s0 s : Prop :=
  tds s = tds s0 /\ entries s = entries s0 /\ InterruptContextList s = InterruptContextList s0 /\ tpl s = tpl s0.

(** The EDs of [s] are those of [s0] and, for each [k] in [D] that has one,
    a new one at [f k] with link [next k]. *)
Record family {K} (R : gmap Z Z) s0 (D : K -> Prop) (f next : K -> Z) s : Prop := {
  fa_heap : heap R s;
  fa_frame : frame s0 s;
  fa_old : forall p d, eds s0 !! p = Some d -> eds s !! p = Some d;
  fa_node : forall k, D k -> f k <> 0 ->
    linkable (f k) /\ eds s0 !! f k = None /\ eds s !! f k = Some (ed_with_NextED (next k) new_ed);
  fa_inj : forall k k', D k -> D k' -> f k <> 0 -> f k = f k' -> k = k';
  fa_only : forall p d, eds s !! p = Some d -> eds s0 !! p = Some d \/ exists k, D k /\ p = f k
}.

Lemma family_ext {K} R s0 (D D' : K -> Prop) f f' next next' s s' :
  hw s' = hw s -> eds s' = eds s -> tds s' = tds s -> entries s' = entries s ->
  InterruptContextList s' = InterruptContextList s -> tpl s' = tpl s ->
  (forall k, D' k <-> D k) -> (forall k, D k -> f' k = f k /\ next' k = next k) ->
  family R s0 D f next s -> family R s0 D' f' next' s'.
Proof.
  intros Hh He Ht Hn Hl Hp HD Hf [F1 F2 F3 F4 F5 F6]. split.
  - eapply heap_same; [done | | | exact F1]; intros q; by rewrite ?He, ?Ht.
  - unfold frame. by rewrite Ht, Hn, Hl, Hp.
  - by rewrite He.
  - intros k Hk. apply HD in Hk. destruct (Hf k Hk) as [-> ->]. rewrite He. by apply F4.
  - intros k k' Hk Hk'. apply HD in Hk, Hk'. destruct (Hf k Hk) as [-> _], (Hf k' Hk') as [-> _]. by apply F5.
  - intros p d. rewrite He. intros Hq. destruct (F6 p d Hq) as [|(k & Hk & ->)]; [by left|]. right. exists k.
    destruct (Hf k Hk) as [-> _]. split; [by apply HD | done].
Qed.

(** Creating the ED of another key. *)
Lemma family_create {K} R s0 (D D' : K -> Prop) f next next' s k0 : family R s0 D f next s -> ~ D k0 ->
  (forall k, D' k <-> D k \/ k = k0) -> (forall k, D k -> next' k = next k) -> next' k0 = 0 ->
  wp OhciCreateED s (fun r s' =>
    (r = 0 -> exhausted R s) /\ (r <> 0 -> linkable r) /\ heap R s' /\ HccaInterruptTable s' = HccaInterruptTable s /\ IntervalList s' = IntervalList s /\
    (forall f', (forall k, D k -> f' k = f k) -> f' k0 = r -> family R s0 D' f' next' s')).
Proof.
  intros [F1 F2 F3 F4 F5 F6] Hk0 HD Hnext Hnext0. eapply wp_mono; [by apply OhciCreateED_spec|].
  intros r s' (h & [(-> & Hpl & ->)|(Hr & Hr1 & Hr2 & ->)] & Hhp).
  - do 5 (split; [done|]). intros f' Hf Hf0. split; [done | done | done | | |].
    + intros k [Hk| ->]%HD; [|done]. rewrite (Hf k Hk), (Hnext k Hk). by apply F4.
    + intros k k' [Hk| ->]%HD [Hk'| ->]%HD; try congruence. rewrite (Hf k Hk), (Hf k' Hk'). by apply F5.
    + intros p d Hp. destruct (F6 p d Hp) as [|(k & Hk & ->)]; [by left|]. right. exists k. rewrite (Hf k Hk).
      split; [by apply HD; left | done].
  - assert (Hr0 : r <> 0) by (destruct Hr; lia). do 5 (split; [done|]). intros f' Hf Hf0.
    assert (Hold : forall k, D k -> f k <> r).
    { intros k Hk Hx. destruct (F4 k Hk) as (_ & _ & E); congruence. }
    split; [done | done | | | |].
    + intros p d Hp. simpl. rewrite lookup_insert_ne; [by apply F3|]. intros ->. apply F3 in Hp. congruence.
    + intros k [Hk| ->]%HD; simpl.
      * rewrite (Hf k Hk), (Hnext k Hk), lookup_insert_ne by (symmetry; by apply Hold). by apply F4.
      * rewrite Hf0, Hnext0, lookup_insert_eq. intros _. split; [done|]. split; [|done].
        destruct (eds s0 !! r) as [d|] eqn:E; [|done]. apply F3 in E. congruence.
    + intros k k' [Hk| ->]%HD [Hk'| ->]%HD; rewrite ?Hf0, ?(Hf k Hk), ?(Hf k' Hk'); [by apply F5 | | |done].
      * intros _ Hx. by apply Hold in Hx.
      * intros _ Hx. symmetry in Hx. by apply Hold in Hx.
    + intros p d. simpl. rewrite lookup_insert_Some. intros [[<- _]|[_ Hp]].
      * right. exists k0. split; [by apply HD; right | done].
      * destruct (F6 p d Hp) as [|(k & Hk & ->)]; [by left|]. right. exists k. rewrite (Hf k Hk).
        split; [by apply HD; left | done].
Qed.

(** How many there may be. *)
Lemma family_used {K} R s0 (D : K -> Prop) f next s (ks : list K) : family R s0 D f next s -> (forall k, D k -> k ∈ ks) ->
  (used R s <= used R s0 + length ks)%nat.
Proof.
  intros [F1 (F2 & _) F3 F4 F5 F6] HD. unfold used. rewrite F2.
  assert (Hs : dom (eds s) ⊆ dom (eds s0) ∪ list_to_set (f <$> ks)).
  { intros p. rewrite elem_of_union, !elem_of_dom, elem_of_list_to_set. intros [d Hd].
    destruct (F6 p d Hd) as [|(k & Hk & ->)]; [left; by eexists | right; apply list_elem_of_fmap; by exists k; auto]. }
  apply subseteq_size in Hs. rewrite size_union_alt, !size_dom_Z in Hs.
  pose proof (subseteq_size (list_to_set (f <$> ks) ∖ dom (eds s0)) (list_to_set (f <$> ks) : gset Z) ltac:(set_solver)).
  assert (Hl : (size (list_to_set (f <$> ks) : gset Z) <= length ks)%nat).
  { clear. induction ks as [|k ks IH]; [done|]. rewrite fmap_cons, list_to_set_cons, size_union_alt, size_singleton. simpl.
    pose proof (subseteq_size (list_to_set (f <$> ks) ∖ {[f k]}) (list_to_set (f <$> ks) : gset Z) ltac:(set_solver)). lia. }
  lia.
Qed.

(** Too little memory for the 63 lists. *)
Definition scarce (R : gmap Z Z) s0 : Prop := (capacity < used R s0 + 63)%nat.

Lemma family_scarce {K} R s0 (D : K -> Prop) f next s (ks : list K) : family R s0 D f next s -> (forall k, D k -> k ∈ ks) ->
  (length ks < 63)%nat -> exhausted R s -> scarce R s0.
Proof. intros HF HD Hk. pose proof (family_used _ _ _ _ _ _ ks HF HD). unfold exhausted, scarce. lia. Qed.

(** Setting the link of one of the EDs. *)
Lemma family_link {K} R s0 (D : K -> Prop) f next next' s k0 v : family R s0 D f next s -> D k0 -> f k0 <> 0 ->
  (forall k, D k -> k <> k0 -> next' k = next k) -> next' k0 = v ->
  wp (upd_ed (f k0) (ed_with_NextED v)) s (fun _ s' =>
    HccaInterruptTable s' = HccaInterruptTable s /\ IntervalList s' = IntervalList s /\ family R s0 D f next' s').
Proof.
  intros [F1 F2 F3 F4 F5 F6] Hk0 Hf0 Hnext Hv. destruct (F4 k0 Hk0 Hf0) as (Hl & H0 & He).
  eapply wp_upd_ed; [done|]. split; [done|]. split; [done|]. split; simpl; [by eapply heap_set_ed | done | | | |].
  - intros p d Hp. rewrite lookup_insert_ne; [by apply F3 | congruence].
  - intros k Hk Hfk. destruct (F4 k Hk Hfk) as (Hl' & H0' & He'). split; [done|]. split; [done|].
    destruct (decide (f k0 = f k)) as [Hx|Hx].
    + apply F5 in Hx as <-; try done. by rewrite lookup_insert_eq, Hv.
    + rewrite lookup_insert_ne by done. rewrite (Hnext k Hk); [done|]. by intros ->.
  - done.
  - intros p d. rewrite lookup_insert_Some. intros [[<- _]|[_ Hp]]; [right; by exists k0 | by eapply F6].
Qed.
End Family.

(** ** The tables *)

Section Tree.
Context {B : Build} {H : Type} {HW : OhciHw H} {HP : DescriptorPool H} {HC : PoolContract H}.
Implicit Types s : ohc H.

(** [IntervalList[d][j]] and [HccaInterruptTable[k]] *)
Definition iv s (d j : nat) : Z := default 0 (IntervalList s !! d ≫= (fun row => row !! j)).
Definition hcca s (k : nat) : Z := default 0 (HccaInterruptTable s !! k).

Definition shape s : Prop :=
  length (HccaInterruptTable s) = 32%nat /\ length (IntervalList s) = 6%nat /\ Forall (fun row => length row = 32%nat) (IntervalList s).

Lemma wp_table k s (Q : Z -> ohc H -> Prop) : shape s -> (k < 32)%nat -> Q (hcca s k) s -> wp (table_at (HccaInterruptTable s) k) s Q.
Proof.
  intros (Hl & _) Hk HQ. unfold table_at, hcca in *. destruct (HccaInterruptTable s !! k) as [p|] eqn:E; [done|].
  apply lookup_ge_None in E. lia.
Qed.

Lemma shape_row s d : shape s -> (d < 6)%nat -> exists row, IntervalList s !! d = Some row /\ length row = 32%nat.
Proof.
  intros (_ & Hl & Hr) Hd. destruct (IntervalList s !! d) as [row|] eqn:E; [|apply lookup_ge_None in E; lia].
  exists row. split; [done|]. by eapply (Forall_lookup_1 _ _ _ _ Hr).
Qed.

Lemma wp_interval d j s (Q : Z -> ohc H -> Prop) : shape s -> (d < 6)%nat -> (j < 32)%nat -> Q (iv s d j) s -> wp (interval_at d j) s Q.
Proof.
  intros Hs Hd Hj HQ. destruct (shape_row s d Hs Hd) as (row & Hr & Hl). unfold interval_at. wp_go. unfold iv in HQ. rewrite Hr in HQ |- *.
  simpl in HQ. unfold table_at. destruct (row !! j) as [p|] eqn:E; [done|]. apply lookup_ge_None in E. lia.
Qed.

(** The state after [set_interval]. *)
Definition with_interval (d j : nat) (p : Z) s : ohc H := set_intervals (alter (fun row => <[j := p]> row) d (IntervalList s)) s.

Lemma shape_interval d j p s : shape s -> shape (with_interval d j p s).
Proof.
  intros (H1 & H2 & H3). split; [done|]. split; simpl; [by rewrite length_alter|]. apply Forall_lookup. intros i row Hi.
  rewrite list_lookup_alter in Hi. case_decide; [|by eapply (Forall_lookup_1 _ _ _ _ H3)].
  apply fmap_Some in Hi as (row0 & Hi & ->). rewrite length_insert. by eapply (Forall_lookup_1 _ _ _ _ H3).
Qed.

Lemma iv_interval d j p s d' j' : shape s -> (d < 6)%nat -> (j < 32)%nat ->
  iv (with_interval d j p s) d' j' = if decide (d' = d /\ j' = j) then p else iv s d' j'.
Proof.
  intros Hs Hd Hj. destruct (shape_row s d Hs Hd) as (row & Hr & Hl). unfold iv. simpl. rewrite list_lookup_alter.
  destruct (decide (d' = d)) as [->|Hne].
  - rewrite decide_True by done. rewrite Hr. simpl. destruct (decide (j' = j)) as [->|Hnj].
    + rewrite decide_True by done. rewrite list_lookup_insert_eq by lia. done.
    + rewrite decide_False by tauto. by rewrite list_lookup_insert_ne.
  - rewrite decide_False by congruence. rewrite decide_False; [done|]. by intros [? _].
Qed.

Lemma iv_interval_same d j p s : shape s -> (d < 6)%nat -> (j < 32)%nat -> iv (with_interval d j p s) d j = p.
Proof. intros. rewrite iv_interval by done. by rewrite decide_True. Qed.

Lemma iv_interval_other d j p s d' j' : shape s -> (d < 6)%nat -> (j < 32)%nat -> ~ (d' = d /\ j' = j) ->
  iv (with_interval d j p s) d' j' = iv s d' j'.
Proof. intros. rewrite iv_interval by done. by rewrite decide_False. Qed.

(** ** The three phases *)

(** [Leaf] reverses five bits; it is its own inverse. *)
Lemma Leaf_inverse i j : (i < 32)%nat -> (j < 32)%nat -> Leaf !!! j = i <-> j = Leaf !!! i.
Proof.
  intros Hi Hj.
  assert (G : forallb (fun i => forallb (fun j => Bool.eqb (Leaf !!! j =? i)%nat (j =? Leaf !!! i)%nat) (seq 0 32)) (seq 0 32) = true)
    by (vm_compute; reflexivity).
  rewrite forallb_forall in G. specialize (G i (proj2 (in_seq 32 0 i) ltac:(lia))).
  rewrite forallb_forall in G. specialize (G j (proj2 (in_seq 32 0 j) ltac:(lia))).
  apply Bool.eqb_prop in G. rewrite <- Nat.eqb_eq, G. apply Nat.eqb_eq.
Qed.

Lemma Leaf_lt j : (j < 32)%nat -> (Leaf !!! j < 32)%nat.
Proof. intros Hj. do 32 (destruct j as [|j]; [vm_compute; lia|]). lia. Qed.

(** Phase 1, the EDs of the frames below [i]: keyed by their place in the tree. *)
Record leaves R s0 (i : nat) s : Prop := {
  lv_shape : shape s;
  lv_fam : family R s0 (fun k => k.1 = 0%nat /\ (k.2 < 32)%nat /\ (Leaf !!! k.2 < i)%nat) (fun k => hcca s (Leaf !!! k.2)) (fun _ => 0) s;
  lv_full : forall k, (k < i)%nat -> hcca s k <> 0
}.

Lemma leaf_body_spec R s0 i s : (i < 32)%nat -> leaves R s0 i s -> wp (leaf_body i) s (fun r s' =>
  match r with
  | Some st => st = EFI_OUT_OF_RESOURCES /\ scarce R s0 /\ heap R s'
  | None => leaves R s0 (S i) s'
  end).
Proof.
  intros Hi [L1 L2 L3]. pose proof (Leaf_lt i Hi) as Hli. pose proof (proj2 (Leaf_inverse i (Leaf !!! i) Hi Hli) eq_refl) as Hinv.
  set (D := fun k : nat * nat => k.1 = 0%nat /\ (k.2 < 32)%nat /\ (Leaf !!! k.2 < S i)%nat).
  unfold leaf_body. apply wp_bind.
  eapply wp_mono; [eapply (family_create R s0 _ D _ (fun _ => 0) (fun _ => 0) s (0%nat, Leaf !!! i)); try done|].
  - cbn. lia.
  - intros [d j]; unfold D; cbn. split.
    + intros (-> & Hj & Hl). destruct (decide (Leaf !!! j = i)) as [E|E]; [right; apply Leaf_inverse in E as ->; done | left; lia].
    + intros [(-> & Hj & Hl)|[= -> ->]]; lia.
  - intros r s' (Hr0 & Hr & Hhp & Hh & Hv & Hfam). destruct (Z.eqb_spec r 0) as [->|Hrn]; wp_go.
    + split; [done|]. split; [|done]. apply (family_scarce _ _ _ _ _ _ (pair 0%nat <$> seq 0 32) L2); [|by rewrite length_fmap, length_seq; lia | by apply Hr0].
      intros [d j] (Hd & Hj & _). simpl in Hd, Hj. subst d. apply list_elem_of_fmap. exists j. split; [done|]. apply elem_of_seq. lia.
    + specialize (Hr Hrn). rewrite linkable_u32 by done. pose proof L1 as (Hlen & Hlen').
      assert (Hhc : forall k, hcca (set_hcca (<[i := r]> (HccaInterruptTable s')) s') k = if decide (k = i) then r else hcca s k).
      { intros k. unfold hcca. cbn. rewrite Hh. destruct (decide (k = i)) as [->|Hk]; [by rewrite list_lookup_insert_eq by lia | by rewrite list_lookup_insert_ne]. }
      split.
      * split; cbn; [by rewrite length_insert, Hh | by rewrite Hv].
      * eapply (family_ext R s0 D D (fun k => if decide (Leaf !!! k.2 = i) then r else hcca s (Leaf !!! k.2)) _ (fun _ => 0) _ s'); try done.
        apply Hfam; cbn; [|by rewrite decide_True]. intros [d j] (_ & _ & Hk). cbn in *. by rewrite decide_False by lia.
      * intros k Hk. rewrite Hhc. case_decide; [done|]. apply L3. lia.
Qed.

(** Phase 2, the lists of depth 0 are those of the frames. *)
Record leaf_lists R s0 (i : nat) s : Prop := {
  ll_leaves : leaves R s0 32 s;
  ll_table : forall j, (j < i)%nat -> iv s 0 j = hcca s (Leaf !!! j)
}.

Lemma first_level_body_spec R s0 i s : (i < 32)%nat -> leaf_lists R s0 i s -> wp (first_level_body i) s (fun r s' =>
  r = None /\ leaf_lists R s0 (S i) s').
Proof.
  intros Hi [[L1 L2 L3] L4]. unfold first_level_body. wp_go. apply wp_table; [done | by apply Leaf_lt|].
  unfold set_interval. wp_go. fold (with_interval 0 i (hcca s (Leaf !!! i)) s). split; [done|]. split.
  - split; [by apply shape_interval | | done].
    eapply (family_ext R s0 _ _ _ _ (fun _ => 0) (fun _ => 0) s); try done. by intros k; cbn.
  - intros j Hj. rewrite iv_interval by (done || lia). case_decide as Hd.
    + by destruct Hd as [_ ->].
    + change (hcca (with_interval 0 i (hcca s (Leaf !!! i)) s)) with (hcca s). apply L4. lia.
Qed.

(** Phase 3.  [built L I d j]: list [j] of depth [d] comes before list [I] of
    depth [L]. *)
Definition built (L I d j : nat) : bool :=
  ((d <? L)%nat && (j <? Nat.shiftr 32 d)%nat) || ((d =? L)%nat && (j <? I)%nat).

Definition link s (L I d j : nat) : Z := if built L I (S d) (Nat.div2 j) then iv s (S d) (Nat.div2 j) else 0.

Record stage R s0 (L I : nat) s : Prop := {
  sg_shape : shape s;
  sg_leaf : forall j, (j < 32)%nat -> hcca s (Leaf !!! j) = iv s 0 j;
  sg_leaf0 : forall k, (k < 32)%nat -> hcca s k <> 0;
  sg_fam : family R s0 (fun k => built L I k.1 k.2 = true) (fun k => iv s k.1 k.2) (fun k => link s L I k.1 k.2) s;
  sg_zero : forall d j, built L I d j = true -> iv s d j = 0 -> scarce R s0;
  sg_full : forall d j, built L I d j = true -> built L I (S d) (Nat.div2 j) = true -> iv s d j <> 0
}.

Lemma built_spec L I d j : built L I d j = true <-> ((d < L)%nat /\ (j < Nat.shiftr 32 d)%nat) \/ (d = L /\ (j < I)%nat).
Proof. unfold built. rewrite orb_true_iff, !andb_true_iff, !Nat.ltb_lt, Nat.eqb_eq. done. Qed.

Lemma stage_start R s0 s : leaf_lists R s0 32 s -> stage R s0 1 0 s.
Proof.
  intros [[L1 L2 L3] L4].
  assert (Hb : forall d j, built 1 0 d j = true <-> d = 0%nat /\ (j < 32)%nat).
  { intros d j. rewrite built_spec. split.
    - intros [[? Hj]|[_ ?]]; [|lia]. assert (d = 0%nat) as -> by lia. change (Nat.shiftr 32 0) with 32%nat in Hj. done.
    - intros [-> Hj]. left. change (Nat.shiftr 32 0) with 32%nat. lia. }
  split; [done | | done | | |].
  - intros j Hj. by rewrite L4.
  - eapply (family_ext R s0 _ _ _ _ (fun _ => 0) _ s); try done.
    + intros [d j]; cbn. rewrite Hb. split; [|tauto]. intros [-> Hj]. split; [done|]. split; [done | by apply Leaf_lt].
    + intros [d j] (-> & Hj & _); cbn in *. split; [by rewrite L4|]. done.
  - intros d j [-> Hj]%Hb. rewrite L4 by done. intros Hz. by apply L3 in Hz; [|apply Leaf_lt].
  - intros d j [-> Hj]%Hb [? ?]%Hb. lia.
Qed.

(** What may stop the initialisation: NULL for a list that got no ED. *)
Definition out_of_memory (R : gmap Z Z) s0 (w : stop) : Prop := w = Fault /\ scarce R s0.

Lemma heap_null R s : heap R s -> eds s !! 0 = None.
Proof. intros Hhp. destruct (eds s !! 0) as [d|] eqn:E; [|done]. apply (hp_ed _ _ Hhp) in E as ([? _] & _). lia. Qed.

Lemma link_child {K} R s0 (D : K -> Prop) f next next' s k0 v : family R s0 D f next s -> D k0 -> (f k0 = 0 -> scarce R s0) ->
  (forall k, D k -> k <> k0 -> next' k = next k) -> next' k0 = v ->
  wpe (out_of_memory R s0) (upd_ed (f k0) (ed_with_NextED v)) s (fun _ s' =>
    f k0 <> 0 /\ HccaInterruptTable s' = HccaInterruptTable s /\ IntervalList s' = IntervalList s /\ family R s0 D f next' s').
Proof.
  intros HF Hk0 Hz Hn Hv. destruct (Z.eq_dec (f k0) 0) as [E|E].
  - rewrite E. unfold upd_ed, wpe, mbind, M_bind, ed_at. rewrite (heap_null R) by apply HF. split; [done | by apply Hz].
  - apply wp_wpe. eapply wp_mono; [by eapply (family_link R s0 D f next next')|]. intros ? s' H'; cbn beta in H'. done.
Qed.

(** Arithmetic of the tree. *)
Lemma half_lt I n : (I < Nat.div2 n)%nat -> (2 * I + 1 < n)%nat.
Proof. intros Hn. pose proof (Nat.div2_odd n). destruct (Nat.odd n); simpl in *; lia. Qed.

Lemma half_cases j I : Nat.div2 j = I -> j = (2 * I)%nat \/ j = (2 * I + 1)%nat.
Proof. intros <-. pose proof (Nat.div2_odd j). destruct (Nat.odd j); simpl in *; lia. Qed.

Lemma half_even I : Nat.div2 (2 * I) = I.
Proof. apply Nat.div2_double. Qed.

Lemma half_odd I : Nat.div2 (2 * I + 1) = I.
Proof. rewrite Nat.add_1_r. apply Nat.div2_succ_double. Qed.

Lemma built_next L I d j : built L (S I) d j = true <-> built L I d j = true \/ (d = L /\ j = I).
Proof. rewrite !built_spec. lia. Qed.

Lemma built_not_self L I d j : built L I d j = true -> ~ (d = L /\ j = I).
Proof. rewrite built_spec. lia. Qed.

(** There are at most 62 other lists. *)
Lemma other_lists R s0 L I f next s : family R s0 (fun k => built L I k.1 k.2 = true) f next s -> (L < 6)%nat -> (I < Nat.shiftr 32 L)%nat ->
  exhausted R s -> scarce R s0.
Proof.
  intros HF HL HI. set (all := seq 0 6 ≫= (fun d => pair d <$> seq 0 (Nat.shiftr 32 d))).
  assert (Hall : forall d j, (d < 6)%nat -> (j < Nat.shiftr 32 d)%nat -> (d, j) ∈ all).
  { intros d j Hd Hj. apply list_elem_of_bind. exists d. split; [|apply elem_of_seq; lia].
    apply list_elem_of_fmap. exists j. split; [done|]. apply elem_of_seq. lia. }
  apply (family_scarce _ _ _ _ _ _ (filter (fun k => k <> (L, I)) all) HF).
  - intros [d j] Hb. cbn in Hb. apply list_elem_of_filter. split; [intros [= -> ->]; apply built_spec in Hb; lia|].
    apply built_spec in Hb. apply Hall; [lia | destruct Hb as [[? ?]|[-> ?]]; [done | lia]].
  - change 63%nat with (length all). eapply length_filter_lt; [by apply (Hall L I)|]. intros Hx. by apply Hx.
Qed.

(** The new list, before its children are linked to it. *)
Lemma new_list R s0 L I s : (L < 6)%nat -> (I < 32)%nat -> (I < Nat.shiftr 32 L)%nat -> stage R s0 L I s -> wp OhciCreateED s (fun r s1 =>
  let s2 := with_interval L I r s1 in
  (r <> 0 -> linkable r) /\ shape s2 /\ HccaInterruptTable s2 = HccaInterruptTable s /\
  (forall d j, iv s2 d j = if decide (d = L /\ j = I) then r else iv s d j) /\
  family R s0 (fun k => built L (S I) k.1 k.2 = true) (fun k => iv s2 k.1 k.2) (fun k => link s L I k.1 k.2) s2 /\
  (forall d j, built L (S I) d j = true -> iv s2 d j = 0 -> scarce R s0)).
Proof.
  intros HL HI HIL [G1 G2 G3 G4 G5 G6]. eapply wp_mono; [eapply (family_create R s0 _ (fun k => built L (S I) k.1 k.2 = true) _ _
    (fun k => link s L I k.1 k.2) s (L, I) G4); try done|].
  - cbn. intros Hb. by apply (built_not_self _ _ _ _ Hb).
  - intros [d j]. cbn. rewrite built_next. split; (intros [|Hk]; [by left|]); right; [destruct Hk as [-> ->] | injection Hk as -> ->]; done.
  - cbn. unfold link. destruct (built L I (S L) (Nat.div2 I)) eqn:E; [|done]. apply built_spec in E. lia.
  - intros r s1 (Hr0 & Hr & _ & Hh & Hv & Hfam). cbv zeta.
    assert (Hs1 : shape s1) by (unfold shape; by rewrite Hh, Hv).
    assert (Hiv : forall d j, iv (with_interval L I r s1) d j = if decide (d = L /\ j = I) then r else iv s d j).
    { intros d j. rewrite iv_interval by done. case_decide; [done|]. unfold iv. by rewrite Hv. }
    split; [done|]. split; [by apply shape_interval|]. split; [done|]. split; [done|]. split.
    + eapply (family_ext R s0 (fun k => built L (S I) k.1 k.2 = true) _ (fun k => iv (with_interval L I r s1) k.1 k.2) _ _ _ s1);
        try done; apply Hfam.
      * intros [d j] Hk. cbn. rewrite Hiv. apply built_not_self in Hk. by rewrite decide_False.
      * cbn. rewrite Hiv. by rewrite decide_True.
    + intros d j Hb. rewrite Hiv. case_decide as Hd; [|apply G5; by apply built_next in Hb as [|]].
      intros Hr00. eapply other_lists; [exact G4 | exact HL | exact HIL | by apply Hr0].
Qed.

(** Linking the two children of the new list. *)
Lemma level_body_spec R s0 L I s : (1 <= L < 6)%nat -> (I < Nat.shiftr 32 L)%nat -> stage R s0 L I s ->
  wpe (out_of_memory R s0) (level_body L I) s (fun r s' => r = None /\ stage R s0 L (S I) s').
Proof.
  intros HL HI G. assert (HI32 : (I < 32)%nat).
  { eapply Nat.lt_le_trans; [exact HI|]. do 6 (destruct L as [|L]; [vm_compute; lia|]). lia. }
  destruct L as [|d]; [lia|]. pose proof HI as HIL. change (Nat.shiftr 32 (S d)) with (Nat.div2 (Nat.shiftr 32 d)) in HI. apply half_lt in HI.
  assert (Hd32 : (2 * I + 1 < 32)%nat).
  { eapply Nat.lt_le_trans; [exact HI|]. do 6 (destruct d as [|d]; [vm_compute; lia|]). lia. }
  unfold level_body. apply wpe_bind, wp_wpe. eapply wp_mono; [apply (new_list R s0 (S d) I s); [lia | done | done | done]|].
  cbv zeta. intros r s1 (Hr & Hs2 & Hh & Hiv & Hfam & Hz). unfold set_interval. wpe_go.
  fold (with_interval (S d) I r s1). set (s2 := with_interval (S d) I r s1) in *.
  replace (S d - 1)%nat with d by lia. replace (I * 2)%nat with (2 * I)%nat by lia.
  assert (Hs : forall s', HccaInterruptTable s' = HccaInterruptTable s2 -> IntervalList s' = IntervalList s2 ->
    shape s' /\ (forall k, hcca s' k = hcca s k) /\ forall d j, iv s' d j = iv s2 d j).
  { intros s' E1 E2. unfold shape, hcca, iv in *. rewrite E1, E2. split; [done|]. split; [by rewrite Hh | done]. }
  assert (Hba : built (S d) (S I) d (2 * I) = true) by (apply built_spec; lia).
  assert (Hbb : built (S d) (S I) d (2 * I + 1) = true) by (apply built_spec; lia).
  assert (Hr2 : iv s2 (S d) I = r) by (rewrite Hiv; by rewrite decide_True).
  set (nx1 := fun k : nat * nat => if decide (k = (d, 2 * I)%nat) then r else link s (S d) I k.1 k.2).
  set (nx2 := fun k : nat * nat => if decide (k = (d, 2 * I + 1)%nat) then r else nx1 k).
  apply wp_wpe, wp_table; [done | done|]. destruct (Hs s2 eq_refl eq_refl) as (_ & Hhc & _). rewrite Hhc.
  rewrite (proj2 (Z.eqb_neq _ _)) by (by apply (sg_leaf0 _ _ _ _ _ G)).
  apply wpe_bind, wp_wpe, wp_interval; [done | lia | lia|].
  apply wpe_bind. eapply wpe_mono; [eapply (link_child R s0 _ _ _ nx1 s2 (d, 2 * I)%nat r Hfam); cbn; [done | by apply Hz | |]|].
  { intros k _ Hk. unfold nx1. by rewrite decide_False. }
  { unfold nx1. by rewrite decide_True. }
  cbn [fst snd]. intros ? s3 (Ha0 & E1 & E2 & Hf3). destruct (Hs s3 E1 E2) as (Hs3 & _ & Hiv3).
  apply wpe_bind, wp_wpe, wp_interval; [done | lia | lia|]. rewrite Hiv3.
  apply wpe_bind. eapply wpe_mono; [eapply (link_child R s0 _ _ _ nx2 s3 (d, 2 * I + 1)%nat r Hf3); cbn; [done | by apply Hz | |]|].
  { intros k _ Hk. unfold nx2. by rewrite decide_False. }
  { unfold nx2. by rewrite decide_True. }
  cbn [fst snd]. intros ? s4 (Hb0 & E3 & E4 & Hf4). destruct (Hs s4 (eq_trans E3 E1) (eq_trans E4 E2)) as (Hs4 & Hhc4 & Hiv4).
  apply (wpe_ret (out_of_memory R s0)). split; [done|]. destruct G as [G1 G2 G3 G4 G5 G6]. split; [done | | | | |].
  - intros j Hj. rewrite Hhc4, G2, Hiv4, Hiv by done. rewrite decide_False; [done|]. lia.
  - intros k Hk. rewrite Hhc4. by apply G3.
  - eapply (family_ext R s0 (fun k => built (S d) (S I) k.1 k.2 = true) _ (fun k => iv s2 k.1 k.2) _ nx2 _ s4); try done.
    intros [e j] Hk. cbn [fst snd] in *. split; [done|]. unfold link, nx2, nx1. rewrite Hiv4.
    destruct (built (S d) I (S e) (Nat.div2 j)) eqn:E0.
    + assert (Hn := proj2 (built_next (S d) I (S e) (Nat.div2 j)) (or_introl E0)). rewrite Hn, Hiv.
      pose proof (built_not_self _ _ _ _ E0) as Hns. rewrite decide_False by done.
      rewrite !decide_False; [unfold link; cbn; by rewrite E0 | |]; intros [= -> ->]; apply Hns;
        [exact (conj eq_refl (half_even I)) | exact (conj eq_refl (half_odd I))].
    + destruct (built (S d) (S I) (S e) (Nat.div2 j)) eqn:E1'.
      * apply built_next in E1' as [|[He Hj]]; [congruence|]. injection He as ->. rewrite Hj, Hr2.
        apply half_cases in Hj as [-> | ->]; [|by rewrite decide_True].
        destruct (decide _); [done|]. by rewrite decide_True.
      * rewrite !decide_False; [unfold link; cbn; by rewrite E0 | |]; intros [= -> ->]; apply not_true_iff_false in E1'; apply E1', built_next; right;
          [exact (conj eq_refl (half_even I)) | exact (conj eq_refl (half_odd I))].
  - intros e j Hk. rewrite Hiv4. by apply Hz.
  - intros e j Hk Hpar. rewrite Hiv4. apply built_next in Hpar as [Hpar|[He Hj]].
    + apply built_next in Hk as [Hk|[-> ->]]; [|apply built_spec in Hpar; lia].
      rewrite Hiv, decide_False by (by apply built_not_self). by apply G6.
    + injection He as ->. by apply half_cases in Hj as [-> | ->].
Qed.

Lemma stage_next R s0 L s : stage R s0 L (Nat.shiftr 32 L) s -> stage R s0 (S L) 0 s.
Proof.
  intros [G1 G2 G3 G4 G5 G6].
  assert (Hb : forall d j, built (S L) 0 d j = built L (Nat.shiftr 32 L) d j).
  { intros d j. apply eq_true_iff_eq. rewrite !built_spec. split.
    - intros [[Hd Hj]|[_ ?]]; [|lia]. destruct (decide (d = L)) as [->|]; [by right | left; lia].
    - intros [[Hd Hj]|[-> Hj]]; left; lia. }
  split; [done | done | done | | |].
  - eapply (family_ext R s0 _ _ _ _ (fun k => link s L (Nat.shiftr 32 L) k.1 k.2) _ s); try done.
    + intros [d j]; cbn [fst snd]. by rewrite Hb.
    + intros [d j] _; cbn [fst snd]. unfold link. by rewrite Hb.
  - intros d j. rewrite Hb. apply G5.
  - intros d j. rewrite !Hb. apply G6.
Qed.

(** ** The finished tree *)

(** The lists a tree has. *)
Definition is_list (d j : nat) : Prop := (d < 6)%nat /\ (j < Nat.shiftr 32 d)%nat.

(** What frame [k] visits: a list of each depth, the root only if it got an ED. *)
Definition frame_lists s (k : nat) : list Z :=
  filter (fun p => p <> 0) ((fun d => iv s d (Nat.shiftr (Leaf !!! k) d)) <$> seq 0 6).

(** The tree that was built: which EDs there are and how they are linked. *)
Record tree s : Prop := {
  tr_shape : shape s;
  tr_leaf : forall j, (j < 32)%nat -> hcca s (Leaf !!! j) = iv s 0 j;
  tr_inner : forall d j, is_list d j -> (d < 5)%nat -> iv s d j <> 0;
  tr_node : forall d j, is_list d j -> iv s d j <> 0 -> linkable (iv s d j) /\
    eds s !! iv s d j = Some (ed_with_NextED (if (d <? 5)%nat then iv s (S d) (Nat.div2 j) else 0) new_ed);
  tr_inj : forall d j d' j', is_list d j -> is_list d' j' -> iv s d j <> 0 -> iv s d j = iv s d' j' -> d = d' /\ j = j'
}.

Lemma built_all d j : built 6 0 d j = true <-> is_list d j.
Proof. rewrite built_spec. unfold is_list. lia. Qed.

Lemma is_list_parent d j : is_list d j -> (d < 5)%nat -> is_list (S d) (Nat.div2 j).
Proof.
  intros [Hd Hj] H5. split; [lia|]. change (Nat.shiftr 32 (S d)) with (Nat.div2 (Nat.shiftr 32 d)).
  do 5 (destruct d as [|d]; [revert Hj; vm_compute (Nat.shiftr 32 _); cbn; intros Hj; pose proof (Nat.div2_odd j); destruct (Nat.odd j); simpl in *; lia|]). lia.
Qed.

Lemma stage_tree R s0 s : stage R s0 6 0 s -> tree s /\ (iv s 5 0 = 0 -> scarce R s0).
Proof.
  intros [G1 G2 G3 G4 G5 G6]. split; [split|].
  - done.
  - done.
  - intros d j Hl Hd. apply G6; apply built_all; [done | by apply is_list_parent].
  - intros d j Hl Hn. destruct (fa_node _ _ _ _ _ _ G4 (d, j)) as (Hlk & _ & He); [by apply built_all | done |].
    cbn in Hlk, He. split; [done|]. rewrite He. unfold link. destruct (Nat.ltb_spec d 5) as [Hd|Hd].
    + by rewrite (proj2 (built_all (S d) (Nat.div2 j))) by (by apply is_list_parent).
    + destruct (built 6 0 (S d) (Nat.div2 j)) eqn:E; [|done]. apply built_all in E as [? _]. lia.
  - intros d j d' j' Hl Hl' Hn He. apply built_all in Hl, Hl'.
    pose proof (fa_inj _ _ _ _ _ _ G4 (d, j) (d', j') Hl Hl' Hn He) as [= -> ->]. done.
  - apply G5. vm_compute. done.
Qed.

Lemma is_list_shift j d : (j < 32)%nat -> (d < 6)%nat -> is_list d (Nat.shiftr j d).
Proof.
  intros Hj Hd. split; [done|]. rewrite !Nat.shiftr_div_pow2.
  do 6 (destruct d as [|d]; [apply Nat.Div0.div_lt_upper_bound; cbn; lia|]). lia.
Qed.

Lemma tree_u32 s d j : tree s -> is_list d j -> u32 (iv s d j) = iv s d j.
Proof.
  intros T Hl. destruct (Z.eq_dec (iv s d j) 0) as [->|E]; [done|]. by apply linkable_u32, (tr_node _ T).
Qed.

(** Following the links from a list of the tree. *)
Lemma tree_chain s j : tree s -> (j < 32)%nat -> forall n d, (S n + d = 6)%nat ->
  chain NextED (eds s) (iv s d (Nat.shiftr j d)) (filter (fun p => p <> 0) ((fun d => iv s d (Nat.shiftr j d)) <$> seq d (S n))).
Proof.
  intros T Hj n. induction n as [|n IH]; intros d Hn; change (seq d (S ?n)) with (d :: seq (S d) n); rewrite fmap_cons.
  - assert (d = 5%nat) as -> by lia. pose proof (is_list_shift j 5 Hj ltac:(lia)) as Hl. destruct (Z.eq_dec (iv s 5 (Nat.shiftr j 5)) 0) as [E|E].
    + rewrite filter_cons_False by (intros Hx; by apply Hx). rewrite E. constructor.
    + rewrite filter_cons_True by done. destruct (tr_node _ T _ _ Hl E) as [_ He]. econstructor; [done | exact He | constructor].
  - pose proof (is_list_shift j d Hj ltac:(lia)) as Hl. pose proof (tr_inner _ T _ _ Hl ltac:(lia)) as E.
    rewrite filter_cons_True by done. destruct (tr_node _ T _ _ Hl E) as [_ He]. econstructor; [done | exact He|].
    rewrite (proj2 (Nat.ltb_lt d 5)) by lia. cbn [NextED ed_with_NextED].
    rewrite tree_u32 by (done || apply is_list_parent; done || lia). apply (IH (S d)). lia.
Qed.

(** Frame [k] visits list [j] of depth [d] when its number ends in the reverse
    of [j]. *)
Lemma frame_period d j k : is_list d j -> (k < 32)%nat ->
  Nat.shiftr (Leaf !!! k) d = j <-> (k mod 2 ^ (5 - d) = Leaf !!! (j * 2 ^ d))%nat.
Proof.
  intros [Hd Hj] Hk.
  assert (G : forallb (fun d => forallb (fun j => forallb (fun k =>
    Bool.eqb (Nat.shiftr (Leaf !!! k) d =? j)%nat (k mod 2 ^ (5 - d) =? Leaf !!! (j * 2 ^ d))%nat) (seq 0 32)) (seq 0 (Nat.shiftr 32 d))) (seq 0 6) = true)
    by (vm_compute; reflexivity).
  rewrite forallb_forall in G. specialize (G d (proj2 (in_seq 6 0 d) ltac:(lia))).
  rewrite forallb_forall in G. specialize (G j (proj2 (in_seq (Nat.shiftr 32 d) 0 j) ltac:(lia))).
  rewrite forallb_forall in G. specialize (G k (proj2 (in_seq 32 0 k) ltac:(lia))).
  apply Bool.eqb_prop in G. rewrite <- Nat.eqb_eq, G. apply Nat.eqb_eq.
Qed.

Lemma frame_visits s d j k : tree s -> is_list d j -> iv s d j <> 0 -> (k < 32)%nat ->
  iv s d j ∈ frame_lists s k <-> (k mod 2 ^ (5 - d) = Leaf !!! (j * 2 ^ d))%nat.
Proof.
  intros T Hl Hn Hk. rewrite <- frame_period by done. unfold frame_lists. rewrite list_elem_of_filter, list_elem_of_fmap. split.
  - intros [_ (d' & He & Hd')]. apply elem_of_seq in Hd'.
    by destruct (tr_inj _ T _ _ _ _ Hl (is_list_shift (Leaf !!! k) d' (Leaf_lt k Hk) ltac:(lia)) Hn He) as [-> ->].
  - intros <-. split; [done|]. exists d. split; [done|]. apply elem_of_seq. destruct Hl. lia.
Qed.
End Tree.

(** ** The initialisation *)

Section Init.
Context {B : Build} {H : Type} {HW : OhciHw H} {HP : DescriptorPool H} {HC : PoolContract H}.
Implicit Types s : ohc H.

Lemma leaves_start R s : heap R s -> shape s -> leaves R s 0 s.
Proof.
  intros Hh Hs. split; [done | | lia]. split; [done | done | done | | |]; cbn.
  - lia.
  - lia.
  - intros p d Hp. by left.
Qed.

Lemma OhciInitializeInterruptList_spec R s : heap R s -> shape s ->
  wpe (out_of_memory R s) OhciInitializeInterruptList s (fun st s' =>
    heap R s' /\ (st = EFI_OUT_OF_RESOURCES /\ scarce R s \/ st = EFI_SUCCESS /\ stage R s 6 0 s')).
Proof.
  intros Hh Hs. unfold OhciInitializeInterruptList. apply wpe_bind.
  eapply wpe_mono; [apply (for_each_seq _ (fun i => leaves R s i) (fun st s' => st = EFI_OUT_OF_RESOURCES /\ scarce R s /\ heap R s'))|].
  { by apply leaves_start. }
  { intros i s1 Hi Hl. apply wp_wpe. apply leaf_body_spec; [lia | done]. }
  intros [st|] s1 H1; [apply (wpe_ret (out_of_memory R s)); tauto|].
  apply wpe_bind. eapply wpe_mono; [apply (for_each_seq _ (fun i => leaf_lists R s i) (fun _ _ => False))|].
  { split; [exact H1 | lia]. }
  { intros i s2 Hi Hl. apply wp_wpe. eapply wp_mono; [apply first_level_body_spec; [lia | done]|]. by intros r s3 [-> ?]. }
  intros r s2 H2; cbn beta in H2. destruct r as [|]; [done|].
  apply wpe_bind. eapply wpe_mono; [apply (for_each_seq _ (fun L => stage R s L 0) (fun _ _ => False))|].
  { by apply stage_start. }
  { intros L s3 HL Hst. eapply wpe_mono; [apply (for_each_seq _ (fun I => stage R s L I) (fun _ _ => False)); [done|]|].
    - intros I s4 HI Hst'. eapply wpe_mono; [apply level_body_spec; [lia | lia | done]|]. by intros r' s5 [-> ?].
    - intros r' s4 H4. destruct r' as [|]; [done|]. by apply stage_next. }
  intros r s3 H3; cbn beta in H3. destruct r as [|]; [done|]. apply (wpe_ret (out_of_memory R s)). split; [by apply (sg_fam _ _ _ _ _ H3)|]. by right.
Qed.
End Init.
