(* ===== verification/OhciIntrSpec.v ===== *)
(** * Removing EDs from the interrupt lists

    The walk of [OhciFreeInterruptEdByEd] and [OhciFreeInterruptEdByAddr]
    over the 32 lists, which share their tails: every ED to remove is unlinked
    from its one predecessor and freed once. *)

From Stdlib Require Import ZArith Lia.
From stdpp Require Import base list numbers option gmap.
From S2P Require Import Prelude OhciReg Ohci OhciSched OhciLists OhciTree.

Section Purge.
Context {B : Build} {H : Type} {HW : OhciHw H} {HP : DescriptorPool H} {HC : PoolContract H}.
Implicit Types s : ohc H.
Context (doomed : Z -> ED_DESCRIPTOR -> bool) (doomed_next : forall p t v, doomed p (ed_with_NextED v t) = doomed p t).
Context (R : gmap Z Z) (s0 : ohc H) (Ls : nat -> list Z).

(** An ED up to its link. *)
Definition strip (d : ED_DESCRIPTOR) : ED_DESCRIPTOR := ed_with_NextED 0 d.

Definition condemned (p : Z) : bool := match eds s0 !! p with Some t => doomed p t | None => false end.

(** The addresses that one ED only links to; an ED to remove is one. *)
Context (uniq : Z -> Prop) (condemned_uniq : forall x, condemned x = true -> uniq x).

(** [Ls] without the EDs that are gone. *)
Definition keep (G : Z -> bool) (l : list Z) : list Z := filter (fun p => G p = false) l.

(** The EDs of [s1] after the removal of those in [G]. *)
Record purge (G : Z -> bool) s1 : Prop := {
  pg_heap : heap R s1;
  pg_frame : frame s0 s1 /\ HccaInterruptTable s1 = HccaInterruptTable s0 /\ IntervalList s1 = IntervalList s0;
  pg_chain : forall k, (k < 32)%nat -> chain NextED (eds s1) (hcca s0 k) (keep G (Ls k));
  pg_eds : forall p, strip <$> eds s1 !! p = if G p then None else strip <$> eds s0 !! p;
  pg_same : forall p, (forall k, (k < 32)%nat -> p ∉ Ls k) -> eds s1 !! p = eds s0 !! p;
  pg_cond : forall p, G p = true -> condemned p = true;
  pg_pred : forall x i j y z b c, uniq x -> (i < 32)%nat -> (j < 32)%nat ->
    y ∈ keep G (Ls i) -> z ∈ keep G (Ls j) -> eds s1 !! y = Some b -> eds s1 !! z = Some c ->
    NextED b = x -> NextED c = x -> y = z
}.

Lemma purge_ext G G' s1 : (forall p, G p = G' p) -> purge G s1 -> purge G' s1.
Proof.
  intros HG [P1 P2 P3 P4 P5 P6 P7].
  assert (Hk : forall l, keep G' l = keep G l).
  { intros l. unfold keep. apply list_filter_iff. intros p. by rewrite HG. }
  split; try done.
  - intros k Hk'. rewrite Hk. by apply P3.
  - intros p. rewrite <- HG. apply P4.
  - intros p Hp. apply P6. by rewrite HG.
  - intros x i j y z b c. rewrite !Hk. apply P7.
Qed.

Lemma keep_in G l p : p ∈ keep G l <-> G p = false /\ p ∈ l.
Proof. unfold keep. by rewrite list_elem_of_filter. Qed.

Lemma keep_add G x l : keep (fun q => G q || (q =? x)) l = filter (fun q => q <> x) (keep G l).
Proof.
  unfold keep. rewrite list_filter_filter. apply list_filter_iff. intros p. rewrite orb_false_iff, Z.eqb_neq. tauto.
Qed.

(** The ED now at an address that is not gone. *)
Lemma purge_doomed G s1 p t : purge G s1 -> eds s1 !! p = Some t -> doomed p t = condemned p.
Proof.
  intros HP1 Hp. pose proof (pg_eds _ _ HP1 p) as He. rewrite Hp in He. simpl in He. unfold condemned.
  destruct (G p); [done|]. destruct (eds s0 !! p) as [t0|]; [|done]. simpl in He. apply (inj Some) in He.
  transitivity (doomed p (strip t)); [symmetry; apply doomed_next | rewrite He; apply doomed_next].
Qed.

Lemma linkable_next m p l : chain NextED m p l -> forall (s1 : ohc H), heap R s1 -> m = eds s1 -> u32 p = p.
Proof.
  intros Hc s1 Hh ->. inversion Hc as [|? a l' Hp Ha]; [done|]. by apply linkable_u32, (hp_ed _ _ Hh p a).
Qed.

(** Unlinking and freeing one ED. *)
Lemma purge_step G s1 k p d x t : purge G s1 -> (k < 32)%nat -> p ∈ keep G (Ls k) -> eds s1 !! p = Some d ->
  NextED d = x -> x ∈ keep G (Ls k) -> eds s1 !! x = Some t -> condemned x = true -> u32 (NextED t) = NextED t ->
  (forall k, (k < 32)%nat -> hcca s0 k <> x) ->
  wp (upd_ed p (ed_with_NextED (NextED t));; OhciFreeED x) s1 (fun _ s2 => purge (fun q => G q || (q =? x)) s2).
Proof.
  intros [P1 P2 P3 P4 P5 P6 P7] Hk Hpk Hp Hd Hxk Hx Hcx Hw Hhd.
  destruct (chain_in _ _ _ _ _ (P3 k Hk) Hxk) as [Hx0 _].
  assert (Hpx : p <> x).
  { intros ->. pose proof (P3 k Hk) as Hc. apply list_elem_of_split in Hpk as (l1 & l2 & E). rewrite E in Hc.
    apply chain_suffix in Hc. destruct (chain_head _ _ _ _ Hc Hx0) as (a & l' & Ha & [= <-] & Hl).
    assert (a = d) as -> by congruence. rewrite Hd in Hl. pose proof (chain_fun _ _ _ _ Hc _ Hl) as El.
    apply (f_equal length) in El. simpl in El. lia. }
  apply wp_bind. eapply wp_upd_ed; [done|].
  eapply wp_mono; [eapply (OhciFreeED_spec R _ x t); [by eapply heap_set_ed | simpl; by rewrite lookup_insert_ne]|].
  intros ? s2 (h & -> & Hh2). set (d' := ed_with_NextED (NextED t) d) in *. split; simpl; try done.
  - intros i Hi. rewrite keep_add. apply (chain_remove NextED (eds s1) x t p d d'); try done; [by apply P3 | by apply Hhd |].
    intros y b Hy Hb Hnb. eapply (P7 x i k y p); try done. by apply condemned_uniq.
  - intros q. destruct (Z.eqb_spec q x) as [->|Hq]; [by rewrite orb_true_r, lookup_delete_eq|]. rewrite orb_false_r, lookup_delete_ne by done.
    rewrite <- P4. destruct (decide (p = q)) as [<-|Hpq]; [by rewrite lookup_insert_eq, Hp | by rewrite lookup_insert_ne].
  - intros q Hq. rewrite lookup_delete_ne, lookup_insert_ne; [by apply P5 | |]; intros ->; by eapply Hq, keep_in.
  - intros q [Hq|Hq%Z.eqb_eq]%orb_true_iff; [by apply P6 | by subst].
  - assert (G7 : forall y b q, y <> x -> delete x (<[p := d']> (eds s1)) !! y = Some b -> NextED b = q ->
      (exists b', eds s1 !! y = Some b' /\ NextED b' = q) \/ (y = p /\ NextED t = q)).
    { intros y b q Hy. rewrite lookup_delete_ne by done. destruct (decide (p = y)) as [<-|Hne].
      - rewrite lookup_insert_eq. intros [= <-]. simpl. rewrite Hw. by right.
      - rewrite lookup_insert_ne by done. intros Hb Hn. left. by exists b. }
    intros q i j y z b c Hq Hi Hj. rewrite !keep_add, !list_elem_of_filter. intros [Hyx Hy] [Hzx Hz] Hb Hc Hnb Hnc.
    destruct (G7 y b q Hyx Hb Hnb) as [(b' & Hb' & Hn1)|[-> Hn1]], (G7 z c q Hzx Hc Hnc) as [(c' & Hc' & Hn2)|[-> Hn2]]; [| | |done].
    + by eapply (P7 q i j y z).
    + destruct Hyx. by eapply (P7 q i k y x).
    + destruct Hzx. by eapply (P7 q j k z x).
Qed.
(** No list starts with an ED to remove. *)
Context (Hshape : shape s0) (Hheads : forall k, (k < 32)%nat -> hcca s0 k <> 0 /\ condemned (hcca s0 k) = false).

(** One list, from an ED that stays. *)
Lemma remove_eds_spec k : (k < 32)%nat -> forall q2 q1 Ed G s1 fuel, purge G s1 -> keep G (Ls k) = q1 ++ Ed :: q2 ->
  (forall y, y ∈ q1 ++ [Ed] -> condemned y = false) -> (length q2 < fuel)%nat ->
  wp (remove_eds fuel doomed Ed) s1 (fun _ s2 => purge (fun q => G q || (condemned q && bool_decide (q ∈ Ls k))) s2).
Proof.
  intros Hk. induction q2 as [|x q2 IH]; intros q1 Ed G s1 [|fuel] HP1 Hq Hq1 Hf; try (simpl in Hf; lia); cbn [remove_eds];
    pose proof (pg_chain _ _ HP1 k Hk) as Hc; pose proof (chain_nodup _ _ _ _ Hc) as Hn; rewrite Hq in Hc, Hn; apply chain_suffix in Hc;
    destruct (chain_in _ _ _ _ Ed Hc ltac:(left)) as [HEd _]; destruct (chain_head _ _ _ _ Hc HEd) as (d & l' & Hd & [= <-] & Hl);
    apply wp_bind; eapply wp_ed_at; [done| |done|].
  - inversion Hl as [E|]; subst. rewrite Z.eqb_refl. wp_go. eapply purge_ext; [|done]. intros q. cbn beta.
    destruct (G q) eqn:EG; [done|]. destruct (condemned q) eqn:Ec; [|done]. simpl. symmetry. apply bool_decide_eq_false. intros Hin.
    rewrite Hq1 in Ec; [done|]. rewrite <- Hq. by apply keep_in.
  - destruct (chain_in _ _ _ _ x Hl ltac:(left)) as [Hx0 _]. inversion Hl as [|? t ? _ Ht Hl']. subst.
    rewrite (proj2 (Z.eqb_neq _ _)) by done. wp_go. eapply wp_ed_at; [done|]. rewrite (purge_doomed G s1) by done.
    set (x := NextED d) in *. destruct (condemned x) eqn:Ec.
    + assert (HS : wp (upd_ed Ed (ed_with_NextED (NextED t));; OhciFreeED x) s1 (fun _ s2 => purge (fun q => G q || (q =? x)) s2)).
      { apply (purge_step G s1 k Ed d x t); try done.
        - rewrite Hq. apply elem_of_app. right. left.
        - rewrite Hq. apply elem_of_app. right. right. left.
        - eapply linkable_next; [exact Hl' | by apply HP1 | done].
        - intros i Hi Hx. destruct (Hheads i Hi) as [_ Hh]. rewrite Hx in Hh. congruence. }
      apply wp_bind_inv in HS. apply wp_bind. eapply wp_mono; [exact HS|]. intros ? s2 H2. apply wp_bind. eapply wp_mono; [exact H2|].
      intros ? s3 H3. eapply wp_mono; [apply (IH q1 Ed _ _ fuel H3)|]; [| done | simpl in Hf; lia |].
      * rewrite keep_add, Hq. replace (q1 ++ Ed :: x :: q2) with ((q1 ++ [Ed]) ++ x :: q2) in * by (by rewrite <- app_assoc).
        rewrite filter_without_mid by done. by rewrite <- app_assoc.
      * intros ? s4 H4. eapply purge_ext; [|exact H4]. intros q. cbn beta.
        destruct (Z.eqb_spec q x) as [->|]; [|by rewrite orb_false_r]. rewrite Ec, bool_decide_true; [by rewrite !orb_true_r|].
        eapply keep_in. rewrite Hq. apply elem_of_app. right. right. left.
    + eapply (IH (q1 ++ [Ed]) x G s1 fuel); [done | by rewrite <- app_assoc | | simpl in Hf; lia].
      intros y [Hy|Hy]%elem_of_app; [by apply Hq1|]. apply list_elem_of_singleton in Hy as ->. done.
Qed.
(** What the first [i] lists lose. *)
Definition gone (i : nat) (q : Z) : bool := condemned q && existsb (fun k => bool_decide (q ∈ Ls k)) (seq 0 i).

Lemma gone_next i q : gone (S i) q = gone i q || (condemned q && bool_decide (q ∈ Ls i)).
Proof.
  unfold gone. rewrite seq_S, existsb_app. simpl. rewrite orb_false_r. by destruct (condemned q).
Qed.

Lemma gone_spec q : gone 32 q = true <-> condemned q = true /\ exists k, (k < 32)%nat /\ q ∈ Ls k.
Proof.
  unfold gone. rewrite andb_true_iff, existsb_exists. split; intros [? (k & Hk & Hq)]; (split; [done|]); exists k.
  - apply in_seq in Hk. split; [lia | by apply bool_decide_eq_true in Hq].
  - split; [apply in_seq; lia | by apply bool_decide_eq_true].
Qed.

Context (Hheap : heap R s0) (Hchain : forall k, (k < 32)%nat -> chain NextED (eds s0) (hcca s0 k) (Ls k)).
Context (Hpred : forall x i j y z b c, uniq x -> (i < 32)%nat -> (j < 32)%nat -> y ∈ Ls i -> z ∈ Ls j ->
  eds s0 !! y = Some b -> eds s0 !! z = Some c -> NextED b = x -> NextED c = x -> y = z).

Lemma purge_start : purge (gone 0) s0.
Proof.
  assert (Hg : forall q, gone 0 q = false) by (intros q; apply andb_false_r).
  assert (Hk : forall l, keep (gone 0) l = l).
  { intros l. unfold keep. induction l as [|q l IH]; [done|]. rewrite filter_cons_True by apply Hg. by rewrite IH. }
  split; try done.
  - intros k Hk'. rewrite Hk. by apply Hchain.
  - intros p. by rewrite Hg.
  - intros p. by rewrite Hg.
  - intros x i j y z b c. rewrite !Hk. by apply Hpred.
Qed.

(** All lists. *)
Lemma remove_from_lists_spec : wp (remove_from_lists doomed) s0 (fun _ s1 => purge (gone 32) s1).
Proof.
  unfold remove_from_lists. change (wpe (fun _ => False) (for_each (seq 0 32) (fun Index =>
    h ← gets HccaInterruptTable; Ed ← table_at h Index;
    if Ed =? 0 then mret None else fuel ← ed_fuel; remove_eds fuel doomed Ed;; mret None)) s0 (fun _ s1 => purge (gone 32) s1)).
  eapply wpe_mono; [apply (for_each_seq _ (fun i => purge (gone i)) (fun _ _ => False)); [apply purge_start|]|].
  - intros i s1 Hi HP1. assert (Hi' : (i < 32)%nat) by lia. destruct (pg_frame _ _ HP1) as (_ & E1 & E2). apply wp_wpe. wp_go.
    assert (Hh : hcca s1 i = hcca s0 i) by (unfold hcca; by rewrite E1). destruct (Hheads i Hi') as [Hh0 Hhc].
    apply wp_table; [unfold shape; by rewrite E1, E2 | done|]. rewrite Hh, (proj2 (Z.eqb_neq _ _)) by done.
    unfold ed_fuel. wp_go. pose proof (pg_chain _ _ HP1 i Hi') as Hc.
    destruct (chain_head _ _ _ _ Hc Hh0) as (d & l & Hd & El & Hl).
    eapply wp_mono; [apply (remove_eds_spec i Hi' l [] (hcca s0 i) (gone i)); [done | by rewrite El | |]|].
    + intros y Hy. apply list_elem_of_singleton in Hy as ->. done.
    + apply chain_length in Hl. lia.
    + intros ? s2 H2. wp_go. eapply purge_ext; [|exact H2]. intros q. by rewrite gone_next.
  - intros r s1 H1; cbn beta in H1. by destruct r.
Qed.
End Purge.

(** * Working on the interrupt lists

    Counting, choosing, attaching and removing: what the operations of
    [OhciUrb.c] do to the 32 lists, whatever EDs are in them. *)

Section Intr.
Context {B : Build} {H : Type} {HW : OhciHw H} {HP : DescriptorPool H} {HC : PoolContract H}.
Implicit Types (s : ohc H) (Ls : nat -> list Z).

(** The list of each frame. *)
Definition forest s (Ls : nat -> list Z) : Prop :=
  forall k, (k < 32)%nat -> hcca s k <> 0 /\ chain NextED (eds s) (hcca s k) (Ls k).

Lemma chain_next_in {A} (next : A -> Z) m p l y a : chain next m p l -> y ∈ l -> m !! y = Some a -> next a = 0 \/ next a ∈ l.
Proof.
  induction 1 as [|p b l Hp Hb Hl IH]; intros Hy Ha; [by apply not_elem_of_nil in Hy|].
  apply elem_of_cons in Hy as [->|Hy].
  - assert (b = a) as -> by congruence. inversion Hl; subst; [by left|]. right. right. left.
  - destruct (IH Hy Ha); [by left|]. right. by right.
Qed.

Lemma chain_first {A} (next : A -> Z) m p l : chain next m p l -> p = default 0 (head l).
Proof. by inversion 1. Qed.

Lemma chain_same_next {A} (next : A -> Z) m m' p l : chain next m p l -> chain next m' p l ->
  forall y a a', y ∈ l -> m !! y = Some a -> m' !! y = Some a' -> next a' = next a.
Proof.
  intros H1. revert m'. induction H1 as [|p b l Hp Hb Hl IH]; intros m' H2 y a a' Hy Ha Ha'; [by apply not_elem_of_nil in Hy|].
  inversion H2 as [|? b' ? _ Hb' Hl']; subst. apply elem_of_cons in Hy as [->|Hy].
  - assert (b = a) as -> by congruence. assert (b' = a') as -> by congruence.
    apply chain_first in Hl as ->. by apply chain_first in Hl' as ->.
  - pose proof (chain_first _ _ _ _ Hl) as E1. pose proof (chain_first _ _ _ _ Hl') as E2.
    rewrite E2, <- E1 in Hl'. by eapply (IH m' Hl').
Qed.

(** *** Counting and choosing *)

Lemma count_eds_spec s l : forall p, chain NextED (eds s) p l -> forall fuel n, (length l < fuel)%nat -> 0 <= n -> n + Z.of_nat (length l) < 2 ^ 64 ->
  wp (count_eds fuel p n) s (fun r s' => r = n + Z.of_nat (length l) /\ s' = s).
Proof.
  induction l as [|q l IH]; intros p Hc fuel n Hf Hn Hb; (destruct fuel as [|fuel]; [simpl in Hf; lia|]); cbn [count_eds];
    inversion Hc as [|? d ? Hp Hd Hl]; subst.
  - wp_go. simpl. split; [lia | done].
  - rewrite (proj2 (Z.eqb_neq _ _)) by done. wp_go. eapply wp_ed_at; [done|]. cbn [length] in *. rewrite wrap_small by (unfold in_word; lia).
    eapply wp_mono; [apply (IH _ Hl); lia|]. intros r s' [-> ->]. split; [lia | done].
Qed.

Lemma CountEdNum_spec s p l : chain NextED (eds s) p l -> Z.of_nat (size (eds s)) < 2 ^ 64 ->
  wp (CountEdNum p) s (fun r s' => r = Z.of_nat (length l) /\ s' = s).
Proof.
  intros Hc Hs. unfold CountEdNum, ed_fuel. wp_go. pose proof (chain_length _ _ _ _ Hc).
  eapply wp_mono; [apply (count_eds_spec s l p Hc); lia|]. intros r s' [-> ->]. split; [lia | done].
Qed.

(** A list of least length among those of [js], if one is below the bound. *)
Lemma min_list_spec s d (W : nat -> list Z) : shape s -> (d < 6)%nat -> Z.of_nat (size (eds s)) < 2 ^ 64 ->
  forall js m t, (forall j, j ∈ js -> (j < 32)%nat /\ chain NextED (eds s) (iv s d j) (W j)) ->
  wp (min_list d js m t) s (fun r s' => s' = s /\
    ((r = t /\ forall j, j ∈ js -> m <= Z.of_nat (length (W j))) \/
     (exists j, j ∈ js /\ r = iv s d j /\ Z.of_nat (length (W j)) < m /\ forall j', j' ∈ js -> (length (W j) <= length (W j'))%nat))).
Proof.
  intros Hs Hd Hsz js. induction js as [|j js IH]; intros m t Hjs; cbn [min_list].
  - wp_go. split; [done|]. left. split; [done|]. intros j Hj. by apply not_elem_of_nil in Hj.
  - destruct (Hjs j ltac:(left)) as [Hj Hc].
    assert (Hjs' : forall j, j ∈ js -> (j < 32)%nat /\ chain NextED (eds s) (iv s d j) (W j)) by (intros j' Hj'; apply Hjs; by right).
    wp_go. apply wp_interval; [done | done | done|]. wp_go. eapply wp_mono; [by apply CountEdNum_spec|].
    intros n s' [-> ->]. destruct (Z.ltb_spec (Z.of_nat (length (W j))) m) as [Hlt|Hge].
    + eapply wp_mono; [by apply IH|]. intros r s' [-> [[-> Hall]|(i & Hi & -> & Hlt' & Hall)]]; (split; [done|]); right.
      * exists j. split; [left|]. split; [done|]. split; [done|]. intros j' [->|Hj']%elem_of_cons; [done | apply Hall in Hj'; lia].
      * exists i. split; [by right|]. split; [done|]. split; [lia|]. intros j' [->|Hj']%elem_of_cons; [lia | by apply Hall].
    + eapply wp_mono; [by apply IH|]. intros r s' [-> [[-> Hall]|(i & Hi & -> & Hlt' & Hall)]]; (split; [done|]); [left | right].
      * split; [done|]. intros j' [->|Hj']%elem_of_cons; [lia | by apply Hall].
      * exists i. split; [by right|]. split; [done|]. split; [done|]. intros j' [->|Hj']%elem_of_cons; [lia | by apply Hall].
Qed.

(** *** Attaching *)

(** [New] behind [Head] in each list that has it. *)
Definition after (Head New : Z) (l : list Z) : list Z := l ≫= (fun y => if decide (y = Head) then [Head; New] else [y]).

Lemma after_in Head New l x : x ∈ after Head New l <-> x ∈ l \/ (x = New /\ Head ∈ l).
Proof.
  unfold after. rewrite list_elem_of_bind. split.
  - intros (y & Hx & Hy). destruct (decide (y = Head)) as [->|Hn].
    + apply elem_of_cons in Hx as [->|Hx]; [by left|]. apply list_elem_of_singleton in Hx as ->. by right.
    + apply list_elem_of_singleton in Hx as ->. by left.
  - intros [Hx|[-> Hh]].
    + exists x. split; [|done]. destruct (decide (x = Head)) as [->|]; left.
    + exists Head. split; [|done]. rewrite decide_True by done. right. left.
Qed.

Lemma after_without Head New l : New ∉ l -> filter (fun y => y <> New) (after Head New l) = l.
Proof.
  unfold after. induction l as [|y l IH]; [done|]. intros Hn. apply not_elem_of_cons in Hn as [Hy Hn].
  rewrite bind_cons, filter_app, IH by done. destruct (decide (y = Head)) as [->|].
  - rewrite filter_cons_True, filter_cons_False, filter_nil by (done || (intros Hx; by apply Hx)). done.
  - by rewrite filter_cons_True, filter_nil by done.
Qed.

Lemma ed_next_id e : NextED e = 0 -> ed_with_NextED 0 e = e.
Proof. destruct e; simpl. by intros ->. Qed.

(** The EDs after the attachment. *)
Definition attached s Head New d e : gmap Z ED_DESCRIPTOR :=
  <[New := ed_with_NextED (NextED d) e]> (<[Head := ed_with_NextED New d]> (eds s)).

Lemma OhciAttachED_spec s Head New d e : eds s !! Head = Some d -> eds s !! New = Some e -> Head <> New -> Head <> 0 ->
  NextED e = 0 -> wp (OhciAttachED Head New) s (fun r s' => r = EFI_SUCCESS /\ s' = set_eds (attached s Head New d e) s).
Proof.
  intros Hd He Hne H0 Hn. unfold OhciAttachED. wp_go. eapply wp_ed_at; [done|]. destruct (Z.eqb_spec (NextED d) 0) as [E|E].
  - wp_go. eapply wp_upd_ed; [done|]. wp_go. split; [done|]. unfold attached. rewrite E, ed_next_id by done.
    rewrite (insert_id (<[Head := ed_with_NextED New d]> (eds s))) by (by rewrite lookup_insert_ne). done.
  - wp_go. eapply wp_upd_ed; [done|]. wp_go. eapply wp_upd_ed; [simpl; by rewrite lookup_insert_ne|]. wp_go. done.
Qed.

Lemma forest_attach R s Ls Head New d e k0 : heap R s -> forest s Ls -> (k0 < 32)%nat -> Head ∈ Ls k0 ->
  eds s !! Head = Some d -> eds s !! New = Some e -> (forall k, (k < 32)%nat -> New ∉ Ls k) ->
  forest (set_eds (attached s Head New d e) s) (fun k => after Head New (Ls k)).
Proof.
  intros Hh HF Hk0 Hin Hd He HN k Hk. destruct (HF k Hk) as [H0 Hc]. split; [done|].
  destruct (hp_ed _ _ Hh New e He) as [Hlk _]. apply (chain_insert_after NextED (eds s) Head d); try done.
  - by apply HN.
  - destruct Hlk. lia.
  - by apply linkable_u32.
  - simpl. destruct (HF k0 Hk0) as [_ Hc0].
    destruct (chain_next_in _ _ _ _ _ _ Hc0 Hin Hd) as [->|Hx]; [done|].
    destruct (chain_in _ _ _ _ _ Hc0 Hx) as [_ [b Hb]]. by apply linkable_u32, (hp_ed _ _ Hh _ b).
Qed.
(** *** Removing *)

(** The result of a removal: the lists without the EDs that [doomed] names,
    which are freed; the others keep their place and their contents, and one
    that had one predecessor still has. *)
Record removed R s Ls (doomed : Z -> ED_DESCRIPTOR -> bool) (uniq : Z -> Prop) s' : Prop := {
  rm_heap : heap R s';
  rm_frame : frame s s' /\ HccaInterruptTable s' = HccaInterruptTable s /\ IntervalList s' = IntervalList s;
  rm_forest : forest s' (fun k => filter (fun p => condemned doomed s p = false) (Ls k));
  rm_freed : forall p k, (k < 32)%nat -> p ∈ Ls k -> condemned doomed s p = true -> eds s' !! p = None;
  rm_kept : forall p, (forall k, (k < 32)%nat -> p ∈ Ls k -> condemned doomed s p = false) ->
    strip <$> eds s' !! p = strip <$> eds s !! p;
  rm_same : forall p, (forall k, (k < 32)%nat -> p ∉ Ls k) -> eds s' !! p = eds s !! p;
  rm_pred : forall x i j y z b c, uniq x -> (i < 32)%nat -> (j < 32)%nat -> y ∈ Ls i -> z ∈ Ls j ->
    eds s' !! y = Some b -> eds s' !! z = Some c -> NextED b = x -> NextED c = x -> y = z
}.

(** Each ED to remove follows one ED only, and starts no list. *)
Definition removable s Ls (doomed : Z -> ED_DESCRIPTOR -> bool) (uniq : Z -> Prop) : Prop :=
  (forall k, (k < 32)%nat -> condemned doomed s (hcca s k) = false) /\
  (forall x, condemned doomed s x = true -> uniq x) /\
  (forall x i j y z b c, uniq x -> (i < 32)%nat -> (j < 32)%nat -> y ∈ Ls i -> z ∈ Ls j ->
    eds s !! y = Some b -> eds s !! z = Some c -> NextED b = x -> NextED c = x -> y = z).

Lemma remove_spec doomed uniq R s Ls : (forall p t v, doomed p (ed_with_NextED v t) = doomed p t) ->
  heap R s -> shape s -> forest s Ls -> removable s Ls doomed uniq ->
  wp (remove_from_lists doomed) s (fun _ s' => removed R s Ls doomed uniq s').
Proof.
  intros Hnx Hh Hs HF (Hhd & Hun & Hpr).
  eapply wp_mono; [apply (remove_from_lists_spec doomed Hnx R s Ls uniq); try done|].
  - intros k Hk. destruct (HF k Hk). split; [done | by apply Hhd].
  - intros k Hk. by apply HF.
  - intros ? s' [P1 P2 P3 P4 P5 P6 P7].
    assert (Hg : forall k p, (k < 32)%nat -> p ∈ Ls k -> gone doomed s Ls 32 p = condemned doomed s p).
    { intros k p Hk Hp. apply eq_true_iff_eq. rewrite gone_spec. split; [tauto|]. intros Hc. split; [done|]. by exists k. }
    assert (Hfreed : forall p k, (k < 32)%nat -> p ∈ Ls k -> condemned doomed s p = true -> eds s' !! p = None).
    { intros p k Hk Hp Hc. specialize (P4 p). rewrite (Hg k p Hk Hp), Hc in P4. by destruct (eds s' !! p). }
    split; try done.
    + intros k Hk. destruct P2 as (_ & E & _). unfold hcca. rewrite E. split; [by apply HF|].
      replace (filter (fun p => condemned doomed s p = false) (Ls k)) with (keep (gone doomed s Ls 32) (Ls k)); [by apply P3|].
      unfold keep. assert (Hg' := fun p => Hg k p Hk). revert Hg'. generalize (Ls k). clear. intros l Hg.
      induction l as [|p l IH]; [done|]. rewrite !filter_cons, IH by (intros q Hq; apply Hg; by right).
      rewrite Hg by left. by repeat case_decide.
    + intros p Hp. rewrite P4. destruct (gone doomed s Ls 32 p) eqn:E; [|done].
      apply gone_spec in E as [Hc (k & Hk & Hin)]. by rewrite (Hp k Hk Hin) in Hc.
    + assert (Hstay : forall k y b, (k < 32)%nat -> y ∈ Ls k -> eds s' !! y = Some b -> y ∈ keep (gone doomed s Ls 32) (Ls k)).
      { intros k y b Hk Hy Hb. apply keep_in. split; [|done]. rewrite (Hg k) by done.
        destruct (condemned doomed s y) eqn:E; [|done]. by rewrite (Hfreed y k) in Hb. }
      intros x i j y z b c Hx Hi Hj Hy Hz Hb Hc. by apply (P7 x i j y z b c); eauto.
Qed.

Lemma OhciFreeInterruptEdByAddr_spec R s Ls uniq Address EndPoint :
  let doomed := fun (_ : Z) t => (FunctionAddress t =? Address) && (EndPointNum t =? EndPoint) in
  heap R s -> shape s -> forest s Ls -> removable s Ls doomed uniq ->
  wp (OhciFreeInterruptEdByAddr Address EndPoint) s (fun r s' => r = EFI_SUCCESS /\ removed R s Ls doomed uniq s').
Proof.
  intros doomed Hh Hs HF Hr. unfold OhciFreeInterruptEdByAddr. apply wp_bind.
  eapply wp_mono; [by apply (remove_spec doomed uniq R s Ls)|]. intros ? s' H'; cbn beta in H'. by wp_go.
Qed.

Definition is_ed (Ed p : Z) (_ : ED_DESCRIPTOR) : bool := p =? u32 Ed.

Lemma OhciFreeInterruptEdByEd_spec R s Ls uniq Ed : Ed <> 0 -> heap R s -> shape s -> forest s Ls -> removable s Ls (is_ed Ed) uniq ->
  wp (OhciFreeInterruptEdByEd Ed) s (fun r s' => r = EFI_SUCCESS /\ removed R s Ls (is_ed Ed) uniq s').
Proof.
  intros H0 Hh Hs HF Hr. unfold OhciFreeInterruptEdByEd. wp_go.
  eapply wp_mono; [by apply (remove_spec (is_ed Ed) uniq R s Ls)|]. intros ? s' H'; cbn beta in H'. by wp_go.
Qed.
End Intr.

(** * The interrupt schedule

    The invariant of the interrupt lists between two calls, whatever transfers
    are on them: a list of depth [d] is visited every [2 ^ (5 - d)] frames, and
    an ED that was put on a list follows one other ED. *)

Section Schedule.
Context {B : Build} {H : Type} {HW : OhciHw H} {HP : DescriptorPool H} {HC : PoolContract H}.
Implicit Types (s : ohc H) (Ls : nat -> list Z).

(** The heads of the lists, which stay as long as the controller runs. *)
Definition is_node s (x : Z) : Prop := exists d j, is_list d j /\ iv s d j = x.

(** The frames that visit list [j] of depth [d]. *)
Definition visited (d j k : nat) : Prop := (k mod 2 ^ (5 - d) = Leaf !!! (j * 2 ^ d))%nat.

Record intr_lists s Ls : Prop := {
  il_shape : shape s;
  il_forest : forest s Ls;
  il_head : forall k, (k < 32)%nat -> is_node s (hcca s k);
  il_full : forall d j, is_list d j -> iv s d j <> 0;
  il_visit : forall d j k, is_list d j -> (k < 32)%nat -> iv s d j ∈ Ls k <-> visited d j k;
  il_pred : forall x i j y z b c, x <> 0 -> ~ is_node s x -> (i < 32)%nat -> (j < 32)%nat -> y ∈ Ls i -> z ∈ Ls j ->
    eds s !! y = Some b -> eds s !! z = Some c -> NextED b = x -> NextED c = x -> y = z;
  il_dir : forall x k d, (k < 32)%nat -> x ∈ Ls k -> eds s !! x = Some d -> Direction d = 0
}.

(** Each list is visited by a frame. *)
Lemma is_list_visited d j : is_list d j -> exists k, (k < 32)%nat /\ visited d j k.
Proof.
  intros [Hd Hj].
  assert (G : forallb (fun d => forallb (fun j => existsb (fun k => (k mod 2 ^ (5 - d) =? Leaf !!! (j * 2 ^ d))%nat) (seq 0 32))
    (seq 0 (Nat.shiftr 32 d))) (seq 0 6) = true) by (vm_compute; reflexivity).
  rewrite forallb_forall in G. specialize (G d (proj2 (in_seq 6 0 d) ltac:(lia))).
  rewrite forallb_forall in G. specialize (G j (proj2 (in_seq (Nat.shiftr 32 d) 0 j) ltac:(lia))).
  apply existsb_exists in G as (k & Hk & E). apply in_seq in Hk. apply Nat.eqb_eq in E. exists k. split; [lia | done].
Qed.

(** A list from its head. *)
Lemma node_chain s Ls d j : intr_lists s Ls -> is_list d j -> exists k q W, (k < 32)%nat /\ Ls k = q ++ iv s d j :: W /\
  chain NextED (eds s) (iv s d j) (iv s d j :: W).
Proof.
  intros I Hl. destruct (is_list_visited d j Hl) as (k & Hk & Hv). apply (il_visit _ _ I d j k Hl Hk) in Hv.
  apply list_elem_of_split in Hv as (q & W & E). exists k, q, W. split; [done|]. split; [done|].
  destruct (il_forest _ _ I k Hk) as [_ Hc]. rewrite E in Hc. by eapply chain_suffix.
Qed.

(** The lists of the initialisation. *)
Lemma intr_lists_init s : tree s -> iv s 5 0 <> 0 -> intr_lists s (frame_lists s).
Proof.
  intros T Hr. assert (Hfull : forall d j, is_list d j -> iv s d j <> 0).
  { intros d j Hl. destruct (decide (d < 5)%nat) as [Hd|Hd]; [by apply (tr_inner _ T)|]. destruct Hl as [Hd6 Hj].
    assert (d = 5%nat) as -> by lia. change (Nat.shiftr 32 5) with 1%nat in Hj. by assert (j = 0%nat) as -> by lia. }
  assert (Hleaf : forall k, (k < 32)%nat -> hcca s k = iv s 0 (Leaf !!! k) /\ is_list 0 (Leaf !!! k)).
  { intros k Hk. pose proof (Leaf_lt k Hk) as Hlk. split; [|split; [lia | exact Hlk]].
    rewrite <- (tr_leaf _ T) by done. f_equal. symmetry. by apply (Leaf_inverse k (Leaf !!! k)). }
  assert (Hnode : forall x k, (k < 32)%nat -> x ∈ frame_lists s k -> is_node s x).
  { intros x k Hk Hx. apply list_elem_of_filter in Hx as [_ Hx]. apply list_elem_of_fmap in Hx as (d & -> & Hd). apply elem_of_seq in Hd.
    exists d, (Nat.shiftr (Leaf !!! k) d). split; [|done]. apply is_list_shift; [by apply Leaf_lt | lia]. }
  assert (Hed : forall x k, (k < 32)%nat -> x ∈ frame_lists s k -> exists d j, is_list d j /\ iv s d j = x /\
    eds s !! x = Some (ed_with_NextED (if (d <? 5)%nat then iv s (S d) (Nat.div2 j) else 0) new_ed)).
  { intros x k Hk Hx. destruct (Hnode x k Hk Hx) as (d & j & Hl & <-). exists d, j. split; [done|]. split; [done|].
    by apply (tr_node _ T), Hfull. }
  split; try done.
  - apply T.
  - intros k Hk. destruct (Hleaf k Hk) as [-> Hl]. split; [by apply Hfull|].
    apply (tree_chain s (Leaf !!! k) T (Leaf_lt k Hk) 5 0). lia.
  - intros k Hk. destruct (Hleaf k Hk) as [-> Hl]. by exists 0%nat, (Leaf !!! k).
  - intros d j k Hl Hk. by apply frame_visits; [|done|apply Hfull|].
  - intros x i j y z b c Hx0 Hx Hi Hj Hy Hz Hb Hc Hnb Hnc. exfalso. destruct (Hed y i Hi Hy) as (d & jj & Hl & <- & Eb).
    rewrite Eb in Hb. injection Hb as <-. simpl in Hnb. destruct (Nat.ltb_spec d 5) as [Hd|Hd]; [|done].
    rewrite tree_u32 in Hnb by (done || by apply is_list_parent). apply Hx. exists (S d), (Nat.div2 jj). split; [by apply is_list_parent | done].
  - intros x k d Hk Hx Hd. destruct (Hed x k Hk Hx) as (dd & j & _ & _ & E). rewrite E in Hd. by injection Hd as <-.
Qed.

(** *** Attaching *)

Lemma attached_iv s Head New d e d' j' : iv (set_eds (attached s Head New d e) s) d' j' = iv s d' j'.
Proof. done. Qed.

Lemma intr_lists_attach R s Ls d j dh New e : heap R s -> intr_lists s Ls -> is_list d j -> eds s !! iv s d j = Some dh ->
  eds s !! New = Some e -> (forall k, (k < 32)%nat -> New ∉ Ls k) -> ~ is_node s New -> NextED e = 0 -> Direction e = 0 ->
  intr_lists (set_eds (attached s (iv s d j) New dh e) s) (fun k => after (iv s d j) New (Ls k)).
Proof.
  intros Hh I Hl Hd He HN Hnn Hne Hde. set (Head := iv s d j) in *.
  destruct (is_list_visited d j Hl) as (k0 & Hk0 & Hv). pose proof (proj2 (il_visit _ _ I d j k0 Hl Hk0) Hv) as Hin.
  assert (HHN : Head <> New) by (intros E; apply Hnn; exists d, j; done).
  destruct (hp_ed _ _ Hh New e He) as [HlkN _]. assert (HN0 : New <> 0) by (destruct HlkN; lia).
  assert (Hat : forall y, attached s Head New dh e !! y = if decide (y = New) then Some (ed_with_NextED (NextED dh) e)
    else if decide (y = Head) then Some (ed_with_NextED New dh) else eds s !! y).
  { intros y. unfold attached. destruct (decide (y = New)) as [->|]; [by rewrite lookup_insert_eq|]. rewrite lookup_insert_ne by done.
    destruct (decide (y = Head)) as [->|]; [by rewrite lookup_insert_eq | by rewrite lookup_insert_ne]. }
  destruct (il_forest _ _ I k0 Hk0) as [_ Hc0].
  assert (Hdh : NextED dh = 0 \/ exists k, (k < 32)%nat /\ NextED dh ∈ Ls k).
  { destruct (chain_next_in _ _ _ _ _ _ Hc0 Hin Hd) as [|Hx]; [by left | right; by exists k0]. }
  assert (Hlkd : u32 (NextED dh) = NextED dh).
  { destruct (chain_next_in _ _ _ _ _ _ Hc0 Hin Hd) as [->|Hx]; [done|].
    destruct (chain_in _ _ _ _ _ Hc0 Hx) as [_ [b Hb]]. by apply linkable_u32, (hp_ed _ _ Hh _ b). }
  split; simpl.
  - apply I.
  - eapply forest_attach; try done. apply I.
  - apply I.
  - apply I.
  - intros d' j' k Hl' Hk. rewrite attached_iv, after_in. rewrite (il_visit _ _ I d' j' k Hl' Hk). split; [|by left].
    intros [|[E _]]; [done|]. exfalso. apply Hnn. exists d', j'. done.
  - intros x i jj y z b c Hx0 Hx Hi Hj Hy Hz. rewrite !Hat, !after_in in *.
    assert (G : forall y b k, (k < 32)%nat -> y ∈ Ls k \/ (y = New /\ Head ∈ Ls k) ->
      (if decide (y = New) then Some (ed_with_NextED (NextED dh) e) else if decide (y = Head) then Some (ed_with_NextED New dh) else eds s !! y) = Some b ->
      NextED b = x -> (y = New /\ x = NextED dh) \/ (y = Head /\ x = New) \/ (y <> New /\ y <> Head /\ x <> New /\ y ∈ Ls k /\ eds s !! y = Some b)).
    { clear y z b c Hy Hz. intros y b k Hk Hy. destruct (decide (y = New)) as [->|Hyn].
      - intros [= <-]. simpl. rewrite Hlkd. by left.
      - destruct Hy as [Hy|[-> _]]; [|done]. destruct (decide (y = Head)) as [->|Hyh].
        + intros [= <-]. simpl. rewrite linkable_u32 by done. right. by left.
        + intros Hb Hn. right. right. split; [done|]. split; [done|]. split; [|done]. intros ->. destruct (il_forest _ _ I k Hk) as [_ Hc].
          destruct (chain_next_in _ _ _ _ _ _ Hc Hy Hb) as [E|E]; [congruence|]. rewrite Hn in E. by apply (HN k Hk). }
    intros Hb Hc Hnb Hnc.
    destruct (G y b i Hi Hy Hb Hnb) as [[-> E1]|[[-> E1]|(Hy1 & Hy2 & Hy3 & Hy4 & Hy5)]], (G z c jj Hj Hz Hc Hnc) as [[-> E2]|[[-> E2]|(Hz1 & Hz2 & Hz3 & Hz4 & Hz5)]]; try done.
    + exfalso. destruct Hdh as [E|(k & Hk & E)]; [congruence|]. apply (HN k Hk). congruence.
    + exfalso. apply Hz2. eapply (il_pred _ _ I x jj k0 z Head); try done.
    + exfalso. destruct Hdh as [E|(k & Hk & E)]; [congruence|]. apply (HN k Hk). congruence.
    + exfalso. apply Hy2. eapply (il_pred _ _ I x i k0 y Head); try done.
    + by eapply (il_pred _ _ I x i jj).
  - intros x k dx Hk. rewrite after_in, Hat. intros Hx. destruct (decide (x = New)) as [->|]; [by intros [= <-]|].
    destruct Hx as [Hx|[-> _]]; [|done]. destruct (decide (x = Head)) as [->|]; [|by eapply (il_dir _ _ I)].
    intros [= <-]. simpl. by eapply (il_dir _ _ I).
Qed.

(** *** Removing *)

Lemma intr_lists_removed R s Ls doomed s' : intr_lists s Ls -> (forall x, is_node s x -> condemned doomed s x = false) ->
  removed R s Ls doomed (fun x => x <> 0 /\ ~ is_node s x) s' ->
  intr_lists s' (fun k => filter (fun p => condemned doomed s p = false) (Ls k)).
Proof.
  intros [I1 I2 I3 I4 I5 I6 I7] Hn [R1 (R2 & R3 & R4) R5 R6 R7 R8 R9].
  assert (Hiv : forall d j, iv s' d j = iv s d j) by (intros d j; unfold iv; by rewrite R4).
  assert (Hhc : forall k, hcca s' k = hcca s k) by (intros k; unfold hcca; by rewrite R3).
  assert (Hnode : forall x, is_node s' x <-> is_node s x).
  { intros x. unfold is_node. split; intros (d & j & Hl & E); exists d, j; (split; [done|]); rewrite <- E; by rewrite Hiv. }
  split.
  - unfold shape. by rewrite R3, R4.
  - done.
  - intros k Hk. rewrite Hhc. by apply Hnode, I3.
  - intros d j Hl. rewrite Hiv. by apply I4.
  - intros d j k Hl Hk. rewrite Hiv, list_elem_of_filter, (I5 d j k Hl Hk). split; [tauto|]. intros Hv. split; [|done]. apply Hn. by exists d, j.
  - intros x i j y z b c Hx0 Hx Hi Hj [_ Hy]%list_elem_of_filter [_ Hz]%list_elem_of_filter. apply (R9 x i j); try done.
    by rewrite <- Hnode.
  - intros x k d Hk [Hc Hx]%list_elem_of_filter Hd. assert (Hs : strip <$> eds s' !! x = strip <$> eds s !! x) by (by apply R7).
    rewrite Hd in Hs. destruct (eds s !! x) as [d0|] eqn:E; [|done]. apply (inj Some) in Hs.
    rewrite <- (I7 x k d0 Hk Hx E). by apply (f_equal Direction) in Hs.
Qed.

(** Any EDs but the heads of lists can be removed. *)
Lemma intr_lists_removable s Ls doomed : intr_lists s Ls -> condemned doomed s 0 = false -> (forall x, is_node s x -> condemned doomed s x = false) ->
  removable s Ls doomed (fun x => x <> 0 /\ ~ is_node s x).
Proof.
  intros I H0 Hn. split; [|split].
  - intros k Hk. by apply Hn, (il_head _ _ I).
  - intros x Hx. split; [intros ->; congruence | intros Hx2; by rewrite Hn in Hx].
  - intros x i j y z b c [Hx1 Hx2]. by apply (il_pred _ _ I).
Qed.

(** *** Choosing a list *)

(** There is room for 2^28 EDs below 4 GB. *)
Lemma heap_size R s : heap R s -> Z.of_nat (size (eds s)) <= 2 ^ 28.
Proof.
  intros Hh. rewrite <- (length_map_to_list (eds s)). set (l := (fun kv : Z * ED_DESCRIPTOR => kv.1 / 16) <$> map_to_list (eds s)).
  replace (length (map_to_list (eds s))) with (length l) by (unfold l; by rewrite length_fmap).
  assert (Hlk : forall kv, kv ∈ map_to_list (eds s) -> linkable kv.1).
  { intros [p d] Hp. apply elem_of_map_to_list in Hp. by apply (hp_ed _ _ Hh p d). }
  assert (Hsub : l ⊆+ seqZ 0 (2 ^ 28)).
  { apply NoDup_submseteq.
    - assert (l = (fun p => p / 16) <$> (map_to_list (eds s)).*1) as -> by (unfold l; by rewrite <- list_fmap_compose).
      assert (Hf : Forall linkable (map_to_list (eds s)).*1).
      { apply Forall_fmap, Forall_forall. intros kv Hkv. by apply Hlk. }
      pose proof (NoDup_fst_map_to_list (eds s)) as Hn. revert Hn Hf. generalize (map_to_list (eds s)).*1. clear.
      induction l as [|p l IH]; intros Hn Hf; [constructor|]. apply NoDup_cons in Hn as [Hp Hn]. apply Forall_cons in Hf as [Hl Hf].
      rewrite fmap_cons. apply NoDup_cons. split; [|by apply IH]. intros (q & E & Hq)%list_elem_of_fmap. apply Hp.
      pose proof (proj1 (Forall_forall _ _) Hf q Hq) as Hlq. destruct Hl as [_ Hl], Hlq as [_ Hlq].
      assert (p = q) as ->; [|done]. pose proof (Z.div_mod p 16). pose proof (Z.div_mod q 16). lia.
    - intros x (kv & -> & Hkv)%list_elem_of_fmap. apply elem_of_seqZ. destruct (Hlk kv Hkv) as [Hb _].
      split; [apply Z.div_pos; lia|]. apply Z.div_lt_upper_bound; lia. }
  apply submseteq_length in Hsub. rewrite length_seqZ in Hsub. lia.
Qed.

(** The part of a list that starts at [x]. *)
Fixpoint from (x : Z) (l : list Z) : list Z :=
  match l with
  | [] => []
  | y :: l' => if decide (y = x) then l else from x l'
  end.

Lemma from_spec x l : x ∈ l -> exists q, l = q ++ from x l /\ head (from x l) = Some x.
Proof.
  induction l as [|y l IH]; intros Hx; [by apply not_elem_of_nil in Hx|]. cbn [from]. case_decide as E.
  - exists []. by subst.
  - apply elem_of_cons in Hx as [->|Hx]; [done|]. destruct (IH Hx) as (q & Hq & Hh). exists (y :: q). split; [|done]. simpl. by f_equal.
Qed.

(** The EDs of list [j] of depth [d], from its head on. *)
Definition list_of s Ls (d j : nat) : list Z := from (iv s d j) (Ls (Leaf !!! (j * 2 ^ d)%nat)).

Lemma visited_leaf d j : is_list d j -> (Leaf !!! (j * 2 ^ d) < 32)%nat /\ visited d j (Leaf !!! (j * 2 ^ d)%nat).
Proof.
  intros [Hd Hj].
  assert (G : forallb (fun d => forallb (fun j => (Leaf !!! (j * 2 ^ d) <? 32)%nat && ((Leaf !!! (j * 2 ^ d)) mod 2 ^ (5 - d) =? Leaf !!! (j * 2 ^ d))%nat)
    (seq 0 (Nat.shiftr 32 d))) (seq 0 6) = true) by (vm_compute; reflexivity).
  rewrite forallb_forall in G. specialize (G d (proj2 (in_seq 6 0 d) ltac:(lia))).
  rewrite forallb_forall in G. specialize (G j (proj2 (in_seq (Nat.shiftr 32 d) 0 j) ltac:(lia))).
  apply andb_true_iff in G as [G1 G2]. apply Nat.ltb_lt in G1. apply Nat.eqb_eq in G2. done.
Qed.

Lemma list_of_chain s Ls d j : intr_lists s Ls -> is_list d j -> chain NextED (eds s) (iv s d j) (list_of s Ls d j).
Proof.
  intros I Hl. destruct (visited_leaf d j Hl) as [Hk Hv]. apply (il_visit _ _ I d j _ Hl Hk) in Hv.
  destruct (from_spec _ _ Hv) as (q & E & Hh). unfold list_of. destruct (from (iv s d j) _) as [|y W]; [done|].
  injection Hh as ->. destruct (il_forest _ _ I _ Hk) as [_ Hc]. rewrite E in Hc. by eapply chain_suffix.
Qed.

Lemma is_list_lt d j : is_list d j -> (d < 6)%nat /\ (j < 32)%nat.
Proof.
  intros [Hd Hj]. split; [done|]. eapply Nat.lt_le_trans; [exact Hj|].
  do 6 (destruct d as [|d]; [vm_compute; lia|]). lia.
Qed.

Lemma OhciFindMinInterruptEDList_spec R s Ls d : heap R s -> intr_lists s Ls -> (d < 6)%nat ->
  wp (OhciFindMinInterruptEDList (Z.of_nat d)) s (fun r s' => s' = s /\ exists j, is_list d j /\ r = iv s d j /\
    forall j', is_list d j' -> (length (list_of s Ls d j) <= length (list_of s Ls d j'))%nat).
Proof.
  intros Hh I Hd. unfold OhciFindMinInterruptEDList. rewrite (proj2 (Z.ltb_ge _ _)) by lia. rewrite Nat2Z.id. apply wp_bind.
  pose proof (heap_size R s Hh) as Hsz.
  eapply wp_mono; [apply (min_list_spec s d (list_of s Ls d)); [apply I | done | lia|]|].
  - intros j Hj%elem_of_seq. assert (Hl : is_list d j) by (split; [done | lia]). split; [by apply (is_list_lt d j) | by apply list_of_chain].
  - intros r s' (-> & [[-> Hall]|(j & Hj & -> & _ & Hall)]).
    + exfalso. assert (Hl : is_list d 0) by (split; [done|]; do 6 (destruct d as [|d]; [vm_compute; lia|]); lia).
      specialize (Hall 0%nat). pose proof (chain_length _ _ _ _ (list_of_chain s Ls d 0 I Hl)).
      assert (0%nat ∈ seq 0 (Nat.shiftr 32 d)) as Hin by (apply elem_of_seq; destruct Hl; lia). apply Hall in Hin. lia.
    + apply elem_of_seq in Hj. assert (Hl : is_list d j) by (split; [done | lia]). pose proof (il_full _ _ I d j Hl) as Hn.
      wp_go. apply wp_ASSERT; [by rewrite (proj2 (Z.eqb_neq _ _))|]. wp_go. split; [done|]. exists j. split; [done|]. split; [done|].
      intros j' Hj'. apply Hall, elem_of_seq. destruct Hj'. lia.
Qed.

(** *** Looking for an ED *)

(** The driver gives its EDs the direction of their TDs, but looks for one
    with a direction of its own: there is none. *)
Lemma find_working_spec s A E Dir W : Dir <> 0 -> forall p fuel, chain NextED (eds s) p W -> (forall x d, x ∈ W -> eds s !! x = Some d -> Direction d = 0) ->
  (length W < fuel)%nat -> wp (find_working fuel p A E Dir) s (fun r s' => r = 0 /\ s' = s).
Proof.
  intros HD. induction W as [|x W IH]; intros p [|fuel] Hc Hdir Hf; try (simpl in Hf; lia); cbn [find_working];
    inversion Hc as [|? d ? Hp Hd Hl]; subst; [by rewrite Z.eqb_refl|].
  rewrite (proj2 (Z.eqb_neq _ _)) by done. apply wp_bind. eapply wp_ed_at; [done|].
  rewrite (Hdir x d ltac:(left) Hd), (proj2 (Z.eqb_neq 0 Dir)), andb_false_r by done.
  apply IH; [done | | simpl in Hf; lia]. intros y dy Hy. apply Hdir. by right.
Qed.
End Schedule.
