(* ===== verification/OhciXferSpec.v ===== *)
(** * Queues of transfer descriptors

    A queue is linked twice: by [NextTD], which the controller follows and
    consumes, and by [NextTDPointer], which the driver keeps.  The TDs a
    transfer creates, in order and with their contents; and the release of a
    queue. *)

From Stdlib Require Import ZArith Lia.
From stdpp Require Import base list numbers option gmap.
From S2P Require Import Prelude OhciReg Ohci OhciSched OhciXfer OhciLists.

Section Queue.
Context {B : Build} {H : Type} {HW : OhciHw H} {HP : DescriptorPool H} {HC : PoolContract H}.
Context {HS : OhciServices H} {HD : OhciDma H}.
Implicit Types s : ohc H.

Definition queue (m : gmap Z TD_DESCRIPTOR) (p : Z) (L : list Z) : Prop := chain NextTD m p L /\ chain NextTDPointer m p L.

(** A TD up to its links. *)
Definition content (t : TD_DESCRIPTOR) : TD_DESCRIPTOR := td_with_NextTDPointer 0 (td_with_NextTD 0 t).
Definition linked (n : Z) (t : TD_DESCRIPTOR) : TD_DESCRIPTOR := td_with_NextTDPointer n (td_with_NextTD n t).

Lemma last_td_spec s x l : forall p fuel, chain NextTD (tds s) p (l ++ [x]) -> (length l < fuel)%nat ->
  wp (last_td fuel p) s (fun r s' => r = x /\ s' = s).
Proof.
  induction l as [|y l IH]; intros p [|fuel] Hc Hf; try (simpl in Hf; lia); cbn [last_td];
    inversion Hc as [|? t ? Hp Ht Hl]; subst; apply wp_bind; (eapply wp_td_at; [done|]).
  - inversion Hl as [E|]. by rewrite Z.eqb_refl.
  - destruct (Z.eqb_spec (NextTD t) 0) as [E|E].
    + rewrite E in Hl. apply chain_zero in Hl. by destruct l.
    + apply IH; [done | simpl in Hf; lia].
Qed.

Lemma append_td_spec s p l x n : chain NextTD (tds s) p (l ++ [x]) ->
  wp (append_td p n) s (fun _ s' => exists t, tds s !! x = Some t /\ s' = set_tds (<[x := linked n t]> (tds s)) s).
Proof.
  intros Hc. unfold append_td, td_fuel. wp_go. pose proof (chain_length _ _ _ _ Hc) as Hl. rewrite length_app in Hl. simpl in Hl.
  eapply wp_mono; [apply (last_td_spec s x l p _ Hc); lia|]. intros r s' [-> ->].
  destruct (chain_in _ _ _ _ x Hc) as [_ [t Ht]]; [apply elem_of_app; right; left|].
  eapply wp_upd_td; [done|]. by exists t.
Qed.

Lemma queue_app m p l x n l2 t : queue m p (l ++ [x]) -> queue m n l2 -> x ∉ l2 -> u32 n = n ->
  queue (<[x := linked n t]> m) p (l ++ [x] ++ l2).
Proof. intros [H1 H2] [H3 H4] Hx Hn. split; eapply chain_app; done. Qed.

(** *** Building a queue *)

(** The state [s] has grown from [s1] by the queue at [h] of the TDs [L], with
    contents [T]; nothing else has changed. *)
Definition same_rest s1 s : Prop :=
  eds s = eds s1 /\ entries s = entries s1 /\ InterruptContextList s = InterruptContextList s1 /\
  HccaInterruptTable s = HccaInterruptTable s1 /\ IntervalList s = IntervalList s1 /\ tpl s = tpl s1.

Record grown (R : gmap Z Z) s1 (h : Z) (T : list TD_DESCRIPTOR) (L : list Z) s : Prop := {
  gr_heap : heap R s;
  gr_rest : same_rest s1 s;
  gr_other : forall p, p ∉ L -> tds s !! p = tds s1 !! p;
  gr_fresh : forall p, p ∈ L -> tds s1 !! p = None;
  gr_queue : queue (tds s) h L;
  gr_content : (fun p => content <$> tds s !! p) <$> L = Some <$> T
}.

Lemma grown_start R s : heap R s -> grown R s 0 [] [] s.
Proof. intros Hh. split; try done; [by intros p ?%not_elem_of_nil | split; constructor]. Qed.

Lemma grown_null R s1 h T L s : grown R s1 h T L s -> h = 0 <-> L = [].
Proof.
  intros G. destruct (gr_queue _ _ _ _ _ _ G) as [Hc _]. split; [intros ->; by apply chain_zero in Hc|]. intros ->. by inversion Hc.
Qed.

(** A state with one more TD, not yet in the queue. *)
Definition with_td (r : Z) (t : TD_DESCRIPTOR) (hh : H) s : ohc H := set_tds (<[r := t]> (tds s)) (set_hw hh s).

(** A TD that may be put into the queue. *)
Record loose R s1 (L : list Z) s (r : Z) (t : TD_DESCRIPTOR) s2 : Prop := {
  lo_state : exists hh, s2 = with_td r t hh s;
  lo_heap : heap R s2;
  lo_link : linkable r;
  lo_new : r ∉ L;
  lo_fresh : tds s1 !! r = None
}.

(** Creating and filling it. *)
Lemma create_fill R s1 h T L s fill : grown R s1 h T L s ->
  wp OhciCreateTD s (fun r s2 =>
    (r = 0 /\ exhausted R s2 /\ grown R s1 h T L s2) \/
    (r <> 0 /\ wp (upd_td r fill) s2 (fun _ s3 => loose R s1 L s r (fill zero_td) s3))).
Proof.
  intros G. pose proof G as [G1 G2 G3 G4 G5 G6]. eapply wp_mono; [by apply OhciCreateTD_spec|]. intros r s2 (hh & [(-> & Hpl & ->)|(Hr & Hr1 & Hr2 & ->)] & Hh).
  - left. split; [done|]. split; [done|]. by split.
  - right. split; [destruct Hr; lia|]. assert (HrL : r ∉ L).
    { intros Hin. destruct G5 as [Hc _]. destruct (chain_in _ _ _ _ _ Hc Hin) as [_ [t Ht]]. congruence. }
    eapply wp_upd_td; [simpl; by rewrite lookup_insert_eq|]. split; try done.
    + exists hh. unfold with_td. simpl. by rewrite insert_insert_eq.
    + eapply heap_set_td; [simpl; by rewrite lookup_insert_eq | done].
    + rewrite <- G3; done.
Qed.

Lemma linked_content n t : content (linked n t) = content t.
Proof. by destruct t. Qed.

(** The first TD of a queue. *)
Lemma grown_first R s1 s r t s2 : grown R s1 0 [] [] s -> loose R s1 [] s r t s2 -> content t = t -> grown R s1 r [t] [r] s2.
Proof.
  intros [G1 G2 G3 G4 G5 G6] [[hh ->] L1 L2 L3 L4] Ht. assert (r <> 0) by (destruct L2; lia).
  assert (Hq : tds (with_td r t hh s) !! r = Some t) by apply lookup_insert_eq.
  split; try done.
  - intros p Hp. simpl. rewrite lookup_insert_ne; [apply G3; apply not_elem_of_nil|]. intros <-. apply Hp. left.
  - intros p ->%list_elem_of_singleton. done.
  - assert (Hn : NextTD t = 0 /\ NextTDPointer t = 0) by (rewrite <- Ht; by destruct t).
    destruct Hn as [Hn1 Hn2]. split; (econstructor; [done | exact Hq|]); [rewrite Hn1 | rewrite Hn2]; constructor.
  - cbn [fmap list_fmap]. rewrite Hq. simpl. by rewrite Ht.
Qed.

(** Another TD. *)
Lemma grown_link R s1 h T L s r t s2 : grown R s1 h T L s -> L <> [] -> loose R s1 L s r t s2 -> content t = t ->
  wp (OhciLinkTD h r) s2 (fun _ s3 => grown R s1 h (T ++ [t]) (L ++ [r]) s3).
Proof.
  intros G HL [[hh ->] L1 L2 L3 L4] Ht. pose proof (grown_null _ _ _ _ _ _ G) as Hh0. destruct G as [G1 G2 G3 G4 G5 G6].
  assert (h <> 0) by tauto. assert (r <> 0) by (destruct L2; lia).
  destruct L as [|x l _] using rev_ind; [done|].
  assert (Hhl : h ∈ l ++ [x]) by (destruct G5 as [Hc _]; destruct (chain_head _ _ _ _ Hc) as (? & ? & _ & -> & _); [done | left]).
  assert (Hhr : h <> r) by (intros ->; done). assert (Hxr : x <> r) by (intros ->; apply L3, elem_of_app; right; left).
  unfold OhciLinkTD. wp_go. set (m := <[r := t]> (tds s)).
  assert (Hq : queue m h (l ++ [x])) by (destruct G5; split; by apply chain_insert_other).
  assert (Hn : NextTD t = 0 /\ NextTDPointer t = 0) by (rewrite <- Ht; by destruct t). destruct Hn as [Hn1 Hn2].
  assert (Hqr : queue m r [r]).
  { split; (econstructor; [done | apply lookup_insert_eq|]); [rewrite Hn1 | rewrite Hn2]; constructor. }
  eapply wp_mono; [apply (append_td_spec (with_td r t hh s) h l x r); apply Hq|].
  intros ? s3 (tx & Htx & ->). wp_go. change (tds (with_td r t hh s)) with m in *.
  pose proof (queue_app m h l x r [r] tx Hq Hqr) as Hqa. rewrite <- app_assoc.
  split; try done.
  - by eapply heap_set_td.
  - intros p Hp. rewrite !not_elem_of_app, !not_elem_of_cons in Hp. destruct Hp as (Hp1 & [Hp2 _] & [Hp3 _]). simpl.
    unfold m. rewrite !lookup_insert_ne by done. apply G3. rewrite not_elem_of_app, not_elem_of_cons. split; [done|]. split; [done | apply not_elem_of_nil].
  - intros p. rewrite !elem_of_app. intros [Hp|[Hp| ->%list_elem_of_singleton]]; [| |done]; apply G4, elem_of_app; [by left | by right].
  - apply Hqa; [|by apply linkable_u32]. intros ->%list_elem_of_singleton. done.
  - rewrite app_assoc, !(fmap_app _ (l ++ [x]) [r]), (fmap_app Some), <- G6. f_equal.
    + apply list_fmap_ext. intros i p Hp. apply list_elem_of_lookup_2 in Hp. simpl.
      destruct (decide (x = p)) as [->|Hxp].
      * rewrite lookup_insert_eq. simpl. rewrite linked_content. unfold m in Htx. rewrite lookup_insert_ne in Htx by done. by rewrite Htx.
      * rewrite lookup_insert_ne by done. unfold m. rewrite lookup_insert_ne; [done|]. by intros ->.
    + cbn [fmap list_fmap]. simpl. rewrite lookup_insert_ne by done. unfold m. rewrite lookup_insert_eq. simpl. by rewrite Ht.
Qed.
Lemma add_td_spec R s1 h T L s fill : grown R s1 h T L s -> L <> [] -> content (fill zero_td) = fill zero_td ->
  wp (add_td h fill) s (fun r s2 =>
    (r = None /\ exhausted R s2 /\ grown R s1 h T L s2) \/
    (exists e, r = Some e /\ grown R s1 h (T ++ [fill zero_td]) (L ++ [e]) s2)).
Proof.
  intros G HL Hf. unfold add_td. apply wp_bind. eapply wp_mono; [by apply (create_fill R s1 h T L s fill)|].
  intros r s2 [(-> & Hpl & G2)|[Hr Hfill]]; [wp_go; by left|]. wp_go.
  eapply wp_mono; [exact Hfill|]. intros ? s3 Hl; cbn beta in Hl. wp_go.
  eapply wp_mono; [by eapply grown_link|]. intros ? s4 G4; cbn beta in G4. wp_go. right. by exists r.
Qed.

(** The field setters leave NULL links NULL. *)
Lemma set_td_next Field Value t : NextTD (OhciSetTDField Field Value t) = if has Field TD_NEXT_PTR then u32 Value else u32 (NextTD t).
Proof. unfold OhciSetTDField. cbv zeta. cbn [NextTD td_with_BufferEndPointer td_with_NextTD]. by destruct (has Field TD_NEXT_PTR), (has Field TD_DT_TOGGLE). Qed.

Lemma set_tds_next l : forall t, Forall (fun '(Field, Value) => has Field TD_NEXT_PTR = true -> Value = 0) l -> NextTD t = 0 ->
  NextTD (set_td_fields l t) = 0.
Proof.
  induction l as [|[Field Value] l IH]; intros t Hl Ht; [done|]. apply Forall_cons in Hl as [Hv Hl].
  apply (IH (OhciSetTDField Field Value t)); [done|]. rewrite set_td_next, Ht. destruct (has Field TD_NEXT_PTR); [by rewrite Hv | done].
Qed.

Lemma content_id t : NextTD t = 0 -> NextTDPointer t = 0 -> content t = t.
Proof. destruct t; simpl. by intros -> ->. Qed.

Lemma next_data f len t : NextTD (td_with_NextTDPointer 0 (td_with_data f len t)) = NextTD t.
Proof. done. Qed.

Lemma pointer_data t : NextTDPointer (td_with_NextTDPointer 0 t) = 0.
Proof. done. Qed.

Ltac no_links := repeat (apply Forall_cons; split; [intros E; first [vm_compute in E; discriminate E | reflexivity]|]); apply Forall_nil; done.

Lemma setup_content Addr : content (setup_td Addr zero_td) = setup_td Addr zero_td.
Proof. unfold setup_td. apply content_id; [|apply pointer_data]. rewrite next_data. apply set_tds_next; [no_links | done]. Qed.

Lemma data_content Pid Toggle Addr Len : content (data_td Pid Toggle Addr Len zero_td) = data_td Pid Toggle Addr Len zero_td.
Proof. unfold data_td. apply content_id; [|apply pointer_data]. rewrite next_data. apply set_tds_next; [no_links | done]. Qed.

Lemma status_content Pid : content (status_td Pid zero_td) = status_td Pid zero_td.
Proof. unfold status_td. apply content_id; [|apply pointer_data]. rewrite next_data. apply set_tds_next; [no_links | done]. Qed.

Lemma empty_content : content (empty_td zero_td) = empty_td zero_td.
Proof. unfold empty_td. apply content_id; [|apply pointer_data]. rewrite next_data. apply set_tds_next; [no_links | done]. Qed.

(** The packets of a buffer: toggle, address and length of each. *)
Fixpoint packets_of (n : nat) (Toggle Addr Left MaxPacketLength : Z) : list (Z * Z * Z) :=
  match n with
  | O => []
  | S n =>
      if Left <=? 0 then []
      else
        let Len := if MaxPacketLength <? Left then MaxPacketLength else Left in
        (Toggle, Addr, Len) :: packets_of n (Z.lxor Toggle 1) (u64 (Addr + Len)) (Left - Len) MaxPacketLength
  end.

Definition packet_td (Pid : Z) (k : Z * Z * Z) : TD_DESCRIPTOR := let '(Toggle, Addr, Len) := k in data_td Pid Toggle Addr Len zero_td.

Lemma packet_content Pid k : content (packet_td Pid k) = packet_td Pid k.
Proof. destruct k as [[Toggle Addr] Len]. apply data_content. Qed.

(** Fuel for [Left] bytes in packets of [MaxPacketLength]. *)
Lemma packets_step Left Len Max n : 0 < Max -> 0 < Left -> Len = (if Max <? Left then Max else Left) ->
  Left <= Z.of_nat n * Max -> 0 <= Left - Len <= Z.of_nat (pred n) * Max /\ (0 < n)%nat.
Proof.
  intros HM HL -> Hn. assert (Hn0 : (0 < n)%nat) by (destruct n; [nia | lia]).
  destruct (Z.ltb_spec Max Left); (split; [|done]); destruct n as [|n]; try lia; simpl pred; nia.
Qed.

Lemma packets_enough Left Max : 0 < Max -> 0 <= Left -> Left <= Z.of_nat (pred (packets Left Max)) * Max.
Proof.
  intros HM HL. unfold packets. simpl pred. rewrite Nat2Z.inj_succ, Z2Nat.id by (apply Z.div_pos; lia).
  pose proof (Z.div_mod Left Max). pose proof (Z.mod_pos_bound Left Max). nia.
Qed.

Lemma data_stage_spec R s1 Pid Max : 0 < Max -> forall n h Toggle Addr Left T L s, grown R s1 h T L s -> 0 <= Left <= Z.of_nat n * Max ->
  wp (data_stage (S n) h Pid Toggle Addr Left Max) s (fun '(ok, h', _) s2 =>
    (L <> [] -> h' = h) /\ (ok = true -> 0 < Left -> h' <> 0) /\
    exists T' L', grown R s1 h' T' L' s2 /\
      if ok : bool then T' = T ++ (packet_td Pid <$> packets_of n Toggle Addr Left Max) else exhausted R s2).
Proof.
  intros HM n. induction n as [|n IH]; intros h Toggle Addr Left T L s G HL;
    (cbn [data_stage]; destruct (Z.leb_spec Left 0) as [Hl|Hl]; [wp_go; split; [done|]; split; [lia|]; exists T, L; (split; [done|])|]).
  - by rewrite app_nil_r.
  - lia.
  - cbn [packets_of]. rewrite (proj2 (Z.leb_le _ _)) by done. by rewrite app_nil_r.
  - cbn [packets_of]. rewrite (proj2 (Z.leb_gt Left 0) Hl). cbv zeta. set (Len := if Max <? Left then Max else Left).
    destruct (packets_step Left Len Max (S n) HM Hl eq_refl) as [HLen _]; [lia|]. simpl pred in HLen.
    change (packet_td Pid <$> _ :: ?l) with (packet_td Pid (Toggle, Addr, Len) :: (packet_td Pid <$> l)).
    apply wp_bind. eapply wp_mono; [by apply (create_fill R s1 h T L s (data_td Pid Toggle Addr Len))|].
    intros r s2 [(-> & Hpl & G2)|[Hr Hfill]].
    { wp_go. split; [done|]. split; [done|]. by exists T, L. }
    wp_go. eapply wp_mono; [exact Hfill|]. intros ? s3 Hlo; cbn beta in Hlo.
    assert (Hc : content (packet_td Pid (Toggle, Addr, Len)) = packet_td Pid (Toggle, Addr, Len)) by apply packet_content.
    pose proof (grown_null _ _ _ _ _ _ G) as Hh. apply wp_bind. destruct (Z.eqb_spec h 0) as [Hh0|Hh0].
    + wp_go. assert (L = []) as -> by tauto. assert (T = []) as -> by (pose proof (gr_content _ _ _ _ _ _ G) as E; by destruct T).
      subst h. pose proof (grown_first R s1 s r _ s3 G Hlo Hc) as G3.
      eapply wp_mono; [by apply (IH r _ _ _ _ _ s3 G3)|]. intros [[ok h'] tg] s4 (K1 & K2 & T' & L' & K3 & K4).
      split; [done|]. split; [intros _ _; rewrite K1; done|]. by exists T', L'.
    + assert (HLn : L <> []) by tauto. apply wp_bind. eapply wp_mono; [by eapply grown_link|].
      intros ? s4 G4; cbn beta in G4. wp_go.
      eapply wp_mono; [by apply (IH h _ _ _ _ _ s4 G4)|]. intros [[ok h'] tg] s5 (K1 & K2 & T' & L' & K3 & K4).
      assert (h' = h) as -> by (apply K1; by destruct L). split; [done|]. split; [done|]. exists T', L'. split; [done|].
      destruct ok; [|done]. by rewrite K4, <- app_assoc.
Qed.
Definition transfer_packets (m : dma_map) (Toggle Max : Z) : list (Z * Z * Z) :=
  packets_of (pred (packets (dm_Bytes m) Max)) Toggle (dm_Addr m) (dm_Bytes m) Max.

(** The queue of a control transfer. *)
Lemma control_tds_spec R s1 h t L s m DataPid StatusPid Max : 0 < Max -> 0 <= dm_Bytes m -> grown R s1 h [t] L s ->
  wp (control_tds h m DataPid StatusPid Max) s (fun r s2 => exists T' L', grown R s1 h T' L' s2 /\
    match r with
    | None => exhausted R s2
    | Some e => T' = t :: (packet_td DataPid <$> transfer_packets m 1 Max) ++ [status_td StatusPid zero_td; empty_td zero_td] /\ last L' = Some e
    end).
Proof.
  intros HM HB G. assert (HL : L <> []) by (pose proof (gr_content _ _ _ _ _ _ G) as E; by destruct L).
  pose proof (proj1 (grown_null _ _ _ _ _ _ G)) as Hh. unfold control_tds, transfer_packets.
  assert (exists n, packets (dm_Bytes m) Max = S n) as [n Hn] by (by eexists).
  apply wp_bind. rewrite Hn. pose proof (packets_enough (dm_Bytes m) Max HM HB) as He. rewrite Hn in He. simpl pred in *.
  eapply wp_mono; [apply (data_stage_spec R s1 DataPid Max HM n h _ _ _ _ _ s G); lia|].
  intros [[ok h'] tg] s2 (K1 & _ & T' & L' & G2 & K3). rewrite (K1 HL) in *. destruct ok; cbn [negb]; [|wp_go; by exists T', L'].
  assert (HL' : L' <> []) by (intros ->; pose proof (proj2 (grown_null _ _ _ _ _ _ G2) eq_refl) as E; tauto).
  apply wp_bind. eapply wp_mono; [eapply add_td_spec; [exact G2 | done | apply status_content]|].
  intros r s3 [(-> & Hpl & G3)|(st & -> & G3)]; [wp_go; by exists T', L'|].
  eapply wp_mono; [eapply add_td_spec; [exact G3 | by destruct L' | apply empty_content]|].
  intros r s4 [(-> & Hpl & G4)|(e & -> & G4)]; [by eexists _, _|]. eexists _, _. split; [exact G4|]. split.
  - rewrite K3, <- !app_assoc. done.
  - by rewrite last_snoc.
Qed.

(** The queue of a bulk or interrupt transfer. *)
Lemma data_tds_spec R s m Pid Toggle Max : 0 < Max -> 0 < dm_Bytes m -> heap R s ->
  wp (data_tds m Pid Toggle Max) s (fun '(r, h, _) s2 => exists T L, grown R s h T L s2 /\
    match r with
    | None => exhausted R s2
    | Some e => T = (packet_td Pid <$> transfer_packets m Toggle Max) ++ [empty_td zero_td] /\ last L = Some e
    end).
Proof.
  intros HM HB Hh. unfold data_tds, transfer_packets. assert (exists n, packets (dm_Bytes m) Max = S n) as [n Hn] by (by eexists).
  apply wp_bind. rewrite Hn. pose proof (packets_enough (dm_Bytes m) Max HM ltac:(lia)) as He. rewrite Hn in He. simpl pred in *.
  eapply wp_mono; [apply (data_stage_spec R s Pid Max HM n 0 _ _ _ _ _ s (grown_start R s Hh)); lia|].
  intros [[ok h] tg] s2 (_ & K2 & T' & L' & G2 & K3). destruct ok; cbn [negb]; [|wp_go; by exists T', L'].
  assert (HL' : L' <> []) by (intros ->; apply (K2 eq_refl HB); by apply (grown_null _ _ _ _ _ _ G2)).
  apply wp_bind. eapply wp_mono; [eapply add_td_spec; [exact G2 | done | apply empty_content]|].
  intros r s4 [(-> & Hpl & G4)|(e & -> & G4)]; wp_go; [by eexists _, _|]. eexists _, _. split; [exact G4|]. split.
  - by rewrite K3.
  - by rewrite last_snoc.
Qed.

(** *** Releasing a queue *)

(** [s2] has lost the TDs [L] of [s]. *)
Record lost R s (L : list Z) s2 : Prop := {
  ls_heap : heap R s2;
  ls_rest : same_rest s s2;
  ls_gone : forall p, p ∈ L -> tds s2 !! p = None;
  ls_other : forall p, p ∉ L -> tds s2 !! p = tds s !! p
}.

Lemma free_data_tds_spec R : forall L p s fuel, heap R s -> chain NextTDPointer (tds s) p L -> (length L < fuel)%nat ->
  wp (free_data_tds fuel p) s (fun _ s2 => lost R s L s2).
Proof.
  induction L as [|x L IH]; intros p s [|fuel] Hh Hc Hf; try (simpl in Hf; lia); cbn [free_data_tds].
  - inversion Hc. wp_go. split; try done. intros q Hq. by apply not_elem_of_nil in Hq.
  - pose proof (chain_nodup _ _ _ _ Hc) as Hn. apply NoDup_cons in Hn as [Hn _]. inversion Hc as [|? t ? Hp Ht Hl]; subst.
    rewrite (proj2 (Z.eqb_neq _ _)) by done. wp_go. eapply wp_td_at; [done|]. wp_go.
    eapply wp_mono; [by eapply OhciFreeTD_spec|]. intros ? s2 (hh & -> & Hh2).
    eapply wp_mono; [apply IH; [done | simpl; by apply chain_delete_other | simpl in Hf; lia]|].
    intros ? s3 [K1 K2 K3 K4]. split; try done.
    + intros q [->|Hq]%elem_of_cons; [|by apply K3]. rewrite K4 by done. apply lookup_delete_eq.
    + intros q Hq. apply not_elem_of_cons in Hq as [Hq1 Hq2]. rewrite K4 by done. simpl. by rewrite lookup_delete_ne.
Qed.

Lemma free_chain_spec R s p L : heap R s -> chain NextTDPointer (tds s) p L -> wp (free_chain p) s (fun _ s2 => lost R s L s2).
Proof.
  intros Hh Hc. unfold free_chain, td_fuel. wp_go. pose proof (chain_length _ _ _ _ Hc).
  apply free_data_tds_spec; [done | done | lia].
Qed.
End Queue.

(** * Control and bulk transfers: what they leave behind

    The laws of the controller and of the services a transfer uses, and the
    invariant that carries a transfer from its first descriptor to its last:
    all that was there before stays, up to the fields the controller owns. *)

(** ** Laws *)

(** What the controller does not change in a descriptor. *)
Definition ed_core (d : ED_DESCRIPTOR) : ED_DESCRIPTOR := ed_with_word2 0 0 (Zero d) 0 d.
Definition td_core (t : TD_DESCRIPTOR) : TD_DESCRIPTOR :=
  td_with_CurrBufferPointer 0 (td_with_NextTD 0 (td_with_DataToggle 0
    (td_with_word0 (Reserved t) (BufferRounding t) (DirPID t) (DelayInterrupt t) 0 0 t))).

(** Everything but the descriptors and the hardware is the same. *)
Definition same_driver {H} (s s' : ohc H) : Prop :=
  entries s' = entries s /\ InterruptContextList s' = InterruptContextList s /\ HccaInterruptTable s' = HccaInterruptTable s /\
  IntervalList s' = IntervalList s /\ tpl s' = tpl s.

Section Laws.
Context {H : Type} {HW : OhciHw H} {HP : DescriptorPool H} {HC : PoolContract H} {HS : OhciServices H} {HD : OhciDma H}.

(** The controller works on descriptors in place. *)
Record hc_only (s s' : ohc H) : Prop := {
  ho_live : forall A, live A (hw s) -> live A (hw s');
  ho_eds : forall p, ed_core <$> eds s' !! p = ed_core <$> eds s !! p;
  ho_tds : forall p, td_core <$> tds s' !! p = td_core <$> tds s !! p;
  ho_driver : same_driver s s'
}.

(** Registers and services do not touch the pool, nor the pool the registers;
    [MmioWrite32] returns the value it wrote; a list head register holds what
    was written; a mapping has at least a byte and no more than was asked for. *)
Class OhciLaws : Prop := {
  read_live : forall A a h, live A h -> live A (snd (MmioRead32 a h));
  write_live : forall A a v h, live A h -> live A (snd (MmioWrite32 a v h));
  write_value : forall a v h, fst (MmioWrite32 a v h) = v;
  pointer_sticks : forall r v h, r = HC_CONTROL_HEAD \/ r = HC_BULK_HEAD -> 0 <= v < 2 ^ 32 -> v mod 16 = 0 ->
    fst (MmioRead32 (u32 (UsbHcBaseAddress + r)) (snd (MmioWrite32 (u32 (UsbHcBaseAddress + r)) v h))) = v;
  head_quiet : forall r a h, r = HC_CONTROL_HEAD \/ r = HC_BULK_HEAD ->
    fst (MmioRead32 (u32 (UsbHcBaseAddress + r)) (snd (MmioRead32 a h))) = fst (MmioRead32 (u32 (UsbHcBaseAddress + r)) h);
  head_alloc : forall r n A h, r = HC_CONTROL_HEAD \/ r = HC_BULK_HEAD -> live A h ->
    wp (pool_alloc n) h (fun _ h' => fst (MmioRead32 (u32 (UsbHcBaseAddress + r)) h') = fst (MmioRead32 (u32 (UsbHcBaseAddress + r)) h));
  verify_once : (0 < verify_bound)%nat;
  stall_live : forall A us h, live A h -> live A (Stall us h);
  unmap_live : forall A m h, live A h -> live A (DmaUnmap m h);
  map_live : forall A o p n h, live A h -> live A (snd (DmaMap o p n h));
  map_bytes : forall o p n h, 0 < n -> EFI_ERROR (dm_Status (fst (DmaMap o p n h))) = false ->
    0 < dm_Bytes (fst (DmaMap o p n h)) <= n;
  progress_only : forall s, hc_only s (hc_progress s)
}.
End Laws.

Section Spec.
Context {B : Build} {H : Type} {HW : OhciHw H} {HP : DescriptorPool H} {HC : PoolContract H} {HS : OhciServices H} {HD : OhciDma H}.
Context {HL : OhciLaws}.
Implicit Types s : ohc H.

(** ** Register accesses *)

(** Computations that keep the pool. *)
Definition quiet {A} (c : M H A) : Prop := forall h live0, live live0 h -> wp c h (fun _ h' => live live0 h').

Lemma quiet_bind {A A'} (c : M H A) (k : A -> M H A') : quiet c -> (forall a, quiet (k a)) -> quiet (mbind k c).
Proof. intros Hc Hk h l Hl. apply wp_bind. eapply wp_mono; [by apply Hc|]. intros a h' Hl'. by apply Hk. Qed.

Lemma quiet_ret {A} (a : A) : quiet (mret a).
Proof. intros h l Hl. done. Qed.

Lemma quiet_read r : quiet (OhciGetOperationalReg r).
Proof. intros h l Hl. unfold OhciGetOperationalReg, wp. pose proof (read_live l (u32 (UsbHcBaseAddress + r)) h Hl). by destruct (MmioRead32 _ h). Qed.

Lemma quiet_write r v : quiet (OhciSetOperationalReg r v).
Proof. intros h l Hl. unfold OhciSetOperationalReg, wp. pose proof (write_live l (u32 (UsbHcBaseAddress + r)) v h Hl). by destruct (MmioWrite32 _ _ h). Qed.

Lemma quiet_update r f : quiet (update_reg r f).
Proof. apply quiet_bind; [apply quiet_read|]. intros v. apply quiet_write. Qed.

Lemma quiet_field r fields Field f : find_field fields Field = Some f -> quiet (read_field r fields Field).
Proof. intros Hf. apply quiet_bind; [apply quiet_read|]. intros v. rewrite Hf. apply quiet_ret. Qed.

Lemma quiet_stall us : quiet (stall us).
Proof. intros h l Hl. unfold stall. by apply wp_modify, stall_live. Qed.

(** A pointer register is read back at the first attempt. *)
Lemma set_pointer_spec r v h A : r = HC_CONTROL_HEAD \/ r = HC_BULK_HEAD -> 0 <= v < 2 ^ 32 -> v mod 16 = 0 -> live A h ->
  wp (OhciSetMemoryPointer r v) h (fun _ h' => live A h' /\ fst (MmioRead32 (u32 (UsbHcBaseAddress + r)) h') = v).
Proof.
  intros Hr Hv Hm Hl. unfold OhciSetMemoryPointer. assert (E : u32 v = v) by (apply wrap_small; done). rewrite E. apply wp_bind.
  unfold OhciSetOperationalReg at 1, wp. pose proof (write_live A (u32 (UsbHcBaseAddress + r)) v h Hl) as Hl1.
  pose proof (write_value (u32 (UsbHcBaseAddress + r)) v h) as Hv1. pose proof (pointer_sticks r v h Hr Hv Hm) as Hs.
  destruct (MmioWrite32 (u32 (UsbHcBaseAddress + r)) v h) as [st h1]. simpl in *. subst st.
  assert (EFI_ERROR v = false) as -> by (apply Z.leb_gt; lia). fold (wp (verify_pointer verify_bound r v;; mret v) h1
    (fun _ h' => live A h' /\ fst (MmioRead32 (u32 (UsbHcBaseAddress + r)) h') = v)).
  pose proof verify_once as Hb. destruct verify_bound as [|n]; [lia|]. cbn [verify_pointer]. apply wp_bind, wp_bind.
  unfold OhciGetOperationalReg, wp. pose proof (read_live A (u32 (UsbHcBaseAddress + r)) h1 Hl1) as Hl2.
  pose proof (head_quiet r (u32 (UsbHcBaseAddress + r)) h1 Hr) as Hq.
  destruct (MmioRead32 (u32 (UsbHcBaseAddress + r)) h1) as [w h2]. simpl in *. subst w. rewrite E, Z.eqb_refl. simpl. by rewrite Hq.
Qed.

(** ** The invariant of a transfer

    Since [s0], the EDs [E] and the TDs [L] have come, the latter as the queue
    at [h]; the controller may have worked on any descriptor. *)
Record during (R : gmap Z Z) s0 (E : list Z) (h : Z) (L : list Z) s : Prop := {
  du_heap : heap R s;
  du_eds : forall p, p ∉ E -> ed_core <$> eds s !! p = ed_core <$> eds s0 !! p;
  du_new : forall p, p ∈ E -> eds s0 !! p = None /\ is_Some (eds s !! p);
  du_tds : forall p, p ∉ L -> td_core <$> tds s !! p = td_core <$> tds s0 !! p;
  du_fresh : forall p, p ∈ L -> tds s0 !! p = None;
  du_queue : chain NextTDPointer (tds s) h L;
  du_driver : same_driver s0 s
}.

Lemma during_start R s : heap R s -> during R s [] 0 [] s.
Proof.
  intros Hh. split; try done; try (by intros p ?%not_elem_of_nil). constructor.
Qed.

Lemma fmap_none {A C} (f : A -> C) (x y : option A) : f <$> x = f <$> y -> x = None <-> y = None.
Proof. by destruct x, y. Qed.

Lemma fmap_some {A C} (f : A -> C) (x : option A) b : f <$> Some b = f <$> x -> exists a, x = Some a /\ f b = f a.
Proof. destruct x as [a|]; simpl; [|done]. intros [= E]. by exists a. Qed.

Lemma td_core_pointer t t' : td_core t = td_core t' -> NextTDPointer t = NextTDPointer t'.
Proof. by intros [= _]. Qed.

(** A queue only depends on the TDs up to the controller's fields. *)
Lemma chain_core m m' p l : chain NextTDPointer m p l -> (forall q, td_core <$> m' !! q = td_core <$> m !! q) -> chain NextTDPointer m' p l.
Proof.
  intros Hc Hm. eapply chain_ext; [done|]. intros x Hx. destruct (chain_in _ _ _ _ _ Hc Hx) as [_ [a Ha]].
  specialize (Hm x). rewrite Ha in Hm. symmetry in Hm. apply fmap_some in Hm as (a' & Ha' & Ec). exists a, a'.
  split; [done|]. split; [done|]. symmetry. by apply td_core_pointer.
Qed.

(** The hardware changes, the controller works. *)
Lemma during_hc R s0 E h L s s' : during R s0 E h L s -> hc_only s s' -> during R s0 E h L s'.
Proof.
  intros [D1 D2 D3 D4 D5 D6 D7] [P1 P2 P3 (P4 & P5 & P6 & P7 & P8)]. split.
  - destruct D1 as [(A & HA & Ho) Hed Htd].
    assert (He : forall p, eds s' !! p = None <-> eds s !! p = None) by (intros p; eapply fmap_none; apply P2).
    assert (Ht : forall p, tds s' !! p = None <-> tds s !! p = None) by (intros p; eapply fmap_none; apply P3).
    apply (heap_same R (set_hw (hw s') s)); [done | intros p; symmetry; apply He | intros p; symmetry; apply Ht|].
    split; [exists A; split; [by apply P1 | done] | done | done].
  - intros p Hp. by rewrite P2, D2.
  - intros p Hp. destruct (D3 p Hp) as [? [d Hd]]. split; [done|]. specialize (P2 p). rewrite Hd in P2. destruct (eds s' !! p); [by eexists | done].
  - intros p Hp. by rewrite P3, D4.
  - done.
  - by eapply chain_core.
  - destruct D7 as (? & ? & ? & ? & ?). unfold same_driver. rewrite P4, P5, P6, P7, P8. done.
Qed.

Lemma hc_only_hw s hh : (forall A, live A (hw s) -> live A hh) -> hc_only s (set_hw hh s).
Proof. intros Hh. by split. Qed.

Lemma during_quiet {A} (c : M H A) R s0 E h L s : quiet c -> during R s0 E h L s ->
  wp (on_hw c) s (fun _ s' => eds s' = eds s /\ during R s0 E h L s').
Proof.
  intros Hc D. unfold on_hw. apply wp_zoom. destruct (du_heap _ _ _ _ _ _ D) as [(l & Hl & _) _ _].
  pose proof (fun l' Hl' => Hc (hw s) l' Hl') as Hq. pose proof (Hc (hw s) l Hl) as H0. unfold wp in *.
  destruct (c (hw s)) as [a hh|]; [|done]. split; [done|]. eapply during_hc; [done|]. apply hc_only_hw. intros l' Hl'. by apply Hq.
Qed.

Lemma during_service {A} (f : H -> A * H) R s0 E h L s : (forall l h, live l h -> live l (snd (f h))) -> during R s0 E h L s ->
  wp (service f) s (fun a s' => a = fst (f (hw s)) /\ eds s' = eds s /\ during R s0 E h L s').
Proof.
  intros Hf D. unfold wp, service. pose proof (fun l => Hf l (hw s)) as Hl. destruct (f (hw s)) as [a hh]. split; [done|]. split; [done|].
  eapply during_hc; [done|]. by apply hc_only_hw.
Qed.

Lemma during_on_services f R s0 E h L s : (forall l h, live l h -> live l (f h)) -> during R s0 E h L s ->
  wp (on_services f) s (fun _ s' => during R s0 E h L s').
Proof. intros Hf D. unfold on_services. apply wp_modify. eapply during_hc; [done|]. apply hc_only_hw. intros A. apply Hf. Qed.

Lemma during_pause us R s0 E h L s : during R s0 E h L s -> wp (pause us) s (fun _ s' => during R s0 E h L s').
Proof.
  intros D. unfold pause. apply wp_bind. eapply wp_mono; [apply during_quiet; [apply quiet_stall | done]|].
  intros ? s' [_ D']. apply wp_modify. eapply during_hc; [done|]. apply progress_only.
Qed.

Lemma during_unmap m R s0 E h L s : during R s0 E h L s -> wp (unmap m) s (fun _ s' => during R s0 E h L s').
Proof.
  intros D. unfold unmap, when. case_if Hm; [|by wp_go]. apply during_on_services; [|done]. intros l hh. apply unmap_live.
Qed.

(** The transfer's own EDs. *)
Lemma during_upd_ed p f R s0 E h L s : during R s0 E h L s -> p ∈ E -> wp (upd_ed p f) s (fun _ s' => during R s0 E h L s').
Proof.
  intros [D1 D2 D3 D4 D5 D6 D7] Hp. destruct (D3 p Hp) as [_ [d Hd]]. eapply wp_upd_ed; [done|]. split; simpl; try done.
  - by eapply heap_set_ed.
  - intros q Hq. rewrite lookup_insert_ne; [by apply D2|]. by intros ->.
  - intros q Hq. destruct (D3 q Hq) as [? Hs]. split; [done|]. destruct (decide (p = q)) as [<-|Hne]; [by rewrite lookup_insert_eq | by rewrite lookup_insert_ne].
Qed.

Lemma wp_upd_during p d f R s0 E h L s (Q : unit -> ohc H -> Prop) : during R s0 E h L s -> p ∈ E -> eds s !! p = Some d ->
  (during R s0 E h L (set_eds (<[p := f d]> (eds s)) s) -> Q tt (set_eds (<[p := f d]> (eds s)) s)) -> wp (upd_ed p f) s Q.
Proof.
  intros D Hp Hd HQ. eapply wp_upd_ed; [exact Hd|]. apply HQ.
  pose proof (during_upd_ed p f R s0 E h L s D Hp) as Hu.
  eapply wp_Ret in Hu; [exact Hu|]. unfold upd_ed, mbind, M_bind, ed_at. by rewrite Hd.
Qed.

Lemma during_create_ed R s0 h L s : during R s0 [] h L s ->
  wp OhciCreateED s (fun r s' => (exists hh, hw s' = hh) /\
    ((r = 0 /\ exhausted R s' /\ during R s0 [] h L s') \/ (linkable r /\ eds s' !! r = Some new_ed /\ during R s0 [r] h L s'))).
Proof.
  intros D. eapply wp_mono; [apply OhciCreateED_spec, D|]. intros r s' (hh & [(-> & Hpl & ->)|(Hr & Hr1 & Hr2 & ->)] & Hh); (split; [by eexists|]).
  - left. split; [done|]. split; [done|]. destruct D. by split.
  - right. split; [done|]. split; [apply lookup_insert_eq|]. destruct D as [D1 D2 D3 D4 D5 D6 D7]. split; simpl; try done.
    + intros p Hp. rewrite lookup_insert_ne; [apply D2, not_elem_of_nil|]. intros ->. apply Hp. left.
    + intros p ->%list_elem_of_singleton. rewrite lookup_insert_eq. split; [|by eexists].
      specialize (D2 r (not_elem_of_nil r)). rewrite Hr1 in D2. by destruct (eds s0 !! r).
Qed.

(** A queue that grew from here. *)
Lemma during_grown R s0 E h T L s s' : during R s0 E 0 [] s -> grown R s h T L s' -> during R s0 E h L s'.
Proof.
  intros [D1 D2 D3 D4 D5 D6 D7] [G1 (E1 & E2 & E3 & E4 & E5 & E6) G3 G4 [_ G5] G6]. split; try done.
  - intros p Hp. rewrite E1. by apply D2.
  - intros p Hp. rewrite E1. by apply D3.
  - intros p Hp. rewrite G3 by done. apply D4, not_elem_of_nil.
  - intros p Hp. specialize (D4 p (not_elem_of_nil p)). rewrite (G4 p Hp) in D4. by destruct (tds s0 !! p).
  - destruct D7 as (? & ? & ? & ? & ?). unfold same_driver. rewrite E2, E3, E4, E5, E6. done.
Qed.

(** Freeing the queue, then the ED. *)
Lemma during_free_chain R s0 E h L s : during R s0 E h L s -> wp (free_chain h) s (fun _ s' => during R s0 E 0 [] s').
Proof.
  intros [D1 D2 D3 D4 D5 D6 D7]. eapply wp_mono; [by apply free_chain_spec|]. intros ? s' [K1 (E1 & E2 & E3 & E4 & E5 & E6) K3 K4]. split; try done.
  - intros p Hp. rewrite E1. by apply D2.
  - intros p Hp. rewrite E1. by apply D3.
  - intros p _. destruct (decide (p ∈ L)) as [Hp|Hp]; [by rewrite K3, D5 | by rewrite K4, D4].
  - by intros p ?%not_elem_of_nil.
  - constructor.
  - destruct D7 as (? & ? & ? & ? & ?). unfold same_driver. rewrite E2, E3, E4, E5, E6. done.
Qed.

Lemma during_free_ed R s0 p s : during R s0 [p] 0 [] s -> wp (OhciFreeED p) s (fun _ s' => during R s0 [] 0 [] s').
Proof.
  intros [D1 D2 D3 D4 D5 D6 D7]. destruct (D3 p) as [H0 [d Hd]]; [left|]. eapply wp_mono; [by eapply OhciFreeED_spec|].
  intros ? s' (hh & -> & Hh). split; simpl; try done; [| by intros q ?%not_elem_of_nil].
  intros q _. destruct (decide (p = q)) as [<-|Hq]; [by rewrite lookup_delete_eq, H0|]. rewrite lookup_delete_ne by done.
  apply D2. by intros ->%list_elem_of_singleton.
Qed.

(** ** Waiting *)

Lemma check_ed_spec s Ed d : eds s !! Ed = Some d -> forall L h fuel Toggle, chain NextTDPointer (tds s) h L -> (length L < fuel)%nat ->
  wp (check_ed fuel Ed h Toggle) s (fun _ s' => s' = s).
Proof.
  intros Hd L. induction L as [|x L IH]; intros h [|fuel] Toggle Hc Hf; try (simpl in Hf; lia); cbn [check_ed].
  - inversion Hc. wp_go. eapply wp_ed_at; [done|]. done.
  - inversion Hc as [|? t ? Hp Ht Hl]; subst. rewrite (proj2 (Z.eqb_neq _ _)) by done. wp_go. eapply wp_td_at; [done|].
    case_if E1; [done|]. case_if E2; [done|]. apply IH; [done | simpl in Hf; lia].
Qed.

(** The status that goes with a condition code. *)
Definition status_of (Code : Z) : Z :=
  if Code =? TD_NO_ERROR then EFI_SUCCESS else if Code =? TD_TOBE_PROCESSED then EFI_NOT_READY else EFI_DEVICE_ERROR.

Lemma CheckIfDone_spec ListType Ed R s0 E h L s r : during R s0 E h L s -> Ed ∈ E ->
  wp (CheckIfDone ListType Ed h r) s (fun '(st, r') s' => st = status_of (ErrorCode r') /\ during R s0 E h L s').
Proof.
  intros D HE. unfold CheckIfDone. apply wp_bind.
  assert (Hb : wp (list_busy ListType) s (fun _ s' => during R s0 E h L s')).
  { unfold list_busy. destruct ListType; try (by apply wp_ret); apply wp_bind.
    - eapply wp_mono; [eapply during_quiet; [eapply (quiet_field _ _ CONTROL_LIST_FILLED); reflexivity | done]|]. intros ? s' [_ D']. by wp_go.
    - eapply wp_mono; [eapply during_quiet; [eapply (quiet_field _ _ BULK_LIST_FILLED); reflexivity | done]|]. intros ? s' [_ D']. by wp_go. }
  eapply wp_mono; [exact Hb|]. intros busy s' D'; cbn beta in D'. destruct busy; [by wp_go|].
  apply wp_bind. unfold CheckEDStatus, td_fuel. wp_go. destruct (du_new _ _ _ _ _ _ D' Ed HE) as [_ [d Hd]].
  eapply wp_mono; [eapply check_ed_spec; [done | apply D' | pose proof (chain_length _ _ _ _ (du_queue _ _ _ _ _ _ D')); lia]|].
  intros [code toggle] s2 ->. by wp_go.
Qed.

Lemma await_spec ListType Ed R s0 E h L : Ed ∈ E -> forall fuel st r s, during R s0 E h L s -> st = status_of (ErrorCode r) ->
  wp (await fuel ListType Ed h st r) s (fun '(st', r') s' => st' = status_of (ErrorCode r') /\ during R s0 E h L s').
Proof.
  intros HE fuel. induction fuel as [|fuel IH]; intros st r s D Hst; cbn [await]; [by wp_go|].
  case_if Hs; [|by wp_go]. apply wp_bind. eapply wp_mono; [by apply during_pause|]. intros ? s2 D2; cbn beta in D2.
  apply wp_bind. eapply wp_mono; [by eapply CheckIfDone_spec|]. intros [st' r'] s3 [Hst' D3]. by apply IH.
Qed.

(** Status, result and length that belong together. *)
Definition consistent (Length : Z) (r : outcome_of) : Prop :=
  match xf_Result r with
  | None => EFI_ERROR (xf_Status r) = true /\ xf_DataLength r = Length
  | Some res =>
      (exists code, res = ConvertErrorCode code /\ xf_Status r = status_of code /\ xf_DataLength r = if code =? TD_NO_ERROR then Length else 0) \/
      (res = EFI_USB_ERR_SYSTEM /\ xf_Status r = EFI_DEVICE_ERROR /\ xf_DataLength r = Length)
  end.

Lemma quiet_control f v : quiet (OhciSetHcControl f v).
Proof. apply quiet_update. Qed.

Lemma quiet_command f v : quiet (OhciSetHcCommandStatus f v).
Proof. apply quiet_write. Qed.

(** ** Control transfers *)

Lemma run_control_spec Ed h TimeOut Length R s0 E L s : during R s0 E h L s -> Ed ∈ E ->
  wp (run_control Ed h TimeOut Length) s (fun r s' => consistent Length r /\ during R s0 E h L s').
Proof.
  intros D HE. unfold run_control. apply wp_bind. eapply wp_mono; [by eapply during_upd_ed|]. intros ? s1 D1; cbn beta in D1.
  apply wp_bind. eapply wp_mono; [apply during_quiet; [apply quiet_control | exact D1]|]. intros st s2 [_ D2].
  case_if E1; [wp_go; split; [by right | done]|].
  apply wp_bind. eapply wp_mono; [apply during_quiet; [apply quiet_command | exact D2]|]. intros st' s3 [_ D3].
  case_if E2; [wp_go; split; [by right | done]|].
  apply wp_bind. eapply wp_mono; [by eapply during_pause|]. intros ? s4 D4; cbn beta in D4.
  apply wp_bind. eapply wp_mono; [by eapply CheckIfDone_spec|]. intros [st1 r1] s5 [Hst D5].
  apply wp_bind. eapply wp_mono; [by eapply (await_spec CONTROL_LIST)|]. intros [st2 r2] s6 [Hst2 D6].
  wp_go. split; [|done]. left. by exists (ErrorCode r2).
Qed.

Lemma quiet_pointer r v : r = HC_CONTROL_HEAD \/ r = HC_BULK_HEAD -> 0 <= v < 2 ^ 32 -> v mod 16 = 0 -> quiet (OhciSetMemoryPointer r v).
Proof. intros Hr Hv Hm h l Hl. eapply wp_mono; [by apply (set_pointer_spec r v h l)|]. by intros ? h' [? _]. Qed.

Lemma unlink_spec r Ed R s0 E h L s : r = HC_CONTROL_HEAD \/ r = HC_BULK_HEAD -> during R s0 E h L s -> Ed ∈ E ->
  wp (unlink_ed r Ed Ed) s (fun _ s' => during R s0 E h L s').
Proof.
  intros Hr D HE. unfold unlink_ed. apply wp_bind. eapply wp_mono; [by eapply during_upd_ed|]. intros ? s1 D1; cbn beta in D1.
  wp_go. eapply wp_mono; [apply during_quiet; [by apply (quiet_pointer r 0 Hr) | exact D1]|]. intros st s2 [_ D2]. by wp_go.
Qed.

Lemma ctrl_free_ed_spec Ed r R s0 s : during R s0 [Ed] 0 [] s -> wp (ctrl_free_ed Ed r) s (fun r' s' => r' = r /\ during R s0 [] 0 [] s').
Proof.
  intros D. unfold ctrl_free_ed. apply wp_bind. eapply wp_mono; [by eapply during_free_ed|]. intros ? s1 D1; cbn beta in D1. by wp_go.
Qed.

Lemma ctrl_unmap_setup_spec m Ed r R s0 s : during R s0 [Ed] 0 [] s ->
  wp (ctrl_unmap_setup m Ed r) s (fun r' s' => r' = r /\ during R s0 [] 0 [] s').
Proof.
  intros D. unfold ctrl_unmap_setup. apply wp_bind. eapply wp_mono; [by eapply during_unmap|]. intros ? s1 D1; cbn beta in D1.
  by apply ctrl_free_ed_spec.
Qed.

Lemma ctrl_free_td_spec h m Ed r R s0 L s : during R s0 [Ed] h L s ->
  wp (ctrl_free_td h m Ed r) s (fun r' s' => r' = r /\ during R s0 [] 0 [] s').
Proof.
  intros D. unfold ctrl_free_td. apply wp_bind. eapply wp_mono; [by eapply during_free_chain|]. intros ? s1 D1; cbn beta in D1.
  by apply ctrl_unmap_setup_spec.
Qed.

Lemma ctrl_unmap_data_spec m1 h m Ed r R s0 L s : during R s0 [Ed] h L s ->
  wp (ctrl_unmap_data Ed m1 h m Ed r) s (fun r' s' => r' = r /\ during R s0 [] 0 [] s').
Proof.
  intros D. unfold ctrl_unmap_data. apply wp_bind. eapply wp_mono; [apply unlink_spec; [by left | done | left]|]. intros ? s1 D1; cbn beta in D1.
  apply wp_bind. eapply wp_mono; [by eapply during_unmap|]. intros ? s2 D2; cbn beta in D2. by eapply ctrl_free_td_spec.
Qed.

(** Handing the queue to the controller. *)
Lemma attach_tds_spec Ed d h R s0 E L s : during R s0 E h L s -> Ed ∈ E -> eds s !! Ed = Some d -> TdHeadPointer d = 0 ->
  wp (OhciAttachTDListToED Ed h) s (fun _ s' => during R s0 E h L s').
Proof.
  intros D HE Hd H0. unfold OhciAttachTDListToED. wp_go. eapply wp_ed_at; [done|]. rewrite H0. change (TD_PTR 0) with 0. cbn [Z.eqb negb].
  apply wp_bind. eapply wp_mono; [by eapply during_upd_ed|]. intros ? s1 D1; cbn beta in D1. by wp_go.
Qed.

Lemma grown_hw R s1 h T L s s' : grown R s1 h T L s -> heap R s' -> eds s' = eds s -> tds s' = tds s -> same_driver s s' -> grown R s1 h T L s'.
Proof.
  intros [G1 (E1 & E2 & E3 & E4 & E5 & E6) G3 G4 G5 G6] Hh Ee Et (F1 & F2 & F3 & F4 & F5). split; rewrite ?Et; try done.
  unfold same_rest. rewrite Ee, F1, F2, F3, F4, F5. done.
Qed.

Lemma service_spec {A} (f : H -> A * H) R s : (forall l h, live l h -> live l (snd (f h))) -> heap R s ->
  wp (service f) s (fun a s' => a = fst (f (hw s)) /\ heap R s' /\ eds s' = eds s /\ tds s' = tds s /\ same_driver s s').
Proof.
  intros Hf Hh. unfold wp, service. pose proof (fun l => Hf l (hw s)) as Hl. destruct (f (hw s)) as [a hh]. split; [done|]. split; [|done].
  destruct Hh as [(l & Hl' & Ho) Hed Htd]. split; [|done|done]. exists l. split; [by apply Hl | done].
Qed.

(** The buffer's mapping; no buffer, no mapping. *)
Lemma map_data_spec o Data Length R s : heap R s -> 0 <= Length ->
  wp (if negb (Data =? 0) && negb (Length =? 0) then service (DmaMap o Data Length)
      else mret {| dm_Status := EFI_SUCCESS; dm_Bytes := Length; dm_Addr := 0; dm_Mapping := 0 |}) s
    (fun m s' => (EFI_ERROR (dm_Status m) = false -> 0 <= dm_Bytes m) /\ heap R s' /\ eds s' = eds s /\ tds s' = tds s /\ same_driver s s').
Proof.
  intros Hh HL0. destruct (Z.eqb_spec Length 0) as [->|HL1]; [rewrite andb_false_r; wp_go; done|]. rewrite andb_true_r.
  destruct (Data =? 0); [by wp_go|]. eapply wp_mono; [apply (service_spec (DmaMap o Data Length) R s); [|done]|].
  - intros l h. apply map_live.
  - intros m s' (-> & K). split; [|done]. intros He. pose proof (map_bytes o Data Length (hw s) ltac:(lia) He). lia.
Qed.

Lemma control_stages_spec R s0 s1 Ed d h t rm Max dir Data Length TimeOut s : during R s0 [Ed] 0 [] s1 -> eds s1 !! Ed = Some d ->
  TdHeadPointer d = 0 -> grown R s1 h [t] [h] s -> 0 <= Length -> 0 < Max ->
  wp (control_stages Ed Ed h rm Max dir Data Length TimeOut) s (fun r s' => consistent Length r /\ during R s0 [] 0 [] s').
Proof.
  intros D Hd H0 G HLen HM. unfold control_stages. apply wp_bind.
  eapply wp_mono; [apply (map_data_spec _ Data Length R s); [by apply G | done]|]. intros m s2 (Hm & Hh2 & Ee & Et & Hs2).
  pose proof (grown_hw _ _ _ _ _ _ _ G Hh2 Ee Et Hs2) as G2. case_if Em.
  { eapply wp_mono; [eapply ctrl_free_td_spec, during_grown; [exact D | exact G2]|]. by intros r s3 [-> D3]. }
  apply wp_bind. eapply wp_mono; [eapply (control_tds_spec R s1 h t); [done | by apply Hm | exact G2]|].
  intros r s3 (T & L & G3 & Hr). pose proof (during_grown _ _ _ _ _ _ _ _ D G3) as D3. destruct r as [e|].
  - apply wp_bind. destruct (gr_rest _ _ _ _ _ _ G3) as (Ee3 & _). rewrite <- Ee3 in Hd.
    eapply wp_upd_during; [exact D3 | left | exact Hd|]. intros Hu.
    apply wp_bind. eapply wp_mono; [eapply attach_tds_spec; [exact Hu | left | simpl; apply lookup_insert_eq | done]|].
    intros ? s4 D4; cbn beta in D4. apply wp_bind. eapply wp_mono; [by eapply run_control_spec; [|left]|]. intros r s5 [Hc D5].
    eapply wp_mono; [by eapply ctrl_unmap_data_spec|]. by intros r' s6 [-> D6].
  - eapply wp_mono; [by eapply ctrl_unmap_data_spec|]. by intros r s4 [-> D4].
Qed.

(** ** The list of a transfer *)

Definition list_head (r : Z) s : Z := fst (MmioRead32 (u32 (UsbHcBaseAddress + r)) (hw s)).
Definition is_head (r : Z) : Prop := r = HC_CONTROL_HEAD \/ r = HC_BULK_HEAD.

Lemma wp_and {T A} (c : M T A) (x : T) Q Q' : wp c x Q -> wp c x Q' -> wp c x (fun a y => Q a y /\ Q' a y).
Proof. unfold wp. destruct (c x); done. Qed.

Lemma set_head_spec r v R s0 E h L s : is_head r -> 0 <= v < 2 ^ 32 -> v mod 16 = 0 -> during R s0 E h L s ->
  wp (on_hw (OhciSetMemoryPointer r v)) s (fun _ s' => eds s' = eds s /\ during R s0 E h L s' /\ list_head r s' = v).
Proof.
  intros Hr Hv Hm D. destruct (du_heap _ _ _ _ _ _ D) as [(l & Hl & _) _ _].
  assert (H2 : wp (on_hw (OhciSetMemoryPointer r v)) s (fun _ s' => list_head r s' = v)).
  { apply wp_zoom. eapply wp_mono; [by apply (set_pointer_spec r v (hw s) l)|]. intros ? h' [_ E']. done. }
  eapply wp_mono; [apply wp_and; [apply during_quiet; [by apply (quiet_pointer r v) | exact D] | exact H2]|].
  cbn beta. intros ? s' [[He D'] E']. done.
Qed.

(** A new ED that heads the list alone. *)
Lemma transfer_ed_spec r f R s0 s : is_head r -> during R s0 [] 0 [] s -> list_head r s = 0 ->
  wp OhciCreateED s (fun Ed s' => (Ed = 0 /\ exhausted R s' /\ during R s0 [] 0 [] s') \/
    (Ed <> 0 /\ wp (upd_ed Ed f;; attach_to_head r Ed) s' (fun HeadEd s2 =>
       HeadEd = Ed /\ eds s2 !! Ed = Some (f new_ed) /\ during R s0 [Ed] 0 [] s2))).
Proof.
  intros Hr D H0. destruct (du_heap _ _ _ _ _ _ D) as [(l & Hl & _) _ _].
  assert (Hq : wp OhciCreateED s (fun _ s' => list_head r s' = list_head r s)).
  { unfold OhciCreateED. apply wp_bind, wp_zoom. eapply wp_mono; [by apply (head_alloc r _ l)|]. intros a h' E'. by case_if Ea; wp_go. }
  eapply wp_mono; [apply wp_and; [by apply during_create_ed | exact Hq]|]. cbn beta.
  intros Ed s2 [[_ [(-> & Hpl & D2)|(Hlk & He & D2)]] E2]; [by left|]. right. split; [destruct Hlk; lia|].
  apply wp_bind. eapply wp_upd_during; [exact D2 | left | exact He|]. intros Hu.
  set (s3 := set_eds _ s2) in *. assert (E3 : list_head r s3 = 0) by (transitivity (list_head r s2); [done | by rewrite E2]).
  unfold attach_to_head. apply wp_bind. unfold OhciGetMemoryPointer.
  assert (Hv : wp (on_hw (OhciGetOperationalReg r)) s3 (fun a _ => a = 0)).
  { apply wp_zoom. unfold OhciGetOperationalReg, wp. unfold list_head in E3. by destruct (MmioRead32 _ (hw s3)). }
  eapply wp_mono; [apply wp_and; [apply during_quiet; [apply quiet_read | exact Hu] | exact Hv]|]. cbn beta.
  intros a s4 [[Ee4 D4] ->]. wp_go. destruct Hlk as [[? ?] ?].
  eapply wp_mono; [apply during_quiet; [apply (quiet_pointer r Ed Hr); lia | exact D4]|]. intros ? s5 [Ee5 D5]. wp_go.
  split; [done|]. split; [|done]. rewrite Ee5, Ee4. apply lookup_insert_eq.
Qed.

(** Stopping a list and emptying it. *)
Lemma stop_list_spec r R s0 s : is_head r -> during R s0 [] 0 [] s ->
  wp (pause (20 * 1000);; on_hw (OhciSetMemoryPointer r 0)) s (fun _ s' => during R s0 [] 0 [] s' /\ list_head r s' = 0).
Proof.
  intros Hr D. apply wp_bind. eapply wp_mono; [by apply during_pause|]. intros ? s1 D1; cbn beta in D1.
  eapply wp_mono; [by apply (set_head_spec r 0)|]. by intros ? s2 (_ & D2 & E2).
Qed.

(** The control transfer: whatever happens, its descriptors are gone, those of
    others are there, and status, result and length belong together. *)
Lemma OhciControlTransfer_spec R s Address Slow Max Request dir Data DataLength TimeOut HasResult : heap R s ->
  (forall n, DataLength = Some n -> 0 <= n) ->
  wp (OhciControlTransfer Address Slow Max Request dir Data DataLength TimeOut HasResult) s (fun r s' =>
    consistent (default 0 DataLength) r /\ during R s [] 0 [] s').
Proof.
  intros Hh HLen. pose proof (during_start R s Hh) as D. unfold OhciControlTransfer. set (Length := default 0 DataLength).
  assert (HLen0 : 0 <= Length) by (unfold Length; destruct DataLength as [n|]; simpl; [by apply HLen | lia]).
  destruct (control_args_ok Slow Max Request dir Data DataLength HasResult) eqn:Hargs; cbn [negb]; [|by wp_go].
  assert (HMax : 0 < Max).
  { unfold control_args_ok, packet_length_ok in Hargs. destruct DataLength as [n|]; [|done].
    rewrite !andb_true_iff, !orb_true_iff, !Z.eqb_eq in Hargs. lia. }
  apply wp_bind. eapply wp_mono; [apply during_quiet; [apply quiet_control | exact D]|]. intros st1 s1 [_ D1].
  case_if E1; [wp_go; split; [by right | done]|].
  apply wp_bind. eapply wp_mono; [apply during_quiet; [apply quiet_command | exact D1]|]. intros st2 s2 [_ D2].
  case_if E2; [wp_go; split; [by right | done]|].
  pose proof (stop_list_spec HC_CONTROL_HEAD R s s2 ltac:(by left) D2) as HS2. apply wp_bind_inv in HS2.
  apply wp_bind. eapply wp_mono; [exact HS2|]. intros ? s3 H3; cbn beta in H3. apply wp_bind. eapply wp_mono; [exact H3|]. intros ? s4 [D4 E4].
  apply wp_bind. eapply wp_mono; [by apply (transfer_ed_spec HC_CONTROL_HEAD (transfer_ed Address 0 (Z.b2z Slow) Max)); [left|..]|].
  intros Ed s5 [(-> & _ & D5)|[HEd H5]]; [wp_go; split; [done | done]|]. wp_go. apply wp_bind_inv in H5.
  eapply wp_mono; [exact H5|]. intros ? s6 H6; cbn beta in H6. wp_go. unfold OhciAttachEDToList.
  eapply wp_mono; [exact H6|]. intros HeadEd s7 (-> & He7 & D7).
  apply wp_bind. eapply wp_mono; [apply during_service; [intros l h; apply map_live | exact D7]|]. intros m s8 (_ & Ee8 & D8).
  case_if Em. { eapply wp_mono; [by apply ctrl_free_ed_spec|]. by intros r s9 [-> D9]. }
  apply wp_bind. eapply wp_mono; [apply (create_fill R s8 0 [] [] s8 (setup_td (dm_Addr m))), grown_start, D8|].
  intros Td s9 [(-> & Hpl & G9)|[HTd H9]].
  { wp_go. eapply wp_mono; [eapply ctrl_unmap_setup_spec, during_grown; [exact D8 | exact G9]|]. by intros r s10 [-> D10]. }
  wp_go. eapply wp_mono; [exact H9|]. intros ? s10 Hlo; cbn beta in Hlo.
  pose proof (grown_first R s8 s8 Td _ s10 (grown_start R s8 (du_heap _ _ _ _ _ _ D8)) Hlo (setup_content _)) as G10.
  eapply control_stages_spec; [exact D8 | by rewrite Ee8 | reflexivity | exact G10 | done | done].
Qed.

(** ** Bulk transfers *)

Lemma run_bulk_spec Ed h TimeOut Length Toggle0 Toggle R s0 E L s : during R s0 E h L s -> Ed ∈ E ->
  wp (run_bulk Ed h TimeOut Length Toggle0 Toggle) s (fun r s' => consistent Length r /\ during R s0 E h L s').
Proof.
  intros D HE. unfold run_bulk. apply wp_bind. eapply wp_mono; [by apply during_upd_ed|]. intros ? s1 D1; cbn beta in D1.
  apply wp_bind. eapply wp_mono; [apply during_quiet; [apply quiet_command | exact D1]|]. intros st s2 [_ D2].
  case_if E1; [wp_go; split; [by right | done]|].
  apply wp_bind. eapply wp_mono; [apply during_quiet; [apply quiet_control | exact D2]|]. intros st' s3 [_ D3].
  case_if E2; [wp_go; split; [by right | done]|].
  apply wp_bind. eapply wp_mono; [by apply during_pause|]. intros ? s4 D4; cbn beta in D4.
  apply wp_bind. eapply wp_mono; [by eapply CheckIfDone_spec|]. intros [st1 r1] s5 [Hst D5].
  apply wp_bind. eapply wp_mono; [by eapply (await_spec BULK_LIST)|]. intros [st2 r2] s6 [Hst2 D6].
  wp_go. split; [|done]. left. by exists (ErrorCode r2).
Qed.

Lemma bulk_free_td_spec m h Ed r R s0 L s : during R s0 [Ed] h L s ->
  wp (bulk_free_td Ed m h Ed r) s (fun r' s' => r' = r /\ during R s0 [] 0 [] s').
Proof.
  intros D. unfold bulk_free_td. apply wp_bind. eapply wp_mono; [apply unlink_spec; [by right | done | left]|]. intros ? s1 D1; cbn beta in D1.
  apply wp_bind. eapply wp_mono; [by eapply during_free_chain|]. intros ? s2 D2; cbn beta in D2.
  apply wp_bind. eapply wp_mono; [by eapply during_unmap|]. intros ? s3 D3; cbn beta in D3. by apply ctrl_free_ed_spec.
Qed.

Lemma bulk_stages_spec R s0 Ed d m Pid Max Length Toggle TimeOut s : during R s0 [Ed] 0 [] s -> eds s !! Ed = Some d ->
  TdHeadPointer d = 0 -> 0 < dm_Bytes m -> 0 < Max ->
  wp (bulk_stages Ed Ed m Pid Max Length Toggle TimeOut) s (fun r s' => consistent Length r /\ during R s0 [] 0 [] s').
Proof.
  intros D Hd H0 HB HM. unfold bulk_stages. apply wp_bind.
  eapply wp_mono; [apply (data_tds_spec R s); [done | done | apply D]|].
  intros [[r h] tg] s3 (T & L & G3 & Hr). pose proof (during_grown _ _ _ _ _ _ _ _ D G3) as D3. destruct r as [e|].
  - apply wp_bind. destruct (gr_rest _ _ _ _ _ _ G3) as (Ee3 & _). rewrite <- Ee3 in Hd.
    eapply wp_upd_during; [exact D3 | left | exact Hd|]. intros Hu.
    apply wp_bind. eapply wp_mono; [eapply attach_tds_spec; [exact Hu | left | simpl; apply lookup_insert_eq | done]|].
    intros ? s4 D4; cbn beta in D4. apply wp_bind. eapply wp_mono; [by eapply run_bulk_spec; [|left]|]. intros r s5 [Hc D5].
    eapply wp_mono; [by eapply bulk_free_td_spec|]. by intros r' s6 [-> D6].
  - eapply wp_mono; [by eapply bulk_free_td_spec|]. by intros r s4 [-> D4].
Qed.

Lemma OhciBulkTransfer_spec R s Address EndPoint Max Data DataLength DataToggle TimeOut HasResult : heap R s ->
  (forall n, DataLength = Some n -> 0 <= n) ->
  wp (OhciBulkTransfer Address EndPoint Max Data DataLength DataToggle TimeOut HasResult) s (fun r s' =>
    consistent (default 0 DataLength) r /\ during R s [] 0 [] s').
Proof.
  intros Hh HLen. pose proof (during_start R s Hh) as D. unfold OhciBulkTransfer. set (Length := default 0 DataLength).
  destruct (bulk_args_ok Max Data DataLength DataToggle HasResult) eqn:Hargs; cbn [negb]; [|by wp_go].
  assert (HMax : 0 < Max /\ 0 < Length).
  { unfold bulk_args_ok, packet_length_ok in Hargs. destruct DataLength as [n|]; [|done]. destruct DataToggle; [|done].
    rewrite !andb_true_iff, !orb_true_iff, !Z.eqb_eq, !negb_true_iff, !Z.eqb_neq in Hargs. specialize (HLen n eq_refl). simpl in Length. lia. }
  apply wp_bind. eapply wp_mono; [apply during_quiet; [apply quiet_control | exact D]|]. intros st1 s1 [_ D1].
  case_if E1; [wp_go; split; [by right | done]|].
  apply wp_bind. eapply wp_mono; [apply during_quiet; [apply quiet_command | exact D1]|]. intros st2 s2 [_ D2].
  case_if E2; [wp_go; split; [by right | done]|].
  pose proof (stop_list_spec HC_BULK_HEAD R s s2 ltac:(by right) D2) as HS2. apply wp_bind_inv in HS2.
  apply wp_bind. eapply wp_mono; [exact HS2|]. intros ? s3 H3; cbn beta in H3. apply wp_bind. eapply wp_mono; [exact H3|]. intros ? s4 [D4 E4].
  apply wp_bind. eapply wp_mono; [by apply (transfer_ed_spec HC_BULK_HEAD (transfer_ed Address (Z.land EndPoint 0xF) HI_SPEED Max)); [right|..]|].
  intros Ed s5 [(-> & _ & D5)|[HEd H5]]; [wp_go; split; [done | done]|]. wp_go. apply wp_bind_inv in H5.
  eapply wp_mono; [exact H5|]. intros ? s6 H6; cbn beta in H6. wp_go. unfold OhciAttachEDToList.
  eapply wp_mono; [exact H6|]. intros HeadEd s7 (-> & He7 & D7).
  apply wp_bind. eapply wp_mono; [apply during_service; [intros l h; apply map_live | exact D7]|]. intros m s8 (-> & Ee8 & D8).
  case_if Em. { eapply wp_mono; [by apply ctrl_free_ed_spec|]. by intros r s9 [-> D9]. }
  eapply bulk_stages_spec; [exact D8 | by rewrite Ee8 | reflexivity | | tauto].
  eapply map_bytes; [|exact Em]. tauto.
Qed.
End Spec.
