(* ===== verification/OhciIntrXfer.v ===== *)
(** * New interrupt transfers

    [OhciInterruptTransfer] from the choice of a list to the queue the
    controller polls: either the transfer is on the schedule, as often as its
    interval asks, or no descriptor has changed. *)

From Stdlib Require Import ZArith Lia.
From stdpp Require Import base list numbers option gmap.
From S2P Require Import Prelude OhciReg Ohci OhciSched OhciXfer OhciLists OhciTree OhciIntrSpec OhciXferSpec.

(** [AllocatePool] hands out memory nobody has. *)
Class OhciPoolLaws (H : Type) {HP : DescriptorPool H} {HC : PoolContract H} {HD : OhciDma H} : Prop := {
  alloc_pool : forall A n h, live A h -> 0 < n ->
    (fst (AllocatePool n h) = 0 /\ live A (snd (AllocatePool n h))) \/
    (0 < fst (AllocatePool n h) /\ A !! fst (AllocatePool n h) = None /\ live (<[fst (AllocatePool n h) := n]> A) (snd (AllocatePool n h)))
}.

Section Spec.
Context {B : Build} {H : Type} {HW : OhciHw H} {HP : DescriptorPool H} {HC : PoolContract H} {HS : OhciServices H} {HD : OhciDma H}.
Context {HL : OhciLaws} {HA : OhciPoolLaws H}.
Implicit Types (s : ohc H) (Ls : nat -> list Z).

(** ** The depth of a list *)

(** [poll_depth] finds the deepest lists that are visited at least once per
    interval. *)
Lemma poll_depth_spec n Index Interval : Index <= Interval -> 0 < Index ->
  let d := poll_depth n Index Interval in (d <= n)%nat /\ Index * 2 ^ Z.of_nat (n - d) <= Interval /\
    (d = 0%nat \/ Interval < Index * 2 ^ Z.of_nat (n - d + 1)).
Proof.
  revert Index. induction n as [|n IH]; intros Index H1 H0; cbn [poll_depth].
  - split; [done|]. split; [simpl Z.of_nat; lia | by left].
  - destruct (Z.leb_spec (Index * 2) Interval) as [Hle|Hgt].
    + destruct (IH (Index * 2) Hle ltac:(lia)) as (K1 & K2 & K3). cbv zeta. set (d := poll_depth n (Index * 2) Interval) in *.
      replace (S n - d)%nat with (S (n - d)) by lia. rewrite Nat2Z.inj_succ, Z.pow_succ_r by lia. split; [lia|]. split; [lia|].
      destruct K3 as [K3|K3]; [by left | right]. replace (S (n - d) + 1)%nat with (S (n - d + 1)) by lia.
      rewrite Nat2Z.inj_succ, Z.pow_succ_r by lia. lia.
    + cbv zeta. rewrite Nat.sub_diag. split; [lia|]. simpl (Z.of_nat 0). split; [lia|]. right. simpl (Z.of_nat (0 + 1)). lia.
Qed.

(** ** Contexts *)

(** The contexts [C], in order, in memory of theirs. *)
Record contexts (R : gmap Z Z) s (C : list Z) : Prop := {
  cx_owned : forall p e, entries s !! p = Some e -> R !! p = Some sizeof_ENTRY;
  cx_chain : chain NextEntry (entries s) (InterruptContextList s) C
}.

Lemma last_entry_spec s x l : forall p fuel, chain NextEntry (entries s) p (l ++ [x]) -> (length l < fuel)%nat ->
  wp (last_entry fuel p) s (fun r s' => r = x /\ s' = s).
Proof.
  induction l as [|y l IH]; intros p [|fuel] Hc Hf; try (simpl in Hf; lia); cbn [last_entry];
    inversion Hc as [|? t ? Hp Ht Hl]; subst; apply wp_bind; (eapply wp_entry_at; [done|]).
  - inversion Hl as [E|]. by rewrite Z.eqb_refl.
  - destruct (Z.eqb_spec (NextEntry t) 0) as [E|E].
    + rewrite E in Hl. apply chain_zero in Hl. by destruct l.
    + apply IH; [done | simpl in Hf; lia].
Qed.

(** A context that was put into the store goes to the end of the list. *)
Lemma OhciAddInterruptContextEntry_spec s C p e : chain NextEntry (entries s) (InterruptContextList s) C -> p ∉ C -> p <> 0 ->
  entries s !! p = Some e -> NextEntry e = 0 ->
  wp (OhciAddInterruptContextEntry p) s (fun _ s' =>
    exists m, s' = set_contexts (if InterruptContextList s =? 0 then p else InterruptContextList s) (set_entries m s) /\
      chain NextEntry m (InterruptContextList s') (C ++ [p]) /\ m !! p = Some e /\
      (forall q, is_Some (m !! q) <-> is_Some (entries s !! q)) /\
      forall q, with_NextEntry 0 <$> m !! q = with_NextEntry 0 <$> entries s !! q).
Proof.
  intros Hc Hp Hp0 He Hn. unfold OhciAddInterruptContextEntry, RaiseTPL, RestoreTPL. wp_go. simpl.
  assert (Hnew : chain NextEntry (entries s) p [p]) by (econstructor; [done | done | rewrite Hn; constructor]).
  destruct (Z.eqb_spec (InterruptContextList s) 0) as [E|E]; wp_go.
  - exists (entries s). destruct s; simpl in *. split; [done|]. rewrite E in Hc. apply chain_zero in Hc as ->. done.
  - destruct C as [|x l _] using rev_ind; [by inversion Hc|]. unfold entry_fuel. wp_go.
    pose proof (chain_length _ _ _ _ Hc) as Hlen. rewrite length_app in Hlen. simpl in Hlen.
    destruct (chain_in _ _ _ _ x Hc ltac:(apply elem_of_app; right; left)) as [_ [t Ht]].
    assert (Hxp : x <> p) by (intros ->; apply Hp, elem_of_app; right; left).
    eapply wp_mono; [apply (last_entry_spec (set_tpl TPL_NOTIFY s) x l (InterruptContextList s)); [exact Hc | simpl; lia]|].
    intros r s' [-> ->]. unfold upd_entry. wp_go. eapply wp_entry_at; [exact Ht|]. wp_go. simpl.
    exists (<[x := with_NextEntry p t]> (entries s)). destruct s; simpl in *. split; [done|]. split; [|split; [by rewrite lookup_insert_ne|split]].
    + rewrite <- app_assoc. eapply chain_app; try done. apply not_elem_of_app in Hp. by intros ->%list_elem_of_singleton.
    + intros q. destruct (decide (x = q)) as [<-|]; [rewrite lookup_insert_eq; split; intros _; by eexists | by rewrite lookup_insert_ne].
    + intros q. destruct (decide (x = q)) as [<-|]; [by rewrite lookup_insert_eq, Ht | by rewrite lookup_insert_ne].
Qed.

(** The memory of a new context. *)
Lemma heap_other R s p n hh A : heap R s -> (forall q, A !! q = owner R s q) -> A !! p = None -> live (<[p := n]> A) hh ->
  R !! p = None /\ heap (<[p := n]> R) (set_hw hh s).
Proof.
  intros [_ Hed Htd] Ho Hp Hl. rewrite Ho in Hp. unfold owner in Hp.
  assert (Hne : eds s !! p = None /\ tds s !! p = None /\ R !! p = None) by (destruct (eds s !! p), (tds s !! p); done).
  destruct Hne as (H1 & H2 & H3). split; [done|]. split; simpl.
  - eexists. split; [exact Hl|]. intros q. unfold owner; simpl. destruct (decide (p = q)) as [<-|Hq].
    + by rewrite !lookup_insert_eq, H1, H2.
    + by rewrite !lookup_insert_ne, Ho.
  - intros q d Hq. destruct (Hed q d Hq) as (? & ? & ?). rewrite lookup_insert_ne; [done | congruence].
  - intros q d Hq. destruct (Htd q d Hq) as (? & ? & ?). rewrite lookup_insert_ne; [done | congruence].
Qed.

(** The descriptors and tables of two states are the same. *)
Definition same_desc s s' : Prop :=
  eds s' = eds s /\ tds s' = tds s /\ HccaInterruptTable s' = HccaInterruptTable s /\ IntervalList s' = IntervalList s /\ tpl s' = tpl s.

(** Nothing but the hardware has changed. *)
Definition same_but_hw s s' : Prop := eds s' = eds s /\ tds s' = tds s /\ same_driver s s'.

(** What a callback adds. *)
Definition added (CallBack : Z) e (R : gmap Z Z) s C (R' : gmap Z Z) s' C' : Prop :=
  (CallBack = 0 /\ R' = R /\ C' = C /\ entries s' = entries s) \/
  (CallBack <> 0 /\ exists p, R !! p = None /\ R' = <[p := sizeof_ENTRY]> R /\ C' = C ++ [p] /\ entries s' !! p = Some e /\
    forall q, q <> p -> with_NextEntry 0 <$> entries s' !! q = with_NextEntry 0 <$> entries s !! q).

Lemma add_context_spec R s C CallBack e : heap R s -> contexts R s C -> NextEntry e = 0 ->
  wp (add_context CallBack e) s (fun ok s' =>
    if ok : bool then exists R' C', same_desc s s' /\ heap R' s' /\ contexts R' s' C' /\ added CallBack e R s C R' s' C'
    else CallBack <> 0 /\ same_but_hw s s' /\ heap R s').
Proof.
  intros Hh [Cx1 Cx2] Hn. unfold add_context. destruct (Z.eqb_spec CallBack 0) as [HC0|HC0].
  { wp_go. exists R, C. split; [done|]. split; [done|]. split; [by split | by left]. }
  destruct (hp_live _ _ Hh) as (A & HA1 & Ho). pose proof (alloc_pool A sizeof_ENTRY (hw s) HA1 ltac:(done)) as HP1.
  apply wp_bind. unfold service, wp at 1. destruct (AllocatePool sizeof_ENTRY (hw s)) as [p hh]. simpl in HP1.
  destruct HP1 as [[-> Hl]|(Hp0 & HpA & Hl)].
  { rewrite Z.eqb_refl. wp_go. split; [done|]. split; [done|]. destruct Hh as [_ ? ?]. split; [by exists A | done | done]. }
  assert (p <> 0) by lia. wp_go. destruct (heap_other R s p sizeof_ENTRY hh A Hh Ho HpA Hl) as [HRp Hh2].
  assert (Hep : entries s !! p = None).
  { destruct (entries s !! p) as [e'|] eqn:E; [|done]. apply Cx1 in E. congruence. }
  assert (HpC : p ∉ C).
  { intros Hin. destruct (chain_in _ _ _ _ _ Cx2 Hin) as [_ [a Ha]]. congruence. }
  set (s2 := set_entries (<[p := e]> (entries s)) (set_hw hh s)).
  eapply wp_mono; [apply (OhciAddInterruptContextEntry_spec s2 C p e); [by apply chain_insert_other | done | done | apply lookup_insert_eq | done]|].
  intros ? s3 (m & -> & K1 & K2 & K3 & K4). wp_go. exists (<[p := sizeof_ENTRY]> R), (C ++ [p]). split; [done|].
  split; [by apply (heap_same _ (set_hw hh s))|]. split.
  - split; [|exact K1]. simpl. intros q e' Hq. destruct (proj1 (K3 q) ltac:(by eexists)) as [e2 He2]. simpl in He2.
    destruct (decide (p = q)) as [<-|Hpq]; [apply lookup_insert_eq|]. rewrite lookup_insert_ne in He2 by done. rewrite lookup_insert_ne by done. by eapply Cx1.
  - right. split; [done|]. exists p. do 4 (split; [done|]). intros q Hq. simpl. rewrite K4. simpl. by rewrite lookup_insert_ne.
Qed.

(** ** Giving up *)

Lemma list_pred_spec s h Ed dh fuel : eds s !! h = Some dh -> NextED dh = u32 Ed -> (0 < fuel)%nat ->
  wp (list_pred fuel h Ed) s (fun r s' => r = h /\ s' = s).
Proof.
  intros Hd HN Hf. destruct fuel as [|fuel]; [lia|]. cbn [list_pred]. apply wp_bind. eapply wp_ed_at; [done|].
  by rewrite HN, Z.eqb_refl.
Qed.

(** A transfer that is given up: its queue and its ED go. *)
Lemma intr_free_td_spec R s h L Head dh Ed e Mapping r : heap R s -> chain NextTDPointer (tds s) h L -> eds s !! Head = Some dh ->
  eds s !! Ed = Some e -> Head <> Ed -> NextED dh = Ed ->
  wp (intr_free_td Head Ed h Mapping r) s (fun r' s' => r' = r /\ heap R s' /\
    eds s' = delete Ed (<[Head := ed_with_NextED (NextED e) dh]> (eds s)) /\
    (forall p, tds s' !! p = if decide (p ∈ L) then None else tds s !! p) /\ same_driver s s').
Proof.
  intros Hh Hc Hd He Hne HN. unfold intr_free_td. apply wp_bind. eapply wp_mono; [by apply free_chain_spec|].
  intros ? s1 [K1 (E1 & E2 & E3 & E4 & E5 & E6) K3 K4]. rewrite <- E1 in Hd, He.
  destruct (hp_ed _ _ K1 Head dh Hd) as [[[Hh0 _] _] _]. destruct (hp_ed _ _ K1 Ed e He) as [HlkE _]. pose proof HlkE as [[HE0 _] _].
  rewrite !(proj2 (Z.eqb_neq _ _)) by lia. cbn [negb andb]. unfold ed_fuel. wp_go.
  eapply wp_mono; [apply (list_pred_spec s1 Head Ed dh); [done | by rewrite linkable_u32 | lia]|]. intros p s2 [-> ->]. wp_go.
  eapply wp_ed_at; [done|]. wp_go. eapply wp_upd_ed; [done|]. wp_go.
  eapply wp_mono; [eapply (OhciFreeED_spec R _ Ed e); [by eapply heap_set_ed | simpl; by rewrite lookup_insert_ne]|].
  intros ? s2 (hh & -> & Hh2). wp_go. unfold intr_unmap, on_services. wp_go. split; [done|].
  assert (Hl : heap R (set_hw (DmaUnmap Mapping hh) (set_eds (delete Ed (<[Head := ed_with_NextED (NextED e) dh]> (eds s1))) (set_hw hh s1)))).
  { destruct Hh2 as [(A & HA1 & Ho) ? ?]. split; [|done|done]. exists A. split; [by apply unmap_live | done]. }
  split; [exact Hl|]. simpl. split; [by rewrite E1|]. split; [|unfold same_driver; simpl; by rewrite E2, E3, E4, E5, E6].
  intros p. case_decide; [by apply K3 | by apply K4].
Qed.

(** ** The ED *)

(** What an interrupt list shows of an ED. *)
Definition link_of (d : ED_DESCRIPTOR) : Z * Z := (NextED d, Direction d).

Lemma link_of_some (x y : option ED_DESCRIPTOR) d : link_of <$> x = link_of <$> y -> y = Some d ->
  exists d', x = Some d' /\ NextED d' = NextED d /\ Direction d' = Direction d.
Proof. intros E ->. destruct x as [d'|]; [|done]. injection E as E1 E2. by exists d'. Qed.

Lemma intr_lists_ext s s' Ls : intr_lists s Ls -> (forall p, link_of <$> eds s' !! p = link_of <$> eds s !! p) ->
  HccaInterruptTable s' = HccaInterruptTable s -> IntervalList s' = IntervalList s -> intr_lists s' Ls.
Proof.
  intros [I1 I2 I3 I4 I5 I6 I7] He Hh Hv.
  assert (Hiv : forall d j, iv s' d j = iv s d j) by (intros d j; unfold iv; by rewrite Hv).
  assert (Hhc : forall k, hcca s' k = hcca s k) by (intros k; unfold hcca; by rewrite Hh).
  assert (Hn : forall x, is_node s' x <-> is_node s x).
  { intros x. unfold is_node. split; intros (d & j & Hl & E); exists d, j; (split; [done|]); rewrite <- E; by rewrite Hiv. }
  assert (Hb : forall p d', eds s' !! p = Some d' -> exists d, eds s !! p = Some d /\ NextED d = NextED d' /\ Direction d = Direction d').
  { intros p d' Hd. eapply link_of_some; [symmetry; apply He | done]. }
  split.
  - unfold shape. by rewrite Hh, Hv.
  - intros k Hk. rewrite Hhc. destruct (I2 k Hk) as [H0 Hc]. split; [done|]. eapply chain_ext; [done|]. intros x Hx.
    destruct (chain_in _ _ _ _ _ Hc Hx) as [_ [a Ha]]. destruct (link_of_some _ _ a (He x) Ha) as (a' & Ha' & E & _). by exists a, a'.
  - intros k Hk. rewrite Hhc. by apply Hn, I3.
  - intros d j Hl. rewrite Hiv. by apply I4.
  - intros d j k Hl Hk. rewrite Hiv. by apply I5.
  - intros x i j y z b c Hx0 Hx Hi Hj Hy Hz Hyb Hzc Eb Ec. destruct (Hb y b Hyb) as (b' & Hb' & Eb' & _), (Hb z c Hzc) as (c' & Hc' & Ec' & _).
    apply (I6 x i j y z b' c'); try done; [by rewrite <- Hn | congruence | congruence].
  - intros x k d Hk Hx Hd. destruct (Hb x d Hd) as (d' & Hd' & _ & E). rewrite <- E. by eapply I7.
Qed.

(** An ED that is on no list. *)
Lemma intr_lists_new R s Ls p e hh : heap R s -> intr_lists s Ls -> eds s !! p = None ->
  intr_lists (set_eds (<[p := e]> (eds s)) (set_hw hh s)) Ls /\ (forall k, (k < 32)%nat -> p ∉ Ls k) /\ ~ is_node s p.
Proof.
  intros Hh I Hp.
  assert (HN : forall k, (k < 32)%nat -> p ∉ Ls k).
  { intros k Hk Hin. destruct (il_forest _ _ I k Hk) as [_ Hc]. destruct (chain_in _ _ _ _ _ Hc Hin) as [_ [a Ha]]. congruence. }
  assert (Hnn : ~ is_node s p).
  { intros (d & j & Hl & <-). destruct (is_list_visited d j Hl) as (k & Hk & Hv). eapply (HN k Hk), (il_visit _ _ I); done. }
  split; [|done]. destruct I as [I1 I2 I3 I4 I5 I6 I7]. split; simpl; try done.
  - intros k Hk. destruct (I2 k Hk) as [H0 Hc]. split; [done|]. apply chain_insert_other; [done | by apply HN].
  - intros x i j y z b c Hx0 Hx Hi Hj Hy Hz. rewrite !lookup_insert_ne; [by apply (I6 x i j y z b c) | |]; intros ->; [by apply (HN j) | by apply (HN i)].
  - intros x k d Hk Hx. rewrite lookup_insert_ne; [by eapply I7|]. intros ->. by apply (HN k).
Qed.

(** Behind [Head], whose ED was [dh], a new ED [e]. *)
Definition inserted s Head dh Ed e s' : Prop :=
  forall y, eds s' !! y = if decide (y = Ed) then Some (ed_with_NextED (NextED dh) e)
                          else if decide (y = Head) then Some (ed_with_NextED Ed dh) else eds s !! y.

Lemma set_ed_fields_next l : forall d, Forall (fun '(F, v) => has F ED_NEXT_EDPTR = true -> v = 0) l -> NextED d = 0 -> NextED (set_ed_fields l d) = 0.
Proof.
  induction l as [|[F v] l IH]; intros d Hl Hd; [done|]. apply Forall_cons in Hl as [Hv Hl]. apply (IH (OhciSetEDField F v d)); [done|].
  unfold OhciSetEDField. cbn [NextED ed_with_NextED]. destruct (has F ED_NEXT_EDPTR); [by rewrite Hv|].
  change (u32 (NextED d) = 0). by rewrite Hd.
Qed.

Lemma set_ed_addr F v d : FunctionAddress (OhciSetEDField F v d) = wrap 7 (if has F ED_FUNC_ADD then v else FunctionAddress d).
Proof. done. Qed.
Lemma set_ed_endpoint F v d : EndPointNum (OhciSetEDField F v d) = wrap 4 (if has F ED_ENDPT_NUM then v else EndPointNum d).
Proof. done. Qed.
Lemma set_ed_packet F v d : MaxPacketSize (OhciSetEDField F v d) = wrap 11 (if has F ED_MAX_PACKET then v else MaxPacketSize d).
Proof. done. Qed.
Lemma set_ed_skip F v d : Skip (OhciSetEDField F v d) = wrap 1 (if has F ED_SKIP then v else Skip d).
Proof. done. Qed.

Ltac settle_has := repeat match goal with
  |- context [if has ?a ?b then _ else _] => let v := eval vm_compute in (has a b) in change (has a b) with v; cbn iota end.

(** The ED the driver fills in. *)
Lemma interrupt_ed_fields A E Sp Max : let e := interrupt_ed A E Sp Max new_ed in
  FunctionAddress e = wrap 7 A /\ EndPointNum e = wrap 4 E /\ MaxPacketSize e = wrap 11 Max /\ Direction e = 0 /\ TdHeadPointer e = 0 /\ NextED e = 0.
Proof.
  unfold interrupt_ed, set_ed_fields. cbn [fold_left].
  split; [rewrite !set_ed_addr; settle_has; by rewrite !wrap_wrap by done|].
  split; [rewrite !set_ed_endpoint; settle_has; by rewrite !wrap_wrap by done|].
  split; [rewrite !set_ed_packet; settle_has; by rewrite !wrap_wrap by done|]. done.
Qed.

Lemma get_interrupt_ed_spec R s Ls d j A E Dir Slow Max : heap R s -> intr_lists s Ls -> is_list d j -> Dir <> 0 ->
  let Head := iv s d j in
  wp (get_interrupt_ed Head A E Dir Slow Max) s (fun Ed s' => heap R s' /\ tds s' = tds s /\ same_driver s s' /\
    ((Ed = 0 /\ eds s' = eds s /\ exhausted R s') \/
     (linkable Ed /\ Ed <> Head /\ eds s !! Ed = None /\ intr_lists s' (fun k => after Head Ed (Ls k)) /\ exists dh, eds s !! Head = Some dh /\
       u32 (NextED dh) = NextED dh /\ inserted s Head dh Ed (interrupt_ed A E (Z.b2z Slow) Max new_ed) s'))).
Proof.
  intros Hh I Hl HDir Head. pose proof (list_of_chain s Ls d j I Hl) as Hc. fold Head in Hc.
  pose proof (il_full _ _ I d j Hl) as HHead. destruct (chain_head _ _ _ _ Hc HHead) as (dh & l & Hdh & El & _).
  unfold get_interrupt_ed, OhciFindWorkingEd, ed_fuel. apply wp_bind. wp_go.
  destruct (visited_leaf d j Hl) as [Hk Hv].
  assert (Hin : forall x, x ∈ list_of s Ls d j -> x ∈ Ls (Leaf !!! (j * 2 ^ d)%nat)).
  { intros x Hx. apply (il_visit _ _ I d j _ Hl Hk) in Hv. destruct (from_spec _ _ Hv) as (q & Eq & _). unfold list_of in Hx. rewrite Eq.
    apply elem_of_app. by right. }
  eapply wp_mono; [apply (find_working_spec s A E Dir _ HDir Head _ Hc)|].
  { intros x dx Hx. eapply (il_dir _ _ I); [exact Hk | by apply Hin]. }
  { pose proof (chain_length _ _ _ _ Hc). lia. }
  intros r s1 [-> ->]. cbn [Z.eqb negb]. wp_go. eapply wp_mono; [by apply OhciCreateED_spec|].
  intros Ed s1 (hh & [(-> & Hx & ->)|(Hlk & Hn1 & Hn2 & ->)] & Hh1).
  { wp_go. split; [done|]. split; [done|]. split; [done|]. by left. }
  assert (Ed <> 0) by (destruct Hlk; lia). wp_go. eapply wp_upd_ed; [simpl; apply lookup_insert_eq|].
  set (e := interrupt_ed A E (Z.b2z Slow) Max new_ed). simpl. rewrite insert_insert_eq.
  destruct (interrupt_ed_fields A E (Z.b2z Slow) Max) as (_ & _ & _ & He1 & _ & He3). fold e in He1, He3.
  destruct (intr_lists_new R s Ls Ed e hh Hh I Hn1) as (I2 & HN & Hnn).
  set (s2 := set_eds (<[Ed := e]> (eds s)) (set_hw hh s)) in *.
  assert (Hh2 : heap R s2).
  { pose proof (heap_set_ed R _ Ed new_ed e (lookup_insert_eq _ _ _) Hh1) as Hy. simpl in Hy. by rewrite insert_insert_eq in Hy. }
  assert (HEH : Head <> Ed) by (intros Ex; apply Hnn; by exists d, j).
  assert (Hd2 : eds s2 !! Head = Some dh) by (simpl; by rewrite lookup_insert_ne).
  assert (He2 : eds s2 !! Ed = Some e) by apply lookup_insert_eq.
  unfold OhciAttachEDToList. change (set_eds _ _) with s2. wp_go.
  eapply wp_mono; [by apply (OhciAttachED_spec s2 Head Ed dh e)|]. intros ? s3 [_ ->]. wp_go.
  assert (Hw : u32 (NextED dh) = NextED dh).
  { destruct (chain_next_in _ _ _ _ _ _ Hc ltac:(rewrite El; left) Hdh) as [->|Hx]; [done|].
    destruct (chain_in _ _ _ _ _ Hc Hx) as [_ [b Hb]]. by apply linkable_u32, (hp_ed _ _ Hh _ b). }
  split.
  { pose proof (heap_set_ed R s2 Head dh (ed_with_NextED Ed dh) Hd2 Hh2) as Hx.
    refine (heap_set_ed R _ Ed e (ed_with_NextED (NextED dh) e) _ Hx). simpl. by rewrite lookup_insert_ne. }
  split; [done|]. split; [done|]. right. split; [done|]. split; [by intros <-|]. split; [done|].
  split; [by apply (intr_lists_attach R s2 Ls d j dh Ed e)|]. exists dh. split; [done|]. split; [done|].
  intros y. simpl. unfold attached. destruct (decide (y = Ed)) as [->|]; [by rewrite lookup_insert_eq|]. rewrite lookup_insert_ne by done.
  destruct (decide (y = Head)) as [->|]; [by rewrite lookup_insert_eq|]. rewrite lookup_insert_ne by done. unfold s2. simpl. by rewrite lookup_insert_ne.
Qed.

(** ** The queue *)

(** The same descriptors up to what the controller owns. *)
Definition same_core s s' : Prop :=
  (forall p, ed_core <$> eds s' !! p = ed_core <$> eds s !! p) /\ (forall p, td_core <$> tds s' !! p = td_core <$> tds s !! p).

Lemma wp_on_hw_desc {A} (c : M H A) s Q : wp (on_hw c) s Q -> wp (on_hw c) s (fun a s' => Q a s' /\ eds s' = eds s /\ tds s' = tds s).
Proof. unfold on_hw, zoom, wp. by destruct (c (hw s)). Qed.

Lemma pause_core us R s0 E h L s : during R s0 E h L s -> wp (pause us) s (fun _ s' => during R s0 E h L s' /\ same_core s s').
Proof.
  intros D. unfold pause. apply wp_bind. eapply wp_mono; [apply wp_on_hw_desc, during_quiet; [apply quiet_stall | done]|].
  intros ? s' [[_ D'] [Ee Et]]. apply wp_modify. pose proof (progress_only s') as HP1. split; [by eapply during_hc|]. destruct HP1 as [_ P2 P3 _].
  split; intros p; [by rewrite P2, Ee | by rewrite P3, Et].
Qed.

(** Starting the periodic lists, if they are not running. *)
Lemma start_periodic_spec {A} (a : A) R s0 E h L s : during R s0 E h L s ->
  wp (enabled ← on_hw (OhciGetHcControl PERIODIC_ENABLE);
      (if enabled =? 0 then on_hw (OhciSetHcControl PERIODIC_ENABLE 1);; pause 1000 else mret tt);; mret a) s
    (fun r s' => r = a /\ during R s0 E h L s' /\ same_core s s').
Proof.
  intros D. apply wp_bind. eapply wp_mono; [apply wp_on_hw_desc, during_quiet; [eapply (quiet_field _ _ PERIODIC_ENABLE); reflexivity | exact D]|].
  intros en s1 [[_ D1] [Ee1 Et1]]. destruct (en =? 0); [|wp_go; split; [done|]; split; [done|]; unfold same_core; by rewrite Ee1, Et1].
  apply wp_bind, wp_bind. eapply wp_mono; [apply wp_on_hw_desc, during_quiet; [apply quiet_control | exact D1]|].
  intros st s2 [[_ D2] [Ee2 Et2]]. eapply wp_mono; [by apply pause_core|]. intros ? s3 [D3 [C1 C2]]. wp_go. split; [done|]. split; [done|].
  split; intros p; [by rewrite C1, Ee2, Ee1 | by rewrite C2, Et2, Et1].
Qed.

(** A context was added meanwhile. *)
Lemma during_context R R' s0 E h L s s' : during R s0 E h L s -> heap R' s' -> same_desc s s' ->
  during R' (set_contexts (InterruptContextList s') (set_entries (entries s') s0)) E h L s'.
Proof.
  intros [D1 D2 D3 D4 D5 D6 D7] Hh (E1 & E2 & E3 & E4 & E5). split; simpl; rewrite ?E1, ?E2; try done.
  destruct D7 as (? & ? & ? & ? & ?). unfold same_driver; simpl. rewrite E3, E4, E5. done.
Qed.

(** The ED of a running transfer. *)
Definition armed (Tail Head : Z) (e : ED_DESCRIPTOR) : ED_DESCRIPTOR :=
  OhciSetEDField ED_SKIP 0 (ed_with_word2 (Halted e) (ToggleCarry e) (Zero e) (RIGHT_SHIFT_4 Head) (ed_with_TdTailPointer Tail e)).

(** The transfer is on: its ED [e] leads to the queue [L] of the TDs [T]. *)
Record queued R s C s3 Ed e T CallBack (ctx : Z -> INTERRUPT_CONTEXT_ENTRY) r s' L R' C' : Prop := {
  qd_status : it_Status r = EFI_SUCCESS /\ it_Ed r = Ed;
  qd_ed : exists tail, ed_core <$> eds s' !! Ed = Some (ed_core (armed tail (it_Td r) e)) /\ last L = Some tail;
  qd_others : forall p, p <> Ed -> ed_core <$> eds s' !! p = ed_core <$> eds s3 !! p;
  qd_queue : chain NextTDPointer (tds s') (it_Td r) L;
  qd_tds : (fun p => (fun t => td_core (content t)) <$> tds s' !! p) <$> L = (fun t => Some (td_core t)) <$> T;
  qd_fresh : forall p, p ∈ L -> tds s !! p = None;
  qd_old : forall p, p ∉ L -> td_core <$> tds s' !! p = td_core <$> tds s !! p;
  qd_heap : heap R' s';
  qd_tables : HccaInterruptTable s' = HccaInterruptTable s /\ IntervalList s' = IntervalList s /\ tpl s' = tpl s;
  qd_contexts : contexts R' s' C';
  qd_added : added CallBack (ctx (it_Td r)) R s C R' s' C'
}.

(** Giving up puts back what was there. *)
Lemma undo_eds s Head dh Ed e s3 e' : eds s !! Head = Some dh -> eds s !! Ed = None -> u32 (NextED dh) = NextED dh -> Ed <> Head ->
  inserted s Head dh Ed e s3 -> NextED e' = NextED dh ->
  delete Ed (<[Head := ed_with_NextED (NextED e') (ed_with_NextED Ed dh)]> (<[Ed := e']> (eds s3))) = eds s.
Proof.
  intros Hd He Hw Hne Hs HN. apply map_eq. intros y. destruct (decide (Ed = y)) as [<-|Hy]; [by rewrite lookup_delete_eq|].
  rewrite lookup_delete_ne by done. destruct (decide (Head = y)) as [<-|Hy2].
  - rewrite lookup_insert_eq, HN, Hd. f_equal. unfold ed_with_NextED. simpl. rewrite Hw. by destruct dh.
  - rewrite !lookup_insert_ne, Hs by done. by rewrite !decide_False.
Qed.

Lemma td_core_content t : td_core (content t) = content (td_core t).
Proof. done. Qed.

Lemma core_content s s' (L : list Z) T : (forall p, td_core <$> tds s' !! p = td_core <$> tds s !! p) ->
  (fun p => content <$> tds s !! p) <$> L = Some <$> T ->
  (fun p => (fun t => td_core (content t)) <$> tds s' !! p) <$> L = (fun t => Some (td_core t)) <$> T.
Proof.
  intros Hc HT. transitivity ((fun o : option TD_DESCRIPTOR => td_core <$> o) <$> ((fun p => content <$> tds s !! p) <$> L)).
  - rewrite <- list_fmap_compose. apply list_fmap_ext. intros i p _. simpl. specialize (Hc p).
    destruct (tds s' !! p) as [t|], (tds s !! p) as [t0|]; try done. simpl in *. apply (inj Some) in Hc. by rewrite !td_core_content, Hc.
  - rewrite HT, <- list_fmap_compose. done.
Qed.

(** From the ED on its list to the running transfer. *)
Lemma submit_interrupt_spec R s C s3 Head dh Ed e m Pid Address EndPoint Max Toggle UCBuf Length CallBack Ctx Periodic :
  heap R s3 -> tds s3 = tds s -> same_driver s s3 -> eds s !! Head = Some dh -> Head <> 0 -> eds s !! Ed = None -> Ed <> Head ->
  u32 (NextED dh) = NextED dh -> inserted s Head dh Ed e s3 -> TdHeadPointer e = 0 -> contexts R s C -> 0 < Max -> 0 < dm_Bytes m ->
  let ctx h := new_entry Address EndPoint Ed h CallBack Ctx Periodic Length UCBuf (dm_Mapping m) in
  wp (submit_interrupt Head Ed m Pid Address EndPoint Max Toggle UCBuf Length CallBack Ctx Periodic) s3 (fun r s' =>
    (same_but_hw s s' /\ heap R s' /\ (it_Status r = EFI_OUT_OF_RESOURCES \/ (it_Status r = dm_Status m /\ CallBack <> 0))) \/
    exists L R' C', queued R s C s3 Ed (ed_with_NextED (NextED dh) e) ((packet_td Pid <$> transfer_packets m Toggle Max) ++ [empty_td zero_td])
      CallBack ctx r s' L R' C').
Proof.
  intros Hh3 Et3 Hs3 Hd HHd HdE Hne Hw Hins HT0 Cx HM HB ctx.
  assert (HwN : NextED (ed_with_NextED (NextED dh) e) = NextED dh) by exact Hw.
  assert (He3 : eds s3 !! Ed = Some (ed_with_NextED (NextED dh) e)) by (rewrite Hins; by rewrite decide_True).
  assert (Hd3 : eds s3 !! Head = Some (ed_with_NextED Ed dh)) by (rewrite Hins, decide_False, decide_True by done; done).
  destruct (hp_ed _ _ Hh3 Ed _ He3) as [HlkE _].
  assert (HNd : NextED (ed_with_NextED Ed dh) = Ed) by (apply linkable_u32, HlkE).
  set (s0 := set_eds (delete Ed (eds s3)) s3).
  assert (D3 : during R s0 [Ed] 0 [] s3).
  { split; try done.
    - intros p Hp. simpl. rewrite lookup_delete_ne; [done|]. intros ->. apply Hp. left.
    - intros p ->%list_elem_of_singleton. simpl. rewrite lookup_delete_eq, He3. by split.
    - by intros p ?%not_elem_of_nil.
    - constructor. }
  (* giving up, from a state whose queue is [L] and whose ED may be filled in *)
  assert (Hgive : forall h L s4 e4 r, heap R s4 -> chain NextTDPointer (tds s4) h L -> eds s4 = <[Ed := e4]> (eds s3) -> NextED e4 = NextED dh ->
    (forall p, p ∉ L -> tds s4 !! p = tds s3 !! p) -> (forall p, p ∈ L -> tds s3 !! p = None) -> same_driver s3 s4 ->
    wp (intr_free_td Head Ed h (dm_Mapping m) r) s4 (fun r' s' => r' = r /\ same_but_hw s s' /\ heap R s')).
  { intros h L s4 e4 r Hh4 Hc4 Ee4 HN4 Ho Hf Hs4.
    eapply wp_mono; [apply (intr_free_td_spec R s4 h L Head (ed_with_NextED Ed dh) Ed e4); try done|].
    - rewrite Ee4. by rewrite lookup_insert_ne.
    - rewrite Ee4. apply lookup_insert_eq.
    - intros r' s' (-> & K1 & K2 & K3 & K4). split; [done|]. split; [|done]. split; [|split].
      + rewrite K2, Ee4. by eapply undo_eds.
      + apply map_eq. intros p. rewrite K3, <- Et3. case_decide; [by rewrite Hf | by apply Ho].
      + destruct Hs3 as (? & ? & ? & ? & ?), Hs4 as (? & ? & ? & ? & ?), K4 as (? & ? & ? & ? & ?). unfold same_driver. repeat split; congruence. }
  unfold submit_interrupt. apply wp_bind. eapply wp_mono; [by apply (data_tds_spec R s3 m Pid Toggle Max)|].
  intros [[em h] tg] s4 (T & L & G4 & Hem). pose proof (during_grown _ _ _ _ _ _ _ _ D3 G4) as D4.
  pose proof G4 as [G41 G42 G43 G44 [_ G45] G46]. pose proof G42 as (E1 & E2 & E3 & E4 & E5 & E6).
  assert (Hsd4 : same_driver s3 s4) by (unfold same_driver; by rewrite E2, E3, E4, E5, E6).
  destruct em as [em|].
  2: { eapply wp_mono; [apply (Hgive h L s4 (ed_with_NextED (NextED dh) e)); try done; by rewrite insert_id, E1|].
       intros r' s' (-> & ? & ?). left. split; [done|]. split; [done|]. by left. }
  destruct Hem as [-> Hlast]. rewrite <- E1 in He3. set (e0 := ed_with_NextED (NextED dh) e) in *.
  wp_go. eapply wp_upd_during; [exact D4 | left | exact He3|]. intros D5.
  set (s5 := set_eds _ s4) in *. apply wp_bind. unfold OhciAttachTDListToED at 1. wp_go.
  eapply wp_ed_at; [apply lookup_insert_eq|]. change (TdHeadPointer (ed_with_TdTailPointer em e0)) with (TdHeadPointer e). rewrite HT0.
  change (TD_PTR 0) with 0. cbn [Z.eqb negb]. wp_go. eapply wp_upd_during; [exact D5 | left | apply lookup_insert_eq|]. intros D6.
  set (s6 := set_eds _ s5) in *. wp_go. set (e6 := ed_with_word2 _ _ _ _ _) in *.
  assert (Ee6 : eds s6 = <[Ed := e6]> (eds s3)) by (simpl; by rewrite insert_insert_eq, E1).
  assert (Hsd6 : same_driver s s6).
  { destruct Hs3 as (? & ? & ? & ? & ?), Hsd4 as (? & ? & ? & ? & ?). unfold same_driver. simpl. repeat split; congruence. }
  assert (Cx6 : contexts R s6 C).
  { destruct Cx as [X1 X2], Hsd6 as (F1 & F2 & _). split; rewrite F1; [done | by rewrite F2]. }
  eapply wp_mono; [apply (add_context_spec R s6 C CallBack (ctx h)); [apply D6 | done | done]|].
  intros ok s7 H7. destruct ok; cbn [negb].
  2: { destruct H7 as (HCB & (Ee7 & Et7 & Hsd7) & Hh7).
    eapply wp_mono; [apply (Hgive h L s7 e6); try done; rewrite ?Et7, ?Ee7; try done|].
    - unfold same_driver in *. destruct Hsd7 as (-> & -> & -> & -> & ->). apply Hsd4.
    - intros r s' (-> & ? & ?). left. split; [done|]. split; [done|]. by right. }
  destruct H7 as (R' & C' & Hds7 & Hh7 & Cx7 & Had). pose proof (during_context R R' _ _ _ _ _ s7 D6 Hh7 Hds7) as D7.
  destruct Hds7 as (Ee7 & Et7 & F3 & F4 & F5). rewrite Ee6 in Ee7.
  apply wp_bind. eapply wp_upd_during; [exact D7 | left | rewrite Ee7; apply lookup_insert_eq|]. intros D8. set (s8 := set_eds _ s7) in *.
  eapply wp_mono; [by eapply start_periodic_spec|]. intros r s9 (-> & D9 & [C1 C2]). right. exists L, R', C'.
  destruct (du_driver _ _ _ _ _ _ D9) as (V1 & V2 & V3 & V4 & V5). simpl in V1, V2, V3, V4, V5. split; simpl.
  - done.
  - exists em. split; [|done]. rewrite C1. simpl. by rewrite lookup_insert_eq.
  - intros p Hp. rewrite C1. simpl. rewrite lookup_insert_ne, Ee7, lookup_insert_ne by done. done.
  - apply D9.
  - apply (core_content s4); [|done]. intros p. rewrite C2. simpl. by rewrite Et7.
  - intros p Hp. rewrite <- Et3. by apply G44.
  - intros p Hp. rewrite C2. simpl. rewrite Et7. simpl. rewrite G43 by done. by rewrite Et3.
  - apply D9.
  - destruct Hs3 as (_ & _ & -> & -> & ->) in V3, V4, V5. done.
  - destruct Cx7 as [X1 X2]. split; rewrite V1; [done | by rewrite V2].
  - destruct Had as [(? & ? & ? & Hen)|(? & p & ? & ? & ? & ? & ?)]; [left | right; split; [done|]; exists p]; rewrite V1.
    + do 3 (split; [done|]). rewrite Hen. destruct Hsd6 as (F1 & _). by rewrite F1.
    + do 4 (split; [done|]). destruct Hsd6 as (F1 & _). by rewrite <- F1.
Qed.

(** ** The transfer *)

Lemma intr_lists_hw s s' Ls : intr_lists s Ls -> same_but_hw s s' -> intr_lists s' Ls.
Proof. intros I (Ee & _ & (_ & _ & E1 & E2 & _)). eapply intr_lists_ext; [done | by rewrite Ee | done | done]. Qed.

Lemma contexts_hw R s s' C : contexts R s C -> same_but_hw s s' -> contexts R s' C.
Proof. intros [X1 X2] (_ & _ & (E1 & E2 & _)). split; rewrite E1; [done | by rewrite E2]. Qed.

Lemma same_but_hw_trans s s1 s2 : same_but_hw s s1 -> same_but_hw s1 s2 -> same_but_hw s s2.
Proof.
  intros (E1 & E2 & (E3 & E4 & E5 & E6 & E7)) (F1 & F2 & (F3 & F4 & F5 & F6 & F7)). unfold same_but_hw, same_driver. repeat split; congruence.
Qed.

(** A transfer that is on the schedule: on a list that is visited at least
    once per interval, and as seldom as that allows, the shortest such list;
    its ED names the endpoint and leads to the queue [L] of its TDs [T], the
    last of which is the tail; all else is as before. *)
Record scheduled R s Ls C Address EndPoint MaxPacketLength Interval CallBack T (ctx : Z -> Z -> INTERRUPT_CONTEXT_ENTRY) r s' d j L R' C' : Prop := {
  sc_list : is_list d j;
  sc_often : 2 ^ Z.of_nat (5 - d) <= Interval /\ (d = 0%nat \/ Interval < 2 ^ Z.of_nat (6 - d));
  sc_short : forall j', is_list d j' -> (length (list_of s Ls d j) <= length (list_of s Ls d j'))%nat;
  sc_status : it_Status r = EFI_SUCCESS;
  sc_new : eds s !! it_Ed r = None;
  sc_lists : intr_lists s' (fun k => after (iv s d j) (it_Ed r) (Ls k));
  sc_ed : exists e, eds s' !! it_Ed r = Some e /\ FunctionAddress e = wrap 7 Address /\ EndPointNum e = wrap 4 EndPoint /\
    MaxPacketSize e = wrap 11 MaxPacketLength /\ Skip e = 0 /\ last L = Some (TdTailPointer e);
  sc_others : forall p, p <> it_Ed r -> (fun e => ed_core (strip e)) <$> eds s' !! p = (fun e => ed_core (strip e)) <$> eds s !! p;
  sc_queue : chain NextTDPointer (tds s') (it_Td r) L;
  sc_tds : (fun p => (fun t => td_core (content t)) <$> tds s' !! p) <$> L = (fun t => Some (td_core t)) <$> T;
  sc_fresh : forall p, p ∈ L -> tds s !! p = None;
  sc_old : forall p, p ∉ L -> td_core <$> tds s' !! p = td_core <$> tds s !! p;
  sc_heap : heap R' s';
  sc_tables : HccaInterruptTable s' = HccaInterruptTable s /\ IntervalList s' = IntervalList s /\ tpl s' = tpl s;
  sc_contexts : contexts R' s' C';
  sc_added : added CallBack (ctx (it_Ed r) (it_Td r)) R s C R' s' C'
}.

Lemma core_some {A} (x y : option ED_DESCRIPTOR) (f : ED_DESCRIPTOR -> A) : (forall d d', ed_core d = ed_core d' -> f d = f d') ->
  ed_core <$> x = ed_core <$> y -> f <$> x = f <$> y.
Proof. intros Hf. destruct x as [d|], y as [d'|]; try done. simpl. intros E. apply (inj Some) in E. f_equal. by apply Hf. Qed.

Lemma core_link d d' : ed_core d = ed_core d' -> link_of d = link_of d'.
Proof. intros [= _ _ E _ _ _ _ _ _ _ E']. unfold link_of. by rewrite E, E'. Qed.

Lemma core_strip d d' : ed_core d = ed_core d' -> ed_core (strip d) = ed_core (strip d').
Proof. intros E. transitivity (strip (ed_core d)); [done|]. by rewrite E. Qed.

Lemma scheduled_intro R s s1 Ls C dd j s3 dh Address EndPoint Sp MaxPacketLength Interval CallBack T ctx r s' L R' C' Ed :
  same_but_hw s s1 -> is_list dd j -> 2 ^ Z.of_nat (5 - dd) <= Interval -> (dd = 0%nat \/ Interval < 2 ^ Z.of_nat (6 - dd)) ->
  (forall j', is_list dd j' -> (length (list_of s Ls dd j) <= length (list_of s Ls dd j'))%nat) ->
  linkable Ed -> Ed <> iv s dd j -> eds s !! Ed = None -> intr_lists s3 (fun k => after (iv s dd j) Ed (Ls k)) ->
  HccaInterruptTable s3 = HccaInterruptTable s -> IntervalList s3 = IntervalList s ->
  eds s !! iv s dd j = Some dh -> u32 (NextED dh) = NextED dh ->
  inserted s1 (iv s dd j) dh Ed (interrupt_ed Address EndPoint Sp MaxPacketLength new_ed) s3 ->
  queued R s1 C s3 Ed (ed_with_NextED (NextED dh) (interrupt_ed Address EndPoint Sp MaxPacketLength new_ed)) T CallBack (ctx Ed) r s' L R' C' ->
  scheduled R s Ls C Address EndPoint MaxPacketLength Interval CallBack T ctx r s' dd j L R' C'.
Proof.
  intros (Ee1 & Et1 & Hs1) Hl Ho Hso Hsh HlkE Hne HdE I3 Eh3 Ev3 Hd Hw Hins [[Q1 Q1'] (tail & Q2 & Q2') Q3 Q4 Q5 Q6 Q7 Q8 (Q9 & Q10 & Q11) Q12 Q13].
  destruct (interrupt_ed_fields Address EndPoint Sp MaxPacketLength) as (Fa & Fe & Fm & Fd & _ & _).
  set (e := interrupt_ed Address EndPoint Sp MaxPacketLength new_ed) in *. destruct Hs1 as (V1 & V2 & V3 & V4 & V5).
  split; rewrite ?Q1'; try done.
  - eapply (intr_lists_ext s3); [exact I3 | | by rewrite Q9, Eh3 | by rewrite Q10, Ev3]. intros p. destruct (decide (p = Ed)) as [->|Hp].
    + rewrite Hins, decide_True by done. destruct (eds s' !! Ed) as [e'|]; [|done]. apply (inj Some) in Q2. simpl. f_equal.
      rewrite (core_link _ _ Q2). unfold link_of. apply (f_equal2 pair).
      * change (u32 (u32 (NextED dh)) = u32 (NextED dh)). by apply wrap_wrap.
      * change (wrap 2 (Direction e) = Direction e). by rewrite Fd.
    + apply core_some; [apply core_link | by apply Q3].
  - destruct (eds s' !! Ed) as [e'|]; [|done]. apply (inj Some) in Q2. exists e'. split; [done|].
    assert (Hf : forall {A} (f : ED_DESCRIPTOR -> A), (forall d, f (ed_core d) = f d) -> f e' = f (armed tail (it_Td r) (ed_with_NextED (NextED dh) e))).
    { intros A f Hf. rewrite <- Hf, Q2. apply Hf. }
    rewrite (Hf _ FunctionAddress), (Hf _ EndPointNum), (Hf _ MaxPacketSize), (Hf _ Skip), (Hf _ TdTailPointer) by done.
    unfold armed. rewrite set_ed_addr, set_ed_endpoint, set_ed_packet, set_ed_skip. settle_has.
    change (wrap 7 (FunctionAddress e) = wrap 7 Address /\ wrap 4 (EndPointNum e) = wrap 4 EndPoint /\
      wrap 11 (MaxPacketSize e) = wrap 11 MaxPacketLength /\ wrap 1 0 = 0 /\ last L = Some (u32 (u32 tail))).
    rewrite Fa, Fe, Fm, !wrap_wrap by done. do 4 (split; [done|]). rewrite Q2'. f_equal. symmetry. apply linkable_u32.
    destruct (chain_in _ _ _ _ tail Q4) as [_ [tt Htt]]; [by apply last_Some_elem_of|]. by apply (hp_td _ _ Q8 tail tt).
  - intros p Hp. transitivity ((fun e => ed_core (strip e)) <$> eds s3 !! p); [apply core_some; [apply core_strip | by apply Q3]|].
    rewrite Hins, Ee1, decide_False by done. case_decide as Hpi; [|done]. subst p. by rewrite Hd.
  - intros p Hp. rewrite <- Et1. by apply Q6.
  - intros p Hp. rewrite <- Et1. by apply Q7.
  - by rewrite Q9, Q10, Q11, V3, V4, V5.
  - unfold added in *. by rewrite <- V1.
Qed.

Lemma OhciInterruptTransfer_spec R s Ls C Address EndPoint Slow Max Toggle Interval UCBuf Length CallBack Ctx Periodic :
  heap R s -> intr_lists s Ls -> contexts R s C -> 0 < Length -> 0 < Max -> 1 <= Interval ->
  let In := negb (Z.land EndPoint 0x80 =? 0) in
  let m := fst (DmaMap MapOperationBusMasterWrite UCBuf Length (hw s)) in
  let T := (packet_td (if In then TD_IN_PID else TD_OUT_PID) <$> transfer_packets m (default 0 Toggle) Max) ++ [empty_td zero_td] in
  let ctx Ed h := new_entry Address EndPoint Ed h CallBack Ctx Periodic Length UCBuf (dm_Mapping m) in
  wp (OhciInterruptTransfer Address EndPoint Slow Max true Toggle Interval UCBuf Length CallBack Ctx Periodic) s (fun r s' =>
    (same_but_hw s s' /\ heap R s' /\ (EFI_ERROR (it_Status r) = true \/ CallBack <> 0)) \/
    (EFI_ERROR (dm_Status m) = false /\ Length <= MAX_BYTES_PER_TD /\
     exists d j L R' C', scheduled R s Ls C Address (Z.land EndPoint 0xF) Max Interval CallBack T ctx r s' d j L R' C')).
Proof.
  intros Hh I Cx HLen HMax HInt In m T ctx. unfold OhciInterruptTransfer. destruct (Z.ltb_spec MAX_BYTES_PER_TD Length) as [Hlen|Hlen]; [wp_go; by left; split; [|split; [|left]]|].
  cbv zeta. fold In. cbn [negb]. apply wp_bind.
  eapply wp_mono; [apply (service_spec (DmaMap MapOperationBusMasterWrite UCBuf Length) R s); [intros l h; apply map_live | done]|].
  intros m' s1 (Em & Hh1 & Hsame). fold m in Em. subst m'. case_if Emap; [wp_go; left; split; [done|]; split; [done|]; by left|].
  pose proof (map_bytes MapOperationBusMasterWrite UCBuf Length (hw s) HLen Emap) as HB. fold m in HB.
  destruct (poll_depth_spec 5 1 Interval HInt ltac:(done)) as (Hd5 & Ho & Hso). set (d := poll_depth 5 1 Interval) in *. rewrite Z.mul_1_l in Ho, Hso.
  pose proof (intr_lists_hw s s1 Ls I Hsame) as I1. pose proof (contexts_hw R s s1 C Cx Hsame) as Cx1.
  apply wp_bind. eapply wp_mono; [apply (OhciFindMinInterruptEDList_spec R s1 Ls d Hh1 I1); lia|].
  intros Head s2 (-> & j & Hl & -> & Hsh). pose proof Hsame as (Ee1 & Et1 & (V1 & V2 & V3 & V4 & V5)).
  assert (Hiv : forall d j, iv s1 d j = iv s d j) by (intros ? ?; unfold iv; by rewrite V4).
  apply wp_bind. eapply wp_mono; [apply (get_interrupt_ed_spec R s1 Ls d j Address (Z.land EndPoint 0xF) (if In then ED_IN_DIR else ED_OUT_DIR) Slow Max Hh1 I1 Hl)|];
    [by destruct In|]. cbv zeta.
  intros Ed s3 (Hh3 & Et3 & Hs3 & [(-> & Ee3 & Hx)|(HlkE & Hne & HdE & I3 & dh & Hdh & Hw & Hins)]).
  { rewrite Z.eqb_refl. unfold intr_unmap, on_services. wp_go. left. split; [|split; [|by left]].
    - eapply same_but_hw_trans; [exact Hsame|]. split; [exact Ee3|]. split; [exact Et3 | exact Hs3].
    - destruct Hh3 as [(A & HA1 & HA2) ? ?]. split; [|done|done]. exists A. split; [by apply unmap_live | done]. }
  assert (HEd0 : Ed <> 0) by (destruct HlkE; lia). rewrite (proj2 (Z.eqb_neq _ _) HEd0).
  eapply wp_mono; [eapply (submit_interrupt_spec R s1 C s3 (iv s1 d j) dh Ed _ m); try done|].
  { by apply (il_full _ _ I1). }
  { lia. }
  intros r s' [(Hsb & Hh' & Hst)|(L & R' & C' & Q)].
  - left. split; [by eapply same_but_hw_trans|]. split; [done|]. destruct Hst as [-> | [_ ?]]; [by left | by right].
  - right. split; [done|]. split; [lia|]. exists d, j, L, R', C'. destruct Hs3 as (_ & _ & W3 & W4 & _). rewrite !Hiv in *. rewrite Ee1 in HdE, Hdh.
    eapply (scheduled_intro R s s1 Ls C d j s3 dh); try done.
    + destruct Hso as [?|Hso]; [by left | right]. by replace (6 - d)%nat with (5 - d + 1)%nat by lia.
    + intros j' Hj'. unfold list_of in *. rewrite <- !Hiv. by apply Hsh.
    + by rewrite W3, V3.
    + by rewrite W4, V4.
Qed.
End Spec.
