(* ===== verification/OhciRegSpec.v ===== *)
(** * Registers and root hub

    What the accessors of [OhciReg.c] do to the bit fields of a register, and
    the bounded waits of the root hub. *)

From Stdlib Require Import ZArith Lia.
From stdpp Require Import base list numbers option.
From S2P Require Import Prelude OhciReg Ohci OhciSched OhciXfer OhciHub.

(** ** Bit fields *)

Definition in_field (f : Z * Z) (i : Z) : bool := (f.1 <=? i) && (i <? f.1 + f.2).

Lemma reg_field_put_testbit f v r i : 0 <= f.1 -> 0 <= f.2 -> 0 <= i ->
  Z.testbit (field_put f v r) i = if in_field f i then Z.testbit v (i - f.1) else Z.testbit r i.
Proof.
  intros Hp Hw Hi. unfold field_put, in_field. rewrite Z.lor_spec, Z.ldiff_spec, !Z.shiftl_spec, Z.land_spec by done.
  destruct (Z.leb_spec f.1 i) as [H1|H1]; simpl.
  - rewrite Z.testbit_ones_nonneg by lia. destruct (Z.ltb_spec (i - f.1) f.2), (Z.ltb_spec i (f.1 + f.2)); try lia; simpl.
    + by rewrite andb_false_r, andb_true_r.
    + by rewrite andb_true_r, andb_false_r, orb_false_r.
  - rewrite (Z.testbit_neg_r _ (i - f.1)) by lia. rewrite (Z.testbit_neg_r v) by lia. by rewrite andb_true_r, orb_false_r.
Qed.

Lemma reg_field_get_testbit f r i : 0 <= f.1 -> 0 <= f.2 -> 0 <= i -> Z.testbit (field_get f r) i = (i <? f.2) && Z.testbit r (i + f.1).
Proof.
  intros Hp Hw Hi. unfold field_get. rewrite Z.land_spec, Z.shiftr_spec, Z.testbit_ones_nonneg by done. apply andb_comm.
Qed.

(** Reading back. *)
Lemma field_get_put f v r : 0 <= f.1 -> 0 <= f.2 -> field_get f (field_put f v r) = wrap f.2 v.
Proof.
  intros Hp Hw. apply Z.bits_inj'. intros i Hi. rewrite reg_field_get_testbit, wrap_testbit, reg_field_put_testbit by lia. unfold in_field.
  destruct (Z.ltb_spec i f.2) as [H1|]; [|done]. simpl.
  rewrite (proj2 (Z.leb_le _ _)), (proj2 (Z.ltb_lt _ _)) by lia. simpl. f_equal. lia.
Qed.

(** Another field does not change. *)
Definition apart (f g : Z * Z) : bool := (f.1 + f.2 <=? g.1) || (g.1 + g.2 <=? f.1).

Lemma field_get_other f g v r : 0 <= f.1 -> 0 <= f.2 -> 0 <= g.1 -> 0 <= g.2 -> apart f g = true -> field_get f (field_put g v r) = field_get f r.
Proof.
  intros Hp Hw Hp' Hw' Ha. apply Z.bits_inj'. intros i Hi. rewrite !reg_field_get_testbit, reg_field_put_testbit by lia. unfold in_field, apart in *.
  destruct (Z.ltb_spec i f.2) as [H1|]; [|done]. simpl. rewrite orb_true_iff, !Z.leb_le in Ha.
  destruct (Z.leb_spec g.1 (i + f.1)), (Z.ltb_spec (i + f.1) (g.1 + g.2)); simpl; try done; lia.
Qed.

(** The fields of a register do not overlap. *)
Fixpoint fields_apart (tbl : list (Z * (Z * Z))) : bool :=
  match tbl with
  | [] => true
  | (_, f) :: tbl => (0 <=? f.1) && (0 <=? f.2) && forallb (fun e => apart f e.2 && apart e.2 f) tbl && fields_apart tbl
  end.

Lemma fields_apart_width tbl flag f : fields_apart tbl = true -> (flag, f) ∈ tbl -> 0 <= f.1 /\ 0 <= f.2.
Proof.
  induction tbl as [|[flag' g] tbl IH]; intros Ha Hin; [by apply not_elem_of_nil in Hin|]. cbn [fields_apart] in Ha.
  rewrite !andb_true_iff, !Z.leb_le in Ha. destruct Ha as [[[H1 H2] _] H4]. apply elem_of_cons in Hin as [[= -> ->]|Hin]; [done | by apply IH].
Qed.

Lemma assign_other Field flag f g Value r : 0 <= f.1 -> 0 <= f.2 -> 0 <= g.1 -> 0 <= g.2 -> apart f g = true ->
  field_get f (assign Field flag g Value r) = field_get f r.
Proof. intros H1 H2 H3 H4 Ha. unfold assign. destruct (_ =? 0); [done | by apply field_get_other]. Qed.

Lemma set_fields_other tbl Field Value f : 0 <= f.1 -> 0 <= f.2 -> fields_apart tbl = true -> (forall e, e ∈ tbl -> apart f e.2 = true) ->
  forall r, field_get f (set_fields tbl Field Value r) = field_get f r.
Proof.
  intros H1 H2. induction tbl as [|[flag g] tbl IH]; intros Ha Hf r; [done|].
  destruct (fields_apart_width _ flag g Ha ltac:(left)) as [H3 H4]. cbn [fields_apart] in Ha. apply andb_true_iff in Ha as [_ Ha].
  change (set_fields ((flag, g) :: tbl) Field Value r) with (set_fields tbl Field Value (assign Field flag g Value r)).
  rewrite IH; [|done|intros e He; apply Hf; by right]. apply assign_other; try done. apply (Hf (flag, g)). left.
Qed.

(** Setting the fields [Field] selects, and reading one. *)
Lemma set_fields_get tbl Field Value flag f : fields_apart tbl = true -> (flag, f) ∈ tbl -> forall r,
  field_get f (set_fields tbl Field Value r) = if Z.land Field flag =? 0 then field_get f r else wrap f.2 Value.
Proof.
  intros Ha Hin. destruct (fields_apart_width _ _ _ Ha Hin) as [H1 H2]. revert Ha Hin.
  induction tbl as [|[flag' g] tbl IH]; intros Ha Hin r; [by apply not_elem_of_nil in Hin|]. pose proof Ha as Ha'.
  cbn [fields_apart] in Ha'. rewrite !andb_true_iff, forallb_forall in Ha'. destruct Ha' as [[_ Hg] Ht].
  change (set_fields ((flag', g) :: tbl) Field Value r) with (set_fields tbl Field Value (assign Field flag' g Value r)).
  apply elem_of_cons in Hin as [[= -> ->]|Hin].
  - rewrite set_fields_other; try done.
    + unfold assign. destruct (_ =? 0); [done | by apply field_get_put].
    + intros e He. apply list_elem_of_In in He. apply Hg in He. by apply andb_true_iff in He as [? _].
  - rewrite IH by done. destruct (_ =? 0); [|done]. destruct (fields_apart_width _ flag' g Ha ltac:(left)) as [H3 H4].
    apply assign_other; try done. apply list_elem_of_In, Hg in Hin. by apply andb_true_iff in Hin as [_ ?].
Qed.

(** Bits outside of all fields stay. *)
Lemma set_fields_rest tbl Field Value : fields_apart tbl = true -> forall r i, 0 <= i -> (forall e, e ∈ tbl -> in_field e.2 i = false) ->
  Z.testbit (set_fields tbl Field Value r) i = Z.testbit r i.
Proof.
  induction tbl as [|[flag f] tbl IH]; intros Ha r i Hi Hn; [done|]. destruct (fields_apart_width _ flag f Ha ltac:(left)) as [H1 H2].
  cbn [fields_apart] in Ha. apply andb_true_iff in Ha as [_ Ha].
  change (set_fields ((flag, f) :: tbl) Field Value r) with (set_fields tbl Field Value (assign Field flag f Value r)).
  rewrite IH; [|done|done|intros e He; apply Hn; by right]. unfold assign. destruct (_ =? 0); [done|].
  rewrite reg_field_put_testbit by done. pose proof (Hn (flag, f) ltac:(left)) as E. simpl in E. by rewrite E.
Qed.

(** The getter's [switch] finds the field of a selector. *)
Lemma find_field_in tbl Field f : find_field tbl Field = Some f -> (Field, f) ∈ tbl.
Proof.
  unfold find_field. destruct (List.find _ tbl) as [[flag g]|] eqn:E; [|done]. intros [= <-]. apply find_some in E as [Hin E].
  apply Z.eqb_eq in E as ->. by apply list_elem_of_In.
Qed.

(** ** Read-modify-write accessors *)

Section Registers.
Context {B : Build} {H : Type} {HW : OhciHw H}.

(** The register at [a] keeps its value between a read and the next access. *)
Class Memorylike (a : Z) : Prop := {
  read_stays : forall h, MmioRead32 a (snd (MmioRead32 a h)) = MmioRead32 a h;
  write_reads : forall v h, fst (MmioRead32 a (snd (MmioWrite32 a v h))) = u32 v
}.

Lemma update_read r tbl Field Value (Field' : Z) f (h : H) : Memorylike (u32 (UsbHcBaseAddress + r)) -> fields_apart tbl = true ->
  (forall e, e ∈ tbl -> e.2.1 + e.2.2 <= 32) -> find_field tbl Field' = Some f ->
  wp (update_reg r (set_fields tbl Field Value);; read_field r tbl Field') h (fun v _ =>
    v = if Z.land Field Field' =? 0 then field_get f (fst (MmioRead32 (u32 (UsbHcBaseAddress + r)) h)) else wrap f.2 Value).
Proof.
  intros HM Ha H32 Hf. pose proof (find_field_in _ _ _ Hf) as Hin. destruct (fields_apart_width _ _ _ Ha Hin) as [H1 H2].
  apply wp_bind. unfold update_reg. apply wp_bind. unfold OhciGetOperationalReg at 1, wp at 1.
  destruct (MmioRead32 (u32 (UsbHcBaseAddress + r)) h) as [v h1]. unfold OhciSetOperationalReg, wp at 1.
  pose proof (write_reads (set_fields tbl Field Value v) h1) as Hw.
  destruct (MmioWrite32 (u32 (UsbHcBaseAddress + r)) (set_fields tbl Field Value v) h1) as [st h2].
  unfold read_field. apply wp_bind. unfold OhciGetOperationalReg, wp at 1. simpl in Hw.
  destruct (MmioRead32 (u32 (UsbHcBaseAddress + r)) h2) as [v2 h3]. simpl in Hw. subst v2. rewrite Hf. apply wp_ret. simpl.
  rewrite <- (set_fields_get tbl Field Value Field' f Ha Hin v). apply Z.bits_inj'. intros i Hi. rewrite !reg_field_get_testbit by done.
  destruct (Z.ltb_spec i f.2) as [Hi2|]; [|done]. simpl. rewrite wrap_testbit by lia. pose proof (H32 _ Hin). simpl in *.
  by rewrite (proj2 (Z.ltb_lt _ _)) by lia.
Qed.

(** ** Waiting for a port *)

Implicit Types s : ohc H.
Context {HP : DescriptorPool H} {HS : OhciServices H} {HD : OhciDma H}.

(** At most a hundred polls; when fewer, the last one has seen the change. *)
Lemma retry_spec (pending : M (ohc H) bool) : (forall s, wp pending s (fun _ _ => True)) -> forall fuel n s,
  (0 < fuel)%nat -> n + Z.of_nat fuel = MAX_RETRY_TIMES -> 0 <= n ->
  wp (retry fuel n pending) s (fun r s' => n < r <= MAX_RETRY_TIMES /\ (r < MAX_RETRY_TIMES -> exists s1, pending s1 = Ret false s')).
Proof.
  intros Hp. induction fuel as [|fuel IH]; intros n s Hf Hn Hn0; [lia|]. cbn [retry]. apply wp_bind.
  assert (HPs : wp (pause 1000) s (fun _ _ => True)) by (unfold pause, on_hw, stall; done).
  eapply wp_mono; [exact HPs|]. intros ? s1 _. apply wp_bind. pose proof (Hp s1) as Hps. unfold wp at 1. unfold wp in Hps.
  destruct (pending s1) as [p s2|] eqn:E; [|done]. unfold MAX_RETRY_TIMES in *. destruct p; simpl.
  - destruct (Z.ltb_spec (n + 1) 100).
    + eapply wp_mono; [apply IH; lia|]. intros r s' [? ?]. split; [lia | done].
    + wp_go. split; [lia|]. lia.
  - wp_go. split; [lia|]. intros _. by exists s1.
Qed.

Definition total {S A} (c : M S A) : Prop := forall x, wp c x (fun _ _ => True).

Lemma total_bind {S A A'} (c : M S A) (k : A -> M S A') : total c -> (forall a, total (k a)) -> total (mbind k c).
Proof. intros Hc Hk s. apply wp_bind. eapply wp_mono; [apply Hc|]. intros a s' _. apply Hk. Qed.

Lemma total_hw {A} (c : M H A) : total c -> total (on_hw c).
Proof. intros Hc s. unfold on_hw. apply wp_zoom. eapply wp_mono; [apply Hc | done]. Qed.

Lemma total_read r : total (OhciGetOperationalReg r).
Proof. intros h. unfold OhciGetOperationalReg, wp. by destruct (MmioRead32 _ h). Qed.

Lemma total_write r v : total (OhciSetOperationalReg r v).
Proof. intros h. unfold OhciSetOperationalReg, wp. by destruct (MmioWrite32 _ v h). Qed.

Lemma total_field r tbl Field f : find_field tbl Field = Some f -> total (read_field r tbl Field).
Proof. intros Hf. apply total_bind; [apply total_read|]. intros v. rewrite Hf. by intros h. Qed.

Lemma total_port_reads Port Field Value f : find_field HcRHPORT_STATUS Field = Some f -> total (port_reads Port Field Value).
Proof. intros Hf. apply total_bind; [by eapply total_hw, total_field|]. by intros v s. Qed.

Lemma total_reset_pending Port : total (reset_pending Port).
Proof.
  apply total_bind; [by eapply total_port_reads|]. intros b. destruct b; [by intros s|]. by eapply total_port_reads.
Qed.

Lemma total_ports : total number_of_ports.
Proof.
  apply total_bind; [|by intros v s]. apply total_hw, total_bind; [apply total_read|]. intros a. apply total_bind; [apply total_read|]. by intros b h.
Qed.

(** A change of a port: the device fails, or the change has been seen. *)
Definition port_outcome (pending : M (ohc H) bool) (finish : M (ohc H) unit) (st : Z) s' : Prop :=
  st = EFI_DEVICE_ERROR \/ exists s1 s2, pending s1 = Ret false s2 /\ finish s2 = Ret tt s'.

Lemma change_port_spec Port Field pending finish s : total pending -> total finish ->
  wp (change_port Port Field pending finish) s (port_outcome pending finish).
Proof.
  intros Hp Hf. unfold change_port. apply wp_bind. eapply wp_mono; [apply (total_hw (OhciSetRootHubPortStatus Port Field)), total_write|].
  intros st s1 _. apply wp_bind. eapply wp_mono; [apply (retry_spec pending Hp 100 0 s1); [lia | done | done]|].
  intros r s2 [Hr Hseen]. destruct (Z.leb_spec MAX_RETRY_TIMES r) as [Hle|Hlt]; [wp_go; by left|].
  destruct (Hseen Hlt) as [s3 Hs3]. apply wp_bind. specialize (Hf s2). unfold wp in *. destruct (finish s2) as [[] s4|] eqn:E; [|done].
  right. by exists s3, s2.
Qed.

(** What each request waits for, and what it does then. *)
Definition port_wait (set : bool) (Port Feature : Z) : option (M (ohc H) bool * M (ohc H) unit) :=
  let reads Field Value := Some (port_reads Port Field Value, mret tt) in
  if set then
    if Feature =? EfiUsbPortPower then reads RH_PORT_POWER_STAT 0
    else if Feature =? EfiUsbPortReset then
      Some (reset_pending Port, on_hw (OhciSetRootHubPortStatus Port RH_PORT_RESET_STAT_CHANGE);; mret tt)
    else if Feature =? EfiUsbPortEnable then reads RH_PORT_ENABLE_STAT 0
    else if Feature =? EfiUsbPortSuspend then reads RH_PORT_SUSPEND_STAT 0
    else None
  else
    if Feature =? EfiUsbPortEnable then reads RH_PORT_ENABLE_STAT 1
    else if Feature =? EfiUsbPortSuspend then reads RH_PORT_SUSPEND_STAT 1
    else if Feature =? EfiUsbPortReset then None
    else if Feature =? EfiUsbPortPower then reads RH_PORT_POWER_STAT 1
    else if Feature =? EfiUsbPortConnectChange then reads RH_CONNECT_STATUS_CHANGE 1
    else if Feature =? EfiUsbPortResetChange then reads RH_PORT_RESET_STAT_CHANGE 1
    else if Feature =? EfiUsbPortEnableChange then reads RH_PORT_ENABLE_STAT_CHANGE 1
    else if Feature =? EfiUsbPortSuspendChange then reads RH_PORT_SUSPEND_STAT_CHANGE 1
    else if Feature =? EfiUsbPortOverCurrentChange then reads RH_OC_INDICATOR_CHANGE 1
    else None.

Lemma port_wait_total set Port Feature pending finish : port_wait set Port Feature = Some (pending, finish) -> total pending /\ total finish.
Proof.
  assert (Hw : forall (c c' : M (ohc H) bool) (g : M (ohc H) unit) g', total c -> total g -> Some (c, g) = Some (c', g') -> total c' /\ total g')
    by (intros c c' g g' ? ? [= <- <-]; done).
  unfold port_wait. destruct set; repeat (destruct (Feature =? _); [first [done | apply Hw; [by (apply total_reset_pending || eapply total_port_reads) |]] |]); try done.
  all: try (by intros s). apply total_bind; [apply total_hw, total_write | by intros v s].
Qed.
End Registers.
