(* ===== verification/OhciProps.v ===== *)
(** * Properties of the OHCI driver

    The claims about [OhciUrb.c], [OhciSched.c], [OhciReg.c] and [Ohci.c], for
    any controller and services with the laws of OhciXferSpec.v and
    OhciIntrXfer.v, and a small controller the claims are run on. *)

From Stdlib Require Import ZArith Lia.
From stdpp Require Import base list numbers option gmap.
From S2P Require Import Prelude OhciReg Ohci OhciSched OhciXfer OhciHub OhciLists OhciTree OhciIntrSpec OhciXferSpec OhciIntrXfer OhciRegSpec.

Section Claims.
Context {B : Build} {H : Type} {HW : OhciHw H} {HP : DescriptorPool H} {HC : PoolContract H} {HS : OhciServices H} {HD : OhciDma H}.
Implicit Types (s : ohc H) (Ls : nat -> list Z).

Lemma filter_all {A} (P : A -> Prop) `{forall x, Decision (P x)} l : Forall P l -> filter P l = l.
Proof. induction 1 as [|x l Hx _ IH]; [done|]. rewrite filter_cons_True by done. by rewrite IH. Qed.

(** ** The interrupt schedule *)

Lemma initialize_room R s : heap R s -> shape s -> (used R s + 63 <= capacity)%nat ->
  wp OhciInitializeInterruptList s (fun st s' =>
    st = EFI_SUCCESS /\ heap R s' /\ intr_lists s' (frame_lists s') /\ forall k, (k < 32)%nat -> length (frame_lists s' k) = 6%nat).
Proof.
  intros Hh Hs Hroom. pose proof (OhciInitializeInterruptList_spec R s Hh Hs) as Hi. unfold wpe, out_of_memory, scarce in Hi. unfold wp.
  destruct (OhciInitializeInterruptList s) as [st s'|w]; [|lia]. destruct Hi as [Hh' [[_ ?]|[-> Hst]]]; [lia|].
  destruct (stage_tree R s s' Hst) as [T Hr]. assert (Hroot : iv s' 5 0 <> 0) by (intros E; apply Hr in E; unfold scarce in E; lia).
  pose proof (intr_lists_init s' T Hroot) as I. do 3 (split; [done|]). intros k Hk. unfold frame_lists. rewrite filter_all.
  - by rewrite length_fmap, length_seq.
  - apply Forall_fmap, Forall_seq. intros d Hd. simpl. apply (il_full _ _ I). apply is_list_shift; [by apply Leaf_lt | lia].
Qed.

(** C11: if the pool has room for 63 EDs,
    the initialisation succeeds and leaves the 32 lists of the frames, each six
    EDs long, which join pairwise so that list [j] of depth [d] is visited by
    exactly the frames whose number ends in the reverse of [j]: every
    [2 ^ (5 - d)] frames. *)
Theorem OhciInitializeInterruptList_correct R s : heap R s -> shape s -> (used R s + 63 <= capacity)%nat ->
  wp OhciInitializeInterruptList s (fun st s' =>
    st = EFI_SUCCESS /\ heap R s' /\ intr_lists s' (frame_lists s') /\ forall k, (k < 32)%nat -> length (frame_lists s' k) = 6%nat).
Proof. apply initialize_room. Qed.

(** Lists that are the same for the 32 frames. *)
Lemma intr_lists_same s Ls Ls' : (forall k, (k < 32)%nat -> Ls' k = Ls k) -> intr_lists s Ls -> intr_lists s Ls'.
Proof.
  intros E [I1 I2 I3 I4 I5 I6 I7]. split; try done.
  - intros k Hk. rewrite E by done. by apply I2.
  - intros d j k Hl Hk. rewrite E by done. by apply I5.
  - intros x i j y z b c Hx Hn Hi Hj. rewrite !E by done. by apply I6.
  - intros x k d Hk. rewrite E by done. by apply I7.
Qed.

(** removing an ED that was attached behind
    the head of a list undoes the attachment: the lists are what they were
    before, the ED is gone, every other ED keeps its contents, and the lists
    keep their invariant. *)
Theorem OhciFreeInterruptEdByEd_correct R s Ls Head Ed : heap R s -> intr_lists s (fun k => after Head Ed (Ls k)) ->
  (forall k, (k < 32)%nat -> Ed ∉ Ls k) -> (exists k, (k < 32)%nat /\ Head ∈ Ls k) -> ~ is_node s Ed ->
  wp (OhciFreeInterruptEdByEd Ed) s (fun r s' => r = EFI_SUCCESS /\ heap R s' /\ intr_lists s' Ls /\ eds s' !! Ed = None /\
    forall p, p <> Ed -> strip <$> eds s' !! p = strip <$> eds s !! p).
Proof.
  intros Hh I HN (k0 & Hk0 & Hin) Hnn. assert (HinE : Ed ∈ after Head Ed (Ls k0)) by (apply after_in; by right).
  destruct (il_forest _ _ I k0 Hk0) as [_ Hc]. destruct (chain_in _ _ _ _ _ Hc HinE) as [HE0 [e He]].
  destruct (hp_ed _ _ Hh Ed e He) as [Hlk _]. pose proof (linkable_u32 Ed Hlk) as Hu.
  assert (Hcd : forall p, condemned (is_ed Ed) s p = bool_decide (p = Ed)).
  { intros p. unfold condemned, is_ed. rewrite Hu. destruct (decide (p = Ed)) as [->|Hp].
    - rewrite He, Z.eqb_refl. by rewrite bool_decide_true.
    - rewrite bool_decide_false, (proj2 (Z.eqb_neq _ _)) by done. by destruct (eds s !! p). }
  assert (Hnode : forall x, is_node s x -> condemned (is_ed Ed) s x = false).
  { intros x Hx. rewrite Hcd. apply bool_decide_false. by intros ->. }
  eapply wp_mono; [apply (OhciFreeInterruptEdByEd_spec R s (fun k => after Head Ed (Ls k)) (fun x => x <> 0 /\ ~ is_node s x) Ed HE0 Hh); [apply I | apply I|]|].
  { apply (intr_lists_removable s _ _ I); [|done]. rewrite Hcd. by apply bool_decide_false. }
  intros r s' [-> Hrm]. pose proof (intr_lists_removed R s _ _ s' I Hnode Hrm) as I'. split; [done|]. split; [apply Hrm|]. split; [|split].
  - eapply intr_lists_same; [|exact I']. intros k Hk. cbn beta. rewrite <- (after_without Head Ed (Ls k)) at 1 by (by apply HN).
    apply list_filter_iff. intros p. rewrite Hcd. destruct (decide (p = Ed)) as [->|]; [by rewrite bool_decide_true | by rewrite bool_decide_false].
  - apply (rm_freed _ _ _ _ _ _ Hrm Ed k0 Hk0 HinE). rewrite Hcd. by apply bool_decide_true.
  - intros p Hp. apply (rm_kept _ _ _ _ _ _ Hrm). intros k Hk _. rewrite Hcd. by apply bool_decide_false.
Qed.

(** freeing the EDs of an endpoint that is
    not the one the list heads carry takes exactly those EDs out of every list
    and out of memory, keeps the contents of the others, and keeps the
    invariant of the lists. *)
Theorem OhciFreeInterruptEdByAddr_correct R s Ls Address EndPoint : heap R s -> intr_lists s Ls ->
  let doomed := fun (_ : Z) t => (FunctionAddress t =? Address) && (EndPointNum t =? EndPoint) in
  (forall x e, is_node s x -> eds s !! x = Some e -> doomed x e = false) ->
  wp (OhciFreeInterruptEdByAddr Address EndPoint) s (fun r s' => r = EFI_SUCCESS /\ heap R s' /\
    intr_lists s' (fun k => filter (fun p => condemned doomed s p = false) (Ls k)) /\
    (forall p k, (k < 32)%nat -> p ∈ Ls k -> condemned doomed s p = true -> eds s' !! p = None) /\
    forall p, (forall k, (k < 32)%nat -> p ∈ Ls k -> condemned doomed s p = false) -> strip <$> eds s' !! p = strip <$> eds s !! p).
Proof.
  intros Hh I doomed Hn. pose proof (heap_null R s Hh) as H0. assert (Hnode : forall x, is_node s x -> condemned doomed s x = false).
  { intros x Hx. unfold condemned. destruct (eds s !! x) as [e|] eqn:E; [by apply Hn | done]. }
  eapply wp_mono; [apply (OhciFreeInterruptEdByAddr_spec R s Ls (fun x => x <> 0 /\ ~ is_node s x) Address EndPoint Hh); [apply I | apply I|]|].
  { apply (intr_lists_removable s _ _ I); [|done]. unfold condemned. by rewrite H0. }
  intros r s' [-> Hrm]. split; [done|]. split; [apply Hrm|]. split; [by eapply intr_lists_removed|]. split; [apply Hrm | apply Hrm].
Qed.

(** ** Queues *)

(** The packets cut a buffer into pieces of the packet size, the last one
    shorter. *)
Lemma packets_cover Max : 0 < Max -> forall n Toggle Addr Left, 0 <= Left <= Z.of_nat n * Max ->
  let ps := packets_of n Toggle Addr Left Max in
  foldr (fun k a => k.2 + a) 0 ps = Left /\ Forall (fun k => 0 < k.2 <= Max) ps /\
  forall i k, ps !! i = Some k -> k.2 = Z.min Max (Left - Z.of_nat i * Max) /\ (0 < Z.of_nat i * Max < Left \/ i = 0%nat).
Proof.
  intros HM n. induction n as [|n IH]; intros Toggle Addr Left HL; cbn [packets_of].
  - simpl. split; [lia|]. split; [done|]. by intros i k.
  - destruct (Z.leb_spec Left 0) as [Hl|Hl]; [simpl; split; [lia|]; split; [done|]; by intros i k|].
    set (Len := if Max <? Left then Max else Left). assert (HLen : Len = Z.min Max Left) by (unfold Len; destruct (Z.ltb_spec Max Left); lia).
    destruct (IH (Z.lxor Toggle 1) (u64 (Addr + Len)) (Left - Len)) as (K1 & K2 & K3); [lia|]. cbv zeta in *.
    cbn [foldr]. simpl. split; [rewrite K1; lia|]. split; [constructor; [simpl; lia | done]|].
    intros [|i] k; simpl; [intros [= <-]; simpl; split; [lia | by right]|]. intros Hk. destruct (K3 i k Hk) as [K4 K5].
    pose proof (proj1 (Forall_lookup _ _) K2 i k Hk) as K6. simpl in K6. split; [lia|]. left. lia.
Qed.

Context {HL : OhciLaws}.

(** behind the setup TD, the queue of a control
    transfer gets a TD per packet of the data, the status TD and the empty
    tail TD, in this order and linked both ways; the packets cover the mapped
    bytes in pieces of the packet size; if the pool refuses a TD, the queue
    built so far is all that has changed. *)
Theorem control_tds_correct R s1 h t L s m DataPid StatusPid Max : 0 < Max -> 0 <= dm_Bytes m -> grown R s1 h [t] L s ->
  wp (control_tds h m DataPid StatusPid Max) s (fun r s' => exists T' L', grown R s1 h T' L' s' /\
    match r with
    | None => exhausted R s'
    | Some e =>
        let ps := transfer_packets m 1 Max in
        T' = t :: (packet_td DataPid <$> ps) ++ [status_td StatusPid zero_td; empty_td zero_td] /\ last L' = Some e /\
        foldr (fun k a => k.2 + a) 0 ps = dm_Bytes m /\
        forall i k, ps !! i = Some k -> k.2 = Z.min Max (dm_Bytes m - Z.of_nat i * Max)
    end).
Proof.
  intros HM HB G. eapply wp_mono; [by eapply control_tds_spec|]. intros r s' (T' & L' & G' & Hr). exists T', L'. split; [done|].
  destruct r as [e|]; [|done]. destruct Hr as [HT Hlast]. split; [done|]. split; [done|]. unfold transfer_packets.
  destruct (packets_cover Max HM (pred (packets (dm_Bytes m) Max)) 1 (dm_Addr m) (dm_Bytes m)) as (K1 & _ & K3).
  { split; [done|]. by apply packets_enough. }
  split; [done|]. intros i k Hk. by apply K3.
Qed.

(** ** Transfers *)


(** the same of a bulk transfer. *)
Theorem OhciBulkTransfer_correct R s Address EndPoint Max Data DataLength DataToggle TimeOut HasResult : heap R s ->
  (forall n, DataLength = Some n -> 0 <= n) ->
  wp (OhciBulkTransfer Address EndPoint Max Data DataLength DataToggle TimeOut HasResult) s (fun r s' =>
    consistent (default 0 DataLength) r /\ heap R s' /\ same_core s s' /\ same_driver s s').
Proof.
  intros Hh HLen. eapply wp_mono; [by apply OhciBulkTransfer_spec|]. intros r s' [Hc D]. split; [done|]. split; [apply D|].
  split; [|apply D]. split; [intros p; apply (du_eds _ _ _ _ _ _ D), not_elem_of_nil | intros p; apply (du_tds _ _ _ _ _ _ D), not_elem_of_nil].
Qed.

End Claims.

(** ** Registers and root hub *)

Section Registers.
Context {B : Build} {H : Type} {HW : OhciHw H}.

(** on a register that reads back what was
    written, a field of the control register that the selector of
    [OhciSetHcControl] names reads back as the value cut to its width, and
    any other field as before. *)
Theorem OhciSetHcControl_correct Field Value (Field' : Z) f (h : H) : Memorylike (u32 (UsbHcBaseAddress + HC_CONTROL)) ->
  find_field HcCONTROL Field' = Some f ->
  wp (OhciSetHcControl Field Value;; OhciGetHcControl Field') h (fun v _ =>
    v = if Z.land Field Field' =? 0 then field_get f (fst (MmioRead32 (u32 (UsbHcBaseAddress + HC_CONTROL)) h)) else wrap f.2 Value).
Proof.
  intros HM Hf. apply update_read; [done | done | | done]. apply Forall_forall. repeat constructor; simpl; lia.
Qed.

Context {HP : DescriptorPool H} {HS : OhciServices H} {HD : OhciDma H}.

(** setting or clearing a feature of a port
    returns on any hardware after at most a hundred polls; it is refused for a
    port that does not exist or a feature it does not know; otherwise it fails
    with a device error, or the port has been seen in the state that was asked
    for, after which only the finishing write was made. *)
Theorem OhciRootHubPortFeature_correct (set : bool) Port Feature (s : ohc H) :
  wp ((if set then OhciSetRootHubPortFeature else OhciClearRootHubPortFeature) Port Feature) s (fun st s' =>
    match port_wait set Port Feature with
    | None => st = EFI_INVALID_PARAMETER \/ (set = false /\ Feature = EfiUsbPortReset /\ st = EFI_SUCCESS)
    | Some (pending, finish) =>
        (st = EFI_INVALID_PARAMETER /\ exists n, number_of_ports s = Ret n s' /\ n <= Port) \/ port_outcome pending finish st s'
    end).
Proof.
  assert (Hseen : forall {A} (c : M (ohc H) A) x, total c -> wp c x (fun a x' => c x = Ret a x')).
  { intros A c x Hc. specialize (Hc x). unfold wp in *. by destruct (c x). }
  assert (Hstart : forall body, (forall n s1, number_of_ports s = Ret n s1 -> Port < n -> wp body s1 (fun st s' =>
      match port_wait set Port Feature with
      | None => st = EFI_INVALID_PARAMETER \/ (set = false /\ Feature = EfiUsbPortReset /\ st = EFI_SUCCESS)
      | Some (pending, finish) => port_outcome pending finish st s'
      end)) -> wp (n ← number_of_ports; if n <=? Port then mret EFI_INVALID_PARAMETER else body) s (fun st s' =>
      match port_wait set Port Feature with
      | None => st = EFI_INVALID_PARAMETER \/ (set = false /\ Feature = EfiUsbPortReset /\ st = EFI_SUCCESS)
      | Some (pending, finish) =>
          (st = EFI_INVALID_PARAMETER /\ exists n, number_of_ports s = Ret n s' /\ n <= Port) \/ port_outcome pending finish st s'
      end)).
  { intros body Hb. apply wp_bind. eapply wp_mono; [apply Hseen, total_ports|]. intros n s1 En. destruct (Z.leb_spec n Port) as [Hle|Hlt].
    - wp_go. destruct (port_wait set Port Feature) as [[pending finish]|]; left; [|done]. split; [done|]. by exists n.
    - eapply wp_mono; [by apply (Hb n s1)|]. intros st s' Hst; cbn beta in Hst. destruct (port_wait set Port Feature) as [[pending finish]|]; [by right | done]. }
  pose proof (port_wait_total set Port Feature) as Ht.
  destruct set; apply Hstart; intros n s1 _ _; unfold port_wait in Ht |- *; clear Hstart Hseen; revert Ht;
    repeat (match goal with |- context [Feature =? ?x] => destruct (Z.eqb_spec Feature x) end; [intros Ht;
      first [by (destruct (Ht _ _ eq_refl) as [Ht1 Ht2]; apply change_port_spec) | by (apply wp_ret; right)] |]);
    intros _; apply wp_ret; by left.
Qed.
End Registers.

(** ** A concrete controller

    Descriptors come from two hundred slots of a page each; the controller
    finishes every TD as soon as a list is filled. *)

Module OhciDemo.
Record bus := { regs : gmap Z Z; slots : gmap Z Z }.

#[export] Instance debug : Build := {| debug_build := true |}.

#[export] Instance hardware : OhciHw bus := {
  UsbHcBaseAddress := 0xFD8C0000;
  MmioRead32 := fun a h => (default 0 (regs h !! a), h);
  MmioWrite32 := fun a v h => (v, {| regs := <[a := u32 v]> (regs h); slots := slots h |});
  Stall := fun _ h => h;
  verify_bound := 1
}.

(** The first free slot. *)
Definition free_slot (h : bus) : Z :=
  default 0 (List.find (fun p => bool_decide (slots h !! p = None)) ((fun i => 4096 * i) <$> seqZ 1 200)).

Definition take (n : Z) (h : bus) : Z * bus :=
  let p := free_slot h in
  if p =? 0 then (0, h) else (p, {| regs := regs h; slots := <[p := n]> (slots h) |}).

Definition give (p : Z) (h : bus) : bus := {| regs := regs h; slots := delete p (slots h) |}.

#[export] Instance descriptors : DescriptorPool bus := {
  pool_alloc := fun n h => let '(p, h) := take n h in Ret p h;
  pool_free := fun p _ h => Ret tt (give p h)
}.

Lemma free_slot_spec h : (free_slot h = 0 /\ (200 <= size (slots h))%nat) \/ (linkable (free_slot h) /\ slots h !! free_slot h = None).
Proof.
  unfold free_slot. destruct (List.find _ _) as [p|] eqn:E; [right | left].
  - apply find_some in E as [Hin E]. apply bool_decide_eq_true in E. split; [|done]. apply list_elem_of_In, list_elem_of_fmap in Hin as (i & -> & Hi).
    apply elem_of_seqZ in Hi. split; [simpl; lia|]. simpl. replace (4096 * i) with (256 * i * 16) by lia. by apply Z.mod_mul.
  - split; [done|]. set (l := (fun i => 4096 * i) <$> seqZ 1 200). assert (Hn : NoDup l) by (apply NoDup_fmap_2; [intros x y; lia | apply NoDup_seqZ]).
    assert (Hl : length l = 200%nat) by (unfold l; rewrite length_fmap, length_seqZ; lia).
    rewrite <- Hl, <- (size_list_to_set (C := gset Z) l Hn), <- size_dom. apply subseteq_size. intros p Hp. apply elem_of_list_to_set in Hp.
    apply elem_of_dom. pose proof (find_none _ _ E p ltac:(by apply list_elem_of_In)) as Hf. apply bool_decide_eq_false in Hf.
    by destruct (slots h !! p).
Qed.

Lemma take_spec n h : (fst (take n h) = 0 /\ snd (take n h) = h /\ (200 <= size (slots h))%nat) \/
  (linkable (fst (take n h)) /\ slots h !! fst (take n h) = None /\ slots (snd (take n h)) = <[fst (take n h) := n]> (slots h) /\
   regs (snd (take n h)) = regs h).
Proof.
  unfold take. destruct (free_slot_spec h) as [[-> Hs]|[Hlk Hs]]; [by left|]. right. rewrite (proj2 (Z.eqb_neq _ _)) by (destruct Hlk; lia). done.
Qed.

#[export] Program Instance pool : PoolContract bus := {
  live := fun A h => slots h = A;
  capacity := 200
}.
Next Obligation.
  intros A n h <- Hn. unfold wp, pool_alloc, descriptors. pose proof (take_spec n h) as Ht. destruct (take n h) as [p h']. simpl in Ht.
  destruct Ht as [(-> & -> & _)|(H1 & H2 & H3 & _)]; [by left | by right].
Qed.
Next Obligation.
  intros A n h <- Hn Hs. unfold wp, pool_alloc, descriptors. pose proof (take_spec n h) as Ht. destruct (take n h) as [p h']. simpl in Ht.
  destruct Ht as [(_ & _ & ?)|([[? _] _] & _)]; lia.
Qed.
Next Obligation. intros A n p h <- Hp. done. Qed.

#[export] Instance services : OhciServices bus := {
  DmaUnmap := fun _ h => h;
  DmaFreeBuffer := fun _ _ h => h;
  FreePool := give;
  callback := fun _ _ _ _ _ => mret tt
}.

(** A list that was filled is worked off: its TDs get condition code 0. *)
Definition finish_td (t : TD_DESCRIPTOR) : TD_DESCRIPTOR :=
  td_with_word0 (Reserved t) (BufferRounding t) (DirPID t) (DelayInterrupt t) (ErrorCount t) 0 t.

Definition work (s : ohc bus) : ohc bus :=
  let a := 0xFD8C0000 + HC_COMMAND_STATUS in
  if default 0 (regs (hw s) !! a) =? 0 then s
  else set_tds (finish_td <$> tds s) (set_hw {| regs := <[a := 0]> (regs (hw s)); slots := slots (hw s) |} s).

#[export] Instance dma : OhciDma bus := {
  DmaMap := fun _ p n h => ({| dm_Status := EFI_SUCCESS; dm_Bytes := n; dm_Addr := p; dm_Mapping := 1 |}, h);
  DmaAllocateBuffer := fun n h => let '(p, h) := take (4096 * n) h in ((if p =? 0 then EFI_OUT_OF_RESOURCES else EFI_SUCCESS, p), h);
  AllocatePool := take;
  CopyMem := fun _ _ _ h => h;
  hc_progress := work
}.

Lemma finish_core t : td_core (finish_td t) = td_core t.
Proof. unfold td_core, finish_td, td_with_word0. simpl. by rewrite !wrap_wrap by done. Qed.

#[export] Instance laws : OhciLaws (H := bus).
Proof.
  split; try (intros; done).
  - intros r v h Hr Hv _. cbn. rewrite lookup_insert_eq. by apply wrap_small.
  - intros r n A h _ Hl. cbn in Hl. unfold wp, pool_alloc, descriptors. pose proof (take_spec n h) as Ht. destruct (take n h) as [p h'].
    simpl in Ht. destruct Ht as [(_ & -> & _)|(_ & _ & _ & E)]; [done|]. cbn. by rewrite E.
  - unfold verify_bound, hardware. lia.
  - intros s. unfold hc_progress, dma, work. destruct (_ =? 0); [by split|]. split; try done. intros p. simpl. rewrite lookup_fmap.
    destruct (tds s !! p) as [t|]; [|done]. simpl. by rewrite finish_core.
Qed.

#[export] Instance pool_laws : OhciPoolLaws bus.
Proof.
  split. intros A n h <- Hn. cbn. destruct (take_spec n h) as [(H1 & H2 & _)|([[H1 _] _] & H2 & H3 & _)]; [left | right; done]. by rewrite H1, H2.
Qed.

(** The controller before its initialisation. *)
Definition cold : ohc bus :=
  {| hw := {| regs := ∅; slots := ∅ |}; eds := ∅; tds := ∅; entries := ∅; InterruptContextList := 0;
     HccaInterruptTable := replicate 32 0; IntervalList := replicate 6 (replicate 32 0); tpl := 4 |}.

Lemma cold_heap : heap ∅ cold.
Proof. split; [exists ∅; split; [done|]; intros p; done | |]; intros p d Hp; simpl in Hp; by rewrite lookup_empty in Hp. Qed.

Lemma cold_shape : shape cold.
Proof. split; [done|]. split; [done|]. by repeat constructor. Qed.

(** The controller after it. *)
Definition warm : ohc bus := final cold (OhciInitializeInterruptList cold).

Lemma warm_run : OhciInitializeInterruptList cold = Ret EFI_SUCCESS warm /\ heap ∅ warm /\ intr_lists warm (frame_lists warm).
Proof.
  destruct (wp_returns _ _ _ (initialize_room ∅ cold cold_heap cold_shape ltac:(vm_compute; lia))) as (st & s & E & -> & Hh & I & _).
  assert (Hw : warm = s) by (unfold warm; rewrite E; exact eq_refl). rewrite Hw. split; [exact E|]. split; [exact Hh | exact I].
Qed.

Lemma warm_contexts : contexts ∅ warm [].
Proof.
  assert (E : entries warm = ∅ /\ InterruptContextList warm = 0) by (vm_compute; done). destruct E as [E1 E2].
  split; [intros p e Hp; rewrite E1 in Hp; by rewrite lookup_empty in Hp | rewrite E2; constructor].
Qed.

(** A keyboard is polled every eight frames. *)
Definition poll := OhciInterruptTransfer (B := debug) 3 0x81 false 8 true (Some 0) 10 65536 8 77 88 true.
Definition polled : ohc bus := final warm (poll warm).

Lemma polled_run : exists d j L R C T ctx r, poll warm = Ret r polled /\
  scheduled ∅ warm (frame_lists warm) [] 3 1 8 10 77 T ctx r polled d j L R C.
Proof.
  destruct warm_run as (_ & Hh & I).
  destruct (wp_returns _ _ _ (OhciInterruptTransfer_spec ∅ warm (frame_lists warm) [] 3 0x81 false 8 (Some 0) 10 65536 8 77 88 true Hh I warm_contexts
    ltac:(lia) ltac:(lia) ltac:(lia))) as (r & s & E & Hs).
  assert (Hp : polled = s) by (unfold polled, poll; by rewrite E).
  destruct Hs as [((Ee & _) & _)|(_ & _ & d & j & L & R & C & Hs)].
  - exfalso. assert (Hsz : (size (eds polled) =? size (eds warm))%nat = false) by (vm_compute; reflexivity). rewrite Hp, Ee in Hsz.
    by rewrite Nat.eqb_refl in Hsz.
  - rewrite Hp. eexists d, j, L, R, C, _, _, r. split; [exact E | exact Hs].
Qed.

Lemma OhciInitializeInterruptList_correct_witness : (used ∅ cold + 63 <= capacity)%nat /\
  wp OhciInitializeInterruptList cold (fun st s' =>
    st = EFI_SUCCESS /\ heap ∅ s' /\ intr_lists s' (frame_lists s') /\ forall k, (k < 32)%nat -> length (frame_lists s' k) = 6%nat).
Proof.
  split; [vm_compute; lia|]. apply OhciInitializeInterruptList_correct; [exact cold_heap | exact cold_shape | vm_compute; lia].
Defined.


(** No list head is new. *)
Lemma new_not_node (s s' : ohc bus) Ls x : intr_lists s Ls -> eds s !! x = None -> IntervalList s' = IntervalList s -> ~ is_node s' x.
Proof.
  intros I Hx E (d & j & Hl & <-). assert (Hiv : iv s' d j = iv s d j) by (unfold iv; by rewrite E). rewrite Hiv in Hx.
  destruct (node_chain s Ls d j I Hl) as (k & q & W & _ & _ & Hc). destruct (chain_in _ _ _ _ (iv s d j) Hc ltac:(left)) as [_ [e He]]. congruence.
Qed.

Lemma OhciFreeInterruptEdByEd_correct_witness : exists Head Ed, eds warm !! Ed = None /\
  wp (OhciFreeInterruptEdByEd Ed) polled (fun r s' => r = EFI_SUCCESS /\ (exists R, heap R s') /\ intr_lists s' (frame_lists warm) /\ eds s' !! Ed = None /\
    forall p, p <> Ed -> strip <$> eds s' !! p = strip <$> eds polled !! p) /\ Head ∈ frame_lists warm 0%nat.
Proof.
  destruct polled_run as (d & j & L & R & C & T & ctx & r & _ & S). destruct warm_run as (_ & Hh & I).
  exists (hcca warm 0%nat), (it_Ed r). split; [apply (sc_new _ _ _ _ _ _ _ _ _ _ _ _ _ _ _ _ _ _ S)|].
  assert (Hfree : forall k, (k < 32)%nat -> it_Ed r ∉ frame_lists warm k).
  { intros k Hk Hin. destruct (il_forest _ _ I k Hk) as [_ Hc]. destruct (chain_in _ _ _ _ _ Hc Hin) as [_ [e He]].
    pose proof (sc_new _ _ _ _ _ _ _ _ _ _ _ _ _ _ _ _ _ _ S) as Hn. congruence. }
  destruct (is_list_visited d j (sc_list _ _ _ _ _ _ _ _ _ _ _ _ _ _ _ _ _ _ S)) as (k & Hk & Hv).
  apply (il_visit _ _ I d j k (sc_list _ _ _ _ _ _ _ _ _ _ _ _ _ _ _ _ _ _ S) Hk) in Hv. split.
  - eapply wp_mono; [apply (OhciFreeInterruptEdByEd_correct R polled (frame_lists warm) (iv warm d j) (it_Ed r))|].
    + apply S.
    + apply S.
    + exact Hfree.
    + by exists k.
    + apply (new_not_node warm polled (frame_lists warm)); [exact I | apply S | apply S].
    + intros r' s' (K1 & K2 & K3 & K4 & K5). split; [exact K1|]. split; [by exists R|]. split; [exact K3|]. split; [exact K4 | exact K5].
  - destruct (il_forest _ _ I 0%nat ltac:(lia)) as [H0 Hc]. destruct (chain_head _ _ _ _ Hc H0) as (e & l & _ & -> & _). left.
Defined.

(** The heads of lists carry address 0. *)
Lemma heads_unaddressed x e : is_node polled x -> eds polled !! x = Some e -> (FunctionAddress e =? 3) && (EndPointNum e =? 1) = false.
Proof.
  intros (d & j & [Hd Hj] & <-) He.
  assert (G : forallb (fun d => forallb (fun j => match eds polled !! iv polled d j with
    | Some e => negb ((FunctionAddress e =? 3) && (EndPointNum e =? 1)) | None => true end) (seq 0 (Nat.shiftr 32 d))) (seq 0 6) = true)
    by (vm_compute; reflexivity).
  rewrite forallb_forall in G. specialize (G d (proj2 (in_seq 6 0 d) ltac:(lia))).
  rewrite forallb_forall in G. specialize (G j (proj2 (in_seq (Nat.shiftr 32 d) 0 j) ltac:(lia))). rewrite He in G. by apply negb_true_iff in G.
Qed.

Lemma OhciFreeInterruptEdByAddr_correct_witness : exists R Ls,
  let doomed := fun (_ : Z) t => (FunctionAddress t =? 3) && (EndPointNum t =? 1) in
  wp (OhciFreeInterruptEdByAddr 3 1) polled (fun r s' => r = EFI_SUCCESS /\ heap R s' /\
    intr_lists s' (fun k => filter (fun p => condemned doomed polled p = false) (Ls k)) /\
    (forall p k, (k < 32)%nat -> p ∈ Ls k -> condemned doomed polled p = true -> eds s' !! p = None) /\
    forall p, (forall k, (k < 32)%nat -> p ∈ Ls k -> condemned doomed polled p = false) -> strip <$> eds s' !! p = strip <$> eds polled !! p).
Proof.
  destruct polled_run as (d & j & L & R & C & T & ctx & r & _ & S). exists R, (fun k => after (iv warm d j) (it_Ed r) (frame_lists warm k)).
  apply OhciFreeInterruptEdByAddr_correct; [apply S | apply S | exact heads_unaddressed].
Defined.


Lemma OhciBulkTransfer_correct_witness :
  wp (OhciBulkTransfer 1 0x82 64 8192 (Some 200) (Some 0) 5 true) warm (fun r s' =>
    consistent 200 r /\ heap ∅ s' /\ same_core warm s' /\ same_driver warm s').
Proof.
  apply (OhciBulkTransfer_correct ∅ warm 1 0x82 64 8192 (Some 200) (Some 0) 5 true); [apply warm_run|].
  intros n [= <-]. lia.
Defined.

(** The two transfers succeed here. *)
Example transfers_run :
  match OhciControlTransfer 1 false 8 4096 EfiUsbDataIn 8192 (Some 18) 5 true warm with Ret r _ => Some (xf_Status r, xf_DataLength r) | Stop _ => None end =
    Some (EFI_SUCCESS, 18) /\
  match OhciBulkTransfer 1 0x82 64 8192 (Some 200) (Some 0) 5 true warm with Ret r _ => Some (xf_Status r, xf_DataToggle r) | Stop _ => None end =
    Some (EFI_SUCCESS, 0).
Proof. split; vm_compute; reflexivity. Qed.

(** A queue of a setup TD. *)
Lemma setup_queue : exists h L s, grown ∅ warm h [setup_td 4096 zero_td] L s.
Proof.
  destruct warm_run as (_ & Hh & _).
  destruct (wp_returns _ _ _ (create_fill ∅ warm 0 [] [] warm (setup_td 4096) (grown_start ∅ warm Hh))) as (r & s & E & [(-> & _)|[Hr Hf]]).
  - exfalso. assert (G : match OhciCreateTD warm with Ret r _ => r =? 0 | Stop _ => true end = false) by (vm_compute; reflexivity). by rewrite E in G.
  - destruct (wp_returns _ _ _ Hf) as (u & s' & _ & Hlo). exists r, [r], s'. eapply grown_first; [by apply grown_start | exact Hlo | apply setup_content].
Qed.

Lemma control_tds_correct_witness : exists h t (s : ohc bus) m, dm_Bytes m = 18 /\
  wp (control_tds h m TD_IN_PID TD_OUT_PID 8) s (fun r s' => exists T' L', grown ∅ warm h T' L' s' /\
    match r with
    | None => exhausted ∅ s'
    | Some e =>
        let ps := transfer_packets m 1 8 in
        T' = t :: (packet_td TD_IN_PID <$> ps) ++ [status_td TD_OUT_PID zero_td; empty_td zero_td] /\ last L' = Some e /\
        foldr (fun k a => k.2 + a) 0 ps = dm_Bytes m /\
        forall i k, ps !! i = Some k -> k.2 = Z.min 8 (dm_Bytes m - Z.of_nat i * 8)
    end).
Proof.
  destruct setup_queue as (h & L & s & G). exists h, (setup_td 4096 zero_td), s, {| dm_Status := EFI_SUCCESS; dm_Bytes := 18; dm_Addr := 8192; dm_Mapping := 1 |}.
  split; [done|]. apply (control_tds_correct ∅ warm h (setup_td 4096 zero_td) L s); [lia | simpl; lia | exact G].
Defined.

#[export] Instance control_register : Memorylike (u32 (UsbHcBaseAddress + HC_CONTROL)).
Proof. split; [done|]. intros v h. cbn. by rewrite lookup_insert_eq. Qed.

Lemma OhciSetHcControl_correct_witness :
  wp (OhciSetHcControl HC_FUNCTIONAL_STATE HC_STATE_OPERATIONAL;; OhciGetHcControl HC_FUNCTIONAL_STATE) (hw warm) (fun v _ => v = 2).
Proof.
  refine (OhciSetHcControl_correct HC_FUNCTIONAL_STATE HC_STATE_OPERATIONAL HC_FUNCTIONAL_STATE (6, 2) (hw warm) _ _). exact eq_refl.
Defined.

(** A platform that keeps account of what it hands out, and has no timers. *)
Definition resource_key (r : resource) : Z :=
  match r with
  | R_DevicePath => -1 | R_Device => -2 | R_MemPool => -3 | R_Hcca => -4 | R_HccaMap => -5 | R_Protocols => -6 | R_Timer => -7 | R_ExitEvent => -8
  end.

#[export] Instance accounting : OhciBoot bus := {
  acquire := fun r h =>
    if decide (r = R_Timer) then (EFI_OUT_OF_RESOURCES, h)
    else (EFI_SUCCESS, {| regs := regs h; slots := <[resource_key r := 1]> (slots h) |});
  release := fun r h => if slots h !! resource_key r then Ret tt (give (resource_key r) h) else Stop Fault;
  mapped := fun _ => 4096;
  hcca_block := 0x10000;
  set_timer := fun _ h => (EFI_SUCCESS, h);
  stack_status := 0
}.

(** When the timer cannot be created, the common tail of
    [OhciInitialiseController] frees the HCCA a second time, after
    [OhciFreeDev] has freed the device with all it held. *)
Lemma OhciInitialiseController_frees_twice : OhciInitialiseController cold = Stop Fault.
Proof. vm_compute. reflexivity. Qed.
End OhciDemo.
