(* ===== verification/SdMmc.v ===== *)
(** * SD and eMMC cards: data

    Model of [src/Microsoft/MsPkg/Drivers/SdMmcDxe] (data of [SdMmc.h] and
    [SdMmcHw.h], command table of [Protocol.c]) and of the host controller
    protocol it drives ([Include/Protocol/Sdhc.h]).  The host controllers, the
    cards in them and the boot services are the class [Sdhc]. *)

From Stdlib Require Import ZArith Lia.
From stdpp Require Import base list numbers option gmap.
From S2P Require Import Prelude Memory.

(** ** Host controller protocol *)

Inductive SD_COMMAND_TYPE := SdCommandTypeUndefined | SdCommandTypeSuspend | SdCommandTypeResume | SdCommandTypeAbort.
Inductive SD_COMMAND_CLASS := SdCommandClassUndefined | SdCommandClassStandard | SdCommandClassApp.
Inductive SD_RESPONSE_TYPE :=
| SdResponseTypeUndefined | SdResponseTypeNone | SdResponseTypeR1 | SdResponseTypeR1B | SdResponseTypeR2
| SdResponseTypeR3 | SdResponseTypeR4 | SdResponseTypeR5 | SdResponseTypeR5B | SdResponseTypeR6.
Inductive SD_TRANSFER_TYPE :=
| SdTransferTypeUndefined | SdTransferTypeNone | SdTransferTypeSingleBlock | SdTransferTypeMultiBlock
| SdTransferTypeMultiBlockNoStop.
Inductive SD_TRANSFER_DIRECTION := SdTransferDirectionUndefined | SdTransferDirectionRead | SdTransferDirectionWrite.
Inductive SD_BUS_WIDTH := SdBusWidthUndefined | SdBusWidth1Bit | SdBusWidth4Bit | SdBusWidth8Bit.
Inductive SDHC_RESET_TYPE := SdhcResetTypeUndefined | SdhcResetTypeAll | SdhcResetTypeCmd | SdhcResetTypeData.

#[export] Instance SD_COMMAND_TYPE_eq_dec : EqDecision SD_COMMAND_TYPE.
Proof. solve_decision. Defined.
#[export] Instance SD_COMMAND_CLASS_eq_dec : EqDecision SD_COMMAND_CLASS.
Proof. solve_decision. Defined.
#[export] Instance SD_RESPONSE_TYPE_eq_dec : EqDecision SD_RESPONSE_TYPE.
Proof. solve_decision. Defined.
#[export] Instance SD_TRANSFER_TYPE_eq_dec : EqDecision SD_TRANSFER_TYPE.
Proof. solve_decision. Defined.
#[export] Instance SD_TRANSFER_DIRECTION_eq_dec : EqDecision SD_TRANSFER_DIRECTION.
Proof. solve_decision. Defined.
#[export] Instance SD_BUS_WIDTH_eq_dec : EqDecision SD_BUS_WIDTH.
Proof. solve_decision. Defined.

Record SD_COMMAND := {
  Index : Z;
  Type_ : SD_COMMAND_TYPE;
  Class_ : SD_COMMAND_CLASS;
  ResponseType : SD_RESPONSE_TYPE;
  TransferType : SD_TRANSFER_TYPE;
  TransferDirection : SD_TRANSFER_DIRECTION
}.

Record SD_COMMAND_XFR_INFO := { XfrBlockSize : Z; XfrBlockCount : Z; XfrBuffer : Z }.

(** The protocols the driver installs on the handle of a slot. *)
Inductive PROTOCOL := gEfiBlockIoProtocol | gEfiDevicePathProtocol | gEfiRpmbIoProtocol.

#[export] Instance PROTOCOL_eq_dec : EqDecision PROTOCOL.
Proof. solve_decision. Defined.

(** [H]: the host controllers with their cards, and the boot services.  The
    first argument of a host operation is the host ([HostExt]); buffers are
    addresses in the memory [mem]. *)
Class Sdhc (H : Type) := {
  GetCapabilities : Z -> H -> Z * Z;
  SoftwareReset : Z -> SDHC_RESET_TYPE -> H -> Z * H;
  SetClock : Z -> Z -> H -> Z * H;
  SetBusWidth : Z -> SD_BUS_WIDTH -> H -> Z * H;
  IsCardPresent : Z -> H -> bool * H;
  IsReadOnly : Z -> H -> bool * H;
  SendCommand : Z -> SD_COMMAND -> Z -> option SD_COMMAND_XFR_INFO -> mem -> H -> Z * mem * H;
  (** the words stored at the start of the response buffer *)
  ReceiveResponse : Z -> SD_COMMAND -> H -> Z * list Z * H;
  ReadBlockData : Z -> Z -> Z -> mem -> H -> Z * mem * H;
  WriteBlockData : Z -> Z -> Z -> mem -> H -> Z * H;
  Cleanup : Z -> H -> H;
  Stall : Z -> H -> H;
  (** handle, protocol *)
  InstallProtocol : Z -> PROTOCOL -> H -> Z * H;
  UninstallProtocol : Z -> PROTOCOL -> H -> Z * H;
  LocateRpmbIo : H -> Z * H;
  (** whether memory for the text was available; it is freed at the end *)
  ConvertDevicePathToText : H -> bool * H;
  (** controller handle; status and interface *)
  OpenSdhcProtocol : Z -> H -> Z * Z * H;
  (** controller handle, agent handle, controller handle *)
  CloseProtocol : Z -> Z -> Z -> H -> Z * H;
  AllocatePool : Z -> H -> Z * H;
  FreePool : Z -> H -> H
}.

(** ** Cards: SdMmcHw.h *)

Definition SD_BLOCK_LENGTH_BYTES : Z := 512.
Definition SD_IDENT_MODE_CLOCK_FREQ_HZ : Z := 400000.
Definition MMC_HIGH_SPEED_MODE_CLOCK_FREQ_HZ : Z := 52000000.
Definition SDMMC_POLL_WAIT_COUNT : nat := 200.
Definition SDMMC_POLL_WAIT_TIME_US : Z := 10000.
Definition SDMMC_ERROR_RECOVERY_ATTEMPT_THRESHOLD : Z := 3.
Definition MMC_MIN_SUPPORTED_SPEC_VERS : Z := 4.
Definition SD_OCR_HIGH_VOLTAGE_WINDOW : Z := 0x00FF8000.
Definition SdOcrAccessSectorMode : Z := 2.
Definition SD_CMD8_VOLTAGE_27_36 : Z := 1.

Definition EFI_WRITE_PROTECTED : Z := ENCODE_ERROR 8.
Definition EFI_NO_MEDIA : Z := ENCODE_ERROR 12.
Definition EFI_MEDIA_CHANGED : Z := ENCODE_ERROR 13.
Definition EFI_TIMEOUT : Z := ENCODE_ERROR 18.
Definition EFI_ALREADY_STARTED : Z := ENCODE_ERROR 20.

Inductive CARD_SPEED_MODE := CardSpeedModeUndefined | CardSpeedModeNormalSpeed | CardSpeedModeHighSpeed.
Inductive CARD_FUNCTION :=
| CardFunctionUnknown | CardFunctionSd | CardFunctionSdio | CardFunctionComboSdSdio | CardFunctionMmc.

#[export] Instance CARD_SPEED_MODE_eq_dec : EqDecision CARD_SPEED_MODE.
Proof. solve_decision. Defined.
#[export] Instance CARD_FUNCTION_eq_dec : EqDecision CARD_FUNCTION.
Proof. solve_decision. Defined.

(** [CARD_STATUS]; [CardStateTran]. *)
Definition READY_FOR_DATA (CardStatus : Z) : bool := Z.testbit CardStatus 8.
Definition CURRENT_STATE (CardStatus : Z) : Z := Z.land (Z.shiftr CardStatus 9) 0xF.
Definition CardStateTran : Z := 4.
Definition MMC_CARD_STATUS_ERROR_MASK : Z := 0xFDFFA080.
Definition SD_CARD_STATUS_ERROR_MASK : Z := 0xFDF9A008.

(** Bits [hi] to [lo] of a register that is kept as its bytes from bit [first]
    on. *)
Definition bits (first hi lo : Z) (reg : list Z) : Z :=
  Z.land (Z.shiftr (le_val reg) (lo - first)) (Z.ones (hi - lo + 1)).

(** Fields of the CSD, which starts at bit 8 ([SD_CSD], [SD_CSD_2], [MMC_CSD]). *)
Definition CSD_STRUCTURE (Csd : list Z) : Z := bits 8 127 126 Csd.
Definition C_SIZE_MULT (Csd : list Z) : Z := bits 8 49 47 Csd.
Definition C_SIZELow2 (Csd : list Z) : Z := bits 8 63 62 Csd.
Definition C_SIZEHigh10 (Csd : list Z) : Z := bits 8 73 64 Csd.
Definition C_SIZE (Csd : list Z) : Z := bits 8 69 48 Csd.
Definition READ_BL_LEN (Csd : list Z) : Z := bits 8 83 80 Csd.
Definition TRAN_SPEED (Csd : list Z) : Z := bits 8 103 96 Csd.
Definition SPEC_VERS (Csd : list Z) : Z := bits 8 125 122 Csd.

(** The serial number in [SD_CID] and [MMC_CID]. *)
Definition SD_PSN (Cid : list Z) : Z := bits 8 55 24 Cid.
Definition MMC_PSN (Cid : list Z) : Z := bits 8 47 16 Cid.

(** Bytes of [MMC_EXT_CSD]. *)
Definition ext_byte (ExtCsd : list Z) (i : nat) : Z := nth i ExtCsd 0.
Definition RpmbSizeMult (ExtCsd : list Z) : Z := ext_byte ExtCsd 168.
Definition PartitionConfig (ExtCsd : list Z) : Z := ext_byte ExtCsd 179.
Definition HighSpeedTiming (ExtCsd : list Z) : Z := ext_byte ExtCsd 185.
Definition PowerClass (ExtCsd : list Z) : Z := ext_byte ExtCsd 187.
Definition PowerClass52Mhz36V (ExtCsd : list Z) : Z := ext_byte ExtCsd 202.
Definition PowerClass26Mhz36V (ExtCsd : list Z) : Z := ext_byte ExtCsd 203.
Definition SectorCount (ExtCsd : list Z) : Z := le_val (take 4 (drop 212 ExtCsd)).
Definition ReliableWriteSectorCount (ExtCsd : list Z) : Z := ext_byte ExtCsd 222.

Definition MMC_EXT_CSD_POWER_CLASS_4BIT (X : Z) : Z := Z.land X 0xF.
Definition MMC_EXT_CSD_POWER_CLASS_8BIT (X : Z) : Z := Z.shiftr X 4.

(** [MMC_EXT_CSD_PARTITION_CONFIG]. *)
Definition MmcExtCsdPartitionAccessUserArea : Z := 0.
Definition MmcExtCsdPartitionAccessRpmb : Z := 3.
Definition PARTITION_ACCESS (PartConfig : Z) : Z := Z.land PartConfig 0x7.
Definition set_PARTITION_ACCESS (PartConfig Partition : Z) : Z := Z.lor (Z.land PartConfig 0xF8) (Z.land Partition 0x7).

(** [MMC_SWITCH_CMD_ARG]. *)
Definition MmcExtCsdBitIndexPartitionConfig : Z := 179.
Definition MmcExtCsdBitIndexBusWidth : Z := 183.
Definition MmcExtCsdBitIndexHsTiming : Z := 185.
Definition MmcSwitchCmdAccessTypeWriteByte : Z := 3.
Definition MmcExtCsdBusWidth4Bit : Z := 1.
Definition MmcExtCsdBusWidth8Bit : Z := 2.
Definition MMC_SWITCH_CMD_ARG (Access Idx Value : Z) : Z :=
  Z.lor (Z.shiftl (Z.land Access 0x3) 24) (Z.lor (Z.shiftl (Z.land Idx 0xFF) 16) (Z.shiftl (Z.land Value 0xFF) 8)).

(** [CARD_INFO]; the registers of SD and MMC cards share their memory: [Scr] is
    the first eight bytes of [ExtCsd]. *)
Record CARD_INFO := {
  RCA : Z;
  CardFunction : CARD_FUNCTION;
  HasExtendedOcr : bool;
  HighCapacity : bool;
  ByteCapacity : Z;
  CurrentSpeedMode : CARD_SPEED_MODE;
  Ocr : Z;
  Cid : list Z;
  Csd : list Z;
  ExtCsd : list Z
}.
Definition set_RCA (v : Z) (i : CARD_INFO) : CARD_INFO :=
  {| RCA := v; CardFunction := CardFunction i; HasExtendedOcr := HasExtendedOcr i; HighCapacity := HighCapacity i; ByteCapacity := ByteCapacity i;
     CurrentSpeedMode := CurrentSpeedMode i; Ocr := Ocr i; Cid := Cid i; Csd := Csd i; ExtCsd := ExtCsd i |}.
Definition set_CardFunction (v : CARD_FUNCTION) (i : CARD_INFO) : CARD_INFO :=
  {| RCA := RCA i; CardFunction := v; HasExtendedOcr := HasExtendedOcr i; HighCapacity := HighCapacity i; ByteCapacity := ByteCapacity i;
     CurrentSpeedMode := CurrentSpeedMode i; Ocr := Ocr i; Cid := Cid i; Csd := Csd i; ExtCsd := ExtCsd i |}.
Definition set_HasExtendedOcr (v : bool) (i : CARD_INFO) : CARD_INFO :=
  {| RCA := RCA i; CardFunction := CardFunction i; HasExtendedOcr := v; HighCapacity := HighCapacity i; ByteCapacity := ByteCapacity i;
     CurrentSpeedMode := CurrentSpeedMode i; Ocr := Ocr i; Cid := Cid i; Csd := Csd i; ExtCsd := ExtCsd i |}.
Definition set_HighCapacity (v : bool) (i : CARD_INFO) : CARD_INFO :=
  {| RCA := RCA i; CardFunction := CardFunction i; HasExtendedOcr := HasExtendedOcr i; HighCapacity := v; ByteCapacity := ByteCapacity i;
     CurrentSpeedMode := CurrentSpeedMode i; Ocr := Ocr i; Cid := Cid i; Csd := Csd i; ExtCsd := ExtCsd i |}.
Definition set_ByteCapacity (v : Z) (i : CARD_INFO) : CARD_INFO :=
  {| RCA := RCA i; CardFunction := CardFunction i; HasExtendedOcr := HasExtendedOcr i; HighCapacity := HighCapacity i; ByteCapacity := v;
     CurrentSpeedMode := CurrentSpeedMode i; Ocr := Ocr i; Cid := Cid i; Csd := Csd i; ExtCsd := ExtCsd i |}.
Definition set_CurrentSpeedMode (v : CARD_SPEED_MODE) (i : CARD_INFO) : CARD_INFO :=
  {| RCA := RCA i; CardFunction := CardFunction i; HasExtendedOcr := HasExtendedOcr i; HighCapacity := HighCapacity i; ByteCapacity := ByteCapacity i;
     CurrentSpeedMode := v; Ocr := Ocr i; Cid := Cid i; Csd := Csd i; ExtCsd := ExtCsd i |}.
Definition set_Ocr (v : Z) (i : CARD_INFO) : CARD_INFO :=
  {| RCA := RCA i; CardFunction := CardFunction i; HasExtendedOcr := HasExtendedOcr i; HighCapacity := HighCapacity i; ByteCapacity := ByteCapacity i;
     CurrentSpeedMode := CurrentSpeedMode i; Ocr := v; Cid := Cid i; Csd := Csd i; ExtCsd := ExtCsd i |}.
Definition set_Cid (v : list Z) (i : CARD_INFO) : CARD_INFO :=
  {| RCA := RCA i; CardFunction := CardFunction i; HasExtendedOcr := HasExtendedOcr i; HighCapacity := HighCapacity i; ByteCapacity := ByteCapacity i;
     CurrentSpeedMode := CurrentSpeedMode i; Ocr := Ocr i; Cid := v; Csd := Csd i; ExtCsd := ExtCsd i |}.
Definition set_Csd (v : list Z) (i : CARD_INFO) : CARD_INFO :=
  {| RCA := RCA i; CardFunction := CardFunction i; HasExtendedOcr := HasExtendedOcr i; HighCapacity := HighCapacity i; ByteCapacity := ByteCapacity i;
     CurrentSpeedMode := CurrentSpeedMode i; Ocr := Ocr i; Cid := Cid i; Csd := v; ExtCsd := ExtCsd i |}.
Definition set_ExtCsd (v : list Z) (i : CARD_INFO) : CARD_INFO :=
  {| RCA := RCA i; CardFunction := CardFunction i; HasExtendedOcr := HasExtendedOcr i; HighCapacity := HighCapacity i; ByteCapacity := ByteCapacity i;
     CurrentSpeedMode := CurrentSpeedMode i; Ocr := Ocr i; Cid := Cid i; Csd := Csd i; ExtCsd := v |}.

Definition no_card : CARD_INFO :=
  {| RCA := 0; CardFunction := CardFunctionUnknown; HasExtendedOcr := false; HighCapacity := false; ByteCapacity := 0;
     CurrentSpeedMode := CardSpeedModeUndefined; Ocr := 0; Cid := replicate 15 0; Csd := replicate 15 0; ExtCsd := replicate 512 0 |}.
Definition Scr (i : CARD_INFO) : list Z := take 8 (ExtCsd i).
Definition set_Scr (v : list Z) (i : CARD_INFO) : CARD_INFO := set_ExtCsd (v ++ drop 8 (ExtCsd i)) i.

(** ** Instances: SdMmc.h *)

Record EFI_BLOCK_IO_MEDIA := {
  MediaId : Z;
  RemovableMedia : bool;
  MediaPresent : bool;
  LogicalPartition : bool;
  ReadOnly : bool;
  WriteCaching : bool;
  BlockSize : Z;
  IoAlign : Z;
  LastBlock : Z
}.
Definition set_MediaId (v : Z) (i : EFI_BLOCK_IO_MEDIA) : EFI_BLOCK_IO_MEDIA :=
  {| MediaId := v; RemovableMedia := RemovableMedia i; MediaPresent := MediaPresent i; LogicalPartition := LogicalPartition i; ReadOnly := ReadOnly i;
     WriteCaching := WriteCaching i; BlockSize := BlockSize i; IoAlign := IoAlign i; LastBlock := LastBlock i |}.
Definition set_RemovableMedia (v : bool) (i : EFI_BLOCK_IO_MEDIA) : EFI_BLOCK_IO_MEDIA :=
  {| MediaId := MediaId i; RemovableMedia := v; MediaPresent := MediaPresent i; LogicalPartition := LogicalPartition i; ReadOnly := ReadOnly i;
     WriteCaching := WriteCaching i; BlockSize := BlockSize i; IoAlign := IoAlign i; LastBlock := LastBlock i |}.
Definition set_MediaPresent (v : bool) (i : EFI_BLOCK_IO_MEDIA) : EFI_BLOCK_IO_MEDIA :=
  {| MediaId := MediaId i; RemovableMedia := RemovableMedia i; MediaPresent := v; LogicalPartition := LogicalPartition i; ReadOnly := ReadOnly i;
     WriteCaching := WriteCaching i; BlockSize := BlockSize i; IoAlign := IoAlign i; LastBlock := LastBlock i |}.
Definition set_ReadOnly (v : bool) (i : EFI_BLOCK_IO_MEDIA) : EFI_BLOCK_IO_MEDIA :=
  {| MediaId := MediaId i; RemovableMedia := RemovableMedia i; MediaPresent := MediaPresent i; LogicalPartition := LogicalPartition i; ReadOnly := v;
     WriteCaching := WriteCaching i; BlockSize := BlockSize i; IoAlign := IoAlign i; LastBlock := LastBlock i |}.
Definition set_BlockSize (v : Z) (i : EFI_BLOCK_IO_MEDIA) : EFI_BLOCK_IO_MEDIA :=
  {| MediaId := MediaId i; RemovableMedia := RemovableMedia i; MediaPresent := MediaPresent i; LogicalPartition := LogicalPartition i;
     ReadOnly := ReadOnly i; WriteCaching := WriteCaching i; BlockSize := v; IoAlign := IoAlign i; LastBlock := LastBlock i |}.
Definition set_LastBlock (v : Z) (i : EFI_BLOCK_IO_MEDIA) : EFI_BLOCK_IO_MEDIA :=
  {| MediaId := MediaId i; RemovableMedia := RemovableMedia i; MediaPresent := MediaPresent i; LogicalPartition := LogicalPartition i;
     ReadOnly := ReadOnly i; WriteCaching := WriteCaching i; BlockSize := BlockSize i; IoAlign := IoAlign i; LastBlock := v |}.

(** The data of [EFI_RPMB_IO_PROTOCOL]. *)
Record RPMB_IO := { RpmbCid : list Z; ReliableSectorCount : Z; RpmbIoSizeMult : Z }.

(** One slot.  [SlotNode] is the subtype of the device path; [BlockBuffer] the
    address of the buffer inside the structure; [MediaPtr] the address of the
    media description, which is kept here as [Media]. *)
Record SDHC_INSTANCE := {
  InstanceId : Z;
  MmcHandle : Z;
  SlotInitialized : bool;
  SlotNode : option Z;
  MediaPtr : Z;
  Media : EFI_BLOCK_IO_MEDIA;
  RpmbIo : RPMB_IO;
  HostExt : Z;
  HostCapabilities : Z * Z;
  DevicePathProtocolInstalled : bool;
  BlockIoProtocolInstalled : bool;
  RpmbIoProtocolInstalled : bool;
  CurrentMmcPartition : Z;
  CardInfo : CARD_INFO;
  BlockBuffer : Z;
  CmdResponse : list Z;
  PreLastSuccessfulCmd : option SD_COMMAND;
  LastSuccessfulCmd : option SD_COMMAND;
  ErrorRecoveryAttemptCount : Z
}.
Definition set_MmcHandle (v : Z) (i : SDHC_INSTANCE) : SDHC_INSTANCE :=
  {| InstanceId := InstanceId i; MmcHandle := v; SlotInitialized := SlotInitialized i; SlotNode := SlotNode i; MediaPtr := MediaPtr i; Media := Media i; RpmbIo := RpmbIo i;
     HostExt := HostExt i; HostCapabilities := HostCapabilities i; DevicePathProtocolInstalled := DevicePathProtocolInstalled i;
     BlockIoProtocolInstalled := BlockIoProtocolInstalled i; RpmbIoProtocolInstalled := RpmbIoProtocolInstalled i;
     CurrentMmcPartition := CurrentMmcPartition i; CardInfo := CardInfo i; BlockBuffer := BlockBuffer i; CmdResponse := CmdResponse i;
     PreLastSuccessfulCmd := PreLastSuccessfulCmd i; LastSuccessfulCmd := LastSuccessfulCmd i;
     ErrorRecoveryAttemptCount := ErrorRecoveryAttemptCount i |}.
Definition set_SlotInitialized (v : bool) (i : SDHC_INSTANCE) : SDHC_INSTANCE :=
  {| InstanceId := InstanceId i; MmcHandle := MmcHandle i; SlotInitialized := v; SlotNode := SlotNode i; MediaPtr := MediaPtr i; Media := Media i; RpmbIo := RpmbIo i;
     HostExt := HostExt i; HostCapabilities := HostCapabilities i; DevicePathProtocolInstalled := DevicePathProtocolInstalled i;
     BlockIoProtocolInstalled := BlockIoProtocolInstalled i; RpmbIoProtocolInstalled := RpmbIoProtocolInstalled i;
     CurrentMmcPartition := CurrentMmcPartition i; CardInfo := CardInfo i; BlockBuffer := BlockBuffer i; CmdResponse := CmdResponse i;
     PreLastSuccessfulCmd := PreLastSuccessfulCmd i; LastSuccessfulCmd := LastSuccessfulCmd i;
     ErrorRecoveryAttemptCount := ErrorRecoveryAttemptCount i |}.
Definition set_SlotNode (v : option Z) (i : SDHC_INSTANCE) : SDHC_INSTANCE :=
  {| InstanceId := InstanceId i; MmcHandle := MmcHandle i; SlotInitialized := SlotInitialized i; SlotNode := v; MediaPtr := MediaPtr i; Media := Media i; RpmbIo := RpmbIo i;
     HostExt := HostExt i; HostCapabilities := HostCapabilities i; DevicePathProtocolInstalled := DevicePathProtocolInstalled i;
     BlockIoProtocolInstalled := BlockIoProtocolInstalled i; RpmbIoProtocolInstalled := RpmbIoProtocolInstalled i;
     CurrentMmcPartition := CurrentMmcPartition i; CardInfo := CardInfo i; BlockBuffer := BlockBuffer i; CmdResponse := CmdResponse i;
     PreLastSuccessfulCmd := PreLastSuccessfulCmd i; LastSuccessfulCmd := LastSuccessfulCmd i;
     ErrorRecoveryAttemptCount := ErrorRecoveryAttemptCount i |}.
Definition set_Media (v : EFI_BLOCK_IO_MEDIA) (i : SDHC_INSTANCE) : SDHC_INSTANCE :=
  {| InstanceId := InstanceId i; MmcHandle := MmcHandle i; SlotInitialized := SlotInitialized i; SlotNode := SlotNode i; MediaPtr := MediaPtr i; Media := v;
     RpmbIo := RpmbIo i; HostExt := HostExt i; HostCapabilities := HostCapabilities i; DevicePathProtocolInstalled := DevicePathProtocolInstalled i;
     BlockIoProtocolInstalled := BlockIoProtocolInstalled i; RpmbIoProtocolInstalled := RpmbIoProtocolInstalled i;
     CurrentMmcPartition := CurrentMmcPartition i; CardInfo := CardInfo i; BlockBuffer := BlockBuffer i; CmdResponse := CmdResponse i;
     PreLastSuccessfulCmd := PreLastSuccessfulCmd i; LastSuccessfulCmd := LastSuccessfulCmd i;
     ErrorRecoveryAttemptCount := ErrorRecoveryAttemptCount i |}.
Definition set_RpmbIo (v : RPMB_IO) (i : SDHC_INSTANCE) : SDHC_INSTANCE :=
  {| InstanceId := InstanceId i; MmcHandle := MmcHandle i; SlotInitialized := SlotInitialized i; SlotNode := SlotNode i; MediaPtr := MediaPtr i; Media := Media i; RpmbIo := v;
     HostExt := HostExt i; HostCapabilities := HostCapabilities i; DevicePathProtocolInstalled := DevicePathProtocolInstalled i;
     BlockIoProtocolInstalled := BlockIoProtocolInstalled i; RpmbIoProtocolInstalled := RpmbIoProtocolInstalled i;
     CurrentMmcPartition := CurrentMmcPartition i; CardInfo := CardInfo i; BlockBuffer := BlockBuffer i; CmdResponse := CmdResponse i;
     PreLastSuccessfulCmd := PreLastSuccessfulCmd i; LastSuccessfulCmd := LastSuccessfulCmd i;
     ErrorRecoveryAttemptCount := ErrorRecoveryAttemptCount i |}.
Definition set_DevicePathProtocolInstalled (v : bool) (i : SDHC_INSTANCE) : SDHC_INSTANCE :=
  {| InstanceId := InstanceId i; MmcHandle := MmcHandle i; SlotInitialized := SlotInitialized i; SlotNode := SlotNode i; MediaPtr := MediaPtr i; Media := Media i;
     RpmbIo := RpmbIo i; HostExt := HostExt i; HostCapabilities := HostCapabilities i; DevicePathProtocolInstalled := v;
     BlockIoProtocolInstalled := BlockIoProtocolInstalled i; RpmbIoProtocolInstalled := RpmbIoProtocolInstalled i;
     CurrentMmcPartition := CurrentMmcPartition i; CardInfo := CardInfo i; BlockBuffer := BlockBuffer i; CmdResponse := CmdResponse i;
     PreLastSuccessfulCmd := PreLastSuccessfulCmd i; LastSuccessfulCmd := LastSuccessfulCmd i;
     ErrorRecoveryAttemptCount := ErrorRecoveryAttemptCount i |}.
Definition set_BlockIoProtocolInstalled (v : bool) (i : SDHC_INSTANCE) : SDHC_INSTANCE :=
  {| InstanceId := InstanceId i; MmcHandle := MmcHandle i; SlotInitialized := SlotInitialized i; SlotNode := SlotNode i; MediaPtr := MediaPtr i; Media := Media i;
     RpmbIo := RpmbIo i; HostExt := HostExt i; HostCapabilities := HostCapabilities i; DevicePathProtocolInstalled := DevicePathProtocolInstalled i;
     BlockIoProtocolInstalled := v; RpmbIoProtocolInstalled := RpmbIoProtocolInstalled i; CurrentMmcPartition := CurrentMmcPartition i;
     CardInfo := CardInfo i; BlockBuffer := BlockBuffer i; CmdResponse := CmdResponse i; PreLastSuccessfulCmd := PreLastSuccessfulCmd i;
     LastSuccessfulCmd := LastSuccessfulCmd i; ErrorRecoveryAttemptCount := ErrorRecoveryAttemptCount i |}.
Definition set_RpmbIoProtocolInstalled (v : bool) (i : SDHC_INSTANCE) : SDHC_INSTANCE :=
  {| InstanceId := InstanceId i; MmcHandle := MmcHandle i; SlotInitialized := SlotInitialized i; SlotNode := SlotNode i; MediaPtr := MediaPtr i; Media := Media i;
     RpmbIo := RpmbIo i; HostExt := HostExt i; HostCapabilities := HostCapabilities i; DevicePathProtocolInstalled := DevicePathProtocolInstalled i;
     BlockIoProtocolInstalled := BlockIoProtocolInstalled i; RpmbIoProtocolInstalled := v; CurrentMmcPartition := CurrentMmcPartition i;
     CardInfo := CardInfo i; BlockBuffer := BlockBuffer i; CmdResponse := CmdResponse i; PreLastSuccessfulCmd := PreLastSuccessfulCmd i;
     LastSuccessfulCmd := LastSuccessfulCmd i; ErrorRecoveryAttemptCount := ErrorRecoveryAttemptCount i |}.
Definition set_CurrentMmcPartition (v : Z) (i : SDHC_INSTANCE) : SDHC_INSTANCE :=
  {| InstanceId := InstanceId i; MmcHandle := MmcHandle i; SlotInitialized := SlotInitialized i; SlotNode := SlotNode i; MediaPtr := MediaPtr i; Media := Media i;
     RpmbIo := RpmbIo i; HostExt := HostExt i; HostCapabilities := HostCapabilities i; DevicePathProtocolInstalled := DevicePathProtocolInstalled i;
     BlockIoProtocolInstalled := BlockIoProtocolInstalled i; RpmbIoProtocolInstalled := RpmbIoProtocolInstalled i; CurrentMmcPartition := v;
     CardInfo := CardInfo i; BlockBuffer := BlockBuffer i; CmdResponse := CmdResponse i; PreLastSuccessfulCmd := PreLastSuccessfulCmd i;
     LastSuccessfulCmd := LastSuccessfulCmd i; ErrorRecoveryAttemptCount := ErrorRecoveryAttemptCount i |}.
Definition set_CardInfo (v : CARD_INFO) (i : SDHC_INSTANCE) : SDHC_INSTANCE :=
  {| InstanceId := InstanceId i; MmcHandle := MmcHandle i; SlotInitialized := SlotInitialized i; SlotNode := SlotNode i; MediaPtr := MediaPtr i; Media := Media i;
     RpmbIo := RpmbIo i; HostExt := HostExt i; HostCapabilities := HostCapabilities i; DevicePathProtocolInstalled := DevicePathProtocolInstalled i;
     BlockIoProtocolInstalled := BlockIoProtocolInstalled i; RpmbIoProtocolInstalled := RpmbIoProtocolInstalled i;
     CurrentMmcPartition := CurrentMmcPartition i; CardInfo := v; BlockBuffer := BlockBuffer i; CmdResponse := CmdResponse i;
     PreLastSuccessfulCmd := PreLastSuccessfulCmd i; LastSuccessfulCmd := LastSuccessfulCmd i;
     ErrorRecoveryAttemptCount := ErrorRecoveryAttemptCount i |}.
Definition set_CmdResponse (v : list Z) (i : SDHC_INSTANCE) : SDHC_INSTANCE :=
  {| InstanceId := InstanceId i; MmcHandle := MmcHandle i; SlotInitialized := SlotInitialized i; SlotNode := SlotNode i; MediaPtr := MediaPtr i; Media := Media i;
     RpmbIo := RpmbIo i; HostExt := HostExt i; HostCapabilities := HostCapabilities i; DevicePathProtocolInstalled := DevicePathProtocolInstalled i;
     BlockIoProtocolInstalled := BlockIoProtocolInstalled i; RpmbIoProtocolInstalled := RpmbIoProtocolInstalled i;
     CurrentMmcPartition := CurrentMmcPartition i; CardInfo := CardInfo i; BlockBuffer := BlockBuffer i; CmdResponse := v;
     PreLastSuccessfulCmd := PreLastSuccessfulCmd i; LastSuccessfulCmd := LastSuccessfulCmd i;
     ErrorRecoveryAttemptCount := ErrorRecoveryAttemptCount i |}.
Definition set_PreLastSuccessfulCmd (v : option SD_COMMAND) (i : SDHC_INSTANCE) : SDHC_INSTANCE :=
  {| InstanceId := InstanceId i; MmcHandle := MmcHandle i; SlotInitialized := SlotInitialized i; SlotNode := SlotNode i; MediaPtr := MediaPtr i; Media := Media i;
     RpmbIo := RpmbIo i; HostExt := HostExt i; HostCapabilities := HostCapabilities i; DevicePathProtocolInstalled := DevicePathProtocolInstalled i;
     BlockIoProtocolInstalled := BlockIoProtocolInstalled i; RpmbIoProtocolInstalled := RpmbIoProtocolInstalled i;
     CurrentMmcPartition := CurrentMmcPartition i; CardInfo := CardInfo i; BlockBuffer := BlockBuffer i; CmdResponse := CmdResponse i;
     PreLastSuccessfulCmd := v; LastSuccessfulCmd := LastSuccessfulCmd i; ErrorRecoveryAttemptCount := ErrorRecoveryAttemptCount i |}.
Definition set_LastSuccessfulCmd (v : option SD_COMMAND) (i : SDHC_INSTANCE) : SDHC_INSTANCE :=
  {| InstanceId := InstanceId i; MmcHandle := MmcHandle i; SlotInitialized := SlotInitialized i; SlotNode := SlotNode i; MediaPtr := MediaPtr i; Media := Media i;
     RpmbIo := RpmbIo i; HostExt := HostExt i; HostCapabilities := HostCapabilities i; DevicePathProtocolInstalled := DevicePathProtocolInstalled i;
     BlockIoProtocolInstalled := BlockIoProtocolInstalled i; RpmbIoProtocolInstalled := RpmbIoProtocolInstalled i;
     CurrentMmcPartition := CurrentMmcPartition i; CardInfo := CardInfo i; BlockBuffer := BlockBuffer i; CmdResponse := CmdResponse i;
     PreLastSuccessfulCmd := PreLastSuccessfulCmd i; LastSuccessfulCmd := v; ErrorRecoveryAttemptCount := ErrorRecoveryAttemptCount i |}.
Definition set_ErrorRecoveryAttemptCount (v : Z) (i : SDHC_INSTANCE) : SDHC_INSTANCE :=
  {| InstanceId := InstanceId i; MmcHandle := MmcHandle i; SlotInitialized := SlotInitialized i; SlotNode := SlotNode i; MediaPtr := MediaPtr i; Media := Media i;
     RpmbIo := RpmbIo i; HostExt := HostExt i; HostCapabilities := HostCapabilities i; DevicePathProtocolInstalled := DevicePathProtocolInstalled i;
     BlockIoProtocolInstalled := BlockIoProtocolInstalled i; RpmbIoProtocolInstalled := RpmbIoProtocolInstalled i;
     CurrentMmcPartition := CurrentMmcPartition i; CardInfo := CardInfo i; BlockBuffer := BlockBuffer i; CmdResponse := CmdResponse i;
     PreLastSuccessfulCmd := PreLastSuccessfulCmd i; LastSuccessfulCmd := LastSuccessfulCmd i; ErrorRecoveryAttemptCount := v |}.

(** ** Commands: Protocol.c *)

Definition CmdGoIdleState : SD_COMMAND := Build_SD_COMMAND 0 SdCommandTypeUndefined SdCommandClassStandard SdResponseTypeNone SdTransferTypeNone SdTransferDirectionUndefined.
Definition CmdSendOpCondMmc : SD_COMMAND := Build_SD_COMMAND 1 SdCommandTypeUndefined SdCommandClassStandard SdResponseTypeR3 SdTransferTypeNone SdTransferDirectionUndefined.
Definition CmdSendCidAll : SD_COMMAND := Build_SD_COMMAND 2 SdCommandTypeUndefined SdCommandClassStandard SdResponseTypeR2 SdTransferTypeNone SdTransferDirectionUndefined.
Definition CmdSendRelativeAddr : SD_COMMAND := Build_SD_COMMAND 3 SdCommandTypeUndefined SdCommandClassStandard SdResponseTypeR6 SdTransferTypeNone SdTransferDirectionUndefined.
Definition CmdSendOpCondSdio : SD_COMMAND := Build_SD_COMMAND 5 SdCommandTypeUndefined SdCommandClassStandard SdResponseTypeR4 SdTransferTypeNone SdTransferDirectionUndefined.
Definition CmdSwitchSd : SD_COMMAND := Build_SD_COMMAND 6 SdCommandTypeUndefined SdCommandClassStandard SdResponseTypeR1 SdTransferTypeSingleBlock SdTransferDirectionRead.
Definition CmdSwitchMmc : SD_COMMAND := Build_SD_COMMAND 6 SdCommandTypeUndefined SdCommandClassStandard SdResponseTypeR1B SdTransferTypeNone SdTransferDirectionUndefined.
Definition CmdAppSetBusWidthSd : SD_COMMAND := Build_SD_COMMAND 6 SdCommandTypeUndefined SdCommandClassApp SdResponseTypeR1 SdTransferTypeNone SdTransferDirectionUndefined.
Definition CmdSelect : SD_COMMAND := Build_SD_COMMAND 7 SdCommandTypeUndefined SdCommandClassStandard SdResponseTypeR1B SdTransferTypeNone SdTransferDirectionUndefined.
Definition CmdDeselect : SD_COMMAND := Build_SD_COMMAND 7 SdCommandTypeUndefined SdCommandClassStandard SdResponseTypeNone SdTransferTypeNone SdTransferDirectionUndefined.
Definition CmdSendIfCondSd : SD_COMMAND := Build_SD_COMMAND 8 SdCommandTypeUndefined SdCommandClassStandard SdResponseTypeR6 SdTransferTypeNone SdTransferDirectionUndefined.
Definition CmdSendExtCsdMmc : SD_COMMAND := Build_SD_COMMAND 8 SdCommandTypeUndefined SdCommandClassStandard SdResponseTypeR1 SdTransferTypeSingleBlock SdTransferDirectionRead.
Definition CmdSendCsd : SD_COMMAND := Build_SD_COMMAND 9 SdCommandTypeUndefined SdCommandClassStandard SdResponseTypeR2 SdTransferTypeNone SdTransferDirectionUndefined.
Definition CmdSendCid : SD_COMMAND := Build_SD_COMMAND 10 SdCommandTypeUndefined SdCommandClassStandard SdResponseTypeR2 SdTransferTypeNone SdTransferDirectionUndefined.
Definition CmdSwitchVoltageSd : SD_COMMAND := Build_SD_COMMAND 11 SdCommandTypeUndefined SdCommandClassStandard SdResponseTypeR1 SdTransferTypeNone SdTransferDirectionUndefined.
Definition CmdStopTransmission : SD_COMMAND := Build_SD_COMMAND 12 SdCommandTypeAbort SdCommandClassStandard SdResponseTypeR1B SdTransferTypeNone SdTransferDirectionUndefined.
Definition CmdSendStatus : SD_COMMAND := Build_SD_COMMAND 13 SdCommandTypeUndefined SdCommandClassStandard SdResponseTypeR1 SdTransferTypeNone SdTransferDirectionUndefined.
Definition CmdBusTestReadMmc : SD_COMMAND := Build_SD_COMMAND 14 SdCommandTypeUndefined SdCommandClassStandard SdResponseTypeR1 SdTransferTypeSingleBlock SdTransferDirectionRead.
Definition CmdSetBlockLength : SD_COMMAND := Build_SD_COMMAND 16 SdCommandTypeUndefined SdCommandClassStandard SdResponseTypeR1 SdTransferTypeNone SdTransferDirectionUndefined.
Definition CmdReadSingleBlock : SD_COMMAND := Build_SD_COMMAND 17 SdCommandTypeUndefined SdCommandClassStandard SdResponseTypeR1 SdTransferTypeSingleBlock SdTransferDirectionRead.
Definition CmdReadMultiBlock : SD_COMMAND := Build_SD_COMMAND 18 SdCommandTypeUndefined SdCommandClassStandard SdResponseTypeR1 SdTransferTypeMultiBlock SdTransferDirectionRead.
Definition CmdBusTestWriteMmc : SD_COMMAND := Build_SD_COMMAND 19 SdCommandTypeUndefined SdCommandClassStandard SdResponseTypeR1 SdTransferTypeSingleBlock SdTransferDirectionWrite.
Definition CmdSetBlockCount : SD_COMMAND := Build_SD_COMMAND 23 SdCommandTypeUndefined SdCommandClassStandard SdResponseTypeR1 SdTransferTypeNone SdTransferDirectionUndefined.
Definition CmdWriteSingleBlock : SD_COMMAND := Build_SD_COMMAND 24 SdCommandTypeUndefined SdCommandClassStandard SdResponseTypeR1 SdTransferTypeSingleBlock SdTransferDirectionWrite.
Definition CmdWriteMultiBlock : SD_COMMAND := Build_SD_COMMAND 25 SdCommandTypeUndefined SdCommandClassStandard SdResponseTypeR1 SdTransferTypeMultiBlock SdTransferDirectionWrite.
Definition CmdAppSendOpCondSd : SD_COMMAND := Build_SD_COMMAND 41 SdCommandTypeUndefined SdCommandClassApp SdResponseTypeR3 SdTransferTypeNone SdTransferDirectionUndefined.
Definition CmdAppSetClrCardDetectSd : SD_COMMAND := Build_SD_COMMAND 42 SdCommandTypeUndefined SdCommandClassApp SdResponseTypeR1 SdTransferTypeNone SdTransferDirectionUndefined.
Definition CmdAppSendScrSd : SD_COMMAND := Build_SD_COMMAND 51 SdCommandTypeUndefined SdCommandClassApp SdResponseTypeR1 SdTransferTypeSingleBlock SdTransferDirectionRead.
Definition CmdAppSd : SD_COMMAND := Build_SD_COMMAND 55 SdCommandTypeUndefined SdCommandClassApp SdResponseTypeR1 SdTransferTypeNone SdTransferDirectionUndefined.

(** ** The state of an operation on one slot *)

Record sd (H : Type) := { hi : SDHC_INSTANCE; smem : mem; host : H }.
Arguments hi {H} _.
Arguments smem {H} _.
Arguments host {H} _.
Arguments Build_sd {H} _ _ _.
