(* ===== verification/SdMmcProtocol.v ===== *)
(** * SD and eMMC cards: commands and initialisation

    Model of [src/Microsoft/MsPkg/Drivers/SdMmcDxe/Protocol.c] and of the reset
    of a slot in [SdMmc.c], which call each other: a failed command is
    recovered from, recovery may reset the slot, and the reset initialises the
    card by commands.  The functions are therefore written over the recovery
    they call ([recover]); [SdhcRecoverFromErrors] ties the knot with fuel for
    one level of recovery more than the driver lets happen. *)

From Stdlib Require Import ZArith Lia.
From stdpp Require Import base list numbers option.
From S2P Require Import Prelude Memory SdMmc.

Section SdMmc.
Context {B : Build} {H : Type} {SH : Sdhc H}.
Implicit Types s : sd H.
Abbreviation MS := (M (sd H)).

(** ** State access *)

Definition set_hi (i : SDHC_INSTANCE) s : sd H := Build_sd i (smem s) (host s).
Definition set_smem (m : mem) s : sd H := Build_sd (hi s) m (host s).
Definition set_host (h : H) s : sd H := Build_sd (hi s) (smem s) h.
Definition the {A} (f : SDHC_INSTANCE -> A) : MS A := gets (fun s => f (hi s)).
Definition upd (f : SDHC_INSTANCE -> SDHC_INSTANCE) : MS unit := modify (fun s => set_hi (f (hi s)) s).
Definition card {A} (f : CARD_INFO -> A) : MS A := the (fun i => f (CardInfo i)).
Definition upd_card (f : CARD_INFO -> CARD_INFO) : MS unit := upd (fun i => set_CardInfo (f (CardInfo i)) i).
Definition upd_media (f : EFI_BLOCK_IO_MEDIA -> EFI_BLOCK_IO_MEDIA) : MS unit := upd (fun i => set_Media (f (Media i)) i).

(** An operation of the host of the slot, or of the boot services. *)
Definition host_op {A} (f : Z -> H -> A * H) : MS A :=
  fun s => let '(a, h) := f (HostExt (hi s)) (host s) in Ret a (set_host h s).
Definition host_mem_op {A} (f : Z -> mem -> H -> A * mem * H) : MS A :=
  fun s => let '(a, m, h) := f (HostExt (hi s)) (smem s) (host s) in Ret a (set_host h (set_smem m s)).

(** [if (EFI_ERROR (Status)) return Status;] *)
Definition on_success (c k : MS Z) : MS Z := Status ← c; if EFI_ERROR Status then mret Status else k.
#[local] Notation "c '!>' k" := (on_success c k) (at level 100, k at level 200, right associativity).

Definition RCA_arg : MS Z := rca ← card RCA; mret (u32 (Z.shiftl rca 16)).
Definition response0 : MS Z := the (fun i => nth 0 (CmdResponse i) 0).
Definition response_bytes (i : SDHC_INSTANCE) : list Z := concat (le_bytes 4 <$> CmdResponse i).

Definition CmdsAreEqual (Left Right : SD_COMMAND) : bool :=
  bool_decide (Class_ Left = Class_ Right) && (Index Left =? Index Right) && bool_decide (ResponseType Left = ResponseType Right)
  && bool_decide (TransferDirection Left = TransferDirection Right) && bool_decide (TransferType Left = TransferType Right)
  && bool_decide (Type_ Left = Type_ Right).

(** The result is a [BOOLEAN], a byte. *)
Definition IsCardStatusError (CardStatus : Z) : MS bool :=
  f ← card CardFunction;
  match f with
  | CardFunctionSd => mret (negb (u8 (Z.land CardStatus SD_CARD_STATUS_ERROR_MASK) =? 0))
  | CardFunctionMmc => mret (negb (u8 (Z.land CardStatus MMC_CARD_STATUS_ERROR_MASK) =? 0))
  | _ => ASSERT false;; mret false
  end.

Section Recovery.
Variable recover : SD_COMMAND -> MS Z.

(** ** Commands *)

Definition SdhcSendCommandHelper (Cmd : SD_COMMAND) (Arg : Z) (XfrInfo : option SD_COMMAND_XFR_INFO) : MS Z :=
  (if bool_decide (Class_ Cmd = SdCommandClassApp)
   then CmdAppArg ← RCA_arg; host_mem_op (fun x => SendCommand x CmdAppSd CmdAppArg None)
   else mret EFI_SUCCESS) !>
  host_mem_op (fun x => SendCommand x Cmd Arg XfrInfo) !>
  ('(Status, rs) ← host_op (fun x h => let '(st, rs, h) := ReceiveResponse x Cmd h in ((st, rs), h));
   upd (fun i => set_CmdResponse (take 4 (rs ++ drop (length rs) (CmdResponse i))) i);;
   mret Status) !>
  CardStatus ← response0;
  err ← (if bool_decide (ResponseType Cmd = SdResponseTypeR1) || bool_decide (ResponseType Cmd = SdResponseTypeR1B)
         then IsCardStatusError CardStatus else mret false);
  if err : bool then mret EFI_DEVICE_ERROR
  else
    upd (fun i => set_LastSuccessfulCmd (Some Cmd) (set_PreLastSuccessfulCmd (LastSuccessfulCmd i) i));;
    mret EFI_SUCCESS.

Definition send_command (wait : MS Z) (Cmd : SD_COMMAND) (Arg : Z) : MS Z :=
  Status ← SdhcSendCommandHelper Cmd Arg None;
  if EFI_ERROR Status then recover Cmd;; mret Status
  else if CmdsAreEqual Cmd CmdSwitchMmc || CmdsAreEqual Cmd CmdSwitchSd then wait !> mret EFI_SUCCESS
  else mret EFI_SUCCESS.

(** The wait after a SWITCH command sends another command, which is no SWITCH:
    the status is read by [send_plain]. *)
Definition send_plain : SD_COMMAND -> Z -> MS Z := send_command (stopM NoFuel).

(** Status and card status. *)
Definition SdhcSendStatus : MS (Z * Z) :=
  CmdArg ← RCA_arg;
  Status ← send_plain CmdSendStatus CmdArg;
  if EFI_ERROR Status then mret (Status, 0) else CardStatus ← response0; mret (Status, CardStatus).

Fixpoint wait_tran (Retry : nat) (CardStatus : Z) : MS Z :=
  if negb (READY_FOR_DATA CardStatus) || negb (CURRENT_STATE CardStatus =? CardStateTran) then
    match Retry with
    | O => mret EFI_TIMEOUT
    | S Retry =>
        host_op (fun _ h => (tt, Stall SDMMC_POLL_WAIT_TIME_US h));;
        '(Status, CardStatus) ← SdhcSendStatus;
        if EFI_ERROR Status then mret Status else wait_tran Retry CardStatus
    end
  else mret (if bool_decide (Retry = 0%nat) then EFI_TIMEOUT else EFI_SUCCESS).

Definition SdhcWaitForTranStateAndReadyForData : MS Z :=
  '(Status, CardStatus) ← SdhcSendStatus;
  if EFI_ERROR Status then mret Status else wait_tran SDMMC_POLL_WAIT_COUNT CardStatus.

Definition SdhcSendCommand : SD_COMMAND -> Z -> MS Z := send_command SdhcWaitForTranStateAndReadyForData.

Definition SdhcStopTransmission : MS Z := CmdArg ← RCA_arg; SdhcSendCommand CmdStopTransmission CmdArg.

(** Whether STOP_TRANSMISSION is to be sent; a NULL command is looked into. *)
Definition open_ended (Cmd : SD_COMMAND) : MS bool :=
  if CmdsAreEqual Cmd CmdWriteMultiBlock || CmdsAreEqual Cmd CmdReadMultiBlock then
    last ← the LastSuccessfulCmd;
    prelast ← the PreLastSuccessfulCmd;
    match last, prelast with
    | None, _ => mret true
    | Some _, None => ASSERT false;; stopM Fault
    | Some _, Some prelast => mret (negb (CmdsAreEqual prelast CmdSetBlockCount))
    end
  else mret false.

Definition transfer_data (Cmd : SD_COMMAND) (BufferByteSize Buffer : Z) : MS Z :=
  if bool_decide (TransferDirection Cmd = SdTransferDirectionRead)
  then host_mem_op (fun x => ReadBlockData x BufferByteSize Buffer)
  else
    ASSERT (bool_decide (TransferDirection Cmd = SdTransferDirectionWrite));;
    host_mem_op (fun x m h => let '(st, h) := WriteBlockData x BufferByteSize Buffer m h in (st, m, h)).

Definition SdhcSendDataCommand (Cmd : SD_COMMAND) (Arg BufferByteSize Buffer : Z) : MS Z :=
  ASSERT (BufferByteSize mod SD_BLOCK_LENGTH_BYTES =? 0);;
  let XfrInfo := {| XfrBlockSize := SD_BLOCK_LENGTH_BYTES; XfrBlockCount := BufferByteSize / SD_BLOCK_LENGTH_BYTES; XfrBuffer := Buffer |} in
  Status ←
    (SdhcSendCommandHelper Cmd Arg (Some XfrInfo) !>
     transfer_data Cmd BufferByteSize Buffer !>
     (stop ← open_ended Cmd; if stop : bool then SdhcStopTransmission else mret EFI_SUCCESS) !>
     SdhcWaitForTranStateAndReadyForData);
  (if EFI_ERROR Status then recover Cmd;; mret tt else mret tt);;
  mret Status.

(** ** Single commands *)

Definition SdhcGoIdleState : MS Z := SdhcSendCommand CmdGoIdleState 0.
Definition SdhcSelectDevice : MS Z := CmdArg ← RCA_arg; SdhcSendCommand CmdSelect CmdArg.
Definition SdhcDeselectDevice : MS Z := SdhcSendCommand CmdDeselect 0.
Definition SdhcSendAppCmd : MS Z := CmdArg ← RCA_arg; SdhcSendCommand CmdAppSd CmdArg.
Definition SdhcSendCidAll : MS Z := SdhcSendCommand CmdSendCidAll 0.
Definition SdhcSetBlockLength (BlockByteLength : Z) : MS Z := SdhcSendCommand CmdSetBlockLength BlockByteLength.
Definition SdhcSetBlockCount (BlockCount : Z) (ReliableWrite : bool) : MS Z :=
  SdhcSendCommand CmdSetBlockCount (if ReliableWrite then Z.lor BlockCount 0x80000000 else BlockCount).
Definition SdhcSendOpCondSdio : MS Z := SdhcSendCommand CmdSendOpCondSdio 0.
Definition SdhcSwitchSpeedModeSd : MS Z := mret EFI_SUCCESS.

Definition SdhcSendCid : MS Z :=
  CmdArg ← RCA_arg;
  SdhcSendCommand CmdSendCid CmdArg !>
  f ← card CardFunction;
  r ← the response_bytes;
  match f with
  | CardFunctionSd => upd_card (set_Cid (take 15 r));; mret EFI_SUCCESS
  | CardFunctionMmc =>
      upd_card (set_Cid (take 15 r));;
      upd (fun i => set_RpmbIo {| RpmbCid := take 16 r; ReliableSectorCount := ReliableSectorCount (RpmbIo i);
                                  RpmbIoSizeMult := RpmbIoSizeMult (RpmbIo i) |} i);;
      mret EFI_SUCCESS
  | _ => mret EFI_SUCCESS
  end.

(** Capacity in bytes; the products are 32 bits wide. *)
Definition csd_capacity (Csd : list Z) : Z :=
  let DeviceSize := Z.lor (Z.shiftl (C_SIZEHigh10 Csd) 2) (C_SIZELow2 Csd) in
  let Mult := Z.shiftl 1 (C_SIZE_MULT Csd + 2) in
  let BlockNr := u32 ((DeviceSize + 1) * Mult) in
  let MaxBlockLen := Z.shiftl 1 (READ_BL_LEN Csd) in
  u32 (BlockNr * MaxBlockLen).
Definition csd2_capacity (Csd : list Z) : Z := u64 ((C_SIZE Csd + 1) * 512 * 1024).

Definition SdhcSendCsd : MS Z :=
  CmdArg ← RCA_arg;
  SdhcSendCommand CmdSendCsd CmdArg !>
  f ← card CardFunction;
  r ← the response_bytes;
  let Csd := take 15 r in
  ByteCapacity ←
    match f with
    | CardFunctionSd =>
        upd_card (set_Csd Csd);;
        mret (if CSD_STRUCTURE Csd =? 0 then csd_capacity Csd else csd2_capacity Csd)
    | CardFunctionMmc =>
        upd_card (set_Csd Csd);;
        high ← card HighCapacity;
        mret (if high : bool then 0 else csd_capacity Csd)
    | _ => mret 0
    end;
  upd_card (set_ByteCapacity ByteCapacity);;
  upd_media (set_BlockSize SD_BLOCK_LENGTH_BYTES);;
  let NumBlocks := ByteCapacity / SD_BLOCK_LENGTH_BYTES in
  upd_media (set_LastBlock (if 0 <? NumBlocks then NumBlocks - 1 else 0));;
  mret EFI_SUCCESS.

Definition SdhcSendRelativeAddr : MS Z :=
  f ← card CardFunction;
  CmdArg ← (if bool_decide (f = CardFunctionMmc) then upd_card (set_RCA 0xCCCC);; RCA_arg else mret 0);
  SdhcSendCommand CmdSendRelativeAddr CmdArg !>
  f ← card CardFunction;
  r ← response0;
  (if bool_decide (f = CardFunctionMmc) then mret tt else upd_card (set_RCA (Z.shiftr r 16)));;
  mret EFI_SUCCESS.

(** ** Clock *)

(** The bits per second of a transfer rate unit, and the time value times 10. *)
Definition transfer_rate (TranSpeed : Z) : option Z :=
  match Z.land TranSpeed 0x7 with
  | 0 => Some (100 * 1000)
  | 1 => Some (1 * 1000 * 1000)
  | 2 => Some (10 * 1000 * 1000)
  | 3 => Some (100 * 1000 * 1000)
  | _ => None
  end.
Definition time_value (f : CARD_FUNCTION) (TranSpeed : Z) : option Z :=
  match Z.land (Z.shiftr TranSpeed 3) 0xF with
  | 0x1 => Some 10
  | 0x2 => Some 12
  | 0x3 => Some 13
  | 0x4 => Some 15
  | 0x5 => Some 20
  | 0x6 => Some (if bool_decide (f = CardFunctionSd) then 25 else 26)
  | 0x7 => Some 30
  | 0x8 => Some 35
  | 0x9 => Some 40
  | 0xA => Some 45
  | 0xB => Some (if bool_decide (f = CardFunctionSd) then 50 else 52)
  | 0xC => Some 55
  | 0xD => Some 60
  | 0xE => Some 70
  | 0xF => Some 80
  | _ => None
  end.

(** Status and frequency. *)
Definition CalculateCardMaxFreq : MS (Z * Z) :=
  f ← card CardFunction;
  TranSpeed ← card (fun c => TRAN_SPEED (Csd c));
  match transfer_rate TranSpeed, time_value f TranSpeed with
  | Some TransferRateBitPerSecond, Some TimeValue => mret (EFI_SUCCESS, u32 (TransferRateBitPerSecond * TimeValue) / 10)
  | _, _ => ASSERT false;; mret (EFI_INVALID_PARAMETER, 0)
  end.

Definition SdhcSetMaxClockFrequency : MS Z :=
  mode ← card CurrentSpeedMode;
  ASSERT (bool_decide (mode = CardSpeedModeNormalSpeed) || bool_decide (mode = CardSpeedModeHighSpeed));;
  f ← card CardFunction;
  '(Status, MaxClkFreqHz) ←
    (if bool_decide (f = CardFunctionSd) || bool_decide (mode = CardSpeedModeNormalSpeed) then CalculateCardMaxFreq
     else if bool_decide (mode = CardSpeedModeHighSpeed) then mret (EFI_SUCCESS, MMC_HIGH_SPEED_MODE_CLOCK_FREQ_HZ)
     else mret (EFI_SUCCESS, 0));
  if EFI_ERROR Status then mret Status
  else host_op (fun x => SetClock x MaxClkFreqHz) !> mret EFI_SUCCESS.

(** ** SD cards *)

Definition SdhcSendScrSd : MS Z :=
  CmdArg ← RCA_arg;
  buf ← the BlockBuffer;
  SdhcSendDataCommand CmdAppSendScrSd CmdArg SD_BLOCK_LENGTH_BYTES buf !>
  bs ← gets (fun s => read_bytes (smem s) buf 8);
  upd_card (set_Scr bs);;
  mret EFI_SUCCESS.

(** [SEND_IF_COND_ARG]: check pattern and voltage. *)
Definition SEND_IF_COND_ARG : Z := Z.lor 0xAA (Z.shiftl SD_CMD8_VOLTAGE_27_36 8).
Definition SdhcSendIfCondSd : MS Z :=
  SdhcSendCommand CmdSendIfCondSd SEND_IF_COND_ARG !>
  CmdStatus ← response0;
  if negb (Z.land CmdStatus 0xFF =? 0xAA) || negb (Z.land (Z.shiftr CmdStatus 8) 0xF =? SD_CMD8_VOLTAGE_27_36)
  then mret EFI_UNSUPPORTED
  else upd_card (set_HasExtendedOcr true);; mret EFI_SUCCESS.

(** [SD_OCR], [SD_OCR_EX]. *)
Definition VoltageWindow (Ocr : Z) : Z := Z.land Ocr 0xFFFFFF.
Definition AccessMode (Ocr : Z) : Z := Z.land (Z.shiftr Ocr 29) 0x3.
Definition PowerUp (Ocr : Z) : bool := Z.testbit Ocr 31.
Definition CCS (Ocr : Z) : bool := Z.testbit Ocr 30.

Fixpoint op_cond_sd (Retry : nat) (CmdArg : Z) : MS Z :=
  match Retry with
  | O => mret EFI_TIMEOUT
  | S Retry =>
      SdhcSendCommand CmdAppSendOpCondSd CmdArg !>
      ocr ← response0;
      if PowerUp ocr then
        ext ← card HasExtendedOcr;
        (if ext : bool then upd_card (set_HighCapacity (CCS ocr)) else mret tt);;
        mret EFI_SUCCESS
      else
        host_op (fun _ h => (tt, Stall SDMMC_POLL_WAIT_TIME_US h));;
        op_cond_sd Retry CmdArg
  end.

Definition SdhcSendOpCondSd : MS Z :=
  SdhcSendCommand CmdAppSendOpCondSd 0 !>
  ocr ← response0;
  upd_card (set_Ocr ocr);;
  op_cond_sd SDMMC_POLL_WAIT_COUNT (Z.lor (VoltageWindow ocr) (Z.shiftl 1 30)).

Definition SdhcSwitchBusWidthSd : MS Z :=
  SdhcSendCommand CmdAppSetBusWidthSd 0x2 !>
  host_op (fun x => SetBusWidth x SdBusWidth4Bit) !>
  mret EFI_SUCCESS.

(** ** MMC cards *)

Fixpoint op_cond_mmc (Retry : nat) (CmdArg : Z) : MS Z :=
  match Retry with
  | O => mret EFI_TIMEOUT
  | S Retry =>
      SdhcSendCommand CmdSendOpCondMmc CmdArg !>
      ocr ← response0;
      upd_card (set_Ocr ocr);;
      if PowerUp ocr then
        upd_card (set_HighCapacity (AccessMode ocr =? SdOcrAccessSectorMode));;
        mret (if negb (Z.land (VoltageWindow ocr) SD_OCR_HIGH_VOLTAGE_WINDOW =? SD_OCR_HIGH_VOLTAGE_WINDOW)
              then EFI_UNSUPPORTED else EFI_SUCCESS)
      else
        host_op (fun _ h => (tt, Stall SDMMC_POLL_WAIT_TIME_US h));;
        op_cond_mmc Retry CmdArg
  end.

Definition SdhcSendOpCondMmc : MS Z :=
  op_cond_mmc SDMMC_POLL_WAIT_COUNT (Z.lor SD_OCR_HIGH_VOLTAGE_WINDOW (Z.shiftl SdOcrAccessSectorMode 29)).

Definition SdhcSendExtCsdMmc : MS Z :=
  CmdArg ← RCA_arg;
  buf ← the BlockBuffer;
  SdhcSendDataCommand CmdSendExtCsdMmc CmdArg SD_BLOCK_LENGTH_BYTES buf !>
  ext ← gets (fun s => read_bytes (smem s) buf 512);
  upd_card (set_ExtCsd ext);;
  upd_card (set_ByteCapacity (SectorCount ext * 512));;
  upd_media (set_LastBlock (u32 (SectorCount ext - 1)));;
  upd (fun i => set_RpmbIo {| RpmbCid := RpmbCid (RpmbIo i); ReliableSectorCount := ReliableWriteSectorCount ext;
                              RpmbIoSizeMult := RpmbSizeMult ext |} i);;
  mret EFI_SUCCESS.

Definition SdhcSwitchSpeedModeMmc : MS Z :=
  SdhcSendCommand CmdSwitchMmc (MMC_SWITCH_CMD_ARG MmcSwitchCmdAccessTypeWriteByte MmcExtCsdBitIndexHsTiming 1) !>
  upd_card (set_CurrentSpeedMode CardSpeedModeHighSpeed);;
  SdhcSendExtCsdMmc !>
  ext ← card ExtCsd;
  mret (if HighSpeedTiming ext =? 0 then EFI_PROTOCOL_ERROR else EFI_SUCCESS).

(** The power class an eight bit bus takes. *)
Definition switch_power_class (ExtCsdPowerClass : Z) : MS Z :=
  ext ← card ExtCsd;
  if PowerClass ext <? ExtCsdPowerClass then
    SdhcSendCommand CmdSwitchMmc (Z.lor (Z.shiftl ExtCsdPowerClass 8) 0x03BB0000) !>
    SdhcSendExtCsdMmc !>
    ext ← card ExtCsd;
    mret (if negb (PowerClass ext =? ExtCsdPowerClass) then EFI_PROTOCOL_ERROR else EFI_SUCCESS)
  else mret EFI_SUCCESS.

Definition bus_power_class (BusWidth : SD_BUS_WIDTH) (mode : CARD_SPEED_MODE) (ext : list Z) : option Z :=
  let class := if bool_decide (mode = CardSpeedModeHighSpeed) then PowerClass52Mhz36V ext else PowerClass26Mhz36V ext in
  match BusWidth with
  | SdBusWidth8Bit => Some (MMC_EXT_CSD_POWER_CLASS_8BIT class)
  | SdBusWidth4Bit => Some (MMC_EXT_CSD_POWER_CLASS_4BIT class)
  | _ => None
  end.

Definition SdhcSwitchBusWidthMmc : MS Z :=
  let BusWidth := SdBusWidth8Bit in
  SdhcSendExtCsdMmc !>
  mode ← card CurrentSpeedMode;
  ext ← card ExtCsd;
  match bus_power_class BusWidth mode ext with
  | None => mret EFI_UNSUPPORTED
  | Some ExtCsdPowerClass =>
      switch_power_class ExtCsdPowerClass !>
      SdhcSendCommand CmdSwitchMmc
        (MMC_SWITCH_CMD_ARG MmcSwitchCmdAccessTypeWriteByte MmcExtCsdBitIndexBusWidth
          (if bool_decide (BusWidth = SdBusWidth8Bit) then MmcExtCsdBusWidth8Bit else MmcExtCsdBusWidth4Bit)) !>
      host_op (fun x => SetBusWidth x BusWidth) !>
      mret EFI_SUCCESS
  end.

Definition SdhcSwitchPartitionMmc (Partition : Z) : MS Z :=
  ext ← card ExtCsd;
  SdhcSendCommand CmdSwitchMmc
    (MMC_SWITCH_CMD_ARG MmcSwitchCmdAccessTypeWriteByte MmcExtCsdBitIndexPartitionConfig
      (set_PARTITION_ACCESS (PartitionConfig ext) Partition)) !>
  SdhcSendExtCsdMmc !>
  ext ← card ExtCsd;
  if negb (PARTITION_ACCESS (PartitionConfig ext) =? Partition) then mret EFI_DEVICE_ERROR
  else upd (set_CurrentMmcPartition Partition);; mret EFI_SUCCESS.

(** ** Initialisation *)

Definition SdhcQueryCardType : MS Z :=
  SdhcGoIdleState !>
  upd_card (set_CardFunction CardFunctionUnknown);;
  Status ← SdhcSendIfCondSd;
  (if EFI_ERROR Status then mret tt else upd_card (set_CardFunction CardFunctionSd));;
  Status ← SdhcSendOpCondSdio;
  f ← card CardFunction;
  (if EFI_ERROR Status then mret tt
   else upd_card (set_CardFunction (if bool_decide (f = CardFunctionSd) then CardFunctionComboSdSdio else CardFunctionSdio)));;
  f ← card CardFunction;
  (if bool_decide (f = CardFunctionSd) || bool_decide (f = CardFunctionSdio) || bool_decide (f = CardFunctionComboSdSdio)
   then mret EFI_SUCCESS
   else
     SdhcGoIdleState !>
     Status ← SdhcSendOpCondMmc;
     (if EFI_ERROR Status then mret tt else upd_card (set_CardFunction CardFunctionMmc));;
     mret EFI_SUCCESS) !>
  f ← card CardFunction;
  mret (if bool_decide (f = CardFunctionUnknown) then EFI_NO_MEDIA else EFI_SUCCESS).

Definition InitializeSdDevice : MS Z :=
  SdhcSendOpCondSd !> SdhcSendCidAll !> SdhcSendRelativeAddr !> SdhcSendCid !> SdhcSendCsd !> SdhcSelectDevice !>
  SdhcSwitchBusWidthSd !> SdhcSwitchSpeedModeSd !> SdhcSetMaxClockFrequency !> mret EFI_SUCCESS.

Definition InitializeMmcDevice : MS Z :=
  SdhcSendCidAll !> SdhcSendRelativeAddr !> SdhcSendCid !> SdhcSendCsd !>
  csd ← card Csd;
  if SPEC_VERS csd <? MMC_MIN_SUPPORTED_SPEC_VERS then mret EFI_UNSUPPORTED
  else
    SdhcSelectDevice !> SdhcSendExtCsdMmc !> SdhcSwitchSpeedModeMmc !> SdhcSwitchBusWidthMmc !> SdhcSetMaxClockFrequency !>
    mret EFI_SUCCESS.

Definition InitializeDevice : MS Z :=
  initialized ← the SlotInitialized;
  ASSERT (negb initialized);;
  x ← the HostExt;
  ASSERT (negb (x =? 0));;
  present ← the (fun i => MediaPresent (Media i));
  ASSERT present;;
  upd_card (fun _ => set_CurrentSpeedMode CardSpeedModeNormalSpeed no_card);;
  host_op (fun x => SoftwareReset x SdhcResetTypeAll) !>
  host_op (fun x => SetClock x SD_IDENT_MODE_CLOCK_FREQ_HZ) !>
  SdhcQueryCardType !>
  f ← card CardFunction;
  match f with
  | CardFunctionComboSdSdio | CardFunctionSdio => mret EFI_UNSUPPORTED
  | CardFunctionUnknown => ASSERT false;; mret EFI_UNSUPPORTED
  | CardFunctionSd => InitializeSdDevice
  | CardFunctionMmc => InitializeMmcDevice
  end !>
  SdhcSetBlockLength SD_BLOCK_LENGTH_BYTES !>
  f ← card CardFunction;
  ASSERT (bool_decide (f = CardFunctionSd) || bool_decide (f = CardFunctionMmc));;
  cid ← card Cid;
  (if bool_decide (f = CardFunctionSd)
   then upd_media (set_RemovableMedia true);; upd_media (set_MediaId (SD_PSN cid))
   else upd_media (set_RemovableMedia false);; upd_media (set_MediaId (MMC_PSN cid)));;
  upd (set_SlotInitialized true);;
  mret EFI_SUCCESS.

(** ** Reset of a slot: SdMmc.c *)

Definition uninstall (p : PROTOCOL) : MS Z := h ← the MmcHandle; host_op (fun _ => UninstallProtocol h p).
Definition install (p : PROTOCOL) : MS Z := h ← the MmcHandle; host_op (fun _ => InstallProtocol h p).

Definition installed (p : PROTOCOL) (i : SDHC_INSTANCE) : bool :=
  match p with
  | gEfiBlockIoProtocol => BlockIoProtocolInstalled i
  | gEfiDevicePathProtocol => DevicePathProtocolInstalled i
  | gEfiRpmbIoProtocol => RpmbIoProtocolInstalled i
  end.
Definition set_installed (p : PROTOCOL) (b : bool) : SDHC_INSTANCE -> SDHC_INSTANCE :=
  match p with
  | gEfiBlockIoProtocol => set_BlockIoProtocolInstalled b
  | gEfiDevicePathProtocol => set_DevicePathProtocolInstalled b
  | gEfiRpmbIoProtocol => set_RpmbIoProtocolInstalled b
  end.

Definition uninstall_and_note (p : PROTOCOL) : MS Z :=
  Status ← uninstall p;
  (if EFI_ERROR Status then mret tt else upd (set_installed p false));;
  mret Status.
Definition uninstall_if_installed (p : PROTOCOL) : MS Z :=
  b ← the (installed p);
  if b : bool then uninstall_and_note p else mret EFI_SUCCESS.
Definition install_and_note (p : PROTOCOL) : MS Z :=
  Status ← install p;
  (if EFI_ERROR Status then mret tt else upd (set_installed p true));;
  mret Status.

Definition UninstallAllProtocols : MS Z :=
  uninstall_if_installed gEfiBlockIoProtocol !>
  uninstall_if_installed gEfiRpmbIoProtocol !>
  uninstall_if_installed gEfiDevicePathProtocol !>
  mret EFI_SUCCESS.

Definition IsRpmbInstalledOnTheSystem : MS bool :=
  Status ← host_op (fun _ => LocateRpmbIo);
  mret (negb (EFI_ERROR Status)).

Definition MSG_SD_DP : Z := 0x1A.
Definition MSG_EMMC_DP : Z := 0x1D.

Definition clear_media (m : EFI_BLOCK_IO_MEDIA) : EFI_BLOCK_IO_MEDIA :=
  {| MediaId := 0; RemovableMedia := false; MediaPresent := false; LogicalPartition := false; ReadOnly := false;
     WriteCaching := false; BlockSize := 0; IoAlign := 4; LastBlock := 0 |}.

(** After [InitializeDevice]: up to the installation of the protocols. *)
Definition install_protocols : MS Z :=
  install_and_note gEfiBlockIoProtocol !>
  Status ← install_and_note gEfiDevicePathProtocol;
  f ← card CardFunction;
  if EFI_ERROR Status || negb (bool_decide (f = CardFunctionMmc)) then mret Status
  else
    rpmb ← IsRpmbInstalledOnTheSystem;
    if rpmb : bool then mret Status
    else
      Status ← install_and_note gEfiRpmbIoProtocol;
      ext ← card ExtCsd;
      (if EFI_ERROR Status then mret tt else upd (set_CurrentMmcPartition (PARTITION_ACCESS (PartitionConfig ext))));;
      mret Status.

Definition reset_body : MS Z :=
  UninstallAllProtocols !>
  upd (set_SlotInitialized false);;
  upd_media clear_media;;
  upd (set_RpmbIo {| RpmbCid := replicate 16 0; ReliableSectorCount := 0; RpmbIoSizeMult := 0 |});;
  present ← host_op IsCardPresent;
  upd_media (set_MediaPresent present);;
  if negb present then install_and_note gEfiBlockIoProtocol
  else
    ro ← host_op IsReadOnly;
    upd_media (set_ReadOnly ro);;
    InitializeDevice !>
    f ← card CardFunction;
    (if bool_decide (f = CardFunctionSd) then upd (set_SlotNode (Some MSG_SD_DP))
     else ASSERT (bool_decide (f = CardFunctionMmc));; upd (set_SlotNode (Some MSG_EMMC_DP)));;
    text ← host_op (fun _ => ConvertDevicePathToText);
    if negb text then mret EFI_OUT_OF_RESOURCES else install_protocols.

(** The status of the uninstallation replaces the one that led to it. *)
Definition reset_failed (Status : Z) : MS Z :=
  b ← the (installed gEfiRpmbIoProtocol);
  Status ← (if b : bool then uninstall_and_note gEfiRpmbIoProtocol else mret Status);
  b ← the (installed gEfiDevicePathProtocol);
  if b : bool then uninstall_and_note gEfiDevicePathProtocol else mret Status.

Definition SoftReset : MS Z :=
  x ← the HostExt;
  ASSERT (negb (x =? 0));;
  Status ← reset_body;
  if EFI_ERROR Status then reset_failed Status else mret Status.

(** ** Recovery *)

Definition recover_lines (Cmd : SD_COMMAND) : MS Z :=
  Status ← host_op (fun x => SoftwareReset x SdhcResetTypeCmd);
  Status ← (if negb (bool_decide (TransferType Cmd = SdTransferTypeNone)) && negb (bool_decide (TransferType Cmd = SdTransferTypeUndefined))
            then host_op (fun x => SoftwareReset x SdhcResetTypeData) else mret Status);
  if EFI_ERROR Status then SoftReset else mret Status.

Definition recover_transfer (Cmd : SD_COMMAND) : MS Z :=
  if CmdsAreEqual Cmd CmdWriteMultiBlock || CmdsAreEqual Cmd CmdReadMultiBlock then
    '(Status, CardStatus) ← SdhcSendStatus;
    if EFI_ERROR Status then mret Status
    else if negb (CURRENT_STATE CardStatus =? CardStateTran) then SdhcStopTransmission !> mret EFI_SUCCESS
    else mret EFI_SUCCESS
  else mret EFI_SUCCESS.

Definition recover_step (Cmd : SD_COMMAND) : MS Z :=
  upd (fun i => set_ErrorRecoveryAttemptCount (u32 (ErrorRecoveryAttemptCount i + 1)) i);;
  count ← the ErrorRecoveryAttemptCount;
  Status ← (if SDMMC_ERROR_RECOVERY_ATTEMPT_THRESHOLD <? count then mret EFI_PROTOCOL_ERROR
            else recover_lines Cmd !> recover_transfer Cmd);
  upd (fun i => set_ErrorRecoveryAttemptCount (u32 (ErrorRecoveryAttemptCount i - 1)) i);;
  mret Status.

End Recovery.

Fixpoint recover_from_errors (fuel : nat) (Cmd : SD_COMMAND) : MS Z :=
  match fuel with
  | O => stopM NoFuel
  | S fuel => recover_step (recover_from_errors fuel) Cmd
  end.

(** One level more than [SDMMC_ERROR_RECOVERY_ATTEMPT_THRESHOLD]. *)
Definition RECOVERY_LEVELS : nat := 4.
Definition SdhcRecoverFromErrors : SD_COMMAND -> MS Z := recover_from_errors RECOVERY_LEVELS.
End SdMmc.
