(* ===== verification/SdMmcIo.v ===== *)
(** * SD and eMMC cards: block and RPMB services

    Model of [BlockIo.c] and [RpmbIo.c] of
    [src/Microsoft/MsPkg/Drivers/SdMmcDxe], over the commands of
    SdMmcProtocol.v.  Statistics and benchmarks are compiled out
    ([SDMMC_COLLECT_STATISTICS], [SDMMC_BENCHMARK_IO] are 0). *)

From Stdlib Require Import ZArith Lia.
From stdpp Require Import base list numbers option.
From S2P Require Import Prelude Memory SdMmc SdMmcProtocol.

(** [ResultRequest] of RpmbIo.c: its address, and its contents. *)
Class SdImage := { ResultRequest : Z }.
Definition EFI_RPMB_REQUEST_PROGRAM_KEY : Z := 0x0001.
Definition EFI_RPMB_REQUEST_COUNTER_VALUE : Z := 0x0002.
Definition EFI_RPMB_REQUEST_AUTH_WRITE : Z := 0x0003.
Definition EFI_RPMB_REQUEST_AUTH_READ : Z := 0x0004.
Definition EFI_RPMB_REQUEST_RESULT_REQUEST : Z := 0x0005.
Definition ResultRequest_data : list Z := replicate 510 0 ++ [0x00; EFI_RPMB_REQUEST_RESULT_REQUEST].

(** [EFI_RPMB_DATA_PACKET]. *)
Definition sizeof_EFI_RPMB_DATA_PACKET : Z := 512.
Definition offsetof_RequestOrResponseType : Z := 510.

Record EFI_RPMB_DATA_BUFFER := { Packets : Z; PacketCount : Z }.

Definition DataCommandRetryCount : nat := 3.

Section Io.
Context {B : Build} {I : SdImage} {H : Type} {SH : Sdhc H}.
Implicit Types s : sd H.
Abbreviation MS := (M (sd H)).

#[local] Notation "c '!>' k" := (on_success c k) (at level 100, k at level 200, right associativity).

(** ** The commands, with recovery *)

Definition send_data (Cmd : SD_COMMAND) (Arg BufferByteSize Buffer : Z) : MS Z :=
  SdhcSendDataCommand SdhcRecoverFromErrors Cmd Arg BufferByteSize Buffer.
Definition set_block_count (BlockCount : Z) (ReliableWrite : bool) : MS Z :=
  SdhcSetBlockCount SdhcRecoverFromErrors BlockCount ReliableWrite.
Definition switch_partition (Partition : Z) : MS Z := SdhcSwitchPartitionMmc SdhcRecoverFromErrors Partition.
Definition soft_reset : MS Z := SoftReset SdhcRecoverFromErrors.

(** ** Block transfers *)

(** Up to [Retry] attempts; the status of the last one. *)
Fixpoint retry_transfer (Retry : nat) (Cmd : SD_COMMAND) (CurrentLba CurrentBufferSize CurrentBuffer : Z) : MS Z :=
  match Retry with
  | O => stopM Fault
  | S Retry' =>
      Status ← send_data Cmd CurrentLba CurrentBufferSize CurrentBuffer;
      if negb (EFI_ERROR Status) || bool_decide (Retry' = 0%nat) then mret Status
      else retry_transfer Retry' Cmd CurrentLba CurrentBufferSize CurrentBuffer
  end.

(** [Status] is [None] while it is not initialised; the block size is read
    again after each transfer. *)
Fixpoint transfer_blocks (fuel : nat) (Cmd : SD_COMMAND) (MaxTransferSize : Z)
    (Status : option Z) (BytesRemaining CurrentLba CurrentBuffer : Z) : MS Z :=
  match fuel with
  | O => stopM NoFuel
  | S fuel =>
      if 0 <? BytesRemaining then
        let CurrentBufferSize := if BytesRemaining <? MaxTransferSize then BytesRemaining else MaxTransferSize in
        Status ← retry_transfer DataCommandRetryCount Cmd CurrentLba CurrentBufferSize CurrentBuffer;
        bs ← the (fun i => BlockSize (Media i));
        if bs =? 0 then stopM Fault
        else
          transfer_blocks fuel Cmd MaxTransferSize (Some Status) (u32 (BytesRemaining - CurrentBufferSize))
            (u32 (CurrentLba + CurrentBufferSize / bs)) (u64 (CurrentBuffer + CurrentBufferSize))
      else match Status with Some Status => mret Status | None => stopM Fault end
  end.

Definition io_command (TransferDirection : SD_TRANSFER_DIRECTION) (BlockCount : Z) : SD_COMMAND :=
  if bool_decide (TransferDirection = SdTransferDirectionRead)
  then (if BlockCount =? 1 then CmdReadSingleBlock else CmdReadMultiBlock)
  else (if BlockCount =? 1 then CmdWriteSingleBlock else CmdWriteMultiBlock).

Definition IoBlocks (TransferDirection : SD_TRANSFER_DIRECTION) (aMediaId Lba BufferSize Buffer : Z) : MS Z :=
  x ← the HostExt;
  ASSERT (negb (x =? 0));;
  m ← the Media;
  if negb (MediaId m =? aMediaId) then mret EFI_MEDIA_CHANGED
  else if Buffer =? 0 then mret EFI_INVALID_PARAMETER
  else if negb (MediaPresent m) then mret EFI_NO_MEDIA
  else if BufferSize =? 0 then mret EFI_SUCCESS
  else if bool_decide (TransferDirection = SdTransferDirectionWrite) && ReadOnly m then mret EFI_WRITE_PROTECTED
  else if BlockSize m =? 0 then stopM Fault
  else if negb (BufferSize mod BlockSize m =? 0) then mret EFI_BAD_BUFFER_SIZE
  else
    let BlockCount := u32 (BufferSize / BlockSize m) in
    if LastBlock m <? u64 (Lba + BlockCount - 1) then mret EFI_INVALID_PARAMETER
    else if (2 <? IoAlign m) && negb (Z.land Buffer (IoAlign m - 1) =? 0) then mret EFI_INVALID_PARAMETER
    else
      caps ← the HostCapabilities;
      let MaxTransferSize := u32 (snd caps * BlockSize m) in
      let BytesRemaining := u32 BufferSize in
      transfer_blocks (S (S (Z.to_nat (BytesRemaining / BlockSize m)))) (io_command TransferDirection BlockCount) MaxTransferSize
        None BytesRemaining (u32 Lba) Buffer.

Definition BlockIoReset (ExtendedVerification : bool) : MS Z := soft_reset.
Definition BlockIoReadBlocks (aMediaId Lba BufferSize Buffer : Z) : MS Z :=
  IoBlocks SdTransferDirectionRead aMediaId Lba BufferSize Buffer.
Definition BlockIoWriteBlocks (aMediaId Lba BufferSize Buffer : Z) : MS Z :=
  IoBlocks SdTransferDirectionWrite aMediaId Lba BufferSize Buffer.
Definition BlockIoFlushBlocks : MS Z := mret EFI_SUCCESS.

(** ** RPMB *)

Definition Uint16ToRpmbBytes (Value : Z) : list Z := [u8 (Z.shiftr Value 8); u8 (Z.land Value 0xF)].
Definition RpmbBytesToUint16 (RpmbBytes : list Z) : Z := Z.lor (u16 (Z.shiftl (nth 0 RpmbBytes 0) 8)) (nth 1 RpmbBytes 0).

Definition request_type (Packet : Z) : MS Z :=
  gets (fun s => RpmbBytesToUint16 (read_bytes (smem s) (Packet + offsetof_RequestOrResponseType) 2)).

Definition RpmbRead (Request : Z) (Response : EFI_RPMB_DATA_BUFFER) : MS Z :=
  set_block_count 1 false !>
  send_data CmdWriteMultiBlock 0 sizeof_EFI_RPMB_DATA_PACKET Request !>
  set_block_count (u32 (PacketCount Response)) false !>
  send_data CmdReadMultiBlock 0 (u32 (PacketCount Response * sizeof_EFI_RPMB_DATA_PACKET)) (Packets Response) !>
  mret EFI_SUCCESS.

Definition RpmbWrite (Request : EFI_RPMB_DATA_BUFFER) : MS Z :=
  set_block_count (u32 (PacketCount Request)) true !>
  send_data CmdWriteMultiBlock 0 (u32 (PacketCount Request * sizeof_EFI_RPMB_DATA_PACKET)) (Packets Request) !>
  mret EFI_SUCCESS.

Definition one_packet (Packet : Z) : EFI_RPMB_DATA_BUFFER := {| Packets := Packet; PacketCount := 1 |}.

Definition RpmbQueryResult (Response : Z) : MS Z := RpmbRead ResultRequest (one_packet Response) !> mret EFI_SUCCESS.
Definition RpmbProgramKeyRequest (Request Response : Z) : MS Z :=
  RpmbWrite (one_packet Request) !> RpmbQueryResult Response !> mret EFI_SUCCESS.
Definition RpmbReadCounterRequest (Request Response : Z) : MS Z := RpmbRead Request (one_packet Response) !> mret EFI_SUCCESS.
Definition RpmbAuthenticatedWriteRequest (Request : EFI_RPMB_DATA_BUFFER) (Response : Z) : MS Z :=
  RpmbWrite Request !> RpmbQueryResult Response !> mret EFI_SUCCESS.
Definition RpmbAuthenticatedReadRequest (Request : Z) (Response : EFI_RPMB_DATA_BUFFER) : MS Z :=
  RpmbRead Request Response !> mret EFI_SUCCESS.

Definition rpmb_dispatch (RequestType : Z) (Request Response : EFI_RPMB_DATA_BUFFER) : MS Z :=
  if RequestType =? EFI_RPMB_REQUEST_PROGRAM_KEY then RpmbProgramKeyRequest (Packets Request) (Packets Response)
  else if RequestType =? EFI_RPMB_REQUEST_COUNTER_VALUE then RpmbReadCounterRequest (Packets Request) (Packets Response)
  else if RequestType =? EFI_RPMB_REQUEST_AUTH_READ then RpmbAuthenticatedReadRequest (Packets Request) Response
  else if RequestType =? EFI_RPMB_REQUEST_AUTH_WRITE then RpmbAuthenticatedWriteRequest Request (Packets Response)
  else ASSERT false;; mret EFI_SUCCESS.

Definition RpmbRequest (Request Response : EFI_RPMB_DATA_BUFFER) : MS Z :=
  x ← the HostExt;
  ASSERT (negb (x =? 0));;
  CurrentPartition ← the CurrentMmcPartition;
  SwitchStatus ← switch_partition MmcExtCsdPartitionAccessRpmb;
  if EFI_ERROR SwitchStatus then mret SwitchStatus
  else
    ASSERT (0 <? PacketCount Request);;
    ASSERT (negb (Packets Request =? 0));;
    RequestType ← request_type (Packets Request);
    Status ← rpmb_dispatch RequestType Request Response;
    SwitchStatus ← switch_partition CurrentPartition;
    mret (if EFI_ERROR Status then Status else SwitchStatus).

(** The services; pointers to buffers that may be NULL are options. *)
Definition RpmbIoProgramKey (ProgrammingRequest ResultResponse : Z) : MS Z :=
  if (ProgrammingRequest =? 0) || (ResultResponse =? 0) then mret EFI_INVALID_PARAMETER
  else
    t ← request_type ProgrammingRequest;
    if negb (t =? EFI_RPMB_REQUEST_PROGRAM_KEY) then mret EFI_INVALID_PARAMETER
    else RpmbRequest (one_packet ProgrammingRequest) (one_packet ResultResponse).

Definition RpmbIoReadCounter (ReadRequest ReadResponse : Z) : MS Z :=
  if (ReadRequest =? 0) || (ReadResponse =? 0) then mret EFI_INVALID_PARAMETER
  else
    t ← request_type ReadRequest;
    if negb (t =? EFI_RPMB_REQUEST_COUNTER_VALUE) then mret EFI_INVALID_PARAMETER
    else RpmbRequest (one_packet ReadRequest) (one_packet ReadResponse).

Definition RpmbIoAuthenticatedWrite (Request : option EFI_RPMB_DATA_BUFFER) (Response : Z) : MS Z :=
  match Request with
  | None => mret EFI_INVALID_PARAMETER
  | Some Request =>
      if (Response =? 0) || (Packets Request =? 0) || (PacketCount Request =? 0) then mret EFI_INVALID_PARAMETER
      else
        t ← request_type (Packets Request);
        if negb (t =? EFI_RPMB_REQUEST_AUTH_WRITE) then mret EFI_INVALID_PARAMETER
        else RpmbRequest Request (one_packet Response)
  end.

Definition RpmbIoAuthenticatedRead (ReadRequest : Z) (ReadResponse : option EFI_RPMB_DATA_BUFFER) : MS Z :=
  match ReadResponse with
  | None => mret EFI_INVALID_PARAMETER
  | Some ReadResponse =>
      if (ReadRequest =? 0) || (Packets ReadResponse =? 0) || (PacketCount ReadResponse =? 0) then mret EFI_INVALID_PARAMETER
      else
        t ← request_type ReadRequest;
        if negb (t =? EFI_RPMB_REQUEST_AUTH_READ) then mret EFI_INVALID_PARAMETER
        else RpmbRequest (one_packet ReadRequest) ReadResponse
  end.
End Io.
