(* ===== verification/SdMmcDriver.v ===== *)
(** * SD and eMMC cards: the driver and its pool of slots

    Model of [src/Microsoft/MsPkg/Drivers/SdMmcDxe/SdMmc.c]: creation and
    destruction of instances, the driver binding, the poll for cards.  The
    pool is the list of the addresses of its instances in link order; an
    instance that is freed leaves the store of objects. *)

From Stdlib Require Import ZArith Lia.
From stdpp Require Import base list numbers option gmap.
From S2P Require Import Prelude Memory SdMmc SdMmcProtocol SdMmcIo.

(** Layout of [SDHC_INSTANCE] and of the media structure. *)
Class SdLayout := {
  sizeof_SDHC_INSTANCE : Z;
  sizeof_EFI_BLOCK_IO_MEDIA : Z;
  offsetof_BlockBuffer : Z;
  offsetof_HostExt : Z
}.

(** [gSdhcMediaTemplate]. *)
Definition gSdhcMediaTemplate : EFI_BLOCK_IO_MEDIA :=
  {| MediaId := 0; RemovableMedia := true; MediaPresent := false; LogicalPartition := false; ReadOnly := false;
     WriteCaching := false; BlockSize := SD_BLOCK_LENGTH_BYTES; IoAlign := 4; LastBlock := 0 |}.

Record driver (H : Type) := {
  gSdhcInstancePool : list Z;
  instances : gmap Z SDHC_INSTANCE;
  gNextSdhcInstanceId : Z;
  gHpcTicksPerSeconds : Z;
  dmem : mem;
  dhost : H
}.
Arguments gSdhcInstancePool {H} _.
Arguments instances {H} _.
Arguments gNextSdhcInstanceId {H} _.
Arguments gHpcTicksPerSeconds {H} _.
Arguments dmem {H} _.
Arguments dhost {H} _.
Arguments Build_driver {H} _ _ _ _ _ _.

(** The first node of the remaining device path, as far as it is looked at. *)
Record DEVICE_PATH_NODE := { IsDevicePathEnd : bool; NodeType : Z; NodeSubType : Z; DevicePathNodeLength : Z }.
Definition HARDWARE_DEVICE_PATH : Z := 0x01.
Definition HW_VENDOR_DP : Z := 0x04.
Definition sizeof_VENDOR_DEVICE_PATH : Z := 20.

Section Driver.
Context {B : Build} {H : Type} {SH : Sdhc H} {L : SdLayout}.
Implicit Types s : driver H.
Abbreviation MD := (M (driver H)).

Definition set_pool (p : list Z) s : driver H :=
  Build_driver p (instances s) (gNextSdhcInstanceId s) (gHpcTicksPerSeconds s) (dmem s) (dhost s).
Definition set_instances (g : gmap Z SDHC_INSTANCE) s : driver H :=
  Build_driver (gSdhcInstancePool s) g (gNextSdhcInstanceId s) (gHpcTicksPerSeconds s) (dmem s) (dhost s).
Definition set_next (n : Z) s : driver H :=
  Build_driver (gSdhcInstancePool s) (instances s) n (gHpcTicksPerSeconds s) (dmem s) (dhost s).
Definition set_ticks (n : Z) s : driver H :=
  Build_driver (gSdhcInstancePool s) (instances s) (gNextSdhcInstanceId s) n (dmem s) (dhost s).
Definition set_dhost (h : H) s : driver H :=
  Build_driver (gSdhcInstancePool s) (instances s) (gNextSdhcInstanceId s) (gHpcTicksPerSeconds s) (dmem s) h.

Definition service {A} (f : H -> A * H) : MD A := fun s => let '(a, h) := f (dhost s) in Ret a (set_dhost h s).

(** An operation on the instance at [p], which must not have been freed. *)
Definition with_instance {A} (p : Z) (c : M (sd H) A) : MD A := fun s =>
  match instances s !! p with
  | None => Stop Fault
  | Some i =>
      match c (Build_sd i (dmem s) (dhost s)) with
      | Stop w => Stop w
      | Ret a t =>
          Ret a (Build_driver (gSdhcInstancePool s) (<[p := hi t]> (instances s)) (gNextSdhcInstanceId s) (gHpcTicksPerSeconds s) (smem t) (host t))
      end
  end.

(** ** The pool *)

Definition InitializeSdhcPool : MD unit := modify (set_pool []).
Definition InsertSdhcInstance (HostInst : Z) : MD unit := modify (fun s => set_pool (gSdhcInstancePool s ++ [HostInst]) s).

(** Reads the links in the instance. *)
Definition RemoveSdhcInstance (HostInst : Z) : MD unit :=
  with_instance HostInst (mret tt);;
  modify (fun s => set_pool (filter (fun p => p <> HostInst) (gSdhcInstancePool s)) s).

(** ** Instances *)

Definition new_instance (p media id : Z) (aHostExt : Z) (caps : Z * Z) : SDHC_INSTANCE :=
  {| InstanceId := id; MmcHandle := 0; SlotInitialized := false; SlotNode := None; MediaPtr := media; Media := gSdhcMediaTemplate;
     RpmbIo := {| RpmbCid := replicate 16 0; ReliableSectorCount := 0; RpmbIoSizeMult := 0 |};
     HostExt := aHostExt; HostCapabilities := caps; DevicePathProtocolInstalled := false; BlockIoProtocolInstalled := false;
     RpmbIoProtocolInstalled := false; CurrentMmcPartition := 0; CardInfo := no_card; BlockBuffer := p + offsetof_BlockBuffer;
     CmdResponse := replicate 4 0; PreLastSuccessfulCmd := None; LastSuccessfulCmd := None; ErrorRecoveryAttemptCount := 0 |}.

(** The address of the new instance, or NULL; a failed creation frees what it
    allocated. *)
Definition CreateSdhcInstance (aHostExt : Z) : MD Z :=
  HostInst ← service (AllocatePool sizeof_SDHC_INSTANCE);
  if HostInst =? 0 then mret 0
  else
    caps ← gets (fun s => GetCapabilities aHostExt (dhost s));
    ASSERT (0 <? fst caps);;
    ASSERT (0 <? snd caps);;
    if fst caps <? SD_BLOCK_LENGTH_BYTES then service (fun h => (tt, FreePool HostInst h));; mret 0
    else
      aMedia ← service (AllocatePool sizeof_EFI_BLOCK_IO_MEDIA);
      if aMedia =? 0 then service (fun h => (tt, FreePool HostInst h));; mret 0
      else
        id ← gets gNextSdhcInstanceId;
        modify (fun s => set_instances (<[HostInst := new_instance HostInst aMedia id aHostExt caps]> (instances s)) s);;
        modify (set_next (u32 (id + 1)));;
        mret HostInst.

Definition DestroySdhcInstance (HostInst : Z) : MD Z :=
  Status ← with_instance HostInst UninstallAllProtocols;
  if EFI_ERROR Status then mret Status
  else
    media ← with_instance HostInst (the MediaPtr);
    (if negb (media =? 0) then service (fun h => (tt, FreePool media h)) else mret tt);;
    x ← with_instance HostInst (the HostExt);
    service (fun h => (tt, Cleanup x h));;
    modify (fun s => set_instances (delete HostInst (instances s)) s);;
    service (fun h => (tt, FreePool HostInst h));;
    mret EFI_SUCCESS.

(** ** Cards that come and go *)

Definition check_card : M (sd H) unit :=
  IsCardPresent_ ← host_op IsCardPresent;
  present ← the (fun i => MediaPresent (Media i));
  let CardEjected := present && negb IsCardPresent_ in
  let CardInserted := negb present && IsCardPresent_ in
  if CardEjected || CardInserted then SoftReset SdhcRecoverFromErrors;; mret tt else mret tt.

Fixpoint check_cards (pool : list Z) : MD unit :=
  match pool with
  | [] => mret tt
  | HostInst :: pool => with_instance HostInst check_card;; check_cards pool
  end.

Definition CheckCardsCallback : MD unit := pool ← gets gSdhcInstancePool; check_cards pool.

(** ** Driver binding *)

Definition SdMmcDriverSupported (DriverBindingHandle Controller : Z) (RemainingDevicePath : option DEVICE_PATH_NODE) : MD Z :=
  let unsupported :=
    match RemainingDevicePath with
    | None => false
    | Some n =>
        negb (IsDevicePathEnd n) &&
        (negb (NodeType n =? HARDWARE_DEVICE_PATH) || negb (NodeSubType n =? HW_VENDOR_DP)
         || negb (DevicePathNodeLength n =? sizeof_VENDOR_DEVICE_PATH))
    end in
  if unsupported then mret EFI_UNSUPPORTED
  else
    '(Status, _) ← service (fun h => let '(st, x, h) := OpenSdhcProtocol Controller h in ((st, x), h));
    if Status =? EFI_ALREADY_STARTED then mret EFI_SUCCESS
    else if EFI_ERROR Status then mret Status
    else service (CloseProtocol Controller DriverBindingHandle Controller);; mret Status.

Definition SdMmcDriverStart (Controller : Z) (RemainingDevicePath : option DEVICE_PATH_NODE) : MD Z :=
  if match RemainingDevicePath with Some n => IsDevicePathEnd n | None => false end then mret EFI_SUCCESS
  else
    '(Status, aHostExt) ← service (fun h => let '(st, x, h) := OpenSdhcProtocol Controller h in ((st, x), h));
    if EFI_ERROR Status then mret (if Status =? EFI_ALREADY_STARTED then EFI_SUCCESS else Status)
    else
      HostInst ← CreateSdhcInstance aHostExt;
      (if negb (HostInst =? 0) then
         with_instance HostInst (upd (set_MmcHandle Controller));;
         InsertSdhcInstance HostInst;;
         CheckCardsCallback
       else mret tt);;
      mret Status.

(** [CurrentLink] is not advanced: the loop stays at the first instance. *)
Fixpoint stop_loop (fuel : nat) (DriverBindingHandle Controller HostInst : Z) : MD Z :=
  match fuel with
  | O => stopM NoFuel
  | S fuel =>
      Status ← service (CloseProtocol Controller (HostInst + offsetof_HostExt) DriverBindingHandle);
      RemoveSdhcInstance HostInst;;
      DestroySdhcInstance HostInst;;
      if Status =? EFI_SUCCESS then stop_loop fuel DriverBindingHandle Controller HostInst else mret Status
  end.

Definition SdMmcDriverStop (fuel : nat) (DriverBindingHandle Controller : Z) : MD Z :=
  pool ← gets gSdhcInstancePool;
  match pool with
  | [] => mret EFI_SUCCESS
  | HostInst :: _ => stop_loop fuel DriverBindingHandle Controller HostInst
  end.

(** ** Entry point

    Statuses of the installation of the driver binding, of the creation of the
    event and of the start of the timer; the frequency of the counter. *)
Definition SdMmcDxeInitialize (install_binding create_event set_timer : H -> Z * H) (frequency : Z) : MD Z :=
  InitializeSdhcPool;;
  Status ← service install_binding;
  ASSERT (negb (EFI_ERROR Status));;
  Status ← service create_event;
  ASSERT (negb (EFI_ERROR Status));;
  Status ← service set_timer;
  ASSERT (negb (EFI_ERROR Status));;
  modify (set_ticks frequency);;
  ASSERT (negb (frequency =? 0));;
  mret Status.
End Driver.
