(* ===== verification/SdMmcKeeps.v ===== *)
(** * SD and eMMC cards: what every operation preserves

    The operations on a slot call the host, the boot services and each other in
    deep nests; what a predicate [J] on the state must be closed under to
    survive all of them is stated once ([Keeps]).  The operations then preserve
    [J] and the number of recoveries under way, and never run out of fuel:
    recovery stops at the threshold of the driver whatever the host answers. *)

From Stdlib Require Import ZArith Lia.
From stdpp Require Import base list numbers option.
From S2P Require Import Prelude Memory SdMmc SdMmcProtocol SdMmcIo.

Lemma wpe_host_op {H A} (E : stop -> Prop) (f : Z -> H -> A * H) s (Q : A -> sd H -> Prop) :
  (let '(a, h) := f (HostExt (hi s)) (host s) in Q a (set_host h s)) -> wpe E (host_op f) s Q.
Proof. unfold wpe, host_op. by destruct (f _ _). Qed.

(** What a command leaves alone: memory, host, and all but the volatile fields
    of the instance. *)
Definition quiet {H} (s s' : sd H) : Prop :=
  smem s' = smem s /\ host s' = host s /\ HostExt (hi s') = HostExt (hi s) /\ MmcHandle (hi s') = MmcHandle (hi s)
  /\ BlockBuffer (hi s') = BlockBuffer (hi s) /\ HostCapabilities (hi s') = HostCapabilities (hi s)
  /\ MediaPtr (hi s') = MediaPtr (hi s) /\ InstanceId (hi s') = InstanceId (hi s)
  /\ forall p, installed p (hi s') = installed p (hi s).

(** The host after an operation that transfers no data. *)
Inductive control {H} {SH : Sdhc H} (x : Z) (h : H) : H -> Prop :=
| control_reset t : control x h (SoftwareReset x t h).2
| control_clock f : control x h (SetClock x f h).2
| control_width w : control x h (SetBusWidth x w h).2
| control_present : control x h (IsCardPresent x h).2
| control_read_only : control x h (IsReadOnly x h).2
| control_response c : control x h (ReceiveResponse x c h).2
| control_stall t : control x h (Stall t h)
| control_locate : control x h (LocateRpmbIo h).2
| control_text : control x h (ConvertDevicePathToText h).2.

(** [allowed dir n a]: a transfer may use the [n] bytes at [a]. *)
Class Keeps {H} {SH : Sdhc H} (J : sd H -> Prop) (allowed : SD_TRANSFER_DIRECTION -> Z -> Z -> Prop) : Prop := {
  keeps_quiet s s' : J s -> quiet s s' -> J s';
  keeps_control s h : J s -> control (HostExt (hi s)) (host s) h -> J (set_host h s);
  keeps_buffer s : J s -> allowed SdTransferDirectionRead SD_BLOCK_LENGTH_BYTES (BlockBuffer (hi s));
  keeps_send s c arg xfr : J s ->
    (forall i, xfr = Some i -> allowed (TransferDirection c) (XfrBlockSize i * XfrBlockCount i) (XfrBuffer i)) ->
    let '(_, m, h) := SendCommand (HostExt (hi s)) c arg xfr (smem s) (host s) in J (set_host h (set_smem m s));
  keeps_read s n a : J s -> allowed SdTransferDirectionRead n a ->
    let '(_, m, h) := ReadBlockData (HostExt (hi s)) n a (smem s) (host s) in J (set_host h (set_smem m s));
  keeps_write s d n a : J s -> d <> SdTransferDirectionRead -> allowed d n a ->
    J (set_host (WriteBlockData (HostExt (hi s)) n a (smem s) (host s)).2 s);
  keeps_install s p : J s ->
    let '(st, h) := InstallProtocol (MmcHandle (hi s)) p (host s) in
    J (Build_sd (if EFI_ERROR st then hi s else set_installed p true (hi s)) (smem s) h);
  keeps_uninstall s p : J s -> installed p (hi s) = true ->
    let '(st, h) := UninstallProtocol (MmcHandle (hi s)) p (host s) in
    J (Build_sd (if EFI_ERROR st then hi s else set_installed p false (hi s)) (smem s) h)
}.

Section Keeps.
Context {B : Build} {I : SdImage} {H : Type} {SH : Sdhc H}.
Context (J : sd H -> Prop) (allowed : SD_TRANSFER_DIRECTION -> Z -> Z -> Prop) {KJ : Keeps J allowed}.
Implicit Types s : sd H.
Abbreviation MS := (M (sd H)).

(** [c] preserves [J], [k] recoveries being under way. *)
Definition kept {A} (k : Z) (c : MS A) : Prop :=
  forall s, J s -> ErrorRecoveryAttemptCount (hi s) = k ->
  wpe fuel_ok c s (fun _ s' => J s' /\ ErrorRecoveryAttemptCount (hi s') = k).

Lemma kept_ret {A} k (a : A) : kept k (mret a).
Proof. done. Qed.

Lemma kept_bind {A C} k (c : MS A) (f : A -> MS C) : kept k c -> (forall a, kept k (f a)) -> kept k (mbind f c).
Proof.
  intros Hc Hf s HJ Hk. apply wpe_bind. eapply wpe_mono; [by apply Hc|]. intros a s' [HJ' Hk']. by apply Hf.
Qed.

Lemma kept_gets {A} k (f : sd H -> A) : kept k (gets f).
Proof. by intros s HJ Hk. Qed.

Lemma kept_the {A} k (f : SDHC_INSTANCE -> A) : kept k (the f).
Proof. apply kept_gets. Qed.

Lemma kept_card {A} k (f : CARD_INFO -> A) : kept k (card f).
Proof. apply kept_gets. Qed.

Lemma kept_stop {A} k w : fuel_ok w -> kept k (@stopM (sd H) A w).
Proof. by intros Hw s _ _. Qed.

Lemma kept_ASSERT k b : kept k (ASSERT b).
Proof. intros s HJ Hk. by apply wpe_ASSERT. Qed.

Lemma kept_upd k f :
  (forall s, quiet s (set_hi (f (hi s)) s) /\ ErrorRecoveryAttemptCount (f (hi s)) = ErrorRecoveryAttemptCount (hi s)) ->
  kept k (upd f).
Proof. intros Hf s HJ Hk. destruct (Hf s) as [Hq Hc]. split; [by eapply keeps_quiet | cbn; congruence]. Qed.

Lemma kept_upd_card k f : kept k (upd_card f).
Proof. apply kept_upd. intros s. by repeat split. Qed.

Lemma kept_upd_media k f : kept k (upd_media f).
Proof. apply kept_upd. intros s. by repeat split. Qed.

Lemma kept_host_op {A} k (f : Z -> H -> A * H) : (forall x h, control x h (f x h).2) -> kept k (host_op f).
Proof.
  intros Hf s HJ Hk. unfold wpe, host_op. pose proof (Hf (HostExt (hi s)) (host s)) as Hc.
  destruct (f _ _) as [a h]. split; [by apply keeps_control | done].
Qed.

Lemma kept_on_success k (c k' : MS Z) : kept k c -> kept k k' -> kept k (on_success c k').
Proof. intros Hc Hk'. apply kept_bind; [done|]. intros st. by destruct (EFI_ERROR st). Qed.

Lemma kept_send k c arg xfr :
  (forall i, xfr = Some i -> allowed (TransferDirection c) (XfrBlockSize i * XfrBlockCount i) (XfrBuffer i)) ->
  kept k (host_mem_op (fun x => SendCommand x c arg xfr)).
Proof.
  intros Ha s HJ Hk. unfold wpe, host_mem_op. pose proof (keeps_send s c arg xfr HJ Ha) as Hs.
  by destruct (SendCommand _ _ _ _ _ _) as [[st m] h].
Qed.

Lemma kept_uninstall k p : forall s, J s -> ErrorRecoveryAttemptCount (hi s) = k -> installed p (hi s) = true ->
  wpe fuel_ok (uninstall_and_note p) s (fun _ s' => J s' /\ ErrorRecoveryAttemptCount (hi s') = k).
Proof.
  intros s HJ Hk Hp. pose proof (keeps_uninstall s p HJ Hp) as Hu. unfold uninstall_and_note, uninstall, the. wpe_go.
  apply wpe_host_op. destruct (UninstallProtocol _ _ _) as [st h].
  destruct (EFI_ERROR st); wpe_go; (split; [exact Hu|]); [done | by destruct p].
Qed.

Lemma kept_uninstall_if k p : kept k (uninstall_if_installed p).
Proof.
  intros s HJ Hk. unfold uninstall_if_installed, the. wpe_go. destruct (installed p (hi s)) eqn:E; [by apply kept_uninstall | done].
Qed.

Lemma kept_install k p : kept k (install_and_note p).
Proof.
  intros s HJ Hk. pose proof (keeps_install s p HJ) as Hu. unfold install_and_note, install, the. wpe_go.
  apply wpe_host_op. destruct (InstallProtocol _ _ _) as [st h].
  destruct (EFI_ERROR st); wpe_go; (split; [exact Hu|]); [done | by destruct p].
Qed.
(** ** Commands, over a recovery that keeps *)

Section Recovery.
Context (k : Z) (recover : SD_COMMAND -> MS Z).
Hypothesis recover_kept : forall Cmd, kept k (recover Cmd).

Create HintDb sdkeep.
#[local] Hint Resolve kept_ret kept_the kept_card kept_gets kept_ASSERT kept_upd_card kept_upd_media kept_uninstall_if kept_install recover_kept : sdkeep.
#[local] Hint Extern 1 (kept _ (host_op _)) => apply kept_host_op; intros; constructor : sdkeep.
#[local] Hint Extern 1 (kept _ (upd _)) => apply kept_upd; intros; repeat split : sdkeep.
#[local] Hint Extern 1 (kept _ (stopM _)) => apply kept_stop; discriminate : sdkeep.

Ltac keep :=
  repeat (intros; lazymatch goal with
  | |- kept _ (mbind _ _) => apply kept_bind
  | |- kept _ (on_success _ _) => apply kept_on_success
  | |- kept _ (match ?x with _ => _ end) => first [solve [auto with sdkeep] | destruct x]
  | |- kept _ _ => solve [auto with sdkeep]
  end).

Lemma kept_RCA_arg : kept k RCA_arg.
Proof. unfold RCA_arg. keep. Qed.

Lemma kept_response0 : kept k response0.
Proof. unfold response0. keep. Qed.
#[local] Hint Resolve kept_RCA_arg kept_response0 : sdkeep.

Lemma kept_IsCardStatusError st : kept k (IsCardStatusError st).
Proof. unfold IsCardStatusError. keep. Qed.
#[local] Hint Resolve kept_IsCardStatusError : sdkeep.

Lemma kept_ReceiveResponse c :
  kept k (host_op (fun x h => let '(st, rs, h) := ReceiveResponse x c h in ((st, rs), h))).
Proof.
  apply kept_host_op. intros x h. pose proof (control_response x h c) as Hc.
  by destruct (ReceiveResponse x c h) as [[st rs] h'].
Qed.
#[local] Hint Resolve kept_ReceiveResponse : sdkeep.

Lemma kept_Helper c arg xfr :
  (forall i, xfr = Some i -> allowed (TransferDirection c) (XfrBlockSize i * XfrBlockCount i) (XfrBuffer i)) ->
  kept k (SdhcSendCommandHelper c arg xfr).
Proof.
  intros Ha. unfold SdhcSendCommandHelper.
  assert (forall a, kept k (host_mem_op (fun x => SendCommand x CmdAppSd a None))) by (intros; by apply kept_send).
  assert (kept k (host_mem_op (fun x => SendCommand x c arg xfr))) by by apply kept_send.
  keep.
Qed.

Lemma kept_Helper_None c arg : kept k (SdhcSendCommandHelper c arg None).
Proof. by apply kept_Helper. Qed.
#[local] Hint Resolve kept_Helper_None : sdkeep.

(** [SEND_STATUS] is not followed by a wait. *)
Lemma kept_send_plain arg : kept k (send_plain recover CmdSendStatus arg).
Proof. unfold send_plain, send_command. keep. Qed.
#[local] Hint Resolve kept_send_plain : sdkeep.

Lemma kept_SdhcSendStatus : kept k (SdhcSendStatus recover).
Proof. unfold SdhcSendStatus. keep. Qed.
#[local] Hint Resolve kept_SdhcSendStatus : sdkeep.

Lemma kept_wait_tran n st : kept k (wait_tran recover n st).
Proof. revert st. induction n; intros; cbn [wait_tran]; keep. Qed.
#[local] Hint Resolve kept_wait_tran : sdkeep.

Lemma kept_Wait : kept k (SdhcWaitForTranStateAndReadyForData recover).
Proof. unfold SdhcWaitForTranStateAndReadyForData. keep. Qed.
#[local] Hint Resolve kept_Wait : sdkeep.

Lemma kept_SdhcSendCommand c arg : kept k (SdhcSendCommand recover c arg).
Proof. unfold SdhcSendCommand, send_command. keep. Qed.
#[local] Hint Resolve kept_SdhcSendCommand : sdkeep.

Lemma kept_SdhcStopTransmission : kept k (SdhcStopTransmission recover).
Proof. unfold SdhcStopTransmission. keep. Qed.
#[local] Hint Resolve kept_SdhcStopTransmission : sdkeep.

Lemma kept_open_ended c : kept k (open_ended c).
Proof. unfold open_ended. keep. Qed.
#[local] Hint Resolve kept_open_ended : sdkeep.

Lemma kept_transfer_data c n a : allowed (TransferDirection c) n a -> kept k (transfer_data c n a).
Proof.
  intros Ha. unfold transfer_data. destruct (bool_decide_reflect (TransferDirection c = SdTransferDirectionRead)) as [E|E].
  - intros s HJ Hk. rewrite E in Ha. unfold wpe, host_mem_op. pose proof (keeps_read s n a HJ Ha) as Hs.
    by destruct (ReadBlockData _ _ _ _ _) as [[st m] h].
  - apply kept_bind; [apply kept_ASSERT|]. intros _ s HJ Hk. unfold wpe, host_mem_op.
    pose proof (keeps_write s _ n a HJ E Ha) as Hs. by destruct (WriteBlockData _ _ _ _ _) as [st h].
Qed.
#[local] Hint Resolve kept_transfer_data : sdkeep.

Lemma kept_SdhcSendDataCommand c arg n a :
  n mod SD_BLOCK_LENGTH_BYTES = 0 -> allowed (TransferDirection c) n a -> kept k (SdhcSendDataCommand recover c arg n a).
Proof.
  intros Hn Ha. unfold SdhcSendDataCommand.
  assert (Hh : kept k (SdhcSendCommandHelper c arg (Some {| XfrBlockSize := SD_BLOCK_LENGTH_BYTES;
    XfrBlockCount := n / SD_BLOCK_LENGTH_BYTES; XfrBuffer := a |}))).
  { apply kept_Helper. intros i [= <-]. cbn [XfrBlockSize XfrBlockCount XfrBuffer].
    rewrite <- (Z_div_exact_full_2 n SD_BLOCK_LENGTH_BYTES) by done. done. }
  keep.
Qed.

(** Data for the driver itself goes to the buffer of the slot. *)
Lemma kept_to_buffer c arg (f : Z -> MS Z) : TransferDirection c = SdTransferDirectionRead -> (forall b, kept k (f b)) ->
  kept k (buf ← the BlockBuffer; on_success (SdhcSendDataCommand recover c arg SD_BLOCK_LENGTH_BYTES buf) (f buf)).
Proof.
  intros Hc Hf s HJ Hk. unfold the. wpe_go. pose proof (keeps_buffer s HJ) as Ha. revert s HJ Hk Ha. intros s HJ Hk Ha.
  apply kept_on_success; try done. apply kept_SdhcSendDataCommand; [done | by rewrite Hc].
Qed.

Lemma kept_SdhcSendExtCsdMmc : kept k (SdhcSendExtCsdMmc recover).
Proof. unfold SdhcSendExtCsdMmc. apply kept_bind; [apply kept_RCA_arg|]. intros a. apply kept_to_buffer; [done|]. keep. Qed.

Lemma kept_SdhcSendScrSd : kept k (SdhcSendScrSd recover).
Proof. unfold SdhcSendScrSd. apply kept_bind; [apply kept_RCA_arg|]. intros a. apply kept_to_buffer; [done|]. keep. Qed.
#[local] Hint Resolve kept_SdhcSendExtCsdMmc kept_SdhcSendScrSd : sdkeep.

(** ** Identification and reset *)

Lemma kept_SdhcSetBlockCount n r : kept k (SdhcSetBlockCount recover n r).
Proof. unfold SdhcSetBlockCount. keep. Qed.

Lemma kept_CalculateCardMaxFreq : kept k CalculateCardMaxFreq.
Proof. unfold CalculateCardMaxFreq. keep. Qed.
#[local] Hint Resolve kept_CalculateCardMaxFreq : sdkeep.

Lemma kept_SdhcSetMaxClockFrequency : kept k SdhcSetMaxClockFrequency.
Proof. unfold SdhcSetMaxClockFrequency. keep. Qed.
#[local] Hint Resolve kept_SdhcSetMaxClockFrequency : sdkeep.

Lemma kept_op_cond_sd n arg : kept k (op_cond_sd recover n arg).
Proof. induction n; cbn [op_cond_sd]; keep. Qed.

Lemma kept_op_cond_mmc n arg : kept k (op_cond_mmc recover n arg).
Proof. induction n; cbn [op_cond_mmc]; keep. Qed.
#[local] Hint Resolve kept_op_cond_sd kept_op_cond_mmc : sdkeep.

Lemma kept_SdhcQueryCardType : kept k (SdhcQueryCardType recover).
Proof. unfold SdhcQueryCardType, SdhcGoIdleState, SdhcSendIfCondSd, SdhcSendOpCondSdio, SdhcSendOpCondMmc. keep. Qed.

Lemma kept_SdhcSendCid : kept k (SdhcSendCid recover).
Proof. unfold SdhcSendCid. keep. Qed.

Lemma kept_SdhcSendCsd : kept k (SdhcSendCsd recover).
Proof. unfold SdhcSendCsd. keep. Qed.

Lemma kept_SdhcSendRelativeAddr : kept k (SdhcSendRelativeAddr recover).
Proof. unfold SdhcSendRelativeAddr. keep. Qed.
#[local] Hint Resolve kept_SdhcQueryCardType kept_SdhcSendCid kept_SdhcSendCsd kept_SdhcSendRelativeAddr : sdkeep.

Lemma kept_InitializeSdDevice : kept k (InitializeSdDevice recover).
Proof.
  unfold InitializeSdDevice, SdhcSendOpCondSd, SdhcSendCidAll, SdhcSelectDevice, SdhcSwitchBusWidthSd, SdhcSwitchSpeedModeSd. keep.
Qed.

Lemma kept_SdhcSwitchBusWidthMmc : kept k (SdhcSwitchBusWidthMmc recover).
Proof. unfold SdhcSwitchBusWidthMmc, switch_power_class. keep. Qed.

Lemma kept_SdhcSwitchSpeedModeMmc : kept k (SdhcSwitchSpeedModeMmc recover).
Proof. unfold SdhcSwitchSpeedModeMmc. keep. Qed.

Lemma kept_SdhcSwitchPartitionMmc p : kept k (SdhcSwitchPartitionMmc recover p).
Proof. unfold SdhcSwitchPartitionMmc. keep. Qed.
#[local] Hint Resolve kept_InitializeSdDevice kept_SdhcSwitchBusWidthMmc kept_SdhcSwitchSpeedModeMmc : sdkeep.

Lemma kept_InitializeMmcDevice : kept k (InitializeMmcDevice recover).
Proof. unfold InitializeMmcDevice, SdhcSendCidAll, SdhcSelectDevice. keep. Qed.
#[local] Hint Resolve kept_InitializeMmcDevice : sdkeep.

Lemma kept_InitializeDevice : kept k (InitializeDevice recover).
Proof. unfold InitializeDevice, SdhcSetBlockLength. keep. Qed.

Lemma kept_IsRpmbInstalled : kept k IsRpmbInstalledOnTheSystem.
Proof. unfold IsRpmbInstalledOnTheSystem. keep. Qed.
#[local] Hint Resolve kept_InitializeDevice kept_IsRpmbInstalled : sdkeep.

Lemma kept_install_protocols : kept k install_protocols.
Proof. unfold install_protocols. keep. Qed.
#[local] Hint Resolve kept_install_protocols : sdkeep.

Lemma kept_reset_body : kept k (reset_body recover).
Proof. unfold reset_body, UninstallAllProtocols. keep. Qed.

Lemma kept_reset_failed st : kept k (reset_failed st).
Proof.
  unfold reset_failed. intros s HJ Hk. unfold the. wpe_go. apply (wpe_mono _ _ _ (fun _ s' => J s' /\ ErrorRecoveryAttemptCount (hi s') = k)).
  - destruct (installed _ (hi s)) eqn:E; [by apply kept_uninstall | done].
  - intros st' s' [HJ' Hk']. wpe_go. destruct (installed _ (hi s')) eqn:E; [by apply kept_uninstall | done].
Qed.
#[local] Hint Resolve kept_reset_body kept_reset_failed : sdkeep.

Lemma kept_SoftReset : kept k (SoftReset recover).
Proof. unfold SoftReset. keep. Qed.
#[local] Hint Resolve kept_SoftReset : sdkeep.

Lemma kept_recover_lines c : kept k (recover_lines recover c).
Proof. unfold recover_lines. keep. Qed.

Lemma kept_recover_transfer c : kept k (recover_transfer recover c).
Proof. unfold recover_transfer. keep. Qed.
End Recovery.
(** ** Recovery stops at its threshold *)

Lemma kept_recover_step k recover c : 0 <= k <= 3 ->
  (k < 3 -> forall Cmd, kept (k + 1) (recover Cmd)) -> kept k (recover_step recover c).
Proof.
  intros Hk Hr s HJ Hc. unfold recover_step, upd, the. wpe_go. cbn [hi set_hi]. rewrite Hc.
  assert (Eu : u32 (k + 1) = k + 1) by (apply wrap_small; unfold in_word; lia).
  assert (Ed : u32 (k + 1 - 1) = k) by (rewrite wrap_small; unfold in_word; lia).
  set (i := set_ErrorRecoveryAttemptCount _ _). assert (HJ' : J (set_hi i s)) by (eapply keeps_quiet; [done | by repeat split]).
  apply (wpe_mono _ _ _ (fun _ s' => J s' /\ ErrorRecoveryAttemptCount (hi s') = k + 1)).
  - change (ErrorRecoveryAttemptCount i) with (u32 (k + 1)). rewrite Eu.
    destruct (Z.ltb_spec SDMMC_ERROR_RECOVERY_ATTEMPT_THRESHOLD (k + 1)) as [Hlt|Hlt]; [done|].
    unfold SDMMC_ERROR_RECOVERY_ATTEMPT_THRESHOLD in Hlt.
    apply (kept_on_success (k + 1)); try done; [apply kept_recover_lines | apply kept_recover_transfer]; apply Hr; lia.
  - intros st s' [HJs Hs]. wpe_go. cbn. rewrite Hs, Ed. split; [|done]. eapply keeps_quiet; [done | by repeat split].
Qed.

Lemma recover_kept_at n : forall k c, k = 4 - Z.of_nat n -> (1 <= n <= 4)%nat -> kept k (recover_from_errors n c).
Proof.
  induction n as [|n IH]; intros k c Hk Hn; [lia|]. cbn [recover_from_errors]. apply kept_recover_step; [lia|].
  intros Hlt Cmd. apply IH; lia.
Qed.

Lemma kept_SdhcRecoverFromErrors c : kept 0 (SdhcRecoverFromErrors c).
Proof. apply recover_kept_at; [done | unfold RECOVERY_LEVELS; lia]. Qed.

(** ** The services *)

Lemma kept_soft_reset : kept 0 soft_reset.
Proof. apply kept_SoftReset, kept_SdhcRecoverFromErrors. Qed.

Lemma kept_set_block_count n r : kept 0 (set_block_count n r).
Proof. apply kept_SdhcSetBlockCount, kept_SdhcRecoverFromErrors. Qed.

Lemma kept_switch_partition p : kept 0 (switch_partition p).
Proof. apply kept_SdhcSwitchPartitionMmc, kept_SdhcRecoverFromErrors. Qed.

Lemma kept_send_data c arg n a :
  n mod SD_BLOCK_LENGTH_BYTES = 0 -> allowed (TransferDirection c) n a -> kept 0 (send_data c arg n a).
Proof. apply kept_SdhcSendDataCommand, kept_SdhcRecoverFromErrors. Qed.

Lemma kept_retry n c lba len a : (0 < n)%nat ->
  len mod SD_BLOCK_LENGTH_BYTES = 0 -> allowed (TransferDirection c) len a -> kept 0 (retry_transfer n c lba len a).
Proof.
  intros Hn Hlen Ha. induction n as [|n IH]; [lia|]. cbn [retry_transfer]. apply kept_bind; [by apply kept_send_data|].
  intros st. destruct (bool_decide_reflect (n = 0%nat)) as [->|Hne]; [by destruct (EFI_ERROR st)|].
  destruct (EFI_ERROR st); [apply IH; lia | apply kept_ret].
Qed.

(** The chunks of a transfer of [len] bytes at [a]: all below [max]. *)
Definition chunks_allowed (d : SD_TRANSFER_DIRECTION) (max len a : Z) : Prop :=
  forall o n, 0 <= o -> 0 < n <= max -> o + n <= len -> o mod SD_BLOCK_LENGTH_BYTES = 0 -> n mod SD_BLOCK_LENGTH_BYTES = 0 ->
  allowed d n (u64 (a + o)).

Lemma chunk_next max rem : 0 < rem < 2 ^ 32 -> 0 < max -> rem mod SD_BLOCK_LENGTH_BYTES = 0 -> max mod SD_BLOCK_LENGTH_BYTES = 0 ->
  let n := if rem <? max then rem else max in
  0 < n <= max /\ n <= rem /\ n mod SD_BLOCK_LENGTH_BYTES = 0 /\ u32 (rem - n) = rem - n /\ (rem - n) mod SD_BLOCK_LENGTH_BYTES = 0.
Proof.
  intros Hrem Hmax Hr Hm n. assert (Hn : 0 < n <= max /\ n <= rem /\ n mod SD_BLOCK_LENGTH_BYTES = 0).
  { subst n. destruct (Z.ltb_spec rem max); repeat split; try done; lia. }
  destruct Hn as (H1 & H2 & H3). repeat split; try done; try lia.
  - apply wrap_small. unfold in_word. lia.
  - by rewrite Zminus_mod, Hr, H3.
Qed.

Lemma kept_transfer_blocks fuel c max len a : 0 <= len < 2 ^ 32 -> 0 < max -> max mod SD_BLOCK_LENGTH_BYTES = 0 ->
  chunks_allowed (TransferDirection c) max len a ->
  forall st o lba, 0 <= o <= len -> (len - o) mod SD_BLOCK_LENGTH_BYTES = 0 -> o mod SD_BLOCK_LENGTH_BYTES = 0 ->
  (1 <= fuel)%nat -> len - o <= (Z.of_nat fuel - 1) * max -> kept 0 (transfer_blocks fuel c max st (len - o) lba (u64 (a + o))).
Proof.
  intros Hlen Hmax Hm Ha. induction fuel as [|fuel IH]; intros st o lba Ho Hr Hom H1 Hf; [lia|]. cbn [transfer_blocks].
  destruct (Z.ltb_spec 0 (len - o)) as [Hpos|Hpos].
  2: { destruct st; [apply kept_ret | by apply kept_stop]. }
  destruct (chunk_next max (len - o)) as (Hn & Hle & Hn512 & Hu & Hr'); try done; [lia|].
  set (n := if len - o <? max then len - o else max) in *. apply kept_bind.
  { apply kept_retry; [unfold DataCommandRetryCount; lia | done |]. apply Ha; try done; lia. }
  intros st'. apply kept_bind; [apply kept_the|]. intros bs. destruct (bs =? 0); [by apply kept_stop|].
  rewrite Hu. replace (len - o - n) with (len - (o + n)) by lia.
  replace (u64 (u64 (a + o) + n)) with (u64 (a + (o + n))).
  2: { unfold wrap. rewrite Z.add_mod_idemp_l by done. f_equal. lia. }
  apply IH; try lia.
  - replace (len - (o + n)) with (len - o - n) by lia. done.
  - by rewrite Zplus_mod, Hom, Hn512.
  - rewrite Nat2Z.inj_succ in Hf. replace (Z.succ (Z.of_nat fuel) - 1) with (Z.of_nat fuel) in Hf by lia.
    assert (Hp : 1 <= Z.of_nat fuel) by nia. subst n. destruct (Z.ltb_spec (len - o) max).
    + pose proof (Z.mul_nonneg_nonneg (Z.of_nat fuel - 1) max). lia.
    + lia.
Qed.

Definition io_direction (d : SD_TRANSFER_DIRECTION) : SD_TRANSFER_DIRECTION :=
  if bool_decide (d = SdTransferDirectionRead) then SdTransferDirectionRead else SdTransferDirectionWrite.

Lemma io_command_direction d n : TransferDirection (io_command d n) = io_direction d.
Proof. unfold io_command, io_direction. by destruct (bool_decide _), (n =? 1). Qed.

(** The slot has been initialised, and its host can transfer a block. *)
Definition io_ready (s : sd H) : Prop :=
  BlockSize (Media (hi s)) = SD_BLOCK_LENGTH_BYTES /\ 0 < snd (HostCapabilities (hi s)) < 2 ^ 23.

Lemma kept_IoBlocks d id lba len a s : J s -> ErrorRecoveryAttemptCount (hi s) = 0 -> io_ready s -> in_word 64 a ->
  chunks_allowed (io_direction d) (snd (HostCapabilities (hi s)) * SD_BLOCK_LENGTH_BYTES) (u32 len) a ->
  wpe fuel_ok (IoBlocks d id lba len a) s (fun _ s' => J s' /\ ErrorRecoveryAttemptCount (hi s') = 0).
Proof.
  intros HJ Hc [Hbs Hcap] Ha Hch. unfold IoBlocks, the. wpe_go. rewrite Hbs.
  case_if Eid; [by apply wpe_ret|]. case_if Ea; [by apply wpe_ret|]. case_if Ep; [by apply wpe_ret|].
  case_if El; [by apply wpe_ret|]. case_if Ero; [by apply wpe_ret|]. case_if E512; [done|].
  case_if Emod; [by apply wpe_ret|].
  case_if Elast; [by apply wpe_ret|]. case_if Eal; [by apply wpe_ret|]. wpe_go.
  set (max := snd (HostCapabilities (hi s)) * SD_BLOCK_LENGTH_BYTES) in *.
  assert (Hmax : 0 < max < 2 ^ 32) by (unfold max, SD_BLOCK_LENGTH_BYTES; lia).
  rewrite (wrap_small 32 max) by (unfold in_word; lia).
  assert (Hu : 0 <= u32 len < 2 ^ 32) by (apply wrap_range; lia).
  assert (H512 : u32 len mod SD_BLOCK_LENGTH_BYTES = 0).
  { apply negb_false_iff, Z.eqb_eq in Emod. unfold wrap. change (2 ^ 32) with (SD_BLOCK_LENGTH_BYTES * 2 ^ 23).
    rewrite Z.rem_mul_r, Emod by done. rewrite Z.add_0_l, Z.mul_comm. apply Z.mod_mul. done. }
  lazymatch goal with |- wpe _ (transfer_blocks ?f ?c ?m ?st ?r ?l ?b) _ _ =>
    assert (Hk : kept 0 (transfer_blocks f c m st (r - 0) l (u64 (b + 0)))) end.
  { apply kept_transfer_blocks; rewrite ?Z.sub_0_r; try done; try lia.
    - unfold max, SD_BLOCK_LENGTH_BYTES. by rewrite Z.mod_mul.
    - by rewrite io_command_direction.
    - rewrite !Nat2Z.inj_succ, Z2Nat.id by (apply Z.div_pos; [lia | done]).
      pose proof (Z_div_mod_eq_full (u32 len) SD_BLOCK_LENGTH_BYTES). unfold max, SD_BLOCK_LENGTH_BYTES in *. nia. }
  rewrite Z.sub_0_r, Z.add_0_r, (wrap_small 64 a) in Hk by exact Ha. by apply Hk.
Qed.

Lemma kept_RpmbRead q r : allowed SdTransferDirectionWrite sizeof_EFI_RPMB_DATA_PACKET q ->
  allowed SdTransferDirectionRead (u32 (PacketCount r * sizeof_EFI_RPMB_DATA_PACKET)) (Packets r) ->
  kept 0 (RpmbRead q r).
Proof.
  intros Hq Hr. unfold RpmbRead.
  repeat (apply kept_on_success; [first [apply kept_set_block_count | apply kept_send_data]|]); try done.
  unfold sizeof_EFI_RPMB_DATA_PACKET, SD_BLOCK_LENGTH_BYTES, wrap. change (2 ^ 32) with (512 * 2 ^ 23).
  by rewrite Z.rem_mul_r, Z.mod_mul, Z.add_0_l, Z.mul_comm, Z.mod_mul by done.
Qed.

Lemma kept_RpmbWrite q : allowed SdTransferDirectionWrite (u32 (PacketCount q * sizeof_EFI_RPMB_DATA_PACKET)) (Packets q) ->
  kept 0 (RpmbWrite q).
Proof.
  intros Hq. unfold RpmbWrite.
  repeat (apply kept_on_success; [first [apply kept_set_block_count | apply kept_send_data]|]); try done.
  unfold sizeof_EFI_RPMB_DATA_PACKET, SD_BLOCK_LENGTH_BYTES, wrap. change (2 ^ 32) with (512 * 2 ^ 23).
  by rewrite Z.rem_mul_r, Z.mod_mul, Z.add_0_l, Z.mul_comm, Z.mod_mul by done.
Qed.

(** The packets of an RPMB request and of its response. *)
Definition rpmb_allowed (q r : EFI_RPMB_DATA_BUFFER) : Prop :=
  allowed SdTransferDirectionWrite sizeof_EFI_RPMB_DATA_PACKET ResultRequest
  /\ allowed SdTransferDirectionWrite sizeof_EFI_RPMB_DATA_PACKET (Packets q)
  /\ allowed SdTransferDirectionWrite (u32 (PacketCount q * sizeof_EFI_RPMB_DATA_PACKET)) (Packets q)
  /\ allowed SdTransferDirectionRead sizeof_EFI_RPMB_DATA_PACKET (Packets r)
  /\ allowed SdTransferDirectionRead (u32 (PacketCount r * sizeof_EFI_RPMB_DATA_PACKET)) (Packets r).

Lemma kept_RpmbRequest q r : rpmb_allowed q r -> kept 0 (RpmbRequest q r).
Proof.
  intros (H1 & H2 & H3 & H4 & H5).
  assert (Hres : kept 0 (RpmbQueryResult (Packets r))) by (apply kept_on_success; [by apply kept_RpmbRead | apply kept_ret]).
  assert (kept 0 (RpmbWrite q)) by by apply kept_RpmbWrite.
  assert (kept 0 (RpmbWrite (one_packet (Packets q)))) by by apply kept_RpmbWrite.
  assert (kept 0 (RpmbRead (Packets q) (one_packet (Packets r)))) by by apply kept_RpmbRead.
  assert (kept 0 (RpmbRead (Packets q) r)) by by apply kept_RpmbRead.
  unfold RpmbRequest. apply kept_bind; [apply kept_the | intros x]. apply kept_bind; [apply kept_ASSERT | intros _].
  apply kept_bind; [apply kept_the | intros part]. apply kept_bind; [apply kept_switch_partition | intros st].
  destruct (EFI_ERROR st); [apply kept_ret|].
  do 2 (apply kept_bind; [apply kept_ASSERT | intros _]). apply kept_bind; [apply kept_gets | intros ty].
  apply kept_bind; [| intros st'; apply kept_bind; [apply kept_switch_partition | intros; apply kept_ret]].
  unfold rpmb_dispatch, RpmbProgramKeyRequest, RpmbReadCounterRequest, RpmbAuthenticatedReadRequest, RpmbAuthenticatedWriteRequest.
  repeat case_match; repeat (apply kept_on_success; [done|]); try apply kept_ret; try done.
  apply kept_bind; [apply kept_ASSERT | intros; apply kept_ret].
Qed.

End Keeps.
