(* ===== verification/SdMmcCard.v ===== *)
(** * SD and eMMC cards: an abstract card and the commands against it

    [ecard] is what a sector addressed card in its transfer state does with the
    commands of the driver: block transfers, the block count, the switch of the
    partition, EXT_CSD, and the RPMB partition, whose authenticated engine is a
    parameter.  [CardHost] says that a host controller relays a card that
    refines it.  The theorems about transfers are proved against that
    interface; the abstract card is its first implementation. *)

From Stdlib Require Import ZArith Lia.
From stdpp Require Import base list numbers option.
From S2P Require Import Prelude Memory SdMmc SdMmcProtocol SdMmcIo.

(** ** The abstract card *)

(** The authenticated engine behind the RPMB partition: it takes the packets of
    a request and hands out those of a response. *)
Class RpmbEngine (R : Type) := {
  rpmb_take : list Z -> R -> R;
  rpmb_give : Z -> R -> list Z;
  rpmb_give_length : forall n r, 0 <= n -> length (rpmb_give n r) = Z.to_nat (n * SD_BLOCK_LENGTH_BYTES)
}.

(** What the data line is waiting for, after a command. *)
Inductive data_phase :=
| NoData
| SendBlocks (arg n : Z) (open : bool)
| SendExtCsd
| TakeBlocks (arg n : Z) (open : bool).

Inductive card_phase :=
| Tran                          (* ready for a command, or programming *)
| Answering (next : data_phase) (* a response is due *)
| Transferring (d : data_phase)
| Open.                         (* an open-ended transfer is to be stopped *)

Record ecard (R : Type) := {
  phase : card_phase;
  busy : nat;
  block_count : option Z;
  ext_csd : list Z;
  disk : Z -> list Z;
  rpmb : R;
  latency : nat  (* polls a program operation takes *)
}.
Arguments phase {R} _.
Arguments busy {R} _.
Arguments block_count {R} _.
Arguments ext_csd {R} _.
Arguments disk {R} _.
Arguments rpmb {R} _.
Arguments latency {R} _.
Arguments Build_ecard {R} _ _ _ _ _ _ _.

Section Card.
Context {R : Type} {RE : RpmbEngine R}.
Implicit Types k : ecard R.

Definition at_phase (p : card_phase) k : ecard R :=
  Build_ecard p (busy k) (block_count k) (ext_csd k) (disk k) (rpmb k) (latency k).
Definition with_busy (b : nat) k : ecard R :=
  Build_ecard (phase k) b (block_count k) (ext_csd k) (disk k) (rpmb k) (latency k).
Definition with_count (c : option Z) k : ecard R :=
  Build_ecard (phase k) (busy k) c (ext_csd k) (disk k) (rpmb k) (latency k).
Definition with_ext (e : list Z) k : ecard R :=
  Build_ecard (phase k) (busy k) (block_count k) e (disk k) (rpmb k) (latency k).
Definition with_disk (d : Z -> list Z) k : ecard R :=
  Build_ecard (phase k) (busy k) (block_count k) (ext_csd k) d (rpmb k) (latency k).
Definition with_rpmb (r : R) k : ecard R :=
  Build_ecard (phase k) (busy k) (block_count k) (ext_csd k) (disk k) r (latency k).

Definition card_partition k : Z := PARTITION_ACCESS (PartitionConfig (ext_csd k)).

(** The status in a response: transfer state and ready for data, or
    programming. *)
Definition status_word k : Z := if bool_decide (busy k = 0%nat) then 0x900 else 0xE00.

(** The next phase for a command with its argument and number of blocks; [None]
    is a command the card does not take now. *)
Definition take_command (c : SD_COMMAND) (arg : Z) (n : option Z) k : option (ecard R) :=
  let opened := bool_decide (block_count k = None) in
  let blocks := match block_count k with Some c => Some c | None => n end in
  match phase k with
  | Tran =>
      if CmdsAreEqual c CmdSendStatus then Some (at_phase (Answering NoData) k)
      else if negb (bool_decide (busy k = 0%nat)) then None
      else if CmdsAreEqual c CmdSetBlockCount then Some (at_phase (Answering NoData) (with_count (Some (Z.land arg 0xFFFF)) k))
      else if CmdsAreEqual c CmdReadSingleBlock then Some (at_phase (Answering (SendBlocks arg 1 false)) k)
      else if CmdsAreEqual c CmdReadMultiBlock then n ← blocks; Some (at_phase (Answering (SendBlocks arg n opened)) (with_count None k))
      else if CmdsAreEqual c CmdWriteSingleBlock then Some (at_phase (Answering (TakeBlocks arg 1 false)) k)
      else if CmdsAreEqual c CmdWriteMultiBlock then n ← blocks; Some (at_phase (Answering (TakeBlocks arg n opened)) (with_count None k))
      else if CmdsAreEqual c CmdSendExtCsdMmc then Some (at_phase (Answering SendExtCsd) k)
      else if CmdsAreEqual c CmdSwitchMmc then
        if Z.land (Z.shiftr arg 24) 0x3 =? MmcSwitchCmdAccessTypeWriteByte then
          let i := Z.to_nat (Z.land (Z.shiftr arg 16) 0xFF) in
          let v := Z.land (Z.shiftr arg 8) 0xFF in
          Some (at_phase (Answering NoData) (with_busy (latency k) (with_ext (<[i := v]> (ext_csd k)) k)))
        else None
      else None
  | Open => if CmdsAreEqual c CmdStopTransmission then Some (at_phase (Answering NoData) (with_busy (latency k) k)) else None
  | _ => None
  end.

Definition answer k : option (Z * ecard R) :=
  match phase k with
  | Answering NoData => Some (status_word k, at_phase Tran k)
  | Answering d => Some (status_word k, at_phase (Transferring d) k)
  | _ => None
  end.

Definition after_data (open : bool) k : ecard R := at_phase (if open then Open else Tran) k.

Definition disk_blocks (d : Z -> list Z) (arg n : Z) : list Z := concat (d <$> seqZ arg n).

(** The bytes the card sends, if [n] bytes are due. *)
Definition send_data_of (n : Z) k : option (list Z * ecard R) :=
  match phase k with
  | Transferring SendExtCsd => if n =? SD_BLOCK_LENGTH_BYTES then Some (ext_csd k, after_data false k) else None
  | Transferring (SendBlocks arg c open) =>
      if n =? c * SD_BLOCK_LENGTH_BYTES then
        Some (if card_partition k =? MmcExtCsdPartitionAccessRpmb then rpmb_give c (rpmb k) else disk_blocks (disk k) arg c,
              after_data open k)
      else None
  | _ => None
  end.

(** Blocks [arg], [arg + 1], ... replaced by the bytes. *)
Definition write_disk (d : Z -> list Z) (arg n : Z) (bs : list Z) (lba : Z) : list Z :=
  if in_range arg n lba then take 512 (drop (Z.to_nat ((lba - arg) * SD_BLOCK_LENGTH_BYTES)) bs) else d lba.

Definition take_data_of (bs : list Z) k : option (ecard R) :=
  match phase k with
  | Transferring (TakeBlocks arg c open) =>
      if Z.of_nat (length bs) =? c * SD_BLOCK_LENGTH_BYTES then
        let k' := if card_partition k =? MmcExtCsdPartitionAccessRpmb then with_rpmb (rpmb_take bs (rpmb k)) k
                  else with_disk (write_disk (disk k) arg c bs) k in
        Some (after_data open (with_busy (latency k) k'))
      else None
  | _ => None
  end.
End Card.

(** ** Hosts that relay such a card *)

Class CardHost (R : Type) {RE : RpmbEngine R} {H : Type} (SH : Sdhc H) (x : Z) := {
  the_card : H -> ecard R;
  card_SendCommand c arg xfr m h k : take_command c arg (XfrBlockCount <$> xfr) (the_card h) = Some k ->
    exists h', SendCommand x c arg xfr m h = (EFI_SUCCESS, m, h') /\ the_card h' = k;
  card_ReceiveResponse c h w k : answer (the_card h) = Some (w, k) ->
    exists h', ReceiveResponse x c h = (EFI_SUCCESS, [w], h') /\ the_card h' = k;
  card_ReadBlockData n a m h bs k : send_data_of n (the_card h) = Some (bs, k) ->
    exists h', ReadBlockData x n a m h = (EFI_SUCCESS, write_bytes m a bs, h') /\ the_card h' = k;
  card_WriteBlockData n a m h k : take_data_of (read_bytes m a n) (the_card h) = Some k ->
    exists h', WriteBlockData x n a m h = (EFI_SUCCESS, h') /\ the_card h' = k;
  card_Stall t h : the_card (Stall t h) = with_busy (pred (busy (the_card h))) (the_card h)
}.

(** The card itself as a host: the other services succeed without effect. *)
#[export] Instance card_sdhc {R} {RE : RpmbEngine R} : Sdhc (ecard R) := {
  GetCapabilities _ _ := (512, 64);
  SoftwareReset _ _ k := (EFI_SUCCESS, k);
  SetClock _ _ k := (EFI_SUCCESS, k);
  SetBusWidth _ _ k := (EFI_SUCCESS, k);
  IsCardPresent _ k := (true, k);
  IsReadOnly _ k := (false, k);
  SendCommand _ c arg xfr m k :=
    match take_command c arg (XfrBlockCount <$> xfr) k with Some k => (EFI_SUCCESS, m, k) | None => (EFI_DEVICE_ERROR, m, k) end;
  ReceiveResponse _ _ k := match answer k with Some (w, k) => (EFI_SUCCESS, [w], k) | None => (EFI_DEVICE_ERROR, [], k) end;
  ReadBlockData _ n a m k :=
    match send_data_of n k with Some (bs, k) => (EFI_SUCCESS, write_bytes m a bs, k) | None => (EFI_DEVICE_ERROR, m, k) end;
  WriteBlockData _ n a m k :=
    match take_data_of (read_bytes m a n) k with Some k => (EFI_SUCCESS, k) | None => (EFI_DEVICE_ERROR, k) end;
  Cleanup _ k := k;
  Stall _ k := with_busy (pred (busy k)) k;
  InstallProtocol _ _ k := (EFI_SUCCESS, k);
  UninstallProtocol _ _ k := (EFI_SUCCESS, k);
  LocateRpmbIo k := (EFI_NOT_FOUND, k);
  ConvertDevicePathToText k := (true, k);
  OpenSdhcProtocol _ k := (EFI_SUCCESS, 1, k);
  CloseProtocol _ _ _ k := (EFI_SUCCESS, k);
  AllocatePool _ k := (4096, k);
  FreePool _ k := k
}.

#[export] Instance card_host {R} {RE : RpmbEngine R} x : CardHost R card_sdhc x.
Proof.
  refine {| the_card := fun k : ecard R => k |}.
  - intros c arg xfr m h k E. cbn. rewrite E. eauto.
  - intros c h w k E. cbn. rewrite E. eauto.
  - intros n a m h bs k E. cbn. rewrite E. eauto.
  - intros n a m h k E. cbn. rewrite E. eauto.
  - done.
Defined.

(** * SD and eMMC cards: commands against the abstract card

    What each command of SdMmcProtocol.v does when the host relays a card that
    refines the abstract one: success, the next state of the card, and nothing
    else but the response and the record of the last commands. *)

(** The instance without the fields every command writes. *)
Definition settled (i : SDHC_INSTANCE) : SDHC_INSTANCE :=
  set_CmdResponse [] (set_PreLastSuccessfulCmd None (set_LastSuccessfulCmd None i)).

Definition memory_card (i : SDHC_INSTANCE) : Prop :=
  CardFunction (CardInfo i) = CardFunctionSd \/ CardFunction (CardInfo i) = CardFunctionMmc.

(** Walks on after a success. *)
Ltac wps := repeat (progress (wp_go; change (EFI_ERROR EFI_SUCCESS) with false; cbv beta iota)).

Section Cmds.
Context {B : Build} {I : SdImage} {R : Type} {RE : RpmbEngine R} {H : Type} {SH : Sdhc H} {x : Z} {CH : CardHost R SH x}.
Implicit Types (s : sd H) (k : ecard R).
Abbreviation MS := (M (sd H)).

Definition card_of s : ecard R := the_card (host s).

(** From [s] to [s']: the card is [k], memory [m], [c] the last command. *)
Record after s k (m : mem) (c : SD_COMMAND) s' : Prop := {
  after_settled : settled (hi s') = settled (hi s);
  after_card : card_of s' = k;
  after_mem : smem s' = m;
  after_last : LastSuccessfulCmd (hi s') = Some c
}.

(** The slot of a card that transfers data. *)
Record slot s : Prop := { slot_host : HostExt (hi s) = x; slot_card : memory_card (hi s) }.

Lemma slot_settled s s' : slot s -> settled (hi s') = settled (hi s) -> slot s'.
Proof.
  intros [Hx Hc] E. split.
  - change (HostExt (settled (hi s')) = x). by rewrite E.
  - change (memory_card (settled (hi s'))). by rewrite E.
Qed.

Lemma after_trans s k m c s1 k' m' c' s2 : after s k m c s1 -> after s1 k' m' c' s2 -> after s k' m' c' s2.
Proof. intros [E1 _ _ _] [E2 ???]. split; try done. by rewrite E2. Qed.

Lemma after_slot s k m c s' : slot s -> after s k m c s' -> slot s'.
Proof. intros Hs [E _ _ _]. by eapply slot_settled. Qed.

(** ** One command *)

Lemma status_word_no_error s k : slot s ->
  IsCardStatusError (status_word k) s = Ret false s.
Proof.
  intros [_ [E|E]]; unfold IsCardStatusError, card, the, mbind, M_bind, gets; rewrite E; unfold status_word;
    by destruct (bool_decide _).
Qed.

Lemma wp_host_op {A} (f : Z -> H -> A * H) s (Q : A -> sd H -> Prop) a h :
  f (HostExt (hi s)) (host s) = (a, h) -> Q a (set_host h s) -> wp (host_op f) s Q.
Proof. unfold wp, host_op. by intros ->. Qed.

Lemma wp_host_mem_op {A} (f : Z -> mem -> H -> A * mem * H) s (Q : A -> sd H -> Prop) a m h :
  f (HostExt (hi s)) (smem s) (host s) = (a, m, h) -> Q a (set_host h (set_smem m s)) -> wp (host_mem_op f) s Q.
Proof. unfold wp, host_mem_op. by intros ->. Qed.

Lemma wp_on_success (c k : MS Z) s Q :
  wp c s (fun st s' => EFI_ERROR st = false /\ wp k s' Q) -> wp (on_success c k) s Q.
Proof.
  intros Hc. apply wp_bind. eapply wp_mono; [done|]. by intros st s' [-> Hk].
Qed.

Lemma answer_word k k' w : answer k = Some (w, k') -> w = status_word k.
Proof. unfold answer. destruct (phase k) as [|[]| |]; naive_solver. Qed.

(** ** Steps of the card *)

Lemma at_phase_id k p : phase k = p -> at_phase p k = k.
Proof. destruct k; cbn. by intros ->. Qed.

Lemma answer_at d k : answer (at_phase (Answering d) k) =
  Some (status_word k, at_phase (match d with NoData => Tran | d => Transferring d end) k).
Proof. by destruct d. Qed.

Lemma take_status arg n k : phase k = Tran -> take_command CmdSendStatus arg n k = Some (at_phase (Answering NoData) k).
Proof. intros Hp. unfold take_command. rewrite Hp. reflexivity. Qed.

Lemma helper_spec c arg xfr s k k' w : slot s -> Class_ c = SdCommandClassStandard ->
  take_command c arg (XfrBlockCount <$> xfr) (card_of s) = Some k -> answer k = Some (w, k') ->
  wp (SdhcSendCommandHelper c arg xfr) s
     (fun st s' => st = EFI_SUCCESS /\ after s k' (smem s) c s' /\ PreLastSuccessfulCmd (hi s') = LastSuccessfulCmd (hi s)
                   /\ nth 0 (CmdResponse (hi s')) 0 = w).
Proof.
  intros Hs Hc Ht Ha. unfold SdhcSendCommandHelper. rewrite Hc. cbn [bool_decide decide_rel]. apply wp_on_success.
  rewrite bool_decide_false by done. wp_go. split; [done|]. apply wp_on_success.
  destruct (card_SendCommand c arg xfr (smem s) (host s) k Ht) as (h & Eh & Ek).
  eapply wp_host_mem_op; [by rewrite (slot_host s Hs)|]. split; [done|]. apply wp_on_success.
  unfold upd, response0, the. wp_go. destruct (card_ReceiveResponse c h w k') as (h' & Eh' & Ek'); [by rewrite Ek|].
  eapply wp_host_op. { cbn [hi set_host set_smem host]. rewrite (slot_host s Hs), Eh'. reflexivity. }
  wp_go. split; [done|]. wp_go. cbn [hi set_hi set_host set_smem CmdResponse set_CmdResponse].
  apply (wp_mono _ _ (fun b s' => b = false /\ s' = set_hi (set_CmdResponse (take 4 ([w] ++ drop (length [w]) (CmdResponse (hi s)))) (hi s))
    (set_host h' (set_host h (set_smem (smem s) s))))).
  - destruct (_ || _); [|done]. cbn [app take nth]. rewrite (answer_word _ _ _ Ha).
    eapply returns_wp; [apply status_word_no_error; by eapply slot_settled|]. done.
  - intros b s' [-> ->]. wp_go. split; [done|]. split; [|done]. split; try done.
Qed.
(** ** Waiting for the transfer state *)

Section Recovery.
Variable recover : SD_COMMAND -> MS Z.

Lemma send_status_spec s : slot s -> phase (card_of s) = Tran ->
  wp (SdhcSendStatus recover) s
     (fun r s' => r = (EFI_SUCCESS, status_word (card_of s)) /\ after s (card_of s) (smem s) CmdSendStatus s').
Proof.
  intros Hs Hp. unfold SdhcSendStatus, RCA_arg, SdMmcProtocol.card, the, send_plain, send_command. wp_go.
  eapply wp_mono.
  { eapply (helper_spec CmdSendStatus); [done | done | by apply take_status | apply answer_at]. }
  rewrite at_phase_id by done. intros st s' (-> & Ha & _ & Hw). change (CmdsAreEqual _ _ || _) with false. wp_go.
  wps. unfold response0, the. wps. cbn beta. by rewrite Hw.
Qed.

Lemma status_word_ready k : READY_FOR_DATA (status_word k) = bool_decide (busy k = 0%nat).
Proof. unfold status_word. by destruct (bool_decide _). Qed.

Lemma status_word_tran k : (CURRENT_STATE (status_word k) =? CardStateTran) = bool_decide (busy k = 0%nat).
Proof. unfold status_word. by destruct (bool_decide _). Qed.

(** The card is polled until it is ready, at most [n] times. *)
Lemma wait_tran_spec n s : slot s -> phase (card_of s) = Tran -> (busy (card_of s) < n)%nat ->
  wp (wait_tran recover n (status_word (card_of s))) s
     (fun st s' => st = EFI_SUCCESS /\ settled (hi s') = settled (hi s) /\ card_of s' = with_busy 0 (card_of s)
                   /\ smem s' = smem s /\ (LastSuccessfulCmd (hi s) = Some CmdSendStatus -> LastSuccessfulCmd (hi s') = Some CmdSendStatus)).
Proof.
  revert s. induction n as [|n IH]; intros s Hs Hp Hb; [lia|]. cbn [wait_tran]. rewrite status_word_ready, status_word_tran.
  destruct (bool_decide_reflect (busy (card_of s) = 0%nat)) as [E0|E0]; cbn [negb orb].
  { rewrite bool_decide_false by done. wp_go. split; [done|]. split; [done|]. split; [|done].
    unfold with_busy. by destruct (card_of s); cbn in E0 |- *; subst. }
  wp_go. eapply wp_host_op; [done|]. set (s1 := set_host _ s).
  assert (E1 : card_of s1 = with_busy (pred (busy (card_of s))) (card_of s)) by apply card_Stall.
  assert (Hs1 : slot s1) by by eapply slot_settled. wp_go.
  eapply wp_mono; [by apply send_status_spec; rewrite ?E1|]. intros r s2 (-> & Ha). wp_go.
  wps. rewrite <- (after_card _ _ _ _ _ Ha).
  eapply wp_mono.
  { apply IH; [by eapply after_slot | | ]; rewrite (after_card _ _ _ _ _ Ha), E1; [done|]. cbn. lia. }
  intros st s3 (-> & E3 & Ek & Em & El). split; [done|]. split; [by rewrite E3, (after_settled _ _ _ _ _ Ha)|].
  rewrite Ek, Em, (after_card _ _ _ _ _ Ha), E1, (after_mem _ _ _ _ _ Ha). split; [done|]. split; [done|].
  intros _. apply El, Ha.
Qed.

Lemma wait_spec s : slot s -> phase (card_of s) = Tran -> (busy (card_of s) < SDMMC_POLL_WAIT_COUNT)%nat ->
  wp (SdhcWaitForTranStateAndReadyForData recover) s
     (fun st s' => st = EFI_SUCCESS /\ after s (with_busy 0 (card_of s)) (smem s) CmdSendStatus s').
Proof.
  intros Hs Hp Hb. unfold SdhcWaitForTranStateAndReadyForData. wp_go.
  eapply wp_mono; [by apply send_status_spec|]. intros r s1 (-> & Ha). wp_go. wps.
  rewrite <- (after_card _ _ _ _ _ Ha) at 1. eapply wp_mono.
  { apply wait_tran_spec; [by eapply after_slot | | ]; by rewrite (after_card _ _ _ _ _ Ha). }
  intros st s2 (-> & E2 & Ek & Em & El). split; [done|]. split.
  - by rewrite E2, (after_settled _ _ _ _ _ Ha).
  - by rewrite Ek, (after_card _ _ _ _ _ Ha).
  - by rewrite Em, (after_mem _ _ _ _ _ Ha).
  - apply El, Ha.
Qed.

(** ** Commands without data *)

Definition is_switch (c : SD_COMMAND) : bool := CmdsAreEqual c CmdSwitchMmc || CmdsAreEqual c CmdSwitchSd.

Lemma send_command_spec c arg s k k' w : slot s -> Class_ c = SdCommandClassStandard -> is_switch c = false ->
  take_command c arg None (card_of s) = Some k -> answer k = Some (w, k') ->
  wp (SdhcSendCommand recover c arg) s (fun st s' => st = EFI_SUCCESS /\ after s k' (smem s) c s').
Proof.
  intros Hs Hc Hsw Ht Ha. unfold SdhcSendCommand, send_command. wp_go.
  eapply wp_mono; [by apply (helper_spec c arg None s k k' w)|]. intros st s' (-> & Hs' & _).
  wps. unfold is_switch in Hsw. by rewrite Hsw.
Qed.

Lemma send_switch_spec arg s k k' w : slot s ->
  take_command CmdSwitchMmc arg None (card_of s) = Some k -> answer k = Some (w, k') ->
  phase k' = Tran -> (busy k' < SDMMC_POLL_WAIT_COUNT)%nat ->
  wp (SdhcSendCommand recover CmdSwitchMmc arg) s
     (fun st s' => st = EFI_SUCCESS /\ after s (with_busy 0 k') (smem s) CmdSendStatus s').
Proof.
  intros Hs Ht Ha Hp Hb. unfold SdhcSendCommand, send_command. wp_go.
  eapply wp_mono; [by apply (helper_spec CmdSwitchMmc arg None s k k' w)|]. intros st s' (-> & Hs' & _).
  wps. change (CmdsAreEqual _ _ || _) with true. cbv iota.
  apply wp_on_success. eapply wp_mono.
  { apply wait_spec; [by eapply after_slot | |]; by rewrite (after_card _ _ _ _ _ Hs'). }
  intros st s2 (-> & H2). split; [done|]. wp_go. split; [done|]. rewrite (after_card _ _ _ _ _ Hs'), (after_mem _ _ _ _ _ Hs') in H2.
  by eapply after_trans.
Qed.
End Recovery.

(** ** Data commands *)

Definition is_multi (c : SD_COMMAND) : bool := CmdsAreEqual c CmdWriteMultiBlock || CmdsAreEqual c CmdReadMultiBlock.

(** The data phase of a command from card [k] and memory [m]: the next card and
    memory. *)
Inductive data_step (c : SD_COMMAND) (n a : Z) (m : mem) k : ecard R -> mem -> Prop :=
| data_read bs k' : TransferDirection c = SdTransferDirectionRead -> send_data_of n k = Some (bs, k') ->
    data_step c n a m k k' (write_bytes m a bs)
| data_write k' : TransferDirection c = SdTransferDirectionWrite -> take_data_of (read_bytes m a n) k = Some k' ->
    data_step c n a m k k' m.

Lemma transfer_data_spec c n a s k' m' : slot s -> data_step c n a (smem s) (card_of s) k' m' ->
  wp (transfer_data c n a) s
     (fun st s' => st = EFI_SUCCESS /\ hi s' = hi s /\ card_of s' = k' /\ smem s' = m').
Proof.
  intros Hs Hd. unfold transfer_data. destruct Hd as [bs k' Hc Hd|k' Hc Hd]; rewrite Hc.
  - rewrite bool_decide_true by done. destruct (card_ReadBlockData n a (smem s) (host s) bs k' Hd) as (h & Eh & Ek).
    eapply wp_host_mem_op; [by rewrite (slot_host s Hs)|]. done.
  - rewrite bool_decide_false by done. apply wp_bind, wp_ASSERT; [done|].
    destruct (card_WriteBlockData n a (smem s) (host s) k' Hd) as (h & Eh & Ek).
    eapply wp_host_mem_op; [cbn beta; by rewrite (slot_host s Hs), Eh|]. done.
Qed.

Section Recovery.
Variable recover : SD_COMMAND -> MS Z.

Lemma stop_spec s : slot s -> phase (card_of s) = Open ->
  wp (SdhcStopTransmission recover) s
     (fun st s' => st = EFI_SUCCESS
                   /\ after s (at_phase Tran (with_busy (latency (card_of s)) (card_of s))) (smem s) CmdStopTransmission s').
Proof.
  intros Hs Hp. unfold SdhcStopTransmission, RCA_arg, SdMmcProtocol.card, the. wps.
  eapply (send_command_spec _ _ _ s (at_phase (Answering NoData) (with_busy (latency (card_of s)) (card_of s))));
    [done | done | done | | apply answer_at]. unfold take_command. rewrite Hp. reflexivity.
Qed.

Lemma data_command_spec c arg n a s l k k1 w k2 m' : slot s -> Class_ c = SdCommandClassStandard ->
  LastSuccessfulCmd (hi s) = Some l -> n mod SD_BLOCK_LENGTH_BYTES = 0 ->
  take_command c arg (Some (n / SD_BLOCK_LENGTH_BYTES)) (card_of s) = Some k -> answer k = Some (w, k1) ->
  data_step c n a (smem s) k1 k2 m' ->
  phase k2 = (if is_multi c && negb (CmdsAreEqual l CmdSetBlockCount) then Open else Tran) ->
  (busy k2 < SDMMC_POLL_WAIT_COUNT)%nat -> (latency k2 < SDMMC_POLL_WAIT_COUNT)%nat ->
  wp (SdhcSendDataCommand recover c arg n a) s
     (fun st s' => st = EFI_SUCCESS /\ after s (with_busy 0 (at_phase Tran k2)) m' CmdSendStatus s').
Proof.
  intros Hs Hc Hl Hn Ht Ha Hd Hp Hb Hlat. unfold SdhcSendDataCommand. apply wp_bind, wp_ASSERT; [by apply Z.eqb_eq|].
  apply wp_bind. apply (wp_mono _ _ (fun st s' => st = EFI_SUCCESS /\ after s (with_busy 0 (at_phase Tran k2)) m' CmdSendStatus s')).
  2: { intros st s' (-> & Hs'). wps. done. }
  apply wp_on_success. eapply wp_mono; [by apply (helper_spec c arg (Some _) s k k1 w)|].
  intros st s1 (-> & H1 & Hpre & _). split; [done|]. apply wp_on_success.
  assert (Hs1 : slot s1) by by eapply after_slot. eapply wp_mono.
  { apply transfer_data_spec; [done|]. rewrite (after_card _ _ _ _ _ H1), (after_mem _ _ _ _ _ H1). exact Hd. }
  intros st s2 (-> & E2 & Ek2 & Em2). split; [done|].
  assert (Hs2 : slot s2) by (eapply slot_settled; [done | by rewrite E2]).
  assert (H2 : after s k2 m' c s2).
  { split; try done; rewrite E2; apply H1. }
  apply wp_on_success, wp_bind. unfold open_ended. change (_ || _) with (is_multi c) in |- *.
  destruct (is_multi c); cbn [andb] in Hp.
  - unfold the. wps. rewrite E2, (after_last _ _ _ _ _ H1), Hpre, Hl. wps.
    destruct (CmdsAreEqual l CmdSetBlockCount); cbn [negb] in *.
    + wps. split; [done|]. eapply wp_mono; [apply wait_spec; rewrite ?Ek2; done|]. intros st s3 (-> & H3). split; [done|].
      rewrite Ek2, Em2 in H3. rewrite at_phase_id by done. by eapply after_trans.
    + wps. eapply wp_mono; [apply stop_spec; [done | by rewrite Ek2]|]. intros st s3 (-> & H3). split; [done|].
      rewrite Ek2, Em2 in H3. assert (Hs3 : slot s3) by by eapply after_slot.
      eapply wp_mono; [apply wait_spec; rewrite ?(after_card _ _ _ _ _ H3); done|]. intros st s4 (-> & H4). split; [done|].
      rewrite (after_card _ _ _ _ _ H3), (after_mem _ _ _ _ _ H3) in H4.
      eapply after_trans; [exact H2|]. eapply after_trans; [exact H3|]. done.
  - wps. split; [done|]. eapply wp_mono; [apply wait_spec; rewrite ?Ek2; done|]. intros st s3 (-> & H3). split; [done|].
    rewrite Ek2, Em2 in H3. rewrite at_phase_id by done. by eapply after_trans.
Qed.
End Recovery.

End Cmds.
