(* ===== verification/SdMmcIoSpec.v ===== *)
(** * SD and eMMC cards: block transfers against the abstract card

    A transfer is cut into chunks of what the host takes at once; each chunk is
    a command with its data, stopped if it is open-ended.  Together they move
    exactly the blocks asked for. *)

From Stdlib Require Import ZArith Lia.
From stdpp Require Import base list numbers option.
From S2P Require Import Prelude Memory SdMmc SdMmcProtocol SdMmcIo SdMmcKeeps SdMmcCard.

Section IoSpec.
Context {B : Build} {I : SdImage} {R : Type} {RE : RpmbEngine R} {H : Type} {SH : Sdhc H} {x : Z} {CH : CardHost R SH x}.
Implicit Types (s : sd H) (k : ecard R).
Abbreviation MS := (M (sd H)).
#[local] Abbreviation slot := (SdMmcCard.slot (x := x)).

(** A card in the user area with nothing under way. *)
Record at_rest k : Prop := {
  rest_phase : phase k = Tran;
  rest_busy : busy k = 0%nat;
  rest_count : block_count k = None;
  rest_latency : (latency k < SDMMC_POLL_WAIT_COUNT)%nat;
  rest_partition : card_partition k <> MmcExtCsdPartitionAccessRpmb;
  rest_blocks : forall lba, length (disk k lba) = 512%nat
}.

(** The last command is known, and no block count. *)
Definition not_counted s : Prop := exists l, LastSuccessfulCmd (hi s) = Some l /\ CmdsAreEqual l CmdSetBlockCount = false.

Lemma after_not_counted s k m s' : after s k m CmdSendStatus s' -> not_counted s'.
Proof. intros Ha. exists CmdSendStatus. split; [apply Ha | done]. Qed.

(** ** What a transfer of blocks does *)

Definition blocks_moved (d : SD_TRANSFER_DIRECTION) (lba n a : Z) (m : mem) k (m' : mem) k' : Prop :=
  match d with
  | SdTransferDirectionRead => mem_eq m' (write_bytes m a (disk_blocks (disk k) lba n)) /\ k' = k
  | _ => m' = m /\ exists e, k' = with_disk e k
                 /\ forall l, e l = write_disk (disk k) lba n (read_bytes m a (n * SD_BLOCK_LENGTH_BYTES)) l
  end.

Lemma length_disk_blocks (d : Z -> list Z) lba n : (forall l, length (d l) = 512%nat) ->
  length (disk_blocks d lba n) = (512 * Z.to_nat n)%nat.
Proof.
  intros Hd. unfold disk_blocks. rewrite <- (length_seqZ lba n). induction (seqZ lba n) as [|y l IH]; [done|].
  rewrite fmap_cons. cbn [concat length]. rewrite length_app, IH, Hd. lia.
Qed.

Lemma disk_blocks_app (d : Z -> list Z) lba n1 n2 : 0 <= n1 -> 0 <= n2 ->
  disk_blocks d lba (n1 + n2) = disk_blocks d lba n1 ++ disk_blocks d (lba + n1) n2.
Proof. intros H1 H2. unfold disk_blocks. by rewrite seqZ_app, fmap_app, concat_app. Qed.

Lemma take_drop_read m a n o c : 0 <= o -> 0 <= c -> o + c <= n ->
  take (Z.to_nat c) (drop (Z.to_nat o) (read_bytes m a n)) = read_bytes m (a + o) c.
Proof.
  intros Ho Hc Hn. apply list_eq. intros i. destruct (decide (i < Z.to_nat c)%nat) as [Hi|Hi].
  - rewrite lookup_take_lt, lookup_drop, !lookup_read_bytes by lia. do 2 f_equal. lia.
  - rewrite lookup_take_ge by lia. symmetry. apply lookup_ge_None. rewrite length_read_bytes. lia.
Qed.

Lemma write_disk_read (d : Z -> list Z) lba n m a l :
  write_disk d lba n (read_bytes m a (n * SD_BLOCK_LENGTH_BYTES)) l
  = if in_range lba n l then read_bytes m (a + (l - lba) * SD_BLOCK_LENGTH_BYTES) SD_BLOCK_LENGTH_BYTES else d l.
Proof.
  unfold write_disk. destruct (in_range lba n l) eqn:E; [|done]. apply in_range_spec in E.
  change 512%nat with (Z.to_nat SD_BLOCK_LENGTH_BYTES). apply take_drop_read; unfold SD_BLOCK_LENGTH_BYTES; lia.
Qed.

Lemma blocks_moved_trans d lba n1 n2 a m k m1 k1 m2 k2 : 0 <= n1 -> 0 <= n2 -> (forall l, length (disk k l) = 512%nat) ->
  blocks_moved d lba n1 a m k m1 k1 -> blocks_moved d (lba + n1) n2 (a + n1 * SD_BLOCK_LENGTH_BYTES) m1 k1 m2 k2 ->
  blocks_moved d lba (n1 + n2) a m k m2 k2.
Proof.
  intros Hn1 Hn2 Hk. assert (Hw : forall (e : Z -> list Z) f,
    (forall l, e l = write_disk (disk k) lba n1 (read_bytes m a (n1 * SD_BLOCK_LENGTH_BYTES)) l) ->
    (forall l, f l = write_disk e (lba + n1) n2 (read_bytes m (a + n1 * SD_BLOCK_LENGTH_BYTES) (n2 * SD_BLOCK_LENGTH_BYTES)) l) ->
    forall l, f l = write_disk (disk k) lba (n1 + n2) (read_bytes m a ((n1 + n2) * SD_BLOCK_LENGTH_BYTES)) l).
  { intros e f He Hf l. rewrite Hf, !write_disk_read, He, write_disk_read. unfold in_range.
    repeat (case_match; rewrite ?andb_true_iff, ?andb_false_iff, ?Z.leb_le, ?Z.leb_gt, ?Z.ltb_lt, ?Z.ltb_ge in *; try lia); try done.
    all: f_equal; lia. }
  destruct d; cbn [blocks_moved].
  - intros [-> (e & -> & He)] [-> (f & -> & Hf)]. split; [done|]. exists f. split; [done|]. by apply (Hw e).
  - intros [H1 ->] [H2 ->]. split; [|done]. rewrite H2, H1, disk_blocks_app by done.
    rewrite <- write_bytes_app, length_disk_blocks by done. unfold SD_BLOCK_LENGTH_BYTES.
    replace (Z.of_nat (512 * Z.to_nat n1)) with (n1 * 512) by lia. done.
  - intros [-> (e & -> & He)] [-> (f & -> & Hf)]. split; [done|]. exists f. split; [done|]. by apply (Hw e).
Qed.

Lemma blocks_moved_rest d lba n a m k m' k' : d <> SdTransferDirectionUndefined -> 0 <= n ->
  at_rest k -> blocks_moved d lba n a m k m' k' -> at_rest k'.
Proof.
  intros Hd Hn Hk. destruct d; [done| |]; cbn [blocks_moved].
  - by intros [_ ->].
  - intros [_ (e & -> & He)]. destruct Hk. split; try done. intros l. cbn. rewrite He, write_disk_read.
    destruct (in_range lba n l); [by rewrite length_read_bytes | done].
Qed.
Lemma blocks_moved_none d lba a m k : blocks_moved d lba 0 a m k m k.
Proof.
  assert (Hd : exists e, k = with_disk e k /\ forall l, e l = write_disk (disk k) lba 0 (read_bytes m a (0 * SD_BLOCK_LENGTH_BYTES)) l).
  { exists (disk k). split; [by destruct k|]. intros l. rewrite write_disk_read, (proj2 (in_range_false _ _ _)) by lia. done. }
  destruct d; [done| |done]. split; [|done]. intros y. symmetry. apply write_bytes_out.
  change (disk_blocks (disk k) lba 0) with (@nil Z). cbn [length Z.of_nat]. lia.
Qed.

(** ** Chunks *)

(** The command of a transfer, and how many blocks it may move. *)
Definition io_cmd (d : SD_TRANSFER_DIRECTION) (single : bool) : SD_COMMAND :=
  io_command d (if single then 1 else 2).

Lemma rest_with_busy k b : at_rest k -> with_busy 0 (at_phase Tran (with_busy b (at_phase Open k))) = k.
Proof. intros [Hp Hb _ _ _ _]. destruct k; cbn in *. by subst. Qed.

Lemma rest_user k : at_rest k -> (card_partition k =? MmcExtCsdPartitionAccessRpmb) = false.
Proof. intros Hk. apply Z.eqb_neq, Hk. Qed.

Ltac card_step Hk := unfold take_command; rewrite (rest_phase _ Hk), (rest_busy _ Hk), (rest_count _ Hk); reflexivity.

Lemma chunk_read single lba n a s : slot s -> at_rest (card_of s) -> not_counted s -> (single = true -> n = 1) ->
  wp (send_data (io_cmd SdTransferDirectionRead single) lba (n * SD_BLOCK_LENGTH_BYTES) a) s
     (fun st s' => st = EFI_SUCCESS /\ after s (card_of s) (write_bytes (smem s) a (disk_blocks (disk (card_of s)) lba n)) CmdSendStatus s').
Proof.
  intros Hs Hk (l & Hl & Hc) Hn.
  assert (Hdiv : n * SD_BLOCK_LENGTH_BYTES / SD_BLOCK_LENGTH_BYTES = n) by by apply Z.div_mul.
  assert (Hsend : forall o, send_data_of (n * SD_BLOCK_LENGTH_BYTES) (at_phase (Transferring (SendBlocks lba n o)) (card_of s))
    = Some (disk_blocks (disk (card_of s)) lba n, after_data o (at_phase (Transferring (SendBlocks lba n o)) (card_of s)))).
  { intros o. unfold send_data_of. cbn [phase at_phase]. rewrite Z.eqb_refl.
    change (card_partition (at_phase _ (card_of s))) with (card_partition (card_of s)). by rewrite rest_user. }
  destruct single; [rewrite (Hn eq_refl) in *|]; eapply wp_mono.
  - eapply (data_command_spec SdhcRecoverFromErrors CmdReadSingleBlock lba _ a s l
      (at_phase (Answering (SendBlocks lba 1 false)) (card_of s))); try done;
      [card_step Hk | eapply data_read; [done | apply (Hsend false)] | done | cbn; rewrite (rest_busy _ Hk) | apply Hk].
    unfold SDMMC_POLL_WAIT_COUNT. lia.
  - intros st s' (-> & Ha). split; [done|]. by rewrite <- (rest_with_busy (card_of s) 0 Hk).
  - eapply (data_command_spec SdhcRecoverFromErrors CmdReadMultiBlock lba _ a s l
      (at_phase (Answering (SendBlocks lba n true)) (card_of s))); try done;
      [by apply Z.mod_mul | | eapply data_read; [done | apply (Hsend true)] | cbn; by rewrite Hc
      | cbn; rewrite (rest_busy _ Hk) | apply Hk].
    + rewrite Hdiv. unfold take_command. rewrite (rest_phase _ Hk), (rest_busy _ Hk), (rest_count _ Hk). cbn.
      unfold at_phase, with_count. cbn. by rewrite <- (rest_count _ Hk).
    + unfold SDMMC_POLL_WAIT_COUNT. lia.
  - intros st s' (-> & Ha). split; [done|]. by rewrite <- (rest_with_busy (card_of s) (latency (card_of s)) Hk).
Qed.
Lemma chunk_write single lba n a s : slot s -> at_rest (card_of s) -> not_counted s -> (single = true -> n = 1) -> 0 <= n ->
  wp (send_data (io_cmd SdTransferDirectionWrite single) lba (n * SD_BLOCK_LENGTH_BYTES) a) s
     (fun st s' => st = EFI_SUCCESS
        /\ after s (with_disk (write_disk (disk (card_of s)) lba n (read_bytes (smem s) a (n * SD_BLOCK_LENGTH_BYTES))) (card_of s))
             (smem s) CmdSendStatus s').
Proof.
  intros Hs Hk (l & Hl & Hc) Hn Hpos. set (bs := read_bytes (smem s) a (n * SD_BLOCK_LENGTH_BYTES)).
  set (e := write_disk (disk (card_of s)) lba n bs).
  assert (Hdiv : n * SD_BLOCK_LENGTH_BYTES / SD_BLOCK_LENGTH_BYTES = n) by by apply Z.div_mul.
  assert (Htake : forall o, take_data_of bs (at_phase (Transferring (TakeBlocks lba n o)) (card_of s))
    = Some (after_data o (with_busy (latency (card_of s)) (with_disk e (at_phase (Transferring (TakeBlocks lba n o)) (card_of s)))))).
  { intros o. unfold take_data_of. cbn [phase at_phase]. unfold bs. rewrite length_read_bytes, Z2Nat.id.
    2: { unfold SD_BLOCK_LENGTH_BYTES. lia. }
    rewrite Z.eqb_refl. change (card_partition (at_phase _ (card_of s))) with (card_partition (card_of s)). by rewrite rest_user. }
  assert (Hrest : with_busy 0 (at_phase Tran (with_disk e (card_of s))) = with_disk e (card_of s)).
  { destruct Hk as [Hp Hb _ _ _ _]. destruct (card_of s); cbn in *. by subst. }
  destruct single; [specialize (Hn eq_refl); subst n|]; eapply wp_mono.
  - eapply (data_command_spec SdhcRecoverFromErrors CmdWriteSingleBlock lba _ a s l
      (at_phase (Answering (TakeBlocks lba 1 false)) (card_of s))); try done;
      [card_step Hk | eapply data_write; [done | apply (Htake false)] | done | apply Hk | apply Hk].
  - intros st s' (-> & Ha). split; [done|]. by rewrite <- Hrest.
  - eapply (data_command_spec SdhcRecoverFromErrors CmdWriteMultiBlock lba _ a s l
      (at_phase (Answering (TakeBlocks lba n true)) (card_of s))); try done;
      [by apply Z.mod_mul | | eapply data_write; [done | apply (Htake true)] | cbn; by rewrite Hc | apply Hk | apply Hk].
    rewrite Hdiv. unfold take_command. rewrite (rest_phase _ Hk), (rest_busy _ Hk), (rest_count _ Hk). cbn.
    unfold at_phase, with_count. cbn. by rewrite <- (rest_count _ Hk).
  - intros st s' (-> & Ha). split; [done|]. by rewrite <- Hrest.
Qed.

(** The slot between two chunks. *)
Record transferring s0 s : Prop := {
  tr_settled : settled (hi s) = settled (hi s0);
  tr_slot : slot s;
  tr_rest : at_rest (card_of s);
  tr_last : not_counted s
}.

Lemma after_transferring s0 s k m s' : transferring s0 s -> at_rest k -> after s k m CmdSendStatus s' -> transferring s0 s'.
Proof.
  intros [E Hs _ _] Hk Ha. split.
  - by rewrite (after_settled _ _ _ _ _ Ha).
  - by eapply after_slot.
  - by rewrite (after_card _ _ _ _ _ Ha).
  - by eapply after_not_counted.
Qed.

(** A chunk moves its blocks at the first attempt. *)
Lemma chunk_moves s0 d single lba n a s : d <> SdTransferDirectionUndefined -> transferring s0 s -> (single = true -> n = 1) -> 0 <= n ->
  wp (retry_transfer DataCommandRetryCount (io_cmd d single) lba (n * SD_BLOCK_LENGTH_BYTES) a) s
     (fun st s' => st = EFI_SUCCESS /\ transferring s0 s' /\ blocks_moved d lba n a (smem s) (card_of s) (smem s') (card_of s')).
Proof.
  intros Hd Ht Hsn Hn. unfold DataCommandRetryCount. cbn [retry_transfer]. apply wp_bind. destruct d; [done| |].
  - eapply wp_mono; [by apply chunk_read; try apply Ht|]. intros st s' (-> & Ha). wps. split; [done|].
    split; [eapply after_transferring; [exact Ht | apply Ht | exact Ha]|].
    cbn. rewrite (after_mem _ _ _ _ _ Ha), (after_card _ _ _ _ _ Ha). done.
  - eapply wp_mono; [by apply chunk_write; try apply Ht|]. intros st s' (-> & Ha). wps. split; [done|].
    assert (Hm : blocks_moved SdTransferDirectionWrite lba n a (smem s) (card_of s) (smem s') (card_of s')).
    { cbn. rewrite (after_mem _ _ _ _ _ Ha), (after_card _ _ _ _ _ Ha). eauto. }
    split; [|done]. eapply after_transferring; [exact Ht | | exact Ha]. rewrite <- (after_card _ _ _ _ _ Ha).
    eapply blocks_moved_rest; [done | exact Hn | apply Ht | exact Hm].
Qed.

Lemma chunk_blocks max rem : 0 < rem -> 0 < max ->
  let n := if rem * SD_BLOCK_LENGTH_BYTES <? max * SD_BLOCK_LENGTH_BYTES then rem * SD_BLOCK_LENGTH_BYTES else max * SD_BLOCK_LENGTH_BYTES in
  n = Z.min rem max * SD_BLOCK_LENGTH_BYTES.
Proof. intros Hr Hm. unfold SD_BLOCK_LENGTH_BYTES. destruct (Z.ltb_spec (rem * 512) (max * 512)); cbn; lia. Qed.

Lemma transfer_moves s0 d single fuel : forall max st lba n a s,
  d <> SdTransferDirectionUndefined -> BlockSize (Media (hi s0)) = SD_BLOCK_LENGTH_BYTES -> transferring s0 s ->
  0 < max -> 0 <= n -> (single = true -> n <= 1) -> st = Some EFI_SUCCESS \/ 0 < n ->
  n * SD_BLOCK_LENGTH_BYTES < 2 ^ 32 -> 0 <= lba -> lba + n < 2 ^ 32 -> 0 <= a -> a + n * SD_BLOCK_LENGTH_BYTES < 2 ^ 64 ->
  (Z.to_nat n < fuel)%nat ->
  wp (transfer_blocks fuel (io_cmd d single) (max * SD_BLOCK_LENGTH_BYTES) st (n * SD_BLOCK_LENGTH_BYTES) lba a) s
     (fun st s' => st = EFI_SUCCESS /\ transferring s0 s' /\ blocks_moved d lba n a (smem s) (card_of s) (smem s') (card_of s')).
Proof.
  induction fuel as [|fuel IH]; intros max st lba n a s Hd Hbs Ht Hmax Hn Hsn Hst Hn32 Hlba Hl32 Ha Ha64 Hf; [lia|].
  cbn [transfer_blocks]. assert (E512 : SD_BLOCK_LENGTH_BYTES = 512) by done.
  destruct (Z.ltb_spec 0 (n * SD_BLOCK_LENGTH_BYTES)) as [Hpos|Hpos].
  2: { assert (n = 0) as -> by lia. destruct Hst as [->|?]; [|lia]. wps. split; [done|]. split; [done|].
       by apply blocks_moved_none. }
  rewrite (chunk_blocks max n) by lia. set (c := Z.min n max). apply wp_bind. eapply wp_mono.
  { apply (chunk_moves s0); [done | done | intros E; specialize (Hsn E); lia | lia]. }
  intros st' s1 (-> & Ht1 & Hm1). unfold the. wps.
  assert (Ebs : BlockSize (Media (hi s1)) = SD_BLOCK_LENGTH_BYTES).
  { change (BlockSize (Media (settled (hi s1))) = SD_BLOCK_LENGTH_BYTES). by rewrite (tr_settled _ _ Ht1). }
  rewrite Ebs. change (SD_BLOCK_LENGTH_BYTES =? 0) with false. cbv iota. rewrite Z.div_mul by done.
  rewrite <- Z.mul_sub_distr_r, !wrap_small by (unfold in_word; lia).
  eapply wp_mono; [apply IH; try done; first [lia | by left | idtac]|].
  { intros E. specialize (Hsn E). lia. }
  intros st2 s2 (-> & Ht2 & Hm2). split; [done|]. split; [done|]. replace n with (c + (n - c)) by lia.
  eapply blocks_moved_trans; [lia | lia | apply Ht | exact Hm1 | exact Hm2].
Qed.

(** ** The block services *)

(** A request for [n] blocks that the checks let pass and that 32 bits hold. *)
Record io_valid (d : SD_TRANSFER_DIRECTION) (id lba n a : Z) (i : SDHC_INSTANCE) : Prop := {
  v_host : HostExt i <> 0;
  v_id : MediaId (Media i) = id;
  v_present : MediaPresent (Media i) = true;
  v_writable : d = SdTransferDirectionWrite -> ReadOnly (Media i) = false;
  v_block : BlockSize (Media i) = SD_BLOCK_LENGTH_BYTES;
  v_count : 0 < n /\ n * SD_BLOCK_LENGTH_BYTES < 2 ^ 32;
  v_lba : 0 <= lba /\ lba + n < 2 ^ 32 /\ lba + n - 1 <= LastBlock (Media i);
  v_buffer : 0 < a /\ a + n * SD_BLOCK_LENGTH_BYTES < 2 ^ 64;
  v_align : 2 < IoAlign (Media i) -> Z.land a (IoAlign (Media i) - 1) = 0;
  v_caps : 0 < snd (HostCapabilities i) < 2 ^ 23
}.

Lemma IoBlocks_moves d id lba n a s : d <> SdTransferDirectionUndefined ->
  io_valid d id lba n a (hi s) -> transferring s s ->
  wp (IoBlocks d id lba (n * SD_BLOCK_LENGTH_BYTES) a) s
     (fun st s' => st = EFI_SUCCESS /\ transferring s s' /\ blocks_moved d lba n a (smem s) (card_of s) (smem s') (card_of s')).
Proof.
  intros Hd [] Ht. unfold IoBlocks, the. wps. apply wp_ASSERT; [by apply negb_true_iff, Z.eqb_neq|]. wps.
  assert (E512 : SD_BLOCK_LENGTH_BYTES = 512) by done.
  rewrite v_id0, Z.eqb_refl, v_present0, v_block0. cbn [negb]. rewrite (proj2 (Z.eqb_neq a 0)) by lia.
  rewrite (proj2 (Z.eqb_neq (n * SD_BLOCK_LENGTH_BYTES) 0)) by lia.
  assert (Hro : bool_decide (d = SdTransferDirectionWrite) && ReadOnly (Media (hi s)) = false).
  { destruct (bool_decide_reflect (d = SdTransferDirectionWrite)) as [->|]; [by rewrite v_writable0 | done]. }
  rewrite Hro. change (SD_BLOCK_LENGTH_BYTES =? 0) with false. cbv iota. rewrite Z.mod_mul, Z.div_mul by done. cbn [negb Z.eqb].
  rewrite (wrap_small 32 n), (wrap_small 64) by (unfold in_word; lia).
  rewrite (proj2 (Z.ltb_ge _ _)) by lia.
  assert (Hal : (2 <? IoAlign (Media (hi s))) && negb (Z.land a (IoAlign (Media (hi s)) - 1) =? 0) = false).
  { destruct (Z.ltb_spec 2 (IoAlign (Media (hi s)))) as [Hlt|]; [by rewrite v_align0 | done]. }
  rewrite Hal. wps. rewrite !(wrap_small 32) by (unfold in_word; lia). rewrite Z.div_mul by done.
  replace (io_command d n) with (io_cmd d (n =? 1)).
  2: { unfold io_cmd, io_command. by destruct (bool_decide _), (n =? 1). }
  apply transfer_moves; try done; lia.
Qed.

End IoSpec.
