(* ===== verification/SdMmcRpmbSpec.v ===== *)
(** * SD and eMMC cards: RPMB requests against the abstract card

    An RPMB request switches the card to the RPMB partition, hands its packets
    to the authenticated engine, reads the response, and switches back. *)

From Stdlib Require Import ZArith Lia.
From stdpp Require Import base list numbers option.
From S2P Require Import Prelude Memory SdMmc SdMmcProtocol SdMmcIo SdMmcKeeps SdMmcCard SdMmcIoSpec.

(** ** The partition field *)

Lemma forall_range (P : Z -> bool) n : forallb P (seqZ 0 n) = true -> forall v, 0 <= v < n -> P v = true.
Proof. intros Hf v Hv. rewrite forallb_forall in Hf. apply Hf, list_elem_of_In, elem_of_seqZ. lia. Qed.

Lemma switch_arg_fields i v : 0 <= i < 256 -> 0 <= v < 256 ->
  let arg := MMC_SWITCH_CMD_ARG MmcSwitchCmdAccessTypeWriteByte i v in
  Z.land (Z.shiftr arg 24) 0x3 = 3 /\ Z.land (Z.shiftr arg 16) 0xFF = i /\ Z.land (Z.shiftr arg 8) 0xFF = v.
Proof.
  intros Hi Hv. pose proof (forall_range (fun i => forallb (fun v =>
    let arg := MMC_SWITCH_CMD_ARG MmcSwitchCmdAccessTypeWriteByte i v in
    (Z.land (Z.shiftr arg 24) 0x3 =? 3) && (Z.land (Z.shiftr arg 16) 0xFF =? i) && (Z.land (Z.shiftr arg 8) 0xFF =? v)) (seqZ 0 256)) 256
    ltac:(vm_compute; reflexivity) i Hi) as Hf.
  apply (forall_range _ 256 Hf) in Hv. cbv zeta in *. rewrite !andb_true_iff, !Z.eqb_eq in Hv. tauto.
Qed.

Lemma partition_field c p : 0 <= c < 256 -> 0 <= p < 8 ->
  0 <= set_PARTITION_ACCESS c p < 256 /\ PARTITION_ACCESS (set_PARTITION_ACCESS c p) = p
  /\ 0 <= PARTITION_ACCESS c < 8 /\ set_PARTITION_ACCESS (set_PARTITION_ACCESS c p) (PARTITION_ACCESS c) = c.
Proof.
  intros Hc Hp. pose proof (forall_range (fun c => forallb (fun p =>
    (0 <=? set_PARTITION_ACCESS c p) && (set_PARTITION_ACCESS c p <? 256) && (PARTITION_ACCESS (set_PARTITION_ACCESS c p) =? p)
    && (0 <=? PARTITION_ACCESS c) && (PARTITION_ACCESS c <? 8)
    && (set_PARTITION_ACCESS (set_PARTITION_ACCESS c p) (PARTITION_ACCESS c) =? c)) (seqZ 0 8)) 256
    ltac:(vm_compute; reflexivity) c Hc) as Hf.
  apply (forall_range _ 8 Hf) in Hp. rewrite !andb_true_iff, !Z.eqb_eq, !Z.leb_le, !Z.ltb_lt in Hp. tauto.
Qed.

Section RpmbSpec.
Context {B : Build} {I : SdImage} {R : Type} {RE : RpmbEngine R} {H : Type} {SH : Sdhc H} {x : Z} {CH : CardHost R SH x}.
Implicit Types (s : sd H) (k : ecard R).
Abbreviation MS := (M (sd H)).
#[local] Abbreviation slot := (SdMmcCard.slot (x := x)).

(** A card between commands, in any partition. *)
Record idle_card k : Prop := {
  idle_phase : phase k = Tran;
  idle_busy : busy k = 0%nat;
  idle_count : block_count k = None;
  idle_latency : (latency k < SDMMC_POLL_WAIT_COUNT)%nat;
  idle_ext : length (ext_csd k) = 512%nat;
  idle_bytes : forall i, 0 <= nth i (ext_csd k) 0 < 256
}.

(** A slot with such a card, whose EXT_CSD the driver knows; [s0] is where it
    comes from. *)
Record rpmb_slot s0 s : Prop := {
  rs_slot : slot s;
  rs_mmc : CardFunction (CardInfo (hi s)) = CardFunctionMmc;
  rs_idle : idle_card (card_of s);
  rs_ext : ExtCsd (CardInfo (hi s)) = ext_csd (card_of s);
  rs_last : LastSuccessfulCmd (hi s) = Some CmdSendStatus;
  rs_buffer : BlockBuffer (hi s) = BlockBuffer (hi s0)
}.

Lemma with_busy_idle k p : idle_card k -> with_busy 0 (at_phase Tran (at_phase p k)) = k.
Proof. intros [Hp Hb _ _ _ _]. destruct k; cbn in *. by subst. Qed.

(** ** EXT_CSD *)

Lemma read_write_ext m a (l : list Z) : length l = 512%nat -> read_bytes (write_bytes m a l) a 512 = l.
Proof. intros Hl. rewrite <- (read_write_same m a l) at 2. by rewrite Hl. Qed.

Lemma ext_csd_spec recover s : slot s -> idle_card (card_of s) -> LastSuccessfulCmd (hi s) = Some CmdSendStatus ->
  wp (SdhcSendExtCsdMmc recover) s
     (fun st s' => st = EFI_SUCCESS /\ slot s' /\ card_of s' = card_of s
        /\ ExtCsd (CardInfo (hi s')) = ext_csd (card_of s) /\ CardFunction (CardInfo (hi s')) = CardFunction (CardInfo (hi s))
        /\ LastSuccessfulCmd (hi s') = Some CmdSendStatus /\ BlockBuffer (hi s') = BlockBuffer (hi s)
        /\ CurrentMmcPartition (hi s') = CurrentMmcPartition (hi s)
        /\ smem s' = write_bytes (smem s) (BlockBuffer (hi s)) (ext_csd (card_of s))).
Proof.
  intros Hs Hk Hl. unfold SdhcSendExtCsdMmc, RCA_arg, SdMmcProtocol.card, the. wps.
  apply wp_on_success. eapply wp_mono.
  { eapply (data_command_spec recover CmdSendExtCsdMmc _ _ _ s CmdSendStatus (at_phase (Answering SendExtCsd) (card_of s)));
      try done; [ | eapply data_read; [done | reflexivity] | done | cbn; rewrite (idle_busy _ Hk) | apply Hk].
    - unfold take_command. rewrite (idle_phase _ Hk), (idle_busy _ Hk). reflexivity.
    - unfold SDMMC_POLL_WAIT_COUNT. lia. }
  intros st s1 (-> & Ha). split; [done|]. unfold upd_card, upd_media, upd. wps. split; [done|].
  assert (Hs1 : slot s1) by by eapply after_slot. assert (Hc : card_of s1 = card_of s).
  { rewrite (after_card _ _ _ _ _ Ha). exact (with_busy_idle (card_of s) Tran Hk). }
  assert (Hb : BlockBuffer (hi s1) = BlockBuffer (hi s)).
  { change (BlockBuffer (settled (hi s1)) = BlockBuffer (settled (hi s))). by rewrite (after_settled _ _ _ _ _ Ha). }
  repeat split; try done.
  - apply Hs1.
  - apply Hs1.
  - cbn. rewrite (after_mem _ _ _ _ _ Ha). cbn. apply read_write_ext, Hk.
  - change (CardFunction (CardInfo (settled (hi s1))) = CardFunction (CardInfo (settled (hi s)))).
    by rewrite (after_settled _ _ _ _ _ Ha).
  - apply Ha.
  - change (CurrentMmcPartition (settled (hi s1)) = CurrentMmcPartition (settled (hi s))). by rewrite (after_settled _ _ _ _ _ Ha).
  - apply Ha.
Qed.
(** ** Switching the partition *)

Definition switched k (p : Z) : ecard R :=
  with_ext (<[179%nat := set_PARTITION_ACCESS (PartitionConfig (ext_csd k)) p]> (ext_csd k)) k.

Lemma nth_insert_ext (l : list Z) v : length l = 512%nat -> nth 179 (<[179%nat := v]> l) 0 = v.
Proof. intros Hl. apply nth_lookup_Some, list_lookup_insert_eq. lia. Qed.

Lemma PartitionConfig_switched k p : idle_card k ->
  PartitionConfig (ext_csd (switched k p)) = set_PARTITION_ACCESS (PartitionConfig (ext_csd k)) p.
Proof. intros Hk. unfold PartitionConfig, ext_byte. cbn. by rewrite nth_insert_ext by apply Hk. Qed.

Lemma card_partition_switched k p : idle_card k -> 0 <= p < 8 -> card_partition (switched k p) = p.
Proof.
  intros Hk Hp. unfold card_partition. rewrite PartitionConfig_switched by done. apply partition_field; [apply Hk | done].
Qed.

Lemma idle_switched k p : idle_card k -> 0 <= p < 8 -> idle_card (switched k p).
Proof.
  intros Hk Hp. destruct Hk as [H1 H2 H3 H4 H5 H6]. split; try done; cbn.
  - by rewrite length_insert.
  - intros i. destruct (decide (i = 179%nat)) as [->|Hi].
    + rewrite nth_insert_ext by done. apply partition_field; [apply H6 | done].
    + specialize (H6 i). rewrite nth_lookup in *. by rewrite list_lookup_insert_ne by lia.
Qed.

(** Back to the partition the card was in. *)
Lemma switched_back k r p : idle_card k -> 0 <= p < 8 ->
  switched (with_rpmb r (switched k p)) (card_partition k) = with_rpmb r k.
Proof.
  intros Hk Hp. unfold switched at 1. cbn [ext_csd with_rpmb]. rewrite PartitionConfig_switched by done.
  assert (Hpc : 0 <= PartitionConfig (ext_csd k) < 256) by apply (idle_bytes _ Hk 179).
  unfold card_partition. rewrite (proj2 (proj2 (proj2 (partition_field _ p Hpc Hp)))).
  unfold switched, with_rpmb, with_ext. cbn. f_equal. rewrite list_insert_insert_eq. apply list_insert_id.
  unfold PartitionConfig, ext_byte. destruct (lookup_lt_is_Some_2 (ext_csd k) 179) as [v Hv]; [rewrite (idle_ext _ Hk); lia|].
  rewrite Hv. f_equal. symmetry. by apply nth_lookup_Some.
Qed.

Lemma switch_partition_spec recover p s0 s : rpmb_slot s0 s -> 0 <= p < 8 ->
  wp (SdhcSwitchPartitionMmc recover p) s
     (fun st s' => st = EFI_SUCCESS /\ rpmb_slot s0 s' /\ card_of s' = switched (card_of s) p
        /\ CurrentMmcPartition (hi s') = p
        /\ smem s' = write_bytes (smem s) (BlockBuffer (hi s0)) (ext_csd (switched (card_of s) p))).
Proof.
  intros [Hs Hm Hk He Hl Hb] Hp. unfold SdhcSwitchPartitionMmc, SdMmcProtocol.card, the. wps.
  rewrite He. set (v := set_PARTITION_ACCESS _ p).
  assert (Hv : 0 <= v < 256) by (apply partition_field; [apply Hk | done]).
  destruct (switch_arg_fields MmcExtCsdBitIndexPartitionConfig v) as (F1 & F2 & F3); [done | done|].
  apply wp_on_success. eapply wp_mono.
  { eapply (send_switch_spec recover _ s (at_phase (Answering NoData) (with_busy (latency (card_of s)) (switched (card_of s) p))));
      [done | | apply answer_at | done | apply Hk].
    unfold take_command. rewrite (idle_phase _ Hk), (idle_busy _ Hk).
    change (CmdsAreEqual CmdSwitchMmc CmdSendStatus) with false. cbv zeta.
    change (negb (bool_decide (0%nat = 0%nat))) with false.
    change (CmdsAreEqual CmdSwitchMmc CmdSetBlockCount) with false. change (CmdsAreEqual CmdSwitchMmc CmdReadSingleBlock) with false.
    change (CmdsAreEqual CmdSwitchMmc CmdReadMultiBlock) with false. change (CmdsAreEqual CmdSwitchMmc CmdWriteSingleBlock) with false.
    change (CmdsAreEqual CmdSwitchMmc CmdWriteMultiBlock) with false. change (CmdsAreEqual CmdSwitchMmc CmdSendExtCsdMmc) with false.
    change (CmdsAreEqual CmdSwitchMmc CmdSwitchMmc) with true. cbv iota. rewrite F1, F2, F3. reflexivity. }
  intros st s1 (-> & Ha). split; [done|]. assert (Hs1 : slot s1) by by eapply after_slot.
  assert (Hc1 : card_of s1 = switched (card_of s) p).
  { rewrite (after_card _ _ _ _ _ Ha). unfold switched. destruct Hk as [H1 H2 _ _ _ _]. destruct (card_of s); cbn in *. by subst. }
  assert (Hb1 : BlockBuffer (hi s1) = BlockBuffer (hi s0)).
  { rewrite <- Hb. change (BlockBuffer (settled (hi s1)) = BlockBuffer (settled (hi s))). by rewrite (after_settled _ _ _ _ _ Ha). }
  apply wp_on_success. eapply wp_mono.
  { apply ext_csd_spec; [done | rewrite Hc1; by apply idle_switched | apply Ha]. }
  intros st s2 (-> & Hs2 & Hc2 & He2 & Hf2 & Hl2 & Hb2 & _ & Hm2). split; [done|]. rewrite Hc1 in *. wps.
  rewrite He2. change (PARTITION_ACCESS (PartitionConfig (ext_csd (switched (card_of s) p)))) with (card_partition (switched (card_of s) p)).
  rewrite card_partition_switched, Z.eqb_refl by done. unfold upd. wps. split; [done|].
  assert (Hk2 : idle_card (switched (card_of s) p)) by by apply idle_switched.
  split; [|split; [exact Hc2 | split; [done|]]].
  - split; try done.
    + split; apply Hs2.
    + cbn. rewrite Hf2, <- Hm. change (CardFunction (CardInfo (settled (hi s1))) = CardFunction (CardInfo (settled (hi s)))).
      by rewrite (after_settled _ _ _ _ _ Ha).
    + change (idle_card (card_of s2)). by rewrite Hc2.
    + change (ExtCsd (CardInfo (hi s2)) = ext_csd (card_of s2)). by rewrite He2, Hc2.
    + cbn. by rewrite Hb2.
  - cbn. by rewrite Hm2, Hb1, (after_mem _ _ _ _ _ Ha).
Qed.

(** ** Packets *)

Lemma count_field n (reliable : bool) : 0 <= n < 65536 ->
  Z.land (if reliable then Z.lor n 0x80000000 else n) 0xFFFF = n.
Proof.
  intros Hn. assert (E : Z.land n 0xFFFF = n) by (change 0xFFFF with (Z.ones 16); rewrite Z.land_ones by lia; apply Z.mod_small; lia).
  destruct reliable; [|done]. by rewrite Z.land_lor_distr_l, E, Z.lor_0_r.
Qed.

(** In the RPMB partition, at rest. *)
Definition rpmb_ready k : Prop := idle_card k /\ card_partition k = MmcExtCsdPartitionAccessRpmb.

Lemma set_count_spec n reliable s : slot s -> rpmb_ready (card_of s) -> 0 <= n < 65536 ->
  wp (set_block_count n reliable) s
     (fun st s' => st = EFI_SUCCESS /\ after s (with_count (Some n) (card_of s)) (smem s) CmdSetBlockCount s').
Proof.
  intros Hs [Hk _] Hn. unfold set_block_count, SdhcSetBlockCount. eapply wp_mono.
  - eapply (send_command_spec SdhcRecoverFromErrors CmdSetBlockCount _ s
      (at_phase (Answering NoData) (with_count (Some n) (card_of s)))); [done | done | done | | apply answer_at].
    unfold take_command. rewrite (idle_phase _ Hk), (idle_busy _ Hk). cbn [CmdsAreEqual]. cbv zeta.
    change (CmdsAreEqual CmdSetBlockCount CmdSendStatus) with false. change (CmdsAreEqual CmdSetBlockCount CmdSetBlockCount) with true.
    change (negb (bool_decide (0%nat = 0%nat))) with false. cbv iota. by rewrite count_field.
  - intros st s' (-> & Ha). split; [done|]. rewrite at_phase_id in Ha; [done|]. apply Hk.
Qed.

Ltac packets_step Hk := unfold take_command; cbn [phase busy block_count with_count]; rewrite (idle_phase _ Hk), (idle_busy _ Hk);
  unfold at_phase, with_count; rewrite ?(idle_count _ Hk), ?(idle_busy _ Hk); reflexivity.

Lemma write_packets n a s : slot s -> 0 < n -> (exists k, rpmb_ready k /\ card_of s = with_count (Some n) k) ->
  LastSuccessfulCmd (hi s) = Some CmdSetBlockCount ->
  wp (send_data CmdWriteMultiBlock 0 (n * SD_BLOCK_LENGTH_BYTES) a) s
     (fun st s' => st = EFI_SUCCESS
        /\ after s (with_rpmb (rpmb_take (read_bytes (smem s) a (n * SD_BLOCK_LENGTH_BYTES)) (rpmb (card_of s))) (with_count None (card_of s)))
             (smem s) CmdSendStatus s').
Proof.
  intros Hs Hn (k & [Hk Hp] & Ek) Hl. set (bs := read_bytes (smem s) a (n * SD_BLOCK_LENGTH_BYTES)).
  assert (Htake : take_data_of bs (at_phase (Transferring (TakeBlocks 0 n false)) k)
    = Some (after_data false (with_busy (latency k) (with_rpmb (rpmb_take bs (rpmb k)) (at_phase (Transferring (TakeBlocks 0 n false)) k))))).
  { unfold take_data_of. cbn [phase at_phase]. unfold bs. rewrite length_read_bytes, Z2Nat.id by (unfold SD_BLOCK_LENGTH_BYTES; lia).
    rewrite Z.eqb_refl. change (card_partition (at_phase _ k)) with (card_partition k). by rewrite Hp. }
  eapply wp_mono.
  - eapply (data_command_spec SdhcRecoverFromErrors CmdWriteMultiBlock 0 _ a s CmdSetBlockCount
      (at_phase (Answering (TakeBlocks 0 n false)) k)); try done;
      [by apply Z.mod_mul | rewrite Ek, Z.div_mul by done; packets_step Hk
      | eapply data_write; [done | exact Htake] | done | apply Hk | apply Hk].
  - intros st s' (-> & Ha). split; [done|]. rewrite Ek. destruct Hk as [H1 H2 H3 _ _ _]. destruct k; cbn in *. by subst.
Qed.

Lemma read_packets n a s : slot s -> 0 < n -> (exists k, rpmb_ready k /\ card_of s = with_count (Some n) k) ->
  LastSuccessfulCmd (hi s) = Some CmdSetBlockCount ->
  wp (send_data CmdReadMultiBlock 0 (n * SD_BLOCK_LENGTH_BYTES) a) s
     (fun st s' => st = EFI_SUCCESS
        /\ after s (with_count None (card_of s)) (write_bytes (smem s) a (rpmb_give n (rpmb (card_of s)))) CmdSendStatus s').
Proof.
  intros Hs Hn (k & [Hk Hp] & Ek) Hl.
  assert (Hsend : send_data_of (n * SD_BLOCK_LENGTH_BYTES) (at_phase (Transferring (SendBlocks 0 n false)) k)
    = Some (rpmb_give n (rpmb k), after_data false (at_phase (Transferring (SendBlocks 0 n false)) k))).
  { unfold send_data_of. cbn [phase at_phase]. rewrite Z.eqb_refl.
    change (card_partition (at_phase _ k)) with (card_partition k). by rewrite Hp. }
  eapply wp_mono.
  - eapply (data_command_spec SdhcRecoverFromErrors CmdReadMultiBlock 0 _ a s CmdSetBlockCount
      (at_phase (Answering (SendBlocks 0 n false)) k)); try done;
      [by apply Z.mod_mul | rewrite Ek, Z.div_mul by done; packets_step Hk
      | eapply data_read; [done | exact Hsend] | done | cbn; rewrite (idle_busy _ Hk); unfold SDMMC_POLL_WAIT_COUNT; lia | apply Hk].
  - intros st s' (-> & Ha). split; [done|]. rewrite Ek. destruct Hk as [H1 H2 H3 _ _ _]. destruct k; cbn in *. by subst.
Qed.

Lemma rpmb_ready_with r k : rpmb_ready k -> rpmb_ready (with_rpmb r k).
Proof. by intros [[] ?]. Qed.

(** ** Requests in the RPMB partition *)

(** A request packet at [q] taken, and [n] packets read to [a]. *)
Definition read_engine (q n a : Z) (m : mem) k : ecard R * mem :=
  let r := rpmb_take (read_bytes m q SD_BLOCK_LENGTH_BYTES) (rpmb k) in
  (with_rpmb r k, write_bytes m a (rpmb_give n r)).
(** [n] packets at [q] taken. *)
Definition write_engine (q n : Z) (m : mem) k : ecard R :=
  with_rpmb (rpmb_take (read_bytes m q (n * SD_BLOCK_LENGTH_BYTES)) (rpmb k)) k.

Lemma size_packets n : 0 <= n < 65536 -> u32 (n * sizeof_EFI_RPMB_DATA_PACKET) = n * SD_BLOCK_LENGTH_BYTES.
Proof. intros Hn. apply wrap_small. unfold in_word, sizeof_EFI_RPMB_DATA_PACKET, SD_BLOCK_LENGTH_BYTES. lia. Qed.

Lemma RpmbWrite_spec q n s : slot s -> rpmb_ready (card_of s) -> 0 < n < 65536 ->
  wp (RpmbWrite {| Packets := q; PacketCount := n |}) s
     (fun st s' => st = EFI_SUCCESS /\ after s (write_engine q n (smem s) (card_of s)) (smem s) CmdSendStatus s').
Proof.
  intros Hs Hk Hn. unfold RpmbWrite. cbn [Packets PacketCount]. rewrite size_packets, (wrap_small 32 n) by (unfold in_word; lia).
  apply wp_on_success. eapply wp_mono; [by apply set_count_spec; try lia|]. intros st s1 (-> & H1). split; [done|].
  assert (Hs1 : slot s1) by by eapply after_slot. pose proof (after_card _ _ _ _ _ H1) as Hc1.
  apply wp_on_success. eapply wp_mono.
  { apply write_packets; [done | lia | exists (card_of s); done | apply H1]. }
  intros st s2 (-> & H2). split; [done|]. wps. split; [done|]. rewrite Hc1, (after_mem _ _ _ _ _ H1) in H2.
  replace (write_engine q n (smem s) (card_of s)) with
    (with_rpmb (rpmb_take (read_bytes (smem s) q (n * SD_BLOCK_LENGTH_BYTES)) (rpmb (with_count (Some n) (card_of s))))
       (with_count None (with_count (Some n) (card_of s)))).
  { by eapply after_trans. }
  unfold write_engine. destruct Hk as [[_ _ Hc _ _ _] _]. destruct (card_of s); cbn in *. by subst.
Qed.

Lemma RpmbRead_spec q n a s : slot s -> rpmb_ready (card_of s) -> 0 < n < 65536 ->
  wp (RpmbRead q {| Packets := a; PacketCount := n |}) s
     (fun st s' => st = EFI_SUCCESS /\ after s (read_engine q n a (smem s) (card_of s)).1 (read_engine q n a (smem s) (card_of s)).2 CmdSendStatus s').
Proof.
  intros Hs Hk Hn. unfold RpmbRead. cbn [Packets PacketCount]. rewrite size_packets, (wrap_small 32 n) by (unfold in_word; lia).
  apply wp_on_success. eapply wp_mono; [by apply set_count_spec; try lia|]. intros st s1 (-> & H1). split; [done|].
  pose proof (after_card _ _ _ _ _ H1) as Hc1. apply wp_on_success. eapply wp_mono.
  { apply (write_packets 1); [by eapply after_slot | lia | exists (card_of s); done | apply H1]. }
  intros st s2 (-> & H2). split; [done|]. rewrite Hc1, (after_mem _ _ _ _ _ H1) in H2.
  assert (Hc2 : card_of s2 = (read_engine q n a (smem s) (card_of s)).1).
  { rewrite (after_card _ _ _ _ _ H2). unfold read_engine. destruct Hk as [[_ _ Hc _ _ _] _]. destruct (card_of s); cbn in *. by subst. }
  assert (Hs2 : slot s2) by (eapply after_slot; [eapply after_slot|]; done).
  assert (Hk2 : rpmb_ready (card_of s2)) by (rewrite Hc2; by apply rpmb_ready_with).
  apply wp_on_success. eapply wp_mono; [by apply set_count_spec; try lia|]. intros st s3 (-> & H3). split; [done|].
  pose proof (after_card _ _ _ _ _ H3) as Hc3. apply wp_on_success. eapply wp_mono.
  { apply read_packets; [by eapply after_slot | lia | exists (card_of s2); done | apply H3]. }
  intros st s4 (-> & H4). split; [done|]. wps. split; [done|].
  rewrite Hc3, (after_mem _ _ _ _ _ H3), (after_mem _ _ _ _ _ H2) in H4.
  eapply after_trans; [exact H1|]. eapply after_trans; [exact H2|]. eapply after_trans; [exact H3|].
  rewrite <- Hc2. replace (with_count None (with_count (Some n) (card_of s2))) with (card_of s2) in H4.
  2: { destruct Hk2 as [[_ _ Hc _ _ _] _]. destruct (card_of s2); cbn in *. by subst. }
  replace (read_engine q n a (smem s) (card_of s)).2 with (write_bytes (smem s) a (rpmb_give n (rpmb (with_count (Some n) (card_of s2))))); [done|].
  cbn [rpmb with_count]. by rewrite Hc2.
Qed.

(** What a request does once the card is in the RPMB partition. *)
Definition engine_request (t : Z) (q r : EFI_RPMB_DATA_BUFFER) (m : mem) k : ecard R * mem :=
  if t =? EFI_RPMB_REQUEST_PROGRAM_KEY then
    read_engine ResultRequest 1 (Packets r) m (write_engine (Packets q) 1 m k)
  else if t =? EFI_RPMB_REQUEST_COUNTER_VALUE then read_engine (Packets q) 1 (Packets r) m k
  else if t =? EFI_RPMB_REQUEST_AUTH_READ then read_engine (Packets q) (PacketCount r) (Packets r) m k
  else read_engine ResultRequest 1 (Packets r) m (write_engine (Packets q) (PacketCount q) m k).

Definition known_request (t : Z) : Prop := 1 <= t <= 4.

Lemma rpmb_dispatch_spec t q r s : slot s -> rpmb_ready (card_of s) -> known_request t ->
  0 < PacketCount q < 65536 -> 0 < PacketCount r < 65536 ->
  wp (rpmb_dispatch t q r) s
     (fun st s' => st = EFI_SUCCESS
        /\ after s (engine_request t q r (smem s) (card_of s)).1 (engine_request t q r (smem s) (card_of s)).2 CmdSendStatus s').
Proof.
  intros Hs Hk Ht Hq Hr. destruct q as [qa qn], r as [ra rn]. cbn [Packets PacketCount] in *.
  assert (Hw : forall n, 0 < n < 65536 -> wp (on_success (RpmbWrite {| Packets := qa; PacketCount := n |}) (on_success (RpmbQueryResult ra) (mret EFI_SUCCESS))) s
    (fun st s' => st = EFI_SUCCESS /\ after s (read_engine ResultRequest 1 ra (smem s) (write_engine qa n (smem s) (card_of s))).1
       (read_engine ResultRequest 1 ra (smem s) (write_engine qa n (smem s) (card_of s))).2 CmdSendStatus s')).
  { intros n Hn. apply wp_on_success. eapply wp_mono; [by apply RpmbWrite_spec|]. intros st s1 (-> & H1). split; [done|].
    unfold RpmbQueryResult. do 2 apply wp_on_success. eapply wp_mono.
    { apply RpmbRead_spec; [by eapply after_slot | | lia]. rewrite (after_card _ _ _ _ _ H1). by apply rpmb_ready_with. }
    intros st s2 (-> & H2). split; [done|]. wps. split; [done|]. wps. split; [done|].
    rewrite (after_card _ _ _ _ _ H1), (after_mem _ _ _ _ _ H1) in H2. by eapply after_trans. }
  assert (Hr1 : forall n, 0 < n < 65536 -> wp (on_success (RpmbRead qa {| Packets := ra; PacketCount := n |}) (mret EFI_SUCCESS)) s
    (fun st s' => st = EFI_SUCCESS /\ after s (read_engine qa n ra (smem s) (card_of s)).1
       (read_engine qa n ra (smem s) (card_of s)).2 CmdSendStatus s')).
  { intros n Hn. apply wp_on_success. eapply wp_mono; [by apply RpmbRead_spec|]. intros st s1 (-> & H1). split; [done|]. wps. done. }
  unfold rpmb_dispatch, engine_request, known_request in *. cbn [Packets PacketCount].
  destruct (Z.eqb_spec t EFI_RPMB_REQUEST_PROGRAM_KEY); [apply (Hw 1); lia|].
  destruct (Z.eqb_spec t EFI_RPMB_REQUEST_COUNTER_VALUE); [apply (Hr1 1); lia|].
  destruct (Z.eqb_spec t EFI_RPMB_REQUEST_AUTH_READ); [by apply Hr1|].
  destruct (Z.eqb_spec t EFI_RPMB_REQUEST_AUTH_WRITE); [by apply Hw|].
  unfold EFI_RPMB_REQUEST_PROGRAM_KEY, EFI_RPMB_REQUEST_COUNTER_VALUE, EFI_RPMB_REQUEST_AUTH_READ, EFI_RPMB_REQUEST_AUTH_WRITE in *. lia.
Qed.

(** ** The request as a whole *)

(** The engine after a request, and the response. *)
Definition engine_run (t : Z) (q r : EFI_RPMB_DATA_BUFFER) (m : mem) (e : R) : R * list Z :=
  let packets n := read_bytes m (Packets q) (n * SD_BLOCK_LENGTH_BYTES) in
  let result e := rpmb_take (read_bytes m ResultRequest SD_BLOCK_LENGTH_BYTES) e in
  let '(e, n) :=
    if t =? EFI_RPMB_REQUEST_PROGRAM_KEY then (result (rpmb_take (packets 1) e), 1)
    else if t =? EFI_RPMB_REQUEST_COUNTER_VALUE then (rpmb_take (packets 1) e, 1)
    else if t =? EFI_RPMB_REQUEST_AUTH_READ then (rpmb_take (packets 1) e, PacketCount r)
    else (result (rpmb_take (packets (PacketCount q)) e), 1) in
  (e, rpmb_give n e).

Lemma engine_request_run t q r m k : engine_request t q r m k
  = (with_rpmb (engine_run t q r m (rpmb k)).1 k, write_bytes m (Packets r) (engine_run t q r m (rpmb k)).2).
Proof. unfold engine_request, engine_run. by repeat case_match. Qed.

Lemma engine_run_ext t q r m m' e : 
  (forall n, n = 1 \/ n = PacketCount q ->
     read_bytes m' (Packets q) (n * SD_BLOCK_LENGTH_BYTES) = read_bytes m (Packets q) (n * SD_BLOCK_LENGTH_BYTES)) ->
  read_bytes m' ResultRequest SD_BLOCK_LENGTH_BYTES = read_bytes m ResultRequest SD_BLOCK_LENGTH_BYTES ->
  engine_run t q r m' e = engine_run t q r m e.
Proof. intros Hq Hr. unfold engine_run. by rewrite !Hq, Hr by auto. Qed.

Definition apart (a n b k : Z) : Prop := a + n <= b \/ b + k <= a.

(** A well-formed request, clear of the buffer of the slot. *)
Record rpmb_valid (t : Z) (q r : EFI_RPMB_DATA_BUFFER) s : Prop := {
  rv_host : HostExt (hi s) <> 0;
  rv_type : RpmbBytesToUint16 (read_bytes (smem s) (Packets q + offsetof_RequestOrResponseType) 2) = t;
  rv_known : known_request t;
  rv_packets : Packets q <> 0;
  rv_counts : 0 < PacketCount q < 65536 /\ 0 < PacketCount r < 65536;
  rv_partition : CurrentMmcPartition (hi s) = card_partition (card_of s);
  rv_request : apart (Packets q) (PacketCount q * SD_BLOCK_LENGTH_BYTES) (BlockBuffer (hi s)) SD_BLOCK_LENGTH_BYTES;
  rv_result : apart ResultRequest SD_BLOCK_LENGTH_BYTES (BlockBuffer (hi s)) SD_BLOCK_LENGTH_BYTES
}.

Lemma after_rpmb_slot s0 s k m s' : rpmb_slot s0 s -> idle_card k -> ext_csd k = ext_csd (card_of s) ->
  after s k m CmdSendStatus s' -> rpmb_slot s0 s'.
Proof.
  intros [Hs Hm Hk He Hl Hb] Hk' Hext Ha. pose proof (after_settled _ _ _ _ _ Ha) as E. split.
  - by eapply after_slot.
  - change (CardFunction (CardInfo (settled (hi s'))) = CardFunctionMmc). by rewrite E.
  - by rewrite (after_card _ _ _ _ _ Ha).
  - rewrite (after_card _ _ _ _ _ Ha), Hext, <- He. change (ExtCsd (CardInfo (settled (hi s'))) = ExtCsd (CardInfo (settled (hi s)))).
    by rewrite E.
  - apply Ha.
  - rewrite <- Hb. change (BlockBuffer (settled (hi s')) = BlockBuffer (settled (hi s))). by rewrite E.
Qed.

Lemma request_spec t q r s : rpmb_slot s s -> rpmb_valid t q r s ->
  wp (RpmbRequest q r) s
     (fun st s' => let '(e, bs) := engine_run t q r (smem s) (rpmb (card_of s)) in
        st = EFI_SUCCESS /\ rpmb_slot s s' /\ card_of s' = with_rpmb e (card_of s)
        /\ CurrentMmcPartition (hi s') = CurrentMmcPartition (hi s)
        /\ forall y, in_range (BlockBuffer (hi s)) SD_BLOCK_LENGTH_BYTES y = false ->
             smem s' y = write_bytes (smem s) (Packets r) bs y).
Proof.
  intros Hs [Hx Ht Hkn Hpk [Hq Hr] Hpart Hreq Hres]. pose proof (rs_idle _ _ Hs) as Hk.
  assert (Hp0 : 0 <= card_partition (card_of s) < 8) by (apply (partition_field _ 0 (idle_bytes _ Hk 179)); lia).
  unfold RpmbRequest, the. wps. apply wp_ASSERT; [by apply negb_true_iff, Z.eqb_neq|]. wps.
  eapply wp_mono; [by apply switch_partition_spec|]. intros st s1 (-> & Hs1 & Hc1 & _ & Hm1). wps.
  apply wp_ASSERT; [apply Z.ltb_lt; lia|]. wps. apply wp_ASSERT; [by apply negb_true_iff, Z.eqb_neq|]. unfold request_type. wps.
  assert (Hread : forall a n, apart a n (BlockBuffer (hi s)) SD_BLOCK_LENGTH_BYTES -> read_bytes (smem s1) a n = read_bytes (smem s) a n).
  { intros a n Ha. rewrite Hm1. apply read_write_disjoint. rewrite (idle_ext (switched _ _)) by by apply idle_switched.
    unfold apart, SD_BLOCK_LENGTH_BYTES in Ha. lia. }
  assert (Hpk1 : forall n, n = 1 \/ n = PacketCount q -> apart (Packets q) (n * SD_BLOCK_LENGTH_BYTES) (BlockBuffer (hi s)) SD_BLOCK_LENGTH_BYTES).
  { intros n Hn. unfold apart, SD_BLOCK_LENGTH_BYTES in *. lia. }
  rewrite Hread, Ht. 2: { specialize (Hpk1 1). unfold apart, SD_BLOCK_LENGTH_BYTES, offsetof_RequestOrResponseType in *. lia. }
  eapply wp_mono.
  { apply rpmb_dispatch_spec; [apply Hs1 | split; [apply Hs1 | rewrite Hc1; by apply card_partition_switched] | done..]. }
  intros st s2 (-> & H2). rewrite engine_request_run, Hc1, (engine_run_ext _ _ _ (smem s)) in H2 by auto.
  change (rpmb (switched (card_of s) MmcExtCsdPartitionAccessRpmb)) with (rpmb (card_of s)) in H2.
  destruct (engine_run t q r (smem s) (rpmb (card_of s))) as [e bs]. cbn [fst snd] in H2. wps.
  assert (Hk2 : idle_card (with_rpmb e (switched (card_of s) MmcExtCsdPartitionAccessRpmb))).
  { apply (rpmb_ready_with e). split; [by apply idle_switched | by apply card_partition_switched]. }
  eapply wp_mono.
  { apply (switch_partition_spec _ _ s s2); [|by rewrite Hpart]. eapply after_rpmb_slot; [exact Hs1 | exact Hk2 | by rewrite Hc1 | exact H2]. }
  intros st s3 (-> & Hs3 & Hc3 & Hp3 & Hm3). wps. split; [done|]. split; [done|].
  rewrite (after_card _ _ _ _ _ H2), Hpart, switched_back in Hc3 by done. split; [done|]. split; [done|].
  intros y Hy. apply in_range_false in Hy. assert (Hlen : length (ext_csd (card_of s3)) = 512%nat) by apply Hs3.
  rewrite Hm3, (after_card _ _ _ _ _ H2), Hpart, switched_back, <- Hc3 by done.
  rewrite write_bytes_out by (rewrite Hlen; unfold SD_BLOCK_LENGTH_BYTES in Hy; lia).
  rewrite (after_mem _ _ _ _ _ H2). unfold write_bytes. case_match; [done|].
  rewrite Hm1, write_bytes_out; [done|]. rewrite (idle_ext (switched _ _)) by by apply idle_switched.
  unfold SD_BLOCK_LENGTH_BYTES in Hy. lia.
Qed.

End RpmbSpec.
