(* ===== verification/SdMmcProps.v ===== *)
(** * SD and eMMC cards: properties

    Block and RPMB services against a card that refines the abstract one; what
    holds whatever host and card do: every service completes, the protocols the
    driver believes installed are those that are, and only the buffers of a
    request and of the slot are written. *)

From Stdlib Require Import ZArith Lia.
From stdpp Require Import base list numbers option gmap.
From S2P Require Import Prelude Memory SdMmc SdMmcProtocol SdMmcIo SdMmcDriver SdMmcKeeps SdMmcCard SdMmcIoSpec SdMmcRpmbSpec.

(** ** An example card *)

Module SdDemo.
(** The engine echoes the last packet it took. *)
#[export, program] Instance echo : RpmbEngine (list Z) := {
  rpmb_take bs _ := bs;
  rpmb_give n e := take (Z.to_nat (n * SD_BLOCK_LENGTH_BYTES)) (e ++ replicate (Z.to_nat (n * SD_BLOCK_LENGTH_BYTES)) 0)
}.
Next Obligation. intros n e Hn. cbv beta. rewrite length_take, length_app, length_replicate. lia. Qed.

#[export] Instance debug : Build := { debug_build := true }.
#[export] Instance image : SdImage := { ResultRequest := 0x9000 }.

Definition ext0 : list Z := replicate 512 0.
Definition card0 : ecard (list Z) :=
  {| phase := Tran; busy := 0; block_count := None; ext_csd := ext0; disk := fun lba => replicate 512 (lba mod 256); rpmb := [];
     latency := 3 |}.
Definition media0 : EFI_BLOCK_IO_MEDIA :=
  {| MediaId := 7; RemovableMedia := false; MediaPresent := true; LogicalPartition := false; ReadOnly := false; WriteCaching := false;
     BlockSize := 512; IoAlign := 4; LastBlock := 99 |}.
Definition slot0 : SDHC_INSTANCE :=
  {| InstanceId := 0; MmcHandle := 5; SlotInitialized := true; SlotNode := Some MSG_EMMC_DP; MediaPtr := 0x7000; Media := media0;
     RpmbIo := {| RpmbCid := []; ReliableSectorCount := 1; RpmbIoSizeMult := 1 |}; HostExt := 1; HostCapabilities := (512, 2);
     DevicePathProtocolInstalled := true; BlockIoProtocolInstalled := true; RpmbIoProtocolInstalled := true;
     CurrentMmcPartition := 0; CardInfo := set_ExtCsd ext0 (set_CardFunction CardFunctionMmc no_card); BlockBuffer := 0x8000;
     CmdResponse := [0; 0; 0; 0]; PreLastSuccessfulCmd := None; LastSuccessfulCmd := Some CmdSendStatus; ErrorRecoveryAttemptCount := 0 |}.
(** A read request packet at [0xA000]; the result request is where it is. *)
Definition mem0 : mem :=
  write_bytes (write_bytes (fun a => a mod 256) 0x9000 ResultRequest_data) 0xA000 (replicate 510 0 ++ [0; 4]).
Definition state0 : sd (ecard (list Z)) := {| hi := slot0; smem := mem0; host := card0 |}.

Lemma rest0 : transferring (x := 1) state0 state0.
Proof.
  split; [done | split; [done | by right] | | by exists CmdSendStatus].
  split; try done; [cbn; unfold SDMMC_POLL_WAIT_COUNT; lia].
Qed.

Lemma valid0 d : io_valid d 7 10 3 0xA000 slot0.
Proof. split; try done; intros; vm_compute; repeat split; intros; congruence. Qed.

(** Three blocks are two commands for this host. *)
Example reads_three_blocks : match BlockIoReadBlocks 7 10 (3 * 512) 0xA000 state0 with
  | Ret st s' => (st, read_bytes (smem s') (0xA000 + 511) 2, read_bytes (smem s') (0xA000 + 1535) 2, busy (host s'))
  | Stop _ => (1, [], [], 1%nat)
  end = (EFI_SUCCESS, [10; 11], [12; mem0 (0xA000 + 1536)], 0%nat).
Proof. vm_compute. reflexivity. Qed.
End SdDemo.

(** ** Services against the abstract card *)

Section Services.
Context {B : Build} {I : SdImage} {R : Type} {RE : RpmbEngine R} {H : Type} {SH : Sdhc H} {x : Z} {CH : CardHost R SH x}.



(** The RPMB service for a request type. *)
Definition rpmb_service (t : Z) (q r : EFI_RPMB_DATA_BUFFER) : M (sd H) Z :=
  if t =? EFI_RPMB_REQUEST_PROGRAM_KEY then RpmbIoProgramKey (Packets q) (Packets r)
  else if t =? EFI_RPMB_REQUEST_COUNTER_VALUE then RpmbIoReadCounter (Packets q) (Packets r)
  else if t =? EFI_RPMB_REQUEST_AUTH_READ then RpmbIoAuthenticatedRead (Packets q) (Some r)
  else RpmbIoAuthenticatedWrite (Some q) (Packets r).

(** Only an authenticated write sends, and only an authenticated read receives,
    more than one packet. *)
Definition one_packet_each (t : Z) (q r : EFI_RPMB_DATA_BUFFER) : Prop :=
  (t <> EFI_RPMB_REQUEST_AUTH_WRITE -> PacketCount q = 1) /\ (t <> EFI_RPMB_REQUEST_AUTH_READ -> PacketCount r = 1).

Lemma rpmb_service_request t q r (s : sd H) : rpmb_valid t q r s -> one_packet_each t q r -> Packets r <> 0 ->
  rpmb_service t q r s = RpmbRequest q r s.
Proof.
  intros [Hx Ht Hkn Hpk [Hq Hr] _ _ _] [Oq Or] Hr0. destruct q as [qa qn], r as [ra rn]. cbn [Packets PacketCount] in *.
  assert (Hz : forall z, z <> 0 -> (z =? 0) = false) by (intros; by apply Z.eqb_neq).
  assert (Hty : request_type (H := H) qa s = Ret t s) by (unfold request_type, gets; by rewrite Ht).
  unfold rpmb_service, known_request in *. cbn [Packets].
  unfold EFI_RPMB_REQUEST_PROGRAM_KEY, EFI_RPMB_REQUEST_COUNTER_VALUE, EFI_RPMB_REQUEST_AUTH_READ, EFI_RPMB_REQUEST_AUTH_WRITE in *.
  destruct (Z.eqb_spec t 1) as [->|H1]; [rewrite (Oq ltac:(lia)), (Or ltac:(lia))|
  destruct (Z.eqb_spec t 2) as [->|H2]; [rewrite (Oq ltac:(lia)), (Or ltac:(lia))|
  destruct (Z.eqb_spec t 4) as [->|H4]; [rewrite (Oq ltac:(lia))|
  assert (t = 3) as -> by lia; rewrite (Or ltac:(lia))]]].
  - unfold RpmbIoProgramKey. rewrite !Hz by done. cbn [orb]. by rewrite (bind_Ret _ _ _ _ _ Hty).
  - unfold RpmbIoReadCounter. rewrite !Hz by done. cbn [orb]. by rewrite (bind_Ret _ _ _ _ _ Hty).
  - unfold RpmbIoAuthenticatedRead. cbn [Packets PacketCount]. rewrite !Hz by lia. cbn [orb]. by rewrite (bind_Ret _ _ _ _ _ Hty).
  - unfold RpmbIoAuthenticatedWrite. cbn [Packets PacketCount]. rewrite !Hz by lia. cbn [orb]. by rewrite (bind_Ret _ _ _ _ _ Hty).
Qed.

(** C13: each of the four RPMB services switches the card to
    the RPMB partition, gives the engine exactly the packets of the request (and
    a result request after a write), returns its response in the caller's
    packets and leaves the card in the partition it was in, EXT_CSD and user
    data untouched; beyond the response only the buffer of the slot is
    written. *)
Theorem RpmbIo_services_correct t q r (s : sd H) :
  rpmb_slot (x := x) s s -> rpmb_valid t q r s -> one_packet_each t q r -> Packets r <> 0 ->
  wp (rpmb_service t q r) s
     (fun st s' => let '(e, bs) := engine_run t q r (smem s) (rpmb (card_of s)) in
        st = EFI_SUCCESS /\ rpmb_slot (x := x) s s' /\ card_of s' = with_rpmb e (card_of s)
        /\ CurrentMmcPartition (hi s') = CurrentMmcPartition (hi s)
        /\ forall y, in_range (BlockBuffer (hi s)) SD_BLOCK_LENGTH_BYTES y = false ->
             smem s' y = write_bytes (smem s) (Packets r) bs y).
Proof.
  intros Hs Hv Ho Hr. pose proof (request_spec t q r s Hs Hv) as Hw. unfold wp in *.
  by rewrite (rpmb_service_request t q r s Hv Ho Hr).
Qed.
End Services.

Module ServiceWitnesses.
Import SdDemo.



(** An authenticated read of two packets to [0xC000]. *)
Definition request1 : EFI_RPMB_DATA_BUFFER := {| Packets := 0xA000; PacketCount := 1 |}.
Definition response1 : EFI_RPMB_DATA_BUFFER := {| Packets := 0xC000; PacketCount := 2 |}.

Lemma rpmb_slot0 : rpmb_slot (x := 1) state0 state0.
Proof.
  split; try done; [split; [done | by right] |]. split; try done; [cbn; unfold SDMMC_POLL_WAIT_COUNT; lia|].
  intros i. change (0 <= nth i ext0 0 < 256). unfold ext0. rewrite nth_lookup. destruct (replicate 512 0 !! i) eqn:E; [|cbn; lia].
  apply lookup_replicate in E as [-> _]. cbn. lia.
Qed.

Lemma rpmb_valid0 : rpmb_valid (x := 1) 4 request1 response1 state0.
Proof.
  split; try done; try (by vm_compute); cbn; unfold apart, SD_BLOCK_LENGTH_BYTES; lia.
Qed.

Lemma RpmbIo_services_correct_witness :
  wp (rpmb_service 4 request1 response1) state0
     (fun st s' => let '(e, bs) := engine_run 4 request1 response1 mem0 [] in
        st = EFI_SUCCESS /\ rpmb_slot (x := 1) state0 s' /\ card_of (x := 1) s' = with_rpmb e card0
        /\ CurrentMmcPartition (hi s') = 0
        /\ forall y, in_range 0x8000 SD_BLOCK_LENGTH_BYTES y = false -> smem s' y = write_bytes mem0 0xC000 bs y).
Proof.
  refine (RpmbIo_services_correct (x := 1) 4 request1 response1 state0 rpmb_slot0 rpmb_valid0 _ _); [split; done | done].
Defined.
End ServiceWitnesses.

(** ** Whatever the host does *)

(** What users of a slot ask for. *)
Inductive sd_request :=
| R_reset
| R_read (id lba len a : Z)
| R_write (id lba len a : Z)
| R_program_key (q r : Z)
| R_read_counter (q r : Z)
| R_auth_write (q : option EFI_RPMB_DATA_BUFFER) (r : Z)
| R_auth_read (q : Z) (r : option EFI_RPMB_DATA_BUFFER).

Section AnyHost.
Context {B : Build} {I : SdImage} {H : Type} {SH : Sdhc H}.
Implicit Types s : sd H.

Definition serve (req : sd_request) : M (sd H) Z :=
  match req with
  | R_reset => BlockIoReset false
  | R_read id lba len a => BlockIoReadBlocks id lba len a
  | R_write id lba len a => BlockIoWriteBlocks id lba len a
  | R_program_key q r => RpmbIoProgramKey q r
  | R_read_counter q r => RpmbIoReadCounter q r
  | R_auth_write q r => RpmbIoAuthenticatedWrite q r
  | R_auth_read q r => RpmbIoAuthenticatedRead q r
  end.

(** A block request comes to a slot whose block size is set, with a buffer that
    does not wrap around. *)
Definition request_ready (req : sd_request) s : Prop :=
  match req with
  | R_read _ _ _ a | R_write _ _ _ a => io_ready s /\ in_word 64 a
  | _ => True
  end.

(** The memory a request lends to the driver. *)
Definition request_allowed (allowed : SD_TRANSFER_DIRECTION -> Z -> Z -> Prop) (req : sd_request) s : Prop :=
  match req with
  | R_reset => True
  | R_read _ _ len a =>
      chunks_allowed allowed SdTransferDirectionRead (snd (HostCapabilities (hi s)) * SD_BLOCK_LENGTH_BYTES) (u32 len) a
  | R_write _ _ len a =>
      chunks_allowed allowed SdTransferDirectionWrite (snd (HostCapabilities (hi s)) * SD_BLOCK_LENGTH_BYTES) (u32 len) a
  | R_program_key q r | R_read_counter q r => rpmb_allowed allowed (one_packet q) (one_packet r)
  | R_auth_write q r => forall q', q = Some q' -> rpmb_allowed allowed q' (one_packet r)
  | R_auth_read q r => forall r', r = Some r' -> rpmb_allowed allowed (one_packet q) r'
  end.

Lemma serve_kept (J : sd H -> Prop) allowed {KJ : Keeps J allowed} req s :
  J s -> ErrorRecoveryAttemptCount (hi s) = 0 -> request_ready req s -> request_allowed allowed req s ->
  wpe fuel_ok (serve req) s (fun _ s' => J s' /\ ErrorRecoveryAttemptCount (hi s') = 0).
Proof.
  intros HJ Hc Hr Ha.
  assert (Hq : forall p t (c : M (sd H) Z), kept J 0 c ->
    kept J 0 (x ← request_type p; if negb (x =? t) then mret EFI_INVALID_PARAMETER else c)).
  { intros p t c Hk. apply kept_bind; [apply kept_gets|]. intros x. by destruct (negb _); [apply kept_ret|]. }
  destruct req as [|id lba len a|id lba len a|q r|q r|[q|] r|q [r|]]; cbn [serve request_ready request_allowed] in *; try done.
  - by apply (kept_soft_reset J allowed).
  - destruct Hr. by apply (kept_IoBlocks J allowed).
  - destruct Hr. by apply (kept_IoBlocks J allowed).
  - unfold RpmbIoProgramKey. destruct (_ || _); [done|]. by apply Hq; [eapply kept_RpmbRequest|..].
  - unfold RpmbIoReadCounter. destruct (_ || _); [done|]. by apply Hq; [eapply kept_RpmbRequest|..].
  - unfold RpmbIoAuthenticatedWrite. destruct (_ || _); [done|]. apply Hq; try done. by eapply (kept_RpmbRequest J allowed), Ha.
  - unfold RpmbIoAuthenticatedRead. destruct (_ || _); [done|]. apply Hq; try done. by eapply (kept_RpmbRequest J allowed), Ha.
Qed.

(** *** Termination *)

#[local] Instance keeps_nothing : Keeps (H := H) (fun _ => True) (fun _ _ _ => True).
Proof. split; intros; repeat case_match; done. Qed.

(** C6: whatever the host, the card and the boot services
    answer, every service runs to its end within the bounds of the model (a
    dead loop of a failed assertion and a fault apart): errors are recovered
    from at most three levels deep, polls end, each chunk is tried three times,
    and no recovery is left under way. *)
Theorem sdmmc_services_complete req s : ErrorRecoveryAttemptCount (hi s) = 0 -> request_ready req s ->
  wpe fuel_ok (serve req) s (fun _ s' => ErrorRecoveryAttemptCount (hi s') = 0).
Proof.
  intros Hc Hr. eapply wpe_mono; [apply (serve_kept (fun _ => True) (fun _ _ _ => True)); try done|].
  - by destruct req; cbn; unfold chunks_allowed, rpmb_allowed.
  - by intros st s' [_ Hk].
Qed.

(** *** Installed protocols *)

(** Boot services with a handle database. *)
Class HandleDb := {
  has : H -> Z -> PROTOCOL -> bool;
  has_control x h h' : control x h h' -> has h' = has h;
  has_send x c arg xfr m h : has (SendCommand x c arg xfr m h).2 = has h;
  has_read x n a m h : has (ReadBlockData x n a m h).2 = has h;
  has_write x n a m h : has (WriteBlockData x n a m h).2 = has h;
  has_install x p h : let '(st, h') := InstallProtocol x p h in
    forall y q, has h' y q = if negb (EFI_ERROR st) && bool_decide (y = x /\ q = p) then true else has h y q;
  has_uninstall x p h : let '(st, h') := UninstallProtocol x p h in
    forall y q, has h' y q = if negb (EFI_ERROR st) && bool_decide (y = x /\ q = p) then false else has h y q
}.

(** The flags of the slot say what is installed on its handle. *)
Definition flags_true `{!HandleDb} s : Prop := forall p, installed p (hi s) = has (host s) (MmcHandle (hi s)) p.

Lemma installed_set p b q i : installed q (set_installed p b i) = if bool_decide (q = p) then b else installed q i.
Proof. by destruct p, q. Qed.

#[local] Instance keeps_flags `{!HandleDb} : Keeps flags_true (fun _ _ _ => True).
Proof.
  unfold flags_true. split; try done.
  - intros s s' HJ (_ & Hh & _ & Hm & _ & _ & _ & _ & Hi) p. by rewrite Hi, Hm, Hh.
  - intros s h HJ Hc p. cbn. by rewrite (has_control _ _ _ Hc).
  - intros s c arg xfr HJ _. pose proof (has_send (HostExt (hi s)) c arg xfr (smem s) (host s)) as E.
    destruct (SendCommand _ _ _ _ _ _) as [[st m] h]. intros p. cbn in *. by rewrite E.
  - intros s n a HJ _. pose proof (has_read (HostExt (hi s)) n a (smem s) (host s)) as E.
    destruct (ReadBlockData _ _ _ _ _) as [[st m] h]. intros p. cbn in *. by rewrite E.
  - intros s d n a HJ _ _ p. cbn. by rewrite has_write.
  - intros s p HJ. pose proof (has_install (MmcHandle (hi s)) p (host s)) as E. destruct (InstallProtocol _ _ _) as [st h].
    intros q. cbn [hi host]. rewrite E. destruct (EFI_ERROR st); cbn [negb andb]; [apply HJ|].
    rewrite installed_set. replace (MmcHandle (set_installed p true (hi s))) with (MmcHandle (hi s)) by by destruct p.
    destruct (bool_decide_reflect (q = p)) as [->|Hne]; [by rewrite bool_decide_true|].
    rewrite bool_decide_false by tauto. apply HJ.
  - intros s p HJ _. pose proof (has_uninstall (MmcHandle (hi s)) p (host s)) as E. destruct (UninstallProtocol _ _ _) as [st h].
    intros q. cbn [hi host]. rewrite E. destruct (EFI_ERROR st); cbn [negb andb]; [apply HJ|].
    rewrite installed_set. replace (MmcHandle (set_installed p false (hi s))) with (MmcHandle (hi s)) by by destruct p.
    destruct (bool_decide_reflect (q = p)) as [->|Hne]; [by rewrite bool_decide_true|].
    rewrite bool_decide_false by tauto. apply HJ.
Qed.

(** C29: the three flags of a slot are true to the handle
    database: whatever request fails, and however deep resets nest in the
    recovery from errors, a protocol is believed installed if and only if it
    is. *)
Theorem sdmmc_protocols_tracked `{!HandleDb} req s :
  flags_true s -> ErrorRecoveryAttemptCount (hi s) = 0 -> request_ready req s ->
  wpe fuel_ok (serve req) s (fun _ s' => flags_true s').
Proof.
  intros HJ Hc Hr. eapply wpe_mono; [apply (serve_kept flags_true (fun _ _ _ => True)); try done|].
  - by destruct req; cbn; unfold chunks_allowed, rpmb_allowed.
  - by intros st s' [Hf _].
Qed.

(** *** Memory *)

(** A host writes memory only where the transfer says. *)
Class Dma : Prop := {
  dma_send x c arg xfr m h : let '(_, m', _) := SendCommand x c arg xfr m h in
    match xfr with
    | Some i => if bool_decide (TransferDirection c = SdTransferDirectionRead)
                then only_changes (XfrBuffer i) (XfrBlockSize i * XfrBlockCount i) m m' else mem_eq m' m
    | None => mem_eq m' m
    end;
  dma_read x n a m h : let '(_, m', _) := ReadBlockData x n a m h in only_changes a n m m'
}.

(** What a request may write: its own output, and the buffer of the slot. *)
Definition request_output (req : sd_request) (y : Z) : bool :=
  match req with
  | R_read _ _ len a => in_range a (u32 len) y
  | R_program_key _ r | R_read_counter _ r | R_auth_write _ r => in_range r SD_BLOCK_LENGTH_BYTES y
  | R_auth_read _ (Some r) => in_range (Packets r) (u32 (PacketCount r * SD_BLOCK_LENGTH_BYTES)) y
  | _ => false
  end.

(** The output lies inside the address space. *)
Definition output_fits (req : sd_request) : Prop :=
  match req with
  | R_read _ _ len a => 0 <= a /\ a + u32 len <= 2 ^ 64
  | R_auth_read _ (Some r) => 0 < PacketCount r < 65536
  | _ => True
  end.

Definition untouched (m0 : mem) (buf : Z) (out : Z -> bool) s : Prop :=
  BlockBuffer (hi s) = buf /\ forall y, in_range buf SD_BLOCK_LENGTH_BYTES y = false -> out y = false -> smem s y = m0 y.
Definition reads_into (buf : Z) (out : Z -> bool) (d : SD_TRANSFER_DIRECTION) (n a : Z) : Prop :=
  d = SdTransferDirectionRead -> forall y, in_range a n y = true -> in_range buf SD_BLOCK_LENGTH_BYTES y = true \/ out y = true.

#[local] Instance keeps_memory `{!Dma} m0 buf out : Keeps (untouched m0 buf out) (reads_into buf out).
Proof.
  assert (Hin : forall a n m m' s, untouched m0 buf out s -> smem s = m -> only_changes a n m m' ->
    reads_into buf out SdTransferDirectionRead n a -> forall y, in_range buf SD_BLOCK_LENGTH_BYTES y = false -> out y = false -> m' y = m0 y).
  { intros a n m m' s [_ HJ] Em Ho Ha y Hb Hy. rewrite Ho; [subst m; by apply HJ|].
    destruct (in_range a n y) eqn:E; [|done]. destruct (Ha eq_refl y E); congruence. }
  split; try done.
  - intros s s' [Hb HJ] (Hm & _ & _ & _ & Hbb & _). split; [by rewrite Hbb|]. by rewrite Hm.
  - intros s [Hb HJ] _ y Hy. rewrite Hb in Hy. by left.
  - intros s c arg xfr HJ Ha. pose proof (dma_send (HostExt (hi s)) c arg xfr (smem s) (host s)) as Hd.
    destruct (SendCommand _ _ _ _ _ _) as [[st m'] h]. split; [apply HJ|]. cbn [smem set_host set_smem].
    destruct xfr as [i|]; [|intros y ??; rewrite Hd; by apply HJ].
    destruct (bool_decide_reflect (TransferDirection c = SdTransferDirectionRead)) as [E|E]; [|intros y ??; rewrite Hd; by apply HJ].
    eapply Hin; [exact HJ | done | exact Hd |]. intros _. by apply (Ha i).
  - intros s n a HJ Ha. pose proof (dma_read (HostExt (hi s)) n a (smem s) (host s)) as Hd.
    destruct (ReadBlockData _ _ _ _ _) as [[st m'] h]. split; [apply HJ|]. cbn [smem set_host set_smem].
    by eapply Hin.
  - intros s p [Hb HJ]. destruct (InstallProtocol _ _ _) as [st h]. split; [|exact HJ]. by destruct (EFI_ERROR st), p.
  - intros s p [Hb HJ] _. destruct (UninstallProtocol _ _ _) as [st h]. split; [|exact HJ]. by destruct (EFI_ERROR st), p.
Qed.

(** C27: with hosts that write only the buffer of a read transfer,
    a request changes no memory but its own output and the 512 bytes of the
    slot, also when the slot is reset, initialised and polled on the way. *)
Theorem sdmmc_memory_safe `{!Dma} req s :
  ErrorRecoveryAttemptCount (hi s) = 0 -> request_ready req s -> output_fits req ->
  wpe fuel_ok (serve req) s (fun _ s' => forall y,
    in_range (BlockBuffer (hi s)) SD_BLOCK_LENGTH_BYTES y = false -> request_output req y = false -> smem s' y = smem s y).
Proof.
  intros Hc Hr Hf. eapply wpe_mono.
  - apply (serve_kept (untouched (smem s) (BlockBuffer (hi s)) (request_output req)) (reads_into (BlockBuffer (hi s)) (request_output req)));
      try done.
    assert (Hw : forall n a, reads_into (BlockBuffer (hi s)) (request_output req) SdTransferDirectionWrite n a) by done.
    destruct req as [|id lba len a|id lba len a|q r|q r|[q|] r|q [r|]]; cbn [request_allowed request_output output_fits] in *; try done.
    + intros o n Ho Hn Hon _ _ _ y Hy. right. apply in_range_spec in Hy. apply in_range_spec.
      rewrite wrap_small in Hy by (unfold in_word; lia). lia.
    + by repeat split; try done; intros _ y Hy; right.
    + by repeat split; try done; intros _ y Hy; right.
    + intros q' [= <-]. by repeat split; try done; intros _ y Hy; right.
    + intros r' [= <-]. repeat split; try done; intros _ y Hy; right; try done.
      cbn [request_output]. unfold sizeof_EFI_RPMB_DATA_PACKET, SD_BLOCK_LENGTH_BYTES in *. rewrite wrap_small by (unfold in_word; lia).
      apply in_range_spec in Hy. apply in_range_spec. lia.
  - intros st s' [[_ Hu] _]. exact Hu.
Qed.
End AnyHost.

(** A host whose every operation fails: the state is its handle database. *)
Module DeadHost.
Import SdDemo.
Definition handles : Type := Z -> PROTOCOL -> bool.
Definition note (x : Z) (p : PROTOCOL) (b : bool) (h : handles) : handles :=
  fun y q => if bool_decide (y = x /\ q = p) then b else h y q.

#[export] Instance dead : Sdhc handles := {
  GetCapabilities _ _ := (512, 2);
  SoftwareReset _ _ h := (EFI_DEVICE_ERROR, h);
  SetClock _ _ h := (EFI_DEVICE_ERROR, h);
  SetBusWidth _ _ h := (EFI_DEVICE_ERROR, h);
  IsCardPresent _ h := (true, h);
  IsReadOnly _ h := (false, h);
  SendCommand _ _ _ _ m h := (EFI_DEVICE_ERROR, m, h);
  ReceiveResponse _ _ h := (EFI_DEVICE_ERROR, [], h);
  ReadBlockData _ _ _ m h := (EFI_DEVICE_ERROR, m, h);
  WriteBlockData _ _ _ _ h := (EFI_DEVICE_ERROR, h);
  Cleanup _ h := h;
  Stall _ h := h;
  InstallProtocol x p h := (EFI_SUCCESS, note x p true h);
  UninstallProtocol x p h := (EFI_SUCCESS, note x p false h);
  LocateRpmbIo h := (EFI_NOT_FOUND, h);
  ConvertDevicePathToText h := (true, h);
  OpenSdhcProtocol _ h := (EFI_SUCCESS, 1, h);
  CloseProtocol _ _ _ h := (EFI_SUCCESS, h);
  AllocatePool _ h := (4096, h);
  FreePool _ h := h
}.

#[export] Instance dead_handles : HandleDb (H := handles).
Proof. refine {| has := fun h => h |}; try done. by intros x h h' []. Defined.

#[export] Instance dead_dma : Dma (H := handles).
Proof. split; [|done]. intros x c arg [i|] m h; cbn; [by destruct (bool_decide _) | done]. Qed.

Definition state1 : sd handles := {| hi := slot0; smem := mem0; host := fun _ _ => true |}.

Lemma flags1 : flags_true state1.
Proof. by intros []. Qed.

Lemma ready1 : request_ready (R_read 7 10 (3 * 512) 0xA000) state1.
Proof. by vm_compute. Qed.

(** The first failed attempt resets the slot; the card does not come up again,
    the block size stays 0, and after the attempts the loop divides by it. *)
Example failed_read_divides_by_zero : match serve (R_read 7 10 (3 * 512) 0xA000) state1 with
  | Ret st s' => (st, BlockIoProtocolInstalled (hi s'), BlockSize (Media (hi s')))
  | Stop w => (if bool_decide (w = Fault) then 1 else 2, true, 0)
  end = (1, true, 0).
Proof. vm_compute. reflexivity. Qed.

Lemma sdmmc_services_complete_witness :
  wpe fuel_ok (serve (R_read 7 10 (3 * 512) 0xA000)) state1 (fun _ s' => ErrorRecoveryAttemptCount (hi s') = 0).
Proof. apply (sdmmc_services_complete (R_read 7 10 (3 * 512) 0xA000) state1 eq_refl ready1). Defined.

Lemma sdmmc_protocols_tracked_witness : wpe fuel_ok (serve R_reset) state1 (fun _ s' => flags_true s').
Proof. apply (sdmmc_protocols_tracked R_reset state1 flags1 eq_refl I). Defined.

Lemma sdmmc_memory_safe_witness :
  wpe fuel_ok (serve (R_read 7 10 (3 * 512) 0xA000)) state1 (fun _ s' => forall y,
    in_range 0x8000 SD_BLOCK_LENGTH_BYTES y = false -> request_output (R_read 7 10 (3 * 512) 0xA000) y = false -> smem s' y = mem0 y).
Proof.
  apply (sdmmc_memory_safe (R_read 7 10 (3 * 512) 0xA000) state1 eq_refl ready1). vm_compute. split; discriminate.
Defined.
End DeadHost.

(** ** Capacity *)

(** The capacity the registers describe (SD physical layer specification, 5.3;
    JEDEC 84-A441, 8.3): [C_SIZE] is bits 73 to 62, or 69 to 48. *)
Definition described_capacity (f : CARD_FUNCTION) (high : bool) (csd : list Z) : Z :=
  let standard := (bits 8 73 62 csd + 1) * 2 ^ (bits 8 49 47 csd + 2) * 2 ^ bits 8 83 80 csd in
  match f with
  | CardFunctionSd => if bits 8 127 126 csd =? 0 then standard else (bits 8 69 48 csd + 1) * (512 * 1024)
  | CardFunctionMmc => if high then 0 else standard
  | _ => 0
  end.

Lemma testbit_bits first hi lo reg i : lo <= hi -> 0 <= i ->
  Z.testbit (bits first hi lo reg) i = Z.testbit (Z.shiftr (le_val reg) (lo - first)) i && (i <=? hi - lo).
Proof.
  intros Hlo Hi. unfold bits. rewrite Z.land_spec. f_equal. destruct (Z.leb_spec i (hi - lo)).
  - apply Z.ones_spec_low. lia.
  - apply Z.ones_spec_high. lia.
Qed.

Lemma bits_range first hi lo reg : lo <= hi -> 0 <= bits first hi lo reg < 2 ^ (hi - lo + 1).
Proof. intros Hlo. unfold bits. rewrite Z.land_ones by lia. apply Z.mod_pos_bound, Z.pow_pos_nonneg; lia. Qed.

(** A field in two parts. *)
Lemma bits_join first hi mid lo reg : first <= lo -> lo < mid <= hi ->
  Z.lor (Z.shiftl (bits first hi mid reg) (mid - lo)) (bits first (mid - 1) lo reg) = bits first hi lo reg.
Proof.
  intros Hf Hm. apply Z.bits_inj'. intros i Hi. rewrite Z.lor_spec. destruct (Z.ltb_spec i (mid - lo)) as [Hlt|Hge].
  - rewrite Z.shiftl_spec_low, !testbit_bits by lia. cbn [orb].
    rewrite (proj2 (Z.leb_le i (mid - 1 - lo))), (proj2 (Z.leb_le i (hi - lo))) by lia. done.
  - rewrite Z.shiftl_spec, !testbit_bits by lia. rewrite (proj2 (Z.leb_gt i (mid - 1 - lo))) by lia.
    rewrite andb_false_r, orb_false_r, !Z.shiftr_spec by lia. f_equal; [f_equal; lia|].
    destruct (Z.leb_spec (i - (mid - lo)) (hi - mid)), (Z.leb_spec i (hi - lo)); try done; lia.
Qed.

Lemma csd_capacity_described csd :
  let c := (bits 8 73 62 csd + 1) * 2 ^ (bits 8 49 47 csd + 2) * 2 ^ bits 8 83 80 csd in
  csd_capacity csd = u32 c.
Proof.
  cbv zeta. unfold csd_capacity, C_SIZEHigh10, C_SIZELow2, C_SIZE_MULT, READ_BL_LEN.
  change 2 with (64 - 62) at 1. change 63 with (64 - 1). rewrite bits_join by lia. change (64 - 62) with 2.
  pose proof (bits_range 8 49 47 csd ltac:(lia)). pose proof (bits_range 8 83 80 csd ltac:(lia)).
  rewrite !Z.shiftl_mul_pow2, !Z.mul_1_l by lia. unfold wrap. by rewrite Z.mul_mod_idemp_l by done.
Qed.

Lemma csd2_capacity_described csd : csd2_capacity csd = (bits 8 69 48 csd + 1) * (512 * 1024).
Proof.
  unfold csd2_capacity, C_SIZE. rewrite <- Z.mul_assoc. apply wrap_small. pose proof (bits_range 8 69 48 csd ltac:(lia)).
  unfold in_word. lia.
Qed.

Lemma capacity_described f high csd :
  described_capacity f high csd < 2 ^ 32 \/ (f = CardFunctionSd /\ CSD_STRUCTURE csd <> 0) ->
  match f with
  | CardFunctionSd => if CSD_STRUCTURE csd =? 0 then csd_capacity csd else csd2_capacity csd
  | CardFunctionMmc => if high then 0 else csd_capacity csd
  | _ => 0
  end = described_capacity f high csd.
Proof.
  assert (Hs : forall c, c = (bits 8 73 62 csd + 1) * 2 ^ (bits 8 49 47 csd + 2) * 2 ^ bits 8 83 80 csd -> c < 2 ^ 32 -> csd_capacity csd = c).
  { intros c -> Hc. rewrite csd_capacity_described. apply wrap_small. split; [|done].
    pose proof (bits_range 8 73 62 csd ltac:(lia)). repeat apply Z.mul_nonneg_nonneg; try lia; apply Z.pow_nonneg; lia. }
  unfold described_capacity, CSD_STRUCTURE. destruct f; try done.
  - destruct (Z.eqb_spec (bits 8 127 126 csd) 0) as [E|E]; [|intros _; apply csd2_capacity_described].
    intros [Hc|[_ Hc]]; [by apply Hs | done].
  - destruct high; [done|]. intros [Hc|[Hc _]]; [by apply Hs | done].
Qed.

Lemma last_block cap : SD_BLOCK_LENGTH_BYTES <= cap ->
  let last := if 0 <? cap / SD_BLOCK_LENGTH_BYTES then cap / SD_BLOCK_LENGTH_BYTES - 1 else 0 in
  last * SD_BLOCK_LENGTH_BYTES <= cap - SD_BLOCK_LENGTH_BYTES < (last + 1) * SD_BLOCK_LENGTH_BYTES.
Proof.
  unfold SD_BLOCK_LENGTH_BYTES. intros Hc. pose proof (Z_div_mod_eq_full cap 512). pose proof (Z.mod_pos_bound cap 512 ltac:(lia)).
  destruct (Z.ltb_spec 0 (cap / 512)); cbn; lia.
Qed.

Section Csd.
Context {B : Build} {H : Type} {SH : Sdhc H}.

Lemma wpe_on_success (E : stop -> Prop) (c k : M (sd H) Z) s Q :
  wpe E c s (fun st s' => if EFI_ERROR st then Q st s' else wpe E k s' Q) -> wpe E (on_success c k) s Q.
Proof.
  intros Hc. apply wpe_bind. eapply wpe_mono; [done|]. intros st s'. cbn beta. destruct (EFI_ERROR st); intros Hq; [exact Hq | done].
Qed.

(** whatever was in the slot before, a successful SEND_CSD
    leaves the capacity its register describes, exactly for cards of the second
    CSD version and up to 4 GB otherwise, and the last 512-byte block of that
    capacity as the last block. *)
Theorem SdhcSendCsd_correct recover (s : sd H) :
  wpe (fun _ => True) (SdhcSendCsd recover) s (fun st s' => EFI_ERROR st = false ->
    let c := CardInfo (hi s') in
    let csd := take 15 (response_bytes (hi s')) in
    let capacity := described_capacity (CardFunction c) (HighCapacity c) csd in
    capacity < 2 ^ 32 \/ (CardFunction c = CardFunctionSd /\ CSD_STRUCTURE csd <> 0) ->
    ByteCapacity c = capacity /\ BlockSize (Media (hi s')) = SD_BLOCK_LENGTH_BYTES
    /\ (SD_BLOCK_LENGTH_BYTES <= capacity ->
        LastBlock (Media (hi s')) * SD_BLOCK_LENGTH_BYTES <= capacity - SD_BLOCK_LENGTH_BYTES
          < (LastBlock (Media (hi s')) + 1) * SD_BLOCK_LENGTH_BYTES)).
Proof.
  unfold SdhcSendCsd, RCA_arg, card, the, upd_card, upd_media, upd. wpe_go. apply wpe_on_success. unfold wpe at 1.
  destruct (SdhcSendCommand _ _ _ s) as [st s1|]; [|done]. destruct (EFI_ERROR st) eqn:E; [congruence|]. wpe_go.
  pose proof (capacity_described (CardFunction (CardInfo (hi s1))) (HighCapacity (CardInfo (hi s1)))
    (take 15 (response_bytes (hi s1)))) as Hcap.
  destruct (CardFunction (CardInfo (hi s1))) eqn:Ef; wpe_go; intros _ Hb; unfold response_bytes in *;
    cbn [hi set_hi CardInfo set_CardInfo set_Media Media CardFunction set_ByteCapacity set_Csd HighCapacity ByteCapacity set_LastBlock
         LastBlock set_BlockSize BlockSize CmdResponse] in *; rewrite Ef in *; specialize (Hcap Hb);
    (split; [exact Hcap | split; [done|]]); rewrite <- Hcap; apply last_block.
Qed.
End Csd.

(** ** Stopping the driver *)

Section Stop.
Context {B : Build} {I : SdImage} {H : Type} {SH : Sdhc H} {L : SdLayout}.
Context (uninstalls : forall x p h, EFI_ERROR (UninstallProtocol x p h).1 = false).
Context (closes : forall c a b h, (CloseProtocol c a b h).1 = EFI_SUCCESS).

Lemma wp_with_instance {A} p (c : M (sd H) A) (s : driver H) i Q : instances s !! p = Some i ->
  wp c (Build_sd i (dmem s) (dhost s)) (fun a t =>
    Q a (Build_driver (gSdhcInstancePool s) (<[p := hi t]> (instances s)) (gNextSdhcInstanceId s) (gHpcTicksPerSeconds s) (smem t) (host t))) ->
  wp (with_instance p c) s Q.
Proof. intros Hp. unfold wp, with_instance. rewrite Hp. by destruct (c _). Qed.

Lemma wp_sd_service {A} (f : H -> A * H) (s : driver H) (Q : A -> driver H -> Prop) :
  Q (f (dhost s)).1 (set_dhost (f (dhost s)).2 s) -> wp (service f) s Q.
Proof. unfold wp, service. by destruct (f (dhost s)). Qed.

Lemma uninstall_if_succeeds p s : wp (uninstall_if_installed p) s (fun st _ => EFI_ERROR st = false).
Proof.
  unfold uninstall_if_installed, the. wp_go. destruct (installed p (hi s)); [|by apply wp_ret].
  unfold uninstall_and_note, uninstall, the. wp_go. specialize (uninstalls (MmcHandle (hi s)) p (host s)).
  unfold wp, host_op. destruct (UninstallProtocol _ _ _) as [st h]. cbn in uninstalls. unfold mbind, M_bind. by rewrite uninstalls.
Qed.

Lemma uninstall_all_succeeds s : wp UninstallAllProtocols s (fun st _ => EFI_ERROR st = false).
Proof.
  unfold UninstallAllProtocols.
  repeat (apply wp_bind; eapply wp_mono; [apply uninstall_if_succeeds|]; intros ? ? ->).
  done.
Qed.

Lemma destroy_frees p (s : driver H) i : instances s !! p = Some i ->
  wp (DestroySdhcInstance p) s (fun _ s' => instances s' !! p = None).
Proof.
  intros Hp. unfold DestroySdhcInstance. wp_go. eapply wp_with_instance; [done|].
  eapply wp_mono; [apply uninstall_all_succeeds|]. intros st t Hst. rewrite Hst. unfold the. wp_go.
  eapply wp_with_instance; [apply lookup_insert_eq|]. wp_go.
  apply (wp_mono _ _ (fun _ s' => exists j, instances s' !! p = Some j)).
  - destruct (negb _); [apply wp_sd_service | wp_go]; eexists; apply lookup_insert_eq.
  - intros _ s1 [j Hj]. wp_go. eapply wp_with_instance; [done|]. wp_go. apply wp_sd_service. wp_go. apply wp_sd_service. wp_go.
    apply lookup_delete_eq.
Qed.

(** with no slot in the pool the driver stops with
    success; with one, once the first instance has been destroyed, the loop takes
    it from the pool again: the freed structure is accessed. *)
Theorem SdMmcDriverStop_use_after_free n handle controller (s : driver H) :
  (gSdhcInstancePool s = [] -> SdMmcDriverStop (S (S n)) handle controller s = Ret EFI_SUCCESS s)
  /\ (forall p pool i, gSdhcInstancePool s = p :: pool -> instances s !! p = Some i ->
      SdMmcDriverStop (S (S n)) handle controller s = Stop Fault).
Proof.
  split; [intros E; unfold SdMmcDriverStop; by rewrite bind_gets, E|]. intros p pool i E Hp.
  unfold SdMmcDriverStop. rewrite bind_gets, E. cbn [stop_loop].
  destruct (wp_returns (service (CloseProtocol controller (p + offsetof_HostExt) handle)) s
    (fun st s' => st = EFI_SUCCESS /\ instances s' !! p = Some i)) as (st & s1 & E1 & -> & H1).
  { apply wp_sd_service. split; [apply closes | exact Hp]. }
  rewrite (bind_Ret _ _ _ _ _ E1).
  destruct (wp_returns (RemoveSdhcInstance p) s1 (fun _ s' => exists j, instances s' !! p = Some j)) as (u & s2 & E2 & j & H2).
  { unfold RemoveSdhcInstance. wp_go. eapply wp_with_instance; [done|]. wp_go. eexists. apply lookup_insert_eq. }
  rewrite (bind_Ret _ _ _ _ _ E2).
  destruct (wp_returns _ _ _ (destroy_frees p s2 j H2)) as (st & s3 & E3 & H3). rewrite (bind_Ret _ _ _ _ _ E3).
  change (EFI_SUCCESS =? EFI_SUCCESS) with true. cbv iota.
  destruct (wp_returns (service (CloseProtocol controller (p + offsetof_HostExt) handle)) s3
    (fun _ s' => instances s' !! p = None)) as (st4 & s4 & E4 & H4).
  { apply wp_sd_service. exact H3. }
  rewrite (bind_Ret _ _ _ _ _ E4). unfold RemoveSdhcInstance, with_instance, mbind, M_bind. by rewrite H4.
Qed.
End Stop.

Module StopWitness.
Import SdDemo DeadHost.
#[export] Instance layout : SdLayout := {
  sizeof_SDHC_INSTANCE := 1500; sizeof_EFI_BLOCK_IO_MEDIA := 48; offsetof_BlockBuffer := 800; offsetof_HostExt := 400
}.
Definition driver0 : driver handles :=
  {| gSdhcInstancePool := [0x7000]; instances := {[0x7000 := slot0]}; gNextSdhcInstanceId := 1; gHpcTicksPerSeconds := 24; dmem := mem0;
     dhost := fun _ _ => true |}.

Lemma SdMmcDriverStop_use_after_free_witness : SdMmcDriverStop 2 9 5 driver0 = Stop Fault.
Proof.
  apply (SdMmcDriverStop_use_after_free (H := handles) (SH := dead) (fun _ _ _ => eq_refl) (fun _ _ _ _ => eq_refl) 0 9 5 driver0) with (p := 0x7000) (pool := []) (i := slot0).
  - reflexivity.
  - reflexivity.
Defined.
End StopWitness.
