(* ===== verification/Mmio.v ===== *)
(** * Memory-mapped registers

    [IoLib] and [TimerLib] as the drivers of the chip use them: 32-bit
    accesses to a bus and delays, as the class [Mmio]; and register files,
    the hardware whose registers hold what was written to them.  Rockchip's
    registers come in two kinds: plain ones, and ones whose upper half holds
    a write enable for each bit of the lower half. *)

From Stdlib Require Import ZArith Lia.
From stdpp Require Import base list numbers option.
From S2P Require Import Prelude.

(** ** Accesses *)

Class Mmio (H : Type) := {
  mmio_read32 : Z -> H -> Z * H;
  mmio_write32 : Z -> Z -> H -> H;
  delay_us : Z -> H -> H;
  delay_ns : Z -> H -> H;
}.

Section access.
Context {H : Type} `{MM : Mmio H}.

Definition MmioRead32 (Address : Z) : M H Z :=
  fun h => let '(v, h') := mmio_read32 Address h in Ret (u32 v) h'.

Definition MmioWrite32 (Address Value : Z) : M H unit := modify (mmio_write32 Address (u32 Value)).

Definition MmioOr32 (Address OrData : Z) : M H unit :=
  v ← MmioRead32 Address; MmioWrite32 Address (Z.lor v OrData).

Definition MmioAnd32 (Address AndData : Z) : M H unit :=
  v ← MmioRead32 Address; MmioWrite32 Address (Z.land v AndData).

Definition MmioAndThenOr32 (Address AndData OrData : Z) : M H unit :=
  v ← MmioRead32 Address; MmioWrite32 Address (Z.lor (Z.land v AndData) OrData).

Definition MicroSecondDelay (us : Z) : M H unit := modify (delay_us us).
Definition NanoSecondDelay (ns : Z) : M H unit := modify (delay_ns ns).

(** Division of unsigned words; by zero the behaviour is undefined. *)
Definition divide (a b : Z) : M H Z := if b =? 0 then stopM Fault else mret (a / b).

Lemma wp_MmioRead32 a h (Q : Z -> H -> Prop) :
  Q (u32 (mmio_read32 a h).1) (mmio_read32 a h).2 -> wp (MmioRead32 a) h Q.
Proof. unfold wp, MmioRead32. by destruct (mmio_read32 a h). Qed.

Lemma wp_MmioWrite32 a v h (Q : unit -> H -> Prop) :
  Q tt (mmio_write32 a (u32 v) h) -> wp (MmioWrite32 a v) h Q.
Proof. done. Qed.

Lemma wpe_MmioRead32 E a h (Q : Z -> H -> Prop) :
  Q (u32 (mmio_read32 a h).1) (mmio_read32 a h).2 -> wpe E (MmioRead32 a) h Q.
Proof. unfold wpe, MmioRead32. by destruct (mmio_read32 a h). Qed.

Lemma wp_divide a b h (Q : Z -> H -> Prop) : b <> 0 -> Q (a / b) h -> wp (divide a b) h Q.
Proof. intros Hb HQ. unfold divide. by rewrite (proj2 (Z.eqb_neq _ _) Hb). Qed.
End access.

(** ** Bits of words *)

Lemma land_wrap w v m : 0 <= w -> in_word w m -> Z.land (wrap w v) m = Z.land v m.
Proof.
  intros Hw Hm. apply Z.bits_inj'. intros i Hi. rewrite !Z.land_spec, wrap_testbit by done.
  destruct (Z.ltb_spec i w); [done|]. cbn.
  rewrite <- (wrap_small _ _ Hm), wrap_testbit, (proj2 (Z.ltb_ge i w)) by done. by rewrite andb_false_r.
Qed.

(** Two words that agree outside [s] agree on every mask without bits of [s]. *)
Lemma land_ldiff_eq a b s m : Z.ldiff a s = Z.ldiff b s -> Z.land m s = 0 -> Z.land a m = Z.land b m.
Proof.
  intros He Hm. apply Z.bits_inj'. intros i Hi. rewrite !Z.land_spec.
  pose proof (f_equal (fun z => Z.testbit z i) He) as E. pose proof (f_equal (fun z => Z.testbit z i) Hm) as F.
  cbn beta in E, F. rewrite !Z.ldiff_spec in E by done. rewrite Z.land_spec, Z.bits_0 in F.
  destruct (Z.testbit m i); [|by rewrite !andb_false_r]. cbn in F. rewrite F in E. by rewrite !andb_true_r in *.
Qed.

(** Fields packed into a word. *)
Lemma shiftl_shiftr a n : 0 <= n -> Z.shiftr (Z.shiftl a n) n = a.
Proof. intros Hn. rewrite Z.shiftr_shiftl_l, Z.sub_diag by lia. apply Z.shiftl_0_r. Qed.

Lemma lor_land a b m : Z.land (Z.lor a b) m = Z.lor (Z.land a m) (Z.land b m).
Proof. apply Z.land_lor_distr_l. Qed.

Lemma land_shiftl_mask a n w : 0 <= n -> 0 <= w -> in_word w a -> Z.land (Z.shiftl a n) (Z.shiftl (Z.ones w) n) = Z.shiftl a n.
Proof. intros Hn Hw Ha. rewrite <- Z.shiftl_land, <- wrap_land_ones by done. by rewrite wrap_small. Qed.

(** A value shifted past a mask, and a value below a mask. *)
Lemma land_shiftl_low a n m : 0 <= n -> in_word n m -> Z.land (Z.shiftl a n) m = 0.
Proof.
  intros Hn Hm. apply Z.bits_inj'. intros i Hi. rewrite Z.land_spec, Z.bits_0, Z.shiftl_spec by done.
  destruct (Z.ltb_spec i n); [by rewrite (Z.testbit_neg_r a) by lia|].
  rewrite <- (wrap_small _ _ Hm), wrap_testbit, (proj2 (Z.ltb_ge i n)) by lia. by rewrite andb_false_r.
Qed.

Lemma land_below a n m : 0 <= n -> in_word n a -> Z.land a (Z.shiftl m n) = 0.
Proof. intros. rewrite Z.land_comm. by apply land_shiftl_low. Qed.

Lemma land_ones_small a w : 0 <= w -> in_word w a -> Z.land a (Z.ones w) = a.
Proof. intros Hw Ha. by rewrite <- wrap_land_ones, wrap_small. Qed.
Lemma in_word_lor w a b : 0 <= w -> in_word w a -> in_word w b -> in_word w (Z.lor a b).
Proof.
  intros Hw Ha Hb. rewrite <- (wrap_small w a), <- (wrap_small w b) by done.
  rewrite !wrap_land_ones, <- Z.land_lor_distr_l, <- wrap_land_ones by done. by apply wrap_range.
Qed.

Lemma in_word_shiftl w n a : 0 <= n -> 0 <= w -> in_word w a -> in_word (w + n) (Z.shiftl a n).
Proof. intros Hn Hw Ha. unfold in_word in *. rewrite Z.shiftl_mul_pow2, Z.pow_add_r by lia. nia. Qed.

(** What a register with write enables holds after a write. *)
Definition hiword_write (old v : Z) : Z :=
  let en := Z.land (Z.shiftr v 16) (Z.ones 16) in Z.lor (Z.ldiff old en) (Z.land v en).

(** The word that writes [val] to the bits of [mask]. *)
Definition hiword (mask val : Z) : Z := Z.lor (Z.shiftl mask 16) val.

Lemma hiword_enable mask val : in_word 16 mask -> in_word 16 val ->
  Z.land (Z.shiftr (u32 (hiword mask val)) 16) (Z.ones 16) = mask.
Proof.
  intros Hm Hv. apply Z.bits_inj'. intros i Hi. unfold hiword.
  rewrite Z.land_spec, Z.shiftr_spec, wrap_testbit by lia.
  rewrite Z.lor_spec, Z.shiftl_spec by lia. replace (i + 16 - 16) with i by lia.
  rewrite <- (wrap_small 16 val), <- (wrap_small 16 mask), !wrap_testbit by (done || lia).
  destruct (Z.ltb_spec i 16).
  - rewrite Z.ones_spec_low, (proj2 (Z.ltb_ge (i + 16) 16)), (proj2 (Z.ltb_lt (i + 16) 32)) by lia.
    cbn. by rewrite orb_false_r, andb_true_r.
  - rewrite Z.ones_spec_high by lia. cbn. by rewrite andb_false_r.
Qed.

Lemma hiword_low mask val m : in_word 16 val -> in_word 16 m ->
  Z.land (u32 (hiword mask val)) m = Z.land val m.
Proof.
  intros Hv Hm. rewrite land_wrap by (unfold in_word in *; lia). unfold hiword.
  apply Z.bits_inj'. intros i Hi. rewrite !Z.land_spec, Z.lor_spec, Z.shiftl_spec by done.
  destruct (Z.ltb_spec i 16).
  - rewrite (Z.testbit_neg_r mask) by lia. done.
  - rewrite <- (wrap_small _ _ Hm), wrap_testbit, (proj2 (Z.ltb_ge i 16)) by lia. by rewrite !andb_false_r.
Qed.

Lemma in_word_bits w x : 0 <= w -> (forall i, w <= i -> Z.testbit x i = false) -> in_word w x.
Proof.
  intros Hw Hx. replace x with (wrap w x); [by apply wrap_range|].
  apply Z.bits_inj'. intros i Hi. rewrite wrap_testbit by done. destruct (Z.ltb_spec i w); [done|]. by rewrite Hx.
Qed.

Lemma in_word_high w x i : in_word w x -> 0 <= w <= i -> Z.testbit x i = false.
Proof. intros Hx Hi. rewrite <- (wrap_small _ _ Hx), wrap_testbit, (proj2 (Z.ltb_ge i w)) by lia. done. Qed.

Lemma hiword_write_word old v : in_word 32 old -> in_word 32 v -> in_word 32 (hiword_write old v).
Proof.
  intros Ho Hv. apply in_word_bits; [done|]. intros i Hi. unfold hiword_write. cbv zeta.
  rewrite Z.lor_spec, Z.ldiff_spec, !Z.land_spec, (in_word_high 32 old i), (in_word_high 32 v i) by (done || lia). done.
Qed.

(** The bits a masked write sets, and those it keeps. *)
Lemma hiword_write_set old mask val m :
  in_word 16 mask -> in_word 16 val -> in_word 16 m -> Z.land m mask = m ->
  Z.land (hiword_write old (u32 (hiword mask val))) m = Z.land val m.
Proof.
  intros Hk Hv Hm Hs. unfold hiword_write. rewrite hiword_enable by done. cbv zeta.
  rewrite <- (hiword_low mask val m) by done. apply Z.bits_inj'. intros i Hi.
  pose proof (f_equal (fun z => Z.testbit z i) Hs) as E. cbn beta in E. rewrite Z.land_spec in E.
  rewrite !Z.land_spec, Z.lor_spec, Z.ldiff_spec, Z.land_spec.
  destruct (Z.testbit m i); [|by rewrite !andb_false_r]. cbn in E. rewrite E. cbn.
  by rewrite andb_false_r, !andb_true_r.
Qed.

Lemma hiword_write_keep old mask val m :
  in_word 16 mask -> in_word 16 val -> Z.land m mask = 0 ->
  Z.land (hiword_write old (u32 (hiword mask val))) m = Z.land old m.
Proof.
  intros Hk Hv Hs. unfold hiword_write. rewrite hiword_enable by done. cbv zeta.
  apply Z.bits_inj'. intros i Hi.
  pose proof (f_equal (fun z => Z.testbit z i) Hs) as E. cbn beta in E. rewrite Z.land_spec, Z.bits_0 in E.
  rewrite !Z.land_spec, Z.lor_spec, Z.ldiff_spec, Z.land_spec.
  destruct (Z.testbit m i); [|by rewrite !andb_false_r]. cbn in E. rewrite E. cbn.
  by rewrite andb_false_r, orb_false_r, !andb_true_r.
Qed.

(** ** Register files

    [kind] says which addresses are registers of the file, and how they take
    writes; the bits of [status a] are driven by the hardware. *)

Inductive reg_kind := Plain | Hiword.

Definition reg_write (k : reg_kind) (old v : Z) : Z :=
  match k with Plain => v | Hiword => hiword_write old v end.

Class RegFile (H : Type) `{MM : Mmio H} (kind : Z -> option reg_kind) (status : Z -> Z) := {
  reg : Z -> H -> Z;
  read_reg : forall a h k, kind a = Some k ->
    Z.ldiff (u32 (mmio_read32 a h).1) (status a) = Z.ldiff (reg a h) (status a);
  read_keeps : forall a b h k, kind a = Some k -> reg b (mmio_read32 a h).2 = reg b h;
  write_reg : forall a b v h k, kind a = Some k -> in_word 32 v ->
    reg b (mmio_write32 a v h) = if b =? a then reg_write k (reg a h) v else reg b h;
  delay_us_keeps : forall b n h, reg b (delay_us n h) = reg b h;
}.

Section regfile.
Context {H : Type} `{MM : Mmio H} {kind : Z -> option reg_kind} {status : Z -> Z} {RF : RegFile H kind status}.

(** [same_regs h h']: no register changed. *)
Definition same_regs (h h' : H) : Prop := forall b, reg b h' = reg b h.
(** [only_regs f h h']: the registers outside [f] did not change. *)
Definition only_regs (f : list Z) (h h' : H) : Prop := forall b, b ∉ f -> reg b h' = reg b h.

#[export] Instance same_regs_equiv : Equivalence same_regs.
Proof.
  split; [done | intros h h' E b; by rewrite E | intros h1 h2 h3 E1 E2 b; by rewrite E2, E1].
Qed.

Lemma only_regs_refl f h : only_regs f h h.
Proof. done. Qed.

Lemma only_regs_trans f h1 h2 h3 : only_regs f h1 h2 -> only_regs f h2 h3 -> only_regs f h1 h3.
Proof. intros E1 E2 b Hb. by rewrite E2, E1. Qed.

Lemma same_only f h h' : same_regs h h' -> only_regs f h h'.
Proof. intros E b _. apply E. Qed.

Lemma only_regs_mono f g h h' : f ⊆ g -> only_regs f h h' -> only_regs g h h'.
Proof. intros Hs E b Hb. apply E. intros Hf. by apply Hb, Hs. Qed.

(** Reading a register, seen through a mask of bits software owns. *)
Lemma wp_read a k h (Q : Z -> H -> Prop) : kind a = Some k ->
  (forall v h', in_word 32 v -> Z.ldiff v (status a) = Z.ldiff (reg a h) (status a) -> same_regs h h' -> Q v h') ->
  wp (MmioRead32 a) h Q.
Proof.
  intros Hk HQ. apply wp_MmioRead32, HQ; [apply wrap_range; lia | by eapply read_reg |].
  intros b. by eapply read_keeps.
Qed.

Lemma wp_read_plain a k h (Q : Z -> H -> Prop) : kind a = Some k -> status a = 0 ->
  (forall h', in_word 32 (reg a h) -> same_regs h h' -> Q (reg a h) h') -> wp (MmioRead32 a) h Q.
Proof.
  intros Hk Hs HQ. eapply wp_read; [done|]. intros v h' Hv E S. rewrite Hs, !Z.ldiff_0_r in E. subst v. by apply HQ.
Qed.

Lemma wp_write a k v h (Q : unit -> H -> Prop) : kind a = Some k ->
  (forall h', reg a h' = reg_write k (reg a h) (u32 v) -> only_regs [a] h h' -> Q tt h') ->
  wp (MmioWrite32 a v) h Q.
Proof.
  intros Hk HQ. apply wp_MmioWrite32, HQ.
  - erewrite write_reg by (done || by apply wrap_range). by rewrite Z.eqb_refl.
  - intros b Hb. erewrite write_reg by (done || by apply wrap_range). rewrite (proj2 (Z.eqb_neq b a)); [done|].
    intros ->. apply Hb. apply list_elem_of_here.
Qed.

(** Reading a register, the bits software owns. *)
Lemma wp_read_masked a k h (Q : Z -> H -> Prop) : kind a = Some k ->
  (forall v h', (forall m, Z.land m (status a) = 0 -> Z.land v m = Z.land (reg a h) m) -> same_regs h h' -> Q v h') ->
  wp (MmioRead32 a) h Q.
Proof.
  intros Hk HQ. eapply wp_read; [done|]. intros v h' _ E S. apply HQ; [|done]. intros m. by apply land_ldiff_eq.
Qed.

Lemma wp_delay n h (Q : unit -> H -> Prop) :
  (forall h', same_regs h h' -> Q tt h') -> wp (MicroSecondDelay n) h Q.
Proof. intros HQ. apply wp_modify, HQ. intros b. apply delay_us_keeps. Qed.
End regfile.

Arguments reg {H MM} kind status {RF} a h : rename.

(** ** A register file

    The registers as a function; the hardware drives its bits to [drive a]. *)
Section plain_file.
Context (kind : Z -> option reg_kind) (status : Z -> Z) (drive : Z -> Z).
Context (status_drive : forall a, Z.ldiff (drive a) (status a) = 0) (status_word : forall a, in_word 32 (status a)).

Definition file : Type := Z -> Z.

#[export] Instance file_mmio : Mmio file := {|
  mmio_read32 a h := (Z.lor (Z.ldiff (u32 (h a)) (status a)) (drive a), h);
  mmio_write32 a v h := fun b => if b =? a then match kind a with Some k => reg_write k (u32 (h a)) v | None => v end else h b;
  delay_us _ h := h;
  delay_ns _ h := h;
|}.

#[export, refine] Instance file_regs : RegFile file kind status := {| reg a h := u32 (h a) |}.
Proof.
  - intros a h k _. cbn [mmio_read32 file_mmio fst]. apply Z.bits_inj'. intros i Hi.
    pose proof (f_equal (fun z => Z.testbit z i) (status_drive a)) as E. cbn beta in E.
    rewrite Z.ldiff_spec, Z.bits_0 in E by done.
    rewrite !Z.ldiff_spec, !wrap_testbit, Z.lor_spec, Z.ldiff_spec, wrap_testbit by done.
    destruct (i <? 32), (Z.testbit (drive a) i), (Z.testbit (status a) i), (Z.testbit (h a) i); done.
  - done.
  - intros a b v h k Hk Hv. cbn [mmio_write32 file_mmio]. rewrite Hk. destruct (Z.eqb_spec b a) as [->|]; [|done].
    apply wrap_small. destruct k; [done|]. apply hiword_write_word; [by apply wrap_range | done].
  - done.
Defined.
End plain_file.

(** A register that is not the one written. *)
Ltac apart := let E := fresh in intros E%list_elem_of_singleton; congruence.
