(* ===== verification/Cru.v ===== *)
(** * Clocks of the RK356x

    Model of [src/Silicon/Rockchip/Rk356xPkg/Library/CruLib/CruLib.c] with
    [IndustryStandard/Rk356xCru.h]: the PLLs and clock selectors of the clock
    and reset unit, on a bus ([Mmio]). *)

From Stdlib Require Import ZArith Lia.
From stdpp Require Import base list numbers option.
From S2P Require Import Prelude Mmio.

(** ** Registers *)

Definition CRU_CLKREF_RATE : Z := 24000000.
Definition PMUCRU_BASE : Z := 0xFDD00000.
Definition CRU_BASE : Z := 0xFDD20000.

Definition CRU_APLL : Z := 0.
Definition CRU_GPLL : Z := 2.
Definition PMUCRU_PPLL : Z := 0.
Definition PMUCRU_HPLL : Z := 1.

Definition CRU_PLL_CON0 (n : Z) : Z := CRU_BASE + n * 0x20 + 0x0.
Definition CRU_PLL_CON1 (n : Z) : Z := CRU_BASE + n * 0x20 + 0x4.
Definition CRU_PLL_CON2 (n : Z) : Z := CRU_BASE + n * 0x20 + 0x8.

Definition CRU_PLL_CON0_BYPASS : Z := 2 ^ 15.
Definition CRU_PLL_CON0_POSTDIV1_SHIFT : Z := 12.
Definition CRU_PLL_CON0_POSTDIV1_MASK : Z := Z.shiftl 0x7 CRU_PLL_CON0_POSTDIV1_SHIFT.
Definition CRU_PLL_CON0_FBDIV_MASK : Z := 0xfff.

Definition CRU_PLL_CON1_DSMPD : Z := 2 ^ 12.
Definition CRU_PLL_CON1_LOCK_STATUS : Z := 2 ^ 10.
Definition CRU_PLL_CON1_POSTDIV2_SHIFT : Z := 6.
Definition CRU_PLL_CON1_POSTDIV2_MASK : Z := Z.shiftl 0x7 CRU_PLL_CON1_POSTDIV2_SHIFT.
Definition CRU_PLL_CON1_REFDIV_MASK : Z := 0x3f.

Definition CRU_PLL_CON2_FRACDIV_MASK : Z := 0xffffff.

Definition CRU_MODE_CON00 : Z := CRU_BASE + 0x00C0.
Definition CRU_MODE_CON00_CLK_PLL_MODE_SHIFT (n : Z) : Z := n * 2.
Definition CRU_MODE_CON00_CLK_PLL_MODE_MASK (n : Z) : Z := Z.shiftl 0x3 (CRU_MODE_CON00_CLK_PLL_MODE_SHIFT n).

Definition CRU_CLKSEL_CON (n : Z) : Z := CRU_BASE + n * 0x4 + 0x0100.

Definition CRU_CLKSEL_CON00_CLK_CORE_I_SEL_SHIFT : Z := 6.
Definition CRU_CLKSEL_CON00_CLK_CORE_I_SEL_MASK : Z := Z.shiftl 1 CRU_CLKSEL_CON00_CLK_CORE_I_SEL_SHIFT.
Definition CRU_CLKSEL_CON00_CLK_CORE_I_SEL_APLL : Z := 0.
Definition CRU_CLKSEL_CON00_CLK_CORE0_DIV_MASK : Z := 0x1f.

Definition CRU_CLKSEL_CON28_CCLK_EMMC_SEL_SHIFT : Z := 12.
Definition CRU_CLKSEL_CON28_CCLK_EMMC_SEL_MASK : Z := Z.shiftl 0x7 CRU_CLKSEL_CON28_CCLK_EMMC_SEL_SHIFT.
Definition CRU_CLKSEL_CON28_BCLK_EMMC_SEL_SHIFT : Z := 8.
Definition CRU_CLKSEL_CON28_BCLK_EMMC_SEL_MASK : Z := Z.shiftl 0x3 CRU_CLKSEL_CON28_BCLK_EMMC_SEL_SHIFT.

Definition CRU_CLKSEL_CON30_CLK_SDMMC1_SEL_SHIFT : Z := 12.
Definition CRU_CLKSEL_CON30_CLK_SDMMC1_SEL_MASK : Z := Z.shiftl 0x7 CRU_CLKSEL_CON30_CLK_SDMMC1_SEL_SHIFT.
Definition CRU_CLKSEL_CON30_CLK_SDMMC0_SEL_SHIFT : Z := 8.
Definition CRU_CLKSEL_CON30_CLK_SDMMC0_SEL_MASK : Z := Z.shiftl 0x7 CRU_CLKSEL_CON30_CLK_SDMMC0_SEL_SHIFT.
Definition CRU_CLKSEL_CON32_CLK_SDMMC2_SEL_SHIFT : Z := 8.
Definition CRU_CLKSEL_CON32_CLK_SDMMC2_SEL_MASK : Z := Z.shiftl 0x7 CRU_CLKSEL_CON32_CLK_SDMMC2_SEL_SHIFT.

Definition CRU_GATE_CON (n : Z) : Z := CRU_BASE + n * 0x4 + 0x0300.
Definition CRU_SOFTRST_CON (n : Z) : Z := CRU_BASE + n * 0x4 + 0x0400.

Definition PMUCRU_PLL_CON0 (n : Z) : Z := PMUCRU_BASE + n * 0x40 + 0x0.
Definition PMUCRU_PLL_CON1 (n : Z) : Z := PMUCRU_BASE + n * 0x40 + 0x4.
Definition PMUCRU_PLL_CON2 (n : Z) : Z := PMUCRU_BASE + n * 0x40 + 0x8.
Definition PMUCRU_MODE_CON00 : Z := PMUCRU_BASE + 0x0080.
Definition PMUCRU_MODE_CON00_CLK_PLL_MODE_SHIFT (n : Z) : Z := n * 2.
Definition PMUCRU_MODE_CON00_CLK_PLL_MODE_MASK (n : Z) : Z := Z.shiftl 0x3 (PMUCRU_MODE_CON00_CLK_PLL_MODE_SHIFT n).
Definition PMUCRU_PMUCLKSEL_CON (n : Z) : Z := PMUCRU_BASE + n * 0x4 + 0x0100.
Definition PMUCRU_PMUCLKSEL_CON09_PCIEPHY_DIV_SHIFT (n : Z) : Z := n * 4.
Definition PMUCRU_PMUCLKSEL_CON09_PCIEPHY_DIV_MASK (n : Z) : Z := Z.shiftl 0x7 (PMUCRU_PMUCLKSEL_CON09_PCIEPHY_DIV_SHIFT n).
Definition PMUCRU_PMUCLKSEL_CON09_PCIEPHY_SEL_SHIFT (n : Z) : Z := n * 4 + 3.
Definition PMUCRU_PMUCLKSEL_CON09_PCIEPHY_SEL_MASK (n : Z) : Z := Z.shiftl 0x1 (PMUCRU_PMUCLKSEL_CON09_PCIEPHY_SEL_SHIFT n).
Definition PMUCRU_PMUGATE_CON (n : Z) : Z := PMUCRU_BASE + n * 4 + 0x0180.

(** ** Rates of the PLLs *)

Record CRU_PLL_RATE := {
  Rate : Z;
  RefDiv : Z;
  FbDiv : Z;
  PostDiv1 : Z;
  PostDiv2 : Z;
  Dsmpd : Z;
  Frac : Z;
}.

(** The entries before the terminator, whose rate is 0. *)
Definition CruPllRates : list CRU_PLL_RATE := [
  {| Rate := 1200000000; RefDiv := 1; FbDiv := 100; PostDiv1 := 2; PostDiv2 := 1; Dsmpd := 1; Frac := 0 |};
  {| Rate := 594000000;  RefDiv := 1; FbDiv := 99;  PostDiv1 := 4; PostDiv2 := 1; Dsmpd := 1; Frac := 0 |};
  {| Rate := 297000000;  RefDiv := 1; FbDiv := 99;  PostDiv1 := 4; PostDiv2 := 2; Dsmpd := 1; Frac := 0 |};
  {| Rate := 200000000;  RefDiv := 1; FbDiv := 100; PostDiv1 := 3; PostDiv2 := 4; Dsmpd := 1; Frac := 0 |};
  {| Rate := 148500000;  RefDiv := 1; FbDiv := 99;  PostDiv1 := 4; PostDiv2 := 4; Dsmpd := 1; Frac := 0 |};
  {| Rate := 74250000;   RefDiv := 2; FbDiv := 99;  PostDiv1 := 4; PostDiv2 := 4; Dsmpd := 1; Frac := 0 |}].

Definition CruFindPllRate (rate : Z) : option CRU_PLL_RATE := List.find (fun r => Rate r =? rate) CruPllRates.

(** The fields of the first two registers of a PLL. *)
Definition con0_value (R : CRU_PLL_RATE) : Z := Z.lor (Z.shiftl (PostDiv1 R) CRU_PLL_CON0_POSTDIV1_SHIFT) (FbDiv R).

Definition con1_value (R : CRU_PLL_RATE) : Z :=
  Z.lor (Z.lor (if Dsmpd R =? 0 then 0 else CRU_PLL_CON1_DSMPD) (Z.shiftl (PostDiv2 R) CRU_PLL_CON1_POSTDIV2_SHIFT)) (RefDiv R).

Section cru.
Context {H : Type} `{MM : Mmio H} {BB : Build}.

(** [CruGetPllRate] and [PmuCruGetPllRate] differ in the registers. *)
Definition get_pll_rate (con0 con1 con2 : Z) : M H Z :=
  Con0 ← MmioRead32 con0;
  if negb (Z.land Con0 CRU_PLL_CON0_BYPASS =? 0) then mret CRU_CLKREF_RATE else
  let FbDiv := Z.land Con0 CRU_PLL_CON0_FBDIV_MASK in
  let PostDiv1 := Z.shiftr (Z.land Con0 CRU_PLL_CON0_POSTDIV1_MASK) CRU_PLL_CON0_POSTDIV1_SHIFT in
  Con1 ← MmioRead32 con1;
  let RefDiv := Z.land Con1 CRU_PLL_CON1_REFDIV_MASK in
  let PostDiv2 := Z.shiftr (Z.land Con1 CRU_PLL_CON1_POSTDIV2_MASK) CRU_PLL_CON1_POSTDIV2_SHIFT in
  Ref ← divide CRU_CLKREF_RATE RefDiv;
  FOutVco ← (if Z.land Con1 CRU_PLL_CON1_DSMPD =? 0 then
               Con2 ← MmioRead32 con2;
               mret (u64 (Ref * FbDiv + Z.shiftr (CRU_CLKREF_RATE * Z.land Con2 CRU_PLL_CON2_FRACDIV_MASK) 24))
             else mret (u64 (Ref * FbDiv)));
  r ← divide FOutVco PostDiv1;
  divide r PostDiv2.

Definition CruGetPllRate (PllNumber : Z) : M H Z :=
  get_pll_rate (CRU_PLL_CON0 PllNumber) (CRU_PLL_CON1 PllNumber) (CRU_PLL_CON2 PllNumber).

Definition PmuCruGetPllRate (PllNumber : Z) : M H Z :=
  get_pll_rate (PMUCRU_PLL_CON0 PllNumber) (PMUCRU_PLL_CON1 PllNumber) (PMUCRU_PLL_CON2 PllNumber).

(** The loop that waits for the lock, [n] reads from its end; whether it
    stopped before its limit. *)
Fixpoint wait_lock (con1 : Z) (n : nat) : M H bool :=
  match n with
  | O => mret false
  | S n =>
      Val ← MmioRead32 con1;
      if negb (Z.land Val CRU_PLL_CON1_LOCK_STATUS =? 0) then mret true else
      MicroSecondDelay 1000;; wait_lock con1 n
  end.

(** [CruSetPllRate] and [PmuCruSetPllRate] after their checks. *)
Definition set_pll_rate (mode_con mode con0 con1 con2 : Z) (R : CRU_PLL_RATE) : M H unit :=
  MmioWrite32 mode_con (hiword (CRU_MODE_CON00_CLK_PLL_MODE_MASK mode) (Z.shiftl 0 (PMUCRU_MODE_CON00_CLK_PLL_MODE_SHIFT mode)));;
  MmioWrite32 con0 (hiword (Z.lor (Z.lor CRU_PLL_CON0_FBDIV_MASK CRU_PLL_CON0_POSTDIV1_MASK) CRU_PLL_CON0_BYPASS) (con0_value R));;
  MmioWrite32 con1 (hiword (Z.lor (Z.lor CRU_PLL_CON1_REFDIV_MASK CRU_PLL_CON1_POSTDIV2_MASK) CRU_PLL_CON1_DSMPD) (con1_value R));;
  MmioAndThenOr32 con2 (u32 (Z.lnot CRU_PLL_CON2_FRACDIV_MASK)) (Frac R);;
  locked ← wait_lock con1 100;
  ASSERT locked;;
  MmioWrite32 mode_con (hiword (CRU_MODE_CON00_CLK_PLL_MODE_MASK mode) (Z.shiftl 1 (CRU_MODE_CON00_CLK_PLL_MODE_SHIFT mode))).

Definition CruSetPllRate (PllNumber : Z) (R : CRU_PLL_RATE) : M H unit :=
  ASSERT (PllNumber =? CRU_GPLL);;
  if PllNumber =? CRU_GPLL then
    set_pll_rate CRU_MODE_CON00 2 (CRU_PLL_CON0 PllNumber) (CRU_PLL_CON1 PllNumber) (CRU_PLL_CON2 PllNumber) R
  else ASSERT false.

Definition PmuCruSetPllRate (PllNumber : Z) (R : CRU_PLL_RATE) : M H unit :=
  set_pll_rate PMUCRU_MODE_CON00 PllNumber (PMUCRU_PLL_CON0 PllNumber) (PMUCRU_PLL_CON1 PllNumber) (PMUCRU_PLL_CON2 PllNumber) R.

Definition CruGetCoreClockRate : M H Z :=
  Val ← MmioRead32 (CRU_CLKSEL_CON 0);
  let Sel := Z.shiftr (Z.land Val CRU_CLKSEL_CON00_CLK_CORE_I_SEL_MASK) CRU_CLKSEL_CON00_CLK_CORE_I_SEL_SHIFT in
  let Div := Z.land Val CRU_CLKSEL_CON00_CLK_CORE0_DIV_MASK in
  PllRate ← CruGetPllRate (if Sel =? CRU_CLKSEL_CON00_CLK_CORE_I_SEL_APLL then CRU_APLL else CRU_GPLL);
  mret (PllRate / (Div + 1)).

(** ** Selectors of the storage clocks *)

Definition CruGetSdmmcClockRate (Index : Z) : M H Z :=
  ASSERT (Index <=? 1);;
  let '(Shift, Mask) :=
    if Index =? 0 then (CRU_CLKSEL_CON30_CLK_SDMMC0_SEL_SHIFT, CRU_CLKSEL_CON30_CLK_SDMMC0_SEL_MASK)
    else (CRU_CLKSEL_CON30_CLK_SDMMC1_SEL_SHIFT, CRU_CLKSEL_CON30_CLK_SDMMC1_SEL_MASK) in
  Val ← MmioRead32 (CRU_CLKSEL_CON 30);
  match Z.shiftr (Z.land Val Mask) Shift with
  | 0 => mret CRU_CLKREF_RATE
  | 1 => mret 400000000
  | 2 => mret 300000000
  | 3 => mret 100000000
  | 4 => mret 50000000
  | 5 => mret 750000
  | _ => ASSERT false;; mret 0
  end.

(** A rate above 400 MHz leaves [Sel] unset; [uninit] is what it holds. *)
Definition sdmmc_sel (uninit rate : Z) : M H Z :=
  if rate <=? 750000 then mret 5 else
  if rate <=? 24000000 then mret 0 else
  if rate <=? 50000000 then mret 4 else
  if rate <=? 100000000 then mret 3 else
  if rate <=? 300000000 then mret 2 else
  if rate <=? 400000000 then mret 1 else
  ASSERT false;; mret uninit.

Definition CruSetSdmmcClockRate (uninit Index rate : Z) : M H unit :=
  ASSERT (Index <=? 2);;
  let '(Reg, Shift, Mask) :=
    if Index =? 0 then (CRU_CLKSEL_CON 30, CRU_CLKSEL_CON30_CLK_SDMMC0_SEL_SHIFT, CRU_CLKSEL_CON30_CLK_SDMMC0_SEL_MASK)
    else if Index =? 1 then (CRU_CLKSEL_CON 30, CRU_CLKSEL_CON30_CLK_SDMMC1_SEL_SHIFT, CRU_CLKSEL_CON30_CLK_SDMMC1_SEL_MASK)
    else (CRU_CLKSEL_CON 32, CRU_CLKSEL_CON32_CLK_SDMMC2_SEL_SHIFT, CRU_CLKSEL_CON32_CLK_SDMMC2_SEL_MASK) in
  Sel ← sdmmc_sel uninit rate;
  MmioWrite32 Reg (hiword Mask (u32 (Z.shiftl Sel Shift))).

Definition emmc_sel (rate : Z) : Z :=
  if 200000000 <=? rate then 1 else
  if 150000000 <=? rate then 2 else
  if 100000000 <=? rate then 3 else
  if 50000000 <=? rate then 4 else
  if 24000000 <=? rate then 0 else 5.

Definition CruSetEmmcClockRate (rate : Z) : M H unit :=
  MmioWrite32 (CRU_CLKSEL_CON 28)
    (hiword (Z.lor CRU_CLKSEL_CON28_BCLK_EMMC_SEL_MASK CRU_CLKSEL_CON28_CCLK_EMMC_SEL_MASK)
            (Z.lor (Z.shiftl 0 CRU_CLKSEL_CON28_BCLK_EMMC_SEL_SHIFT)
                   (Z.shiftl (emmc_sel rate) CRU_CLKSEL_CON28_CCLK_EMMC_SEL_SHIFT))).

(** ** PCIe and HDMI *)

Definition CruSetPciePhySource (Index Source : Z) : M H unit :=
  ASSERT (Index <=? 2);;
  ASSERT (Source <=? 1);;
  MmioWrite32 (PMUCRU_PMUCLKSEL_CON 9)
    (hiword (PMUCRU_PMUCLKSEL_CON09_PCIEPHY_SEL_MASK Index)
            (Z.shiftl Source (PMUCRU_PMUCLKSEL_CON09_PCIEPHY_SEL_SHIFT Index))).

Definition CruGetPciePhyClockRate (Index : Z) : M H Z :=
  ASSERT (Index <=? 2);;
  Val ← MmioRead32 (PMUCRU_PMUCLKSEL_CON 9);
  let Sel := Z.shiftr (Z.land Val (PMUCRU_PMUCLKSEL_CON09_PCIEPHY_SEL_MASK Index)) (PMUCRU_PMUCLKSEL_CON09_PCIEPHY_SEL_SHIFT Index) in
  if Sel =? 0 then mret CRU_CLKREF_RATE else
  let Div := Z.shiftr (Z.land Val (PMUCRU_PMUCLKSEL_CON09_PCIEPHY_DIV_MASK Index)) (PMUCRU_PMUCLKSEL_CON09_PCIEPHY_DIV_SHIFT Index) in
  r ← PmuCruGetPllRate PMUCRU_PPLL;
  mret (r / 2 / (Div + 1)).

(** The setters dereference the entry they look up. *)
Definition deref (r : option CRU_PLL_RATE) : M H CRU_PLL_RATE :=
  match r with Some R => mret R | None => stopM Fault end.

Definition CruSetPciePhyClockRate (Index rate : Z) : M H unit :=
  if rate =? 100000000 then
    let PllRate := CruFindPllRate (rate * 2) in
    ASSERT (if PllRate is Some _ then true else false);;
    R ← deref PllRate;
    PmuCruSetPllRate PMUCRU_PPLL R;;
    MmioWrite32 (PMUCRU_PMUCLKSEL_CON 9)
      (hiword (PMUCRU_PMUCLKSEL_CON09_PCIEPHY_DIV_MASK Index) (Z.shiftl 0 (PMUCRU_PMUCLKSEL_CON09_PCIEPHY_DIV_SHIFT Index)));;
    CruSetPciePhySource Index 1
  else if rate =? 24000000 then CruSetPciePhySource Index 0
  else ASSERT false.

Definition CruGetHdmiClockRate : M H Z := PmuCruGetPllRate PMUCRU_HPLL.

Definition CruSetHdmiClockRate (rate : Z) : M H unit :=
  let PllRate := CruFindPllRate rate in
  ASSERT (if PllRate is Some _ then true else false);;
  match PllRate with Some R => PmuCruSetPllRate PMUCRU_HPLL R | None => mret tt end.

(** ** Gates and resets *)

Definition CruEnableClock (Index Bit : Z) : M H unit := MmioWrite32 (CRU_GATE_CON Index) (Z.shiftl 1 (Bit + 16)).

Definition PmuCruEnableClock (Index Bit : Z) : M H unit := MmioWrite32 (PMUCRU_PMUGATE_CON Index) (Z.shiftl 1 (Bit + 16)).

Definition CruAssertSoftReset (Index Bit : Z) : M H unit :=
  MmioWrite32 (CRU_SOFTRST_CON Index) (Z.lor (Z.shiftl 1 (Bit + 16)) (Z.shiftl 1 Bit)).

Definition CruDeassertSoftReset (Index Bit : Z) : M H unit := MmioWrite32 (CRU_SOFTRST_CON Index) (Z.shiftl 1 (Bit + 16)).

Definition CruSetGpllRate (rate : Z) : M H unit :=
  let PllRate := CruFindPllRate rate in
  ASSERT (if PllRate is Some _ then true else false);;
  R ← deref PllRate;
  CruSetPllRate CRU_GPLL R.
End cru.

(** * Properties of the RK356x clocks

    On a clock unit whose registers hold what is written to them
    ([CruUnit]): programming a PLL from the table gives exactly the rate
    asked for, the SD clock selector rounds up to the next available rate, the
    PCIe reference clock is what was selected, and each setter leaves the
    other clocks alone. *)

(** ** The unit *)

(** All registers have write enables, except the third of each PLL. *)
Definition CruKind (a : Z) : option reg_kind :=
  if (CRU_BASE <=? a) && (a <? CRU_BASE + 0x1000) then
    Some (if (a <? CRU_BASE + 0xC0) && ((a - CRU_BASE) mod 0x20 =? 8) then Plain else Hiword)
  else if (PMUCRU_BASE <=? a) && (a <? PMUCRU_BASE + 0x1000) then
    Some (if (a <? PMUCRU_BASE + 0x80) && ((a - PMUCRU_BASE) mod 0x40 =? 8) then Plain else Hiword)
  else None.

(** The hardware drives the lock bit of the second register of a PLL. *)
Definition CruStatus (a : Z) : Z :=
  if ((CRU_BASE <=? a) && (a <? CRU_BASE + 0xC0) && ((a - CRU_BASE) mod 0x20 =? 4))
     || ((PMUCRU_BASE <=? a) && (a <? PMUCRU_BASE + 0x80) && ((a - PMUCRU_BASE) mod 0x40 =? 4))
  then CRU_PLL_CON1_LOCK_STATUS else 0.

Abbreviation CruUnit H := (RegFile H CruKind CruStatus).

Section spec.
Context {H : Type} `{MM : Mmio H} {BB : Build} {CU : CruUnit H}.
Implicit Types h : H.

(** ** A PLL *)

(** The rate the fields of an entry stand for. *)
Definition pll_rate (R : CRU_PLL_RATE) : Z :=
  (CRU_CLKREF_RATE / RefDiv R * FbDiv R
   + (if Dsmpd R =? 0 then Z.shiftr (CRU_CLKREF_RATE * Frac R) 24 else 0)) / PostDiv1 R / PostDiv2 R.

Definition valid_rate (R : CRU_PLL_RATE) : Prop :=
  0 < RefDiv R < 2 ^ 6 /\ in_word 12 (FbDiv R) /\ 0 < PostDiv1 R < 2 ^ 3 /\ 0 < PostDiv2 R < 2 ^ 3 /\ in_word 24 (Frac R).

(** The registers of a PLL hold an entry. *)
Definition pll_holds (con0 con1 con2 : Z) (R : CRU_PLL_RATE) (h : H) : Prop :=
  Z.land (reg CruKind CruStatus con0 h) CRU_PLL_CON0_BYPASS = 0 /\
  Z.land (reg CruKind CruStatus con0 h) CRU_PLL_CON0_FBDIV_MASK = FbDiv R /\
  Z.land (reg CruKind CruStatus con0 h) CRU_PLL_CON0_POSTDIV1_MASK = Z.shiftl (PostDiv1 R) CRU_PLL_CON0_POSTDIV1_SHIFT /\
  Z.land (reg CruKind CruStatus con1 h) CRU_PLL_CON1_REFDIV_MASK = RefDiv R /\
  Z.land (reg CruKind CruStatus con1 h) CRU_PLL_CON1_POSTDIV2_MASK = Z.shiftl (PostDiv2 R) CRU_PLL_CON1_POSTDIV2_SHIFT /\
  Z.land (reg CruKind CruStatus con1 h) CRU_PLL_CON1_DSMPD = (if Dsmpd R =? 0 then 0 else CRU_PLL_CON1_DSMPD) /\
  Z.land (reg CruKind CruStatus con2 h) CRU_PLL_CON2_FRACDIV_MASK = Frac R.

(** The registers of a PLL, distinct and of the right kinds. *)
Record pll_at (mode con0 con1 con2 : Z) : Prop := {
  at_mode : CruKind mode = Some Hiword;
  at_0 : CruKind con0 = Some Hiword;
  at_1 : CruKind con1 = Some Hiword;
  at_2 : CruKind con2 = Some Plain;
  at_s0 : CruStatus con0 = 0;
  at_s1 : CruStatus con1 = CRU_PLL_CON1_LOCK_STATUS;
  at_s2 : CruStatus con2 = 0;
  at_nodup : mode <> con0 /\ mode <> con1 /\ mode <> con2 /\ con0 <> con1 /\ con0 <> con2 /\ con1 <> con2;
}.

Lemma get_pll_spec mode con0 con1 con2 R h : pll_at mode con0 con1 con2 -> pll_holds con0 con1 con2 R h -> valid_rate R ->
  wp (get_pll_rate con0 con1 con2) h (fun v h' => v = pll_rate R /\ same_regs (RF := CU) h h').
Proof.
  intros A (B0 & B1 & B2 & B3 & B4 & B5 & B6) ((V1 & V1') & V2 & V3 & V4 & V5). unfold get_pll_rate.
  apply wp_bind. eapply wp_read_plain; [apply (at_0 _ _ _ _ A) | apply (at_s0 _ _ _ _ A)|]. intros h1 _ S1. cbn beta.
  rewrite B0, B1, B2. cbn [Z.eqb negb]. rewrite shiftl_shiftr by done.
  apply wp_bind. eapply wp_read_masked; [apply (at_1 _ _ _ _ A)|]. intros v h2 E S2. cbn beta. rewrite (at_s1 _ _ _ _ A) in E.
  rewrite !E, !S1, B3, B4, B5, shiftl_shiftr by done.
  apply wp_bind, wp_divide; [lia|]. apply wp_bind.
  assert (Hq : 0 <= CRU_CLKREF_RATE / RefDiv R <= CRU_CLKREF_RATE).
  { split; [apply Z.div_pos; unfold CRU_CLKREF_RATE; lia | apply Z.div_le_upper_bound; unfold CRU_CLKREF_RATE; nia]. }
  assert (Hf : 0 <= CRU_CLKREF_RATE / RefDiv R * FbDiv R < 2 ^ 60).
  { unfold in_word, CRU_CLKREF_RATE in *. nia. }
  apply wp_mono with (Q := fun v h' => same_regs (RF := CU) h h' /\ v = CRU_CLKREF_RATE / RefDiv R * FbDiv R
      + (if Dsmpd R =? 0 then Z.shiftr (CRU_CLKREF_RATE * Frac R) 24 else 0)).
  - destruct (Dsmpd R =? 0); cbn [Z.eqb].
    + apply wp_bind. eapply wp_read_plain; [apply (at_2 _ _ _ _ A) | apply (at_s2 _ _ _ _ A)|]. intros h3 _ S3.
      rewrite S2, S1, B6. apply wp_ret. split; [by etrans; [etrans|]|]. apply wrap_small.
      rewrite Z.shiftr_div_pow2 by lia.
      assert (0 <= CRU_CLKREF_RATE * Frac R / 2 ^ 24 < 2 ^ 60).
      { unfold in_word, CRU_CLKREF_RATE in *. split; [apply Z.div_pos; lia | apply Z.div_lt_upper_bound; lia]. }
      unfold in_word. lia.
    + apply wp_ret. split; [by etrans|]. rewrite Z.add_0_r. apply wrap_small. unfold in_word. lia.
  - cbn beta. intros w h3 [S3 ->]. apply wp_bind, wp_divide; [lia|]. apply wp_divide; [lia|]. done.
Qed.

(** ** Programming a PLL *)

(** A PLL locks within the 100 reads the code makes, or nothing checks. *)
Fixpoint locks_within (con1 : Z) (n : nat) (h : H) : Prop :=
  match n with
  | O => False
  | S n => Z.land (u32 (mmio_read32 con1 h).1) CRU_PLL_CON1_LOCK_STATUS <> 0 \/
           locks_within con1 n (delay_us 1000 (mmio_read32 con1 h).2)
  end.

Definition lock_checked (con1 : Z) : Prop := debug_build = false \/ forall h, locks_within con1 100 h.

Lemma wait_lock_spec con1 n : CruKind con1 = Some Hiword -> forall h,
  wp (wait_lock con1 n) h (fun b h' => (locks_within con1 n h -> b = true) /\ same_regs (RF := CU) h h').
Proof.
  intros Hk. induction n as [|n IH]; intros h; [by apply wp_ret|]. cbn [wait_lock locks_within].
  apply wp_bind, wp_MmioRead32.
  assert (S1 : same_regs (RF := CU) h (mmio_read32 con1 h).2) by (intros b; by eapply read_keeps).
  destruct (Z.eqb_spec (Z.land (u32 (mmio_read32 con1 h).1) CRU_PLL_CON1_LOCK_STATUS) 0) as [E|E]; cbn [negb].
  - apply wp_bind, wp_modify. eapply wp_mono; [apply IH|]. cbn beta. intros b h' [L S2]. split.
    + intros [C|C]; [done | by apply L].
    + etrans; [exact S1|]. etrans; [|exact S2]. intros c. apply delay_us_keeps.
  - by apply wp_ret.
Qed.


Lemma not_in4 (c m a0 a1 a2 : Z) : c ∉ [m; a0; a1; a2] -> c <> m /\ c <> a0 /\ c <> a1 /\ c <> a2.
Proof. intros Hc. repeat split; intros ->; apply Hc; by repeat constructor. Qed.

(** The fields of the words the code writes. *)
Lemma con0_word R : valid_rate R -> in_word 16 (con0_value R).
Proof.
  intros (_ & V2 & V3 & _). apply in_word_lor; [done| |unfold in_word in *; lia].
  assert (in_word 15 (Z.shiftl (PostDiv1 R) 12)); [|unfold in_word, CRU_PLL_CON0_POSTDIV1_SHIFT in *; lia].
  apply (in_word_shiftl 3 12); [done..|]. unfold in_word. lia.
Qed.

Lemma con1_word R : valid_rate R -> in_word 16 (con1_value R).
Proof.
  intros (V1 & _ & _ & V4 & _). apply in_word_lor; [done| |unfold in_word; lia]. apply in_word_lor; [done|by destruct (_ =? _)|].
  assert (in_word 9 (Z.shiftl (PostDiv2 R) 6)); [|unfold in_word, CRU_PLL_CON1_POSTDIV2_SHIFT in *; lia].
  apply (in_word_shiftl 3 6); [done..|]. unfold in_word. lia.
Qed.

Lemma con0_fields R : valid_rate R ->
  Z.land (con0_value R) CRU_PLL_CON0_BYPASS = 0 /\
  Z.land (con0_value R) CRU_PLL_CON0_FBDIV_MASK = FbDiv R /\
  Z.land (con0_value R) CRU_PLL_CON0_POSTDIV1_MASK = Z.shiftl (PostDiv1 R) CRU_PLL_CON0_POSTDIV1_SHIFT.
Proof.
  intros (_ & V2 & V3 & _). unfold con0_value. rewrite !lor_land.
  assert (W3 : in_word 3 (PostDiv1 R)) by (unfold in_word; lia).
  assert (Hb : Z.land (Z.shiftl (PostDiv1 R) CRU_PLL_CON0_POSTDIV1_SHIFT) CRU_PLL_CON0_BYPASS = 0).
  { change CRU_PLL_CON0_BYPASS with (Z.shiftl 8 12). unfold CRU_PLL_CON0_POSTDIV1_SHIFT. rewrite <- Z.shiftl_land.
    replace (Z.land (PostDiv1 R) 8) with 0 by (symmetry; by apply (land_below _ 3 1)). done. }
  repeat split.
  - rewrite Hb. by apply (land_below (FbDiv R) 12 8).
  - rewrite land_shiftl_low by done. by apply (land_ones_small _ 12).
  - rewrite (land_shiftl_mask _ CRU_PLL_CON0_POSTDIV1_SHIFT 3 ltac:(done) ltac:(done) W3 : Z.land _ CRU_PLL_CON0_POSTDIV1_MASK = _).
    replace (Z.land (FbDiv R) CRU_PLL_CON0_POSTDIV1_MASK) with 0 by (symmetry; by apply (land_below _ 12 7)). apply Z.lor_0_r.
Qed.

Lemma con1_fields R : valid_rate R ->
  Z.land (con1_value R) CRU_PLL_CON1_REFDIV_MASK = RefDiv R /\
  Z.land (con1_value R) CRU_PLL_CON1_POSTDIV2_MASK = Z.shiftl (PostDiv2 R) CRU_PLL_CON1_POSTDIV2_SHIFT /\
  Z.land (con1_value R) CRU_PLL_CON1_DSMPD = (if Dsmpd R =? 0 then 0 else CRU_PLL_CON1_DSMPD).
Proof.
  intros (V1 & _ & _ & V4 & _). unfold con1_value. rewrite !lor_land.
  assert (W3 : in_word 3 (PostDiv2 R)) by (unfold in_word; lia).
  assert (W6 : in_word 6 (RefDiv R)) by (unfold in_word; lia).
  repeat split.
  - rewrite land_shiftl_low by done. rewrite (land_ones_small _ 6 ltac:(done) W6 : Z.land _ CRU_PLL_CON1_REFDIV_MASK = _).
    by destruct (_ =? _).
  - rewrite (land_shiftl_mask _ CRU_PLL_CON1_POSTDIV2_SHIFT 3 ltac:(done) ltac:(done) W3 : Z.land _ CRU_PLL_CON1_POSTDIV2_MASK = _).
    replace (Z.land (RefDiv R) CRU_PLL_CON1_POSTDIV2_MASK) with 0 by (symmetry; by apply (land_below _ 6 7)).
    rewrite Z.lor_0_r. by destruct (_ =? _).
  - replace (Z.land (RefDiv R) CRU_PLL_CON1_DSMPD) with 0 by (symmetry; by apply (land_below _ 6 64)).
    replace (Z.land (Z.shiftl (PostDiv2 R) CRU_PLL_CON1_POSTDIV2_SHIFT) CRU_PLL_CON1_DSMPD) with 0; [by destruct (_ =? _)|].
    change CRU_PLL_CON1_DSMPD with (Z.shiftl 64 6). unfold CRU_PLL_CON1_POSTDIV2_SHIFT. rewrite <- Z.shiftl_land.
    replace (Z.land (PostDiv2 R) 64) with 0 by (symmetry; by apply (land_below _ 3 8)). done.
Qed.

Lemma set_pll_spec mode n con0 con1 con2 R h : pll_at mode con0 con1 con2 -> valid_rate R -> lock_checked con1 ->
  wp (set_pll_rate mode n con0 con1 con2 R) h (fun _ h' =>
    pll_holds con0 con1 con2 R h' /\ only_regs (RF := CU) [mode; con0; con1; con2] h h').
Proof.
  intros A V L. pose proof V as ((V1 & V1') & V2 & V3 & V4 & V5). unfold set_pll_rate.
  apply wp_bind. eapply wp_write; [apply (at_mode _ _ _ _ A)|]. intros h1 _ K1.
  apply wp_bind. eapply wp_write; [apply (at_0 _ _ _ _ A)|]. intros h2 E2 K2.
  apply wp_bind. eapply wp_write; [apply (at_1 _ _ _ _ A)|]. intros h3 E3 K3.
  apply wp_bind. apply wp_bind. eapply wp_read_plain; [apply (at_2 _ _ _ _ A) | apply (at_s2 _ _ _ _ A)|]. intros h4 _ K4.
  eapply wp_write; [apply (at_2 _ _ _ _ A)|]. intros h5 E5 K5.
  apply wp_bind. eapply wp_mono; [apply wait_lock_spec, (at_1 _ _ _ _ A)|]. cbn beta. intros b h6 [Lb K6].
  apply wp_bind. apply wp_mono with (Q := fun _ h' => h' = h6).
  { unfold ASSERT. destruct b; [done|]. destruct L as [E | L]; [by rewrite E | by specialize (Lb (L h5))]. }
  cbn beta. intros _ ? ->. eapply wp_write; [apply (at_mode _ _ _ _ A)|]. intros h7 _ K7.
  pose proof (at_nodup _ _ _ _ A) as (N1 & N2 & N3 & N4 & N5 & N6).
  assert (F0 : reg CruKind CruStatus con0 h7 = reg CruKind CruStatus con0 h2).
  { rewrite (K7 con0), (K6 con0), (K5 con0), (K4 con0), (K3 con0) by apart. done. }
  assert (F1 : reg CruKind CruStatus con1 h7 = reg CruKind CruStatus con1 h3).
  { rewrite (K7 con1), (K6 con1), (K5 con1), (K4 con1) by apart. done. }
  assert (F2 : reg CruKind CruStatus con2 h7 = reg CruKind CruStatus con2 h5).
  { rewrite (K7 con2), (K6 con2) by apart. done. }
  split.
  - unfold pll_holds. rewrite F0, F1, F2, E2, E3, E5. cbn [reg_write].
    pose proof (con0_word R V) as W0. pose proof (con1_word R V) as W1.
    repeat rewrite hiword_write_set by (first [exact W0 | exact W1 | done]).
    destruct (con0_fields R V) as (-> & -> & ->). destruct (con1_fields R V) as (-> & -> & ->). repeat split.
    rewrite land_wrap, lor_land, <- Z.land_assoc by done.
    replace (Z.land (u32 (Z.lnot CRU_PLL_CON2_FRACDIV_MASK)) CRU_PLL_CON2_FRACDIV_MASK) with 0 by done.
    rewrite Z.land_0_r, Z.lor_0_l. by apply (land_ones_small _ 24).
  - intros c Hc. pose proof (not_in4 _ _ _ _ _ Hc) as (C1 & C2 & C3 & C4).
    rewrite (K7 c), (K6 c), (K5 c), (K4 c), (K3 c), (K2 c), (K1 c) by apart. done.
Qed.

Lemma pmu_pll_at n : n = 0 \/ n = 1 ->
  pll_at PMUCRU_MODE_CON00 (PMUCRU_PLL_CON0 n) (PMUCRU_PLL_CON1 n) (PMUCRU_PLL_CON2 n).
Proof. by intros [-> | ->]; split. Qed.

Lemma gpll_at : pll_at CRU_MODE_CON00 (CRU_PLL_CON0 CRU_GPLL) (CRU_PLL_CON1 CRU_GPLL) (CRU_PLL_CON2 CRU_GPLL).
Proof. by split. Qed.

(** The entries of the table are valid and mean what they say. *)
Lemma table_exact rate R : CruFindPllRate rate = Some R -> valid_rate R /\ pll_rate R = rate.
Proof.
  unfold CruFindPllRate. intros E. apply List.find_some in E as [I E%Z.eqb_eq]. subst rate.
  assert (F : List.Forall (fun R => valid_rate R /\ pll_rate R = Rate R) CruPllRates).
  { repeat apply List.Forall_cons; [..|by apply List.Forall_nil]; (split; [unfold valid_rate, in_word; cbn; lia | by vm_compute]). }
  by apply (proj1 (List.Forall_forall _ _) F).
Qed.

Lemma set_then_get mode n con0 con1 con2 rate R h : pll_at mode con0 con1 con2 -> CruFindPllRate rate = Some R -> lock_checked con1 ->
  wp (set_pll_rate mode n con0 con1 con2 R) h (fun _ h1 =>
    only_regs (RF := CU) [mode; con0; con1; con2] h h1 /\
    forall h2, (forall b, b ∈ [con0; con1; con2] -> reg CruKind CruStatus b h2 = reg CruKind CruStatus b h1) ->
      wp (get_pll_rate con0 con1 con2) h2 (fun v h' => v = rate /\ same_regs (RF := CU) h2 h')).
Proof.
  intros A [V <-]%table_exact L. eapply wp_mono; [by apply set_pll_spec|]. cbn beta. intros _ h1 [P O].
  split; [done|]. intros h2 S. eapply get_pll_spec; [done| |done].
  unfold pll_holds in *. rewrite (S con0), (S con1), (S con2); [done | by repeat constructor..].
Qed.

(** ** The claims *)

Definition HPLL_regs : list Z :=
  [PMUCRU_MODE_CON00; PMUCRU_PLL_CON0 PMUCRU_HPLL; PMUCRU_PLL_CON1 PMUCRU_HPLL; PMUCRU_PLL_CON2 PMUCRU_HPLL].
Definition PPLL_regs : list Z :=
  [PMUCRU_MODE_CON00; PMUCRU_PLL_CON0 PMUCRU_PPLL; PMUCRU_PLL_CON1 PMUCRU_PPLL; PMUCRU_PLL_CON2 PMUCRU_PPLL].
Definition GPLL_regs : list Z :=
  [CRU_MODE_CON00; CRU_PLL_CON0 CRU_GPLL; CRU_PLL_CON1 CRU_GPLL; CRU_PLL_CON2 CRU_GPLL].

Lemma pcie_source_spec i s h : 0 <= i <= 2 -> s = 0 \/ s = 1 ->
  wp (CruSetPciePhySource i s) h (fun _ h' => only_regs (RF := CU) [PMUCRU_PMUCLKSEL_CON 9] h h' /\
    reg CruKind CruStatus (PMUCRU_PMUCLKSEL_CON 9) h' =
      hiword_write (reg CruKind CruStatus (PMUCRU_PMUCLKSEL_CON 9) h)
        (u32 (hiword (PMUCRU_PMUCLKSEL_CON09_PCIEPHY_SEL_MASK i) (Z.shiftl s (PMUCRU_PMUCLKSEL_CON09_PCIEPHY_SEL_SHIFT i))))).
Proof.
  intros Hi Hs. unfold CruSetPciePhySource.
  apply wp_bind, wp_ASSERT; [lia|]. apply wp_bind, wp_ASSERT; [lia|].
  eapply (wp_write _ Hiword); [done|]. by intros h' E O.
Qed.

Lemma pcie_cases (i : Z) : 0 <= i <= 2 -> i = 0 \/ i = 1 \/ i = 2.
Proof. lia. Qed.

(** The PCIe clock reads as the oscillator, or as half the PLL. *)
Lemma pcie_get_spec i sel h : 0 <= i <= 2 ->
  Z.land (reg CruKind CruStatus (PMUCRU_PMUCLKSEL_CON 9) h) (PMUCRU_PMUCLKSEL_CON09_PCIEPHY_SEL_MASK i)
    = Z.shiftl sel (PMUCRU_PMUCLKSEL_CON09_PCIEPHY_SEL_SHIFT i) ->
  (sel = 0 \/ sel = 1 /\ Z.land (reg CruKind CruStatus (PMUCRU_PMUCLKSEL_CON 9) h) (PMUCRU_PMUCLKSEL_CON09_PCIEPHY_DIV_MASK i) = 0
     /\ forall h2, same_regs (RF := CU) h h2 ->
       wp (PmuCruGetPllRate PMUCRU_PPLL) h2 (fun v h' => v = 200000000 /\ same_regs (RF := CU) h2 h')) ->
  wp (CruGetPciePhyClockRate i) h (fun v h' => v = (if sel =? 0 then 24000000 else 100000000) /\ same_regs (RF := CU) h h').
Proof.
  intros Hi Es C. unfold CruGetPciePhyClockRate.
  apply wp_bind, wp_ASSERT; [lia|]. apply wp_bind. eapply (wp_read_plain _ Hiword); [done..|]. intros h1 _ S1. cbn beta zeta.
  rewrite Es, shiftl_shiftr by (unfold PMUCRU_PMUCLKSEL_CON09_PCIEPHY_SEL_SHIFT; lia).
  destruct C as [-> | (-> & Ed & C)]; cbn [Z.eqb]; [by apply wp_ret|].
  apply wp_bind. eapply wp_mono; [by apply C|]. cbn beta. intros v h2 [-> S2]. apply wp_ret. rewrite Ed, Z.shiftr_0_l.
  split; [done | by etrans].
Qed.

(** The two writes of the selector, as the code makes them. *)
Lemma pcie_selected i old : 0 <= i <= 2 ->
  let div := hiword_write old (u32 (hiword (PMUCRU_PMUCLKSEL_CON09_PCIEPHY_DIV_MASK i) (Z.shiftl 0 (PMUCRU_PMUCLKSEL_CON09_PCIEPHY_DIV_SHIFT i)))) in
  let sel s old := hiword_write old (u32 (hiword (PMUCRU_PMUCLKSEL_CON09_PCIEPHY_SEL_MASK i) (Z.shiftl s (PMUCRU_PMUCLKSEL_CON09_PCIEPHY_SEL_SHIFT i)))) in
  (forall old, Z.land (sel 1 old) (PMUCRU_PMUCLKSEL_CON09_PCIEPHY_SEL_MASK i) = Z.shiftl 1 (PMUCRU_PMUCLKSEL_CON09_PCIEPHY_SEL_SHIFT i) /\
    Z.land (sel 0 old) (PMUCRU_PMUCLKSEL_CON09_PCIEPHY_SEL_MASK i) = Z.shiftl 0 (PMUCRU_PMUCLKSEL_CON09_PCIEPHY_SEL_SHIFT i)) /\
  Z.land (sel 1 div) (PMUCRU_PMUCLKSEL_CON09_PCIEPHY_DIV_MASK i) = 0.
Proof.
  intros Hi. cbv zeta. destruct (pcie_cases i Hi) as [-> | [-> | ->]];
    (split; [intros o; rewrite !hiword_write_set by done; done | by rewrite hiword_write_keep, hiword_write_set by done]).
Qed.

Lemma pcie_set_get i rate h : (forall con1, lock_checked con1) -> 0 <= i <= 2 -> rate = 100000000 \/ rate = 24000000 ->
  wp (CruSetPciePhyClockRate i rate;; CruGetPciePhyClockRate i) h (fun v h' =>
    v = rate /\ only_regs (RF := CU) (PMUCRU_PMUCLKSEL_CON 9 :: PPLL_regs) h h').
Proof.
  intros L Hi [-> | ->]; unfold CruSetPciePhyClockRate; cbn [Z.eqb Pos.eqb]; apply wp_bind.
  - destruct (CruFindPllRate (100000000 * 2)) as [R|] eqn:E; [|done].
    apply wp_bind, wp_ASSERT; [done|]. apply wp_bind, wp_ret. apply wp_bind.
    eapply wp_mono; [apply (set_then_get _ _ _ _ _ _ _ _ (pmu_pll_at 0 (or_introl eq_refl)) E (L _))|].
    cbn beta. intros _ h1 [O1 G]. apply wp_bind. eapply (wp_write _ Hiword); [done|]. intros h2 E2 O2.
    eapply wp_mono; [apply pcie_source_spec; auto|]. cbn beta. intros _ h3 [O3 E3]. rewrite E2 in E3. cbn [reg_write] in E3.
    pose proof (pcie_selected i (reg CruKind CruStatus (PMUCRU_PMUCLKSEL_CON 9) h1) Hi) as [P1 P2].
    eapply wp_mono; [apply (pcie_get_spec i 1 _ Hi)|].
    + rewrite E3. apply P1.
    + right. split; [done|]. split; [by rewrite E3|]. intros h4 S4. apply G. intros b Hb. rewrite (S4 b), (O3 b), (O2 b); [done|..];
        intros ->%list_elem_of_singleton; clear - Hb; revert Hb; by apply (bool_decide_unpack (~ _)).
    + cbn beta. intros v h5 [-> S5]. split; [done|]. intros b Hb. apply not_elem_of_cons in Hb as [Hb1 Hb2].
      rewrite (S5 b), (O3 b), (O2 b) by apart. by apply O1.
  - eapply wp_mono; [apply pcie_source_spec; auto|]. cbn beta. intros _ h3 [O3 E3].
    eapply wp_mono; [apply (pcie_get_spec i 0 _ Hi)|]; [|by left|].
    + rewrite E3. by apply (pcie_selected i 0 Hi).
    + cbn beta. intros v h5 [-> S5]. split; [done|]. intros b Hb. apply not_elem_of_cons in Hb as [Hb1 Hb2].
      rewrite (S5 b), (O3 b) by apart. done.
Qed.


(** The rates the selector of the SD clock can give. *)
Definition sdmmc_rates : list Z := [750000; 24000000; 50000000; 100000000; 300000000; 400000000].

(** The selector of each rate. *)
Definition sdmmc_code : list (Z * Z) := [(5, 750000); (0, 24000000); (4, 50000000); (3, 100000000); (2, 300000000); (1, 400000000)].

Lemma sdmmc_sel_spec uninit rate h : 0 <= rate <= 400000000 -> exists s v,
  sdmmc_sel uninit rate h = Ret s h /\ (s, v) ∈ sdmmc_code /\ rate <= v /\ (forall w, w ∈ sdmmc_rates -> rate <= w -> v <= w).
Proof.
  intros Hr. unfold sdmmc_sel.
  repeat lazymatch goal with |- context [if ?a <=? ?b then _ else _] => destruct (Z.leb_spec a b) end; try lia;
    eexists _, _; (split; [reflexivity | split; [unfold sdmmc_code; repeat first [apply list_elem_of_here | apply list_elem_of_further] | split; [eassumption|]]]);
    intros w Hw; apply list_elem_of_In in Hw; cbn in Hw; lia.
Qed.

(** The clock of an SD slot is rounded up to the next rate the selector can give.  For slot 0
    or 1 and a rate of at most 400 MHz, setting it and reading it back returns
    the least available rate that is not below the one asked for; only the
    field of this slot changes in the shared selector register, so that the
    other slot keeps its clock, and no other register changes. *)
Theorem cru_sdmmc_rounds_up uninit Index rate h : Index = 0 \/ Index = 1 -> 0 <= rate <= 400000000 ->
  wp (CruSetSdmmcClockRate uninit Index rate;; CruGetSdmmcClockRate Index) h (fun v h' =>
    v ∈ sdmmc_rates /\ rate <= v /\ (forall w, w ∈ sdmmc_rates -> rate <= w -> v <= w) /\
    (forall m, Z.land m (if Index =? 0 then CRU_CLKSEL_CON30_CLK_SDMMC0_SEL_MASK else CRU_CLKSEL_CON30_CLK_SDMMC1_SEL_MASK) = 0 ->
       Z.land (reg CruKind CruStatus (CRU_CLKSEL_CON 30) h') m = Z.land (reg CruKind CruStatus (CRU_CLKSEL_CON 30) h) m) /\
    only_regs (RF := CU) [CRU_CLKSEL_CON 30] h h').
Proof.
  intros HI Hr. unfold CruSetSdmmcClockRate. apply wp_bind. apply wp_bind, wp_ASSERT; [destruct HI as [-> | ->]; done|].
  destruct (sdmmc_sel_spec uninit rate h Hr) as (s & w & Hs & Es & Hw & Hm).
  apply list_elem_of_In in Es.
  destruct HI as [-> | ->]; cbn [Z.eqb]; apply wp_bind; (eapply returns_wp; [exact Hs|]);
    (eapply (wp_write _ Hiword); [done|]; intros h1 E1 O1; unfold CruGetSdmmcClockRate;
     apply wp_bind, wp_ASSERT; [done|]; cbn [Z.eqb]; apply wp_bind;
     eapply (wp_read_plain _ Hiword); [done..|]; intros h2 _ S2; rewrite E1; cbn [reg_write]);
    (apply wp_mono with (Q := fun v h' => v = w /\ h' = h2);
     [ repeat destruct Es as [[= <- <-] | Es]; try done; rewrite hiword_write_set by done; done
     | intros v h' [-> ->]; repeat split;
       [ unfold sdmmc_code, sdmmc_rates in *; repeat destruct Es as [[= <- <-] | Es]; try done; by repeat constructor
       | done | done
       | intros m Em; rewrite (S2 _), E1; cbn [reg_write]; apply hiword_write_keep; [done | | done];
         repeat destruct Es as [[= <- <-] | Es]; done
       | intros b Hb; rewrite (S2 b); by apply O1 ] ]).
Qed.
End spec.

(** ** A clock unit

    Registers that hold what is written, PLLs that lock at once. *)
Module SmallCru.

#[local] Instance release : Build := {| debug_build := false |}.

#[local] Instance unit_mmio : Mmio file := file_mmio CruKind CruStatus CruStatus.

#[local] Instance unit_regs : CruUnit file.
Proof. apply file_regs. intros a. apply Z.ldiff_diag. Defined.

Definition power_on : file := fun _ => 0.


Lemma cru_sdmmc_rounds_up_witness :
  wp (CruSetSdmmcClockRate 0 0 52000000;; CruGetSdmmcClockRate 0) power_on (fun v _ => 52000000 <= v).
Proof.
  eapply wp_mono; [apply (cru_sdmmc_rounds_up (CU := unit_regs) 0 0 52000000); [by left | lia]|].
  by intros v h' (_ & Hv & _).
Defined.

(** The same runs, evaluated. *)
Example hdmi_run : (fun o => match o with Ret v _ => Some v | Stop _ => None end)
  ((CruSetHdmiClockRate 74250000;; CruGetHdmiClockRate) power_on) = Some 74250000.
Proof. by vm_compute. Qed.

Example sdmmc_run : (fun o => match o with Ret v _ => Some v | Stop _ => None end)
  ((CruSetSdmmcClockRate 0 1 52000000;; CruGetSdmmcClockRate 1) power_on) = Some 100000000.
Proof. by vm_compute. Qed.
End SmallCru.
