(* ===== verification/Rk3399Cru.v ===== *)
(** * Clocks of the RK3399

    Model of [src/Silicon/Rockchip/Rk3399Pkg/Library/CRULib/CRULib.c]: the
    PLLs, the clocks of the two CPU clusters and of the peripherals, and the
    search for the divisors of a pixel clock. *)

From Stdlib Require Import ZArith Lia.
From stdpp Require Import base list numbers option.
From S2P Require Import Prelude Mmio.

(** ** Registers *)

Definition MHz : Z := 1000000.
Definition KHz : Z := 1000.

Definition RK3399_PMU_CRU_BASE : Z := 0xFF750000.
Definition RK3399_CRU_BASE : Z := 0xFF760000.

(** The members of [struct rk3399_pmucru] and [struct rk3399_cru]. *)
Definition ppll_con : Z := RK3399_PMU_CRU_BASE.
Definition pmucru_clksel (n : Z) : Z := RK3399_PMU_CRU_BASE + 0x80 + n * 4.
Definition apll_l_con : Z := RK3399_CRU_BASE.
Definition apll_b_con : Z := RK3399_CRU_BASE + 0x20.
Definition dpll_con : Z := RK3399_CRU_BASE + 0x40.
Definition cpll_con : Z := RK3399_CRU_BASE + 0x60.
Definition gpll_con : Z := RK3399_CRU_BASE + 0x80.
Definition npll_con : Z := RK3399_CRU_BASE + 0xA0.
Definition vpll_con : Z := RK3399_CRU_BASE + 0xC0.
Definition clksel_con (n : Z) : Z := RK3399_CRU_BASE + 0x100 + n * 4.

(** ** Frequencies *)

Definition OSC_HZ : Z := 24 * MHz.
Definition GPLL_HZ : Z := 800 * MHz.
Definition CPLL_HZ : Z := 800 * MHz.
Definition NPLL_HZ : Z := 1000 * MHz.
Definition PPLL_HZ : Z := 676 * MHz.
Definition PMU_PCLK_HZ : Z := 48 * MHz.
Definition ACLKM_CORE_HZ : Z := 300 * MHz.
Definition ATCLK_CORE_HZ : Z := 300 * MHz.
Definition PCLK_DBG_HZ : Z := 100 * MHz.
Definition PERIHP_ACLK_HZ : Z := 150 * MHz.
Definition PERIHP_HCLK_HZ : Z := 75 * MHz.
Definition PERIHP_PCLK_HZ : Z := 37500 * KHz.
Definition PERILP0_ACLK_HZ : Z := 300 * MHz.
Definition PERILP0_HCLK_HZ : Z := 100 * MHz.
Definition PERILP0_PCLK_HZ : Z := 50 * MHz.
Definition PERILP1_HCLK_HZ : Z := 100 * MHz.
Definition PERILP1_PCLK_HZ : Z := 50 * MHz.

Definition DIV_ROUND_UP (n d : Z) : Z := (n + d - 1) / d.

Definition VCO_MAX_KHZ : Z := 3200 * (MHz / KHz).
Definition VCO_MIN_KHZ : Z := 800 * (MHz / KHz).
Definition OUTPUT_MAX_KHZ : Z := 3200 * (MHz / KHz).
Definition OUTPUT_MIN_KHZ : Z := 16 * (MHz / KHz).
Definition PLL_DIV_MIN : Z := 16.
Definition PLL_DIV_MAX : Z := 3200.

Record pll_div := {
  refdiv : Z;
  fbdiv : Z;
  postdiv1 : Z;
  postdiv2 : Z;
  freq : Z;
}.

Definition PLL_DIVISORS (hz _refdiv _postdiv1 _postdiv2 : Z) : pll_div := {|
  refdiv := _refdiv;
  fbdiv := u32 (u64 (hz * _refdiv * _postdiv1 * _postdiv2) / OSC_HZ);
  postdiv1 := _postdiv1;
  postdiv2 := _postdiv2;
  freq := hz;
|}.

Definition ppll_init_cfg : pll_div := PLL_DIVISORS PPLL_HZ 2 2 1.
Definition gpll_init_cfg : pll_div := PLL_DIVISORS GPLL_HZ 1 3 1.
Definition npll_init_cfg : pll_div := PLL_DIVISORS NPLL_HZ 1 3 1.
Definition cpll_init_cfg : pll_div := PLL_DIVISORS CPLL_HZ 1 3 1.
Definition apll_1700_cfg : pll_div := PLL_DIVISORS (1700 * MHz) 1 1 1.
Definition apll_1600_cfg : pll_div := PLL_DIVISORS (1600 * MHz) 3 1 1.
Definition apll_1300_cfg : pll_div := PLL_DIVISORS (1300 * MHz) 1 1 1.
Definition apll_816_cfg : pll_div := PLL_DIVISORS (816 * MHz) 1 2 1.
Definition apll_600_cfg : pll_div := PLL_DIVISORS (600 * MHz) 1 2 1.

Inductive apll_frequencies := APLL_1600_MHZ | APLL_816_MHZ | APLL_600_MHZ | APLL_1700_MHZ | APLL_1300_MHZ.
Inductive cpu_cluster := CPU_CLUSTER_LITTLE | CPU_CLUSTER_BIG.

Definition apll_cfgs (f : apll_frequencies) : pll_div :=
  match f with
  | APLL_1700_MHZ => apll_1700_cfg
  | APLL_1600_MHZ => apll_1600_cfg
  | APLL_1300_MHZ => apll_1300_cfg
  | APLL_816_MHZ => apll_816_cfg
  | APLL_600_MHZ => apll_600_cfg
  end.

(** ** Fields *)

Definition PLL_FBDIV_MASK : Z := 0xfff.
Definition PLL_FBDIV_SHIFT : Z := 0.
Definition PLL_POSTDIV2_SHIFT : Z := 12.
Definition PLL_POSTDIV2_MASK : Z := Z.shiftl 0x7 PLL_POSTDIV2_SHIFT.
Definition PLL_POSTDIV1_SHIFT : Z := 8.
Definition PLL_POSTDIV1_MASK : Z := Z.shiftl 0x7 PLL_POSTDIV1_SHIFT.
Definition PLL_REFDIV_MASK : Z := 0x3f.
Definition PLL_REFDIV_SHIFT : Z := 0.
Definition PLL_LOCK_STATUS_SHIFT : Z := 31.
Definition PLL_MODE_SHIFT : Z := 8.
Definition PLL_MODE_MASK : Z := Z.shiftl 3 PLL_MODE_SHIFT.
Definition PLL_MODE_SLOW : Z := 0.
Definition PLL_MODE_NORM : Z := 1.
Definition PLL_MODE_DEEP : Z := 2.
Definition PLL_DSMPD_SHIFT : Z := 3.
Definition PLL_DSMPD_MASK : Z := Z.shiftl 1 PLL_DSMPD_SHIFT.
Definition PLL_INTEGER_MODE : Z := 1.
Definition PMU_PCLK_DIV_CON_MASK : Z := 0x1f.
Definition PMU_PCLK_DIV_CON_SHIFT : Z := 0.
Definition ACLKM_CORE_DIV_CON_MASK : Z := 0x1f.
Definition ACLKM_CORE_DIV_CON_SHIFT : Z := 8.
Definition CLK_CORE_PLL_SEL_MASK : Z := 3.
Definition CLK_CORE_PLL_SEL_SHIFT : Z := 6.
Definition CLK_CORE_PLL_SEL_ALPLL : Z := 0x0.
Definition CLK_CORE_PLL_SEL_ABPLL : Z := 0x1.
Definition CLK_CORE_DIV_MASK : Z := 0x1f.
Definition CLK_CORE_DIV_SHIFT : Z := 0.
Definition PCLK_DBG_DIV_MASK : Z := 0x1f.
Definition PCLK_DBG_DIV_SHIFT : Z := 0x8.
Definition ATCLK_CORE_DIV_MASK : Z := 0x1f.
Definition ATCLK_CORE_DIV_SHIFT : Z := 0.
Definition PCLK_PERIHP_DIV_CON_SHIFT : Z := 12.
Definition PCLK_PERIHP_DIV_CON_MASK : Z := Z.shiftl 0x7 PCLK_PERIHP_DIV_CON_SHIFT.
Definition HCLK_PERIHP_DIV_CON_SHIFT : Z := 8.
Definition HCLK_PERIHP_DIV_CON_MASK : Z := Z.shiftl 3 HCLK_PERIHP_DIV_CON_SHIFT.
Definition ACLK_PERIHP_PLL_SEL_SHIFT : Z := 7.
Definition ACLK_PERIHP_PLL_SEL_MASK : Z := Z.shiftl 1 ACLK_PERIHP_PLL_SEL_SHIFT.
Definition ACLK_PERIHP_PLL_SEL_GPLL : Z := 1.
Definition ACLK_PERIHP_DIV_CON_SHIFT : Z := 0.
Definition ACLK_PERIHP_DIV_CON_MASK : Z := 0x1f.
Definition ACLK_EMMC_PLL_SEL_SHIFT : Z := 7.
Definition ACLK_EMMC_PLL_SEL_MASK : Z := Z.shiftl 0x1 ACLK_EMMC_PLL_SEL_SHIFT.
Definition ACLK_EMMC_PLL_SEL_GPLL : Z := 0x1.
Definition ACLK_EMMC_DIV_CON_SHIFT : Z := 0.
Definition ACLK_EMMC_DIV_CON_MASK : Z := 0x1f.
Definition PCLK_PERILP0_DIV_CON_SHIFT : Z := 12.
Definition PCLK_PERILP0_DIV_CON_MASK : Z := Z.shiftl 0x7 PCLK_PERILP0_DIV_CON_SHIFT.
Definition HCLK_PERILP0_DIV_CON_SHIFT : Z := 8.
Definition HCLK_PERILP0_DIV_CON_MASK : Z := Z.shiftl 3 HCLK_PERILP0_DIV_CON_SHIFT.
Definition ACLK_PERILP0_PLL_SEL_SHIFT : Z := 7.
Definition ACLK_PERILP0_PLL_SEL_MASK : Z := Z.shiftl 1 ACLK_PERILP0_PLL_SEL_SHIFT.
Definition ACLK_PERILP0_PLL_SEL_GPLL : Z := 1.
Definition ACLK_PERILP0_DIV_CON_SHIFT : Z := 0.
Definition ACLK_PERILP0_DIV_CON_MASK : Z := 0x1f.
Definition PCLK_PERILP1_DIV_CON_SHIFT : Z := 8.
Definition PCLK_PERILP1_DIV_CON_MASK : Z := Z.shiftl 0x7 PCLK_PERILP1_DIV_CON_SHIFT.
Definition HCLK_PERILP1_PLL_SEL_SHIFT : Z := 7.
Definition HCLK_PERILP1_PLL_SEL_MASK : Z := Z.shiftl 1 HCLK_PERILP1_PLL_SEL_SHIFT.
Definition HCLK_PERILP1_PLL_SEL_GPLL : Z := 1.
Definition HCLK_PERILP1_DIV_CON_SHIFT : Z := 0.
Definition HCLK_PERILP1_DIV_CON_MASK : Z := 0x1f.
Definition ACLK_HDCP_PLL_SEL_SHIFT : Z := 14.
Definition ACLK_HDCP_PLL_SEL_MASK : Z := Z.shiftl 0x3 ACLK_HDCP_PLL_SEL_SHIFT.
Definition ACLK_HDCP_PLL_SEL_GPLL : Z := 0x1.
Definition ACLK_HDCP_DIV_CON_SHIFT : Z := 8.
Definition ACLK_HDCP_DIV_CON_MASK : Z := Z.shiftl 0x1f ACLK_HDCP_DIV_CON_SHIFT.
Definition ACLK_VIO_PLL_SEL_SHIFT : Z := 6.
Definition ACLK_VIO_PLL_SEL_MASK : Z := Z.shiftl 0x3 ACLK_VIO_PLL_SEL_SHIFT.
Definition ACLK_VIO_PLL_SEL_GPLL : Z := 0x1.
Definition ACLK_VIO_DIV_CON_SHIFT : Z := 0.
Definition ACLK_VIO_DIV_CON_MASK : Z := Z.shiftl 0x1f ACLK_VIO_DIV_CON_SHIFT.
Definition PCLK_HDCP_DIV_CON_SHIFT : Z := 10.
Definition PCLK_HDCP_DIV_CON_MASK : Z := Z.shiftl 0x1f PCLK_HDCP_DIV_CON_SHIFT.
Definition HCLK_HDCP_DIV_CON_SHIFT : Z := 5.
Definition HCLK_HDCP_DIV_CON_MASK : Z := Z.shiftl 0x1f HCLK_HDCP_DIV_CON_SHIFT.
Definition PCLK_VIO_DIV_CON_SHIFT : Z := 0.
Definition PCLK_VIO_DIV_CON_MASK : Z := Z.shiftl 0x1f PCLK_VIO_DIV_CON_SHIFT.
Definition ACLK_VOP_PLL_SEL_SHIFT : Z := 6.
Definition ACLK_VOP_PLL_SEL_MASK : Z := Z.shiftl 0x3 ACLK_VOP_PLL_SEL_SHIFT.
Definition ACLK_VOP_PLL_SEL_GPLL : Z := 0x2.
Definition ACLK_VOP_DIV_CON_SHIFT : Z := 0.
Definition ACLK_VOP_DIV_CON_MASK : Z := Z.shiftl 0x1f ACLK_VOP_DIV_CON_SHIFT.
Definition HCLK_VOP_DIV_CON_SHIFT : Z := 8.
Definition HCLK_VOP_DIV_CON_MASK : Z := Z.shiftl 0x1f HCLK_VOP_DIV_CON_SHIFT.
Definition DCLK_VOP_DCLK_SEL_SHIFT : Z := 11.
Definition DCLK_VOP_DCLK_SEL_MASK : Z := Z.shiftl 1 DCLK_VOP_DCLK_SEL_SHIFT.
Definition DCLK_VOP_DCLK_SEL_DIVOUT : Z := 0.
Definition DCLK_VOP_PLL_SEL_SHIFT : Z := 8.
Definition DCLK_VOP_PLL_SEL_MASK : Z := Z.shiftl 3 DCLK_VOP_PLL_SEL_SHIFT.
Definition DCLK_VOP_PLL_SEL_VPLL : Z := 0.
Definition DCLK_VOP_DIV_CON_MASK : Z := 0xff.
Definition DCLK_VOP_DIV_CON_SHIFT : Z := 0.
Definition CLK_VOP_PWM_PLL_SEL_SHIFT : Z := 6.
Definition CLK_VOP_PWM_PLL_SEL_MASK : Z := Z.shiftl 1 CLK_VOP_PWM_PLL_SEL_SHIFT.
Definition CLK_VOP_PWM_PLL_SEL_GPLL : Z := 2.
Definition CLK_VOP_PWM_DIV_CON_SHIFT : Z := 0.
Definition CLK_VOP_PWM_DIV_CON_MASK : Z := Z.shiftl 0x1f CLK_VOP_PWM_DIV_CON_SHIFT.

Definition PLL_PPLL : Z := 0.
Definition PLL_APLLL : Z := 1.
Definition PLL_APLLB : Z := 2.
Definition PLL_DPLL : Z := 3.
Definition PLL_CPLL : Z := 4.
Definition PLL_GPLL : Z := 5.
Definition PLL_NPLL : Z := 6.
Definition PLL_VPLL : Z := 7.
Definition SCLK_UART0 : Z := 81.
Definition SCLK_UART3 : Z := 84.
Definition DCLK_VOP0 : Z := 180.
Definition DCLK_VOP1 : Z := 181.
Definition PCLK_HDMI_CTRL : Z := 371.
Definition PCLK_EFUSE1024NS : Z := 381.

(** Masks joined with [|]. *)
Definition ors (l : list Z) : Z := foldr Z.lor 0 l.

(** ** The search for the divisors of a frequency

    [pll_para_config] returns the divisors, or [None] for -1.  The loop keeps the divisors and the distance of the best match. *)

Definition max_refdiv : Z := 63.
Definition max_fbdiv : Z := 3200.
Definition min_fbdiv : Z := 16.
Definition max_postdiv1 : Z := 7.
Definition max_postdiv2 : Z := 7.

(** The post dividers that bring the VCO to its minimum. *)
Definition post_dividers (freq_khz : Z) : Z * Z :=
  let postdiv1 := u32 (DIV_ROUND_UP VCO_MIN_KHZ freq_khz) in
  if max_postdiv1 <? postdiv1 then
    let postdiv2 := DIV_ROUND_UP postdiv1 max_postdiv1 in
    (DIV_ROUND_UP postdiv1 postdiv2, postdiv2)
  else (postdiv1, 1).

(** One step of the loop over [refdiv], from [(refdiv, fbdiv, distance)]. *)
Definition match_step (vco_khz r : Z) (best : Z * Z * Z) : Z * Z * Z :=
  let fref_khz := OSC_HZ / KHz / r in
  let f := vco_khz / fref_khz in
  if (max_fbdiv <=? f) || (f <=? min_fbdiv) then best else
  let diff_khz := vco_khz - f * fref_khz in
  let '(f, diff_khz) :=
    if (f + 1 <? max_fbdiv) && (fref_khz / 2 <? diff_khz) then (f + 1, fref_khz - diff_khz) else (f, diff_khz) in
  if best.2 <=? diff_khz then best else (r, f, diff_khz).

(** [for (refdiv = 1; refdiv < max_refdiv && best_diff_khz; refdiv++)], with
    [n] the iterations left. *)
Fixpoint match_loop (n : nat) (vco_khz r : Z) (best : Z * Z * Z) : Z * Z * Z :=
  match n with
  | O => best
  | S n =>
      if (r <? max_refdiv) && negb (best.2 =? 0) then match_loop n vco_khz (r + 1) (match_step vco_khz r best)
      else best
  end.

Section cru3399.
Context {H : Type} `{MM : Mmio H} {BB : Build}.
(** How often the lock of a PLL is polled at most; the code sets no limit. *)
Context (lock_patience : nat).

Definition pll_para_config (freq_hz : Z) : M H (option pll_div) :=
  let freq_khz := freq_hz / KHz in
  if freq_hz =? 0 then mret None else
  if freq_khz =? 0 then stopM Fault else
  let '(postdiv1, postdiv2) := post_dividers freq_khz in
  let vco_khz := u32 (freq_khz * postdiv1 * postdiv2) in
  if (vco_khz <? VCO_MIN_KHZ) || (VCO_MAX_KHZ <? vco_khz) || (max_postdiv2 <? postdiv2) then mret None else
  let '(refdiv, fbdiv, best_diff_khz) := match_loop 62 vco_khz 1 (0, 0, vco_khz) in
  if 4 * (MHz / KHz) <? best_diff_khz then mret None else
  mret (Some {| refdiv := refdiv; fbdiv := fbdiv; postdiv1 := postdiv1; postdiv2 := postdiv2; freq := 0 |}).

(** ** The PLLs *)

Definition rk_clrsetreg (addr clr set : Z) : M H unit :=
  MmioWrite32 addr (Z.lor (Z.shiftl (Z.lor clr set) 16) set).

Definition rkclk_pll_get_rate (pll_con : Z) : M H Z :=
  con ← MmioRead32 (pll_con + 12);
  let mode := Z.shiftr (Z.land con PLL_MODE_MASK) PLL_MODE_SHIFT in
  if mode =? PLL_MODE_SLOW then mret OSC_HZ else
  if mode =? PLL_MODE_NORM then
    con ← MmioRead32 pll_con;
    let fbdiv := Z.shiftr (Z.land con PLL_FBDIV_MASK) PLL_FBDIV_SHIFT in
    con ← MmioRead32 (pll_con + 4);
    let postdiv1 := Z.shiftr (Z.land con PLL_POSTDIV1_MASK) PLL_POSTDIV1_SHIFT in
    let postdiv2 := Z.shiftr (Z.land con PLL_POSTDIV2_MASK) PLL_POSTDIV2_SHIFT in
    let refdiv := Z.shiftr (Z.land con PLL_REFDIV_MASK) PLL_REFDIV_SHIFT in
    q ← divide (24 * fbdiv) (refdiv * postdiv1 * postdiv2);
    mret (u32 (q * 1000000))
  else mret 32768.

Definition pll_of_id (id : Z) : Z :=
  if id =? PLL_PPLL then ppll_con else
  if id =? PLL_APLLL then apll_l_con else
  if id =? PLL_APLLB then apll_b_con else
  if id =? PLL_DPLL then dpll_con else
  if id =? PLL_CPLL then cpll_con else
  if id =? PLL_GPLL then gpll_con else
  if id =? PLL_NPLL then npll_con else vpll_con.

Definition rk3399_pll_get_rate (id : Z) : M H Z := rkclk_pll_get_rate (pll_of_id id).

(** [while (!(MmioRead32 (&pll_con[2]) & LOCK)) MicroSecondDelay (1);] *)
Fixpoint wait_pll_lock (n : nat) (pll_con : Z) : M H unit :=
  match n with
  | O => stopM NoFuel
  | S n =>
      v ← MmioRead32 (pll_con + 8);
      if Z.land v (Z.shiftl 1 PLL_LOCK_STATUS_SHIFT) =? 0 then MicroSecondDelay 1;; wait_pll_lock n pll_con
      else mret tt
  end.

Definition rkclk_set_pll (pll_con : Z) (div : pll_div) : M H unit :=
  vco_khz ← divide (u32 (OSC_HZ / 1000 * fbdiv div)) (refdiv div);
  o ← divide vco_khz (postdiv1 div);
  output_khz ← divide o (postdiv2 div);
  ASSERT ((VCO_MIN_KHZ <=? vco_khz) && (vco_khz <=? VCO_MAX_KHZ) &&
          (OUTPUT_MIN_KHZ <=? output_khz) && (output_khz <=? OUTPUT_MAX_KHZ) &&
          (PLL_DIV_MIN <=? fbdiv div) && (fbdiv div <=? PLL_DIV_MAX));;
  rk_clrsetreg (pll_con + 12) PLL_MODE_MASK (Z.shiftl PLL_MODE_SLOW PLL_MODE_SHIFT);;
  rk_clrsetreg (pll_con + 12) PLL_DSMPD_MASK (Z.shiftl PLL_INTEGER_MODE PLL_DSMPD_SHIFT);;
  rk_clrsetreg pll_con PLL_FBDIV_MASK (u32 (Z.shiftl (fbdiv div) PLL_FBDIV_SHIFT));;
  rk_clrsetreg (pll_con + 4) (ors [PLL_POSTDIV2_MASK; PLL_POSTDIV1_MASK; PLL_REFDIV_MASK; PLL_REFDIV_SHIFT])
    (u32 (ors [Z.shiftl (postdiv2 div) PLL_POSTDIV2_SHIFT; Z.shiftl (postdiv1 div) PLL_POSTDIV1_SHIFT;
               Z.shiftl (refdiv div) PLL_REFDIV_SHIFT]));;
  wait_pll_lock lock_patience pll_con;;
  rk_clrsetreg (pll_con + 12) PLL_MODE_MASK (Z.shiftl PLL_MODE_NORM PLL_MODE_SHIFT).

(** ** CPU clusters *)

Definition rk3399_configure_cpu (f : apll_frequencies) (cluster : cpu_cluster) : M H unit :=
  let '(con_base, parent, pll_con) :=
    match cluster with
    | CPU_CLUSTER_LITTLE => (0, CLK_CORE_PLL_SEL_ALPLL, apll_l_con)
    | CPU_CLUSTER_BIG => (2, CLK_CORE_PLL_SEL_ABPLL, apll_b_con)
    end in
  let apll_hz := freq (apll_cfgs f) in
  rkclk_set_pll pll_con (apll_cfgs f);;
  let aclkm_div := u32 (apll_hz / ACLKM_CORE_HZ - 1) in
  ASSERT ((u32 (u32 (aclkm_div + 1) * ACLKM_CORE_HZ) <=? apll_hz) && (aclkm_div <? 0x1f));;
  let pclk_dbg_div := u32 (apll_hz / PCLK_DBG_HZ - 1) in
  ASSERT ((u32 (u32 (pclk_dbg_div + 1) * PCLK_DBG_HZ) <=? apll_hz) && (pclk_dbg_div <? 0x1f));;
  let atclk_div := u32 (apll_hz / ATCLK_CORE_HZ - 1) in
  ASSERT ((u32 (u32 (atclk_div + 1) * ATCLK_CORE_HZ) <=? apll_hz) && (atclk_div <? 0x1f));;
  rk_clrsetreg (clksel_con con_base) (ors [ACLKM_CORE_DIV_CON_MASK; CLK_CORE_PLL_SEL_MASK; CLK_CORE_DIV_MASK])
    (ors [Z.shiftl aclkm_div ACLKM_CORE_DIV_CON_SHIFT; Z.shiftl parent CLK_CORE_PLL_SEL_SHIFT; Z.shiftl 0 CLK_CORE_DIV_SHIFT]);;
  rk_clrsetreg (clksel_con (con_base + 1)) (ors [PCLK_DBG_DIV_MASK; ATCLK_CORE_DIV_MASK])
    (ors [Z.shiftl pclk_dbg_div PCLK_DBG_DIV_SHIFT; Z.shiftl atclk_div ATCLK_CORE_DIV_SHIFT]).

(** ** Initialisation *)

Definition rk3399_pmu_clock_init : M H unit :=
  rkclk_set_pll ppll_con ppll_init_cfg;;
  let pclk_div := PPLL_HZ / PMU_PCLK_HZ - 1 in
  rk_clrsetreg (pmucru_clksel 0) PMU_PCLK_DIV_CON_MASK (Z.shiftl pclk_div PMU_PCLK_DIV_CON_SHIFT).

(** The CPU clusters, the registers the boot ROM changed, and the PLLs. *)
Definition clock_init_plls : M H unit :=
  rk3399_configure_cpu APLL_816_MHZ CPU_CLUSTER_LITTLE;;
  rk3399_configure_cpu APLL_816_MHZ CPU_CLUSTER_BIG;;
  rk_clrsetreg (clksel_con 12) 0xffff 0x4101;;
  rk_clrsetreg (clksel_con 19) 0xffff 0x033f;;
  rk_clrsetreg (clksel_con 56) 0x0003 0x0003;;
  rkclk_set_pll gpll_con gpll_init_cfg;;
  rkclk_set_pll npll_con npll_init_cfg;;
  rkclk_set_pll cpll_con cpll_init_cfg.

Definition clock_init_perihp : M H unit :=
  let aclk_div := DIV_ROUND_UP GPLL_HZ PERIHP_ACLK_HZ - 1 in
  let hclk_div := PERIHP_ACLK_HZ / PERIHP_HCLK_HZ - 1 in
  ASSERT (((hclk_div + 1) * PERIHP_HCLK_HZ <=? PERIHP_ACLK_HZ) && (hclk_div <=? 0x3));;
  let pclk_div := PERIHP_ACLK_HZ / PERIHP_PCLK_HZ - 1 in
  ASSERT (((pclk_div + 1) * PERIHP_PCLK_HZ <=? PERIHP_ACLK_HZ) && (pclk_div <=? 0x7));;
  rk_clrsetreg (clksel_con 14)
    (ors [PCLK_PERIHP_DIV_CON_MASK; HCLK_PERIHP_DIV_CON_MASK; ACLK_PERIHP_PLL_SEL_MASK; ACLK_PERIHP_DIV_CON_MASK])
    (ors [Z.shiftl pclk_div PCLK_PERIHP_DIV_CON_SHIFT; Z.shiftl hclk_div HCLK_PERIHP_DIV_CON_SHIFT;
          Z.shiftl ACLK_PERIHP_PLL_SEL_GPLL ACLK_PERIHP_PLL_SEL_SHIFT; Z.shiftl aclk_div ACLK_PERIHP_DIV_CON_SHIFT]).

Definition clock_init_perilp0 : M H unit :=
  let aclk_div := DIV_ROUND_UP GPLL_HZ PERILP0_ACLK_HZ - 1 in
  let hclk_div := PERILP0_ACLK_HZ / PERILP0_HCLK_HZ - 1 in
  ASSERT (((hclk_div + 1) * PERILP0_HCLK_HZ <=? PERILP0_ACLK_HZ) && (hclk_div <=? 0x3));;
  let pclk_div := PERILP0_ACLK_HZ / PERILP0_PCLK_HZ - 1 in
  ASSERT (((pclk_div + 1) * PERILP0_PCLK_HZ <=? PERILP0_ACLK_HZ) && (pclk_div <=? 0x7));;
  rk_clrsetreg (clksel_con 23)
    (ors [PCLK_PERILP0_DIV_CON_MASK; HCLK_PERILP0_DIV_CON_MASK; ACLK_PERILP0_PLL_SEL_MASK; ACLK_PERILP0_DIV_CON_MASK])
    (ors [Z.shiftl pclk_div PCLK_PERILP0_DIV_CON_SHIFT; Z.shiftl hclk_div HCLK_PERILP0_DIV_CON_SHIFT;
          Z.shiftl ACLK_PERILP0_PLL_SEL_GPLL ACLK_PERILP0_PLL_SEL_SHIFT; Z.shiftl aclk_div ACLK_PERILP0_DIV_CON_SHIFT]).

Definition clock_init_perilp1 : M H unit :=
  let hclk_div := DIV_ROUND_UP GPLL_HZ PERILP1_HCLK_HZ - 1 in
  ASSERT (((hclk_div + 1) * PERILP1_HCLK_HZ <=? GPLL_HZ) && (hclk_div <=? 0x1f));;
  let pclk_div := PERILP1_HCLK_HZ / PERILP1_PCLK_HZ - 1 in
  ASSERT (((pclk_div + 1) * PERILP1_PCLK_HZ <=? PERILP1_HCLK_HZ) && (pclk_div <=? 0x7));;
  rk_clrsetreg (clksel_con 25)
    (ors [PCLK_PERILP1_DIV_CON_MASK; HCLK_PERILP1_DIV_CON_MASK; HCLK_PERILP1_PLL_SEL_MASK])
    (ors [Z.shiftl pclk_div PCLK_PERILP1_DIV_CON_SHIFT; Z.shiftl hclk_div HCLK_PERILP1_DIV_CON_SHIFT;
          Z.shiftl HCLK_PERILP1_PLL_SEL_GPLL HCLK_PERILP1_PLL_SEL_SHIFT]).

Definition clock_init_emmc : M H unit :=
  rk_clrsetreg (clksel_con 21) (Z.lor ACLK_EMMC_PLL_SEL_MASK ACLK_EMMC_DIV_CON_MASK)
    (Z.lor (Z.shiftl ACLK_EMMC_PLL_SEL_GPLL ACLK_EMMC_PLL_SEL_SHIFT) (Z.shiftl (4 - 1) ACLK_EMMC_DIV_CON_SHIFT));;
  rk_clrsetreg (clksel_con 22) (Z.shiftl 0x3f 0) (Z.shiftl 7 0).

Definition rk3399_clock_init : M H unit :=
  clock_init_plls;; clock_init_perihp;; clock_init_perilp0;; clock_init_perilp1;; clock_init_emmc.

(** ** Display clocks *)

Definition rk3399_hdcp_set_clk (hz : Z) : M H unit :=
  div ← divide GPLL_HZ hz;
  ASSERT (u32 (div - 1) <? 32);;
  rk_clrsetreg (clksel_con 42) (Z.lor ACLK_HDCP_PLL_SEL_MASK ACLK_HDCP_DIV_CON_MASK)
    (u32 (Z.lor (Z.shiftl ACLK_HDCP_PLL_SEL_GPLL ACLK_HDCP_PLL_SEL_SHIFT) (Z.shiftl (u32 (div - 1)) ACLK_HDCP_DIV_CON_SHIFT)));;
  div ← divide GPLL_HZ (hz / 2);
  ASSERT (u32 (div - 1) <? 32);;
  rk_clrsetreg (clksel_con 43) (Z.lor PCLK_HDCP_DIV_CON_MASK HCLK_HDCP_DIV_CON_MASK)
    (u32 (Z.lor (Z.shiftl (u32 (div - 1)) PCLK_HDCP_DIV_CON_SHIFT) (Z.shiftl (u32 (div - 1)) HCLK_HDCP_DIV_CON_SHIFT))).

Definition rk3399_vio_set_clk (hz : Z) : M H unit :=
  div ← divide GPLL_HZ hz;
  ASSERT (u32 (div - 1) <? 32);;
  rk_clrsetreg (clksel_con 42) (Z.lor ACLK_VIO_PLL_SEL_MASK ACLK_VIO_DIV_CON_MASK)
    (u32 (Z.lor (Z.shiftl ACLK_VIO_PLL_SEL_GPLL ACLK_VIO_PLL_SEL_SHIFT) (Z.shiftl (u32 (div - 1)) ACLK_VIO_DIV_CON_SHIFT)));;
  div ← divide GPLL_HZ (hz / 2);
  ASSERT (u32 (div - 1) <? 32);;
  rk_clrsetreg (clksel_con 43) PCLK_VIO_DIV_CON_MASK (u32 (Z.shiftl (u32 (div - 1)) PCLK_VIO_DIV_CON_SHIFT)).

Definition rk3399_vop_set_clk (clk_id hz : Z) : M H Z :=
  let aclk_vop := 400 * MHz in
  let hclk_vop := 100 * MHz in
  let pwm_vop := 100 * MHz in
  let '(aclkreg_addr, dclkreg_addr, pwmreg_addr) :=
    if clk_id =? DCLK_VOP0 then (clksel_con 47, clksel_con 49, clksel_con 51)
    else (clksel_con 48, clksel_con 50, clksel_con 52) in
  let div := GPLL_HZ / aclk_vop in
  ASSERT (div - 1 <? 32);;
  rk_clrsetreg aclkreg_addr (Z.lor ACLK_VOP_PLL_SEL_MASK ACLK_VOP_DIV_CON_MASK)
    (Z.lor (Z.shiftl ACLK_VOP_PLL_SEL_GPLL ACLK_VOP_PLL_SEL_SHIFT) (Z.shiftl (div - 1) ACLK_VOP_DIV_CON_SHIFT));;
  let div := GPLL_HZ / hclk_vop in
  ASSERT (div - 1 <? 32);;
  rk_clrsetreg aclkreg_addr HCLK_VOP_DIV_CON_MASK (Z.shiftl (div - 1) HCLK_VOP_DIV_CON_SHIFT);;
  let div := GPLL_HZ / pwm_vop in
  ASSERT (div - 1 <? 32);;
  rk_clrsetreg pwmreg_addr (Z.lor CLK_VOP_PWM_PLL_SEL_MASK CLK_VOP_PWM_DIV_CON_MASK)
    (u32 (Z.lor (Z.shiftl CLK_VOP_PWM_PLL_SEL_GPLL CLK_VOP_PWM_PLL_SEL_SHIFT) (Z.shiftl (div - 1) CLK_VOP_PWM_DIV_CON_MASK)));;
  c ← pll_para_config hz;
  match c with
  | None => ASSERT false;; mret (u32 (-1))
  | Some vpll_config =>
      rkclk_set_pll vpll_con vpll_config;;
      rk_clrsetreg dclkreg_addr (ors [DCLK_VOP_DCLK_SEL_MASK; DCLK_VOP_PLL_SEL_MASK; DCLK_VOP_DIV_CON_MASK])
        (ors [Z.shiftl DCLK_VOP_DCLK_SEL_DIVOUT DCLK_VOP_DCLK_SEL_SHIFT; Z.shiftl DCLK_VOP_PLL_SEL_VPLL DCLK_VOP_PLL_SEL_SHIFT;
              Z.shiftl (1 - 1) DCLK_VOP_DIV_CON_SHIFT]);;
      mret hz
  end.

Definition rk3399_clk_get_rate (id : Z) : M H Z :=
  if (PLL_PPLL <=? id) && (id <=? PLL_VPLL) then rk3399_pll_get_rate id else
  if (SCLK_UART0 <=? id) && (id <=? SCLK_UART3) then mret 24000000 else
  if (id =? PCLK_HDMI_CTRL) || (id =? DCLK_VOP0) || (id =? DCLK_VOP1) || (id =? PCLK_EFUSE1024NS) then mret 0 else
  ASSERT false;; mret 0.
End cru3399.
