(* ===== verification/Rk3399CruProps.v ===== *)
(** * Properties of the RK3399 clocks

    The clock initialisation gives every PLL the rate it names, whatever the
    boot ROM left behind; the search for pixel clock divisors finds the best
    match there is within its bounds. *)

From Stdlib Require Import ZArith Lia.
From stdpp Require Import base list numbers option.
From S2P Require Import Prelude Mmio Rk3399Cru.

(** ** The search for divisors *)

(** How far the VCO is from [vco] with these divisors, in kHz as the code counts. *)
Definition mismatch (vco r f : Z) : Z := Z.abs (vco - f * (OSC_HZ / KHz / r)).

(** The divisors the search considers. *)
Definition candidate (vco r f : Z) : Prop :=
  1 <= r < max_refdiv /\ min_fbdiv < vco / (OSC_HZ / KHz / r) < max_fbdiv /\ min_fbdiv < f < max_fbdiv.

Lemma fref_range r : 1 <= r < max_refdiv -> 387 <= OSC_HZ / KHz / r <= 24000.
Proof.
  intros Hr. unfold max_refdiv in Hr. change (OSC_HZ / KHz) with 24000.
  split; [apply Z.div_le_lower_bound; lia | apply Z.div_le_upper_bound; lia].
Qed.

(** The nearest multiple of the reference: no candidate is closer. *)
Lemma nearest_multiple vco d f g : 0 < d ->
  let q := vco / d in let e := vco - q * d in
  f = (if (q + 1 <? max_fbdiv) && (d / 2 <? e) then q + 1 else q) ->
  q < max_fbdiv -> g < max_fbdiv ->
  Z.abs (vco - f * d) <= Z.abs (vco - g * d).
Proof.
  intros Hd q e -> Hq Hg.
  pose proof (Z.div_mod vco d ltac:(lia)) as E. pose proof (Z.mod_pos_bound vco d Hd) as B.
  assert (Ee : 0 <= e < d) by (unfold e, q; lia).
  assert (Ev : vco = q * d + e) by (unfold e; lia). clearbody q e. subst vco. clear E B.
  pose proof (Z.div_mod d 2 ltac:(lia)) as E2. pose proof (Z.mod_pos_bound d 2 ltac:(lia)) as B2.
  destruct (Z.ltb_spec (q + 1) max_fbdiv), (Z.ltb_spec (d / 2) e); cbn [andb].
  all: destruct (Z.le_gt_cases g q) as [C|C]; unfold max_fbdiv in *;
    pose proof (Z.mul_add_distr_r q 1 d); assert (g <= q -> g * d <= q * d) by nia; assert (q < g -> (q + 1) * d <= g * d) by nia; lia.
Qed.

Section search.
Context (vco : Z).

(** What the loop keeps: the best of the reference dividers below [r]. *)
Definition best_below (r : Z) (best : Z * Z * Z) : Prop :=
  let '(br, bf, d) := best in
  0 <= d <= vco /\
  (d < vco -> 1 <= br < max_refdiv /\ min_fbdiv < bf < max_fbdiv /\ d = mismatch vco br bf) /\
  (forall r' f', r' < r -> candidate vco r' f' -> d <= mismatch vco r' f').

Lemma match_step_best r best : 1 <= r < max_refdiv -> best_below r best -> best_below (r + 1) (match_step vco r best).
Proof.
  intros Hr. pose proof (fref_range r Hr) as Hd. destruct best as [[br bf] d]. intros (B1 & B2 & B3). unfold match_step.
  set (fr := OSC_HZ / KHz / r) in *. set (q := vco / fr) in *. cbn [snd].
  assert (Hq : vco = q * fr + vco mod fr /\ 0 <= vco mod fr < fr).
  { unfold q. pose proof (Z.div_mod vco fr ltac:(lia)). pose proof (Z.mod_pos_bound vco fr ltac:(lia)). lia. }
  destruct ((max_fbdiv <=? q) || (q <=? min_fbdiv)) eqn:EF.
  { split; [done|]. split; [done|]. intros r' f' Hr' C. destruct (decide (r' = r)) as [->|]; [|apply B3; [lia | done]].
    exfalso. destruct C as (_ & C & _). fold fr q in C. unfold max_fbdiv, min_fbdiv in *. lia. }
  assert (Hf : min_fbdiv < q < max_fbdiv) by (unfold max_fbdiv, min_fbdiv in *; lia).
  set (up := (q + 1 <? max_fbdiv) && (fr / 2 <? vco - q * fr)) in *.
  assert (N : let f := if up then q + 1 else q in
    min_fbdiv < f < max_fbdiv /\ (if up then fr - (vco - q * fr) else vco - q * fr) = mismatch vco r f /\
    forall g, g < max_fbdiv -> mismatch vco r f <= mismatch vco r g).
  { cbv zeta. assert (min_fbdiv < (if up then q + 1 else q) < max_fbdiv) as F1.
    { unfold up. destruct (Z.ltb_spec (q + 1) max_fbdiv), (fr / 2 <? vco - q * fr); cbn; lia. }
    split; [exact F1|]. unfold mismatch. fold fr. split; [destruct up; lia|].
    intros g Hg. apply (nearest_multiple vco fr _ g ltac:(lia) eq_refl); [fold q; lia | done]. }
  assert (K : best_below (r + 1) (if d <=? (if up then fr - (vco - q * fr) else vco - q * fr) then (br, bf, d)
      else (r, if up then q + 1 else q, if up then fr - (vco - q * fr) else vco - q * fr))).
  { destruct N as (N1 & N2 & N3). rewrite N2.
    destruct (Z.leb_spec d (mismatch vco r (if up then q + 1 else q))) as [L|L].
    - split; [done|]. split; [done|]. intros r' f' Hr' C. destruct (decide (r' = r)) as [->|]; [|apply B3; [lia | done]].
      etrans; [exact L|]. apply N3, C.
    - split; [unfold mismatch in *; lia|]. split; [done|]. intros r' f' Hr' C. destruct (decide (r' = r)) as [->|].
      + apply N3, C.
      + etrans; [apply Z.lt_le_incl, L|]. apply B3; [lia | done]. }
  by destruct up.
Qed.

Lemma match_loop_best n r best : 1 <= r -> r + Z.of_nat n = max_refdiv -> best_below r best ->
  exists r', r' <= max_refdiv /\ best_below r' (match_loop n vco r best) /\
    ((match_loop n vco r best).2 = 0 \/ r' = max_refdiv).
Proof.
  revert r best. induction n as [|n IH]; intros r best Hr Hn B.
  - exists r. split; [lia|]. split; [done|]. right. lia.
  - cbn [match_loop]. destruct (Z.ltb_spec r max_refdiv); [|lia]. cbn [andb].
    destruct (Z.eqb_spec best.2 0) as [E|E]; cbn [negb].
    + exists r. split; [lia|]. split; [done|]. by left.
    + apply IH; [lia | lia |]. by apply match_step_best.
Qed.
End search.

(** ** The post dividers *)

Lemma div_round_up_ge n d : 0 < d -> n <= DIV_ROUND_UP n d * d.
Proof.
  intros Hd. unfold DIV_ROUND_UP. pose proof (Z.div_mod (n + d - 1) d ltac:(lia)).
  pose proof (Z.mod_pos_bound (n + d - 1) d Hd). nia.
Qed.

Lemma div_round_up_le n d k : 0 < d -> n <= k * d -> DIV_ROUND_UP n d <= k.
Proof. intros Hd Hn. unfold DIV_ROUND_UP. apply Z.lt_succ_r, Z.div_lt_upper_bound; [done|]. nia. Qed.

Lemma div_round_up_pos n d : 0 < n -> 0 < d -> 1 <= DIV_ROUND_UP n d.
Proof. intros Hn Hd. unfold DIV_ROUND_UP. apply Z.div_le_lower_bound; lia. Qed.

(** They are at least 1, bring the VCO to its minimum, and fit their fields
    when the second one does. *)
Lemma post_dividers_spec freq p1 p2 : 1 <= freq < 2 ^ 23 -> post_dividers freq = (p1, p2) ->
  1 <= p1 /\ 1 <= p2 /\ VCO_MIN_KHZ <= freq * p1 * p2 /\ p1 <= max_postdiv1.
Proof.
  intros Hf E. unfold post_dividers in E.
  pose proof (div_round_up_ge VCO_MIN_KHZ freq ltac:(lia)) as G.
  pose proof (div_round_up_pos VCO_MIN_KHZ freq ltac:(done) ltac:(lia)) as P.
  pose proof (div_round_up_le VCO_MIN_KHZ freq VCO_MIN_KHZ ltac:(lia) ltac:(unfold VCO_MIN_KHZ in *; change (MHz / KHz) with 1000 in *; nia)) as U.
  rewrite wrap_small in E by (unfold in_word, VCO_MIN_KHZ in *; change (MHz / KHz) with 1000 in *; lia).
  set (p := DIV_ROUND_UP VCO_MIN_KHZ freq) in *. unfold max_postdiv1 in *.
  destruct (Z.ltb_spec 7 p) as [L|L]; injection E as <- <-.
  - pose proof (div_round_up_ge p 7 ltac:(lia)) as G7. pose proof (div_round_up_pos p 7 ltac:(lia) ltac:(lia)) as P7.
    pose proof (div_round_up_ge p (DIV_ROUND_UP p 7) ltac:(lia)) as G2.
    pose proof (div_round_up_pos p (DIV_ROUND_UP p 7) ltac:(lia) ltac:(lia)) as P2.
    repeat split; [lia | lia | nia |]. apply div_round_up_le; lia.
  - repeat split; lia.
Qed.

(** ** The unit

    All registers have write enables; the hardware drives the lock bit in the
    third register of a PLL. *)

Definition Rk3399Kind (a : Z) : option reg_kind :=
  if (RK3399_PMU_CRU_BASE <=? a) && (a <? RK3399_CRU_BASE + 0x1000) then Some Hiword else None.

Definition Rk3399Status (a : Z) : Z :=
  if (a mod 0x20 =? 8) && ((a <? RK3399_PMU_CRU_BASE + 0x20) || (RK3399_CRU_BASE <=? a) && (a <? RK3399_CRU_BASE + 0xE0))
  then 2 ^ 31 else 0.

Abbreviation Rk3399Unit H := (RegFile H Rk3399Kind Rk3399Status).
Abbreviation rkreg := (reg Rk3399Kind Rk3399Status).

Definition plls : list Z := [ppll_con; apll_l_con; apll_b_con; dpll_con; cpll_con; gpll_con; npll_con; vpll_con].

(** The registers of a PLL the code writes. *)
Definition pll_regs (c : Z) : list Z := [c; c + 4; c + 12].

Section pll.
Context {H : Type} `{MM : Mmio H} {BB : Build} {RU : Rk3399Unit H} (lock_patience : nat).
Implicit Types h : H.

(** A PLL locks within the reads of the loop. *)
Fixpoint locks (n : nat) (c : Z) (h : H) : Prop :=
  match n with
  | O => False
  | S n => Z.land (u32 (mmio_read32 (c + 8) h).1) (2 ^ 31) <> 0 \/ locks n c (delay_us 1 (mmio_read32 (c + 8) h).2)
  end.

Context (Locks : forall c h, c ∈ plls -> locks lock_patience c h).

Definition valid_div (d : pll_div) : Prop :=
  in_word 12 (fbdiv d) /\ 1 <= refdiv d < 2 ^ 6 /\ 1 <= postdiv1 d < 2 ^ 3 /\ 1 <= postdiv2 d < 2 ^ 3.

(** The registers of a PLL hold these divisors, and it is in normal mode. *)
Definition pll_runs (h : H) (cd : Z * pll_div) : Prop :=
  let '(c, d) := cd in
  Z.land (rkreg (c + 12) h) PLL_MODE_MASK = Z.shiftl PLL_MODE_NORM PLL_MODE_SHIFT /\
  Z.land (rkreg c h) PLL_FBDIV_MASK = fbdiv d /\
  Z.land (rkreg (c + 4) h) PLL_POSTDIV1_MASK = Z.shiftl (postdiv1 d) PLL_POSTDIV1_SHIFT /\
  Z.land (rkreg (c + 4) h) PLL_POSTDIV2_MASK = Z.shiftl (postdiv2 d) PLL_POSTDIV2_SHIFT /\
  Z.land (rkreg (c + 4) h) PLL_REFDIV_MASK = refdiv d.

(** The rate as the code computes it, a whole number of MHz. *)
Definition div_rate (d : pll_div) : Z := u32 (24 * fbdiv d / (refdiv d * postdiv1 d * postdiv2 d) * 1000000).

(** What the ASSERT of [rkclk_set_pll] checks. *)
Definition div_in_range (d : pll_div) : bool :=
  let vco_khz := u32 (OSC_HZ / 1000 * fbdiv d) / refdiv d in
  let output_khz := vco_khz / postdiv1 d / postdiv2 d in
  (VCO_MIN_KHZ <=? vco_khz) && (vco_khz <=? VCO_MAX_KHZ) &&
  (OUTPUT_MIN_KHZ <=? output_khz) && (output_khz <=? OUTPUT_MAX_KHZ) &&
  (PLL_DIV_MIN <=? fbdiv d) && (fbdiv d <=? PLL_DIV_MAX).

Lemma plls_kind c : c ∈ plls -> forall i, 0 <= i <= 12 -> Rk3399Kind (c + i) = Some Hiword /\ (i <> 8 -> i mod 4 = 0 -> Rk3399Status (c + i) = 0).
Proof.
  intros Hc i Hi. assert (A : c mod 0x20 = 0 /\ RK3399_PMU_CRU_BASE <= c <= RK3399_CRU_BASE + 0xC0).
  { apply list_elem_of_In in Hc. cbn in Hc. repeat destruct Hc as [<- | Hc]; done. }
  destruct A as [A B]. unfold Rk3399Kind, Rk3399Status. split.
  - rewrite (proj2 (Z.leb_le _ _)), (proj2 (Z.ltb_lt _ _)) by lia. done.
  - intros Hi8 _. rewrite Z.add_mod, A, Z.add_0_l, Z.mod_mod, Z.mod_small by lia. by rewrite (proj2 (Z.eqb_neq i 8)).
Qed.

Lemma land_lor_absorb m c s : Z.land m c = m -> Z.land m (Z.lor c s) = m.
Proof.
  intros E. rewrite Z.land_lor_distr_r, E. apply Z.bits_inj'. intros i _. rewrite Z.lor_spec, Z.land_spec.
  by destruct (Z.testbit m i), (Z.testbit s i).
Qed.

(** Writing fields: the bits of [clr] become those of [set]. *)
Lemma clrset_spec a clr set h (Q : unit -> H -> Prop) : Rk3399Kind a = Some Hiword -> in_word 16 clr -> in_word 16 set ->
  (forall h', (forall m, in_word 16 m -> Z.land m clr = m -> Z.land (rkreg a h') m = Z.land set m) ->
     only_regs (RF := RU) [a] h h' -> Q tt h') ->
  wp (rk_clrsetreg a clr set) h Q.
Proof.
  intros Hk Hc Hs HQ. unfold rk_clrsetreg. eapply wp_write; [exact Hk|]. intros h' E O. apply HQ; [|done].
  intros m Hm Hmc. rewrite E. cbn [reg_write]. apply hiword_write_set; [by apply in_word_lor | done | done |].
  by apply land_lor_absorb.
Qed.

(** The bits outside [clr] can only be set. *)
Lemma clrset_adds a clr set h (Q : unit -> H -> Prop) : Rk3399Kind a = Some Hiword -> in_word 16 clr -> in_word 16 set ->
  (forall h', (forall m, in_word 16 m -> Z.land m clr = 0 -> Z.land (rkreg a h') m = Z.lor (Z.land (rkreg a h) m) (Z.land set m)) ->
     only_regs (RF := RU) [a] h h' -> Q tt h') ->
  wp (rk_clrsetreg a clr set) h Q.
Proof.
  intros Hk Hc Hs HQ. unfold rk_clrsetreg. eapply wp_write; [exact Hk|]. intros h' E O. apply HQ; [|done].
  intros m Hm Hmc. rewrite E. cbn [reg_write]. unfold hiword_write.
  change (Z.lor (Z.shiftl (Z.lor clr set) 16) set) with (hiword (Z.lor clr set) set).
  rewrite hiword_enable by (done || by apply in_word_lor). cbv zeta.
  apply Z.bits_inj'. intros i Hi. pose proof (f_equal (fun z => Z.testbit z i) Hmc) as B. cbn beta in B.
  pose proof (f_equal (fun z => Z.testbit z i) (hiword_low (Z.lor clr set) set m Hs Hm)) as L. cbn beta in L.
  rewrite Z.land_spec, Z.bits_0 in B. rewrite !Z.land_spec in L.
  rewrite !Z.land_spec, !Z.lor_spec, Z.ldiff_spec, !Z.land_spec, Z.lor_spec by done.
  destruct (Z.testbit m i), (Z.testbit clr i), (Z.testbit set i), (Z.testbit (rkreg a h) i), (Z.testbit (u32 (hiword (Z.lor clr set) set)) i); done.
Qed.

Lemma wait_lock_returns n c : c ∈ plls -> forall h, locks n c h ->
  wp (wait_pll_lock n c) h (fun _ h' => same_regs (RF := RU) h h').
Proof.
  intros Hc. destruct (plls_kind c Hc 8) as [K _]; [lia|].
  induction n as [|n IH]; intros h L; [done|]. cbn [wait_pll_lock locks] in *.
  apply wp_bind, wp_MmioRead32. change (Z.shiftl 1 PLL_LOCK_STATUS_SHIFT) with (2 ^ 31).
  assert (S1 : same_regs (RF := RU) h (mmio_read32 (c + 8) h).2) by (intros b; by eapply read_keeps).
  destruct (Z.eqb_spec (Z.land (u32 (mmio_read32 (c + 8) h).1) (2 ^ 31)) 0) as [E|E]; [|by apply wp_ret].
  apply wp_bind, wp_modify. destruct L as [L|L]; [done|]. eapply wp_mono; [by apply IH|]. cbn beta. intros _ h' S2.
  etrans; [exact S1|]. etrans; [|exact S2]. intros b. apply delay_us_keeps.
Qed.

(** The fields of the second register. *)
Definition div_value (d : pll_div) : Z :=
  ors [Z.shiftl (postdiv2 d) PLL_POSTDIV2_SHIFT; Z.shiftl (postdiv1 d) PLL_POSTDIV1_SHIFT; Z.shiftl (refdiv d) PLL_REFDIV_SHIFT].

Lemma div_word d : valid_div d ->
  in_word 16 (div_value d) /\
  Z.land (div_value d) PLL_POSTDIV1_MASK = Z.shiftl (postdiv1 d) PLL_POSTDIV1_SHIFT /\
  Z.land (div_value d) PLL_POSTDIV2_MASK = Z.shiftl (postdiv2 d) PLL_POSTDIV2_SHIFT /\
  Z.land (div_value d) PLL_REFDIV_MASK = refdiv d.
Proof.
  intros (_ & V2 & V3 & V4). assert (W2 : in_word 3 (postdiv2 d)) by (unfold in_word; lia).
  assert (W1 : in_word 3 (postdiv1 d)) by (unfold in_word; lia). assert (W0 : in_word 6 (refdiv d)) by (unfold in_word; lia).
  pose proof (in_word_shiftl 3 12 _ ltac:(done) ltac:(done) W2) as X2. pose proof (in_word_shiftl 3 8 _ ltac:(done) ltac:(done) W1) as X1.
  unfold div_value, ors, PLL_REFDIV_SHIFT. cbn [foldr]. rewrite Z.shiftl_0_r, Z.lor_0_r, !lor_land.
  split; [|split; [|split]].
  - apply in_word_lor; [done | unfold in_word, PLL_POSTDIV2_SHIFT in *; lia|].
    apply in_word_lor; [done | unfold in_word, PLL_POSTDIV1_SHIFT in *; lia | unfold in_word in *; lia].
  - rewrite (land_shiftl_low _ PLL_POSTDIV2_SHIFT PLL_POSTDIV1_MASK) by done.
    rewrite (land_shiftl_mask _ PLL_POSTDIV1_SHIFT 3 ltac:(done) ltac:(done) W1 : Z.land _ PLL_POSTDIV1_MASK = _).
    replace (Z.land (refdiv d) PLL_POSTDIV1_MASK) with 0; [by rewrite Z.lor_0_r|].
    symmetry. apply (land_below _ 8 7); [done | unfold in_word in *; lia].
  - rewrite (land_shiftl_mask _ PLL_POSTDIV2_SHIFT 3 ltac:(done) ltac:(done) W2 : Z.land _ PLL_POSTDIV2_MASK = _).
    replace (Z.land (Z.shiftl (postdiv1 d) PLL_POSTDIV1_SHIFT) PLL_POSTDIV2_MASK) with 0.
    2: { symmetry. apply (land_below _ 12 7); [done | unfold in_word, PLL_POSTDIV1_SHIFT in *; lia]. }
    replace (Z.land (refdiv d) PLL_POSTDIV2_MASK) with 0; [by rewrite !Z.lor_0_r|].
    symmetry. apply (land_below _ 12 7); [done | unfold in_word in *; lia].
  - rewrite !land_shiftl_low by done. by rewrite (land_ones_small _ 6 ltac:(done) W0 : Z.land _ PLL_REFDIV_MASK = _).
Qed.

Lemma set_pll_correct c d h : c ∈ plls -> valid_div d -> div_in_range d = true ->
  wp (rkclk_set_pll lock_patience c d) h (fun _ h' => pll_runs h' (c, d) /\ only_regs (RF := RU) (pll_regs c) h h').
Proof.
  intros Hc V R. pose proof (div_word d V) as (W & W1 & W2 & W0). pose proof V as (V1 & V2 & V3 & V4).
  destruct (plls_kind c Hc 12) as [K12 _]; [lia|]. destruct (plls_kind c Hc 0) as [K0 _]; [lia|].
  destruct (plls_kind c Hc 4) as [K4 _]; [lia|]. rewrite Z.add_0_r in K0.
  unfold rkclk_set_pll. apply wp_bind, wp_divide; [lia|]. apply wp_bind, wp_divide; [lia|]. apply wp_bind, wp_divide; [lia|].
  apply wp_bind, wp_ASSERT; [exact R|].
  apply wp_bind. eapply clrset_spec; [done..|]. intros h1 _ O1.
  apply wp_bind. eapply clrset_spec; [done..|]. intros h2 _ O2.
  apply wp_bind. unfold PLL_FBDIV_SHIFT. rewrite Z.shiftl_0_r, (wrap_small 32) by (unfold in_word in *; lia).
  eapply clrset_spec; [done | done | unfold in_word in *; lia|]. intros h3 F3 O3.
  apply wp_bind. fold (div_value d). rewrite (wrap_small 32) by (unfold in_word in *; lia).
  eapply clrset_spec; [done..|]. intros h4 F4 O4.
  apply wp_bind. eapply wp_mono; [apply wait_lock_returns; [done | by apply Locks]|]. cbn beta. intros _ h5 S5.
  eapply clrset_spec; [done..|]. intros h6 F6 O6.
  assert (N : c <> c + 4 /\ c <> c + 12 /\ c + 4 <> c + 12) by lia. destruct N as (N1 & N2 & N3).
  split.
  - unfold pll_runs. rewrite F6 by done. split; [done|].
    rewrite (O6 c), (S5 c), (O4 c), (F3 PLL_FBDIV_MASK) by (done || apart).
    rewrite (O6 (c + 4)), (S5 (c + 4)) by apart. rewrite !F4 by done. rewrite W1, W2, W0.
    split; [|done]. by apply (land_ones_small _ 12).
  - intros b Hb. apply not_elem_of_cons in Hb as [B1 Hb]. apply not_elem_of_cons in Hb as [B2 Hb]. apply not_elem_of_cons in Hb as [B3 _].
    by rewrite (O6 b), (S5 b), (O4 b), (O3 b), (O2 b), (O1 b) by apart.
Qed.

Lemma get_rate_spec c d h : c ∈ plls -> valid_div d -> pll_runs h (c, d) ->
  wp (rkclk_pll_get_rate c) h (fun v h' => v = div_rate d /\ same_regs (RF := RU) h h').
Proof.
  intros Hc (V1 & V2 & V3 & V4) (R1 & R2 & R3 & R4 & R5). unfold rkclk_pll_get_rate.
  destruct (plls_kind c Hc 12) as [K12 S12]; [lia|]. destruct (plls_kind c Hc 0) as [K0 S0]; [lia|].
  destruct (plls_kind c Hc 4) as [K4 S4]; [lia|]. rewrite Z.add_0_r in K0, S0.
  apply wp_bind. eapply wp_read_plain; [exact K12 | by apply S12|]. intros h1 _ E1. cbn beta. rewrite R1. cbn [Z.eqb].
  apply wp_bind. eapply wp_read_plain; [exact K0 | by apply S0|]. intros h2 _ E2. cbn beta. rewrite (E1 c), R2.
  apply wp_bind. eapply wp_read_plain; [exact K4 | by apply S4|]. intros h3 _ E3. cbn beta. rewrite (E2 (c + 4)), (E1 (c + 4)), R3, R4, R5.
  rewrite !shiftl_shiftr by done. unfold PLL_FBDIV_SHIFT, PLL_REFDIV_SHIFT. rewrite !Z.shiftr_0_r.
  apply wp_bind, wp_divide; [nia|]. apply wp_ret. split; [done|]. etrans; [exact E1|]. by etrans.
Qed.
(** ** Field facts

    A fact [(a, m, v)]: the bits [m] of register [a] are [v].  A step adds the
    facts it establishes, if it does not write the registers of the others. *)
Definition fact : Type := Z * Z * Z.
Definition holds (h : H) (f : fact) : Prop := let '(a, m, v) := f in Z.land (rkreg a h) m = v.
Definition avoids (ws : list Z) (fs : list fact) : bool := forallb (fun f => negb (existsb (Z.eqb f.1.1) ws)) fs.

Lemma facts_frame ws fs h h' : only_regs (RF := RU) ws h h' -> avoids ws fs = true -> Forall (holds h) fs -> Forall (holds h') fs.
Proof.
  intros O A F. induction F as [|[[a m] v] fs E F IH]; [by constructor|]. unfold avoids in A. cbn [forallb fst] in A.
  apply andb_true_iff in A as [A1 A2]. constructor; [|by apply IH]. cbn in *. rewrite (O a); [done|].
  intros Ha. apply negb_true_iff in A1. apply not_true_iff_false in A1. apply A1, existsb_exists.
  exists a. split; [by apply list_elem_of_In | apply Z.eqb_refl].
Qed.

(** The state of a run from [h0] that writes registers of [R] only. *)
Definition progress (R : list Z) (h0 : H) (fs : list fact) (h : H) : Prop :=
  Forall (holds h) fs /\ only_regs (RF := RU) R h0 h.

Definition covered (ws R : list Z) : bool := forallb (fun w => existsb (Z.eqb w) R) ws.

Lemma covered_subset ws R : covered ws R = true -> ws ⊆ R.
Proof.
  intros C b Hb. apply list_elem_of_In in Hb. apply (proj1 (forallb_forall _ _) C), existsb_exists in Hb as (x & Hx & ->%Z.eqb_eq).
  by apply list_elem_of_In.
Qed.

Lemma progress_step R h0 fs ws gs h h' : progress R h0 fs h -> only_regs (RF := RU) ws h h' ->
  avoids ws fs = true -> covered ws R = true -> Forall (holds h') gs -> progress R h0 (gs ++ fs) h'.
Proof.
  intros [F O] O' A C G. split.
  - apply Forall_app. split; [done|]. by eapply facts_frame.
  - eapply only_regs_trans; [exact O|]. eapply only_regs_mono; [by apply covered_subset | exact O'].
Qed.

Lemma step_clrset R h0 fs a clr set h : progress R h0 fs h -> Rk3399Kind a = Some Hiword -> in_word 16 clr -> in_word 16 set ->
  avoids [a] fs = true -> covered [a] R = true ->
  wp (rk_clrsetreg a clr set) h (fun _ h' => progress R h0 ((a, clr, Z.land set clr) :: fs) h').
Proof.
  intros P Hk Hc Hs A C. eapply clrset_spec; [done..|]. intros h' F O.
  apply (progress_step R h0 fs [a] [(a, clr, Z.land set clr)] h); [done..|].
  constructor; [|constructor]. apply F; [done | apply Z.land_diag].
Qed.

Definition pll_facts (c : Z) (d : pll_div) : list fact :=
  [(c + 12, PLL_MODE_MASK, Z.shiftl PLL_MODE_NORM PLL_MODE_SHIFT); (c, PLL_FBDIV_MASK, fbdiv d);
   (c + 4, PLL_POSTDIV1_MASK, Z.shiftl (postdiv1 d) PLL_POSTDIV1_SHIFT);
   (c + 4, PLL_POSTDIV2_MASK, Z.shiftl (postdiv2 d) PLL_POSTDIV2_SHIFT); (c + 4, PLL_REFDIV_MASK, refdiv d)].

Lemma pll_runs_facts c d h : pll_runs h (c, d) <-> Forall (holds h) (pll_facts c d).
Proof.
  unfold pll_facts, pll_runs. split.
  - intros (R1 & R2 & R3 & R4 & R5). by repeat constructor.
  - intros F. repeat (apply List.Forall_cons_iff in F; let E := fresh in destruct F as [E F]; cbn in E). done.
Qed.

Lemma step_pll R h0 fs c d h : progress R h0 fs h -> c ∈ plls -> valid_div d -> div_in_range d = true ->
  avoids (pll_regs c) fs = true -> covered (pll_regs c) R = true ->
  wp (rkclk_set_pll lock_patience c d) h (fun _ h' => progress R h0 (pll_facts c d ++ fs) h').
Proof.
  intros P Hc V Hr A C. eapply wp_mono; [by apply set_pll_correct|]. cbn beta. intros _ h' [Q O].
  apply (progress_step R h0 fs (pll_regs c) (pll_facts c d) h); try done. by apply pll_runs_facts.
Qed.

Lemma step_ASSERT R h0 fs b h : progress R h0 fs h -> b = true -> wp (ASSERT b) h (fun _ h' => progress R h0 fs h').
Proof. intros P ->. by apply wp_ret. Qed.
End pll.

(** One step of an initialisation whose state is in [P]. *)
Ltac init_step P :=
  let h := fresh "h" in
  repeat lazymatch goal with |- wp (mbind _ _) _ _ => apply wp_bind end;
  (eapply wp_mono; [lazymatch goal with
    | |- wp (rk_clrsetreg _ _ _) _ _ => eapply step_clrset; [exact P | reflexivity | by vm_compute | by vm_compute | reflexivity | reflexivity]
    | |- wp (rkclk_set_pll _ _ _) _ _ =>
        eapply step_pll; [done | exact P | by repeat constructor | unfold valid_div; vm_compute; intuition discriminate | reflexivity..]
    | |- wp (ASSERT _) _ _ => eapply step_ASSERT; [exact P | reflexivity] end |]);
  cbn beta; clear P; intros _ h P.

Section init.
Context {H : Type} `{MM : Mmio H} {BB : Build} {RU : Rk3399Unit H} (lock_patience : nat).
Context (Locks : forall c h, c ∈ plls -> locks lock_patience c h).
Implicit Types h : H.

(** The registers the initialisation writes. *)
Definition clock_init_regs : list Z :=
  flat_map pll_regs [apll_l_con; apll_b_con; gpll_con; npll_con; cpll_con] ++
  (clksel_con <$> [0; 1; 2; 3; 12; 14; 19; 21; 22; 23; 25; 56]).

(** What it establishes: the divisors and selectors, then the PLLs. *)
Definition clock_init_dividers : list fact :=
  [(clksel_con 22, 0x3f, 7); (clksel_con 21, 0x9f, 0x83); (clksel_con 25, 0x79f, 0x187);
   (clksel_con 23, 0x739f, 0x5282); (clksel_con 14, 0x739f, 0x3185)].

Definition clock_init_facts : list fact :=
  clock_init_dividers ++ pll_facts cpll_con cpll_init_cfg ++ pll_facts npll_con npll_init_cfg ++ pll_facts gpll_con gpll_init_cfg ++
  [(clksel_con 56, 0x3, 0x3); (clksel_con 19, 0xffff, 0x033f); (clksel_con 12, 0xffff, 0x4101)] ++
  [(clksel_con 3, 0x1f, 1); (clksel_con 2, 0x1f, 0)] ++ pll_facts apll_b_con apll_816_cfg ++
  [(clksel_con 1, 0x1f, 1); (clksel_con 0, 0x1f, 0)] ++ pll_facts apll_l_con apll_816_cfg.

Lemma clock_init_progress h :
  wp (rk3399_clock_init lock_patience) h (fun _ h' => progress (RU := RU) clock_init_regs h clock_init_facts h').
Proof.
  assert (P : progress (RU := RU) clock_init_regs h [] h) by (split; [constructor | done]).
  unfold rk3399_clock_init, clock_init_plls, rk3399_configure_cpu, clock_init_perihp, clock_init_perilp0, clock_init_perilp1, clock_init_emmc.
  cbv zeta. do 29 init_step P. exact P.
Qed.

(** A PLL whose facts are known reads as the rate of its divisors. *)
Lemma facts_rate fs c d h : Forall (holds (RU := RU) h) fs -> (forall f, f ∈ pll_facts c d -> f ∈ fs) -> c ∈ plls -> valid_div d ->
  wp (rkclk_pll_get_rate c) h (fun v h' => v = div_rate d /\ same_regs (RF := RU) h h').
Proof.
  intros F S Hc V. apply get_rate_spec; [done..|]. apply pll_runs_facts. apply List.Forall_forall. intros f Hf.
  apply (proj1 (List.Forall_forall _ _) F), list_elem_of_In, S, list_elem_of_In, Hf.
Qed.
End init.

Section claims.
Context {H : Type} `{MM : Mmio H} {BB : Build}.
Implicit Types h : H.

(** C26: The search for pixel clock divisors is optimal.  For a frequency of at least 1 kHz it
    returns.  Either the divisors it returns fit their fields, put the VCO in
    its range (800 to 3200 MHz), miss the frequency times the post dividers by
    at most 4 MHz, and no other candidate misses it by less; or it returns an
    error, and then the VCO would leave its range, the second post divider
    would not fit, or every candidate misses by more than 4 MHz. *)
Theorem pll_para_config_optimal hz h : KHz <= hz < 2 ^ 32 ->
  wp (pll_para_config hz) h (fun r h' => h' = h /\
    let '(p1, p2) := post_dividers (hz / KHz) in
    let vco := hz / KHz * p1 * p2 in
    match r with
    | Some div =>
        postdiv1 div = p1 /\ postdiv2 div = p2 /\ 1 <= p1 <= max_postdiv1 /\ 1 <= p2 <= max_postdiv2 /\
        VCO_MIN_KHZ <= vco <= VCO_MAX_KHZ /\ 1 <= refdiv div < max_refdiv /\ min_fbdiv < fbdiv div < max_fbdiv /\
        mismatch vco (refdiv div) (fbdiv div) <= 4000 /\
        forall r f, candidate vco r f -> mismatch vco (refdiv div) (fbdiv div) <= mismatch vco r f
    | None => max_postdiv2 < p2 \/ VCO_MAX_KHZ < vco \/ forall r f, candidate vco r f -> 4000 < mismatch vco r f
    end).
Proof.
  intros Hz. unfold pll_para_config. assert (Hf : 1 <= hz / KHz < 2 ^ 23).
  { unfold KHz in *. split; [apply Z.div_le_lower_bound; lia | apply Z.div_lt_upper_bound; lia]. }
  rewrite (proj2 (Z.eqb_neq hz 0)) by (unfold KHz in *; lia). rewrite (proj2 (Z.eqb_neq (hz / KHz) 0)) by lia.
  destruct (post_dividers (hz / KHz)) as [p1 p2] eqn:EP. pose proof (post_dividers_spec _ _ _ Hf EP) as (P1 & P2 & P3 & P4).
  set (f := hz / KHz) in *. unfold max_postdiv1, max_postdiv2 in *.
  destruct (Z.ltb_spec 7 p2) as [L2|L2]; [rewrite orb_true_r; apply wp_ret; auto|]. rewrite orb_false_r.
  assert (W : in_word 32 (f * p1 * p2)) by (unfold in_word; assert (0 <= f * p1 <= 2 ^ 23 * 7) by nia; nia).
  rewrite (wrap_small _ _ W).
  rewrite (proj2 (Z.ltb_ge _ _) P3). cbn [orb].
  destruct (Z.ltb_spec VCO_MAX_KHZ (f * p1 * p2)) as [LV|LV]; [apply wp_ret; auto|].
  set (vco := f * p1 * p2) in *.
  destruct (match_loop_best vco 62 1 (0, 0, vco)) as (r' & Hr' & B & Stop); [lia | done | |].
  { unfold VCO_MIN_KHZ in *. change (MHz / KHz) with 1000 in *. split; [lia|]. split; [lia|]. intros r f0 Hr [C _]. lia. }
  destruct (match_loop 62 vco 1 (0, 0, vco)) as [[br bf] d]. cbn [snd] in Stop. destruct B as (B1 & B2 & B3).
  assert (Min : forall r f0, candidate vco r f0 -> d <= mismatch vco r f0).
  { intros r f0 C. destruct Stop as [-> | ->]; [unfold mismatch; lia|]. apply B3; [apply C | done]. }
  change (4 * (MHz / KHz)) with 4000. destruct (Z.ltb_spec 4000 d) as [Ld|Ld]; apply wp_ret; (split; [done|]).
  - right. right. intros r f0 C. specialize (Min r f0 C). lia.
  - cbn [postdiv1 postdiv2 refdiv fbdiv]. destruct B2 as (C1 & C2 & ->).
    { unfold VCO_MIN_KHZ in *. change (MHz / KHz) with 1000 in *. lia. }
    repeat split; try done; lia.
Qed.

Context {RU : Rk3399Unit H} (lock_patience : nat) (Locks : forall c h, c ∈ plls -> locks lock_patience c h).

(** The rate each PLL is left with. *)
Definition boot_rates : list (Z * Z) :=
  [(PLL_APLLL, 816 * MHz); (PLL_APLLB, 816 * MHz); (PLL_CPLL, 800 * MHz); (PLL_GPLL, 800 * MHz); (PLL_NPLL, 1000 * MHz)].

Lemma boot_pll id rate : (id, rate) ∈ boot_rates -> exists c d, rk3399_clk_get_rate (H := H) id = rkclk_pll_get_rate c /\
  c ∈ plls /\ valid_div d /\ div_rate d = rate /\ forall f, f ∈ pll_facts c d -> f ∈ clock_init_facts.
Proof.
  intros Hi. apply list_elem_of_In in Hi. cbn [boot_rates In] in Hi.
  destruct Hi as [[= <- <-] | [[= <- <-] | [[= <- <-] | [[= <- <-] | [[= <- <-] | []]]]]];
    [exists apll_l_con, apll_816_cfg | exists apll_b_con, apll_816_cfg | exists cpll_con, cpll_init_cfg |
     exists gpll_con, gpll_init_cfg | exists npll_con, npll_init_cfg];
    (split; [reflexivity | split; [by repeat constructor | split; [unfold valid_div; vm_compute; intuition discriminate |
       split; [by vm_compute | intros f Hf; unfold clock_init_facts; rewrite !elem_of_app; tauto]]]]).
Qed.


(** The PMU clock initialisation asks for 676 MHz, but its divisors are rounded down to whole
    numbers: on hardware whose PLLs lock it returns and the PMU PLL then reads
    as 672 MHz. *)
Theorem rk3399_ppll_rate h :
  freq ppll_init_cfg = 676 * MHz /\
  wp (rk3399_pmu_clock_init lock_patience) h (fun _ h' =>
    wp (rk3399_clk_get_rate PLL_PPLL) h' (fun v h'' => v = 672 * MHz /\ same_regs (RF := RU) h' h'')).
Proof.
  split; [done|]. unfold rk3399_pmu_clock_init. apply wp_bind.
  eapply wp_mono; [apply set_pll_correct; [done | by repeat constructor | unfold valid_div; vm_compute; intuition discriminate | done]|].
  cbn beta. intros _ h1 [R _]. eapply clrset_spec; [done..|]. intros h2 _ O.
  eapply wp_mono; [apply (get_rate_spec ppll_con ppll_init_cfg); [by repeat constructor | unfold valid_div; vm_compute; intuition discriminate |]|].
  - apply pll_runs_facts. eapply facts_frame; [exact O | done|]. by apply pll_runs_facts.
  - cbn beta. by intros v h3 [-> S].
Qed.

(** Configuring a CPU cluster does not clear the divider of its ACLKM bus: the mask given
    for the field is not shifted to its place, so the old bits of the field
    stay and the new ones are only added to them. *)
Theorem rk3399_cpu_divider_kept f cluster h :
  wp (rk3399_configure_cpu lock_patience f cluster) h (fun _ h' =>
    let a := clksel_con (if cluster is CPU_CLUSTER_LITTLE then 0 else 2) in
    let m := Z.shiftl 0x1f ACLKM_CORE_DIV_CON_SHIFT in
    Z.land (rkreg a h') m =
      Z.lor (Z.land (rkreg a h) m) (Z.shiftl (freq (apll_cfgs f) / ACLKM_CORE_HZ - 1) ACLKM_CORE_DIV_CON_SHIFT)).
Proof.
  unfold rk3399_configure_cpu.
  assert (K : exists base parent c, (match cluster with CPU_CLUSTER_LITTLE => (0, CLK_CORE_PLL_SEL_ALPLL, apll_l_con)
       | CPU_CLUSTER_BIG => (2, CLK_CORE_PLL_SEL_ABPLL, apll_b_con) end) = (base, parent, c) /\
     (if cluster is CPU_CLUSTER_LITTLE then 0 else 2) = base /\ (base = 0 \/ base = 2) /\ (parent = 0 \/ parent = 1) /\
     (c = apll_l_con \/ c = apll_b_con)).
  { destruct cluster; eexists _, _, _; (split; [reflexivity|]); auto. }
  destruct K as (base & parent & c & -> & -> & Hb & Hp & Hc). cbv zeta.
  apply wp_bind. eapply wp_mono; [apply set_pll_correct; [done | | |]|].
  { destruct Hc as [-> | ->]; by repeat constructor. }
  { destruct f; unfold valid_div; vm_compute; intuition discriminate. }
  { by destruct f. }
  cbn beta. intros _ h1 [_ O1].
  apply wp_bind, wp_ASSERT; [by destruct f|]. apply wp_bind, wp_ASSERT; [by destruct f|]. apply wp_bind, wp_ASSERT; [by destruct f|].
  apply wp_bind. eapply clrset_adds; [by destruct Hb as [-> | ->] | done | |].
  { destruct f, Hp as [-> | ->]; done. }
  intros h2 E2 O2. unfold rk_clrsetreg. eapply wp_write; [by destruct Hb as [-> | ->]|]. intros h3 _ O3.
  rewrite (O3 (clksel_con base)), E2, (O1 (clksel_con base)); [|..].
  - f_equal. destruct f, Hp as [-> | ->]; done.
  - destruct Hc as [-> | ->], Hb as [-> | ->]; by apply (bool_decide_unpack (~ _)).
  - done.
  - done.
  - destruct Hb as [-> | ->]; by apply (bool_decide_unpack (~ _)).
Qed.
End claims.

(** ** A clock unit

    Registers that hold what is written, PLLs that are locked at the first read. *)
Module SmallRk3399.

#[local] Instance debug : Build := {| debug_build := true |}.

#[local] Instance unit_mmio : Mmio file := file_mmio Rk3399Kind Rk3399Status Rk3399Status.

#[local] Instance unit_regs : Rk3399Unit file.
Proof. apply file_regs. intros a. apply Z.ldiff_diag. Defined.

(** Registers as a boot ROM may leave them. *)
Definition boot_rom : file := fun _ => 0x1f00.

Lemma locked c (h : file) : c ∈ plls -> locks 1 c h.
Proof.
  intros Hc. left. cbn [mmio_read32 unit_mmio file_mmio fst].
  replace (Rk3399Status (c + 8)) with (2 ^ 31).
  - rewrite land_wrap, lor_land by done. intros E%Z.lor_eq_0_iff. destruct E as [_ E]. done.
  - apply list_elem_of_In in Hc. cbn [plls In] in Hc. by repeat (destruct Hc as [<- | Hc]; [done|]).
Qed.

Lemma pll_para_config_optimal_witness : exists div,
  pll_para_config (H := file) 148500000 boot_rom = Ret (Some div) boot_rom /\ mismatch (148500 * 6) (refdiv div) (fbdiv div) <= 4000.
Proof.
  pose proof (wp_returns _ _ _ (pll_para_config_optimal 148500000 boot_rom ltac:(unfold KHz; lia))) as (r & h' & E & -> & P).
  change (post_dividers (148500000 / KHz)) with (6, 1) in P. cbv zeta in P. destruct r as [div|].
  - exists div. split; [exact E|]. destruct P as (_ & _ & _ & _ & _ & _ & _ & P & _).
    by replace (148500 * 6) with (148500000 / KHz * 6 * 1) by reflexivity.
  - exfalso. revert E. by vm_compute.
Defined.


Lemma rk3399_ppll_rate_witness :
  wp (rk3399_pmu_clock_init 1) boot_rom (fun _ h' => wp (rk3399_clk_get_rate PLL_PPLL) h' (fun v _ => v = 672000000)).
Proof.
  eapply wp_mono; [apply (rk3399_ppll_rate (RU := unit_regs) 1 (fun c h => locked c h) boot_rom)|].
  cbn beta. intros _ h' R. eapply wp_mono; [exact R|]. by intros v h'' [-> _].
Defined.

(** The bus divider the boot ROM left is 32; instead of 2 it stays 32. *)
Lemma rk3399_cpu_divider_kept_witness :
  wp (rk3399_configure_cpu 1 APLL_816_MHZ CPU_CLUSTER_LITTLE) boot_rom (fun _ h' =>
    Z.land (reg Rk3399Kind Rk3399Status (clksel_con 0) h') 0x1f00 = 0x1f00).
Proof.
  eapply wp_mono; [apply (rk3399_cpu_divider_kept (RU := unit_regs) 1 (fun c h => locked c h) APLL_816_MHZ CPU_CLUSTER_LITTLE boot_rom)|].
  cbn beta. intros _ h' E. exact E.
Defined.
End SmallRk3399.
