(* ===== verification/I2c.v ===== *)
(** * The I2C controller of the RK356x

    Model of [src/Silicon/Rockchip/Rk356xPkg/Library/I2cLib/I2cLib.c]: reads
    and writes of the registers of a device on an I2C bus, by polling. *)

From Stdlib Require Import ZArith Lia.
From stdpp Require Import base list numbers option.
From S2P Require Import Prelude Memory Mmio.

(** ** Registers *)

Definition EFI_TIMEOUT : Z := ENCODE_ERROR 18.

Definition I2C_REFCLK : Z := 24000000.
Definition I2C_BUSCLK : Z := 100000.

Definition RKI2C_CON : Z := 0x000.
Definition ACK : Z := 2 ^ 5.
Definition STOP : Z := 2 ^ 4.
Definition START : Z := 2 ^ 3.
Definition I2C_MODE_SHIFT : Z := 1.
Definition I2C_MODE_TX : Z := Z.shiftl 0 I2C_MODE_SHIFT.
Definition I2C_MODE_RTX : Z := Z.shiftl 1 I2C_MODE_SHIFT.
Definition I2C_EN : Z := 2 ^ 0.
Definition RKI2C_CLKDIV : Z := 0x004.
Definition CLKDIVH_SHIFT : Z := 16.
Definition RKI2C_MRXADDR : Z := 0x008.
Definition RKI2C_MRXRADDR : Z := 0x00C.
Definition ADDLVLD : Z := 2 ^ 24.
Definition RKI2C_MTXCNT : Z := 0x010.
Definition RKI2C_MRXCNT : Z := 0x014.
Definition RKI2C_IEN : Z := 0x018.
Definition RKI2C_IPD : Z := 0x01C.
Definition NAKRCVIPD : Z := 2 ^ 6.
Definition STOPIPD : Z := 2 ^ 5.
Definition STARTIPD : Z := 2 ^ 4.
Definition MBRFIPD : Z := 2 ^ 3.
Definition MBTFIPD : Z := 2 ^ 2.
Definition RKI2C_TXDATA (N : Z) : Z := 0x100 + N * 4.
Definition RKI2C_RXDATA (N : Z) : Z := 0x200 + N * 4.

(** The divider the code programs: low and high half of the period. *)
Definition I2cDiv : Z := (I2C_REFCLK + I2C_BUSCLK * 8 - 1) / I2C_BUSCLK - 2.
Definition SclLow : Z := I2cDiv / 2.
Definition SclHigh : Z := if I2cDiv mod 2 =? 0 then SclLow else (I2cDiv + 1) / 2.

(** The slave register address, with a valid bit for each byte. *)
Definition mrxraddr (Register : list Z) : Z :=
  snd (fold_left (fun '(Index, r) b =>
    (Index + 1, u32 (Z.lor (Z.lor r (Z.shiftl b (Index * 8))) (Z.shiftl ADDLVLD Index)))) Register (0, 0)).

Section i2c.
Context {H : Type} `{MM : Mmio H} {BB : Build}.

Definition I2cInit (I2cBase : Z) : M H unit :=
  ASSERT (0 <=? I2cDiv);;
  MmioWrite32 (I2cBase + RKI2C_CLKDIV) (Z.lor (Z.shiftl SclHigh CLKDIVH_SHIFT) SclLow);;
  MmioWrite32 (I2cBase + RKI2C_CON) 0;;
  MmioWrite32 (I2cBase + RKI2C_IEN) 0;;
  v ← MmioRead32 (I2cBase + RKI2C_IPD);
  MmioWrite32 (I2cBase + RKI2C_IPD) v.

(** The loop of [I2cWait], [n] iterations from its end; the last value read. *)
Fixpoint wait_ipd (n : nat) (I2cBase IpdMask Value : Z) : M H Z :=
  match n with
  | O => mret Value
  | S n =>
      Value ← MmioRead32 (I2cBase + RKI2C_IPD);
      if negb (Z.land Value IpdMask =? 0) then mret Value else
      MicroSecondDelay 1;; wait_ipd n I2cBase IpdMask Value
  end.

Definition I2cWait (I2cBase Mask : Z) : M H Z :=
  let IpdMask := Z.lor Mask NAKRCVIPD in
  Value ← wait_ipd (Z.to_nat 100000) I2cBase IpdMask 0;
  MmioWrite32 (I2cBase + RKI2C_IPD) (Z.land Value IpdMask);;
  mret (if negb (Z.land Value NAKRCVIPD =? 0) then EFI_DEVICE_ERROR
        else if negb (Z.land Value Mask =? 0) then EFI_SUCCESS
        else EFI_TIMEOUT).

Definition I2cStart (I2cBase : Z) : M H Z :=
  MmioOr32 (I2cBase + RKI2C_CON) START;;
  Status ← I2cWait I2cBase STARTIPD;
  if EFI_ERROR Status then mret Status else
  MmioAnd32 (I2cBase + RKI2C_CON) (u32 (Z.lnot START));;
  mret EFI_SUCCESS.

Definition I2cStop (I2cBase : Z) : M H Z :=
  MmioOr32 (I2cBase + RKI2C_CON) STOP;;
  Status ← I2cWait I2cBase STOPIPD;
  if EFI_ERROR Status then mret Status else
  MmioAnd32 (I2cBase + RKI2C_CON) (u32 (Z.lnot STOP));;
  mret EFI_SUCCESS.

(** [for (Index = 0; ...; Index += 4) RxData[Index / 4] = ...]: [n] words from word [i]. *)
Fixpoint read_rx (n : nat) (I2cBase i : Z) : M H (list Z) :=
  match n with
  | O => mret []
  | S n =>
      w ← MmioRead32 (I2cBase + RKI2C_RXDATA i);
      ws ← read_rx n I2cBase (i + 1);
      mret (w :: ws)
  end.

(** The status, and what was copied to the caller's buffer if the transfer
    got that far.  More than 32 bytes overflow the local buffer. *)
Definition I2cRead (I2cBase Address : Z) (Register : list Z) (ValueLength : Z) : M H (Z * option (list Z)) :=
  ASSERT (Z.of_nat (length Register) <? 4);;
  ASSERT (ValueLength <=? 32);;
  I2cInit I2cBase;;
  MmioWrite32 (I2cBase + RKI2C_CON) (Z.lor I2C_EN I2C_MODE_RTX);;
  Status ← I2cStart I2cBase;
  if EFI_ERROR Status then mret (Status, None) else
  MmioWrite32 (I2cBase + RKI2C_MRXADDR) (Z.lor (Z.lor 1 (Z.shiftl Address 1)) ADDLVLD);;
  MmioWrite32 (I2cBase + RKI2C_MRXRADDR) (mrxraddr Register);;
  MmioOr32 (I2cBase + RKI2C_CON) ACK;;
  MmioWrite32 (I2cBase + RKI2C_MRXCNT) ValueLength;;
  Status ← I2cWait I2cBase MBRFIPD;
  if EFI_ERROR Status then mret (Status, None) else
  if 32 <? ValueLength then stopM Fault else
  RxData ← read_rx (Z.to_nat ((ValueLength + 3) / 4)) I2cBase 0;
  let Value := take (Z.to_nat ValueLength) (flat_map (le_bytes 4) RxData) in
  Status ← I2cStop I2cBase;
  if EFI_ERROR Status then mret (Status, Some Value) else
  MmioWrite32 (I2cBase + RKI2C_CON) 0;;
  mret (EFI_SUCCESS, Some Value).

(** [MmioWrite32 (TXDATA (Index / 4), TxData.Data32[Index / 4])]: [n] words from word [i]. *)
Fixpoint write_tx (n : nat) (I2cBase i : Z) (Data : list Z) : M H unit :=
  match n with
  | O => mret tt
  | S n =>
      MmioWrite32 (I2cBase + RKI2C_TXDATA i) (le_val (take 4 Data));;
      write_tx n I2cBase (i + 1) (drop 4 Data)
  end.

(** [pad] is what the 32-byte transfer buffer holds beforehand. *)
Definition I2cWrite (pad : list Z) (I2cBase Address : Z) (Register Value : list Z) : M H Z :=
  ASSERT (Z.of_nat (length Register) <? 4);;
  let Length := u8 (Z.of_nat (length Register + length Value)) in
  ASSERT (Length <? 32);;
  I2cInit I2cBase;;
  MmioWrite32 (I2cBase + RKI2C_CON) (Z.lor I2C_EN I2C_MODE_TX);;
  Status ← I2cStart I2cBase;
  if EFI_ERROR Status then mret Status else
  if (32 <? 1 + Z.of_nat (length Register + length Value)) then stopM Fault else
  let Data := [u8 (Z.shiftl Address 1)] ++ Register ++ Value in
  write_tx (Z.to_nat ((Length + 1 + 3) / 4)) I2cBase 0 (Data ++ drop (length Data) pad);;
  MmioWrite32 (I2cBase + RKI2C_MTXCNT) (Length + 1);;
  Status ← I2cWait I2cBase MBTFIPD;
  if EFI_ERROR Status then mret Status else
  Status ← I2cStop I2cBase;
  if EFI_ERROR Status then mret Status else
  MmioWrite32 (I2cBase + RKI2C_CON) 0;;
  mret EFI_SUCCESS.
End i2c.
