(* ===== verification/I2cSpec.v ===== *)
(** * The I2C controller, as the drivers rely on it

    What the registers of Rockchip's I2C controller do, on a bus of devices
    with registers ([I2cDevices]): start and stop conditions, a transmission of
    up to 32 bytes, a read of the registers of a device.  Each ends in an
    event that shows in the pending register after [latency] microseconds.
    [RkI2c] says that a bus of memory-mapped registers has such a controller
    at a base address. *)

From Stdlib Require Import ZArith Lia.
From stdpp Require Import base list numbers option.
From S2P Require Import Prelude Memory Mmio I2c.

(** ** Devices

    A device acknowledges its address or not, and then takes or gives bytes
    from the register whose address is sent first. *)
Class I2cDevices (D : Type) := {
  dev_write : Z -> list Z -> D -> option D;
  dev_read : Z -> list Z -> nat -> D -> option (list Z * D);
  dev_read_bytes : forall a rs n d bs d', dev_read a rs n d = Some (bs, d') -> length bs = n /\ Forall is_byte bs;
}.

Record ctrl (D : Type) := {
  dev : D;
  con : Z;
  ipd : Z;
  rxaddr : Z;
  rxraddr : Z;
  tx : Z -> Z;
  rx : list Z;
  event : option (Z * Z);  (* microseconds left, bits of the pending register *)
}.
Arguments Build_ctrl {D}.
Arguments dev {D} _.
Arguments con {D} _.
Arguments ipd {D} _.
Arguments rxaddr {D} _.
Arguments rxraddr {D} _.
Arguments tx {D} _.
Arguments rx {D} _.
Arguments event {D} _.

Section ctrl.
Context {D : Type} `{ID : I2cDevices D} (latency : Z).
Implicit Types c : ctrl D.

(** The events that are due now. *)
Definition settle c : ctrl D :=
  match event c with
  | Some (k, b) => if k <=? 0 then Build_ctrl (dev c) (con c) (Z.lor (ipd c) b) (rxaddr c) (rxraddr c) (tx c) (rx c) None else c
  | None => c
  end.

Definition raise (b : Z) c : ctrl D :=
  Build_ctrl (dev c) (con c) (ipd c) (rxaddr c) (rxraddr c) (tx c) (rx c) (Some (latency, b)).

(** The register address of a read: one byte per valid bit. *)
Definition reg_bytes (r : Z) : list Z :=
  (if Z.testbit r 24 then [r mod 256] else []) ++
  (if Z.testbit r 25 then [r / 256 mod 256] else []) ++
  (if Z.testbit r 26 then [r / 65536 mod 256] else []).

(** Bytes in words, little-endian. *)
Fixpoint words_of (n : nat) (bs : list Z) : list Z :=
  match n with
  | O => []
  | S n => le_val (take 4 bs) :: words_of n (drop 4 bs)
  end.

Definition mode c : Z := Z.land (con c) 0x6.
Definition enabled c : bool := Z.testbit (con c) 0.

Definition transmit (n : Z) c : ctrl D :=
  if enabled c && (mode c =? I2C_MODE_TX) then
    match take (Z.to_nat n) (flat_map (le_bytes 4) (tx c <$> seqZ 0 8)) with
    | a :: bs =>
        match dev_write (a / 2) bs (dev c) with
        | Some d => raise MBTFIPD (Build_ctrl d (con c) (ipd c) (rxaddr c) (rxraddr c) (tx c) (rx c) (event c))
        | None => raise NAKRCVIPD c
        end
    | [] => raise MBTFIPD c
    end
  else c.

Definition receive (n : Z) c : ctrl D :=
  if enabled c && (mode c =? I2C_MODE_RTX) then
    match dev_read (rxaddr c mod 256 / 2) (reg_bytes (rxraddr c)) (Z.to_nat n) (dev c) with
    | Some (bs, d) => raise MBRFIPD (Build_ctrl d (con c) (ipd c) (rxaddr c) (rxraddr c) (tx c) (words_of 8 (bs ++ replicate 32 0)) (event c))
    | None => raise NAKRCVIPD c
    end
  else c.

(** Writing a register; a disabled controller gives up its event. *)
Definition ctrl_write (off v : Z) c : ctrl D :=
  if off =? RKI2C_CON then
    let c' := Build_ctrl (dev c) v (ipd c) (rxaddr c) (rxraddr c) (tx c) (rx c) (if Z.testbit v 0 then event c else None) in
    if negb (Z.testbit v 0) then c' else
    if Z.testbit v 3 && negb (Z.testbit (con c) 3) then raise STARTIPD c' else
    if Z.testbit v 4 && negb (Z.testbit (con c) 4) then raise STOPIPD c' else c'
  else if off =? RKI2C_IPD then
    Build_ctrl (dev c) (con c) (Z.ldiff (ipd c) v) (rxaddr c) (rxraddr c) (tx c) (rx c) (event c)
  else if off =? RKI2C_MRXADDR then
    Build_ctrl (dev c) (con c) (ipd c) v (rxraddr c) (tx c) (rx c) (event c)
  else if off =? RKI2C_MRXRADDR then
    Build_ctrl (dev c) (con c) (ipd c) (rxaddr c) v (tx c) (rx c) (event c)
  else if off =? RKI2C_MTXCNT then transmit v c
  else if off =? RKI2C_MRXCNT then receive v c
  else if (0x100 <=? off) && (off <? 0x120) then
    Build_ctrl (dev c) (con c) (ipd c) (rxaddr c) (rxraddr c) (fun i => if i =? (off - 0x100) / 4 then v else tx c i) (rx c) (event c)
  else c.

Definition ctrl_read (off : Z) c : Z :=
  if off =? RKI2C_CON then con c
  else if off =? RKI2C_IPD then ipd (settle c)
  else if (0x200 <=? off) && (off <? 0x220) then nth (Z.to_nat ((off - 0x200) / 4)) (rx c) 0
  else 0.

Definition ctrl_delay (us : Z) c : ctrl D :=
  match event c with
  | Some (k, b) => Build_ctrl (dev c) (con c) (ipd c) (rxaddr c) (rxraddr c) (tx c) (rx c) (Some (k - us, b))
  | None => c
  end.

(** Writing settles what was due before. *)
Definition ctrl_store (off v : Z) c : ctrl D := ctrl_write off v (settle c).
End ctrl.

(** ** The controller on a bus *)
Class RkI2c (H : Type) `{MM : Mmio H} (D : Type) `{ID : I2cDevices D} (base latency : Z) := {
  ctrl_of : H -> ctrl D;
  read_ctrl : forall off h, 0 <= off < 0x300 -> off mod 4 = 0 ->
    u32 (mmio_read32 (base + off) h).1 = u32 (ctrl_read off (ctrl_of h)) /\ ctrl_of (mmio_read32 (base + off) h).2 = settle (ctrl_of h);
  write_ctrl : forall off v h, 0 <= off < 0x300 -> off mod 4 = 0 -> in_word 32 v ->
    ctrl_of (mmio_write32 (base + off) v h) = ctrl_store latency off v (ctrl_of h);
  delay_ctrl : forall us h, ctrl_of (delay_us us h) = ctrl_delay us (ctrl_of h);
}.

Section steps.
Context {H : Type} `{MM : Mmio H} {D : Type} `{ID : I2cDevices D} {base latency : Z} {RI : RkI2c H D base latency}.
Context (Latency : 0 <= latency < 100000).
Implicit Types h : H.

Lemma wp_cread off h (Q : Z -> H -> Prop) : 0 <= off < 0x300 -> off mod 4 = 0 ->
  (forall h', ctrl_of h' = settle (ctrl_of h) -> Q (u32 (ctrl_read off (ctrl_of h))) h') -> wp (MmioRead32 (base + off)) h Q.
Proof. intros H1 H2 HQ. apply wp_MmioRead32. destruct (read_ctrl off h H1 H2) as [-> E]. by apply HQ. Qed.

Lemma wp_cwrite off v h (Q : unit -> H -> Prop) : 0 <= off < 0x300 -> off mod 4 = 0 ->
  (forall h', ctrl_of h' = ctrl_store latency off (u32 v) (ctrl_of h) -> Q tt h') -> wp (MmioWrite32 (base + off) v) h Q.
Proof. intros H1 H2 HQ. apply wp_MmioWrite32, HQ. apply write_ctrl; [done..|]. by apply wrap_range. Qed.

(** No interrupt is pending. *)
Definition quiet (i : Z) : Prop := forall m, in_word 32 m -> Z.land i m = 0.

(** The controller waits for nothing, or for an event. *)
Definition at_rest h (d : D) (co ra rr : Z) (t : Z -> Z) (r : list Z) : Prop :=
  exists i, quiet i /\ ctrl_of h = Build_ctrl d co i ra rr t r None.
Definition waits h (b : Z) (d : D) (co ra rr : Z) (t : Z -> Z) (r : list Z) : Prop :=
  exists i, quiet i /\ ctrl_of h = Build_ctrl d co i ra rr t r (Some (latency, b)).

Lemma quiet_cleared i : quiet (Z.ldiff i (u32 i)).
Proof.
  intros m Hm. apply Z.bits_inj'. intros j Hj. rewrite Z.land_spec, Z.ldiff_spec, wrap_testbit, Z.bits_0 by done.
  destruct (Z.ltb_spec j 32); [by destruct (Z.testbit i j)|]. by rewrite (in_word_high 32 m), andb_false_r by (done || lia).
Qed.

(** What the poll sees and leaves when the event [b] is one it looks for. *)
Lemma quiet_event i b mask : quiet i -> in_word 32 b -> in_word 32 mask -> Z.land b mask = b ->
  (forall m, in_word 32 m -> Z.land (u32 (Z.lor i b)) m = Z.land b m) /\
  quiet (Z.ldiff (Z.lor i b) (u32 (Z.land (u32 (Z.lor i b)) mask))).
Proof.
  intros Q Hb Hm E. assert (L : forall m, in_word 32 m -> Z.land (u32 (Z.lor i b)) m = Z.land b m).
  { intros m Hw. by rewrite land_wrap, lor_land, Q, Z.lor_0_l by done. }
  split; [done|]. rewrite (L mask Hm), E, (wrap_small 32 b Hb).
  intros m Hw. apply Z.bits_inj'. intros j Hj.
  pose proof (f_equal (fun z => Z.testbit z j) (Q m Hw)) as B. cbn beta in B.
  rewrite Z.land_spec, Z.bits_0 in B. rewrite Z.land_spec, Z.ldiff_spec, Z.lor_spec, Z.bits_0.
  by destruct (Z.testbit i j), (Z.testbit b j), (Z.testbit m j).
Qed.
End steps.

(** * I2C transfers

    The driver of the RK356x against this controller: each
    transfer reaches the device and reports what it answered. *)

Section spec.
Context {H : Type} `{MM : Mmio H} {BB : Build} {D : Type} `{ID : I2cDevices D} {base latency : Z} {RI : RkI2c H D base latency}.
Context (Latency : 0 <= latency < 100000).
Implicit Types (h : H) (d : D).

Lemma settle_dev (c : ctrl D) : dev (settle c) = dev c.
Proof. unfold settle. destruct (event c) as [[k b]|]; [by destruct (k <=? 0) | done]. Qed.

Lemma settle_rest d co i ra rr t r : settle (Build_ctrl (D := D) d co i ra rr t r None) = Build_ctrl d co i ra rr t r None.
Proof. done. Qed.

(** A write outside the control register. *)
Lemma I2cInit_spec h : wp (I2cInit base) h (fun _ h' => exists ra rr t r, at_rest (base := base) (latency := latency) h' (dev (ctrl_of h)) 0 ra rr t r).
Proof.
  unfold I2cInit. apply wp_bind, wp_ASSERT; [done|].
  apply wp_bind. apply wp_cwrite; [done..|]. intros h1 E1.
  apply wp_bind. apply wp_cwrite; [done..|]. intros h2 E2.
  apply wp_bind. apply wp_cwrite; [done..|]. intros h3 E3.
  apply wp_bind. apply wp_cread; [done..|]. intros h4 E4. cbn beta.
  apply wp_cwrite; [done..|]. intros h5 E5.
  assert (C3 : exists i ra rr t r, ctrl_of h3 = Build_ctrl (dev (ctrl_of h)) 0 i ra rr t r None).
  { rewrite E3, E2, E1. set (c := ctrl_of h). pose proof (settle_dev c) as Sd. unfold ctrl_store.
    destruct (settle c) as [d0 co0 i0 ra0 rr0 t0 r0 e0]. cbn in Sd. subst d0.
    change (ctrl_write latency RKI2C_CLKDIV ?v ?c) with c.
    destruct e0 as [[k b]|]; unfold settle at 1; cbn; [destruct (k <=? 0)|]; cbn; eauto 10. }
  destruct C3 as (i & ra & rr & t & r & C3). exists ra, rr, t, r, (Z.ldiff i (u32 i)). split; [apply quiet_cleared|].
  rewrite E5, E4, C3. unfold ctrl_store. rewrite !settle_rest. cbn. by rewrite wrap_wrap by done.
Qed.

Lemma wait_ipd_spec n mask b d co i ra rr t r : in_word 32 b -> in_word 32 mask -> Z.land b mask = b -> b <> 0 -> quiet i ->
  forall k h v, 0 <= k < Z.of_nat n -> ctrl_of h = Build_ctrl d co i ra rr t r (Some (k, b)) ->
  wp (wait_ipd n base mask v) h (fun v h' => v = u32 (Z.lor i b) /\ ctrl_of h' = Build_ctrl d co (Z.lor i b) ra rr t r None).
Proof.
  intros Hb Hm E N Q. destruct (quiet_event i b mask Q Hb Hm E) as [L _].
  induction n as [|n IH]; intros k h v Hk C; [lia|]. cbn [wait_ipd].
  apply wp_bind. apply wp_cread; [done..|]. intros h1 C1. cbn beta. rewrite C in *.
  unfold ctrl_read. cbn [Z.eqb RKI2C_IPD RKI2C_CON Pos.eqb]. unfold settle in *. cbn [event ipd dev con rxaddr rxraddr tx rx] in *.
  destruct (Z.leb_spec k 0) as [K|K]; cbn [ipd].
  - rewrite L, E, (proj2 (Z.eqb_neq b 0)) by done. cbn [negb]. by apply wp_ret.
  - rewrite land_wrap, Q by done. cbn [Z.eqb negb].
    apply wp_bind, wp_modify. apply (IH (k - 1)); [lia|]. rewrite delay_ctrl, C1. done.
Qed.

(** Waiting for an event the mask names, or a missing acknowledgement. *)
Lemma I2cWait_spec h mask b d co ra rr t r : waits (base := base) (latency := latency) h b d co ra rr t r ->
  mask = STARTIPD \/ mask = STOPIPD \/ mask = MBTFIPD \/ mask = MBRFIPD -> b = mask \/ b = NAKRCVIPD ->
  wp (I2cWait base mask) h (fun st h' => st = (if b =? NAKRCVIPD then EFI_DEVICE_ERROR else EFI_SUCCESS) /\
    at_rest (base := base) (latency := latency) h' d co ra rr t r).
Proof.
  intros (i & Q & C) Hm Hb. unfold I2cWait.
  assert (A : in_word 32 b /\ in_word 32 mask /\ in_word 32 (Z.lor mask NAKRCVIPD) /\ Z.land b (Z.lor mask NAKRCVIPD) = b /\ b <> 0 /\
    (if negb (Z.land b NAKRCVIPD =? 0) then EFI_DEVICE_ERROR else if negb (Z.land b mask =? 0) then EFI_SUCCESS else EFI_TIMEOUT)
      = (if b =? NAKRCVIPD then EFI_DEVICE_ERROR else EFI_SUCCESS)).
  { destruct Hm as [-> | [-> | [-> | ->]]], Hb as [-> | ->]; done. }
  destruct A as (A1 & A2 & A3 & A4 & A5 & A6). destruct (quiet_event i b _ Q A1 A3 A4) as [L Q'].
  apply wp_bind. eapply wp_mono; [apply (wait_ipd_spec _ _ b d co i ra rr t r A1 A3 A4 A5 Q latency); [lia | exact C]|].
  cbn beta. intros v h1 [-> C1]. apply wp_bind. apply wp_cwrite; [done..|]. intros h2 C2.
  apply wp_ret. rewrite (L NAKRCVIPD), (L mask) by done. split; [exact A6|].
  eexists. split; [exact Q'|]. rewrite C2, C1. unfold ctrl_store. rewrite settle_rest. reflexivity.
Qed.

(** The control words the driver starts and stops with. *)
Definition control_word (co : Z) : Prop := co = 1 \/ co = 3 \/ co = 0x23.

Lemma control_bits co : control_word co ->
  u32 co = co /\ u32 (Z.lor co START) = Z.lor co START /\ Z.testbit (Z.lor co START) 0 = true /\ Z.testbit (Z.lor co START) 3 = true /\
  Z.testbit co 3 = false /\ Z.testbit co 4 = false /\ u32 (Z.lor co STOP) = Z.lor co STOP /\ Z.testbit (Z.lor co STOP) 0 = true /\
  Z.testbit (Z.lor co STOP) 3 = false /\ Z.testbit (Z.lor co STOP) 4 = true /\ Z.testbit co 0 = true /\
  u32 (Z.land (Z.lor co START) (u32 (Z.lnot START))) = co /\ u32 (Z.land (Z.lor co STOP) (u32 (Z.lnot STOP))) = co.
Proof. by intros [-> | [-> | ->]]. Qed.

(** A start or stop condition that is asked for comes. *)
Lemma condition_spec flag pd h d co ra rr t r : control_word co -> flag = START /\ pd = STARTIPD \/ flag = STOP /\ pd = STOPIPD ->
  at_rest (base := base) (latency := latency) h d co ra rr t r ->
  wp (MmioOr32 (base + RKI2C_CON) flag;;
      Status ← I2cWait base pd;
      if EFI_ERROR Status then mret Status else
      MmioAnd32 (base + RKI2C_CON) (u32 (Z.lnot flag));;
      mret EFI_SUCCESS) h (fun st h' => st = EFI_SUCCESS /\ at_rest (base := base) (latency := latency) h' d co ra rr t r).
Proof.
  intros Hco Hf (i & Q & C). unfold MmioOr32, MmioAnd32. apply wp_bind, wp_bind. apply wp_cread; [done..|]. intros h1 C1.
  cbn beta. rewrite C in *. rewrite settle_rest in C1. cbn [ctrl_read Z.eqb RKI2C_CON con] in *.
  apply wp_cwrite; [done..|]. intros h2 C2.
  apply wp_bind. eapply wp_mono; [apply (I2cWait_spec h2 pd pd d (Z.lor co flag) ra rr t r); [| |by left]|].
  { exists i. split; [exact Q|]. rewrite C2, C1. by destruct Hco as [-> | [-> | ->]], Hf as [[-> ->] | [-> ->]]. }
  { destruct Hf as [[_ ->] | [_ ->]]; auto. }
  cbn beta. intros st h3 [-> (i3 & Q3 & C3)]. replace (pd =? NAKRCVIPD) with false by (by destruct Hf as [[_ ->] | [_ ->]]).
  change (EFI_ERROR EFI_SUCCESS) with false. cbn iota.
  apply wp_bind, wp_bind. apply wp_cread; [done..|]. intros h4 C4. cbn beta. rewrite C3 in *. rewrite settle_rest in C4.
  apply wp_cwrite; [done..|]. intros h5 C5. apply wp_ret. split; [done|]. exists i3. split; [exact Q3|]. rewrite C5, C4.
  by destruct Hco as [-> | [-> | ->]], Hf as [[-> ->] | [-> ->]].
Qed.

(** ** The registers of a read *)

Lemma byte_of_word x k : 0 <= k -> Z.land (Z.shiftr x k) 255 = Z.shiftr (Z.land x (Z.shiftl 255 k)) k.
Proof. intros Hk. by rewrite Z.shiftr_land, Z.shiftr_shiftl_l, Z.sub_diag, Z.shiftl_0_r by lia. Qed.

Lemma mod_byte x : x mod 256 = Z.land x 255.
Proof. change 255 with (Z.ones 8). by rewrite Z.land_ones by lia. Qed.

Lemma div_byte x k : 0 <= k -> x / 2 ^ k mod 256 = Z.shiftr (Z.land x (Z.shiftl 255 k)) k.
Proof. intros Hk. by rewrite mod_byte, <- Z.shiftr_div_pow2, byte_of_word by done. Qed.

Lemma byte_mask b j k : is_byte b -> 0 <= j -> 0 <= k ->
  Z.land (Z.shiftl b (j * 8)) (Z.shiftl 255 (k * 8)) = if j =? k then Z.shiftl b (j * 8) else 0.
Proof.
  intros Hb Hj Hk. destruct (Z.eqb_spec j k) as [->|N].
  - change 255 with (Z.ones 8). apply land_shiftl_mask; [lia | done | done].
  - destruct (Z.lt_total j k) as [L | [L | L]]; [|done|].
    + apply land_below; [lia|]. pose proof (in_word_shiftl 8 (j * 8) b ltac:(lia) ltac:(done) Hb) as [W1 W2].
      split; [done|]. eapply Z.lt_le_trans; [exact W2|]. apply Z.pow_le_mono_r; lia.
    + apply land_shiftl_low; [lia|]. pose proof (in_word_shiftl 8 (k * 8) 255 ltac:(lia) ltac:(done) ltac:(done)) as [W1 W2].
      split; [done|]. eapply Z.lt_le_trans; [exact W2|]. apply Z.pow_le_mono_r; lia.
Qed.

Lemma byte_flag b j i : is_byte b -> 0 <= j <= 2 -> 24 <= i -> Z.testbit (Z.shiftl b (j * 8)) i = false.
Proof. intros Hb Hj Hi. rewrite Z.shiftl_spec by lia. apply (in_word_high 8); [done | lia]. Qed.

(** The word the code builds from up to three bytes. *)
Lemma reg_bytes_mrxraddr rs : (length rs <= 3)%nat -> Forall is_byte rs -> reg_bytes (u32 (mrxraddr rs)) = rs.
Proof.
  intros Hl Hb. unfold reg_bytes.
  change (u32 (mrxraddr rs) / 256) with (u32 (mrxraddr rs) / 2 ^ (1 * 8)). change (u32 (mrxraddr rs) / 65536) with (u32 (mrxraddr rs) / 2 ^ (2 * 8)).
  replace (u32 (mrxraddr rs) mod 256) with (u32 (mrxraddr rs) / 2 ^ (0 * 8) mod 256) by (by rewrite Z.mul_0_l, Z.pow_0_r, Z.div_1_r).
  rewrite !div_byte by done. rewrite !land_wrap, !wrap_testbit by done. cbn [Z.ltb Z.compare Pos.compare Pos.compare_cont andb].
  destruct rs as [|a [|b [|c [|]]]]; [done | | | | cbn in Hl; lia];
    repeat (apply List.Forall_cons_iff in Hb; let E := fresh "B" in destruct Hb as [E Hb]); unfold mrxraddr; cbn [fold_left snd];
    repeat (rewrite ?land_wrap, ?lor_land by done); repeat (rewrite ?wrap_testbit, ?Z.lor_spec by done).
  all: change (0 + 1) with 1; change (1 + 1) with 2; rewrite ?byte_mask, ?byte_flag by (done || lia).
  all: repeat match goal with
    | |- context [Z.testbit (Z.shiftl ADDLVLD ?i) ?j] => let v := eval vm_compute in (Z.testbit (Z.shiftl ADDLVLD i) j) in
        change (Z.testbit (Z.shiftl ADDLVLD i) j) with v
    | |- context [Z.land (Z.shiftl ADDLVLD ?i) ?m] => change (Z.land (Z.shiftl ADDLVLD i) m) with 0
    | |- context [Z.land 0 ?m] => change (Z.land 0 m) with 0
    | |- context [Z.testbit 0 ?j] => change (Z.testbit 0 j) with false
    end; cbn [orb Z.eqb Pos.eqb]; rewrite ?Z.lor_0_l, ?Z.lor_0_r, ?shiftl_shiftr by done; done.
Qed.

(** ** Bytes and words *)

Lemma le_val_word bs : Forall is_byte bs -> in_word (8 * Z.of_nat (length bs)) (le_val bs).
Proof.
  induction 1 as [|b bs Hb F IH]; [done|]. cbn [length le_val]. unfold is_byte, in_word in *.
  replace (8 * Z.of_nat (S (length bs))) with (8 + 8 * Z.of_nat (length bs)) by lia. rewrite Z.pow_add_r by lia.
  change (2 ^ 8) with 256 in *. nia.
Qed.

Lemma le_bytes_val bs : Forall is_byte bs -> le_bytes (length bs) (le_val bs) = bs.
Proof.
  induction 1 as [|b bs Hb F IH]; [done|]. cbn [length le_val le_bytes]. unfold is_byte, in_word in Hb. change (2 ^ 8) with 256 in Hb.
  rewrite Z.mul_comm, Z_mod_plus_full, Z_div_plus_full by done. rewrite (Z.mod_small b), (Z.div_small b) by done. by rewrite Z.add_0_l, IH.
Qed.

(** Words made of bytes give the bytes back. *)
Lemma bytes_of_words n bs : Forall is_byte bs -> (4 * n <= length bs)%nat ->
  flat_map (le_bytes 4) (words_of n bs) = take (4 * n) bs.
Proof.
  revert bs. induction n as [|n IH]; intros bs F L; [done|]. cbn [words_of flat_map].
  rewrite IH by (by apply list.Forall_drop || (rewrite length_drop; lia)).
  replace (le_bytes 4 (le_val (take 4 bs))) with (take 4 bs).
  - replace (4 * S n)%nat with (4 + 4 * n)%nat by lia. by rewrite take_take_drop.
  - pose proof (le_bytes_val (take 4 bs) ltac:(by apply list.Forall_take)) as E. rewrite length_take, Nat.min_l in E by lia. by rewrite E.
Qed.

Lemma words_of_word n bs : Forall is_byte bs -> Forall (in_word 32) (words_of n bs).
Proof.
  revert bs. induction n as [|n IH]; intros bs F; [constructor|]. cbn [words_of]. constructor; [|apply IH; by apply list.Forall_drop].
  pose proof (le_val_word (take 4 bs) ltac:(by apply list.Forall_take)) as [W1 W2]. split; [done|].
  eapply Z.lt_le_trans; [exact W2|]. apply Z.pow_le_mono_r; [done|]. rewrite length_take. lia.
Qed.

Lemma length_words_of n bs : length (words_of n bs) = n.
Proof. revert bs. induction n as [|n IH]; intros bs; [done|]. cbn. by rewrite IH. Qed.

Lemma take_words n k bs : (k <= n)%nat -> take k (words_of n bs) = words_of k bs.
Proof.
  revert n bs. induction k as [|k IH]; intros [|n] bs L; try done; [lia|]. cbn. by rewrite IH by lia.
Qed.

(** ** Transfers *)

(** Storing a register of a controller at rest. *)
Lemma wp_store off v h d co ra rr t r (Q : unit -> H -> Prop) : 0 <= off < 0x300 -> off mod 4 = 0 ->
  at_rest (base := base) (latency := latency) h d co ra rr t r ->
  (forall i h', quiet i -> ctrl_of h' = ctrl_write latency off (u32 v) (Build_ctrl d co i ra rr t r None) -> Q tt h') ->
  wp (MmioWrite32 (base + off) v) h Q.
Proof.
  intros H1 H2 (i & Hi & C) HQ. apply wp_cwrite; [done..|]. intros h' E. apply (HQ i); [done|].
  rewrite E, C. unfold ctrl_store. by rewrite settle_rest.
Qed.

Lemma read_rx_spec n k h d co ra rr t r : Forall (in_word 32) r -> (k + n <= length r)%nat -> (length r <= 8)%nat ->
  at_rest (base := base) (latency := latency) h d co ra rr t r ->
  wp (read_rx n base (Z.of_nat k)) h (fun v h' => v = take n (drop k r) /\ at_rest (base := base) (latency := latency) h' d co ra rr t r).
Proof.
  revert k h. induction n as [|n IH]; intros k h Hw Hl H8 A; [by apply wp_ret|]. cbn [read_rx].
  destruct A as (i & Q & C). apply wp_bind. apply wp_cread; [unfold RKI2C_RXDATA; lia | unfold RKI2C_RXDATA; rewrite Z.mod_add by done; done|].
  intros h1 C1. cbn beta. rewrite C in *. rewrite settle_rest in C1.
  destruct (lookup_lt_is_Some_2 r k) as [w Ew]; [lia|].
  assert (V : u32 (ctrl_read (RKI2C_RXDATA (Z.of_nat k)) (Build_ctrl d co i ra rr t r None)) = w).
  { unfold ctrl_read, RKI2C_RXDATA. rewrite !(proj2 (Z.eqb_neq _ _)) by (unfold RKI2C_CON, RKI2C_IPD; lia).
    rewrite (proj2 (Z.leb_le _ _)), (proj2 (Z.ltb_lt _ _)) by lia. cbn [andb rx].
    replace ((0x200 + Z.of_nat k * 4 - 0x200) / 4) with (Z.of_nat k) by (rewrite Z.add_simpl_l, Z.div_mul by done; done).
    rewrite Nat2Z.id, (nth_lookup_Some r k 0 w Ew). apply wrap_small. by apply (list.Forall_lookup_1 _ _ _ _ Hw Ew). }
  rewrite V. apply wp_bind. replace (Z.of_nat k + 1) with (Z.of_nat (S k)) by lia.
  eapply wp_mono; [apply (IH (S k) h1); [done | lia | done | by exists i]|]. cbn beta. intros ws h2 [-> A2].
  apply wp_ret. split; [|done]. by rewrite (drop_S r w k Ew).
Qed.

Lemma address_word A : in_word 7 A -> u32 (Z.lor (Z.lor 1 (Z.shiftl A 1)) ADDLVLD) mod 256 / 2 = A.
Proof.
  intros HA. rewrite mod_byte, land_wrap, !lor_land by done. change (Z.land ADDLVLD 255) with 0. change (Z.land 1 255) with 1.
  rewrite Z.lor_0_r. pose proof (in_word_shiftl 7 1 A ltac:(done) ltac:(done) HA) as W.
  rewrite (land_ones_small _ 8 ltac:(done) W : Z.land _ 255 = _). change 2 with (2 ^ 1). rewrite <- Z.shiftr_div_pow2 by done.
  rewrite Z.shiftr_lor, shiftl_shiftr by done. apply Z.lor_0_l.
Qed.

Lemma I2cRead_spec A rs n h : in_word 7 A -> (length rs <= 3)%nat -> Forall is_byte rs -> 0 <= n <= 32 ->
  wp (I2cRead base A rs n) h (fun '(st, v) h' =>
    match dev_read A rs (Z.to_nat n) (dev (ctrl_of h)) with
    | Some (bs, d') => st = EFI_SUCCESS /\ v = Some bs /\ dev (ctrl_of h') = d' /\ con (ctrl_of h') = 0
    | None => st = EFI_DEVICE_ERROR /\ v = None /\ dev (ctrl_of h') = dev (ctrl_of h)
    end).
Proof.
  intros HA Hl Hb Hn. unfold I2cRead. apply wp_bind, wp_ASSERT; [lia|]. apply wp_bind, wp_ASSERT; [lia|].
  apply wp_bind. eapply wp_mono; [apply I2cInit_spec|]. cbn beta. intros _ h1 (ra & rr & t & r & A1).
  apply wp_bind. eapply wp_store; [done | done | exact A1|]. intros i2 h2 Q2 C2.
  apply wp_bind. eapply wp_mono; [apply (condition_spec START STARTIPD h2 (dev (ctrl_of h)) 3 ra rr t r); [by right; left | by left | by exists i2]|].
  cbn beta. intros st h3 [-> A3]. change (EFI_ERROR EFI_SUCCESS) with false. cbn iota.
  apply wp_bind. eapply wp_store; [done | done | exact A3|]. intros i4 h4 Q4 C4.
  assert (A4 : at_rest (base := base) (latency := latency) h4 (dev (ctrl_of h)) 3 (u32 (Z.lor (Z.lor 1 (Z.shiftl A 1)) ADDLVLD)) rr t r) by (by exists i4).
  apply wp_bind. eapply wp_store; [done | done | exact A4|]. intros i5 h5 Q5 C5.
  apply wp_bind, wp_bind. apply wp_cread; [done..|]. intros h6 C6. cbn beta. rewrite C5 in *.
  assert (A6 : at_rest (base := base) (latency := latency) h6 (dev (ctrl_of h)) 3 (u32 (Z.lor (Z.lor 1 (Z.shiftl A 1)) ADDLVLD)) (u32 (mrxraddr rs)) t r) by (by exists i5).
  eapply wp_store; [done | done | exact A6|]. intros i7 h7 Q7 C7.
  assert (A7 : at_rest (base := base) (latency := latency) h7 (dev (ctrl_of h)) 0x23 (u32 (Z.lor (Z.lor 1 (Z.shiftl A 1)) ADDLVLD)) (u32 (mrxraddr rs)) t r) by (by exists i7).
  apply wp_bind. eapply wp_store; [done | done | exact A7|]. intros i8 h8 Q8 C8.
  assert (R : ctrl_of h8 = receive latency n (Build_ctrl (dev (ctrl_of h)) 0x23 i8
      (u32 (Z.lor (Z.lor 1 (Z.shiftl A 1)) ADDLVLD)) (u32 (mrxraddr rs)) t r None)).
  { rewrite C8, (wrap_small 32 n) by (unfold in_word; lia). done. }
  unfold receive in R. cbn [rxaddr rxraddr dev con ipd tx rx event] in R. rewrite address_word, reg_bytes_mrxraddr in R by done.
  change (enabled _ && (mode _ =? I2C_MODE_RTX)) with true in R. cbn iota in R.
  clear C2 C4 C5 C6 C7 C8 A4 A6 A7.
  destruct (dev_read A rs (Z.to_nat n) (dev (ctrl_of h))) as [[bs d']|] eqn:ER.
  - destruct (dev_read_bytes _ _ _ _ _ _ ER) as [Lb Fb].
    apply wp_bind. eapply wp_mono; [eapply (I2cWait_spec h8 MBRFIPD MBRFIPD); [by exists i8 | by auto | by left]|].
    cbn beta. intros st h9 [-> A9]. change (EFI_ERROR (if MBRFIPD =? NAKRCVIPD then _ else _)) with false. cbn iota.
    rewrite (proj2 (Z.ltb_ge _ _)) by lia. apply wp_bind.
    set (ws := words_of 8 (bs ++ replicate 32 0)) in *.
    assert (Fp : Forall is_byte (bs ++ replicate 32 0)).
    { apply List.Forall_app. split; [done|]. by apply list.Forall_replicate. }
    assert (Ln : (Z.to_nat ((n + 3) / 4) <= 8 /\ Z.to_nat n <= 4 * Z.to_nat ((n + 3) / 4))%nat).
    { pose proof (Z.div_mod (n + 3) 4 ltac:(done)). pose proof (Z.mod_pos_bound (n + 3) 4 ltac:(done)). lia. }
    eapply wp_mono; [eapply (read_rx_spec (Z.to_nat ((n + 3) / 4)) 0 h9); [by apply words_of_word | | |exact A9];
      unfold ws; rewrite length_words_of; lia|].
    cbn beta. intros rxd h10 [-> A10]. rewrite drop_0, take_words, bytes_of_words by (done || lia || (rewrite length_app, length_replicate; lia)).
    apply wp_bind. eapply wp_mono; [apply (condition_spec STOP STOPIPD h10 d' 0x23 _ _ _ _ ltac:(by right; right) ltac:(by right) A10)|].
    cbn beta. intros st h11 [-> A11]. change (EFI_ERROR EFI_SUCCESS) with false. cbn iota.
    apply wp_bind. eapply wp_store; [done | done | exact A11|]. intros i12 h12 Q12 C12. apply wp_ret.
    split; [done|]. split; [|by rewrite C12]. f_equal. rewrite take_take, Nat.min_l by lia. by rewrite take_app_length' by lia.
  - apply wp_bind. eapply wp_mono; [eapply (I2cWait_spec h8 MBRFIPD NAKRCVIPD); [by exists i8 | by auto | by right]|].
    cbn beta. intros st h9 [-> (i9 & Q9 & C9)]. change (EFI_ERROR (if NAKRCVIPD =? NAKRCVIPD then _ else _)) with true. cbn iota.
    apply wp_ret. by rewrite C9.
Qed.

Lemma write_tx_spec n i h d co ra rr t r bs : Forall is_byte bs -> 0 <= i -> i + Z.of_nat n <= 8 ->
  at_rest (base := base) (latency := latency) h d co ra rr t r ->
  wp (write_tx n base i bs) h (fun _ h' => exists t', t' <$> seqZ i (Z.of_nat n) = words_of n bs /\ (forall j, j < i -> t' j = t j) /\
    at_rest (base := base) (latency := latency) h' d co ra rr t' r).
Proof.
  revert i h t bs. induction n as [|n IH]; intros i h t bs F Hi Hn A; [by apply wp_ret; exists t|].
  cbn [write_tx words_of]. apply wp_bind. unfold RKI2C_TXDATA at 1.
  eapply wp_store; [lia | rewrite Z.mod_add by done; done | exact A|]. intros q h1 Q C.
  assert (W : u32 (le_val (take 4 bs)) = le_val (take 4 bs)).
  { apply wrap_small. pose proof (le_val_word (take 4 bs) ltac:(by apply list.Forall_take)) as [W1 W2]. split; [done|].
    eapply Z.lt_le_trans; [exact W2|]. apply Z.pow_le_mono_r; [done|]. rewrite length_take. lia. }
  rewrite W in C. set (t1 := fun j => if j =? i then le_val (take 4 bs) else t j).
  assert (A1 : at_rest (base := base) (latency := latency) h1 d co ra rr t1 r).
  { exists q. split; [exact Q|]. rewrite C. unfold ctrl_write.
    rewrite !(proj2 (Z.eqb_neq (0x100 + i * 4) _)) by (unfold RKI2C_CON, RKI2C_IPD, RKI2C_MRXADDR, RKI2C_MRXRADDR, RKI2C_MTXCNT, RKI2C_MRXCNT; lia).
    rewrite (proj2 (Z.leb_le _ _)), (proj2 (Z.ltb_lt _ _)) by lia. cbn [andb dev con ipd rxaddr rxraddr tx rx event].
    replace ((0x100 + i * 4 - 0x100) / 4) with i by (rewrite Z.add_simpl_l, Z.div_mul by done; done). reflexivity. }
  eapply wp_mono; [apply (IH (i + 1) h1 t1 (drop 4 bs)); [by apply list.Forall_drop | lia | lia | exact A1]|].
  cbn beta. intros _ h2 (t' & E & K & A2). exists t'. split; [|split; [|exact A2]].
  - rewrite seqZ_cons by lia. cbn [fmap list_fmap]. rewrite K by lia. unfold t1 at 1. rewrite Z.eqb_refl.
    replace (Z.pred (Z.of_nat (S n))) with (Z.of_nat n) by lia. change (Z.succ i) with (i + 1). by rewrite E.
  - intros j Hj. rewrite K by lia. unfold t1. by rewrite (proj2 (Z.eqb_neq j i)) by lia.
Qed.

Lemma I2cWrite_spec pad A rs vs h : in_word 7 A -> (length rs <= 3)%nat -> Forall is_byte rs -> Forall is_byte vs ->
  (length rs + length vs <= 31)%nat -> length pad = 32%nat -> Forall is_byte pad ->
  wp (I2cWrite pad base A rs vs) h (fun st h' =>
    match dev_write A (rs ++ vs) (dev (ctrl_of h)) with
    | Some d' => st = EFI_SUCCESS /\ dev (ctrl_of h') = d' /\ con (ctrl_of h') = 0
    | None => st = EFI_DEVICE_ERROR /\ dev (ctrl_of h') = dev (ctrl_of h)
    end).
Proof.
  intros HA Hl Hr Hv Hs Lp Fp. unfold I2cWrite. apply wp_bind, wp_ASSERT; [lia|].
  set (L := (length rs + length vs)%nat) in *. rewrite (wrap_small 8) by (unfold in_word; lia).
  apply wp_bind, wp_ASSERT; [lia|].
  apply wp_bind. eapply wp_mono; [apply I2cInit_spec|]. cbn beta. intros _ h1 (ra & rr & t & r & A1).
  apply wp_bind. eapply wp_store; [done | done | exact A1|]. intros i2 h2 Q2 C2.
  apply wp_bind. eapply wp_mono; [apply (condition_spec START STARTIPD h2 (dev (ctrl_of h)) 1 ra rr t r); [by left | by left | by exists i2]|].
  cbn beta. intros st h3 [-> A3]. change (EFI_ERROR EFI_SUCCESS) with false. cbn iota.
  rewrite (proj2 (Z.ltb_ge _ _)) by lia.
  pose proof (in_word_shiftl 7 1 A ltac:(done) ltac:(done) HA) as WA. rewrite (wrap_small 8) by exact WA.
  set (Data := [Z.shiftl A 1] ++ rs ++ vs).
  assert (FD : Forall is_byte Data) by (by apply List.Forall_cons; [|apply List.Forall_app]).
  assert (LD : length Data = S L) by (unfold Data; cbn; rewrite length_app; lia).
  assert (FT : Forall is_byte (Data ++ drop (length Data) pad)) by (apply List.Forall_app; split; [done | by apply list.Forall_drop]).
  assert (LT : length (Data ++ drop (length Data) pad) = 32%nat) by (rewrite length_app, length_drop; lia).
  set (n := Z.to_nat ((Z.of_nat L + 1 + 3) / 4)).
  assert (Hn : (S L <= 4 * n /\ n <= 8)%nat).
  { unfold n. pose proof (Z.div_mod (Z.of_nat L + 1 + 3) 4 ltac:(done)). pose proof (Z.mod_pos_bound (Z.of_nat L + 1 + 3) 4 ltac:(done)). lia. }
  apply wp_bind. eapply wp_mono; [eapply (write_tx_spec n 0 h3); [exact FT | lia | lia | exact A3]|].
  cbn beta. intros _ h4 (t' & E & _ & A4).
  apply wp_bind. eapply wp_store; [done | done | exact A4|]. intros i5 h5 Q5 C5.
  assert (R : ctrl_of h5 = transmit latency (Z.of_nat L + 1) (Build_ctrl (dev (ctrl_of h)) 1 i5 ra rr t' r None)).
  { rewrite C5, (wrap_small 32) by (unfold in_word; lia). done. }
  unfold transmit in R. change (enabled _ && (mode _ =? I2C_MODE_TX)) with true in R. cbn iota in R.
  cbn [rxaddr rxraddr dev con ipd tx rx event] in R.
  assert (B : take (Z.to_nat (Z.of_nat L + 1)) (flat_map (le_bytes 4) (t' <$> seqZ 0 8)) = Data).
  { replace 8 with (Z.of_nat n + Z.of_nat (8 - n)) by lia. rewrite seqZ_app, fmap_app, E, flat_map_app by lia.
    rewrite bytes_of_words by (done || lia). rewrite take_app_le by (rewrite length_take; lia).
    rewrite take_take, Nat.min_l by lia. apply take_app_length'. lia. }
  rewrite B in R. unfold Data in R. cbn [app] in R.
  replace (Z.shiftl A 1 / 2) with A in R by (rewrite Z.shiftl_mul_pow2 by done; symmetry; apply Z.div_mul; done).
  clear C2 C5. destruct (dev_write A (rs ++ vs) (dev (ctrl_of h))) as [d'|] eqn:ER.
  - apply wp_bind. eapply wp_mono; [eapply (I2cWait_spec h5 MBTFIPD MBTFIPD); [by exists i5 | by auto | by left]|].
    cbn beta. intros st h6 [-> A6]. change (EFI_ERROR (if MBTFIPD =? NAKRCVIPD then _ else _)) with false. cbn iota.
    apply wp_bind. eapply wp_mono; [apply (condition_spec STOP STOPIPD h6 d' 1 _ _ _ _ ltac:(by left) ltac:(by right) A6)|].
    cbn beta. intros st h7 [-> A7]. change (EFI_ERROR EFI_SUCCESS) with false. cbn iota.
    apply wp_bind. eapply wp_store; [done | done | exact A7|]. intros i8 h8 Q8 C8. apply wp_ret. by rewrite C8.
  - apply wp_bind. eapply wp_mono; [eapply (I2cWait_spec h5 MBTFIPD NAKRCVIPD); [by exists i5 | by auto | by right]|].
    cbn beta. intros st h6 [-> (i6 & Q6 & C6)]. change (EFI_ERROR (if NAKRCVIPD =? NAKRCVIPD then _ else _)) with true. cbn iota.
    apply wp_ret. by rewrite C6.
Qed.
End spec.
