(* ===== verification/Rtc.v ===== *)
(** * The HYM8563 real-time clock

    Model of [src/Silicon/Rockchip/Rk356xPkg/Library/Hym8563RtcLib/RtcLib.c]:
    the time services over a clock chip on the I2C bus. *)

From Stdlib Require Import ZArith Lia.
From stdpp Require Import base list numbers option.
From S2P Require Import Prelude Memory Mmio I2c I2cSpec.

(** ** Registers and data *)

Definition RTC_SECONDS : Z := 0x02.
Definition RTC_SECONDS_DL : Z := 2 ^ 7.
Definition RTC_SECONDS_MASK : Z := 0x7F.
Definition RTC_MINUTES : Z := 0x03.
Definition RTC_MINUTES_MASK : Z := 0x7F.
Definition RTC_HOURS : Z := 0x04.
Definition RTC_HOURS_MASK : Z := 0x3F.
Definition RTC_DAYS : Z := 0x05.
Definition RTC_DAYS_MASK : Z := 0x3F.
Definition RTC_MON_CENTURY : Z := 0x07.
Definition RTC_MON_MASK : Z := 0x1F.
Definition RTC_YEARS : Z := 0x08.

Record EFI_TIME := {
  Year : Z;
  Month : Z;
  Day : Z;
  Hour : Z;
  Minute : Z;
  Second : Z;
  Nanosecond : Z;
  TimeZone : Z;
  Daylight : Z;
}.

Record EFI_TIME_CAPABILITIES := {
  Resolution : Z;
  Accuracy : Z;
  SetsToZero : bool;
}.

Definition EFI_UNSPECIFIED_TIMEZONE : Z := 0x07FF.

(** The services of the firmware the library calls, and its fixed settings. *)
Class RtcPlatform (H : Type) := {
  RTC_I2C_ADDR : Z;
  CreateEventEx : H -> option Z * Z * H;
  AddMemorySpace : Z -> H -> Z * H;
  SetMemorySpaceAttributes : Z -> H -> Z * H;
  EfiConvertPointer : Z -> H -> Z * H;
}.

(** The variables of the library, and the hardware. *)
Record rtc (H : Type) := {
  mRtcI2cBusBase : Z;
  mVirtualAddressChangeEvent : option Z;
  mRuntimeEnable : bool;
  mTimeZone : Z;
  mDaylight : Z;
  hw : H;
}.
Arguments Build_rtc {H}.
Arguments mRtcI2cBusBase {H} _.
Arguments mVirtualAddressChangeEvent {H} _.
Arguments mRuntimeEnable {H} _.
Arguments mTimeZone {H} _.
Arguments mDaylight {H} _.
Arguments hw {H} _.

Section rtc.
Context {H : Type} `{MM : Mmio H} {BB : Build} {RP : RtcPlatform H}.
(** What the transfer buffer of a write holds beforehand. *)
Context (pad : list Z).

Definition set_hw (h : H) (s : rtc H) : rtc H :=
  Build_rtc (mRtcI2cBusBase s) (mVirtualAddressChangeEvent s) (mRuntimeEnable s) (mTimeZone s) (mDaylight s) h.

(** The conversions of BaseLib, with the assertions its documentation gives. *)
Definition BcdToDecimal8 (Value : Z) : M (rtc H) Z :=
  ASSERT (Value <? 0xa0);;
  ASSERT (Z.land Value 0xf <? 0xa);;
  mret (u8 (Z.shiftr Value 4 * 10 + Z.land Value 0xf)).

Definition DecimalToBcd8 (Value : Z) : M (rtc H) Z :=
  ASSERT (Value <? 100);;
  mret (u8 (Z.lor (Z.shiftl (Value / 10) 4) (Value mod 10))).

(** The value is what the caller's byte holds afterwards; [None] if it was
    not written. *)
Definition RtcRead (Register : Z) : M (rtc H) (Z * option Z) :=
  base ← gets mRtcI2cBusBase;
  r ← zoom hw set_hw (I2cRead base RTC_I2C_ADDR [Register] 1);
  mret (r.1, match r.2 with Some (v :: _) => Some v | _ => None end).

Definition RtcWrite (Register Value : Z) : M (rtc H) Z :=
  base ← gets mRtcI2cBusBase;
  zoom hw set_hw (I2cWrite pad base RTC_I2C_ADDR [Register] [Value]).

(** [if (!EFI_ERROR (Status)) Status = RtcRead (...)], register by register;
    the values read, or the failure. *)
Fixpoint read_registers (regs : list Z) : M (rtc H) (Z * list Z) :=
  match regs with
  | [] => mret (EFI_SUCCESS, [])
  | r :: regs =>
      sv ← RtcRead r;
      if EFI_ERROR sv.1 then mret (sv.1, []) else
      rest ← read_registers regs;
      mret (rest.1, default 0 sv.2 :: rest.2)
  end.

Fixpoint write_registers (regs : list (Z * Z)) : M (rtc H) Z :=
  match regs with
  | [] => mret EFI_SUCCESS
  | (r, v) :: regs =>
      b ← DecimalToBcd8 v;
      Status ← RtcWrite r b;
      if EFI_ERROR Status then mret Status else write_registers regs
  end.

(** The status, the time and the capabilities; [Time] is what the caller's
    structure holds beforehand, [caps] whether it asks for capabilities. *)
Definition LibGetTime (Time : EFI_TIME) (caps : bool) : M (rtc H) (Z * EFI_TIME * option EFI_TIME_CAPABILITIES) :=
  r ← read_registers [RTC_SECONDS; RTC_MINUTES; RTC_HOURS; RTC_DAYS; RTC_MON_CENTURY; RTC_YEARS];
  if EFI_ERROR r.1 then mret (EFI_DEVICE_ERROR, Time, None) else
  match r.2 with
  | [Seconds; Minutes; Hours; Days; MonCentury; Years] =>
      if negb (Z.land Seconds RTC_SECONDS_DL =? 0) then
        RtcWrite RTC_SECONDS (Z.land Seconds (Z.lnot RTC_SECONDS_DL));;
        mret (EFI_DEVICE_ERROR, Time, None)
      else
      y ← BcdToDecimal8 Years;
      mo ← BcdToDecimal8 (Z.land MonCentury RTC_MON_MASK);
      d ← BcdToDecimal8 (Z.land Days RTC_DAYS_MASK);
      ho ← BcdToDecimal8 (Z.land Hours RTC_HOURS_MASK);
      mi ← BcdToDecimal8 (Z.land Minutes RTC_MINUTES_MASK);
      se ← BcdToDecimal8 (Z.land Seconds RTC_SECONDS_MASK);
      tz ← gets mTimeZone;
      dl ← gets mDaylight;
      mret (EFI_SUCCESS,
            {| Year := 2000 + y; Month := if mo =? 0 then 1 else mo; Day := if d =? 0 then 1 else d; Hour := ho;
               Minute := mi; Second := se; Nanosecond := Nanosecond Time; TimeZone := tz; Daylight := dl |},
            if caps then Some {| Resolution := 1; Accuracy := 10000000; SetsToZero := false |} else None)
  | _ => stopM Fault
  end.

Definition LibSetTime (Time : EFI_TIME) : M (rtc H) Z :=
  modify (fun s => Build_rtc (mRtcI2cBusBase s) (mVirtualAddressChangeEvent s) (mRuntimeEnable s) (TimeZone Time) (Daylight Time) (hw s));;
  if (Year Time <? 2000) || (2099 <? Year Time) then mret EFI_INVALID_PARAMETER else
  Status ← write_registers [(RTC_YEARS, Year Time mod 100); (RTC_MON_CENTURY, Month Time); (RTC_DAYS, Day Time);
                            (RTC_HOURS, Hour Time); (RTC_MINUTES, Minute Time); (RTC_SECONDS, Second Time)];
  if EFI_ERROR Status then mret EFI_DEVICE_ERROR else mret EFI_SUCCESS.

Definition LibGetWakeupTime : M (rtc H) Z := mret EFI_UNSUPPORTED.
Definition LibSetWakeupTime : M (rtc H) Z := mret EFI_UNSUPPORTED.

Definition RtcVirtualAddressChangeEvent : M (rtc H) unit :=
  en ← gets mRuntimeEnable;
  if negb en then mret tt else
  modify (fun s => let '(b, h) := EfiConvertPointer (mRtcI2cBusBase s) (hw s) in
    Build_rtc b (mVirtualAddressChangeEvent s) (mRuntimeEnable s) (mTimeZone s) (mDaylight s) h).

Definition LibRtcInitialize : M (rtc H) Z := mret EFI_SUCCESS.

Definition RtcLibConstructor : M (rtc H) Z :=
  base ← gets mRtcI2cBusBase;
  ASSERT (negb (base =? 0));;
  ASSERT (negb (RTC_I2C_ADDR =? 0));;
  ev ← gets mVirtualAddressChangeEvent;
  (if ev is None then
     s ← (fun s => let '(e, st, h) := CreateEventEx (hw s) in
            Ret st (Build_rtc (mRtcI2cBusBase s) e (mRuntimeEnable s) (mTimeZone s) (mDaylight s) h));
     ASSERT (negb (EFI_ERROR s))
   else mret tt);;
  st ← (fun s => let '(st, h) := AddMemorySpace base (hw s) in Ret st (set_hw h s));
  if EFI_ERROR st then mret st else
  st ← (fun s => let '(st, h) := SetMemorySpaceAttributes base (hw s) in Ret st (set_hw h s));
  ASSERT (negb (EFI_ERROR st));;
  modify (fun s => Build_rtc (mRtcI2cBusBase s) (mVirtualAddressChangeEvent s) true (mTimeZone s) (mDaylight s) (hw s));;
  mret st.
End rtc.

(** * Properties of the real-time clock

    The time services over the I2C driver, the controller and a clock chip:
    a time that is set is read back, and a voltage-low flag is reported. *)

(** ** The chip

    A clock chip answers at its address; its registers hold what is written to
    them.  Its time stands still: what the services do is stated for one
    moment. *)
Class ClockChip (D : Type) `{ID : I2cDevices D} (a : Z) := {
  clock_reg : D -> Z -> Z;
  clock_byte : forall d r, is_byte (clock_reg d r);
  clock_write : forall r v d, 0 <= r < 16 -> is_byte v -> exists d', dev_write a [r; v] d = Some d' /\
    forall r', clock_reg d' r' = if r' =? r then v else clock_reg d r';
  clock_read : forall r d, 0 <= r < 16 -> exists d', dev_read a [r] 1 d = Some ([clock_reg d r], d') /\
    forall r', clock_reg d' r' = clock_reg d r';
}.

Section rtc.
Context {H : Type} `{MM : Mmio H} {BB : Build} {RP : RtcPlatform H} {D : Type} `{ID : I2cDevices D} {base latency : Z}.
Context {RI : RkI2c H D base latency} {CC : ClockChip D RTC_I2C_ADDR}.
Context (Latency : 0 <= latency < 100000) (Addr : in_word 7 RTC_I2C_ADDR).
Context (pad : list Z) (Pad : length pad = 32%nat /\ Forall is_byte pad).
Implicit Types s : rtc H.

(** The registers of the chip. *)
Definition regs s (r : Z) : Z := clock_reg (dev (ctrl_of (hw s))) r.

(** The variables of the library and its bus are as before. *)
Definition same_vars s s' : Prop :=
  mRtcI2cBusBase s' = mRtcI2cBusBase s /\ mVirtualAddressChangeEvent s' = mVirtualAddressChangeEvent s /\
  mRuntimeEnable s' = mRuntimeEnable s /\ mTimeZone s' = mTimeZone s /\ mDaylight s' = mDaylight s.

Lemma same_vars_hw h s : same_vars s (set_hw h s).
Proof. done. Qed.

Lemma same_vars_trans s1 s2 s3 : same_vars s1 s2 -> same_vars s2 s3 -> same_vars s1 s3.
Proof. unfold same_vars. intuition congruence. Qed.

Lemma RtcRead_spec r s : mRtcI2cBusBase s = base -> 0 <= r < 16 ->
  wp (RtcRead r) s (fun sv s' => sv = (EFI_SUCCESS, Some (regs s r)) /\ same_vars s s' /\ forall r', regs s' r' = regs s r').
Proof.
  intros Hb Hr. unfold RtcRead. apply wp_bind, wp_gets. rewrite Hb. apply wp_bind, wp_zoom.
  eapply wp_mono; [apply (I2cRead_spec (RI := RI)); [done | done | cbn; lia | by constructor; [unfold is_byte, in_word; lia|] | lia]|].
  intros [st v] h'. destruct (clock_read r (dev (ctrl_of (hw s))) Hr) as (d' & E & K). change (Z.to_nat 1) with 1%nat. rewrite E.
  intros (-> & -> & Ed & _). apply wp_ret. split; [done|]. split; [apply same_vars_hw|].
  intros r'. unfold regs. cbn [hw set_hw]. by rewrite Ed, K.
Qed.

Lemma RtcWrite_spec r v s : mRtcI2cBusBase s = base -> 0 <= r < 16 -> is_byte v ->
  wp (RtcWrite pad r v) s (fun st s' => st = EFI_SUCCESS /\ same_vars s s' /\
    forall r', regs s' r' = if r' =? r then v else regs s r').
Proof.
  intros Hb Hr Hv. unfold RtcWrite. apply wp_bind, wp_gets. rewrite Hb. apply wp_zoom.
  eapply wp_mono; [apply (I2cWrite_spec (RI := RI)); [done | done | cbn; lia | by constructor; [unfold is_byte, in_word; lia|] | by constructor |
    cbn; lia | by destruct Pad | by destruct Pad]|].
  cbn beta. intros st h'. destruct (clock_write r v (dev (ctrl_of (hw s))) Hr Hv) as (d' & E & K). cbn [app]. rewrite E.
  intros (-> & Ed & _). split; [done|]. split; [apply same_vars_hw|].
  intros r'. unfold regs. cbn [hw set_hw]. by rewrite Ed, K.
Qed.

Lemma read_registers_spec rs s : mRtcI2cBusBase s = base -> Forall (fun r => 0 <= r < 16) rs ->
  wp (read_registers rs) s (fun r s' => r = (EFI_SUCCESS, regs s <$> rs) /\ same_vars s s' /\ forall r', regs s' r' = regs s r').
Proof.
  intros Hb F. revert s Hb. induction F as [|r rs Hr F IH]; intros s Hb; [by apply wp_ret|]. cbn [read_registers].
  apply wp_bind. eapply wp_mono; [by apply RtcRead_spec|]. cbn beta. intros sv s1 (-> & V1 & K1). cbn [fst snd].
  change (EFI_ERROR EFI_SUCCESS) with false. cbn iota. apply wp_bind.
  eapply wp_mono; [apply (IH s1); by rewrite (proj1 V1)|]. cbn beta. intros rest s2 (-> & V2 & K2). apply wp_ret. cbn [fst snd default].
  split; [|split; [by eapply same_vars_trans | intros r'; by rewrite K2]].
  f_equal. cbn [fmap list_fmap]. f_equal. apply list_fmap_ext. intros i x _. apply K1.
Qed.

(** Values that fit two decimal digits. *)
Definition two_digits (v : Z) : Prop := 0 <= v < 100.

Definition bcd (v : Z) : Z := 16 * (v / 10) + v mod 10.

Lemma bcd_value v : two_digits v -> Z.lor (Z.shiftl (v / 10) 4) (v mod 10) = bcd v /\ is_byte (bcd v).
Proof.
  intros [H0 H1]. assert (F : List.Forall (fun v => Z.lor (Z.shiftl (v / 10) 4) (v mod 10) = bcd v /\ is_byte (bcd v)) (Z.of_nat <$> seq 0 100)).
  { repeat (apply List.Forall_cons; [split; [by vm_compute | by vm_compute] |]). apply List.Forall_nil. }
  apply (proj1 (List.Forall_forall _ _) F). apply list_elem_of_In, list_elem_of_fmap. exists (Z.to_nat v).
  split; [lia|]. apply elem_of_seq. lia.
Qed.

Lemma write_registers_spec rs s : mRtcI2cBusBase s = base -> Forall (fun '(r, v) => 0 <= r < 16 /\ two_digits v) rs ->
  wp (write_registers pad rs) s (fun st s' => st = EFI_SUCCESS /\ same_vars s s' /\
    forall r', regs s' r' = fold_left (fun o '(r, v) => if r' =? r then bcd v else o) rs (regs s r')).
Proof.
  intros Hb F. revert s Hb. induction F as [|[r v] rs [Hr Hv] F IH]; intros s Hb; [by apply wp_ret|]. cbn [write_registers].
  destruct (bcd_value v Hv) as [E B]. unfold two_digits in Hv.
  apply wp_bind. unfold DecimalToBcd8. apply wp_bind, wp_ASSERT; [lia|]. apply wp_ret. rewrite E, (wrap_small 8 _ B).
  apply wp_bind. eapply wp_mono; [by apply RtcWrite_spec|]. cbn beta. intros st s1 (-> & V1 & K1).
  change (EFI_ERROR EFI_SUCCESS) with false. cbn iota.
  eapply wp_mono; [apply (IH s1); by rewrite (proj1 V1)|]. cbn beta. intros st s2 (-> & V2 & K2).
  split; [done|]. split; [by eapply same_vars_trans|]. intros r'. rewrite K2, K1. done.
Qed.

(** Facts on digits, by enumeration. *)
Definition below (n : nat) (f : Z -> bool) : bool := forallb (fun k => f (Z.of_nat k)) (seq 0 n).

Lemma below_spec n f v : below n f = true -> 0 <= v < Z.of_nat n -> f v = true.
Proof.
  intros B Hv. rewrite <- (Z2Nat.id v) by lia. apply (proj1 (forallb_forall _ _) B). apply in_seq. lia.
Qed.

Lemma bcd_decode v s : two_digits v -> wp (BcdToDecimal8 (bcd v)) s (fun w s' => w = v /\ s' = s).
Proof.
  intros Hv.
  pose proof (below_spec 100 (fun v => (bcd v <? 0xa0) && (Z.land (bcd v) 0xf <? 0xa) && (u8 (Z.shiftr (bcd v) 4 * 10 + Z.land (bcd v) 0xf) =? v)) v
    eq_refl ltac:(unfold two_digits in Hv; lia)) as B. cbn beta in B. apply andb_true_iff in B as [B B3]. apply andb_true_iff in B as [B1 B2].
  unfold BcdToDecimal8. apply wp_bind, wp_ASSERT; [done|]. apply wp_bind, wp_ASSERT; [done|]. apply wp_ret. split; [lia | done].
Qed.

Lemma bcd_masked v : (0 <= v < 20 -> Z.land (bcd v) RTC_MON_MASK = bcd v) /\
  (0 <= v < 40 -> Z.land (bcd v) RTC_DAYS_MASK = bcd v) /\
  (0 <= v < 80 -> Z.land (bcd v) RTC_MINUTES_MASK = bcd v /\ Z.land (bcd v) RTC_SECONDS_DL = 0).
Proof.
  split; [|split]; intros Hv.
  - apply Z.eqb_eq. exact (below_spec 20 (fun v => Z.land (bcd v) RTC_MON_MASK =? bcd v) v eq_refl Hv).
  - apply Z.eqb_eq. exact (below_spec 40 (fun v => Z.land (bcd v) RTC_DAYS_MASK =? bcd v) v eq_refl Hv).
  - split; apply Z.eqb_eq; [exact (below_spec 80 (fun v => Z.land (bcd v) RTC_MINUTES_MASK =? bcd v) v eq_refl Hv)
      | exact (below_spec 80 (fun v => Z.land (bcd v) RTC_SECONDS_DL =? 0) v eq_refl Hv)].
Qed.

(** The times the clock can hold. *)
Definition clock_time (t : EFI_TIME) : Prop :=
  2000 <= Year t <= 2099 /\ 1 <= Month t <= 12 /\ 1 <= Day t <= 31 /\ 0 <= Hour t <= 23 /\ 0 <= Minute t <= 59 /\ 0 <= Second t <= 59.

(** The registers hold a time. *)
Definition clock_holds (s : rtc H) (t : EFI_TIME) : Prop :=
  regs s RTC_SECONDS = bcd (Second t) /\ regs s RTC_MINUTES = bcd (Minute t) /\ regs s RTC_HOURS = bcd (Hour t) /\
  regs s RTC_DAYS = bcd (Day t) /\ regs s RTC_MON_CENTURY = bcd (Month t) /\ regs s RTC_YEARS = bcd (Year t mod 100).

Lemma LibSetTime_spec t s : mRtcI2cBusBase s = base -> clock_time t ->
  wp (LibSetTime pad t) s (fun st s' => st = EFI_SUCCESS /\ mRtcI2cBusBase s' = base /\ mTimeZone s' = TimeZone t /\
    mDaylight s' = Daylight t /\ clock_holds s' t).
Proof.
  intros Hb (T1 & T2 & T3 & T4 & T5 & T6). unfold LibSetTime. apply wp_bind, wp_modify. cbn beta.
  rewrite (proj2 (Z.ltb_ge _ _)), (proj2 (Z.ltb_ge 2099 _)) by lia. cbn [orb].
  pose proof (Z.mod_pos_bound (Year t) 100 ltac:(done)).
  apply wp_bind. eapply wp_mono; [apply write_registers_spec; [exact Hb | repeat (apply List.Forall_cons; [by (split; [done | unfold two_digits; lia])|]); apply List.Forall_nil]|].
  cbn beta. intros st s1 (-> & (V1 & V2 & V3 & V4 & V5) & K). change (EFI_ERROR EFI_SUCCESS) with false. cbn iota.
  apply wp_ret. cbn in V1, V4, V5. split; [done|]. split; [congruence|]. split; [done|]. split; [done|].
  unfold clock_holds. rewrite !K. done.
Qed.

(** What the registers mean, and what reading leaves. *)
Lemma LibGetTime_spec t t0 caps s : mRtcI2cBusBase s = base -> clock_time t -> clock_holds s t ->
  wp (LibGetTime pad t0 caps) s (fun r s' =>
    r = (EFI_SUCCESS,
         {| Year := Year t; Month := Month t; Day := Day t; Hour := Hour t; Minute := Minute t; Second := Second t;
            Nanosecond := Nanosecond t0; TimeZone := mTimeZone s; Daylight := mDaylight s |},
         if caps then Some {| Resolution := 1; Accuracy := 10000000; SetsToZero := false |} else None) /\
    same_vars s s' /\ clock_holds s' t).
Proof.
  intros Hb (T1 & T2 & T3 & T4 & T5 & T6) (C1 & C2 & C3 & C4 & C5 & C6). unfold LibGetTime.
  apply wp_bind. eapply wp_mono; [apply read_registers_spec; [exact Hb | by repeat constructor]|].
  cbn beta. intros r s1 (-> & V & K). cbn [fst snd fmap list_fmap]. change (EFI_ERROR EFI_SUCCESS) with false. cbn iota.
  rewrite C1, C2, C3, C4, C5, C6. pose proof (Z.mod_pos_bound (Year t) 100 ltac:(done)).
  destruct (bcd_masked (Second t)) as (_ & _ & M1). destruct (M1 ltac:(lia)) as [M2 M3].
  rewrite M3. cbn [Z.eqb negb]. destruct (bcd_masked (Minute t)) as (_ & _ & N1). destruct (N1 ltac:(lia)) as [N2 _].
  destruct (bcd_masked (Month t)) as (O1 & _). destruct (bcd_masked (Day t)) as (_ & P1 & _). destruct (bcd_masked (Hour t)) as (_ & Q1 & _).
  rewrite O1, P1, (Q1 ltac:(lia) : Z.land _ RTC_HOURS_MASK = _), N2, (M2 : Z.land _ RTC_SECONDS_MASK = _) by lia.
  do 6 (apply wp_bind; eapply wp_mono; [apply bcd_decode; unfold two_digits; lia|]; cbn beta; intros ? ? [-> ->]).
  apply wp_bind, wp_gets, wp_bind, wp_gets, wp_ret. destruct V as (V1 & V2 & V3 & V4 & V5).
  rewrite (proj2 (Z.eqb_neq (Month t) 0)), (proj2 (Z.eqb_neq (Day t) 0)), V4, V5 by lia.
  split; [|split; [by repeat split | unfold clock_holds; by rewrite !K]].
  repeat f_equal. pose proof (Z.div_mod (Year t) 100 ltac:(done)).
  lia.
Qed.

(** ** The claims *)

(** C22: A time that is set is read back.  For a time of the years 2000 to 2099 whose fields are
    in their ranges, setting it succeeds, and reading the clock at the same
    moment succeeds with exactly these fields, including the time zone and
    daylight information, which the library keeps; the nanoseconds of the
    caller's structure are not touched.  The runs go through the I2C
    driver and its polling, whatever the latency of the controller below the
    driver's limit. *)
Theorem rtc_set_get_roundtrip t t0 caps s : mRtcI2cBusBase s = base -> clock_time t ->
  wp (st ← LibSetTime pad t; r ← LibGetTime pad t0 caps; mret (st, r)) s (fun '(st, r) s' =>
    st = EFI_SUCCESS /\
    r = (EFI_SUCCESS,
         {| Year := Year t; Month := Month t; Day := Day t; Hour := Hour t; Minute := Minute t; Second := Second t;
            Nanosecond := Nanosecond t0; TimeZone := TimeZone t; Daylight := Daylight t |},
         if caps then Some {| Resolution := 1; Accuracy := 10000000; SetsToZero := false |} else None)).
Proof.
  intros Hb Ht. apply wp_bind. eapply wp_mono; [by apply LibSetTime_spec|]. cbn beta. intros st s1 (-> & B1 & Z1 & L1 & C1).
  apply wp_bind. eapply wp_mono; [by apply LibGetTime_spec|]. cbn beta. intros r s2 (-> & _). apply wp_ret. by rewrite Z1, L1.
Qed.

(** A clock whose supply failed is reported, once.  When the chip flags low voltage
    in the seconds, reading the time fails with a device error, gives no time
    and clears the flag; if the registers still look like a time, the next
    read succeeds with it. *)
Theorem rtc_voltage_low_reported_once t t0 t1 s : mRtcI2cBusBase s = base -> clock_time t ->
  regs s RTC_SECONDS = Z.lor (bcd (Second t)) RTC_SECONDS_DL ->
  regs s RTC_MINUTES = bcd (Minute t) -> regs s RTC_HOURS = bcd (Hour t) -> regs s RTC_DAYS = bcd (Day t) ->
  regs s RTC_MON_CENTURY = bcd (Month t) -> regs s RTC_YEARS = bcd (Year t mod 100) ->
  wp (r ← LibGetTime pad t0 false; r' ← LibGetTime pad t1 false; mret (r, r')) s (fun '(r, r') _ =>
    r = (EFI_DEVICE_ERROR, t0, None) /\
    r' = (EFI_SUCCESS,
          {| Year := Year t; Month := Month t; Day := Day t; Hour := Hour t; Minute := Minute t; Second := Second t;
             Nanosecond := Nanosecond t1; TimeZone := mTimeZone s; Daylight := mDaylight s |}, None)).
Proof.
  intros Hb Ht C1 C2 C3 C4 C5 C6. pose proof Ht as (_ & _ & _ & _ & _ & T6).
  assert (F : Z.land (Z.lor (bcd (Second t)) RTC_SECONDS_DL) RTC_SECONDS_DL <> 0 /\
    Z.land (Z.lor (bcd (Second t)) RTC_SECONDS_DL) (Z.lnot RTC_SECONDS_DL) = bcd (Second t)).
  { pose proof (below_spec 60 (fun v => negb (Z.land (Z.lor (bcd v) RTC_SECONDS_DL) RTC_SECONDS_DL =? 0) &&
      (Z.land (Z.lor (bcd v) RTC_SECONDS_DL) (Z.lnot RTC_SECONDS_DL) =? bcd v)) (Second t) eq_refl ltac:(lia)) as B.
    cbn beta in B. apply andb_true_iff in B as [B1 B2]. apply negb_true_iff in B1. lia. }
  destruct F as [F1 F2]. apply wp_bind. unfold LibGetTime at 1.
  apply wp_bind. eapply wp_mono; [apply read_registers_spec; [exact Hb | by repeat constructor]|].
  cbn beta. intros r s1 (-> & V1 & K1). cbn [fst snd fmap list_fmap]. change (EFI_ERROR EFI_SUCCESS) with false. cbn iota.
  rewrite C1, (proj2 (Z.eqb_neq _ _) F1), F2. cbn [negb].
  apply wp_bind. eapply wp_mono; [apply RtcWrite_spec; [by rewrite (proj1 V1) | done | apply bcd_value; unfold two_digits; lia]|].
  cbn beta. intros st s2 (-> & V2 & K2). apply wp_ret. pose proof (same_vars_trans _ _ _ V1 V2) as (V3 & _ & _ & V4 & V5).
  apply wp_bind. eapply wp_mono; [apply (LibGetTime_spec t); [by rewrite V3 | exact Ht|]|].
  - unfold clock_holds. rewrite !K2, !K1. cbn [Z.eqb]. by repeat split.
  - cbn beta. intros r s3 (-> & _). apply wp_ret. by rewrite V4, V5.
Qed.


(** The divider the driver programs does not give the bus clock it is meant for.  The
    controller divides its 24 MHz clock by 8 times the sum of both halves plus
    two; with the halves written for a bus clock of 100 kHz that is a divisor
    of 1976, a bus clock of 12 kHz. *)
Theorem i2c_bus_clock h :
  wp (I2cInit base) h (fun _ h' => dev (ctrl_of h') = dev (ctrl_of h) /\ con (ctrl_of h') = 0) /\
  8 * (SclLow + 1 + (SclHigh + 1)) = 1976 /\ I2C_REFCLK / (8 * (SclLow + 1 + (SclHigh + 1))) = 12145.
Proof.
  split; [|done]. eapply wp_mono; [apply (I2cInit_spec (RI := RI))|]. cbn beta. intros _ h' (ra & rr & t & r & i & _ & E). by rewrite E.
Qed.
End rtc.

(** ** A clock

    A chip with registers at address 0x51, behind a controller whose events
    take five microseconds. *)
Module SmallClock.

#[local] Instance debug : Build := {| debug_build := true |}.

Definition chip : Type := Z -> Z.

Fixpoint store (r : Z) (vs : list Z) (d : chip) : chip :=
  match vs with
  | [] => d
  | v :: vs => store (r + 1) vs (fun r' => if r' =? r then v else d r')
  end.

#[local, refine] Instance chip_bus : I2cDevices chip := {|
  dev_write a bs d := if a =? 0x51 then match bs with r :: vs => Some (store r vs d) | [] => Some d end else None;
  dev_read a rs n d := if a =? 0x51 then match rs with [r] => Some ((fun i => u8 (d (r + i))) <$> seqZ 0 (Z.of_nat n), d) | _ => None end else None;
|}.
Proof.
  intros a rs n d bs d' E. destruct (a =? 0x51); [|done]. destruct rs as [|r [|]]; simplify_eq. split.
  - rewrite length_fmap, length_seqZ. lia.
  - apply List.Forall_forall. intros x Hx. apply list_elem_of_In, list_elem_of_fmap in Hx as (i & -> & _). by apply wrap_range.
Defined.

#[local] Instance platform : RtcPlatform (ctrl chip) := {|
  RTC_I2C_ADDR := 0x51;
  CreateEventEx h := (Some 1, EFI_SUCCESS, h);
  AddMemorySpace _ h := (EFI_SUCCESS, h);
  SetMemorySpaceAttributes _ h := (EFI_SUCCESS, h);
  EfiConvertPointer p h := (p, h);
|}.

#[local, refine] Instance chip_clock : ClockChip chip RTC_I2C_ADDR := {| clock_reg d r := u8 (d r) |}.
Proof.
  - intros d r. by apply wrap_range.
  - intros r v d Hr Hv. eexists. split; [reflexivity|]. intros r'. cbn [store]. destruct (r' =? r); [by apply wrap_small | done].
  - intros r d Hr. exists d. split; [|done]. change (Some ([u8 (d (r + 0))], d) = Some ([u8 (d r)], d)). by rewrite Z.add_0_r.
Defined.

Definition window (base a : Z) : bool := (base <=? a) && (a <? base + 0x300).

#[local] Instance chip_mmio : Mmio (ctrl chip) := {|
  mmio_read32 a h := if window 0xFE5E0000 a then (ctrl_read (a - 0xFE5E0000) h, settle h) else (0, h);
  mmio_write32 a v h := if window 0xFE5E0000 a then ctrl_store 5 (a - 0xFE5E0000) v h else h;
  delay_us n h := ctrl_delay n h;
  delay_ns _ h := h;
|}.

#[local, refine] Instance chip_controller : RkI2c (ctrl chip) chip 0xFE5E0000 5 := {| ctrl_of h := h |}.
Proof.
  - intros off h H1 H2. cbn [mmio_read32 chip_mmio]. unfold window. rewrite (proj2 (Z.leb_le _ _)), (proj2 (Z.ltb_lt _ _)) by lia.
    by rewrite Z.add_simpl_l.
  - intros off v h H1 H2 _. cbn [mmio_write32 chip_mmio]. unfold window. rewrite (proj2 (Z.leb_le _ _)), (proj2 (Z.ltb_lt _ _)) by lia.
    by rewrite Z.add_simpl_l.
  - done.
Defined.

Definition power_on (d : chip) : rtc (ctrl chip) :=
  Build_rtc 0xFE5E0000 None false EFI_UNSPECIFIED_TIMEZONE 0 (Build_ctrl d 0 0 0 0 (fun _ => 0) [] None).

Definition new_year : EFI_TIME :=
  {| Year := 2024; Month := 12; Day := 31; Hour := 23; Minute := 59; Second := 58; Nanosecond := 0; TimeZone := 60; Daylight := 0 |}.

Lemma rtc_set_get_roundtrip_witness :
  wp (st ← LibSetTime (replicate 32 0) new_year; r ← LibGetTime (replicate 32 0) new_year false; mret (st, r)) (power_on (fun _ => 0))
    (fun '(_, r) _ => r = (EFI_SUCCESS, new_year, None)).
Proof.
  eapply wp_mono; [apply (rtc_set_get_roundtrip (RI := chip_controller)) with (t := new_year) (t0 := new_year) (caps := false)|].
  - lia.
  - done.
  - split; [done|]. by apply list.Forall_replicate.
  - reflexivity.
  - unfold clock_time, new_year. cbn. lia.
  - by intros [st r] s' [_ ->].
Defined.

(** A chip that lost power at that time. *)
Definition flagged : chip := fun r =>
  if r =? 2 then 0xD8 else if r =? 3 then 0x59 else if r =? 4 then 0x23 else if r =? 5 then 0x31 else
  if r =? 7 then 0x12 else if r =? 8 then 0x24 else 0.

Lemma rtc_voltage_low_reported_once_witness :
  wp (r ← LibGetTime (replicate 32 0) new_year false; r' ← LibGetTime (replicate 32 0) new_year false; mret (r, r')) (power_on flagged)
    (fun '(r, r') _ => r = (EFI_DEVICE_ERROR, new_year, None) /\ r'.1.1 = EFI_SUCCESS).
Proof.
  eapply wp_mono; [apply (rtc_voltage_low_reported_once (RI := chip_controller)) with (t := new_year) (t0 := new_year) (t1 := new_year)|].
  - lia.
  - done.
  - split; [done|]. by apply list.Forall_replicate.
  - reflexivity.
  - unfold clock_time, new_year. cbn. lia.
  - reflexivity.
  - reflexivity.
  - reflexivity.
  - reflexivity.
  - reflexivity.
  - reflexivity.
  - by intros [r r'] s' [-> ->].
Defined.


Lemma i2c_bus_clock_witness : wp (I2cInit 0xFE5E0000) (hw (power_on flagged)) (fun _ h' => con (ctrl_of h') = 0).
Proof.
  eapply wp_mono; [apply (proj1 (i2c_bus_clock (RI := chip_controller) (hw (power_on flagged))))|]. by intros _ h' [_ ->].
Defined.

(** Without a chip at the address, setting the time fails. *)
Example no_chip : (fun o => match o with Ret (st, _) _ => Some st | Stop _ => None end)
  (I2cRead 0xFE5E0000 0x50 [2] 1 (hw (power_on flagged))) = Some EFI_DEVICE_ERROR.
Proof. by vm_compute. Qed.
End SmallClock.
