(* ===== verification/Otp.v ===== *)
(** * One-time programmable memory

    Model of [src/Silicon/Rockchip/Rk356xPkg/Library/OtpLib]: [OtpLib.c], which
    reads bytes of the memory through its controller, and [OtpUtil.c], which
    makes a serial number of them. *)

From Stdlib Require Import ZArith Lia.
From stdpp Require Import base list numbers option.
From S2P Require Import Prelude Memory Mmio.

(** ** Registers *)

Definition OTP_BASE : Z := 0xFE38C000.
Definition OTPC_SBPI_CTRL : Z := OTP_BASE + 0x0020.
Definition SBPI_DEVICE_ID_SHIFT : Z := 8.
Definition SBPI_DEVICE_ID_MASK : Z := Z.shiftl 0xFF SBPI_DEVICE_ID_SHIFT.
Definition SBPI_ENABLE : Z := 2 ^ 0.
Definition OTPC_SBPI_CMD_VALID_PRELOAD : Z := OTP_BASE + 0x0024.
Definition OTPC_USER_CTRL : Z := OTP_BASE + 0x0100.
Definition USER_DCTRL : Z := 2 ^ 0.
Definition OTPC_USER_ADDR : Z := OTP_BASE + 0x0104.
Definition OTPC_USER_ENABLE : Z := OTP_BASE + 0x0108.
Definition OTPC_USER_Q : Z := OTP_BASE + 0x0124.
Definition OTPC_INT_STATUS : Z := OTP_BASE + 0x0304.
Definition USER_DONE_INT_STATUS : Z := 2 ^ 2.
Definition SBPI_DONE_INT_STATUS : Z := 2 ^ 1.
Definition OTPC_SBPI_CMD_BASE (n : Z) : Z := OTP_BASE + 0x1000 + 0x4 * n.

Section otp.
Context {H : Type} `{MM : Mmio H}.
(** How often the status is polled at most; the code counts down a 64-bit word. *)
Context (patience : nat).

(** [while ((MmioRead32 (INT_STATUS) & Done) == 0) { delay; if (--Retry == 0) break; }];
    what is left of [Retry]. *)
Fixpoint wait_done (n : nat) (Done Retry : Z) : M H Z :=
  match n with
  | O => stopM NoFuel
  | S n =>
      v ← MmioRead32 OTPC_INT_STATUS;
      if negb (Z.land v Done =? 0) then mret Retry else
      MicroSecondDelay 1;;
      let Retry := u64 (Retry - 1) in
      if Retry =? 0 then mret Retry else wait_done n Done Retry
  end.

Definition OtpDisableEcc : M H unit :=
  MmioWrite32 OTPC_SBPI_CTRL (Z.lor (Z.shiftl SBPI_DEVICE_ID_MASK 16) (Z.shiftl 2 SBPI_DEVICE_ID_SHIFT));;
  MmioWrite32 OTPC_SBPI_CMD_VALID_PRELOAD (Z.lor (Z.shiftl 0xFFFF 16) 1);;
  MmioWrite32 (OTPC_SBPI_CMD_BASE 0) 0xFA;;
  MmioWrite32 (OTPC_SBPI_CMD_BASE 1) 0x09;;
  MmioWrite32 OTPC_SBPI_CTRL (Z.lor (Z.shiftl SBPI_ENABLE 16) SBPI_ENABLE);;
  wait_done patience SBPI_DONE_INT_STATUS 100000;;
  MmioWrite32 OTPC_INT_STATUS SBPI_DONE_INT_STATUS.

(** The loop over the words; [BytesRemaining] is at most [n].  The result is
    what is written through [Data]. *)
Fixpoint read_words (n : nat) (Offset Length Addr BytesRemaining Retry : Z) : M H (list Z) :=
  match n with
  | O => mret []
  | S n =>
      if BytesRemaining =? 0 then mret [] else
      MmioWrite32 OTPC_USER_ADDR (Z.lor (Z.shiftl 0xFFFF 16) Addr);;
      MmioWrite32 OTPC_USER_ENABLE (Z.lor (Z.shiftl 1 16) 1);;
      Retry ← wait_done patience USER_DONE_INT_STATUS Retry;
      MmioWrite32 OTPC_INT_STATUS USER_DONE_INT_STATUS;;
      Value ← MmioRead32 OTPC_USER_Q;
      let hi := Z.land (Z.shiftr Value 8) 0xFF in
      let lo := Z.land Value 0xFF in
      let bs := if (BytesRemaining =? Length) && negb (Z.land Offset 1 =? 0) then [hi]
                else if BytesRemaining =? 1 then [lo] else [lo; hi] in
      rest ← read_words n Offset Length (u16 (Addr + 1)) (BytesRemaining - Z.of_nat (length bs)) Retry;
      mret (bs ++ rest)
  end.

Definition OtpRead (Offset Length : Z) : M H (list Z) :=
  OtpDisableEcc;;
  MmioWrite32 OTPC_USER_CTRL (Z.lor (Z.shiftl USER_DCTRL 16) USER_DCTRL);;
  MicroSecondDelay 5;;
  Data ← read_words (Z.to_nat Length) Offset Length (Offset / 2) Length 100000;
  MmioWrite32 OTPC_USER_CTRL (Z.shiftl USER_DCTRL 16);;
  mret Data.

(** ** The serial number *)

Definition mCrcTable : list Z :=
  [0x00000000; 0x77073096; 0xEE0E612C; 0x990951BA; 0x076DC419; 0x706AF48F; 0xE963A535; 0x9E6495A3;
   0x0EDB8832; 0x79DCB8A4; 0xE0D5E91E; 0x97D2D988; 0x09B64C2B; 0x7EB17CBD; 0xE7B82D07; 0x90BF1D91;
   0x1DB71064; 0x6AB020F2; 0xF3B97148; 0x84BE41DE; 0x1ADAD47D; 0x6DDDE4EB; 0xF4D4B551; 0x83D385C7;
   0x136C9856; 0x646BA8C0; 0xFD62F97A; 0x8A65C9EC; 0x14015C4F; 0x63066CD9; 0xFA0F3D63; 0x8D080DF5;
   0x3B6E20C8; 0x4C69105E; 0xD56041E4; 0xA2677172; 0x3C03E4D1; 0x4B04D447; 0xD20D85FD; 0xA50AB56B;
   0x35B5A8FA; 0x42B2986C; 0xDBBBC9D6; 0xACBCF940; 0x32D86CE3; 0x45DF5C75; 0xDCD60DCF; 0xABD13D59;
   0x26D930AC; 0x51DE003A; 0xC8D75180; 0xBFD06116; 0x21B4F4B5; 0x56B3C423; 0xCFBA9599; 0xB8BDA50F;
   0x2802B89E; 0x5F058808; 0xC60CD9B2; 0xB10BE924; 0x2F6F7C87; 0x58684C11; 0xC1611DAB; 0xB6662D3D;
   0x76DC4190; 0x01DB7106; 0x98D220BC; 0xEFD5102A; 0x71B18589; 0x06B6B51F; 0x9FBFE4A5; 0xE8B8D433;
   0x7807C9A2; 0x0F00F934; 0x9609A88E; 0xE10E9818; 0x7F6A0DBB; 0x086D3D2D; 0x91646C97; 0xE6635C01;
   0x6B6B51F4; 0x1C6C6162; 0x856530D8; 0xF262004E; 0x6C0695ED; 0x1B01A57B; 0x8208F4C1; 0xF50FC457;
   0x65B0D9C6; 0x12B7E950; 0x8BBEB8EA; 0xFCB9887C; 0x62DD1DDF; 0x15DA2D49; 0x8CD37CF3; 0xFBD44C65;
   0x4DB26158; 0x3AB551CE; 0xA3BC0074; 0xD4BB30E2; 0x4ADFA541; 0x3DD895D7; 0xA4D1C46D; 0xD3D6F4FB;
   0x4369E96A; 0x346ED9FC; 0xAD678846; 0xDA60B8D0; 0x44042D73; 0x33031DE5; 0xAA0A4C5F; 0xDD0D7CC9;
   0x5005713C; 0x270241AA; 0xBE0B1010; 0xC90C2086; 0x5768B525; 0x206F85B3; 0xB966D409; 0xCE61E49F;
   0x5EDEF90E; 0x29D9C998; 0xB0D09822; 0xC7D7A8B4; 0x59B33D17; 0x2EB40D81; 0xB7BD5C3B; 0xC0BA6CAD;
   0xEDB88320; 0x9ABFB3B6; 0x03B6E20C; 0x74B1D29A; 0xEAD54739; 0x9DD277AF; 0x04DB2615; 0x73DC1683;
   0xE3630B12; 0x94643B84; 0x0D6D6A3E; 0x7A6A5AA8; 0xE40ECF0B; 0x9309FF9D; 0x0A00AE27; 0x7D079EB1;
   0xF00F9344; 0x8708A3D2; 0x1E01F268; 0x6906C2FE; 0xF762575D; 0x806567CB; 0x196C3671; 0x6E6B06E7;
   0xFED41B76; 0x89D32BE0; 0x10DA7A5A; 0x67DD4ACC; 0xF9B9DF6F; 0x8EBEEFF9; 0x17B7BE43; 0x60B08ED5;
   0xD6D6A3E8; 0xA1D1937E; 0x38D8C2C4; 0x4FDFF252; 0xD1BB67F1; 0xA6BC5767; 0x3FB506DD; 0x48B2364B;
   0xD80D2BDA; 0xAF0A1B4C; 0x36034AF6; 0x41047A60; 0xDF60EFC3; 0xA867DF55; 0x316E8EEF; 0x4669BE79;
   0xCB61B38C; 0xBC66831A; 0x256FD2A0; 0x5268E236; 0xCC0C7795; 0xBB0B4703; 0x220216B9; 0x5505262F;
   0xC5BA3BBE; 0xB2BD0B28; 0x2BB45A92; 0x5CB36A04; 0xC2D7FFA7; 0xB5D0CF31; 0x2CD99E8B; 0x5BDEAE1D;
   0x9B64C2B0; 0xEC63F226; 0x756AA39C; 0x026D930A; 0x9C0906A9; 0xEB0E363F; 0x72076785; 0x05005713;
   0x95BF4A82; 0xE2B87A14; 0x7BB12BAE; 0x0CB61B38; 0x92D28E9B; 0xE5D5BE0D; 0x7CDCEFB7; 0x0BDBDF21;
   0x86D3D2D4; 0xF1D4E242; 0x68DDB3F8; 0x1FDA836E; 0x81BE16CD; 0xF6B9265B; 0x6FB077E1; 0x18B74777;
   0x88085AE6; 0xFF0F6A70; 0x66063BCA; 0x11010B5C; 0x8F659EFF; 0xF862AE69; 0x616BFFD3; 0x166CCF45;
   0xA00AE278; 0xD70DD2EE; 0x4E048354; 0x3903B3C2; 0xA7672661; 0xD06016F7; 0x4969474D; 0x3E6E77DB;
   0xAED16A4A; 0xD9D65ADC; 0x40DF0B66; 0x37D83BF0; 0xA9BCAE53; 0xDEBB9EC5; 0x47B2CF7F; 0x30B5FFE9;
   0xBDBDF21C; 0xCABAC28A; 0x53B39330; 0x24B4A3A6; 0xBAD03605; 0xCDD70693; 0x54DE5729; 0x23D967BF;
   0xB3667A2E; 0xC4614AB8; 0x5D681B02; 0x2A6F2B94; 0xB40BBE37; 0xC30C8EA1; 0x5A05DF1B; 0x2D02EF8D].

(** One byte of the loop of [CalculateCrc32NoComp]. *)
Definition crc_byte (Crc b : Z) : Z := Z.lxor (Z.shiftr Crc 8) (nth (Z.to_nat (Z.lxor (u8 Crc) b)) mCrcTable 0).

Definition CalculateCrc32NoComp (Crc : Z) (Buffer : list Z) : Z := fold_left crc_byte Buffer Crc.

Definition OtpGetSerial : M H Z :=
  OtpData ← OtpRead 0x07 16;
  let SerialLo := (fun Index => nth (Index * 2 + 1) OtpData 0) <$> seq 0 8 in
  let SerialHi := (fun Index => nth (Index * 2) OtpData 0) <$> seq 0 8 in
  let BoardSerial := CalculateCrc32NoComp 0 SerialLo in
  mret (Z.lor BoardSerial (Z.shiftl (CalculateCrc32NoComp (u32 BoardSerial) SerialHi) 32)).
End otp.

(** * Properties of the one-time programmable memory

    Reads return the bytes of the memory at any alignment, the table-driven
    CRC is the polynomial one, the serial number is made of both; and what a
    controller that never answers does to a read. *)

(** ** CRC

    The reference: division by the reflected polynomial, bit by bit. *)

Definition crc_bit (c : Z) : Z := if Z.testbit c 0 then Z.lxor (Z.shiftr c 1) 0xEDB88320 else Z.shiftr c 1.

Definition crc_bits (n : nat) (c : Z) : Z := Nat.iter n crc_bit c.

Definition crc32 (c : Z) (bs : list Z) : Z := fold_left (fun c b => crc_bits 8 (Z.lxor c b)) bs c.

Lemma crc_bit_lxor a b : crc_bit (Z.lxor a b) = Z.lxor (crc_bit a) (crc_bit b).
Proof.
  unfold crc_bit. rewrite Z.lxor_spec, Z.shiftr_lxor.
  destruct (Z.testbit a 0), (Z.testbit b 0); cbn [xorb]; try done.
  - rewrite !Z.lxor_assoc. f_equal. rewrite (Z.lxor_comm 0xEDB88320), Z.lxor_assoc, Z.lxor_nilpotent. by rewrite Z.lxor_0_r.
  - rewrite !Z.lxor_assoc. f_equal. apply Z.lxor_comm.
  - by rewrite Z.lxor_assoc.
Qed.

Lemma crc_bits_lxor n a b : crc_bits n (Z.lxor a b) = Z.lxor (crc_bits n a) (crc_bits n b).
Proof.
  induction n as [|n IH]; [done|]. change (crc_bit (crc_bits n (Z.lxor a b)) = Z.lxor (crc_bit (crc_bits n a)) (crc_bit (crc_bits n b))).
  by rewrite IH, crc_bit_lxor.
Qed.

(** Bits above the ones that are divided only move. *)
Lemma crc_bits_shift n h : crc_bits n (Z.shiftl h (Z.of_nat n)) = h.
Proof.
  revert h. induction n as [|n IH]; intros h; [apply Z.shiftl_0_r|].
  assert (E : crc_bits (S n) (Z.shiftl h (Z.of_nat (S n))) = crc_bits n (crc_bit (Z.shiftl h (Z.of_nat (S n))))) by apply Nat.iter_succ_r.
  rewrite E. unfold crc_bit. rewrite Z.shiftl_spec_low, Z.shiftr_shiftl_l by lia.
  replace (Z.of_nat (S n) - 1) with (Z.of_nat n) by lia. apply IH.
Qed.

(** Each entry of the table is the remainder of its index. *)
Lemma mCrcTable_entries i : 0 <= i < 256 -> nth (Z.to_nat i) mCrcTable 0 = crc_bits 8 i.
Proof.
  intros Hi. apply Z.eqb_eq. replace (crc_bits 8 i) with (crc_bits 8 (Z.of_nat (Z.to_nat i))) by (f_equal; lia).
  assert (F : forallb (fun k => nth k mCrcTable 0 =? crc_bits 8 (Z.of_nat k)) (seq 0 256) = true) by (vm_compute; done).
  apply (proj1 (forallb_forall _ _) F). apply in_seq. lia.
Qed.

Lemma split_byte c : c = Z.lxor (Z.shiftl (Z.shiftr c 8) 8) (u8 c).
Proof.
  apply Z.bits_inj'. intros i Hi. rewrite Z.lxor_spec, Z.shiftl_spec, wrap_testbit by lia.
  destruct (Z.ltb_spec i 8).
  - by rewrite (Z.testbit_neg_r _ (i - 8)) by lia.
  - rewrite Z.shiftr_spec by lia. replace (i - 8 + 8) with i by lia. cbn. by rewrite xorb_false_r.
Qed.

Lemma lxor_byte a b : is_byte a -> is_byte b -> 0 <= Z.lxor a b < 256.
Proof.
  intros Ha Hb. apply (in_word_bits 8); [done|]. intros i Hi.
  by rewrite Z.lxor_spec, (in_word_high 8 a), (in_word_high 8 b) by (done || lia).
Qed.

Lemma crc_byte_correct c b : is_byte b -> crc_byte c b = crc_bits 8 (Z.lxor c b).
Proof.
  intros Hb. unfold crc_byte. assert (Hu : is_byte (u8 c)) by by apply wrap_range.
  rewrite mCrcTable_entries by by apply lxor_byte.
  rewrite (split_byte c) at 3. rewrite Z.lxor_assoc, (crc_bits_lxor 8 (Z.shiftl _ 8)).
  by rewrite (crc_bits_shift 8).
Qed.

(** The table-driven checksum computes the CRC-32 remainder.  For any initial value and any
    bytes, the result of the table loop is that of dividing bit by bit by the
    reflected polynomial 0xEDB88320. *)
Theorem CalculateCrc32_correct c bs : Forall is_byte bs -> CalculateCrc32NoComp c bs = crc32 c bs.
Proof.
  intros F. unfold CalculateCrc32NoComp, crc32. revert c. induction F as [|b bs Hb F IH]; intros c; [done|].
  cbn [fold_left]. by rewrite crc_byte_correct, IH.
Qed.

(** ** The controller

    What the reads rely on: the settings of the memory are written in
    [latency] microseconds after the command, a word of it is in the data
    register [latency] microseconds after it is asked for, and the status
    register says so. *)

Record octrl := {
  user : bool;              (* the user port is on *)
  oaddr : Z;
  oq : Z;
  ostatus : Z;
  oevent : option (Z * Z);  (* microseconds left, bit of the status *)
}.

Section octrl.
Context (fuse : Z -> Z) (latency : Z).

Definition osettle (c : octrl) : octrl :=
  match oevent c with
  | Some (k, b) =>
      if k <=? 0
      then Build_octrl (user c) (oaddr c) (if b =? USER_DONE_INT_STATUS then fuse (Z.land (oaddr c) 0xFFFF) else oq c) (Z.lor (ostatus c) b) None
      else c
  | None => c
  end.

Definition enables (v : Z) : bool := Z.testbit v 16 && Z.testbit v 0.

Definition octrl_write (a v : Z) (c : octrl) : octrl :=
  if a =? OTPC_SBPI_CTRL then
    if enables v then Build_octrl (user c) (oaddr c) (oq c) (ostatus c) (Some (latency, SBPI_DONE_INT_STATUS)) else c
  else if a =? OTPC_USER_CTRL then
    if Z.testbit v 16 then Build_octrl (Z.testbit v 0) (oaddr c) (oq c) (ostatus c) (oevent c) else c
  else if a =? OTPC_USER_ADDR then Build_octrl (user c) (hiword_write (oaddr c) v) (oq c) (ostatus c) (oevent c)
  else if a =? OTPC_USER_ENABLE then
    if enables v && user c then Build_octrl (user c) (oaddr c) (oq c) (ostatus c) (Some (latency, USER_DONE_INT_STATUS)) else c
  else if a =? OTPC_INT_STATUS then Build_octrl (user c) (oaddr c) (oq c) (Z.ldiff (ostatus c) v) (oevent c)
  else c.

Definition octrl_read (a : Z) (c : octrl) : Z :=
  if a =? OTPC_INT_STATUS then ostatus (osettle c) else if a =? OTPC_USER_Q then oq (osettle c) else 0.

Definition octrl_delay (us : Z) (c : octrl) : octrl :=
  Build_octrl (user c) (oaddr c) (oq c) (ostatus c) (match oevent c with Some (k, b) => Some (k - us, b) | None => None end).
End octrl.

Class RkOtp (H : Type) `{MM : Mmio H} (fuse : Z -> Z) (latency : Z) := {
  otp_of : H -> octrl;
  read_otp : forall a h,
    u32 (mmio_read32 a h).1 = u32 (octrl_read fuse a (otp_of h)) /\ otp_of (mmio_read32 a h).2 = osettle fuse (otp_of h);
  write_otp : forall a v h, in_word 32 v -> otp_of (mmio_write32 a v h) = octrl_write latency a v (osettle fuse (otp_of h));
  delay_otp : forall us h, otp_of (delay_us us h) = octrl_delay us (otp_of h);
}.

(** The memory, byte by byte. *)
Definition otp_byte (fuse : Z -> Z) (i : Z) : Z := Z.land (Z.shiftr (fuse (i / 2)) (if Z.odd i then 8 else 0)) 0xFF.

(** The words the bytes from [p] lie in. *)
Definition words_spanned (p n : Z) : Z := (p + n + 1) / 2 - p / 2.

Section reads.
Context {H : Type} `{MM : Mmio H} {fuse : Z -> Z} {latency : Z} {RO : RkOtp H fuse latency} (patience : nat).
Context (fuse_word : forall i, in_word 32 (fuse i)) (Latency : 0 <= latency) (Patience : 100000 <= Z.of_nat patience).
Implicit Types h : H.

Lemma wp_oread a h (Q : Z -> H -> Prop) :
  (forall h', otp_of h' = osettle fuse (otp_of h) -> Q (u32 (octrl_read fuse a (otp_of h))) h') -> wp (MmioRead32 a) h Q.
Proof. intros HQ. apply wp_MmioRead32. destruct (read_otp a h) as [-> E]. by apply HQ. Qed.

Lemma wp_owrite a v h (Q : unit -> H -> Prop) :
  (forall h', otp_of h' = octrl_write latency a (u32 v) (osettle fuse (otp_of h)) -> Q tt h') -> wp (MmioWrite32 a v) h Q.
Proof. intros HQ. apply wp_MmioWrite32, HQ, write_otp. by apply wrap_range. Qed.

(** The controller waits for nothing, and shows no event. *)
Definition otp_rest (h : H) (u : bool) : Prop :=
  exists A q s, in_word 32 A /\ Z.land s 6 = 0 /\ otp_of h = Build_octrl u A q s None.

Lemma status_event s b : Z.land s 6 = 0 -> b = USER_DONE_INT_STATUS \/ b = SBPI_DONE_INT_STATUS ->
  Z.land (u32 s) b = 0 /\ Z.land (u32 (Z.lor s b)) b = b /\ Z.land (Z.ldiff (Z.lor s b) (u32 b)) 6 = 0.
Proof.
  intros Hs Hb. assert (W : in_word 32 b) by (by destruct Hb as [-> | ->]).
  assert (E : Z.land s b = 0).
  { replace b with (Z.land 6 b) by (by destruct Hb as [-> | ->]). by rewrite Z.land_assoc, Hs. }
  split; [by rewrite land_wrap|]. split; [rewrite land_wrap, lor_land, E, Z.land_diag by done; done|].
  rewrite wrap_small by done. apply Z.bits_inj'. intros i Hi.
  pose proof (f_equal (fun z => Z.testbit z i) Hs) as F. cbn beta in F. rewrite Z.land_spec, Z.bits_0 in F.
  rewrite Z.land_spec, Z.ldiff_spec, Z.lor_spec, Z.bits_0.
  by destruct (Z.testbit s i), (Z.testbit b i), (Z.testbit 6 i).
Qed.

(** The wait for an event ends when it comes, and [Retry] says how long it took. *)
Lemma wait_done_spec b u A q s : Z.land s 6 = 0 -> b = USER_DONE_INT_STATUS \/ b = SBPI_DONE_INT_STATUS ->
  forall n k Retry h, 0 <= k < Retry -> Retry < 2 ^ 64 -> k < Z.of_nat n -> otp_of h = Build_octrl u A q s (Some (k, b)) ->
  wp (wait_done n b Retry) h (fun r h' => r = Retry - k /\
    otp_of h' = Build_octrl u A (if b =? USER_DONE_INT_STATUS then fuse (Z.land A 0xFFFF) else q) (Z.lor s b) None).
Proof.
  intros Hs Hb. destruct (status_event s b Hs Hb) as (E1 & E2 & _).
  induction n as [|n IH]; intros k Retry h Hk HR Hn C; [lia|]. cbn [wait_done].
  apply wp_bind, wp_oread. intros h1 C1. rewrite C in *. unfold octrl_read, osettle in *.
  cbn [Z.eqb OTPC_INT_STATUS OTP_BASE Pos.eqb Z.add Pos.add oevent user oaddr oq ostatus] in *.
  rewrite Z.eqb_refl in *. destruct (Z.leb_spec k 0) as [K|K]; cbn [ostatus].
  - rewrite E2. replace (b =? 0) with false by (by destruct Hb as [-> | ->]). apply wp_ret. split; [lia | exact C1].
  - rewrite E1. cbn [Z.eqb negb]. apply wp_bind, wp_modify. rewrite (wrap_small 64 (Retry - 1)) by (split; lia).
    rewrite (proj2 (Z.eqb_neq (Retry - 1) 0)) by lia.
    eapply wp_mono; [apply (IH (k - 1) (Retry - 1)); [lia | lia | lia|]|].
    { by rewrite delay_otp, C1. }
    cbn beta. intros r h' [-> C']. split; [lia | exact C'].
Qed.

Lemma addr_written A a : in_word 32 A -> in_word 16 a -> in_word 32 (hiword_write A (u32 (Z.lor (Z.shiftl 0xFFFF 16) a))) /\
  Z.land (hiword_write A (u32 (Z.lor (Z.shiftl 0xFFFF 16) a))) 0xFFFF = a.
Proof.
  intros HA Ha. split; [apply hiword_write_word; [done | by apply wrap_range]|].
  change (Z.lor (Z.shiftl 0xFFFF 16) a) with (hiword 0xFFFF a). rewrite hiword_write_set by done.
  by apply (land_ones_small a 16).
Qed.

Lemma OtpDisableEcc_spec h u : latency < 100000 -> otp_rest h u -> wp (OtpDisableEcc patience) h (fun _ h' => otp_rest h' u).
Proof.
  intros HL (A & q & s & HA & Hs & C). unfold OtpDisableEcc.
  apply wp_bind, wp_owrite. intros h1 C1. apply wp_bind, wp_owrite. intros h2 C2. apply wp_bind, wp_owrite. intros h3 C3.
  apply wp_bind, wp_owrite. intros h4 C4. apply wp_bind, wp_owrite. intros h5 C5.
  assert (E5 : otp_of h5 = Build_octrl u A q s (Some (latency, SBPI_DONE_INT_STATUS))) by by rewrite C5, C4, C3, C2, C1, C.
  apply wp_bind. eapply wp_mono; [apply (wait_done_spec _ u A q s Hs (or_intror eq_refl) patience latency 100000 h5); [lia | lia | lia | exact E5]|].
  cbn beta. intros r h6 [_ C6]. apply wp_owrite. intros h7 C7. unfold otp_rest. rewrite C7, C6.
  exists A, q. eexists. split; [done|]. split; [|done]. apply (status_event s); [done | by right].
Qed.

(** One word: its address is written, the read is started and waited for. *)
Lemma word_spec {B} (k : Z -> Z -> M H B) (Q : B -> H -> Prop) a Retry h :
  in_word 16 a -> latency < Retry <= 100000 -> otp_rest h true ->
  (forall h', otp_rest h' true -> wp (k (Retry - latency) (fuse a)) h' Q) ->
  wp (MmioWrite32 OTPC_USER_ADDR (Z.lor (Z.shiftl 0xFFFF 16) a);;
      MmioWrite32 OTPC_USER_ENABLE (Z.lor (Z.shiftl 1 16) 1);;
      r ← wait_done patience USER_DONE_INT_STATUS Retry;
      MmioWrite32 OTPC_INT_STATUS USER_DONE_INT_STATUS;;
      Value ← MmioRead32 OTPC_USER_Q; k r Value) h Q.
Proof.
  intros Ha HR (A & q & s & HA & Hs & C) HQ. destruct (addr_written A a HA Ha) as [W E].
  apply wp_bind, wp_owrite. intros h1 C1. apply wp_bind, wp_owrite. intros h2 C2.
  set (A' := hiword_write A (u32 (Z.lor (Z.shiftl 0xFFFF 16) a))) in *.
  assert (E2 : otp_of h2 = Build_octrl true A' q s (Some (latency, USER_DONE_INT_STATUS))) by by rewrite C2, C1, C.
  apply wp_bind. eapply wp_mono; [apply (wait_done_spec _ true A' q s Hs (or_introl eq_refl) patience latency Retry h2); [lia | lia | lia | exact E2]|].
  cbn beta. intros r h3 [-> C3]. rewrite Z.eqb_refl, E in C3.
  apply wp_bind, wp_owrite. intros h4 C4. apply wp_bind, wp_oread. intros h5 C5.
  assert (E4 : otp_of h4 = Build_octrl true A' (fuse a) (Z.ldiff (Z.lor s USER_DONE_INT_STATUS) (u32 USER_DONE_INT_STATUS)) None) by by rewrite C4, C3.
  rewrite E4 in *. change (octrl_read fuse OTPC_USER_Q _) with (fuse a). rewrite (wrap_small 32 (fuse a)) by done.
  apply HQ. exists A', (fuse a). eexists. split; [done|]. split; [|exact C5].
  apply (status_event s); [done | by left].
Qed.

(** The bytes of the word [p / 2] that a read of [n] bytes from [p] takes. *)
Lemma word_bytes p n : 0 <= p -> 0 < n ->
  otp_byte fuse <$> seqZ p n =
  (if Z.odd p then [Z.land (Z.shiftr (fuse (p / 2)) 8) 0xFF] else
   if n =? 1 then [Z.land (fuse (p / 2)) 0xFF] else [Z.land (fuse (p / 2)) 0xFF; Z.land (Z.shiftr (fuse (p / 2)) 8) 0xFF]) ++
  (otp_byte fuse <$> (if Z.odd p || (n =? 1) then seqZ (p + 1) (n - 1) else seqZ (p + 2) (n - 2))).
Proof.
  intros Hp Hn. rewrite seqZ_cons by lia. cbn [fmap list_fmap]. rewrite <- Z.add_1_r, <- Z.sub_1_r.
  assert (E0 : otp_byte fuse p = Z.land (Z.shiftr (fuse (p / 2)) (if Z.odd p then 8 else 0)) 0xFF) by done.
  destruct (Z.odd p) eqn:O; cbn [orb]; [by rewrite E0|]. destruct (Z.eqb_spec n 1) as [->|N]; [by rewrite E0|].
  rewrite (seqZ_cons (p + 1)) by lia. cbn [fmap list_fmap app]. rewrite E0. rewrite <- Z.add_1_r, <- Z.sub_1_r, <- Z.add_assoc.
  replace (n - 1 - 1) with (n - 2) by lia. f_equal. change (1 + 1) with 2. f_equal.
  unfold otp_byte. rewrite Z.add_1_r, Z.odd_succ. rewrite <- Z.negb_odd, O. cbn [negb].
  apply Bool.negb_true_iff in O as O'. rewrite Z.negb_odd in O'. apply Z.even_spec in O' as [m ->].
  replace (Z.succ (2 * m) / 2) with (2 * m / 2) by (rewrite (Z.mul_comm 2), Z.div_mul by lia; apply Z.div_unique with 1; lia). done.
Qed.

Lemma read_words_spec Offset Length : 0 <= Offset < 2 ^ 16 -> 0 <= Length < 2 ^ 16 ->
  forall n p B Retry h, 0 <= B <= Z.of_nat n -> p + B = Offset + Length -> (p = Offset \/ Offset < p /\ Z.odd p = false) ->
  Retry <= 100000 -> (B = 0 \/ words_spanned p B * latency < Retry) -> otp_rest h true ->
  wp (read_words patience n Offset Length (p / 2) B Retry) h (fun bs h' => bs = (otp_byte fuse <$> seqZ p B) /\ otp_rest h' true).
Proof.
  intros HO HL n. induction n as [|n IH]; intros p B Retry h HB Hp Halign HR Hw Hr.
  { replace B with 0 by lia. by apply wp_ret. }
  cbn [read_words]. destruct (Z.eqb_spec B 0) as [->|NB]; [by apply wp_ret|].
  destruct Hw as [|Hw]; [lia|]. assert (Hp0 : 0 <= p) by lia.
  pose proof (Z.div_mod p 2 ltac:(lia)) as D1. pose proof (Z.mod_pos_bound p 2 ltac:(lia)) as D2.
  pose proof (Z.div_mod (p + B + 1) 2 ltac:(lia)) as D3. pose proof (Z.mod_pos_bound (p + B + 1) 2 ltac:(lia)) as D4.
  unfold words_spanned in Hw.
  assert (Hw1 : 1 <= (p + B + 1) / 2 - p / 2) by lia.
  assert (Hlat : latency < Retry) by nia.
  apply word_spec; [split; lia | lia | done |]. intros h' Hr'. cbv zeta.
  assert (Hbs : (if (B =? Length) && negb (Z.land Offset 1 =? 0) then [Z.land (Z.shiftr (fuse (p / 2)) 8) 0xFF]
    else if B =? 1 then [Z.land (fuse (p / 2)) 0xFF] else [Z.land (fuse (p / 2)) 0xFF; Z.land (Z.shiftr (fuse (p / 2)) 8) 0xFF]) =
    (if Z.odd p then [Z.land (Z.shiftr (fuse (p / 2)) 8) 0xFF]
    else if B =? 1 then [Z.land (fuse (p / 2)) 0xFF] else [Z.land (fuse (p / 2)) 0xFF; Z.land (Z.shiftr (fuse (p / 2)) 8) 0xFF])).
  { replace ((B =? Length) && negb (Z.land Offset 1 =? 0)) with (Z.odd p); [done|].
    assert (L1 : negb (Z.land Offset 1 =? 0) = Z.odd Offset).
    { change 1 with (Z.ones 1). rewrite Z.land_ones, Zmod_odd by lia. by destruct (Z.odd Offset). }
    rewrite L1. destruct Halign as [-> | [Hlt ->]]; [by rewrite (proj2 (Z.eqb_eq B Length)) by lia|].
    by rewrite (proj2 (Z.eqb_neq B Length)) by lia. }
  rewrite Hbs, (word_bytes p B) by lia. clear Hbs.
  assert (Hodd : p mod 2 = if Z.odd p then 1 else 0) by apply Zmod_odd.
  rewrite (wrap_small 16 (p / 2 + 1)) by (split; lia).
  assert (Step : forall q bs, p < q -> (Z.odd q = false \/ p + B <= q) -> q / 2 = p / 2 + 1 \/ p + B <= q -> q = p + Z.of_nat (length bs) -> q <= p + B ->
    wp (rest ← read_words patience n Offset Length (p / 2 + 1) (B - Z.of_nat (length bs)) (Retry - latency); mret (bs ++ rest)) h'
      (fun bs' h'' => bs' = bs ++ (otp_byte fuse <$> seqZ q (p + B - q)) /\ otp_rest h'' true)).
  { intros q bs H1 H2 H3 H4 H5. replace (B - Z.of_nat (length bs)) with (p + B - q) by lia.
    destruct (decide (q = p + B)) as [E|NE].
    { rewrite E, Z.sub_diag. apply wp_bind. destruct n; by repeat apply wp_ret. }
    destruct H3 as [H3|]; [|lia]. rewrite <- H3. apply wp_bind. eapply wp_mono; [apply (IH q (p + B - q) (Retry - latency) h'); [lia | lia | | lia | | done]|].
    { right. destruct H2; [|lia]. split; [lia | done]. }
    { right. unfold words_spanned. replace (q + (p + B - q) + 1) with (p + B + 1) by lia. nia. }
    cbn beta. intros rest h2 [-> Hr2]. apply wp_ret. done. }
  destruct (Z.odd p) eqn:O; cbn [orb].
  - replace (B - 1) with (p + B - (p + 1)) by lia. apply Step; [lia | left | left | done | lia].
    { rewrite Z.add_1_r, Z.odd_succ, <- Z.negb_odd, O. done. }
    { symmetry. apply Z.div_unique with 0; lia. }
  - destruct (Z.eqb_spec B 1) as [->|N1].
    + replace (1 - 1) with (p + 1 - (p + 1)) by lia. apply Step; [lia | right; lia | right; lia | done | lia].
    + replace (B - 2) with (p + B - (p + 2)) by lia. apply Step; [lia | left | left | done | lia].
      { by rewrite Z.odd_add, O. }
      { symmetry. apply Z.div_unique with 0; lia. }
Qed.

Lemma OtpRead_spec Offset Length u h : 0 <= Offset < 2 ^ 16 -> 0 <= Length < 2 ^ 16 -> latency < 100000 ->
  words_spanned Offset Length * latency < 100000 -> otp_rest h u ->
  wp (OtpRead patience Offset Length) h (fun bs h' => bs = (otp_byte fuse <$> seqZ Offset Length) /\ otp_rest h' false).
Proof.
  intros HO HL Hlat Hw Hr. unfold OtpRead.
  apply wp_bind. eapply wp_mono; [by apply (OtpDisableEcc_spec h u)|]. cbn beta. intros _ h1 (A & q & s & HA & Hs & C1).
  apply wp_bind, wp_owrite. intros h2 C2. apply wp_bind, wp_modify.
  assert (Hr3 : otp_rest (delay_us 5 h2) true).
  { exists A, q, s. split; [done|]. split; [done|]. by rewrite delay_otp, C2, C1. }
  apply wp_bind. eapply wp_mono; [apply (read_words_spec Offset Length HO HL (Z.to_nat Length) Offset Length 100000); [lia | lia | by left | lia | by right | exact Hr3]|].
  cbn beta. intros bs h4 [-> (A4 & q4 & s4 & HA4 & Hs4 & C4)]. apply wp_bind, wp_owrite. intros h5 C5. apply wp_ret. split; [done|].
  exists A4, q4, s4. split; [done|]. split; [done|]. by rewrite C5, C4.
Qed.

(** C28: A read returns the bytes of the memory, whatever the alignment.  From a
    controller at rest, [OtpRead (Offset, Length)] returns the bytes of the
    fuse words at [Offset], [Offset + 1], ... and switches the user port off
    again, if the words the range spans are read in less than the 100,000
    polls all of them share. *)
Theorem OtpRead_correct Offset Length u h : 0 <= Offset < 2 ^ 16 -> 0 <= Length < 2 ^ 16 -> latency < 100000 ->
  words_spanned Offset Length * latency < 100000 -> otp_rest h u ->
  wp (OtpRead patience Offset Length) h (fun bs h' => bs = (otp_byte fuse <$> seqZ Offset Length) /\ otp_rest h' false).
Proof. apply OtpRead_spec. Qed.

(** The serial number the bytes make: the remainder of every other byte, and
    above it that of the rest, started from the first. *)
Definition serial : Z :=
  let lo := crc32 0 ((fun i => otp_byte fuse (8 + 2 * i)) <$> seqZ 0 8) in
  Z.lor lo (Z.shiftl (crc32 (u32 lo) ((fun i => otp_byte fuse (7 + 2 * i)) <$> seqZ 0 8)) 32).

Lemma otp_byte_range i : is_byte (otp_byte fuse i).
Proof. unfold otp_byte. change 0xFF with (Z.ones 8). rewrite Z.land_ones by done. by apply Z.mod_pos_bound. Qed.

Lemma crc_bytes_correct c (f : Z -> Z) l : CalculateCrc32NoComp c ((fun i => otp_byte fuse (f i)) <$> l) = crc32 c ((fun i => otp_byte fuse (f i)) <$> l).
Proof.
  revert c. induction l as [|x l IH]; intros c; [done|]. unfold CalculateCrc32NoComp, crc32 in *.
  cbn [fmap list_fmap fold_left]. by rewrite crc_byte_correct, IH by apply otp_byte_range.
Qed.

(** The serial number is a function of the fuses.  It is made of the CRC-32
    remainders of the sixteen bytes from 7 on, the odd places in the low word,
    the even ones in the high word. *)
Theorem OtpGetSerial_correct u h : 9 * latency < 100000 -> otp_rest h u ->
  wp (OtpGetSerial patience) h (fun n h' => n = serial /\ otp_rest h' false).
Proof.
  intros Hl Hr. unfold OtpGetSerial. apply wp_bind.
  eapply wp_mono; [apply (OtpRead_spec 7 16 u); [lia | lia | lia | exact Hl | exact Hr]|]. cbn beta. intros bs h' [-> Hr'].
  apply wp_ret. split; [|done]. unfold serial. rewrite <- !(crc_bytes_correct _ (fun i => 8 + 2 * i)), <- !(crc_bytes_correct _ (fun i => 7 + 2 * i)). done.
Qed.
End reads.

Arguments otp_rest {H MM} fuse latency {RO} h u : rename.

(** ** A controller that does not answer *)
Section dead.
Context {H : Type} `{MM : Mmio H} (never : forall h, Z.land (u32 (mmio_read32 OTPC_INT_STATUS h).1) 6 = 0).

Lemma dead_status h b : b = USER_DONE_INT_STATUS \/ b = SBPI_DONE_INT_STATUS ->
  exists v h', MmioRead32 OTPC_INT_STATUS h = Ret v h' /\ Z.land v b = 0.
Proof.
  intros Hb. unfold MmioRead32. pose proof (never h) as N. destruct (mmio_read32 OTPC_INT_STATUS h) as [v h']. cbn [fst] in N.
  exists (u32 v), h'. split; [done|]. replace b with (Z.land 6 b) by (by destruct Hb as [-> | ->]). by rewrite Z.land_assoc, N.
Qed.

(** The wait gives up after [Retry] polls, the one that starts at 0 after 2^64. *)
Lemma wait_done_dead b : b = USER_DONE_INT_STATUS \/ b = SBPI_DONE_INT_STATUS ->
  forall n Retry h, 0 <= Retry < 2 ^ 64 ->
  wait_done n b Retry h = Stop NoFuel \/ (Retry <= Z.of_nat n /\ (Retry = 0 -> 2 ^ 64 <= Z.of_nat n) /\ exists h', wait_done n b Retry h = Ret 0 h').
Proof.
  intros Hb. induction n as [|n IH]; intros Retry h HR; [by left|]. cbn [wait_done].
  destruct (dead_status h b Hb) as (v & h1 & E & Ev). rewrite (bind_Ret _ _ _ _ _ E), Ev. cbn [Z.eqb negb].
  change (mbind ?k (MicroSecondDelay 1) h1) with (k tt (delay_us 1 h1)). cbn beta zeta.
  destruct (Z.eq_dec Retry 0) as [->|N0].
  - change (u64 (0 - 1)) with (2 ^ 64 - 1). cbn [Z.eqb].
    destruct (IH (2 ^ 64 - 1) (delay_us 1 h1) ltac:(lia)) as [D | (D1 & _ & D2)]; [by left|]. right.
    split; [lia|]. split; [lia | exact D2].
  - rewrite (wrap_small 64 (Retry - 1)) by (split; lia). destruct (Z.eqb_spec (Retry - 1) 0) as [E0|N1].
    + right. split; [lia|]. split; [lia|]. rewrite E0. by eexists.
    + destruct (IH (Retry - 1) (delay_us 1 h1) ltac:(lia)) as [D | (D1 & _ & D2)]; [by left|]. right.
      split; [lia|]. split; [lia | exact D2].
Qed.

(** A controller that never answers hangs a read of more than one word.  The
    count of polls is not set anew after the first word gives up at 0, so the
    next wait decrements it to 2^64 - 1: within fewer than 2^64 polls of 1
    microsecond, more than 500,000 years, the read does not return. *)
Theorem OtpRead_dead_hangs patience Offset Length h : 0 <= Offset < 2 ^ 16 -> 3 <= Length < 2 ^ 16 -> Z.of_nat patience < 2 ^ 64 ->
  OtpRead patience Offset Length h = Stop NoFuel.
Proof.
  intros HO HL Hn.
  assert (W : forall b, b = USER_DONE_INT_STATUS \/ b = SBPI_DONE_INT_STATUS -> forall R s, 0 <= R < 2 ^ 64 ->
    wpe (eq NoFuel) (wait_done patience b R) s (fun r _ => r = 0 /\ R <> 0)).
  { intros b Hb R s HR. unfold wpe. destruct (wait_done_dead b Hb patience R s HR) as [-> | (_ & D & s' & ->)]; [done|]. split; [done | lia]. }
  assert (RW : forall n a B R s, 0 < B -> 0 <= R < 2 ^ 64 -> R = 0 \/ 2 < B -> (B <= Z.of_nat n)%Z ->
    wpe (eq NoFuel) (read_words patience n Offset Length a B R) s (fun _ _ => False)).
  { induction n as [|n IH]; intros a B R s HB HR HRB Hn0; [lia|]. cbn [read_words]. rewrite (proj2 (Z.eqb_neq B 0)) by lia.
    apply wpe_bind, wpe_modify, wpe_bind, wpe_modify, wpe_bind. eapply wpe_mono; [by apply W; [left|]|].
    cbn beta. intros r s1 [-> NR]. apply wpe_bind, wpe_modify, wpe_bind, wpe_MmioRead32. cbn beta zeta.
    apply wpe_bind. apply IH; [| lia | by left |]; destruct ((B =? Length) && _); [|destruct (Z.eqb_spec B 1) | |destruct (Z.eqb_spec B 1)]; cbn [length]; lia. }
  assert (E : wpe (eq NoFuel) (OtpRead patience Offset Length) h (fun _ _ => False)).
  { unfold OtpRead, OtpDisableEcc.
    apply wpe_bind, wpe_bind, wpe_modify, wpe_bind, wpe_modify, wpe_bind, wpe_modify, wpe_bind, wpe_modify, wpe_bind, wpe_modify, wpe_bind.
    eapply wpe_mono; [by apply W; [right|]|]. cbn beta. intros r s1 _. apply wpe_modify, wpe_bind, wpe_modify, wpe_bind, wpe_modify, wpe_bind.
    eapply wpe_mono; [apply RW; [lia | lia | right; lia | lia]|]. done. }
  unfold wpe in E. destruct (OtpRead patience Offset Length h); [done|]. by rewrite <- E.
Qed.
End dead.

(** ** A controller *)
Module SmallOtp.

(** The word at [i] holds [i] and its complement. *)
Definition fuse (i : Z) : Z := u16 i mod 256 + 256 * (255 - u16 i mod 256).

#[export] Instance mmio : Mmio octrl := {|
  mmio_read32 a h := (octrl_read fuse a h, osettle fuse h);
  mmio_write32 a v h := octrl_write 3 a v (osettle fuse h);
  delay_us := octrl_delay;
  delay_ns _ h := h;
|}.

#[export, refine] Instance otp : RkOtp octrl fuse 3 := {| otp_of h := h |}.
Proof. all: done. Defined.

Definition start : octrl := Build_octrl false 0 0 0 None.

Lemma fuse_word i : in_word 32 (fuse i).
Proof. unfold fuse, in_word. pose proof (Z.mod_pos_bound (u16 i) 256). lia. Qed.

Lemma start_rest : otp_rest fuse 3 start false.
Proof. by exists 0, 0, 0. Qed.

Lemma OtpRead_correct_witness :
  otp_rest fuse 3 start false /\
  wp (OtpRead (Z.to_nat 100000) 5 4) start (fun bs h' => bs = (otp_byte fuse <$> seqZ 5 4) /\ otp_rest fuse 3 h' false).
Proof. split; [by exists 0, 0, 0 | apply (OtpRead_correct (fuse := fuse) (latency := 3) (Z.to_nat 100000) fuse_word ltac:(lia) ltac:(lia) 5 4 false); [lia | lia | lia | done | by exists 0, 0, 0]]. Defined.

Lemma OtpGetSerial_correct_witness :
  otp_rest fuse 3 start false /\
  wp (OtpGetSerial (Z.to_nat 100000)) start (fun n h' => n = serial (fuse := fuse) /\ otp_rest fuse 3 h' false).
Proof. split; [by exists 0, 0, 0 | apply (OtpGetSerial_correct (fuse := fuse) (latency := 3) (Z.to_nat 100000) fuse_word ltac:(lia) ltac:(lia) false); [lia | by exists 0, 0, 0]]. Defined.

Lemma CalculateCrc32_correct_witness :
  Forall is_byte [0x31; 0x32; 0x33] /\ CalculateCrc32NoComp 0 [0x31; 0x32; 0x33] = crc32 0 [0x31; 0x32; 0x33].
Proof. split; [by repeat constructor | apply (CalculateCrc32_correct 0 [0x31; 0x32; 0x33]); by repeat constructor]. Defined.

(** Registers that read as zero. *)
Definition dead_mmio : Mmio unit := {|
  mmio_read32 _ h := (0, h);
  mmio_write32 _ _ h := h;
  delay_us _ h := h;
  delay_ns _ h := h;
|}.

Lemma OtpRead_dead_hangs_witness : OtpRead (MM := dead_mmio) 4 7 16 tt = Stop NoFuel.
Proof. apply (OtpRead_dead_hangs (MM := dead_mmio) ltac:(done) 4 7 16 tt); lia. Defined.
End SmallOtp.
