(* ===== verification/Mmc.v ===== *)
(** * The MMC driver of the RK3399 and the RK356x: data and block transfers

    Model of [src/Silicon/Rockchip/Rk3399Pkg/Drivers/MmcDxe]: the data of
    [Mmc.h] and the services of [MmcBlockIo.c].  The host controllers behind
    the driver are the class [MmcHost]; MmcIdent.v and MmcDriver.v have the
    identification of cards and the pool of hosts.  MmcDebug.c only prints. *)

From Stdlib Require Import ZArith Lia.
From stdpp Require Import base list numbers option.
From S2P Require Import Prelude Memory.

(** ** The host protocol

    [Protocol/MmcHost.h] is not part of the repository: its constants and the
    services of a host are parameters. *)

Inductive MMC_STATE :=
| MmcInvalidState | MmcHwInitializationState | MmcIdleState | MmcReadyState | MmcIdentificationState | MmcStandByState
| MmcTransferState | MmcSendingDataState | MmcReceiveDataState | MmcProgrammingState | MmcDisconnectState.

#[export] Instance MMC_STATE_eq_dec : EqDecision MMC_STATE.
Proof. solve_decision. Defined.

Class MmcCodes := {
  MMC_CMD0 : Z; MMC_CMD1 : Z; MMC_CMD2 : Z; MMC_CMD3 : Z; MMC_CMD5 : Z; MMC_CMD6 : Z; MMC_CMD7 : Z; MMC_CMD8 : Z; MMC_CMD9 : Z;
  MMC_CMD12 : Z; MMC_CMD13 : Z; MMC_CMD16 : Z; MMC_CMD17 : Z; MMC_CMD18 : Z; MMC_CMD23 : Z; MMC_CMD24 : Z; MMC_CMD25 : Z;
  MMC_CMD55 : Z; MMC_ACMD41 : Z; MMC_ACMD51 : Z;
  MMC_RESPONSE_TYPE_R1 : Z; MMC_RESPONSE_TYPE_R1b : Z; MMC_RESPONSE_TYPE_R2 : Z; MMC_RESPONSE_TYPE_R3 : Z; MMC_RESPONSE_TYPE_R6 : Z;
  MMC_RESPONSE_TYPE_R7 : Z; MMC_RESPONSE_TYPE_OCR : Z; MMC_RESPONSE_TYPE_CID : Z; MMC_RESPONSE_TYPE_CSD : Z; MMC_RESPONSE_TYPE_RCA : Z;
  EMMCBACKWARD : Z; EMMCHS26 : Z; EMMCHS52 : Z; EMMCHS52DDR1V8 : Z; EMMCHS52DDR1V2 : Z;
  EMMC_CMD1_CAPACITY_LESS_THAN_2GB : Z; EMMC_CMD1_CAPACITY_GREATER_THAN_2GB : Z; MMC_STATUS_APP_CMD : Z
}.

(** The services of the host at an address, and the boot services the driver
    calls. *)
Class MmcHost (H : Type) := {
  HasSetIos : Z -> H -> bool;
  HasIsMultiBlock : Z -> H -> bool;
  IsCardPresent : Z -> H -> bool * H;
  IsReadOnly : Z -> H -> bool * H;
  BuildDevicePath : Z -> H -> Z * Z * H;
  NotifyState : Z -> MMC_STATE -> H -> Z * H;
  SendCommand : Z -> Z -> Z -> H -> Z * H;
  (** the words stored at the start of the response *)
  ReceiveResponse : Z -> Z -> H -> Z * list Z * H;
  (** address, LBA, length, buffer *)
  ReadBlockData : Z -> Z -> Z -> Z -> mem -> H -> Z * mem * H;
  WriteBlockData : Z -> Z -> Z -> Z -> mem -> H -> Z * H;
  (** frequency, width, timing *)
  SetIos : Z -> Z -> Z -> Z -> H -> Z * H;
  IsMultiBlock : Z -> H -> bool * H;
  Stall : Z -> H -> H
}.

(** ** Cards: Mmc.h *)

Definition EFI_WRITE_PROTECTED : Z := ENCODE_ERROR 8.
Definition EFI_NO_MEDIA : Z := ENCODE_ERROR 12.
Definition EFI_MEDIA_CHANGED : Z := ENCODE_ERROR 13.

Definition MMC_OCR_ACCESS_MASK : Z := 0x3.
Definition MMC_OCR_ACCESS_SECTOR : Z := 0x2.
Definition MMC_CSD_GET_CCC (Response : list Z) : Z := Z.shiftr (nth 2 Response 0) 20.
Definition MMC_CSD_GET_READBLLEN (Response : list Z) : Z := Z.land (Z.shiftr (nth 2 Response 0) 16) 0xF.
Definition MMC_CSD_GET_DEVICESIZE (Response : list Z) : Z :=
  Z.lor (Z.land (Z.shiftr (nth 1 Response 0) 30) 0x3) (u32 (Z.shiftl (Z.land (nth 2 Response 0) 0x3FF) 2)).
Definition HC_MMC_CSD_GET_DEVICESIZE (Response : list Z) : Z :=
  Z.lor (Z.shiftr (nth 1 Response 0) 16) (u32 (Z.shiftl (Z.land (nth 2 Response 0) 0x40) 16)).
Definition MMC_CSD_GET_DEVICESIZEMULT (Response : list Z) : Z := Z.land (Z.shiftr (nth 1 Response 0) 15) 0x7.

Definition MMC_R0_READY_FOR_DATA : Z := Z.shiftl 1 8.
Definition MMC_R0_CURRENTSTATE (Response0 : Z) : Z := Z.land (Z.shiftr Response0 9) 0xF.
Definition MMC_R0_STATE_TRAN : Z := 4.

Definition EMMC_CMD6_ARG_ACCESS (x : Z) : Z := Z.shiftl (Z.land x 0x3) 24.
Definition EMMC_CMD6_ARG_INDEX (x : Z) : Z := Z.shiftl (Z.land x 0xFF) 16.
Definition EMMC_CMD6_ARG_VALUE (x : Z) : Z := Z.shiftl (Z.land x 0xFF) 8.
Definition EMMC_CMD6_ARG_CMD_SET (x : Z) : Z := Z.shiftl (Z.land x 0x7) 0.

Inductive CARD_TYPE := UNKNOWN_CARD | MMC_CARD | MMC_CARD_HIGH | EMMC_CARD | SD_CARD | SD_CARD_2 | SD_CARD_2_HIGH.

#[export] Instance CARD_TYPE_eq_dec : EqDecision CARD_TYPE.
Proof. solve_decision. Defined.

(** [OCR], as its word. *)
Definition AccessMode (Ocr : Z) : Z := Z.land (Z.shiftr Ocr 29) 0x3.
Definition PowerUp (Ocr : Z) : bool := Z.testbit Ocr 31.
Definition set_AccessMode (v Ocr : Z) : Z := Z.lor (Z.ldiff Ocr (Z.shiftl 0x3 29)) (Z.shiftl (Z.land v 0x3) 29).
Definition clear_PowerUp (Ocr : Z) : Z := Z.clearbit Ocr 31.

(** [CID] as its eight words, [CSD] as its four, [SCR] as its bytes. *)
Definition PSN (Cid : list Z) : Z := nth 4 Cid 0.
Definition PERM_WRITE_PROTECT (Csd : list Z) : bool := Z.testbit (nth 0 Csd 0) 13.
Definition SD_BUS_WIDTHS (Scr : list Z) : Z := Z.land (nth 1 Scr 0) 0xF.
(** [ECSD], in memory. *)
Definition offsetof_DEVICE_TYPE : Z := 196.
Definition offsetof_SECTOR_COUNT : Z := 212.

(** Words stored at the start of an array. *)
Definition put_words (ws old : list Z) : list Z := ws ++ drop (length ws) old.

Record EFI_BLOCK_IO_MEDIA := {
  MediaId : Z;
  RemovableMedia : bool;
  MediaPresent : bool;
  LogicalPartition : bool;
  ReadOnly : bool;
  WriteCaching : bool;
  BlockSize : Z;
  IoAlign : Z;
  LastBlock : Z;
  LogicalBlocksPerPhysicalBlock : Z
}.
Definition set_MediaId (v : Z) (i : EFI_BLOCK_IO_MEDIA) : EFI_BLOCK_IO_MEDIA :=
  {| MediaId := v; RemovableMedia := RemovableMedia i; MediaPresent := MediaPresent i; LogicalPartition := LogicalPartition i;
     ReadOnly := ReadOnly i; WriteCaching := WriteCaching i; BlockSize := BlockSize i; IoAlign := IoAlign i; LastBlock := LastBlock i;
     LogicalBlocksPerPhysicalBlock := LogicalBlocksPerPhysicalBlock i |}.
Definition set_RemovableMedia (v : bool) (i : EFI_BLOCK_IO_MEDIA) : EFI_BLOCK_IO_MEDIA :=
  {| MediaId := MediaId i; RemovableMedia := v; MediaPresent := MediaPresent i; LogicalPartition := LogicalPartition i; ReadOnly := ReadOnly i;
     WriteCaching := WriteCaching i; BlockSize := BlockSize i; IoAlign := IoAlign i; LastBlock := LastBlock i;
     LogicalBlocksPerPhysicalBlock := LogicalBlocksPerPhysicalBlock i |}.
Definition set_MediaPresent (v : bool) (i : EFI_BLOCK_IO_MEDIA) : EFI_BLOCK_IO_MEDIA :=
  {| MediaId := MediaId i; RemovableMedia := RemovableMedia i; MediaPresent := v; LogicalPartition := LogicalPartition i; ReadOnly := ReadOnly i;
     WriteCaching := WriteCaching i; BlockSize := BlockSize i; IoAlign := IoAlign i; LastBlock := LastBlock i;
     LogicalBlocksPerPhysicalBlock := LogicalBlocksPerPhysicalBlock i |}.
Definition set_LogicalPartition (v : bool) (i : EFI_BLOCK_IO_MEDIA) : EFI_BLOCK_IO_MEDIA :=
  {| MediaId := MediaId i; RemovableMedia := RemovableMedia i; MediaPresent := MediaPresent i; LogicalPartition := v; ReadOnly := ReadOnly i;
     WriteCaching := WriteCaching i; BlockSize := BlockSize i; IoAlign := IoAlign i; LastBlock := LastBlock i;
     LogicalBlocksPerPhysicalBlock := LogicalBlocksPerPhysicalBlock i |}.
Definition set_ReadOnly (v : bool) (i : EFI_BLOCK_IO_MEDIA) : EFI_BLOCK_IO_MEDIA :=
  {| MediaId := MediaId i; RemovableMedia := RemovableMedia i; MediaPresent := MediaPresent i; LogicalPartition := LogicalPartition i;
     ReadOnly := v; WriteCaching := WriteCaching i; BlockSize := BlockSize i; IoAlign := IoAlign i; LastBlock := LastBlock i;
     LogicalBlocksPerPhysicalBlock := LogicalBlocksPerPhysicalBlock i |}.
Definition set_WriteCaching (v : bool) (i : EFI_BLOCK_IO_MEDIA) : EFI_BLOCK_IO_MEDIA :=
  {| MediaId := MediaId i; RemovableMedia := RemovableMedia i; MediaPresent := MediaPresent i; LogicalPartition := LogicalPartition i;
     ReadOnly := ReadOnly i; WriteCaching := v; BlockSize := BlockSize i; IoAlign := IoAlign i; LastBlock := LastBlock i;
     LogicalBlocksPerPhysicalBlock := LogicalBlocksPerPhysicalBlock i |}.
Definition set_BlockSize (v : Z) (i : EFI_BLOCK_IO_MEDIA) : EFI_BLOCK_IO_MEDIA :=
  {| MediaId := MediaId i; RemovableMedia := RemovableMedia i; MediaPresent := MediaPresent i; LogicalPartition := LogicalPartition i;
     ReadOnly := ReadOnly i; WriteCaching := WriteCaching i; BlockSize := v; IoAlign := IoAlign i; LastBlock := LastBlock i;
     LogicalBlocksPerPhysicalBlock := LogicalBlocksPerPhysicalBlock i |}.
Definition set_IoAlign (v : Z) (i : EFI_BLOCK_IO_MEDIA) : EFI_BLOCK_IO_MEDIA :=
  {| MediaId := MediaId i; RemovableMedia := RemovableMedia i; MediaPresent := MediaPresent i; LogicalPartition := LogicalPartition i;
     ReadOnly := ReadOnly i; WriteCaching := WriteCaching i; BlockSize := BlockSize i; IoAlign := v; LastBlock := LastBlock i;
     LogicalBlocksPerPhysicalBlock := LogicalBlocksPerPhysicalBlock i |}.
Definition set_LastBlock (v : Z) (i : EFI_BLOCK_IO_MEDIA) : EFI_BLOCK_IO_MEDIA :=
  {| MediaId := MediaId i; RemovableMedia := RemovableMedia i; MediaPresent := MediaPresent i; LogicalPartition := LogicalPartition i;
     ReadOnly := ReadOnly i; WriteCaching := WriteCaching i; BlockSize := BlockSize i; IoAlign := IoAlign i; LastBlock := v;
     LogicalBlocksPerPhysicalBlock := LogicalBlocksPerPhysicalBlock i |}.
Definition set_LogicalBlocksPerPhysicalBlock (v : Z) (i : EFI_BLOCK_IO_MEDIA) : EFI_BLOCK_IO_MEDIA :=
  {| MediaId := MediaId i; RemovableMedia := RemovableMedia i; MediaPresent := MediaPresent i; LogicalPartition := LogicalPartition i;
     ReadOnly := ReadOnly i; WriteCaching := WriteCaching i; BlockSize := BlockSize i; IoAlign := IoAlign i; LastBlock := LastBlock i;
     LogicalBlocksPerPhysicalBlock := v |}.


(** [ECSDData] is the address of the 512 bytes inside the structure. *)
Record CARD_INFO := {
  RCA : Z;
  CardType : CARD_TYPE;
  OCRData : Z;
  CIDData : list Z;
  CSDData : list Z;
  ECSDData : Z
}.
Definition set_RCA (v : Z) (i : CARD_INFO) : CARD_INFO :=
  {| RCA := v; CardType := CardType i; OCRData := OCRData i; CIDData := CIDData i; CSDData := CSDData i; ECSDData := ECSDData i |}.
Definition set_CardType (v : CARD_TYPE) (i : CARD_INFO) : CARD_INFO :=
  {| RCA := RCA i; CardType := v; OCRData := OCRData i; CIDData := CIDData i; CSDData := CSDData i; ECSDData := ECSDData i |}.
Definition set_OCRData (v : Z) (i : CARD_INFO) : CARD_INFO :=
  {| RCA := RCA i; CardType := CardType i; OCRData := v; CIDData := CIDData i; CSDData := CSDData i; ECSDData := ECSDData i |}.
Definition set_CIDData (v : list Z) (i : CARD_INFO) : CARD_INFO :=
  {| RCA := RCA i; CardType := CardType i; OCRData := OCRData i; CIDData := v; CSDData := CSDData i; ECSDData := ECSDData i |}.
Definition set_CSDData (v : list Z) (i : CARD_INFO) : CARD_INFO :=
  {| RCA := RCA i; CardType := CardType i; OCRData := OCRData i; CIDData := CIDData i; CSDData := v; ECSDData := ECSDData i |}.
Definition set_ECSDData (v : Z) (i : CARD_INFO) : CARD_INFO :=
  {| RCA := RCA i; CardType := CardType i; OCRData := OCRData i; CIDData := CIDData i; CSDData := CSDData i; ECSDData := v |}.

(** One host.  [MediaPtr] is the address of the media description, which is
    kept here as [Media]. *)
Record MMC_HOST_INSTANCE := {
  MmcHandle : Z;
  DevicePath : Z;
  State : MMC_STATE;
  MediaPtr : Z;
  Media : EFI_BLOCK_IO_MEDIA;
  CardInfo : CARD_INFO;
  Host : Z;
  Initialized : bool
}.
Definition set_MmcHandle (v : Z) (i : MMC_HOST_INSTANCE) : MMC_HOST_INSTANCE :=
  {| MmcHandle := v; DevicePath := DevicePath i; State := State i; MediaPtr := MediaPtr i; Media := Media i; CardInfo := CardInfo i;
     Host := Host i; Initialized := Initialized i |}.
Definition set_DevicePath (v : Z) (i : MMC_HOST_INSTANCE) : MMC_HOST_INSTANCE :=
  {| MmcHandle := MmcHandle i; DevicePath := v; State := State i; MediaPtr := MediaPtr i; Media := Media i; CardInfo := CardInfo i; Host := Host i;
     Initialized := Initialized i |}.
Definition set_State (v : MMC_STATE) (i : MMC_HOST_INSTANCE) : MMC_HOST_INSTANCE :=
  {| MmcHandle := MmcHandle i; DevicePath := DevicePath i; State := v; MediaPtr := MediaPtr i; Media := Media i; CardInfo := CardInfo i;
     Host := Host i; Initialized := Initialized i |}.
Definition set_MediaPtr (v : Z) (i : MMC_HOST_INSTANCE) : MMC_HOST_INSTANCE :=
  {| MmcHandle := MmcHandle i; DevicePath := DevicePath i; State := State i; MediaPtr := v; Media := Media i; CardInfo := CardInfo i;
     Host := Host i; Initialized := Initialized i |}.
Definition set_Media (v : EFI_BLOCK_IO_MEDIA) (i : MMC_HOST_INSTANCE) : MMC_HOST_INSTANCE :=
  {| MmcHandle := MmcHandle i; DevicePath := DevicePath i; State := State i; MediaPtr := MediaPtr i; Media := v; CardInfo := CardInfo i;
     Host := Host i; Initialized := Initialized i |}.
Definition set_CardInfo (v : CARD_INFO) (i : MMC_HOST_INSTANCE) : MMC_HOST_INSTANCE :=
  {| MmcHandle := MmcHandle i; DevicePath := DevicePath i; State := State i; MediaPtr := MediaPtr i; Media := Media i; CardInfo := v;
     Host := Host i; Initialized := Initialized i |}.
Definition set_Host (v : Z) (i : MMC_HOST_INSTANCE) : MMC_HOST_INSTANCE :=
  {| MmcHandle := MmcHandle i; DevicePath := DevicePath i; State := State i; MediaPtr := MediaPtr i; Media := Media i; CardInfo := CardInfo i;
     Host := v; Initialized := Initialized i |}.
Definition set_Initialized (v : bool) (i : MMC_HOST_INSTANCE) : MMC_HOST_INSTANCE :=
  {| MmcHandle := MmcHandle i; DevicePath := DevicePath i; State := State i; MediaPtr := MediaPtr i; Media := Media i; CardInfo := CardInfo i;
     Host := Host i; Initialized := v |}.

Definition MMC_IOBLOCKS_READ : Z := 0.
Definition MMC_IOBLOCKS_WRITE : Z := 1.
Definition MMCI0_TIMEOUT : nat := Z.to_nat 10000.

Record mmc (H : Type) := {
  mi : MMC_HOST_INSTANCE;
  mEmmcRcaCount : Z;
  mmem : mem;
  mhost : H
}.
Arguments Build_mmc {H}.
Arguments mi {H} _.
Arguments mEmmcRcaCount {H} _.
Arguments mmem {H} _.
Arguments mhost {H} _.

Section Mmc.
Context {B : Build} {C : MmcCodes} {H : Type} {MH : MmcHost H}.
Implicit Types s : mmc H.
Abbreviation MC := (M (mmc H)).

Definition the {A} (f : MMC_HOST_INSTANCE -> A) : MC A := gets (fun s => f (mi s)).
Definition upd (f : MMC_HOST_INSTANCE -> MMC_HOST_INSTANCE) : MC unit :=
  modify (fun s => Build_mmc (f (mi s)) (mEmmcRcaCount s) (mmem s) (mhost s)).
Definition upd_media (f : EFI_BLOCK_IO_MEDIA -> EFI_BLOCK_IO_MEDIA) : MC unit := upd (fun i => set_Media (f (Media i)) i).
Definition upd_card (f : CARD_INFO -> CARD_INFO) : MC unit := upd (fun i => set_CardInfo (f (CardInfo i)) i).

(** A service of the host of this instance. *)
Definition host_op {A} (f : Z -> H -> A * H) : MC A := fun s =>
  let '(a, h) := f (Host (mi s)) (mhost s) in Ret a (Build_mmc (mi s) (mEmmcRcaCount s) (mmem s) h).
Definition send (Cmd Arg : Z) : MC Z := host_op (fun p => SendCommand p Cmd (u32 Arg)).
Definition receive (Type_ : Z) : MC (Z * list Z) := host_op (fun p => ReceiveResponse p Type_).
Definition read_data (Lba Length Buffer : Z) : MC Z := fun s =>
  let '(st, m, h) := ReadBlockData (Host (mi s)) Lba Length Buffer (mmem s) (mhost s) in Ret st (Build_mmc (mi s) (mEmmcRcaCount s) m h).
Definition write_data (Lba Length Buffer : Z) : MC Z := fun s =>
  let '(st, h) := WriteBlockData (Host (mi s)) Lba Length Buffer (mmem s) (mhost s) in Ret st (Build_mmc (mi s) (mEmmcRcaCount s) (mmem s) h).
Definition has (f : Z -> H -> bool) : MC bool := gets (fun s => f (Host (mi s)) (mhost s)).
Definition stall (us : Z) : MC unit := modify (fun s => Build_mmc (mi s) (mEmmcRcaCount s) (mmem s) (Stall us (mhost s))).

(** [CardInfo.RCA << 16]. *)
Definition rca_arg : MC Z := the (fun i => Z.shiftl (RCA (CardInfo i)) 16).

(** ** MmcBlockIo.c *)

Definition MmcNotifyState (State_ : MMC_STATE) : MC Z :=
  upd (set_State State_);;
  host_op (fun p => NotifyState p State_).

Definition MmcGetCardStatus : MC Z :=
  p ← the Host;
  if p =? 0 then mret EFI_INVALID_PARAMETER else
  st ← the State;
  if bool_decide (st <> MmcHwInitializationState) then
    CmdArg ← rca_arg;
    Status ← send MMC_CMD13 CmdArg;
    if EFI_ERROR Status then mret Status else
    receive MMC_RESPONSE_TYPE_R1;;
    mret Status
  else mret EFI_SUCCESS.

Definition MmcReset (ExtendedVerification : bool) : MC Z :=
  p ← the Host;
  if p =? 0 then mret EFI_SUCCESS else
  present ← host_op IsCardPresent;
  if negb present then
    upd_media (set_MediaPresent false);;
    upd_media (set_LastBlock 0);;
    upd_media (set_BlockSize 512);;
    upd_media (set_ReadOnly false);;
    upd (set_State MmcHwInitializationState);;
    mret EFI_SUCCESS
  else mret EFI_SUCCESS.

Definition MmcDetectCard : MC Z :=
  present ← host_op IsCardPresent;
  mret (if negb present then EFI_NO_MEDIA else EFI_SUCCESS).

Definition MmcStopTransmission : MC Z :=
  Status ← send MMC_CMD12 0;
  (if negb (EFI_ERROR Status) then receive MMC_RESPONSE_TYPE_R1b;; mret tt else mret tt);;
  mret Status.

Definition not_ready (Response0 : Z) : bool :=
  (Z.land Response0 MMC_R0_READY_FOR_DATA =? 0) && negb (MMC_R0_CURRENTSTATE Response0 =? MMC_R0_STATE_TRAN).

(** [while (not ready && Timeout--)] with a status query as body; what is left
    of [Timeout]: -1 when the loop gave up. *)
Fixpoint wait_ready (Timeout : nat) (CmdArg Response0 : Z) : MC Z :=
  if not_ready Response0 then
    match Timeout with
    | O => mret (-1)
    | S Timeout =>
        Status ← send MMC_CMD13 CmdArg;
        if negb (EFI_ERROR Status) then
          r ← receive MMC_RESPONSE_TYPE_R1;
          wait_ready Timeout CmdArg (nth 0 r.2 Response0)
        else wait_ready Timeout CmdArg Response0
    end
  else mret (Z.of_nat Timeout).

Definition MmcTransferBlock (Cmd Transfer aMediaId Lba BufferSize Buffer : Z) : MC Z :=
  ocr ← the (fun i => OCRData (CardInfo i));
  bs ← the (fun i => BlockSize (Media i));
  let CmdArg := if Z.land (AccessMode ocr) MMC_OCR_ACCESS_MASK =? MMC_OCR_ACCESS_SECTOR then Lba else u64 (Lba * bs) in
  Status ← send Cmd CmdArg;
  if EFI_ERROR Status then mret Status else
  Failed ← (if Transfer =? MMC_IOBLOCKS_READ then
    Status ← read_data Lba BufferSize Buffer;
    if EFI_ERROR Status then MmcStopTransmission;; mret (Some Status) else
    Status ← MmcNotifyState MmcProgrammingState;
    mret (if EFI_ERROR Status then Some Status else None)
  else
    Status ← write_data Lba BufferSize Buffer;
    if EFI_ERROR Status then MmcStopTransmission;; mret (Some Status) else mret None);
  match Failed with
  | Some Status => mret Status
  | None =>
      CmdArg ← rca_arg;
      wait_ready MMCI0_TIMEOUT CmdArg 0;;
      bs ← the (fun i => BlockSize (Media i));
      (if bs <? BufferSize then send MMC_CMD12 0;; mret tt else mret tt);;
      MmcNotifyState MmcTransferState
  end.

(** The loop over the transfers; [BytesRemaining] falls by at least a block. *)
Fixpoint io_loop (fuel : nat) (Transfer aMediaId BlockCount Lba BytesRemaining Buffer : Z) : MC Z :=
  match fuel with
  | O => stopM NoFuel
  | S fuel =>
      if BytesRemaining <=? 0 then mret EFI_SUCCESS else
      CmdArg ← rca_arg;
      Timeout ← wait_ready 20 CmdArg 0;
      if Timeout =? 0 then mret EFI_NOT_READY else
      let Cmd := if Transfer =? MMC_IOBLOCKS_READ then (if BlockCount =? 1 then MMC_CMD17 else MMC_CMD18)
                 else (if BlockCount =? 1 then MMC_CMD24 else MMC_CMD25) in
      bs ← the (fun i => BlockSize (Media i));
      let ConsumeSize := u64 (BlockCount * bs) in
      let ConsumeSize := if BytesRemaining <? ConsumeSize then BytesRemaining else ConsumeSize in
      MmcTransferBlock Cmd Transfer aMediaId Lba ConsumeSize Buffer;;
      let BytesRemaining := u64 (BytesRemaining - ConsumeSize) in
      if 0 <? BytesRemaining
      then io_loop fuel Transfer aMediaId BlockCount (u64 (Lba + BlockCount)) BytesRemaining (u64 (Buffer + ConsumeSize))
      else io_loop fuel Transfer aMediaId BlockCount Lba BytesRemaining Buffer
  end.

Definition MmcIoBlocks (Transfer aMediaId Lba BufferSize Buffer : Z) : MC Z :=
  p ← the Host;
  ASSERT (negb (p =? 0));;
  m ← the Media;
  if negb (MediaId m =? aMediaId) then mret EFI_MEDIA_CHANGED else
  if (p =? 0) || (Buffer =? 0) then mret EFI_INVALID_PARAMETER else
  if negb (MediaPresent m) then mret EFI_NO_MEDIA else
  multi ← has HasIsMultiBlock;
  multi ← (if multi : bool then host_op IsMultiBlock else mret false);
  if BlockSize m =? 0 then stopM Fault else
  let BlockCount := if multi : bool then u64 (BufferSize + BlockSize m - 1) / BlockSize m else 1 in
  if u64 (LastBlock m + 1) <? u64 (Lba + BufferSize / BlockSize m) then mret EFI_INVALID_PARAMETER else
  if (Transfer =? MMC_IOBLOCKS_WRITE) && ReadOnly m then mret EFI_WRITE_PROTECTED else
  if BufferSize =? 0 then mret EFI_SUCCESS else
  if negb (BufferSize mod BlockSize m =? 0) then mret EFI_BAD_BUFFER_SIZE else
  if (2 <? IoAlign m) && negb (Z.land Buffer (IoAlign m - 1) =? 0) then mret EFI_INVALID_PARAMETER else
  io_loop (S (S (Z.to_nat (BufferSize / BlockSize m)))) Transfer aMediaId BlockCount Lba BufferSize Buffer.

Definition MmcReadBlocks (aMediaId Lba BufferSize Buffer : Z) : MC Z := MmcIoBlocks MMC_IOBLOCKS_READ aMediaId Lba BufferSize Buffer.
Definition MmcWriteBlocks (aMediaId Lba BufferSize Buffer : Z) : MC Z := MmcIoBlocks MMC_IOBLOCKS_WRITE aMediaId Lba BufferSize Buffer.
Definition MmcFlushBlocks : MC Z := mret EFI_SUCCESS.
End Mmc.
