(* ===== verification/MmcIdent.v ===== *)
(** * The MMC driver: identification of cards

    Model of [src/Silicon/Rockchip/Rk3399Pkg/Drivers/MmcDxe/MmcIdentification.c]:
    the sequence of commands that finds out what card is in a slot, selects it
    and describes its media. *)

From Stdlib Require Import ZArith Lia.
From stdpp Require Import base list numbers option.
From S2P Require Import Prelude Memory Mmc.

Definition MAX_RETRY_COUNT : nat := 1000.
Definition EMMC_CARD_SIZE : Z := 512.
Definition RCA_SHIFT_OFFSET : Z := 16.
Definition EXTCSD_BUS_WIDTH : Z := 183.
Definition EXTCSD_HS_TIMING : Z := 185.
Definition EMMC_TIMING_HS : Z := 1.
Definition EMMC_BUS_WIDTH_1BIT : Z := 0.
Definition EMMC_BUS_WIDTH_DDR_8BIT : Z := 6.
Definition EMMC_SWITCH_ERROR : Z := Z.shiftl 1 7.
Definition SD_BUS_WIDTH_4BIT : Z := Z.shiftl 1 2.
Definition SD_CCC_SWITCH : Z := Z.shiftl 1 10.
Definition DEVICE_STATE (x : Z) : Z := Z.land (Z.shiftr x 9) 0xf.
Definition EMMC_DATA_STATE : Z := 5.
Definition EMMC_PRG_STATE : Z := 7.

(** The local variables of [InitializeSdMmcDevice]: the address of its buffer,
    and what a word holds that was not written. *)
Class MmcFrame := { local_Buffer : Z; uninit : Z }.

(** The number of blocks and the block size of a card that is not an eMMC, from
    its CSD. *)
Definition csd_media (Type_ : CARD_TYPE) (Response : list Z) : Z * Z :=
  let BlockSize := Z.shiftl 1 (MMC_CSD_GET_READBLLEN Response) in
  let NumBlocks :=
    if bool_decide (Type_ = SD_CARD_2_HIGH)
    then u64 ((HC_MMC_CSD_GET_DEVICESIZE Response + 1) * 1024)
    else u64 ((MMC_CSD_GET_DEVICESIZE Response + 1) * Z.shiftl 1 (MMC_CSD_GET_DEVICESIZEMULT Response + 2)) in
  if 512 <? BlockSize then (u64 (NumBlocks * (BlockSize / 512)), 512) else (NumBlocks, BlockSize).

Section Ident.
Context {B : Build} {C : MmcCodes} {H : Type} {MH : MmcHost H} {F : MmcFrame}.
(** How often a card is asked whether it left a state; the code sets no limit. *)
Context (patience : nat).
Implicit Types s : mmc H.
Abbreviation MC := (M (mmc H)).

(** [c] if it succeeds, or return its status. *)
Definition on_success (c k : MC Z) : MC Z := Status ← c; if EFI_ERROR Status then mret Status else k.
#[local] Notation "c '!>' k" := (on_success c k) (at level 100, k at level 200, right associativity).

(** A command and its response. *)
Definition then_receive (c : MC Z) (Type_ : Z) (k : list Z -> MC Z) : MC Z :=
  c !> (r ← receive Type_; if EFI_ERROR r.1 then mret r.1 else k r.2).

(** ** eMMC *)

Definition EmmcGetDeviceState : MC (Z * Z) :=
  arg ← the (fun i => Z.shiftl (RCA (CardInfo i)) RCA_SHIFT_OFFSET);
  Status ← send MMC_CMD13 arg;
  if EFI_ERROR Status then mret (Status, uninit) else
  r ← receive MMC_RESPONSE_TYPE_R1;
  if EFI_ERROR r.1 then mret (r.1, uninit) else
  let Data := nth 0 r.2 uninit in
  if negb (Z.land Data EMMC_SWITCH_ERROR =? 0) then mret (EFI_DEVICE_ERROR, uninit)
  else mret (EFI_SUCCESS, DEVICE_STATE Data).

(** [do { get the state } while (State == S)]. *)
Fixpoint wait_leaves (n : nat) (S_ : Z) : MC Z :=
  match n with
  | O => stopM NoFuel
  | S n =>
      r ← EmmcGetDeviceState;
      if EFI_ERROR r.1 then mret r.1 else
      if r.2 =? S_ then wait_leaves n S_ else mret EFI_SUCCESS
  end.

Definition EmmcSetEXTCSD (ExtCmdIndex Value : Z) : MC Z :=
  let Argument := Z.lor (Z.lor (Z.lor (EMMC_CMD6_ARG_ACCESS 3) (EMMC_CMD6_ARG_INDEX ExtCmdIndex)) (EMMC_CMD6_ARG_VALUE Value)) (EMMC_CMD6_ARG_CMD_SET 1) in
  send MMC_CMD6 Argument !> wait_leaves patience EMMC_PRG_STATE.

Definition EmmcIdentificationMode : MC Z :=
  then_receive (send MMC_CMD2 0) MMC_RESPONSE_TYPE_R2 (fun ws =>
  upd_card (fun c => set_CIDData (put_words ws (CIDData c)) c);;
  modify (fun s => Build_mmc (mi s) (u32 (mEmmcRcaCount s + 1)) (mmem s) (mhost s));;
  n ← gets mEmmcRcaCount;
  upd_card (set_RCA (u16 n));;
  arg ← the (fun i => Z.shiftl (RCA (CardInfo i)) RCA_SHIFT_OFFSET);
  send MMC_CMD3 arg !>
  then_receive (send MMC_CMD9 arg) MMC_RESPONSE_TYPE_R2 (fun ws =>
  upd_card (fun c => set_CSDData (put_words ws (CSDData c)) c);;
  send MMC_CMD7 arg;;
  ios ← has HasSetIos;
  (if ios : bool then host_op (fun p => SetIos p 0 1 EMMCBACKWARD) !> EmmcSetEXTCSD EXTCSD_BUS_WIDTH EMMC_BUS_WIDTH_1BIT else mret EFI_SUCCESS) !>
  (send MMC_CMD8 arg;;
   ecsd ← the (fun i => ECSDData (CardInfo i));
   read_data 0 512 ecsd !>
   wait_leaves patience EMMC_DATA_STATE !>
   (upd_media (set_BlockSize EMMC_CARD_SIZE);;
    cid ← the (fun i => CIDData (CardInfo i));
    upd_media (set_MediaId (PSN cid));;
    csd ← the (fun i => CSDData (CardInfo i));
    upd_media (set_ReadOnly (PERM_WRITE_PROTECT csd));;
    upd_media (set_LogicalBlocksPerPhysicalBlock 1);;
    upd_media (set_IoAlign 4);;
    n ← gets (fun s => load 4 (mmem s) (ecsd + offsetof_SECTOR_COUNT));
    upd_media (set_LastBlock (u32 (n - 1)));;
    upd_card (set_CardType EMMC_CARD);;
    mret EFI_SUCCESS)))).

(** The loop over the timing modes. *)
Fixpoint try_timings (modes : list (Z * Z)) (Status : Z) : MC Z :=
  match modes with
  | [] => mret Status
  | (BusClockFreq, TimingMode) :: modes =>
      Status ← host_op (fun p => SetIos p BusClockFreq 8 TimingMode);
      if negb (EFI_ERROR Status) then EmmcSetEXTCSD EXTCSD_BUS_WIDTH EMMC_BUS_WIDTH_DDR_8BIT
      else try_timings modes Status
  end.

Definition InitializeEmmcDevice : MC Z :=
  ecsd ← the (fun i => ECSDData (CardInfo i));
  t ← gets (fun s => mmem s (ecsd + offsetof_DEVICE_TYPE));
  if t =? EMMCBACKWARD then mret EFI_SUCCESS else
  ios ← has HasSetIos;
  if negb ios then mret EFI_SUCCESS else
  EmmcSetEXTCSD EXTCSD_HS_TIMING EMMC_TIMING_HS !>
  try_timings [(52000000, EMMCHS52DDR1V2); (52000000, EMMCHS52DDR1V8); (52000000, EMMCHS52); (26000000, EMMCHS26)] EFI_SUCCESS.

(** ** SD and MMC *)

(** After the card is known to take application commands. *)
Definition sd_bus_width (CccSwitch : bool) : MC Z :=
  send MMC_ACMD51 0 !>
  read_data 0 8 local_Buffer !>
  (Scr ← gets (fun s => read_bytes (mmem s) local_Buffer 8);
   (if CccSwitch
    then send MMC_CMD6 (Z.lor (Z.land (Z.lor (Z.shiftl 1 31) 0x00FFFFFF) (Z.lnot 0xF)) 1) !> read_data 0 64 local_Buffer
    else mret EFI_SUCCESS) !>
   (if negb (Z.land (SD_BUS_WIDTHS Scr) SD_BUS_WIDTH_4BIT =? 0)
    then arg ← rca_arg; send MMC_CMD55 arg !> send MMC_CMD6 2
    else mret EFI_SUCCESS) !>
   (ios ← has HasSetIos;
    (if ios : bool then host_op (fun p => SetIos p (26 * 1000 * 1000) 4 EMMCBACKWARD) else mret EFI_SUCCESS) !>
    mret EFI_SUCCESS)).

Definition InitializeSdMmcDevice : MC Z :=
  arg ← rca_arg;
  then_receive (send MMC_CMD9 arg) MMC_RESPONSE_TYPE_CSD (fun Response =>
  let CccSwitch := negb (Z.land (MMC_CSD_GET_CCC Response) SD_CCC_SWITCH =? 0) in
  t ← the (fun i => CardType (CardInfo i));
  let '(NumBlocks, aBlockSize) := csd_media t Response in
  upd_media (set_LastBlock (u64 (NumBlocks - 1)));;
  upd_media (set_BlockSize aBlockSize);;
  ro ← host_op IsReadOnly;
  upd_media (set_ReadOnly ro);;
  upd_media (set_MediaPresent true);;
  upd_media (fun m => set_MediaId (u32 (MediaId m + 1)) m);;
  arg ← rca_arg;
  send MMC_CMD7 arg !>
  then_receive (send MMC_CMD55 arg) MMC_RESPONSE_TYPE_R1 (fun Response =>
  if Z.land (nth 0 Response uninit) MMC_STATUS_APP_CMD =? 0 then mret EFI_SUCCESS
  else sd_bus_width CccSwitch)).

(** ** Identification *)

(** The loop on CMD1: a status to return, or the last status and the last OCR. *)
Fixpoint emmc_op_cond (Timeout : nat) (Ocr : Z) : MC (Z + Z * Z) :=
  match Timeout with
  | O => stopM NoFuel
  | S Timeout =>
      Status ← send MMC_CMD1 EMMC_CMD1_CAPACITY_GREATER_THAN_2GB;
      if EFI_ERROR Status then mret (inr (Status, Ocr)) else
      r ← receive MMC_RESPONSE_TYPE_OCR;
      if EFI_ERROR r.1 then mret (inl r.1) else
      let Ocr := nth 0 r.2 Ocr in
      if negb (PowerUp Ocr) && bool_decide (0 < Timeout)%nat then emmc_op_cond Timeout Ocr
      else mret (inr (r.1, Ocr))
  end.

(** One round: is it an SD card or an MMC card, and its OCR.  A status to
    return, or the status of the round. *)
Definition op_cond_round (IsHCS : bool) : MC (Z + Z) :=
  Status ← send MMC_CMD55 0;
  Status ← (if Status =? EFI_SUCCESS then
      upd_card (set_CardType (if IsHCS then SD_CARD_2 else SD_CARD));;
      ocr ← the (fun i => OCRData (CardInfo i));
      send MMC_ACMD41 (if IsHCS then Z.lor ocr (Z.shiftl 1 30) else ocr)
    else
      upd_card (set_CardType MMC_CARD);;
      send MMC_CMD1 0x800000);
  if EFI_ERROR Status then mret (inr Status) else
  r ← receive MMC_RESPONSE_TYPE_OCR;
  if EFI_ERROR r.1 then mret (inl r.1) else
  upd_card (fun c => set_OCRData (nth 0 r.2 uninit) c);;
  mret (inr r.1).

(** The loop on the rounds: a status to return, or whether a card is ready. *)
Fixpoint op_cond (Timeout : nat) (IsHCS : bool) : MC (Z + bool) :=
  match Timeout with
  | O => mret (inr false)
  | S Timeout =>
      r ← op_cond_round IsHCS;
      match r with
      | inl Status => mret (inl Status)
      | inr Status =>
          ci ← the CardInfo;
          if negb (EFI_ERROR Status) && PowerUp (OCRData ci) then
            (if bool_decide (CardType ci = SD_CARD_2) && Z.testbit (AccessMode (OCRData ci)) 1
             then upd_card (set_CardType SD_CARD_2_HIGH) else mret tt);;
            mret (inr true)
          else stall 1;; op_cond Timeout IsHCS
      end
  end.

(** From the ready state on: the card's identity and its address. *)
Definition identify : MC Z :=
  MmcNotifyState MmcReadyState !>
  then_receive (send MMC_CMD2 0) MMC_RESPONSE_TYPE_CID (fun _ =>
  host_op (fun p => NotifyState p MmcIdentificationState) !>
  then_receive (send MMC_CMD3 1) MMC_RESPONSE_TYPE_RCA (fun Response =>
  t ← the (fun i => CardType (CardInfo i));
  upd_card (set_RCA (if bool_decide (t <> MMC_CARD) then u16 (Z.shiftr (nth 0 Response uninit) 16) else 1));;
  MmcNotifyState MmcStandByState !> mret EFI_SUCCESS)).

(** From CMD5 on: a card that is not an eMMC. *)
Definition sd_identification : MC Z :=
  Status ← send MMC_CMD5 0;
  if Status =? EFI_SUCCESS then mret EFI_UNSUPPORTED else
  let CmdArg := Z.lor (Z.shiftl 1 8) 0xCE in
  Status ← send MMC_CMD8 CmdArg;
  v ← (if Status =? EFI_SUCCESS then
         r ← receive MMC_RESPONSE_TYPE_R7;
         if EFI_ERROR r.1 then mret (inl r.1) else
         if negb (nth 0 r.2 uninit =? CmdArg) then mret (inl EFI_UNSUPPORTED) else mret (inr true)
       else mret (inr false));
  match v with
  | inl Status => mret Status
  | inr IsHCS =>
      r ← op_cond MAX_RETRY_COUNT IsHCS;
      match r with
      | inl Status => mret Status
      | inr false => mret EFI_NO_MEDIA
      | inr true => identify
      end
  end.

Definition MmcIdentificationMode : MC Z :=
  p ← the Host;
  if p =? 0 then mret EFI_INVALID_PARAMETER else
  st ← the State;
  (if bool_decide (st = MmcHwInitializationState) then MmcNotifyState MmcHwInitializationState else mret EFI_SUCCESS) !>
  send MMC_CMD0 0 !>
  MmcNotifyState MmcIdleState !>
  (r ← emmc_op_cond MAX_RETRY_COUNT uninit;
   match r with
   | inl Status => mret Status
   | inr (Status, Ocr) =>
       if Status =? EFI_SUCCESS then
         if negb (PowerUp Ocr) then mret EFI_DEVICE_ERROR else
         let Raw := clear_PowerUp Ocr in
         upd_card (fun c => set_OCRData (set_AccessMode (if Raw =? EMMC_CMD1_CAPACITY_GREATER_THAN_2GB then 2 else 0) (OCRData c)) c);;
         if (Raw =? EMMC_CMD1_CAPACITY_GREATER_THAN_2GB) || (Raw =? EMMC_CMD1_CAPACITY_LESS_THAN_2GB) then EmmcIdentificationMode
         else sd_identification
       else sd_identification
   end).

Definition InitializeMmcDevice : MC Z :=
  MmcIdentificationMode !>
  MmcNotifyState MmcTransferState !>
  (t ← the (fun i => CardType (CardInfo i));
   (if bool_decide (t <> EMMC_CARD) then InitializeSdMmcDevice else InitializeEmmcDevice) !>
   (bs ← the (fun i => BlockSize (Media i));
    send MMC_CMD16 bs !>
    (t ← the (fun i => CardType (CardInfo i));
     if bool_decide (t = MMC_CARD) then send MMC_CMD23 1 !> mret EFI_SUCCESS else mret EFI_SUCCESS))).
End Ident.
