(* ===== verification/MmcIdentSpec.v ===== *)
(** * The MMC driver: an SD card

    [sdcard] is what an SD memory card does with the commands of the driver:
    power-up, identification, selection, register reads and block transfers.
    [RelaysCard] says that a host hands commands and data to such a card: a
    data command and the transfer that follows it are one law, because hosts
    may keep the command until the transfer. *)

From Stdlib Require Import ZArith Lia.
From stdpp Require Import base list numbers option.
From S2P Require Import Prelude Memory Mmc MmcIdent.

Inductive card_state := Idle | Ready | Ident | Stby | Tran.

#[export] Instance card_state_eq_dec : EqDecision card_state.
Proof. solve_decision. Defined.

(** What the data line waits for: bytes to send, or blocks to take at a block
    address. *)
Inductive data_phase := NoData | SendBytes (bs : list Z) | SendBlocks (lba : Z) (many : bool) | TakeBlocks (lba : Z) (many : bool).

Record sdcard := {
  at_state : card_state;
  app : bool;       (* the last command was CMD55 *)
  data : data_phase;
  opened : bool;    (* a transfer of many blocks is to be stopped *)
  busy : nat;       (* status queries until a write is programmed *)
  powering : nat;   (* rounds of ACMD41 until the card is powered up *)
  (* constants of the card *)
  v2 : bool;
  hc : bool;
  rca : Z;
  cid : list Z;
  csd : list Z;
  scr : list Z;
  switch_status : list Z;
  latency : nat;
  (* the blocks *)
  disk : Z -> list Z
}.

Definition moves (st : card_state) (a : bool) (d : data_phase) (o : bool) (b p : nat) (k : sdcard) : sdcard :=
  Build_sdcard st a d o b p (v2 k) (hc k) (rca k) (cid k) (csd k) (scr k) (switch_status k) (latency k) (disk k).
Definition with_disk (f : Z -> list Z) (k : sdcard) : sdcard :=
  Build_sdcard (at_state k) (app k) (data k) (opened k) (busy k) (powering k)
    (v2 k) (hc k) (rca k) (cid k) (csd k) (scr k) (switch_status k) (latency k) f.

(** To a state, with nothing else pending. *)
Definition goes (st : card_state) (k : sdcard) : sdcard := moves st false NoData (opened k) (busy k) (powering k) k.

Definition state_code (st : card_state) : Z :=
  match st with Idle => 0 | Ready => 1 | Ident => 2 | Stby => 3 | Tran => 4 end.

(** The status word: state (5 in an open transfer, 7 while it programs), ready
    for data, application command expected. *)
Definition status_word (a : bool) (k : sdcard) : Z :=
  if bool_decide (busy k = 0%nat)
  then Z.lor (Z.lor (Z.shiftl (if opened k then 5 else state_code (at_state k)) 9) 0x100) (if a then 0x20 else 0)
  else Z.shiftl 7 9.

Definition ocr_word (arg : Z) (k : sdcard) : Z :=
  Z.lor (if bool_decide (powering k = 0%nat) then 0x80000000 else 0)
    (Z.lor (if hc k && Z.testbit arg 30 && bool_decide (powering k = 0%nat) then 0x40000000 else 0) 0xFF8000).

(** The block an address names. *)
Definition block_of (k : sdcard) (arg : Z) : option Z :=
  if hc k then Some arg else if arg mod 512 =? 0 then Some (arg / 512) else None.

(** The response to a command and what becomes of the card; [None] if it does
    not answer. *)
Definition card_cmd (i arg : Z) (k : sdcard) : option (list Z * sdcard) :=
  let mine := Z.shiftr arg 16 =? rca k in
  let tran := bool_decide (at_state k = Tran) && bool_decide (busy k = 0%nat) && negb (opened k) in
  if i =? 0 then Some ([], moves Idle false NoData false 0 (powering k) k) else
  if app k then
    if (i =? 41) && bool_decide (at_state k = Idle) then
      Some ([ocr_word arg k], if bool_decide (powering k = 0%nat) then goes Ready k else moves Idle false NoData false 0 (pred (powering k)) k)
    else if (i =? 51) && tran then Some ([status_word false k], moves Tran false (SendBytes (scr k)) false 0 0 k)
    else if (i =? 6) && tran then Some ([status_word false k], goes Tran k)
    else None
  else if i =? 55 then
    if bool_decide (at_state k = Idle) || mine && tran then Some ([status_word true k], moves (at_state k) true NoData false 0 (powering k) k) else None
  else if (i =? 8) && v2 k && bool_decide (at_state k = Idle) then Some ([Z.land arg 0xFFF], goes Idle k)
  else if (i =? 2) && bool_decide (at_state k = Ready) then Some (cid k, goes Ident k)
  else if (i =? 3) && bool_decide (at_state k = Ident) then Some ([Z.shiftl (rca k) 16], goes Stby k)
  else if (i =? 9) && mine && bool_decide (at_state k = Stby) then Some (csd k, goes Stby k)
  else if (i =? 7) && mine && bool_decide (at_state k = Stby) then Some ([status_word false k], goes Tran k)
  else if (i =? 6) && tran then Some ([status_word false k], moves Tran false (SendBytes (switch_status k)) false 0 0 k)
  else if (i =? 13) && mine && bool_decide (at_state k = Tran) then
    Some ([status_word false k], moves Tran false NoData (opened k) (pred (busy k)) 0 k)
  else if (i =? 16) && tran && (arg =? 512) then Some ([status_word false k], goes Tran k)
  else if (i =? 12) && bool_decide (at_state k = Tran) && opened k then
    Some ([status_word false k], moves Tran false NoData false (busy k) 0 k)
  else if tran && ((i =? 17) || (i =? 18)) then
    b ← block_of k arg; Some ([status_word false k], moves Tran false (SendBlocks b (i =? 18)) false 0 0 k)
  else if tran && ((i =? 24) || (i =? 25)) then
    b ← block_of k arg; Some ([status_word false k], moves Tran false (TakeBlocks b (i =? 25)) false 0 0 k)
  else None.

Lemma status_word_small a k : u32 (status_word a k) = status_word a k.
Proof. unfold status_word. by destruct (bool_decide (busy k = 0%nat)), (opened k), (at_state k), a. Qed.

(** Blocks of 512 bytes. *)
Definition sound_disk (d : Z -> list Z) : Prop := forall b, length (d b) = 512%nat /\ Forall is_byte (d b).

Definition disk_blocks (d : Z -> list Z) (lba n : Z) : list Z := concat (d <$> seqZ lba n).

(** Blocks [lba], [lba + 1], ... replaced by the bytes. *)
Definition write_disk (d : Z -> list Z) (lba n : Z) (bs : list Z) (b : Z) : list Z :=
  if in_range lba n b then take 512 (drop (Z.to_nat ((b - lba) * 512)) bs) else d b.

(** The [n] bytes the card sends. *)
Definition card_send (n : Z) (k : sdcard) : option (list Z * sdcard) :=
  match data k with
  | SendBytes bs => if n =? Z.of_nat (length bs) then Some (bs, goes Tran k) else None
  | SendBlocks b many =>
      if (n mod 512 =? 0) && (many || (n =? 512))
      then Some (disk_blocks (disk k) b (n / 512), moves Tran false NoData many 0 0 k) else None
  | _ => None
  end.

(** The card takes bytes, and is busy for a while. *)
Definition card_take (bs : list Z) (k : sdcard) : option sdcard :=
  let n := Z.of_nat (length bs) in
  match data k with
  | TakeBlocks b many =>
      if (n mod 512 =? 0) && (many || (n =? 512))
      then Some (with_disk (write_disk (disk k) b (n / 512) bs) (moves Tran false NoData many (latency k) 0 k)) else None
  | _ => None
  end.

(** ** Hosts that relay a card *)

(** What [Protocol/MmcHost.h] says about its constants. *)
Class MmcCodeLaws {C : MmcCodes} (index : Z -> Z) := {
  indices : index <$> [MMC_CMD0; MMC_CMD1; MMC_CMD2; MMC_CMD3; MMC_CMD5; MMC_CMD6; MMC_CMD7; MMC_CMD8; MMC_CMD9; MMC_CMD12; MMC_CMD13;
                       MMC_CMD16; MMC_CMD17; MMC_CMD18; MMC_CMD23; MMC_CMD24; MMC_CMD25; MMC_CMD55; MMC_ACMD41; MMC_ACMD51]
            = [0; 1; 2; 3; 5; 6; 7; 8; 9; 12; 13; 16; 17; 18; 23; 24; 25; 55; 41; 51];
  app_cmd_bit : MMC_STATUS_APP_CMD = 0x20
}.

(** The command moves data.  CMD6 does if it is not an application command; a
    host tells the two apart by the argument. *)
Definition data_command (i arg : Z) (k : sdcard) : Prop :=
  i = 17 \/ i = 18 \/ i = 24 \/ i = 25 \/ i = 51 /\ app k = true \/ i = 6 /\ app k = false /\ Z.testbit arg 31 = true.

(** The command moves none.  CMD7 has the address of a card. *)
Definition plain_command (i arg : Z) (k : sdcard) : Prop :=
  i <> 17 /\ i <> 18 /\ i <> 24 /\ i <> 25 /\ i <> 30 /\ i <> 51 /\ (i = 6 -> arg < 2 ^ 31 /\ arg <> 0x00FFFFF0) /\ (i = 7 -> arg <> 0).

Lemma plain_other i arg k : negb (existsb (Z.eqb i) [6; 7; 17; 18; 24; 25; 30; 51]) = true -> plain_command i arg k.
Proof.
  cbn. rewrite negb_true_iff, !orb_false_iff, !Z.eqb_neq. unfold plain_command. tauto.
Qed.

(** Blocks of 512 bytes, or less than one. *)
Definition whole_blocks (n : Z) : Prop := 0 < n < 2 ^ 32 /\ n mod 4 = 0 /\ (n < 512 \/ n mod 512 = 0).

Definition response_types {C : MmcCodes} : list Z :=
  [MMC_RESPONSE_TYPE_R1; MMC_RESPONSE_TYPE_R1b; MMC_RESPONSE_TYPE_R2; MMC_RESPONSE_TYPE_R3; MMC_RESPONSE_TYPE_R6; MMC_RESPONSE_TYPE_R7;
   MMC_RESPONSE_TYPE_OCR; MMC_RESPONSE_TYPE_CID; MMC_RESPONSE_TYPE_CSD; MMC_RESPONSE_TYPE_RCA].

Class RelaysCard (H : Type) {C : MmcCodes} `{MH : MmcHost H} (index : Z -> Z) (p : Z) := {
  card_of : H -> sdcard;
  response_of : H -> list Z;
  relays_command : forall cmd arg h, in_word 32 arg -> plain_command (index cmd) arg (card_of h) ->
    match card_cmd (index cmd) arg (card_of h) with
    | Some (r, k) => exists h', SendCommand p cmd arg h = (EFI_SUCCESS, h') /\ card_of h' = k /\ response_of h' = r
    | None => exists st h', SendCommand p cmd arg h = (st, h') /\ EFI_ERROR st = true /\ card_of h' = card_of h
    end;
  relays_response : forall t h, t ∈ response_types -> exists ws h', ReceiveResponse p t h = (EFI_SUCCESS, ws, h') /\ card_of h' = card_of h /\ response_of h' = response_of h /\
    nth 0 ws 0 = u32 (nth 0 (response_of h) 0) /\ (0 < length (response_of h) -> 0 < length ws)%nat /\
    (t = MMC_RESPONSE_TYPE_CSD -> length (response_of h) = 4%nat -> ws = u32 <$> response_of h);
  relays_read : forall cmd arg lba n buf m h r k bs k', in_word 32 arg -> data_command (index cmd) arg (card_of h) ->
    card_cmd (index cmd) arg (card_of h) = Some (r, k) -> card_send n k = Some (bs, k') -> Forall is_byte bs -> Z.of_nat (length bs) = n -> whole_blocks n ->
    exists h1 h2, SendCommand p cmd arg h = (EFI_SUCCESS, h1) /\ ReadBlockData p lba n buf m h1 = (EFI_SUCCESS, write_bytes m buf bs, h2) /\ card_of h2 = k';
  relays_write : forall cmd arg lba n buf m h r k k', in_word 32 arg -> data_command (index cmd) arg (card_of h) ->
    card_cmd (index cmd) arg (card_of h) = Some (r, k) -> card_take (read_bytes m buf n) k = Some k' -> Forall is_byte (read_bytes m buf n) -> whole_blocks n -> n mod 512 = 0 ->
    exists h1 h2, SendCommand p cmd arg h = (EFI_SUCCESS, h1) /\ WriteBlockData p lba n buf m h1 = (EFI_SUCCESS, h2) /\ card_of h2 = k';
  relays_state : forall st h, st <> MmcInvalidState -> exists h', NotifyState p st h = (EFI_SUCCESS, h') /\ card_of h' = card_of h;
  relays_ios : forall h, HasSetIos p h = true -> exists h', SetIos p 26000000 4 EMMCBACKWARD h = (EFI_SUCCESS, h') /\ card_of h' = card_of h;
  relays_query : forall h, card_of (IsReadOnly p h).2 = card_of h /\ card_of (IsMultiBlock p h).2 = card_of h /\ card_of (IsCardPresent p h).2 = card_of h;
  relays_stall : forall us h, card_of (Stall us h) = card_of h
}.

Arguments card_of {H C MH} index p {_} _ : rename.
Arguments response_of {H C MH} index p {_} _ : rename.

(** ** The driver's steps on such a host *)

Section steps.
Context {B : Build} {C : MmcCodes} {H : Type} {MH : MmcHost H} {index : Z -> Z} {CL : MmcCodeLaws index} {p : Z} {RC : RelaysCard H index p}.
Implicit Types (s : mmc H) (k : sdcard).

(** Only the host moved: the card is [k], its last response [r]. *)
Definition host_moved s s' k : Prop :=
  mi s' = mi s /\ mEmmcRcaCount s' = mEmmcRcaCount s /\ mmem s' = mmem s /\ card_of index p (mhost s') = k.

Lemma wp_send cmd arg s (Q : Z -> mmc H -> Prop) r k : Host (mi s) = p -> plain_command (index cmd) (u32 arg) (card_of index p (mhost s)) ->
  card_cmd (index cmd) (u32 arg) (card_of index p (mhost s)) = Some (r, k) ->
  (forall s', host_moved s s' k -> response_of index p (mhost s') = r -> Q EFI_SUCCESS s') -> wp (send cmd arg) s Q.
Proof.
  intros Hp Hd Hc HQ. pose proof (relays_command cmd (u32 arg) (mhost s) (wrap_range 32 arg ltac:(lia)) Hd) as R. rewrite Hc in R.
  destruct R as (h' & E & Ek & Er). unfold wp, send, host_op. rewrite Hp, E. by apply HQ.
Qed.

Lemma wp_send_refused cmd arg s (Q : Z -> mmc H -> Prop) : Host (mi s) = p -> plain_command (index cmd) (u32 arg) (card_of index p (mhost s)) ->
  card_cmd (index cmd) (u32 arg) (card_of index p (mhost s)) = None ->
  (forall st s', EFI_ERROR st = true -> host_moved s s' (card_of index p (mhost s)) -> Q st s') -> wp (send cmd arg) s Q.
Proof.
  intros Hp Hd Hc HQ. pose proof (relays_command cmd (u32 arg) (mhost s) (wrap_range 32 arg ltac:(lia)) Hd) as R. rewrite Hc in R.
  destruct R as (st & h' & E & Es & Ek). unfold wp, send, host_op. rewrite Hp, E. by apply HQ.
Qed.

Lemma wp_receive t s (Q : Z * list Z -> mmc H -> Prop) : Host (mi s) = p -> t ∈ response_types ->
  (forall ws s', host_moved s s' (card_of index p (mhost s)) -> nth 0 ws 0 = u32 (nth 0 (response_of index p (mhost s)) 0) ->
     (0 < length (response_of index p (mhost s)) -> 0 < length ws)%nat ->
     (t = MMC_RESPONSE_TYPE_CSD -> length (response_of index p (mhost s)) = 4%nat -> ws = u32 <$> response_of index p (mhost s)) ->
     Q (EFI_SUCCESS, ws) s') -> wp (receive t) s Q.
Proof.
  intros Hp Ht HQ. destruct (relays_response t (mhost s) Ht) as (ws & h' & E & Ek & _ & E0 & El & E4).
  unfold wp, receive, host_op. rewrite Hp, E. by apply HQ.
Qed.

Lemma wp_notify st s (Q : Z -> mmc H -> Prop) : Host (mi s) = p -> st <> MmcInvalidState ->
  (forall s', mi s' = set_State st (mi s) -> mEmmcRcaCount s' = mEmmcRcaCount s -> mmem s' = mmem s ->
     card_of index p (mhost s') = card_of index p (mhost s) -> Q EFI_SUCCESS s') ->
  wp (MmcNotifyState st) s Q.
Proof.
  intros Hp Hst HQ. destruct (relays_state st (mhost s) Hst) as (h' & E & Ek).
  unfold MmcNotifyState. apply wp_bind, wp_modify. unfold wp, host_op. cbn [mi mhost]. change (Host (set_State st (mi s))) with (Host (mi s)).
  rewrite Hp, E. by apply HQ.
Qed.

Lemma host_moved_trans s1 s2 s3 k1 k2 : host_moved s1 s2 k1 -> host_moved s2 s3 k2 -> host_moved s1 s3 k2.
Proof. intros (A1 & A2 & A3 & _) (B1 & B2 & B3 & B4). unfold host_moved. by rewrite B1, B2, B3, A1, A2, A3. Qed.

Lemma index_facts :
  index MMC_CMD0 = 0 /\ index MMC_CMD1 = 1 /\ index MMC_CMD2 = 2 /\ index MMC_CMD3 = 3 /\ index MMC_CMD5 = 5 /\
  index MMC_CMD6 = 6 /\ index MMC_CMD7 = 7 /\ index MMC_CMD8 = 8 /\ index MMC_CMD9 = 9 /\ index MMC_CMD12 = 12 /\
  index MMC_CMD13 = 13 /\ index MMC_CMD16 = 16 /\ index MMC_CMD17 = 17 /\ index MMC_CMD18 = 18 /\ index MMC_CMD23 = 23 /\
  index MMC_CMD24 = 24 /\ index MMC_CMD25 = 25 /\ index MMC_CMD55 = 55 /\ index MMC_ACMD41 = 41 /\ index MMC_ACMD51 = 51.
Proof. pose proof indices as E. cbn [fmap list_fmap] in E. injection E. intros. by repeat split. Qed.
End steps.

(** The numbers of the commands, as hypotheses. *)
Ltac indices index := destruct (index_facts (index := index)) as (I0 & I1 & I2 & I3 & I5 & I6 & I7 & I8 & I9 & I12 & I13 & I16 & I17 & I18 & I23 & I24 & I25 & I55 & IA41 & IA51).

(** * The MMC driver: identification of an SD card

    The sequence of commands of MmcIdent.v against an SD card that a host
    relays as above, phase by phase: power-up, identity and address,
    description of the media, selection and bus width. *)

(** The registers of a card are words and bytes, as many as they should be. *)
Record sound_card (k : sdcard) : Prop := {
  sound_rca : in_word 16 (rca k);
  sound_selectable : rca k <> 0;
  sound_cid : length (cid k) = 4%nat;
  sound_csd : length (csd k) = 4%nat;
  sound_csd_words : Forall (in_word 32) (csd k);
  sound_scr : length (scr k) = 8%nat;
  sound_scr_bytes : Forall is_byte (scr k);
  sound_switch : length (switch_status k) = 64%nat;
  sound_switch_bytes : Forall is_byte (switch_status k);
  sound_hc : hc k = true -> v2 k = true;
  sound_powering : (powering k < MAX_RETRY_COUNT)%nat
}.

Lemma words_of_csd k : sound_card k -> u32 <$> csd k = csd k.
Proof.
  intros Hs. pose proof (sound_csd_words k Hs) as W. induction W as [|w ws Hw _ IH]; [done|]. cbn. by rewrite (wrap_small 32 w Hw), IH.
Qed.

Definition card_type (k : sdcard) : CARD_TYPE :=
  if v2 k then if hc k then SD_CARD_2_HIGH else SD_CARD_2 else SD_CARD.

(** The card in the identification states. *)
Definition quiet (st : card_state) (a : bool) (q : nat) (k : sdcard) : sdcard := moves st a NoData false 0 q k.

Section ident.
Context {B : Build} {C : MmcCodes} {H : Type} {MH : MmcHost H} {F : MmcFrame}.
Context {index : Z -> Z} {CL : MmcCodeLaws index} {p : Z} {RC : RelaysCard H index p}.
Context (patience : nat).
Implicit Types (s : mmc H) (k : sdcard).

Abbreviation card s := (card_of index p (mhost s)).
Abbreviation host_moved := (host_moved (index := index) (p := p)).

(** ** Steps *)

Lemma on_success_wp c d s (Q : Z -> mmc H -> Prop) :
  wp c s (fun st s1 => st = EFI_SUCCESS /\ wp d s1 Q) -> wp (on_success c d) s Q.
Proof.
  intros Hc. unfold on_success. apply wp_bind. eapply wp_mono; [exact Hc|]. cbn beta. intros st s1 [-> Hk]. exact Hk.
Qed.

Lemma on_success_send cmd arg c s (Q : Z -> mmc H -> Prop) r k : Host (mi s) = p -> plain_command (index cmd) (u32 arg) (card s) ->
  card_cmd (index cmd) (u32 arg) (card s) = Some (r, k) ->
  (forall s', host_moved s s' k -> wp c s' Q) -> wp (on_success (send cmd arg) c) s Q.
Proof. intros Hp Hd Hc HQ. apply on_success_wp. eapply wp_send; [done..|]. intros s' M _. split; [done | by apply HQ]. Qed.

Lemma on_success_receive cmd arg t c s (Q : Z -> mmc H -> Prop) r k : Host (mi s) = p -> plain_command (index cmd) (u32 arg) (card s) ->
  card_cmd (index cmd) (u32 arg) (card s) = Some (r, k) -> t ∈ response_types -> (0 < length r)%nat ->
  (forall ws s', host_moved s s' k -> nth 0 ws uninit = u32 (nth 0 r 0) -> (t = MMC_RESPONSE_TYPE_CSD -> length r = 4%nat -> ws = u32 <$> r) -> wp (c ws) s' Q) ->
  wp (then_receive (send cmd arg) t c) s Q.
Proof.
  intros Hp Hd Hc Ht Hr HQ. unfold then_receive. apply on_success_wp. eapply wp_send; [done..|]. intros s1 M1 E1. split; [done|].
  apply wp_bind. eapply (wp_receive (index := index) (p := p)); [by rewrite (proj1 M1) | exact Ht |]. rewrite E1.
  intros ws s2 M2 E2 L2 E4. specialize (L2 Hr). change (EFI_ERROR (EFI_SUCCESS, ws).1) with false. cbn [snd]. apply HQ; [| | exact E4].
  - eapply host_moved_trans; [exact M1|]. destruct M1 as (_ & _ & _ & <-). exact M2.
  - rewrite <- E2. destruct ws; [cbn in L2; lia | done].
Qed.

Lemma on_success_notify st c s (Q : Z -> mmc H -> Prop) : Host (mi s) = p -> st <> MmcInvalidState ->
  (forall s', mi s' = set_State st (mi s) -> mEmmcRcaCount s' = mEmmcRcaCount s -> mmem s' = mmem s -> card s' = card s -> wp c s' Q) ->
  wp (on_success (MmcNotifyState st) c) s Q.
Proof. intros Hp Hst HQ. apply on_success_wp. eapply (wp_notify (index := index) (p := p)); [done..|]. intros. split; [done | by apply HQ]. Qed.

(** ** Power-up *)

(** What the card answers to ACMD41 with [q] rounds to go. *)
Definition op_cond_word (q : nat) k : Z :=
  Z.lor (if bool_decide (q = 0%nat) then 0x80000000 else 0) (Z.lor (if hc k && bool_decide (q = 0%nat) then 0x40000000 else 0) 0xFF8000).

Definition with_ocr (t : CARD_TYPE) (w : Z) (i : MMC_HOST_INSTANCE) : MMC_HOST_INSTANCE :=
  set_CardInfo (set_OCRData w (set_CardType t (CardInfo i))) i.

Lemma bit30_set x : Z.testbit (u32 (Z.lor x (Z.shiftl 1 30))) 30 = true.
Proof. rewrite wrap_testbit, Z.lor_spec by lia. change (Z.testbit (Z.shiftl 1 30) 30) with true. by rewrite orb_true_r. Qed.

Lemma ocr_word_hcs k ocr q st a d : (hc k = true -> v2 k = true) ->
  ocr_word (u32 (if v2 k then Z.lor ocr (Z.shiftl 1 30) else ocr)) (moves st a d false 0 q k) = op_cond_word q k.
Proof.
  intros Hv. unfold ocr_word, op_cond_word. cbn [moves powering hc]. destruct (hc k) eqn:E; [|done]. by rewrite (Hv eq_refl), bit30_set.
Qed.

Lemma op_cond_word_small q k : u32 (op_cond_word q k) = op_cond_word q k.
Proof. unfold op_cond_word. by destruct (bool_decide (q = 0%nat)), (hc k). Qed.

(** One round. *)
Lemma op_cond_round_spec k q s : Host (mi s) = p -> (hc k = true -> v2 k = true) -> card s = quiet Idle false q k ->
  wp (op_cond_round (v2 k)) s (fun r s' => r = inr EFI_SUCCESS /\ mi s' = with_ocr (if v2 k then SD_CARD_2 else SD_CARD) (op_cond_word q k) (mi s) /\
    mEmmcRcaCount s' = mEmmcRcaCount s /\ mmem s' = mmem s /\ card s' = quiet (if bool_decide (q = 0%nat) then Ready else Idle) false (pred q) k).
Proof.
  indices index. intros Hp Hv Hk. unfold op_cond_round. apply wp_bind.
  eapply (wp_send (index := index) (p := p)); [exact Hp | rewrite I55; by apply plain_other | rewrite I55, Hk; reflexivity|].
  intros s1 (A1 & A2 & A3 & A4) _. cbn [Z.eqb EFI_SUCCESS]. apply wp_bind, wp_bind. apply wp_modify. apply wp_bind, wp_gets.
  eapply (wp_send (index := index) (p := p)); [by rewrite A1 | rewrite IA41; by apply plain_other | cbn [mhost]; rewrite IA41, A4; reflexivity|].
  cbn [mi mmem mEmmcRcaCount mhost].
  intros s2 (B1 & B2 & B3 & B4) E2. change (EFI_ERROR EFI_SUCCESS) with false. cbn iota. apply wp_bind.
  eapply (wp_receive (index := index) (p := p)); [by rewrite B1, A1 | by repeat constructor |]. rewrite E2.
  intros ws s3 (C1 & C2 & C3 & C4) F2 L2 _. specialize (L2 ltac:(cbn; lia)). destruct ws as [|w ws]; [cbn in L2; lia|]. cbn [nth] in F2.
  apply wp_bind, wp_modify, wp_ret. cbn [mi mmem mEmmcRcaCount mhost snd nth]. split; [done|]. rewrite C1, C2, C3, C4, B1, B2, B3, B4, A1, A2, A3, F2.
  split; [|split; [done|split; [done|]]].
  - rewrite <- (op_cond_word_small q k), <- (ocr_word_hcs k (OCRData (CardInfo (mi s1))) q Idle true NoData Hv). done.
  - cbn [quiet moves powering]. by destruct q.
Qed.

Lemma op_cond_word_facts q k : PowerUp (op_cond_word q k) = bool_decide (q = 0%nat) /\
  (q = 0%nat -> AccessMode (op_cond_word q k) = if hc k then 2 else 0).
Proof. unfold op_cond_word. split; [|intros ->]; [destruct (bool_decide_reflect (q = 0%nat))|]; by destruct (hc k). Qed.

(** The rounds until the card is powered up. *)
Lemma op_cond_spec k : forall q n s, Host (mi s) = p -> (hc k = true -> v2 k = true) -> card s = quiet Idle false q k -> (q < n)%nat ->
  wp (op_cond n (v2 k)) s (fun r s' => r = inr true /\ mi s' = with_ocr (card_type k) (op_cond_word 0 k) (mi s) /\
    mEmmcRcaCount s' = mEmmcRcaCount s /\ mmem s' = mmem s /\ card s' = quiet Ready false 0 k).
Proof.
  induction q as [|q IH]; intros n s Hp Hv Hk Hq; (destruct n as [|n]; [lia|]); cbn [op_cond]; apply wp_bind;
    (eapply wp_mono; [by apply (op_cond_round_spec k)|]); cbn beta; intros r s1 (-> & A1 & A2 & A3 & A4); apply wp_bind, wp_gets;
    rewrite A1; cbn [with_ocr CardInfo set_CardInfo OCRData set_OCRData CardType set_CardType].
  - destruct (op_cond_word_facts 0 k) as [-> E]. rewrite E by done. cbn [negb EFI_ERROR andb bool_decide]. apply wp_bind.
    change (negb (EFI_ERROR EFI_SUCCESS) && bool_decide (0%nat = 0%nat)) with true. cbn iota.
    unfold card_type. destruct (hc k) eqn:Eh.
    + rewrite (Hv eq_refl) in *. cbn. apply wp_ret. cbn [mi mmem mEmmcRcaCount mhost]. by rewrite A1.
    + assert (E0 : bool_decide ((if v2 k then SD_CARD_2 else SD_CARD) = SD_CARD_2) && Z.testbit 0 1 = false) by by rewrite andb_false_r.
      rewrite E0. apply wp_ret, wp_ret. by destruct (v2 k).
  - destruct (op_cond_word_facts (S q) k) as [-> _]. change (negb (EFI_ERROR EFI_SUCCESS) && bool_decide (S q = 0%nat)) with false. cbn iota.
    apply wp_bind, wp_modify. pose proof (relays_stall (p := p) 1 (mhost s1)) as Es.
    eapply wp_mono; [apply IH; [cbn [mi]; by rewrite A1 | done | cbn [mhost]; by rewrite Es, A4 | lia]|].
    cbn beta. cbn [mi mmem mEmmcRcaCount mhost]. intros r s2 (-> & B1 & B2 & B3 & B4). split; [done|]. rewrite B1, B2, B3, B4, A1, A2, A3. done.
Qed.

(** ** Identity and address *)

Lemma word_of_rca r : in_word 16 r -> u32 (Z.shiftl r 16) = Z.shiftl r 16.
Proof. intros W. apply wrap_small. rewrite Z.shiftl_mul_pow2 by lia. unfold in_word in *. lia. Qed.

Lemma rca_of_word k : in_word 16 (rca k) -> u16 (Z.shiftr (u32 (Z.shiftl (rca k) 16)) 16) = rca k.
Proof. intros W. rewrite word_of_rca, Z.shiftr_shiftl_l by (done || lia). rewrite Z.sub_diag, Z.shiftl_0_r. by apply wrap_small. Qed.

Lemma selects k : sound_card k -> u32 (Z.shiftl (rca k) 16) <> 0.
Proof.
  intros Hs. pose proof (sound_selectable k Hs). pose proof (sound_rca k Hs) as W.
  rewrite word_of_rca, Z.shiftl_mul_pow2 by (done || lia). unfold in_word in W. lia.
Qed.

Definition with_rca (r : Z) (i : MMC_HOST_INSTANCE) : MMC_HOST_INSTANCE := set_CardInfo (set_RCA r (CardInfo i)) i.

Lemma identify_spec k s : Host (mi s) = p -> CardType (CardInfo (mi s)) <> MMC_CARD -> sound_card k -> card s = quiet Ready false 0 k ->
  wp identify s (fun st s' => st = EFI_SUCCESS /\ mi s' = set_State MmcStandByState (with_rca (rca k) (mi s)) /\
    mEmmcRcaCount s' = mEmmcRcaCount s /\ mmem s' = mmem s /\ card s' = quiet Stby false 0 k).
Proof.
  indices index. intros Hp Ht Hs Hk. unfold identify. apply on_success_notify; [done | done|]. intros s1 A1 A2 A3 A4.
  eapply on_success_receive; [by rewrite A1 | rewrite I2; by apply plain_other | rewrite I2, A4, Hk; reflexivity | by repeat constructor | |].
  { change (0 < length (cid k))%nat. rewrite (sound_cid k Hs). lia. }
  intros _ s2 (B1 & B2 & B3 & B4) _ _. apply on_success_wp.
  destruct (relays_state (p := p) MmcIdentificationState (mhost s2) ltac:(done)) as (h & En & Ek).
  unfold wp at 1, host_op. rewrite B1, A1. cbn [set_State Host]. rewrite Hp, En. split; [done|].
  eapply on_success_receive; [done | rewrite I3; by apply plain_other | rewrite I3; cbn [mhost]; rewrite Ek, B4; reflexivity | by repeat constructor | cbn; lia |].
  cbn [mhost mi mEmmcRcaCount mmem].
  intros ws s3 (C1 & C2 & C3 & C4) E3 _. cbn [mhost mi mEmmcRcaCount mmem nth rca moves] in *. apply wp_bind, wp_gets.
  rewrite C1. cbn [set_State CardInfo]. rewrite bool_decide_eq_true_2, E3 by done. cbn [rca moves]. rewrite rca_of_word by apply Hs.
  apply wp_bind, wp_modify. apply on_success_notify; [cbn [mi]; by rewrite C1 | done |]. cbn [mi mhost mEmmcRcaCount mmem].
  intros s4 D1 D2 D3 D4. apply wp_ret. split; [done|]. rewrite D1, D2, D3, D4, C1, C2, C3, C4, B2, B3, A2, A3. done.
Qed.

(** ** From CMD5 on *)

Lemma sd_identification_spec k s : Host (mi s) = p -> sound_card k -> card s = quiet Idle false (powering k) k ->
  wp sd_identification s (fun st s' => st = EFI_SUCCESS /\
    mi s' = set_State MmcStandByState (with_rca (rca k) (with_ocr (card_type k) (op_cond_word 0 k) (mi s))) /\
    mEmmcRcaCount s' = mEmmcRcaCount s /\ mmem s' = mmem s /\ card s' = quiet Stby false 0 k).
Proof.
  indices index. intros Hp Hs Hk. unfold sd_identification. apply wp_bind.
  eapply (wp_send_refused (index := index) (p := p)); [exact Hp | rewrite I5; by apply plain_other | rewrite I5, Hk; reflexivity|].
  intros st s1 Hst (A1 & A2 & A3 & A4). destruct (Z.eqb_spec st EFI_SUCCESS) as [->|]; [done|].
  assert (K : forall s2, host_moved s s2 (quiet Idle false (powering k) k) ->
    wp (op_cond MAX_RETRY_COUNT (v2 k) ≫= fun r => match r with inl Status => mret Status | inr false => mret EFI_NO_MEDIA | inr true => identify end) s2 (fun st s' => st = EFI_SUCCESS /\
      mi s' = set_State MmcStandByState (with_rca (rca k) (with_ocr (card_type k) (op_cond_word 0 k) (mi s))) /\
      mEmmcRcaCount s' = mEmmcRcaCount s /\ mmem s' = mmem s /\ card s' = quiet Stby false 0 k)).
  { intros s2 (B1 & B2 & B3 & B4). apply wp_bind. eapply wp_mono.
    { eapply (op_cond_spec k (powering k)); [by rewrite B1 | apply Hs | exact B4 | apply Hs]. }
    cbn beta. intros r s3 (-> & C1 & C2 & C3 & C4). eapply wp_mono.
    { apply (identify_spec k); [by rewrite C1, B1 | rewrite C1; unfold card_type; by destruct (v2 k), (hc k) | done | done]. }
    cbn beta. intros st' s4 (-> & D1 & D2 & D3 & D4). by rewrite D1, D2, D3, D4, C1, C2, C3, B1, B2, B3. }
  apply wp_bind. destruct (v2 k) eqn:Ev.
  - eapply (wp_send (index := index) (p := p)); [by rewrite A1 | rewrite I8; by apply plain_other | rewrite I8, A4, Hk; unfold card_cmd; cbn; rewrite Ev; reflexivity |].
    intros s2 (B1 & B2 & B3 & B4) E2. apply wp_bind, wp_bind. change (EFI_SUCCESS =? EFI_SUCCESS) with true. cbn iota.
    eapply (wp_receive (index := index) (p := p)); [by rewrite B1, A1 | by repeat constructor |]. rewrite E2.
    intros ws s3 (C1 & C2 & C3 & C4) F3 L3 _. specialize (L3 ltac:(cbn; lia)). destruct ws as [|w ws]; [cbn in L3; lia|]. cbn [nth] in F3.
    cbn [snd nth fst]. change (EFI_ERROR EFI_SUCCESS) with false. rewrite F3. apply wp_ret. apply K.
    unfold MmcIdentSpec.host_moved. by rewrite C1, C2, C3, C4, B1, B2, B3, B4, A1, A2, A3.
  - eapply (wp_send_refused (index := index) (p := p)); [by rewrite A1 | rewrite I8; by apply plain_other | rewrite I8, A4, Hk; unfold card_cmd; cbn; rewrite Ev; reflexivity |].
    intros st' s2 Hst' (B1 & B2 & B3 & B4). apply wp_bind. destruct (Z.eqb_spec st' EFI_SUCCESS) as [->|]; [done|]. apply wp_ret. apply K.
    unfold MmcIdentSpec.host_moved. by rewrite B1, B2, B3, B4, A1, A2, A3, A4.
Qed.

(** ** From reset on *)

Lemma MmcIdentificationMode_spec k s : Host (mi s) = p -> p <> 0 -> sound_card k -> card s = k ->
  wp (MmcIdentificationMode patience) s (fun st s' => st = EFI_SUCCESS /\
    mi s' = set_State MmcStandByState (with_rca (rca k) (with_ocr (card_type k) (op_cond_word 0 k) (mi s))) /\
    mEmmcRcaCount s' = mEmmcRcaCount s /\ mmem s' = mmem s /\ card s' = quiet Stby false 0 k).
Proof.
  indices index. intros Hp Hp0 Hs Hk. unfold MmcIdentificationMode, the. apply wp_bind, wp_gets. rewrite Hp, (proj2 (Z.eqb_neq p 0)) by done.
  apply wp_bind, wp_gets, on_success_wp.
  apply wp_mono with (Q := fun st s1 => st = EFI_SUCCESS /\ (mi s1 = mi s \/ mi s1 = set_State MmcHwInitializationState (mi s)) /\
    mEmmcRcaCount s1 = mEmmcRcaCount s /\ mmem s1 = mmem s /\ card s1 = k).
  { destruct (bool_decide _); [|apply wp_ret; auto].
    eapply (wp_notify (index := index) (p := p)); [done | done|]. intros s1 A1 A2 A3 A4. rewrite A1, A2, A3, A4. auto. }
  cbn beta. intros st s1 (-> & A1 & A2 & A3 & A4). split; [done|].
  assert (Hp1 : Host (mi s1) = p) by by destruct A1 as [-> | ->].
  eapply on_success_send; [done | rewrite I0; by apply plain_other | rewrite I0, A4; reflexivity|].
  intros s2 (B1 & B2 & B3 & B4). apply on_success_notify; [by rewrite B1 | done|]. intros s3 C1 C2 C3 C4.
  assert (Hm : set_State MmcStandByState (with_rca (rca k) (with_ocr (card_type k) (op_cond_word 0 k) (mi s3))) =
               set_State MmcStandByState (with_rca (rca k) (with_ocr (card_type k) (op_cond_word 0 k) (mi s)))).
  { rewrite C1, B1. by destruct A1 as [-> | ->]. }
  apply wp_bind. change MAX_RETRY_COUNT with (S 999). generalize 999%nat. intros rounds. cbn [emmc_op_cond]. apply wp_bind.
  eapply (wp_send_refused (index := index) (p := p)); [by rewrite C1, B1 | rewrite I1; by apply plain_other | rewrite I1, C4, B4; reflexivity|].
  intros st s4 Hst (D1 & D2 & D3 & D4). rewrite Hst. apply wp_ret. destruct (Z.eqb_spec st EFI_SUCCESS) as [->|]; [done|].
  eapply wp_mono; [apply (sd_identification_spec k); [by rewrite D1, C1, B1 | done | by rewrite D4, C4, B4]|].
  cbn beta. intros st' s5 (-> & E1 & E2 & E3 & E4). rewrite E1, E2, E3, E4, D1, D2, D3, Hm, C2, C3, B2, B3, A2, A3. done.
Qed.

(** ** Media and bus width *)

Lemma shifted_rca r : in_word 16 r -> Z.shiftr (u32 (Z.shiftl r 16)) 16 = r.
Proof. intros W. by rewrite word_of_rca, Z.shiftr_shiftl_l, Z.sub_diag, Z.shiftl_0_r by (done || lia). Qed.

(** A command that asks for bytes, and the transfer. *)
Lemma on_success_send_read cmd arg lba n buf d s (Q : Z -> mmc H -> Prop) r k bs k' : Host (mi s) = p -> data_command (index cmd) (u32 arg) (card s) ->
  card_cmd (index cmd) (u32 arg) (card s) = Some (r, k) -> card_send n k = Some (bs, k') -> Forall is_byte bs -> Z.of_nat (length bs) = n -> whole_blocks n ->
  (forall s', mi s' = mi s -> mEmmcRcaCount s' = mEmmcRcaCount s -> mmem s' = write_bytes (mmem s) buf bs -> card s' = k' -> wp d s' Q) ->
  wp (on_success (send cmd arg) (on_success (read_data lba n buf) d)) s Q.
Proof.
  intros Hp Hd Hc Hs Hby Hn Hm HQ. destruct (relays_read cmd (u32 arg) lba n buf (mmem s) (mhost s) r k bs k' (wrap_range 32 arg ltac:(lia)) Hd Hc Hs Hby Hn Hm) as (h1 & h2 & E1 & E2 & E3).
  apply on_success_wp. unfold wp at 1, send, host_op. rewrite Hp, E1. split; [done|].
  apply on_success_wp. unfold wp at 1, read_data. cbn [mi mmem mhost]. rewrite Hp, E2. split; [done|]. by apply HQ.
Qed.

Lemma write_changes m a bs n : Z.of_nat (length bs) <= n -> only_changes a n m (write_bytes m a bs).
Proof. intros L x Hx. apply in_range_false in Hx. apply write_bytes_out. lia. Qed.

(** What the whole step may change. *)
Definition settles s s' k : Prop :=
  mi s' = mi s /\ mEmmcRcaCount s' = mEmmcRcaCount s /\ only_changes local_Buffer 64 (mmem s) (mmem s') /\ card s' = k.

Lemma app_cmd_set k : negb (Z.land (status_word true (quiet Tran false 0 k)) MMC_STATUS_APP_CMD =? 0) = true.
Proof. rewrite (app_cmd_bit (index := index)). done. Qed.

(** The switch of the function, if the card has it. *)
Lemma switch_spec k (Ccc : bool) d s (Q : Z -> mmc H -> Prop) : Host (mi s) = p -> sound_card k -> card s = quiet Tran false 0 k ->
  (forall s', settles s s' (quiet Tran false 0 k) -> wp d s' Q) ->
  wp (on_success (if Ccc then on_success (send MMC_CMD6 (Z.lor (Z.land (Z.lor (Z.shiftl 1 31) 0x00FFFFFF) (Z.lnot 0xF)) 1)) (read_data 0 64 local_Buffer) else mret EFI_SUCCESS) d) s Q.
Proof.
  indices index. intros Hp Hs Hk HQ. destruct Ccc.
  - assert (Hl : card_send 64 (moves Tran false (SendBytes (switch_status k)) false 0 0 k) = Some (switch_status k, quiet Tran false 0 k)).
    { unfold card_send. cbn [data moves]. rewrite (sound_switch k Hs). done. }
    apply on_success_wp. set (arg := Z.lor _ _).
    destruct (relays_read (index := index) MMC_CMD6 (u32 arg) 0 64 local_Buffer (mmem s) (mhost s) [status_word false (quiet Tran false 0 k)]
      (moves Tran false (SendBytes (switch_status k)) false 0 0 k) (switch_status k) (quiet Tran false 0 k) (wrap_range 32 arg ltac:(lia))) as (h1 & h2 & E1 & E2 & E3);
      [rewrite I6, Hk; by do 5 right | by rewrite I6, Hk | exact Hl | apply Hs | by rewrite (sound_switch k Hs) | split; [done | split; [done | by left]] |].
    apply on_success_wp. unfold wp at 1, send, host_op. rewrite Hp, E1. split; [done|].
    unfold wp at 1, read_data. cbn [mi mmem mhost]. rewrite Hp, E2. split; [done|]. apply HQ. split; [done|]. split; [done|]. split; [|done].
    apply write_changes. rewrite (sound_switch k Hs). lia.
  - apply on_success_wp, wp_ret. split; [done|]. apply HQ. by repeat split.
Qed.

(** Four data lines, if the card has them. *)
Lemma widen_spec k (Four : bool) d s (Q : Z -> mmc H -> Prop) : Host (mi s) = p -> RCA (CardInfo (mi s)) = rca k -> sound_card k -> card s = quiet Tran false 0 k ->
  (forall s', settles s s' (quiet Tran false 0 k) -> wp d s' Q) ->
  wp (on_success (if Four then arg ← rca_arg; on_success (send MMC_CMD55 arg) (send MMC_CMD6 2) else mret EFI_SUCCESS) d) s Q.
Proof.
  indices index. intros Hp Hr Hs Hk HQ. apply on_success_wp. destruct Four; [|apply wp_ret; split; [done|]; apply HQ; by repeat split].
  unfold rca_arg, the. apply wp_bind, wp_gets. rewrite Hr.
  eapply on_success_send; [done | rewrite I55; by apply plain_other | |].
  { rewrite I55, Hk. unfold card_cmd. cbn [quiet moves app at_state rca]. rewrite shifted_rca, (Z.eqb_refl (rca k)) by apply Hs. reflexivity. }
  intros s1 (A1 & A2 & A3 & A4). eapply (wp_send (index := index) (p := p)); [by rewrite A1 | rewrite I6, A4; unfold plain_command; change (u32 2) with 2; lia | by rewrite I6, A4 |].
  intros s2 (B1 & B2 & B3 & B4) _. split; [done|]. apply HQ. unfold settles. rewrite B1, B2, B3, B4, A1, A2, A3. by repeat split.
Qed.

Lemma sd_bus_width_spec k (Ccc : bool) s : Host (mi s) = p -> RCA (CardInfo (mi s)) = rca k -> sound_card k ->
  card s = quiet Tran true 0 k ->
  wp (sd_bus_width Ccc) s (fun st s' => st = EFI_SUCCESS /\ settles s s' (quiet Tran false 0 k)).
Proof.
  indices index. intros Hp Hr Hs Hk. unfold sd_bus_width.
  eapply on_success_send_read; [done | rewrite IA51, Hk; do 4 right; by left | by rewrite IA51, Hk | | apply (sound_scr_bytes k Hs) | cbn [quiet moves scr]; by rewrite (sound_scr k Hs) | split; [done | split; [done | by left]] |].
  { unfold card_send. cbn [data quiet moves scr]. rewrite (sound_scr k Hs). reflexivity. }
  intros s1 A1 A2 A3 A4. apply wp_bind, wp_gets.
  apply (switch_spec k); [by rewrite A1 | done | exact A4 |]. intros s2 (B1 & B2 & B3 & B4).
  apply (widen_spec k); [by rewrite B1, A1 | by rewrite B1, A1 | done | exact B4 |]. intros s3 (C1 & C2 & C3 & C4).
  assert (K : settles s s3 (quiet Tran false 0 k)).
  { unfold settles. rewrite C1, C2, B1, B2, A1, A2. split; [done|]. split; [done|]. split; [|done].
    intros x Hx. rewrite C3, B3, A3 by done. apply write_bytes_out. apply in_range_false in Hx. cbn [scr moves]. rewrite (sound_scr k Hs). lia. }
  unfold has. apply wp_bind, wp_gets, on_success_wp. rewrite C1, B1, A1, Hp. destruct (HasSetIos p (mhost s3)) eqn:Ei.
  - destruct (relays_ios (mhost s3) Ei) as (h & E & Ek). unfold wp at 1, host_op. change (26 * 1000 * 1000) with 26000000.
    rewrite C1, B1, A1, Hp, E. split; [done|]. apply wp_ret. split; [done|]. destruct K as (K1 & K2 & K3 & K4).
    rewrite C1, B1, A1 in K1. unfold settles. cbn [mi mEmmcRcaCount mmem mhost]. rewrite Ek. done.
  - apply wp_ret. split; [done|]. apply wp_ret. done.
Qed.

(** The media of a card with CSD [Response]. *)
Definition described (t : CARD_TYPE) (Response : list Z) (ro : bool) (m : EFI_BLOCK_IO_MEDIA) : EFI_BLOCK_IO_MEDIA :=
  let '(NumBlocks, aBlockSize) := csd_media t Response in
  set_MediaId (u32 (MediaId m + 1)) (set_MediaPresent true (set_ReadOnly ro (set_BlockSize aBlockSize (set_LastBlock (u64 (NumBlocks - 1)) m)))).

Lemma InitializeSdMmcDevice_spec k s : Host (mi s) = p -> RCA (CardInfo (mi s)) = rca k -> sound_card k -> card s = quiet Stby false 0 k ->
  wp InitializeSdMmcDevice s (fun st s' => st = EFI_SUCCESS /\
    (exists h, mi s' = set_Media (described (CardType (CardInfo (mi s))) (csd k) (IsReadOnly p h).1 (Media (mi s))) (mi s)) /\
    mEmmcRcaCount s' = mEmmcRcaCount s /\ only_changes local_Buffer 64 (mmem s) (mmem s') /\ card s' = quiet Tran false 0 k).
Proof.
  indices index. intros Hp Hr Hs Hk. unfold InitializeSdMmcDevice, rca_arg, the. apply wp_bind, wp_gets. rewrite Hr.
  eapply on_success_receive; [done | rewrite I9; by apply plain_other | | by repeat constructor | |].
  { rewrite I9, Hk. unfold card_cmd. cbn [quiet moves app at_state rca]. rewrite shifted_rca, (Z.eqb_refl (rca k)) by apply Hs. reflexivity. }
  { change (0 < length (csd k))%nat. rewrite (sound_csd k Hs). lia. }
  intros ws s1 (A1 & A2 & A3 & A4) _ Ew. rewrite (eq_trans (Ew eq_refl (sound_csd k Hs)) (words_of_csd k Hs) : ws = csd k).
  apply wp_bind, wp_gets. rewrite A1. unfold described. destruct (csd_media _ (csd k)) as [n bs] eqn:Em.
  apply wp_bind, wp_modify, wp_bind, wp_modify. cbn [mi mmem mEmmcRcaCount mhost]. apply wp_bind.
  unfold wp at 1, host_op. cbn [mi mmem mEmmcRcaCount mhost]. rewrite A1. cbn [set_Media Host Media]. rewrite Hp.
  destruct (relays_query (p := p) (mhost s1)) as (Eq & _). destruct (IsReadOnly p (mhost s1)) as [ro h] eqn:Er. cbn [snd] in Eq.
  do 3 apply wp_bind, wp_modify. cbn [mi mmem mEmmcRcaCount mhost]. apply wp_bind, wp_gets. cbn [mi set_Media CardInfo]. rewrite Hr.
  pose proof (selects k Hs) as Hn. eapply on_success_send; [exact Hp | rewrite I7; unfold plain_command; lia | |].
  { cbn [mhost]. rewrite I7, Eq, A4. unfold card_cmd. cbn [quiet goes moves app at_state rca]. rewrite shifted_rca, (Z.eqb_refl (rca k)) by apply Hs. reflexivity. }
  cbn [mhost mi mmem mEmmcRcaCount]. intros s2 (B1 & B2 & B3 & B4).
  cbn [mhost mi mmem mEmmcRcaCount] in *.
  eapply on_success_receive; [by rewrite B1 | rewrite I55; by apply plain_other | | by left | |].
  { rewrite I55, B4. unfold card_cmd. cbn [quiet goes moves app at_state rca]. rewrite shifted_rca, (Z.eqb_refl (rca k)) by apply Hs. reflexivity. }
  { cbn. lia. }
  intros ws' s3 (C1 & C2 & C3 & C4) E3 _. rewrite E3. cbn [nth].
  pose proof (app_cmd_set k) as Ha. apply negb_true_iff in Ha.
  match goal with |- context [Z.land ?w MMC_STATUS_APP_CMD] => change w with (status_word true (quiet Tran false 0 k)) end. rewrite Ha.
  eapply wp_mono; [apply (sd_bus_width_spec k); [by rewrite C1, B1 | by rewrite C1, B1 | done | exact C4]|].
  cbn beta. intros st s4 (-> & D1 & D2 & D3 & D4). rewrite D1, D2, D4, C1, C2, B1, B2, A2. split; [done|]. split; [|split; [done|split; [|done]]].
  - exists (mhost s1). by rewrite Er.
  - by rewrite <- A3, <- B3, <- C3.
Qed.

(** ** The whole sequence *)

Definition identified k (ro : bool) (i : MMC_HOST_INSTANCE) : MMC_HOST_INSTANCE :=
  set_Media (described (card_type k) (csd k) ro (Media i)) (set_State MmcTransferState (with_rca (rca k) (with_ocr (card_type k) (op_cond_word 0 k) i))).

Lemma InitializeMmcDevice_spec k s : Host (mi s) = p -> p <> 0 -> sound_card k -> 9 <= MMC_CSD_GET_READBLLEN (csd k) -> card s = k ->
  wp (InitializeMmcDevice patience) s (fun st s' => st = EFI_SUCCESS /\
    (exists h, mi s' = identified k (IsReadOnly p h).1 (mi s)) /\
    mEmmcRcaCount s' = mEmmcRcaCount s /\ only_changes local_Buffer 64 (mmem s) (mmem s') /\ card s' = quiet Tran false 0 k).
Proof.
  indices index. intros Hp Hp0 Hs Hb Hk. unfold InitializeMmcDevice. apply on_success_wp.
  eapply wp_mono; [by apply (MmcIdentificationMode_spec k)|]. cbn beta. intros st s1 (-> & A1 & A2 & A3 & A4). split; [done|].
  apply on_success_notify; [by rewrite A1 | done|]. intros s2 B1 B2 B3 B4. unfold the. apply wp_bind, wp_gets.
  assert (Et : CardType (CardInfo (mi s2)) = card_type k) by by rewrite B1, A1.
  assert (Ne : card_type k <> EMMC_CARD /\ card_type k <> MMC_CARD) by (unfold card_type; by destruct (v2 k), (hc k)).
  rewrite Et, bool_decide_eq_true_2 by apply Ne. apply on_success_wp.
  eapply wp_mono; [apply (InitializeSdMmcDevice_spec k); [by rewrite B1, A1 | by rewrite B1, A1 | done | by rewrite B4]|].
  cbn beta. intros st' s3 (-> & (h & C1) & C2 & C3 & C4). split; [done|]. rewrite Et in C1. apply wp_bind, wp_gets.
  assert (Ebs : BlockSize (Media (mi s3)) = 512).
  { rewrite C1. cbn [set_Media Media]. unfold described, csd_media. set (r := MMC_CSD_GET_READBLLEN (csd k)) in *.
    assert (512 <= Z.shiftl 1 r). { rewrite Z.shiftl_mul_pow2, Z.mul_1_l by lia. change 512 with (2 ^ 9). apply Z.pow_le_mono_r; lia. }
    destruct (Z.ltb_spec 512 (Z.shiftl 1 r)); [done|]. replace (Z.shiftl 1 r) with 512 by lia. done. }
  rewrite Ebs. eapply on_success_send; [by rewrite C1, B1, A1 | rewrite I16; by apply plain_other | by rewrite I16, C4 |].
  intros s4 (D1 & D2 & D3 & D4). apply wp_bind, wp_gets.
  assert (Et3 : CardType (CardInfo (mi s4)) = card_type k) by (rewrite D1, C1; exact Et).
  rewrite Et3, bool_decide_eq_false_2 by apply Ne. apply wp_ret. split; [done|]. rewrite D2, D3, D4, C2, B2, A2, <- A3, <- B3.
  split; [|done]. exists h. by rewrite D1, C1, B1, A1.
Qed.
End ident.
