(* ===== verification/MmcProps.v ===== *)
(** * The MMC driver: small hosts

    Two hosts to run the driver on: one that is wired to an SD card, for which
    the laws of [RelaysCard] are proved, and one that answers to nothing. *)

From Stdlib Require Import ZArith Lia.
From stdpp Require Import base list numbers option.
From S2P Require Import Prelude Memory Mmc MmcIdent MmcIdentSpec.

#[export] Instance small_codes : MmcCodes := {
  MMC_CMD0 := 0; MMC_CMD1 := 1; MMC_CMD2 := 2; MMC_CMD3 := 3; MMC_CMD5 := 5; MMC_CMD6 := 6; MMC_CMD7 := 7; MMC_CMD8 := 8; MMC_CMD9 := 9;
  MMC_CMD12 := 12; MMC_CMD13 := 13; MMC_CMD16 := 16; MMC_CMD17 := 17; MMC_CMD18 := 18; MMC_CMD23 := 23; MMC_CMD24 := 24; MMC_CMD25 := 25;
  MMC_CMD55 := 55; MMC_ACMD41 := 41; MMC_ACMD51 := 51;
  MMC_RESPONSE_TYPE_R1 := 1; MMC_RESPONSE_TYPE_R1b := 0x11; MMC_RESPONSE_TYPE_R2 := 2; MMC_RESPONSE_TYPE_R3 := 3; MMC_RESPONSE_TYPE_R6 := 6;
  MMC_RESPONSE_TYPE_R7 := 7; MMC_RESPONSE_TYPE_OCR := 0x13; MMC_RESPONSE_TYPE_CID := 0x12; MMC_RESPONSE_TYPE_CSD := 0x22; MMC_RESPONSE_TYPE_RCA := 0x16;
  EMMCBACKWARD := 0; EMMCHS26 := 1; EMMCHS52 := 2; EMMCHS52DDR1V8 := 4; EMMCHS52DDR1V2 := 8;
  EMMC_CMD1_CAPACITY_LESS_THAN_2GB := 0x00FF8080; EMMC_CMD1_CAPACITY_GREATER_THAN_2GB := 0x40FF8080; MMC_STATUS_APP_CMD := 0x20
}.

#[export] Instance small_code_laws : MmcCodeLaws (fun x => x).
Proof. split; reflexivity. Defined.

#[export] Instance small_build : Build := { debug_build := true }.
#[export] Instance small_frame : MmcFrame := { local_Buffer := 0x8000; uninit := 0xAAAAAAAA }.

(** ** A host wired to a card *)
Record small := { scard : sdcard; sresponse : list Z }.

#[export] Instance small_host : MmcHost small := {
  HasSetIos _ _ := true;
  HasIsMultiBlock _ _ := true;
  IsCardPresent _ h := (true, h);
  IsReadOnly _ h := (false, h);
  BuildDevicePath _ h := (EFI_SUCCESS, 0x4000, h);
  NotifyState _ _ h := (EFI_SUCCESS, h);
  SendCommand _ cmd arg h :=
    match card_cmd cmd arg (scard h) with
    | Some (r, k) => (EFI_SUCCESS, Build_small k r)
    | None => (ENCODE_ERROR 18, h)
    end;
  ReceiveResponse _ _ h := (EFI_SUCCESS, u32 <$> sresponse h, h);
  ReadBlockData _ _ n buf m h :=
    match card_send n (scard h) with
    | Some (bs, k) => (EFI_SUCCESS, write_bytes m buf bs, Build_small k (sresponse h))
    | None => (EFI_DEVICE_ERROR, m, h)
    end;
  WriteBlockData _ _ n buf m h :=
    match card_take (read_bytes m buf n) (scard h) with
    | Some k => (EFI_SUCCESS, Build_small k (sresponse h))
    | None => (EFI_DEVICE_ERROR, h)
    end;
  SetIos _ _ _ _ h := (EFI_SUCCESS, h);
  IsMultiBlock _ h := (true, h);
  Stall _ h := h
}.

#[export] Instance small_relays p : RelaysCard small (fun x => x) p.
Proof.
  refine {| card_of := scard; response_of := sresponse |}.
  - intros cmd arg h _ _. cbn. destruct (card_cmd cmd arg (scard h)) as [[r k]|]; [by eexists | by do 2 eexists].
  - intros t h _. exists (u32 <$> sresponse h), h. split; [done|]. split; [done|]. split; [done|]. split; [|split; [|done]].
    + by destruct (sresponse h).
    + by rewrite length_fmap.
  - intros cmd arg lba n buf m h r k bs k' _ _ E1 E2 _ _ _. cbn. rewrite E1. exists (Build_small k r). cbn. rewrite E2. by eexists.
  - intros cmd arg lba n buf m h r k k' _ _ E1 E2 _ _ _. cbn. rewrite E1. exists (Build_small k r). cbn. rewrite E2. by eexists.
  - intros st h _. by eexists.
  - intros h _. by eexists.
  - done.
  - done.
Defined.

(** A 1 GB card of version 1, powered up after three rounds, and a card of high
    capacity that reports 64 GB. *)
Definition small_csd : list Z := [0; 0xC0038000; 0x5A0A03FF; 0].
Definition large_csd : list Z := [0; 0xFFFF0000; 0x5B590001; 0x400E0032].

Definition new_card (high : bool) (d : Z -> list Z) : sdcard :=
  Build_sdcard Tran true (SendBytes []) true 5 3 high high 0x1234 [1; 2; 3; 4] (if high then large_csd else small_csd)
    [2; 5; 0; 0; 0; 0; 0; 0] (replicate 64 0) 7 d.

Definition pattern (b : Z) : list Z := replicate 512 (b mod 251).

Lemma pattern_sound : sound_disk pattern.
Proof.
  intros b. split; [apply length_replicate|]. apply list.Forall_replicate.
  pose proof (Z.mod_pos_bound b 251 ltac:(lia)). unfold is_byte, in_word. lia.
Qed.

Definition blank_instance (p : Z) : MMC_HOST_INSTANCE :=
  {| MmcHandle := 0; DevicePath := 0; State := MmcHwInitializationState; MediaPtr := 0x5000;
     Media := {| MediaId := 0x6f636d6d; RemovableMedia := true; MediaPresent := false; LogicalPartition := false; ReadOnly := false;
                 WriteCaching := false; BlockSize := 512; IoAlign := 4; LastBlock := 0; LogicalBlocksPerPhysicalBlock := 0 |};
     CardInfo := {| RCA := 0; CardType := UNKNOWN_CARD; OCRData := 0; CIDData := replicate 8 0; CSDData := replicate 4 0; ECSDData := 0x6000 |};
     Host := p; Initialized := false |}.

Definition small_state (k : sdcard) : mmc small := Build_mmc (blank_instance 0x700) 0 (fun _ => 0) (Build_small k []).

Lemma new_card_sound high d : sound_card (new_card high d).
Proof.
  split; [done | done | done | by destruct high | | done | | done | | done | by apply Nat.ltb_lt].
  - destruct high; repeat constructor; lia.
  - repeat constructor; lia.
  - by apply list.Forall_replicate.
Qed.

(** The driver's state with the card identified. *)
Definition small_ready (high : bool) (b : nat) : mmc small :=
  Build_mmc (identified (new_card high pattern) false (blank_instance 0x700)) 0 (fun _ => 0)
    (Build_small (moves Tran false NoData false b 0 (new_card high pattern)) []).

(** ** A host that does not answer *)
Definition dead_host : MmcHost unit := {|
  HasSetIos _ _ := false;
  HasIsMultiBlock _ _ := false;
  IsCardPresent _ h := (true, h);
  IsReadOnly _ h := (false, h);
  BuildDevicePath _ h := (EFI_SUCCESS, 0x4000, h);
  NotifyState _ _ h := (EFI_SUCCESS, h);
  SendCommand _ _ _ h := (ENCODE_ERROR 18, h);
  ReceiveResponse _ _ h := (ENCODE_ERROR 18, [], h);
  ReadBlockData _ _ _ _ m h := (ENCODE_ERROR 18, m, h);
  WriteBlockData _ _ _ _ _ h := (ENCODE_ERROR 18, h);
  SetIos _ _ _ _ h := (ENCODE_ERROR 18, h);
  IsMultiBlock _ h := (false, h);
  Stall _ h := h
|}.

Definition dead_state : mmc unit :=
  Build_mmc (identified (new_card false pattern) false (blank_instance 0x700)) 0 (fun _ => 0) tt.

(** * Properties of the MMC driver

    Transfers of blocks and the identification of a card, against a card that
    a host relays (MmcIdentSpec.v); and what the driver does when a host fails. *)

(** ** Requests *)
Section requests.
Context {B : Build} {C : MmcCodes} {H : Type} {MH : MmcHost H} (p : Z).
Implicit Types s : mmc H.

(** A request the driver accepts: [n] blocks of its media from [lba]. *)
Definition acceptable s mid lba n buf : Prop :=
  p <> 0 /\ MediaId (Media (mi s)) = mid /\ MediaPresent (Media (mi s)) = true /\ IoAlign (Media (mi s)) = 4 /\
  LastBlock (Media (mi s)) + 1 < 2 ^ 64 /\ lba + n <= LastBlock (Media (mi s)) + 1 /\
  0 < buf /\ buf + 512 * n < 2 ^ 64 /\ buf mod 4 = 0.

(** The checks before the loop. *)
Lemma MmcIoBlocks_starts Transfer mid lba n buf s (Q : Z -> mmc H -> Prop) :
  Host (mi s) = p -> BlockSize (Media (mi s)) = 512 -> acceptable s mid lba n buf -> 0 <= lba /\ 0 < n ->
  (Transfer = MMC_IOBLOCKS_WRITE -> ReadOnly (Media (mi s)) = false) ->
  (forall c s', c = 1 \/ c = n ->
     (exists h, s' = Build_mmc (mi s) (mEmmcRcaCount s) (mmem s) h /\ (h = mhost s \/ h = (IsMultiBlock p (mhost s)).2)) ->
     wp (io_loop (S (S (Z.to_nat n))) Transfer mid c lba (512 * n) buf) s' Q) ->
  wp (MmcIoBlocks Transfer mid lba (512 * n) buf) s Q.
Proof.
  intros Hp K1 (A1 & A2 & A3 & A4 & A5 & A6 & A7 & A8 & A9) (L1 & L2) Hro HQ.
  unfold MmcIoBlocks, the. apply wp_bind, wp_gets. rewrite Hp, (proj2 (Z.eqb_neq p 0)) by done.
  apply wp_bind, wp_ASSERT; [done|]. apply wp_bind, wp_gets. rewrite A2, Z.eqb_refl. cbn [negb orb].
  rewrite (proj2 (Z.eqb_neq buf 0)), A3 by lia. cbn [negb]. unfold has. apply wp_bind, wp_gets. rewrite Hp. apply wp_bind.
  apply wp_mono with (Q := fun _ s' => exists h, s' = Build_mmc (mi s) (mEmmcRcaCount s) (mmem s) h /\ (h = mhost s \/ h = (IsMultiBlock p (mhost s)).2)).
  - destruct (HasIsMultiBlock p (mhost s)).
    + unfold wp, host_op. rewrite Hp. destruct (IsMultiBlock p (mhost s)) as [b h]. exists h. split; [done | by right].
    + apply wp_ret. exists (mhost s). split; [by destruct s | by left].
  - intros multi s' M. rewrite K1. change (512 =? 0) with false. cbn iota.
    rewrite (wrap_small 64 (512 * n + 512 - 1)) by (split; lia).
    assert (E1 : (512 * n + 512 - 1) / 512 = n) by (symmetry; apply Z.div_unique with 511; lia).
    assert (E2 : 512 * n / 512 = n) by (rewrite Z.mul_comm, Z.div_mul; lia).
    rewrite E1, E2, (wrap_small 64 (LastBlock _ + 1)), (wrap_small 64 (lba + n)) by (split; lia).
    rewrite (proj2 (Z.ltb_ge _ _)) by lia.
    assert (Ew : (Transfer =? MMC_IOBLOCKS_WRITE) && ReadOnly (Media (mi s)) = false).
    { destruct (Z.eqb_spec Transfer MMC_IOBLOCKS_WRITE) as [E|]; [by rewrite Hro | done]. }
    rewrite Ew, (proj2 (Z.eqb_neq (512 * n) 0)) by lia. rewrite Z.mul_comm, Z_mod_mult, Z.mul_comm, A4.
    change (4 - 1) with (Z.ones 2). rewrite Z.land_ones by done. change (2 ^ 2) with 4. rewrite A9.
    cbn [Z.ltb Z.compare Pos.compare Pos.compare_cont andb negb Z.eqb].
    apply HQ; [destruct multi; [by right | by left] | exact M].
Qed.

(** ** A host that fails *)
Context (fails : forall cmd arg h, EFI_ERROR (SendCommand p cmd arg h).1 = true).

Lemma wp_send_fails cmd arg s (Q : Z -> mmc H -> Prop) : Host (mi s) = p ->
  (forall st h, EFI_ERROR st = true -> Q st (Build_mmc (mi s) (mEmmcRcaCount s) (mmem s) h)) -> wp (send cmd arg) s Q.
Proof.
  intros Hp HQ. unfold wp, send, host_op. rewrite Hp. pose proof (fails cmd (u32 arg) (mhost s)) as E.
  destruct (SendCommand p cmd (u32 arg) (mhost s)) as [st h]. by apply HQ.
Qed.

Lemma wait_ready_fails n arg r0 s : Host (mi s) = p -> not_ready r0 = true ->
  wp (wait_ready n arg r0) s (fun T s' => T = -1 /\ mi s' = mi s /\ mmem s' = mmem s).
Proof.
  intros Hp Hr. revert s Hp. induction n as [|n IH]; intros s Hp; cbn [wait_ready]; rewrite Hr; [by apply wp_ret|].
  apply wp_bind, wp_send_fails; [exact Hp|]. intros st h ->. cbn [negb].
  exact (IH (Build_mmc (mi s) (mEmmcRcaCount s) (mmem s) h) Hp).
Qed.

Lemma io_loop_fails Transfer mid c n lba buf s : Host (mi s) = p -> BlockSize (Media (mi s)) = 512 -> 0 < n < 2 ^ 55 -> c = 1 \/ c = n ->
  wp (io_loop (S (S (Z.to_nat n))) Transfer mid c lba (512 * n) buf) s (fun st s' => st = EFI_SUCCESS /\ mi s' = mi s /\ mmem s' = mmem s).
Proof.
  intros Hp Hbs Hn Hc.
  assert (K : forall fuel m lba buf s, Host (mi s) = p -> BlockSize (Media (mi s)) = 512 -> 0 <= m <= n -> (c = 1 \/ m = n \/ m = 0) -> m < Z.of_nat fuel ->
    wp (io_loop fuel Transfer mid c lba (512 * m) buf) s (fun st s' => st = EFI_SUCCESS /\ mi s' = mi s /\ mmem s' = mmem s)).
  { clear lba buf s Hp Hbs. induction fuel as [|fuel IH]; intros m lba buf s Hp Hbs Hm Hcm Hf; [lia|]. cbn [io_loop].
    destruct (Z.leb_spec (512 * m) 0) as [L|L]; [by apply wp_ret|].
    unfold rca_arg, the. apply wp_bind, wp_gets, wp_bind. eapply wp_mono; [by apply wait_ready_fails|].
    cbn beta. intros T s1 (-> & E1 & E2). cbn [Z.eqb]. apply wp_bind, wp_gets. rewrite E1, Hbs. cbv zeta.
    rewrite (wrap_small 64 (c * 512)) by (split; lia).
    assert (E : (if 512 * m <? c * 512 then 512 * m else c * 512) = 512 * c) by (destruct (Z.ltb_spec (512 * m) (c * 512)); lia).
    rewrite E. apply wp_bind.
    apply wp_mono with (Q := fun _ s2 => mi s2 = mi s /\ mmem s2 = mmem s).
    - unfold MmcTransferBlock, the. apply wp_bind, wp_gets, wp_bind, wp_gets, wp_bind, wp_send_fails; [by rewrite E1|].
      intros st h ->. by apply wp_ret.
    - intros _ s2 [F1 F2]. rewrite (wrap_small 64 (512 * m - 512 * c)) by (split; lia).
      replace (512 * m - 512 * c) with (512 * (m - c)) by lia.
      destruct (0 <? 512 * (m - c)); (eapply wp_mono; [apply IH; [by rewrite F1 | by rewrite F1 | lia | lia | lia]|]);
        cbn beta; intros st s3 (-> & G1 & G2); by rewrite G1, G2, F1, F2. }
  apply K; [done | done | lia | lia | lia].
Qed.

(** A read that transfers nothing reports success.  On a host whose commands all fail,
    a read of blocks inside the media returns [EFI_SUCCESS] and leaves the
    buffer as it was, where the protocol promises an error: the status of a
    transfer is only printed, and a card that never answers is not noticed. *)
Theorem MmcReadBlocks_hides_failure mid lba n buf s :
  Host (mi s) = p -> BlockSize (Media (mi s)) = 512 -> acceptable s mid lba n buf -> 0 <= lba /\ 0 < n ->
  wp (MmcReadBlocks mid lba (512 * n) buf) s (fun st s' => st = EFI_SUCCESS /\ mmem s' = mmem s).
Proof.
  intros Hp Hbs Ha Hn. apply MmcIoBlocks_starts; [done..|]. intros c s' Hc (h & -> & _).
  destruct Ha as (_ & _ & _ & _ & _ & _ & ? & ? & _).
  eapply wp_mono; [apply io_loop_fails; [done | done | lia | done]|]. cbn beta. intros st s2 (-> & _ & E). done.
Qed.
End requests.

Section transfers.
Context {B : Build} {C : MmcCodes} {H : Type} {MH : MmcHost H} {index : Z -> Z} {CL : MmcCodeLaws index} {p : Z} {RC : RelaysCard H index p}.
Implicit Types (s : mmc H) (k : sdcard).

Abbreviation card s := (card_of index p (mhost s)).

(** The card waits for commands, except that it programs for [b] queries. *)
Definition card_ready (k : sdcard) (o : bool) (b : nat) : Prop :=
  at_state k = Tran /\ app k = false /\ opened k = o /\ busy k = b /\ powering k = 0%nat.

(** The arguments the driver sends to its card. *)
Definition addressed s : Prop := Host (mi s) = p /\ RCA (CardInfo (mi s)) = rca (card s) /\ in_word 16 (rca (card s)).

Lemma rca_argument s : addressed s -> Z.shiftr (u32 (Z.shiftl (RCA (CardInfo (mi s))) 16)) 16 = rca (card s).
Proof.
  intros (_ & E & W). rewrite E, wrap_small; [by rewrite Z.shiftr_shiftl_l, Z.sub_diag, Z.shiftl_0_r by lia|].
  rewrite Z.shiftl_mul_pow2 by lia. unfold in_word in *. lia.
Qed.

Definition settled k : sdcard := moves Tran false NoData (opened k) 0 0 k.

(** One query of the status. *)
Lemma query_spec o b n s r0 (Q : Z -> mmc H -> Prop) : addressed s -> card_ready (card s) o b -> not_ready r0 = true ->
  (forall s1, host_moved (index := index) (p := p) s s1 (moves Tran false NoData o (pred b) 0 (card s)) ->
     wp (wait_ready n (Z.shiftl (RCA (CardInfo (mi s))) 16) (status_word false (card s))) s1 Q) ->
  wp (wait_ready (S n) (Z.shiftl (RCA (CardInfo (mi s))) 16) r0) s Q.
Proof.
  indices index. intros Ha Hr Hn HQ. pose proof (rca_argument s Ha) as Ra. destruct Ha as (Hp & Hc & Hw), Hr as (R1 & R2 & R3 & R4 & R5).
  cbn [wait_ready]. rewrite Hn. apply wp_bind. eapply (wp_send (index := index) (p := p)); [exact Hp | rewrite I13; by apply plain_other | |].
  - rewrite I13. unfold card_cmd. rewrite R2, Ra, R1, Z.eqb_refl. reflexivity.
  - intros s1 M1 E1. change (EFI_ERROR EFI_SUCCESS) with false. cbn [negb]. apply wp_bind.
    eapply (wp_receive (index := index) (p := p)); [rewrite (proj1 M1); exact Hp | by repeat constructor |].
    rewrite E1. intros ws s2 M2 E2 L2 _. cbn [snd]. specialize (L2 ltac:(cbn; lia)).
    destruct ws as [|w ws]; [cbn in L2; lia|]. cbn [nth] in E2 |- *. rewrite status_word_small in E2. subst w. apply HQ.
    destruct M1 as (A1 & A2 & A3 & A4), M2 as (B1 & B2 & B3 & B4). unfold host_moved. rewrite B1, B2, B3, B4, A1, A2, A3, A4, R3, R4. done.
Qed.

(** Queries of the status until the card is ready. *)
Lemma wait_ready_spec o b : forall n s r0, addressed s -> card_ready (card s) o b -> not_ready r0 = true -> (b < n)%nat ->
  wp (wait_ready n (Z.shiftl (RCA (CardInfo (mi s))) 16) r0) s (fun T s' => T = Z.of_nat (n - b - 1) /\ host_moved (index := index) (p := p) s s' (settled (card s))).
Proof.
  induction b as [|b IH]; intros n s r0 Ha Hr Hn Hb; (destruct n as [|n]; [lia|]); (eapply query_spec; [done..|]); intros s1 M1;
    pose proof Hr as (R1 & R2 & R3 & R4 & R5); unfold status_word; rewrite R4, R1, R3.
  - assert (E : not_ready (Z.lor (Z.lor (Z.shiftl (if o then 5 else state_code Tran) 9) 0x100) 0) = false) by by destruct o.
    rewrite bool_decide_eq_true_2 by done. destruct n; cbn [wait_ready]; rewrite E; apply wp_ret; (split; [lia|]); unfold settled; by rewrite R3.
  - rewrite bool_decide_eq_false_2 by done. pose proof M1 as (A1 & A2 & A3 & A4). rewrite <- A1.
    eapply wp_mono; [apply (IH n s1); [| | done | lia]|].
    + unfold addressed. rewrite A1, A4. exact Ha.
    + rewrite A4. by repeat split.
    + cbn beta. intros T s2 [-> M2]. split; [lia|]. unfold settled in *. rewrite A4 in M2. cbn [opened moves] in M2. rewrite R3.
      eapply host_moved_trans; [exact M1 | exact M2].
Qed.

(** The driver knows how its card is addressed. *)
Definition known s : Prop :=
  BlockSize (Media (mi s)) = 512 /\ (Z.land (AccessMode (OCRData (CardInfo (mi s)))) MMC_OCR_ACCESS_MASK =? MMC_OCR_ACCESS_SECTOR) = hc (card s).

(** The last of [n] blocks from [lba] has an address the command can carry. *)
Definition reachable k lba n : Prop := 0 <= lba /\ 0 < n /\ (if hc k then lba + n <= 2 ^ 32 else (lba + n) * 512 <= 2 ^ 32) /\ n * 512 < 2 ^ 32.

Lemma address_of s lba n : known s -> reachable (card s) lba n ->
  block_of (card s) (u32 (if Z.land (AccessMode (OCRData (CardInfo (mi s)))) MMC_OCR_ACCESS_MASK =? MMC_OCR_ACCESS_SECTOR then lba else u64 (lba * BlockSize (Media (mi s))))) = Some lba.
Proof.
  intros [E1 E2] (L & N & R & _). rewrite E1, E2. unfold block_of. destruct (hc (card s)).
  - by rewrite wrap_small by (split; lia).
  - rewrite (wrap_small 64) by (split; lia). rewrite wrap_small by (split; lia). by rewrite Z_mod_mult, Z.div_mul.
Qed.

(** After the data: the status is queried, an open transfer is stopped, the host
    is told. *)
Lemma transfer_tail s c b : addressed s -> known s -> card_ready (card s) (negb (c =? 1)) b -> (b < MMCI0_TIMEOUT)%nat -> 0 < c ->
  wp (CmdArg ← rca_arg;
      wait_ready MMCI0_TIMEOUT CmdArg 0;;
      bs ← the (fun i => BlockSize (Media i));
      (if bs <? 512 * c then send MMC_CMD12 0;; mret tt else mret tt);;
      MmcNotifyState MmcTransferState) s
    (fun st s' => st = EFI_SUCCESS /\ mi s' = set_State MmcTransferState (mi s) /\ mEmmcRcaCount s' = mEmmcRcaCount s /\ mmem s' = mmem s /\
      card s' = moves Tran false NoData false 0 0 (card s)).
Proof.
  indices index. intros Ha [Hb Hk] Hr Ht Hc. unfold rca_arg, the. apply wp_bind, wp_gets, wp_bind.
  eapply wp_mono; [apply (wait_ready_spec (negb (c =? 1)) b); [done | done | done | exact Ht]|].
  cbn beta. intros _ s1 [_ M1]. pose proof M1 as (A1 & A2 & A3 & A4). destruct Ha as (Hp & _). pose proof Hr as (_ & _ & R3 & _ & _).
  apply wp_bind, wp_gets. rewrite A1, Hb. apply wp_bind.
  apply wp_mono with (Q := fun _ s2 => host_moved (index := index) (p := p) s s2 (moves Tran false NoData false 0 0 (card s))).
  - destruct (Z.eqb_spec c 1) as [->|N]; cbn [negb] in *.
    + apply wp_ret. unfold settled in M1. by rewrite R3 in M1.
    + rewrite (proj2 (Z.ltb_lt 512 (512 * c))) by lia. apply wp_bind.
      eapply (wp_send (index := index) (p := p)); [by rewrite A1 | rewrite I12; by apply plain_other | |].
      * rewrite I12, A4. unfold card_cmd, settled. cbn [app moves at_state opened]. rewrite R3. reflexivity.
      * intros s2 M2 _. apply wp_ret. eapply host_moved_trans; [exact M1|]. exact M2.
  - cbn beta. intros _ s2 (B1 & B2 & B3 & B4). eapply (wp_notify (index := index) (p := p)); [by rewrite B1 | done |].
    intros s3 C1 C2 C3 C4. by rewrite C1, C2, C3, C4, B1, B2, B3, B4.
Qed.

Lemma length_card_blocks d lba j : sound_disk d -> 0 <= j -> Z.of_nat (length (disk_blocks d lba j)) = 512 * j.
Proof.
  intros Hd Hj. unfold disk_blocks. rewrite <- (Z2Nat.id j) by done. induction (Z.to_nat j) as [|m IH]; [done|].
  rewrite Nat2Z.inj_succ, <- Z.add_1_r, seqZ_app, fmap_app, concat_app, length_app, Nat2Z.inj_add, IH by lia.
  rewrite (seqZ_cons _ 1) by lia. change (Z.pred 1) with 0. cbn [seqZ Z.to_nat seq fmap list_fmap concat]. rewrite app_nil_r, (proj1 (Hd _)). lia.
Qed.

Lemma card_blocks_bytes d lba j : sound_disk d -> Forall is_byte (disk_blocks d lba j).
Proof.
  intros Hd. unfold disk_blocks. apply List.Forall_concat, list.Forall_fmap, list.Forall_true. intros b. apply Hd.
Qed.

Lemma whole_blocks_of c : 0 < c -> c * 512 < 2 ^ 32 -> whole_blocks (512 * c) /\ 512 * c mod 512 = 0.
Proof.
  intros Hc Hl. assert (E : 512 * c mod 512 = 0) by (by rewrite Z.mul_comm, Z_mod_mult).
  split; [|done]. split; [lia|]. split; [|by right]. replace (512 * c) with (128 * c * 4) by lia. apply Z_mod_mult.
Qed.

Lemma MmcTransferBlock_read s mid lba c buf : addressed s -> known s -> card_ready (card s) false 0 -> reachable (card s) lba c -> sound_disk (disk (card s)) ->
  wp (MmcTransferBlock (if c =? 1 then MMC_CMD17 else MMC_CMD18) MMC_IOBLOCKS_READ mid lba (512 * c) buf) s (fun st s' =>
    st = EFI_SUCCESS /\ mi s' = set_State MmcTransferState (mi s) /\ mEmmcRcaCount s' = mEmmcRcaCount s /\
    mmem s' = write_bytes (mmem s) buf (disk_blocks (disk (card s)) lba c) /\ card s' = moves Tran false NoData false 0 0 (card s)).
Proof.
  indices index. intros Ha Hk Hr Hl Hd. pose proof Ha as (Hp & _). pose proof Hr as (R1 & R2 & R3 & R4 & R5). pose proof Hl as (L1 & L2 & _ & L4).
  pose proof (address_of s lba c Hk Hl) as Hadr. unfold MmcTransferBlock, the. apply wp_bind, wp_gets, wp_bind, wp_gets.
  set (arg := if _ =? MMC_OCR_ACCESS_SECTOR then lba else _) in *.
  assert (D : exists h1 h2, SendCommand p (if c =? 1 then MMC_CMD17 else MMC_CMD18) (u32 arg) (mhost s) = (EFI_SUCCESS, h1) /\
    ReadBlockData p lba (512 * c) buf (mmem s) h1 = (EFI_SUCCESS, write_bytes (mmem s) buf (disk_blocks (disk (card s)) lba c), h2) /\
    card_of index p h2 = moves Tran false NoData (negb (c =? 1)) 0 0 (card s)).
  { assert (Hi : index (if c =? 1 then MMC_CMD17 else MMC_CMD18) = if c =? 1 then 17 else 18) by by destruct (c =? 1).
    eapply (relays_read _ _ lba (512 * c) buf (mmem s) (mhost s)) with (k := moves Tran false (SendBlocks lba (negb (c =? 1))) false 0 0 (card s)); [by apply wrap_range | | | | by apply card_blocks_bytes | apply length_card_blocks; [done | lia] | apply whole_blocks_of; lia].
    - rewrite Hi. unfold data_command. destruct (c =? 1); lia.
    - rewrite Hi. unfold card_cmd. rewrite R2, R1, R4, R3, Hadr. destruct (c =? 1); reflexivity.
    - unfold card_send. replace (512 * c / 512) with c by (rewrite Z.mul_comm, Z.div_mul; lia).
      replace (512 * c mod 512 =? 0) with true by (by rewrite Z.mul_comm, Z_mod_mult).
      cbn [data moves disk]. destruct (Z.eqb_spec c 1) as [->|N]; reflexivity. }
  destruct D as (h1 & h2 & E1 & E2 & E3).
  apply wp_bind. unfold wp at 1, send, host_op. rewrite Hp, E1. change (EFI_ERROR EFI_SUCCESS) with false. cbn iota.
  rewrite Z.eqb_refl. apply wp_bind, wp_bind. unfold wp at 1, read_data. cbn [mi mhost mmem]. rewrite Hp, E2.
  change (EFI_ERROR EFI_SUCCESS) with false. cbn iota. apply wp_bind.
  eapply (wp_notify (index := index) (p := p)); [exact Hp | done|]. cbn [mi mEmmcRcaCount mmem mhost]. intros s3 C1 C2 C3 C4.
  change (EFI_ERROR EFI_SUCCESS) with false. cbn iota. apply wp_ret. rewrite E3 in C4.
  eapply wp_mono; [apply (transfer_tail s3 c 0); [| | | unfold MMCI0_TIMEOUT; lia | lia]|].
  - unfold addressed. rewrite C1, C4. exact Ha.
  - unfold known. rewrite C1, C4. exact Hk.
  - rewrite C4. by repeat split.
  - cbn beta. intros st s4 (-> & D1 & D2 & D3 & D4). rewrite D1, D2, D3, D4, C1, C2, C3, C4. done.
Qed.

Definition written s lba c buf : Z -> list Z := write_disk (disk (card s)) lba c (read_bytes (mmem s) buf (512 * c)).

Lemma MmcTransferBlock_write s mid lba c buf : addressed s -> known s -> card_ready (card s) false 0 -> reachable (card s) lba c ->
  (latency (card s) < MMCI0_TIMEOUT)%nat -> mem_bytes (mmem s) ->
  wp (MmcTransferBlock (if c =? 1 then MMC_CMD24 else MMC_CMD25) MMC_IOBLOCKS_WRITE mid lba (512 * c) buf) s (fun st s' =>
    st = EFI_SUCCESS /\ mi s' = set_State MmcTransferState (mi s) /\ mEmmcRcaCount s' = mEmmcRcaCount s /\
    mmem s' = mmem s /\ card s' = with_disk (written s lba c buf) (moves Tran false NoData false 0 0 (card s))).
Proof.
  indices index. intros Ha Hk Hr Hl Ht Hby. pose proof Ha as (Hp & _). pose proof Hr as (R1 & R2 & R3 & R4 & R5). pose proof Hl as (L1 & L2 & _ & L4).
  pose proof (address_of s lba c Hk Hl) as Hadr. unfold MmcTransferBlock, the. apply wp_bind, wp_gets, wp_bind, wp_gets.
  set (arg := if _ =? MMC_OCR_ACCESS_SECTOR then lba else _) in *.
  assert (D : exists h1 h2, SendCommand p (if c =? 1 then MMC_CMD24 else MMC_CMD25) (u32 arg) (mhost s) = (EFI_SUCCESS, h1) /\
    WriteBlockData p lba (512 * c) buf (mmem s) h1 = (EFI_SUCCESS, h2) /\
    card_of index p h2 = with_disk (written s lba c buf) (moves Tran false NoData (negb (c =? 1)) (latency (card s)) 0 (card s))).
  { assert (Hi : index (if c =? 1 then MMC_CMD24 else MMC_CMD25) = if c =? 1 then 24 else 25) by by destruct (c =? 1).
    eapply (relays_write _ _ lba (512 * c) buf (mmem s) (mhost s)) with (k := moves Tran false (TakeBlocks lba (negb (c =? 1))) false 0 0 (card s));
      [by apply wrap_range | | | | apply list.Forall_fmap, list.Forall_true; intros i; apply Hby | apply whole_blocks_of; lia | apply whole_blocks_of; lia].
    - rewrite Hi. unfold data_command. destruct (c =? 1); lia.
    - rewrite Hi. unfold card_cmd. rewrite R2, R1, R4, R3, Hadr. destruct (c =? 1); reflexivity.
    - unfold card_take. rewrite length_read_bytes, Z2Nat.id by lia. replace (512 * c / 512) with c by (rewrite Z.mul_comm, Z.div_mul; lia).
      replace (512 * c mod 512 =? 0) with true by (by rewrite Z.mul_comm, Z_mod_mult).
      cbn [data moves disk]. destruct (Z.eqb_spec c 1) as [->|N]; reflexivity. }
  destruct D as (h1 & h2 & E1 & E2 & E3).
  apply wp_bind. unfold wp at 1, send, host_op. rewrite Hp, E1. change (EFI_ERROR EFI_SUCCESS) with false. cbn iota.
  change (MMC_IOBLOCKS_WRITE =? MMC_IOBLOCKS_READ) with false. cbn iota. apply wp_bind, wp_bind. unfold wp at 1, write_data. cbn [mi mhost mmem]. rewrite Hp, E2.
  change (EFI_ERROR EFI_SUCCESS) with false. cbn iota. apply wp_ret. cbn iota.
  set (s3 := Build_mmc (mi s) (mEmmcRcaCount s) (mmem s) h2).
  eapply wp_mono; [apply (transfer_tail s3 c (latency (card s))); [| | | exact Ht | lia]|].
  - unfold addressed, s3. cbn [mi mhost]. rewrite E3. exact Ha.
  - unfold known, s3. cbn [mi mhost]. rewrite E3. exact Hk.
  - unfold s3. cbn [mhost]. rewrite E3. by repeat split.
  - cbn beta. intros st s4 (-> & D1 & D2 & D3 & D4). rewrite D1, D2, D3, D4. unfold s3. cbn [mhost mi mEmmcRcaCount mmem]. rewrite E3. done.
Qed.

(** ** The block loop *)

(** A transfer of [c] blocks at a time, one or all of them, in the order of the
    loop; [Inv j] holds when [j] blocks are done, [Rdy j] once the card is
    ready for more. *)
Lemma io_loop_spec Transfer mid c n lba buf (Inv Rdy : Z -> mmc H -> Prop) :
  0 < n -> 0 <= lba -> lba + n < 2 ^ 64 -> 0 <= buf -> buf + 512 * n < 2 ^ 64 -> c = 1 \/ c = n ->
  (forall j s, Rdy j s -> BlockSize (Media (mi s)) = 512) ->
  (forall j s, Inv j s -> 0 <= j -> j + c <= n ->
     wp (CmdArg ← rca_arg; wait_ready 20 CmdArg 0) s (fun T s' => T <> 0 /\ Rdy j s')) ->
  (forall j s, Rdy j s -> 0 <= j -> j + c <= n ->
     wp (MmcTransferBlock (if Transfer =? MMC_IOBLOCKS_READ then (if c =? 1 then MMC_CMD17 else MMC_CMD18) else (if c =? 1 then MMC_CMD24 else MMC_CMD25))
           Transfer mid (lba + j) (512 * c) (buf + 512 * j)) s (fun _ s' => Inv (j + c) s')) ->
  forall fuel j s, Inv j s -> 0 <= j -> n - j < Z.of_nat fuel -> j <= n -> (c = 1 \/ j = 0 \/ j = n) ->
  wp (io_loop fuel Transfer mid c (if j =? n then lba + Z.max 0 (n - c) else lba + j) (512 * (n - j)) (if j =? n then buf + 512 * Z.max 0 (n - c) else buf + 512 * j)) s
    (fun st s' => st = EFI_SUCCESS /\ Inv n s').
Proof.
  intros Hn Hl Hl2 Hb Hb2 Hc Hbs Hw Ht. induction fuel as [|fuel IH]; intros j s Hi Hj Hf Hjn Hcj; [lia|]. cbn [io_loop].
  destruct (Z.eqb_spec j n) as [->|N].
  - rewrite (proj2 (Z.leb_le (512 * (n - n)) 0)) by lia. by apply wp_ret.
  - rewrite (proj2 (Z.leb_gt (512 * (n - j)) 0)) by lia. assert (J : j + c <= n) by lia.
    specialize (Hw j s Hi Hj J). unfold rca_arg, the in *. apply wp_bind_inv in Hw. apply wp_bind. eapply wp_mono; [exact Hw|]. cbn beta.
    intros arg s1 W. apply wp_bind. eapply wp_mono; [exact W|]. cbn beta. intros T s2 [NT I2].
    rewrite (proj2 (Z.eqb_neq T 0)) by done. apply wp_bind, wp_gets. rewrite (Hbs _ _ I2). cbv zeta.
    rewrite (wrap_small 64 (c * 512)) by (split; lia).
    assert (E : (if 512 * (n - j) <? c * 512 then 512 * (n - j) else c * 512) = 512 * c) by (destruct (Z.ltb_spec (512 * (n - j)) (c * 512)); lia).
    rewrite E. apply wp_bind. eapply wp_mono; [by apply Ht|]. cbn beta. intros _ s3 I3.
    rewrite (wrap_small 64 (512 * (n - j) - 512 * c)) by (split; lia).
    replace (512 * (n - j) - 512 * c) with (512 * (n - (j + c))) by lia.
    pose proof (IH (j + c) s3 I3 ltac:(lia) ltac:(lia) J ltac:(lia)) as K.
    destruct (Z.ltb_spec 0 (512 * (n - (j + c)))) as [L|L].
    + rewrite (wrap_small 64 (lba + j + c)), (wrap_small 64 (buf + 512 * j + 512 * c)) by (split; lia).
      rewrite (proj2 (Z.eqb_neq (j + c) n)) in K by lia. replace (lba + j + c) with (lba + (j + c)) by lia.
      replace (buf + 512 * j + 512 * c) with (buf + 512 * (j + c)) by lia. exact K.
    + rewrite (proj2 (Z.eqb_eq (j + c) n)) in K by lia. replace (Z.max 0 (n - c)) with j in K by lia. exact K.
Qed.

Lemma io_loop_start Transfer mid c n lba buf (Inv Rdy : Z -> mmc H -> Prop) s :
  0 < n /\ 0 <= lba /\ lba + n < 2 ^ 64 /\ 0 <= buf /\ buf + 512 * n < 2 ^ 64 /\ (c = 1 \/ c = n) -> Inv 0 s ->
  (forall j s, Rdy j s -> BlockSize (Media (mi s)) = 512) ->
  (forall j s, Inv j s -> wp (CmdArg ← rca_arg; wait_ready 20 CmdArg 0) s (fun T s' => T <> 0 /\ Rdy j s')) ->
  (forall j s, Rdy j s -> 0 <= j -> j + c <= n ->
     wp (MmcTransferBlock (if Transfer =? MMC_IOBLOCKS_READ then (if c =? 1 then MMC_CMD17 else MMC_CMD18) else (if c =? 1 then MMC_CMD24 else MMC_CMD25))
           Transfer mid (lba + j) (512 * c) (buf + 512 * j)) s (fun _ s' => Inv (j + c) s')) ->
  wp (io_loop (S (S (Z.to_nat n))) Transfer mid c lba (512 * n) buf) s (fun st s' => st = EFI_SUCCESS /\ Inv n s').
Proof.
  intros (H1 & H2 & H3 & H4 & H5 & H6) Hi Hbs Hw Ht.
  pose proof (io_loop_spec Transfer mid c n lba buf Inv Rdy H1 H2 H3 H4 H5 H6 Hbs (fun j s I _ _ => Hw j s I) Ht (S (S (Z.to_nat n))) 0 s Hi
    ltac:(lia) ltac:(lia) ltac:(lia) ltac:(auto)) as K.
  rewrite (proj2 (Z.eqb_neq 0 n)), !Z.add_0_r, Z.sub_0_r in K by lia. exact K.
Qed.

(** ** Setup *)

Definition with_state (i i' : MMC_HOST_INSTANCE) : Prop := i' = i \/ exists st, i' = set_State st i.

Lemma with_state_set i i' st : with_state i i' -> with_state i (set_State st i').
Proof. intros [-> | [st' ->]]; right; by exists st. Qed.

(** What stays of the driver's state and of the card during transfers. *)
Definition same_setup s s' : Prop :=
  with_state (mi s) (mi s') /\ mEmmcRcaCount s' = mEmmcRcaCount s /\ hc (card s') = hc (card s) /\ rca (card s') = rca (card s) /\ latency (card s') = latency (card s).

Lemma same_setup_refl s : same_setup s s.
Proof. repeat split. by left. Qed.

Lemma same_setup_uses s s' : same_setup s s' -> addressed s -> known s -> addressed s' /\ known s' /\ Media (mi s') = Media (mi s).
Proof.
  intros (W & _ & Eh & Er & _) (A1 & A2 & A3) [K1 K2]. unfold addressed, known. rewrite Eh, Er.
  destruct W as [-> | [st ->]]; repeat match goal with |- _ /\ _ => split end; done.
Qed.

Lemma same_setup_step s s1 s2 : same_setup s s1 ->
  mi s2 = mi s1 \/ mi s2 = set_State MmcTransferState (mi s1) -> mEmmcRcaCount s2 = mEmmcRcaCount s1 ->
  (exists st d o b q f, card s2 = with_disk f (moves st false d o b q (card s1))) -> same_setup s s2.
Proof.
  intros (W & E1 & E2 & E3 & E4) Hi Hc (st & d & o & b & q & f & Hk). split; [|by rewrite Hc, Hk].
  destruct Hi as [-> | ->]; [done | by apply with_state_set].
Qed.

Lemma moves_disk st a d o b q k : moves st a d o b q k = with_disk (disk k) (moves st a d o b q k).
Proof. done. Qed.

Lemma card_blocks_app d lba j c : 0 <= j -> 0 <= c -> disk_blocks d lba (j + c) = disk_blocks d lba j ++ disk_blocks d (lba + j) c.
Proof. intros Hj Hc. unfold disk_blocks. by rewrite seqZ_app, fmap_app, concat_app by lia. Qed.

(** The checks before the loop. *)
Lemma MmcIoBlocks_relayed Transfer mid lba n buf s (Q : Z -> mmc H -> Prop) :
  addressed s -> known s -> acceptable p s mid lba n buf -> reachable (card s) lba n ->
  (Transfer = MMC_IOBLOCKS_WRITE -> ReadOnly (Media (mi s)) = false) ->
  (forall c s', c = 1 \/ c = n -> host_moved (index := index) (p := p) s s' (card s) ->
     wp (io_loop (S (S (Z.to_nat n))) Transfer mid c lba (512 * n) buf) s' Q) ->
  wp (MmcIoBlocks Transfer mid lba (512 * n) buf) s Q.
Proof.
  intros (Hp & _ & _) (K1 & _) A (L1 & L2 & _ & L4) Hro HQ. apply (MmcIoBlocks_starts p); [done | done | done | lia | done|].
  intros c s' Hc (h & -> & Hh). apply HQ; [done|]. split; [done|]. split; [done|]. split; [done|].
  cbn [mhost]. pose proof (relays_query (mhost s)) as (_ & E & _). by destruct Hh as [-> | ->].
Qed.

(** Writing [c] more blocks after [j]. *)
Lemma write_disk_step (d f : Z -> list Z) m lba j c n buf x : 0 <= j -> 0 < c -> j + c <= n ->
  (forall y, f y = write_disk d lba j (read_bytes m buf (512 * n)) y) ->
  write_disk f (lba + j) c (read_bytes m (buf + 512 * j) (512 * c)) x = write_disk d lba (j + c) (read_bytes m buf (512 * n)) x.
Proof.
  intros Hj Hc Hn Hf. unfold write_disk at 1 2. destruct (in_range (lba + j) c x) eqn:E1.
  - apply in_range_spec in E1. rewrite (proj2 (in_range_spec lba (j + c) x)) by lia.
    replace n with (j + c + (n - j - c)) by lia. rewrite !Z.mul_add_distr_l, !read_bytes_app by lia.
    replace ((x - lba) * 512) with (512 * j + (x - (lba + j)) * 512) by lia. rewrite Z2Nat.inj_add by lia.
    rewrite <- drop_drop, <- app_assoc, drop_app_length' by (rewrite length_read_bytes; lia).
    rewrite drop_app_le by (rewrite length_read_bytes; lia). rewrite take_app_le; [done|].
    rewrite length_drop, length_read_bytes. lia.
  - apply in_range_false in E1. rewrite Hf. unfold write_disk. destruct (in_range lba j x) eqn:E2.
    + apply in_range_spec in E2. by rewrite (proj2 (in_range_spec lba (j + c) x)) by lia.
    + apply in_range_false in E2. by rewrite (proj2 (in_range_false lba (j + c) x)) by lia.
Qed.

(** The card at a point of the loop: ready, its blocks, the memory. *)
Definition at_point (s : mmc H) (b : nat) (f : Z -> list Z) (m : mem) (s' : mmc H) : Prop :=
  same_setup s s' /\ card_ready (card s') false b /\ (forall x, disk (card s') x = f x) /\ mem_eq (mmem s') m.

Lemma point_waits s b f m s' : addressed s -> known s -> (b < 19)%nat -> at_point s b f m s' ->
  wp (CmdArg ← rca_arg; wait_ready 20 CmdArg 0) s' (fun T s2 => T <> 0 /\ at_point s 0 f m s2).
Proof.
  intros Ha Hk Hb (S & R & D & E). destruct (same_setup_uses s s' S Ha Hk) as (Ha' & Hk' & _).
  unfold rca_arg, the. apply wp_bind, wp_gets. eapply wp_mono; [apply (wait_ready_spec false b); [done | done | done | lia]|].
  cbn beta. intros T s2 [-> (M1 & M2 & M3 & M4)]. split; [lia|]. split; [|split; [|split]].
  - eapply same_setup_step; [exact S | by left | exact M2 |]. rewrite M4. by repeat eexists.
  - rewrite M4. pose proof R as (_ & _ & R3 & _). unfold settled. rewrite R3. done.
  - intros x. rewrite M4. apply D.
  - intros x. rewrite M3. apply E.
Qed.

Lemma read_bytes_mem_eq m m' a n : mem_eq m m' -> read_bytes m a n = read_bytes m' a n.
Proof. intros E. apply read_bytes_ext. intros i _. apply E. Qed.

(** A read returns the blocks of the card.  On a host that relays a card which is
    selected and ready within 18 status queries, and for a request inside the
    media, a read of [n] blocks succeeds, the buffer holds exactly the blocks
    from [Lba] on and no other memory changes, whether the host transfers many
    blocks at once or one by one, and whether the card is addressed by sector
    or by byte; the card keeps its blocks and is ready again. *)
Lemma MmcReadBlocks_correct mid lba n buf b s :
  addressed s -> known s -> card_ready (card s) false b -> (b < 19)%nat -> sound_disk (disk (card s)) ->
  acceptable p s mid lba n buf -> reachable (card s) lba n ->
  wp (MmcReadBlocks mid lba (512 * n) buf) s (fun st s' =>
    st = EFI_SUCCESS /\ mem_eq (mmem s') (write_bytes (mmem s) buf (disk_blocks (disk (card s)) lba n)) /\
    (forall x, disk (card s') x = disk (card s) x) /\ card_ready (card s') false 0 /\ same_setup s s').
Proof.
  intros Ha Hk Hr Hb Hd Hq Hl. apply MmcIoBlocks_relayed; [done..|]. intros c s0 Hc (A1 & A2 & A3 & A4).
  pose proof Hl as (L1 & L2 & L3 & L4). pose proof Hq as (_ & _ & _ & _ & Q1 & Q2 & Q3 & Q4 & _).
  set (mem_at j := write_bytes (mmem s) buf (disk_blocks (disk (card s)) lba j)).
  pose proof (io_loop_start MMC_IOBLOCKS_READ mid c n lba buf
    (fun j => at_point s (if j =? 0 then b else 0%nat) (disk (card s)) (mem_at j)) (fun j => at_point s 0 (disk (card s)) (mem_at j))) as LS.
  assert (K : at_point s b (disk (card s)) (mem_at 0) s0).
  { split; [split; [left; by rewrite A1 | by rewrite A4]|]. rewrite A4, A3. split; [done|]. split; [done|].
    intros x. unfold mem_at, write_bytes. by rewrite (proj2 (in_range_false buf (Z.of_nat (length (disk_blocks (disk (card s)) lba 0))) x)) by (change (Z.of_nat _) with 0; lia). }
  eapply wp_mono; [apply (LS s0); [lia | exact K | | |] |].
  - intros j s' (S & _). destruct (same_setup_uses s s' S Ha Hk) as (_ & _ & ->). apply Hk.
  - intros j s' P. eapply point_waits; [done | done | | exact P]. destruct (j =? 0); lia.
  - intros j s' (S & R & D & E) Hj Hjc. destruct (same_setup_uses s s' S Ha Hk) as (Ha' & Hk' & _).
    cbn [MMC_IOBLOCKS_READ Z.eqb]. pose proof S as (_ & _ & Eh & _).
    eapply wp_mono; [apply (MmcTransferBlock_read s' mid (lba + j) c (buf + 512 * j)); [done | done | done | | intros x; rewrite D; apply Hd]|].
    { unfold reachable. rewrite Eh. split; [lia|]. split; [lia|]. split; [|lia]. destruct (hc (card s)); lia. }
    cbn beta. intros st s2 (_ & B1 & B2 & B3 & B4). rewrite (proj2 (Z.eqb_neq (j + c) 0)) by lia. split; [|split; [|split]].
    + eapply same_setup_step; [exact S | by right | exact B2 |]. rewrite B4. by repeat eexists.
    + rewrite B4. done.
    + intros x. rewrite B4. apply D.
    + intros x. rewrite B3. unfold mem_at. rewrite card_blocks_app by lia.
      rewrite <- (write_bytes_app (mmem s) buf _ _ x), length_card_blocks by (done || lia).
      assert (Ed : disk_blocks (disk (card s')) (lba + j) c = disk_blocks (disk (card s)) (lba + j) c).
      { unfold disk_blocks. f_equal. apply list_fmap_ext. intros i y _. apply D. }
      rewrite Ed. unfold write_bytes at 1 2. destruct (in_range (buf + 512 * j) _ x); [done|]. apply E.
  - cbn beta. intros st s' [-> (S & R & D & E)]. rewrite (proj2 (Z.eqb_neq n 0)) in R by lia. done.
Qed.


(** C18: A write stores the bytes in the blocks of the card.  Under the same conditions, on media
    that are not write protected, and if the card programs for less than the
    10,000 queries the driver waits, a write of [n] blocks succeeds, the blocks
    from [Lba] on hold the bytes of the buffer, all other blocks and the memory
    are as before, and the card is ready again. *)
Theorem MmcWriteBlocks_correct mid lba n buf b s :
  addressed s -> known s -> card_ready (card s) false b -> (b < 19)%nat -> (latency (card s) < MMCI0_TIMEOUT)%nat ->
  mem_bytes (mmem s) -> acceptable p s mid lba n buf -> reachable (card s) lba n -> ReadOnly (Media (mi s)) = false ->
  wp (MmcWriteBlocks mid lba (512 * n) buf) s (fun st s' =>
    st = EFI_SUCCESS /\ mem_eq (mmem s') (mmem s) /\
    (forall x, disk (card s') x = write_disk (disk (card s)) lba n (read_bytes (mmem s) buf (512 * n)) x) /\
    card_ready (card s') false 0 /\ same_setup s s').
Proof.
  intros Ha Hk Hr Hb Ht Hby Hq Hl Hro. apply MmcIoBlocks_relayed; [done..|]. intros c s0 Hc (A1 & A2 & A3 & A4).
  pose proof Hl as (L1 & L2 & L3 & L4). pose proof Hq as (_ & _ & _ & _ & Q1 & Q2 & Q3 & Q4 & _).
  set (disk_at j := write_disk (disk (card s)) lba j (read_bytes (mmem s) buf (512 * n))).
  pose proof (io_loop_start MMC_IOBLOCKS_WRITE mid c n lba buf
    (fun j => at_point s (if j =? 0 then b else 0%nat) (disk_at j) (mmem s)) (fun j => at_point s 0 (disk_at j) (mmem s))) as LS.
  assert (K : at_point s b (disk_at 0) (mmem s) s0).
  { split; [split; [left; by rewrite A1 | by rewrite A4]|]. rewrite A4, A3. split; [done|]. split; [|done].
    intros x. unfold disk_at, write_disk. by rewrite (proj2 (in_range_false lba 0 x)) by lia. }
  eapply wp_mono; [apply (LS s0); [lia | exact K | | |] |].
  - intros j s' (S & _). destruct (same_setup_uses s s' S Ha Hk) as (_ & _ & ->). apply Hk.
  - intros j s' P. eapply point_waits; [done | done | | exact P]. destruct (j =? 0); lia.
  - intros j s' (S & R & D & E) Hj Hjc. destruct (same_setup_uses s s' S Ha Hk) as (Ha' & Hk' & _).
    cbn [MMC_IOBLOCKS_WRITE MMC_IOBLOCKS_READ Z.eqb]. pose proof S as (_ & _ & Eh & _ & El).
    eapply wp_mono; [apply (MmcTransferBlock_write s' mid (lba + j) c (buf + 512 * j)); [done | done | done | | by rewrite El | intros x; rewrite E; apply Hby]|].
    { unfold reachable. rewrite Eh. split; [lia|]. split; [lia|]. split; [|lia]. destruct (hc (card s)); lia. }
    cbn beta. intros st s2 (_ & B1 & B2 & B3 & B4). rewrite (proj2 (Z.eqb_neq (j + c) 0)) by lia. split; [|split; [|split]].
    + eapply same_setup_step; [exact S | by right | exact B2 |]. rewrite B4. by repeat eexists.
    + rewrite B4. done.
    + intros x. rewrite B4. cbn [disk with_disk]. unfold written. rewrite (read_bytes_mem_eq _ _ _ _ E).
      apply write_disk_step; [lia | lia | lia | exact D].
    + intros x. rewrite B3. apply E.
  - cbn beta. intros st s' [-> (S & R & D & E)]. rewrite (proj2 (Z.eqb_neq n 0)) in R by lia. done.
Qed.

(** The wait for a busy card is off by one.  A card that is ready at the last of the 20
    status queries, which is in time, is refused with [EFI_NOT_READY]; the
    condition that is meant to notice a card that is not ready never holds for
    one. *)
Theorem busy_card_refused Transfer mid lba n buf s :
  addressed s -> known s -> card_ready (card s) false 19 -> acceptable p s mid lba n buf -> reachable (card s) lba n ->
  (Transfer = MMC_IOBLOCKS_WRITE -> ReadOnly (Media (mi s)) = false) ->
  wp (MmcIoBlocks Transfer mid lba (512 * n) buf) s (fun st s' => st = EFI_NOT_READY /\ mmem s' = mmem s /\ card_ready (card s') false 0).
Proof.
  intros Ha Hk Hr Hq Hl Hro. apply MmcIoBlocks_relayed; [done..|]. intros c s' Hc (M1 & M2 & M3 & M4). cbn [io_loop].
  pose proof Hl as (L1 & L2 & _). rewrite (proj2 (Z.leb_gt (512 * n) 0)) by lia. unfold rca_arg, the. apply wp_bind, wp_gets, wp_bind.
  eapply wp_mono; [apply (wait_ready_spec false 19); [| | done | lia]|].
  - unfold addressed. rewrite M1, M4. exact Ha.
  - by rewrite M4.
  - cbn beta. intros T s2 [-> (N1 & N2 & N3 & N4)]. change (Z.of_nat (20 - 19 - 1) =? 0) with true. apply wp_ret.
    rewrite N3, M3, N4, M4. pose proof Hr as (_ & _ & R3 & _). unfold settled. by rewrite R3.
Qed.
End transfers.

(** ** The driver on the small hosts *)

(** The hypotheses of the transfers. *)
Lemma small_ready_facts (high : bool) (b : nat) : let s := small_ready high b in
  addressed (index := fun x => x) (p := 0x700) s /\ known (index := fun x => x) (p := 0x700) s /\
  card_ready (card_of (fun x => x) 0x700 (mhost s)) false b /\ sound_disk (disk (card_of (fun x => x) 0x700 (mhost s))) /\
  acceptable 0x700 s 0x6f636d6e 9 2 0x10000 /\ reachable (card_of (fun x => x) 0x700 (mhost s)) 9 2 /\
  ReadOnly (Media (mi s)) = false.
Proof.
  cbv zeta. split; [by destruct high|]. split; [by destruct high|]. split; [done|]. split; [apply pattern_sound|].
  split; [by destruct high|]. split; [by destruct high | by destruct high].
Defined.

Lemma MmcReadBlocks_correct_witness :
  wp (MmcReadBlocks 0x6f636d6e 9 1024 0x10000) (small_ready true 4) (fun st s' =>
    st = EFI_SUCCESS /\ mem_eq (mmem s') (write_bytes (fun _ => 0) 0x10000 (disk_blocks pattern 9 2)) /\
    (forall x, disk (scard (mhost s')) x = pattern x) /\ card_ready (scard (mhost s')) false 0 /\
    same_setup (index := fun x => x) (p := 0x700) (small_ready true 4) s').
Proof.
  destruct (small_ready_facts true 4) as (A1 & A2 & A3 & A4 & A5 & A6 & _).
  exact (MmcReadBlocks_correct (index := fun x => x) (p := 0x700) 0x6f636d6e 9 2 0x10000 4 (small_ready true 4) A1 A2 A3 ltac:(lia) A4 A5 A6).
Defined.

Lemma MmcWriteBlocks_correct_witness :
  wp (MmcWriteBlocks 0x6f636d6e 9 1024 0x10000) (small_ready false 0) (fun st s' =>
    st = EFI_SUCCESS /\ mem_eq (mmem s') (fun _ => 0) /\
    (forall x, disk (scard (mhost s')) x = write_disk pattern 9 2 (read_bytes (fun _ => 0) 0x10000 1024) x) /\
    card_ready (scard (mhost s')) false 0 /\ same_setup (index := fun x => x) (p := 0x700) (small_ready false 0) s').
Proof.
  destruct (small_ready_facts false 0) as (A1 & A2 & A3 & A4 & A5 & A6 & A7).
  exact (MmcWriteBlocks_correct (index := fun x => x) (p := 0x700) 0x6f636d6e 9 2 0x10000 0 (small_ready false 0) A1 A2 A3 ltac:(lia)
    (proj1 (Nat.ltb_lt 7 MMCI0_TIMEOUT) eq_refl) (fun _ => conj (Z.le_refl 0) eq_refl) A5 A6 A7).
Defined.

Lemma busy_card_refused_witness :
  wp (MmcIoBlocks MMC_IOBLOCKS_READ 0x6f636d6e 9 1024 0x10000) (small_ready true 19) (fun st s' =>
    st = EFI_NOT_READY /\ mmem s' = (fun _ => 0) /\ card_ready (scard (mhost s')) false 0).
Proof.
  destruct (small_ready_facts true 19) as (A1 & A2 & A3 & A4 & A5 & A6 & A7).
  exact (busy_card_refused (index := fun x => x) (p := 0x700) MMC_IOBLOCKS_READ 0x6f636d6e 9 2 0x10000 (small_ready true 19) A1 A2 A3 A5 A6 (fun _ => A7)).
Defined.

Lemma MmcReadBlocks_hides_failure_witness :
  wp (MmcReadBlocks (MH := dead_host) 0x6f636d6e 9 1024 0x10000) dead_state (fun st s' => st = EFI_SUCCESS /\ mmem s' = (fun _ => 0)).
Proof.
  exact (MmcReadBlocks_hides_failure (MH := dead_host) 0x700 (fun _ _ _ => eq_refl) 0x6f636d6e 9 2 0x10000 dead_state eq_refl eq_refl
    ltac:(by repeat match goal with |- _ /\ _ => split end) ltac:(lia)).
Defined.
