(* ===== verification/MmcIdentProps.v ===== *)
(** * Properties of the MMC driver: from power-up to the first read

    The capacity the driver computes, the identification of an SD card, and
    the blocks that can be read after it. *)

From Stdlib Require Import ZArith Lia.
From stdpp Require Import base list numbers option.
From S2P Require Import Prelude Memory Mmc MmcIdent MmcIdentSpec MmcProps.

(** ** Capacity *)

(** The register as a number, and its bits [hi] to [lo]. *)
Definition csd_register (Response : list Z) : Z :=
  nth 0 Response 0 + 2 ^ 32 * (nth 1 Response 0 + 2 ^ 32 * (nth 2 Response 0 + 2 ^ 32 * nth 3 Response 0)).
Definition csd_field (Response : list Z) (hi lo : Z) : Z := csd_register Response / 2 ^ lo mod 2 ^ (hi - lo + 1).

Definition csd_words (Response : list Z) : Prop := length Response = 4%nat /\ Forall (in_word 32) Response.

Lemma testbit_word a x i : in_word 32 a -> 0 <= i -> Z.testbit (a + 2 ^ 32 * x) i = if i <? 32 then Z.testbit a i else Z.testbit x (i - 32).
Proof.
  intros W I. unfold in_word in W. destruct (Z.ltb_spec i 32).
  - rewrite <- (Z.mod_pow2_bits_low (a + 2 ^ 32 * x) 32 i) by lia. rewrite Z.mul_comm, Z_mod_plus_full. by rewrite Z.mod_small.
  - replace i with (i - 32 + 32) at 1 by lia. rewrite <- Z.div_pow2_bits by lia. rewrite Z.mul_comm, Z.div_add by done. by rewrite Z.div_small.
Qed.

Lemma csd_register_bit Response w i : csd_words Response -> (w < 4)%nat -> 0 <= i < 32 ->
  Z.testbit (csd_register Response) (32 * Z.of_nat w + i) = Z.testbit (nth w Response 0) i.
Proof.
  intros [Hl Hw] W I. destruct Response as [|a [|b [|c [|d []]]]]; try done. unfold csd_register. cbn [nth].
  apply List.Forall_cons_iff in Hw as [Ha Hw]. apply List.Forall_cons_iff in Hw as [Hb Hw]. apply List.Forall_cons_iff in Hw as [Hc Hw].
  destruct w as [|[|[|[|]]]]; try lia; repeat (rewrite testbit_word by (done || lia);
    match goal with |- context [if ?x <? 32 then _ else _] => destruct (Z.ltb_spec x 32); try lia end); f_equal; lia.
Qed.

Lemma csd_field_bit Response hi lo i : 0 <= lo <= hi -> 0 <= i ->
  Z.testbit (csd_field Response hi lo) i = (i <? hi - lo + 1) && Z.testbit (csd_register Response) (lo + i).
Proof.
  intros L I. unfold csd_field. destruct (Z.ltb_spec i (hi - lo + 1)).
  - rewrite Z.mod_pow2_bits_low, Z.div_pow2_bits by lia. by rewrite Z.add_comm.
  - by rewrite Z.mod_pow2_bits_high by lia.
Qed.

(** Bits of a getter and of a field of the register, compared. *)
Ltac csd_bits := apply Z.bits_inj'; intros i Hi; rewrite csd_field_bit by lia.

Lemma READBLLEN_field Response : csd_words Response -> MMC_CSD_GET_READBLLEN Response = csd_field Response 83 80.
Proof.
  intros Hw. csd_bits. unfold MMC_CSD_GET_READBLLEN. change 15 with (Z.ones 4). rewrite Z.land_spec, Z.shiftr_spec, Z.testbit_ones_nonneg by lia.
  change (83 - 80 + 1) with 4. destruct (Z.ltb_spec i 4); [|by rewrite andb_false_r].
  rewrite andb_true_r. replace (80 + i) with (32 * Z.of_nat 2 + (i + 16)) by lia. by rewrite csd_register_bit by (done || lia).
Qed.

Lemma DEVICESIZEMULT_field Response : csd_words Response -> MMC_CSD_GET_DEVICESIZEMULT Response = csd_field Response 49 47.
Proof.
  intros Hw. csd_bits. unfold MMC_CSD_GET_DEVICESIZEMULT. change 7 with (Z.ones 3). rewrite Z.land_spec, Z.shiftr_spec, Z.testbit_ones_nonneg by lia.
  change (49 - 47 + 1) with 3. destruct (Z.ltb_spec i 3); [|by rewrite andb_false_r].
  rewrite andb_true_r. replace (47 + i) with (32 * Z.of_nat 1 + (i + 15)) by lia. by rewrite csd_register_bit by (done || lia).
Qed.

Lemma DEVICESIZE_field Response : csd_words Response -> MMC_CSD_GET_DEVICESIZE Response = csd_field Response 73 62.
Proof.
  intros Hw. csd_bits. unfold MMC_CSD_GET_DEVICESIZE. change 3 with (Z.ones 2). change 1023 with (Z.ones 10).
  rewrite Z.lor_spec, Z.land_spec, Z.shiftr_spec, Z.testbit_ones_nonneg, wrap_testbit by lia. change (73 - 62 + 1) with 12.
  destruct (Z.ltb_spec i 2).
  - rewrite Z.shiftl_spec_low, andb_false_r, orb_false_r, andb_true_r by lia. rewrite (proj2 (Z.ltb_lt i 12)) by lia. cbn [andb].
    replace (62 + i) with (32 * Z.of_nat 1 + (i + 30)) by lia. by rewrite csd_register_bit by (done || lia).
  - rewrite andb_false_r. cbn [orb]. rewrite Z.shiftl_spec, Z.land_spec, Z.testbit_ones_nonneg by lia.
    destruct (Z.ltb_spec i 12).
    + rewrite (proj2 (Z.ltb_lt (i - 2) 10)), (proj2 (Z.ltb_lt i 32)), andb_true_r by lia. cbn [andb].
      replace (62 + i) with (32 * Z.of_nat 2 + (i - 2)) by lia. by rewrite csd_register_bit by (done || lia).
    + by rewrite (proj2 (Z.ltb_ge (i - 2) 10)), andb_false_r, andb_false_r by lia.
Qed.

(** The mask of the upper half of the size is 0x40, not 0x3F. *)
Lemma HC_DEVICESIZE_field Response : csd_words Response -> csd_field Response 70 70 = 0 ->
  HC_MMC_CSD_GET_DEVICESIZE Response = csd_field Response 69 48 mod 2 ^ 16.
Proof.
  intros Hw H0. apply Z.bits_inj'. intros i Hi. change (?x mod 2 ^ 16) with (u16 x). rewrite wrap_testbit, csd_field_bit by lia.
  unfold HC_MMC_CSD_GET_DEVICESIZE.
  assert (E : Z.land (nth 2 Response 0) 0x40 = 0).
  { apply Z.bits_inj'. intros j Hj. rewrite Z.land_spec, Z.bits_0. change 0x40 with (2 ^ 6). rewrite Z.pow2_bits_eqb by lia.
    destruct (Z.eqb_spec 6 j) as [<-|]; [|by rewrite andb_false_r]. rewrite andb_true_r.
    pose proof (csd_field_bit Response 70 70 0 ltac:(lia) ltac:(lia)) as F. rewrite H0, Z.bits_0 in F. change (0 <? 70 - 70 + 1) with true in F. cbn [andb] in F.
    rewrite F. symmetry. apply (csd_register_bit Response 2 6 Hw); lia. }
  rewrite E. change (u32 (Z.shiftl 0 16)) with 0. rewrite Z.lor_0_r, Z.shiftr_spec by lia.
  destruct (Z.ltb_spec i 16); cbn [andb].
  - rewrite (proj2 (Z.ltb_lt _ _)) by lia. cbn [andb]. replace (48 + i) with (32 * Z.of_nat 1 + (i + 16)) by lia. by rewrite csd_register_bit by (done || lia).
  - destruct Hw as [Hl Hw]. assert (W : in_word 32 (nth 1 Response 0)) by (apply List.Forall_nth; [done | lia]).
    rewrite <- (wrap_small 32 _ W), wrap_testbit by lia. by rewrite (proj2 (Z.ltb_ge (i + 16) 32)) by lia.
Qed.

Lemma csd_field_range Response hi lo : lo <= hi -> 0 <= csd_field Response hi lo < 2 ^ (hi - lo + 1).
Proof. intros L. apply Z.mod_pos_bound. apply Z.pow_pos_nonneg; lia. Qed.

(** C36: The capacity of a card of standard capacity is what the SD specification says.  For a
    CSD register with block lengths of 512 to 2048 bytes, the media has blocks
    of 512 bytes and as many as (C_SIZE + 1) * 2^(C_SIZE_MULT + 2) blocks of
    2^READ_BL_LEN bytes hold. *)
Theorem csd_media_standard t Response : csd_words Response -> t <> SD_CARD_2_HIGH -> 9 <= csd_field Response 83 80 <= 11 ->
  csd_media t Response = ((csd_field Response 73 62 + 1) * 2 ^ (csd_field Response 49 47 + 2) * 2 ^ csd_field Response 83 80 / 512, 512).
Proof.
  intros Hw Ht Hr. unfold csd_media. rewrite bool_decide_eq_false_2 by done.
  rewrite READBLLEN_field, DEVICESIZE_field, DEVICESIZEMULT_field by done.
  pose proof (csd_field_range Response 73 62 ltac:(lia)) as R1. pose proof (csd_field_range Response 49 47 ltac:(lia)) as R2.
  rewrite !Z.shiftl_mul_pow2 by lia.
  rewrite !Z.mul_1_l. set (c := csd_field Response 73 62) in *. set (m := csd_field Response 49 47) in *. set (r := csd_field Response 83 80) in *.
  assert (M : 0 < 2 ^ (m + 2) <= 2 ^ 9) by (split; [apply Z.pow_pos_nonneg; lia | apply Z.pow_le_mono_r; lia]).
  change (73 - 62 + 1) with 12 in R1.
  assert (P : 0 <= (c + 1) * 2 ^ (m + 2) <= 2 ^ 12 * 2 ^ 9) by (split; [apply Z.mul_nonneg_nonneg; lia | apply Z.mul_le_mono_nonneg; lia]).
  rewrite (wrap_small 64 ((c + 1) * 2 ^ (m + 2))) by (unfold in_word; lia).
  assert (E : r = 9 \/ r = 10 \/ r = 11) by lia.
  assert (Ez : forall z, z * 512 / 512 = z /\ z * 1024 / 512 = z * 2 /\ z * 2048 / 512 = z * 4) by 
    (intros z; replace (z * 1024) with (z * 2 * 512) by lia; replace (z * 2048) with (z * 4 * 512) by lia; by rewrite !Z.div_mul).
  destruct (Ez ((c + 1) * 2 ^ (m + 2))) as (E1 & E2 & E3).
  destruct E as [-> | [-> | ->]]; [change (2 ^ 9) with 512; by rewrite E1 | change (2 ^ 10) with 1024; rewrite E2 | change (2 ^ 11) with 2048; rewrite E3];
    cbn [Z.ltb Z.compare Pos.compare Pos.compare_cont]; f_equal; apply wrap_small; change (1024 / 512) with 2; change (2048 / 512) with 4; unfold in_word; lia.
Qed.

(** Of a card of high capacity the driver sees at most 32 GB.  The size is
    (C_SIZE + 1) * 512 KB by the specification, but only the low 16 of the 22
    bits of C_SIZE are used, because the mask of the others selects a reserved
    bit. *)
Theorem high_capacity_truncated Response : csd_words Response -> csd_field Response 83 80 = 9 -> csd_field Response 70 70 = 0 ->
  csd_media SD_CARD_2_HIGH Response = ((csd_field Response 69 48 mod 2 ^ 16 + 1) * 1024, 512).
Proof.
  intros Hw Hr H0. unfold csd_media. rewrite bool_decide_eq_true_2, READBLLEN_field, HC_DEVICESIZE_field, Hr by done.
  change (Z.shiftl 1 9) with 512. cbn [Z.ltb Z.compare Pos.compare Pos.compare_cont]. f_equal. apply wrap_small.
  pose proof (Z.mod_pos_bound (csd_field Response 69 48) (2 ^ 16) ltac:(lia)). unfold in_word. lia.
Qed.

Lemma csd_media_standard_witness : csd_media SD_CARD small_csd = (4194304, 512).
Proof. exact (csd_media_standard SD_CARD small_csd ltac:(split; [reflexivity | repeat constructor; lia]) ltac:(done) ltac:(vm_compute; split; discriminate)). Defined.

(** A card of 64 GB. *)
Lemma high_capacity_truncated_witness : csd_media SD_CARD_2_HIGH large_csd = (67108864, 512) /\ (csd_field large_csd 69 48 + 1) * 1024 = 2 * 67108864.
Proof.
  split; [|reflexivity].
  exact (high_capacity_truncated large_csd ltac:(split; [reflexivity | repeat constructor; lia]) ltac:(reflexivity) ltac:(reflexivity)).
Defined.

(** ** From power-up to the first read *)
Section first_read.
Context {B : Build} {C : MmcCodes} {H : Type} {MH : MmcHost H} {F : MmcFrame}.
Context {index : Z -> Z} {CL : MmcCodeLaws index} {p : Z} {RC : RelaysCard H index p} (patience : nat).
Implicit Types (s : mmc H) (k : sdcard).

Abbreviation card s := (card_of index p (mhost s)).

Lemma csd_media_blocks t Response : (csd_media t Response).1 < 2 ^ 64.
Proof.
  unfold csd_media. destruct (512 <? _); cbn [fst]; [apply wrap_range; lia|]. destruct (bool_decide _); by apply wrap_range.
Qed.

Lemma csd_media_block_size t Response : 9 <= MMC_CSD_GET_READBLLEN Response -> (csd_media t Response).2 = 512.
Proof.
  intros Hb. unfold csd_media. assert (512 <= Z.shiftl 1 (MMC_CSD_GET_READBLLEN Response)).
  { rewrite Z.shiftl_mul_pow2, Z.mul_1_l by lia. change 512 with (2 ^ 9). apply Z.pow_le_mono_r; lia. }
  destruct (Z.ltb_spec 512 (Z.shiftl 1 (MMC_CSD_GET_READBLLEN Response))); [done|]. cbn [snd]. lia.
Qed.

(** What identification leaves is what the transfers rely on. *)
Lemma identified_ready k ro s s' lba n buf : Host (mi s) = p -> p <> 0 -> sound_card k -> 9 <= MMC_CSD_GET_READBLLEN (csd k) ->
  IoAlign (Media (mi s)) = 4 -> 0 <= lba /\ 0 < n /\ lba + n <= (csd_media (card_type k) (csd k)).1 -> 0 < buf /\ buf + 512 * n < 2 ^ 64 /\ buf mod 4 = 0 ->
  mi s' = identified k ro (mi s) -> card s' = quiet Tran false 0 k ->
  addressed (index := index) (p := p) s' /\ known (index := index) (p := p) s' /\ acceptable p s' (MediaId (Media (mi s'))) lba n buf.
Proof.
  intros Hp Hp0 Hs Hb Ha (L0 & L1 & L) (B0 & B1 & B2) Em Ek. pose proof (csd_media_blocks (card_type k) (csd k)) as M. pose proof (csd_media_block_size (card_type k) (csd k) Hb) as Mb.
  unfold addressed, known, acceptable. rewrite Em, Ek. unfold identified, described.
  destruct (csd_media (card_type k) (csd k)) as [nb bs]. cbn [fst snd] in *. subst bs.
  cbn [set_Media Media set_MediaId set_MediaPresent set_ReadOnly set_BlockSize set_LastBlock LastBlock BlockSize IoAlign MediaPresent MediaId CardInfo set_State with_rca with_ocr set_CardInfo Host set_RCA set_OCRData set_CardType RCA OCRData].
  rewrite (wrap_small 64 (nb - 1)) by (split; lia).
  split; [split; [done | split; [done | apply Hs]]|]. split; [|by repeat (split; [first [done | lia]|])].
  split; [done|]. destruct (op_cond_word_facts 0 k) as [_ ->]; [|done]. change (hc (quiet Tran false 0 k)) with (hc k). by destruct (hc k).
Qed.

Lemma first_read_spec k lba n buf s :
  Host (mi s) = p -> p <> 0 -> card s = k -> sound_card k -> 9 <= MMC_CSD_GET_READBLLEN (csd k) -> sound_disk (disk k) ->
  IoAlign (Media (mi s)) = 4 -> 0 < buf /\ buf + 512 * n < 2 ^ 64 /\ buf mod 4 = 0 ->
  reachable k lba n -> lba + n <= (csd_media (card_type k) (csd k)).1 ->
  wp (r1 ← InitializeMmcDevice patience; mid ← the (fun i => MediaId (Media i)); r2 ← MmcReadBlocks mid lba (512 * n) buf; mret (r1, r2)) s
    (fun r s' => r = (EFI_SUCCESS, EFI_SUCCESS) /\ CardType (CardInfo (mi s')) = card_type k /\ RCA (CardInfo (mi s')) = rca k /\
      read_bytes (mmem s') buf (512 * n) = disk_blocks (disk k) lba n /\ card_ready (card s') false 0).
Proof.
  intros Hp Hp0 Hk Hs Hb Hd Hio Hbuf Hl Hn. pose proof Hl as (L1 & L2 & _). apply wp_bind.
  eapply wp_mono; [by apply (InitializeMmcDevice_spec patience k)|]. cbn beta. intros st s1 (-> & (h & A1) & A2 & A3 & A4).
  destruct (identified_ready k _ s s1 lba n buf Hp Hp0 Hs Hb Hio (conj L1 (conj L2 Hn)) Hbuf A1 A4) as (I1 & I2 & I3).
  unfold the. apply wp_bind, wp_gets, wp_bind. eapply wp_mono.
  { apply (MmcReadBlocks_correct (index := index) (p := p) _ lba n buf 0%nat s1 I1 I2); [by rewrite A4 | lia | by rewrite A4 | exact I3 | by rewrite A4]. }
  cbn beta. intros st s2 (-> & B1 & B2 & B3 & (B4 & _)). apply wp_ret. split; [done|].
  assert (E : CardInfo (mi s2) = CardInfo (mi s1)) by (destruct B4 as [-> | [? ->]]; done). rewrite E, A1.
  split; [done|]. split; [done|]. split; [|done]. rewrite (read_bytes_mem_eq _ _ _ _ B1), A4. change (disk (quiet Tran false 0 k)) with (disk k).
  rewrite <- (length_card_blocks (disk k) lba n Hd) by lia. by rewrite read_write_same.
Qed.

(** C9: From power-up to data.  On a host that relays an SD card, in any state it may be in
    and of any of the three kinds, the driver identifies the card, learns its
    type and address, and a read of blocks inside the capacity it computed
    then returns exactly those blocks of the card, which is ready again. *)
Theorem identified_card_reads k lba n buf s :
  Host (mi s) = p -> p <> 0 -> card s = k -> sound_card k -> 9 <= MMC_CSD_GET_READBLLEN (csd k) -> sound_disk (disk k) ->
  IoAlign (Media (mi s)) = 4 -> 0 < buf /\ buf + 512 * n < 2 ^ 64 /\ buf mod 4 = 0 ->
  reachable k lba n -> lba + n <= (csd_media (card_type k) (csd k)).1 ->
  wp (r1 ← InitializeMmcDevice patience; mid ← the (fun i => MediaId (Media i)); r2 ← MmcReadBlocks mid lba (512 * n) buf; mret (r1, r2)) s
    (fun r s' => r = (EFI_SUCCESS, EFI_SUCCESS) /\ CardType (CardInfo (mi s')) = card_type k /\ RCA (CardInfo (mi s')) = rca k /\
      read_bytes (mmem s') buf (512 * n) = disk_blocks (disk k) lba n /\ card_ready (card s') false 0).
Proof. exact (first_read_spec k lba n buf s). Qed.
End first_read.

Lemma identified_card_reads_witness :
  wp (r1 ← InitializeMmcDevice 5; mid ← the (fun i => MediaId (Media i)); r2 ← MmcReadBlocks mid 70 1536 0x10000; mret (r1, r2))
    (small_state (new_card true pattern)) (fun r s' => r = (EFI_SUCCESS, EFI_SUCCESS) /\ CardType (CardInfo (mi s')) = SD_CARD_2_HIGH /\
      RCA (CardInfo (mi s')) = 0x1234 /\ read_bytes (mmem s') 0x10000 1536 = replicate 512 70 ++ replicate 512 71 ++ replicate 512 72 ++ [] /\
      card_ready (scard (mhost s')) false 0).
Proof.
  refine (identified_card_reads (index := fun x => x) (p := 0x700) 5 (new_card true pattern) 70 3 0x10000 (small_state (new_card true pattern))
    eq_refl ltac:(done) eq_refl (new_card_sound true pattern) _ pattern_sound eq_refl (conj eq_refl (conj eq_refl eq_refl)) _ _); vm_compute.
  - discriminate.
  - by repeat split.
  - discriminate.
Defined.
