(* ===== verification/MmcDriver.v ===== *)
(** * The MMC driver: the pool of hosts and the driver binding

    Model of [src/Silicon/Rockchip/Rk3399Pkg/Drivers/MmcDxe/Mmc.c].  The pool
    is the list of the addresses of its instances in link order; an instance
    that is freed leaves the store of objects. *)

From Stdlib Require Import ZArith Lia.
From stdpp Require Import base list numbers option gmap.
From S2P Require Import Prelude Memory Mmc MmcIdent MmcIdentSpec MmcProps.

Definition EFI_ALREADY_STARTED : Z := ENCODE_ERROR 20.
Definition HARDWARE_DEVICE_PATH : Z := 0x01.
Definition HW_VENDOR_DP : Z := 0x04.
Definition sizeof_VENDOR_DEVICE_PATH : Z := 20.

(** The first node of the remaining device path, as far as it is looked at. *)
Record DEVICE_PATH_NODE := { IsDevicePathEnd : bool; NodeType : Z; NodeSubType : Z; DevicePathNodeLength : Z }.

(** Layout of [MMC_HOST_INSTANCE] and of the media structure. *)
Class MmcLayout := { sizeof_MMC_HOST_INSTANCE : Z; sizeof_EFI_BLOCK_IO_MEDIA : Z; offsetof_ECSDData : Z; offsetof_MmcHost : Z; offsetof_BlockIo : Z }.

(** Boot services and libraries. *)
Class MmcServices (H : Type) := {
  AllocatePool : Z -> H -> Z * H;
  FreePool : Z -> H -> H;
  (** the end node is written to the path first *)
  AppendDevicePathNode : Z -> Z -> H -> Z * H;
  (** block I/O, device path; status and handle *)
  InstallProtocols : Z -> Z -> H -> Z * Z * H;
  (** handle, block I/O, device path *)
  UninstallProtocols : Z -> Z -> Z -> H -> Z * H;
  ReinstallBlockIo : Z -> Z -> H -> Z * H;
  OpenMmcHostProtocol : Z -> H -> Z * Z * H;
  (** controller handle, agent handle, controller handle *)
  CloseProtocol : Z -> Z -> Z -> H -> Z * H;
  InstallDriverBinding : H -> Z * H;
  InstallDiagnostics : H -> Z * H;
  CreateEvent : H -> Z * Z * H;
  SetTimer : Z -> Z -> H -> Z * H
}.

(** [mMmcMediaTemplate]. *)
Definition mMmcMediaTemplate : EFI_BLOCK_IO_MEDIA :=
  {| MediaId := 0x6f636d6d; RemovableMedia := true; MediaPresent := false; LogicalPartition := false; ReadOnly := false;
     WriteCaching := false; BlockSize := 512; IoAlign := 4; LastBlock := 0; LogicalBlocksPerPhysicalBlock := 0 |}.

Record driver (H : Type) := {
  mMmcHostPool : list Z;
  instances : gmap Z MMC_HOST_INSTANCE;
  rca_count : Z;
  gCheckCardsEvent : Z;
  dmem : mem;
  dhost : H
}.
Arguments mMmcHostPool {H} _.
Arguments instances {H} _.
Arguments rca_count {H} _.
Arguments gCheckCardsEvent {H} _.
Arguments dmem {H} _.
Arguments dhost {H} _.
Arguments Build_driver {H} _ _ _ _ _ _.

Section Driver.
Context {B : Build} {C : MmcCodes} {H : Type} {MH : MmcHost H} {F : MmcFrame} {L : MmcLayout} {MV : MmcServices H}.
Context (patience : nat).
Implicit Types s : driver H.
Abbreviation MD := (M (driver H)).

Definition set_pool (p : list Z) s : driver H :=
  Build_driver p (instances s) (rca_count s) (gCheckCardsEvent s) (dmem s) (dhost s).
Definition set_instances (g : gmap Z MMC_HOST_INSTANCE) s : driver H :=
  Build_driver (mMmcHostPool s) g (rca_count s) (gCheckCardsEvent s) (dmem s) (dhost s).
Definition set_event (e : Z) s : driver H :=
  Build_driver (mMmcHostPool s) (instances s) (rca_count s) e (dmem s) (dhost s).
Definition set_dhost (h : H) s : driver H :=
  Build_driver (mMmcHostPool s) (instances s) (rca_count s) (gCheckCardsEvent s) (dmem s) h.

Definition service {A} (f : H -> A * H) : MD A := fun s => let '(a, h) := f (dhost s) in Ret a (set_dhost h s).

(** An operation on the instance at [p], which must not have been freed. *)
Definition with_instance {A} (p : Z) (c : M (mmc H) A) : MD A := fun s =>
  match instances s !! p with
  | None => Stop Fault
  | Some i =>
      match c (Build_mmc i (rca_count s) (dmem s) (dhost s)) with
      | Stop w => Stop w
      | Ret a t => Ret a (Build_driver (mMmcHostPool s) (<[p := mi t]> (instances s)) (mEmmcRcaCount t) (gCheckCardsEvent s) (mmem t) (mhost t))
      end
  end.

(** ** The pool *)

Definition InitializeMmcHostPool : MD unit := modify (set_pool []).
Definition InsertMmcHost (MmcHostInstance : Z) : MD unit := modify (fun s => set_pool (mMmcHostPool s ++ [MmcHostInstance]) s).

(** Reads the links in the instance. *)
Definition RemoveMmcHost (MmcHostInstance : Z) : MD unit :=
  with_instance MmcHostInstance (mret tt);;
  modify (fun s => set_pool (filter (fun p => p <> MmcHostInstance) (mMmcHostPool s)) s).

(** ** Instances *)

(** [AllocateZeroPool], and the fields that are set. *)
Definition new_instance (p media aHost : Z) : MMC_HOST_INSTANCE :=
  {| MmcHandle := 0; DevicePath := 0; State := MmcHwInitializationState; MediaPtr := media; Media := mMmcMediaTemplate;
     CardInfo := {| RCA := 0; CardType := UNKNOWN_CARD; OCRData := 0; CIDData := replicate 8 0; CSDData := replicate 4 0;
                    ECSDData := p + offsetof_ECSDData |};
     Host := aHost; Initialized := false |}.

Definition free (p : Z) : MD unit := service (fun h => (tt, FreePool p h)).

(** The address of the new instance, or NULL. *)
Definition CreateMmcHostInstance (aHost : Z) : MD Z :=
  p ← service (AllocatePool sizeof_MMC_HOST_INSTANCE);
  if p =? 0 then mret 0 else
  modify (fun s => Build_driver (mMmcHostPool s) (instances s) (rca_count s) (gCheckCardsEvent s)
    (fill_bytes (dmem s) p sizeof_MMC_HOST_INSTANCE 0) (dhost s));;
  media ← service (AllocatePool sizeof_EFI_BLOCK_IO_MEDIA);
  if media =? 0 then free p;; mret 0 else
  modify (fun s => set_instances (<[p := new_instance p media aHost]> (instances s)) s);;
  '(Status, node) ← service (fun h => let '(st, n, h) := BuildDevicePath aHost h in ((st, n), h));
  let free_media := free media;; modify (fun s => set_instances (delete p (instances s)) s);; free p;; mret 0 in
  if EFI_ERROR Status then free_media else
  path ← service (AllocatePool 4);
  if path =? 0 then free_media else
  whole ← service (AppendDevicePathNode path node);
  with_instance p (upd (set_DevicePath whole));;
  '(Status, handle) ← service (fun h => let '(st, x, h) := InstallProtocols (p + offsetof_BlockIo) whole h in ((st, x), h));
  with_instance p (upd (set_MmcHandle handle));;
  if EFI_ERROR Status then free path;; free_media else mret p.

Definition DestroyMmcHostInstance (p : Z) : MD Z :=
  h ← with_instance p (the MmcHandle);
  path ← with_instance p (the DevicePath);
  Status ← service (UninstallProtocols h (p + offsetof_BlockIo) path);
  ASSERT (negb (EFI_ERROR Status));;
  media ← with_instance p (the MediaPtr);
  (if negb (media =? 0) then free media else mret tt);;
  modify (fun s => set_instances (delete p (instances s)) s);;
  free p;;
  mret Status.

(** ** Cards that come and go *)

Definition check_card : M (mmc H) bool :=
  present ← host_op IsCardPresent;
  initialized ← the Initialized;
  if bool_decide (present = negb initialized) then
    upd (set_State MmcHwInitializationState);;
    upd_media (set_MediaPresent (negb initialized));;
    upd (set_Initialized (negb initialized));;
    (if negb initialized then InitializeMmcDevice patience;; mret tt else mret tt);;
    mret true
  else mret false.

Fixpoint check_cards (pool : list Z) : MD unit :=
  match pool with
  | [] => mret tt
  | p :: pool =>
      changed ← with_instance p check_card;
      (if changed : bool then
         h ← with_instance p (the MmcHandle);
         service (ReinstallBlockIo h (p + offsetof_BlockIo));; mret tt
       else mret tt);;
      check_cards pool
  end.

Definition CheckCardsCallback : MD unit := pool ← gets mMmcHostPool; check_cards pool.

(** ** Driver binding *)

Definition MmcDriverBindingSupported (DriverBindingHandle Controller : Z) (RemainingDevicePath : option DEVICE_PATH_NODE) : MD Z :=
  let unsupported :=
    match RemainingDevicePath with
    | None => false
    | Some n =>
        negb (IsDevicePathEnd n) &&
        (negb (NodeType n =? HARDWARE_DEVICE_PATH) || negb (NodeSubType n =? HW_VENDOR_DP)
         || negb (DevicePathNodeLength n =? sizeof_VENDOR_DEVICE_PATH))
    end in
  if unsupported then mret EFI_UNSUPPORTED else
  '(Status, _) ← service (fun h => let '(st, x, h) := OpenMmcHostProtocol Controller h in ((st, x), h));
  if Status =? EFI_ALREADY_STARTED then mret EFI_SUCCESS else
  if EFI_ERROR Status then mret Status else
  service (CloseProtocol Controller DriverBindingHandle Controller);;
  mret EFI_SUCCESS.

Definition MmcDriverBindingStart (Controller : Z) (RemainingDevicePath : option DEVICE_PATH_NODE) : MD Z :=
  if match RemainingDevicePath with Some n => IsDevicePathEnd n | None => false end then mret EFI_SUCCESS else
  '(Status, aHost) ← service (fun h => let '(st, x, h) := OpenMmcHostProtocol Controller h in ((st, x), h));
  if EFI_ERROR Status then mret (if Status =? EFI_ALREADY_STARTED then EFI_SUCCESS else Status) else
  p ← CreateMmcHostInstance aHost;
  (if negb (p =? 0) then
     InsertMmcHost p;;
     with_instance p (upd (set_Initialized false));;
     CheckCardsCallback
   else mret tt);;
  mret EFI_SUCCESS.

(** [CurrentLink] is not advanced: the loop stays at the first instance. *)
Fixpoint stop_loop (fuel : nat) (DriverBindingHandle Controller p : Z) : MD Z :=
  match fuel with
  | O => stopM NoFuel
  | S fuel =>
      Status ← service (CloseProtocol Controller (p + offsetof_MmcHost) DriverBindingHandle);
      RemoveMmcHost p;;
      DestroyMmcHostInstance p;;
      if Status =? EFI_SUCCESS then stop_loop fuel DriverBindingHandle Controller p else mret Status
  end.

Definition MmcDriverBindingStop (fuel : nat) (DriverBindingHandle Controller : Z) : MD Z :=
  pool ← gets mMmcHostPool;
  match pool with
  | [] => mret EFI_SUCCESS
  | p :: _ => stop_loop fuel DriverBindingHandle Controller p
  end.

(** ** Entry point *)

Definition MmcDxeInitialize : MD Z :=
  InitializeMmcHostPool;;
  Status ← service InstallDriverBinding;
  ASSERT (negb (EFI_ERROR Status));;
  Status ← service InstallDiagnostics;
  ASSERT (negb (EFI_ERROR Status));;
  '(Status, event) ← service (fun h => let '(st, e, h) := CreateEvent h in ((st, e), h));
  modify (set_event event);;
  ASSERT (negb (EFI_ERROR Status));;
  Status ← service (SetTimer event (10 * 1000 * 200));
  ASSERT (negb (EFI_ERROR Status));;
  mret Status.
End Driver.

(** * Properties of the MMC driver: instances

    An instance that is destroyed is gone, and stopping the driver uses one. *)

Section driver.
Context {B : Build} {C : MmcCodes} {H : Type} {MH : MmcHost H} {F : MmcFrame} {L : MmcLayout} {MV : MmcServices H}.
Implicit Types s : driver H.

Lemma with_instance_here {A} p i (c : M (mmc H) A) s : instances s !! p = Some i ->
  with_instance p c s = match c (Build_mmc i (rca_count s) (dmem s) (dhost s)) with
    | Stop w => Stop w
    | Ret a t => Ret a (Build_driver (mMmcHostPool s) (<[p := mi t]> (instances s)) (mEmmcRcaCount t) (gCheckCardsEvent s) (mmem t) (mhost t))
    end.
Proof. intros E. unfold with_instance. by rewrite E. Qed.

(** Reading a field of an instance. *)
Lemma wp_instance {A} p i (f : MMC_HOST_INSTANCE -> A) s (Q : A -> driver H -> Prop) : instances s !! p = Some i -> Q (f i) s ->
  wp (with_instance p (the f)) s Q.
Proof. intros E HQ. unfold wp. rewrite (with_instance_here p i) by done. cbn. rewrite insert_id by done. by destruct s. Qed.

Lemma DestroyMmcHostInstance_gone p i s : instances s !! p = Some i ->
  (forall h, EFI_ERROR (UninstallProtocols (MmcHandle i) (p + offsetof_BlockIo) (DevicePath i) h).1 = false) ->
  wp (DestroyMmcHostInstance p) s (fun _ s' => instances s' = delete p (instances s) /\ mMmcHostPool s' = mMmcHostPool s).
Proof.
  intros E Hu. unfold DestroyMmcHostInstance. apply wp_bind, (wp_instance p i); [done|]. apply wp_bind, (wp_instance p i); [done|].
  apply wp_bind. unfold wp at 1, service. pose proof (Hu (dhost s)) as Hu'. destruct (UninstallProtocols _ _ _ (dhost s)) as [st h]. cbn [fst] in Hu'.
  apply wp_bind, wp_ASSERT; [by rewrite Hu'|]. apply wp_bind, (wp_instance p i); [done|].
  apply wp_bind. destruct (negb (MediaPtr i =? 0)); [apply wp_bind|]; cbn; by repeat split.
Qed.

(** Stopping the driver touches freed memory.  When the driver holds a host and closing the
    host's protocol succeeds, the loop over the pool destroys the instance,
    stays at its link and removes it again: it reads an instance that is no
    longer there. *)
Theorem MmcDriverBindingStop_faults fuel DriverBindingHandle Controller p pool i s :
  mMmcHostPool s = p :: pool -> instances s !! p = Some i ->
  (forall h, (CloseProtocol Controller (p + offsetof_MmcHost) DriverBindingHandle h).1 = EFI_SUCCESS) ->
  (forall h, EFI_ERROR (UninstallProtocols (MmcHandle i) (p + offsetof_BlockIo) (DevicePath i) h).1 = false) ->
  MmcDriverBindingStop (S (S fuel)) DriverBindingHandle Controller s = Stop Fault.
Proof.
  intros Ep Ei Hc Hu.
  assert (W : forall w (c : M (driver H) Z), wpe (eq w) c s (fun _ _ => False) -> c s = Stop w).
  { intros w c. unfold wpe. destruct (c s); [done | by intros ->]. }
  apply W. unfold MmcDriverBindingStop. apply wpe_bind, wpe_gets. rewrite Ep. cbn [stop_loop]. apply wpe_bind.
  unfold wpe at 1, service. pose proof (Hc (dhost s)) as Hc1. destruct (CloseProtocol _ _ _ (dhost s)) as [st h]. cbn [fst] in Hc1. subst st.
  apply wpe_bind. unfold RemoveMmcHost at 1. apply wpe_bind. unfold wpe at 1. rewrite (with_instance_here p i) by done. cbn [mret M_ret].
  apply wpe_modify, wpe_bind, wp_wpe. eapply wp_mono.
  { apply (DestroyMmcHostInstance_gone p i); [|done]. cbn. apply lookup_insert_eq. }
  cbn beta. intros _ s1 [E1 _]. cbn [Z.eqb EFI_SUCCESS stop_loop]. apply wpe_bind.
  unfold wpe at 1, service. pose proof (Hc (dhost s1)) as Hc2. destruct (CloseProtocol _ _ _ (dhost s1)) as [st h1]. cbn [fst] in Hc2. subst st.
  apply wpe_bind. unfold RemoveMmcHost. apply wpe_bind. unfold wpe, with_instance. cbn [instances set_dhost].
  rewrite E1. cbn [instances set_pool set_dhost]. by rewrite lookup_delete_eq.
Qed.

End driver.

(** ** A small driver *)
#[export] Instance small_layout : MmcLayout :=
  { sizeof_MMC_HOST_INSTANCE := 720; sizeof_EFI_BLOCK_IO_MEDIA := 48; offsetof_ECSDData := 128; offsetof_MmcHost := 704; offsetof_BlockIo := 40 }.

(** Services over the small host that hand out one address for each size. *)
#[export] Instance small_services : MmcServices small := {
  AllocatePool n h := (0x100000 + n, h);
  FreePool _ h := h;
  AppendDevicePathNode path _ h := (path + 8, h);
  InstallProtocols _ _ h := (EFI_SUCCESS, 0x900, h);
  UninstallProtocols _ _ _ h := (EFI_SUCCESS, h);
  ReinstallBlockIo _ _ h := (EFI_SUCCESS, h);
  OpenMmcHostProtocol _ h := (EFI_SUCCESS, 0x700, h);
  CloseProtocol _ _ _ h := (EFI_SUCCESS, h);
  InstallDriverBinding h := (EFI_SUCCESS, h);
  InstallDiagnostics h := (EFI_SUCCESS, h);
  CreateEvent h := (EFI_SUCCESS, 0x800, h);
  SetTimer _ _ h := (EFI_SUCCESS, h)
}.

Definition started : driver small := Build_driver [0x1002D0] {[0x1002D0 := blank_instance 0x700]} 0 0x800 (fun _ => 0) (Build_small (new_card true pattern) []).

Lemma MmcDriverBindingStop_faults_witness : MmcDriverBindingStop 2 0x10 0x20 started = Stop Fault.
Proof.
  exact (MmcDriverBindingStop_faults 0 0x10 0x20 0x1002D0 [] (blank_instance 0x700) started eq_refl eq_refl (fun _ => eq_refl) (fun _ => eq_refl)).
Defined.

(** The driver starts on a host with a card: the instance is in the pool, and
    the card is identified. *)
Example small_driver_starts :
  match MmcDriverBindingStart 5 0x20 None (Build_driver [] ∅ 0 0x800 (fun _ => 0) (Build_small (new_card true pattern) [])) with
  | Ret st s => st = EFI_SUCCESS /\ mMmcHostPool s = [0x1002D0] /\
      match instances s !! 0x1002D0 with Some i => RCA (CardInfo i) = 0x1234 /\ MediaPresent (Media i) = true | None => False end
  | Stop _ => False
  end.
Proof. vm_compute. by repeat split. Qed.
