(* ===== verification/Gpio.v ===== *)
(** * Pins of the RK356x

    Model of [src/Silicon/Rockchip/Rk356xPkg/Library/GpioLib/GpioLib.c] with
    [Include/Library/GpioLib.h]: the direction and value of a pin in the
    registers of its GPIO group, its function, pull, drive strength and input
    buffer in the general register files. *)

From Stdlib Require Import ZArith Lia String.
From stdpp Require Import base list numbers option.
From S2P Require Import Prelude Mmio.

(** ** Names of pins and settings *)

Definition GPIO_PIN_PA0 : Z := 0.
Definition GPIO_PIN_PA1 : Z := 1.
Definition GPIO_PIN_PA2 : Z := 2.
Definition GPIO_PIN_PA3 : Z := 3.
Definition GPIO_PIN_PA4 : Z := 4.
Definition GPIO_PIN_PA5 : Z := 5.
Definition GPIO_PIN_PA6 : Z := 6.
Definition GPIO_PIN_PA7 : Z := 7.
Definition GPIO_PIN_PB0 : Z := 8.
Definition GPIO_PIN_PB1 : Z := 9.
Definition GPIO_PIN_PB2 : Z := 10.
Definition GPIO_PIN_PB3 : Z := 11.
Definition GPIO_PIN_PB4 : Z := 12.
Definition GPIO_PIN_PB5 : Z := 13.
Definition GPIO_PIN_PB6 : Z := 14.
Definition GPIO_PIN_PB7 : Z := 15.
Definition GPIO_PIN_PC0 : Z := 16.
Definition GPIO_PIN_PC1 : Z := 17.
Definition GPIO_PIN_PC2 : Z := 18.
Definition GPIO_PIN_PC3 : Z := 19.
Definition GPIO_PIN_PC4 : Z := 20.
Definition GPIO_PIN_PC5 : Z := 21.
Definition GPIO_PIN_PC6 : Z := 22.
Definition GPIO_PIN_PC7 : Z := 23.
Definition GPIO_PIN_PD0 : Z := 24.
Definition GPIO_PIN_PD1 : Z := 25.
Definition GPIO_PIN_PD2 : Z := 26.
Definition GPIO_PIN_PD3 : Z := 27.
Definition GPIO_PIN_PD4 : Z := 28.
Definition GPIO_PIN_PD5 : Z := 29.
Definition GPIO_PIN_PD6 : Z := 30.
Definition GPIO_PIN_PD7 : Z := 31.

(** [GPIO_PIN_DIRECTION] *)
Definition GPIO_PIN_INPUT : Z := 0.
Definition GPIO_PIN_OUTPUT : Z := 1.

(** [GPIO_PIN_PULL] *)
Definition GPIO_PIN_PULL_NONE : Z := 0.
Definition GPIO_PIN_PULL_UP : Z := 1.
Definition GPIO_PIN_PULL_DOWN : Z := 2.

(** [GPIO_PIN_DRIVE] *)
Definition GPIO_PIN_DRIVE_DEFAULT : Z := 0xFF.
Definition GPIO_PIN_DRIVE_DISABLE : Z := 0x0.
Definition GPIO_PIN_DRIVE_0 : Z := 0x1.
Definition GPIO_PIN_DRIVE_1 : Z := 0x3.
Definition GPIO_PIN_DRIVE_2 : Z := 0x7.
Definition GPIO_PIN_DRIVE_3 : Z := 0xF.
Definition GPIO_PIN_DRIVE_4 : Z := 0x1F.
Definition GPIO_PIN_DRIVE_5 : Z := 0x3F.

(** [GPIO_PIN_INPUT_ENABLE] *)
Definition GPIO_PIN_INPUT_DEFAULT : Z := 0xFF.
Definition GPIO_PIN_INPUT_DISABLE : Z := 0x0.
Definition GPIO_PIN_INPUT_NON_SCHMITT : Z := 0x1.
Definition GPIO_PIN_INPUT_SCHMITT : Z := 0x2.

Record GPIO_IOMUX_CONFIG := Iomux {
  Name : string;
  Group : Z;
  Pin : Z;
  Function_ : Z;
  Pull : Z;
  Drive : Z
}.

(** ** Registers *)

Definition PMU_GRF : Z := 0xFDC20000.
Definition SYS_GRF : Z := 0xFDC60000.
Definition GPIO_BASE (n : Z) : Z := if n =? 0 then 0xFDD60000 else 0xFE740000 + (n - 1) * 0x10000.

Definition GRF_GPIO_IOMUX_REG (Pin : Z) : Z := Pin / 4 * 4.
Definition GRF_GPIO_IOMUX_SHIFT (Pin : Z) : Z := Pin mod 4 * 4.
Definition GRF_GPIO_IOMUX_MASK (Pin : Z) : Z := u32 (Z.shiftl 0xF (GRF_GPIO_IOMUX_SHIFT Pin + 16)).

Definition GRF_GPIO_P_REG (Pin : Z) : Z := Pin / 8 * 4.
Definition GRF_GPIO_P_SHIFT (Pin : Z) : Z := Pin mod 8 * 2.
Definition GRF_GPIO_P_MASK (Pin : Z) : Z := u32 (Z.shiftl 0x3 (GRF_GPIO_P_SHIFT Pin + 16)).

Definition GRF_GPIO_DS_REG (Pin : Z) : Z := Pin / 2 * 4.
Definition GRF_GPIO_DS_SHIFT (Pin : Z) : Z := Pin mod 2 * 8.
Definition GRF_GPIO_DS_MASK (Pin : Z) : Z := u32 (Z.shiftl 0xFF (GRF_GPIO_DS_SHIFT Pin + 16)).

Definition GRF_GPIO_IE_REG (Pin : Z) : Z := Pin / 8 * 4.
Definition GRF_GPIO_IE_SHIFT (Pin : Z) : Z := Pin mod 8 * 2.
Definition GRF_GPIO_IE_MASK (Pin : Z) : Z := u32 (Z.shiftl 0x3 (GRF_GPIO_IE_SHIFT Pin + 16)).

Definition GPIO_SWPORT_DR (Pin : Z) : Z := if Pin <? 16 then 0x0000 else 0x0004.
Definition GPIO_SWPORT_DDR (Pin : Z) : Z := if Pin <? 16 then 0x0008 else 0x000C.

Definition GPIO_WRITE_MASK (Pin : Z) : Z := Z.shiftl 1 (Pin mod 16 + 16).
Definition GPIO_VALUE_MASK (Pin Value : Z) : Z := u32 (Z.shiftl Value (Pin mod 16)).

Definition GPIO_NGROUPS : Z := 5.

Record GPIO_PINMUX_REGS := { IOMUX : Z; P : Z; IE : Z; DS : Z }.

Definition REG_BASE (Base IomuxOff POff IeOff DsOff : Z) : GPIO_PINMUX_REGS :=
  {| IOMUX := Base + IomuxOff; P := Base + POff; IE := Base + IeOff; DS := Base + DsOff |}.

Definition mPinmuxReg : list GPIO_PINMUX_REGS := [
  REG_BASE PMU_GRF 0x0000 0x0020 0x0030 0x0070;
  REG_BASE SYS_GRF 0x0000 0x0080 0x00C0 0x0200;
  REG_BASE SYS_GRF 0x0020 0x0090 0x00D0 0x0240;
  REG_BASE SYS_GRF 0x0040 0x00A0 0x00E0 0x0280;
  REG_BASE SYS_GRF 0x0060 0x00B0 0x00F0 0x02C0].

Section gpio.
Context {H : Type} `{MM : Mmio H} {BB : Build}.

(** [mPinmuxReg[Group]]; beyond the array the behaviour is undefined. *)
Definition pinmux (Group : Z) : M H GPIO_PINMUX_REGS :=
  match mPinmuxReg !! Z.to_nat Group with Some R => mret R | None => stopM Fault end.

Definition GpioPinSetDirection (Group Pin Direction : Z) : M H unit :=
  MmioWrite32 (GPIO_BASE Group + GPIO_SWPORT_DDR Pin) (Z.lor (GPIO_WRITE_MASK Pin) (GPIO_VALUE_MASK Pin Direction)).

Definition GpioPinWrite (Group Pin : Z) (Value : bool) : M H unit :=
  MmioWrite32 (GPIO_BASE Group + GPIO_SWPORT_DR Pin) (Z.lor (GPIO_WRITE_MASK Pin) (GPIO_VALUE_MASK Pin (Z.b2z Value))).

Definition GpioPinRead (Group Pin : Z) : M H bool :=
  Value ← MmioRead32 (GPIO_BASE Group + GPIO_SWPORT_DR Pin);
  mret (negb (Z.land Value (GPIO_VALUE_MASK Pin 1) =? 0)).

Definition GpioPinSetFunction (Group Pin Function : Z) : M H unit :=
  ASSERT (Group <? GPIO_NGROUPS);;
  R ← pinmux Group;
  MmioWrite32 (IOMUX R + GRF_GPIO_IOMUX_REG Pin) (Z.lor (GRF_GPIO_IOMUX_MASK Pin) (u32 (Z.shiftl Function (GRF_GPIO_IOMUX_SHIFT Pin)))).

(** The pull-up of some pins of group 0 has a code of its own. *)
Definition pull_code (Group Pin Pull : Z) : Z :=
  if (Group =? 0) && (GPIO_PIN_PD3 <=? Pin) && (Pin <=? GPIO_PIN_PD6) && (Pull =? GPIO_PIN_PULL_UP) then 3 else Pull.

Definition GpioPinSetPull (Group Pin Pull : Z) : M H unit :=
  ASSERT (Group <? GPIO_NGROUPS);;
  let Pull := pull_code Group Pin Pull in
  R ← pinmux Group;
  MmioWrite32 (P R + GRF_GPIO_P_REG Pin) (Z.lor (GRF_GPIO_P_MASK Pin) (u32 (Z.shiftl Pull (GRF_GPIO_P_SHIFT Pin)))).

Definition GpioPinSetDrive (Group Pin Drive : Z) : M H unit :=
  ASSERT (Group <? GPIO_NGROUPS);;
  ASSERT (negb (Drive =? GPIO_PIN_DRIVE_DEFAULT));;
  R ← pinmux Group;
  MmioWrite32 (DS R + GRF_GPIO_DS_REG Pin) (Z.lor (GRF_GPIO_DS_MASK Pin) (u32 (Z.shiftl Drive (GRF_GPIO_DS_SHIFT Pin)))).

Definition GpioPinSetInput (Group Pin InputEnable : Z) : M H unit :=
  ASSERT (Group <? GPIO_NGROUPS);;
  ASSERT (negb (InputEnable =? GPIO_PIN_INPUT_DEFAULT));;
  R ← pinmux Group;
  MmioWrite32 (IE R + GRF_GPIO_IE_REG Pin) (Z.lor (GRF_GPIO_IE_MASK Pin) (u32 (Z.shiftl InputEnable (GRF_GPIO_IE_SHIFT Pin)))).

(** The body of the loop of [GpioSetIomuxConfig]. *)
Definition set_config (Mux : GPIO_IOMUX_CONFIG) : M H unit :=
  GpioPinSetFunction (Group Mux) (Pin Mux) (Function_ Mux);;
  GpioPinSetPull (Group Mux) (Pin Mux) (Pull Mux);;
  (if negb (Drive Mux =? GPIO_PIN_DRIVE_DEFAULT) then GpioPinSetDrive (Group Mux) (Pin Mux) (Drive Mux) else mret tt).

Fixpoint GpioSetIomuxConfig (Configs : list GPIO_IOMUX_CONFIG) : M H unit :=
  match Configs with
  | [] => mret tt
  | Mux :: Configs => set_config Mux;; GpioSetIomuxConfig Configs
  end.
End gpio.

(** * Pins of the RK356x: what a pin configuration achieves

    On registers with write enables, configuring pins sets the fields of those
    pins and touches nothing else. *)

(** ** Fields of pins *)

Inductive setting := SFunction | SPull | SDrive | SInput.

#[export] Instance setting_eq_dec : EqDecision setting.
Proof. solve_decision. Defined.

(** The register of a setting, the place and the width of its field. *)
Definition field_base (t : setting) (R : GPIO_PINMUX_REGS) : Z :=
  match t with SFunction => IOMUX R | SPull => P R | SDrive => DS R | SInput => IE R end.
Definition field_reg (t : setting) (p : Z) : Z :=
  match t with SFunction => GRF_GPIO_IOMUX_REG p | SPull => GRF_GPIO_P_REG p | SDrive => GRF_GPIO_DS_REG p | SInput => GRF_GPIO_IE_REG p end.
Definition field_shift (t : setting) (p : Z) : Z :=
  match t with SFunction => GRF_GPIO_IOMUX_SHIFT p | SPull => GRF_GPIO_P_SHIFT p | SDrive => GRF_GPIO_DS_SHIFT p | SInput => GRF_GPIO_IE_SHIFT p end.
Definition field_width (t : setting) : Z := match t with SFunction => 4 | SPull => 2 | SDrive => 8 | SInput => 2 end.

Definition regs_of (g : Z) : GPIO_PINMUX_REGS := default (REG_BASE 0 0 0 0 0) (mPinmuxReg !! Z.to_nat g).
Definition field_addr (t : setting) (g p : Z) : Z := field_base t (regs_of g) + field_reg t p.
Definition field_mask (t : setting) (p : Z) : Z := Z.shiftl (Z.ones (field_width t)) (field_shift t p).

Definition is_pin (g p : Z) : Prop := 0 <= g < GPIO_NGROUPS /\ 0 <= p < 32.

(** The registers with the settings: each bit has a write enable. *)
Definition GpioKind (a : Z) : option reg_kind :=
  if ((PMU_GRF <=? a) && (a <? PMU_GRF + 0x100)) || ((SYS_GRF <=? a) && (a <? SYS_GRF + 0x300)) then Some Hiword else None.

(** ** No two fields overlap *)

(** The bytes of the registers that hold a setting of a group. *)
Definition field_size (t : setting) : Z := match t with SFunction => 0x20 | SPull => 0x10 | SDrive => 0x40 | SInput => 0x10 end.
Definition areas : list (setting * Z) := t ← [SFunction; SPull; SDrive; SInput]; g ← seqZ 0 5; [(t, g)].
Definition area_base (x : setting * Z) : Z := field_base x.1 (regs_of x.2).

Definition areas_apart (x y : setting * Z) : bool :=
  bool_decide (x = y) || (area_base x + field_size x.1 <=? area_base y) || (area_base y + field_size y.1 <=? area_base x).
Definition area_ok (x : setting * Z) : bool :=
  (PMU_GRF <=? area_base x) && (area_base x + field_size x.1 <=? PMU_GRF + 0x100)
  || (SYS_GRF <=? area_base x) && (area_base x + field_size x.1 <=? SYS_GRF + 0x300).

Lemma all_areas_apart : forallb (fun x => forallb (areas_apart x) areas && area_ok x) areas = true.
Proof. vm_compute. reflexivity. Qed.

Lemma in_areas t g : 0 <= g < GPIO_NGROUPS -> In (t, g) areas.
Proof.
  unfold GPIO_NGROUPS. intros Hg. apply list_elem_of_In, list_elem_of_bind. exists t. split; [|apply list_elem_of_In; destruct t; cbn; tauto].
  apply list_elem_of_bind. exists g. split; [by left | apply elem_of_seqZ; lia].
Qed.

Lemma field_in_area t p : 0 <= p < 32 -> 0 <= field_reg t p < field_size t.
Proof.
  intros Hp. destruct t; cbn [field_reg field_size]; unfold GRF_GPIO_IOMUX_REG, GRF_GPIO_P_REG, GRF_GPIO_DS_REG, GRF_GPIO_IE_REG;
    Z.to_euclidean_division_equations; lia.
Qed.

Lemma field_kind t g p : is_pin g p -> GpioKind (field_addr t g p) = Some Hiword.
Proof.
  intros [Hg Hp]. pose proof all_areas_apart as E. rewrite forallb_forall in E.
  apply (fun E => E (t, g) (in_areas t g Hg)), andb_true_iff in E as [_ E]. pose proof (field_in_area t p Hp) as F.
  unfold area_ok in E. unfold GpioKind, field_addr. change (field_base t (regs_of g)) with (area_base (t, g)). cbn [fst] in E.
  rewrite orb_true_iff, !andb_true_iff, !Z.leb_le in E. rewrite (proj2 (orb_true_iff _ _)); [done|].
  rewrite !andb_true_iff, !Z.leb_le, !Z.ltb_lt. lia.
Qed.

Lemma field_width_pos t : 0 < field_width t.
Proof. by destruct t. Qed.

Lemma field_shift_eq t p : field_shift t p = p mod (16 / field_width t) * field_width t.
Proof. by destruct t. Qed.

Lemma field_reg_eq t p : field_reg t p = p / (16 / field_width t) * 4.
Proof. by destruct t. Qed.

Lemma field_range t p : 0 <= field_shift t p /\ field_shift t p + field_width t <= 16.
Proof.
  destruct t; cbn [field_shift field_width]; unfold GRF_GPIO_IOMUX_SHIFT, GRF_GPIO_P_SHIFT, GRF_GPIO_DS_SHIFT, GRF_GPIO_IE_SHIFT;
    Z.to_euclidean_division_equations; lia.
Qed.

Lemma masks_apart s s' w : 0 <= s -> 0 < w -> s + w <= s' -> Z.land (Z.shiftl (Z.ones w) s) (Z.shiftl (Z.ones w) s') = 0.
Proof.
  intros Hs Hw Hd. apply land_below; [lia|]. unfold in_word. rewrite Z.shiftl_mul_pow2, Z.ones_equiv by lia.
  assert (2 ^ (s + w) <= 2 ^ s') by (apply Z.pow_le_mono_r; lia). rewrite Z.pow_add_r in H by lia.
  assert (0 < 2 ^ s) by (apply Z.pow_pos_nonneg; lia). assert (0 < 2 ^ w) by (apply Z.pow_pos_nonneg; lia). nia.
Qed.

Lemma fields_apart t g p t' g' p' : is_pin g p -> is_pin g' p' -> (t, g, p) <> (t', g', p') ->
  field_addr t g p = field_addr t' g' p' -> Z.land (field_mask t p) (field_mask t' p') = 0.
Proof.
  intros [Hg Hp] [Hg' Hp'] Hne Ha. pose proof all_areas_apart as E. rewrite forallb_forall in E.
  apply (fun E => E (t, g) (in_areas t g Hg)), andb_true_iff in E as [E _]. rewrite forallb_forall in E. specialize (E (t', g') (in_areas t' g' Hg')).
  unfold areas_apart in E. pose proof (field_in_area t p Hp) as F. pose proof (field_in_area t' p' Hp') as F'. unfold field_addr in Ha.
  change (field_base t (regs_of g)) with (area_base (t, g)) in Ha. change (field_base t' (regs_of g')) with (area_base (t', g')) in Ha.
  cbn [fst] in E. rewrite !orb_true_iff, bool_decide_eq_true, !Z.leb_le in E. destruct E as [[[= <- <-]|E]|E]; [|lia|lia].
  assert (Hr : field_reg t p = field_reg t p') by lia. rewrite !field_reg_eq in Hr.
  assert (Hm : p mod (16 / field_width t) <> p' mod (16 / field_width t)).
  { intros Em. assert (0 < 16 / field_width t) by (by destruct t). apply Hne. f_equal.
    rewrite (Z.div_mod p (16 / field_width t)), (Z.div_mod p' (16 / field_width t)) by lia. nia. }
  pose proof (field_width_pos t). pose proof (field_range t p). pose proof (field_range t p'). unfold field_mask.
  rewrite !field_shift_eq in *. destruct (Z.lt_total (p mod (16 / field_width t)) (p' mod (16 / field_width t))) as [Hl|[?|Hl]]; [|done|].
  - apply masks_apart; nia.
  - rewrite Z.land_comm. apply masks_apart; nia.
Qed.

(** ** Setting a field *)

Section pins.
Context {B : Build} {H : Type} `{MM : Mmio H} {status : Z -> Z} {RF : RegFile H GpioKind status}.
Implicit Types h : H.

(** The setting of a pin, as the hardware has it. *)
Definition pin_field (t : setting) (g p : Z) (h : H) : Z :=
  Z.land (Z.shiftr (reg GpioKind status (field_addr t g p) h) (field_shift t p)) (Z.ones (field_width t)).

(** Only the settings in [l] changed, and only registers with settings. *)
Definition only_fields (l : list (setting * Z * Z)) h h' : Prop :=
  (forall t g p, is_pin g p -> (t, g, p) ∉ l -> pin_field t g p h' = pin_field t g p h) /\
  (forall a, GpioKind a = None -> reg GpioKind status a h' = reg GpioKind status a h).

Lemma only_fields_refl l h : only_fields l h h.
Proof. by split. Qed.

Lemma only_fields_trans l l1 l2 h1 h2 h3 : l1 ⊆ l -> l2 ⊆ l -> only_fields l1 h1 h2 -> only_fields l2 h2 h3 -> only_fields l h1 h3.
Proof.
  intros S1 S2 [A1 A2] [B1 B2]. split.
  - intros t g p Hp Hn. rewrite B1, A1; [done | done | auto | done | auto].
  - intros a Ha. by rewrite B2, A2.
Qed.

Lemma pin_field_mask t g p h : is_pin g p ->
  pin_field t g p h = Z.shiftr (Z.land (reg GpioKind status (field_addr t g p) h) (field_mask t p)) (field_shift t p).
Proof.
  intros _. pose proof (field_range t p) as [Hs _]. unfold pin_field, field_mask.
  by rewrite Z.shiftr_land, shiftl_shiftr.
Qed.

Lemma in_word_field t p v : in_word (field_width t) v -> in_word 16 (Z.shiftl v (field_shift t p)).
Proof.
  intros Hv. pose proof (field_range t p). pose proof (field_width_pos t).
  pose proof (in_word_shiftl (field_width t) (field_shift t p) v ltac:(lia) ltac:(lia) Hv) as Hw. unfold in_word in *.
  assert (2 ^ (field_width t + field_shift t p) <= 2 ^ 16) by (apply Z.pow_le_mono_r; lia). lia.
Qed.

Lemma in_word_field_mask t p : in_word 16 (field_mask t p).
Proof. apply in_word_field. unfold in_word. by destruct t. Qed.

Lemma wp_set_field t g p v h (Q : unit -> H -> Prop) : is_pin g p -> in_word (field_width t) v ->
  (forall h', pin_field t g p h' = v -> only_fields [(t, g, p)] h h' -> Q tt h') ->
  wp (MmioWrite32 (field_addr t g p) (hiword (field_mask t p) (Z.shiftl v (field_shift t p)))) h Q.
Proof.
  intros Hp Hv HQ. pose proof (field_range t p) as [Hs _]. pose proof (field_width_pos t) as Hw.
  pose proof (in_word_field t p v Hv) as Wv. pose proof (in_word_field_mask t p) as Wm.
  eapply (wp_write (kind := GpioKind) (status := status)); [by apply field_kind|]. cbn [reg_write]. intros h' E O. apply HQ.
  - rewrite pin_field_mask, E, hiword_write_set by (done || apply Z.land_diag). unfold field_mask.
    by rewrite land_shiftl_mask, shiftl_shiftr by (done || lia).
  - split.
    + intros t' g' p' Hp' Hn. rewrite !pin_field_mask by done.
      destruct (decide (field_addr t' g' p' = field_addr t g p)) as [Ea|Ea].
      * rewrite Ea, E, hiword_write_keep; [done | done | done |]. rewrite Z.land_comm.
        apply (fields_apart t g p t' g' p'); [done | done | | done]. intros [= -> -> ->]. by apply Hn, list_elem_of_here.
      * rewrite O; [done|]. by intros ?%list_elem_of_singleton.
    + intros a Ha. apply O. intros ->%list_elem_of_singleton. by rewrite field_kind in Ha.
Qed.

Lemma pinmux_Ret g h : 0 <= g < GPIO_NGROUPS -> pinmux g h = Ret (regs_of g) h.
Proof.
  intros Hg. unfold pinmux, regs_of. destruct (mPinmuxReg !! Z.to_nat g) eqn:E; [done|].
  apply lookup_ge_None in E. unfold GPIO_NGROUPS in Hg. cbn in E. lia.
Qed.

Lemma wp_pinmux g h (Q : GPIO_PINMUX_REGS -> H -> Prop) : 0 <= g < GPIO_NGROUPS -> Q (regs_of g) h -> wp (pinmux g) h Q.
Proof. intros Hg HQ. unfold wp. by rewrite pinmux_Ret. Qed.

(** The words the library writes. *)
Lemma field_word t p v : in_word (field_width t) v ->
  Z.lor (u32 (Z.shiftl (Z.ones (field_width t)) (field_shift t p + 16))) (u32 (Z.shiftl v (field_shift t p)))
  = hiword (field_mask t p) (Z.shiftl v (field_shift t p)).
Proof.
  intros Hv. pose proof (in_word_field t p v Hv) as Wv. pose proof (in_word_field_mask t p) as Wm. pose proof (field_range t p) as [Hs _].
  unfold hiword, field_mask. rewrite Z.shiftl_shiftl by lia. f_equal; apply wrap_small.
  - unfold field_mask, in_word in *. rewrite <- Z.shiftl_shiftl, (Z.shiftl_mul_pow2 _ 16) by lia.
    change (2 ^ 32) with (2 ^ 16 * 2 ^ 16). nia.
  - unfold in_word in *. lia.
Qed.

Lemma GpioPinSetFunction_spec g p v h (Q : unit -> H -> Prop) : is_pin g p -> in_word 4 v ->
  (forall h', pin_field SFunction g p h' = v -> only_fields [(SFunction, g, p)] h h' -> Q tt h') -> wp (GpioPinSetFunction g p v) h Q.
Proof.
  intros Hp Hv HQ. destruct Hp as [Hg Hp]. unfold GpioPinSetFunction. apply wp_bind, wp_ASSERT; [apply Z.ltb_lt; lia|].
  apply wp_bind, wp_pinmux; [done|]. pose proof (field_word SFunction p v Hv) as E. cbn [field_width field_shift] in E. unfold GRF_GPIO_IOMUX_MASK.
  change 0xF with (Z.ones 4). rewrite E. by apply (wp_set_field SFunction g p v).
Qed.

Lemma pull_code_word g p v : in_word 2 v -> in_word 2 (pull_code g p v).
Proof. intros Hv. unfold pull_code. by destruct ((g =? 0) && _ && _ && _). Qed.

Lemma GpioPinSetPull_spec g p v h (Q : unit -> H -> Prop) : is_pin g p -> in_word 2 v ->
  (forall h', pin_field SPull g p h' = pull_code g p v -> only_fields [(SPull, g, p)] h h' -> Q tt h') -> wp (GpioPinSetPull g p v) h Q.
Proof.
  intros Hp Hv HQ. destruct Hp as [Hg Hp]. unfold GpioPinSetPull. apply wp_bind, wp_ASSERT; [apply Z.ltb_lt; lia|].
  apply wp_bind, wp_pinmux; [done|]. pose proof (pull_code_word g p v Hv) as Hc. pose proof (field_word SPull p _ Hc) as E.
  cbn [field_width field_shift] in E. unfold GRF_GPIO_P_MASK.
  change 0x3 with (Z.ones 2). rewrite E. by apply (wp_set_field SPull g p).
Qed.

Lemma GpioPinSetDrive_spec g p v h (Q : unit -> H -> Prop) : is_pin g p -> in_word 8 v -> v <> GPIO_PIN_DRIVE_DEFAULT ->
  (forall h', pin_field SDrive g p h' = v -> only_fields [(SDrive, g, p)] h h' -> Q tt h') -> wp (GpioPinSetDrive g p v) h Q.
Proof.
  intros Hp Hv Hd HQ. destruct Hp as [Hg Hp]. unfold GpioPinSetDrive. apply wp_bind, wp_ASSERT; [apply Z.ltb_lt; lia|].
  apply wp_bind, wp_ASSERT; [by apply negb_true_iff, Z.eqb_neq|].
  apply wp_bind, wp_pinmux; [done|]. pose proof (field_word SDrive p _ Hv) as E.
  cbn [field_width field_shift] in E. unfold GRF_GPIO_DS_MASK.
  change 0xFF with (Z.ones 8). rewrite E. by apply (wp_set_field SDrive g p).
Qed.

(** ** Configurations *)

Definition valid_config (c : GPIO_IOMUX_CONFIG) : Prop :=
  is_pin (Group c) (Pin c) /\ in_word 4 (Function_ c) /\ in_word 2 (Pull c) /\ in_word 8 (Drive c).

Definition configured h (c : GPIO_IOMUX_CONFIG) : Prop :=
  pin_field SFunction (Group c) (Pin c) h = Function_ c /\
  pin_field SPull (Group c) (Pin c) h = pull_code (Group c) (Pin c) (Pull c) /\
  (Drive c <> GPIO_PIN_DRIVE_DEFAULT -> pin_field SDrive (Group c) (Pin c) h = Drive c).

(** The settings a configuration is about. *)
Definition touched (c : GPIO_IOMUX_CONFIG) : list (setting * Z * Z) :=
  [(SFunction, Group c, Pin c); (SPull, Group c, Pin c)] ++
  (if Drive c =? GPIO_PIN_DRIVE_DEFAULT then [] else [(SDrive, Group c, Pin c)]).

Lemma touched_pin c t g p : (t, g, p) ∈ touched c -> g = Group c /\ p = Pin c.
Proof.
  unfold touched. intros E%list_elem_of_In. apply in_app_or in E as [E|E].
  - destruct E as [[= <- <- <-]|[[= <- <- <-]|[]]]; done.
  - destruct (Drive c =? _); [destruct E|]. by destruct E as [[= <- <- <-]|[]].
Qed.

Lemma set_config_spec c h (Q : unit -> H -> Prop) : valid_config c ->
  (forall h', configured h' c -> only_fields (touched c) h h' -> Q tt h') -> wp (set_config c) h Q.
Proof.
  intros (Hp & Hf & Hu & Hd) HQ. unfold set_config. apply wp_bind, GpioPinSetFunction_spec; [done | done|]. intros h1 E1 O1.
  apply wp_bind, GpioPinSetPull_spec; [done | done|]. intros h2 E2 O2.
  assert (F2 : pin_field SFunction (Group c) (Pin c) h2 = Function_ c).
  { rewrite (proj1 O2); [done | done|]. by intros ?%list_elem_of_singleton. }
  unfold touched in HQ. destruct (Z.eqb_spec (Drive c) GPIO_PIN_DRIVE_DEFAULT) as [Ed|Ed]; cbn [negb].
  - apply wp_ret, HQ; [split; [done | split; [done | congruence]]|].
    eapply only_fields_trans; [| |exact O1|exact O2]; cbn; intros x; rewrite !elem_of_cons; tauto.
  - apply GpioPinSetDrive_spec; [done | done | done|]. intros h3 E3 O3. apply HQ.
    + split; [|split; [|done]]; (rewrite (proj1 O3); [done | done|]); by intros ?%list_elem_of_singleton.
    + eapply (only_fields_trans _ [(SFunction, Group c, Pin c); (SPull, Group c, Pin c)]); [| |eapply only_fields_trans; [| |exact O1|exact O2]|exact O3];
        cbn; intros x; rewrite ?elem_of_cons; tauto.
Qed.

End pins.

(** ** Run on a register file *)

Definition gpio_file := file_mmio GpioKind (fun _ => 0) (fun _ => 0).
Definition gpio_file_regs : RegFile file (MM := gpio_file) GpioKind (fun _ => 0) :=
  file_regs GpioKind (fun _ => 0) (fun _ => 0) (fun _ => eq_refl).

(** Three pins that share registers, one of them with the other code for its
    pull-up. *)
Definition three_pins : list GPIO_IOMUX_CONFIG := [
  Iomux "a" 0 GPIO_PIN_PD4 2 GPIO_PIN_PULL_UP GPIO_PIN_DRIVE_2;
  Iomux "b" 0 GPIO_PIN_PD5 1 GPIO_PIN_PULL_UP GPIO_PIN_DRIVE_DEFAULT;
  Iomux "c" 4 GPIO_PIN_PD5 5 GPIO_PIN_PULL_DOWN GPIO_PIN_DRIVE_5].

