(* ===== verification/DwMmc.v ===== *)
(** * DesignWare hosts of SD and MMC cards

    What the drivers [Rk356xPkg/Drivers/MshcDxe] and
    [Rk3399Pkg/Drivers/DwEmmcDxe] have in common: the registers and bits of
    [Mshc.h] (the same in [DwEmmc.h]), the polling of the controller, and the
    operations the two files share word for word.  Mshc.v and DwEmmc.v have
    the drivers. *)

From Stdlib Require Import ZArith Lia.
From stdpp Require Import base list numbers option.
From S2P Require Import Prelude Memory Mmio Mmc.

(** ** Registers and bits: Mshc.h *)

Section registers.
Context (Base : Z).

Definition DWEMMC_CTRL : Z := u32 (Base + 0x000).
Definition DWEMMC_PWREN : Z := u32 (Base + 0x004).
Definition DWEMMC_CLKDIV : Z := u32 (Base + 0x008).
Definition DWEMMC_CLKSRC : Z := u32 (Base + 0x00c).
Definition DWEMMC_CLKENA : Z := u32 (Base + 0x010).
Definition DWEMMC_TMOUT : Z := u32 (Base + 0x014).
Definition DWEMMC_CTYPE : Z := u32 (Base + 0x018).
Definition DWEMMC_BLKSIZ : Z := u32 (Base + 0x01c).
Definition DWEMMC_BYTCNT : Z := u32 (Base + 0x020).
Definition DWEMMC_INTMASK : Z := u32 (Base + 0x024).
Definition DWEMMC_CMDARG : Z := u32 (Base + 0x028).
Definition DWEMMC_CMD : Z := u32 (Base + 0x02c).
Definition DWEMMC_RESP0 : Z := u32 (Base + 0x030).
Definition DWEMMC_RESP1 : Z := u32 (Base + 0x034).
Definition DWEMMC_RESP2 : Z := u32 (Base + 0x038).
Definition DWEMMC_RESP3 : Z := u32 (Base + 0x03c).
Definition DWEMMC_RINTSTS : Z := u32 (Base + 0x044).
Definition DWEMMC_STATUS : Z := u32 (Base + 0x048).
Definition DWEMMC_FIFOTH : Z := u32 (Base + 0x04c).
Definition DWEMMC_HCON : Z := u32 (Base + 0x070).
Definition DWEMMC_UHSREG : Z := u32 (Base + 0x074).
Definition DWEMMC_BMOD : Z := u32 (Base + 0x080).
Definition DWEMMC_DBADDR : Z := u32 (Base + 0x088).
Definition DWEMMC_IDINTEN : Z := u32 (Base + 0x090).
Definition DWEMMC_DATA : Z := u32 (Base + 0x200).
End registers.

Definition CMD_START_BIT : Z := 2 ^ 31.

Definition BIT_CMD_RESPONSE_EXPECT : Z := 2 ^ 6.
Definition BIT_CMD_LONG_RESPONSE : Z := 2 ^ 7.
Definition BIT_CMD_CHECK_RESPONSE_CRC : Z := 2 ^ 8.
Definition BIT_CMD_DATA_EXPECTED : Z := 2 ^ 9.
Definition BIT_CMD_READ : Z := 0.
Definition BIT_CMD_WRITE : Z := 2 ^ 10.
Definition BIT_CMD_WAIT_PRVDATA_COMPLETE : Z := 2 ^ 13.
Definition BIT_CMD_STOP_ABORT_CMD : Z := 2 ^ 14.
Definition BIT_CMD_SEND_INIT : Z := 2 ^ 15.
Definition BIT_CMD_UPDATE_CLOCK_ONLY : Z := 2 ^ 21.
Definition BIT_CMD_USE_HOLD_REG : Z := 2 ^ 29.
Definition BIT_CMD_START : Z := 2 ^ 31.

Definition DWEMMC_INT_EBE : Z := 2 ^ 15.
Definition DWEMMC_INT_SBE : Z := 2 ^ 13.
Definition DWEMMC_INT_HLE : Z := 2 ^ 12.
Definition DWEMMC_INT_FRUN : Z := 2 ^ 11.
Definition DWEMMC_INT_DRT : Z := 2 ^ 9.
Definition DWEMMC_INT_RTO : Z := 2 ^ 8.
Definition DWEMMC_INT_DCRC : Z := 2 ^ 7.
Definition DWEMMC_INT_RCRC : Z := 2 ^ 6.
Definition DWEMMC_INT_DTO : Z := 2 ^ 3.
Definition DWEMMC_INT_CMD_DONE : Z := 2 ^ 2.
Definition DWEMMC_INT_RE : Z := 2 ^ 1.

Definition DWEMMC_IDMAC_DES0_DIC : Z := 2 ^ 1.
Definition DWEMMC_IDMAC_DES0_LD : Z := 2 ^ 2.
Definition DWEMMC_IDMAC_DES0_FS : Z := 2 ^ 3.
Definition DWEMMC_IDMAC_DES0_CH : Z := 2 ^ 4.
Definition DWEMMC_IDMAC_DES0_OWN : Z := 2 ^ 31.
Definition DWEMMC_IDMAC_DES1_BS1 (x : Z) : Z := Z.land x 0x1fff.
Definition DWEMMC_IDMAC_SWRESET : Z := 2 ^ 0.
Definition DWEMMC_IDMAC_FB : Z := 2 ^ 1.
Definition DWEMMC_IDMAC_ENABLE : Z := 2 ^ 7.

Definition DWEMMC_CTRL_RESET : Z := 2 ^ 0.
Definition DWEMMC_CTRL_FIFO_RESET : Z := 2 ^ 1.
Definition DWEMMC_CTRL_DMA_RESET : Z := 2 ^ 2.
Definition DWEMMC_CTRL_INT_EN : Z := 2 ^ 4.
Definition DWEMMC_CTRL_DMA_EN : Z := 2 ^ 5.
Definition DWEMMC_CTRL_IDMAC_EN : Z := 2 ^ 25.
Definition DWEMMC_CTRL_RESET_ALL : Z := Z.lor (Z.lor DWEMMC_CTRL_RESET DWEMMC_CTRL_FIFO_RESET) DWEMMC_CTRL_DMA_RESET.

Definition DWEMMC_STS_DATA_BUSY : Z := 2 ^ 9.

Definition DWEMMC_FIFO_TWMARK (x : Z) : Z := Z.land x 0xfff.
Definition DWEMMC_FIFO_RWMARK (x : Z) : Z := Z.shiftl (Z.land x 0x1ff) 16.
Definition DWEMMC_DMA_BURST_SIZE (x : Z) : Z := Z.shiftl (Z.land x 0x7) 28.
Definition DWEMMC_GET_HDATA_WIDTH (x : Z) : Z := Z.land (Z.shiftr x 7) 0x7.

Definition FIFO_RESET : Z := Z.shiftl 0x1 1.
Definition FIFO_EMPTY : Z := Z.shiftl 0x1 2.
Definition DWEMMC_BLOCK_SIZE : Z := 512.

Definition MMC_GET_FCNT (x : Z) : Z := Z.land (Z.shiftr x 17) 0x1FF.
Definition INTMSK_HTO : Z := Z.shiftl 0x1 10.

(** [ErrMask] of [SendCommand], the errors of a read, and
    [MMC_DATA_ERROR_FLAGS]. *)
Definition any_of (l : list Z) : Z := foldr Z.lor 0 l.
Definition ErrMask : Z :=
  any_of [DWEMMC_INT_EBE; DWEMMC_INT_HLE; DWEMMC_INT_RTO; DWEMMC_INT_RCRC; DWEMMC_INT_RE; DWEMMC_INT_DCRC; DWEMMC_INT_DRT; DWEMMC_INT_SBE].
Definition read_errors : Z := any_of [DWEMMC_INT_DRT; DWEMMC_INT_SBE; DWEMMC_INT_EBE; DWEMMC_INT_DCRC].
Definition MMC_DATA_ERROR_FLAGS : Z :=
  any_of [DWEMMC_INT_DRT; DWEMMC_INT_DCRC; DWEMMC_INT_FRUN; DWEMMC_INT_HLE; INTMSK_HTO; DWEMMC_INT_SBE; DWEMMC_INT_EBE].

(** A bit of the mask is set. *)
Definition has_bits (Data Mask : Z) : bool := negb (Z.land Data Mask =? 0).

(** [MMC_INDX] and [MMC_GET_INDX] of [Protocol/MmcHost.h], which is not part
    of the repository. *)
Class MmcIndices := { MMC_INDX : Z -> Z; MMC_GET_INDX : Z -> Z }.

(** ** State

    The command a data transfer is deferred with ([mMshcCommand],
    [mMshcArgument]; [mDwEmmcCommand], [mDwEmmcArgument]), the memory with the
    caller's buffers, and the bus. *)

Record dw (H : Type) := Dw { mCommand : Z; mArgument : Z; dmem : mem; dbus : H }.
Arguments Dw {H}.
Arguments mCommand {H}.
Arguments mArgument {H}.
Arguments dmem {H}.
Arguments dbus {H}.

#[export] Instance dw_mmio {H} `{MM : Mmio H} : Mmio (dw H) := {
  mmio_read32 a s := let '(v, h) := mmio_read32 a (dbus s) in (v, Dw (mCommand s) (mArgument s) (dmem s) h);
  mmio_write32 a v s := Dw (mCommand s) (mArgument s) (dmem s) (mmio_write32 a v (dbus s));
  delay_us n s := Dw (mCommand s) (mArgument s) (dmem s) (delay_us n (dbus s));
  delay_ns n s := Dw (mCommand s) (mArgument s) (dmem s) (delay_ns n (dbus s));
}.

Definition defer {H} (Cmd Argument : Z) (s : dw H) : dw H := Dw Cmd Argument (dmem s) (dbus s).
Definition store_word {H} (Buffer w : Z) (s : dw H) : dw H :=
  Dw (mCommand s) (mArgument s) (write_bytes (dmem s) Buffer (le_bytes 4 w)) (dbus s).

(** ** Operations both drivers have *)

Section shared.
Context {H : Type} `{MM : Mmio H} {BB : Build} {C : MmcCodes} (Base : Z) (patience : nat).
Abbreviation DW := (M (dw H)).

(** [do { Data = MmioRead32 (Address); } while (Data & Mask)] *)
Fixpoint wait_clear (n : nat) (Address Mask : Z) : DW unit :=
  match n with
  | O => stopM NoFuel
  | S n => Data ← MmioRead32 Address; if has_bits Data Mask then wait_clear n Address Mask else mret tt
  end.

Fixpoint clock_updated (n : nat) : DW Z :=
  match n with
  | O => stopM NoFuel
  | S n =>
      Data ← MmioRead32 (DWEMMC_CMD Base);
      if negb (has_bits Data CMD_START_BIT) then mret EFI_SUCCESS else
      Data ← MmioRead32 (DWEMMC_RINTSTS Base);
      if has_bits Data DWEMMC_INT_HLE then mret EFI_DEVICE_ERROR else clock_updated n
  end.

(** [MshcUpdateClock], [DwEmmcUpdateClock] *)
Definition UpdateClock : DW Z :=
  MmioWrite32 (DWEMMC_CMD Base) (any_of [BIT_CMD_WAIT_PRVDATA_COMPLETE; BIT_CMD_UPDATE_CLOCK_ONLY; BIT_CMD_START]);;
  clock_updated patience.

(** The first divider from [Divider] on, of [n], that is slow enough. *)
Fixpoint find_divider (n : nat) (Rate ClockFreq Divider : Z) : option Z :=
  match n with
  | O => None
  | S n => if Rate / (2 * Divider) <=? ClockFreq then Some Divider else find_divider n Rate ClockFreq (Divider + 1)
  end.

(** The part of [MshcSetClock] and [DwEmmcSetClock] that programs the divider. *)
Definition program_divider (Divider : Z) : DW Z :=
  wait_clear patience (DWEMMC_STATUS Base) DWEMMC_STS_DATA_BUSY;;
  MmioWrite32 (DWEMMC_CLKENA Base) 0;;
  Status ← UpdateClock;
  ASSERT (negb (EFI_ERROR Status));;
  MmioWrite32 (DWEMMC_CLKDIV Base) Divider;;
  Status ← UpdateClock;
  ASSERT (negb (EFI_ERROR Status));;
  MmioWrite32 (DWEMMC_CLKENA Base) 1;;
  MmioWrite32 (DWEMMC_CLKSRC Base) 0;;
  Status ← UpdateClock;
  ASSERT (negb (EFI_ERROR Status));;
  mret EFI_SUCCESS.

Definition IsPendingReadCommand (MmcCmd : Z) : bool :=
  let Mask := Z.lor BIT_CMD_DATA_EXPECTED BIT_CMD_READ in Z.land MmcCmd Mask =? Mask.

Definition IsPendingWriteCommand (MmcCmd : Z) : bool :=
  let Mask := Z.lor BIT_CMD_DATA_EXPECTED BIT_CMD_WRITE in Z.land MmcCmd Mask =? Mask.

(** [MshcReceiveResponse], [DwEmmcReceiveResponse]: the words stored. *)
Definition receive_response (Type_ Buffer : Z) : DW (Z * list Z) :=
  if Buffer =? 0 then mret (EFI_INVALID_PARAMETER, []) else
  if (Type_ =? MMC_RESPONSE_TYPE_R1) || (Type_ =? MMC_RESPONSE_TYPE_R1b) || (Type_ =? MMC_RESPONSE_TYPE_R3)
     || (Type_ =? MMC_RESPONSE_TYPE_R6) || (Type_ =? MMC_RESPONSE_TYPE_R7) then
    w0 ← MmioRead32 (DWEMMC_RESP0 Base);
    mret (EFI_SUCCESS, [w0])
  else if Type_ =? MMC_RESPONSE_TYPE_R2 then
    w0 ← MmioRead32 (DWEMMC_RESP0 Base);
    w1 ← MmioRead32 (DWEMMC_RESP1 Base);
    w2 ← MmioRead32 (DWEMMC_RESP2 Base);
    w3 ← MmioRead32 (DWEMMC_RESP3 Base);
    mret (EFI_SUCCESS, [w0; w1; w2; w3])
  else mret (EFI_SUCCESS, []).

(** [while ((MmioRead32 (CTRL) & FIFO_RESET) && TimeOut > 0) TimeOut--]: the
    value of [TimeOut] after the loop. *)
Fixpoint wait_fifo_reset (TimeOut : nat) : DW nat :=
  value ← MmioRead32 (DWEMMC_CTRL Base);
  if negb (has_bits value FIFO_RESET) then mret TimeOut else
  match TimeOut with O => mret O | S TimeOut => wait_fifo_reset TimeOut end.

(** The FIFO is emptied before a data command; whether that worked. *)
Definition reset_fifo : DW bool :=
  c ← gets mCommand;
  if has_bits c BIT_CMD_STOP_ABORT_CMD || has_bits c BIT_CMD_DATA_EXPECTED then
    Data ← MmioRead32 (DWEMMC_STATUS Base);
    if has_bits Data FIFO_EMPTY then mret true else
    Data ← MmioRead32 (DWEMMC_CTRL Base);
    MmioWrite32 (DWEMMC_CTRL Base) (Z.lor Data FIFO_RESET);;
    TimeOut ← wait_fifo_reset (Z.to_nat 100000);
    mret (negb (TimeOut =? 0)%nat)
  else mret true.

(** A data command waits for the previous transfer. *)
Definition wait_previous : DW unit :=
  c ← gets mCommand;
  if has_bits c BIT_CMD_WAIT_PRVDATA_COMPLETE then wait_clear patience (DWEMMC_STATUS Base) DWEMMC_STS_DATA_BUSY else mret tt.

(** [while (!(MmioRead32 (STATUS) & FIFO_EMPTY) && DataLen)]: words are stored
    at [Buffer] until the FIFO or [DataLen] is empty; what is left of both. *)
Fixpoint drain_fifo (DataLen : nat) (Buffer : Z) : DW (nat * Z) :=
  Data ← MmioRead32 (DWEMMC_STATUS Base);
  match DataLen with
  | O => mret (O, Buffer)
  | S n =>
      if has_bits Data FIFO_EMPTY then mret (DataLen, Buffer) else
      w ← MmioRead32 (DWEMMC_DATA Base);
      modify (store_word Buffer w);;
      drain_fifo n (Buffer + 4)
  end.

(** The loop of [MshcReadBlockData] and [DwEmmcReadBlockData].  [fuel] bounds
    the rounds that move words, [TimeOut] those that do not; the debug output
    of an error reads the status once more. *)
Fixpoint read_rounds (fuel : nat) : nat -> nat -> Z -> DW Z :=
  fix attempt (TimeOut DataLen : nat) (Buffer : Z) : DW Z :=
    if (DataLen =? 0)%nat then mret EFI_SUCCESS else
    Data ← MmioRead32 (DWEMMC_RINTSTS Base);
    if has_bits Data read_errors then
      (if debug_build then MmioRead32 (DWEMMC_RINTSTS Base) else mret 0);;
      mret EFI_DEVICE_ERROR
    else
    r ← drain_fifo DataLen Buffer;
    if (r.1 =? 0)%nat then
      Data ← MmioRead32 (DWEMMC_RINTSTS Base);
      mret (if has_bits Data read_errors then EFI_DEVICE_ERROR else EFI_SUCCESS)
    else
    NanoSecondDelay 1;;
    if (r.1 =? DataLen)%nat then
      match TimeOut with
      | O | S O => mret EFI_DEVICE_ERROR
      | S TimeOut => attempt TimeOut DataLen Buffer
      end
    else
      match fuel with
      | O => stopM NoFuel
      | S fuel => read_rounds fuel (Z.to_nat 999999) r.1 r.2
      end.

(** A deferred command with the words it reads.  [Send] is the driver's
    [SendCommand], [BlkSize] what it writes to [BLKSIZ]. *)
Definition read_block_data (Send : Z -> Z -> DW Z) (BlkSize Length Buffer : Z) : DW Z :=
  wait_previous;;
  ok ← reset_fifo;
  if negb ok then mret EFI_DEVICE_ERROR else
  MmioWrite32 (DWEMMC_BLKSIZ Base) BlkSize;;
  MmioWrite32 (DWEMMC_BYTCNT Base) Length;;
  c ← gets mCommand;
  a ← gets mArgument;
  Status ← Send c a;
  if EFI_ERROR Status then mret EFI_DEVICE_ERROR else
  let DataLen := Z.to_nat (u32 (Z.shiftr Length 2)) in
  read_rounds DataLen (Z.to_nat 1000000) DataLen Buffer.

(** [while (MMC_GET_FCNT (MmioRead32 (STATUS)) > 32) MicroSecondDelay (1)] *)
Fixpoint wait_fifo_room (n : nat) : DW unit :=
  match n with
  | O => stopM NoFuel
  | S n =>
      Data ← MmioRead32 (DWEMMC_STATUS Base);
      if 32 <? MMC_GET_FCNT Data then MicroSecondDelay 1;; wait_fifo_room n else mret tt
  end.

Fixpoint write_words (n : nat) (Buffer : Z) : DW unit :=
  match n with
  | O => mret tt
  | S n =>
      wait_fifo_room patience;;
      w ← gets (fun s => load 4 (dmem s) Buffer);
      MmioWrite32 (DWEMMC_DATA Base) w;;
      write_words n (Buffer + 4)
  end.

Fixpoint wait_written (n : nat) : DW Z :=
  match n with
  | O => stopM NoFuel
  | S n =>
      Mask ← MmioRead32 (DWEMMC_RINTSTS Base);
      if has_bits Mask MMC_DATA_ERROR_FLAGS then mret EFI_DEVICE_ERROR else
      if has_bits Mask DWEMMC_INT_DTO then mret EFI_SUCCESS else wait_written n
  end.

Definition write_block_data (Send : Z -> Z -> DW Z) (Length Buffer : Z) : DW Z :=
  wait_previous;;
  c ← gets mCommand;
  ok ← (if (Z.land c 0x3f =? 6) || (Z.land c 0x3f =? 51) then mret true else reset_fifo);
  if negb ok then mret EFI_DEVICE_ERROR else
  MmioWrite32 (DWEMMC_BLKSIZ Base) 512;;
  MmioWrite32 (DWEMMC_BYTCNT Base) Length;;
  a ← gets mArgument;
  Status ← Send c a;
  if EFI_ERROR Status then mret EFI_DEVICE_ERROR else
  write_words (Z.to_nat (Length / 4)) Buffer;;
  wait_written patience.

(** The timing and the width of the bus; [SetClock] is the driver's. *)
Definition set_ios (SetClock : Z -> DW Z) (BusClockFreq BusWidth TimingMode : Z) : DW Z :=
  timing ←
    (if TimingMode =? EMMCBACKWARD then mret true else
     Data ← MmioRead32 (DWEMMC_UHSREG Base);
     if (TimingMode =? EMMCHS52DDR1V2) || (TimingMode =? EMMCHS52DDR1V8) then
       MmioWrite32 (DWEMMC_UHSREG Base) (Z.lor Data (Z.shiftl 1 16));; mret true
     else if (TimingMode =? EMMCHS52) || (TimingMode =? EMMCHS26) then
       MmioWrite32 (DWEMMC_UHSREG Base) (Z.land Data (u32 (Z.lnot (Z.shiftl 1 16))));; mret true
     else mret false);
  if negb timing then mret EFI_UNSUPPORTED else
  width ←
    (if BusWidth =? 1 then MmioWrite32 (DWEMMC_CTYPE Base) 0;; mret true
     else if BusWidth =? 4 then MmioWrite32 (DWEMMC_CTYPE Base) 1;; mret true
     else if BusWidth =? 8 then MmioWrite32 (DWEMMC_CTYPE Base) (Z.shiftl 1 16);; mret true
     else mret false);
  if negb width then mret EFI_UNSUPPORTED else
  if negb (BusClockFreq =? 0) then SetClock BusClockFreq else mret EFI_SUCCESS.

(** The start of a card in the hardware initialisation state; [SetType] is the
    write to [CTYPE] of one of the drivers. *)
Definition hw_initialization (SetClock : Z -> DW Z) (SetType : DW unit) : DW Z :=
  MmioWrite32 (DWEMMC_PWREN Base) 1;;
  MmioWrite32 (DWEMMC_CTRL Base) DWEMMC_CTRL_RESET_ALL;;
  wait_clear patience (DWEMMC_CTRL Base) DWEMMC_CTRL_RESET_ALL;;
  Status ← SetClock 400000;
  ASSERT (negb (EFI_ERROR Status));;
  MicroSecondDelay 100;;
  MmioWrite32 (DWEMMC_RINTSTS Base) (u32 (Z.lnot 0));;
  MmioWrite32 (DWEMMC_INTMASK Base) 0;;
  MmioWrite32 (DWEMMC_TMOUT Base) (u32 (Z.lnot 0));;
  MmioWrite32 (DWEMMC_IDINTEN Base) 0;;
  SetType;;
  MmioWrite32 (DWEMMC_BMOD Base) DWEMMC_IDMAC_SWRESET;;
  MmioWrite32 (DWEMMC_BLKSIZ Base) DWEMMC_BLOCK_SIZE;;
  wait_clear patience (DWEMMC_BMOD Base) DWEMMC_IDMAC_SWRESET;;
  mret EFI_SUCCESS.
End shared.
