(* ===== verification/Mshc.v ===== *)
(** * The SD host of the RK356x

    Model of [src/Silicon/Rockchip/Rk356xPkg/Drivers/MshcDxe/MshcDxe.c]: the
    services of the host protocol over a DesignWare controller, and the start
    of the driver. *)

From Stdlib Require Import ZArith Lia String.
From stdpp Require Import base list numbers option.
From S2P Require Import Prelude Memory Mmio Cru Mmc Gpio DwMmc.

Class MshcPcds := {
  PcdMshcDxeBaseAddress : Z;
  PcdMshcDxeMaxClockFreqInHz : Z;
  PcdMshcDxeFifoDepth : Z;
  PcdMshcDxePwrEnUsed : bool;
  PcdMshcDxePwrEnInverted : bool
}.

Definition mSdmmc0IomuxConfig : list GPIO_IOMUX_CONFIG := [
  Iomux "sdmmc0_d0"  1 GPIO_PIN_PD5 1 GPIO_PIN_PULL_UP   GPIO_PIN_DRIVE_2;
  Iomux "sdmmc0_d1"  1 GPIO_PIN_PD6 1 GPIO_PIN_PULL_UP   GPIO_PIN_DRIVE_2;
  Iomux "sdmmc0_d2"  1 GPIO_PIN_PD7 1 GPIO_PIN_PULL_UP   GPIO_PIN_DRIVE_2;
  Iomux "sdmmc0_d3"  2 GPIO_PIN_PA0 1 GPIO_PIN_PULL_UP   GPIO_PIN_DRIVE_2;
  Iomux "sdmmc0_cmd" 2 GPIO_PIN_PA1 1 GPIO_PIN_PULL_UP   GPIO_PIN_DRIVE_2;
  Iomux "sdmmc0_clk" 2 GPIO_PIN_PA2 1 GPIO_PIN_PULL_UP   GPIO_PIN_DRIVE_2;
  Iomux "sdmmc0_det" 0 GPIO_PIN_PA4 1 GPIO_PIN_PULL_NONE GPIO_PIN_DRIVE_DEFAULT].
Definition mSdmmc0IomuxPwrEnDefaultConfig : list GPIO_IOMUX_CONFIG :=
  [Iomux "sdmmc0_pwren" 0 GPIO_PIN_PA5 1 GPIO_PIN_PULL_NONE GPIO_PIN_DRIVE_DEFAULT].
Definition mSdmmc0IomuxPwrEnInvertedConfig : list GPIO_IOMUX_CONFIG :=
  [Iomux "sdmmc0_pwren" 0 GPIO_PIN_PA5 0 GPIO_PIN_PULL_NONE GPIO_PIN_DRIVE_DEFAULT].

(** The flags of a command, by its index. *)
Definition MshcCommandFlags `{MmcIndices} (MmcCmd Argument : Z) : Z :=
  let Indx := MMC_GET_INDX MmcCmd in
  if Indx =? MMC_INDX 0 then BIT_CMD_SEND_INIT
  else if Indx =? MMC_INDX 1 then BIT_CMD_RESPONSE_EXPECT
  else if Indx =? MMC_INDX 2 then
    any_of [BIT_CMD_RESPONSE_EXPECT; BIT_CMD_LONG_RESPONSE; BIT_CMD_CHECK_RESPONSE_CRC; BIT_CMD_SEND_INIT]
  else if Indx =? MMC_INDX 3 then any_of [BIT_CMD_RESPONSE_EXPECT; BIT_CMD_CHECK_RESPONSE_CRC; BIT_CMD_SEND_INIT]
  else if Indx =? MMC_INDX 6 then
    if (Z.land (Z.shiftr Argument 31) 0x1 =? 0x1) || (Argument =? 0x00FFFFF0) then
      any_of [BIT_CMD_RESPONSE_EXPECT; BIT_CMD_CHECK_RESPONSE_CRC; BIT_CMD_DATA_EXPECTED; BIT_CMD_READ; BIT_CMD_WAIT_PRVDATA_COMPLETE]
    else any_of [BIT_CMD_RESPONSE_EXPECT; BIT_CMD_CHECK_RESPONSE_CRC]
  else if Indx =? MMC_INDX 7 then
    if negb (Argument =? 0) then any_of [BIT_CMD_RESPONSE_EXPECT; BIT_CMD_CHECK_RESPONSE_CRC] else 0
  else if Indx =? MMC_INDX 8 then any_of [BIT_CMD_RESPONSE_EXPECT; BIT_CMD_CHECK_RESPONSE_CRC; BIT_CMD_WAIT_PRVDATA_COMPLETE]
  else if Indx =? MMC_INDX 9 then any_of [BIT_CMD_RESPONSE_EXPECT; BIT_CMD_CHECK_RESPONSE_CRC; BIT_CMD_LONG_RESPONSE]
  else if Indx =? MMC_INDX 12 then any_of [BIT_CMD_RESPONSE_EXPECT; BIT_CMD_CHECK_RESPONSE_CRC; BIT_CMD_STOP_ABORT_CMD]
  else if Indx =? MMC_INDX 13 then any_of [BIT_CMD_RESPONSE_EXPECT; BIT_CMD_CHECK_RESPONSE_CRC; BIT_CMD_WAIT_PRVDATA_COMPLETE]
  else if Indx =? MMC_INDX 16 then any_of [BIT_CMD_RESPONSE_EXPECT; BIT_CMD_CHECK_RESPONSE_CRC]
  else if (Indx =? MMC_INDX 17) || (Indx =? MMC_INDX 18) then
    any_of [BIT_CMD_RESPONSE_EXPECT; BIT_CMD_CHECK_RESPONSE_CRC; BIT_CMD_DATA_EXPECTED; BIT_CMD_READ; BIT_CMD_WAIT_PRVDATA_COMPLETE]
  else if (Indx =? MMC_INDX 24) || (Indx =? MMC_INDX 25) then
    any_of [BIT_CMD_RESPONSE_EXPECT; BIT_CMD_CHECK_RESPONSE_CRC; BIT_CMD_DATA_EXPECTED; BIT_CMD_WRITE; BIT_CMD_WAIT_PRVDATA_COMPLETE]
  else if Indx =? MMC_INDX 30 then any_of [BIT_CMD_RESPONSE_EXPECT; BIT_CMD_CHECK_RESPONSE_CRC; BIT_CMD_DATA_EXPECTED]
  else if Indx =? MMC_INDX 41 then BIT_CMD_RESPONSE_EXPECT
  else if Indx =? MMC_INDX 51 then
    any_of [BIT_CMD_RESPONSE_EXPECT; BIT_CMD_CHECK_RESPONSE_CRC; BIT_CMD_DATA_EXPECTED; BIT_CMD_READ; BIT_CMD_WAIT_PRVDATA_COMPLETE]
  else any_of [BIT_CMD_RESPONSE_EXPECT; BIT_CMD_CHECK_RESPONSE_CRC].

Section Mshc.
Context {H : Type} `{MM : Mmio H} {BB : Build} {C : MmcCodes} {IX : MmcIndices} {P : MshcPcds} (patience : nat).
Abbreviation DW := (M (dw H)).
Abbreviation Base := PcdMshcDxeBaseAddress.

Definition MshcIsPowerOn : DW bool := mret true.
Definition MshcInitialize : DW Z := mret EFI_SUCCESS.
Definition MshcIsCardPresent : DW bool := mret true.
Definition MshcIsReadOnly : DW bool := mret false.
Definition MshcIsDmaSupported : DW bool := mret true.
Definition MshcIsMultiBlock : DW bool := mret true.

(** The first and last address of the device path's node. *)
Definition MshcBuildDevicePath : DW (Z * (Z * Z)) := mret (EFI_SUCCESS, (Base, u64 (Base + 0x1000 - 1))).

Definition MshcUpdateClock : DW Z := UpdateClock Base patience.

Definition MshcDivider (Rate ClockFreq : Z) : option Z :=
  if Rate =? ClockFreq then Some 0 else find_divider 255 Rate ClockFreq 1.

Definition MshcSetClock (ClockFreq : Z) : DW Z :=
  Rate ← CruGetSdmmcClockRate 0;
  match MshcDivider (u32 Rate) ClockFreq with
  | None => mret EFI_NOT_FOUND
  | Some Divider => program_divider Base patience Divider
  end.

Definition MshcNotifyState (State : MMC_STATE) : DW Z :=
  match State with
  | MmcInvalidState => mret EFI_INVALID_PARAMETER
  | MmcHwInitializationState => hw_initialization Base patience MshcSetClock (MmioWrite32 (DWEMMC_CTYPE Base) 0)
  | _ => mret EFI_SUCCESS
  end.

(** The wait for the end of a command: errors are remembered, the end is
    awaited nevertheless. *)
Fixpoint command_done (n : nat) (Status : Z) : DW Z :=
  match n with
  | O => stopM NoFuel
  | S n =>
      MicroSecondDelay 1;;
      Data ← MmioRead32 (DWEMMC_RINTSTS Base);
      let Status := if (Status =? EFI_SUCCESS) && has_bits Data ErrMask then EFI_DEVICE_ERROR else Status in
      if has_bits Data DWEMMC_INT_DTO then mret Status else
      if has_bits Data DWEMMC_INT_CMD_DONE then mret Status else command_done n Status
  end.

Definition SendCommand (MmcCmd Argument : Z) : DW Z :=
  wait_clear patience (DWEMMC_STATUS Base) DWEMMC_STS_DATA_BUSY;;
  MmioWrite32 (DWEMMC_RINTSTS Base) (u32 (Z.lnot 0));;
  MmioWrite32 (DWEMMC_CMDARG Base) Argument;;
  MmioWrite32 (DWEMMC_CMD Base) MmcCmd;;
  command_done patience EFI_SUCCESS.

Definition MshcSendCommand (MmcCmd Argument : Z) : DW Z :=
  let Cmd := Z.lor (MshcCommandFlags MmcCmd Argument) (any_of [MMC_GET_INDX MmcCmd; BIT_CMD_USE_HOLD_REG; BIT_CMD_START]) in
  if IsPendingReadCommand Cmd || IsPendingWriteCommand Cmd then modify (defer Cmd Argument);; mret EFI_SUCCESS
  else SendCommand Cmd Argument.

Definition MshcReceiveResponse (Type_ Buffer : Z) : DW (Z * list Z) := receive_response Base Type_ Buffer.

(** [BurstSize] *)
Definition BurstSize : list Z := [1; 4; 8; 16; 32; 64; 128; 256].

(** [while (Idx && (BlkDepthInFifo % BurstSize[Idx] || TxWatermarkInvers % BurstSize[Idx])) Idx--] *)
Fixpoint find_burst (Idx : nat) (BlkDepthInFifo TxWatermarkInvers : Z) : nat :=
  match Idx with
  | O => O
  | S n =>
      let b := nth Idx BurstSize 1 in
      if negb (BlkDepthInFifo mod b =? 0) || negb (TxWatermarkInvers mod b =? 0)
      then find_burst n BlkDepthInFifo TxWatermarkInvers else Idx
  end.

(** The bytes of a word of the FIFO. *)
Definition fifo_width (hcon : Z) : Z :=
  let w := DWEMMC_GET_HDATA_WIDTH hcon in if w =? 0 then 2 else if w =? 2 then 8 else 4.

Definition MshcAdjustFifoThreshold : DW unit :=
  let FifoDepth := PcdMshcDxeFifoDepth in
  if FifoDepth =? 0 then mret tt else
  let TxWatermark := FifoDepth / 2 in
  let TxWatermarkInvers := u32 (FifoDepth - TxWatermark) in
  hcon ← MmioRead32 (DWEMMC_HCON Base);
  let BlkDepthInFifo := DWEMMC_BLOCK_SIZE / fifo_width hcon in
  let Idx := find_burst 7 BlkDepthInFifo TxWatermarkInvers in
  let RxWatermark := nth Idx BurstSize 1 - 1 in
  MmioWrite32 (DWEMMC_FIFOTH Base)
    (Z.lor (Z.lor (DWEMMC_DMA_BURST_SIZE (Z.of_nat Idx)) (DWEMMC_FIFO_TWMARK TxWatermark)) (DWEMMC_FIFO_RWMARK RxWatermark)).

Definition MshcReadBlockData (Lba Length Buffer : Z) : DW Z :=
  c ← gets mCommand;
  ASSERT (Z.land c BIT_CMD_WRITE =? BIT_CMD_READ);;
  read_block_data Base patience SendCommand (if Length <? 512 then Length else 512) Length Buffer.

Definition MshcWriteBlockData (Lba Length Buffer : Z) : DW Z :=
  c ← gets mCommand;
  ASSERT (Z.land c BIT_CMD_WRITE =? BIT_CMD_WRITE);;
  write_block_data Base patience SendCommand Length Buffer.

Definition MshcSetIos (BusClockFreq BusWidth TimingMode : Z) : DW Z :=
  if negb (PcdMshcDxeMaxClockFreqInHz =? 0) && (PcdMshcDxeMaxClockFreqInHz <? BusClockFreq) then mret EFI_UNSUPPORTED else
  set_ios Base MshcSetClock BusClockFreq BusWidth TimingMode.

(** [publish] installs the protocol; [uninit] is the local that
    [CruSetSdmmcClockRate] may leave unset. *)
Definition MshcDxeInitialize (uninit : Z) (publish : DW Z) : DW Z :=
  CruSetSdmmcClockRate uninit 0 100000000;;
  CruAssertSoftReset 13 4;;
  MicroSecondDelay 5;;
  CruDeassertSoftReset 13 4;;
  GpioSetIomuxConfig mSdmmc0IomuxConfig;;
  (if PcdMshcDxePwrEnUsed then
     if negb PcdMshcDxePwrEnInverted then GpioSetIomuxConfig mSdmmc0IomuxPwrEnDefaultConfig
     else
       GpioSetIomuxConfig mSdmmc0IomuxPwrEnInvertedConfig;;
       GpioPinSetDirection 0 GPIO_PIN_PA5 GPIO_PIN_OUTPUT;;
       GpioPinWrite 0 GPIO_PIN_PA5 false
   else mret tt);;
  MshcAdjustFifoThreshold;;
  Status ← publish;
  ASSERT (negb (EFI_ERROR Status));;
  mret EFI_SUCCESS.
End Mshc.
