(* ===== verification/DwEmmc.v ===== *)
(** * The SD host of the RK3399

    Model of [src/Silicon/Rockchip/Rk3399Pkg/Drivers/DwEmmcDxe/DwEmmcDxe.c],
    an older form of the driver of Mshc.v: commands are sent after a long
    delay and given up at the first error, the divider is searched from half
    the configured clock, and the clock and pins are set by the driver. *)

From Stdlib Require Import ZArith Lia.
From stdpp Require Import base list numbers option.
From S2P Require Import Prelude Memory Mmio Rk3399Cru Mmc DwMmc.

Class DwEmmcPcds := {
  PcdDwEmmcDxeBaseAddress : Z;
  PcdDwEmmcDxeClockFrequencyInHz : Z
}.

(** ** Registers of the chip *)

Definition RK3399_PMU_GRF_BASE : Z := 0xFF320000.
Definition RK3399_GRF_BASE : Z := 0xFF770000.
Definition CRU_CLKSEL_CON : Z := 0x100.
Definition CRU_CLKGATE_CON : Z := 0x300.
Definition CRU_SOFTRST_CON : Z := 0x400.
Definition CRU_CLKSELS_CON (i : Z) : Z := CRU_CLKSEL_CON + i * 4.
Definition CRU_CLKGATES_CON (i : Z) : Z := CRU_CLKGATE_CON + i * 4.
Definition CRU_SOFTRSTS_CON (i : Z) : Z := CRU_SOFTRST_CON + i * 4.
Definition GRF_GPIO4B_IOMUX : Z := 0xe024.
Definition PMU_GRF_GPIO0A_IOMUX : Z := 0x0000.
Definition PMU_GRF_GPIO0B_IOMUX : Z := 0x0004.

Definition DWEMMC_DMA_BUF_SIZE : Z := 512 * 8.

(** The flags of a command, by its index. *)
Definition DwEmmcCommandFlags `{MmcIndices} (MmcCmd Argument : Z) : Z :=
  let Indx := MMC_GET_INDX MmcCmd in
  if Indx =? MMC_INDX 0 then BIT_CMD_SEND_INIT
  else if Indx =? MMC_INDX 1 then BIT_CMD_RESPONSE_EXPECT
  else if Indx =? MMC_INDX 2 then
    any_of [BIT_CMD_RESPONSE_EXPECT; BIT_CMD_LONG_RESPONSE; BIT_CMD_CHECK_RESPONSE_CRC; BIT_CMD_SEND_INIT]
  else if Indx =? MMC_INDX 3 then any_of [BIT_CMD_RESPONSE_EXPECT; BIT_CMD_CHECK_RESPONSE_CRC; BIT_CMD_SEND_INIT]
  else if Indx =? MMC_INDX 6 then
    if Z.land (Z.shiftr Argument 31) 0x1 =? 0x1 then
      any_of [BIT_CMD_RESPONSE_EXPECT; BIT_CMD_CHECK_RESPONSE_CRC; BIT_CMD_DATA_EXPECTED; BIT_CMD_READ; BIT_CMD_WAIT_PRVDATA_COMPLETE]
    else any_of [BIT_CMD_RESPONSE_EXPECT; BIT_CMD_CHECK_RESPONSE_CRC]
  else if Indx =? MMC_INDX 7 then
    if negb (Argument =? 0) then any_of [BIT_CMD_RESPONSE_EXPECT; BIT_CMD_CHECK_RESPONSE_CRC] else 0
  else if Indx =? MMC_INDX 8 then any_of [BIT_CMD_RESPONSE_EXPECT; BIT_CMD_CHECK_RESPONSE_CRC; BIT_CMD_WAIT_PRVDATA_COMPLETE]
  else if Indx =? MMC_INDX 9 then any_of [BIT_CMD_RESPONSE_EXPECT; BIT_CMD_CHECK_RESPONSE_CRC; BIT_CMD_LONG_RESPONSE]
  else if Indx =? MMC_INDX 12 then any_of [BIT_CMD_RESPONSE_EXPECT; BIT_CMD_CHECK_RESPONSE_CRC; BIT_CMD_STOP_ABORT_CMD]
  else if Indx =? MMC_INDX 13 then any_of [BIT_CMD_RESPONSE_EXPECT; BIT_CMD_CHECK_RESPONSE_CRC; BIT_CMD_WAIT_PRVDATA_COMPLETE]
  else if Indx =? MMC_INDX 16 then any_of [BIT_CMD_RESPONSE_EXPECT; BIT_CMD_CHECK_RESPONSE_CRC]
  else if (Indx =? MMC_INDX 17) || (Indx =? MMC_INDX 18) then
    any_of [BIT_CMD_RESPONSE_EXPECT; BIT_CMD_CHECK_RESPONSE_CRC; BIT_CMD_DATA_EXPECTED; BIT_CMD_READ; BIT_CMD_WAIT_PRVDATA_COMPLETE]
  else if (Indx =? MMC_INDX 24) || (Indx =? MMC_INDX 25) then
    any_of [BIT_CMD_RESPONSE_EXPECT; BIT_CMD_CHECK_RESPONSE_CRC; BIT_CMD_DATA_EXPECTED; BIT_CMD_WRITE; BIT_CMD_WAIT_PRVDATA_COMPLETE]
  else if Indx =? MMC_INDX 30 then any_of [BIT_CMD_RESPONSE_EXPECT; BIT_CMD_CHECK_RESPONSE_CRC; BIT_CMD_DATA_EXPECTED]
  else if Indx =? MMC_INDX 41 then BIT_CMD_RESPONSE_EXPECT
  else if Indx =? MMC_INDX 51 then
    any_of [BIT_CMD_RESPONSE_EXPECT; BIT_CMD_CHECK_RESPONSE_CRC; BIT_CMD_DATA_EXPECTED; BIT_CMD_READ; BIT_CMD_WAIT_PRVDATA_COMPLETE]
  else any_of [BIT_CMD_RESPONSE_EXPECT; BIT_CMD_CHECK_RESPONSE_CRC].

Section DwEmmc.
Context {H : Type} `{MM : Mmio H} {BB : Build} {C : MmcCodes} {IX : MmcIndices} {P : DwEmmcPcds} (patience : nat).
Abbreviation DW := (M (dw H)).
Abbreviation Base := PcdDwEmmcDxeBaseAddress.

Definition DwEmmcIsPowerOn : DW bool := mret true.
Definition DwEmmcInitialize : DW Z := mret EFI_SUCCESS.
Definition DwEmmcIsCardPresent : DW bool := mret true.
Definition DwEmmcIsReadOnly : DW bool := mret false.
Definition DwEmmcIsDmaSupported : DW bool := mret true.
Definition DwEmmcIsMultiBlock : DW bool := mret true.

Definition DwEmmcUpdateClock : DW Z := UpdateClock Base patience.

Definition DwEmmcDivider (ClockFreq : Z) : option Z := find_divider 255 (PcdDwEmmcDxeClockFrequencyInHz / 2) ClockFreq 1.

Definition DwEmmcSetClock (ClockFreq : Z) : DW Z :=
  match DwEmmcDivider ClockFreq with
  | None => mret EFI_NOT_FOUND
  | Some Divider => program_divider Base patience Divider
  end.

Definition DwEmmcNotifyState (State : MMC_STATE) : DW Z :=
  match State with
  | MmcInvalidState => mret EFI_INVALID_PARAMETER
  | MmcHwInitializationState => hw_initialization Base patience DwEmmcSetClock (mret tt)
  | _ => mret EFI_SUCCESS
  end.

(** The wait for the end of a command, up to the first error. *)
Fixpoint command_done (n : nat) : DW Z :=
  match n with
  | O => stopM NoFuel
  | S n =>
      MicroSecondDelay 500;;
      Data ← MmioRead32 (DWEMMC_RINTSTS Base);
      if has_bits Data ErrMask then mret EFI_DEVICE_ERROR else
      if has_bits Data DWEMMC_INT_DTO then mret EFI_SUCCESS else
      if has_bits Data DWEMMC_INT_CMD_DONE then mret EFI_SUCCESS else command_done n
  end.

Definition SendCommand (MmcCmd Argument : Z) : DW Z :=
  MicroSecondDelay 15000;;
  wait_clear patience (DWEMMC_STATUS Base) DWEMMC_STS_DATA_BUSY;;
  MmioWrite32 (DWEMMC_RINTSTS Base) (u32 (Z.lnot 0));;
  MmioWrite32 (DWEMMC_CMDARG Base) Argument;;
  MmioWrite32 (DWEMMC_CMD Base) MmcCmd;;
  command_done patience.

Definition DwEmmcSendCommand (MmcCmd Argument : Z) : DW Z :=
  let Cmd := Z.lor (DwEmmcCommandFlags MmcCmd Argument) (any_of [MMC_GET_INDX MmcCmd; BIT_CMD_USE_HOLD_REG; BIT_CMD_START]) in
  if IsPendingReadCommand Cmd || IsPendingWriteCommand Cmd then modify (defer Cmd Argument);; mret EFI_SUCCESS
  else SendCommand Cmd Argument.

Definition DwEmmcReceiveResponse (Type_ Buffer : Z) : DW (Z * list Z) := receive_response Base Type_ Buffer.

(** ** DMA descriptors: not used by the transfers *)

Definition store32 (a v : Z) : DW unit := modify (store_word a (u32 v)).
Definition load32 (a : Z) : DW Z := gets (fun s => load 4 (dmem s) a).

(** The descriptor at an index, of 16 bytes. *)
Definition desc (IdmacDesc Idx : Z) : Z := u64 (IdmacDesc + 16 * Idx).

Fixpoint dma_descriptors (n : nat) (IdmacDesc Buffer Idx : Z) : DW unit :=
  match n with
  | O => mret tt
  | S n =>
      store32 (desc IdmacDesc Idx) (any_of [DWEMMC_IDMAC_DES0_OWN; DWEMMC_IDMAC_DES0_CH; DWEMMC_IDMAC_DES0_DIC]);;
      store32 (desc IdmacDesc Idx + 4) (DWEMMC_IDMAC_DES1_BS1 DWEMMC_DMA_BUF_SIZE);;
      store32 (desc IdmacDesc Idx + 8) (Buffer + DWEMMC_DMA_BUF_SIZE * Idx);;
      store32 (desc IdmacDesc Idx + 12) (IdmacDesc + 16 * (Idx + 1));;
      dma_descriptors n IdmacDesc Buffer (Idx + 1)
  end.

Definition PrepareDmaData (IdmacDesc Length Buffer : Z) : DW Z :=
  let Cnt := u64 (Length + DWEMMC_DMA_BUF_SIZE - 1) / DWEMMC_DMA_BUF_SIZE in
  let Blks := u64 (Length + DWEMMC_BLOCK_SIZE - 1) / DWEMMC_BLOCK_SIZE in
  let Length := u64 (DWEMMC_BLOCK_SIZE * Blks) in
  dma_descriptors (Z.to_nat Cnt) IdmacDesc Buffer 0;;
  d0 ← load32 (desc IdmacDesc 0);
  store32 (desc IdmacDesc 0) (Z.lor d0 DWEMMC_IDMAC_DES0_FS);;
  let LastIdx := u64 (Cnt - 1) in
  d ← load32 (desc IdmacDesc LastIdx);
  store32 (desc IdmacDesc LastIdx) (Z.lor d DWEMMC_IDMAC_DES0_LD);;
  d ← load32 (desc IdmacDesc LastIdx);
  store32 (desc IdmacDesc LastIdx) (Z.land d (Z.lnot (Z.lor DWEMMC_IDMAC_DES0_DIC DWEMMC_IDMAC_DES0_CH)));;
  store32 (desc IdmacDesc LastIdx + 4) (DWEMMC_IDMAC_DES1_BS1 (Length - LastIdx * DWEMMC_DMA_BUF_SIZE));;
  store32 (desc IdmacDesc LastIdx + 12) 0;;
  MmioWrite32 (DWEMMC_DBADDR Base) IdmacDesc;;
  mret EFI_SUCCESS.

Definition StartDma (Length : Z) : DW unit :=
  Data ← MmioRead32 (DWEMMC_CTRL Base);
  MmioWrite32 (DWEMMC_CTRL Base) (Z.lor Data (any_of [DWEMMC_CTRL_INT_EN; DWEMMC_CTRL_DMA_EN; DWEMMC_CTRL_IDMAC_EN]));;
  Data ← MmioRead32 (DWEMMC_BMOD Base);
  MmioWrite32 (DWEMMC_BMOD Base) (Z.lor Data (any_of [DWEMMC_IDMAC_ENABLE; DWEMMC_IDMAC_FB]));;
  MmioWrite32 (DWEMMC_BLKSIZ Base) DWEMMC_BLOCK_SIZE;;
  MmioWrite32 (DWEMMC_BYTCNT Base) Length.

(** ** Transfers and settings *)

Definition DwEmmcReadBlockData (Lba Length Buffer : Z) : DW Z := read_block_data Base patience SendCommand 512 Length Buffer.

Definition DwEmmcWriteBlockData (Lba Length Buffer : Z) : DW Z := write_block_data Base patience SendCommand Length Buffer.

Definition DwEmmcSetIos (BusClockFreq BusWidth TimingMode : Z) : DW Z := set_ios Base DwEmmcSetClock BusClockFreq BusWidth TimingMode.

(** A write with its enables: [(mask << (shift + 16)) | (val << shift)]. *)
Definition field_write (Address mask val shift : Z) : DW unit :=
  MmioWrite32 Address (Z.lor (Z.shiftl mask (shift + 16)) (Z.shiftl val shift)).

Definition DwEmmcIomux : DW Z :=
  field_write (RK3399_CRU_BASE + CRU_SOFTRSTS_CON 7) 0x1 1 10;;
  MicroSecondDelay 5;;
  field_write (RK3399_CRU_BASE + CRU_SOFTRSTS_CON 7) 0x1 0 10;;
  PllRate ← rk3399_pll_get_rate PLL_GPLL;
  (if PllRate =? 800000000 then
     field_write (RK3399_CRU_BASE + CRU_CLKSELS_CON 16) 0x7 0x1 8;;
     field_write (RK3399_CRU_BASE + CRU_CLKSELS_CON 16) 0x7f 0x7 0;;
     field_write (RK3399_CRU_BASE + CRU_CLKGATES_CON 6) 0x1 0 1
   else mret tt);;
  field_write (RK3399_GRF_BASE + GRF_GPIO4B_IOMUX) 0x3 0x1 8;;
  field_write (RK3399_GRF_BASE + GRF_GPIO4B_IOMUX) 0x3 0x1 10;;
  field_write (RK3399_GRF_BASE + GRF_GPIO4B_IOMUX) 0x3 0x1 0;;
  field_write (RK3399_GRF_BASE + GRF_GPIO4B_IOMUX) 0x3 0x1 2;;
  field_write (RK3399_GRF_BASE + GRF_GPIO4B_IOMUX) 0x3 0x1 4;;
  field_write (RK3399_GRF_BASE + GRF_GPIO4B_IOMUX) 0x3 0x1 6;;
  field_write (RK3399_PMU_GRF_BASE + PMU_GRF_GPIO0A_IOMUX) 0x3 0x1 14;;
  field_write (RK3399_PMU_GRF_BASE + PMU_GRF_GPIO0B_IOMUX) 0x3 0x1 0;;
  mret EFI_SUCCESS.

(** [AllocatePages] and the installation of the protocol are calls out of the
    driver: the pages and the status. *)
Definition DwEmmcDxeInitialize (AllocatePages publish : DW Z) : DW Z :=
  DwEmmcIomux;;
  gpIdmacDesc ← AllocatePages;
  if gpIdmacDesc =? 0 then mret EFI_BUFFER_TOO_SMALL else
  Status ← publish;
  ASSERT (negb (EFI_ERROR Status));;
  mret EFI_SUCCESS.
End DwEmmc.
