(* ===== verification/DwSpec.v ===== *)
(** * A DesignWare controller with a card

    The hardware under the driver of Mshc.v, as the driver relies on it: a
    port of registers with an SD card behind it (MmcIdentSpec.v).  A command takes
    up to [slow] polls, each word of the card takes as many to arrive in the
    FIFO, behind the words already there, and the words written go to the card
    when as many bytes have come as were announced. *)

From Stdlib Require Import ZArith Lia FunctionalExtensionality.
From stdpp Require Import base list numbers option.
From S2P Require Import Prelude Memory Mmio Cru Mmc MmcIdent MmcIdentSpec DwMmc.

(** [cfifo] has the words in the FIFO, [cflight] those the card is still to send,
    [ctaken] the bytes for the card; [clag] and [cgap] count polls until the
    command is done and until the next word arrives. *)
Record dwc := {
  ccard : sdcard;
  cresp : list Z;
  crint : Z;
  carg : Z;
  cblksiz : Z;
  cbytcnt : Z;
  cfifo : list Z;
  cflight : list Z;
  ctaken : list Z;
  clag : nat;
  cgap : nat;
  cregs : Z -> Z
}.

Definition set_ccard v h := Build_dwc v (cresp h) (crint h) (carg h) (cblksiz h) (cbytcnt h) (cfifo h) (cflight h) (ctaken h) (clag h) (cgap h) (cregs h).
Definition set_cresp v h := Build_dwc (ccard h) v (crint h) (carg h) (cblksiz h) (cbytcnt h) (cfifo h) (cflight h) (ctaken h) (clag h) (cgap h) (cregs h).
Definition set_crint v h := Build_dwc (ccard h) (cresp h) v (carg h) (cblksiz h) (cbytcnt h) (cfifo h) (cflight h) (ctaken h) (clag h) (cgap h) (cregs h).
Definition set_carg v h := Build_dwc (ccard h) (cresp h) (crint h) v (cblksiz h) (cbytcnt h) (cfifo h) (cflight h) (ctaken h) (clag h) (cgap h) (cregs h).
Definition set_cblksiz v h := Build_dwc (ccard h) (cresp h) (crint h) (carg h) v (cbytcnt h) (cfifo h) (cflight h) (ctaken h) (clag h) (cgap h) (cregs h).
Definition set_cbytcnt v h := Build_dwc (ccard h) (cresp h) (crint h) (carg h) (cblksiz h) v (cfifo h) (cflight h) (ctaken h) (clag h) (cgap h) (cregs h).
Definition set_cfifo v h := Build_dwc (ccard h) (cresp h) (crint h) (carg h) (cblksiz h) (cbytcnt h) v (cflight h) (ctaken h) (clag h) (cgap h) (cregs h).
Definition set_cflight v h := Build_dwc (ccard h) (cresp h) (crint h) (carg h) (cblksiz h) (cbytcnt h) (cfifo h) v (ctaken h) (clag h) (cgap h) (cregs h).
Definition set_ctaken v h := Build_dwc (ccard h) (cresp h) (crint h) (carg h) (cblksiz h) (cbytcnt h) (cfifo h) (cflight h) v (clag h) (cgap h) (cregs h).
Definition set_clag v h := Build_dwc (ccard h) (cresp h) (crint h) (carg h) (cblksiz h) (cbytcnt h) (cfifo h) (cflight h) (ctaken h) v (cgap h) (cregs h).
Definition set_cgap v h := Build_dwc (ccard h) (cresp h) (crint h) (carg h) (cblksiz h) (cbytcnt h) (cfifo h) (cflight h) (ctaken h) (clag h) v (cregs h).
Definition set_cregs v h := Build_dwc (ccard h) (cresp h) (crint h) (carg h) (cblksiz h) (cbytcnt h) (cfifo h) (cflight h) (ctaken h) (clag h) (cgap h) v.

(** The interrupts the controller raises; it is never locked by a command it has
    not taken yet. *)
Definition raised : Z := any_of [DWEMMC_INT_CMD_DONE; DWEMMC_INT_DTO; DWEMMC_INT_RTO; DWEMMC_INT_DRT; DWEMMC_INT_DCRC].

(** The words of bytes. *)
Fixpoint words_of (n : nat) (bs : list Z) : list Z :=
  match n with
  | O => []
  | S n => le_val (take 4 bs) :: words_of n (drop 4 bs)
  end.

Section controller.
(** [Base] is where the port is, [slow] bounds its delays, [sel] selects the
    clock in the clock unit. *)
Context (Base : Z) (slow : nat) (sel : Z).

(** Delays are never longer than [slow]. *)
Definition lag_of (h : dwc) : nat := Nat.min (clag h) slow.
Definition gap_of (h : dwc) : nat := Nat.min (cgap h) slow.
Definition tick_lag (h : dwc) : dwc := set_clag (pred (lag_of h)) h.
(** A word arrives, or comes nearer. *)
Definition tick_gap (h : dwc) : dwc :=
  match gap_of h with
  | O => set_cgap slow (set_cfifo (cfifo h ++ take 1 (cflight h)) (set_cflight (drop 1 (cflight h)) h))
  | S g => set_cgap g h
  end.

(** A poll of the interrupts brings the end of the command nearer, and then the
    next word. *)
Definition tick (h : dwc) : dwc := if (0 <? lag_of h)%nat then tick_lag h else tick_gap h.

Definition flag (b : bool) (m : Z) : Z := if b then m else 0.

Definition status_reg (h : dwc) : Z :=
  Z.lor (flag (0 <? lag_of h)%nat DWEMMC_STS_DATA_BUSY) (flag (match cfifo h with [] => true | _ => false end) FIFO_EMPTY).

Definition port_read (off : Z) (h : dwc) : Z * dwc :=
  if off =? 0x048 then (status_reg h, tick_lag h)
  else if off =? 0x044 then (if (0 <? lag_of h)%nat then 0 else Z.land (crint h) raised, tick h)
  else if off =? 0x02c then (flag (0 <? lag_of h)%nat CMD_START_BIT, tick_lag h)
  else if off =? 0x030 then (nth 0 (cresp h) 0, h)
  else if off =? 0x034 then (nth 1 (cresp h) 0, h)
  else if off =? 0x038 then (nth 2 (cresp h) 0, h)
  else if off =? 0x03c then (nth 3 (cresp h) 0, h)
  else if off =? 0x200 then (nth 0 (cfifo h) 0, set_cfifo (drop 1 (cfifo h)) h)
  else if off =? 0x000 then (Z.ldiff (cregs h off) DWEMMC_CTRL_RESET_ALL, h)
  else if off =? 0x080 then (Z.ldiff (cregs h off) DWEMMC_IDMAC_SWRESET, h)
  else (cregs h off, h).

(** A transfer is of whole blocks of the size announced. *)
Definition announced (h : dwc) : bool := negb (cblksiz h =? 0) && (cbytcnt h mod cblksiz h =? 0).

Definition set_done (extra : Z) (h : dwc) : dwc := set_clag slow (set_crint (Z.lor DWEMMC_INT_CMD_DONE extra) h).

(** The card gets a command; what was in flight is lost. *)
Definition execute (cmd : Z) (h : dwc) : dwc :=
  let answers := has_bits cmd BIT_CMD_RESPONSE_EXPECT in
  match card_cmd (Z.land cmd 0x3f) (carg h) (ccard h) with
  | None => set_done (flag answers DWEMMC_INT_RTO) h
  | Some (r, k) =>
      let h := set_cresp (if answers then r else []) (set_ccard k (set_cflight [] h)) in
      if negb (has_bits cmd BIT_CMD_DATA_EXPECTED) then set_done 0 h
      else if has_bits cmd BIT_CMD_WRITE then set_ctaken [] (set_done 0 h)
      else
        match card_send (cbytcnt h) k with
        | Some (bs, k') =>
            if announced h
            then set_done DWEMMC_INT_DTO (set_ccard k' (set_cgap slow (set_cflight (words_of (Z.to_nat (cbytcnt h / 4)) bs) h)))
            else set_done DWEMMC_INT_DRT h
        | None => set_done DWEMMC_INT_DRT h
        end
  end.

(** A word for the card. *)
Definition take_word (w : Z) (h : dwc) : dwc :=
  let h := set_ctaken (ctaken h ++ le_bytes 4 w) h in
  if Z.of_nat (length (ctaken h)) =? cbytcnt h then
    match card_take (ctaken h) (ccard h) with
    | Some k => if announced h then set_crint (Z.lor (crint h) DWEMMC_INT_DTO) (set_ccard k h)
                else set_crint (Z.lor (crint h) DWEMMC_INT_DCRC) h
    | None => set_crint (Z.lor (crint h) DWEMMC_INT_DCRC) h
    end
  else h.

Definition port_write (off v : Z) (h : dwc) : dwc :=
  if off =? 0x044 then set_crint (Z.ldiff (crint h) v) h
  else if off =? 0x028 then set_carg v h
  else if off =? 0x01c then set_cblksiz v h
  else if off =? 0x020 then set_cbytcnt v h
  else if off =? 0x02c then (if has_bits v BIT_CMD_UPDATE_CLOCK_ONLY then set_clag slow h else execute v h)
  else if off =? 0x200 then take_word v h
  else if off =? 0x000 then
    set_cregs (fun x => if x =? off then v else cregs h x) (if has_bits v FIFO_RESET then set_cfifo [] h else h)
  else set_cregs (fun x => if x =? off then v else cregs h x) h.

Definition in_port (a : Z) : bool := in_range Base 0x1000 a.

#[export] Instance dwc_mmio : Mmio dwc := {
  mmio_read32 a h :=
    if in_port a then port_read (a - Base) h else if a =? CRU_CLKSEL_CON 30 then (Z.shiftl sel 8, h) else (cregs h (a - Base), h);
  mmio_write32 a v h := if in_port a then port_write (a - Base) v h else set_cregs (fun x => if x =? a - Base then v else cregs h x) h;
  delay_us _ h := h;
  delay_ns _ h := h;
}.
End controller.

(** * DesignWare hosts: register accesses and transfers

    The operations of DwMmc.v on this controller: the waits end,
    the FIFO is emptied, and the words of a transfer reach the buffer or the
    card. *)

Section dw.
Context {BB : Build} {C : MmcCodes} (Base : Z) (slow : nat) (sel : Z).
Context (base_ok : 0 <= Base /\ Base + 0x1000 <= 2 ^ 32).
#[local] Instance ctrl : Mmio dwc := dwc_mmio Base slow sel.
Implicit Types (s : dw dwc) (h : dwc).

Definition at_bus (f : dwc -> dwc) (s : dw dwc) : dw dwc := Dw (mCommand s) (mArgument s) (dmem s) (f (dbus s)).

(** ** Accesses *)

Lemma port_at off : 0 <= off < 0x1000 -> u32 (Base + off) = Base + off /\ in_port Base (Base + off) = true /\ Base + off - Base = off.
Proof. intros Ho. split; [apply wrap_small; unfold in_word; lia|]. split; [apply in_range_spec; lia | lia]. Qed.

Lemma wp_port_read off s (Q : Z -> dw dwc -> Prop) : 0 <= off < 0x1000 ->
  Q (u32 (port_read slow off (dbus s)).1) (at_bus (fun h => (port_read slow off h).2) s) -> wp (MmioRead32 (u32 (Base + off))) s Q.
Proof.
  intros Ho HQ. destruct (port_at off Ho) as (E1 & E2 & E3). apply wp_MmioRead32. cbn [mmio_read32 dw_mmio ctrl dwc_mmio].
  rewrite E1, E2, E3. unfold at_bus in HQ. by destruct (port_read slow off (dbus s)).
Qed.

Lemma wp_port_write off v s (Q : unit -> dw dwc -> Prop) : 0 <= off < 0x1000 ->
  Q tt (at_bus (port_write slow off (u32 v)) s) -> wp (MmioWrite32 (u32 (Base + off)) v) s Q.
Proof.
  intros Ho HQ. destruct (port_at off Ho) as (E1 & E2 & E3). apply wp_MmioWrite32. cbn [mmio_write32 dw_mmio ctrl dwc_mmio].
  by rewrite E1, E2, E3.
Qed.

(** The status word is what it says. *)
Lemma status_bits h : u32 (status_reg slow h) = status_reg slow h /\
  has_bits (status_reg slow h) DWEMMC_STS_DATA_BUSY = (0 <? lag_of slow h)%nat /\
  has_bits (status_reg slow h) FIFO_EMPTY = (match cfifo h with [] => true | _ => false end) /\
  MMC_GET_FCNT (status_reg slow h) = 0.
Proof. unfold status_reg. by destruct (0 <? lag_of slow h)%nat, (cfifo h). Qed.

Lemma wp_status s (Q : Z -> dw dwc -> Prop) :
  Q (status_reg slow (dbus s)) (at_bus (tick_lag slow) s) -> wp (MmioRead32 (DWEMMC_STATUS Base)) s Q.
Proof.
  intros HQ. apply wp_port_read; [lia|]. cbn [port_read Z.eqb Pos.eqb fst snd]. by rewrite (proj1 (status_bits (dbus s))).
Qed.

(** What is read from [RINTSTS]. *)
Definition seen (h : dwc) : Z := if (0 <? lag_of slow h)%nat then 0 else Z.land (crint h) raised.

Lemma seen_word h : u32 (seen h) = seen h.
Proof.
  unfold seen. destruct (0 <? lag_of slow h)%nat; [done|]. apply Z.bits_inj'. intros i Hi. rewrite wrap_testbit, Z.land_spec by done.
  destruct (Z.ltb_spec i 32); [done|]. by rewrite (in_word_high 32 raised i), andb_false_r by (done || lia).
Qed.

Lemma seen_not h m : Z.land raised m = 0 -> has_bits (seen h) m = false.
Proof. intros Hm. unfold has_bits, seen. destruct (0 <? lag_of slow h)%nat; [done|]. by rewrite <- Z.land_assoc, Hm, Z.land_0_r. Qed.

Lemma wp_rintsts s (Q : Z -> dw dwc -> Prop) :
  Q (seen (dbus s)) (at_bus (tick slow) s) -> wp (MmioRead32 (DWEMMC_RINTSTS Base)) s Q.
Proof. intros HQ. apply wp_port_read; [lia|]. cbn [port_read Z.eqb Pos.eqb fst snd]. fold (seen (dbus s)). by rewrite seen_word. Qed.

(** No command is under way. *)
Definition idle s : dw dwc := at_bus (set_clag 0) s.

Lemma idle_now s : lag_of slow (dbus s) = 0%nat -> at_bus (tick_lag slow) s = idle s.
Proof. intros E. unfold at_bus, tick_lag. by rewrite E. Qed.

(** Waiting for the controller to be idle. *)
Lemma wait_idle : forall n s (Q : unit -> dw dwc -> Prop), (lag_of slow (dbus s) < n)%nat -> Q tt (idle s) ->
  wp (wait_clear n (DWEMMC_STATUS Base) DWEMMC_STS_DATA_BUSY) s Q.
Proof.
  induction n as [|n IH]; intros s Q Hn HQ; [lia|]. cbn [wait_clear]. apply wp_bind, wp_status.
  destruct (status_bits (dbus s)) as (_ & -> & _). destruct (Nat.ltb_spec 0 (lag_of slow (dbus s))) as [L|L].
  - apply IH; [|exact HQ]. unfold lag_of in *. cbn. unfold lag_of. lia.
  - apply wp_ret. by rewrite idle_now by lia.
Qed.

(** Time passes: a command comes nearer to its end, words arrive. *)
Definition flows s s' : Prop :=
  exists f l g n, s' = at_bus (fun h => set_clag n (set_cgap g (set_cfifo f (set_cflight l h)))) s /\ f ++ l = cfifo (dbus s) ++ cflight (dbus s).

Lemma flows_refl s : flows s s.
Proof. exists (cfifo (dbus s)), (cflight (dbus s)), (cgap (dbus s)), (clag (dbus s)). split; [|done]. by destruct s as [? ? ? []]. Qed.

Lemma flows_trans s1 s2 s3 : flows s1 s2 -> flows s2 s3 -> flows s1 s3.
Proof. intros (f & l & g & n & -> & E) (f' & l' & g' & n' & -> & E'). exists f', l', g', n'. split; [done|]. rewrite E'. exact E. Qed.

Lemma tick_lag_flows s : flows s (at_bus (tick_lag slow) s).
Proof.
  exists (cfifo (dbus s)), (cflight (dbus s)), (cgap (dbus s)), (pred (lag_of slow (dbus s))). split; [|done]. by destruct s as [? ? ? []].
Qed.

Lemma idle_flows s : flows s (idle s).
Proof. exists (cfifo (dbus s)), (cflight (dbus s)), (cgap (dbus s)), 0%nat. split; [|done]. by destruct s as [? ? ? []]. Qed.

Lemma tick_flows s : flows s (at_bus (tick slow) s).
Proof.
  unfold tick. destruct (0 <? lag_of slow (dbus s))%nat eqn:E; unfold at_bus; rewrite E; [apply tick_lag_flows|].
  unfold tick_gap. destruct (gap_of slow (dbus s)) as [|g].
  - exists (cfifo (dbus s) ++ take 1 (cflight (dbus s))), (drop 1 (cflight (dbus s))), slow, (clag (dbus s)).
    split; [by destruct s as [? ? ? []] | by rewrite <- app_assoc, take_drop].
  - exists (cfifo (dbus s)), (cflight (dbus s)), g, (clag (dbus s)). split; [by destruct s as [? ? ? []] | done].
Qed.

(** The lag after a poll. *)
Lemma lag_tick_lag h : lag_of slow (tick_lag slow h) = pred (lag_of slow h).
Proof. unfold lag_of. cbn. unfold lag_of. lia. Qed.

Lemma lag_tick h : lag_of slow (tick slow h) = pred (lag_of slow h).
Proof.
  unfold tick. destruct (Nat.ltb_spec 0 (lag_of slow h)); [apply lag_tick_lag|]. unfold tick_gap.
  replace (pred (lag_of slow h)) with (lag_of slow h) by lia. by destruct (gap_of slow h).
Qed.

(** The clock is updated. *)
Lemma clock_updated_spec : forall n s (Q : Z -> dw dwc -> Prop), (lag_of slow (dbus s) < n)%nat ->
  (forall s', flows s s' -> Q EFI_SUCCESS s') -> wp (clock_updated Base n) s Q.
Proof.
  induction n as [|n IH]; intros s Q L HQ; [lia|]. cbn [clock_updated].
  apply wp_bind, wp_port_read; [lia|]. cbn [port_read Z.eqb Pos.eqb fst snd].
  destruct (Nat.ltb_spec 0 (lag_of slow (dbus s))) as [G|G]; cbn [flag].
  - change (has_bits (u32 CMD_START_BIT) CMD_START_BIT) with true. cbn [negb]. apply wp_bind, wp_rintsts. rewrite seen_not by done.
    apply IH.
    + cbn [dbus at_bus]. rewrite lag_tick. change (dbus (at_bus _ s)) with (tick_lag slow (dbus s)). rewrite lag_tick_lag. lia.
    + intros s' F. apply HQ. eapply flows_trans; [|exact F]. eapply flows_trans; [apply tick_lag_flows | apply tick_flows].
  - change (has_bits (u32 0) CMD_START_BIT) with false. apply wp_ret, HQ, tick_lag_flows.
Qed.

(** ** Commands *)

(** The registers when a command is written, and what the command does. *)
Definition issued (arg : Z) (h : dwc) : dwc := set_carg arg (set_crint (Z.ldiff (crint h) (u32 (Z.lnot 0))) (set_clag 0 h)).
Definition executed (cmd arg : Z) s : dw dwc := at_bus (fun h => execute slow cmd (issued arg h)) s.

Definition outcome_of h : Z := if has_bits (Z.land (crint h) raised) ErrMask then EFI_DEVICE_ERROR else EFI_SUCCESS.

(** A driver's way to send a command. *)
Definition sends (Send : Z -> Z -> M (dw dwc) Z) : Prop := forall cmd arg s (Q : Z -> dw dwc -> Prop),
  in_word 32 cmd -> in_word 32 arg -> has_bits cmd BIT_CMD_UPDATE_CLOCK_ONLY = false ->
  (forall s', flows (executed cmd arg s) s' -> Q (outcome_of (dbus (executed cmd arg s))) s') -> wp (Send cmd arg) s Q.

(** Every command ends. *)
Lemma execute_done cmd h : exists x, crint (execute slow cmd h) = Z.lor DWEMMC_INT_CMD_DONE x.
Proof.
  unfold execute. destruct (card_cmd _ _ _) as [[r k]|]; [|by eexists].
  destruct (negb _); [by eexists|]. destruct (has_bits cmd BIT_CMD_WRITE); [by eexists|].
  destruct (card_send _ k) as [[bs k']|]; [|by eexists]. destruct (announced _); by eexists.
Qed.

Lemma execute_done_seen cmd h : has_bits (Z.land (crint (execute slow cmd h)) raised) DWEMMC_INT_CMD_DONE = true.
Proof.
  destruct (execute_done cmd h) as [x ->]. unfold has_bits. rewrite <- Z.land_assoc. change (Z.land raised DWEMMC_INT_CMD_DONE) with DWEMMC_INT_CMD_DONE.
  apply negb_true_iff, Z.eqb_neq. intros E. pose proof (f_equal (fun z => Z.testbit z 2) E) as F. cbn beta in F.
  rewrite Z.land_spec, Z.lor_spec in F. by change (Z.testbit DWEMMC_INT_CMD_DONE 2) with true in F.
Qed.

(** ** The FIFO *)

Lemma wait_fifo_reset_spec n s (Q : nat -> dw dwc -> Prop) : Q n s -> wp (wait_fifo_reset Base n) s Q.
Proof.
  intros HQ. assert (E : forall v, has_bits (u32 (Z.ldiff v DWEMMC_CTRL_RESET_ALL)) FIFO_RESET = false).
  { intros v. unfold has_bits. apply negb_false_iff, Z.eqb_eq, Z.bits_inj'. intros i Hi.
    rewrite Z.land_spec, wrap_testbit, Z.ldiff_spec, Z.bits_0 by done. change FIFO_RESET with (2 ^ 1). rewrite Z.pow2_bits_eqb by lia.
    destruct (Z.eqb_spec 1 i) as [<-|]; [|by rewrite andb_false_r]. change (Z.testbit DWEMMC_CTRL_RESET_ALL 1) with true. by rewrite andb_false_r. }
  destruct n; cbn [wait_fifo_reset]; apply wp_bind, wp_port_read; (lia || (cbn [port_read Z.eqb Pos.eqb fst snd]; rewrite E; cbn [negb]; apply wp_ret;
    by destruct s)).
Qed.

Lemma ctrl_reset v s : at_bus (port_write slow 0x000 (u32 (Z.lor v FIFO_RESET))) s =
  at_bus (fun h => set_cregs (fun x => if x =? 0 then u32 (Z.lor v FIFO_RESET) else cregs h x) (set_cfifo [] h)) s.
Proof.
  assert (E : has_bits (u32 (Z.lor v FIFO_RESET)) FIFO_RESET = true).
  { unfold has_bits. apply negb_true_iff, Z.eqb_neq. intros E. pose proof (f_equal (fun z => Z.testbit z 1) E) as F. cbn beta in F.
    rewrite Z.land_spec, wrap_testbit, Z.lor_spec in F by lia. change (Z.testbit FIFO_RESET 1) with true in F. by rewrite orb_true_r in F. }
  unfold at_bus, port_write. cbn [Z.eqb]. by rewrite E.
Qed.

(** Afterwards the FIFO is empty; nothing arrives meanwhile. *)
Lemma reset_fifo_spec s (Q : bool -> dw dwc -> Prop) : has_bits (mCommand s) BIT_CMD_DATA_EXPECTED = true ->
  (forall n r, Q true (at_bus (fun h => set_cregs r (set_cfifo [] (set_clag n h))) s)) -> wp (reset_fifo Base) s Q.
Proof.
  intros Hd HQ. unfold reset_fifo. apply wp_bind, wp_gets. rewrite Hd, orb_true_r. apply wp_bind, wp_status.
  destruct (status_bits (dbus s)) as (_ & _ & -> & _). destruct (cfifo (dbus s)) as [|w ws] eqn:Ef.
  - apply wp_ret. specialize (HQ (pred (lag_of slow (dbus s))) (cregs (dbus s))). unfold at_bus, tick_lag, set_clag in *. cbn in HQ |- *. by rewrite Ef.
  - apply wp_bind, wp_port_read; [lia|]. apply wp_bind, wp_port_write; [lia|]. cbn [port_read Z.eqb fst snd].
    rewrite ctrl_reset. apply wp_bind, wait_fifo_reset_spec, wp_ret. rewrite (proj2 (Nat.eqb_neq (Z.to_nat 100000) 0)) by lia. apply HQ.
Qed.
(** ** The words of a read *)

Fixpoint store_words (m : mem) (buf : Z) (ws : list Z) : mem :=
  match ws with
  | [] => m
  | w :: ws => store_words (write_bytes m buf (le_bytes 4 w)) (buf + 4) ws
  end.

Definition with_mem (m : mem) s : dw dwc := Dw (mCommand s) (mArgument s) m (dbus s).

(** The words in the FIFO reach the buffer. *)
Lemma drain_fifo_spec : forall ws n buf s (Q : nat * Z -> dw dwc -> Prop), cfifo (dbus s) = ws -> Forall (in_word 32) ws -> (length ws <= n)%nat ->
  (forall m, (Nat.min m slow <= lag_of slow (dbus s))%nat ->
     Q ((n - length ws)%nat, buf + 4 * Z.of_nat (length ws)) (with_mem (store_words (dmem s) buf ws) (at_bus (fun h => set_clag m (set_cfifo [] h)) s))) ->
  wp (drain_fifo Base n buf) s Q.
Proof.
  induction ws as [|w ws IH]; intros n buf s Q Ef Hw Hl HQ.
  - specialize (HQ (pred (lag_of slow (dbus s))) ltac:(lia)). rewrite Nat.sub_0_r, Z.add_0_r in HQ.
    assert (E : forall a : nat * Z, a = (n, buf) -> Q a (at_bus (tick_lag slow) s)).
    { intros a ->. unfold with_mem, at_bus, tick_lag, set_clag, set_cfifo in *. cbn in *. by rewrite Ef. }
    destruct n; cbn [drain_fifo]; apply wp_bind, wp_status; [by apply wp_ret, E|].
    destruct (status_bits (dbus s)) as (_ & _ & -> & _). rewrite Ef. by apply wp_ret, E.
  - destruct n as [|n]; [cbn in Hl; lia|]. apply list.Forall_cons in Hw as [Hw1 Hw]. cbn [drain_fifo]. apply wp_bind, wp_status.
    destruct (status_bits (dbus s)) as (_ & _ & -> & _). rewrite Ef. apply wp_bind, wp_port_read; [lia|].
    cbn [port_read Z.eqb Pos.eqb fst snd dbus at_bus]. change (cfifo (tick_lag slow (dbus s))) with (cfifo (dbus s)). rewrite Ef. cbn [nth].
    rewrite (wrap_small 32 w) by done. apply wp_bind, wp_modify. apply IH; [cbn; by rewrite Ef | done | cbn in Hl; lia|].
    intros m Hm. cbn [length Nat.sub]. replace (buf + 4 + 4 * Z.of_nat (length ws)) with (buf + 4 * Z.of_nat (S (length ws))) by lia.
    apply (HQ m). etransitivity; [exact Hm|]. cbn. unfold lag_of. cbn. unfold lag_of. lia.
Qed.

(** Polls without a word before the next one. *)
Definition pace h : nat := (lag_of slow h + gap_of slow h + match cfifo h with [] => 1 | _ => 0 end)%nat.

Lemma read_rounds_eq fuel t n buf :
  read_rounds Base fuel t n buf =
    if (n =? 0)%nat then mret EFI_SUCCESS else
    Data ← MmioRead32 (DWEMMC_RINTSTS Base);
    if has_bits Data read_errors then
      (if debug_build then MmioRead32 (DWEMMC_RINTSTS Base) else mret 0);;
      mret EFI_DEVICE_ERROR
    else
    r ← drain_fifo Base n buf;
    if (r.1 =? 0)%nat then
      Data ← MmioRead32 (DWEMMC_RINTSTS Base);
      mret (if has_bits Data read_errors then EFI_DEVICE_ERROR else EFI_SUCCESS)
    else
    NanoSecondDelay 1;;
    if (r.1 =? n)%nat then
      match t with
      | O | S O => mret EFI_DEVICE_ERROR
      | S t => read_rounds Base fuel t n buf
      end
    else
      match fuel with
      | O => stopM NoFuel
      | S fuel => read_rounds Base fuel (Z.to_nat 999999) r.1 r.2
      end.
Proof. destruct fuel, t; reflexivity. Qed.

Lemma store_words_app m buf ws1 : forall ws2, store_words m buf (ws1 ++ ws2) = store_words (store_words m buf ws1) (buf + 4 * Z.of_nat (length ws1)) ws2.
Proof.
  revert m buf. induction ws1 as [|w ws1 IH]; intros m buf ws2; [by rewrite Z.add_0_r|]. rewrite <- app_comm_cons. cbn [store_words length]. rewrite IH.
  f_equal. lia.
Qed.
(** What is still to be read. *)
Definition to_read h : list Z := cfifo h ++ cflight h.
Definition no_errors h : Prop := has_bits (Z.land (crint h) raised) read_errors = false.

Lemma no_errors_seen h : no_errors h -> has_bits (seen h) read_errors = false.
Proof. intros E. unfold seen. destruct (0 <? lag_of slow h)%nat; [done | exact E]. Qed.

Lemma tick_keeps h : to_read (tick slow h) = to_read h /\ crint (tick slow h) = crint h /\ ccard (tick slow h) = ccard h.
Proof.
  unfold tick, to_read. destruct (0 <? lag_of slow h)%nat; [done|]. unfold tick_gap. destruct (gap_of slow h); [|done].
  cbn. by rewrite <- app_assoc, take_drop.
Qed.

(** A poll brings a word, or brings it nearer. *)
Lemma tick_pace h : to_read h <> [] -> cfifo (tick slow h) = [] -> (pace (tick slow h) < pace h)%nat.
Proof.
  intros Hr Hf. unfold pace. rewrite lag_tick, Hf. unfold tick in *. destruct (Nat.ltb_spec 0 (lag_of slow h)) as [L|L].
  - change (gap_of slow (tick_lag slow h)) with (gap_of slow h). change (cfifo (tick_lag slow h)) with (cfifo h) in Hf. rewrite Hf. lia.
  - unfold tick_gap in *. destruct (gap_of slow h) as [|g] eqn:G.
    + cbn in Hf. apply app_nil in Hf as [Hf Ht]. unfold to_read in Hr. rewrite Hf in Hr. by destruct (cflight h).
    + change (cfifo (set_cgap g h)) with (cfifo h) in Hf. rewrite Hf.
      assert (gap_of slow (set_cgap g h) <= g)%nat by (unfold gap_of; cbn; lia). lia.
Qed.

Lemma pace_bound h : (pace h <= 2 * slow + 1)%nat.
Proof. unfold pace, lag_of, gap_of. destruct (cfifo h); lia. Qed.

Lemma read_rounds_spec : (2 * slow + 2 < Z.to_nat 999999)%nat -> forall fuel t n buf s (Q : Z -> dw dwc -> Prop),
  n = length (to_read (dbus s)) -> (n <= fuel)%nat -> (pace (dbus s) < t)%nat -> Forall (in_word 32) (to_read (dbus s)) -> no_errors (dbus s) ->
  (forall s', dmem s' = store_words (dmem s) buf (to_read (dbus s)) -> ccard (dbus s') = ccard (dbus s) -> Q EFI_SUCCESS s') ->
  wp (read_rounds Base fuel t n buf) s Q.
Proof.
  intros Hslow. induction fuel as [fuel IHf] using lt_wf_ind. induction t as [|t IHt]; intros n buf s Q Hn Hf Ht Hw He HQ; [lia|].
  rewrite read_rounds_eq. destruct (Nat.eqb_spec n 0) as [->|N].
  { apply wp_ret, HQ; [|done]. symmetry in Hn. apply length_zero_iff_nil in Hn. by rewrite Hn. }
  apply wp_bind, wp_rintsts. rewrite no_errors_seen by done. set (s1 := at_bus (tick slow) s).
  destruct (tick_keeps (dbus s)) as (K1 & K2 & K3). change (tick slow (dbus s)) with (dbus s1) in K1, K2, K3.
  assert (Hsplit : cfifo (dbus s1) ++ cflight (dbus s1) = to_read (dbus s)) by exact K1.
  pose proof Hw as Hw1. rewrite <- Hsplit in Hw1. apply list.Forall_app in Hw1 as [Hw1 Hw2].
  apply wp_bind. eapply drain_fifo_spec; [reflexivity | exact Hw1 | rewrite Hn, <- Hsplit, length_app; lia|]. intros m Hm. cbn [fst snd].
  set (s2 := with_mem _ _). assert (R2 : to_read (dbus s2) = cflight (dbus s1)) by done.
  assert (L2 : (n - length (cfifo (dbus s1)))%nat = length (to_read (dbus s2))) by (rewrite R2, Hn, <- Hsplit, length_app; lia).
  assert (E2 : no_errors (dbus s2)) by (unfold no_errors; change (crint (dbus s2)) with (crint (dbus s1)); by rewrite K2).
  assert (M2 : forall s', dmem s' = store_words (dmem s2) (buf + 4 * Z.of_nat (length (cfifo (dbus s1)))) (to_read (dbus s2)) ->
    ccard (dbus s') = ccard (dbus s2) -> Q EFI_SUCCESS s').
  { intros s' D Cd. apply HQ; [|by rewrite Cd]. rewrite D, R2, <- Hsplit, store_words_app. done. }
  assert (P2 : cfifo (dbus s1) = [] -> (pace (dbus s2) <= pace (dbus s1))%nat).
  { intros Ef. unfold pace. rewrite Ef. change (cfifo (dbus s2)) with (@nil Z). change (gap_of slow (dbus s2)) with (gap_of slow (dbus s1)).
    change (lag_of slow (dbus s2)) with (Nat.min m slow). cbn iota. lia. }
  clearbody s2. destruct (Nat.eqb_spec (n - length (cfifo (dbus s1))) 0) as [Z0|NZ].
  - apply wp_bind, wp_rintsts. rewrite no_errors_seen by done. apply wp_ret, M2.
    + rewrite L2 in Z0. apply length_zero_iff_nil in Z0. by rewrite Z0.
    + apply tick_keeps.
  - apply wp_bind, wp_modify. change (delay_ns 1 s2) with (Dw (mCommand s2) (mArgument s2) (dmem s2) (dbus s2)).
    destruct s2 as [c2 a2 m2 h2]. cbn [mCommand mArgument dmem dbus] in *.
    destruct (Nat.eqb_spec (n - length (cfifo (dbus s1))) n) as [Zn|Nn].
    + assert (Ef : cfifo (dbus s1) = []) by (apply length_zero_iff_nil; lia).
      assert (Hne : to_read (dbus s) <> []) by (intros E; rewrite E in Hn; cbn in Hn; lia).
      pose proof (tick_pace (dbus s) Hne Ef) as TP. change (tick slow (dbus s)) with (dbus s1) in TP. specialize (P2 Ef).
      rewrite Ef in M2, L2. cbn [length] in *. rewrite Nat.sub_0_r in L2. rewrite Z.add_0_r in M2.
      destruct t as [|t]; [lia|]. apply IHt; cbn [dbus dmem]; [lia | lia | lia | by rewrite R2 | done | exact M2].
    + destruct fuel as [|fuel]; [lia|]. apply IHf; cbn [dbus dmem]; [lia | exact L2 | lia | | by rewrite R2 | done | exact M2].
      pose proof (pace_bound h2). lia.
Qed.
(** ** Bytes and words *)

Lemma store_words_bytes ws : forall m buf, store_words m buf ws = write_bytes m buf (flat_map (le_bytes 4) ws).
Proof.
  induction ws as [|w ws IH]; intros m buf; apply functional_extensionality; intros x.
  - symmetry. apply write_bytes_out. cbn. lia.
  - cbn [store_words flat_map]. rewrite IH. pose proof (write_bytes_app m buf (le_bytes 4 w) (flat_map (le_bytes 4) ws) x) as E.
    rewrite length_le_bytes in E. exact E.
Qed.

Lemma words_of_bytes : forall n bs, Forall is_byte bs -> length bs = (4 * n)%nat ->
  flat_map (le_bytes 4) (words_of n bs) = bs /\ Forall (in_word 32) (words_of n bs) /\ length (words_of n bs) = n.
Proof.
  induction n as [|n IH]; intros bs Hb Hl; [destruct bs; [by repeat constructor | cbn in Hl; lia]|]. cbn [words_of flat_map length].
  assert (Hl4 : length (take 4 bs) = 4%nat) by (rewrite length_take; lia).
  pose proof (list.Forall_take _ 4 _ Hb) as Hb4. destruct (IH (drop 4 bs)) as (E1 & E2 & E3); [by apply list.Forall_drop | rewrite length_drop; lia |].
  split; [|split; [|by rewrite E3]].
  - rewrite E1. pose proof (le_bytes_le_val (take 4 bs) Hb4) as E. rewrite Hl4 in E. rewrite E. apply take_drop.
  - constructor; [|exact E2]. pose proof (le_val_range (take 4 bs) Hb4) as E. rewrite Hl4 in E. exact E.
Qed.

(** ** Reading *)

Lemma flows_keeps s s' : flows s s' -> to_read (dbus s') = to_read (dbus s) /\ crint (dbus s') = crint (dbus s) /\ ccard (dbus s') = ccard (dbus s) /\
  cresp (dbus s') = cresp (dbus s) /\ ctaken (dbus s') = ctaken (dbus s) /\ cbytcnt (dbus s') = cbytcnt (dbus s) /\ cblksiz (dbus s') = cblksiz (dbus s) /\
  dmem s' = dmem s /\ mCommand s' = mCommand s /\ mArgument s' = mArgument s.
Proof. intros (f & l & g & n & -> & E). by repeat split. Qed.

(** ** Writing *)

Lemma wait_fifo_room_spec n s (Q : unit -> dw dwc -> Prop) : (0 < n)%nat -> Q tt (at_bus (tick_lag slow) s) -> wp (wait_fifo_room Base n) s Q.
Proof.
  intros Hn HQ. destruct n as [|n]; [lia|]. cbn [wait_fifo_room]. apply wp_bind, wp_status.
  destruct (status_bits (dbus s)) as (_ & _ & _ & ->). by apply wp_ret.
Qed.

(** A word of memory, as the card gets it. *)
Lemma le_bytes_load m buf : Forall is_byte (read_bytes m buf 4) -> le_bytes 4 (u32 (load 4 m buf)) = read_bytes m buf 4.
Proof.
  intros Hb. pose proof (length_read_bytes m buf 4) as L. pose proof (le_val_range _ Hb) as R. rewrite L in R.
  unfold load. rewrite wrap_small by exact R. pose proof (le_bytes_le_val _ Hb) as E. by rewrite L in E.
Qed.

Lemma wait_written_spec : forall n s (Q : Z -> dw dwc -> Prop), (lag_of slow (dbus s) < n)%nat ->
  Z.land (crint (dbus s)) raised = Z.lor DWEMMC_INT_CMD_DONE DWEMMC_INT_DTO -> (forall s', flows s s' -> Q EFI_SUCCESS s') -> wp (wait_written Base n) s Q.
Proof.
  induction n as [|n IH]; intros s Q Hn Hc HQ; [lia|]. cbn [wait_written]. apply wp_bind, wp_rintsts. unfold seen. rewrite Hc.
  destruct (Nat.ltb_spec 0 (lag_of slow (dbus s))) as [L|L].
  - change (has_bits 0 _) with false. apply IH.
    + cbn [dbus at_bus]. rewrite lag_tick. lia.
    + cbn [dbus at_bus]. by rewrite (proj1 (proj2 (tick_keeps (dbus s)))).
    + intros s' F. apply HQ. eapply flows_trans; [apply tick_flows | exact F].
  - change (has_bits _ MMC_DATA_ERROR_FLAGS) with false. change (has_bits _ DWEMMC_INT_DTO) with true. apply wp_ret, HQ, tick_flows.
Qed.

(** ** The whole operations *)

(** The driver waits long enough. *)
Context (patience : nat) (patient : (slow < patience)%nat).

Lemma wait_idle_patient s (Q : unit -> dw dwc -> Prop) : Q tt (idle s) -> wp (wait_clear patience (DWEMMC_STATUS Base) DWEMMC_STS_DATA_BUSY) s Q.
Proof. apply wait_idle. unfold lag_of. lia. Qed.

Lemma UpdateClock_spec s (Q : Z -> dw dwc -> Prop) :
  (forall s', flows s s' -> Q EFI_SUCCESS s') -> wp (UpdateClock Base patience) s Q.
Proof.
  intros HQ. unfold UpdateClock. apply wp_bind, wp_port_write; [lia|]. apply clock_updated_spec; [unfold lag_of; lia|].
  intros s' (f & l & g & n & -> & E). apply HQ. exists f, l, g, n. split; [by destruct s as [? ? ? []] | exact E].
Qed.
(** The command and its argument are written once the controller is idle. *)
Lemma issue_spec cmd arg (k : M (dw dwc) Z) s (Q : Z -> dw dwc -> Prop) :
  in_word 32 cmd -> in_word 32 arg -> has_bits cmd BIT_CMD_UPDATE_CLOCK_ONLY = false -> wp k (executed cmd arg s) Q ->
  wp (wait_clear patience (DWEMMC_STATUS Base) DWEMMC_STS_DATA_BUSY;;
      MmioWrite32 (DWEMMC_RINTSTS Base) (u32 (Z.lnot 0));;
      MmioWrite32 (DWEMMC_CMDARG Base) arg;;
      MmioWrite32 (DWEMMC_CMD Base) cmd;; k) s Q.
Proof.
  intros Hc Ha Hu HQ. apply wp_bind, wait_idle_patient, wp_bind, wp_port_write; [lia|]. apply wp_bind, wp_port_write; [lia|].
  apply wp_bind, wp_port_write; [lia|]. rewrite !wrap_small by (done || by apply wrap_range).
  unfold port_write. cbn [Z.eqb Pos.eqb]. rewrite Hu. exact HQ.
Qed.

Lemma wait_previous_spec s (Q : unit -> dw dwc -> Prop) : (forall n, Q tt (at_bus (set_clag n) s)) -> wp (wait_previous Base patience) s Q.
Proof.
  intros HQ. unfold wait_previous. apply wp_bind, wp_gets. destruct (has_bits _ _); [apply wait_idle_patient, HQ|].
  apply wp_ret. specialize (HQ (clag (dbus s))). by destruct s as [? ? ? []].
Qed.

Lemma read_block_data_spec Send cmd arg blk n buf s r k bs k' (Q : Z -> dw dwc -> Prop) :
  sends Send -> (2 * slow + 2 < Z.to_nat 999999)%nat -> mCommand s = cmd -> mArgument s = arg -> in_word 32 cmd /\ in_word 32 arg /\ in_word 32 blk ->
  has_bits cmd BIT_CMD_DATA_EXPECTED = true /\ has_bits cmd BIT_CMD_WRITE = false /\ has_bits cmd BIT_CMD_UPDATE_CLOCK_ONLY = false ->
  card_cmd (Z.land cmd 0x3f) arg (ccard (dbus s)) = Some (r, k) -> card_send n k = Some (bs, k') ->
  Forall is_byte bs -> Z.of_nat (length bs) = n -> whole_blocks n -> blk <> 0 -> n mod blk = 0 ->
  (forall s', dmem s' = write_bytes (dmem s) buf bs -> ccard (dbus s') = k' -> Q EFI_SUCCESS s') ->
  wp (read_block_data Base patience Send blk n buf) s Q.
Proof.
  intros Hsend Hslow Hc Ha (Wc & Wa & Wb) (Fd & Fw & Fu) Hcmd Hsnd Hby Hlen (Hn & Hn4 & _) Hb0 Hbn HQ. unfold read_block_data.
  apply wp_bind, wait_previous_spec. intros n1. apply wp_bind, reset_fifo_spec; [cbn; by rewrite Hc|]. intros n2 regs. cbn [negb].
  apply wp_bind, wp_port_write; [lia|]. apply wp_bind, wp_port_write; [lia|].
  rewrite (wrap_small 32 blk), (wrap_small 32 n) by (done || (unfold in_word; lia)).
  apply wp_bind, wp_gets, wp_bind, wp_gets, wp_bind. cbn [mCommand mArgument at_bus]. rewrite Hc, Ha. apply Hsend; [done | done | done|].
  set (s1 := executed cmd arg _).
  assert (Eann : (n mod blk =? 0) = true) by (by apply Z.eqb_eq).
  assert (W : dbus s1 = set_done slow DWEMMC_INT_DTO (set_ccard k' (set_cgap slow (set_cflight (words_of (Z.to_nat (n / 4)) bs)
    (set_cresp (if has_bits cmd BIT_CMD_RESPONSE_EXPECT then r else []) (set_ccard k (set_cflight []
      (issued arg (set_cbytcnt n (set_cblksiz blk (set_cregs regs (set_cfifo [] (set_clag n2 (set_clag n1 (dbus s))))))))))))))).
  { unfold s1, executed, execute. cbn [dbus at_bus carg issued set_carg ccard]. cbn. rewrite Hcmd, Fd, Fw. cbn. rewrite Hsnd. unfold announced. cbn.
    by rewrite (proj2 (Z.eqb_neq blk 0)), Eann by done. }
  assert (Em : dmem s1 = dmem s) by done. clearbody s1. intros s2 F. destruct (flows_keeps _ _ F) as (K1 & K2 & K3 & _ & _ & _ & _ & K4 & _ & _).
  rewrite W in K1, K2, K3 |- *. change (EFI_ERROR (outcome_of _)) with false. cbn iota.
  assert (Hq : n = 4 * (n / 4)) by (apply Z_div_exact_full_2; [lia | done]).
  destruct (words_of_bytes (Z.to_nat (n / 4)) bs Hby) as (B1 & B2 & B3); [lia|].
  assert (E4 : Z.to_nat (u32 (Z.shiftr n 2)) = Z.to_nat (n / 4)).
  { rewrite Z.shiftr_div_pow2 by lia. change (2 ^ 2) with 4. rewrite wrap_small; [done | unfold in_word; lia]. }
  change (to_read (dbus s2) = words_of (Z.to_nat (n / 4)) bs) in K1. rewrite E4. apply read_rounds_spec; [done | by rewrite K1, B3 | done | | by rewrite K1 | |].
  - pose proof (pace_bound (dbus s2)). lia.
  - unfold no_errors. by rewrite K2.
  - intros s' D Cd. apply HQ; [|by rewrite Cd, K3]. rewrite D, K1, store_words_bytes, B1, K4, Em. done.
Qed.
Lemma write_words_spec k' : forall j buf s (Q : unit -> dw dwc -> Prop), (0 < j)%nat ->
  Z.of_nat (length (ctaken (dbus s))) + 4 * Z.of_nat j = cbytcnt (dbus s) -> Forall is_byte (read_bytes (dmem s) buf (4 * Z.of_nat j)) ->
  card_take (ctaken (dbus s) ++ read_bytes (dmem s) buf (4 * Z.of_nat j)) (ccard (dbus s)) = Some k' -> announced (dbus s) = true ->
  (forall s', ccard (dbus s') = k' -> crint (dbus s') = Z.lor (crint (dbus s)) DWEMMC_INT_DTO -> Q tt s') ->
  wp (write_words Base patience j buf) s Q.
Proof.
  induction j as [|j IH]; intros buf s Q Hj Hl Hb Ht Ha HQ; [lia|]. cbn [write_words].
  apply wp_bind, wait_fifo_room_spec; [lia|]. apply wp_bind, wp_gets, wp_bind, wp_port_write; [lia|]. cbn [dmem at_bus].
  replace (4 * Z.of_nat (S j)) with (4 + 4 * Z.of_nat j) in * by lia. rewrite read_bytes_app in Hb, Ht by lia.
  apply list.Forall_app in Hb as [Hb1 Hb2].
  change (port_write slow 512 (u32 (load 4 (dmem s) buf))) with (take_word (u32 (load 4 (dmem s) buf))).
  unfold take_word, at_bus. cbn [dbus mCommand mArgument dmem ctaken set_ctaken tick_lag set_clag cbytcnt]. rewrite le_bytes_load by done.
  destruct (Nat.eq_dec j 0%nat) as [->|N].
  - change (4 * Z.of_nat 0) with 0 in *. replace (read_bytes (dmem s) (buf + 4) 0) with (@nil Z) in Ht by done. rewrite app_nil_r in Ht.
    rewrite (proj2 (Z.eqb_eq _ _)) by (rewrite length_app, length_read_bytes; lia).
    cbn [ccard set_ctaken tick_lag set_clag]. rewrite Ht. match goal with |- context [announced ?x] => change (announced x) with (announced (dbus s)) end. rewrite Ha. cbn [write_words]. apply wp_ret, HQ; done.
  - rewrite (proj2 (Z.eqb_neq _ _)) by (rewrite length_app, length_read_bytes; lia). apply IH; cbn [dbus dmem ctaken set_ctaken ccard cbytcnt tick_lag set_clag].
    + lia.
    + rewrite length_app, length_read_bytes. lia.
    + exact Hb2.
    + rewrite <- app_assoc. exact Ht.
    + exact Ha.
    + exact HQ.
Qed.

Lemma write_block_data_spec Send cmd arg n buf s r k k' (Q : Z -> dw dwc -> Prop) :
  sends Send -> mCommand s = cmd -> mArgument s = arg -> in_word 32 cmd /\ in_word 32 arg -> Z.land cmd 0x3f <> 6 /\ Z.land cmd 0x3f <> 51 ->
  has_bits cmd BIT_CMD_DATA_EXPECTED = true /\ has_bits cmd BIT_CMD_WRITE = true /\ has_bits cmd BIT_CMD_UPDATE_CLOCK_ONLY = false ->
  card_cmd (Z.land cmd 0x3f) arg (ccard (dbus s)) = Some (r, k) -> card_take (read_bytes (dmem s) buf n) k = Some k' ->
  Forall is_byte (read_bytes (dmem s) buf n) -> whole_blocks n -> n mod 512 = 0 ->
  (forall s', ccard (dbus s') = k' -> Q EFI_SUCCESS s') -> wp (write_block_data Base patience Send n buf) s Q.
Proof.
  intros Hsend Hc Ha (Wc & Wa) (I6 & I51) (Fd & Fw & Fu) Hcmd Htk Hby (Hn & Hn4 & _) Hbn HQ. unfold write_block_data.
  apply wp_bind, wait_previous_spec. intros n1. apply wp_bind, wp_gets. cbn [mCommand at_bus]. rewrite Hc.
  rewrite (proj2 (Z.eqb_neq _ _) I6), (proj2 (Z.eqb_neq _ _) I51). cbn [orb]. apply wp_bind, reset_fifo_spec; [cbn; by rewrite Hc|]. intros n2 regs. cbn [negb].
  apply wp_bind, wp_port_write; [lia|]. apply wp_bind, wp_port_write; [lia|]. rewrite (wrap_small 32 512), (wrap_small 32 n) by (done || (unfold in_word; lia)).
  apply wp_bind, wp_gets, wp_bind. cbn [mCommand mArgument at_bus]. rewrite Ha. apply Hsend; [done | done | done|].
  set (s1 := executed cmd arg _).
  assert (W : dbus s1 = set_ctaken [] (set_done slow 0
    (set_cresp (if has_bits cmd BIT_CMD_RESPONSE_EXPECT then r else []) (set_ccard k (set_cflight []
      (issued arg (set_cbytcnt n (set_cblksiz 512 (set_cregs regs (set_cfifo [] (set_clag n2 (set_clag n1 (dbus s))))))))))))).
  { unfold s1, executed, execute. cbn [dbus at_bus carg issued set_carg ccard]. cbn. by rewrite Hcmd, Fd, Fw. }
  assert (Em : dmem s1 = dmem s) by done. clearbody s1. intros s2 F. destruct (flows_keeps _ _ F) as (_ & K2 & K3 & _ & K5 & K6 & K7 & K4 & _ & _).
  rewrite W in K2, K3, K5, K6, K7 |- *. change (EFI_ERROR (outcome_of _)) with false. cbn iota.
  assert (Hq : n = 4 * Z.of_nat (Z.to_nat (n / 4))) by (rewrite Z2Nat.id by (apply Z.div_pos; lia); apply Z_div_exact_full_2; [lia | done]).
  cbn in K5, K6, K7, K3, K2. apply wp_bind. eapply (write_words_spec k'); rewrite ?K3, ?K5, ?K6, ?K7, ?K4, ?Em; [lia | by rewrite <- Hq | by rewrite <- Hq | by rewrite <- Hq | |].
  - unfold announced. rewrite K6, K7. apply Z.eqb_eq in Hbn. by rewrite Hbn.
  - intros s3 C3 R3. apply wait_written_spec; [unfold lag_of; lia | rewrite R3, K2; reflexivity|].
    intros s4 F4. apply HQ. destruct (flows_keeps _ _ F4) as (_ & _ & K8 & _). by rewrite K8.
Qed.
End dw.
