(* ===== verification/MshcProps.v ===== *)
(** * The SD host of the RK356x relays its card

    The driver of Mshc.v on the controller of DwSpec.v, as a host of the MMC
    driver: what MmcIdentSpec.v asks of a host holds, so the theorems about the MMC
    driver apply to this one. *)

From Stdlib Require Import ZArith Lia.
From stdpp Require Import base list numbers option.
From S2P Require Import Prelude Memory Mmio DwEmmc Cru Mmc MmcIdent MmcIdentSpec MmcProps MmcIdentProps DwMmc DwSpec Mshc.

(** What [Protocol/MmcHost.h] says about indices and types. *)
Class MmcIndexLaws {C : MmcCodes} {IX : MmcIndices} := {
  index_range : forall cmd, 0 <= MMC_GET_INDX cmd < 64;
  index_const : forall n, 0 <= n < 64 -> MMC_INDX n = n;
  type_names : MMC_RESPONSE_TYPE_OCR = MMC_RESPONSE_TYPE_R3 /\ MMC_RESPONSE_TYPE_RCA = MMC_RESPONSE_TYPE_R6 /\
    MMC_RESPONSE_TYPE_CID = MMC_RESPONSE_TYPE_R2 /\ MMC_RESPONSE_TYPE_CSD = MMC_RESPONSE_TYPE_R2;
  type_long : ~ MMC_RESPONSE_TYPE_R2 ∈ [MMC_RESPONSE_TYPE_R1; MMC_RESPONSE_TYPE_R1b; MMC_RESPONSE_TYPE_R3; MMC_RESPONSE_TYPE_R6; MMC_RESPONSE_TYPE_R7]
}.

(** ** The words of commands *)

Definition id_indices : MmcIndices := {| MMC_INDX := fun n => n; MMC_GET_INDX := fun c => c |}.

(** The word written for command [i]; [a] stands for the arguments. *)
Definition command_word (i a : Z) : Z :=
  Z.lor (MshcCommandFlags (H := id_indices) i a) (any_of [i; BIT_CMD_USE_HOLD_REG; BIT_CMD_START]).

Definition data_argument (a : Z) : bool := (Z.land (Z.shiftr a 31) 0x1 =? 0x1) || (a =? 0x00FFFFF0).
Definition kind_of_argument (a : Z) : Z := if data_argument a then 2 ^ 31 else if a =? 0 then 0 else 1.

Lemma flags_kind i a : MshcCommandFlags (H := id_indices) i a = MshcCommandFlags (H := id_indices) i (kind_of_argument a).
Proof.
  unfold MshcCommandFlags, id_indices. cbn [MMC_GET_INDX MMC_INDX]. fold (data_argument a). fold (data_argument (kind_of_argument a)).
  assert (E1 : data_argument (kind_of_argument a) = data_argument a).
  { unfold kind_of_argument. destruct (data_argument a) eqn:E; [done|]. by destruct (a =? 0). }
  assert (E2 : (kind_of_argument a =? 0) = (a =? 0)).
  { unfold kind_of_argument. destruct (Z.eqb_spec a 0) as [->|]; [done|]. by destruct (data_argument a). }
  by rewrite E1, E2.
Qed.

Section words.
Context {C : MmcCodes} {IX : MmcIndices} {IL : MmcIndexLaws}.

Lemma flags_index cmd a : MshcCommandFlags cmd a = MshcCommandFlags (H := id_indices) (MMC_GET_INDX cmd) a.
Proof. unfold MshcCommandFlags. rewrite !index_const by lia. done. Qed.
End words.

Definition word_ok (i a : Z) : bool :=
  let w := command_word i a in
  (0 <=? w) && (w <? 2 ^ 32) && (Z.land w 0x3f =? i) && negb (has_bits w BIT_CMD_UPDATE_CLOCK_ONLY).

Definition plain_ok (i a : Z) : bool :=
  let w := command_word i a in
  existsb (Z.eqb i) [17; 18; 24; 25; 30; 51] || (i =? 6) && (a =? 2 ^ 31) || (i =? 7) && (a =? 0) ||
  negb (has_bits w BIT_CMD_DATA_EXPECTED) && Bool.eqb (has_bits w BIT_CMD_RESPONSE_EXPECT) (negb (i =? 0)).

Lemma words_ok : forallb (fun i => forallb (fun a => word_ok i a && plain_ok i a) [0; 1; 2 ^ 31]) (seqZ 0 64) = true.
Proof. vm_compute. reflexivity. Qed.

Lemma kind_cases a : In (kind_of_argument a) [0; 1; 2 ^ 31].
Proof. unfold kind_of_argument. destruct (data_argument a); [|destruct (a =? 0)]; cbn; tauto. Qed.

Lemma command_word_ok i a : 0 <= i < 64 -> word_ok i a = true /\ plain_ok i (kind_of_argument a) = true.
Proof.
  intros Hi. pose proof words_ok as E. rewrite forallb_forall in E.
  specialize (E i (proj1 (list_elem_of_In _ _) (proj2 (elem_of_seqZ 0 64 i) ltac:(lia)))). cbn beta in E. rewrite forallb_forall in E.
  specialize (E (kind_of_argument a) (kind_cases a)). cbn beta in E. apply andb_true_iff in E as [E1 E2]. split; [|exact E2].
  unfold word_ok, command_word in *. by rewrite flags_kind.
Qed.

Lemma command_word_facts i a : 0 <= i < 64 ->
  in_word 32 (command_word i a) /\ Z.land (command_word i a) 0x3f = i /\ has_bits (command_word i a) BIT_CMD_UPDATE_CLOCK_ONLY = false.
Proof.
  intros Hi. destruct (command_word_ok i a Hi) as [E _]. unfold word_ok in E. cbv zeta in E.
  rewrite !andb_true_iff, Z.leb_le, Z.ltb_lt, Z.eqb_eq, negb_true_iff in E. destruct E as (((E1 & E2) & E3) & E4). by repeat split.
Qed.

Lemma data_argument_not a : in_word 32 a -> a < 2 ^ 31 -> a <> 0x00FFFFF0 -> data_argument a = false.
Proof.
  intros W L N. unfold data_argument. rewrite (proj2 (Z.eqb_neq a _) N), Z.shiftr_div_pow2, Z.div_small by (unfold in_word in W; lia). done.
Qed.

(** A plain command is sent at once, and is answered unless it is CMD0. *)
Lemma plain_word i a k : 0 <= i < 64 -> in_word 32 a -> plain_command i a k ->
  has_bits (command_word i a) BIT_CMD_DATA_EXPECTED = false /\ has_bits (command_word i a) BIT_CMD_RESPONSE_EXPECT = negb (i =? 0).
Proof.
  intros Hi Wa (N1 & N2 & N3 & N4 & N5 & N6 & H6 & H7). destruct (command_word_ok i a Hi) as [_ E]. unfold plain_ok in E. cbv zeta in E.
  assert (Ex : existsb (Z.eqb i) [17; 18; 24; 25; 30; 51] = false) by (cbn; rewrite !orb_false_iff, !Z.eqb_neq; tauto). rewrite Ex in E.
  assert (E6 : (i =? 6) && (kind_of_argument a =? 2 ^ 31) = false).
  { destruct (Z.eqb_spec i 6) as [->|]; [|done]. destruct (H6 eq_refl). unfold kind_of_argument. rewrite data_argument_not by done. by destruct (a =? 0). }
  assert (E7 : (i =? 7) && (kind_of_argument a =? 0) = false).
  { destruct (Z.eqb_spec i 7) as [->|]; [|done]. unfold kind_of_argument. rewrite (proj2 (Z.eqb_neq a 0)) by auto. by destruct (data_argument a). }
  rewrite E6, E7 in E. cbn [orb andb] in E. apply andb_true_iff in E as [E1 E2]. apply negb_true_iff in E1. apply Bool.eqb_prop in E2.
  unfold command_word in *. by rewrite flags_kind.
Qed.

(** A command with data waits for the transfer. *)
Lemma read_word i a : i = 17 \/ i = 18 \/ i = 51 \/ i = 6 /\ Z.testbit a 31 = true ->
  has_bits (command_word i a) BIT_CMD_DATA_EXPECTED = true /\ has_bits (command_word i a) BIT_CMD_WRITE = false.
Proof.
  intros [-> | [-> | [-> | [-> Ha]]]]; try (split; reflexivity).
  unfold command_word. rewrite flags_kind. unfold kind_of_argument, data_argument.
  replace (Z.land (Z.shiftr a 31) 1 =? 1) with true; [done|]. symmetry. apply Z.eqb_eq. apply Z.bits_inj'. intros j Hj.
  rewrite Z.land_spec, Z.shiftr_spec by done. destruct (Z.eqb_spec j 0) as [->|N]; [change (0 + 31) with 31; by rewrite Ha|].
  change 1 with (Z.ones 1). by rewrite (Z.ones_spec_high 1), andb_false_r by lia.
Qed.

Lemma write_word i a : i = 24 \/ i = 25 ->
  has_bits (command_word i a) BIT_CMD_DATA_EXPECTED = true /\ has_bits (command_word i a) BIT_CMD_WRITE = true.
Proof. intros [-> | ->]; split; reflexivity. Qed.

Lemma has_bits_pow2 w n : 0 <= n -> has_bits w (2 ^ n) = Z.testbit w n.
Proof.
  intros Hn. unfold has_bits. destruct (Z.testbit w n) eqn:E.
  - apply negb_true_iff, Z.eqb_neq. intros F. pose proof (f_equal (fun z => Z.testbit z n) F) as G. cbn beta in G.
    rewrite Z.land_spec, Z.pow2_bits_true, E, Z.bits_0 in G by done. done.
  - apply negb_false_iff, Z.eqb_eq, Z.bits_inj'. intros i Hi. rewrite Z.land_spec, Z.pow2_bits_eqb, Z.bits_0 by done.
    destruct (Z.eqb_spec n i) as [<-|]; [by rewrite E | by rewrite andb_false_r].
Qed.

Lemma pending_expected w : IsPendingReadCommand w || IsPendingWriteCommand w = has_bits w BIT_CMD_DATA_EXPECTED.
Proof.
  change BIT_CMD_DATA_EXPECTED with (2 ^ 9). rewrite has_bits_pow2 by lia. unfold IsPendingReadCommand, IsPendingWriteCommand. cbv zeta.
  change (Z.lor BIT_CMD_DATA_EXPECTED BIT_CMD_READ) with (2 ^ 9). destruct (Z.testbit w 9) eqn:E.
  - apply orb_true_iff. left. apply Z.eqb_eq, Z.bits_inj'. intros i Hi. rewrite Z.land_spec, Z.pow2_bits_eqb by lia.
    destruct (Z.eqb_spec 9 i) as [<-|]; [by rewrite E | by rewrite andb_false_r].
  - apply orb_false_iff. split; apply Z.eqb_neq; intros F; pose proof (f_equal (fun z => Z.testbit z 9) F) as G; cbn beta in G;
      rewrite Z.land_spec, E in G; done.
Qed.

(** ** The driver *)
Section host.
Context {BB : Build} {C : MmcCodes} {IX : MmcIndices} {IL : MmcIndexLaws} {P : MshcPcds}.
Abbreviation Base := PcdMshcDxeBaseAddress.

(** The port is below 4 GB and apart from the clock unit; its delays are
    shorter than the driver's patience and time-outs; the clock is one the
    identification of cards can be derived from; the bus may run at 26 MHz. *)
Context (slow patience : nat) (sel : Z).
Context (base_ok : 0 <= Base /\ Base + 0x1000 <= 2 ^ 32) (apart : in_port Base (CRU_CLKSEL_CON 30) = false).
Context (patient : (slow < patience)%nat) (fast : (2 * slow + 2 < Z.to_nat 999999)%nat).
Context (sel_ok : In sel [0; 3; 4; 5]) (freq_ok : PcdMshcDxeMaxClockFreqInHz = 0 \/ 26000000 <= PcdMshcDxeMaxClockFreqInHz).
#[local] Existing Instance ctrl.
#[local] Instance bus : Mmio dwc := dwc_mmio Base slow sel.
Implicit Types (s : dw dwc).

(** *** Commands *)

Lemma command_done_spec st : forall n s (Q : Z -> dw dwc -> Prop), (lag_of slow (dbus s) < n)%nat ->
  has_bits (Z.land (crint (dbus s)) raised) DWEMMC_INT_CMD_DONE = true ->
  (forall s', flows s s' -> Q (if (st =? EFI_SUCCESS) && has_bits (Z.land (crint (dbus s)) raised) ErrMask then EFI_DEVICE_ERROR else st) s') ->
  wp (command_done n st) s Q.
Proof.
  induction n as [|n IH]; intros s Q Hn Hd HQ; [lia|]. cbn [command_done]. apply wp_bind, wp_modify.
  change (delay_us 1 s) with (Dw (mCommand s) (mArgument s) (dmem s) (dbus s)). destruct s as [c a m h]. cbn [mCommand mArgument dmem dbus] in *.
  apply wp_bind, (wp_rintsts Base slow sel base_ok). unfold seen. cbn [dbus]. destruct (Nat.ltb_spec 0 (lag_of slow h)) as [L|L].
  - change (has_bits 0 ErrMask) with false. rewrite andb_false_r. cbn iota. change (has_bits 0 _) with false. cbn iota.
    pose proof (tick_keeps slow h) as (_ & K & _). apply IH; cbn [dbus at_bus].
    + rewrite lag_tick. lia.
    + by rewrite K.
    + rewrite K. intros s' F. apply HQ. eapply flows_trans; [apply tick_flows | exact F].
  - rewrite Hd. destruct (has_bits _ DWEMMC_INT_DTO); apply wp_ret, HQ, tick_flows.
Qed.

Lemma SendCommand_sends : sends slow (SendCommand patience).
Proof.
  intros cmd arg s Q Hc Ha Hu HQ. unfold SendCommand. apply (issue_spec Base slow sel base_ok patience patient); [done..|].
  apply command_done_spec; [unfold lag_of; lia | apply execute_done_seen | exact HQ].
Qed.
Abbreviation word_of cmd arg := (command_word (MMC_GET_INDX cmd) arg).

Lemma MshcSendCommand_eq cmd arg :
  MshcSendCommand patience cmd arg =
    if has_bits (word_of cmd arg) BIT_CMD_DATA_EXPECTED then (modify (defer (word_of cmd arg) arg);; mret EFI_SUCCESS)
    else SendCommand patience (word_of cmd arg) arg.
Proof. unfold MshcSendCommand. rewrite flags_index. cbv zeta. by rewrite pending_expected. Qed.

(** A command without data: the card gets it, and its answer is kept. *)
Lemma MshcSendCommand_plain cmd arg s (Q : Z -> dw dwc -> Prop) : in_word 32 arg -> plain_command (MMC_GET_INDX cmd) arg (ccard (dbus s)) ->
  (forall st s', match card_cmd (MMC_GET_INDX cmd) arg (ccard (dbus s)) with
                 | Some (r, k) => st = EFI_SUCCESS /\ ccard (dbus s') = k /\ cresp (dbus s') = r
                 | None => st = EFI_DEVICE_ERROR /\ ccard (dbus s') = ccard (dbus s)
                 end -> Q st s') -> wp (MshcSendCommand patience cmd arg) s Q.
Proof.
  intros Wa Hp HQ. pose proof (index_range cmd) as Hi. destruct (command_word_facts (MMC_GET_INDX cmd) arg Hi) as (Wc & Ei & Fu).
  destruct (plain_word _ _ _ Hi Wa Hp) as [Fd Fr]. rewrite MshcSendCommand_eq, Fd. apply SendCommand_sends; [done..|]. intros s' F. apply HQ.
  destruct (flows_keeps _ _ F) as (_ & _ & K3 & K4 & _). rewrite K3, K4. unfold executed, execute. cbn [dbus at_bus].
  change (carg (issued arg (dbus s))) with arg. change (ccard (issued arg (dbus s))) with (ccard (dbus s)). rewrite Ei.
  destruct (card_cmd (MMC_GET_INDX cmd) arg (ccard (dbus s))) as [[r k]|] eqn:E; rewrite ?Fd, Fr; cbn [negb].
  - split; [done|]. split; [done|]. cbn [cresp set_done set_clag set_crint set_cresp]. destruct (Z.eqb_spec (MMC_GET_INDX cmd) 0) as [Z0|]; [|done].
    cbn [negb]. rewrite Z0 in E. unfold card_cmd in E. cbn [Z.eqb] in E. by injection E.
  - split; [|done]. destruct (Z.eqb_spec (MMC_GET_INDX cmd) 0) as [Z0|]; [|done]. rewrite Z0 in E. unfold card_cmd in E. done.
Qed.

(** CMD8 is sent at once: a transfer after it, which is how an eMMC is asked for
    its extended CSD, sends the data command before it again. *)
Lemma ext_csd_not_deferred cmd arg s : MMC_GET_INDX cmd = 8 -> in_word 32 arg ->
  wp (MshcSendCommand patience cmd arg) s (fun _ s' => mCommand s' = mCommand s /\ mArgument s' = mArgument s).
Proof.
  intros E Wa. pose proof (index_range cmd) as Hi. destruct (command_word_facts (MMC_GET_INDX cmd) arg Hi) as (Wc & Ei & Fu).
  rewrite MshcSendCommand_eq. rewrite E at 1. change (has_bits (command_word 8 arg) BIT_CMD_DATA_EXPECTED) with false. cbn iota.
  apply SendCommand_sends; [done..|]. intros s' F. by destruct (flows_keeps _ _ F) as (_ & _ & _ & _ & _ & _ & _ & _ & K9 & K10).
Qed.

(** Commands with data are kept for the transfer. *)
Lemma MshcSendCommand_data cmd arg s : has_bits (word_of cmd arg) BIT_CMD_DATA_EXPECTED = true ->
  MshcSendCommand patience cmd arg s = Ret EFI_SUCCESS (defer (word_of cmd arg) arg s).
Proof. intros Hd. by rewrite MshcSendCommand_eq, Hd. Qed.

(** *** Responses *)

Lemma wp_resp i off s (Q : Z -> dw dwc -> Prop) : In (i, off) [(0%nat, 0x030); (1%nat, 0x034); (2%nat, 0x038); (3%nat, 0x03c)] ->
  Q (u32 (nth i (cresp (dbus s)) 0)) s -> wp (MmioRead32 (u32 (Base + off))) s Q.
Proof.
  intros Hi HQ. assert (E : forall h, port_read slow off h = (nth i (cresp h) 0, h)) by (intros h; by repeat (destruct Hi as [[= <- <-]|Hi]; [done|])).
  apply (wp_port_read Base slow sel base_ok); [repeat (destruct Hi as [[= <- <-]|Hi]; [lia|]); destruct Hi|]. rewrite E. cbn [fst].
  unfold at_bus. destruct s as [c a m h]. cbn [dbus mCommand mArgument dmem] in *. by rewrite E.
Qed.

Lemma MshcReceiveResponse_spec t buf s : t ∈ response_types -> buf <> 0 ->
  wp (MshcReceiveResponse t buf) s (fun r s' => s' = s /\ r.1 = EFI_SUCCESS /\ nth 0 r.2 0 = u32 (nth 0 (cresp (dbus s)) 0) /\ (0 < length r.2)%nat /\
    (t = MMC_RESPONSE_TYPE_CSD -> length (cresp (dbus s)) = 4%nat -> r.2 = u32 <$> cresp (dbus s))).
Proof.
  intros Ht Hb. destruct type_names as (T1 & T2 & T3 & T4). pose proof type_long as TL.
  unfold MshcReceiveResponse, receive_response. rewrite (proj2 (Z.eqb_neq buf 0)) by done.
  destruct ((t =? MMC_RESPONSE_TYPE_R1) || (t =? MMC_RESPONSE_TYPE_R1b) || (t =? MMC_RESPONSE_TYPE_R3) || (t =? MMC_RESPONSE_TYPE_R6) || (t =? MMC_RESPONSE_TYPE_R7)) eqn:E.
  - apply wp_bind, (wp_resp 0); [cbn; tauto|]. apply wp_ret. split; [done|]. split; [done|]. split; [done|]. split; [cbn; lia|].
    intros ->. exfalso. apply TL. rewrite <- T4. rewrite !orb_true_iff, !Z.eqb_eq in E. apply list_elem_of_In. cbn. naive_solver.
  - assert (E2 : t = MMC_RESPONSE_TYPE_R2).
    { rewrite !orb_false_iff, !Z.eqb_neq in E. unfold response_types in Ht. apply list_elem_of_In in Ht. cbn in Ht. rewrite T1, T2, T3, T4 in Ht. naive_solver. }
    rewrite (proj2 (Z.eqb_eq _ _) E2). do 4 (apply wp_bind; eapply wp_resp; [cbn; tauto|]). apply wp_ret.
    split; [done|]. split; [done|]. split; [done|]. split; [cbn; lia|]. intros _ L. cbn [snd]. by destruct (cresp (dbus s)) as [|w0 [|w1 [|w2 [|w3 []]]]].
Qed.
(** *** Clock and bus *)

(** The card and its last response are as they were. *)
Definition keeps s s' : Prop := ccard (dbus s') = ccard (dbus s) /\ cresp (dbus s') = cresp (dbus s).

Lemma keeps_trans s1 s2 s3 : keeps s1 s2 -> keeps s2 s3 -> keeps s1 s3.
Proof. intros [A1 A2] [B1 B2]. split; [by rewrite B1 | by rewrite B2]. Qed.

Lemma flows_keeps_card s s' : flows s s' -> keeps s s'.
Proof. intros F. by destruct (flows_keeps _ _ F) as (_ & _ & K3 & K4 & _). Qed.

Lemma wp_write_keeps off v s (Q : unit -> dw dwc -> Prop) : 0 <= off < 0x1000 -> off <> 0x02c -> off <> 0x200 ->
  (forall s', keeps s s' -> Q tt s') -> wp (MmioWrite32 (u32 (Base + off)) v) s Q.
Proof.
  intros Ho N1 N2 HQ. apply (wp_port_write Base slow sel base_ok); [done|]. apply HQ. unfold keeps, at_bus, port_write. cbn [dbus].
  rewrite (proj2 (Z.eqb_neq off 0x02c)), (proj2 (Z.eqb_neq off 0x200)) by done.
  destruct (off =? 0x044); [done|]. destruct (off =? 0x028); [done|]. destruct (off =? 0x01c); [done|]. destruct (off =? 0x020); [done|].
  destruct (off =? 0x000); [|done]. by destruct (has_bits _ FIFO_RESET).
Qed.

(** Steps that keep the card, one after another. *)
Ltac keeping K := first
  [ apply wp_bind, wp_write_keeps; [lia | done | done |]; let K' := fresh in intros ? K'; apply (keeps_trans _ _ _ K) in K'; clear K; rename K' into K
  | apply wp_bind, (UpdateClock_spec Base slow sel base_ok patience patient); let F := fresh in
    intros ? F; apply flows_keeps_card, (keeps_trans _ _ _ K) in F; clear K; rename F into K; apply wp_bind, wp_ASSERT; [done|] ].

Lemma program_divider_spec d s (Q : Z -> dw dwc -> Prop) : (forall s', keeps s s' -> Q EFI_SUCCESS s') -> wp (program_divider Base patience d) s Q.
Proof.
  intros HQ. unfold program_divider. apply wp_bind, (wait_idle_patient Base slow sel base_ok patience patient).
  assert (K : keeps s (idle s)) by done. revert K. generalize (idle s). intros s1 K. do 7 keeping K. by apply wp_ret, HQ.
Qed.

Lemma clock_rate s (Q : Z -> dw dwc -> Prop) : (forall r, In r [24000000; 100000000; 50000000; 750000] -> Q r s) -> wp (CruGetSdmmcClockRate 0) s Q.
Proof.
  intros HQ. unfold CruGetSdmmcClockRate. apply wp_bind, wp_ASSERT; [done|]. cbn [Z.eqb]. apply wp_bind, wp_MmioRead32.
  cbn [mmio_read32 dw_mmio bus dwc_mmio]. rewrite apart, Z.eqb_refl. cbn [fst snd]. destruct s as [c a m h]. cbn [mCommand mArgument dmem dbus].
  destruct sel_ok as [<- | [<- | [<- | [<- | []]]]]; apply wp_ret, HQ; cbn; tauto.
Qed.

Lemma MshcSetClock_spec f s (Q : Z -> dw dwc -> Prop) : f = 400000 \/ f = 26000000 -> (forall s', keeps s s' -> Q EFI_SUCCESS s') -> wp (MshcSetClock patience f) s Q.
Proof.
  intros Hf HQ. unfold MshcSetClock. apply wp_bind, clock_rate. intros r Hr.
  assert (D : exists d, MshcDivider (u32 r) f = Some d).
  { destruct Hf as [-> | ->]; destruct Hr as [<- | [<- | [<- | [<- | []]]]]; eexists; vm_compute; reflexivity. }
  destruct D as [d ->]. by apply program_divider_spec.
Qed.

Lemma MshcSetIos_spec s (Q : Z -> dw dwc -> Prop) : (forall s', keeps s s' -> Q EFI_SUCCESS s') -> wp (MshcSetIos patience 26000000 4 EMMCBACKWARD) s Q.
Proof.
  intros HQ. unfold MshcSetIos. replace (negb (PcdMshcDxeMaxClockFreqInHz =? 0) && (PcdMshcDxeMaxClockFreqInHz <? 26000000)) with false.
  - unfold set_ios. rewrite (Z.eqb_refl EMMCBACKWARD). apply wp_bind, wp_ret. cbn [negb]. apply wp_bind. change (4 =? 1) with false. change (4 =? 4) with true. cbn iota.
    apply wp_bind, wp_write_keeps; [lia | done | done |]. intros s1 K1. apply wp_ret. cbn [negb]. change (26000000 =? 0) with false. cbn [negb].
    apply MshcSetClock_spec; [by right|]. intros s2 K2. apply HQ. eapply keeps_trans; [exact K1 | exact K2].
  - symmetry. apply andb_false_iff. destruct freq_ok as [-> | ?]; [by left | right; by apply Z.ltb_ge].
Qed.

Lemma self_clears off m n v s (Q : unit -> dw dwc -> Prop) : off = 0x000 /\ m = DWEMMC_CTRL_RESET_ALL \/ off = 0x080 /\ m = DWEMMC_IDMAC_SWRESET ->
  (0 < n)%nat -> v = tt -> Q v s -> wp (wait_clear n (u32 (Base + off)) m) s Q.
Proof.
  intros Ho Hn -> HQ. destruct n as [|n]; [lia|]. cbn [wait_clear].
  assert (E : forall x, has_bits (u32 (Z.ldiff x m)) m = false).
  { intros x. unfold has_bits. apply negb_false_iff, Z.eqb_eq. rewrite land_wrap; [apply Z.bits_inj'; intros i Hi; rewrite Z.land_spec, Z.ldiff_spec, Z.bits_0; destruct (Z.testbit m i); by rewrite ?andb_false_r | lia |].
    destruct Ho as [[_ ->] | [_ ->]]; done. }
  apply wp_bind, (wp_port_read Base slow sel base_ok); [destruct Ho as [[-> _] | [-> _]]; lia|].
  destruct Ho as [[-> ->] | [-> ->]]; cbn [port_read Z.eqb Pos.eqb fst snd]; rewrite E; apply wp_ret; by destruct s.
Qed.

Lemma MshcNotifyState_spec st s (Q : Z -> dw dwc -> Prop) : st <> MmcInvalidState -> (forall s', keeps s s' -> Q EFI_SUCCESS s') -> wp (MshcNotifyState patience st) s Q.
Proof.
  intros Hst HQ. destruct st; try done; unfold MshcNotifyState; try (apply wp_ret, HQ; done). unfold hw_initialization.
  assert (K : keeps s s) by done. do 2 keeping K.
  apply wp_bind, (self_clears 0x000 _ _ tt); [by left | lia | done |]. apply wp_bind, MshcSetClock_spec; [by left|]. intros s4 K4.
  apply (keeps_trans _ _ _ K) in K4. apply wp_bind, wp_ASSERT; [done|]. apply wp_bind, wp_modify.
  change (delay_us 100 s4) with (Dw (mCommand s4) (mArgument s4) (dmem s4) (dbus s4)).
  assert (K5 : keeps s (Dw (mCommand s4) (mArgument s4) (dmem s4) (dbus s4))) by exact K4. do 7 keeping K5.
  apply wp_bind, (self_clears 0x080 _ _ tt); [by right | lia | done |]. by apply wp_ret, HQ.
Qed.
(** *** The driver as a host *)

(** A call of the driver from the MMC driver; a call that stops would have no
    result, and by what follows none does. *)
Definition call {A} (d : A) (c : M (dw dwc) A) (h : dw dwc) : A * dw dwc := match c h with Ret a h' => (a, h') | Stop _ => (d, h) end.

Lemma call_wp {A} (d : A) c s (Q : A -> dw dwc -> Prop) : wp c s Q -> Q (call d c s).1 (call d c s).2.
Proof. unfold wp, call. by destruct (c s). Qed.

(** [node] is the device path's node. *)
Definition mshc_host (node : Z) : MmcHost (dw dwc) := {|
  HasSetIos _ _ := true;
  HasIsMultiBlock _ _ := true;
  IsCardPresent _ := call false MshcIsCardPresent;
  IsReadOnly _ := call false MshcIsReadOnly;
  BuildDevicePath _ h := let '(r, h) := call (EFI_DEVICE_ERROR, (0, 0)) MshcBuildDevicePath h in (r.1, node, h);
  NotifyState _ st := call EFI_DEVICE_ERROR (MshcNotifyState patience st);
  Mmc.SendCommand _ cmd arg := call EFI_DEVICE_ERROR (MshcSendCommand patience cmd arg);
  ReceiveResponse _ t := call (EFI_DEVICE_ERROR, []) (MshcReceiveResponse t 1);
  ReadBlockData _ lba n buf m h :=
    let '(st, h) := call EFI_DEVICE_ERROR (MshcReadBlockData patience lba n buf) (with_mem m h) in (st, dmem h, h);
  WriteBlockData _ lba n buf m h := call EFI_DEVICE_ERROR (MshcWriteBlockData patience lba n buf) (with_mem m h);
  SetIos _ f w t := call EFI_DEVICE_ERROR (MshcSetIos patience f w t);
  IsMultiBlock _ := call false MshcIsMultiBlock;
  Stall us := delay_us us
|}.

Lemma read_only_bit w : has_bits w BIT_CMD_WRITE = false -> (Z.land w BIT_CMD_WRITE =? BIT_CMD_READ) = true.
Proof. unfold has_bits. intros E%negb_false_iff. exact E. Qed.

Lemma write_bit w : has_bits w BIT_CMD_WRITE = true -> (Z.land w BIT_CMD_WRITE =? BIT_CMD_WRITE) = true.
Proof.
  change BIT_CMD_WRITE with (2 ^ 10). rewrite has_bits_pow2 by lia. intros E. apply Z.eqb_eq, Z.bits_inj'. intros i Hi.
  rewrite Z.land_spec, Z.pow2_bits_eqb by lia. destruct (Z.eqb_spec 10 i) as [<-|]; [by rewrite E | by rewrite andb_false_r].
Qed.

(** The transfers of deferred commands. *)
Lemma MshcReadBlockData_spec cmd arg lba n buf m s r k bs k' (Q : Z -> dw dwc -> Prop) :
  in_word 32 arg -> let i := MMC_GET_INDX cmd in i = 17 \/ i = 18 \/ i = 51 \/ i = 6 /\ Z.testbit arg 31 = true ->
  card_cmd i arg (ccard (dbus s)) = Some (r, k) -> card_send n k = Some (bs, k') -> Forall is_byte bs -> Z.of_nat (length bs) = n -> whole_blocks n ->
  (forall s', dmem s' = write_bytes m buf bs -> ccard (dbus s') = k' -> Q EFI_SUCCESS s') ->
  wp (MshcReadBlockData patience lba n buf) (with_mem m (defer (word_of cmd arg) arg s)) Q.
Proof.
  intros Wa i Hd Hc Hs Hb Hl Hn HQ. pose proof (index_range cmd) as Hi. destruct (command_word_facts _ arg Hi) as (Wc & Ei & Fu).
  destruct (read_word _ _ Hd) as [Fd Fw]. unfold MshcReadBlockData. apply wp_bind, wp_gets. cbn [mCommand with_mem defer].
  apply wp_bind, wp_ASSERT; [by apply read_only_bit|]. pose proof Hn as (Hn1 & Hn4 & Hnb).
  assert (B : (if n <? 512 then n else 512) <> 0 /\ n mod (if n <? 512 then n else 512) = 0 /\ in_word 32 (if n <? 512 then n else 512)).
  { unfold in_word. destruct (Z.ltb_spec n 512); (split; [lia|]); (split; [|lia]); [apply Z_mod_same_full | lia]. }
  destruct B as (B1 & B2 & B3).
  eapply (read_block_data_spec Base slow sel base_ok patience patient) with (cmd := word_of cmd arg) (arg := arg) (r := r) (k := k); [exact SendCommand_sends | exact fast | reflexivity | reflexivity | done | done | | exact Hs | done | done | done | exact B1 | exact B2 | exact HQ].
  change (card_cmd (Z.land (word_of cmd arg) 0x3f) arg (ccard (dbus s)) = Some (r, k)). by rewrite Ei.
Qed.

Lemma MshcWriteBlockData_spec cmd arg lba n buf m s r k k' (Q : Z -> dw dwc -> Prop) :
  in_word 32 arg -> let i := MMC_GET_INDX cmd in i = 24 \/ i = 25 ->
  card_cmd i arg (ccard (dbus s)) = Some (r, k) -> card_take (read_bytes m buf n) k = Some k' -> Forall is_byte (read_bytes m buf n) ->
  whole_blocks n -> n mod 512 = 0 -> (forall s', ccard (dbus s') = k' -> Q EFI_SUCCESS s') ->
  wp (MshcWriteBlockData patience lba n buf) (with_mem m (defer (word_of cmd arg) arg s)) Q.
Proof.
  intros Wa i Hd Hc Hs Hb Hn Hn5 HQ. pose proof (index_range cmd) as Hi. destruct (command_word_facts _ arg Hi) as (Wc & Ei & Fu).
  destruct (write_word _ arg Hd) as [Fd Fw]. unfold MshcWriteBlockData. apply wp_bind, wp_gets. cbn [mCommand with_mem defer].
  apply wp_bind, wp_ASSERT; [by apply write_bit|].
  eapply (write_block_data_spec Base slow sel base_ok patience patient) with (cmd := word_of cmd arg) (arg := arg) (r := r) (k := k); [exact SendCommand_sends | reflexivity | reflexivity | done | rewrite Ei; subst i; lia | done | | exact Hs | done | done | done | exact HQ].
  change (card_cmd (Z.land (word_of cmd arg) 0x3f) arg (ccard (dbus s)) = Some (r, k)). by rewrite Ei.
Qed.

(** Which way the data of a command goes. *)
Lemma write_takes i arg k r k' : i = 24 \/ i = 25 -> card_cmd i arg k = Some (r, k') -> exists b many, data k' = TakeBlocks b many.
Proof.
  unfold card_cmd. intros [-> | ->]; cbn [Z.eqb Pos.eqb andb orb]; (destruct (app k); [done|]); rewrite ?andb_false_r, ?andb_true_r;
    (destruct (bool_decide (at_state k = Tran) && bool_decide (busy k = 0%nat) && negb (opened k)); cbn [andb]; [|done]);
    destruct (block_of k arg) as [b|]; [|done|..|done]; cbn; intros [= <- <-]; eauto.
Qed.

Lemma read_does_not_take i arg k r k' bs : i = 17 \/ i = 18 \/ i = 51 \/ i = 6 -> card_cmd i arg k = Some (r, k') -> card_take bs k' = None.
Proof.
  unfold card_cmd. intros [-> | [-> | [-> | ->]]]; cbn [Z.eqb Pos.eqb andb orb]; destruct (app k); rewrite ?andb_false_r, ?andb_true_r; try done;
    (destruct (bool_decide (at_state k = Tran) && bool_decide (busy k = 0%nat) && negb (opened k)); cbn [andb]; [|done]);
    try (destruct (block_of k arg) as [b|]; [|done]); cbn; by intros [= <- <-].
Qed.

#[refine] Instance mshc_relays node p : RelaysCard (MH := mshc_host node) (dw dwc) MMC_GET_INDX p :=
  {| card_of h := ccard (dbus h); response_of h := cresp (dbus h) |}.
Proof.
  all: cbn [mshc_host Mmc.SendCommand ReceiveResponse ReadBlockData WriteBlockData NotifyState HasSetIos SetIos IsReadOnly IsMultiBlock IsCardPresent Stall].
  - intros cmd arg h Wa Hp.
    pose proof (call_wp EFI_DEVICE_ERROR _ h _ (MshcSendCommand_plain cmd arg h _ Wa Hp (fun st s' K => K))) as K. cbn beta in K.
    destruct (call _ _ h) as [st h']. cbn [fst snd] in K. destruct (card_cmd _ arg _) as [[r k]|].
    + exists h'. destruct K as (-> & K1 & K2). done.
    + exists st, h'. destruct K as (-> & K1). done.
  - intros t h Ht. pose proof (call_wp (EFI_DEVICE_ERROR, []) _ h _ (MshcReceiveResponse_spec t 1 h Ht ltac:(done))) as K. cbn beta in K.
    destruct (call _ _ h) as [[st ws] h']. cbn [fst snd] in K. destruct K as (-> & -> & K1 & K2 & K3). exists ws, h. done.
  - intros cmd arg lba n buf m h r k bs k' Wa Hd Hc Hs Hb Hl Hn. exists (defer (word_of cmd arg) arg h).
    assert (Hi : MMC_GET_INDX cmd = 17 \/ MMC_GET_INDX cmd = 18 \/ MMC_GET_INDX cmd = 51 \/ MMC_GET_INDX cmd = 6 /\ Z.testbit arg 31 = true).
    { assert (N : ~ (MMC_GET_INDX cmd = 24 \/ MMC_GET_INDX cmd = 25)).
      { intros E. destruct (write_takes _ _ _ _ _ E Hc) as (b & many & Ek). unfold card_send in Hs. by rewrite Ek in Hs. }
      unfold data_command in Hd. tauto. }
    pose proof (call_wp EFI_DEVICE_ERROR _ _ _ (MshcReadBlockData_spec cmd arg lba n buf m h r k bs k' (fun st s' => st = EFI_SUCCESS /\
      dmem s' = write_bytes m buf bs /\ ccard (dbus s') = k') Wa Hi Hc Hs Hb Hl Hn (fun s' K1 K2 => conj eq_refl (conj K1 K2)))) as K. cbn beta in K.
    destruct (call _ _ _) as [st h']. cbn [fst snd] in K. destruct K as (-> & K1 & K2). exists h'. split; [|split; [|exact K2]].
    + unfold call. rewrite MshcSendCommand_data; [done | by apply read_word].
    + by rewrite K1.
  - intros cmd arg lba n buf m h r k k' Wa Hd Hc Hs Hb Hn Hn5. exists (defer (word_of cmd arg) arg h).
    assert (Hi : MMC_GET_INDX cmd = 24 \/ MMC_GET_INDX cmd = 25).
    { assert (N : ~ (MMC_GET_INDX cmd = 17 \/ MMC_GET_INDX cmd = 18 \/ MMC_GET_INDX cmd = 51 \/ MMC_GET_INDX cmd = 6)).
      { intros E. by rewrite (read_does_not_take _ _ _ _ _ _ E Hc) in Hs. }
      unfold data_command in Hd. tauto. }
    pose proof (call_wp EFI_DEVICE_ERROR _ _ _ (MshcWriteBlockData_spec cmd arg lba n buf m h r k k' (fun st s' => st = EFI_SUCCESS /\
      ccard (dbus s') = k') Wa Hi Hc Hs Hb Hn Hn5 (fun s' K2 => conj eq_refl K2))) as K. cbn beta in K.
    destruct (call _ _ _) as [st h']. cbn [fst snd] in K. destruct K as (-> & K2). exists h'. split; [|split; [done | exact K2]].
    unfold call. rewrite MshcSendCommand_data; [done | by apply write_word].
  - intros st h Hst. pose proof (call_wp EFI_DEVICE_ERROR _ h _ (MshcNotifyState_spec st h (fun st s' => st = EFI_SUCCESS /\ keeps h s') Hst (fun s' K => conj eq_refl K))) as K.
    cbn beta in K. destruct (call _ _ h) as [st' h']. cbn [fst snd] in K. destruct K as (-> & K & _). by exists h'.
  - intros h _. pose proof (call_wp EFI_DEVICE_ERROR _ h _ (MshcSetIos_spec h (fun st s' => st = EFI_SUCCESS /\ keeps h s') (fun s' K => conj eq_refl K))) as K.
    cbn beta in K. destruct (call _ _ h) as [st' h']. cbn [fst snd] in K. destruct K as (-> & K & _). by exists h'.
  - done.
  - done.
Defined.
End host.

(** * Properties of the SD hosts

    From power-up to the first read through both drivers, MMC and host, over a
    DesignWare controller, and the dividers of the two hosts. *)

(** ** Both drivers together *)
Section first_read.
Context {BB : Build} {C : MmcCodes} {IX : MmcIndices} {CL : MmcCodeLaws MMC_GET_INDX} {IL : MmcIndexLaws} {P : MshcPcds} {F : MmcFrame}.
Context (node p slow patience rounds : nat) (sel : Z).
Abbreviation Base := PcdMshcDxeBaseAddress.
#[local] Instance host : MmcHost (dw dwc) := mshc_host slow patience sel (Z.of_nat node).

(** C5: The SD host of the RK356x and the MMC driver read an
    SD card.  On a DesignWare controller that takes up to [slow] polls for a
    command and for each word, with any bytes left in its FIFO and a card of
    any kind in any state, the MMC driver over this host identifies the card
    and a read of blocks then puts exactly the blocks of the card into the
    buffer: commands with data are sent with their transfers, stale bytes are
    flushed, and no wait runs out of patience. *)
Theorem mshc_first_read k lba n buf (s : mmc (dw dwc)) :
  (0 <= Base /\ Base + 0x1000 <= 2 ^ 32) -> in_port Base (CRU_CLKSEL_CON 30) = false ->
  (slow < patience)%nat -> (2 * slow + 2 < Z.to_nat 999999)%nat ->
  In sel [0; 3; 4; 5] -> PcdMshcDxeMaxClockFreqInHz = 0 \/ 26000000 <= PcdMshcDxeMaxClockFreqInHz ->
  Host (mi s) = Z.of_nat p -> (0 < p)%nat -> ccard (dbus (mhost s)) = k -> sound_card k -> 9 <= MMC_CSD_GET_READBLLEN (csd k) -> sound_disk (disk k) ->
  IoAlign (Media (mi s)) = 4 -> 0 < buf /\ buf + 512 * n < 2 ^ 64 /\ buf mod 4 = 0 ->
  reachable k lba n -> lba + n <= (csd_media (card_type k) (csd k)).1 ->
  wp (r1 ← InitializeMmcDevice rounds; mid ← the (fun i => MediaId (Media i)); r2 ← MmcReadBlocks mid lba (512 * n) buf; mret (r1, r2)) s
    (fun r s' => r = (EFI_SUCCESS, EFI_SUCCESS) /\ CardType (CardInfo (mi s')) = card_type k /\
      read_bytes (mmem s') buf (512 * n) = disk_blocks (disk k) lba n /\ card_ready (ccard (dbus (mhost s'))) false 0).
Proof.
  intros Hb Ha Hp Hs Hsel Hf H1 H2 H3 H4 H5 H6 H7 H8 H9 H10.
  eapply wp_mono; [apply (first_read_spec (RC := mshc_relays slow patience sel Hb Ha Hp Hs Hsel Hf (Z.of_nat node) (Z.of_nat p)) rounds k lba n buf s H1); [lia | done..]|].
  cbn beta. intros r s' (E1 & E2 & _ & E3 & E4). done.
Qed.
End first_read.

(** ** Dividers *)

Lemma find_divider_spec Rate f : forall n d0,
  match find_divider n Rate f d0 with
  | Some d => d0 <= d < d0 + Z.of_nat n /\ Rate / (2 * d) <= f /\ forall d', d0 <= d' < d -> f < Rate / (2 * d')
  | None => forall d', d0 <= d' < d0 + Z.of_nat n -> f < Rate / (2 * d')
  end.
Proof.
  induction n as [|n IH]; intros d0; [intros d'; lia|]. cbn [find_divider]. destruct (Z.leb_spec (Rate / (2 * d0)) f) as [L|L].
  - split; [lia|]. split; [done|]. intros d'. lia.
  - assert (K : forall d', d0 + 1 <= d' \/ d' = d0 -> (d0 + 1 <= d' -> f < Rate / (2 * d')) -> f < Rate / (2 * d')) by (intros d' [? | ->] ?; auto).
    specialize (IH (d0 + 1)). destruct (find_divider n Rate f (d0 + 1)) as [d|].
    + destruct IH as (I1 & I2 & I3). split; [lia|]. split; [done|]. intros d' Hd. apply K; [lia|]. intros ?. apply I3. lia.
    + intros d' Hd. apply K; [lia|]. intros ?. apply IH. lia.
Qed.

(** What a search for a divider promises: the first of 1 to 255 that is slow
    enough, or none if all are too fast. *)
Definition best_divider (Rate f : Z) (r : option Z) : Prop :=
  match r with
  | Some d => 1 <= d <= 255 /\ Rate / (2 * d) <= f /\ forall d', 1 <= d' < d -> f < Rate / (2 * d')
  | None => forall d', 1 <= d' <= 255 -> f < Rate / (2 * d')
  end.

Lemma find_best Rate f : best_divider Rate f (find_divider 255 Rate f 1).
Proof.
  pose proof (find_divider_spec Rate f 255 1) as E. unfold best_divider. destruct (find_divider 255 Rate f 1) as [d|].
  - destruct E as (E1 & E2 & E3). split; [lia|]. done.
  - intros d' Hd. apply E. lia.
Qed.

(** The bus clock is the fastest that is allowed.  Both
    hosts find the least divider for which the clock of the card does not
    exceed the frequency asked for, and refuse it only if no divider is enough;
    the host of the RK356x passes the clock through if the rates agree. *)
Theorem sd_clock_fastest {P : MshcPcds} {Q : DwEmmcPcds} Rate f :
  (if Rate =? f then MshcDivider Rate f = Some 0 else best_divider Rate f (MshcDivider Rate f)) /\
  best_divider (PcdDwEmmcDxeClockFrequencyInHz / 2) f (DwEmmcDivider f).
Proof.
  split; [|apply find_best]. unfold MshcDivider. destruct (Rate =? f); [done | apply find_best].
Qed.

(** A clock slower than the frequency asked for is divided nevertheless. *)
Lemma slow_clock_halved {P : MshcPcds} : MshcDivider 24000000 26000000 = Some 1.
Proof. reflexivity. Qed.

(** ** A controller *)

#[local] Instance rk_codes : MmcCodes := {|
  MMC_CMD0 := 0; MMC_CMD1 := 1; MMC_CMD2 := 2; MMC_CMD3 := 3; MMC_CMD5 := 5; MMC_CMD6 := 6; MMC_CMD7 := 7; MMC_CMD8 := 8; MMC_CMD9 := 9;
  MMC_CMD12 := 12; MMC_CMD13 := 13; MMC_CMD16 := 16; MMC_CMD17 := 17; MMC_CMD18 := 18; MMC_CMD23 := 23; MMC_CMD24 := 24; MMC_CMD25 := 25;
  MMC_CMD55 := 55; MMC_ACMD41 := 41; MMC_ACMD51 := 51;
  MMC_RESPONSE_TYPE_R1 := 0; MMC_RESPONSE_TYPE_R1b := 1; MMC_RESPONSE_TYPE_R2 := 2; MMC_RESPONSE_TYPE_R3 := 3; MMC_RESPONSE_TYPE_R6 := 4;
  MMC_RESPONSE_TYPE_R7 := 5; MMC_RESPONSE_TYPE_OCR := 3; MMC_RESPONSE_TYPE_CID := 2; MMC_RESPONSE_TYPE_CSD := 2; MMC_RESPONSE_TYPE_RCA := 4;
  EMMCBACKWARD := 0; EMMCHS26 := 1; EMMCHS52 := 2; EMMCHS52DDR1V8 := 4; EMMCHS52DDR1V2 := 8;
  EMMC_CMD1_CAPACITY_LESS_THAN_2GB := 0x00FF8080; EMMC_CMD1_CAPACITY_GREATER_THAN_2GB := 0x40FF8080; MMC_STATUS_APP_CMD := 0x20
|}.
#[local] Instance rk_indices : MmcIndices := {| MMC_INDX n := n; MMC_GET_INDX c := Z.land c 0x3f |}.
#[local] Instance rk_pcds : MshcPcds := {| PcdMshcDxeBaseAddress := 0xFE2B0000; PcdMshcDxeMaxClockFreqInHz := 50000000; PcdMshcDxeFifoDepth := 0x100;
  PcdMshcDxePwrEnUsed := false; PcdMshcDxePwrEnInverted := false |}.

#[local] Instance rk_code_laws : MmcCodeLaws MMC_GET_INDX.
Proof. split; reflexivity. Qed.

#[local] Instance rk_index_laws : MmcIndexLaws.
Proof.
  split; [|done|done|].
  - intros cmd. cbn. change 0x3f with (Z.ones 6). rewrite Z.land_ones by lia. apply Z.mod_pos_bound. done.
  - cbn. intros E%list_elem_of_In. cbn in E. lia.
Qed.

(** The controller with a word of a broken-off transfer in its FIFO. *)
Definition rk_state : mmc (dw dwc) :=
  Build_mmc (blank_instance 7) 0 (fun _ => 0)
    (Dw 0 0 (fun _ => 0) (Build_dwc (new_card true pattern) [] 0 0 0 0 [0xDEADBEEF] [1; 2] [] 0 0 (fun _ => 0))).

#[local] Instance rk_host : MmcHost (dw dwc) := host 1 3 5 3.

Lemma mshc_first_read_witness :
  wp (r1 ← InitializeMmcDevice 5; mid ← the (fun i => MediaId (Media i)); r2 ← MmcReadBlocks mid 70 (512 * 3) 0x10000; mret (r1, r2)) rk_state
    (fun r s' => r = (EFI_SUCCESS, EFI_SUCCESS) /\ CardType (CardInfo (mi s')) = SD_CARD_2_HIGH /\
      read_bytes (mmem s') 0x10000 (512 * 3) = disk_blocks pattern 70 3 /\ card_ready (ccard (dbus (mhost s'))) false 0).
Proof.
  refine (mshc_first_read 1 7 3 5 5 3 (new_card true pattern) 70 3 0x10000 rk_state _ eq_refl _ _ _ _ eq_refl _ eq_refl (new_card_sound true pattern) _
    pattern_sound eq_refl (conj eq_refl (conj eq_refl eq_refl)) _ _); try lia.
  - by split.
  - cbn. tauto.
  - by right.
  - vm_compute. discriminate.
  - by repeat split.
  - vm_compute. discriminate.
Defined.
