(* ===== verification/Rk356xMemory.v ===== *)
(** * The memory of the RK356x

    Model of [src/Silicon/Rockchip/Rk356xPkg/Library/SdramLib/SdramLib.c], the
    size of the DRAM from the registers the boot loader leaves;
    [src/Platforms/Rk356xPkg/Library/PlatformLib/Rk356xMem.c], the table of
    regions; and [src/Platforms/Rk356xPkg/Library/MemoryInitPeiLib/MemoryInitPeiLib.c],
    which declares the regions to the firmware by hand-off blocks (HOBs).  The
    HOB and MMU services are calls out of the code: the model records them. *)

From Stdlib Require Import ZArith Lia.
From stdpp Require Import base list numbers option.
From S2P Require Import Prelude Mmio Gpio.

(** ** The size of the DRAM *)

Definition PMU_GRF_OS_REG2 : Z := PMU_GRF + 0x208.
Definition PMU_GRF_OS_REG3 : Z := PMU_GRF + 0x20C.
Definition SDRAM_DDR4 : Z := 0.

Definition bits (x shift mask : Z) : Z := Z.land (Z.shiftr x shift) mask.
(** [(c) ? a : b] for a channel. *)
Definition of_ch (c a b : Z) : Z := if negb (c =? 0) then a else b.

Definition SYS_REG_DDRTYPE (x : Z) : Z := bits x 13 0x7.
Definition SYS_REG_CHANNELNUM (x : Z) : Z := bits x 12 0x1.
Definition SYS_REG_RANK_CH (x c : Z) : Z := bits x (of_ch c 27 11) 0x1.
Definition SYS_REG_COL_CH (x c : Z) : Z := bits x (of_ch c 25 9) 0x3.
Definition SYS_REG_BK_CH (x c : Z) : Z := bits x (of_ch c 24 8) 0x1.
Definition SYS_REG_CS0_ROW_CH_LO (x c : Z) : Z := bits x (of_ch c 22 6) 0x3.
Definition SYS_REG_CS1_ROW_CH_LO (x c : Z) : Z := bits x (of_ch c 20 4) 0x3.
Definition SYS_REG_BW_CH (x c : Z) : Z := bits x (of_ch c 18 2) 0x3.
Definition SYS_REG_ROW34_CH (x c : Z) : Z := bits x (of_ch c 31 30) 0x1.
Definition SYS_REG_DBW_CH (x c : Z) : Z := bits x (of_ch c 16 0) 0x3.

Definition SYS_REG1_VERSION (x : Z) : Z := bits x 28 0xF.
Definition SYS_REG1_CS0_ROW_CH_HI (x c : Z) : Z := bits x (of_ch c 7 5) 0x1.
Definition SYS_REG1_CS1_ROW_CH_HI (x c : Z) : Z := bits x (of_ch c 6 4) 0x1.
Definition SYS_REG1_CS1_COL_CH (x c : Z) : Z := bits x (of_ch c 2 0) 0x3.

(** A shift of a 32-bit integer; by a negative amount or by 32 and more the
    behaviour is undefined. *)
Definition shift {S} (op : Z -> Z -> Z) (a n : Z) : M S Z := if (0 <=? n) && (n <? 32) then mret (op a n) else stopM Fault.

(** The row bits of a chip select, from its two fields. *)
Definition row_bits (Hi Lo : Z) : Z := if Z.shiftl Hi 2 + Lo =? 7 then 12 else 13 + Z.shiftl Hi 2 + Lo.

Section sdram.
Context {H : Type} `{MM : Mmio H} {BB : Build}.

(** The body of the loop over the channels: the size in MB. *)
Definition channel_size_mb (OsReg OsReg1 Ch : Z) : M H Z :=
  let Rank := 1 + SYS_REG_RANK_CH OsReg Ch in
  let Cs0Col := 9 + SYS_REG_COL_CH OsReg Ch in
  let Bk := 3 - SYS_REG_BK_CH OsReg Ch in
  let '(Cs1Col, Cs0Row, Cs1Row) :=
    if 0x2 <=? SYS_REG1_VERSION OsReg1 then
      (9 + SYS_REG1_CS1_COL_CH OsReg1 Ch,
       row_bits (SYS_REG1_CS0_ROW_CH_HI OsReg1 Ch) (SYS_REG_CS0_ROW_CH_LO OsReg Ch),
       row_bits (SYS_REG1_CS1_ROW_CH_HI OsReg1 Ch) (SYS_REG_CS1_ROW_CH_LO OsReg Ch))
    else (Cs0Col, 13 + SYS_REG_CS0_ROW_CH_LO OsReg Ch, 13 + SYS_REG_CS1_ROW_CH_LO OsReg Ch) in
  let Bw := Z.shiftr 2 (SYS_REG_BW_CH OsReg Ch) in
  let Row34 := SYS_REG_ROW34_CH OsReg Ch in
  let Bg :=
    if (SYS_REG_DDRTYPE OsReg =? SDRAM_DDR4) && negb (SYS_REG1_VERSION OsReg1 =? 0x3) then
      if SYS_REG_DBW_CH OsReg Ch =? 2 then 2 else 1
    else 0 in
  ChSizeMb ← shift Z.shiftl 1 (Cs0Row + Cs0Col + Bk + Bg + Bw - 20);
  ChSizeMb ←
    (if 1 <? Rank then
       Cs1SizeMb ← shift Z.shiftr ChSizeMb ((Cs0Row - Cs1Row) + (Cs0Col - Cs1Col));
       mret (ChSizeMb + Cs1SizeMb)
     else mret ChSizeMb);
  mret (if negb (Row34 =? 0) then ChSizeMb * 3 / 4 else ChSizeMb).

Fixpoint sum_channels (n : nat) (OsReg OsReg1 Ch SizeMb : Z) : M H Z :=
  match n with
  | O => mret SizeMb
  | S n =>
      ChSizeMb ← channel_size_mb OsReg OsReg1 Ch;
      sum_channels n OsReg OsReg1 (Ch + 1) (SizeMb + ChSizeMb)
  end.

Definition SdramGetMemorySize : M H Z :=
  OsReg ← MmioRead32 PMU_GRF_OS_REG2;
  OsReg1 ← MmioRead32 PMU_GRF_OS_REG3;
  let ChNum := 1 + SYS_REG_CHANNELNUM OsReg in
  SizeMb ← sum_channels (Z.to_nat ChNum) OsReg OsReg1 0 0;
  ASSERT (negb (SizeMb =? 0));;
  mret (u64 (u64 SizeMb * 1024 * 1024)).
End sdram.

(** ** The table of regions *)

Inductive ARM_MEMORY_REGION_ATTRIBUTES :=
  REGION_ATTRIBUTE_NONE | ARM_MEMORY_REGION_ATTRIBUTE_UNCACHED_UNBUFFERED | ARM_MEMORY_REGION_ATTRIBUTE_WRITE_BACK | ARM_MEMORY_REGION_ATTRIBUTE_DEVICE.

Record ARM_MEMORY_REGION_DESCRIPTOR := Region { PhysicalBase : Z; VirtualBase : Z; Length : Z; Attributes : ARM_MEMORY_REGION_ATTRIBUTES }.

Definition RK356X_MEM_UNMAPPED_REGION : Z := 0.
Definition RK356X_MEM_BASIC_REGION : Z := 1.
Definition RK356X_MEM_RUNTIME_REGION : Z := 2.
Definition RK356X_MEM_RESERVED_REGION : Z := 3.

(** The type of a [RK356X_MEMORY_REGION_INFO]; its name is printed only. *)
Abbreviation REGION_TYPE := Z.

Definition MAX_VIRTUAL_MEMORY_MAP_DESCRIPTORS : Z := 11.

(** The layout of a platform, fixed when it is built. *)
Class MemoryPcds := {
  PcdSystemMemoryBase : Z;
  PcdReservedBaseAddress : Z; PcdReservedSize : Z;
  PcdTfaBaseAddress : Z; PcdTfaSize : Z;
  PcdOpteeBaseAddress : Z; PcdOpteeSize : Z;
  PcdFdBaseAddress : Z; PcdFdSize : Z;
  PcdFdtBaseAddress : Z; PcdFdtSize : Z;
  PcdFlashNvStorageVariableSize : Z; PcdFlashNvStorageFtwWorkingSize : Z; PcdFlashNvStorageFtwSpareSize : Z;
  PcdNvStorageEventLogSize : Z;
  PcdPrePiProduceMemoryTypeInformationHob : bool
}.

(** What the code asks of the services. *)
Inductive hob :=
| ResourceDescriptorHob (Base Len : Z)         (* tested system memory *)
| MemoryAllocationHob (Base Len Type_ : Z)
| MemoryTypeInformationHob.

Definition EfiReservedMemoryType : Z := 0.
Definition EfiRuntimeServicesData : Z := 6.

(** The static variables, what was asked of the services, and the hardware. *)
Record pei (H : Type) := Pei {
  VirtualMemoryInfoInitialized : bool;
  VirtualMemoryInfo : list REGION_TYPE;
  hobs : list hob;
  mmu : option (list ARM_MEMORY_REGION_DESCRIPTOR);
  pbus : H
}.
Arguments Pei {H}.
Arguments VirtualMemoryInfoInitialized {H} _.
Arguments VirtualMemoryInfo {H} _.
Arguments hobs {H} _.
Arguments mmu {H} _.
Arguments pbus {H} _.

Section memory.
Context {H : Type} `{MM : Mmio H} {BB : Build} {P : MemoryPcds}.
Abbreviation PEI := (M (pei H)).

Definition VariablesSize : Z :=
  u32 (PcdFlashNvStorageVariableSize + PcdFlashNvStorageFtwWorkingSize + PcdFlashNvStorageFtwSpareSize + PcdNvStorageEventLogSize).

Definition VariablesBase : Z := u64 (PcdFdBaseAddress + PcdFdSize - VariablesSize).

Definition mSystemMemoryBase : Z := PcdSystemMemoryBase.

Definition at_base (Base Len : Z) (Attrs : ARM_MEMORY_REGION_ATTRIBUTES) : ARM_MEMORY_REGION_DESCRIPTOR := Region Base Base Len Attrs.

(** The entries of both tables, in the order of the code. *)
Definition regions (mSystemMemorySize : Z) : list (ARM_MEMORY_REGION_DESCRIPTOR * REGION_TYPE) :=
  [(at_base PcdReservedBaseAddress PcdReservedSize ARM_MEMORY_REGION_ATTRIBUTE_DEVICE, RK356X_MEM_UNMAPPED_REGION);
   (at_base 0x300000000 0xC0C00000 ARM_MEMORY_REGION_ATTRIBUTE_DEVICE, RK356X_MEM_UNMAPPED_REGION);
   (at_base mSystemMemoryBase (Z.min mSystemMemorySize 0xF0000000) ARM_MEMORY_REGION_ATTRIBUTE_WRITE_BACK, RK356X_MEM_BASIC_REGION)] ++
  (if 0x100000000 <? u64 (mSystemMemoryBase + mSystemMemorySize) then
     [(at_base 0x100000000 (u64 (mSystemMemoryBase + mSystemMemorySize - 0x100000000)) ARM_MEMORY_REGION_ATTRIBUTE_WRITE_BACK, RK356X_MEM_BASIC_REGION)]
   else []) ++
  [(at_base PcdTfaBaseAddress PcdTfaSize ARM_MEMORY_REGION_ATTRIBUTE_UNCACHED_UNBUFFERED, RK356X_MEM_RESERVED_REGION);
   (at_base PcdOpteeBaseAddress PcdOpteeSize ARM_MEMORY_REGION_ATTRIBUTE_WRITE_BACK, RK356X_MEM_RESERVED_REGION);
   (at_base 0x10f000 0x1000 ARM_MEMORY_REGION_ATTRIBUTE_UNCACHED_UNBUFFERED, RK356X_MEM_RESERVED_REGION);
   (at_base PcdFdBaseAddress (u32 (PcdFdSize - VariablesSize)) ARM_MEMORY_REGION_ATTRIBUTE_WRITE_BACK, RK356X_MEM_RESERVED_REGION);
   (at_base VariablesBase VariablesSize ARM_MEMORY_REGION_ATTRIBUTE_WRITE_BACK, RK356X_MEM_RUNTIME_REGION);
   (at_base PcdFdtBaseAddress PcdFdtSize ARM_MEMORY_REGION_ATTRIBUTE_WRITE_BACK, RK356X_MEM_RESERVED_REGION)].

Definition end_of_table : ARM_MEMORY_REGION_DESCRIPTOR := at_base 0 0 REGION_ATTRIBUTE_NONE.

Definition on_bus {A} (c : M H A) : PEI A := zoom pbus (fun h s => Pei (VirtualMemoryInfoInitialized s) (VirtualMemoryInfo s) (hobs s) (mmu s) h) c.
Definition set_info (infos : list REGION_TYPE) (s : pei H) : pei H := Pei (VirtualMemoryInfoInitialized s) infos (hobs s) (mmu s) (pbus s).
Definition set_initialized (s : pei H) : pei H := Pei true (VirtualMemoryInfo s) (hobs s) (mmu s) (pbus s).
Definition build_hob (x : hob) : PEI unit := modify (fun s => Pei (VirtualMemoryInfoInitialized s) (VirtualMemoryInfo s) (hobs s ++ [x]) (mmu s) (pbus s)).

(** [None]: the table could not be allocated, and the caller's pointer is not set. *)
Definition ArmPlatformGetVirtualMemoryMap (allocated : bool) : PEI (option (list ARM_MEMORY_REGION_DESCRIPTOR)) :=
  mSystemMemorySize ← on_bus SdramGetMemorySize;
  if negb allocated then mret None else
  let R := regions mSystemMemorySize in
  modify (set_info R.*2);;
  let Table := R.*1 ++ [end_of_table] in
  ASSERT (Z.of_nat (length Table) <=? MAX_VIRTUAL_MEMORY_MAP_DESCRIPTORS);;
  modify set_initialized;;
  mret (Some Table).

(** [None]: the caller's pointer is not set. *)
Definition Rk356xPlatformGetVirtualMemoryInfo : PEI (option (list REGION_TYPE)) :=
  b ← gets VirtualMemoryInfoInitialized;
  if negb b then mret None else
  i ← gets VirtualMemoryInfo;
  mret (Some i).

Definition InitMmu (MemoryTable : list ARM_MEMORY_REGION_DESCRIPTOR) : PEI unit :=
  modify (fun s => Pei (VirtualMemoryInfoInitialized s) (VirtualMemoryInfo s) (hobs s) (Some MemoryTable) (pbus s)).

Definition AddBasicMemoryRegion (Desc : ARM_MEMORY_REGION_DESCRIPTOR) : PEI unit :=
  build_hob (ResourceDescriptorHob (PhysicalBase Desc) (Length Desc)).

Definition AddRuntimeServicesRegion (Desc : ARM_MEMORY_REGION_DESCRIPTOR) : PEI unit :=
  AddBasicMemoryRegion Desc;;
  build_hob (MemoryAllocationHob (PhysicalBase Desc) (Length Desc) EfiRuntimeServicesData).

Definition AddUnmappedMemoryRegion (Desc : ARM_MEMORY_REGION_DESCRIPTOR) : PEI unit := mret tt.

Definition AddReservedMemoryRegion (Desc : ARM_MEMORY_REGION_DESCRIPTOR) : PEI unit :=
  AddBasicMemoryRegion Desc;;
  build_hob (MemoryAllocationHob (PhysicalBase Desc) (Length Desc) EfiReservedMemoryType).

Definition AddRegion : list (ARM_MEMORY_REGION_DESCRIPTOR -> PEI unit) :=
  [AddUnmappedMemoryRegion; AddBasicMemoryRegion; AddRuntimeServicesRegion; AddReservedMemoryRegion].

(** [for (Index = 0; MemoryTable[Index].Length != 0; Index++)]: past the end of
    a table the access is a fault. *)
Fixpoint register_regions (MemoryTable : list ARM_MEMORY_REGION_DESCRIPTOR) (MemoryInfo : list REGION_TYPE) : PEI unit :=
  match MemoryTable with
  | [] => stopM Fault
  | Desc :: MemoryTable =>
      if Length Desc =? 0 then mret tt else
      match MemoryInfo with
      | [] => stopM Fault
      | Type_ :: MemoryInfo =>
          ASSERT (Type_ <? Z.of_nat (length AddRegion));;
          (match AddRegion !! Z.to_nat Type_ with Some add => add Desc | None => stopM Fault end);;
          register_regions MemoryTable MemoryInfo
      end
  end.

Definition MemoryPeim (allocated : bool) : PEI Z :=
  MemoryTable ← ArmPlatformGetVirtualMemoryMap allocated;
  MemoryInfo ← Rk356xPlatformGetVirtualMemoryInfo;
  match MemoryTable, MemoryInfo with
  | Some MemoryTable, Some MemoryInfo =>
      register_regions MemoryTable MemoryInfo;;
      InitMmu MemoryTable;;
      (if PcdPrePiProduceMemoryTypeInformationHob then build_hob MemoryTypeInformationHob else mret tt);;
      mret EFI_SUCCESS
  | _, _ => stopM Fault
  end.
End memory.

(** * Properties of the memory of the RK356x

    The size is that of the chips the registers describe, and the hand-off
    blocks describe exactly that memory and what is taken from it. *)

(** ** Geometry of DRAM

    A chip select has [2 ^ row] rows of [2 ^ col] columns in each of its
    banks, and a column is as wide as the bus; some parts lack a quarter of
    their rows. *)

Record geometry := Geometry { two_ranks : bool; cs0 : Z * Z; cs1 : Z * Z; banks : Z; bank_groups : Z; bus_bytes : Z; three_quarters : bool }.

Definition row_code (v : Z) : Z := if v =? 7 then 12 else 13 + v.

Definition channel_geometry (r2 r3 c : Z) : geometry :=
  let f shift mask := bits r2 (shift + 16 * c) mask in
  let wide := 2 <=? bits r3 28 15 in
  let row lo hi := if wide then row_code (4 * bits r3 (hi + 2 * c) 1 + f lo 3) else 13 + f lo 3 in
  Geometry (f 11 1 =? 1) (row 6 5, 9 + f 9 3) (row 4 4, if wide then 9 + bits r3 (2 * c) 3 else 9 + f 9 3)
    (if f 8 1 =? 0 then 8 else 4)
    (if (bits r2 13 7 =? 0) && negb (bits r3 28 15 =? 3) then if f 0 3 =? 2 then 4 else 2 else 1)
    (if f 2 3 =? 0 then 4 else if f 2 3 =? 1 then 2 else 1)
    (bits r2 (30 + c) 1 =? 1).

Definition cs_bytes (g : geometry) (rc : Z * Z) : Z := 2 ^ rc.1 * 2 ^ rc.2 * banks g * bank_groups g * bus_bytes g.

Definition channel_bytes (g : geometry) : Z :=
  let all := cs_bytes g (cs0 g) + (if two_ranks g then cs_bytes g (cs1 g) else 0) in
  if three_quarters g then all / 4 * 3 else all.

(** The second chip select is no larger than the first. *)
Definition channel_ok (g : geometry) : bool := negb (two_ranks g) || (cs_bytes g (cs1 g) <=? cs_bytes g (cs0 g)).

Definition geometries (r2 r3 : Z) : list geometry := channel_geometry r2 r3 <$> seqZ 0 (1 + bits r2 12 1).

Definition dram_size (r2 r3 : Z) : option Z :=
  if forallb channel_ok (geometries r2 r3) then Some (foldr Z.add 0 (channel_bytes <$> geometries r2 r3)) else None.

(** ** The size *)

Lemma bit_field_range x s w : 0 <= w -> 0 <= bits x s (Z.ones w) < 2 ^ w.
Proof. intros Hw. unfold bits. rewrite Z.land_ones by done. apply Z.mod_pos_bound. lia. Qed.

Lemma bit_range x s : bits x s 1 = 0 \/ bits x s 1 = 1.
Proof. pose proof (bit_field_range x s 1 ltac:(lia)) as B. change (Z.ones 1) with 1 in B. lia. Qed.

Lemma bits2_range x s : 0 <= bits x s 3 <= 3.
Proof. pose proof (bit_field_range x s 2 ltac:(lia)) as B. change (Z.ones 2) with 3 in B. lia. Qed.

Lemma shift_defined {S} op a n (s : S) : 0 <= n < 32 -> shift op a n s = Ret (op a n) s.
Proof. intros Hn. unfold shift. rewrite (proj2 (Z.leb_le 0 n)), (proj2 (Z.ltb_lt n 32)) by lia. done. Qed.

Lemma shift_fault {S} op a n (s : S) : n < 0 -> shift op a n s = Stop Fault.
Proof. intros Hn. unfold shift. by rewrite (proj2 (Z.leb_gt 0 n)). Qed.

(** The exponents of the bytes of a column. *)
Definition column_bits (g : geometry) (k : Z) : Prop := banks g * bank_groups g * bus_bytes g = 2 ^ k /\ 2 <= k <= 7.

Lemma cs_bytes_pow g k row col : column_bits g k -> 0 <= row -> 0 <= col -> cs_bytes g (row, col) = 2 ^ (row + col + k).
Proof. intros [E ?] Hr Hc. unfold cs_bytes. cbn [fst snd]. rewrite !Z.pow_add_r by lia. nia. Qed.

Lemma row_range v : 0 <= v <= 7 -> 12 <= row_code v <= 19.
Proof. intros ?. unfold row_code. destruct (Z.eqb_spec v 7); lia. Qed.

(** The size of a channel, as the code computes it from the exponents. *)
Lemma mb_bytes g k r0 c0 r1 c1 : column_bits g k -> cs0 g = (r0, c0) -> cs1 g = (r1, c1) ->
  12 <= r0 <= 19 -> 9 <= c0 <= 12 -> 12 <= r1 <= 19 -> 9 <= c1 <= 12 ->
  (two_ranks g = true -> r1 + c1 <= r0 + c0) ->
  channel_bytes g = 2 ^ 20 *
    (let one := 2 ^ (r0 + c0 + k - 20) in
     let all := if two_ranks g then one + Z.shiftr one (r0 - r1 + (c0 - c1)) else one in
     if three_quarters g then all * 3 / 4 else all) /\ 0 < channel_bytes g < 2 ^ 42.
Proof.
  intros K E0 E1 H0 H1 H2 H3 Hle. destruct K as [Kb Kr] eqn:HK. clear HK. unfold channel_bytes. rewrite E0, E1.
  rewrite !(cs_bytes_pow g k) by (done || lia).
  assert (P : forall e, 23 <= e -> 2 ^ e = 2 ^ 20 * (4 * 2 ^ (e - 22))) by
    (intros e He; change 4 with (2 ^ 2); rewrite <- !Z.pow_add_r by lia; f_equal; lia).
  assert (Q : forall e, 23 <= e -> 2 ^ (e - 20) = 4 * 2 ^ (e - 22)) by
    (intros e He; change 4 with (2 ^ 2); rewrite <- !Z.pow_add_r by lia; f_equal; lia).
  assert (R : forall e, 23 <= e <= 38 -> 0 < 2 ^ (e - 22) <= 2 ^ 16) by
    (intros e He; split; [apply Z.pow_pos_nonneg; lia | apply Z.pow_le_mono_r; lia]).
  destruct (two_ranks g).
  - rewrite Z.shiftr_div_pow2, <- Z.pow_sub_r by lia.
    replace (r0 + c0 + k - 20 - (r0 - r1 + (c0 - c1))) with (r1 + c1 + k - 20) by lia.
    rewrite (P (r0 + c0 + k)), (P (r1 + c1 + k)), (Q (r0 + c0 + k)), (Q (r1 + c1 + k)) by lia.
    pose proof (R (r0 + c0 + k) ltac:(lia)) as R0. pose proof (R (r1 + c1 + k) ltac:(lia)) as R1.
    set (x := 2 ^ (r0 + c0 + k - 22)) in *. set (y := 2 ^ (r1 + c1 + k - 22)) in *. cbv zeta.
    destruct (three_quarters g).
    + replace ((4 * x + 4 * y) * 3) with ((x + y) * 3 * 4) by lia.
      replace (2 ^ 20 * (4 * x) + 2 ^ 20 * (4 * y)) with (2 ^ 20 * (x + y) * 4) by lia.
      rewrite !Z.div_mul by lia. lia.
    + lia.
  - rewrite (P (r0 + c0 + k)), (Q (r0 + c0 + k)) by lia. pose proof (R (r0 + c0 + k) ltac:(lia)) as R0.
    set (x := 2 ^ (r0 + c0 + k - 22)) in *. cbv zeta. destruct (three_quarters g).
    + replace (4 * x * 3) with (x * 3 * 4) by lia. replace (2 ^ 20 * (4 * x) + 0) with (2 ^ 20 * x * 4) by lia.
      rewrite !Z.div_mul by lia. lia.
    + lia.
Qed.

Lemma row_bits_code hi lo : row_bits hi lo = row_code (4 * hi + lo).
Proof. unfold row_bits, row_code. rewrite Z.shiftl_mul_pow2 by lia. replace (hi * 2 ^ 2 + lo) with (4 * hi + lo) by lia. destruct (_ =? 7); lia. Qed.

Section size.
Context {H : Type} `{MM : Mmio H} {BB : Build}.
Implicit Types h : H.

(** What is left of a channel once its fields are decoded. *)
Definition size_of (two tq : bool) (e0 d : Z) : M H Z :=
  one ← shift Z.shiftl 1 e0;
  all ← (if two then Cs1 ← shift Z.shiftr one d; mret (one + Cs1) else mret one);
  mret (if tq then all * 3 / 4 else all).

Lemma channel_decoded r2 r3 c : c = 0 \/ c = 1 -> let g := channel_geometry r2 r3 c in
  exists r0 c0 r1 c1 k, cs0 g = (r0, c0) /\ cs1 g = (r1, c1) /\ column_bits g k /\
    12 <= r0 <= 19 /\ 9 <= c0 <= 12 /\ 12 <= r1 <= 19 /\ 9 <= c1 <= 12 /\
    forall h, channel_size_mb r2 r3 c h = size_of (two_ranks g) (three_quarters g) (r0 + c0 + k - 20) (r0 - r1 + (c0 - c1)) h.
Proof.
  intros Hc g.
  assert (S : forall a b, of_ch c a b = b + (a - b) * c) by (intros a b; unfold of_ch; destruct Hc as [-> | ->]; cbn; lia).
  assert (K : exists k, column_bits g k /\
    k = (3 - bits r2 (8 + 16 * c) 1) + (if (bits r2 13 7 =? 0) && negb (bits r3 28 15 =? 3) then if bits r2 (0 + 16 * c) 3 =? 2 then 2 else 1 else 0) +
        Z.shiftr 2 (bits r2 (2 + 16 * c) 3)).
  { eexists. split; [|reflexivity]. unfold column_bits, g. cbn [banks bank_groups bus_bytes channel_geometry].
    pose proof (bits2_range r2 (2 + 16 * c)) as B.
    assert (W : bits r2 (2 + 16 * c) 3 = 0 \/ bits r2 (2 + 16 * c) 3 = 1 \/ bits r2 (2 + 16 * c) 3 = 2 \/ bits r2 (2 + 16 * c) 3 = 3) by lia.
    destruct (bit_range r2 (8 + 16 * c)) as [-> | ->], ((bits r2 13 7 =? 0) && negb (bits r3 28 15 =? 3)), (bits r2 (0 + 16 * c) 3 =? 2), W as [-> | [-> | [-> | ->]]]; (split; [reflexivity | split; vm_compute; discriminate]). }
  destruct K as (k & K & Ek).
  exists (cs0 g).1, (cs0 g).2, (cs1 g).1, (cs1 g).2, k. split; [by destruct (cs0 g)|]. split; [by destruct (cs1 g)|]. split; [done|].
  assert (E : forall h, channel_size_mb r2 r3 c h = size_of (two_ranks g) (three_quarters g) ((cs0 g).1 + (cs0 g).2 + k - 20) ((cs0 g).1 - (cs1 g).1 + ((cs0 g).2 - (cs1 g).2)) h).
  { intros h. unfold channel_size_mb, SYS_REG_RANK_CH, SYS_REG_COL_CH, SYS_REG_BK_CH, SYS_REG_CS0_ROW_CH_LO, SYS_REG_CS1_ROW_CH_LO, SYS_REG_BW_CH,
      SYS_REG_ROW34_CH, SYS_REG_DBW_CH, SYS_REG_DDRTYPE, SYS_REG1_VERSION, SYS_REG1_CS0_ROW_CH_HI, SYS_REG1_CS1_ROW_CH_HI, SYS_REG1_CS1_COL_CH, SDRAM_DDR4.
    rewrite !S, !row_bits_code. unfold g. cbn [cs0 cs1 two_ranks three_quarters channel_geometry fst snd].
    replace (11 + (27 - 11) * c) with (11 + 16 * c) by lia. replace (9 + (25 - 9) * c) with (9 + 16 * c) by lia.
    replace (8 + (24 - 8) * c) with (8 + 16 * c) by lia. replace (6 + (22 - 6) * c) with (6 + 16 * c) by lia.
    replace (4 + (20 - 4) * c) with (4 + 16 * c) by lia. replace (2 + (18 - 2) * c) with (2 + 16 * c) by lia.
    replace (30 + (31 - 30) * c) with (30 + c) by lia. replace (0 + (16 - 0) * c) with (0 + 16 * c) by lia.
    replace (5 + (7 - 5) * c) with (5 + 2 * c) by lia. replace (4 + (6 - 4) * c) with (4 + 2 * c) by lia. replace (0 + (2 - 0) * c) with (2 * c) by lia.
    assert (R1 : (1 <? 1 + bits r2 (11 + 16 * c) 1) = (bits r2 (11 + 16 * c) 1 =? 1)) by (by destruct (bit_range r2 (11 + 16 * c)) as [-> | ->]).
    assert (R2 : negb (bits r2 (30 + c) 1 =? 0) = (bits r2 (30 + c) 1 =? 1)) by (by destruct (bit_range r2 (30 + c)) as [-> | ->]).
    rewrite Ek. unfold size_of. destruct (2 <=? bits r3 28 15); cbv zeta; rewrite R1, R2.
    all: match goal with |- mbind ?k (shift _ _ ?a) _ = mbind ?k' (shift _ _ ?b) _ => replace b with a by lia end; reflexivity. }
  pose proof (bits2_range r2 (6 + 16 * c)). pose proof (bits2_range r2 (4 + 16 * c)). pose proof (bits2_range r2 (9 + 16 * c)). pose proof (bits2_range r3 (2 * c)).
  pose proof (bit_range r3 (5 + 2 * c)). pose proof (bit_range r3 (4 + 2 * c)).
  pose proof (row_range (4 * bits r3 (5 + 2 * c) 1 + bits r2 (6 + 16 * c) 3) ltac:(lia)).
  pose proof (row_range (4 * bits r3 (4 + 2 * c) 1 + bits r2 (4 + 16 * c) 3) ltac:(lia)).
  unfold g in *. cbn [cs0 cs1 channel_geometry fst snd] in *. destruct (2 <=? bits r3 28 15); repeat (split; [lia|]); exact E.
Qed.

Lemma size_of_spec g k r0 c0 r1 c1 h : cs0 g = (r0, c0) -> cs1 g = (r1, c1) -> column_bits g k ->
  12 <= r0 <= 19 -> 9 <= c0 <= 12 -> 12 <= r1 <= 19 -> 9 <= c1 <= 12 ->
  let run := size_of (two_ranks g) (three_quarters g) (r0 + c0 + k - 20) (r0 - r1 + (c0 - c1)) h in
  (if channel_ok g
   then exists mb, run = Ret mb h /\ channel_bytes g = 2 ^ 20 * mb /\ 0 < channel_bytes g < 2 ^ 42
   else run = Stop Fault).
Proof.
  intros E0 E1 K H0 H1 H2 H3. cbn zeta. assert (K' := K). destruct K' as [_ Kr].
  assert (O : channel_ok g = negb (two_ranks g) || (r1 + c1 <=? r0 + c0)).
  { unfold channel_ok. rewrite E0, E1, !(cs_bytes_pow g k) by (done || lia). f_equal. apply eq_bool_prop_intro.
    rewrite !Is_true_true, !Z.leb_le. rewrite <- (Z.pow_le_mono_r_iff 2) by lia. lia. }
  rewrite O. unfold size_of. destruct (negb (two_ranks g) || (r1 + c1 <=? r0 + c0)) eqn:D.
  - assert (Hle : two_ranks g = true -> r1 + c1 <= r0 + c0) by (intros T; rewrite T in D; by apply Z.leb_le).
    destruct (mb_bytes g k r0 c0 r1 c1 K E0 E1 H0 H1 H2 H3 Hle) as [B1 B2]. cbv zeta in B1.
    eexists. split; [|split; [exact B1 | exact B2]].
    rewrite (bind_Ret _ _ _ _ _ (shift_defined Z.shiftl 1 (r0 + c0 + k - 20) h ltac:(lia))), Z.shiftl_1_l.
    destruct (two_ranks g).
    + specialize (Hle eq_refl). erewrite bind_Ret; [reflexivity|]. by rewrite (bind_Ret _ _ _ _ _ (shift_defined Z.shiftr _ (r0 - r1 + (c0 - c1)) h ltac:(lia))).
    + by rewrite (bind_Ret (mret _) _ h _ h eq_refl).
  - destruct (two_ranks g); [|done]. cbn in D. apply Z.leb_gt in D.
    rewrite (bind_Ret _ _ _ _ _ (shift_defined Z.shiftl 1 (r0 + c0 + k - 20) h ltac:(lia))), Z.shiftl_1_l.
    unfold mbind, M_bind. by rewrite shift_fault by lia.
Qed.

Lemma channel_spec r2 r3 c h : c = 0 \/ c = 1 -> let g := channel_geometry r2 r3 c in
  (if channel_ok g
   then exists mb, channel_size_mb r2 r3 c h = Ret mb h /\ channel_bytes g = 2 ^ 20 * mb /\ 0 < channel_bytes g < 2 ^ 42
   else channel_size_mb r2 r3 c h = Stop Fault).
Proof.
  intros Hc g. destruct (channel_decoded r2 r3 c Hc) as (r0 & c0 & r1 & c1 & k & E0 & E1 & K & H0 & H1 & H2 & H3 & E). fold g in E0, E1, K, E.
  rewrite E. by apply size_of_spec.
Qed.

Lemma sum_channels_step n r2 r3 c mb h : c = 0 \/ c = 1 ->
  sum_channels (S n) r2 r3 c mb h =
  (if channel_ok (channel_geometry r2 r3 c) then sum_channels n r2 r3 (c + 1) (mb + channel_bytes (channel_geometry r2 r3 c) / 2 ^ 20) h else Stop Fault).
Proof.
  intros Hc. cbn [sum_channels]. pose proof (channel_spec r2 r3 c h Hc) as E. cbn zeta in E. destruct (channel_ok _).
  - destruct E as (m & E1 & E2 & _). rewrite (bind_Ret _ _ _ _ _ E1), E2, (Z.mul_comm (2 ^ 20)), Z.div_mul by lia. done.
  - unfold mbind, M_bind. by rewrite E.
Qed.

Lemma channel_whole r2 r3 c h : c = 0 \/ c = 1 -> channel_ok (channel_geometry r2 r3 c) = true ->
  exists mb, channel_bytes (channel_geometry r2 r3 c) = 2 ^ 20 * mb /\ 0 < mb < 2 ^ 22.
Proof.
  intros Hc Ho. pose proof (channel_spec r2 r3 c h Hc) as E. cbn zeta in E. rewrite Ho in E. destruct E as (mb & _ & E1 & E2). exists mb. lia.
Qed.

(** C33: The memory size is that of the chips the boot loader describes.  For
    any contents of the two registers, the result is the sum over the channels
    of rows times columns times banks times the width of the bus, less the
    quarter some parts lack, with no overflow; only a second rank that is larger
    than the first has no result, as the code shifts by a negative amount. *)
Theorem SdramGetMemorySize_correct h :
  let r := mmio_read32 PMU_GRF_OS_REG2 h in
  let r' := mmio_read32 PMU_GRF_OS_REG3 r.2 in
  SdramGetMemorySize h = match dram_size (u32 r.1) (u32 r'.1) with Some n => Ret n r'.2 | None => Stop Fault end.
Proof.
  cbn zeta. unfold SdramGetMemorySize, MmioRead32, mbind, M_bind.
  destruct (mmio_read32 PMU_GRF_OS_REG2 h) as [v2 h1] eqn:E2. cbn [fst snd]. destruct (mmio_read32 PMU_GRF_OS_REG3 h1) as [v3 h2] eqn:E3. cbn [fst snd].
  set (r2 := u32 v2). set (r3 := u32 v3). unfold SYS_REG_CHANNELNUM, dram_size, geometries.
  assert (N : forall m, m <> 0 -> 0 <= m < 2 ^ 23 -> u64 (u64 m * 1024 * 1024) = 2 ^ 20 * m).
  { intros m Hm Hr. rewrite (wrap_small 64 m), wrap_small by (unfold in_word; lia). lia. }
  destruct (bit_range r2 12) as [-> | ->].
  - change (seqZ 0 (1 + 0)) with [0]. change (Z.to_nat (1 + 0)) with 1%nat. cbn [fmap list_fmap forallb foldr].
    rewrite sum_channels_step, andb_true_r by auto. destruct (channel_ok (channel_geometry r2 r3 0)) eqn:O; [|done].
    destruct (channel_whole r2 r3 0 h2 ltac:(auto) O) as (m & Em & Hm). cbn [sum_channels]. rewrite Em, (Z.mul_comm (2 ^ 20)), Z.div_mul by lia.
    unfold mret, M_ret, ASSERT. rewrite (proj2 (Z.eqb_neq (0 + m) 0)) by lia. cbn [negb]. unfold mret, M_ret. rewrite N by lia. f_equal. lia.
  - change (seqZ 0 (1 + 1)) with [0; 1]. change (Z.to_nat (1 + 1)) with 2%nat. cbn [fmap list_fmap forallb foldr].
    rewrite sum_channels_step, andb_true_r by auto. destruct (channel_ok (channel_geometry r2 r3 0)) eqn:O; [|done]. cbn [andb].
    change (0 + 1) with 1. rewrite sum_channels_step by auto. destruct (channel_ok (channel_geometry r2 r3 1)) eqn:O'; [|done].
    destruct (channel_whole r2 r3 0 h2 ltac:(auto) O) as (m & Em & Hm). destruct (channel_whole r2 r3 1 h2 ltac:(auto) O') as (m' & Em' & Hm').
    cbn [sum_channels]. rewrite Em, Em', !(Z.mul_comm (2 ^ 20)), !Z.div_mul by lia.
    unfold mret, M_ret, ASSERT. rewrite (proj2 (Z.eqb_neq (0 + m + m') 0)) by lia. cbn [negb]. unfold mret, M_ret. rewrite N by lia. f_equal. lia.
Qed.
End size.

(** ** The hand-off blocks *)

Definition inside (x Base Len : Z) : Prop := Base <= x < Base + Len.

(** Addresses that are declared as system memory, and as taken for a type. *)
Definition declared (L : list hob) (x : Z) : Prop := exists b n, ResourceDescriptorHob b n ∈ L /\ inside x b n.
Definition allocated (L : list hob) (t x : Z) : Prop := exists b n, MemoryAllocationHob b n t ∈ L /\ inside x b n.

(** What the chip decodes as DRAM: the space from 0xF0000000 is for devices,
    and what lies behind 4 GB follows it. *)
Definition dram (size x : Z) : Prop := 0 <= x < Z.min size 0xF0000000 \/ 0x100000000 <= x < size.

Definition region_hobs (r : ARM_MEMORY_REGION_DESCRIPTOR * REGION_TYPE) : list hob :=
  let res := ResourceDescriptorHob (PhysicalBase r.1) (Length r.1) in
  if r.2 =? 1 then [res]
  else if r.2 =? 2 then [res; MemoryAllocationHob (PhysicalBase r.1) (Length r.1) EfiRuntimeServicesData]
  else if r.2 =? 3 then [res; MemoryAllocationHob (PhysicalBase r.1) (Length r.1) EfiReservedMemoryType]
  else [].

Definition all_hobs (R : list (ARM_MEMORY_REGION_DESCRIPTOR * REGION_TYPE)) : list hob := mjoin (region_hobs <$> R).

(** An entry of the table. *)
Definition entry_ok (r : ARM_MEMORY_REGION_DESCRIPTOR * REGION_TYPE) : Prop := Length r.1 <> 0 /\ 0 <= r.2 < 4.

Section map.
Context {H : Type} `{MM : Mmio H} {BB : Build} {P : MemoryPcds}.
Implicit Types (s : pei H) (h : H).

Lemma add_region d t s : 0 <= t < 4 ->
  (match AddRegion !! Z.to_nat t with Some add => add d | None => stopM Fault end) s =
  Ret tt (Pei (VirtualMemoryInfoInitialized s) (VirtualMemoryInfo s) (hobs s ++ region_hobs (d, t)) (mmu s) (pbus s)).
Proof.
  intros Ht. assert (T : t = 0 \/ t = 1 \/ t = 2 \/ t = 3) by lia.
  destruct T as [-> | [-> | [-> | ->]]].
  - change (region_hobs (d, 0)) with ([] : list hob). rewrite app_nil_r. by destruct s.
  - done.
  - change (region_hobs (d, 2)) with ([ResourceDescriptorHob (PhysicalBase d) (Length d)] ++ [MemoryAllocationHob (PhysicalBase d) (Length d) EfiRuntimeServicesData]).
    by rewrite app_assoc.
  - change (region_hobs (d, 3)) with ([ResourceDescriptorHob (PhysicalBase d) (Length d)] ++ [MemoryAllocationHob (PhysicalBase d) (Length d) EfiReservedMemoryType]).
    by rewrite app_assoc.
Qed.

Lemma register_regions_spec R s : Forall entry_ok R ->
  register_regions (R.*1 ++ [end_of_table]) R.*2 s =
  Ret tt (Pei (VirtualMemoryInfoInitialized s) (VirtualMemoryInfo s) (hobs s ++ all_hobs R) (mmu s) (pbus s)).
Proof.
  revert s. induction R as [|[d t] R IH]; intros s F.
  - cbn. rewrite app_nil_r. by destruct s.
  - apply list.Forall_cons in F as [[Hl Ht] F]. cbn [fst snd] in Hl, Ht.
    change (register_regions (((d, t) :: R).*1 ++ [end_of_table]) ((d, t) :: R).*2 s) with
      (register_regions (d :: R.*1 ++ [end_of_table]) (t :: R.*2) s).
    cbn [register_regions]. rewrite (proj2 (Z.eqb_neq (Length d) 0) Hl).
    change (all_hobs ((d, t) :: R)) with (region_hobs (d, t) ++ all_hobs R).
    replace (t <? Z.of_nat (length AddRegion)) with true by (symmetry; apply Z.ltb_lt; cbn; lia).
    rewrite (bind_Ret (ASSERT true) _ s tt s eq_refl).
    rewrite (bind_Ret _ _ _ _ _ (add_region d t s Ht)), IH by done. cbn. by rewrite app_assoc.
Qed.

(** The layout of a platform: memory from 0, devices from 0xF0000000 to 4 GB,
    and what is taken from the memory below [top]. *)
Definition taken : list (Z * Z * Z) :=
  [(PcdTfaBaseAddress, PcdTfaSize, 0); (PcdOpteeBaseAddress, PcdOpteeSize, 0); (0x10f000, 0x1000, 0);
   (PcdFdBaseAddress, PcdFdSize - VariablesSize, 0); (PcdFdBaseAddress + PcdFdSize - VariablesSize, VariablesSize, 6);
   (PcdFdtBaseAddress, PcdFdtSize, 0)].

Record layout_ok (top : Z) : Prop := {
  base_ok : PcdSystemMemoryBase = 0;
  devices_ok : PcdReservedBaseAddress = 0xF0000000 /\ PcdReservedSize = 0x10000000;
  variables_ok : 0 < VariablesSize < PcdFdSize /\ PcdFdSize < 2 ^ 32;
  top_ok : top <= 0xF0000000;
  taken_ok : Forall (fun '(b, n, _) => 0 <= b /\ 0 < n /\ b + n <= top) taken
}.

(** The table of such a platform: devices, memory, what is taken. *)
Definition device (b n : Z) : ARM_MEMORY_REGION_DESCRIPTOR * REGION_TYPE := (at_base b n ARM_MEMORY_REGION_ATTRIBUTE_DEVICE, 0).
Definition ram (b n : Z) : ARM_MEMORY_REGION_DESCRIPTOR * REGION_TYPE := (at_base b n ARM_MEMORY_REGION_ATTRIBUTE_WRITE_BACK, 1).
Definition memory (size : Z) : list (ARM_MEMORY_REGION_DESCRIPTOR * REGION_TYPE) :=
  ram 0 (Z.min size 0xF0000000) :: (if 0x100000000 <? size then [ram 0x100000000 (size - 0x100000000)] else []).

(** A region at its own address that is not for devices. *)
Definition plain_region (r : ARM_MEMORY_REGION_DESCRIPTOR * REGION_TYPE) : Prop :=
  VirtualBase r.1 = PhysicalBase r.1 /\ Attributes r.1 <> ARM_MEMORY_REGION_ATTRIBUTE_DEVICE.

Lemma regions_split top size : layout_ok top -> 0 < size <= 0x300000000 -> exists K,
  regions size = device 0xF0000000 0x10000000 :: device 0x300000000 0xC0C00000 :: memory size ++ K /\
  ((fun r => (PhysicalBase r.1, Length r.1, r.2)) <$> K) = ((fun '(b, n, t) => (b, n, if t =? 6 then 2 else 3)) <$> taken) /\ Forall plain_region K.
Proof.
  intros [B [D1 D2] [V1 V2] T F] Hs. unfold regions, mSystemMemoryBase. rewrite B, D1, D2, Z.add_0_l.
  rewrite (wrap_small 64 size) by (unfold in_word; lia). eexists. split; [|split].
  - unfold memory, ram, device. destruct (Z.ltb_spec 0x100000000 size).
    + rewrite (wrap_small 64 (size - 0x100000000)) by (unfold in_word; lia). reflexivity.
    + reflexivity.
  - unfold taken in *. cbn. rewrite !list.Forall_cons in F. unfold VariablesBase.
    rewrite (wrap_small 32), (wrap_small 64) by (unfold in_word; lia). done.
  - repeat (apply list.Forall_cons; split; [done|]). done.
Qed.

Lemma taken_entries K top : layout_ok top ->
  ((fun r => (PhysicalBase r.1, Length r.1, r.2)) <$> K) = ((fun '(b, n, t) => (b, n, if t =? 6 then 2 else 3)) <$> taken) ->
  Forall entry_ok K /\
  (forall x, x ∈ all_hobs K <-> exists b n t, (b, n, t) ∈ taken /\ (x = ResourceDescriptorHob b n \/ x = MemoryAllocationHob b n t)).
Proof.
  intros [_ _ _ _ F] E.
  assert (T : Forall (fun '(_, _, t) => t = 0 \/ t = 6) taken) by (unfold taken; repeat (apply list.Forall_cons; split; [by (left + right)|]); done).
  revert K E F T. generalize taken. intros L. induction L as [|[[b n] t] L IH]; intros [|[[pb vb l a] ty] K] E F T; try discriminate.
  - split; [done|]. intros x. split; [by intros ?%elem_of_nil | by intros (b & n & t & ?%elem_of_nil & _)].
  - cbn in E. injection E as -> -> -> E. apply list.Forall_cons in F as [F1 F], T as [T1 T].
    destruct (IH K E F T) as [I1 I2]. split.
    + apply list.Forall_cons. split; [|done]. split; cbn; [lia | destruct (t =? 6); lia].
    + intros x. change (all_hobs ((Region b vb n a, if t =? 6 then 2 else 3) :: K)) with (region_hobs (Region b vb n a, if t =? 6 then 2 else 3) ++ all_hobs K).
      rewrite elem_of_app, I2.
      assert (R : region_hobs (Region b vb n a, if t =? 6 then 2 else 3) = [ResourceDescriptorHob b n; MemoryAllocationHob b n t]) by (by destruct T1 as [-> | ->]).
      rewrite R, !elem_of_cons, elem_of_nil. setoid_rewrite elem_of_cons. split.
      * intros [[-> | [-> | []]] | (b' & n' & t' & ? & ?)]; [exists b, n, t; auto | exists b, n, t; auto | exists b', n', t'; auto].
      * intros (b' & n' & t' & [[= -> -> ->] | ?] & D); [left; tauto|]. right. by exists b', n', t'.
Qed.
Lemma all_hobs_app R R' : all_hobs (R ++ R') = all_hobs R ++ all_hobs R'.
Proof. unfold all_hobs. by rewrite fmap_app, join_app. Qed.

Lemma memory_dram size x : 0 < size ->
  (exists r, r ∈ memory size /\ inside x (PhysicalBase r.1) (Length r.1)) <-> dram size x.
Proof.
  intros Hs. unfold memory, dram. destruct (Z.ltb_spec 0x100000000 size); setoid_rewrite elem_of_cons; [setoid_rewrite elem_of_cons|]; split.
  - intros (r & [-> | [-> | N]] & I); [left | right | by apply not_elem_of_nil in N]; unfold inside in I; cbn in I; lia.
  - intros [D | D]; [exists (ram 0 (Z.min size 0xF0000000)) | exists (ram 0x100000000 (size - 0x100000000))]; (split; [tauto|]); unfold inside; cbn; lia.
  - intros (r & [-> | N] & I); [left; unfold inside in I; cbn in I; lia | by apply not_elem_of_nil in N].
  - intros [D | D]; [|lia]. exists (ram 0 (Z.min size 0xF0000000)). split; [tauto|]. unfold inside. cbn. lia.
Qed.

Lemma memory_hobs size x : x ∈ all_hobs (memory size) <-> exists r, r ∈ memory size /\ x = ResourceDescriptorHob (PhysicalBase r.1) (Length r.1).
Proof.
  unfold memory. destruct (0x100000000 <? size); cbn; setoid_rewrite elem_of_cons; [setoid_rewrite elem_of_cons|]; split.
  - intros [-> | [-> | N]]; [eexists; split; [by left|]; done | eexists; split; [by right; left|]; done | by apply not_elem_of_nil in N].
  - intros (r & [-> | [-> | N]] & ->); [by left | by right; left | by apply not_elem_of_nil in N].
  - intros [-> | N]; [eexists; split; [by left|]; done | by apply not_elem_of_nil in N].
  - intros (r & [-> | N] & ->); [by left | by apply not_elem_of_nil in N].
Qed.

(** The whole run, on a table that fits. *)
Lemma MemoryPeim_run size s h' :
  SdramGetMemorySize (pbus s) = Ret size h' -> Forall entry_ok (regions size) -> (length (regions size) <= 10)%nat ->
  exists s', MemoryPeim true s = Ret EFI_SUCCESS s' /\ mmu s' = Some ((regions size).*1 ++ [end_of_table]) /\
    hobs s' = hobs s ++ all_hobs (regions size) ++ (if PcdPrePiProduceMemoryTypeInformationHob then [MemoryTypeInformationHob] else []).
Proof.
  intros E F N. set (R := regions size) in *.
  set (s1 := Pei true R.*2 (hobs s) (mmu s) h').
  assert (E1 : ArmPlatformGetVirtualMemoryMap true s = Ret (Some (R.*1 ++ [end_of_table])) s1).
  { unfold ArmPlatformGetVirtualMemoryMap, on_bus, zoom, mbind, M_bind. rewrite E. cbn [negb]. unfold modify. fold R. unfold ASSERT.
    replace (Z.of_nat (length (R.*1 ++ [end_of_table])) <=? MAX_VIRTUAL_MEMORY_MAP_DESCRIPTORS) with true; [done|].
    symmetry. apply Z.leb_le. rewrite length_app, length_fmap. cbn [length]. unfold MAX_VIRTUAL_MEMORY_MAP_DESCRIPTORS. lia. }
  unfold MemoryPeim. rewrite (bind_Ret _ _ _ _ _ E1), (bind_Ret Rk356xPlatformGetVirtualMemoryInfo _ s1 (Some R.*2) s1 eq_refl).
  rewrite (bind_Ret _ _ _ _ _ (register_regions_spec R s1 F)).
  destruct PcdPrePiProduceMemoryTypeInformationHob; eexists; (split; [reflexivity|]); (split; [reflexivity|]); cbn; by rewrite <- ?app_assoc, ?app_nil_r.
Qed.

Lemma taken_inside top b n t : layout_ok top -> (b, n, t) ∈ taken -> 0 <= b /\ 0 < n /\ b + n <= top.
Proof. intros L E. pose proof (taken_ok _ L) as F. rewrite list.Forall_forall in F. apply (F (b, n, t) E). Qed.


(** Without memory for the table its address is not set: the caller walks a
    table at an address that was never assigned. *)
Lemma MemoryPeim_unallocated s : VirtualMemoryInfoInitialized s = false -> MemoryPeim false s = Stop Fault.
Proof.
  intros E. unfold MemoryPeim, ArmPlatformGetVirtualMemoryMap, on_bus, zoom, mbind, M_bind.
  rewrite SdramGetMemorySize_correct. destruct (dram_size _ _); [|done]. unfold Rk356xPlatformGetVirtualMemoryInfo, gets, mbind, M_bind. cbn. by rewrite E.
Qed.
End map.

(** ** A board with 8 GB *)
Module R5C.

#[export] Instance build : Build := {| debug_build := true |}.

#[export] Instance pcds : MemoryPcds := {|
  PcdSystemMemoryBase := 0; PcdReservedBaseAddress := 0xF0000000; PcdReservedSize := 0x10000000;
  PcdTfaBaseAddress := 0; PcdTfaSize := 0x00A00000; PcdOpteeBaseAddress := 0x08400000; PcdOpteeSize := 0x01000000;
  PcdFdBaseAddress := 0x00A00000; PcdFdSize := 0x00100000; PcdFdtBaseAddress := 0x00B00000; PcdFdtSize := 0x10000;
  PcdFlashNvStorageVariableSize := 0x10000; PcdFlashNvStorageFtwWorkingSize := 0x10000; PcdFlashNvStorageFtwSpareSize := 0x10000;
  PcdNvStorageEventLogSize := 0; PcdPrePiProduceMemoryTypeInformationHob := true
|}.

(** Two ranks of 4 GB on a 32-bit bus. *)
#[export] Instance mmio : Mmio unit := {|
  mmio_read32 a h := (if a =? PMU_GRF_OS_REG2 then 0xEA00 else if a =? PMU_GRF_OS_REG3 then 0x30000031 else 0, h);
  mmio_write32 _ _ h := h;
  delay_us _ h := h;
  delay_ns _ h := h
|}.

Lemma layout : layout_ok 0x9400000.
Proof. split; [done | done | done | done |]. unfold taken. repeat (apply list.Forall_cons; split; [done|]). done. Qed.

Definition start : pei unit := Pei false [] [] None tt.

End R5C.
