(* ===== verification/Rk3399Memory.v ===== *)
(** * The memory of the RK3399

    Model of [src/Silicon/Rockchip/Rk3399Pkg/Library/Rk3399Lib/Rk3399Mem.c]: the
    size of the DRAM, the hand-off blocks (HOBs) of the memory with the part of
    the secure firmware cut out, and the table of regions for the MMU.  The
    list of HOBs is a list in the state; the HOB services append to it. *)

From Stdlib Require Import ZArith Lia.
From stdpp Require Import base list numbers option.
From S2P Require Import Prelude Mmio Rk356xMemory.

(** ** The size of the DRAM *)

Definition RK3399_PMU_GRF_BASE : Z := 0xFF320000.
Definition RK3399_PERIPH_BASE : Z := 0xF8000000.
Definition RK3399_PERIPH_SZ : Z := 0x08000000.
Definition PMU_GRF_OS_REG2 : Z := 0x0308.

Definition SYS_REG_NUM_CH_SHIFT : Z := 12.
Definition SYS_REG_NUM_CH_MASK : Z := 1.
Definition SYS_REG_ROW_3_4_SHIFT (ch : Z) : Z := 30 + ch.
Definition SYS_REG_ROW_3_4_MASK : Z := 1.
Definition SYS_REG_RANK_SHIFT (ch : Z) : Z := 11 + ch * 16.
Definition SYS_REG_RANK_MASK : Z := 1.
Definition SYS_REG_COL_SHIFT (ch : Z) : Z := 9 + ch * 16.
Definition SYS_REG_COL_MASK : Z := 3.
Definition SYS_REG_BK_SHIFT (ch : Z) : Z := 8 + ch * 16.
Definition SYS_REG_BK_MASK : Z := 1.
Definition SYS_REG_CS0_ROW_SHIFT (ch : Z) : Z := 6 + ch * 16.
Definition SYS_REG_CS0_ROW_MASK : Z := 3.
Definition SYS_REG_CS1_ROW_SHIFT (ch : Z) : Z := 4 + ch * 16.
Definition SYS_REG_CS1_ROW_MASK : Z := 3.
Definition SYS_REG_BW_SHIFT (ch : Z) : Z := 2 + ch * 16.
Definition SYS_REG_BW_MASK : Z := 3.

Section size.
Context {H : Type} `{MM : Mmio H}.

(** The body of the loop over the channels. *)
Definition chip_size_mb (SysReg Ch : Z) : M H Z :=
  let Rank := 1 + bits SysReg (SYS_REG_RANK_SHIFT Ch) SYS_REG_RANK_MASK in
  let Col := 9 + bits SysReg (SYS_REG_COL_SHIFT Ch) SYS_REG_COL_MASK in
  let Bank := 3 - bits SysReg (SYS_REG_BK_SHIFT Ch) SYS_REG_BK_MASK in
  let Cs0Row := 13 + bits SysReg (SYS_REG_CS0_ROW_SHIFT Ch) SYS_REG_CS0_ROW_MASK in
  let Cs1Row := 13 + bits SysReg (SYS_REG_CS1_ROW_SHIFT Ch) SYS_REG_CS1_ROW_MASK in
  let Bw := Z.shiftr 2 (bits SysReg (SYS_REG_BW_SHIFT Ch) SYS_REG_BW_MASK) in
  let Row34 := bits SysReg (SYS_REG_ROW_3_4_SHIFT Ch) SYS_REG_ROW_3_4_MASK in
  ChipSizeMb ← shift Z.shiftl 1 (u32 (Cs0Row + Col + Bank + Bw - 20));
  ChipSizeMb ←
    (if 1 <? Rank then Cs1SizeMb ← shift Z.shiftr ChipSizeMb (u32 (Cs0Row - Cs1Row)); mret (u32 (ChipSizeMb + Cs1SizeMb))
     else mret ChipSizeMb);
  mret (if negb (Row34 =? 0) then u32 (ChipSizeMb * 3) / 4 else ChipSizeMb).

Fixpoint sum_chips (n : nat) (SysReg Ch SizeMb : Z) : M H Z :=
  match n with
  | O => mret SizeMb
  | S n => ChipSizeMb ← chip_size_mb SysReg Ch; sum_chips n SysReg (Ch + 1) (u64 (SizeMb + ChipSizeMb))
  end.

Definition Rk3399InitMemorySize : M H Z :=
  SysReg ← MmioRead32 (RK3399_PMU_GRF_BASE + PMU_GRF_OS_REG2);
  let ChNum := 1 + bits SysReg SYS_REG_NUM_CH_SHIFT SYS_REG_NUM_CH_MASK in
  SizeMb ← sum_chips (Z.to_nat ChNum) SysReg 0 0;
  let ret := u64 (Z.shiftl SizeMb 20) in
  mret (if RK3399_PERIPH_BASE <=? ret then RK3399_PERIPH_BASE else ret).
End size.

(** ** Hand-off blocks *)

Definition EFI_RESOURCE_SYSTEM_MEMORY : Z := 0.
Definition EFI_RESOURCE_MEMORY_RESERVED : Z := 5.
Definition EFI_RESOURCE_ATTRIBUTE_PRESENT : Z := 0x1.
Definition EFI_RESOURCE_ATTRIBUTE_INITIALIZED : Z := 0x2.
Definition EFI_RESOURCE_ATTRIBUTE_TESTED : Z := 0x4.
Definition EFI_RESOURCE_ATTRIBUTE_WRITE_COMBINEABLE : Z := 0x800.
Definition EFI_RESOURCE_ATTRIBUTE_WRITE_THROUGH_CACHEABLE : Z := 0x1000.
Definition EFI_RESOURCE_ATTRIBUTE_WRITE_BACK_CACHEABLE : Z := 0x2000.

Record EFI_HOB_RESOURCE_DESCRIPTOR := Resource { ResourceType : Z; ResourceAttribute : Z; PhysicalStart : Z; ResourceLength : Z }.

Inductive EFI_HOB := ResourceDescriptor (r : EFI_HOB_RESOURCE_DESCRIPTOR) | OtherHob (Type_ : Z).

Definition EXTRA_SYSTEM_MEMORY_BASE : Z := 0x40000000.
Definition DDR_ATTRIBUTES_CACHED := ARM_MEMORY_REGION_ATTRIBUTE_WRITE_BACK.
Definition MAX_VIRTUAL_MEMORY_MAP_DESCRIPTORS : Z := 12.

Record Rk3399ReservedMemory := Reserved { Offset : Z; Size : Z }.
Definition Rk3399ReservedMemoryBuffer : list Rk3399ReservedMemory := [Reserved 0x00000000 0x200000].

Class Rk3399MemoryPcds := { PcdSystemMemoryBase : Z; PcdSystemMemorySize : Z }.

Record hobs_pei (H : Type) := HobsPei { HobList : list EFI_HOB; hbus : H }.
Arguments HobsPei {H}.
Arguments HobList {H} _.
Arguments hbus {H} _.

Section memory.
Context {H : Type} `{MM : Mmio H} {BB : Build} {P : Rk3399MemoryPcds}.
Abbreviation PEI := (M (hobs_pei H)).

Definition ResourceAttributes : Z :=
  foldr Z.lor 0 [EFI_RESOURCE_ATTRIBUTE_PRESENT; EFI_RESOURCE_ATTRIBUTE_INITIALIZED; EFI_RESOURCE_ATTRIBUTE_WRITE_COMBINEABLE;
    EFI_RESOURCE_ATTRIBUTE_WRITE_THROUGH_CACHEABLE; EFI_RESOURCE_ATTRIBUTE_WRITE_BACK_CACHEABLE; EFI_RESOURCE_ATTRIBUTE_TESTED].

(** The service appends a block to the list. *)
Definition BuildResourceDescriptorHob (Type_ Attrs Start Len : Z) : PEI unit :=
  modify (fun s => HobsPei (HobList s ++ [ResourceDescriptor (Resource Type_ Attrs Start Len)]) (hbus s)).

(** [GetNextHob (EFI_HOB_TYPE_RESOURCE_DESCRIPTOR, NextHob.Raw)]: the position
    of the first resource descriptor of [l], the list from position [i]. *)
Fixpoint next_resource (l : list EFI_HOB) (i : nat) : option (nat * EFI_HOB_RESOURCE_DESCRIPTOR) :=
  match l with
  | [] => None
  | ResourceDescriptor r :: _ => Some (i, r)
  | OtherHob _ :: l => next_resource l (S i)
  end.

Definition set_length (i : nat) (r : EFI_HOB_RESOURCE_DESCRIPTOR) (Len : Z) : PEI unit :=
  modify (fun s => HobsPei (<[i := ResourceDescriptor (Resource (ResourceType r) (ResourceAttribute r) (PhysicalStart r) Len)]> (HobList s)) (hbus s)).

(** One reserved buffer is cut out of the block [r] at position [i]. *)
Definition reserve (b : Rk3399ReservedMemory) (i : nat) (r : EFI_HOB_RESOURCE_DESCRIPTOR) : PEI unit :=
  let ResourceTop := u64 (PhysicalStart r + ResourceLength r) in
  let ReservedTop := u64 (Offset b + Size b) in
  BuildResourceDescriptorHob EFI_RESOURCE_MEMORY_RESERVED EFI_RESOURCE_ATTRIBUTE_PRESENT (Offset b) (Size b);;
  set_length i r (u64 (Offset b - PhysicalStart r));;
  (if ReservedTop <? ResourceTop then
     BuildResourceDescriptorHob EFI_RESOURCE_SYSTEM_MEMORY (ResourceAttribute r) ReservedTop (u64 (ResourceTop - ReservedTop))
   else mret tt).

(** The loop: the list is walked from position [i], for the buffer [Index]. *)
Fixpoint reserve_loop (fuel i Index : nat) : PEI unit :=
  match fuel with
  | O => stopM NoFuel
  | S fuel =>
      l ← gets HobList;
      match next_resource (drop i l) i with
      | None => mret tt
      | Some (j, r) =>
          match Rk3399ReservedMemoryBuffer !! Index with
          | None => mret tt
          | Some b =>
              if (ResourceType r =? EFI_RESOURCE_SYSTEM_MEMORY) && (PhysicalStart r <=? Offset b)
                 && (u64 (Offset b + Size b) <=? u64 (PhysicalStart r + ResourceLength r))
              then reserve b j r;; reserve_loop fuel (S j) (S Index)
              else reserve_loop fuel (S j) Index
          end
      end
  end.

Definition on_bus {A} (c : M H A) : PEI A := zoom hbus (fun h s => HobsPei (HobList s) h) c.

(** [None]: the table could not be allocated. *)
Definition ArmPlatformGetVirtualMemoryMap (allocated : bool) : PEI (option (list ARM_MEMORY_REGION_DESCRIPTOR)) :=
  MemorySize ← on_bus Rk3399InitMemorySize;
  let MemorySize := if MemorySize =? 0 then PcdSystemMemorySize else MemorySize in
  BuildResourceDescriptorHob EFI_RESOURCE_SYSTEM_MEMORY ResourceAttributes PcdSystemMemoryBase PcdSystemMemorySize;;
  l ← gets HobList;
  reserve_loop (length l + 3) 0 0;;
  let AdditionalMemorySize := u64 (MemorySize - PcdSystemMemorySize) in
  (if 0 <? AdditionalMemorySize then
     BuildResourceDescriptorHob EFI_RESOURCE_SYSTEM_MEMORY ResourceAttributes EXTRA_SYSTEM_MEMORY_BASE AdditionalMemorySize
   else mret tt);;
  if negb allocated then mret None else
  let Table :=
    [at_base RK3399_PERIPH_BASE RK3399_PERIPH_SZ ARM_MEMORY_REGION_ATTRIBUTE_DEVICE;
     at_base PcdSystemMemoryBase PcdSystemMemorySize DDR_ATTRIBUTES_CACHED] ++
    (if 0 <? AdditionalMemorySize then [at_base EXTRA_SYSTEM_MEMORY_BASE AdditionalMemorySize DDR_ATTRIBUTES_CACHED] else []) ++
    [end_of_table] in
  ASSERT (Z.of_nat (length Table) <=? MAX_VIRTUAL_MEMORY_MAP_DESCRIPTORS);;
  mret (Some Table).
End memory.

(** * Properties of the memory of the RK3399

    The size is that of the chips, up to the registers of the chip, and the
    blocks declare the memory without the part of the secure firmware. *)

Definition chip_geometry (r c : Z) : geometry :=
  let f shift mask := bits r (shift + 16 * c) mask in
  Geometry (f 11 1 =? 1) (13 + f 6 3, 9 + f 9 3) (13 + f 4 3, 9 + f 9 3) (if f 8 1 =? 0 then 8 else 4) 1
    (if f 2 3 =? 0 then 4 else if f 2 3 =? 1 then 2 else 1) (bits r (30 + c) 1 =? 1).

Definition chips (r : Z) : list geometry := chip_geometry r <$> seqZ 0 (1 + bits r 12 1).

(** The memory of the board, up to the registers. *)
Definition memory_size (r : Z) : option Z :=
  if forallb channel_ok (chips r) then Some (Z.min (foldr Z.add 0 (channel_bytes <$> chips r)) 0xF8000000) else None.

Section size_spec.
Context {H : Type} `{MM : Mmio H}.
Implicit Types h : H.

(** A negative difference of unsigned words is no amount to shift by. *)
Lemma shift_word {S} op a d (s : S) : - 2 ^ 31 <= d < 32 -> shift op a (u32 d) s = shift op a d s.
Proof.
  intros Hd. destruct (Z.ltb_spec d 0) as [L|L].
  - rewrite (shift_fault op a d) by done. unfold shift. replace (u32 d) with (d + 2 ^ 32).
    + rewrite (proj2 (Z.ltb_ge _ 32)) by lia. by rewrite andb_false_r.
    + unfold wrap. rewrite <- (Z_mod_plus_full d 1), Z.mod_small by lia. lia.
  - rewrite (wrap_small 32 d) by (unfold in_word; lia). done.
Qed.

Lemma chip_decoded r c : c = 0 \/ c = 1 -> let g := chip_geometry r c in
  exists r0 c0 r1 c1 k, cs0 g = (r0, c0) /\ cs1 g = (r1, c1) /\ column_bits g k /\
    12 <= r0 <= 19 /\ 9 <= c0 <= 12 /\ 12 <= r1 <= 19 /\ 9 <= c1 <= 12 /\
    forall h, chip_size_mb r c h = size_of (two_ranks g) (three_quarters g) (r0 + c0 + k - 20) (r0 - r1 + (c0 - c1)) h.
Proof.
  intros Hc g.
  pose proof (bits2_range r (6 + 16 * c)) as B0. pose proof (bits2_range r (4 + 16 * c)) as B1. pose proof (bits2_range r (9 + 16 * c)) as B2.
  assert (K : exists k, column_bits g k /\ k = 3 - bits r (8 + 16 * c) 1 + Z.shiftr 2 (bits r (2 + 16 * c) 3) /\ k <= 5).
  { eexists. split; [|split; [reflexivity|]]; unfold column_bits, g; cbn [banks bank_groups bus_bytes chip_geometry];
    pose proof (bits2_range r (2 + 16 * c)) as B;
    assert (W : bits r (2 + 16 * c) 3 = 0 \/ bits r (2 + 16 * c) 3 = 1 \/ bits r (2 + 16 * c) 3 = 2 \/ bits r (2 + 16 * c) 3 = 3) by lia;
    destruct (bit_range r (8 + 16 * c)) as [-> | ->], W as [-> | [-> | [-> | ->]]]; try (vm_compute; discriminate);
    (split; [reflexivity | split; vm_compute; discriminate]). }
  destruct K as (k & K & Ek & Hk). assert (K' := K). destruct K' as [_ Kr].
  exists (cs0 g).1, (cs0 g).2, (cs1 g).1, (cs1 g).2, k. split; [by destruct (cs0 g)|]. split; [by destruct (cs1 g)|]. split; [done|].
  unfold g. cbn [cs0 cs1 two_ranks three_quarters chip_geometry fst snd]. repeat (split; [lia|]). intros h.
  unfold chip_size_mb, SYS_REG_RANK_SHIFT, SYS_REG_RANK_MASK, SYS_REG_COL_SHIFT, SYS_REG_COL_MASK, SYS_REG_BK_SHIFT, SYS_REG_BK_MASK,
    SYS_REG_CS0_ROW_SHIFT, SYS_REG_CS0_ROW_MASK, SYS_REG_CS1_ROW_SHIFT, SYS_REG_CS1_ROW_MASK, SYS_REG_BW_SHIFT, SYS_REG_BW_MASK,
    SYS_REG_ROW_3_4_SHIFT, SYS_REG_ROW_3_4_MASK.
  rewrite !(Z.mul_comm c 16). set (a := bits r (6 + 16 * c) 3) in *. set (b := bits r (4 + 16 * c) 3) in *. set (e := bits r (9 + 16 * c) 3) in *.
  assert (R1 : (1 <? 1 + bits r (11 + 16 * c) 1) = (bits r (11 + 16 * c) 1 =? 1)) by (by destruct (bit_range r (11 + 16 * c)) as [-> | ->]).
  assert (R2 : negb (bits r (30 + c) 1 =? 0) = (bits r (30 + c) 1 =? 1)) by (by destruct (bit_range r (30 + c)) as [-> | ->]).
  rewrite R1, R2. replace (13 + a + (9 + e) + (3 - bits r (8 + 16 * c) 1) + Z.shiftr 2 (bits r (2 + 16 * c) 3) - 20) with (13 + a + (9 + e) + k - 20) by lia.
  replace (13 + a - (13 + b) + (9 + e - (9 + e))) with (13 + a - (13 + b)) by lia.
  set (n := 13 + a + (9 + e) + k - 20) in *. set (d := 13 + a - (13 + b)) in *.
  rewrite (wrap_small 32 n) by (unfold in_word; lia). unfold size_of.
  rewrite !(bind_Ret _ _ _ _ _ (shift_defined Z.shiftl 1 n h ltac:(lia))), Z.shiftl_1_l.
  assert (Q : 0 < 2 ^ n <= 2 ^ 13) by (split; [apply Z.pow_pos_nonneg; lia | apply Z.pow_le_mono_r; lia]).
  destruct (bits r (11 + 16 * c) 1 =? 1).
  - destruct (Z.ltb_spec d 0) as [L|L].
    { unfold mbind, M_bind. by rewrite shift_word, shift_fault by lia. }
    rewrite (wrap_small 32 d) by (unfold in_word; lia).
    assert (X : Z.shiftr (2 ^ n) d = 2 ^ n / 2 ^ d) by (apply Z.shiftr_div_pow2; lia).
    assert (Y : 0 <= 2 ^ n / 2 ^ d <= 2 ^ n).
    { split; [apply Z.div_pos; lia|]. apply Z.div_le_upper_bound; [lia|]. assert (1 <= 2 ^ d) by (apply (Z.pow_le_mono_r 2 0 d); lia). nia. }
    unfold mbind, M_bind. rewrite (shift_defined Z.shiftr (2 ^ n) d h) by lia. unfold mret, M_ret. rewrite X.
    rewrite (wrap_small 32 (2 ^ n + 2 ^ n / 2 ^ d)), (wrap_small 32 ((2 ^ n + 2 ^ n / 2 ^ d) * 3)) by (unfold in_word; lia). done.
  - rewrite !(bind_Ret (mret _) _ h _ h eq_refl), (wrap_small 32 (2 ^ n * 3)) by (unfold in_word; lia). done.
Qed.

Lemma sum_chips_step n r c mb h : c = 0 \/ c = 1 ->
  sum_chips (S n) r c mb h =
  (if channel_ok (chip_geometry r c) then sum_chips n r (c + 1) (u64 (mb + channel_bytes (chip_geometry r c) / 2 ^ 20)) h else Stop Fault) /\
  (channel_ok (chip_geometry r c) = true -> exists m, channel_bytes (chip_geometry r c) = 2 ^ 20 * m /\ 0 < m < 2 ^ 22).
Proof.
  intros Hc. destruct (chip_decoded r c Hc) as (r0 & c0 & r1 & c1 & k & E0 & E1 & K & H0 & H1 & H2 & H3 & E).
  pose proof (size_of_spec _ k r0 c0 r1 c1 h E0 E1 K H0 H1 H2 H3) as Z0. cbn zeta in Z0. rewrite <- E in Z0.
  cbn [sum_chips]. destruct (channel_ok _).
  - destruct Z0 as (m & Z1 & Z2 & Z3). split; [|intros _; exists m; lia].
    rewrite (bind_Ret _ _ _ _ _ Z1), Z2, (Z.mul_comm (2 ^ 20)), Z.div_mul by lia. done.
  - split; [|done]. unfold mbind, M_bind. by rewrite Z0.
Qed.

(** The memory size is that of the chips, up to the registers of the
    chip; only a second rank larger than the first has no result. *)
Theorem Rk3399InitMemorySize_correct h :
  let r := mmio_read32 (RK3399_PMU_GRF_BASE + PMU_GRF_OS_REG2) h in
  Rk3399InitMemorySize h = match memory_size (u32 r.1) with Some n => Ret n r.2 | None => Stop Fault end.
Proof.
  cbn zeta. unfold Rk3399InitMemorySize, MmioRead32, mbind, M_bind, RK3399_PERIPH_BASE.
  destruct (mmio_read32 (RK3399_PMU_GRF_BASE + PMU_GRF_OS_REG2) h) as [v h1]. cbn [fst snd]. set (r := u32 v).
  unfold SYS_REG_NUM_CH_SHIFT, SYS_REG_NUM_CH_MASK, memory_size, chips.
  assert (N : forall m n, n = 2 ^ 20 * m -> 0 <= m < 2 ^ 23 ->
    (if 0xF8000000 <=? u64 (Z.shiftl m 20) then 0xF8000000 else u64 (Z.shiftl m 20)) = Z.min n 0xF8000000).
  { intros m n -> Hr. rewrite Z.shiftl_mul_pow2, wrap_small by (unfold in_word; lia). destruct (Z.leb_spec 0xF8000000 (m * 2 ^ 20)); lia. }
  destruct (bit_range r 12) as [-> | ->].
  - change (seqZ 0 (1 + 0)) with [0]. change (Z.to_nat (1 + 0)) with 1%nat. cbn [fmap list_fmap forallb foldr].
    destruct (sum_chips_step 0 r 0 0 h1 ltac:(auto)) as [E D]. rewrite E, andb_true_r. destruct (channel_ok (chip_geometry r 0)) eqn:O; [|done].
    destruct (D eq_refl) as (m & Em & Hm). cbn [sum_chips]. rewrite Em, (Z.mul_comm (2 ^ 20)), Z.div_mul by lia.
    unfold mret, M_ret. rewrite (wrap_small 64 (0 + m)) by (unfold in_word; lia). rewrite (N _ (m * 2 ^ 20 + 0)) by lia. done.
  - change (seqZ 0 (1 + 1)) with [0; 1]. change (Z.to_nat (1 + 1)) with 2%nat. cbn [fmap list_fmap forallb foldr].
    destruct (sum_chips_step 1 r 0 0 h1 ltac:(auto)) as [E D]. rewrite E, andb_true_r. destruct (channel_ok (chip_geometry r 0)) eqn:O; [|done]. cbn [andb].
    destruct (D eq_refl) as (m & Em & Hm). rewrite Em, (Z.mul_comm (2 ^ 20)), Z.div_mul by lia.
    change (0 + 1) with 1. destruct (sum_chips_step 0 r 1 (u64 (0 + m)) h1 ltac:(auto)) as [E' D']. rewrite E'.
    destruct (channel_ok (chip_geometry r 1)) eqn:O'; [|done].
    destruct (D' eq_refl) as (m' & Em' & Hm'). cbn [sum_chips]. rewrite Em', !(Z.mul_comm (2 ^ 20)), !Z.div_mul by lia.
    unfold mret, M_ret. rewrite (wrap_small 64 (0 + m)), (wrap_small 64 (0 + m + m')) by (unfold in_word; lia).
    rewrite (N _ (m * 2 ^ 20 + (m' * 2 ^ 20 + 0))) by lia. done.
Qed.
End size_spec.

(** ** The blocks and the table *)

(** Addresses declared as memory of a type. *)
Definition declares (l : list EFI_HOB) (t x : Z) : Prop :=
  exists r, ResourceDescriptor r ∈ l /\ ResourceType r = t /\ inside x (PhysicalStart r) (ResourceLength r).

(** A block the secure firmware would be cut out of. *)
Definition holds_firmware (e : EFI_HOB) : Prop :=
  exists r, e = ResourceDescriptor r /\ ResourceType r = EFI_RESOURCE_SYSTEM_MEMORY /\ PhysicalStart r <= 0 /\ 0x200000 <= u64 (PhysicalStart r + ResourceLength r).

Section blocks.
Context {H : Type} `{MM : Mmio H} {BB : Build} {P : Rk3399MemoryPcds}.
Implicit Types (s : hobs_pei H).

Lemma reserve_loop_other n pre T l Index s : HobList s = pre ++ OtherHob T :: l ->
  reserve_loop (S n) (length pre) Index s = reserve_loop (S n) (S (length pre)) Index s.
Proof.
  intros E. cbn [reserve_loop]. rewrite !(bind_gets HobList), E, drop_app_length.
  replace (pre ++ OtherHob T :: l) with ((pre ++ [OtherHob T]) ++ l) by (by rewrite <- app_assoc).
  replace (S (length pre)) with (length (pre ++ [OtherHob T])) by (rewrite length_app; cbn; lia). rewrite drop_app_length.
  rewrite length_app. cbn [next_resource length]. by rewrite Nat.add_1_r.
Qed.

Lemma reserve_loop_resource n pre r l s : HobList s = pre ++ ResourceDescriptor r :: l ->
  reserve_loop (S n) (length pre) 0 s =
  (if (ResourceType r =? EFI_RESOURCE_SYSTEM_MEMORY) && (PhysicalStart r <=? 0) && (0x200000 <=? u64 (PhysicalStart r + ResourceLength r))
   then (reserve (Reserved 0 0x200000) (length pre) r;; reserve_loop n (S (length pre)) 1) s
   else reserve_loop n (S (length pre)) 0 s).
Proof. intros E. cbn [reserve_loop]. rewrite (bind_gets HobList), E, drop_app_length. cbn [next_resource lookup list_lookup Rk3399ReservedMemoryBuffer Offset Size].
  change (u64 (0 + 0x200000)) with 0x200000. by destruct (_ && _). Qed.

Lemma reserve_loop_done n pre r l s : HobList s = pre ++ ResourceDescriptor r :: l -> reserve_loop (S n) (length pre) 1 s = Ret tt s.
Proof. intros E. cbn [reserve_loop]. by rewrite (bind_gets HobList), E, drop_app_length. Qed.

(** Blocks the firmware is not in are passed. *)
Lemma reserve_loop_skip r s : forall rest pre n,
  HobList s = pre ++ rest ++ [ResourceDescriptor r] -> Forall (fun e => ~ holds_firmware e) rest -> (length rest + 2 <= n)%nat ->
  holds_firmware (ResourceDescriptor r) ->
  exists n', reserve_loop n (length pre) 0 s = (reserve (Reserved 0 0x200000) (length (pre ++ rest)) r;; reserve_loop (S n') (S (length (pre ++ rest))) 1) s.
Proof.
  induction rest as [|[r'|T] rest IH]; intros pre n E F Hn Hr.
  - rewrite app_nil_r. destruct n as [|[|n]]; [cbn in Hn; lia..|]. exists n. rewrite (reserve_loop_resource (S n) pre r []) by done.
    destruct Hr as (? & [= <-] & R1 & R2 & R3). rewrite R1, Z.eqb_refl, (proj2 (Z.leb_le _ _) R2), (proj2 (Z.leb_le _ _) R3). done.
  - apply list.Forall_cons in F as [F1 F]. destruct n as [|n]; [cbn in Hn; lia|]. cbn [length] in Hn.
    rewrite (reserve_loop_resource n pre r' (rest ++ [ResourceDescriptor r])) by done.
    destruct ((ResourceType r' =? EFI_RESOURCE_SYSTEM_MEMORY) && (PhysicalStart r' <=? 0) && (0x200000 <=? u64 (PhysicalStart r' + ResourceLength r'))) eqn:D.
    + destruct F1. apply andb_true_iff in D as [[D1%Z.eqb_eq D2%Z.leb_le]%andb_true_iff D3%Z.leb_le]. by exists r'.
    + destruct (IH (pre ++ [ResourceDescriptor r']) n) as [n' IH']; [by rewrite <- app_assoc | done | lia | done |].
      exists n'. rewrite <- app_assoc in IH'. cbn [app] in IH'. rewrite <- IH'. rewrite length_app. cbn [length]. by rewrite Nat.add_1_r.
  - apply list.Forall_cons in F as [_ F]. destruct n as [|n]; [cbn in Hn; lia|]. cbn [length] in Hn.
    rewrite (reserve_loop_other n pre T (rest ++ [ResourceDescriptor r])) by done.
    destruct (IH (pre ++ [OtherHob T]) (S n)) as [n' IH']; [by rewrite <- app_assoc | done | lia | done |].
    exists n'. rewrite <- app_assoc in IH'. cbn [app] in IH'. rewrite <- IH'. rewrite length_app. cbn [length]. by rewrite Nat.add_1_r.
Qed.

(** What is declared for a size of the memory, and what is mapped. *)
Definition blocks (size : Z) : list EFI_HOB :=
  let A := u64 (size - 0x40000000) in
  [ResourceDescriptor (Resource EFI_RESOURCE_SYSTEM_MEMORY ResourceAttributes 0 0);
   ResourceDescriptor (Resource EFI_RESOURCE_MEMORY_RESERVED EFI_RESOURCE_ATTRIBUTE_PRESENT 0 0x200000);
   ResourceDescriptor (Resource EFI_RESOURCE_SYSTEM_MEMORY ResourceAttributes 0x200000 (0x40000000 - 0x200000))] ++
  (if 0 <? A then [ResourceDescriptor (Resource EFI_RESOURCE_SYSTEM_MEMORY ResourceAttributes 0x40000000 A)] else []).

Definition table (size : Z) : list ARM_MEMORY_REGION_DESCRIPTOR :=
  let A := u64 (size - 0x40000000) in
  [at_base 0xF8000000 0x08000000 ARM_MEMORY_REGION_ATTRIBUTE_DEVICE; at_base 0 0x40000000 ARM_MEMORY_REGION_ATTRIBUTE_WRITE_BACK] ++
  (if 0 <? A then [at_base 0x40000000 A ARM_MEMORY_REGION_ATTRIBUTE_WRITE_BACK] else []) ++ [end_of_table].

Lemma map_run s size h' : PcdSystemMemoryBase = 0 -> PcdSystemMemorySize = 0x40000000 ->
  Rk3399InitMemorySize (hbus s) = Ret size h' -> size <> 0 -> Forall (fun e => ~ holds_firmware e) (HobList s) ->
  ArmPlatformGetVirtualMemoryMap true s = Ret (Some (table size)) (HobsPei (HobList s ++ blocks size) h').
Proof.
  intros EB ES E Hs F. unfold ArmPlatformGetVirtualMemoryMap. rewrite EB, ES.
  rewrite (bind_Ret (on_bus _) _ s size (HobsPei (HobList s) h')) by (unfold on_bus, zoom; by rewrite E).
  rewrite (proj2 (Z.eqb_neq size 0) Hs). unfold BuildResourceDescriptorHob. rewrite !bind_modify, (bind_gets HobList). cbn [HobList hbus].
  set (r := Resource EFI_RESOURCE_SYSTEM_MEMORY ResourceAttributes 0 0x40000000).
  set (s1 := HobsPei (HobList s ++ [ResourceDescriptor r]) h').
  destruct (reserve_loop_skip r s1 (HobList s) [] (length (HobList s ++ [ResourceDescriptor r]) + 3)) as [n' L].
  { done. } { done. } { rewrite length_app. cbn. lia. } { exists r. by repeat split. }
  cbn [length app] in L.
  set (l2 := HobList s ++ [ResourceDescriptor (Resource EFI_RESOURCE_SYSTEM_MEMORY ResourceAttributes 0 0);
    ResourceDescriptor (Resource EFI_RESOURCE_MEMORY_RESERVED EFI_RESOURCE_ATTRIBUTE_PRESENT 0 0x200000);
    ResourceDescriptor (Resource EFI_RESOURCE_SYSTEM_MEMORY ResourceAttributes 0x200000 (0x40000000 - 0x200000))]).
  assert (R : reserve (Reserved 0 0x200000) (length (HobList s)) r s1 = Ret tt (HobsPei l2 h')).
  { unfold reserve, BuildResourceDescriptorHob, set_length. rewrite !bind_modify. cbn [HobList hbus s1].
    change (u64 (Offset (Reserved 0 2097152) + Size (Reserved 0 2097152)) <? u64 (PhysicalStart r + ResourceLength r)) with true. cbn iota.
    unfold modify. f_equal. f_equal. rewrite <- app_assoc, insert_app_r_alt, Nat.sub_diag by done. cbn [HobList insert list_insert app]. by rewrite <- app_assoc. }
  rewrite (bind_Ret _ _ s1 tt (HobsPei l2 h')).
  2: { rewrite L, (bind_Ret _ _ _ _ _ R).
    replace (S (length (HobList s))) with (length (HobList s ++ [ResourceDescriptor (Resource EFI_RESOURCE_SYSTEM_MEMORY ResourceAttributes 0 0)])) by (rewrite length_app; cbn; lia).
    eapply reserve_loop_done. unfold l2. cbn [HobList]. rewrite <- app_assoc. reflexivity. }
  unfold blocks, table. change EXTRA_SYSTEM_MEMORY_BASE with 0x40000000. destruct (0 <? u64 (size - 0x40000000)).
  - rewrite bind_modify. cbn [negb]. match goal with |- context [ASSERT ?b] => change b with true end. unfold ASSERT, mbind, M_bind, mret, M_ret. cbn [HobList hbus]. unfold l2. by rewrite <- app_assoc.
  - rewrite (bind_Ret (mret tt) _ _ tt _ eq_refl). cbn [negb]. match goal with |- context [ASSERT ?b] => change b with true end. unfold ASSERT, mbind, M_bind, mret, M_ret. by rewrite app_nil_r.
Qed.
(** C25: The blocks and the MMU table of the RK3399
    describe its memory.  On a board with 1 GB or more, and no block yet that
    holds the secure firmware, the blocks added declare as system memory exactly
    the DRAM above the first 2 MB and reserve those, and the MMU table maps the
    DRAM as cached memory and the registers above as device memory, and nothing
    else.  The walk over the list, which grows while it is walked, ends. *)
Theorem rk3399_memory_correct size s :
  let r := mmio_read32 (RK3399_PMU_GRF_BASE + PMU_GRF_OS_REG2) (hbus s) in
  PcdSystemMemoryBase = 0 -> PcdSystemMemorySize = 0x40000000 ->
  memory_size (u32 r.1) = Some size -> 0x40000000 <= size -> Forall (fun e => ~ holds_firmware e) (HobList s) ->
  wp (ArmPlatformGetVirtualMemoryMap true) s (fun T s' => exists L T', HobList s' = HobList s ++ L /\ T = Some T' /\
    (forall x, declares L EFI_RESOURCE_SYSTEM_MEMORY x <-> 0x200000 <= x < size) /\
    (forall x, declares L EFI_RESOURCE_MEMORY_RESERVED x <-> 0 <= x < 0x200000) /\
    Forall (fun d => VirtualBase d = PhysicalBase d) T' /\
    forall a x, (exists d, d ∈ T' /\ Attributes d = a /\ inside x (PhysicalBase d) (Length d)) <->
      (a = ARM_MEMORY_REGION_ATTRIBUTE_WRITE_BACK /\ 0 <= x < size) \/ (a = ARM_MEMORY_REGION_ATTRIBUTE_DEVICE /\ 0xF8000000 <= x < 2 ^ 32)).
Proof.
  cbn zeta. intros EB ES E Hs F.
  assert (Hm : size <= 0xF8000000).
  { unfold memory_size in E. destruct (forallb _ _); [|done]. injection E as <-. apply Z.le_min_r. }
  unfold wp. erewrite map_run; [| done | done | rewrite Rk3399InitMemorySize_correct; cbn zeta; by rewrite E | lia | done].
  exists (blocks size), (table size). split; [done|]. split; [done|].
  unfold blocks, table. rewrite (wrap_small 64 (size - 0x40000000)) by (unfold in_word; lia).
  split; [|split; [|split]].
  - intros x. unfold declares. setoid_rewrite elem_of_app. repeat setoid_rewrite elem_of_cons. split.
    + intros (r & [[E1 | [E1 | [E1 | E1%not_elem_of_nil]]] | E1] & Et & I); [injection E1 as ->..|done|]; unfold inside in I; cbn in Et, I; [lia | done | lia|].
      destruct (Z.ltb_spec 0 (size - 0x40000000)); [|by apply not_elem_of_nil in E1].
      apply elem_of_cons in E1 as [[= ->] | E1%not_elem_of_nil]; [cbn in I; lia | done].
    + intros D. destruct (Z.ltb_spec x 0x40000000).
      * eexists. split; [left; right; right; by left|]. unfold inside. cbn. split; [done | lia].
      * destruct (Z.ltb_spec 0 (size - 0x40000000)); [|lia].
        eexists. split; [right; by left|]. unfold inside. cbn. split; [done | lia].
  - intros x. unfold declares. setoid_rewrite elem_of_app. repeat setoid_rewrite elem_of_cons. split.
    + intros (r & [[E1 | [E1 | [E1 | E1%not_elem_of_nil]]] | E1] & Et & I); [injection E1 as ->..|done|]; unfold inside in I; cbn in Et, I; [done | lia | done|].
      destruct (Z.ltb_spec 0 (size - 0x40000000)); [|by apply not_elem_of_nil in E1].
      apply elem_of_cons in E1 as [[= ->] | E1%not_elem_of_nil]; done.
    + intros D. eexists. split; [left; right; by left|]. unfold inside. cbn. split; [done | lia].
  - do 2 (apply list.Forall_cons; split; [done|]). apply list.Forall_app. split; [|by apply list.Forall_singleton].
    destruct (0 <? _); [by apply list.Forall_singleton | done].
  - intros a x. setoid_rewrite elem_of_app. setoid_rewrite elem_of_app. repeat setoid_rewrite elem_of_cons. split.
    + intros (d & [[-> | [-> | I%not_elem_of_nil]] | [I | [-> | I%not_elem_of_nil]]] & <- & J); unfold inside in J; try done; cbn in *; [right; split; [done | lia] | left; split; [done | lia] | | lia].
      destruct (Z.ltb_spec 0 (size - 0x40000000)); [|by apply not_elem_of_nil in I].
      apply elem_of_cons in I as [-> | I%not_elem_of_nil]; [|done]. cbn in *. left. split; [done | lia].
    + intros [[-> D] | [-> D]].
      * destruct (Z.ltb_spec x 0x40000000).
        -- eexists. split; [left; right; by left|]. unfold inside. cbn. split; [done | lia].
        -- destruct (Z.ltb_spec 0 (size - 0x40000000)); [|lia]. eexists. split; [right; left; by left|]. unfold inside. cbn. split; [done | lia].
      * eexists. split; [left; by left|]. unfold inside. cbn. split; [done | lia].
Qed.

(** With less than 1 GB the difference of the sizes wraps: memory is declared
    up to almost 2^64. *)
Lemma small_memory_wraps size s h' : PcdSystemMemoryBase = 0 -> PcdSystemMemorySize = 0x40000000 ->
  Rk3399InitMemorySize (hbus s) = Ret size h' -> 0 < size < 0x40000000 -> Forall (fun e => ~ holds_firmware e) (HobList s) ->
  wp (ArmPlatformGetVirtualMemoryMap true) s (fun _ s' => declares (HobList s') EFI_RESOURCE_SYSTEM_MEMORY (2 ^ 63)).
Proof.
  intros EB ES E Hs F. unfold wp. rewrite (map_run s size h') by (done || lia). cbn [HobList]. unfold blocks.
  replace (u64 (size - 0x40000000)) with (2 ^ 64 + size - 0x40000000).
  2: { unfold wrap. rewrite <- (Z_mod_plus_full (size - 0x40000000) 1), Z.mod_small; lia. }
  rewrite (proj2 (Z.ltb_lt 0 (2 ^ 64 + size - 0x40000000))) by lia.
  eexists. split; [apply elem_of_app; right; apply elem_of_app; right; by left|]. unfold inside. cbn. split; [done | lia].
Qed.
End blocks.

(** ** A board with 4 GB *)
Module PinebookPro.

#[export] Instance build : Build := {| debug_build := true |}.
#[export] Instance pcds : Rk3399MemoryPcds := {| PcdSystemMemoryBase := 0; PcdSystemMemorySize := 0x40000000 |}.

(** Two channels with one rank of 2 GB each. *)
#[export] Instance mmio : Mmio unit := {|
  mmio_read32 a h := (if a =? RK3399_PMU_GRF_BASE + PMU_GRF_OS_REG2 then 0x02C012C0 + 0x2000 else 0, h);
  mmio_write32 _ _ h := h;
  delay_us _ h := h;
  delay_ns _ h := h
|}.

Definition start : hobs_pei unit := HobsPei [OtherHob 1; ResourceDescriptor (Resource 1 0 0xFF000000 0x1000)] tt.

Lemma rk3399_memory_correct_witness :
  memory_size (u32 0x02C032C0) = Some 0xF8000000 /\
  wp (ArmPlatformGetVirtualMemoryMap true) start (fun T s' => exists L T', HobList s' = HobList start ++ L /\ T = Some T' /\
    (forall x, declares L EFI_RESOURCE_SYSTEM_MEMORY x <-> 0x200000 <= x < 0xF8000000) /\
    (forall x, declares L EFI_RESOURCE_MEMORY_RESERVED x <-> 0 <= x < 0x200000) /\
    Forall (fun d => VirtualBase d = PhysicalBase d) T' /\
    forall a x, (exists d, d ∈ T' /\ Attributes d = a /\ inside x (PhysicalBase d) (Length d)) <->
      (a = ARM_MEMORY_REGION_ATTRIBUTE_WRITE_BACK /\ 0 <= x < 0xF8000000) \/ (a = ARM_MEMORY_REGION_ATTRIBUTE_DEVICE /\ 0xF8000000 <= x < 2 ^ 32)).
Proof.
  split; [vm_compute; reflexivity|].
  apply (rk3399_memory_correct 0xF8000000 start); [reflexivity | reflexivity | vm_compute; reflexivity | vm_compute; discriminate |].
  repeat (apply list.Forall_cons; split; [|]); [intros (r & [=] & _) | intros (r & [= <-] & [=] & _) | done].
Defined.
End PinebookPro.
