(* ===== verification/Trng.v ===== *)
(** * The random number generator

    Model of [src/Silicon/Rockchip/Rk356xPkg/Drivers/TrngDxe/Trng.c]: the RNG
    protocol over the generator of the chip, which makes 256 bits each time it
    is started.  Pointers are the values they point to, [None] for a null one;
    the bytes written to the caller's buffer are part of the result. *)

From Stdlib Require Import ZArith Lia.
From stdpp Require Import base list numbers option.
From S2P Require Import Prelude Memory Mmio.

Definition TRNG_BASE : Z := 0xFE388000.
Definition TRNG_RST_CTL : Z := TRNG_BASE + 0x0004.
Definition SW_RNG_RESET : Z := 2 ^ 1.
Definition TRNG_RNG_CTL : Z := TRNG_BASE + 0x0400.
Definition RNG_LEN_SHIFT : Z := 4.
Definition RNG_LEN_256 : Z := Z.shiftl 3 RNG_LEN_SHIFT.
Definition RING_SEL_SHIFT : Z := 2.
Definition RING_SEL_FASTEST : Z := Z.shiftl 3 RING_SEL_SHIFT.
Definition RNG_ENABLE : Z := 2 ^ 1.
Definition RNG_START : Z := 2 ^ 0.
Definition TRNG_RNG_SAMPLE_COUNT : Z := TRNG_BASE + 0x0404.
Definition TRNG_RNG_DOUT (n : Z) : Z := TRNG_BASE + 0x0410 + n * 0x4.

Definition DEFAULT_RNG_SAMPLE_COUNT : Z := 100.
Definition RNG_START_RETRY_COUNT : Z := 100000.

(** A GUID is a number here; the size of one is 16 bytes. *)
Definition sizeof_EFI_RNG_ALGORITHM : Z := 16.

Section trng.
Context {H : Type} `{MM : Mmio H} {BB : Build} (gEfiRngAlgorithmRaw : Z).

(** [for (Retry = 0; Retry < Count; Retry++) if ((read & Mask) == 0) break;]:
    whether the loop was left before [Count]. *)
Fixpoint poll_clear (n : nat) (Address Mask Delay : Z) : M H bool :=
  match n with
  | O => mret false
  | S n =>
      v ← MmioRead32 Address;
      if Z.land v Mask =? 0 then mret true else
      (if 0 <? Delay then MicroSecondDelay Delay else mret tt);;
      poll_clear n Address Mask Delay
  end.

Definition TrngStart : M H Z :=
  MmioWrite32 TRNG_RNG_SAMPLE_COUNT DEFAULT_RNG_SAMPLE_COUNT;;
  MmioWrite32 TRNG_RNG_CTL (Z.lor (Z.lor (Z.lor (Z.shiftl 0xFFFF 16) RNG_LEN_256) RNG_ENABLE) RING_SEL_FASTEST);;
  MmioWrite32 TRNG_RNG_CTL (Z.lor (Z.shiftl RNG_START 16) RNG_START);;
  cleared ← poll_clear (Z.to_nat RNG_START_RETRY_COUNT) TRNG_RNG_CTL RNG_START 0;
  ASSERT cleared;;
  mret (if negb cleared then EFI_DEVICE_ERROR else EFI_SUCCESS).

Definition TrngStop : M H unit := MmioWrite32 TRNG_RNG_CTL (Z.shiftl 0xFFFF 16).

(** The status, what is stored through the size pointer and the algorithm stored. *)
Definition TrngGetInfo (This : bool) (RNGAlgorithmListSize : option Z) (RNGAlgorithmList : bool) : Z * option Z * option Z :=
  match RNGAlgorithmListSize with
  | None => (EFI_INVALID_PARAMETER, None, None)
  | Some Size =>
      if negb This then (EFI_INVALID_PARAMETER, None, None) else
      if Size <? sizeof_EFI_RNG_ALGORITHM then (EFI_BUFFER_TOO_SMALL, Some sizeof_EFI_RNG_ALGORITHM, None) else
      if negb RNGAlgorithmList then (EFI_INVALID_PARAMETER, None, None) else
      (EFI_SUCCESS, Some sizeof_EFI_RNG_ALGORITHM, Some gEfiRngAlgorithmRaw)
  end.

(** The loop over the words of a round: what is left to write, and the bytes. *)
Fixpoint read_dout (n : nat) (Index RNGValueLength : Z) : M H (Z * list Z) :=
  match n with
  | O => mret (RNGValueLength, [])
  | S n =>
      Val ← MmioRead32 (TRNG_RNG_DOUT Index);
      let Count := u8 (Z.min RNGValueLength 4) in
      let bs := take (Z.to_nat Count) (le_bytes 4 Val) in
      let RNGValueLength := u64 (RNGValueLength - Count) in
      if RNGValueLength =? 0 then mret (RNGValueLength, bs) else
      r ← read_dout n (Index + 1) RNGValueLength;
      mret (r.1, bs ++ r.2)
  end.

(** The loop over the rounds; each of them writes a byte at least. *)
Fixpoint get_rounds (n : nat) (RNGValueLength : Z) : M H (Z * list Z) :=
  match n with
  | O => stopM NoFuel
  | S n =>
      if negb (0 <? RNGValueLength) then ASSERT (RNGValueLength =? 0);; mret (EFI_SUCCESS, []) else
      Status ← TrngStart;
      if EFI_ERROR Status then mret (Status, []) else
      r ← read_dout 8 0 RNGValueLength;
      TrngStop;;
      r' ← get_rounds n r.1;
      mret (r'.1, r.2 ++ r'.2)
  end.

(** The status and the bytes written. *)
Definition TrngGetRNG (This : bool) (RNGAlgorithm : option Z) (RNGValueLength : Z) (RNGValue : bool) : M H (Z * list Z) :=
  if negb This || (RNGValueLength =? 0) || negb RNGValue then mret (EFI_INVALID_PARAMETER, []) else
  if match RNGAlgorithm with Some a => negb (a =? gEfiRngAlgorithmRaw) | None => false end then mret (EFI_UNSUPPORTED, []) else
  get_rounds (Z.to_nat (RNGValueLength + 1)) RNGValueLength.

Definition TrngInit : M H Z :=
  MmioWrite32 TRNG_RST_CTL (Z.lor (Z.shiftl SW_RNG_RESET 16) SW_RNG_RESET);;
  cleared ← poll_clear (Z.to_nat 10000) TRNG_RST_CTL SW_RNG_RESET 100;
  ASSERT cleared;;
  mret (if negb cleared then EFI_DEVICE_ERROR else EFI_SUCCESS).

(** [publish] installs the protocol. *)
Definition InitializeTrng (publish : M H Z) : M H Z :=
  Status ← TrngInit;
  if EFI_ERROR Status then mret Status else publish.
End trng.

(** * Properties of the random number generator

    Requests of any length get bytes of as many rounds as they need, each byte
    once; what happens with a generator that does not finish. *)

(** ** The generator

    A round that is started takes [latency] polls of the control register, and
    leaves 8 words of the source in the data registers. *)

Record gen := Gen { gctl : Z; running : option Z; rounds : Z }.

Section gen.
Context (entropy : Z -> Z -> Z) (latency : Z).

Definition gen_write (a v : Z) (g : gen) : gen :=
  if a =? TRNG_RNG_CTL then
    let c := hiword_write (gctl g) v in
    Gen c (if Z.testbit c 0 && Z.testbit c 1 then Some latency else None) (rounds g)
  else g.

Definition gen_poll (g : gen) : gen :=
  match running g with
  | Some k => if k <=? 0 then Gen (Z.ldiff (gctl g) RNG_START) None (rounds g + 1) else Gen (gctl g) (Some (k - 1)) (rounds g)
  | None => g
  end.

Definition gen_read (a : Z) (g : gen) : Z * gen :=
  if a =? TRNG_RNG_CTL then let g' := gen_poll g in (gctl g', g')
  else if (TRNG_RNG_DOUT 0 <=? a) && (a <? TRNG_RNG_DOUT 8) then (entropy (rounds g - 1) ((a - TRNG_RNG_DOUT 0) / 4), g)
  else (0, g).
End gen.

Class RkTrng (H : Type) `{MM : Mmio H} (entropy : Z -> Z -> Z) (latency : Z) := {
  gen_of : H -> gen;
  read_gen : forall a h, u32 (mmio_read32 a h).1 = u32 (gen_read entropy a (gen_of h)).1 /\
    gen_of (mmio_read32 a h).2 = (gen_read entropy a (gen_of h)).2;
  write_gen : forall a v h, in_word 32 v -> gen_of (mmio_write32 a v h) = gen_write latency a v (gen_of h)
}.

(** The bytes of a round, and of [n] rounds from round [k]. *)
Definition round_bytes (entropy : Z -> Z -> Z) (r : Z) : list Z := flat_map (le_bytes 4) (entropy r <$> seqZ 0 8).
Definition rounds_bytes (entropy : Z -> Z -> Z) (k n : Z) : list Z := flat_map (round_bytes entropy) (seqZ k n).

Section requests.
Context {H : Type} `{MM : Mmio H} {BB : Build} {entropy : Z -> Z -> Z} {latency : Z} {RT : RkTrng H entropy latency} (raw : Z).
Context (entropy_word : forall r i, in_word 32 (entropy r i)) (Latency : 0 <= latency < RNG_START_RETRY_COUNT).
Implicit Types h : H.

Lemma wp_gread a h (Q : Z -> H -> Prop) :
  (forall h', gen_of h' = (gen_read entropy a (gen_of h)).2 -> Q (u32 (gen_read entropy a (gen_of h)).1) h') -> wp (MmioRead32 a) h Q.
Proof. intros HQ. apply wp_MmioRead32. destruct (read_gen a h) as [-> E]. by apply HQ. Qed.

Lemma wp_gwrite a v h (Q : unit -> H -> Prop) :
  (forall h', gen_of h' = gen_write latency a (u32 v) (gen_of h) -> Q tt h') -> wp (MmioWrite32 a v) h Q.
Proof. intros HQ. apply wp_MmioWrite32, HQ, write_gen. by apply wrap_range. Qed.

(** The poll ends when the round does. *)
Lemma poll_round n : forall k c r h, 0 <= k < Z.of_nat n -> in_word 32 c -> Z.testbit c 0 = true -> gen_of h = Gen c (Some k) r ->
  wp (poll_clear n TRNG_RNG_CTL RNG_START 0) h (fun b h' => b = true /\ gen_of h' = Gen (Z.ldiff c RNG_START) None (r + 1)).
Proof.
  induction n as [|n IH]; intros k c r h Hk Hc Hs E; [lia|]. cbn [poll_clear]. apply wp_bind, wp_gread. intros h' E'.
  rewrite E in *. unfold gen_read in *. rewrite Z.eqb_refl in *. cbn [fst snd gen_poll running] in *.
  assert (L : Z.land c RNG_START <> 0).
  { intros F. apply (f_equal (fun z => Z.testbit z 0)) in F. rewrite Z.land_spec, Hs in F. discriminate. }
  destruct (Z.leb_spec k 0) as [K|K]; cbn [gctl].
  - assert (W : in_word 32 (Z.ldiff c RNG_START)).
    { apply in_word_bits; [done|]. intros i Hi. by rewrite Z.ldiff_spec, (in_word_high 32 c i) by (done || lia). }
    rewrite wrap_small, Z.land_comm by done.
    replace (Z.land RNG_START (Z.ldiff c RNG_START)) with 0.
    + apply wp_ret. by split.
    + apply Z.bits_inj'. intros i Hi. rewrite Z.land_spec, Z.ldiff_spec, Z.bits_0. by destruct (Z.testbit RNG_START i), (Z.testbit c i).
  - rewrite wrap_small by done. rewrite (proj2 (Z.eqb_neq _ 0) L). apply wp_bind. change (0 <? 0) with false. apply wp_ret.
    apply (IH (k - 1) c r); [lia | done | done | exact E'].
Qed.

(** The generator is idle. *)
Definition gen_idle (h : H) (r : Z) : Prop := exists c, in_word 32 c /\ Z.testbit c 0 = false /\ gen_of h = Gen c None r.

Lemma TrngStart_spec h r : gen_idle h r -> wp TrngStart h (fun st h' => st = EFI_SUCCESS /\ gen_idle h' (r + 1)).
Proof.
  intros (c & Hc & Hs & E). unfold TrngStart. apply wp_bind, wp_gwrite. intros h1 E1. apply wp_bind, wp_gwrite. intros h2 E2. apply wp_bind, wp_gwrite. intros h3 E3.
  rewrite E in E1. change (gen_write latency TRNG_RNG_SAMPLE_COUNT _ ?g) with g in E1. rewrite E1 in E2. unfold gen_write in E2, E3. rewrite Z.eqb_refl in E2, E3.
  cbn zeta in E2, E3. rewrite E2 in E3. cbn [gctl rounds] in E3.
  set (v1 := u32 (Z.lor (Z.lor (Z.lor (Z.shiftl 65535 16) RNG_LEN_256) RNG_ENABLE) RING_SEL_FASTEST)) in *.
  set (v2 := u32 (Z.lor (Z.shiftl RNG_START 16) RNG_START)) in *.
  set (c2 := hiword_write (hiword_write c v1) v2) in *.
  assert (W1 : in_word 32 (hiword_write c v1)) by (apply hiword_write_word; [done | by apply wrap_range]).
  assert (W2 : in_word 32 c2) by (apply hiword_write_word; [done | by apply wrap_range]).
  assert (T : forall i, Z.testbit c2 i = Z.testbit (Z.lor (Z.ldiff (Z.lor (Z.ldiff c (Z.land (Z.shiftr v1 16) (Z.ones 16))) (Z.land v1 (Z.land (Z.shiftr v1 16) (Z.ones 16))))
      (Z.land (Z.shiftr v2 16) (Z.ones 16))) (Z.land v2 (Z.land (Z.shiftr v2 16) (Z.ones 16)))) i) by done.
  assert (T0 : Z.testbit c2 0 = true) by (rewrite T, Z.lor_spec; apply orb_true_iff; by right).
  assert (T1 : Z.testbit c2 1 = true) by (rewrite T, Z.lor_spec, Z.ldiff_spec, Z.lor_spec; apply orb_true_iff; left; apply andb_true_iff; split; [apply orb_true_iff; by right | done]).
  rewrite T0, T1 in E3. cbn [andb] in E3.
  apply wp_bind. eapply wp_mono; [apply (poll_round _ latency c2 r h3); [unfold RNG_START_RETRY_COUNT in *; lia | done | done | exact E3]|].
  cbn beta. intros b h4 [-> E4]. apply wp_bind, wp_ASSERT; [done|]. apply wp_ret. split; [done|].
  exists (Z.ldiff c2 RNG_START). split; [|split; [|exact E4]].
  - apply in_word_bits; [done|]. intros i Hi. by rewrite Z.ldiff_spec, (in_word_high 32 c2 i) by (done || lia).
  - rewrite Z.ldiff_spec. change (Z.testbit RNG_START 0) with true. by rewrite andb_false_r.
Qed.
Lemma TrngStop_spec h r : gen_idle h r -> wp TrngStop h (fun _ h' => gen_idle h' r /\ Z.land (gctl (gen_of h')) 0xFFFF = 0).
Proof.
  intros (c & Hc & Hs & E). unfold TrngStop. apply wp_gwrite. intros h' E'. rewrite E in E'. unfold gen_write in E'. rewrite Z.eqb_refl in E'.
  cbn zeta in E'. cbn [gctl rounds] in E'.
  assert (Z0 : Z.land (hiword_write c (u32 (hiword 0xFFFF 0))) 0xFFFF = 0) by (by rewrite hiword_write_set).
  change (hiword 0xFFFF 0) with (Z.shiftl 0xFFFF 16) in Z0.
  assert (T : Z.testbit (hiword_write c (u32 (Z.shiftl 0xFFFF 16))) 0 = false).
  { apply (f_equal (fun z => Z.testbit z 0)) in Z0. rewrite Z.land_spec in Z0. change (Z.testbit 0xFFFF 0) with true in Z0. by rewrite andb_true_r in Z0. }
  rewrite T in E'. cbn [andb] in E'. split; [|by rewrite E'].
  eexists. split; [|split; [|exact E']]; [apply hiword_write_word; [done | by apply wrap_range] | done].
Qed.

(** Words read from an idle generator are those of its last round. *)
Lemma read_dout_spec m : forall i L h r, 0 <= i -> i + Z.of_nat m <= 8 -> 0 < L < 2 ^ 64 -> gen_idle h r ->
  wp (read_dout m i L) h (fun res h' =>
    res = (Z.max 0 (L - 4 * Z.of_nat m), take (Z.to_nat L) (flat_map (le_bytes 4) (entropy (r - 1) <$> seqZ i (Z.of_nat m)))) /\ gen_idle h' r).
Proof.
  induction m as [|m IH]; intros i L h r Hi Hm HL G.
  { apply wp_ret. split; [|done]. change (Z.of_nat 0) with 0. change (seqZ i 0) with (@nil Z). cbn [fmap list_fmap flat_map]. rewrite take_nil. f_equal. lia. }
  cbn [read_dout]. destruct G as (c & Hc & Hs & E). apply wp_bind, wp_gread. intros h1 E1. rewrite E in *. unfold gen_read in *.
  rewrite (proj2 (Z.eqb_neq (TRNG_RNG_DOUT i) TRNG_RNG_CTL)) in * by (unfold TRNG_RNG_DOUT, TRNG_RNG_CTL; lia).
  rewrite (proj2 (Z.leb_le (TRNG_RNG_DOUT 0) (TRNG_RNG_DOUT i))), (proj2 (Z.ltb_lt (TRNG_RNG_DOUT i) (TRNG_RNG_DOUT 8))) in * by (unfold TRNG_RNG_DOUT; lia).
  cbn [andb fst snd rounds] in *. replace ((TRNG_RNG_DOUT i - TRNG_RNG_DOUT 0) / 4) with i by (unfold TRNG_RNG_DOUT; apply Z.div_unique with 0; lia).
  rewrite (wrap_small 32 (entropy (r - 1) i)), (wrap_small 8 (Z.min L 4)), (wrap_small 64 (L - Z.min L 4)) by (apply entropy_word || unfold in_word; lia).
  assert (G1 : gen_idle h1 r) by (by exists c).
  assert (S : seqZ i (Z.of_nat (S m)) = i :: seqZ (i + 1) (Z.of_nat m)) by (rewrite seqZ_cons by lia; f_equal; f_equal; lia).
  rewrite S. cbn [fmap list_fmap flat_map].
  assert (LB : length (le_bytes 4 (entropy (r - 1) i)) = 4%nat) by apply length_le_bytes.
  destruct (Z.eqb_spec (L - Z.min L 4) 0) as [Z0|Z0].
  - apply wp_ret. split; [|done]. f_equal; [lia|]. rewrite take_app_le by lia. f_equal. lia.
  - apply wp_bind. eapply wp_mono; [apply (IH (i + 1) (L - Z.min L 4) h1 r); [lia | lia | lia | done]|]. cbn beta. intros res h2 [-> G2]. apply wp_ret.
    split; [|done]. cbn [fst snd]. f_equal; [lia|]. rewrite (take_app_ge _ _ (Z.to_nat L)) by lia. rewrite LB.
    rewrite take_ge by lia. f_equal. f_equal. lia.
Qed.

Lemma length_flat_bytes (l : list Z) : length (flat_map (le_bytes 4) l) = (4 * length l)%nat.
Proof. induction l as [|x l IH]; [done|]. cbn [flat_map]. rewrite length_app, length_le_bytes, IH. cbn. lia. Qed.

Lemma length_round_bytes r : length (round_bytes entropy r) = 32%nat.
Proof. unfold round_bytes. by rewrite length_flat_bytes, length_fmap. Qed.

Lemma get_rounds_spec n : forall L h r, 0 <= L < 2 ^ 64 -> L < Z.of_nat n -> gen_idle h r ->
  wp (get_rounds n L) h (fun res h' =>
    res = (EFI_SUCCESS, take (Z.to_nat L) (rounds_bytes entropy r ((L + 31) / 32))) /\ gen_idle h' (r + (L + 31) / 32) /\
    (0 < L \/ Z.land (gctl (gen_of h)) 0xFFFF = 0 -> Z.land (gctl (gen_of h')) 0xFFFF = 0)).
Proof.
  induction n as [|n IH]; intros L h r HL Hn G; [lia|]. cbn [get_rounds]. destruct (Z.ltb_spec 0 L) as [P|P]; cbn [negb].
  - apply wp_bind. eapply wp_mono; [by apply TrngStart_spec|]. cbn beta. intros st h1 [-> G1]. change (EFI_ERROR EFI_SUCCESS) with false. cbn iota.
    apply wp_bind. eapply wp_mono; [apply (read_dout_spec 8 0 L h1 (r + 1)); [lia | lia | lia | done]|]. cbn beta. intros res h2 [-> G2].
    replace (r + 1 - 1) with r by lia. change (Z.of_nat 8) with 8. fold (round_bytes entropy r). cbn [fst snd].
    apply wp_bind. eapply wp_mono; [by apply TrngStop_spec|]. cbn beta. intros _ h3 [G3 O3].
    apply wp_bind. eapply wp_mono; [apply (IH (Z.max 0 (L - 4 * 8)) h3 (r + 1)); [lia | lia | done]|]. cbn beta. intros res h4 (-> & G4 & O4).
    apply wp_ret. cbn [fst snd].
    assert (D : (L + 31) / 32 = 1 + (Z.max 0 (L - 4 * 8) + 31) / 32).
    { destruct (Z.leb_spec L 32).
      - rewrite Z.max_l by lia. change ((0 + 31) / 32) with 0. symmetry. apply Z.div_unique with (L - 1); lia.
      - rewrite Z.max_r by lia. replace (L + 31) with (L - 4 * 8 + 31 + 1 * 32) by lia. rewrite Z.div_add by lia. lia. }
    rewrite D. assert (D0 : 0 <= (Z.max 0 (L - 4 * 8) + 31) / 32) by (apply Z.div_pos; lia).
    split; [|split; [by rewrite Z.add_assoc|]].
    + f_equal. unfold rounds_bytes. rewrite (Z.add_comm 1), (seqZ_cons r) by lia.
      replace (Z.pred ((Z.max 0 (L - 4 * 8) + 31) / 32 + 1)) with ((Z.max 0 (L - 4 * 8) + 31) / 32) by lia. cbn [flat_map]. rewrite <- Z.add_1_r.
      destruct (Z.leb_spec L 32).
      * rewrite (Z.max_l 0) by lia. change (Z.to_nat 0) with 0%nat. rewrite take_0, app_nil_r. rewrite take_app_le by (rewrite length_round_bytes; lia). done.
      * rewrite (take_app_ge (round_bytes entropy r)) by (rewrite length_round_bytes; lia). rewrite length_round_bytes.
        rewrite take_ge by (rewrite length_round_bytes; lia). f_equal. f_equal. lia.
    + intros _. apply O4. by right.
  - assert (L = 0) by lia. subst L. apply wp_bind, wp_ASSERT; [done|]. apply wp_ret. split; [done|]. split; [by rewrite Z.add_0_r|]. intros [|]; [lia | done].
Qed.

(** C19: Requests get fresh bytes.  A request of any length from an idle
    generator that finishes a round within the retries succeeds with exactly
    that many bytes: those of the rounds made for it, in order, each round used
    once and no byte of an earlier one; as few rounds are made as give enough
    bytes, and the generator is off in the end. *)
Theorem TrngGetRNG_correct h r n alg : 0 < n < 2 ^ 63 -> gen_idle h r -> alg = None \/ alg = Some raw ->
  wp (TrngGetRNG raw true alg n true) h (fun res h' =>
    res = (EFI_SUCCESS, take (Z.to_nat n) (rounds_bytes entropy r ((n + 31) / 32))) /\ length res.2 = Z.to_nat n /\
    gen_idle h' (r + (n + 31) / 32) /\ Z.land (gctl (gen_of h')) 0xFFFF = 0).
Proof.
  intros Hn G Ha. unfold TrngGetRNG. rewrite (proj2 (Z.eqb_neq n 0)) by lia. cbn [negb orb].
  replace (match alg with Some a => negb (a =? raw) | None => false end) with false by (destruct Ha as [-> | ->]; [done | by rewrite Z.eqb_refl]).
  eapply wp_mono; [apply (get_rounds_spec (Z.to_nat (n + 1)) n h r); [lia | lia | done]|]. cbn beta. intros res h' (-> & G' & O).
  split; [done|]. split; [|split; [done | apply O; left; lia]]. cbn [snd]. rewrite length_take.
  assert (E : forall m k, length (flat_map (round_bytes entropy) (seqZ k (Z.of_nat m))) = (32 * m)%nat).
  { induction m as [|m IH]; intros k; [done|]. rewrite seqZ_cons by lia. cbn [flat_map]. rewrite length_app, length_round_bytes.
    replace (Z.pred (Z.of_nat (S m))) with (Z.of_nat m) by lia. rewrite IH. lia. }
  pose proof (Z.div_mod (n + 31) 32 ltac:(lia)). pose proof (Z.mod_pos_bound (n + 31) 32 ltac:(lia)). assert (D0 : 0 <= (n + 31) / 32) by (apply Z.div_pos; lia).
  unfold rounds_bytes. rewrite <- (Z2Nat.id ((n + 31) / 32)), E by lia. lia.
Qed.
End requests.

(** ** A generator that never finishes *)
Section dead.
Context {H : Type} `{MM : Mmio H} {BB : Build} (raw : Z) (never : forall h, Z.land (u32 (mmio_read32 TRNG_RNG_CTL h).1) RNG_START <> 0).

Lemma poll_dead n h : wp (poll_clear n TRNG_RNG_CTL RNG_START 0) h (fun b _ => b = false).
Proof.
  revert h. induction n as [|n IH]; intros h; [by apply wp_ret|]. cbn [poll_clear]. apply wp_bind, wp_MmioRead32.
  rewrite (proj2 (Z.eqb_neq _ 0) (never h)). change (0 <? 0) with false. apply wp_bind, wp_ret, IH.
Qed.

(** A request is answered with an error in a release build, and the firmware
    stops in a debug build; the generator is not switched off. *)
Lemma TrngGetRNG_dead h n alg : 0 < n < 2 ^ 63 -> alg = None \/ alg = Some raw ->
  wpe (fun w => w = Halt /\ debug_build = true) (TrngGetRNG raw true alg n true) h (fun res _ => res = (EFI_DEVICE_ERROR, []) /\ debug_build = false).
Proof.
  intros Hn Ha. unfold TrngGetRNG. rewrite (proj2 (Z.eqb_neq n 0)) by lia. cbn [negb orb].
  replace (match alg with Some a => negb (a =? raw) | None => false end) with false by (destruct Ha as [-> | ->]; [done | by rewrite Z.eqb_refl]).
  destruct (Z.to_nat (n + 1)) as [|m] eqn:M; [lia|]. cbn [get_rounds]. rewrite (proj2 (Z.ltb_lt 0 n)) by lia. cbn [negb].
  apply wpe_bind. unfold TrngStart. apply wpe_bind, wpe_modify, wpe_bind, wpe_modify, wpe_bind, wpe_modify, wpe_bind.
  eapply wpe_mono; [apply wp_wpe, poll_dead|]. cbn beta. intros b h' ->. apply wpe_bind. unfold ASSERT.
  destruct debug_build; [by apply wpe_stop|]. apply wpe_ret, wpe_ret. change (EFI_ERROR (if negb false then EFI_DEVICE_ERROR else EFI_SUCCESS)) with true. cbn iota.
  by apply wpe_ret.
Qed.
End dead.

(** ** A generator *)
Module SmallTrng.

#[export] Instance build : Build := {| debug_build := true |}.

Definition source (r i : Z) : Z := u32 (r * 0x01010101 + i).

#[export] Instance mmio : Mmio gen := {|
  mmio_read32 a h := gen_read source a h;
  mmio_write32 a v h := gen_write 5 a v h;
  delay_us _ h := h;
  delay_ns _ h := h
|}.

#[export, refine] Instance trng : RkTrng gen source 5 := {| gen_of h := h |}.
Proof. all: done. Defined.

Lemma TrngGetRNG_correct_witness :
  wp (TrngGetRNG 7 true (Some 7) 45 true) (Gen 0 None 0) (fun res h' =>
    res = (EFI_SUCCESS, take 45 (rounds_bytes source 0 2)) /\ length res.2 = 45%nat /\
    gen_idle (entropy := source) (latency := 5) h' 2 /\ Z.land (gctl h') 0xFFFF = 0).
Proof.
  refine (TrngGetRNG_correct (entropy := source) (latency := 5) 7 (fun r i => wrap_range 32 _ _) _ (Gen 0 None 0) 0 45 (Some 7) _ _ (or_intror eq_refl)).
  - done.
  - split; [done | vm_compute; reflexivity].
  - by split.
  - by exists 0.
Defined.
End SmallTrng.
