(* ===== verification/CpuVoltage.v ===== *)
(** * The supply of the processor

    Model of [src/Silicon/Rockchip/Rk356xPkg/Library/Tsc4525CpuVoltageLib/CpuVoltageLib.c]:
    the voltage a clock of the processor needs, programmed into the selector of
    a regulator on the I2C bus. *)

From Stdlib Require Import ZArith Lia.
From stdpp Require Import base list numbers option.
From S2P Require Import Prelude Memory Mmio I2c I2cSpec Gpio.

Class CpuVoltagePcds := {
  PcdCpuVoltageI2cBusBase : Z; PcdCpuVoltageI2cAddr : Z; PcdCpuVoltageVselReg : Z;
  PcdCpuVoltageUVolBase : Z; PcdCpuVoltageUVolStep : Z; PcdCpuVoltageRampDelay : Z
}.

Definition VSEL_NSEL_MASK : Z := 0x3f.
Definition I2C0_BASE : Z := 0xFDD40000.

Record CpuVoltageOpp := Opp { Hz : Z; UVol : Z }.

Definition mCpuVoltageOpp : list CpuVoltageOpp :=
  [Opp 1200000000 825000; Opp 1416000000 900000; Opp 1608000000 975000; Opp 1800000000 1050000; Opp 1992000000 1150000; Opp 0 0].

(** [for (Index = 0; mCpuVoltageOpp[Index].Hz; Index++)] *)
Fixpoint find_opp (l : list CpuVoltageOpp) (Freq : Z) : option Z :=
  match l with
  | [] => None
  | o :: l => if Hz o =? 0 then None else if Freq <=? Hz o then Some (UVol o) else find_opp l Freq
  end.

Section voltage.
Context {H : Type} `{MM : Mmio H} {BB : Build} {P : CpuVoltagePcds}.
(** [pad] is what the buffer of the I2C driver holds beforehand, [Stall] the
    boot service, [undefined] what a variable holds that was never assigned. *)
Context (pad : list Z) (Stall : Z -> M H unit) (undefined : Z).

Definition CpuVoltageReadReg (Register : Z) : M H (Z * option (list Z)) :=
  I2cRead PcdCpuVoltageI2cBusBase PcdCpuVoltageI2cAddr [Register] 1.

Definition CpuVoltageWriteReg (Register Value : Z) : M H Z :=
  I2cWrite pad PcdCpuVoltageI2cBusBase PcdCpuVoltageI2cAddr [Register] [Value].

Definition CpuVoltageHzToUVol (Freq : Z) : Z * option Z :=
  match find_opp mCpuVoltageOpp Freq with
  | Some v => (EFI_SUCCESS, Some (u32 v))
  | None => (EFI_UNSUPPORTED, None)
  end.

(** The voltage a selector stands for. *)
Definition selected (Value : Z) : Z := u32 (Z.land Value VSEL_NSEL_MASK * PcdCpuVoltageUVolStep + PcdCpuVoltageUVolBase).

Definition CpuVoltageSet (Freq : Z) : M H Z :=
  match CpuVoltageHzToUVol Freq with
  | (Status, None) => mret Status
  | (_, Some NewUVol) =>
      r ← CpuVoltageReadReg PcdCpuVoltageVselReg;
      ASSERT (r.1 =? EFI_SUCCESS);;
      let OldValue := match r.2 with Some [b] => b | _ => undefined end in
      let CurUVol := selected OldValue in
      if CurUVol =? NewUVol then mret EFI_SUCCESS else
      n ← divide (u32 (NewUVol - PcdCpuVoltageUVolBase)) PcdCpuVoltageUVolStep;
      let Value := u8 (Z.lor (u8 (Z.land OldValue (Z.lnot VSEL_NSEL_MASK))) n) in
      CpuVoltageWriteReg PcdCpuVoltageVselReg Value;;
      (if negb (PcdCpuVoltageRampDelay =? 0) then
         let Diff := if NewUVol <? CurUVol then u32 (CurUVol - NewUVol) else u32 (NewUVol - CurUVol) in
         k ← divide Diff PcdCpuVoltageUVolStep;
         Stall (u32 (k * PcdCpuVoltageRampDelay))
       else mret tt);;
      mret EFI_SUCCESS
  end.

Definition CpuVoltageLibConstructor : M H Z :=
  ASSERT (negb (PcdCpuVoltageI2cBusBase =? 0));;
  ASSERT (negb (PcdCpuVoltageI2cAddr =? 0));;
  ASSERT (PcdCpuVoltageI2cBusBase =? I2C0_BASE);;
  GpioPinSetPull 0 GPIO_PIN_PB1 GPIO_PIN_PULL_NONE;;
  GpioPinSetInput 0 GPIO_PIN_PB1 GPIO_PIN_INPUT_SCHMITT;;
  GpioPinSetFunction 0 GPIO_PIN_PB1 1;;
  GpioPinSetPull 0 GPIO_PIN_PB2 GPIO_PIN_PULL_NONE;;
  GpioPinSetInput 0 GPIO_PIN_PB2 GPIO_PIN_INPUT_SCHMITT;;
  GpioPinSetFunction 0 GPIO_PIN_PB2 1;;
  mret EFI_SUCCESS.
End voltage.

(** * Properties of the supply of the processor

    The voltage set is the least one the clock may run at, as long as the
    selector fits its field. *)

(** ** Operating points *)

Lemma find_opp_spec Freq v : find_opp mCpuVoltageOpp Freq = Some v ->
  (exists o, o ∈ mCpuVoltageOpp /\ Freq <= Hz o /\ UVol o = v) /\
  (forall o, o ∈ mCpuVoltageOpp -> Hz o <> 0 -> UVol o < v -> Hz o < Freq).
Proof.
  unfold mCpuVoltageOpp. intros E. cbn in E. repeat match type of E with (if ?a <=? ?b then _ else _) = _ => destruct (Z.leb_spec a b) end; simplify_eq;
    (split; [match goal with L : Freq <= ?a |- context [UVol _ = ?u] => exists (Opp a u) end; rewrite !elem_of_cons; cbn; (split; [tauto | done])|]);
    intros o Ho; rewrite !elem_of_cons, elem_of_nil in Ho; intuition (subst o; cbn in *; lia).
Qed.

Lemma find_opp_none Freq : find_opp mCpuVoltageOpp Freq = None <-> 1992000000 < Freq.
Proof. cbn. repeat match goal with |- context [?a <=? ?b] => destruct (Z.leb_spec a b) end; split; intros; (done || lia). Qed.

(** ** The regulator

    A device whose registers hold what is written to them. *)
Class Regulator (D : Type) `{ID : I2cDevices D} (a : Z) := {
  vreg : D -> Z -> Z;
  vreg_byte : forall d r, is_byte (vreg d r);
  vreg_write : forall r v d, is_byte r -> is_byte v -> exists d', dev_write a [r; v] d = Some d' /\
    forall r', vreg d' r' = if r' =? r then v else vreg d r';
  vreg_read : forall r d, is_byte r -> exists d', dev_read a [r] 1 d = Some ([vreg d r], d') /\ forall r', vreg d' r' = vreg d r'
}.

Section set_spec.
Context {H : Type} `{MM : Mmio H} {BB : Build} {P : CpuVoltagePcds} {D : Type} `{ID : I2cDevices D} {latency : Z}.
Context {RI : RkI2c H D PcdCpuVoltageI2cBusBase latency} {RG : Regulator D PcdCpuVoltageI2cAddr}.
Context (Latency : 0 <= latency < 100000) (Addr : in_word 7 PcdCpuVoltageI2cAddr) (Reg : is_byte PcdCpuVoltageVselReg).
Context (pad : list Z) (Pad : length pad = 32%nat /\ Forall is_byte pad) (undefined : Z).
Context (Stall : Z -> M H unit).
Context (stalls : forall n h, wp (Stall n) h (fun _ h' => dev (ctrl_of h') = dev (ctrl_of h))).
Implicit Types h : H.

Definition vregs h (r : Z) : Z := vreg (dev (ctrl_of h)) r.

Lemma CpuVoltageReadReg_spec r h : is_byte r ->
  wp (CpuVoltageReadReg r) h (fun sv h' => sv = (EFI_SUCCESS, Some [vregs h r]) /\ forall r', vregs h' r' = vregs h r').
Proof.
  intros Hr. unfold CpuVoltageReadReg.
  eapply wp_mono; [apply (I2cRead_spec (RI := RI)); [done | done | cbn; lia | by constructor | lia]|].
  intros [st v] h'. destruct (vreg_read r (dev (ctrl_of h)) Hr) as (d' & E & K). change (Z.to_nat 1) with 1%nat. rewrite E.
  intros (-> & -> & Ed & _). split; [done|]. intros r'. unfold vregs. by rewrite Ed, K.
Qed.

Lemma CpuVoltageWriteReg_spec r v h : is_byte r -> is_byte v ->
  wp (CpuVoltageWriteReg pad r v) h (fun st h' => st = EFI_SUCCESS /\ forall r', vregs h' r' = if r' =? r then v else vregs h r').
Proof.
  intros Hr Hv. unfold CpuVoltageWriteReg.
  eapply wp_mono; [apply (I2cWrite_spec (RI := RI)); [done | done | cbn; lia | by constructor | by constructor | cbn; lia | by destruct Pad | by destruct Pad]|].
  cbn beta. intros st h'. destruct (vreg_write r v (dev (ctrl_of h)) Hr Hv) as (d' & E & K). cbn [app]. rewrite E.
  intros (-> & Ed & _). split; [done|]. intros r'. unfold vregs. by rewrite Ed, K.
Qed.

(** Putting a selector that fits into the register. *)
Lemma selector_bits old n : is_byte old -> 0 <= n < 64 ->
  let v := u8 (Z.lor (u8 (Z.land old (Z.lnot VSEL_NSEL_MASK))) n) in
  is_byte v /\ Z.land v VSEL_NSEL_MASK = n /\ Z.land v 0xC0 = Z.land old 0xC0.
Proof.
  intros Ho Hn. cbn zeta. split; [by apply wrap_range|].
  assert (Hw : in_word 6 n) by (unfold in_word; lia). rewrite !land_wrap by done. rewrite !lor_land, !land_wrap by done.
  rewrite <- !Z.land_assoc. change (Z.land (Z.lnot VSEL_NSEL_MASK) VSEL_NSEL_MASK) with 0. change (Z.land (Z.lnot VSEL_NSEL_MASK) 0xC0) with 0xC0.
  rewrite Z.land_0_r, Z.lor_0_l. split; [by apply (land_ones_small n 6)|].
  change 0xC0 with (Z.shiftl 3 6) at 2. by rewrite land_below, Z.lor_0_r by done.
Qed.

(** What a run writes, whether the selector fits or not. *)
Lemma CpuVoltageSet_writes Freq v h : find_opp mCpuVoltageOpp Freq = Some v -> 0 < PcdCpuVoltageUVolStep -> in_word 32 v ->
  selected (vregs h PcdCpuVoltageVselReg) <> v ->
  wp (CpuVoltageSet pad Stall undefined Freq) h (fun st h' => st = EFI_SUCCESS /\ vregs h' PcdCpuVoltageVselReg =
      u8 (Z.lor (u8 (Z.land (vregs h PcdCpuVoltageVselReg) (Z.lnot VSEL_NSEL_MASK))) (u32 (v - PcdCpuVoltageUVolBase) / PcdCpuVoltageUVolStep))).
Proof.
  intros F Hstep Hv N. unfold CpuVoltageSet, CpuVoltageHzToUVol. rewrite F, (wrap_small 32 v) by done.
  apply wp_bind. eapply wp_mono; [by apply CpuVoltageReadReg_spec|]. cbn beta. intros sv h1 [-> K1]. apply wp_bind, wp_ASSERT; [done|]. cbn [fst snd].
  rewrite (proj2 (Z.eqb_neq _ _) N). apply wp_bind, wp_divide; [lia|].
  apply wp_bind. eapply wp_mono; [apply CpuVoltageWriteReg_spec; [done | by apply wrap_range]|]. cbn beta. intros st h2 [-> K2].
  apply wp_bind. destruct (negb (PcdCpuVoltageRampDelay =? 0)).
  - apply wp_bind, wp_divide; [lia|]. eapply wp_mono; [apply stalls|]. cbn beta. intros _ h3 E3. apply wp_ret. split; [done|].
    unfold vregs at 1. rewrite E3. change (vreg (dev (ctrl_of h2)) ?r) with (vregs h2 r). by rewrite K2, Z.eqb_refl.
  - apply wp_ret, wp_ret. split; [done|]. by rewrite K2, Z.eqb_refl.
Qed.

(** The selector field is too narrow for the upper operating points.  With the
    voltages the package declares, 1.8 GHz needs selector 72, which does not fit
    the six bits of the mask: the bit above is set, the code itself reads the
    register back as 0.65 V, and a later return to 1.2 GHz leaves the bit set,
    so that the register holds 100 instead of 36. *)
Lemma CpuVoltageSet_selector_overflows h : PcdCpuVoltageUVolBase = 600000 -> PcdCpuVoltageUVolStep = 6250 -> vregs h PcdCpuVoltageVselReg = 36 ->
  wp (CpuVoltageSet pad Stall undefined 1800000000) h (fun _ h' => selected (vregs h' PcdCpuVoltageVselReg) = 650000) /\
  wp (CpuVoltageSet pad Stall undefined 1800000000;; CpuVoltageSet pad Stall undefined 1200000000) h
    (fun _ h' => vregs h' PcdCpuVoltageVselReg = 100).
Proof.
  intros Eb Es Eo.
  assert (W : wp (CpuVoltageSet pad Stall undefined 1800000000) h (fun _ h' => vregs h' PcdCpuVoltageVselReg = 72)).
  { eapply wp_mono; [apply (CpuVoltageSet_writes 1800000000 1050000); [done | lia | done | unfold selected; rewrite Eo, Eb, Es; done]|].
    cbn beta. intros st h' [_ ->]. rewrite Eo, Eb, Es. done. }
  split.
  - eapply wp_mono; [exact W|]. cbn beta. intros _ h' E. unfold selected. rewrite E, Eb, Es. done.
  - apply wp_bind. eapply wp_mono; [exact W|]. cbn beta. intros _ h' E.
    eapply wp_mono; [apply (CpuVoltageSet_writes 1200000000 825000); [done | lia | done | unfold selected; rewrite E, Eb, Es; done]|].
    cbn beta. intros st h2 [_ ->]. rewrite E, Eb, Es. done.
Qed.
End set_spec.

(** ** A board *)
Module Board.

#[export] Instance build : Build := {| debug_build := true |}.
#[export] Instance pcds : CpuVoltagePcds := {|
  PcdCpuVoltageI2cBusBase := 0xFDD40000; PcdCpuVoltageI2cAddr := 0x1c; PcdCpuVoltageVselReg := 0x11;
  PcdCpuVoltageUVolBase := 600000; PcdCpuVoltageUVolStep := 6250; PcdCpuVoltageRampDelay := 2300 |}.

Definition chip : Type := Z -> Z.

#[export, refine] Instance chip_bus : I2cDevices chip := {|
  dev_write a bs d := if a =? 0x1c then match bs with [r; v] => Some (fun r' => if r' =? r then v else d r') | _ => Some d end else None;
  dev_read a rs n d := if a =? 0x1c then match rs with [r] => Some ((fun i => u8 (d (r + i))) <$> seqZ 0 (Z.of_nat n), d) | _ => None end else None
|}.
Proof.
  intros a rs n d bs d' E. destruct (a =? 0x1c); [|done]. destruct rs as [|r [|]]; simplify_eq. split.
  - rewrite length_fmap, length_seqZ. lia.
  - apply List.Forall_forall. intros x Hx. apply list_elem_of_In, list_elem_of_fmap in Hx as (i & -> & _). by apply wrap_range.
Defined.

#[export, refine] Instance regulator : Regulator chip PcdCpuVoltageI2cAddr := {| vreg d r := u8 (d r) |}.
Proof.
  - intros d r. by apply wrap_range.
  - intros r v d Hr Hv. eexists. split; [reflexivity|]. intros r'. cbn. destruct (r' =? r); [by apply wrap_small | done].
  - intros r d Hr. exists d. split; [|done]. change (Some ([u8 (d (r + 0))], d) = Some ([u8 (d r)], d)). by rewrite Z.add_0_r.
Defined.

Definition window (a : Z) : bool := (0xFDD40000 <=? a) && (a <? 0xFDD40000 + 0x300).

#[export] Instance mmio : Mmio (ctrl chip) := {|
  mmio_read32 a h := if window a then (ctrl_read (a - 0xFDD40000) h, settle h) else (0, h);
  mmio_write32 a v h := if window a then ctrl_store 5 (a - 0xFDD40000) v h else h;
  delay_us n h := ctrl_delay n h;
  delay_ns _ h := h
|}.

#[export, refine] Instance controller : RkI2c (ctrl chip) chip PcdCpuVoltageI2cBusBase 5 := {| ctrl_of h := h |}.
Proof.
  - intros off h H1 H2. cbn [mmio_read32 mmio PcdCpuVoltageI2cBusBase pcds]. unfold window. rewrite (proj2 (Z.leb_le _ _)), (proj2 (Z.ltb_lt _ _)) by lia.
    by rewrite Z.add_simpl_l.
  - intros off v h H1 H2 _. cbn [mmio_write32 mmio PcdCpuVoltageI2cBusBase pcds]. unfold window. rewrite (proj2 (Z.leb_le _ _)), (proj2 (Z.ltb_lt _ _)) by lia.
    by rewrite Z.add_simpl_l.
  - done.
Defined.

Definition start : ctrl chip := Build_ctrl (fun r => if r =? 0x11 then 0xA8 else r) 0 0 0 0 (fun _ => 0) [] None.

End Board.
